(* ===== verification/_CoqProject ===== *)
-Q . S2P
Prelude.v
CppString.v
Regex.v
External.v
Instances.v
Enums.v
Network.v
Connection.v
KeyFile.v
Timezone.v
Options.v
Os.v
World.v
WorldFacts.v
FileOps.v
FileOpsSpec.v
DiskImage.v
ScriptBuilder.v
Runner.v
RunnerSpec.v
OsService.v
StdMap.v
RepoData.v
RepoFileSpec.v
RepoChoice.v
RepoChoiceSpec.v
RepoConfig.v
RepoConfigSpec.v
Server.v
AnswerFileData.v
Postfix.v
AnswerFile.v
AnswerFileDump.v
AnswerFileValidation.v
AnswerFileWrites.v
AnswerFileReads.v
AnswerFileRoundtrip.v
ClusterData.v
Cluster.v
ClusterFill.v
RepoManager.v
RepoManagerSpec.v
Ofed.v
OfedSpec.v
XcatCommands.v
Nfs.v
Confluent.v
ConfluentSpec.v
Xcat.v
XcatSpec.v
XcatFrame.v
XcatImageSpec.v
ClusterFillSpec.v
ClusterLayout.v
ClusterDump.v
TuiSession.v
TuiSessionSpec.v
Role.v
RoleScripts.v
Ansible.v
AnsibleDrySpec.v
AnsibleSpec.v
Daemons.v
Messages.v
View.v
ViewSpec.v
Presenters.v
PresenterNetwork.v
PresenterNodes.v
PresenterInstall.v
Main.v
PresenterSpec.v
QuestionnaireSpec.v
ClusterRoundtrip.v
Samples.v
Witnesses.v
ServiceWitnesses.v
ProvisionWitnesses.v
InstallWitnesses.v
DialogueWitnesses.v
