(* ===== verification/Prelude.v ===== *)
(** * OpenCATTUS: verification library

    OpenCATTUS turns a host into the head node of a compute cluster.  It reads
    an answer file, fills a model of the cluster from it, and runs an
    installer over that model.  This library models the part that decides:
    what is read, what is refused, what the cluster becomes, and what is
    written back.

    ** The parts and how they interact

    [AnswerFile] reads the sections of a key file ([KeyFile]) and validates
    them; [Cluster::fillData] ([ClusterFill]) builds networks ([Network]),
    connections ([Connection]), the operating system ([Os]), servers and nodes
    ([Server]), the queue system and the mail system ([Postfix]) from it;
    [Cluster::dumpData] ([ClusterDump]) goes the other way.  Around them stand
    the options ([Options]), the time zones ([Timezone]) and the disk image
    ([DiskImage]).  The services act on the machine ([World]) for a cluster:
    they work on files ([FileOps]), run commands ([Runner]) and scripts
    ([ScriptBuilder]), speak to the package manager ([OsService]) and set up
    package repositories ([RepoManager]).  The installation is a list of roles
    ([Role], [Ansible]): each runs its commands ([RoleScripts]), and three of
    them hand over to the fabric drivers ([Ofed]), to the shared directories
    ([Nfs]) and to a provisioner, xCAT ([Xcat]) or Confluent ([Confluent]).
    Without an answer file the program ([Main]) asks: a sequence of steps
    ([PresenterInstall]), each a presenter ([Presenters], [PresenterNetwork],
    [PresenterNodes]) that talks to the operator through the views ([View])
    and calls the setters of the cluster; a draft of the cluster is kept
    between runs ([TuiSession]).

    ** Files

    - This file: the outcomes of C++ expressions ([outcome]: a value, an
      exception, undefined behaviour), methods as functions that return an
      outcome and the state they leave, also when they throw ([M]), loops,
      weakest preconditions, [steady] (what a method leaves alone), machine
      integers, tactics and hint databases.
    - [CppString]: [std::string], [std::stoi] and the like, streams, and
      [utils/string.h]; [Regex]: the regular expressions the program uses, with
      a matcher; [Enums]: [utils/enums.h], [utils/optional.h] and
      [utils/containers.h].
    - [External]: Boost.Asio addresses, Boost text algorithms and GLib key
      files, as classes of operations and laws that state their documented
      behaviour.  [Instances]: an implementation that satisfies the laws.
    - [KeyFile]: the class of [services/files.cpp], and what a key file holds
      after a list of writes.
    - [Network]: [network.cpp]; [Connection]: [connection.cpp], over a store of
      networks, since a connection points into it.
    - [Os]: [models/os.cpp]; [Timezone]: [services/timezone.cpp]; [Options]:
      [services/options.cpp]; [DiskImage]: [diskImage.cpp].
    - [Server]: [models/cpu.cpp], [models/server.cpp], [models/headnode.cpp],
      [models/node.cpp], the BMC and the queue systems.
    - [AnswerFileData], [AnswerFile], [AnswerFileDump]: [models/answerfile.cpp].
      [AnswerFileValidation], [AnswerFileWrites], [AnswerFileReads],
      [AnswerFileRoundtrip]: what its checks accept, what dumping writes, what
      loading makes of it, and that the two are inverse.
    - [Postfix]: [mailsystem/postfix.cpp].
    - [ClusterData], [Cluster], [ClusterFill], [ClusterDump]:
      [models/cluster.cpp].  [ClusterFillSpec], [ClusterLayout],
      [ClusterRoundtrip]: what filling builds, and dumping it again.
    - [Samples], [Witnesses]: a small site, and each theorem with hypotheses
      applied to it.
    - [World], [WorldFacts]: the machine the services work on: paths, the file
      tree, [std::filesystem], and the processes started, whose answers are up
      to the class [Machine].
    - [FileOps]: the file operations of [functions.cpp], [functions.h] and
      [services/files.cpp], and cached results ([services/cache.h], Module
      [Cache]); [FileOpsSpec]: what they do.
    - [ScriptBuilder], [Runner], [OsService]: [services/scriptbuilder.cpp],
      [services/runner.cpp] and [services/osservice.cpp]; [RunnerSpec]: asking
      for an HTTP status and reading the output of a process.
    - [Daemons]: [services/IService.cpp], and setting up the mail system
      ([mailsystem/postfix.cpp]) and the SLURM server ([models/slurm.cpp]).
    - [StdMap]: [std::map] as a [gmap] gone through in the order of its keys.
    - [RepoData], [RepoChoice], [RepoConfig], [RepoManager]:
      [services/repos.cpp], as repository files, the choice between mirror and
      upstream, the settings, and the manager with its shared file objects.
      [RepoFileSpec], [RepoChoiceSpec], [RepoConfigSpec], [RepoManagerSpec]:
      what each promises.  [ServiceWitnesses]: the theorems on services
      applied.
    - [Ofed], [Nfs]: [ofed.cpp] and [NFS.cpp].  [OfedSpec]: how the fabric
      drivers are installed.
    - [XcatCommands], [Xcat]: [services/xcat.cpp], its commands and scripts
      first, then the provisioner.  [XcatSpec]: quoting, address ranges,
      clearing images; [XcatFrame]: what the provisioner leaves alone, for any
      assertion its operations keep, and so in a dry run; [XcatImageSpec]: the
      reuse of images, by such an assertion.
    - [Confluent]: [services/confluent.cpp]; [ConfluentSpec]: the list of
      scripts it runs.  [ProvisionWitnesses]: the theorems on provisioning
      applied.
    - [TuiSession]: [services/tui_session.cpp]; [TuiSessionSpec]: saving
      a draft and resuming it.
    - [Role], [RoleScripts], [Ansible]: [services/ansible], that is a role and
      its text, what each role runs (a Module per file of
      [services/ansible/roles]), and running roles, with [services/shell.cpp].
      [AnsibleDrySpec], [AnsibleSpec]: dry runs of the whole installation, and
      what the roles amount to.  [InstallWitnesses]: the drafts and the
      installation of the sample site.
    - [View]: the newt views of [src/view], from what the operator replies to
      what a dialogue gives back, and the arithmetic of the sizes (Module
      [Geometry]).  [ViewSpec]: forms, edited lists, wrapped text.
    - [Messages]: the texts of [include/opencattus/presenter], a Module per
      header.  [Presenters]: the small presenters, and the locale (Module
      [PresenterLocale]); [PresenterNetwork]: [PresenterNetwork.cpp] and
      [PresenterInfiniband.cpp]; [PresenterNodes]: [PresenterNodes.cpp], and
      the operating system of the nodes (Module [OperationalSystem]);
      [PresenterInstall]: the plan shown before the installation, the download
      of an image, and the sequence of steps.  [PresenterSpec]: what the
      answers become.
    - [Main]: [src/main.cpp].  [QuestionnaireSpec]: the steps and the program
      around them.  [DialogueWitnesses]: short conversations.

    ** What the theorems show

    - Round trips: a canonical answer file is loaded back as it was dumped; a
      node, the mail settings and the leftovers survive filling and dumping;
      versions, route tables and zone tables survive printing and parsing.
    - Invariants, by induction over the calls of an object: networks and
      connections stay legal whatever is called on them and whatever throws.
    - Refinement: [fillData] builds exactly the networks, connections and nodes
      the answer file asks for.
    - Equivalence with a reference: the node inventory check, with its running
      tables, accepts exactly the lists without duplicates.
    - Exact acceptance: masks, ports, gateways, MAC addresses, disk images,
      provisioners, versions, each with what is refused and how.
    - Repositories: a saved file loads back as it was; the manager's index
      stays right through every sequence of calls, failing ones included, and
      switching a repository refines changing one flag on disk; the files made
      of the settings are those the mirror checks call for, whatever they do;
      the selection offered is exactly what is needed or asked for.
    - Termination and bounds: expanding selected repositories, reading a
      process to its end, checksums in pieces, retries of an HTTP status.
    - Provisioning: an image is reused only when its build returned, for the
      queue system it was built for, and drivers are staged for its kernel; the
      Confluent installation is a fixed list of scripts run up to the first
      that fails, and reaches its end when none does; the address pool lies
      inside its network; a text quoted for a shell is read back as it was.
    - A dry run of any role, of either provisioner and of the whole
      installation changes nothing on the machine but a few kinds of files.
    - Drafts: a saved draft gives back how far the dialogues went; resuming
      keeps all the cluster had, wherever it stops.
    - Dialogues: whatever is typed, the networks collected are of different
      profiles and legal, the nodes added are those their numbers call for, and
      the steps reported as completed are a beginning of all steps, so that a
      draft can be resumed; a suggested address is free; a form gives back its
      own fields; wrapped text fits the screen.
    - The program: it ends in one of two exit codes, and when the operator
      declines leaves the machine alone but for the cached checksum of a disk
      image; the temporary file with the answers never stays.
    - Roles: a role's text is read back as the role; the OpenHPC packages are
      those of the bundles asked for.
    - Where the program goes wrong, as theorems about what it does: a backup
      loses files of another spelling, a checksum in empty pieces never ends,
      families that do not go together end in undefined behaviour, a role read
      from a text never runs, and whatever is answered, an installation on
      Enterprise Linux switches the firewall and SELinux off.
      The host name dialogue refuses nothing; a long path on the page shown
      before the installation hangs it; a network entered again after going back
      is one more, behind the first of its profile; the last time server can be
      removed twice; setting up the mail system never gets past its
      configuration.

    ** Conventions and assumptions

    - The release build: [LOG_TRACE] and [LOG_ASSERT] are empty.
    - What the program asks the host (interfaces, resolver, files, [uname])
      is an argument of the definitions, in [Host] for [fillData].  Accepting a
      disk image may write its checksum next to it, so [fillData], resuming a
      draft and [setDiskImage] work on the cluster and the machine.
    - Singletons are arguments.  [std::exit] is a result.  Log messages are
      left out.  Pointers into containers are indices.
    - Machine integers are [Z] with their wrap-around written out; a
      [std::size_t] is 64 bits and an [unsigned] 32.
    - Fuel: [dec_digits] takes one step per digit and gets the logarithm of the
      number; [findAndReplace] gets one step more than the characters left,
      and reports running out as [None], which only an empty search text
      causes.  The other recursions are structural.
    - The operator: a list of replies, one for each time a form is run; when
      they are used up the program waits for ever, the exception [NoReturn],
      which no handler catches.  A loop that asks ends with them ([forever],
      [forever_unfold]); the loop over the steps may go back once for each
      reply ([run_steps_unfold]).
    - The random numbers of a password and the name of the temporary answer
      file are arguments.  The process of a download is run to its end when it
      is started.
    - The machine: no symbolic links or permissions, paths are absolute; a
      process may change any file and answer anything; removing a directory
      may stop half way, which [obstacle] of the class [Machine] decides.  A
      theorem that needs the order of a directory or of an unordered set to be a
      permutation says so ([MachineLaws]).
    - Fuel of the services: [append_repository] gets three more than the ids
      selected, which is never used up; [checksum_loop] and [drain] get more
      than the length of the text, and report running out as [None].
    - Boost's property trees, [strverscmp] and Boost's port parser are classes
      of operations ([BoostIni], [Glibc], [BoostPort]) with the instances of
      [Instances]; a law is asked for only where a theorem needs it.
    - The arguments of a call or a format are evaluated as they are written.
      A role runs as it is dispatched in C++, so its depth is bounded by the
      table of roles; [run_named] gets fuel for two levels, and more changes
      nothing ([run_named_depth]).

    ** Not modelled

    What newt draws, and how it handles a key, are the library's: a form is
    one reply of the operator.  The parsing of the command line is CLI11's.
    The test commands and confirmations of debug builds, logging and the
    client behind the message bus are left out.  Of the services, what needs a
    boost property tree, the interactive commands of a runner and
    [currentExecutablePath] are left out; Debian repositories are only declared
    by the program.  In the modelled parts, setting environment variables,
    sleeping and the permission bits of files are left out.

    ** Order of the development

    The core came first, then the services, then the provisioners, the roles
    and the engines that run them, and last the dialogues and the program.  A
    next step would be the laws of Boost and GLib proved of an implementation
    of theirs, which here are assumed of classes and hold of [Instances]. *)

From stdpp Require Import base strings list gmap.
From Stdlib Require Import ZArith Lia.

(** ** C++ control outcomes

    A C++ expression evaluates to a value, throws, or has undefined
    behaviour.  [exn] lists the dynamic types the program throws or lets
    through; the payload is what [what()] returns. *)

Inductive exn : Type :=
  | RuntimeError (what : string)
  | RangeError (what : string)
  | SystemError (what : string)
  | LogicError (what : string)
  | InvalidArgument (what : string)
  | OutOfRange (what : string)
  | LengthError (what : string)
  | BadOptionalAccess
  | BadVariantAccess
  | BadLexicalCast
  | BadAddressCast
  | BadFunctionCall
  | KeyFileError
  | GlibFileError
  | FileException (what : string)
  | AnswerfileValidationException (what : string)
  | ViewAbortRequested (what : string)
  | ViewBackRequested (what : string)
  | ThrownString (text : string)
  | ProcessExit (code : Z)    (* [std::exit], which no handler stops *)
  | NoReturn.                 (* not thrown: the run has not come back, see [View] *)

#[export] Instance exn_eq_dec : EqDecision exn.
Proof. solve_decision. Defined.

(** The handlers of the program: [catch (const std::invalid_argument&)] and
    the like select by dynamic type, along the standard hierarchy. *)
Definition is_invalid_argument (e : exn) : bool :=
  match e with InvalidArgument _ => true | _ => false end.

Definition is_out_of_range (e : exn) : bool :=
  match e with OutOfRange _ => true | _ => false end.

Definition is_system_error (e : exn) : bool :=
  match e with SystemError _ => true | _ => false end.

Definition is_keyfile_error (e : exn) : bool :=
  match e with KeyFileError => true | _ => false end.

Definition is_std_exception (e : exn) : bool :=
  match e with ThrownString _ | ProcessExit _ | NoReturn => false | _ => true end.

(** [std::system_error] and [std::range_error] are among them. *)
Definition is_runtime_error (e : exn) : bool :=
  match e with
  | RuntimeError _ | RangeError _ | SystemError _ | FileException _ | ViewAbortRequested _ | ViewBackRequested _ => true
  | _ => false
  end.

Definition is_abort (e : exn) : bool := match e with ViewAbortRequested _ => true | _ => false end.
Definition is_back (e : exn) : bool := match e with ViewBackRequested _ => true | _ => false end.

(** [catch (...)] *)
Definition is_any (e : exn) : bool := match e with ProcessExit _ | NoReturn => false | _ => true end.

(** [e.what()] *)
Definition what (e : exn) : string :=
  match e with
  | RuntimeError w | RangeError w | SystemError w | LogicError w
  | InvalidArgument w | OutOfRange w | LengthError w
  | FileException w | AnswerfileValidationException w
  | ViewAbortRequested w | ViewBackRequested w => w
  | BadOptionalAccess => "bad optional access"
  | BadVariantAccess => "bad variant access"
  | BadLexicalCast => "bad lexical cast"
  | BadAddressCast => "bad address cast"
  | BadFunctionCall => "bad_function_call"
  | KeyFileError => "key file error"
  | GlibFileError => "file error"
  | ThrownString s => s
  | ProcessExit _ | NoReturn => ""
  end.

Inductive outcome (A : Type) : Type :=
  | Ok (a : A)
  | Throw (e : exn)
  | UB.
Arguments Ok {A} a.
Arguments Throw {A} e.
Arguments UB {A}.

#[export] Instance outcome_eq_dec `{EqDecision A} : EqDecision (outcome A).
Proof. solve_decision. Defined.

#[export] Instance outcome_ret : MRet outcome := @Ok.
#[export] Instance outcome_bind : MBind outcome := fun A B f m =>
  match m with Ok a => f a | Throw e => Throw e | UB => UB end.
#[export] Instance outcome_fmap : FMap outcome := fun A B f m =>
  match m with Ok a => Ok (f a) | Throw e => Throw e | UB => UB end.

(** [try { m } catch (T& e) { h e }] where [sel] tells whether the dynamic
    type of the exception is caught. *)
Definition try_catch {A} (m : outcome A) (sel : exn -> bool)
    (h : exn -> outcome A) : outcome A :=
  match m with
  | Throw e => if sel e then h e else Throw e
  | r => r
  end.

(** [opt.value()] *)
Definition value {A} (o : option A) : outcome A :=
  match o with Some a => Ok a | None => Throw BadOptionalAccess end.

(** [*opt] and [opt->]: undefined behaviour on an empty optional. *)
Definition deref {A} (o : option A) : outcome A :=
  match o with Some a => Ok a | None => UB end.

Definition is_ok {A} (m : outcome A) : bool :=
  match m with Ok _ => true | _ => false end.

(** ** Methods that mutate their object

    A method is a function from the object's state to an outcome and the
    state it leaves behind, also when it throws. *)

Definition M (S A : Type) : Type := S -> outcome A * S.

#[export] Instance M_ret {S} : MRet (M S) := fun A a s => (Ok a, s).
#[export] Instance M_bind {S} : MBind (M S) := fun A B f m s =>
  match m s with
  | (Ok a, s') => f a s'
  | (Throw e, s') => (Throw e, s')
  | (UB, s') => (UB, s')
  end.

Definition lift {S A} (m : outcome A) : M S A := fun s => (m, s).
Definition throw {S A} (e : exn) : M S A := fun s => (Throw e, s).
Definition gets {S A} (f : S -> A) : M S A := fun s => (Ok (f s), s).
Definition modify {S} (f : S -> S) : M S unit := fun s => (Ok tt, f s).
Definition skip {S} : M S unit := fun s => (Ok tt, s).
Definition when {S} (b : bool) (m : M S unit) : M S unit := if b then m else skip.

Definition try_catchM {S A} (m : M S A) (sel : exn -> bool)
    (h : exn -> M S A) : M S A :=
  fun s =>
    match m s with
    | (Throw e, s') => if sel e then h e s' else (Throw e, s')
    | r => r
    end.

(** A method of a member object, run on the enclosing object. *)
Definition zoom {S T A} (g : S -> T) (p : T -> S -> S) (m : M T A) : M S A :=
  fun s => let '(r, t) := m (g s) in (r, p t s).

(** Constructing an object: the constructor body runs on the object its
    member initialisers give; an exception leaves no object. *)
Definition construct {S} (body : M S unit) (init : S) : outcome S :=
  match body init with
  | (Ok _, s) => Ok s
  | (Throw e, _) => Throw e
  | (UB, _) => UB
  end.

(** Range-based [for] over a container, the body run for its effects. *)
Fixpoint for_each {S A} (l : list A) (body : A -> M S unit) : M S unit :=
  match l with
  | [] => skip
  | x :: l' => _ ← body x; for_each l' body
  end.

Fixpoint mapo {A B} (f : A -> outcome B) (l : list A) : outcome (list B) :=
  match l with
  | [] => Ok []
  | x :: l' => y ← f x; ys ← mapo f l'; Ok (y :: ys)
  end.

(** ** Weakest preconditions

    [wp m Q E s]: run on [s], the method [m] has no undefined behaviour,
    a normal return satisfies [Q] and an exception satisfies [E]. *)
Definition wp {S A} (m : M S A) (Q : A -> S -> Prop) (E : exn -> S -> Prop)
    (s : S) : Prop :=
  match m s with
  | (Ok a, s') => Q a s'
  | (Throw e, s') => E e s'
  | (UB, _) => False
  end.

(** The same for an expression. *)
Definition owp {A} (m : outcome A) (Q : A -> Prop) (E : exn -> Prop) : Prop :=
  match m with Ok a => Q a | Throw e => E e | UB => False end.

Lemma owp_bind {A B} (m : outcome A) (f : A -> outcome B) Q E :
  owp (x ← m; f x) Q E <-> owp m (fun a => owp (f a) Q E) E.
Proof. by destruct m. Qed.

Lemma owp_mono {A} (m : outcome A) (Q Q' : A -> Prop) (E E' : exn -> Prop) :
  owp m Q E -> (forall a, Q a -> Q' a) -> (forall e, E e -> E' e) -> owp m Q' E'.
Proof. destruct m; cbn; auto. Qed.

Lemma owp_Ok {A} (m : outcome A) Q E a : owp m Q E -> m = Ok a -> Q a.
Proof. by intros H ->. Qed.

Create HintDb cpp.
Create Rewrite HintDb cpp.
Create Rewrite HintDb str.
Create Rewrite HintDb slots.

Section monad_laws.
Context {S : Type}.
Implicit Types s : S.

Lemma M_bind_ret_l {A B} (a : A) (f : A -> M S B) s :
  (x ← mret a; f x) s = f a s.
Proof. done. Qed.

Lemma M_bind_ret_r {A} (m : M S A) s : (x ← m; mret x) s = m s.
Proof. unfold mbind, M_bind. by destruct (m s) as [[] ?]. Qed.

Lemma M_bind_assoc {A B C} (m : M S A) (f : A -> M S B) (g : B -> M S C) s :
  (y ← (x ← m; f x); g y) s = (x ← m; y ← f x; g y) s.
Proof. unfold mbind, M_bind. by destruct (m s) as [[] ?]. Qed.

Lemma M_bind_throw {A B} e (f : A -> M S B) s :
  (x ← throw e; f x) s = (Throw e, s).
Proof. done. Qed.

Lemma M_bind_ext {A B} (m m' : M S A) (f f' : A -> M S B) s :
  m s = m' s -> (forall a s', f a s' = f' a s') -> (x ← m; f x) s = (x ← m'; f' x) s.
Proof. intros Hm Hf. unfold mbind, M_bind. rewrite Hm. destruct (m' s) as [[a| |] s']; [apply Hf|done..]. Qed.

Lemma M_bind_ok {A B} (m : M S A) (f : A -> M S B) s a s' :
  m s = (Ok a, s') -> (x ← m; f x) s = f a s'.
Proof. unfold mbind, M_bind. by intros ->. Qed.

Lemma M_bind_Throw {A B} (m : M S A) (f : A -> M S B) s e s' :
  m s = (Throw e, s') -> (x ← m; f x) s = (Throw e, s').
Proof. unfold mbind, M_bind. by intros ->. Qed.

Lemma M_bind_inv_ok {A B} (m : M S A) (f : A -> M S B) s b s'' :
  (x ← m; f x) s = (Ok b, s'') ->
  exists a s', m s = (Ok a, s') /\ f a s' = (Ok b, s'').
Proof.
  unfold mbind, M_bind. destruct (m s) as [[a|e|] s']; intros H; simplify_eq; eauto.
Qed.

Lemma wp_bind {A B} (m : M S A) (f : A -> M S B) Q E s :
  wp (x ← m; f x) Q E s <-> wp m (fun a s' => wp (f a) Q E s') E s.
Proof. unfold wp, mbind, M_bind. by destruct (m s) as [[] ?]. Qed.

Lemma wp_mono {A} (m : M S A) (Q Q' : A -> S -> Prop) (E E' : exn -> S -> Prop) s :
  wp m Q E s ->
  (forall a s', Q a s' -> Q' a s') -> (forall e s', E e s' -> E' e s') ->
  wp m Q' E' s.
Proof. unfold wp. destruct (m s) as [[] ?]; auto. Qed.

Lemma wp_for_each {A} (l : list A) (body : A -> M S unit) (I : S -> Prop)
    (E : exn -> S -> Prop) s :
  I s ->
  (forall x s', x ∈ l -> I s' -> wp (body x) (fun _ s'' => I s'') E s') ->
  wp (for_each l body) (fun _ s' => I s') E s.
Proof.
  revert s. induction l as [|x l IH]; intros s Hs Hb; [done|].
  cbn [for_each]. apply wp_bind.
  eapply wp_mono; [apply Hb; [left|done] | | done].
  intros ? s' Hs'. apply IH; [done|]. intros y s'' Hy. apply Hb. by right.
Qed.
End monad_laws.

(** The invariant a constructor establishes. *)
Lemma construct_wp {S} (body : M S unit) init (I : S -> Prop) E s :
  construct body init = Ok s -> wp body (fun _ s' => I s') E init -> I s.
Proof. unfold construct, wp. destruct (body init) as [[] ?]; intros; by simplify_eq. Qed.

Lemma construct_ok {S} (body : M S unit) init s : construct body init = Ok s -> body init = (Ok tt, s).
Proof. unfold construct. destruct (body init) as [[[]| |] s']; [|done..]. by intros [= ->]. Qed.

(** The state is untouched by what only computes or only fails. *)
Lemma lift_state {S A} (m : outcome A) (s : S) : (lift m s).2 = s.
Proof. done. Qed.

Lemma lift_ok {S A} (m : outcome A) (a : A) (s : S) : m = Ok a -> lift m s = (Ok a, s).
Proof. by intros ->. Qed.

Lemma zoom_ok {S T A} (g : S -> T) p (m : M T A) s a t :
  m (g s) = (Ok a, t) -> zoom g p m s = (Ok a, p t s).
Proof. unfold zoom. by intros ->. Qed.

(** ** What a method leaves alone when it returns *)

Definition steady {S X A} (g : S -> X) (m : M S A) : Prop :=
  forall s a s', m s = (Ok a, s') -> g s' = g s.

Section steady.
Context {S X : Type} (g : S -> X).

Lemma steady_lift {A} (m : outcome A) : steady g (lift m).
Proof. by intros s a s' [= _ <-]. Qed.
Lemma steady_gets {A} (f : S -> A) : steady g (gets f).
Proof. by intros s a s' [= _ <-]. Qed.
Lemma steady_ret {A} (a : A) : steady g (mret a).
Proof. by intros s a' s' [= _ <-]. Qed.
Lemma steady_throw {A} e : steady (A := A) g (throw e).
Proof. by intros s a s'. Qed.
Lemma steady_skip : steady g skip.
Proof. by intros s a s' [= _ <-]. Qed.
Lemma steady_modify f : (forall s, g (f s) = g s) -> steady g (modify f).
Proof. by intros Hf s a s' [= _ <-]. Qed.
Lemma steady_bind {A B} (m : M S A) (f : A -> M S B) :
  steady g m -> (forall x, steady g (f x)) -> steady g (x ← m; f x).
Proof.
  intros Hm Hf s b s'' (a & s' & Ha & Hb)%M_bind_inv_ok. by rewrite (Hf _ _ _ _ Hb), (Hm _ _ _ Ha).
Qed.
Lemma steady_zoom {T A} (get : S -> T) put (m : M T A) :
  (forall t s, g (put t s) = g s) -> steady g (zoom get put m).
Proof. intros Hp s a s'. unfold zoom. destruct (m _). intros [= _ <-]. apply Hp. Qed.
End steady.

(** [steadily] goes through the binds of a method. *)
Ltac steadily :=
  repeat first
    [ apply steady_bind; [|intros] | apply steady_lift | apply steady_gets | apply steady_ret
    | apply steady_throw | apply steady_skip | solve [apply steady_modify; done]
    | solve [auto with steady nocore]
    | match goal with |- steady _ (match ?x with _ => _ end) => destruct x end ].

Create HintDb steady.

(** ** What a method maintains

    However it ends, an assertion that holds of the state before holds of the
    state after. *)

Definition maintains {S A} (I : S -> Prop) (m : M S A) : Prop := forall s, I s -> I (m s).2.

Section maintains.
Context {S : Type} (I : S -> Prop).

Lemma maintains_lift {A} (m : outcome A) : maintains I (lift m).
Proof. by intros s. Qed.
Lemma maintains_gets {A} (f : S -> A) : maintains I (gets f).
Proof. by intros s. Qed.
Lemma maintains_ret {A} (a : A) : maintains I (mret a).
Proof. by intros s. Qed.
Lemma maintains_throw {A} e : maintains I (throw (A := A) e).
Proof. by intros s. Qed.
Lemma maintains_skip : maintains I skip.
Proof. by intros s. Qed.
Lemma maintains_modify f : (forall s, I s -> I (f s)) -> maintains I (modify f).
Proof. intros Hf s. apply Hf. Qed.
Lemma maintains_bind {A B} (m : M S A) (f : A -> M S B) :
  maintains I m -> (forall x, maintains I (f x)) -> maintains I (x ← m; f x).
Proof.
  intros Hm Hf s Hs. unfold mbind, M_bind. specialize (Hm s Hs). destruct (m s) as [[a| |] s']; [|done..].
  by apply Hf.
Qed.
Lemma maintains_catch {A} (m : M S A) sel h :
  maintains I m -> (forall e, maintains I (h e)) -> maintains I (try_catchM m sel h).
Proof.
  intros Hm Hh s Hs. unfold try_catchM. specialize (Hm s Hs). destruct (m s) as [[a|e|] s']; [done| |done].
  destruct (sel e); [by apply Hh|done].
Qed.
Lemma maintains_for_each {A} (l : list A) (body : A -> M S unit) :
  (forall x, maintains I (body x)) -> maintains I (for_each l body).
Proof. intros Hb. induction l; cbn [for_each]; [apply maintains_skip|]. by apply maintains_bind. Qed.
Lemma maintains_zoom {T A} (get : S -> T) put (m : M T A) (J : T -> Prop) :
  (forall s, I s -> J (get s)) -> (forall t s, I s -> J t -> I (put t s)) ->
  maintains J m -> maintains I (zoom get put m).
Proof.
  intros Hg Hp Hm s Hs. unfold zoom. specialize (Hm _ (Hg s Hs)). destruct (m (get s)) as [r t]. by apply Hp.
Qed.
End maintains.

Create HintDb maintains.

(** [maintain] goes through the statements of a method; what it calls is
    looked up in the database. *)
Ltac maintain :=
  repeat first
    [ solve [auto with maintains nocore]
    | apply maintains_bind; [|intros] | apply maintains_lift | apply maintains_gets | apply maintains_ret
    | apply maintains_throw | apply maintains_skip | apply maintains_for_each; intros
    | apply maintains_catch; [|intros]
    | match goal with |- maintains _ (match ?x with _ => _ end) => destruct x end
    | progress cbv beta zeta ].

(** ** Inversion of outcomes *)

Lemma bind_Ok {A B} (m : outcome A) (f : A -> outcome B) b :
  (x ← m; f x) = Ok b <-> exists a, m = Ok a /\ f a = Ok b.
Proof.
  destruct m; cbn; split; [by eauto | | done | | done |];
    intros (a' & Ha & Hb); by simplify_eq.
Qed.

Lemma outcome_bind_ext {A B} (m : outcome A) (f g : A -> outcome B) :
  (forall a, f a = g a) -> (x ← m; f x) = (x ← m; g x).
Proof. intros Hf. destruct m; cbn; [apply Hf|done..]. Qed.

Lemma bind_Throw {A B} (m : outcome A) (f : A -> outcome B) e :
  (x ← m; f x) = Throw e <->
  m = Throw e \/ exists a, m = Ok a /\ f a = Throw e.
Proof.
  destruct m; cbn; split; [by eauto | | by intros; simplify_eq; left | | done |];
    naive_solver.
Qed.

Lemma mapo_Ok_Forall2 {A B} (f : A -> outcome B) l k :
  mapo f l = Ok k <-> Forall2 (fun x y => f x = Ok y) l k.
Proof.
  revert k. induction l as [|x l IH]; intros k; cbn.
  - split; [intros [= <-]; constructor | by inversion 1].
  - rewrite bind_Ok. setoid_rewrite bind_Ok. split.
    + intros (y & Hy & ys & Hys & [= <-]). constructor; [done|]. by apply IH.
    + inversion 1; subst. eexists; split; [done|]. eexists; split; [|done]. by apply IH.
Qed.

Lemma try_catch_not {A} (m : outcome A) sel h e :
  m = Throw e -> sel e = false -> try_catch m sel h = Throw e.
Proof. intros -> He. cbn. by rewrite He. Qed.

#[export] Hint Rewrite @bind_Ok @bind_Throw : cpp.

(** [cpp_simpl] unfolds the monads one layer and reduces. *)
Ltac cpp_simpl :=
  cbn [mbind mret outcome_bind outcome_ret fmap outcome_fmap
       M_bind M_ret lift throw gets modify skip when try_catch value deref] in *;
  unfold mbind, mret, M_bind, M_ret, outcome_bind, outcome_ret, lift, throw,
    gets, modify, skip, when, try_catchM, zoom in *.

(** [cpp_cases] splits every [match] and [if] the goal or a hypothesis is
    stuck on, closing the impossible branches. *)
Ltac cpp_cases :=
  repeat (case_match; simplify_eq/=; try done).

(** [lia] decides [/] and [mod] by a constant. *)
Ltac Zify.zify_post_hook ::= Z.to_euclidean_division_equations.

(** [step H as (x & s & Hs)] takes the first statement off a run that
    returned. *)
Tactic Notation "step" ident(H) "as" "(" ident(x) "&" ident(s) "&" ident(Hs) ")" :=
  apply M_bind_inv_ok in H as (x & s & Hs & H).

(** The same for a statement that leaves the state alone. *)
Tactic Notation "step_pure" ident(H) ident(x) ident(Hs) :=
  let s := fresh "s" in let E := fresh "E" in
  apply M_bind_inv_ok in H as (x & s & Hs & H);
  assert (E := f_equal snd Hs); apply (f_equal fst) in Hs; cbn [fst snd lift gets] in E, Hs;
  unfold lift, gets in E, Hs; cbn [fst snd] in E, Hs; subst s.

(** ** Machine integers *)

Definition u16 (z : Z) : Z := z mod 2 ^ 16.
Definition u32 (z : Z) : Z := z mod 2 ^ 32.
Definition u64 (z : Z) : Z := z mod 2 ^ 64.

Lemma u32_id z : (0 <= z < 2 ^ 32)%Z -> u32 z = z.
Proof. intros. by apply Z.mod_small. Qed.

Lemma u32_range z : (0 <= u32 z < 2 ^ 32)%Z.
Proof. by apply Z.mod_pos_bound. Qed.

Lemma u64_id z : (0 <= z < 2 ^ 64)%Z -> u64 z = z.
Proof. intros. by apply Z.mod_small. Qed.

Lemma u64_range z : (0 <= u64 z < 2 ^ 64)%Z.
Proof. by apply Z.mod_pos_bound. Qed.

#[export] Hint Resolve u32_range u64_range : cpp.
