(* ===== verification/CppString.v ===== *)
(** * The part of the C++ standard library the program computes strings with

    [std::string] searches and slices, the C-locale character classes,
    [std::getline] and [operator>>] on string streams, the numeric parsers
    [std::stoul], [std::stoi] and [std::from_chars], decimal output, and the
    helpers of [include/opencattus/utils/string.h] and
    [src/functions.cpp] built on them. *)

From stdpp Require Import base strings list.
From Stdlib Require Import ZArith Lia Ascii.
From S2P Require Import Prelude.

Local Open Scope Z_scope.

(** ** Characters (C locale) *)

Definition code (c : ascii) : Z := Z.of_N (N_of_ascii c).
Definition in_range (lo hi c : ascii) : bool :=
  (code lo <=? code c) && (code c <=? code hi).

Definition is_digit (c : ascii) : bool := in_range "0" "9" c.
Definition is_upper (c : ascii) : bool := in_range "A" "Z" c.
Definition is_lower (c : ascii) : bool := in_range "a" "z" c.
Definition is_alpha (c : ascii) : bool := is_upper c || is_lower c.
Definition is_space (c : ascii) : bool := Ascii.is_space c.

Definition char_of (z : Z) : ascii := ascii_of_N (Z.to_N z).
Definition to_lower_char (c : ascii) : ascii :=
  if is_upper c then char_of (code c + 32) else c.
Definition to_upper_char (c : ascii) : ascii :=
  if is_lower c then char_of (code c - 32) else c.

Definition digit_val (c : ascii) : Z := code c - code "0".
Definition hex_val (c : ascii) : option Z :=
  if is_digit c then Some (code c - code "0")
  else if in_range "a" "f" c then Some (code c - code "a" + 10)
  else if in_range "A" "F" c then Some (code c - code "A" + 10)
  else None.
Definition is_hex (c : ascii) : bool := bool_decide (is_Some (hex_val c)).

(** ** Strings as sequences of characters *)

Definition size (s : string) : Z := Z.of_nat (String.length s).
Definition empty (s : string) : bool := match s with EmptyString => true | _ => false end.

Fixpoint smap (f : ascii -> ascii) (s : string) : string :=
  match s with "" => "" | String c s' => String (f c) (smap f s') end.
Fixpoint sfilter (p : ascii -> bool) (s : string) : string :=
  match s with
  | "" => ""
  | String c s' => if p c then String c (sfilter p s') else sfilter p s'
  end.
Fixpoint sforall (p : ascii -> bool) (s : string) : bool :=
  match s with "" => true | String c s' => p c && sforall p s' end.
Fixpoint sdrop (n : nat) (s : string) : string :=
  match n, s with O, _ => s | S n', String _ s' => sdrop n' s' | S _, "" => "" end.
Fixpoint stake (n : nat) (s : string) : string :=
  match n, s with
  | O, _ => "" | S n', String c s' => String c (stake n' s') | S _, "" => ""
  end.
Fixpoint span (p : ascii -> bool) (s : string) : string * string :=
  match s with
  | "" => ("", "")
  | String c s' => if p c then let '(a, b) := span p s' in (String c a, b) else ("", s)
  end.
Fixpoint srepeat (c : ascii) (n : nat) : string :=
  match n with O => "" | S n' => String c (srepeat c n') end.

(** [find_first_of], [find_last_not_of] and [find]; [None] is [npos]. *)
Fixpoint find_first (p : ascii -> bool) (s : string) : option nat :=
  match s with
  | "" => None
  | String c s' => if p c then Some O else S <$> find_first p s'
  end.
Fixpoint find_last (p : ascii -> bool) (s : string) : option nat :=
  match s with
  | "" => None
  | String c s' =>
      match find_last p s' with
      | Some i => Some (S i)
      | None => if p c then Some O else None
      end
  end.
Definition find_char (c : ascii) (s : string) : option nat := find_first (Ascii.eqb c) s.
Definition find_char_from (c : ascii) (pos : nat) (s : string) : option nat :=
  Nat.add pos <$> find_char c (sdrop pos s).
Fixpoint find_str (needle s : string) : option nat :=
  if String.prefix needle s then Some O
  else match s with "" => None | String _ s' => S <$> find_str needle s' end.
Fixpoint rfind_str (needle s : string) : option nat :=
  match s with
  | "" => if empty needle then Some O else None
  | String _ s' =>
      match rfind_str needle s' with
      | Some i => Some (S i)
      | None => if String.prefix needle s then Some O else None
      end
  end.
Definition contains (needle s : string) : bool := bool_decide (is_Some (find_str needle s)).
Definition starts_with (p s : string) : bool := String.prefix p s.
Fixpoint last_char (s : string) : option ascii :=
  match s with
  | "" => None
  | String c s' => match last_char s' with Some d => Some d | None => Some c end
  end.
Definition starts_with_char (c : ascii) (s : string) : bool :=
  match s with String d _ => Ascii.eqb c d | "" => false end.
Definition ends_with_char (c : ascii) (s : string) : bool :=
  match last_char s with Some d => Ascii.eqb c d | None => false end.

(** [s.substr(pos, len)] and [s.substr(pos)] *)
Definition substr (pos len : nat) (s : string) : outcome string :=
  if (String.length s <? pos)%nat then Throw (OutOfRange "basic_string::substr")
  else Ok (stake len (sdrop pos s)).
Definition substr_from (pos : nat) (s : string) : outcome string :=
  if (String.length s <? pos)%nat then Throw (OutOfRange "basic_string::substr")
  else Ok (sdrop pos s).

(** [pos + 1] on a [std::string::size_type]: [npos + 1] wraps to 0. *)
Definition after (pos : option nat) : nat := match pos with Some i => S i | None => O end.

(** [s.erase(std::remove(s.begin(), s.end(), c), s.end())] *)
Definition erase_char (c : ascii) (s : string) : string := sfilter (fun d => negb (Ascii.eqb c d)) s.
(** [std::ranges::replace(s, a, b)] *)
Definition replace_char (a b : ascii) (s : string) : string :=
  smap (fun d => if Ascii.eqb a d then b else d) s.

(** Inserting a [separator] between the elements, as [fmt::join] does. *)
Fixpoint concat_sep (sep : string) (l : list string) : string :=
  match l with
  | [] => ""
  | [x] => x
  | x :: l' => x +:+ sep +:+ concat_sep sep l'
  end.

(** Texts the sources write with escapes. *)
Definition quoted (s : string) : string := String "034" "" +:+ s +:+ String "034" "".
Fixpoint unlines (l : list string) : string :=
  match l with [] => "" | x :: l => x +:+ String "010" (unlines l) end.

(** ** Streams *)

(** The lines successive calls of [std::getline(stream, line, delim)]
    deliver: nothing after a final delimiter. *)
Fixpoint getlines (delim : ascii) (s : string) : list string :=
  match s with
  | "" => []
  | String c s' =>
      if Ascii.eqb delim c then "" :: getlines delim s'
      else match getlines delim s' with
           | [] => [String c ""]
           | l :: ls =>
               (* an empty line of the rest is only ours if the rest starts
                  with the delimiter, and then it is the one we extend *)
               String c l :: ls
           end
  end.

Fixpoint tokens_aux (s : string) : string * list string :=
  match s with
  | "" => ("", [])
  | String c s' =>
      let '(w, ws) := tokens_aux s' in
      if is_space c then ("", if empty w then ws else w :: ws) else (String c w, ws)
  end.
(** The words successive [stream >> word] extract. *)
Definition tokens (s : string) : list string :=
  let '(w, ws) := tokens_aux s in if empty w then ws else w :: ws.

(** ** Numbers *)

Fixpoint digits_val (base : Z) (val : ascii -> Z) (s : string) (acc : Z) : Z :=
  match s with
  | "" => acc
  | String c s' => digits_val base val s' (acc * base + val c)
  end.

Definition hex_digit (c : ascii) : Z := default 0 (hex_val c).

Definition skip_space (s : string) : string := (span is_space s).2.
Definition take_sign (s : string) : bool * string :=
  match s with
  | String c s' => if Ascii.eqb c "-" then (true, s')
                   else if Ascii.eqb c "+" then (false, s') else (false, s)
  | "" => (false, s)
  end.
(** The optional [0x] of base 16, skipped when a digit follows. *)
Definition skip_0x (s : string) : string :=
  match s with
  | String z (String x (String d s')) =>
      if Ascii.eqb z "0" && (Ascii.eqb x "x" || Ascii.eqb x "X") && is_hex d
      then String d s' else s
  | _ => s
  end.

(** [std::stoul(s, nullptr, 10)] and [std::stoul(s, nullptr, 16)], on a
    64-bit [unsigned long]: a sign negates modulo 2^64. *)
Definition stoul10 (s : string) : outcome Z :=
  let '(neg, r) := take_sign (skip_space s) in
  let ds := (span is_digit r).1 in
  if empty ds then Throw (InvalidArgument "stoul")
  else
    let v := digits_val 10 digit_val ds 0 in
    if 2 ^ 64 <=? v then Throw (OutOfRange "stoul")
    else Ok (if neg : bool then u64 (- v) else v).
Definition stoul16 (s : string) : outcome Z :=
  let '(neg, r) := take_sign (skip_space s) in
  let ds := (span is_hex (skip_0x r)).1 in
  if empty ds then Throw (InvalidArgument "stoul")
  else
    let v := digits_val 16 hex_digit ds 0 in
    if 2 ^ 64 <=? v then Throw (OutOfRange "stoul")
    else Ok (if neg : bool then u64 (- v) else v).

(** [std::stoi(s)], on a 32-bit [int]. *)
Definition stoi (s : string) : outcome Z :=
  let '(neg, r) := take_sign (skip_space s) in
  let ds := (span is_digit r).1 in
  if empty ds then Throw (InvalidArgument "stoi")
  else
    let v := digits_val 10 digit_val ds 0 in
    let v := if neg : bool then - v else v in
    if (v <? - 2 ^ 31) || (2 ^ 31 <=? v) then Throw (OutOfRange "stoi") else Ok v.

(** [std::stoll(s)], on a 64-bit [long long]. *)
Definition stoll (s : string) : outcome Z :=
  let '(neg, r) := take_sign (skip_space s) in
  let ds := (span is_digit r).1 in
  if empty ds then Throw (InvalidArgument "stoll")
  else
    let v := digits_val 10 digit_val ds 0 in
    let v := if neg : bool then - v else v in
    if (v <? - 2 ^ 63) || (2 ^ 63 <=? v) then Throw (OutOfRange "stoll") else Ok v.

Inductive errc := errc_none | errc_invalid_argument | errc_result_out_of_range.

#[export] Instance errc_eq_dec : EqDecision errc.
Proof. solve_decision. Defined.

(** [std::from_chars] into a [std::size_t] that holds 0: the parsed value,
    what [ptr] points at, and the error. *)
Definition from_chars (s : string) : Z * string * errc :=
  let '(ds, r) := span is_digit s in
  if empty ds then (0, s, errc_invalid_argument)
  else
    let v := digits_val 10 digit_val ds 0 in
    if 2 ^ 64 <=? v then (0, r, errc_result_out_of_range) else (v, r, errc_none).

Definition digit_char (d : Z) : ascii := char_of (code "0" + d).
Fixpoint dec_digits (fuel : nat) (n : Z) (acc : string) : string :=
  match fuel with
  | O => acc
  | S f =>
      let acc' := String (digit_char (n mod 10)) acc in
      if n <? 10 then acc' else dec_digits f (n / 10) acc'
  end.
(** [{}] on an unsigned integer, and [std::to_string]. The number of bits
    bounds the number of decimal digits. *)
Definition dec (n : Z) : string := dec_digits (S (Z.to_nat (Z.log2 n))) n "".

(** [std::to_string(int)] *)
Definition dec_int (z : Z) : string := if z <? 0 then String "-" (dec (- z)) else dec z.

(** [{:0>w}] and [{:0w}] *)
Definition pad0 (w : Z) (s : string) : string :=
  srepeat "0" (Z.to_nat w - String.length s) +:+ s.

(** ** include/opencattus/utils/string.h and src/functions.cpp *)

Definition upper (s : string) : string := smap to_upper_char s.
Definition lower (s : string) : string := smap to_lower_char s.

Definition char_in (set : string) (c : ascii) : bool :=
  bool_decide (is_Some (find_char c set)).

Definition rstrip (str trailing : string) : string :=
  match find_last (fun c => negb (char_in trailing c)) str with
  | None => ""
  | Some pos => stake (pos + 1) str
  end.

(** [findAndReplace]: the scan resumes after what it inserted.  Each
    round moves [pos] forward or shortens what is left, unless [find] and
    [replace] are both empty; the fuel is the length plus one. *)
Fixpoint findAndReplace_loop (fuel : nat) (result find replace : string) (pos : nat) : option string :=
  match fuel with
  | O => None
  | S f =>
      if (String.length result <? pos)%nat then Some result
      else
        match find_str find (sdrop pos result) with
        | None => Some result
        | Some i =>
            let at_ := (pos + i)%nat in
            let result' := stake at_ result +:+ replace +:+ sdrop (at_ + String.length find) result in
            findAndReplace_loop f result' find replace (at_ + String.length replace)
        end
  end.
Definition findAndReplace (source find replace : string) : option string :=
  findAndReplace_loop (S (String.length source)) source find replace 0.

(** ** Lemmas *)

Lemma sapp_nil_r s : s +:+ "" = s.
Proof. induction s as [|c s IH]; [done|]. change (String c (s +:+ "") = String c s). by rewrite IH. Qed.

Lemma sapp_assoc s1 s2 s3 : s1 +:+ (s2 +:+ s3) = (s1 +:+ s2) +:+ s3.
Proof. induction s1 as [|c s IH]; [done|]. change (String c (s +:+ (s2 +:+ s3)) = String c ((s +:+ s2) +:+ s3)). by rewrite IH. Qed.

Lemma app_cons c s1 s2 : String c s1 +:+ s2 = String c (s1 +:+ s2).
Proof. done. Qed.

Lemma length_sapp s1 s2 : String.length (s1 +:+ s2) = (String.length s1 + String.length s2)%nat.
Proof. induction s1 as [|c s IH]; [done|]. rewrite app_cons. cbn. by rewrite IH. Qed.

Lemma length_smap f s : String.length (smap f s) = String.length s.
Proof. induction s; cbn; congruence. Qed.

Lemma stake_sdrop n s : stake n s +:+ sdrop n s = s.
Proof.
  revert s. induction n as [|n IH]; intros [|c s]; cbn [stake sdrop]; try done.
  rewrite app_cons. by rewrite IH.
Qed.

Lemma length_sdrop n s : String.length (sdrop n s) = (String.length s - n)%nat.
Proof. revert s. induction n as [|n IH]; intros [|c s]; cbn; auto with lia. Qed.

Lemma length_stake n s : String.length (stake n s) = Nat.min n (String.length s).
Proof. revert s. induction n as [|n IH]; intros [|c s]; cbn; auto. Qed.

Lemma sdrop_app s1 s2 : sdrop (String.length s1) (s1 +:+ s2) = s2.
Proof. induction s1 as [|c s IH]; [done|]. by rewrite app_cons. Qed.

Lemma stake_app s1 s2 : stake (String.length s1) (s1 +:+ s2) = s1.
Proof. induction s1 as [|c s IH]; [done|]. rewrite app_cons. cbn. by rewrite IH. Qed.

Lemma sdrop_sdrop n m s : sdrop n (sdrop m s) = sdrop (m + n) s.
Proof.
  revert s. induction m as [|m IH]; intros s; [by destruct s|].
  destruct s as [|c s]; [by destruct n|]. apply IH.
Qed.

Lemma sdrop_all n s : (String.length s <= n)%nat -> sdrop n s = "".
Proof.
  revert s. induction n as [|n IH]; intros [|c s] H; cbn in *; try done; [lia|].
  apply IH. lia.
Qed.

Lemma smap_app f s1 s2 : smap f (s1 +:+ s2) = smap f s1 +:+ smap f s2.
Proof. induction s1 as [|c s IH]; [done|]. rewrite !app_cons. cbn. by rewrite IH. Qed.

Lemma sforall_app p s1 s2 : sforall p (s1 +:+ s2) = sforall p s1 && sforall p s2.
Proof. induction s1 as [|c s IH]; [done|]. rewrite app_cons. cbn. by rewrite IH, andb_assoc. Qed.

Lemma sforall_impl p q s :
  (forall c, p c = true -> q c = true) -> sforall p s = true -> sforall q s = true.
Proof.
  intros Hpq. induction s as [|c s IH]; [done|]. cbn.
  rewrite !andb_true_iff. intros [H1 H2]. auto.
Qed.

Lemma sforall_smap p f s : sforall p (smap f s) = sforall (fun c => p (f c)) s.
Proof. induction s; cbn; congruence. Qed.

Lemma smap_id f s : sforall (fun c => Ascii.eqb (f c) c) s = true -> smap f s = s.
Proof.
  induction s as [|c s IH]; [done|]. cbn. rewrite andb_true_iff, Ascii.eqb_eq.
  intros [-> Hs]. by rewrite IH.
Qed.

(** Facts about characters are checked on all 256 of them. *)
Fixpoint all_chars_below (n : nat) (p : ascii -> bool) : bool :=
  match n with O => true | S n' => p (ascii_of_nat n') && all_chars_below n' p end.

Lemma all_chars (p : ascii -> bool) : all_chars_below 256 p = true -> forall c, p c = true.
Proof.
  intros H c.
  assert (forall n m, (m < n)%nat -> all_chars_below n p = true -> p (ascii_of_nat m) = true) as Hn.
  { induction n as [|n IH]; [lia|]. intros m Hm. cbn [all_chars_below]. rewrite andb_true_iff.
    intros [H1 H2]. destruct (decide (m = n)) as [->|]; [done|]. apply IH; [lia|done]. }
  rewrite <- (ascii_nat_embedding c). apply (Hn 256%nat); [apply nat_ascii_bounded | done].
Qed.

(** Proves [forall c, p c = true -> q c = true] and the like by evaluation. *)
Ltac by_chars c :=
  revert c;
  lazymatch goal with
  | |- forall c, @?p c = true -> @?q c = true =>
      let H := fresh in
      assert (H : forall c, implb (p c) (q c) = true) by (apply all_chars; vm_compute; reflexivity);
      intros c; specialize (H c); revert H; destruct (p c), (q c); done
  | |- forall c, @?p c = @?q c =>
      let H := fresh in
      assert (H : forall c, Ascii.eqb (p c) (q c) = true) by (apply all_chars; vm_compute; reflexivity);
      intros c; by apply Ascii.eqb_eq, H
  end.

Lemma to_lower_char_idemp c : to_lower_char (to_lower_char c) = to_lower_char c.
Proof. by_chars c. Qed.

Lemma digit_not_upper c : is_digit c = true -> Ascii.eqb (to_lower_char c) c = true.
Proof. by_chars c. Qed.

Lemma digit_not_space c : is_digit c = true -> negb (is_space c) = true.
Proof. by_chars c. Qed.

Lemma digit_not_sign c :
  is_digit c = true -> negb (Ascii.eqb c "-") && negb (Ascii.eqb c "+") = true.
Proof. by_chars c. Qed.

Lemma lower_idemp s : lower (lower s) = lower s.
Proof.
  induction s as [|c s IH]; [done|]. unfold lower in *. cbn. by rewrite to_lower_char_idemp, IH.
Qed.

Lemma length_lower s : String.length (lower s) = String.length s.
Proof. apply length_smap. Qed.

Lemma lower_id s : lower s = s <-> sforall (fun c => negb (is_upper c)) s = true.
Proof.
  assert (forall c, Bool.eqb (Ascii.eqb (to_lower_char c) c) (negb (is_upper c)) = true) as Hc
    by (apply all_chars; vm_compute; reflexivity).
  induction s as [|c s IH]; [done|]. unfold lower in *. cbn.
  specialize (Hc c). apply Bool.eqb_prop in Hc. rewrite <- Hc, andb_true_iff, Ascii.eqb_eq, <- IH.
  split; [by intros [= -> ->] | by intros [-> ->]].
Qed.

#[export] Hint Rewrite sapp_nil_r length_sapp length_smap length_sdrop length_stake
  sdrop_app stake_app smap_app sforall_app lower_idemp length_lower : str.

(** *** Searches *)

Lemma find_first_None p s : find_first p s = None <-> sforall (fun c => negb (p c)) s = true.
Proof.
  induction s as [|c s IH]; [done|]. cbn. destruct (p c); cbn; [done|].
  rewrite <- IH. by destruct (find_first p s).
Qed.

Lemma find_first_Some p s i :
  find_first p s = Some i ->
  exists c, s = stake i s +:+ String c (sdrop (S i) s) /\ p c = true /\
    sforall (fun c => negb (p c)) (stake i s) = true.
Proof.
  revert i. induction s as [|c s IH]; intros i; [done|]. cbn [find_first].
  destruct (p c) eqn:Hp.
  - intros [= <-]. by exists c.
  - destruct (find_first p s) as [j|] eqn:Hf; [|done]. intros [= <-].
    destruct (IH _ eq_refl) as (d & Hs & Hd & Ht). exists d.
    cbn [stake sdrop]. rewrite app_cons. split; [by f_equal|]. split; [done|].
    cbn. by rewrite Hp, Ht.
Qed.

Lemma find_first_app p s1 c s2 :
  sforall (fun c => negb (p c)) s1 = true -> p c = true ->
  find_first p (s1 +:+ String c s2) = Some (String.length s1).
Proof.
  intros H Hc. induction s1 as [|d s IH]; cbn [sforall] in H.
  - change ("" +:+ String c s2) with (String c s2). cbn. by rewrite Hc.
  - apply andb_true_iff in H as [Hd H]. rewrite app_cons. cbn [find_first].
    apply negb_true_iff in Hd. rewrite Hd, IH by done. done.
Qed.

Lemma span_app p s1 s2 :
  sforall p s1 = true ->
  (match s2 with "" => true | String c _ => negb (p c) end) = true ->
  span p (s1 +:+ s2) = (s1, s2).
Proof.
  intros H1 H2. induction s1 as [|c s IH].
  - destruct s2 as [|c s2]; [done|]. cbn. apply negb_true_iff in H2.
    change ("" +:+ String c s2) with (String c s2). cbn. by rewrite H2.
  - cbn in H1. apply andb_true_iff in H1 as [Hc Hs]. rewrite app_cons. cbn [span].
    by rewrite Hc, IH.
Qed.

Lemma span_all p s : sforall p s = true -> span p s = (s, "").
Proof. intros H. rewrite <- (sapp_nil_r s) at 1. by apply span_app. Qed.

(** *** Decimal numbers *)

Lemma digits_val_app b v s1 s2 acc :
  digits_val b v (s1 +:+ s2) acc = digits_val b v s2 (digits_val b v s1 acc).
Proof. revert acc. induction s1 as [|c s IH]; intros acc; [done|]. rewrite app_cons. apply IH. Qed.

Lemma digit_char_spec d :
  0 <= d < 10 -> is_digit (digit_char d) = true /\ digit_val (digit_char d) = d.
Proof.
  intros H.
  assert (d = 0 \/ d = 1 \/ d = 2 \/ d = 3 \/ d = 4 \/ d = 5 \/ d = 6 \/ d = 7 \/ d = 8 \/ d = 9)
    as Hd by lia.
  by destruct Hd as [->|[->|[->|[->|[->|[->|[->|[->|[->| ->]]]]]]]]].
Qed.

Lemma dec_digits_spec fuel n acc :
  0 <= n -> n < 2 ^ Z.of_nat fuel ->
  sforall is_digit acc = true ->
  sforall is_digit (dec_digits fuel n acc) = true /\
  (forall a, a = 0 -> digits_val 10 digit_val (dec_digits fuel n acc) a =
             digits_val 10 digit_val acc n).
Proof.
  revert n acc. induction fuel as [|f IH]; intros n acc Hn Hf Hacc.
  { cbn in *. split; [done|]. intros a ->. by replace n with 0 by lia. }
  cbn [dec_digits].
  pose proof (digit_char_spec (n mod 10)) as [Hd1 Hd2]; [lia|].
  assert (sforall is_digit (String (digit_char (n mod 10)) acc) = true) as Hacc'
    by (cbn [sforall]; by rewrite Hd1, Hacc).
  destruct (Z.ltb_spec n 10).
  - split; [done|]. intros a ->. cbn [digits_val]. rewrite Hd2. f_equal. lia.
  - edestruct (IH (n / 10) (String (digit_char (n mod 10)) acc)) as [H1 H2]; [lia| |done|].
    { rewrite Nat2Z.inj_succ, Z.pow_succ_r in Hf by lia. lia. }
    split; [done|]. intros a Ha. rewrite H2 by done. cbn [digits_val].
    rewrite Hd2. f_equal. lia.
Qed.

Lemma dec_fuel n : 0 <= n -> n < 2 ^ Z.of_nat (S (Z.to_nat (Z.log2 n))).
Proof.
  intros Hn. destruct (decide (n = 0)) as [->|]; [done|].
  rewrite Nat2Z.inj_succ, Z2Nat.id by apply Z.log2_nonneg. apply Z.log2_spec. lia.
Qed.

Lemma dec_digit n : 0 <= n -> sforall is_digit (dec n) = true.
Proof. intros. by apply dec_digits_spec; [|apply dec_fuel|]. Qed.

Lemma dec_val n : 0 <= n -> digits_val 10 digit_val (dec n) 0 = n.
Proof. intros. unfold dec. by rewrite (proj2 (dec_digits_spec _ _ "" H (dec_fuel n H) eq_refl)). Qed.

Lemma dec_digits_cons fuel n acc : acc <> "" -> exists c s, dec_digits fuel n acc = String c s.
Proof.
  revert n acc. induction fuel as [|f IH]; intros n acc Ha; cbn.
  - destruct acc; [done|eauto].
  - case_match; [eauto|]. by apply IH.
Qed.

Lemma dec_cons n : exists c s, dec n = String c s.
Proof.
  unfold dec. cbn [dec_digits]. case_match; [eauto|]. by apply dec_digits_cons.
Qed.

Lemma dec_empty n : empty (dec n) = false.
Proof. by destruct (dec_cons n) as (? & ? & ->). Qed.

Lemma dec_inj n m : 0 <= n -> 0 <= m -> dec n = dec m -> n = m.
Proof. intros Hn Hm H. rewrite <- (dec_val n), <- (dec_val m), H by done. done. Qed.

(** A string of digits has neither leading space nor sign. *)
Lemma digits_no_prefix s : sforall is_digit s = true -> take_sign (skip_space s) = (false, s).
Proof.
  destruct s as [|c s]; [done|]. cbn [sforall]. rewrite andb_true_iff. intros [Hc _].
  pose proof (digit_not_space c Hc) as Hs%negb_true_iff.
  pose proof (digit_not_sign c Hc) as H.
  rewrite andb_true_iff, !negb_true_iff in H. destruct H as [H1 H2].
  unfold skip_space. cbn [span]. rewrite Hs. cbn [snd take_sign]. by rewrite H1, H2.
Qed.

Lemma stoul10_digits s :
  sforall is_digit s = true -> empty s = false -> digits_val 10 digit_val s 0 < 2 ^ 64 ->
  stoul10 s = Ok (digits_val 10 digit_val s 0).
Proof.
  intros Hd He Hv. unfold stoul10. rewrite digits_no_prefix, span_all by done. cbn [fst].
  rewrite He. case_match eqn:Hlt; [|done]. apply Z.leb_le in Hlt. lia.
Qed.

Lemma stoul10_dec n : 0 <= n < 2 ^ 64 -> stoul10 (dec n) = Ok n.
Proof.
  intros [Hn Hlt]. rewrite <- (dec_val n Hn) at 2.
  apply stoul10_digits; [by apply dec_digit | apply dec_empty | by rewrite dec_val].
Qed.

Lemma stoi_dec n : 0 <= n < 2 ^ 31 -> stoi (dec n) = Ok n.
Proof.
  intros [Hn Hlt]. unfold stoi.
  rewrite digits_no_prefix, span_all by (by apply dec_digit).
  cbn [fst]. rewrite dec_empty, dec_val by done.
  case_match eqn:H; [|done]. apply orb_true_iff in H. lia.
Qed.

Lemma stoll_dec n : 0 <= n < 2 ^ 63 -> stoll (dec n) = Ok n.
Proof.
  intros [Hn Hlt]. unfold stoll.
  rewrite digits_no_prefix, span_all by (by apply dec_digit).
  cbn [fst]. rewrite dec_empty, dec_val by done.
  case_match eqn:H; [|done]. apply orb_true_iff in H. lia.
Qed.

Lemma from_chars_dec n : 0 <= n < 2 ^ 64 -> from_chars (dec n) = (n, "", errc_none).
Proof.
  intros [Hn Hlt]. unfold from_chars. rewrite span_all by (by apply dec_digit).
  rewrite dec_empty, dec_val by done. case_match eqn:H; [|done]. apply Z.leb_le in H. lia.
Qed.

Lemma stoul10_range s n : stoul10 s = Ok n -> 0 <= n < 2 ^ 64.
Proof.
  unfold stoul10. destruct (take_sign _) as [neg r]. case_match; [done|].
  case_match eqn:H1; [done|]. intros [= <-]. apply Z.leb_gt in H1.
  destruct neg; [apply u64_range|]. split; [|done].
  assert (forall s acc, sforall is_digit s = true -> 0 <= acc ->
    0 <= digits_val 10 digit_val s acc) as Hnn.
  { clear. induction s as [|c s IH]; intros acc; cbn; [done|].
    rewrite andb_true_iff. intros [Hc Hs] Ha. apply IH; [done|].
    unfold is_digit, in_range, digit_val in *. lia. }
  apply Hnn; [|done]. clear. induction r as [|c r IH]; [done|]. cbn.
  destruct (is_digit c) eqn:Hc; [|done]. destruct (span is_digit r). cbn in *. by rewrite Hc.
Qed.

#[export] Hint Resolve dec_digit dec_empty : cpp.

(** ** Words and lines of a rendered text *)

Lemma getlines_line delim l s :
  sforall (fun c => negb (Ascii.eqb delim c)) l = true ->
  getlines delim (l +:+ String delim s) = l :: getlines delim s.
Proof.
  induction l as [|c l IH].
  - intros _. change ("" +:+ String delim s) with (String delim s). cbn.
    by rewrite Ascii.eqb_refl.
  - cbn [sforall]. rewrite andb_true_iff, negb_true_iff. intros [Hc Hl]. rewrite app_cons.
    cbn [getlines]. by rewrite Hc, IH.
Qed.

Lemma tokens_word w c s :
  empty w = false -> sforall (fun c => negb (is_space c)) w = true -> is_space c = true ->
  tokens (w +:+ String c s) = w :: tokens s.
Proof.
  intros He Hw Hc. unfold tokens at 1.
  assert (forall w, sforall (fun c => negb (is_space c)) w = true ->
    tokens_aux (w +:+ String c s) = (w, tokens s)) as Hx.
  { clear w He Hw. induction w as [|d w IH].
    - intros _. change ("" +:+ String c s) with (String c s). cbn. rewrite Hc.
      unfold tokens. by destruct (tokens_aux s).
    - cbn [sforall]. rewrite andb_true_iff, negb_true_iff. intros [Hd Hl]. rewrite app_cons.
      cbn [tokens_aux]. rewrite IH by done. by rewrite Hd. }
  rewrite Hx by done. by rewrite He.
Qed.

(** [%08X] *)
Definition hex_char (d : Z) : ascii := if d <? 10 then digit_char d else char_of (code "A" + (d - 10)).
Definition hex8 (z : Z) : string :=
  let nib i := hex_char (z / 16 ^ i mod 16) in
  String (nib 7) (String (nib 6) (String (nib 5) (String (nib 4)
    (String (nib 3) (String (nib 2) (String (nib 1) (String (nib 0) ""))))))).

Lemma nibble_cases d : 0 <= d < 16 -> d ∈ seqZ 0 16.
Proof. rewrite elem_of_seqZ. lia. Qed.

Lemma hex_char_spec d :
  0 <= d < 16 ->
  is_hex (hex_char d) = true /\ hex_digit (hex_char d) = d /\ is_space (hex_char d) = false /\
  Ascii.eqb (hex_char d) "-" = false /\ Ascii.eqb (hex_char d) "+" = false /\
  Ascii.eqb (hex_char d) "x" = false /\ Ascii.eqb (hex_char d) "X" = false /\
  Ascii.eqb "010" (hex_char d) = false.
Proof.
  intros Hd%nibble_cases.
  assert (Forall (fun d => is_hex (hex_char d) = true /\ hex_digit (hex_char d) = d /\
    is_space (hex_char d) = false /\
    Ascii.eqb (hex_char d) "-" = false /\ Ascii.eqb (hex_char d) "+" = false /\
    Ascii.eqb (hex_char d) "x" = false /\ Ascii.eqb (hex_char d) "X" = false /\
    Ascii.eqb "010" (hex_char d) = false) (seqZ 0 16)) as Hall.
  { apply (bool_decide_unpack _). vm_compute. exact I. }
  rewrite Forall_forall in Hall. by apply Hall.
Qed.

Lemma hex8_all p z : (forall d, 0 <= d < 16 -> p (hex_char d) = true) -> sforall p (hex8 z) = true.
Proof.
  intros Hp. unfold hex8. cbn [sforall].
  rewrite !Hp by (apply Z.mod_pos_bound; lia). done.
Qed.

Lemma hex8_val z : 0 <= z < 2 ^ 32 -> digits_val 16 hex_digit (hex8 z) 0 = z.
Proof.
  intros Hz. unfold hex8. cbn [digits_val].
  rewrite !(fun i => proj1 (proj2 (hex_char_spec (z / 16 ^ i mod 16) (Z.mod_pos_bound _ 16 eq_refl)))).
  assert (forall i, 0 <= i -> z / 16 ^ (i + 1) * 16 + z / 16 ^ i mod 16 = z / 16 ^ i) as Hs.
  { intros i Hi. rewrite Z.pow_add_r by lia. rewrite <- Z.div_div by lia.
    pose proof (Z.div_mod (z / 16 ^ i) 16). lia. }
  pose proof (Hs 0) as H0. pose proof (Hs 1) as H1. pose proof (Hs 2) as H2. pose proof (Hs 3) as H3.
  pose proof (Hs 4) as H4. pose proof (Hs 5) as H5. pose proof (Hs 6) as H6. pose proof (Hs 7) as H7.
  assert (z / 16 ^ (7 + 1) = 0) as H8 by (apply Z.div_small; lia).
  change (16 ^ 0) with 1 in H0. rewrite Z.div_1_r in H0. change (16 ^ 0) with 1. rewrite Z.div_1_r.
  change (0 + 1) with 1 in *. change (1 + 1) with 2 in *. change (2 + 1) with 3 in *.
  change (3 + 1) with 4 in *. change (4 + 1) with 5 in *. change (5 + 1) with 6 in *.
  change (6 + 1) with 7 in *. rewrite H8 in H7.
  rewrite H7, H6, H5, H4, H3, H2, H1, H0 by lia. done.
Qed.

Lemma stoul16_hex8 z : 0 <= z < 2 ^ 32 -> stoul16 (hex8 z) = Ok z.
Proof.
  intros Hz. pose proof (hex8_val z Hz) as Hv.
  pose proof (hex8_all is_hex z (fun d Hd => proj1 (hex_char_spec d Hd))) as Hh.
  assert (forall i, 0 <= z / 16 ^ i mod 16 < 16) as Hb by (intros; apply Z.mod_pos_bound; lia).
  destruct (hex_char_spec _ (Hb 7)) as (_ & _ & Hsp & Hm & Hp & _).
  destruct (hex_char_spec _ (Hb 6)) as (_ & _ & _ & _ & _ & Hx & HX & _).
  assert (take_sign (skip_space (hex8 z)) = (false, hex8 z)) as Ht.
  { unfold hex8, skip_space. cbn [span]. rewrite Hsp. cbn [snd take_sign]. by rewrite Hm, Hp. }
  assert (skip_0x (hex8 z) = hex8 z) as H0.
  { unfold hex8 at 1. cbn [skip_0x]. rewrite Hx, HX. cbn [orb]. by rewrite andb_false_r. }
  unfold stoul16. rewrite Ht, H0, span_all by done. cbn [fst]. rewrite Hv.
  rewrite (proj2 (Z.leb_gt _ _)) by lia. done.
Qed.

(** ** Splitting at the first occurrence of a character *)

Definition no_char (c : ascii) (s : string) : bool := sforall (fun d => negb (Ascii.eqb c d)) s.

Lemma find_char_at c w s : no_char c w = true -> find_char c (w +:+ String c s) = Some (String.length w).
Proof. intros Hw. apply find_first_app; [done|apply Ascii.eqb_refl]. Qed.

Lemma sdrop_at c w s : sdrop (S (String.length w)) (w +:+ String c s) = s.
Proof.
  induction w as [|d w IH]; [by change ("" +:+ String c s) with (String c s)|].
  rewrite app_cons. exact IH.
Qed.

Lemma no_char_app c a b : no_char c (a +:+ b) = no_char c a && no_char c b.
Proof. apply sforall_app. Qed.

Lemma no_char_find c s : no_char c s = true <-> find_char c s = None.
Proof. symmetry. apply find_first_None. Qed.

Lemma digits_no_char c s : is_digit c = false -> sforall is_digit s = true -> no_char c s = true.
Proof.
  intros Hc. apply sforall_impl. intros d Hd. apply negb_true_iff, Ascii.eqb_neq. congruence.
Qed.

Lemma starts_with_app p s : starts_with p (p +:+ s) = true.
Proof. induction p as [|c p IH]; [by destruct s|]. rewrite app_cons. cbn. by destruct (ascii_dec c c). Qed.

(** A prefix [k=] of [k'=v] fixes the key. *)
Lemma starts_with_key c k k' v :
  no_char c k = true -> no_char c k' = true ->
  starts_with (k +:+ String c "") (k' +:+ String c v) = bool_decide (k = k').
Proof.
  revert k'. induction k as [|d k IH]; intros k' Hk Hk'.
  - change ("" +:+ ?x) with x. destruct k' as [|d' k'].
    + change ("" +:+ ?x) with x. cbn. destruct (ascii_dec c c); [by destruct v|done].
    + rewrite app_cons. cbn in Hk' |- *. destruct (ascii_dec c d') as [->|]; [|done].
      by rewrite Ascii.eqb_refl in Hk'.
  - rewrite app_cons. cbn in Hk. apply andb_true_iff in Hk as [Hd Hk].
    destruct k' as [|d' k'].
    + change ("" +:+ ?x) with x. cbn. destruct (ascii_dec d c) as [->|]; [|done].
      by rewrite Ascii.eqb_refl in Hd.
    + rewrite app_cons. cbn in Hk'. apply andb_true_iff in Hk' as [_ Hk'].
      cbn. destruct (ascii_dec d d') as [->|Hn].
      * change (starts_with (k +:+ String c "") (k' +:+ String c v) = bool_decide (String d' k = String d' k')).
        rewrite IH by done. apply bool_decide_ext. naive_solver.
      * rewrite bool_decide_false; [done|]. congruence.
Qed.

Lemma erase_char_id c s : no_char c s = true -> erase_char c s = s.
Proof.
  unfold erase_char, no_char. induction s as [|d s IH]; [done|]. cbn. rewrite andb_true_iff.
  intros [Hd Hs]. by rewrite Hd, IH.
Qed.

Lemma erase_char_app c s1 s2 : erase_char c (s1 +:+ s2) = erase_char c s1 +:+ erase_char c s2.
Proof.
  unfold erase_char. induction s1 as [|d s1 IH]; [done|]. rewrite app_cons. cbn.
  destruct (Ascii.eqb c d); cbn; by rewrite IH.
Qed.

Lemma no_char_erase c s : no_char c (erase_char c s) = true.
Proof.
  unfold no_char, erase_char. induction s as [|d s IH]; [done|]. cbn [sfilter].
  destruct (Ascii.eqb c d) eqn:Hd; cbn [negb]; [done|]. cbn [sforall]. by rewrite Hd.
Qed.

Lemma no_char_erase_other c d s : no_char d s = true -> no_char d (erase_char c s) = true.
Proof.
  unfold no_char, erase_char. induction s as [|e s IH]; [done|]. cbn [sfilter sforall].
  rewrite andb_true_iff. intros [He Hs]. destruct (negb (Ascii.eqb c e)); [|auto].
  cbn [sforall]. by rewrite He, IH.
Qed.

Lemma app_char c s : String c "" +:+ s = String c s.
Proof. done. Qed.

#[export] Hint Rewrite <- sapp_assoc : str.
#[export] Hint Rewrite app_char sapp_nil_r : str.

Lemma dec_int_nonneg z : 0 <= z -> dec_int z = dec z.
Proof. intros. unfold dec_int. by rewrite (proj2 (Z.ltb_ge z 0)) by done. Qed.

(** *** Stripping *)

Lemma find_last_end p s c : last_char s = Some c -> p c = true -> find_last p s = Some (pred (String.length s)).
Proof.
  intros Hl Hp. induction s as [|d s IH]; [done|]. cbn [last_char] in Hl. cbn [find_last].
  destruct s as [|e s].
  - cbn in *. injection Hl as ->. by rewrite Hp.
  - rewrite IH; [done|]. revert Hl. cbn [last_char]. by destruct (last_char s).
Qed.

Lemma rstrip_id s trailing c : last_char s = Some c -> char_in trailing c = false -> rstrip s trailing = s.
Proof.
  intros Hl Hc. unfold rstrip. rewrite (find_last_end _ s c) by (done || by rewrite Hc).
  destruct s as [|d s]; [done|]. cbn [String.length pred]. rewrite Nat.add_1_r.
  pose proof (stake_app (String d s) "") as Hs. rewrite sapp_nil_r in Hs. exact Hs.
Qed.

Lemma last_char_is_Some s : empty s = false -> exists c, last_char s = Some c.
Proof. destruct s as [|c s]; [done|]. intros _. cbn. destruct (last_char s); eauto. Qed.

Lemma sforall_last p s c : sforall p s = true -> last_char s = Some c -> p c = true.
Proof.
  induction s as [|d s IH]; [done|]. cbn. rewrite andb_true_iff. intros [Hd Hs].
  destruct (last_char s); [intros [= ->]; by apply IH|by intros [= <-]].
Qed.

Lemma last_char_cons c d s : last_char (String c (String d s)) = last_char (String d s).
Proof. cbn. by destruct (last_char s). Qed.

Lemma ends_with_split c s : ends_with_char c s = true -> exists r, s = r +:+ String c "".
Proof.
  unfold ends_with_char. induction s as [|d s IH]; [done|]. destruct s as [|e s].
  - cbn. intros ->%Ascii.eqb_eq. by exists "".
  - rewrite last_char_cons. intros Hl. destruct (IH Hl) as [r Hr]. rewrite Hr. by exists (String d r).
Qed.
