(* ===== verification/Regex.v ===== *)
(** * [std::regex_match]

    The regular expressions of the program, written as terms with the
    shape of the ECMAScript pattern, their language, and a matcher by
    derivatives that decides it.  [std::regex_match] asks for a match of
    the whole string, so the anchors [^] and [$] around a pattern add
    nothing. *)

From stdpp Require Import base strings list.
From Stdlib Require Import Ascii.
From S2P Require Import Prelude CppString.

Inductive regex : Type :=
  | RVoid
  | REps
  | RSet (p : ascii -> bool)          (* a character class [...] *)
  | RAlt (r1 r2 : regex)              (* r1|r2 *)
  | RCat (r1 r2 : regex)
  | RStar (r : regex).                (* r* *)

Definition RChar (c : ascii) : regex := RSet (Ascii.eqb c).
Definition ROpt (r : regex) : regex := RAlt r REps.          (* r? *)
Definition RPlus (r : regex) : regex := RCat r (RStar r).    (* r+ *)
Fixpoint RRep (r : regex) (n : nat) : regex :=               (* r{n} *)
  match n with O => REps | S n' => RCat r (RRep r n') end.

Inductive matches : regex -> string -> Prop :=
  | m_eps : matches REps ""
  | m_set p c : p c = true -> matches (RSet p) (String c "")
  | m_alt_l r1 r2 s : matches r1 s -> matches (RAlt r1 r2) s
  | m_alt_r r1 r2 s : matches r2 s -> matches (RAlt r1 r2) s
  | m_cat r1 r2 s1 s2 : matches r1 s1 -> matches r2 s2 -> matches (RCat r1 r2) (s1 +:+ s2)
  | m_star_nil r : matches (RStar r) ""
  | m_star_cons r s1 s2 :
      matches r s1 -> matches (RStar r) s2 -> matches (RStar r) (s1 +:+ s2).

Fixpoint nullable (r : regex) : bool :=
  match r with
  | RVoid | RSet _ => false
  | REps | RStar _ => true
  | RAlt r1 r2 => nullable r1 || nullable r2
  | RCat r1 r2 => nullable r1 && nullable r2
  end.

(** Constructors that drop what cannot match, to keep derivatives small. *)
Definition mkAlt (r1 r2 : regex) : regex :=
  match r1, r2 with RVoid, r => r | r, RVoid => r | _, _ => RAlt r1 r2 end.
Definition mkCat (r1 r2 : regex) : regex :=
  match r1 with RVoid => RVoid | REps => r2 | _ => RCat r1 r2 end.

Fixpoint deriv (c : ascii) (r : regex) : regex :=
  match r with
  | RVoid | REps => RVoid
  | RSet p => if p c then REps else RVoid
  | RAlt r1 r2 => mkAlt (deriv c r1) (deriv c r2)
  | RCat r1 r2 =>
      if nullable r1 then mkAlt (mkCat (deriv c r1) r2) (deriv c r2)
      else mkCat (deriv c r1) r2
  | RStar r' => mkCat (deriv c r') (RStar r')
  end.

Fixpoint regex_match (r : regex) (s : string) : bool :=
  match s with "" => nullable r | String c s' => regex_match (deriv c r) s' end.

(** ** The matcher decides the language *)

Create HintDb rx.
#[export] Hint Constructors matches : rx.

Lemma matches_cat_eq r1 r2 s s1 s2 :
  s = s1 +:+ s2 -> matches r1 s1 -> matches r2 s2 -> matches (RCat r1 r2) s.
Proof. intros ->. by constructor. Qed.

Lemma matches_void s : ~ matches RVoid s.
Proof. by inversion 1. Qed.

Lemma matches_mkAlt r1 r2 s : matches (mkAlt r1 r2) s <-> matches (RAlt r1 r2) s.
Proof.
  split.
  - destruct r1, r2; cbn; intros H; try done; eauto with rx.
  - inversion 1; subst; destruct r1, r2; cbn; eauto with rx; by edestruct matches_void.
Qed.

Lemma matches_mkCat r1 r2 s : matches (mkCat r1 r2) s <-> matches (RCat r1 r2) s.
Proof.
  split.
  - destruct r1; cbn; intros H; try done; [by edestruct matches_void|].
    by apply (m_cat REps r2 "" s); [constructor|].
  - inversion 1 as [| | | |? ? s1 s2 H1 H2| |]; subst.
    destruct r1; cbn; try done; [by edestruct matches_void|].
    by inversion H1; subst.
Qed.

Lemma matches_nullable r : nullable r = true <-> matches r "".
Proof.
  split.
  - induction r; cbn; try done; eauto with rx.
    + rewrite orb_true_iff. intros [?|?]; eauto with rx.
    + rewrite andb_true_iff. intros [? ?]. apply (m_cat _ _ "" ""); auto.
  - remember "" as s. intros H. revert Heqs. induction H; intros Hs; cbn; try done.
    + by rewrite IHmatches.
    + by rewrite IHmatches, orb_true_r.
    + destruct s1; [|done]. by rewrite IHmatches1, IHmatches2.
Qed.

Lemma matches_star_cons r c s :
  matches (RStar r) (String c s) ->
  exists s1 s2, s = s1 +:+ s2 /\ matches r (String c s1) /\ matches (RStar r) s2.
Proof.
  remember (RStar r) as r' eqn:Hr. remember (String c s) as t eqn:Ht. intros H.
  revert Hr Ht. induction H as [| | | | | |r0 s1 s2 H1 _ H2 IH]; intros Hr Ht; try done.
  injection Hr as ->. destruct s1 as [|d s1].
  - apply IH; [done|]. done.
  - rewrite app_cons in Ht. injection Ht as -> <-. eauto.
Qed.

Lemma matches_deriv c r s : matches (deriv c r) s <-> matches r (String c s).
Proof.
  revert s. induction r as [| |p|r1 IH1 r2 IH2|r1 IH1 r2 IH2|r IH]; intros s; cbn.
  - split; inversion 1.
  - split; inversion 1.
  - destruct (p c) eqn:Hp; split; inversion 1; subst; try constructor; congruence.
  - rewrite matches_mkAlt. split; inversion 1; subst; constructor; by (apply IH1 || apply IH2).
  - assert (matches (RCat r1 r2) (String c s) <->
      (matches (RCat (deriv c r1) r2) s \/ (nullable r1 = true /\ matches (deriv c r2) s))) as ->.
    { split.
      - inversion 1 as [| | | |? ? s1 s2 H1 H2 Hr Hs| |]; subst.
        destruct s1 as [|d s1].
        + change ("" +:+ s2) with s2 in Hs. subst s2. right.
          split; [by apply matches_nullable | by apply IH2].
        + rewrite app_cons in Hs. injection Hs as -> <-. left. constructor; [by apply IH1|done].
      - intros [H|[H1 H2]].
        + inversion H as [| | | |? ? s1 s2 H1 H2 Hr Hs| |]; subst.
          apply (m_cat r1 r2 (String c s1) s2); [by apply IH1|done].
        + apply (m_cat r1 r2 "" (String c s)); [by apply matches_nullable | by apply IH2]. }
    destruct (nullable r1); rewrite ?matches_mkAlt.
    + split.
      * inversion 1; subst; [left; by apply matches_mkCat | by right].
      * intros [H|[_ H]]; [apply m_alt_l; by apply matches_mkCat | by apply m_alt_r].
    + rewrite matches_mkCat. naive_solver.
  - rewrite matches_mkCat. split.
    + inversion 1 as [| | | |? ? s1 s2 H1 H2 Hr Hs| |]; subst.
      apply (m_star_cons r (String c s1) s2); [by apply IH|done].
    + intros (s1 & s2 & -> & H1 & H2)%matches_star_cons. constructor; [by apply IH|done].
Qed.

Theorem regex_match_spec r s : regex_match r s = true <-> matches r s.
Proof.
  revert r. induction s as [|c s IH]; intros r; cbn.
  - apply matches_nullable.
  - rewrite IH. apply matches_deriv.
Qed.

(** ** Languages of the shapes the program uses *)

Lemma matches_star_set p s : matches (RStar (RSet p)) s <-> sforall p s = true.
Proof.
  split.
  - induction s as [|c s IH]; [done|]. intros (s1 & s2 & -> & H1 & H2)%matches_star_cons.
    inversion H1; subst. cbn. rewrite andb_true_iff. split; [done|]. by apply IH.
  - induction s as [|c s IH]; [constructor|]. cbn. rewrite andb_true_iff. intros [Hc Hs].
    apply (m_star_cons _ (String c "") s); [by constructor|auto].
Qed.

(** [[set]+] *)
Lemma regex_plus_set p s :
  regex_match (RPlus (RSet p)) s = negb (empty s) && sforall p s.
Proof.
  apply Bool.eq_iff_eq_true. rewrite regex_match_spec. split.
  - inversion 1 as [| | | |? ? s1 s2 H1 H2| |]; subst. inversion H1; subst.
    apply matches_star_set in H2. change (p c && sforall p s2 = true). by rewrite H2, andb_true_r.
  - destruct s as [|c s]; [done|]. cbn. rewrite andb_true_iff. intros [Hc Hs].
    apply (m_cat _ _ (String c "") s); [by constructor | by apply matches_star_set].
Qed.

Lemma matches_rep_set p n s :
  matches (RRep (RSet p) n) s <-> String.length s = n /\ sforall p s = true.
Proof.
  revert s. induction n as [|n IH]; intros s; cbn [RRep].
  - split; [by inversion 1|]. intros [H _]. destruct s; [constructor|done].
  - split.
    + inversion 1 as [| | | |? ? s1 s2 H1 H2| |]; subst. inversion H1 as [|? c Hc| | | | |]; subst.
      apply IH in H2 as [Hl Hs]. split; [rewrite app_cons; cbn; by f_equal|].
      change (p c && sforall p s2 = true).
      by rewrite Hc, Hs.
    + destruct s as [|c s]; cbn; [by intros []|]. rewrite andb_true_iff. intros ([= Hl] & Hc & Hs).
      apply (m_cat _ _ (String c "") s); [by constructor | by apply IH].
Qed.

(** ** Patterns of a fixed length

    A pattern built from classes, concatenation and [{n}] only is a list of
    classes, one per character. *)

Fixpoint flat (r : regex) : option (list (ascii -> bool)) :=
  match r with
  | REps => Some []
  | RSet p => Some [p]
  | RCat r1 r2 => l1 ← flat r1; l2 ← flat r2; Some (l1 ++ l2)
  | _ => None
  end.

Fixpoint fits (ps : list (ascii -> bool)) (s : string) : bool :=
  match ps, s with
  | [], "" => true
  | p :: ps, String c s => p c && fits ps s
  | _, _ => false
  end.

Lemma fits_app ps qs s1 s2 :
  fits ps s1 = true -> fits qs s2 = true -> fits (ps ++ qs) (s1 +:+ s2) = true.
Proof.
  revert s1. induction ps as [|p ps IH]; intros [|c s1]; try done.
  rewrite app_cons. cbn. rewrite !andb_true_iff. naive_solver.
Qed.

Lemma fits_app_inv ps qs s :
  fits (ps ++ qs) s = true ->
  exists s1 s2, s = s1 +:+ s2 /\ fits ps s1 = true /\ fits qs s2 = true.
Proof.
  revert s. induction ps as [|p ps IH]; intros s; cbn.
  - intros. by exists "", s.
  - destruct s as [|c s]; [done|]. rewrite andb_true_iff. intros [Hc Hs].
    destruct (IH s Hs) as (s1 & s2 & -> & H1 & H2). exists (String c s1), s2.
    rewrite app_cons. cbn. by rewrite Hc.
Qed.

Lemma flat_fits r ps s : flat r = Some ps -> matches r s <-> fits ps s = true.
Proof.
  revert ps s. induction r as [| |p|r1 IH1 r2 IH2|r1 IH1 r2 IH2|r IH]; intros ps s; cbn; try done.
  - intros [= <-]. split; [by inversion 1|]. destruct s; [constructor|done].
  - intros [= <-]. split; [inversion 1; subst; cbn; by rewrite andb_true_r|].
    destruct s as [|c [|d s]]; cbn; try done; rewrite ?andb_false_r, ?andb_true_r; [by constructor|done].
  - destruct (flat r1) as [l1|]; [|done]. destruct (flat r2) as [l2|]; [|done]. cbn. intros [= <-].
    split.
    + inversion 1; subst. apply fits_app; [by apply (IH1 l1)|by apply (IH2 l2)].
    + intros (s1 & s2 & -> & H1 & H2)%fits_app_inv.
      constructor; [by apply (IH1 l1)|by apply (IH2 l2)].
Qed.

Lemma regex_match_flat r ps s : flat r = Some ps -> regex_match r s = fits ps s.
Proof.
  intros Hf. apply Bool.eq_iff_eq_true. rewrite regex_match_spec. by apply flat_fits.
Qed.

Lemma fits_length ps s : fits ps s = true -> String.length s = length ps.
Proof.
  revert s. induction ps as [|p ps IH]; intros [|c s]; cbn; try done.
  rewrite andb_true_iff. intros [_ Hs]. f_equal. by apply IH.
Qed.

(** A change of characters the classes do not see. *)
Lemma fits_smap f ps s :
  Forall (fun p => forall c, p c = true -> p (f c) = true) ps ->
  fits ps s = true -> fits ps (smap f s) = true.
Proof.
  intros Hp. revert s. induction Hp as [|p ps Hp _ IH]; intros [|c s]; cbn; try done.
  rewrite !andb_true_iff. intros [Hc Hs]. split; [by apply Hp|by apply IH].
Qed.
