(* ===== verification/External.v ===== *)
(** * Interfaces of the libraries the program calls

    Boost.Asio addresses and the POSIX address functions, Boost string
    algorithms, GLib key files and checksums, and the format strings of {fmt}
    that are not known at compile time are not part of the repository.  Each is
    a class of operations with a class of laws that state their documented
    behaviour; the model of the program is parametric in both.
    [Instances.v] gives an implementation that satisfies the laws. *)

From stdpp Require Import base strings list.
From Stdlib Require Import ZArith Lia Ascii.
From S2P Require Import Prelude CppString.

Local Open Scope Z_scope.

(** ** IPv4 addresses *)

(** The [i]-th octet of a 32-bit value, from the least significant one. *)
Definition octet (n i : Z) : Z := Z.land (Z.shiftr n (8 * i)) 255.

(** The dotted-decimal text of an IPv4 address given in host byte order. *)
Definition dotted (n : Z) : string :=
  dec (octet n 3) +:+ "." +:+ dec (octet n 2) +:+ "." +:+
  dec (octet n 1) +:+ "." +:+ dec (octet n 0).

(** [ntohl] and [htonl] on the little-endian machines the program supports
    ([x86_64] and [ppc64le]): the four octets reversed. *)
Definition ntohl (n : Z) : Z :=
  Z.lor (Z.lor (Z.shiftl (octet n 0) 24) (Z.shiftl (octet n 1) 16))
        (Z.lor (Z.shiftl (octet n 2) 8) (octet n 3)).
Abbreviation htonl := ntohl.

(** [boost::asio::ip::address], [inet_aton] and [inet_ntoa].  [in_addr]
    values are in network byte order. *)
Class Asio := {
  address : Type;
  address_eq_dec :: EqDecision address;
  default_address : address;                  (* address() *)
  make_address : string -> option address;    (* None: throws system_error *)
  make_address_v4 : string -> option address; (* likewise, dotted decimal only *)
  to_string : address -> string;
  is_v4 : address -> bool;
  to_uint : address -> Z;                     (* to_v4().to_uint() *)
  address_v4 : Z -> address;                  (* from a value in host order *)
  is_unspecified : address -> bool;
  inet_aton : string -> option Z;             (* None: returns 0 *)
  inet_ntoa : Z -> string;
}.

Class AsioLaws `(A : Asio) := {
  address_v4_is_v4 n : is_v4 (address_v4 n) = true;
  address_v4_uint n : 0 <= n < 2 ^ 32 -> to_uint (address_v4 n) = n;
  to_uint_range a : is_v4 a = true -> 0 <= to_uint a < 2 ^ 32;
  address_v4_to_uint a : is_v4 a = true -> address_v4 (to_uint a) = a;
  to_string_v4 n : 0 <= n < 2 ^ 32 -> to_string (address_v4 n) = dotted n;
  make_address_to_string a : make_address (to_string a) = Some a;
  make_address_v4_dotted n : 0 <= n < 2 ^ 32 -> make_address_v4 (dotted n) = Some (address_v4 n);
  is_unspecified_v4 n : 0 <= n < 2 ^ 32 -> is_unspecified (address_v4 n) = bool_decide (n = 0);
  default_address_v4 : default_address = address_v4 0;
  inet_aton_v4 n : 0 <= n < 2 ^ 32 -> inet_aton (dotted n) = Some (htonl n);
  inet_aton_v6 a : is_v4 a = false -> inet_aton (to_string a) = None;
  inet_ntoa_v4 n : 0 <= n < 2 ^ 32 -> inet_ntoa (htonl n) = dotted n;
}.

(** ** Boost string algorithms and [boost::lexical_cast] *)

Class BoostText := {
  (* boost::split(_, s, boost::is_any_of(seps)), with token_compress_on if asked *)
  split_any : forall (seps : string) (compress : bool) (s : string), list string;
  join : list string -> string -> string;
  to_lower_copy : string -> string;
  trim : string -> string;
  lexical_cast_size_t : string -> option Z;   (* None: throws bad_lexical_cast *)
}.

Definition no_sep (seps s : string) : Prop :=
  empty s = false /\ sforall (fun c => negb (char_in seps c)) s = true.

(** No white space at either end. *)
Definition trimmed (s : string) : bool :=
  match s with String c _ => negb (is_space c) | "" => true end &&
  match last_char s with Some c => negb (is_space c) | None => true end.

Class BoostTextLaws (B : BoostText) := {
  join_nil sep : join [] sep = "";
  join_one x sep : join [x] sep = x;
  join_cons x y l sep : join (x :: y :: l) sep = x +:+ sep +:+ join (y :: l) sep;
  split_join seps sep l :
    l <> [] -> empty sep = false -> sforall (char_in seps) sep = true ->
    Forall (no_sep seps) l ->
    split_any seps true (join l sep) = l;
  split_char_last c w : no_char c w = true -> split_any (String c "") false w = [w];
  split_char_cons c w s :
    no_char c w = true ->
    split_any (String c "") false (w +:+ String c s) = w :: split_any (String c "") false s;
  (* std::tolower of the classic locale on every character *)
  to_lower_copy_lower s : to_lower_copy s = lower s;
  trim_spaces a s b :
    sforall is_space a = true -> sforall is_space b = true -> trimmed s = true ->
    trim (a +:+ (s +:+ b)) = s;
  lexical_cast_dec n : 0 <= n < 2 ^ 64 -> lexical_cast_size_t (dec n) = Some n;
}.

(** [boost::lexical_cast] to the 16 bits of a port; [None] when it throws
    [bad_lexical_cast]. *)
Class BoostPort := { lexical_cast_uint16_t : string -> option Z }.

(** ** GLib key files *)

Class GKeyFile := {
  gkeyfile : Type;
  gkf_create : gkeyfile;
  gkf_get_groups : gkeyfile -> list string;
  gkf_has_group : gkeyfile -> string -> bool;
  gkf_has_key : gkeyfile -> string -> string -> option bool;     (* None: throws KeyFileError *)
  gkf_get_string : gkeyfile -> string -> string -> option string; (* None: throws KeyFileError *)
  gkf_set_string : gkeyfile -> string -> string -> string -> gkeyfile;
  gkf_get_boolean : gkeyfile -> string -> string -> option bool;  (* None: throws KeyFileError *)
  gkf_set_boolean : gkeyfile -> string -> string -> bool -> gkeyfile;
  gkf_to_data : gkeyfile -> string;
  gkf_load_from_data : string -> option gkeyfile;                 (* None: throws KeyFileError *)
}.

(** Texts a key file stores as they are: printable ASCII, and for a value
    neither a backslash nor white space at an end. *)
Definition printable (c : ascii) : bool := in_range " " "~" c.
Definition group_text (g : string) : bool :=
  negb (empty g) && sforall (fun c => printable c && negb (char_in "[]" c)) g.
Definition key_text (k : string) : bool :=
  negb (empty k) && sforall (fun c => printable c && negb (char_in "[]=# " c)) k.
Definition value_text (v : string) : bool :=
  sforall (fun c => printable c && negb (char_in "\" c)) v && trimmed v.

Definition storable `{GKeyFile} (kf : gkeyfile) : Prop :=
  NoDup (gkf_get_groups kf) /\
  Forall (fun g => group_text g = true) (gkf_get_groups kf) /\
  forall g k, gkf_has_key kf g k = Some true ->
    key_text k = true /\ exists v, gkf_get_string kf g k = Some v /\ value_text v = true.

Class GKeyFileLaws (G : GKeyFile) := {
  gkf_create_groups : gkf_get_groups gkf_create = [];
  gkf_has_group_spec kf g : gkf_has_group kf g = bool_decide (g ∈ gkf_get_groups kf);
  (* g_key_file_has_key reports G_KEY_FILE_ERROR_GROUP_NOT_FOUND *)
  gkf_has_key_group kf g k : gkf_has_key kf g k = None <-> gkf_has_group kf g = false;
  gkf_get_has kf g k v : gkf_get_string kf g k = Some v -> gkf_has_key kf g k = Some true;
  gkf_set_groups kf g k v :
    gkf_get_groups (gkf_set_string kf g k v) =
    if gkf_has_group kf g then gkf_get_groups kf else gkf_get_groups kf ++ [g];
  gkf_set_get kf g k v g' k' :
    gkf_get_string (gkf_set_string kf g k v) g' k' =
    if decide ((g', k') = (g, k)) then Some v else gkf_get_string kf g' k';
  gkf_set_has kf g k v g' k' :
    gkf_has_key (gkf_set_string kf g k v) g' k' =
    if decide ((g', k') = (g, k)) then Some true
    else if decide (g' = g) then Some (default false (gkf_has_key kf g' k'))
    else gkf_has_key kf g' k';
  gkf_set_boolean_string kf g k b :
    gkf_set_boolean kf g k b = gkf_set_string kf g k (if b : bool then "true" else "false");
  (* what is written is read back *)
  gkf_reload kf : storable kf ->
    exists kf', gkf_load_from_data (gkf_to_data kf) = Some kf' /\
     gkf_get_groups kf' = gkf_get_groups kf /\
     forall g k, gkf_has_key kf' g k = gkf_has_key kf g k /\ gkf_get_string kf' g k = gkf_get_string kf g k;
}.

(** ** {fmt} run-time format strings *)

(** [fmt::format(fmt::runtime(s), fmt::arg(name, value)...)] for text
    arguments; [inl what]: throws a [fmt::format_error] with that text. *)
Class Fmt := { vformat : string -> list (string * string) -> string + string }.

Inductive piece := Text (s : string) | Field (name : string).

Fixpoint template (ps : list piece) : string :=
  match ps with
  | [] => ""
  | Text s :: ps => s +:+ template ps
  | Field name :: ps => "{" +:+ name +:+ "}" +:+ template ps
  end.

Fixpoint named (args : list (string * string)) (name : string) : option string :=
  match args with
  | [] => None
  | (n, v) :: args => if String.eqb n name then Some v else named args name
  end.

Fixpoint expand (args : list (string * string)) (ps : list piece) : option string :=
  match ps with
  | [] => Some ""
  | Text s :: ps => String.app s <$> expand args ps
  | Field name :: ps => v ← named args name; String.app v <$> expand args ps
  end.

Definition piece_ok (p : piece) : bool :=
  match p with
  | Text s => no_char "{" s && no_char "}" s
  | Field name => negb (empty name) && sforall is_alpha name
  end.

Class FmtLaws (F : Fmt) := {
  vformat_template args ps :
    forallb piece_ok ps = true ->
    match expand args ps with
    | Some text => vformat (template ps) args = inr text
    | None => exists what, vformat (template ps) args = inl what
    end;
}.

(** ** Boost property trees and glibc *)

(** [boost::property_tree::ptree] as an INI file: [read_ini] throws on a text
    it does not know, and [write_ini] on a tree it cannot write. *)
Class BoostIni := {
  ptree : Type;
  ptree_empty : ptree;
  ptree_put : string -> string -> ptree -> ptree;
  read_ini : string -> option ptree;
  write_ini : ptree -> option string;
}.

(** [strverscmp] *)
Class Glibc := { strverscmp : string -> string -> Z }.

(** ** GLib checksums *)

Class GChecksum := {
  gchecksum : Type;
  gc_sha256 : gchecksum;
  gc_update : gchecksum -> string -> gchecksum;
  gc_get_string : gchecksum -> string;
}.

Class GChecksumLaws (C : GChecksum) := {
  gc_update_empty c : gc_update c "" = c;
  gc_update_app c a b : gc_update (gc_update c a) b = gc_update c (a +:+ b);
}.

(** ** Octets and byte order *)

Lemma octet_range n i : 0 <= i -> 0 <= octet n i < 256.
Proof.
  intros Hi. unfold octet. change 255 with (Z.ones 8). rewrite Z.land_ones by lia.
  apply Z.mod_pos_bound. lia.
Qed.

(** Bit [j] of an octet. *)
Lemma octet_testbit n i j :
  0 <= i -> 0 <= j -> Z.testbit (octet n i) j = (j <? 8) && Z.testbit n (8 * i + j).
Proof.
  intros Hi Hj. unfold octet. change 255 with (Z.ones 8).
  rewrite Z.land_spec, Z.shiftr_spec, Z.testbit_ones_nonneg by lia.
  rewrite andb_comm. f_equal. f_equal. lia.
Qed.

(** A bit of a 32-bit value lies in one of the four octets. *)
Lemma bits_in_octets (P : Z -> Prop) :
  (forall i j, 0 <= i < 4 -> 0 <= j < 8 -> P (8 * i + j)) -> forall k, 0 <= k < 32 -> P k.
Proof.
  intros HP k Hk. replace k with (8 * (k / 8) + k mod 8) by lia. apply HP; lia.
Qed.

Lemma testbit_high n k : 0 <= n < 2 ^ 32 -> 32 <= k -> Z.testbit n k = false.
Proof.
  intros Hn Hk. destruct (decide (n = 0)) as [->|]; [apply Z.testbit_0_l|].
  apply Z.bits_above_log2; [lia|]. apply (Z.lt_le_trans _ 32); [|done].
  apply Z.log2_lt_pow2; lia.
Qed.

(** Octet [i] of the swapped value is octet [3 - i]. *)
Lemma ntohl_testbit n i j :
  0 <= i < 4 -> 0 <= j < 8 -> Z.testbit (ntohl n) (8 * i + j) = Z.testbit n (8 * (3 - i) + j).
Proof.
  intros Hi Hj. unfold ntohl. rewrite !Z.lor_spec, !Z.shiftl_spec by lia.
  assert (forall k d, k <> d -> 0 <= k < 4 -> 0 <= d < 4 ->
    Z.testbit (octet n k) (8 * i + j - 8 * (3 - k)) = if decide (i = 3 - k) then Z.testbit n (8 * k + j) else false)
    as Ho.
  { intros k d _ Hk _. case_decide as Hd.
    - subst i. rewrite octet_testbit by lia. replace (8 * (3 - k) + j - 8 * (3 - k)) with j by lia.
      rewrite (proj2 (Z.ltb_lt j 8)) by lia. done.
    - destruct (decide (0 <= 8 * i + j - 8 * (3 - k))); [|by rewrite Z.testbit_neg_r by lia].
      rewrite octet_testbit by lia. rewrite (proj2 (Z.ltb_ge _ 8)) by lia. done. }
  pose proof (Ho 0 1) as H0. pose proof (Ho 1 0) as H1.
  pose proof (Ho 2 0) as H2. pose proof (Ho 3 0) as H3.
  replace (8 * i + j - 8 * (3 - 3)) with (8 * i + j) in H3 by lia.
  change (8 * (3 - 0)) with 24 in H0. change (8 * (3 - 1)) with 16 in H1.
  change (8 * (3 - 2)) with 8 in H2.
  rewrite H0, H1, H2, H3 by lia.
  assert (i = 0 \/ i = 1 \/ i = 2 \/ i = 3) as [->|[->|[->| ->]]] by lia; cbn;
    rewrite ?orb_false_r; done.
Qed.

Lemma lor_bound a b : 0 <= a < 2 ^ 32 -> 0 <= b < 2 ^ 32 -> 0 <= Z.lor a b < 2 ^ 32.
Proof.
  intros Ha Hb. split; [apply Z.lor_nonneg; lia|].
  destruct (decide (Z.lor a b = 0)) as [->|Hn]; [lia|].
  pose proof (Z.lor_nonneg a b) as Hnn.
  apply Z.log2_lt_pow2; [lia|]. rewrite Z.log2_lor by lia.
  apply Z.max_lub_lt; (destruct (decide (a = 0)) as [->|], (decide (b = 0)) as [->|];
    try done; apply Z.log2_lt_pow2; lia).
Qed.

Lemma ntohl_range n : 0 <= ntohl n < 2 ^ 32.
Proof.
  assert (forall i s, 0 <= i -> 0 <= s <= 24 -> 0 <= Z.shiftl (octet n i) s < 2 ^ 32) as H.
  { intros i s Hi Hs. pose proof (octet_range n i Hi). rewrite Z.shiftl_mul_pow2 by lia.
    split; [apply Z.mul_nonneg_nonneg; lia|].
    apply (Z.lt_le_trans _ (2 ^ 8 * 2 ^ s)).
    - apply Z.mul_lt_mono_pos_r; lia.
    - rewrite <- Z.pow_add_r by lia. apply Z.pow_le_mono_r; lia. }
  unfold ntohl. repeat apply lor_bound; try (apply H; lia).
  pose proof (octet_range n 3). lia.
Qed.

Lemma eq_by_bits a b :
  0 <= a < 2 ^ 32 -> 0 <= b < 2 ^ 32 ->
  (forall i j, 0 <= i < 4 -> 0 <= j < 8 -> Z.testbit a (8 * i + j) = Z.testbit b (8 * i + j)) ->
  a = b.
Proof.
  intros Ha Hb H. apply Z.bits_inj'. intros k Hk.
  destruct (decide (k < 32)).
  - revert k Hk l. intros k Hk Hk'. apply (bits_in_octets (fun k => Z.testbit a k = Z.testbit b k)); [done|lia].
  - by rewrite !testbit_high by lia.
Qed.

Lemma ntohl_invol n : 0 <= n < 2 ^ 32 -> ntohl (ntohl n) = n.
Proof.
  intros Hn. apply eq_by_bits; [apply ntohl_range|done|]. intros i j Hi Hj.
  rewrite !ntohl_testbit by lia. f_equal. lia.
Qed.

Lemma land_range a b : 0 <= a < 2 ^ 32 -> 0 <= b -> 0 <= Z.land a b < 2 ^ 32.
Proof.
  intros Ha Hb. split; [apply Z.land_nonneg; lia|].
  destruct (decide (Z.land a b = 0)) as [->|Hn]; [lia|].
  pose proof (proj2 (Z.land_nonneg a b)).
  apply Z.log2_lt_pow2; [lia|]. apply (Z.le_lt_trans _ (Z.min (Z.log2 a) (Z.log2 b))).
  - apply Z.log2_land; lia.
  - destruct (decide (a = 0)) as [->|]; [by rewrite Z.land_0_l in Hn|].
    apply Z.min_lt_iff. left. apply Z.log2_lt_pow2; lia.
Qed.

(** Masking commutes with the byte order: the program masks [in_addr]
    values without converting them. *)
Lemma ntohl_land a b :
  0 <= a < 2 ^ 32 -> 0 <= b < 2 ^ 32 -> ntohl (Z.land a b) = Z.land (ntohl a) (ntohl b).
Proof.
  intros Ha Hb. pose proof (ntohl_range a). pose proof (ntohl_range b).
  apply eq_by_bits; [apply ntohl_range | apply land_range; lia |]. intros i j Hi Hj.
  by rewrite ntohl_testbit, !Z.land_spec, !ntohl_testbit by lia.
Qed.

#[export] Hint Resolve ntohl_range octet_range land_range : cpp.

(** ** Derived facts of the laws *)

Section asio.
Context `{AL : AsioLaws}.

Lemma to_string_inj a b : to_string a = to_string b -> a = b.
Proof.
  intros H. apply (f_equal make_address) in H. rewrite !make_address_to_string in H. congruence.
Qed.

Lemma v4_ind (P : address -> Prop) a :
  is_v4 a = true -> (forall n, 0 <= n < 2 ^ 32 -> P (address_v4 n)) -> P a.
Proof. intros Ha HP. rewrite <- address_v4_to_uint by done. apply HP. by apply to_uint_range. Qed.

Lemma make_address_dotted n : 0 <= n < 2 ^ 32 -> make_address (dotted n) = Some (address_v4 n).
Proof. intros. by rewrite <- to_string_v4, make_address_to_string. Qed.

Lemma address_v4_inj n m :
  0 <= n < 2 ^ 32 -> 0 <= m < 2 ^ 32 -> address_v4 n = address_v4 m -> n = m.
Proof. intros Hn Hm H. rewrite <- (address_v4_uint n), <- (address_v4_uint m), H by done. done. Qed.

Lemma is_unspecified_v4_uint a :
  is_v4 a = true -> is_unspecified a = bool_decide (to_uint a = 0).
Proof.
  intros Ha. rewrite <- (address_v4_to_uint a) at 1 by done.
  by apply is_unspecified_v4, to_uint_range.
Qed.
End asio.
