(* ===== verification/Instances.v ===== *)
(** * A concrete implementation of the external interfaces

    Executable stand-ins for Boost, the POSIX address functions and GLib key
    files that satisfy the laws of [External.v].  They show that the laws
    can hold and let examples run; nothing in the model depends on them. *)

From stdpp Require Import base strings list gmap.
From Stdlib Require Import ZArith Lia Ascii Eqdep_dec.
From S2P Require Import Prelude CppString External.

Local Open Scope Z_scope.

(** ** Addresses: every IPv4 address, and two IPv6 ones *)

Record u32_t := U32 { u32_val : Z; u32_ok : (0 <=? u32_val) && (u32_val <? 2 ^ 32) = true }.

#[export] Instance u32_t_eq_dec : EqDecision u32_t.
Proof.
  intros [x Hx] [y Hy]. destruct (decide (x = y)) as [->|Hn].
  - left. f_equal. apply UIP_dec. decide equality.
  - right. congruence.
Defined.

Lemma u32_t_eq x y : u32_val x = u32_val y -> x = y.
Proof. destruct x as [x Hx], y as [y Hy]. cbn. intros ->. f_equal. apply UIP_dec. decide equality. Qed.

Lemma u32_in_range n : (0 <=? u32 n) && (u32 n <? 2 ^ 32) = true.
Proof. pose proof (u32_range n). apply andb_true_iff. lia. Qed.

Inductive addr := A4 (n : u32_t) | A6_any | A6_loopback.

#[export] Instance addr_eq_dec : EqDecision addr.
Proof. solve_decision. Defined.

Definition addr_v4 (n : Z) : addr := A4 (U32 (u32 n) (u32_in_range n)).

Definition parse_octet (s : string) : option Z :=
  let v := digits_val 10 digit_val s 0 in
  if empty s || negb (sforall is_digit s) || (255 <? v) || negb (bool_decide (dec v = s))
  then None else Some v.

Fixpoint split_aux (p : ascii -> bool) (compress : bool) (s : string) : string * list string :=
  match s with
  | "" => ("", [])
  | String c s' =>
      let '(w, ws) := split_aux p compress s' in
      if p c then
        if compress && match s' with String d _ => p d | "" => false end
        then ("", ws) else ("", w :: ws)
      else (String c w, ws)
  end.
Definition split_with (p : ascii -> bool) (compress : bool) (s : string) : list string :=
  let '(w, ws) := split_aux p compress s in w :: ws.

Definition parse_dotted (s : string) : option Z :=
  match split_with (Ascii.eqb ".") false s with
  | [a; b; c; d] =>
      a ← parse_octet a; b ← parse_octet b; c ← parse_octet c; d ← parse_octet d;
      Some (a * 2 ^ 24 + b * 2 ^ 16 + c * 2 ^ 8 + d)
  | _ => None
  end.

Definition parse_addr (s : string) : option addr :=
  if bool_decide (s = "::") then Some A6_any
  else if bool_decide (s = "::1") then Some A6_loopback
  else addr_v4 <$> parse_dotted s.

#[export] Instance asio_impl : Asio := {|
  address := addr;
  default_address := addr_v4 0;
  make_address := parse_addr;
  make_address_v4 s := addr_v4 <$> parse_dotted s;
  to_string a := match a with A4 n => dotted (u32_val n) | A6_any => "::" | A6_loopback => "::1" end;
  is_v4 a := match a with A4 _ => true | _ => false end;
  to_uint a := match a with A4 n => u32_val n | _ => 0 end;
  address_v4 := addr_v4;
  is_unspecified a := match a with A4 n => u32_val n =? 0 | A6_any => true | _ => false end;
  inet_aton s := htonl <$> parse_dotted s;
  inet_ntoa n := dotted (ntohl n);
|}.

Lemma dec_octet_parse n i : 0 <= i -> parse_octet (dec (octet n i)) = Some (octet n i).
Proof.
  intros Hi. pose proof (octet_range n i Hi) as [H1 H2]. unfold parse_octet.
  rewrite dec_val, dec_empty, dec_digit, bool_decide_true by done. cbn.
  rewrite (proj2 (Z.ltb_ge 255 _)) by lia. done.
Qed.

Lemma split_aux_no_sep p b s :
  sforall (fun c => negb (p c)) s = true -> split_aux p b s = (s, []).
Proof.
  induction s as [|c s IH]; [done|]. cbn. rewrite andb_true_iff, negb_true_iff.
  intros [Hc Hs]. by rewrite IH, Hc.
Qed.

Lemma split_with_cons p b s1 c s2 :
  sforall (fun c => negb (p c)) s1 = true -> p c = true ->
  (b && match s2 with String d _ => p d | "" => false end) = false ->
  split_with p b (s1 +:+ String c s2) = s1 :: split_with p b s2.
Proof.
  intros H1 Hc Hb.
  assert (split_aux p b (s1 +:+ String c s2) =
    (s1, let '(w, ws) := split_aux p b s2 in w :: ws)) as Ha.
  { induction s1 as [|d s IH].
    - change ("" +:+ String c s2) with (String c s2). cbn.
      destruct (split_aux p b s2) as [w ws]. by rewrite Hc, Hb.
    - cbn in H1. apply andb_true_iff in H1 as [Hd%negb_true_iff H1]. rewrite app_cons. cbn.
      by rewrite IH, Hd. }
  unfold split_with at 1. by rewrite Ha.
Qed.

Lemma digit_not_dot c : is_digit c = true -> negb (Ascii.eqb "." c) = true.
Proof. by_chars c. Qed.

Lemma dec_no_dot n : 0 <= n -> sforall (fun c => negb (Ascii.eqb "." c)) (dec n) = true.
Proof. intros. eapply sforall_impl; [apply digit_not_dot|]. by apply dec_digit. Qed.

Lemma octet_split n : 0 <= n < 2 ^ 32 ->
  octet n 3 * 2 ^ 24 + octet n 2 * 2 ^ 16 + octet n 1 * 2 ^ 8 + octet n 0 = n.
Proof.
  intros Hn. unfold octet. change 255 with (Z.ones 8).
  rewrite !Z.land_ones, !Z.shiftr_div_pow2 by lia.
  change (2 ^ (8 * 3)) with 16777216. change (2 ^ (8 * 2)) with 65536.
  change (2 ^ (8 * 1)) with 256. change (2 ^ (8 * 0)) with 1. change (2 ^ 8) with 256.
  change (2 ^ 24) with 16777216. change (2 ^ 16) with 65536. change (2 ^ 32) with 4294967296 in Hn.
  lia.
Qed.

Lemma parse_dotted_dotted n : 0 <= n < 2 ^ 32 -> parse_dotted (dotted n) = Some n.
Proof.
  intros Hn. unfold parse_dotted, dotted.
  pose proof (fun i => octet_range n i) as Ho.
  change ("." +:+ dec (octet n 2) +:+ "." +:+ dec (octet n 1) +:+ "." +:+ dec (octet n 0)) with
    (String "." (dec (octet n 2) +:+ String "." (dec (octet n 1) +:+ String "." (dec (octet n 0))))).
  rewrite !split_with_cons by (done || apply dec_no_dot, Ho; lia).
  unfold split_with. rewrite split_aux_no_sep by (apply dec_no_dot, Ho; lia).
  rewrite !dec_octet_parse by lia. cbn [mbind option_bind]. f_equal. by apply octet_split.
Qed.

Lemma dotted_cons n : exists c s, dotted n = String c s /\ is_digit c = true.
Proof.
  unfold dotted. destruct (dec_cons (octet n 3)) as (c & s & Hc).
  pose proof (dec_digit (octet n 3) (proj1 (octet_range n 3 ltac:(lia)))) as Hd.
  rewrite Hc in *. cbn in Hd. apply andb_true_iff in Hd as [Hd _]. rewrite app_cons. eauto.
Qed.

Lemma parse_addr_dotted n : 0 <= n < 2 ^ 32 -> parse_addr (dotted n) = Some (addr_v4 n).
Proof.
  intros Hn. unfold parse_addr. destruct (dotted_cons n) as (c & s & Hc & Hd).
  rewrite !bool_decide_false by (intros E; rewrite Hc in E; by injection E as -> _).
  by rewrite parse_dotted_dotted.
Qed.

#[export] Instance asio_impl_laws : AsioLaws asio_impl.
Proof.
  assert (forall n, 0 <= n < 2 ^ 32 -> u32_val (U32 (u32 n) (u32_in_range n)) = n) as Hu.
  { intros n Hn. by apply u32_id. }
  assert (forall x, 0 <= u32_val x < 2 ^ 32) as Hr.
  { intros [x Hx]. cbn. apply andb_true_iff in Hx. lia. }
  constructor; cbn.
  - done.
  - done.
  - intros [x| |]; cbn; [intros; apply Hr|done|done].
  - intros [x| |]; cbn; [|done|done]. intros _. unfold addr_v4. f_equal. apply u32_t_eq. by apply Hu.
  - intros n Hn. by rewrite u32_id.
  - intros [x| |]; [|done|done]. rewrite parse_addr_dotted by apply Hr. f_equal.
    unfold addr_v4. f_equal. apply u32_t_eq. by apply Hu.
  - intros n Hn. by rewrite parse_dotted_dotted.
  - intros n Hn. rewrite u32_id by done. apply Bool.eq_iff_eq_true. by rewrite Z.eqb_eq, bool_decide_eq_true.
  - done.
  - intros n Hn. by rewrite parse_dotted_dotted.
  - intros [x| |]; done.
  - intros n Hn. by rewrite ntohl_invol.
Qed.

(** ** Boost text *)

Fixpoint trim_end (s : string) : string :=
  match s with
  | "" => ""
  | String c s' => let t := trim_end s' in if empty t && is_space c then "" else String c t
  end.

Lemma trim_end_space b : sforall is_space b = true -> trim_end b = "".
Proof. induction b as [|c b IH]; [done|]. cbn. rewrite andb_true_iff. intros [-> Hb]. by rewrite IH. Qed.

Lemma trim_end_app s b :
  match last_char s with Some c => negb (is_space c) | None => true end = true ->
  sforall is_space b = true -> trim_end (s +:+ b) = s.
Proof.
  intros Hl Hb. induction s as [|c s IH]; [by apply trim_end_space|]. rewrite app_cons. cbn [trim_end].
  destruct s as [|d s].
  - cbn in Hl. change ("" +:+ b) with b. rewrite trim_end_space by done.
    apply negb_true_iff in Hl. by rewrite Hl.
  - rewrite IH; [done|]. revert Hl. cbn [last_char]. by destruct (last_char s).
Qed.

Lemma trim_end_span a s b :
  sforall is_space a = true -> sforall is_space b = true -> trimmed s = true ->
  trim_end (span is_space (a +:+ (s +:+ b))).2 = s.
Proof.
  intros Ha Hb [Hf Hl]%andb_true_iff. destruct s as [|c s].
  - change ("" +:+ b) with b. rewrite span_all; [done|]. by rewrite sforall_app, Ha, Hb.
  - rewrite span_app by done. by apply trim_end_app.
Qed.

#[export] Instance text_impl : BoostText := {|
  split_any seps compress s := split_with (char_in seps) compress s;
  join l sep := concat_sep sep l;
  to_lower_copy := lower;
  trim s := trim_end (span is_space s).2;
  lexical_cast_size_t s :=
    let v := digits_val 10 digit_val s 0 in
    if empty s || negb (sforall is_digit s) || (2 ^ 64 <=? v) then None else Some v;
|}.

#[export] Instance port_impl : BoostPort := {|
  lexical_cast_uint16_t s :=
    let v := digits_val 10 digit_val s 0 in
    if empty s || negb (sforall is_digit s) || (2 ^ 16 <=? v) then None else Some v;
|}.

Lemma split_aux_head p s : match s with String d _ => p d | "" => false end = true ->
  fst (split_aux p true s) = "".
Proof.
  destruct s as [|c s]; [done|]. cbn. intros Hc. destruct (split_aux p true s) as [w ws].
  rewrite Hc. by destruct (match s with "" => false | String d _ => p d end).
Qed.

Lemma char_in_single c d : char_in (String c "") d = Ascii.eqb c d.
Proof.
  unfold char_in, find_char. cbn [find_first]. rewrite Ascii.eqb_sym.
  by destruct (Ascii.eqb c d).
Qed.

(** A run of separators counts once. *)
Lemma split_with_run p w sep rest :
  empty sep = false -> sforall p sep = true ->
  sforall (fun c => negb (p c)) w = true ->
  match rest with String d _ => p d | "" => false end = false ->
  split_with p true (w +:+ (sep +:+ rest)) = w :: split_with p true rest.
Proof.
  intros He Hp Hw Hr. destruct sep as [|c sep]; [done|]. clear He.
  revert c Hp. induction sep as [|d sep IH]; intros c Hp.
  - cbn in Hp. apply andb_true_iff in Hp as [Hp _]. rewrite app_cons.
    change ("" +:+ rest) with rest. apply split_with_cons; [done|done|]. by rewrite Hr.
  - cbn in Hp. apply andb_true_iff in Hp as [Hc Hp]. specialize (IH d Hp).
    rewrite <- IH. rewrite (app_cons c). unfold split_with.
    clear IH. induction w as [|x w IHw].
    + change ("" +:+ ?y) with y. rewrite !(app_cons d). cbn [split_aux].
      pose proof (split_aux_head p (String d (sep +:+ rest))) as Hh.
      apply andb_true_iff in Hp as [Hd Hp]. specialize (Hh Hd). cbn [split_aux] in Hh.
      destruct (split_aux p true (sep +:+ rest)) as [v vs].
      rewrite Hc, Hd. cbn [andb].
      rewrite Hd in Hh. destruct (match sep +:+ rest with "" => false | String d _ => p d end); done.
    + cbn in Hw. apply andb_true_iff in Hw as [Hx%negb_true_iff Hw]. specialize (IHw Hw).
      rewrite !(app_cons x). cbn [split_aux]. rewrite Hx.
      destruct (split_aux p true (w +:+ String c (String d sep +:+ rest))),
               (split_aux p true (w +:+ (String d sep +:+ rest))).
      by injection IHw as -> ->.
Qed.

#[export] Instance text_impl_laws : BoostTextLaws text_impl.
Proof.
  constructor; cbn -[empty sforall dec digits_val]; [done..| | | | | |].
  - intros seps sep l Hl He Hs Hf. destruct l as [|w l]; [done|]. clear Hl.
    revert w Hf. induction l as [|x l IH]; intros w Hf; apply Forall_cons in Hf as [[Hw1 Hw2] Hf].
    + cbn. unfold split_with. by rewrite split_aux_no_sep.
    + change (concat_sep sep (w :: x :: l)) with (w +:+ (sep +:+ concat_sep sep (x :: l))).
      rewrite split_with_run; [by rewrite IH|done|done|done|].
      apply Forall_cons in Hf as [[Hx1 Hx2] _]. destruct x as [|c x]; [done|].
      cbn in Hx2. apply andb_true_iff in Hx2 as [Hx2%negb_true_iff _].
      destruct l; cbn; [done|]. by rewrite app_cons.
  - intros c w Hw. unfold split_with. rewrite split_aux_no_sep; [done|].
    eapply sforall_impl; [|exact Hw]. intros d. by rewrite char_in_single.
  - intros c w s Hw. apply split_with_cons; [|by rewrite char_in_single; apply Ascii.eqb_refl|done].
    eapply sforall_impl; [|exact Hw]. intros d. by rewrite char_in_single.
  - done.
  - intros a s b Ha Hb Ht. apply trim_end_span; done.
  - intros n Hn. rewrite dec_empty, dec_digit, dec_val by lia. cbn -[Z.leb].
    by rewrite (proj2 (Z.leb_gt _ _)) by lia.
Qed.

(** ** Key files: the groups in file order, each with its entries *)

Definition kf := list (string * list (string * string)).

Fixpoint alist_get {A} (l : list (string * A)) (k : string) : option A :=
  match l with
  | [] => None
  | (k', v) :: l => if bool_decide (k' = k) then Some v else alist_get l k
  end.
Fixpoint alist_set {A} (l : list (string * A)) (k : string) (v : A) : list (string * A) :=
  match l with
  | [] => [(k, v)]
  | (k', w) :: l => if bool_decide (k' = k) then (k, v) :: l else (k', w) :: alist_set l k v
  end.

Lemma alist_get_set {A} (l : list (string * A)) k v k' :
  alist_get (alist_set l k v) k' = if decide (k' = k) then Some v else alist_get l k'.
Proof.
  induction l as [|[x w] l IH]; cbn.
  - do 2 case_bool_decide || case_decide; naive_solver.
  - repeat (case_bool_decide || case_decide || cbn); naive_solver.
Qed.

Lemma alist_set_keys {A} (l : list (string * A)) k v :
  map fst (alist_set l k v) =
  match alist_get l k with Some _ => map fst l | None => map fst l ++ [k] end.
Proof.
  induction l as [|[x w] l IH]; cbn; [done|].
  case_bool_decide; cbn; [by subst|]. rewrite IH. by destruct (alist_get l k).
Qed.

Lemma alist_get_elem {A} (l : list (string * A)) k :
  is_Some (alist_get l k) <-> k ∈ map fst l.
Proof.
  induction l as [|[x w] l IH]; cbn.
  - split; [by intros []|by intros ?%elem_of_nil].
  - rewrite elem_of_cons, <- IH. case_bool_decide; naive_solver.
Qed.

Lemma alist_get_app {A} (l1 l2 : list (string * A)) k :
  alist_get (l1 ++ l2) k = match alist_get l1 k with Some v => Some v | None => alist_get l2 k end.
Proof. induction l1 as [|[x w] l IH]; cbn; [done|]. by case_bool_decide. Qed.

Definition kf_trim (s : string) : string := (span is_space s).2.

(** One line: a comment, a group header, or [key=value]. *)
Definition kf_line (st : option (kf * option string)) (line : string) : option (kf * option string) :=
  '(f, cur) ← st;
  match line with
  | "" | String "#" _ => Some (f, cur)
  | String "[" r =>
      match find_char "]" r with
      | Some i => let g := stake i r in
                  Some (match alist_get f g with Some _ => f | None => f ++ [(g, [])] end, Some g)
      | None => None
      end
  | _ =>
      i ← find_char "=" line; g ← cur; es ← alist_get f g;
      Some (alist_set f g (alist_set es (rstrip (stake i line) " ") (kf_trim (sdrop (S i) line))), cur)
  end.

Definition kf_header (g : string) : string := String "[" (g +:+ "]").
Definition kf_entry (es : list (string * string)) (k : string) : string :=
  k +:+ String "=" (default "" (alist_get es k)).
Definition kf_group (f : kf) (g : string) : list string :=
  let es := default [] (alist_get f g) in kf_header g :: map (kf_entry es) (map fst es).
Definition kf_lines (f : kf) : list string := map fst f ≫= kf_group f.

#[export] Instance keyfile_impl : GKeyFile := {|
  gkeyfile := kf;
  gkf_create := [];
  gkf_get_groups := map fst;
  gkf_has_group f g := bool_decide (is_Some (alist_get f g));
  gkf_has_key f g k := (fun es => bool_decide (is_Some (alist_get es k))) <$> alist_get f g;
  gkf_get_string f g k := alist_get f g ≫= fun es => alist_get es k;
  gkf_set_string f g k v := alist_set f g (alist_set (default [] (alist_get f g)) k v);
  gkf_get_boolean f g k :=
    match alist_get f g ≫= fun es => alist_get es k with
    | Some "true" => Some true | Some "false" => Some false | _ => None
    end;
  gkf_set_boolean f g k v :=
    alist_set f g (alist_set (default [] (alist_get f g)) k (if v : bool then "true" else "false"));
  gkf_to_data f := unlines (kf_lines f);
  gkf_load_from_data s := fst <$> foldl kf_line (Some ([], None)) (getlines "010" s);
|}.

(** *** Reading back what is written *)

Lemma getlines_unlines l : Forall (fun x => no_char "010" x = true) l -> getlines "010" (unlines l) = l.
Proof.
  induction 1 as [|x l Hx _ IH]; [done|]. cbn [unlines]. rewrite getlines_line by exact Hx. by rewrite IH.
Qed.

Lemma sforall_no_char p c s : p c = false -> sforall p s = true -> no_char c s = true.
Proof.
  intros Hc. apply sforall_impl. intros d Hd. apply negb_true_iff.
  destruct (Ascii.eqb_spec c d); [congruence|done].
Qed.

Lemma kf_line_header f cur g :
  group_text g = true ->
  kf_line (Some (f, cur)) (kf_header g) =
  Some (match alist_get f g with Some _ => f | None => f ++ [(g, [])] end, Some g).
Proof.
  intros [_ Hg]%andb_true_iff. unfold kf_header. cbn.
  rewrite (find_char_at "]" g "") by (by eapply sforall_no_char; [|exact Hg]).
  by rewrite stake_app.
Qed.

Lemma kf_line_entry f g es k v :
  key_text k = true -> value_text v = true -> alist_get f g = Some es ->
  kf_line (Some (f, Some g)) (k +:+ String "=" v) = Some (alist_set f g (alist_set es k v), Some g).
Proof.
  intros [Hn Hk]%andb_true_iff [Hv Hs]%andb_true_iff Hg. destruct k as [|c k]; [done|].
  assert (negb (Ascii.eqb c "#") && negb (Ascii.eqb c "[") = true) as Hc.
  { cbn in Hk. apply andb_true_iff in Hk as [Hc _]. clear -Hc. revert Hc. by_chars c. }
  assert (kf_line (Some (f, Some g)) (String c k +:+ String "=" v) =
    (i ← find_char "=" (String c k +:+ String "=" v); g ← Some g; es ← alist_get f g;
     Some (alist_set f g (alist_set es (rstrip (stake i (String c k +:+ String "=" v)) " ")
       (kf_trim (sdrop (S i) (String c k +:+ String "=" v)))), Some g))) as ->.
  { rewrite app_cons. cbn [kf_line mbind option_bind].
    destruct c as [[] [] [] [] [] [] [] []]; first [reflexivity|discriminate Hc]. }
  rewrite find_char_at by (by eapply sforall_no_char; [|exact Hk]).
  cbn [mbind option_bind]. rewrite Hg. cbn [mbind option_bind]. rewrite stake_app, sdrop_at.
  assert (rstrip (String c k) " " = String c k) as ->.
  { destruct (last_char_is_Some (String c k)) as [d Hd]; [done|]. apply (rstrip_id _ _ d Hd).
    eapply sforall_last in Hd; [|exact Hk]. clear -Hd. apply negb_true_iff. revert Hd. by_chars d. }
  assert (kf_trim v = v) as ->; [|done].
  unfold kf_trim. destruct v as [|d v]; [done|].
  apply andb_true_iff in Hs as [Hd%negb_true_iff _]. cbn. by rewrite Hd.
Qed.
(** The entries of a group. *)
Lemma kf_read_entries f g es0 es ks :
  alist_get f g = Some es0 ->
  Forall (fun k => key_text k = true /\ value_text (default "" (alist_get es k)) = true) ks ->
  exists f' es', foldl kf_line (Some (f, Some g)) (kf_entry es <$> ks) = Some (f', Some g) /\
    map fst f' = map fst f /\ alist_get f' g = Some es' /\
    (forall g', g' <> g -> alist_get f' g' = alist_get f g') /\
    forall k, alist_get es' k = if decide (k ∈ ks) then Some (default "" (alist_get es k)) else alist_get es0 k.
Proof.
  intros Hg Hks. revert f es0 Hg. induction Hks as [|k ks [Hk Hv] _ IH]; intros f es0 Hg.
  - exists f, es0. do 4 (split; [done|]). intros k. rewrite decide_False; [done|]. apply not_elem_of_nil.
  - cbn [fmap list_fmap foldl]. unfold kf_entry at 1. rewrite (kf_line_entry _ _ es0) by done.
    destruct (IH (alist_set f g (alist_set es0 k (default "" (alist_get es k)))) (alist_set es0 k (default "" (alist_get es k))))
      as (f' & es' & Hf & Hm & He & Ho & Hes).
    { by rewrite alist_get_set, decide_True. }
    exists f', es'. split; [exact Hf|]. split; [|split; [done|split]].
    + by rewrite Hm, alist_set_keys, Hg.
    + intros g' Hn. by rewrite Ho, alist_get_set, decide_False.
    + intros k'. rewrite Hes, alist_get_set.
      destruct (decide (k' = k)) as [->|Hn].
      * rewrite (decide_True (P := k ∈ k :: ks)) by left. by case_decide.
      * destruct (decide (k' ∈ ks)); [by rewrite decide_True by by right|].
        rewrite decide_False; [done|]. by intros [?|?]%elem_of_cons.
Qed.

(** What a text shows of a file: its entries, group by group. *)
Lemma kf_read_groups f gs f0 cur :
  NoDup gs -> (forall g, g ∈ gs -> g ∉ map fst f0) ->
  Forall (fun g => group_text g = true /\
    Forall (fun k => key_text k = true /\ value_text (default "" (alist_get (default [] (alist_get f g)) k)) = true)
      (map fst (default [] (alist_get f g)))) gs ->
  exists f' cur', foldl kf_line (Some (f0, cur)) (gs ≫= kf_group f) = Some (f', cur') /\
    map fst f' = map fst f0 ++ gs /\
    (forall g, g ∉ gs -> alist_get f' g = alist_get f0 g) /\
    forall g, g ∈ gs -> exists es', alist_get f' g = Some es' /\
      forall k, alist_get es' k = alist_get (default [] (alist_get f g)) k.
Proof.
  intros Hnd Hnew Hok. revert f0 cur Hnew. induction Hok as [|g gs [Hg Hks] _ IH]; intros f0 cur Hnew.
  - exists f0, cur. rewrite app_nil_r. repeat split. by intros g ?%elem_of_nil.
  - apply NoDup_cons in Hnd as [Hgs Hnd]. set (es := default [] (alist_get f g)) in *.
    assert (alist_get f0 g = None) as Hnone.
    { destruct (alist_get f0 g) eqn:He; [|done]. exfalso. apply (Hnew g); [by left|].
      apply alist_get_elem. by eexists. }
    rewrite bind_cons, foldl_app.
    change (kf_group f g) with (kf_header g :: (kf_entry es <$> map fst es)). cbn [foldl].
    rewrite kf_line_header, Hnone by done.
    destruct (kf_read_entries (f0 ++ [(g, [])]) g [] es (map fst es)) as (f1 & es1 & Hf1 & Hm1 & He1 & Ho1 & Hes1).
    { rewrite alist_get_app, Hnone. cbn. by rewrite bool_decide_true. }
    { exact Hks. }
    rewrite map_app in Hm1. cbn in Hm1.
    destruct (IH Hnd f1 (Some g)) as (f' & cur' & Hf & Hm & Ho & Hes).
    { intros g' Hg'. rewrite Hm1. intros [?|?%list_elem_of_singleton]%elem_of_app; [|by subst].
      by apply (Hnew g'); [right|]. }
    exists f', cur'. split; [exact (eq_trans (f_equal (fun st => foldl kf_line st _) Hf1) Hf)|]. split; [|split].
    + rewrite Hm, Hm1. by rewrite <- app_assoc.
    + intros g' Hg'. apply not_elem_of_cons in Hg' as [Hn Hg']. rewrite Ho, Ho1, alist_get_app by done.
      destruct (alist_get f0 g'); [done|]. cbn. by rewrite bool_decide_false.
    + intros g' [->|Hg']%elem_of_cons; [|by apply Hes]. exists es1. split; [by rewrite Ho|].
      intros k. rewrite Hes1. case_decide as Hk.
      * apply alist_get_elem in Hk as [v Hv]. unfold es in *. by rewrite Hv.
      * destruct (alist_get es k) eqn:He; [|done]. exfalso. apply Hk, alist_get_elem. by eexists.
Qed.
Lemma kf_lines_no_newline f gs :
  Forall (fun g => group_text g = true /\
    Forall (fun k => key_text k = true /\ value_text (default "" (alist_get (default [] (alist_get f g)) k)) = true)
      (map fst (default [] (alist_get f g)))) gs ->
  Forall (fun x => no_char "010" x = true) (gs ≫= kf_group f).
Proof.
  intros Hok. apply Forall_bind. eapply Forall_impl; [exact Hok|]. intros g [[_ Hg]%andb_true_iff Hks].
  unfold kf_group. constructor.
  - assert (no_char "010" g = true) as Hn by (by eapply sforall_no_char; [|exact Hg]).
    change (no_char "010" (g +:+ "]") = true). unfold no_char. rewrite sforall_app. by unfold no_char in Hn; rewrite Hn.
  - apply Forall_map. eapply Forall_impl; [exact Hks|]. intros k [[_ Hk]%andb_true_iff [Hv _]%andb_true_iff].
    set (v := default "" _) in *.
    assert (no_char "010" k = true) as Hnk by (by eapply sforall_no_char; [|exact Hk]).
    assert (no_char "010" v = true) as Hnv by (by eapply sforall_no_char; [|exact Hv]).
    unfold kf_entry, no_char. rewrite sforall_app. unfold no_char in Hnk. rewrite Hnk. exact Hnv.
Qed.

Lemma kf_reload (f : kf) : @storable keyfile_impl f ->
  exists f', gkf_load_from_data (gkf_to_data (f : gkeyfile)) = Some f' /\
    gkf_get_groups f' = gkf_get_groups (f : gkeyfile) /\
    forall g k, gkf_has_key f' g k = gkf_has_key (f : gkeyfile) g k /\
      gkf_get_string f' g k = gkf_get_string (f : gkeyfile) g k.
Proof.
  intros (Hnd & Hg & Hk). cbn in Hnd, Hg.
  assert (Forall (fun g => group_text g = true /\
    Forall (fun k => key_text k = true /\ value_text (default "" (alist_get (default [] (alist_get f g)) k)) = true)
      (map fst (default [] (alist_get f g)))) (map fst f)) as Hok.
  { rewrite Forall_forall in Hg |- *. intros g Hin. split; [by apply Hg|]. apply Forall_forall. intros k Hkin.
    apply alist_get_elem in Hin as [es Hes]. rewrite Hes in *. cbn in Hkin |- *.
    destruct (Hk g k) as (Hkt & v & Hv & Hvt).
    { cbn. rewrite Hes. cbn. by rewrite bool_decide_true by by apply alist_get_elem. }
    split; [done|]. cbn in Hv. rewrite Hes in Hv. cbn in Hv. by rewrite Hv. }
  destruct (kf_read_groups f (map fst f) [] None Hnd) as (f' & cur' & Hf & Hm & Ho & Hes).
  { by intros g _ ?%elem_of_nil. }
  { exact Hok. }
  exists f'. cbn -[kf_line]. unfold kf_lines. rewrite getlines_unlines by by apply kf_lines_no_newline.
  rewrite Hf. split; [done|]. split; [exact Hm|]. intros g k.
  destruct (decide (g ∈ map fst f)) as [Hin|Hout].
  - destruct (Hes g Hin) as (es' & -> & Hes'). apply alist_get_elem in Hin as [es He]. rewrite He in *.
    cbn in *. by rewrite Hes'.
  - rewrite Ho by done. destruct (alist_get f g) eqn:He; [|done]. exfalso. apply Hout, alist_get_elem. by eexists.
Qed.

#[export] Instance keyfile_impl_laws : GKeyFileLaws keyfile_impl.
Proof.
  constructor; cbn.
  - done.
  - intros f g. apply bool_decide_ext, alist_get_elem.
  - intros f g k. destruct (alist_get f g); cbn; split; done.
  - intros f g k v. destruct (alist_get f g); cbn; [|done]. intros H.
    f_equal. by apply bool_decide_eq_true; eexists.
  - intros f g k v. rewrite alist_set_keys. by destruct (alist_get f g).
  - intros f g k v g' k'. rewrite alist_get_set.
    repeat case_decide; simplify_eq/=; rewrite ?alist_get_set; repeat case_decide; simplify_eq/=; try done.
    by destruct (alist_get f g).
  - intros f g k v g' k'. rewrite alist_get_set.
    repeat case_decide; simplify_eq/=; rewrite ?alist_get_set; repeat case_decide; simplify_eq/=; try done.
    by destruct (alist_get f g).
  - done.
  - intros f Hf. apply kf_reload, Hf.
Qed.

(** ** Format strings *)

(** [field] is the text after an opening brace. *)
Fixpoint format_loop (args : list (string * string)) (field : option string) (s : string) : option string :=
  match s, field with
  | "", None => Some ""
  | "", Some _ => None
  | String "{" s, None => format_loop args (Some "") s
  | String "{" s, Some "" => String "{" <$> format_loop args None s
  | String "}" (String "}" s), None => String "}" <$> format_loop args None s
  | String "}" _, None => None
  | String "}" s, Some name => v ← named args name; String.app v <$> format_loop args None s
  | String c s, None => String c <$> format_loop args None s
  | String c s, Some name => format_loop args (Some (name +:+ String c "")) s
  end.

#[export] Instance fmt_impl : Fmt := {|
  vformat s args := match format_loop args None s with Some text => inr text | None => inl "argument not found" end |}.

Lemma format_text args s r :
  no_char "{" s = true -> no_char "}" s = true ->
  format_loop args None (s +:+ r) = String.app s <$> format_loop args None r.
Proof.
  induction s as [|c s IH]; intros H1 H2.
  - change ("" +:+ r) with r. by destruct (format_loop args None r).
  - cbn in H1, H2. apply andb_true_iff in H1 as [Hc1%negb_true_iff H1].
    apply andb_true_iff in H2 as [Hc2%negb_true_iff H2]. specialize (IH H1 H2). rewrite app_cons.
    assert (format_loop args None (String c (s +:+ r)) = String c <$> format_loop args None (s +:+ r)) as ->.
    { cbn [format_loop]. destruct c as [[] [] [] [] [] [] [] []]; first [reflexivity|discriminate Hc1|discriminate Hc2]. }
    rewrite IH. by destruct (format_loop args None r).
Qed.

Lemma format_field args p name r :
  empty p = false \/ empty name = false -> sforall is_alpha name = true ->
  format_loop args (Some p) (name +:+ String "}" r) =
  (v ← named args (p +:+ name); String.app v <$> format_loop args None r).
Proof.
  revert p. induction name as [|c name IH]; intros p Hp Ha.
  - change ("" +:+ String "}" r) with (String "}" r). rewrite sapp_nil_r. destruct p as [|d p]; [by destruct Hp|].
    destruct r as [|[[] [] [] [] [] [] [] []] r]; reflexivity.
  - cbn in Ha. apply andb_true_iff in Ha as [Hc Ha]. rewrite app_cons.
    assert (format_loop args (Some p) (String c (name +:+ String "}" r)) =
      format_loop args (Some (p +:+ String c "")) (name +:+ String "}" r)) as ->.
    { cbn [format_loop]. destruct c as [[] [] [] [] [] [] [] []]; first [reflexivity|discriminate Hc]. }
    rewrite IH; [|left; by destruct p|done]. by rewrite <- sapp_assoc.
Qed.

Lemma format_template args ps : forallb piece_ok ps = true -> format_loop args None (template ps) = expand args ps.
Proof.
  induction ps as [|[s|name] ps IH]; [done|..]; cbn [forallb piece_ok template expand];
    intros [Hp Hps]%andb_true_iff; apply andb_true_iff in Hp as [H1 H2]; specialize (IH Hps).
  - rewrite format_text by done. by rewrite IH.
  - apply negb_true_iff in H1. rewrite <- IH.
    change (format_loop args (Some "") (name +:+ String "}" (template ps)) =
      (v ← named args name; String.app v <$> format_loop args None (template ps))).
    rewrite (format_field args "" name) by auto. done.
Qed.

#[export] Instance fmt_impl_laws : FmtLaws fmt_impl.
Proof.
  constructor. intros args ps Hp. cbn. rewrite format_template by done.
  destruct (expand args ps); [done|by eexists].
Qed.

(** ** Checksums: the text itself stands for its checksum *)

#[export] Instance checksum_impl : GChecksum := {|
  gchecksum := string; gc_sha256 := ""; gc_update c s := c +:+ s; gc_get_string c := c |}.

#[export] Instance checksum_impl_laws : GChecksumLaws checksum_impl.
Proof. constructor; [apply sapp_nil_r|]. intros c a b. symmetry. apply sapp_assoc. Qed.

(** ** INI files of [key=value] lines, and the plain order of texts *)

Fixpoint ini_put (key value : string) (t : list (string * string)) : list (string * string) :=
  match t with
  | [] => [(key, value)]
  | (k, v) :: t => if String.eqb k key then (key, value) :: t else (k, v) :: ini_put key value t
  end.

#[export] Instance ini_impl : BoostIni := {|
  ptree := list (string * string);
  ptree_empty := [];
  ptree_put := ini_put;
  read_ini s := mapM (fun l => i ← find_char "=" l; Some (stake i l, sdrop (S i) l)) (getlines "010" s);
  write_ini t := Some (unlines ((fun kv => kv.1 +:+ "=" +:+ kv.2) <$> t)) |}.

#[export] Instance glibc_impl : Glibc := {|
  strverscmp a b := match String.compare a b with Lt => -1 | Eq => 0 | Gt => 1 end |}.
