(* ===== verification/Enums.v ===== *)
(** * Enumerations and containers

    [include/opencattus/utils/enums.h], [optional.h] and [containers.h]: the
    names of an enumeration, parsing them back, and look-ups that throw.
    magic_enum reflects an enumeration as its enumerators with their names;
    the class [CppEnum] carries that table for each enumeration of the
    program. *)

From stdpp Require Import base strings list.
From Stdlib Require Import ZArith Lia.
From S2P Require Import Prelude CppString.

Inductive Case := Sensitive | Insensitive.

(** [magic_enum::enum_values] and [magic_enum::enum_name]. *)
Class CppEnum (T : Type) := {
  enum_eq_dec :: EqDecision T;
  enum_values : list T;
  enum_name : T -> string;
  enum_complete x : x ∈ enum_values;
  enum_distinct : NoDup ((fun x => lower (enum_name x)) <$> enum_values);
}.
#[export] Hint Mode CppEnum ! : typeclass_instances.

(** Discharges the laws of a concrete enumeration by evaluation. *)
Ltac solve_enum :=
  solve [ intros []; apply (bool_decide_unpack _); vm_compute; exact I
        | apply (bool_decide_unpack _); vm_compute; exact I ].

(** [opt.value()] replaced by a message of the caller's. *)
Definition unwrap {T} (opt : option T) (msg : string) : outcome T :=
  match opt with
  | None => Throw (RuntimeError msg)
  | Some x => Ok x
  end.

(** [containers::associative::findOpt] on a map given by its entries. *)
Fixpoint findOpt {K V} `{EqDecision K} (container : list (K * V)) (key : K) : option V :=
  match container with
  | [] => None
  | (k, v) :: rest => if decide (k = key) then Some v else findOpt rest key
  end.

Definition findExc {K V} `{EqDecision K} (container : list (K * V)) (key : K)
    (msg : string) : outcome V :=
  unwrap (findOpt container key) msg.

Section enums.
Context {T : Type} `{CppEnum T}.

Definition toString (x : T) : string := enum_name x.
Definition toStringLower (x : T) : string := lower (toString x).
Definition toStringUpper (x : T) : string := upper (toString x).
Definition toStrings : list string := enum_name <$> enum_values (T := T).
Definition count : nat := length (enum_values (T := T)).

(** [magic_enum::enum_cast]: the first enumerator whose name matches. *)
Definition enum_cast (eq : string -> string -> bool) (str : string) : option T :=
  snd <$> list_find (fun x => Is_true (eq (enum_name x) str)) enum_values.

Definition ofStringOpt (str : string) (case_ : Case) : option T :=
  match case_ with
  | Insensitive => enum_cast (fun a b => String.eqb (lower a) (lower b)) str
  | Sensitive => enum_cast String.eqb str
  end.

Definition ofStringExc (str : string) (case_ : Case) : outcome T :=
  unwrap (ofStringOpt str case_)
    ("Invalid enum conversion, expecting one of " +:+ concat_sep "," toStrings +:+
     ", found " +:+ str).

(** *** What the conversions compute *)

Lemma enum_name_lower_inj (x y : T) : lower (enum_name x) = lower (enum_name y) -> x = y.
Proof.
  pose proof (enum_complete x) as Hx. pose proof (enum_complete y) as Hy.
  pose proof (enum_distinct (T := T)) as Hd. intros He.
  apply list_elem_of_lookup in Hx as [i Hi]. apply list_elem_of_lookup in Hy as [j Hj].
  assert (i = j) as ->; [|congruence].
  eapply (NoDup_lookup _ i j (lower (enum_name x)) Hd); rewrite list_lookup_fmap.
  - by rewrite Hi.
  - by rewrite Hj, He.
Qed.

Lemma enum_cast_spec eq str x :
  (forall a b, eq a b = true -> lower a = lower b) ->
  enum_cast eq str = Some x <-> eq (enum_name x) str = true.
Proof.
  intros Heq. unfold enum_cast. rewrite fmap_Some. split.
  - intros ([i y] & (Hi & Hp & _)%list_find_Some & ->). by apply Is_true_true.
  - intros Hx. destruct (list_find_elem_of (fun y => Is_true (eq (enum_name y) str)) enum_values x)
      as [[i y] Hf]; [apply enum_complete|by apply Is_true_true|].
    exists (i, y). split; [done|]. cbn.
    apply list_find_Some in Hf as (_ & Hy%Is_true_true & _).
    apply enum_name_lower_inj. by rewrite (Heq _ _ Hx), (Heq _ _ Hy).
Qed.

Lemma ofStringOpt_sensitive str x :
  ofStringOpt str Sensitive = Some x <-> str = toString x.
Proof.
  unfold ofStringOpt. rewrite enum_cast_spec.
  - rewrite String.eqb_eq. unfold toString. by split.
  - intros a b ->%String.eqb_eq. done.
Qed.

Lemma ofStringOpt_insensitive str x :
  ofStringOpt str Insensitive = Some x <-> lower str = toStringLower x.
Proof.
  unfold ofStringOpt. rewrite enum_cast_spec.
  - rewrite String.eqb_eq. unfold toStringLower, toString. by split.
  - intros a b. by rewrite String.eqb_eq.
Qed.
End enums.
Arguments toStrings T {_}.
Arguments count T {_}.

#[export] Hint Rewrite @ofStringOpt_sensitive @ofStringOpt_insensitive : cpp.
