(* ===== verification/Network.v ===== *)
(** * Networks

    The class [Network] of [src/network.cpp] and [include/opencattus/network.h],
    the parsers of [/proc/net/route] and NetworkManager files it uses, and
    [src/utils/network.cpp].  Kernel tables ([getifaddrs], [/proc], the
    resolver state) are arguments. *)

From stdpp Require Import base strings list relations.
From Stdlib Require Import ZArith Lia Ascii.
From S2P Require Import Prelude CppString Regex External Enums.

Local Open Scope Z_scope.

Module Profile.
Inductive t := External | Management | Service | Application.
#[global] Instance t_eq_dec : EqDecision t. Proof. solve_decision. Defined.
#[global, program] Instance t_enum : CppEnum t := {|
  enum_values := [External; Management; Service; Application];
  enum_name x := match x with
    | External => "External" | Management => "Management"
    | Service => "Service" | Application => "Application" end |}.
Solve All Obligations with solve_enum.
End Profile.

Module NetType.
Inductive t := Ethernet | Infiniband.
#[global] Instance t_eq_dec : EqDecision t. Proof. solve_decision. Defined.
#[global, program] Instance t_enum : CppEnum t := {|
  enum_values := [Ethernet; Infiniband];
  enum_name x := match x with Ethernet => "Ethernet" | Infiniband => "Infiniband" end |}.
Solve All Obligations with solve_enum.
End NetType.

(** ** Kernel tables *)

(** A [struct sockaddr]: an [AF_INET] one carries its [sin_addr] in network
    byte order. *)
Inductive sockaddr := AF_INET (sin_addr : Z) | other_family.

Record ifaddrs := {
  ifa_name : string;
  ifa_addr : option sockaddr;       (* null or not *)
  ifa_netmask : option sockaddr;
}.

(** [getifaddrs]: the list it links, or [strerror(errno)]. *)
Definition getifaddrs_result : Type := string + list ifaddrs.

(** The table of [network.h]. *)
Definition cidr : list (string * Z) :=
  [("0.0.0.0", 0); ("128.0.0.0", 1); ("192.0.0.0", 2);
   ("224.0.0.0", 3); ("240.0.0.0", 4); ("248.0.0.0", 5);
   ("252.0.0.0", 6); ("254.0.0.0", 7); ("255.0.0.0", 8);
   ("255.128.0.0", 9); ("255.192.0.0", 10);
   ("255.224.0.0", 11); ("255.240.0.0", 12);
   ("255.248.0.0", 13); ("255.252.0.0", 14);
   ("255.254.0.0", 15); ("255.255.0.0", 16);
   ("255.255.128.0", 17); ("255.255.192.0", 18);
   ("255.255.224.0", 19); ("255.255.240.0", 20);
   ("255.255.248.0", 21); ("255.255.252.0", 22);
   ("255.255.254.0", 23); ("255.255.255.0", 24);
   ("255.255.255.128", 25); ("255.255.255.192", 26);
   ("255.255.255.224", 27); ("255.255.255.240", 28);
   ("255.255.255.248", 29); ("255.255.255.252", 30);
   ("255.255.255.254", 31); ("255.255.255.255", 32)].

Definition cidr_contains (s : string) : bool := bool_decide (is_Some (findOpt cidr s)).

Definition subnetMaskToCIDR `{Asio} (addr : address) : outcome Z :=
  findExc cidr (to_string addr) ("Cannot convert " +:+ to_string addr +:+ " to CIDR").

(** ** Gateway parsers *)

Section gateways.
Context `{Asio}.

Definition gatewayFromRouteHex (rawGateway : string) : option address :=
  match stoul16 rawGateway with
  | Ok v =>
      let raw := u32 v in
      if raw =? 0 then None else Some (address_v4 (ntohl raw))
  | _ => None
  end.

Fixpoint procRoute_loop (lines : list string) (interface : string) : option address :=
  match lines with
  | [] => None
  | line :: rest =>
      let fields := tokens line in
      let iface := default "" (fields !! 0%nat) in
      let destination := default "" (fields !! 1%nat) in
      let gateway := default "" (fields !! 2%nat) in
      if negb (String.eqb iface interface) || negb (String.eqb destination "00000000")
      then procRoute_loop rest interface
      else gatewayFromRouteHex gateway
  end.

(** The first line is the heading. *)
Definition parseGatewayFromProcRoute (routes interface : string) : option address :=
  procRoute_loop (tail (getlines "010" routes)) interface.

Definition parseFirstAddressToken (raw : string) : option address :=
  let normalized := replace_char "," " " raw in
  (fix loop ts :=
     match ts with
     | [] => None
     | token :: ts' =>
         match make_address token with
         | Some candidate => if negb (is_unspecified candidate) then Some candidate else loop ts'
         | None => loop ts'
         end
     end) (tokens normalized).

Definition routersPrefix : string := "dhcp4.routers=".

Fixpoint nmDevice_loop (lines : list string) : option address :=
  match lines with
  | [] => None
  | line :: rest =>
      if negb (starts_with routersPrefix line) then nmDevice_loop rest
      else parseFirstAddressToken (sdrop (String.length routersPrefix) line)
  end.

Definition parseGatewayFromNetworkManagerDevice (device : string) : option address :=
  nmDevice_loop (getlines "010" device).

(** [routes] is the content of [/proc/net/route] when it can be opened. *)
Definition fetchGatewayFromProcRouteFile (routes : option string) (interface : string)
  : option address :=
  match routes with
  | None => None
  | Some content => parseGatewayFromProcRoute content interface
  end.

(** [nametoindex] is [if_nametoindex]; [devices] opens a path. *)
Definition fetchGatewayFromNetworkManagerDeviceFile (nametoindex : string -> Z)
    (files : string -> option string) (interface : string) : option address :=
  let ifindex := nametoindex interface in
  if ifindex =? 0 then None
  else
    match files ("/run/NetworkManager/devices/" +:+ dec ifindex) with
    | None => None
    | Some content => parseGatewayFromNetworkManagerDevice content
    end.

Definition fetchGateway (routes : option string) (nametoindex : string -> Z)
    (files : string -> option string) (interface : string) : address :=
  match fetchGatewayFromProcRouteFile routes interface with
  | Some a => a
  | None =>
      match fetchGatewayFromNetworkManagerDeviceFile nametoindex files interface with
      | Some a => a
      | None => default_address
      end
  end.
End gateways.

(** ** The class *)

Section network.
Context `{Asio}.

Record Network := mkNetwork {
  m_profile : Profile.t;
  m_type : NetType.t;
  m_address : address;
  m_subnetMask : address;
  m_gateway : address;
  m_vlan : Z;
  m_domainName : string;
  m_nameservers : list address;
}.

Definition put_address a (n : Network) : Network :=
  mkNetwork (m_profile n) (m_type n) a (m_subnetMask n) (m_gateway n) (m_vlan n)
    (m_domainName n) (m_nameservers n).
Definition put_subnetMask a (n : Network) : Network :=
  mkNetwork (m_profile n) (m_type n) (m_address n) a (m_gateway n) (m_vlan n)
    (m_domainName n) (m_nameservers n).
Definition put_gateway a (n : Network) : Network :=
  mkNetwork (m_profile n) (m_type n) (m_address n) (m_subnetMask n) a (m_vlan n)
    (m_domainName n) (m_nameservers n).
Definition put_vlan v (n : Network) : Network :=
  mkNetwork (m_profile n) (m_type n) (m_address n) (m_subnetMask n) (m_gateway n) v
    (m_domainName n) (m_nameservers n).
Definition put_domainName d (n : Network) : Network :=
  mkNetwork (m_profile n) (m_type n) (m_address n) (m_subnetMask n) (m_gateway n) (m_vlan n)
    d (m_nameservers n).
Definition put_nameservers l (n : Network) : Network :=
  mkNetwork (m_profile n) (m_type n) (m_address n) (m_subnetMask n) (m_gateway n) (m_vlan n)
    (m_domainName n) l.

(** [boost::asio::ip::make_address(s)], throwing. *)
Definition make_address_exc (s : string) : outcome address :=
  match make_address s with
  | Some a => Ok a
  | None => Throw (SystemError "make_address")
  end.

(** The string overloads: convert, then call the address overload; a
    [system_error] becomes a [runtime_error] with [msg]. *)
Definition from_string {S} (setter : address -> M S unit) (msg : string) (s : string)
  : M S unit :=
  try_catchM (a ← lift (make_address_exc s); setter a)
    is_system_error (fun _ => throw (RuntimeError msg)).

Definition setAddress (ip : address) : M Network unit :=
  unspecifiedAddress ← lift (make_address_exc "0.0.0.0");
  if bool_decide (ip = unspecifiedAddress)
  then throw (RuntimeError "IP address cannot be 0.0.0.0")
  else modify (put_address ip).

Definition setAddress_string (ip : string) : M Network unit :=
  from_string setAddress "Invalid IP address" ip.

Definition setSubnetMask (subnetMask : address) : M Network unit :=
  if negb (cidr_contains (to_string subnetMask))
  then throw (RuntimeError "Invalid subnet mask")
  else modify (put_subnetMask subnetMask).

Definition setSubnetMask_string (subnetMask : string) : M Network unit :=
  from_string setSubnetMask "Invalid subnet mask" subnetMask.

Definition setGateway (gateway : address) : M Network unit := modify (put_gateway gateway).

Definition setGateway_string (gateway : string) : M Network unit :=
  from_string setGateway "Invalid gateway" gateway.

(** [vlan] is a [uint16_t]. *)
Definition setVLAN (vlan : Z) : M Network unit :=
  if 4096 <=? vlan then throw (OutOfRange "VLAN value must be less than 4096.")
  else modify (put_vlan vlan).

Definition regex_digits : regex := RPlus (RSet is_digit).                 (* ^[0-9]+$ *)
Definition domain_char (c : ascii) : bool :=
  is_alpha c || is_digit c || Ascii.eqb c "-" || Ascii.eqb c ".".
Definition regex_domain : regex := RPlus (RSet domain_char).              (* ^[A-Za-z0-9-.]+$ *)

Definition setDomainName (domainName : string) : M Network unit :=
  if empty domainName then throw (InvalidArgument "Domain name cannot be empty.")
  else if 255 <? size domainName then
    throw (LengthError "Domain name exceeds the maximum allowed length of 255 characters.")
  else if starts_with_char "-" domainName || ends_with_char "-" domainName then
    throw (RuntimeError "Hostname cannot start or end with a hyphen.")
  else if regex_match regex_digits domainName then
    throw (InvalidArgument "Domain name should not consist solely of numeric digits.")
  else if negb (regex_match regex_domain domainName) then
    throw (InvalidArgument ("Domain name (" +:+ domainName +:+
      ") contains invalid characters. Only alphanumeric characters and hyphens are allowed."))
  else modify (put_domainName domainName).

(** [name] is what [getdomainname] stored, or [None] when it failed. *)
Definition fetchDomainName (name : option string) : outcome string :=
  match name with
  | None => Throw (RuntimeError "Failed to fetch domain name")
  | Some ret => Ok (if String.eqb ret "(none)" then "" else ret)
  end.

Definition getNameservers (n : Network) : list address := m_nameservers n.

Definition setNameservers (nameservers : list address) : M Network unit :=
  if bool_decide (nameservers = []) then skip
  else for_each nameservers
         (fun ns => modify (fun n => put_nameservers (m_nameservers n ++ [ns]) n)).

Definition setNameservers_string (nameservers : list string) : M Network unit :=
  formattedNameservers ← lift (mapo make_address_exc nameservers);
  setNameservers formattedNameservers.

(** [addrs] is [_res.nsaddr_list], or [None] when [res_init] failed. *)
Definition fetchNameservers (addrs : option (list Z)) : outcome (list address) :=
  match addrs with
  | None => Throw (RuntimeError "Failed to initialize domain name resolution")
  | Some l =>
      formatted ← mapo (fun sin_addr =>
        match make_address_v4 (inet_ntoa sin_addr) with
        | Some a => Ok a
        | None => Throw (SystemError "make_address_v4")
        end) l;
      Ok (filter (fun a => negb (String.eqb (to_string a) "0.0.0.0")) formatted)
  end.

(** The [ifaddrs] entries a lookup by interface name considers: the first
    [AF_INET] one with that name whose text form is an address. *)
Fixpoint ifaddr_search (field : ifaddrs -> option sockaddr) (interface : string)
    (ifaddr : list ifaddrs) : option address :=
  match ifaddr with
  | [] => None
  | ifa :: ifa_next =>
      match field ifa with
      | Some (AF_INET sin_addr) =>
          if String.eqb (ifa_name ifa) interface then
            match make_address (inet_ntoa sin_addr) with
            | Some result => Some result
            | None => ifaddr_search field interface ifa_next
            end
          else ifaddr_search field interface ifa_next
      | _ => ifaddr_search field interface ifa_next
      end
  end.

Definition fetchSubnetMask (ifs : getifaddrs_result) (interface : string) : outcome address :=
  match ifs with
  | inl strerror => Throw (RuntimeError ("Cannot get interfaces: " +:+ strerror))
  | inr ifaddr =>
      match ifaddr_search ifa_netmask interface ifaddr with
      | Some result => Ok result
      | None => Throw (RuntimeError ("Interface " +:+ interface +:+
                         " does not have a netmask address defined"))
      end
  end.

(** The [in_addr]s are zero-initialised and stay so when [inet_aton]
    fails; its result is not looked at. *)
Definition calculateAddress (n : Network) (connectionAddress : address) : outcome address :=
  if is_unspecified (m_subnetMask n) then
    Throw (RuntimeError
      "Network must have a specified subnet mask to calculate the address")
  else
    let ip_addr := default 0 (inet_aton (to_string connectionAddress)) in
    let subnet_addr := default 0 (inet_aton (to_string (m_subnetMask n))) in
    make_address_exc (inet_ntoa (Z.land ip_addr subnet_addr)).

Definition calculateAddress_string (n : Network) (connectionAddress : string)
  : outcome address :=
  try_catch (a ← make_address_exc connectionAddress; calculateAddress n a)
    is_system_error (fun _ => Throw (RuntimeError "Invalid ip address")).

(** *** Constructors *)

Definition Network_profile_type (profile : Profile.t) (type : NetType.t) : Network :=
  mkNetwork profile type default_address default_address default_address 0 "" [].
Definition Network_profile (profile : Profile.t) : Network :=
  Network_profile_type profile NetType.Ethernet.
Definition Network_default : Network := Network_profile Profile.External.

Definition Network_addresses (profile : Profile.t) (type : NetType.t)
    (ip subnetMask gateway : string) (vlan : Z) (domainName : string)
    (nameserver : list address) : outcome Network :=
  construct
    (_ ← setAddress_string ip;
     _ ← setSubnetMask_string subnetMask;
     _ ← setGateway_string gateway;
     _ ← setVLAN vlan;
     _ ← setDomainName domainName;
     setNameservers nameserver)
    (Network_profile_type profile type).

Definition Network_strings (profile : Profile.t) (type : NetType.t)
    (ip subnetMask gateway : string) (vlan : Z) (domainName : string)
    (nameserver : list string) : outcome Network :=
  construct
    (_ ← setAddress_string ip;
     _ ← setSubnetMask_string subnetMask;
     _ ← setGateway_string gateway;
     _ ← setVLAN vlan;
     _ ← setDomainName domainName;
     setNameservers_string nameserver)
    (Network_profile_type profile type).
End network.

(** ** Subnet masks *)

(** The mask of a prefix of [k] bits. *)
Definition netmask (k : Z) : Z := 2 ^ 32 - 2 ^ (32 - k).

Lemma netmask_range k : 0 <= k <= 32 -> 0 <= netmask k < 2 ^ 32.
Proof.
  intros Hk. unfold netmask. assert (0 < 2 ^ (32 - k)) by (apply Z.pow_pos_nonneg; lia).
  assert (2 ^ (32 - k) <= 2 ^ 32) by (apply Z.pow_le_mono_r; lia). lia.
Qed.

Lemma prefix_cases k : 0 <= k <= 32 -> k ∈ seqZ 0 33.
Proof. rewrite elem_of_seqZ. lia. Qed.

(** The table lists the 33 prefixes, each once. *)
Lemma cidr_table : cidr = (fun k => (dotted (netmask k), k)) <$> seqZ 0 33.
Proof. vm_compute. reflexivity. Qed.

Lemma cidr_lookup k : 0 <= k <= 32 -> findOpt cidr (dotted (netmask k)) = Some k.
Proof.
  intros Hk%prefix_cases.
  assert (Forall (fun k => findOpt cidr (dotted (netmask k)) = Some k) (seqZ 0 33)) as Hall.
  { apply (bool_decide_unpack _). vm_compute. exact I. }
  rewrite Forall_forall in Hall. by apply Hall.
Qed.

Lemma findOpt_elem {K V} `{EqDecision K} (l : list (K * V)) k v :
  findOpt l k = Some v -> (k, v) ∈ l.
Proof.
  induction l as [|[k' v'] l IH]; cbn; [done|]. case_decide; subst.
  - intros [= ->]. left.
  - intros. right. by apply IH.
Qed.

Lemma cidr_inv s k : findOpt cidr s = Some k -> 0 <= k <= 32 /\ s = dotted (netmask k).
Proof.
  intros Hk%findOpt_elem. rewrite cidr_table in Hk.
  apply list_elem_of_fmap in Hk as (j & [= -> ->] & Hj). rewrite elem_of_seqZ in Hj.
  split; [lia|done].
Qed.

Definition valid_mask `{Asio} (a : address) : Prop :=
  exists k, 0 <= k <= 32 /\ a = address_v4 (netmask k).

Lemma cidr_contains_spec `{AsioLaws} a : cidr_contains (to_string a) = true <-> valid_mask a.
Proof.
  unfold cidr_contains. rewrite bool_decide_eq_true. split.
  - intros [k [Hk Hs]%cidr_inv]. exists k. split; [done|]. apply to_string_inj.
    by rewrite Hs, to_string_v4 by (by apply netmask_range).
  - intros (k & Hk & ->). exists k. rewrite to_string_v4 by (by apply netmask_range).
    by apply cidr_lookup.
Qed.

Lemma setSubnetMask_accept `{AsioLaws} a n :
  valid_mask a -> setSubnetMask a n = (Ok tt, put_subnetMask a n).
Proof. intros Ha. unfold setSubnetMask. by rewrite (proj2 (cidr_contains_spec a) Ha). Qed.

Lemma setSubnetMask_reject `{AsioLaws} a n :
  ~ valid_mask a -> setSubnetMask a n = (Throw (RuntimeError "Invalid subnet mask"), n).
Proof.
  intros Ha. unfold setSubnetMask. destruct (cidr_contains (to_string a)) eqn:E; [|done].
  by apply cidr_contains_spec in E.
Qed.

Lemma valid_mask_dec `{AsioLaws} a : {valid_mask a} + {~ valid_mask a}.
Proof.
  destruct (cidr_contains (to_string a)) eqn:E; [left|right]; rewrite <- cidr_contains_spec; congruence.
Qed.

(** Subnet masks: [setSubnetMask] accepts exactly the 33 contiguous IPv4
    masks, storing the address and touching nothing else; every other address
    is refused with the object unchanged; and [subnetMaskToCIDR] gives the
    prefix length of each. *)
Theorem subnet_mask_spec `{AsioLaws} (n : Network) :
  (forall a, valid_mask a -> setSubnetMask a n = (Ok tt, put_subnetMask a n)) /\
  (forall a, ~ valid_mask a -> setSubnetMask a n = (Throw (RuntimeError "Invalid subnet mask"), n)) /\
  (forall k, 0 <= k <= 32 -> subnetMaskToCIDR (address_v4 (netmask k)) = Ok k).
Proof.
  split; [|split]; [intros; by apply setSubnetMask_accept | intros; by apply setSubnetMask_reject|].
  intros k Hk. unfold subnetMaskToCIDR, findExc.
  rewrite to_string_v4 by (by apply netmask_range). by rewrite cidr_lookup.
Qed.

(** ** Domain names *)

(** What RFC-style name the class lets through. *)
Definition valid_domain (d : string) : Prop :=
  empty d = false /\ size d <= 255 /\
  starts_with_char "-" d = false /\ ends_with_char "-" d = false /\
  sforall is_digit d = false /\ sforall domain_char d = true.

Lemma regex_digits_spec s :
  regex_match regex_digits s = negb (empty s) && sforall is_digit s.
Proof. apply regex_plus_set. Qed.

Lemma regex_domain_spec s :
  regex_match regex_domain s = negb (empty s) && sforall domain_char s.
Proof. apply regex_plus_set. Qed.

Lemma setDomainName_ok `{Asio} d n n' :
  setDomainName d n = (Ok tt, n') <-> valid_domain d /\ n' = put_domainName d n.
Proof.
  unfold setDomainName, valid_domain. rewrite regex_digits_spec, regex_domain_spec.
  destruct (empty d) eqn:He; [cpp_simpl; naive_solver|].
  destruct (Z.ltb_spec 255 (size d)) as [Hsz|Hsz].
  { cpp_simpl. split; [done|]. intros ((_ & Hle & _) & _). lia. }
  destruct (starts_with_char "-" d), (ends_with_char "-" d), (sforall is_digit d),
    (sforall domain_char d); cbn; cpp_simpl; naive_solver.
Qed.

(** A refused domain name leaves the network as it was. *)
Lemma setDomainName_cases `{Asio} d n :
  valid_domain d /\ setDomainName d n = (Ok tt, put_domainName d n) \/
  exists e, setDomainName d n = (Throw e, n).
Proof.
  destruct (setDomainName d n) as [r n'] eqn:E.
  assert (n' = n /\ r <> UB \/ r = Ok tt) as Hc.
  { revert E. unfold setDomainName. cpp_simpl.
    repeat case_match; intros E; simplify_eq; auto. }
  destruct r as [[]|e|].
  - left. by apply setDomainName_ok in E as [Hd ->].
  - destruct Hc as [[-> _]|]; [eauto|done].
  - by destruct Hc as [[_ ?]|].
Qed.

(** ** Conversions from text *)

Section laws.
Context `{AsioLaws}.

Definition unspecified : address := address_v4 0.

Lemma make_address_zero : make_address "0.0.0.0" = Some unspecified.
Proof. change "0.0.0.0" with (dotted 0). by apply make_address_dotted. Qed.

Lemma setAddress_spec a n :
  setAddress a n =
  if decide (a = unspecified)
  then (Throw (RuntimeError "IP address cannot be 0.0.0.0"), n)
  else (Ok tt, put_address a n).
Proof.
  unfold setAddress, make_address_exc. rewrite make_address_zero. cpp_simpl.
  case_bool_decide; case_decide; done.
Qed.

(** A setter that raises no [system_error] of its own. *)
Lemma from_string_spec {S} (setter : address -> M S unit) msg str (s : S) :
  (forall a s, match (setter a s).1 with Throw (SystemError _) => False | _ => True end) ->
  from_string setter msg str s =
  match make_address str with
  | Some a => setter a s
  | None => (Throw (RuntimeError msg), s)
  end.
Proof.
  intros Hs. unfold from_string, make_address_exc. cpp_simpl.
  destruct (make_address str) as [a|]; [|done]. specialize (Hs a s).
  by destruct (setter a s) as [[|[] |] ?].
Qed.

Lemma setAddress_string_spec str n :
  setAddress_string str n =
  match make_address str with
  | Some a => setAddress a n
  | None => (Throw (RuntimeError "Invalid IP address"), n)
  end.
Proof. apply from_string_spec. intros a s. rewrite setAddress_spec. by case_decide. Qed.

Lemma setSubnetMask_string_spec str n :
  setSubnetMask_string str n =
  match make_address str with
  | Some a => setSubnetMask a n
  | None => (Throw (RuntimeError "Invalid subnet mask"), n)
  end.
Proof. apply from_string_spec. intros a s. unfold setSubnetMask. by destruct (cidr_contains (to_string a)). Qed.

Lemma setGateway_string_spec str n :
  setGateway_string str n =
  match make_address str with
  | Some a => (Ok tt, put_gateway a n)
  | None => (Throw (RuntimeError "Invalid gateway"), n)
  end.
Proof. unfold setGateway_string. by rewrite from_string_spec. Qed.

Lemma setSubnetMask_ok a n n' :
  setSubnetMask a n = (Ok tt, n') <-> valid_mask a /\ n' = put_subnetMask a n.
Proof.
  unfold setSubnetMask. rewrite <- cidr_contains_spec.
  destruct (cidr_contains (to_string a)); cbn; unfold throw, modify; split.
  - by intros [= <-].
  - by intros [_ ->].
  - done.
  - by intros [].
Qed.

(** [setNameservers] appends: the list is never cleared. *)
Lemma setNameservers_spec l n :
  setNameservers l n = (Ok tt, put_nameservers (m_nameservers n ++ l) n).
Proof.
  assert (forall l n, for_each l (fun ns => modify (fun n => put_nameservers (m_nameservers n ++ [ns]) n)) n
    = (Ok tt, put_nameservers (m_nameservers n ++ l) n)) as Hf.
  { clear l n. induction l as [|a l IH]; intros n; cbn.
    - rewrite app_nil_r. by destruct n.
    - cpp_simpl. rewrite IH. cbn. by rewrite <- assoc_L by apply _. }
  unfold setNameservers. case_bool_decide as Hl; [|apply Hf].
  subst. cbn. rewrite app_nil_r. by destruct n.
Qed.

Lemma setNameservers_string_spec l n :
  setNameservers_string l n =
  match mapM make_address l with
  | Some ns => setNameservers ns n
  | None => (Throw (SystemError "make_address"), n)
  end.
Proof.
  unfold setNameservers_string.
  assert (mapo make_address_exc l =
    match mapM make_address l with Some ns => Ok ns | None => Throw (SystemError "make_address") end) as ->.
  { induction l as [|s l IH]; cbn; [done|]. rewrite IH. unfold make_address_exc.
    destruct (make_address s); cbn; [|done]. by destruct (mapM make_address l). }
  cpp_simpl. by destruct (mapM make_address l).
Qed.
End laws.

(** ** The network address of a host *)

Lemma netmask_shift k : 0 <= k <= 32 -> netmask k = Z.shiftl (Z.ones k) (32 - k).
Proof.
  intros Hk. unfold netmask. rewrite Z.shiftl_mul_pow2, Z.ones_equiv by lia.
  replace (2 ^ 32) with (2 ^ k * 2 ^ (32 - k)) by (rewrite <- Z.pow_add_r by lia; f_equal; lia).
  lia.
Qed.

(** Masking keeps the prefix and clears the host part. *)
Lemma land_netmask x k :
  0 <= k <= 32 -> 0 <= x < 2 ^ 32 ->
  Z.land x (netmask k) = x / 2 ^ (32 - k) * 2 ^ (32 - k).
Proof.
  intros Hk Hx. rewrite netmask_shift, <- Z.shiftr_div_pow2, <- Z.shiftl_mul_pow2 by lia.
  apply Z.bits_inj'. intros i Hi. rewrite Z.land_spec.
  destruct (decide (i < 32 - k)).
  - rewrite !Z.shiftl_spec_low by lia. apply andb_false_r.
  - rewrite !Z.shiftl_spec by lia. rewrite Z.shiftr_spec by lia.
    rewrite Z.testbit_ones_nonneg by lia.
    replace (i - (32 - k) + (32 - k)) with i by lia.
    destruct (decide (i < 32)).
    + rewrite (proj2 (Z.ltb_lt _ _)) by lia. apply andb_true_r.
    + by rewrite testbit_high by lia.
Qed.

(** [calculateAddress] refuses to work without a mask; with a prefix of
    [k] bits it clears the low [32 - k] bits of an IPv4 address, whatever the
    byte order of the machine words in between; of an IPv6 address it makes
    [0.0.0.0], since the result of [inet_aton] is ignored. *)
Theorem calculateAddress_spec `{AsioLaws} (n : Network) (k : Z) (a : address) :
  0 <= k <= 32 -> m_subnetMask n = address_v4 (netmask k) ->
  calculateAddress n a =
  if decide (k = 0) then
    Throw (RuntimeError "Network must have a specified subnet mask to calculate the address")
  else if is_v4 a then Ok (address_v4 (to_uint a / 2 ^ (32 - k) * 2 ^ (32 - k)))
  else Ok (address_v4 0).
Proof.
  intros Hk Hm. unfold calculateAddress. rewrite Hm.
  pose proof (netmask_range k Hk) as Hr.
  rewrite is_unspecified_v4 by done.
  assert (netmask k = 0 <-> k = 0) as Hz.
  { split; [|by intros ->]. unfold netmask. intros. destruct (decide (k = 0)); [done|].
    assert (2 ^ (32 - k) < 2 ^ 32) by (apply Z.pow_lt_mono_r; lia). lia. }
  case_bool_decide; case_decide; try tauto.
  rewrite to_string_v4, inet_aton_v4 by done. cbn [from_option id].
  destruct (is_v4 a) eqn:Ha.
  - revert a Ha. intros a Ha. pattern a. apply v4_ind; [done|]. intros x Hx.
    rewrite to_string_v4, inet_aton_v4, address_v4_uint by done. cbn [from_option id].
    rewrite <- ntohl_land, land_netmask by done.
    assert (0 <= x / 2 ^ (32 - k) * 2 ^ (32 - k) < 2 ^ 32).
    { rewrite <- land_netmask by done. apply land_range; lia. }
    rewrite inet_ntoa_v4 by done. unfold make_address_exc. by rewrite make_address_dotted.
  - rewrite inet_aton_v6 by done. cbn [from_option id]. rewrite Z.land_0_l.
    change 0 with (htonl 0) at 1. rewrite inet_ntoa_v4 by done.
    unfold make_address_exc. by rewrite make_address_dotted.
Qed.

(** ** The object over its lifetime *)

(** The public methods that change a network. *)
Inductive NetworkCall `{Asio} :=
  | CallAddress (a : address) | CallAddressString (s : string)
  | CallSubnetMask (a : address) | CallSubnetMaskString (s : string)
  | CallGateway (a : address) | CallGatewayString (s : string)
  | CallVLAN (v : Z)
  | CallDomainName (s : string)
  | CallNameservers (l : list address) | CallNameserversString (l : list string).

Definition call `{Asio} (c : NetworkCall) : M Network unit :=
  match c with
  | CallAddress a => setAddress a
  | CallAddressString s => setAddress_string s
  | CallSubnetMask a => setSubnetMask a
  | CallSubnetMaskString s => setSubnetMask_string s
  | CallGateway a => setGateway a
  | CallGatewayString s => setGateway_string s
  | CallVLAN v => setVLAN (u16 v)
  | CallDomainName s => setDomainName s
  | CallNameservers l => setNameservers l
  | CallNameserversString l => setNameservers_string l
  end.

(** A call, returning or throwing. *)
Inductive net_step `{Asio} : Network -> Network -> Prop :=
  | net_step_call c n : (call c n).1 <> UB -> net_step n (call c n).2.

Record net_ok `{Asio} (n : Network) : Prop := {
  net_mask : valid_mask (m_subnetMask n);
  net_vlan : 0 <= m_vlan n < 4096;
  net_domain : m_domainName n = "" \/ valid_domain (m_domainName n);
}.

(** A call either changes one field to an admissible value, or nothing. *)
Lemma call_cases `{AsioLaws} c n :
  (call c n).1 <> UB /\
  let n' := (call c n).2 in
  n' = n \/
  (exists a, a <> unspecified /\ n' = put_address a n) \/
  (exists a, valid_mask a /\ n' = put_subnetMask a n) \/
  (exists a, n' = put_gateway a n) \/
  (exists v, 0 <= v < 4096 /\ n' = put_vlan v n) \/
  (exists d, valid_domain d /\ n' = put_domainName d n) \/
  (exists l, n' = put_nameservers (m_nameservers n ++ l) n).
Proof.
  assert (forall a, (setSubnetMask a n).1 <> UB /\ ((setSubnetMask a n).2 = n \/
    exists a', valid_mask a' /\ (setSubnetMask a n).2 = put_subnetMask a' n)) as Hmask.
  { intros a. destruct (valid_mask_dec a).
    - rewrite setSubnetMask_accept by done. split; [done|]. right. by exists a.
    - rewrite setSubnetMask_reject by done. split; [done|by left]. }
  assert (forall a, (setAddress a n).1 <> UB /\ ((setAddress a n).2 = n \/
    exists a', a' <> unspecified /\ (setAddress a n).2 = put_address a' n)) as Haddr.
  { intros a. rewrite setAddress_spec. case_decide; cbn; split; eauto. }
  assert (forall l, (setNameservers l n).1 <> UB /\
    exists l', (setNameservers l n).2 = put_nameservers (m_nameservers n ++ l') n) as Hns.
  { intros l. rewrite setNameservers_spec. cbn. split; [done|eauto]. }
  destruct c; cbn [call].
  - destruct (Haddr a) as [? []]; auto.
  - rewrite setAddress_string_spec.
    destruct (make_address s) as [a|]; [destruct (Haddr a) as [? []]|]; cbn; auto.
  - destruct (Hmask a) as [? []]; auto.
  - rewrite setSubnetMask_string_spec.
    destruct (make_address s) as [a|]; [destruct (Hmask a) as [? []]|]; cbn; auto.
  - cbn. split; [done|]. do 3 right. left. eauto.
  - rewrite setGateway_string_spec. destruct (make_address s); cbn; split; auto.
    do 3 right. left. eauto.
  - assert (0 <= u16 v) by (apply Z.mod_pos_bound; lia).
    unfold setVLAN. destruct (Z.leb_spec 4096 (u16 v)); cbn; [auto|].
    split; [done|]. do 4 right. left. exists (u16 v). split; [lia|done].
  - destruct (setDomainName_cases s n) as [[Hd ->]|[e ->]]; cbn; split; auto.
    do 5 right. left. eauto.
  - destruct (Hns l) as [? ?]. split; auto. by do 6 right.
  - rewrite setNameservers_string_spec. destruct (mapM make_address l) as [l'|]; [|cbn; auto].
    destruct (Hns l') as [? ?]. split; auto. by do 6 right.
Qed.

(** The initial object of every constructor. *)
Lemma net_ok_init `{AsioLaws} profile type : net_ok (Network_profile_type profile type).
Proof.
  constructor; cbn; [|lia|by left]. exists 0. split; [lia|]. by rewrite default_address_v4.
Qed.

Lemma net_ok_step `{AsioLaws} n n' :
  net_step n n' -> net_ok n ->
  net_ok n' /\ m_profile n' = m_profile n /\ m_type n' = m_type n /\
  (m_address n <> unspecified -> m_address n' <> unspecified) /\
  m_nameservers n `prefix_of` m_nameservers n'.
Proof.
  intros [c n0 _] [Hm Hv Hd].
  destruct (call_cases c n0) as (_ & [->|[(a&Ha&->)|[(a&Ha&->)|[(a&->)|[(v&Hv'&->)|[(d&Hd'&->)|(l&->)]]]]]]);
    (split; [constructor; cbn; auto|cbn; repeat split; auto]).
  by eexists.
Qed.

(** C8. Whatever sequence of setter calls a network goes through, failing
    calls included, its mask stays a contiguous one, its VLAN below 4096, its
    domain name empty or admissible; profile and type never change; an
    address once set never becomes unspecified again; and name servers are
    only ever appended. *)
Theorem network_invariant `{AsioLaws} profile type n n' :
  rtc net_step (Network_profile_type profile type) n -> rtc net_step n n' ->
  net_ok n' /\ m_profile n' = profile /\ m_type n' = type /\
  (m_address n <> unspecified -> m_address n' <> unspecified) /\
  m_nameservers n `prefix_of` m_nameservers n'.
Proof.
  intros Hn Hn'.
  assert (forall n n', rtc net_step n n' -> net_ok n ->
    net_ok n' /\ m_profile n' = m_profile n /\ m_type n' = m_type n /\
    (m_address n <> unspecified -> m_address n' <> unspecified) /\
    m_nameservers n `prefix_of` m_nameservers n') as Hrtc.
  { clear -H. induction 1 as [|x y z Hs _ IH]; intros Hx; [by auto|].
    destruct (net_ok_step _ _ Hs Hx) as (Hy & Hp & Ht & Ha & Hl).
    destruct (IH Hy) as (Hz & Hp' & Ht' & Ha' & Hl').
    split; [done|]. split; [congruence|]. split; [congruence|]. split; [auto|]. by etrans. }
  destruct (Hrtc _ _ Hn (net_ok_init profile type)) as (Hok & Hp & Ht & _).
  cbn in Hp, Ht.   destruct (Hrtc _ _ Hn' Hok) as (? & Hp' & Ht' & ? & ?).
  split; [done|]. split; [congruence|]. split; [congruence|]. by split.
Qed.

(** Constructing a network from text succeeds exactly when every part is
    admissible, and then the object holds what was parsed. *)
Theorem Network_strings_spec `{AsioLaws} profile type ip subnetMask gateway vlan domainName
    nameserver n :
  0 <= vlan < 2 ^ 16 ->
  Network_strings profile type ip subnetMask gateway vlan domainName nameserver = Ok n <->
  exists a m g ns,
    make_address ip = Some a /\ a <> unspecified /\
    make_address subnetMask = Some m /\ valid_mask m /\
    make_address gateway = Some g /\ vlan < 4096 /\ valid_domain domainName /\
    mapM make_address nameserver = Some ns /\
    n = mkNetwork profile type a m g vlan domainName ns.
Proof.
  intros Hvlan. unfold Network_strings, construct. cpp_simpl.
  rewrite setAddress_string_spec. destruct (make_address ip) as [a|]; [|naive_solver].
  rewrite setAddress_spec. case_decide as Ha; [naive_solver|].
  rewrite setSubnetMask_string_spec. destruct (make_address subnetMask) as [m|]; [|naive_solver].
  destruct (valid_mask_dec m); [rewrite setSubnetMask_accept by done|
    rewrite setSubnetMask_reject by done; naive_solver].
  rewrite setGateway_string_spec. destruct (make_address gateway) as [g|]; [|naive_solver].
  unfold setVLAN. destruct (Z.leb_spec 4096 vlan); [cbn; split; [done|naive_solver lia]|].
  cbn. destruct (setDomainName_cases domainName (put_vlan vlan
     (put_gateway g (put_subnetMask m (put_address a (Network_profile_type profile type))))))
    as [[Hd ->]|[e E]].
  - rewrite setNameservers_string_spec. destruct (mapM make_address nameserver) as [ns|]; [|naive_solver].
    rewrite setNameservers_spec. cbn. split; [intros [= <-]; eauto 20|].
    intros (?&?&?&?&?&?&?&?&?&?&?&?&->). by simplify_eq.
  - rewrite E. split; [done|]. intros (?&?&?&?&_&_&_&_&_&_&Hd&_).
    rewrite (proj2 (setDomainName_ok _ _ _) (conj Hd eq_refl)) in E. done.
Qed.

(** ** The kernel route table *)

(** A row of [/proc/net/route]: the kernel prints the destination and the
    gateway as the raw network-order words, in hexadecimal. *)
Record route := {
  rt_iface : string;
  rt_destination : Z;     (* host order *)
  rt_gateway : Z;         (* host order *)
  rt_rest : string;       (* flags, metric, mask, ... *)
}.

Definition render_route (r : route) : string :=
  rt_iface r +:+ String "009" (hex8 (htonl (rt_destination r)) +:+
    String "009" (hex8 (htonl (rt_gateway r)) +:+ String "009" (rt_rest r))).

Fixpoint render_routes (l : list route) : string :=
  match l with
  | [] => ""
  | r :: l => render_route r +:+ String "010" (render_routes l)
  end.

Definition no_newline (s : string) : bool := sforall (fun c => negb (Ascii.eqb "010" c)) s.
Definition no_space (s : string) : bool := sforall (fun c => negb (is_space c)) s.

Record route_ok (r : route) : Prop := {
  rt_iface_ok : empty (rt_iface r) = false /\ no_space (rt_iface r) = true;
  rt_dest_ok : 0 <= rt_destination r < 2 ^ 32;
  rt_gateway_ok : 0 <= rt_gateway r < 2 ^ 32;
  rt_rest_ok : no_newline (rt_rest r) = true;
}.

Lemma no_space_no_newline s : no_space s = true -> no_newline s = true.
Proof. apply sforall_impl. intros c. by_chars c. Qed.

Lemma hex8_no_space z : no_space (hex8 z) = true.
Proof. apply hex8_all. intros d Hd. by destruct (hex_char_spec d Hd) as (_ & _ & -> & _). Qed.

Lemma render_route_line r : route_ok r -> no_newline (render_route r) = true.
Proof.
  intros [[_ Hi] _ _ Hr]. unfold render_route, no_newline.
  repeat (rewrite sforall_app || cbn [sforall]).
  rewrite (no_space_no_newline _ Hi : sforall _ _ = true), (Hr : sforall _ _ = true).
  by rewrite !(no_space_no_newline _ (hex8_no_space _) : sforall _ _ = true).
Qed.

Lemma render_route_tokens r :
  route_ok r ->
  exists ts, tokens (render_route r) =
    rt_iface r :: hex8 (htonl (rt_destination r)) :: hex8 (htonl (rt_gateway r)) :: ts.
Proof.
  intros [[He Hi] _ _ _]. unfold render_route. exists (tokens (rt_rest r)).
  rewrite tokens_word by done.
  by rewrite !tokens_word by (done || apply hex8_no_space).
Qed.

Lemma hex8_zero z : 0 <= z < 2 ^ 32 -> String.eqb (hex8 (htonl z)) "00000000" = bool_decide (z = 0).
Proof.
  intros Hz. apply Bool.eq_iff_eq_true. rewrite String.eqb_eq, bool_decide_eq_true. split.
  - intros H. apply (f_equal (fun s => digits_val 16 hex_digit s 0)) in H.
    rewrite hex8_val in H by apply ntohl_range. cbn in H.
    by rewrite <- (ntohl_invol z), H by done.
  - intros ->. done.
Qed.

Lemma gatewayFromRouteHex_hex8 `{Asio} z :
  0 <= z < 2 ^ 32 ->
  gatewayFromRouteHex (hex8 (htonl z)) = if decide (z = 0) then None else Some (address_v4 z).
Proof.
  intros Hz. pose proof (ntohl_range z). unfold gatewayFromRouteHex.
  rewrite stoul16_hex8, u32_id, ntohl_invol by done.
  destruct (Z.eqb_spec (htonl z) 0) as [E|E]; case_decide as Hz0; try done.
  - by rewrite <- (ntohl_invol z), E in Hz0 by done.
  - by subst.
Qed.

(** The gateway of the first default route of the interface. *)
Definition default_gateway `{Asio} (routes : list route) (interface : string) : option address :=
  match list_find (fun r => rt_iface r = interface /\ rt_destination r = 0) routes with
  | Some (_, r) => if decide (rt_gateway r = 0) then None else Some (address_v4 (rt_gateway r))
  | None => None
  end.

(** C40. Reading back a rendered kernel route table: the gateway found for an
    interface is the one of its first default route, in the byte order of the
    rest of the program; none if that route has no gateway, or if there is no
    such route.  Nothing else in the table matters. *)
Theorem parseGatewayFromProcRoute_roundtrip `{Asio} heading routes interface :
  no_newline heading = true -> Forall route_ok routes ->
  parseGatewayFromProcRoute (heading +:+ String "010" (render_routes routes)) interface =
  default_gateway routes interface.
Proof.
  intros Hh Hr. unfold parseGatewayFromProcRoute. rewrite getlines_line by done. cbn [tail].
  unfold default_gateway.
  induction Hr as [|r routes Hr _ IH]; [done|].
  cbn [render_routes]. rewrite getlines_line by (by apply render_route_line).
  cbn [procRoute_loop]. destruct (render_route_tokens r Hr) as [ts ->]. cbn [lookup list_lookup from_option id].
  destruct Hr as [_ Hd Hg _]. rewrite hex8_zero by done. cbn [list_find].
  destruct (String.eqb_spec (rt_iface r) interface), (decide (rt_destination r = 0));
    [rewrite decide_True by done; rewrite bool_decide_true by done; cbn; by apply gatewayFromRouteHex_hex8
    |rewrite decide_False by naive_solver; rewrite ?bool_decide_false by done; cbn; rewrite IH;
     by destruct (list_find _ routes) as [[]|] ..].
Qed.

(** A table as the kernel prints it. *)
Definition sample_routes : list route :=
  [ {| rt_iface := "bond0"; rt_destination := 0; rt_gateway := 0x0A140001; rt_rest := "0003" |};
    {| rt_iface := "bond1"; rt_destination := 0xAC150000; rt_gateway := 0; rt_rest := "0001" |};
    {| rt_iface := "bond1"; rt_destination := 0; rt_gateway := 0xAC150101; rt_rest := "0003" |} ].
