(* ===== verification/Connection.v ===== *)
(** * Connections

    The class [Connection] of [src/connection.cpp]: a network interface of a
    host, attached to a [Network] it holds a pointer to.  [networks] is the
    store those pointers lead into; [ifs] is what [getifaddrs] returns.  The
    code modelled is the release build ([NDEBUG], no [BUILD_TESTING]). *)

From stdpp Require Import base strings list relations.
From Stdlib Require Import ZArith Lia Ascii.
From S2P Require Import Prelude CppString Regex External Enums Network.

Local Open Scope Z_scope.

(** [gsl::not_null<Network*>] *)
Definition NetworkPtr := nat.

Record Connection `{Asio} := mkConnection {
  m_network : NetworkPtr;
  m_interface : option string;
  m_mac : option string;
  c_address : address;                  (* m_address *)
  m_mtu : Z;
  m_hostname : string;
  m_fqdn : string;
}.

Section connection.
Context `{Asio} `{BoostText}.

Definition put_interface i (c : Connection) : Connection :=
  mkConnection _ (m_network c) i (m_mac c) (c_address c) (m_mtu c) (m_hostname c) (m_fqdn c).
Definition put_mac m (c : Connection) : Connection :=
  mkConnection _ (m_network c) (m_interface c) m (c_address c) (m_mtu c) (m_hostname c) (m_fqdn c).
Definition put_c_address a (c : Connection) : Connection :=
  mkConnection _ (m_network c) (m_interface c) (m_mac c) a (m_mtu c) (m_hostname c) (m_fqdn c).
Definition put_mtu m (c : Connection) : Connection :=
  mkConnection _ (m_network c) (m_interface c) (m_mac c) (c_address c) m (m_hostname c) (m_fqdn c).
Definition put_hostname h (c : Connection) : Connection :=
  mkConnection _ (m_network c) (m_interface c) (m_mac c) (c_address c) (m_mtu c) h (m_fqdn c).
Definition put_fqdn f (c : Connection) : Connection :=
  mkConnection _ (m_network c) (m_interface c) (m_mac c) (c_address c) (m_mtu c) (m_hostname c) f.

(** [ifaddrslist()] *)
Definition ifaddrslist (ifs : getifaddrs_result) : outcome (list ifaddrs) :=
  match ifs with
  | inl strerror => Throw (RuntimeError ("Cannot get the interfaces: " +:+ strerror))
  | inr l => Ok l
  end.

Fixpoint setInterface_loop (l : list ifaddrs) (interface : string) : M Connection unit :=
  match l with
  | [] => throw (RuntimeError ("Cannot find network interface " +:+ interface))
  | ifa :: l' =>
      if String.eqb interface (ifa_name ifa)
      then modify (put_interface (Some interface))
      else setInterface_loop l' interface
  end.

Definition setInterface (ifs : getifaddrs_result) (interface : string) : M Connection unit :=
  if String.eqb interface "lo"
  then throw (RuntimeError "Cannot use the loopback interface")
  else
    ifaddr ← lift (ifaddrslist ifs);
    setInterface_loop ifaddr interface.

(** The names in an [unordered_set]: each once; the order the set lists
    them in is not specified, the model keeps that of first occurrence. *)
Definition fetchInterfaces (ifs : getifaddrs_result) : outcome (list string) :=
  ifaddr ← ifaddrslist ifs;
  Ok (foldl (fun interfaces ifa =>
        match ifa_addr ifa with
        | None => interfaces
        | Some _ =>
            if String.eqb (ifa_name ifa) "lo" then interfaces
            else if decide (ifa_name ifa ∈ interfaces) then interfaces
            else interfaces ++ [ifa_name ifa]
        end) [] ifaddr).

Definition hex : regex := RSet is_hex.                                   (* [0-9A-Fa-f] *)
Definition mac_sep (c : ascii) : bool := Ascii.eqb c ":" || Ascii.eqb c "-".
Definition mac_pattern : regex :=
  RAlt
    (RCat (RRep (RCat (RRep hex 2) (RSet mac_sep)) 5) (RRep hex 2))
    (RCat (RRep hex 4) (RCat (RChar ".") (RCat (RRep hex 4) (RCat (RChar ".") (RRep hex 4))))).

(** [std::expected<bool, std::string>]: [inl] is [std::unexpected]. *)
Definition validateMAC (address : string) : string + bool :=
  if negb (size address =? 12) && negb (size address =? 14) && negb (size address =? 17)
  then inl "Invalid MAC address size"
  else if regex_match mac_pattern address then inr true
  else inl "Invalid MAC address format".

Definition setMAC (mac : string) : M Connection unit :=
  match validateMAC mac with
  | inr _ => modify (put_mac (Some (to_lower_copy mac)))
  | inl error => throw (RuntimeError error)
  end.

Definition setAddress (ip : address) : M Connection unit :=
  unspecifiedAddress ← lift (make_address_exc "0.0.0.0");
  if bool_decide (ip = unspecifiedAddress)
  then throw (RuntimeError "IP address cannot be 0.0.0.0")
  else modify (put_c_address ip).

Definition setAddress_string (ip : string) : M Connection unit :=
  from_string setAddress "Invalid IP address" ip.

Definition incrementAddress (increment : Z) : M Connection unit := skip.

(** Without a match the address is the default one; the [throw] after the
    [return] is dead code. *)
Definition fetchAddress (ifs : getifaddrs_result) (interface : string) : outcome address :=
  match ifs with
  | inl strerror => Throw (RuntimeError ("Cannot get interfaces: " +:+ strerror))
  | inr ifaddr => Ok (default default_address (ifaddr_search ifa_addr interface ifaddr))
  end.

(** [Network::fetchAddress] *)
Definition Network_fetchAddress (ifs : getifaddrs_result) (interface : string)
  : outcome address :=
  a ← fetchAddress ifs interface;
  match inet_aton (to_string a) with
  | None => Throw (RuntimeError "Invalid IP address")
  | Some addr =>
      m ← fetchSubnetMask ifs interface;
      match inet_aton (to_string m) with
      | None => Throw (RuntimeError "Invalid subnet mask address")
      | Some netmask => make_address_exc (inet_ntoa (Z.land addr netmask))
      end
  end.

Definition hostname_char (c : ascii) : bool := is_alpha c || is_digit c || Ascii.eqb c "-".
Definition regex_hostname : regex := RPlus (RSet hostname_char).          (* ^[A-Za-z0-9-]+$ *)

Definition setHostname (hostname : string) : M Connection unit :=
  if 63 <? size hostname then
    throw (RangeError "Hostname cannot be bigger than 64 characters")
  else if starts_with_char "-" hostname || ends_with_char "-" hostname then
    throw (RuntimeError "Hostname cannot start or end with dashes")
  else if regex_match regex_digits hostname then
    throw (RuntimeError "Hostname has only digits")
  else if negb (regex_match regex_hostname hostname) then
    throw (RuntimeError "Invalid character on hostname")
  else modify (put_hostname hostname).

Definition setFQDN (fqdn : string) : M Connection unit :=
  if 255 <? size fqdn then
    throw (RuntimeError "Full qualified domain name cannot exceed 255 characters")
  else modify (put_fqdn fqdn).

(** [mtu] is a [uint16_t]. *)
Definition setMTU (networks : NetworkPtr -> Network) (mtu : Z) : M Connection unit :=
  network ← gets m_network;
  match m_type (networks network) with
  | NetType.Ethernet =>
      if mtu <? 1280 then
        throw (RuntimeError "Ethernet MTU size must be higher or equal to 1280")
      else modify (put_mtu mtu)
  | NetType.Infiniband =>
      if mtu <? 2044 then
        throw (RuntimeError "Infiniband MTU size must be higher or equal to 2044")
      else modify (put_mtu mtu)
  end.

(** Member initialisers. *)
Definition Connection_init (network : NetworkPtr) : Connection :=
  mkConnection _ network None None default_address 1500 "" "".

Definition Connection_network (networks : NetworkPtr -> Network) (network : NetworkPtr)
  : outcome Connection :=
  construct
    (match m_type (networks network) with
     | NetType.Infiniband => setMTU networks 2044
     | NetType.Ethernet => skip
     end)
    (Connection_init network).

Definition Connection_full (networks : NetworkPtr -> Network) (ifs : getifaddrs_result)
    (network : NetworkPtr) (interface mac : option string) (ip : string)
  : outcome Connection :=
  construct
    (_ ← match interface with Some i => setInterface ifs i | None => skip end;
     _ ← match mac with Some m => setMAC m | None => skip end;
     _ ← setAddress_string ip;
     match m_type (networks network) with
     | NetType.Infiniband => setMTU networks 2044
     | NetType.Ethernet => skip
     end)
    (Connection_init network).
End connection.

(** ** MAC addresses *)

(** Six pairs of hexadecimal digits, each but the last followed by a colon or
    a hyphen, the two mixing freely. *)
Definition ieee_mac : list (ascii -> bool) :=
  [is_hex; is_hex; mac_sep; is_hex; is_hex; mac_sep; is_hex; is_hex; mac_sep;
   is_hex; is_hex; mac_sep; is_hex; is_hex; mac_sep; is_hex; is_hex].

(** Three groups of four hexadecimal digits separated by dots. *)
Definition cisco_mac : list (ascii -> bool) :=
  [is_hex; is_hex; is_hex; is_hex; Ascii.eqb "."; is_hex; is_hex; is_hex; is_hex; Ascii.eqb ".";
   is_hex; is_hex; is_hex; is_hex].

Definition mac_valid (mac : string) : bool := fits ieee_mac mac || fits cisco_mac mac.

Lemma regex_match_alt r1 r2 s :
  regex_match (RAlt r1 r2) s = regex_match r1 s || regex_match r2 s.
Proof.
  apply Bool.eq_iff_eq_true. rewrite orb_true_iff, !regex_match_spec. split.
  - inversion 1; auto.
  - intros []; auto with rx.
Qed.

Lemma mac_pattern_spec mac : regex_match mac_pattern mac = mac_valid mac.
Proof.
  unfold mac_pattern. rewrite regex_match_alt.
  by rewrite (regex_match_flat _ ieee_mac), (regex_match_flat _ cisco_mac).
Qed.

Lemma validateMAC_spec mac :
  if mac_valid mac then validateMAC mac = inr true else exists e, validateMAC mac = inl e.
Proof.
  unfold validateMAC. rewrite mac_pattern_spec. destruct (mac_valid mac) eqn:E.
  - apply orb_true_iff in E as [E|E]; apply fits_length in E; unfold size; by rewrite E.
  - case_match; eauto.
Qed.

Lemma mac_valid_lower mac : mac_valid mac = true -> mac_valid (lower mac) = true.
Proof.
  assert (forall c, is_hex c = true -> is_hex (to_lower_char c) = true) by (intros c; by_chars c).
  assert (forall c, mac_sep c = true -> mac_sep (to_lower_char c) = true) by (intros c; by_chars c).
  assert (forall c, Ascii.eqb "." c = true -> Ascii.eqb "." (to_lower_char c) = true)
    by (intros c; by_chars c).
  unfold mac_valid. rewrite !orb_true_iff.
  intros [Hf|Hf]; [left|right]; apply fits_smap; try done; by repeat constructor.
Qed.

Lemma setMAC_cases `{BoostTextLaws} `{Asio} mac c :
  if mac_valid mac then setMAC mac c = (Ok tt, put_mac (Some (lower mac)) c)
  else exists e, setMAC mac c = (Throw (RuntimeError e), c).
Proof.
  unfold setMAC. pose proof (validateMAC_spec mac) as Hv.
  destruct (mac_valid mac); [rewrite Hv, to_lower_copy_lower; done|].
  destruct Hv as [e ->]. by exists e.
Qed.

(** [setMAC] accepts exactly the two notations (so never a text of 12
    characters, which the size check admits) and stores it in lower case,
    which is again accepted and stored unchanged; anything else is a
    [runtime_error] that leaves the connection as it was. *)
Theorem setMAC_spec `{BoostTextLaws} `{Asio} (mac : string) (c : Connection) :
  (mac_valid mac = true ->
     setMAC mac c = (Ok tt, put_mac (Some (lower mac)) c) /\
     setMAC (lower mac) c = (Ok tt, put_mac (Some (lower mac)) c)) /\
  (mac_valid mac = false -> exists e, setMAC mac c = (Throw (RuntimeError e), c)) /\
  (String.length mac = 12%nat -> exists e, setMAC mac c = (Throw (RuntimeError e), c)).
Proof.
  pose proof (setMAC_cases mac c) as Hm. split; [|split].
  - intros Hv. rewrite Hv in Hm. split; [done|].
    pose proof (setMAC_cases (lower mac) c) as Hl. by rewrite mac_valid_lower, lower_idemp in Hl.
  - intros Hv. by rewrite Hv in Hm.
  - intros Hlen. destruct (mac_valid mac) eqn:Hv; [|done].
    apply orb_true_iff in Hv as [Hv|Hv]; apply fits_length in Hv; by rewrite Hlen in Hv.
Qed.

(** ** Addresses of an interface *)

(** The first [AF_INET] address the kernel lists for an interface. *)
Definition first_inet (field : ifaddrs -> option sockaddr) (interface : string)
    (l : list ifaddrs) : option Z :=
  head (omap (fun ifa =>
    match field ifa with
    | Some (AF_INET n) => if decide (ifa_name ifa = interface) then Some n else None
    | _ => None
    end) l).

Definition inet_ok (field : ifaddrs -> option sockaddr) (ifa : ifaddrs) : Prop :=
  match field ifa with Some (AF_INET n) => 0 <= n < 2 ^ 32 | _ => True end.

Lemma ifaddr_search_spec `{AsioLaws} field interface l :
  Forall (inet_ok field) l ->
  ifaddr_search field interface l = (fun n => address_v4 (ntohl n)) <$> first_inet field interface l.
Proof.
  intros Hl. unfold first_inet. induction Hl as [|ifa l Hi _ IH]; [done|].
  unfold inet_ok in Hi. cbn. destruct (field ifa) as [[n|]|]; [|done..].
  destruct (String.eqb_spec (ifa_name ifa) interface).
  - rewrite decide_True by done. cbn.
    pose proof (ntohl_range n). rewrite <- (ntohl_invol n) at 1 by done.
    by rewrite inet_ntoa_v4, make_address_dotted by done.
  - by rewrite decide_False by done.
Qed.

(** [Network::fetchAddress]: the network of an interface is its first
    IPv4 address masked with its first netmask, in host order; without a
    netmask it is a [runtime_error]; without an address it is [0.0.0.0], not
    an error, since [Connection::fetchAddress] returns a default address. *)
Theorem Network_fetchAddress_spec `{AsioLaws} (l : list ifaddrs) (interface : string) :
  Forall (inet_ok ifa_addr) l -> Forall (inet_ok ifa_netmask) l ->
  Network_fetchAddress (inr l) interface =
  match first_inet ifa_netmask interface l with
  | None => Throw (RuntimeError ("Interface " +:+ interface +:+
                     " does not have a netmask address defined"))
  | Some m =>
      Ok (address_v4 (Z.land (ntohl (default 0 (first_inet ifa_addr interface l))) (ntohl m)))
  end.
Proof.
  intros Ha Hm. unfold Network_fetchAddress, fetchAddress, fetchSubnetMask.
  rewrite !ifaddr_search_spec by done.
  assert (default default_address ((fun n => address_v4 (ntohl n)) <$> first_inet ifa_addr interface l)
    = address_v4 (ntohl (default 0 (first_inet ifa_addr interface l)))) as ->.
  { destruct (first_inet ifa_addr interface l); [done|]. apply default_address_v4. }
  set (a := ntohl (default 0 (first_inet ifa_addr interface l))).
  pose proof (ntohl_range (default 0 (first_inet ifa_addr interface l))) as Har.
  cbn [mbind outcome_bind]. rewrite to_string_v4, inet_aton_v4 by done.
  destruct (first_inet ifa_netmask interface l) as [m|]; [|done]. cbn.
  pose proof (ntohl_range m). rewrite to_string_v4, inet_aton_v4 by done.
  rewrite <- ntohl_land by done. assert (0 <= Z.land a (ntohl m) < 2 ^ 32) by (apply land_range; lia).
  rewrite inet_ntoa_v4 by done. unfold make_address_exc. by rewrite make_address_dotted.
Qed.

(** ** A connection and the networks it points into *)

Definition valid_hostname (h : string) : Prop :=
  empty h = false /\ size h <= 63 /\
  starts_with_char "-" h = false /\ ends_with_char "-" h = false /\
  sforall is_digit h = false /\ sforall hostname_char h = true.

Definition min_mtu (t : NetType.t) : Z :=
  match t with NetType.Ethernet => 1280 | NetType.Infiniband => 2044 end.

(** The public methods that change a connection. *)
Inductive ConnectionCall `{Asio} :=
  | CallInterface (ifs : getifaddrs_result) (s : string)
  | CallMAC (s : string)
  | CallAddress (a : address) | CallAddressString (s : string)
  | CallIncrement (z : Z)
  | CallHostname (s : string)
  | CallFQDN (s : string)
  | CallMTU (z : Z).

Definition call `{Asio} `{BoostText} (networks : NetworkPtr -> Network) (c : ConnectionCall)
  : M Connection unit :=
  match c with
  | CallInterface ifs s => setInterface ifs s
  | CallMAC s => setMAC s
  | CallAddress a => setAddress a
  | CallAddressString s => setAddress_string s
  | CallIncrement z => incrementAddress z
  | CallHostname s => setHostname s
  | CallFQDN s => setFQDN s
  | CallMTU z => setMTU networks (u16 z)
  end.

(** The store changes by calls on its networks, the connection by calls that
    read the store. *)
Inductive conn_step `{Asio} `{BoostText} :
    (NetworkPtr -> Network) * Connection -> (NetworkPtr -> Network) * Connection -> Prop :=
  | conn_step_network s s' c :
      (forall p, net_step (s p) (s' p) \/ s' p = s p) -> conn_step (s, c) (s', c)
  | conn_step_call s k c : conn_step (s, c) (s, (call s k c).2).

Record conn_ok `{Asio} (s : NetworkPtr -> Network) (c : Connection) : Prop := {
  conn_interface : m_interface c <> Some "lo";
  conn_mac : forall m, m_mac c = Some m -> mac_valid m = true /\ lower m = m;
  conn_mtu : min_mtu (m_type (s (m_network c))) <= m_mtu c < 2 ^ 16;
  conn_hostname : m_hostname c = "" \/ valid_hostname (m_hostname c);
  conn_fqdn : size (m_fqdn c) <= 255;
}.

Lemma setInterface_spec `{Asio} ifs i c :
  setInterface ifs i c =
  if decide (i = "lo") then (Throw (RuntimeError "Cannot use the loopback interface"), c)
  else match ifs with
       | inl e => (Throw (RuntimeError ("Cannot get the interfaces: " +:+ e)), c)
       | inr l =>
           if decide (Exists (fun ifa => ifa_name ifa = i) l) then (Ok tt, put_interface (Some i) c)
           else (Throw (RuntimeError ("Cannot find network interface " +:+ i)), c)
       end.
Proof.
  unfold setInterface. destruct (String.eqb_spec i "lo"), (decide (i = "lo")); try done.
  destruct ifs as [e|l]; [done|]. cpp_simpl. cbn [ifaddrslist].
  induction l as [|ifa l IH]; cbn.
  - case_decide as He; [|done]. by apply Exists_nil in He.
  - destruct (String.eqb_spec i (ifa_name ifa)) as [->|Hn].
    + rewrite decide_True by (by left). done.
    + rewrite IH. apply decide_ext. rewrite Exists_cons. naive_solver.
Qed.

Lemma setAddress_conn_spec `{AsioLaws} a c :
  setAddress a c =
  if decide (a = unspecified)
  then (Throw (RuntimeError "IP address cannot be 0.0.0.0"), c)
  else (Ok tt, put_c_address a c).
Proof.
  unfold setAddress, make_address_exc. rewrite make_address_zero. cpp_simpl.
  case_bool_decide; case_decide; done.
Qed.

Lemma setAddress_string_conn_spec `{AsioLaws} str c :
  setAddress_string str c =
  match make_address str with
  | Some a => setAddress a c
  | None => (Throw (RuntimeError "Invalid IP address"), c)
  end.
Proof. apply from_string_spec. intros a s. rewrite setAddress_conn_spec. by case_decide. Qed.

Lemma setHostname_cases `{Asio} h c :
  valid_hostname h /\ setHostname h c = (Ok tt, put_hostname h c) \/
  exists e, setHostname h c = (Throw e, c).
Proof.
  unfold setHostname, valid_hostname, regex_digits, regex_hostname. rewrite !regex_plus_set.
  destruct (Z.ltb_spec 63 (size h)); [right; eexists; reflexivity|].
  destruct (starts_with_char "-" h), (ends_with_char "-" h), (empty h), (sforall is_digit h),
    (sforall hostname_char h); cbn;
    first [right; eexists; reflexivity | left; split; [|reflexivity]; repeat split; done || lia].
Qed.

Lemma setMTU_spec `{Asio} s mtu c :
  if mtu <? min_mtu (m_type (s (m_network c)))
  then exists e, setMTU s mtu c = (Throw (RuntimeError e), c)
  else setMTU s mtu c = (Ok tt, put_mtu mtu c).
Proof.
  unfold setMTU. cpp_simpl. destruct (m_type (s (m_network c))); cbn [min_mtu];
    case_match; eauto.
Qed.

(** A method call keeps the invariant, returning or throwing. *)
Lemma conn_ok_call `{AsioLaws} `{BoostTextLaws} s k c :
  conn_ok s c -> conn_ok s (call s k c).2.
Proof.
  intros Hok. destruct k as [ifs i|m|a|a|z|h|f|z]; cbn [call].
  - rewrite setInterface_spec. case_decide; [done|]. destruct ifs; [done|]. case_decide; [|done].
    destruct Hok. constructor; cbn; auto. congruence.
  - pose proof (setMAC_cases m c) as Hm. destruct (mac_valid m) eqn:Hv.
    + rewrite Hm. destruct Hok. constructor; cbn; auto. intros ? [= <-].
      split; [by apply mac_valid_lower|apply lower_idemp].
    + by destruct Hm as [e ->].
  - rewrite setAddress_conn_spec. case_decide; [done|]. by destruct Hok; constructor.
  - rewrite setAddress_string_conn_spec. case_match; [|done].
    rewrite setAddress_conn_spec. case_decide; [done|]. by destruct Hok; constructor.
  - done.
  - destruct (setHostname_cases h c) as [[Hh ->]|[e ->]]; [|done].
    destruct Hok; constructor; cbn; auto.
  - unfold setFQDN. destruct (Z.ltb_spec 255 (size f)); [done|]. destruct Hok; constructor; cbn; auto.
  - pose proof (setMTU_spec s (u16 z) c) as Hs. case_match eqn:Hlt; [by destruct Hs as [e ->]|].
    rewrite Hs. apply Z.ltb_ge in Hlt. assert (0 <= u16 z < 2 ^ 16) by (apply Z.mod_pos_bound; lia).
    destruct Hok; constructor; cbn; auto. lia.
Qed.

Lemma net_step_type `{AsioLaws} n n' : net_step n n' -> m_type n' = m_type n.
Proof.
  intros [c n0 _]. by destruct (call_cases c n0)
    as (_ & [->|[(?&_&->)|[(?&_&->)|[(?&->)|[(?&_&->)|[(?&_&->)|(?&->)]]]]]]).
Qed.

Lemma conn_ok_step `{AsioLaws} `{BoostTextLaws} x y :
  conn_step x y -> conn_ok x.1 x.2 -> conn_ok y.1 y.2.
Proof.
  intros [s s' c Hs|s k c]; cbn; [|apply conn_ok_call].
  intros []. constructor; auto.
  destruct (Hs (m_network c)) as [Hn%net_step_type| ->]; [by rewrite Hn|done].
Qed.

(** An address, once there is one, is replaced by others only. *)
Definition addressed `{Asio} (c : Connection) : Prop := c_address c <> unspecified.

Lemma addressed_call `{AsioLaws} `{BoostTextLaws} s k c : addressed c -> addressed (call s k c).2.
Proof.
  unfold addressed. intros Ha. destruct k as [ifs i|m|a|a|z|h|f|z]; cbn [call].
  - rewrite setInterface_spec. case_decide; [done|]. destruct ifs; [done|]. by case_decide.
  - pose proof (setMAC_cases m c) as Hm. destruct (mac_valid m); [by rewrite Hm|by destruct Hm as [e ->]].
  - rewrite setAddress_conn_spec. by case_decide.
  - rewrite setAddress_string_conn_spec. case_match; [|done]. rewrite setAddress_conn_spec. by case_decide.
  - done.
  - by destruct (setHostname_cases h c) as [[_ ->]|[e ->]].
  - unfold setFQDN. by destruct (255 <? size f).
  - pose proof (setMTU_spec s (u16 z) c) as Hs. case_match; [by destruct Hs as [e ->]|by rewrite Hs].
Qed.

Lemma addressed_steps `{AsioLaws} `{BoostTextLaws} x y : rtc conn_step x y -> addressed x.2 -> addressed y.2.
Proof.
  induction 1 as [|x y z Hs _ IH]; [done|]. intros Hx. apply IH. revert Hx.
  destruct Hs as [s s' c Hs|s k c]; cbn; [done|apply addressed_call].
Qed.

Definition default_mtu (t : NetType.t) : Z :=
  match t with NetType.Ethernet => 1500 | NetType.Infiniband => 2044 end.

(** What a constructor argument must satisfy. *)
Definition interface_ok (ifs : getifaddrs_result) (i : string) : Prop :=
  i <> "lo" /\ match ifs with
               | inl _ => False
               | inr l => Exists (fun ifa => ifa_name ifa = i) l
               end.

Definition all_opt {A} (P : A -> Prop) (o : option A) : Prop :=
  match o with Some a => P a | None => True end.

Lemma setMTU_default `{Asio} networks c :
  (match m_type (networks (m_network c)) with
   | NetType.Infiniband => setMTU networks 2044
   | NetType.Ethernet => skip
   end) c =
  (Ok tt, match m_type (networks (m_network c)) with
          | NetType.Infiniband => put_mtu 2044 c | NetType.Ethernet => c end).
Proof.
  pose proof (setMTU_spec networks 2044 c) as Hs.
  destruct (m_type (networks (m_network c))); [done|]. by rewrite Hs.
Qed.

(** The full constructor: each given part is admissible, and the object holds
    it; an Infiniband connection starts at an MTU of 2044. *)
Lemma Connection_full_spec `{AsioLaws} `{BoostTextLaws} networks ifs p interface mac ip c :
  Connection_full networks ifs p interface mac ip = Ok c <->
  all_opt (interface_ok ifs) interface /\ all_opt (fun m => mac_valid m = true) mac /\
  exists a, make_address ip = Some a /\ a <> unspecified /\
    c = mkConnection _ p interface (lower <$> mac) a (default_mtu (m_type (networks p))) "" "".
Proof.
  unfold Connection_full, construct. cpp_simpl.
  set (init := Connection_init p).
  assert ((all_opt (interface_ok ifs) interface /\
     match interface with Some i => setInterface ifs i | None => fun s => (Ok tt, s) end init =
     (Ok tt, put_interface interface init)) \/
    (~ all_opt (interface_ok ifs) interface /\ exists e,
     match interface with Some i => setInterface ifs i | None => fun s => (Ok tt, s) end init = (Throw e, init)))
    as [[Hi ->]|[Hi [e ->]]].
  { destruct interface as [i|]; [|by left]. rewrite setInterface_spec. cbn. unfold interface_ok.
    case_decide; [right; split; [tauto|eauto]|].
    destruct ifs as [e|l]; [right; split; [tauto|eauto]|].
    case_decide; [left; tauto|right; split; [tauto|eauto]]. }
  2: { split; [done|tauto]. }
  assert (forall c, (all_opt (fun m => mac_valid m = true) mac /\
     match mac with Some m => setMAC m | None => fun s => (Ok tt, s) end c =
     (Ok tt, match mac with Some m => put_mac (Some (lower m)) c | None => c end)) \/
    (~ all_opt (fun m => mac_valid m = true) mac /\ exists e,
     match mac with Some m => setMAC m | None => fun s => (Ok tt, s) end c = (Throw e, c))) as Hm.
  { intros c'. destruct mac as [m|]; [|by left]. cbn. pose proof (setMAC_cases m c') as Hc.
    destruct (mac_valid m); [by left|]. right. split; [done|]. destruct Hc as [e ->]. eauto. }
  destruct (Hm (put_interface interface init)) as [[Hmac ->]|[Hmac [e ->]]]; [|split; [done|tauto]].
  rewrite setAddress_string_conn_spec. destruct (make_address ip) as [a|]; [|naive_solver].
  rewrite setAddress_conn_spec. case_decide; [naive_solver|].
  set (c1 := put_c_address a _).
  assert (m_network c1 = p) as Hp by (by destruct mac).
  pose proof (setMTU_default networks c1) as Hd. rewrite Hp in Hd. cpp_simpl. rewrite Hd.
  assert (forall x y : Connection, Ok x = Ok y <-> y = x) as Hok by naive_solver.
  rewrite Hok. split.
  - intros ->. do 2 (split; [done|]). exists a. do 2 (split; [done|]).
    destruct mac, (m_type (networks p)); done.
  - intros (_ & _ & a' & [= <-] & _ & ->). destruct mac, (m_type (networks p)); done.
Qed.

Lemma Connection_network_spec `{Asio} networks p :
  Connection_network networks p =
  Ok (mkConnection _ p None None default_address (default_mtu (m_type (networks p))) "" "").
Proof.
  unfold Connection_network, construct. pose proof (setMTU_default networks (Connection_init p)) as Hd.
  cbn [m_network Connection_init] in Hd. rewrite Hd. by destruct (m_type (networks p)).
Qed.

(** C9. A connection made by either constructor satisfies, after any
    interleaving of calls on it and on the networks it points into, failing
    calls included: it is not attached to the loopback interface, its MAC
    address is an accepted one in lower case, its MTU is at least the minimum
    of its network's type, its host name is empty or admissible, and its FQDN
    is no longer than 255 characters.  The constructor that is given an address
    makes one that is not 0.0.0.0, the other leaves it unset; and once a
    connection has an address, no call ever makes it 0.0.0.0. *)
Theorem connection_invariant `{AsioLaws} `{BoostTextLaws} networks ifs p interface mac ip c0 s c :
  Connection_network networks p = Ok c0 \/
  Connection_full networks ifs p interface mac ip = Ok c0 ->
  rtc conn_step (networks, c0) (s, c) ->
  conn_ok s c /\
  (Connection_full networks ifs p interface mac ip = Ok c0 -> addressed c) /\
  (addressed c -> forall s' c', rtc conn_step (s, c) (s', c') -> addressed c').
Proof.
  intros Hc0 Hsteps. split; [|split].
  2: { intros (_ & _ & a & _ & Ha & ->)%Connection_full_spec. by apply (addressed_steps _ _ Hsteps). }
  2: { intros Ha s' c' Hmore. by apply (addressed_steps _ _ Hmore). }
  assert (forall t, min_mtu t <= default_mtu t < 2 ^ 16) as Hmtu by (intros []; cbn; lia).
  assert (conn_ok networks c0) as Hok.
  { destruct Hc0 as [Hc|Hc].
    - rewrite Connection_network_spec in Hc. injection Hc as <-.
      constructor; cbn; [done|done|apply Hmtu|by left|done].
    - apply Connection_full_spec in Hc as (Hi & Hm & a & _ & _ & ->).
      constructor; cbn; [|destruct mac; intros ? [= <-]|apply Hmtu|by left|done].
      + intros ->. by destruct Hi.
      + split; [by apply mac_valid_lower|apply lower_idemp]. }
  clear Hc0. assert (forall x y, rtc conn_step x y -> conn_ok x.1 x.2 -> conn_ok y.1 y.2) as Hrtc.
  { clear -H H0. induction 1 as [|x y z Hs _ IH]; [done|]. intros Hx. apply IH.
    by eapply conn_ok_step. }
  exact (Hrtc _ _ Hsteps Hok).
Qed.
