(* ===== verification/KeyFile.v ===== *)
(** * Key files

    The class [KeyFile] of [src/services/files.cpp], a wrapper of GLib's key
    files that translates its errors, and a description of what a key file
    built by a sequence of writes holds. *)

From stdpp Require Import base strings list.
From Stdlib Require Import ZArith Lia Ascii.
From S2P Require Import Prelude CppString External Enums.

Section keyfile.
Context `{GKeyFile}.

Record KeyFile := mkKeyFile { m_path : string; m_keyfile : gkeyfile }.

Definition put_keyfile g (k : KeyFile) : KeyFile := mkKeyFile (m_path k) g.

(** [Glib::KeyFile::load_from_file] on a file system given as the contents
    of its files. *)
Definition load_from_file (fs : string -> option string) (path : string) : outcome gkeyfile :=
  match fs path with
  | None => Throw GlibFileError
  | Some content =>
      match gkf_load_from_data content with
      | Some g => Ok g
      | None => Throw KeyFileError
      end
  end.

Definition KeyFile_make (fs : string -> option string) (path : string) (loadExisting : bool)
  : outcome KeyFile :=
  if loadExisting && bool_decide (is_Some (fs path)) then
    g ← load_from_file fs path; Ok (mkKeyFile path g)
  else Ok (mkKeyFile path gkf_create).

Definition getGroups (k : KeyFile) : list string := gkf_get_groups (m_keyfile k).

Definition listAllPrefixedEntries (k : KeyFile) (prefix : string) : list string :=
  filter (fun group => Is_true (starts_with prefix group)) (getGroups k).

Definition hasGroup (k : KeyFile) (group : string) : bool := gkf_has_group (m_keyfile k) group.

(** The calls into GLib, throwing. *)
Definition glib {A} (r : option A) : outcome A :=
  match r with Some a => Ok a | None => Throw KeyFileError end.

Definition no_entry (k : KeyFile) (group key : string) : exn :=
  RuntimeError ("Keyfile Error, " +:+ m_path k +:+ ": no such entry [" +:+ group +:+ "]." +:+ key).

Definition getString (k : KeyFile) (group key : string) : outcome string :=
  try_catch (glib (gkf_get_string (m_keyfile k) group key))
    is_keyfile_error (fun _ => Throw (no_entry k group key)).

Definition getString_default (k : KeyFile) (group key defaultValue : string) : outcome string :=
  try_catch
    (has ← glib (gkf_has_key (m_keyfile k) group key);
     if negb has then Ok defaultValue else glib (gkf_get_string (m_keyfile k) group key))
    is_keyfile_error (fun _ => Throw (no_entry k group key)).

(** [has_key] is called outside the [try]. *)
Definition getStringOpt (k : KeyFile) (group key : string) : outcome (option string) :=
  has ← glib (gkf_has_key (m_keyfile k) group key);
  if has : bool then
    Some <$> try_catch (glib (gkf_get_string (m_keyfile k) group key)) is_keyfile_error
      (fun _ => Throw (RuntimeError ("Keyfile Error, no such entry " +:+ group +:+ " " +:+ key)))
  else Ok None.

Definition getBoolean (k : KeyFile) (group key : string) : outcome bool :=
  try_catch (glib (gkf_get_boolean (m_keyfile k) group key)) is_keyfile_error
    (fun _ => Throw (RuntimeError ("Keyfile Error, no such entry " +:+ group +:+ " " +:+ key))).

Definition toData (k : KeyFile) : string := gkf_to_data (m_keyfile k).

Definition setString (group key value : string) : M KeyFile unit :=
  modify (fun k => put_keyfile (gkf_set_string (m_keyfile k) group key value) k).

Definition setString_opt (group key : string) (value : option string) : M KeyFile unit :=
  match value with
  | Some v => modify (fun k => put_keyfile (gkf_set_string (m_keyfile k) group key v) k)
  | None => skip
  end.

Definition setBoolean (group key : string) (value : bool) : M KeyFile unit :=
  modify (fun k => put_keyfile (gkf_set_boolean (m_keyfile k) group key value) k).

(** [save] gives the path and text it writes. *)
Definition save (k : KeyFile) : string * string := (m_path k, toData k).

Definition load (fs : string -> option string) : M KeyFile unit :=
  path ← gets m_path;
  g ← lift (load_from_file fs path);
  modify (put_keyfile g).

Definition loadData (data : string) : M KeyFile unit :=
  g ← lift (glib (gkf_load_from_data data)); modify (put_keyfile g).

(** ** What a key file holds *)

Inductive slot := NoGroup | NoKey | Present (v : string).

(** The file answers a look-up of [key] in [group] with a slot. *)
Definition holds (k : KeyFile) (group key : string) (s : slot) : Prop :=
  match s with
  | NoGroup => hasGroup k group = false
  | NoKey => hasGroup k group = true /\ gkf_has_key (m_keyfile k) group key = Some false
  | Present v => hasGroup k group = true /\ gkf_get_string (m_keyfile k) group key = Some v
  end.

Definition opt_slot (s : slot) : option string :=
  match s with Present v => Some v | _ => None end.

(** A sequence of writes, the first one first. *)
Definition write := (string * string * string)%type.

Definition write_all (ws : list write) (k : KeyFile) : KeyFile :=
  foldl (fun k '(g, key, v) => put_keyfile (gkf_set_string (m_keyfile k) g key v) k) k ws.

Definition in_group (g : string) (w : write) : bool := String.eqb w.1.1 g.

(** The slot after the writes, given the slot before. *)
Definition slot_write (g key : string) (s : slot) (w : write) : slot :=
  if in_group g w then
    if String.eqb w.1.2 key then Present w.2
    else match s with NoGroup => NoKey | _ => s end
  else s.
Definition slot_after (ws : list write) (g key : string) (s : slot) : slot :=
  foldl (slot_write g key) s ws.

Definition opt_write (g key : string) (v : option string) : list write :=
  match v with Some v => [(g, key, v)] | None => [] end.
End keyfile.

(** ** Reading a key file that holds known slots *)

Section reads.
Context `{GL : GKeyFileLaws}.

Lemma holds_has_key k g key s :
  holds k g key s ->
  gkf_has_key (m_keyfile k) g key =
  match s with NoGroup => None | NoKey => Some false | Present _ => Some true end.
Proof.
  destruct s; cbn.
  - by apply gkf_has_key_group.
  - by intros [_ ?].
  - intros [_ Hs]. by eapply gkf_get_has.
Qed.

Lemma getString_holds k g key v : holds k g key (Present v) -> getString k g key = Ok v.
Proof. intros [_ Hs]. unfold getString. by rewrite Hs. Qed.

Lemma getString_default_holds k g key d s :
  holds k g key s -> s <> NoGroup ->
  getString_default k g key d = Ok (default d (opt_slot s)).
Proof.
  intros Hs Hn. unfold getString_default. rewrite (holds_has_key _ _ _ _ Hs).
  destruct s; [done|done|]. destruct Hs as [_ Hs]. cbn. by rewrite Hs.
Qed.

(** [getStringOpt] lets the error of a missing group through. *)
Lemma getStringOpt_holds k g key s :
  holds k g key s ->
  getStringOpt k g key = match s with NoGroup => Throw KeyFileError | _ => Ok (opt_slot s) end.
Proof.
  intros Hs. unfold getStringOpt. rewrite (holds_has_key _ _ _ _ Hs).
  destruct s; [done|done|]. destruct Hs as [_ Hs]. cbn. by rewrite Hs.
Qed.

Lemma hasGroup_holds k g key s :
  holds k g key s -> hasGroup k g = match s with NoGroup => false | _ => true end.
Proof. destruct s; cbn; [done|by intros []..]. Qed.

(** ** Writing *)

Lemma write_all_app ws1 ws2 k : write_all (ws1 ++ ws2) k = write_all ws2 (write_all ws1 k).
Proof. apply foldl_app. Qed.

Lemma setString_write g key v k : setString g key v k = (Ok tt, write_all [(g, key, v)] k).
Proof. done. Qed.

Lemma has_group_write k g key v g' :
  hasGroup (put_keyfile (gkf_set_string (m_keyfile k) g key v) k) g' =
  String.eqb g g' || hasGroup k g'.
Proof.
  unfold hasGroup. cbn. rewrite !gkf_has_group_spec, gkf_set_groups, gkf_has_group_spec.
  apply Bool.eq_iff_eq_true. rewrite orb_true_iff, String.eqb_eq, !bool_decide_eq_true.
  case_bool_decide; [naive_solver|]. rewrite elem_of_app, list_elem_of_singleton. naive_solver.
Qed.

Lemma holds_write k g key v g' key' s :
  holds k g' key' s ->
  holds (put_keyfile (gkf_set_string (m_keyfile k) g key v) k) g' key'
    (slot_write g' key' s (g, key, v)).
Proof.
  intros Hs. pose proof (holds_has_key _ _ _ _ Hs) as Hk.
  unfold slot_write, in_group. cbn [fst snd].
  destruct (String.eqb_spec g g') as [<-|Hg]; [destruct (String.eqb_spec key key') as [<-|Hkey]|].
  - split; [by rewrite has_group_write, String.eqb_refl|]. cbn.
    by rewrite gkf_set_get, decide_True.
  - assert (hasGroup (put_keyfile (gkf_set_string (m_keyfile k) g key v) k) g = true) as Hgr
      by (by rewrite has_group_write, String.eqb_refl).
    destruct s; (split; [done|]); cbn; rewrite ?gkf_set_has, ?gkf_set_get, decide_False by congruence.
    + rewrite decide_True by done. by rewrite Hk.
    + rewrite decide_True by done. by rewrite Hk.
    + by destruct Hs.
  - assert (hasGroup (put_keyfile (gkf_set_string (m_keyfile k) g key v) k) g' = hasGroup k g') as Hgr.
    { rewrite has_group_write. by rewrite (proj2 (String.eqb_neq g g')). }
    destruct s; cbn in *; rewrite Hgr; [done|..];
      (split; [by destruct Hs|]); rewrite ?gkf_set_has, ?gkf_set_get, decide_False by congruence.
    + rewrite decide_False by done. by destruct Hs.
    + by destruct Hs.
Qed.

Lemma holds_write_all ws k g key s :
  holds k g key s -> holds (write_all ws k) g key (slot_after ws g key s).
Proof.
  revert k s. induction ws as [|[[g' key'] v] ws IH]; intros k s Hs; [done|].
  apply (IH _ (slot_write g key s (g', key', v))). by apply holds_write.
Qed.

Lemma write_all_path ws k : m_path (write_all ws k) = m_path k.
Proof. revert k. induction ws as [|[[g key] v] ws IH]; intros k; [done|].
  exact (IH (put_keyfile (gkf_set_string (m_keyfile k) g key v) k)).
Qed.

(** A fresh file holds nothing. *)
Lemma holds_create path g key : holds (mkKeyFile path gkf_create) g key NoGroup.
Proof.
  cbn. unfold hasGroup. cbn. rewrite gkf_has_group_spec, gkf_create_groups.
  apply bool_decide_false. by intros ?%elem_of_nil.
Qed.
End reads.

(** ** The slots a list of writes leaves *)

Section slots.

(** The last value written to a key, and whether a group is written to. *)
Fixpoint written (ws : list write) (g key : string) : option string :=
  match ws with
  | [] => None
  | w :: ws => written ws g key ∪ (if in_group g w && String.eqb w.1.2 key then Some w.2 else None)
  end.
Definition touches (ws : list write) (g : string) : bool := existsb (in_group g) ws.

Definition slot_of (ws : list write) (g key : string) : slot :=
  match written ws g key with
  | Some v => Present v
  | None => if touches ws g then NoKey else NoGroup
  end.

Lemma slot_after_spec ws g key s :
  slot_after ws g key s =
  match written ws g key with
  | Some v => Present v
  | None => if touches ws g then match s with NoGroup => NoKey | _ => s end else s
  end.
Proof.
  revert s. induction ws as [|w ws IH]; intros s; [done|].
  change (slot_after (w :: ws) g key s) with (slot_after ws g key (slot_write g key s w)).
  rewrite IH. cbn [written touches existsb]. fold (touches ws g). unfold slot_write.
  destruct (written ws g key), (in_group g w), (String.eqb w.1.2 key), (touches ws g), s;
    reflexivity.
Qed.

Lemma written_touches ws g key v : written ws g key = Some v -> touches ws g = true.
Proof.
  induction ws as [|w ws IH]; cbn [written touches existsb]; [done|].
  intros Hv. fold (touches ws g). destruct (in_group g w); [done|]. apply IH.
  by destruct (written ws g key).
Qed.

Lemma slot_after_fresh ws g key : slot_after ws g key NoGroup = slot_of ws g key.
Proof. by rewrite slot_after_spec. Qed.

Lemma written_app ws1 ws2 g key : written (ws1 ++ ws2) g key = written ws2 g key ∪ written ws1 g key.
Proof.
  induction ws1 as [|w ws1 IH]; cbn [written app]; [by destruct (written ws2 g key)|]. rewrite IH.
  destruct (written ws2 g key), (written ws1 g key), (_ && _); reflexivity.
Qed.

Lemma touches_app ws1 ws2 g : touches (ws1 ++ ws2) g = touches ws1 g || touches ws2 g.
Proof. apply existsb_app. Qed.

Lemma written_one g key v g' key' :
  written [(g, key, v)] g' key' = if String.eqb g g' && String.eqb key key' then Some v else None.
Proof.
  cbn [written in_group fst snd]. unfold in_group. cbn [fst snd].
  by destruct (String.eqb g g' && String.eqb key key').
Qed.

Lemma touches_one g key v g' : touches [(g, key, v)] g' = String.eqb g g'.
Proof. cbn. unfold in_group. apply orb_false_r. Qed.

Lemma written_opt g key v g' key' :
  written (opt_write g key v) g' key' = if String.eqb g g' && String.eqb key key' then v else None.
Proof. destruct v; cbn [opt_write]; [apply written_one|]. by destruct (_ && _). Qed.

Lemma touches_opt g key v g' : touches (opt_write g key v) g' = String.eqb g g' && bool_decide (is_Some v).
Proof.
  destruct v; cbn [opt_write]; [rewrite touches_one; by rewrite andb_true_r|]. by rewrite andb_false_r.
Qed.

Lemma union_None_l (o : option string) : None ∪ o = o.
Proof. by destruct o. Qed.
Lemma union_None_r (o : option string) : o ∪ None = o.
Proof. by destruct o. Qed.

(** Writes that stay within some groups say nothing about the others. *)
Definition within (P : string -> Prop) (ws : list write) : Prop := Forall (fun w => P w.1.1) ws.

Lemma within_app P ws1 ws2 : within P (ws1 ++ ws2) <-> within P ws1 /\ within P ws2.
Proof. apply Forall_app. Qed.

Lemma within_opt (P : string -> Prop) g key v : P g -> within P (opt_write g key v).
Proof. intros. destruct v; by repeat constructor. Qed.

Lemma within_one (P : string -> Prop) g key v : P g -> within P [(g, key, v)].
Proof. intros. by repeat constructor. Qed.

Lemma within_nil P : within P [].
Proof. constructor. Qed.

Lemma within_other P ws g :
  within P ws -> ~ P g -> touches ws g = false /\ forall key, written ws g key = None.
Proof.
  intros Hw Hg. induction Hw as [|w ws Hp _ [IH1 IH2]]; [done|].
  assert (in_group g w = false) as Hn.
  { unfold in_group. apply String.eqb_neq. intros <-. done. }
  cbn. rewrite Hn. split; [done|]. intros key. by rewrite IH2.
Qed.
End slots.

#[export] Hint Resolve within_opt within_one within_nil : cpp.
#[export] Hint Rewrite written_app touches_app written_one touches_one written_opt touches_opt
  String.eqb_refl : slots.
#[export] Hint Rewrite union_None_l union_None_r andb_true_l andb_true_r andb_false_l andb_false_r
  orb_true_l orb_true_r orb_false_l orb_false_r : slots.

(** A file agrees on a group with a list of writes. *)
Definition agrees `{GKeyFile} (k : KeyFile) (ws : list write) (g : string) : Prop :=
  forall key, holds k g key (slot_of ws g key).

Lemma agrees_hasGroup `{GKeyFileLaws} k ws g : agrees k ws g -> hasGroup k g = touches ws g.
Proof.
  intros Ha. rewrite (hasGroup_holds _ _ _ _ (Ha "")). unfold slot_of.
  destruct (written ws g "") eqn:Hw; [|by destruct (touches ws g)].
  symmetry. by eapply written_touches.
Qed.

Section agrees.
Context `{GL : GKeyFileLaws}.

Lemma agrees_getString k ws g key v :
  agrees k ws g -> written ws g key = Some v -> getString k g key = Ok v.
Proof. intros Ha Hw. apply getString_holds. specialize (Ha key). unfold slot_of in Ha. by rewrite Hw in Ha. Qed.

Lemma agrees_getString_default k ws g key d o :
  agrees k ws g -> touches ws g = true -> written ws g key = o ->
  getString_default k g key d = Ok (default d o).
Proof.
  intros Ha Ht <-. specialize (Ha key). rewrite (getString_default_holds _ _ _ _ _ Ha).
  - unfold slot_of. destruct (written ws g key); [done|]. by rewrite Ht.
  - unfold slot_of. destruct (written ws g key); [done|]. by rewrite Ht.
Qed.

Lemma agrees_getStringOpt k ws g key o :
  agrees k ws g -> touches ws g = true -> written ws g key = o -> getStringOpt k g key = Ok o.
Proof.
  intros Ha Ht <-. specialize (Ha key). rewrite (getStringOpt_holds _ _ _ _ Ha).
  unfold slot_of. destruct (written ws g key); [done|]. by rewrite Ht.
Qed.
End agrees.

(** *** Sections of a list of writes *)

Lemma touches_written ws g key : touches ws g = false -> written ws g key = None.
Proof. intros Ht. destruct (written ws g key) eqn:Hw; [|done]. by rewrite (written_touches _ _ _ _ Hw) in Ht. Qed.

Lemma within_touches (p : string -> bool) ws g :
  within (fun g => p g = true) ws -> p g = false -> touches ws g = false.
Proof. intros Hw Hg. apply (within_other _ _ _ Hw). by rewrite Hg. Qed.

Lemma slot_of_skip ws1 ws2 g key : touches ws1 g = false -> slot_of (ws1 ++ ws2) g key = slot_of ws2 g key.
Proof.
  intros Ht. unfold slot_of. by rewrite written_app, touches_app, (touches_written ws1), Ht, union_None_r.
Qed.

Lemma slot_of_keep ws1 ws2 g key : touches ws2 g = false -> slot_of (ws1 ++ ws2) g key = slot_of ws1 g key.
Proof.
  intros Ht. unfold slot_of.
  by rewrite written_app, touches_app, (touches_written ws2), Ht, union_None_l, orb_false_r.
Qed.

(** The groups, in the order they were first written to. *)
Definition add_group (gs : list string) (w : write) : list string :=
  if decide (w.1.1 ∈ gs) then gs else gs ++ [w.1.1].
Definition group_order (ws : list write) (gs : list string) : list string := foldl add_group gs ws.

Lemma group_order_app ws1 ws2 gs : group_order (ws1 ++ ws2) gs = group_order ws2 (group_order ws1 gs).
Proof. apply foldl_app. Qed.

Lemma group_order_filter (P : string -> Prop) `{!forall g, Decision (P g)} ws gs :
  filter P (group_order ws gs) = group_order (filter (fun w : write => P w.1.1) ws) (filter P gs).
Proof.
  revert gs. induction ws as [|w ws IH]; intros gs; [done|].
  change (group_order (w :: ws) gs) with (group_order ws (add_group gs w)).
  rewrite IH, filter_cons. unfold add_group. destruct (decide (w.1.1 ∈ gs)) as [Hin|Hin]; case_decide as Hp.
  - change (group_order (w :: ?l) ?g) with (group_order l (add_group g w)).
    unfold add_group. rewrite decide_True; [done|]. by apply list_elem_of_filter.
  - done.
  - change (group_order (w :: ?l) ?g) with (group_order l (add_group g w)).
    unfold add_group. rewrite decide_False by (rewrite list_elem_of_filter; tauto).
    rewrite filter_app, filter_cons, decide_True by done. done.
  - rewrite filter_app, filter_cons, decide_False by done. by rewrite app_nil_r.
Qed.

(** All the writes of a section go to one group. *)
Lemma group_order_one g ws gs :
  within (fun g' => g' = g) ws -> ws <> [] ->
  group_order ws gs = if decide (g ∈ gs) then gs else gs ++ [g].
Proof.
  intros Hw. revert gs. induction Hw as [|w ws <- Hw IH]; intros gs Hn; [done|].
  change (group_order (w :: ws) gs) with (group_order ws (add_group gs w)).
  destruct ws as [|w' ws]; [done|]. rewrite IH by done. unfold add_group.
  destruct (decide (w.1.1 ∈ gs)); [by rewrite decide_True|].
  by rewrite decide_True by (apply elem_of_app; right; by left).
Qed.

Section fresh.
Context `{GL : GKeyFileLaws}.

Lemma agrees_write_all ws path g : agrees (write_all ws (mkKeyFile path gkf_create)) ws g.
Proof. intros key. rewrite <- slot_after_fresh. apply holds_write_all, holds_create. Qed.

Lemma agrees_skip k ws1 ws2 g : touches ws1 g = false -> agrees k (ws1 ++ ws2) g -> agrees k ws2 g.
Proof. intros Ht Ha key. rewrite <- (slot_of_skip ws1) by done. apply Ha. Qed.

Lemma agrees_keep k ws1 ws2 g : touches ws2 g = false -> agrees k (ws1 ++ ws2) g -> agrees k ws1 g.
Proof. intros Ht Ha key. rewrite <- (slot_of_keep _ ws2) by done. apply Ha. Qed.

Lemma getGroups_write_all ws k : getGroups (write_all ws k) = group_order ws (getGroups k).
Proof.
  revert k. induction ws as [|[[g key] v] ws IH]; intros k; [done|].
  change (write_all ((g, key, v) :: ws) k)
    with (write_all ws (put_keyfile (gkf_set_string (m_keyfile k) g key v) k)).
  rewrite IH. change (group_order ((g, key, v) :: ws) ?gs) with (group_order ws (add_group gs (g, key, v))).
  f_equal. unfold getGroups, add_group. cbn. rewrite gkf_set_groups, gkf_has_group_spec.
  case_bool_decide; [by rewrite decide_True|by rewrite decide_False].
Qed.

Lemma getGroups_create path : getGroups (mkKeyFile path gkf_create) = [].
Proof. apply gkf_create_groups. Qed.
End fresh.
