(* ===== verification/Timezone.v ===== *)
(** * Timezones

    The class [Timezone] of [src/services/timezone.cpp].  The zone table and
    the output of [timedatectl] are arguments. *)

From stdpp Require Import base strings list sorting.
From Stdlib Require Import ZArith Lia Ascii OrdersEx.
From S2P Require Import Prelude CppString.

Definition tab : ascii := "009".
Definition newline : ascii := "010".

(** ** The zone table *)

(** One line of [zone1970.tab]: the third tab-separated column. *)
Definition zone_of_line (line : string) : option string :=
  if empty line || starts_with_char "#" line then None
  else
    match find_char tab line with
    | None => None
    | Some firstTab =>
        match find_char_from tab (S firstTab) line with
        | None => None
        | Some secondTab =>
            match find_char_from tab (S secondTab) line with
            | None => Some (sdrop (S secondTab) line)
            | Some thirdTab => Some (stake (thirdTab - secondTab - 1) (sdrop (S secondTab) line))
            end
        end
    end.

Definition parseZone1970Tab (lines : list string) : list string := omap zone_of_line lines.

(** ** [std::multimap<std::string, std::string>]

    The entries in iteration order: by key, equal keys in the order of
    insertion. *)
Definition multimap : Type := list (string * string).

Fixpoint multimap_insert (m : multimap) (kv : string * string) : multimap :=
  match m with
  | [] => [kv]
  | kv' :: m' => if String.ltb kv.1 kv'.1 then kv :: m else kv' :: multimap_insert m' kv
  end.

(** The area and the rest of the name. *)
Definition split_timezone (tz : string) : string * string :=
  match find_char "/" tz with
  | None => (tz, "")
  | Some slash => (stake slash tz, sdrop (S slash) tz)
  end.

Definition insertTimezone (timezones : multimap) (tz : string) : multimap :=
  if empty tz then timezones else multimap_insert timezones (split_timezone tz).

(** [file] is the text of the table and whether reading it failed; [None] if
    it cannot be opened. *)
Definition readZone1970Tab (file : option (string * bool)) : list string :=
  match file with
  | None => []
  | Some (content, bad) => if bad : bool then [] else parseZone1970Tab (getlines newline content)
  end.

Definition fetchAvailableTimezones (file : option (string * bool))
    (timedatectl : outcome (list string)) : outcome multimap :=
  let output := readZone1970Tab file in
  output ← match output with [] => timedatectl | _ => Ok output end;
  Ok (foldl insertTimezone [] output).

(** ** The object *)

Record Timezone := mkTimezone {
  m_timezone : string;
  m_timezoneArea : string;
  m_availableTimezones : multimap;
  m_timeservers : list string;
}.

Definition Timezone_make (file : option (string * bool)) (timedatectl : outcome (list string))
  : outcome Timezone :=
  zones ← fetchAvailableTimezones file timedatectl; Ok (mkTimezone "" "" zones []).

Definition setTimezone (tz : string) : M Timezone unit :=
  modify (fun t => mkTimezone tz (m_timezoneArea t) (m_availableTimezones t) (m_timeservers t)).
Definition setTimezoneArea (tz : string) : M Timezone unit :=
  modify (fun t => mkTimezone (m_timezone t) tz (m_availableTimezones t) (m_timeservers t)).

(** The command it hands to the runner. *)
Definition setSystemTimezone (t : Timezone) : string := "timedatectl set timezone " +:+ m_timezone t.

Definition emplace_timeserver (s : string) : M Timezone unit :=
  modify (fun t => mkTimezone (m_timezone t) (m_timezoneArea t) (m_availableTimezones t)
                     (m_timeservers t ++ [s])).

Definition setTimeservers (timeservers : list string) : M Timezone unit :=
  for_each timeservers emplace_timeserver.

(** What [while (stream.good()) std::getline(stream, s, ',')] delivers: the
    last piece too when it is empty. *)
Fixpoint stream_pieces (delim : ascii) (s : string) : list string :=
  match s with
  | "" => [""]
  | String c s' =>
      if Ascii.eqb delim c then "" :: stream_pieces delim s'
      else match stream_pieces delim s' with
           | [] => [String c ""]
           | p :: ps => String c p :: ps
           end
  end.

Definition setTimeservers_string (timeservers : string) : M Timezone unit :=
  for_each (stream_pieces "," timeservers) (fun substring =>
    emplace_timeserver (erase_char " " substring)).

(** ** Lists of time servers *)

Lemma for_each_timeservers {A} (f : A -> string) l t :
  for_each l (fun x => emplace_timeserver (f x)) t =
  (Ok tt, mkTimezone (m_timezone t) (m_timezoneArea t) (m_availableTimezones t)
            (m_timeservers t ++ (f <$> l))).
Proof.
  revert t. induction l as [|x l IH]; intros t.
  - cbn. rewrite app_nil_r. by destruct t.
  - cbn [for_each]. erewrite M_bind_ok by done. rewrite IH. cbn. by rewrite <- assoc_L by apply _.
Qed.

Lemma stream_pieces_cons delim s : exists p ps, stream_pieces delim s = p :: ps.
Proof.
  destruct s as [|c s]; cbn; [eauto|]. destruct (Ascii.eqb delim c); [eauto|].
  destruct (stream_pieces delim s); eauto.
Qed.

Lemma concat_sep_char sep c p ps : concat_sep sep (String c p :: ps) = String c (concat_sep sep (p :: ps)).
Proof. by destruct ps. Qed.

Lemma stream_pieces_join delim s : concat_sep (String delim "") (stream_pieces delim s) = s.
Proof.
  induction s as [|c s IH]; [done|]. cbn [stream_pieces].
  destruct (stream_pieces_cons delim s) as (p & ps & Hp). rewrite Hp in *.
  destruct (Ascii.eqb_spec delim c) as [<-|].
  - change (concat_sep (String delim "") ("" :: p :: ps))
      with (String delim (concat_sep (String delim "") (p :: ps))). by rewrite IH.
  - rewrite concat_sep_char. by rewrite IH.
Qed.

Lemma stream_pieces_no_char delim s : Forall (fun p => no_char delim p = true) (stream_pieces delim s).
Proof.
  induction s as [|c s IH]; [by repeat constructor|]. cbn [stream_pieces].
  destruct (Ascii.eqb delim c) eqn:Hc; [by constructor|].
  destruct (stream_pieces delim s) as [|p ps]; [constructor; [|done]; unfold no_char; cbn; by rewrite Hc|].
  apply Forall_cons in IH as [Hp Hps]. constructor; [|done]. unfold no_char in *. cbn. by rewrite Hc.
Qed.

Lemma erase_concat sep c l :
  no_char c sep = true ->
  erase_char c (concat_sep sep l) = concat_sep sep (erase_char c <$> l).
Proof.
  intros Hs. induction l as [|x [|y l] IH]; [done|done|].
  change (concat_sep sep (x :: y :: l)) with (x +:+ sep +:+ concat_sep sep (y :: l)).
  rewrite !erase_char_app, IH, (erase_char_id c sep) by done. done.
Qed.

(** ** The multimap *)

Definition key_lt (a b : string) : Prop := String.compare a b = Lt.
Definition entry_le (a b : string * string) : Prop := ~ key_lt b.1 a.1.

Lemma ltb_lt a b : String.ltb a b = true <-> key_lt a b.
Proof. unfold String.ltb, key_lt. destruct (String.compare a b); naive_solver. Qed.

Lemma key_lt_trans a b c : key_lt a b -> key_lt b c -> key_lt a c.
Proof. apply (StrictOrder_Transitive (R := String_as_OT.lt)). Qed.

Lemma key_lt_irrefl a : ~ key_lt a a.
Proof. apply (StrictOrder_Irreflexive (R := String_as_OT.lt)). Qed.

Lemma key_lt_total a b : key_lt a b \/ a = b \/ key_lt b a.
Proof.
  unfold key_lt. destruct (String.compare a b) eqn:Hc; [|by left|].
  - right. left. by apply String.compare_eq_iff.
  - right. right. rewrite String.compare_antisym, Hc. done.
Qed.

Lemma multimap_insert_elem m kv x : x ∈ multimap_insert m kv <-> x = kv \/ x ∈ m.
Proof.
  induction m as [|kv' m IH]; cbn.
  - by rewrite list_elem_of_singleton, elem_of_nil; naive_solver.
  - destruct (String.ltb kv.1 kv'.1); rewrite !elem_of_cons; [done|]. rewrite IH. naive_solver.
Qed.

Lemma multimap_insert_sorted m kv :
  StronglySorted entry_le m -> StronglySorted entry_le (multimap_insert m kv).
Proof.
  induction 1 as [|kv' m Hm IH Hf]; cbn; [by repeat constructor|].
  destruct (String.ltb kv.1 kv'.1) eqn:Hlt.
  - apply ltb_lt in Hlt. constructor; [by constructor|]. constructor.
    + intros Hgt. eapply key_lt_irrefl, key_lt_trans; eauto.
    + rewrite Forall_forall in Hf |- *. intros x Hx Hgt. apply (Hf x Hx). by eapply key_lt_trans.
  - constructor; [done|]. apply Forall_forall. intros x Hx%multimap_insert_elem.
    destruct Hx as [->|Hx]; [|rewrite Forall_forall in Hf; by apply Hf].
    unfold entry_le. intros Hgt%ltb_lt. congruence.
Qed.

(** The values under a key, in iteration order. *)
Definition equal_range (m : list (string * string)) (k : string) : list string :=
  snd <$> filter (fun kv => kv.1 = k) m.

Lemma equal_range_cons kv m k :
  equal_range (kv :: m) k = if decide (kv.1 = k) then kv.2 :: equal_range m k else equal_range m k.
Proof. unfold equal_range. rewrite filter_cons. by case_decide. Qed.

Lemma equal_range_none m k : Forall (fun kv => kv.1 <> k) m -> equal_range m k = [].
Proof. induction 1 as [|kv m Hk _ IH]; [done|]. by rewrite equal_range_cons, decide_False. Qed.

Lemma equal_range_insert m kv k :
  StronglySorted entry_le m ->
  equal_range (multimap_insert m kv) k =
  equal_range m k ++ (if decide (kv.1 = k) then [kv.2] else []).
Proof.
  induction 1 as [|kv' m Hm IH Hf]; cbn [multimap_insert].
  - rewrite equal_range_cons. by case_decide.
  - destruct (String.ltb kv.1 kv'.1) eqn:Hlt.
    + rewrite (equal_range_cons kv). case_decide as Hk; [|by rewrite app_nil_r].
      apply ltb_lt in Hlt. rewrite equal_range_none; [done|]. constructor.
      * intros Heq. apply (key_lt_irrefl k). congruence.
      * rewrite Forall_forall in Hf |- *. intros x Hx Heq. apply (Hf x Hx). congruence.
    + rewrite !(equal_range_cons kv'), IH. by destruct (decide (kv'.1 = k)).
Qed.

Lemma insertTimezone_sorted m tz : StronglySorted entry_le m -> StronglySorted entry_le (insertTimezone m tz).
Proof. unfold insertTimezone. destruct (empty tz); [done|]. apply multimap_insert_sorted. Qed.

(** The names without the area, of the zones of an area. *)
Definition zones_in (area : string) (zones : list string) : list string :=
  omap (fun tz => if empty tz then None
                  else if decide ((split_timezone tz).1 = area) then Some (split_timezone tz).2
                  else None) zones.

Lemma fold_timezones zones m :
  StronglySorted entry_le m ->
  StronglySorted entry_le (foldl insertTimezone m zones) /\
  forall area, equal_range (foldl insertTimezone m zones) area = equal_range m area ++ zones_in area zones.
Proof.
  revert m. induction zones as [|tz zones IH]; intros m Hm; cbn [foldl].
  - split; [done|]. intros area. by rewrite app_nil_r.
  - destruct (IH _ (insertTimezone_sorted m tz Hm)) as [Hs Hr]. split; [done|]. intros area.
    rewrite Hr. unfold insertTimezone, zones_in. cbn [omap list_omap].
    destruct (empty tz); [done|]. rewrite equal_range_insert by done.
    case_decide; rewrite <- assoc_L by apply _; done.
Qed.

(** ** Tables as text *)

Record zone_row := mkRow {
  zr_codes : string;
  zr_coordinates : string;
  zr_tz : string;
  zr_comment : option string;
}.

Inductive table_line := Blank | Comment (text : string) | Row (r : zone_row).

Definition render_row (r : zone_row) : string :=
  zr_codes r +:+ String tab (zr_coordinates r +:+ String tab (zr_tz r +:+
    match zr_comment r with Some c => String tab c | None => "" end)).

Definition render_line (l : table_line) : string :=
  match l with Blank => "" | Comment text => String "#" text | Row r => render_row r end.

Fixpoint render_table (l : list table_line) : string :=
  match l with [] => "" | x :: l => render_line x +:+ String newline (render_table l) end.

Record row_ok (r : zone_row) : Prop := {
  row_codes : empty (zr_codes r) = false /\ starts_with_char "#" (zr_codes r) = false;
  row_no_tab : no_char tab (zr_codes r) = true /\ no_char tab (zr_coordinates r) = true /\
    no_char tab (zr_tz r) = true;
}.

Definition line_ok (l : table_line) : Prop :=
  no_char newline (render_line l) = true /\ match l with Row r => row_ok r | _ => True end.

Lemma sdrop_row a b c : sdrop (S (S (String.length a) + String.length b))
    (a +:+ String tab (b +:+ String tab c)) = c.
Proof.
  replace (S (S (String.length a) + String.length b)) with (S (String.length a) + S (String.length b)) by lia.
  by rewrite <- sdrop_sdrop, sdrop_at, sdrop_at.
Qed.

(** A line of three columns, the third running to the end or a tab. *)
Lemma zone_of_columns a b c :
  empty a = false -> starts_with_char "#" a = false -> no_char tab a = true -> no_char tab b = true ->
  zone_of_line (a +:+ String tab (b +:+ String tab c)) =
  Some (match find_char tab c with Some i => stake i c | None => c end).
Proof.
  intros He Hh Ha Hb. unfold zone_of_line.
  assert (empty (a +:+ String tab (b +:+ String tab c)) = false) as -> by (by destruct a).
  assert (starts_with_char "#" (a +:+ String tab (b +:+ String tab c)) = false) as -> by (by destruct a).
  cbn [orb]. rewrite find_char_at by done. unfold find_char_from. rewrite sdrop_at, find_char_at by done.
  cbn [fmap option_fmap option_map]. rewrite sdrop_row.
  destruct (find_char tab c) as [i|]; cbn [fmap option_fmap option_map]; [|done].
  do 2 f_equal. lia.
Qed.

Lemma zone_of_row r : row_ok r -> zone_of_line (render_row r) = Some (zr_tz r).
Proof.
  intros [[He Hh] (H1 & H2 & H3)]. unfold render_row. rewrite zone_of_columns by done.
  destruct (zr_comment r) as [c|].
  - by rewrite find_char_at, stake_app.
  - rewrite sapp_nil_r. by rewrite (proj1 (no_char_find _ _) H3).
Qed.

Definition row_zone (l : table_line) : option string :=
  match l with Row r => Some (zr_tz r) | _ => None end.

Lemma parse_table l : Forall line_ok l -> parseZone1970Tab (getlines newline (render_table l)) = omap row_zone l.
Proof.
  induction 1 as [|x l [Hn Hx] _ IH]; [done|]. cbn [render_table]. rewrite getlines_line by exact Hn.
  unfold parseZone1970Tab in *. cbn [omap list_omap]. rewrite IH.
  destruct x as [|text|r]; [done|done|]. cbn [render_line]. by rewrite zone_of_row.
Qed.

(** The zone table: every table line with at least three columns gives its
    third column, with or without a comment column behind it, and blank and
    comment lines give nothing, so reading a well-formed table lists exactly
    its zones in order. *)
Theorem readZone1970Tab_roundtrip (l : list table_line) :
  Forall line_ok l -> readZone1970Tab (Some (render_table l, false)) = omap row_zone l.
Proof. apply parse_table. Qed.

(** The available timezones: they come from the zone table unless it
    cannot be read or lists no zone, and only then from [timedatectl]; they
    are sorted by area, and the zones of an area are in the order of the
    source, a zone without a slash being its own area with an empty rest. *)
Theorem fetchAvailableTimezones_spec (file : option (string * bool)) (timedatectl : outcome (list string)) :
  let zones := if decide (readZone1970Tab file = []) then timedatectl else Ok (readZone1970Tab file) in
  match fetchAvailableTimezones file timedatectl with
  | Ok m => exists l, zones = Ok l /\ StronglySorted entry_le m /\
              forall area, equal_range m area = zones_in area l
  | Throw e => zones = Throw e
  | UB => zones = UB
  end.
Proof.
  cbv zeta. unfold fetchAvailableTimezones.
  assert ((match readZone1970Tab file with [] => timedatectl | _ => Ok (readZone1970Tab file) end) =
    (if decide (readZone1970Tab file = []) then timedatectl else Ok (readZone1970Tab file))) as ->
    by (by destruct (readZone1970Tab file)).
  destruct (if decide _ then _ else _) as [l|e|]; cbn [mbind outcome_bind]; [|done..].
  destruct (fold_timezones l [] (SSorted_nil _)) as [Hs Hr]. by exists l.
Qed.

(** Time servers given as text: the object's list grows by the pieces
    between the commas without their spaces, empty ones included, so there is
    always at least one and joining them with commas is the text without
    spaces; nothing is ever removed. *)
Theorem setTimeservers_spec (text : string) (t : Timezone) :
  exists servers,
    setTimeservers_string text t =
      (Ok tt, mkTimezone (m_timezone t) (m_timezoneArea t) (m_availableTimezones t)
                (m_timeservers t ++ servers)) /\
    servers <> [] /\ concat_sep "," servers = erase_char " " text /\
    Forall (fun s => no_char " " s = true /\ no_char "," s = true) servers.
Proof.
  exists (erase_char " " <$> stream_pieces "," text). split; [apply for_each_timeservers|]. split; [|split].
  - destruct (stream_pieces_cons "," text) as (p & ps & ->). done.
  - rewrite <- erase_concat by done. by rewrite (stream_pieces_join "," text).
  - apply Forall_fmap. eapply Forall_impl; [apply stream_pieces_no_char|]. intros p Hp.
    split; [apply no_char_erase|by apply no_char_erase_other].
Qed.
