(* ===== verification/Options.v ===== *)
(** * Command-line options

    The structure [Options] of [include/opencattus/services/options.h], its
    defaults and the predicates of [src/services/options.cpp].  Parsing the
    command line is CLI11's. *)

From stdpp Require Import base strings list gmap.
From Stdlib Require Import ZArith Lia Ascii.
From S2P Require Import Prelude CppString.

Local Open Scope Z_scope.

Record Options := mkOptions {
  parsingError : bool;
  helpAndExit : bool;
  showVersion : bool;
  runAsRoot : bool;
  dryRun : bool;
  enableTUI : bool;
  enableCLI : bool;
  runAsDaemon : bool;
  airGap : bool;
  unattended : bool;
  enableMirrors : bool;
  listRoles : bool;
  logLevelInput : Z;
  error : string;
  config : string;
  helpText : string;
  airGapUrl : string;
  mirrorBaseUrl : string;
  answerfile : string;
  beegfsVersion : string;
  zabbixVersion : string;
  xcatVersion : string;
  dumpAnswerfile : string;
  tuiDraft : string;
  stopAfterStep : string;
  skipSteps : gset string;
  forceSteps : gset string;
  ohpcPackages : gset string;
  roles : list string;
  testCommand : string;
  testCommandArgs : list string;
}.

(** The object [options::factory] starts from. *)
Definition default_options : Options := {|
  parsingError := false; helpAndExit := false; showVersion := false; runAsRoot := false;
  dryRun := false; enableTUI := false; enableCLI := false; runAsDaemon := false; airGap := false;
  unattended := false; enableMirrors := false; listRoles := false; logLevelInput := 3;
  error := "NO ERROR"; config := ""; helpText := ""; airGapUrl := "file:///var/repos/";
  mirrorBaseUrl := "https://mirror.versatushpc.com.br"; answerfile := "";
  beegfsVersion := "latest-stable"; zabbixVersion := "latest-lts"; xcatVersion := "latest";
  dumpAnswerfile := ""; tuiDraft := ""; stopAfterStep := "";
  skipSteps := ∅; forceSteps := ∅; ohpcPackages := ∅; roles := [];
  testCommand := ""; testCommandArgs := [] |}.

Definition shouldSkip (o : Options) (step : string) : bool := bool_decide (step ∈ skipSteps o).
Definition shouldForce (o : Options) (step : string) : bool := bool_decide (step ∈ forceSteps o).

(** Whether the process exits after the step. *)
Definition maybeStopAfterStep (o : Options) (step : string) : bool :=
  String.eqb (stopAfterStep o) step.
