(* ===== verification/Os.v ===== *)
(** * The operating system model

    The class [OS] of [src/models/os.cpp] and [include/opencattus/models/os.h]:
    probing [/etc/os-release], the supported releases, and version numbers,
    which Ubuntu encodes as year and month. *)

From stdpp Require Import base strings list relations.
From Stdlib Require Import ZArith Lia Ascii.
From S2P Require Import Prelude CppString Enums.

Local Open Scope Z_scope.

Module Arch.
Inductive t := x86_64 | ppc64le.
#[global] Instance t_eq_dec : EqDecision t. Proof. solve_decision. Defined.
#[global, program] Instance t_enum : CppEnum t := {|
  enum_values := [x86_64; ppc64le];
  enum_name x := match x with x86_64 => "x86_64" | ppc64le => "ppc64le" end |}.
Solve All Obligations with solve_enum.
End Arch.

Module Family.
Inductive t := Linux | Darwin.
#[global] Instance t_eq_dec : EqDecision t. Proof. solve_decision. Defined.
#[global, program] Instance t_enum : CppEnum t := {|
  enum_values := [Linux; Darwin];
  enum_name x := match x with Linux => "Linux" | Darwin => "Darwin" end |}.
Solve All Obligations with solve_enum.
End Family.

Module Platform.
Inductive t := el8 | el9 | el10 | ubuntu2404.
#[global] Instance t_eq_dec : EqDecision t. Proof. solve_decision. Defined.
#[global, program] Instance t_enum : CppEnum t := {|
  enum_values := [el8; el9; el10; ubuntu2404];
  enum_name x := match x with
    | el8 => "el8" | el9 => "el9" | el10 => "el10" | ubuntu2404 => "ubuntu2404" end |}.
Solve All Obligations with solve_enum.
End Platform.

Module Distro.
Inductive t := RHEL | OL | Rocky | AlmaLinux | Ubuntu.
#[global] Instance t_eq_dec : EqDecision t. Proof. solve_decision. Defined.
#[global, program] Instance t_enum : CppEnum t := {|
  enum_values := [RHEL; OL; Rocky; AlmaLinux; Ubuntu];
  enum_name x := match x with
    | RHEL => "RHEL" | OL => "OL" | Rocky => "Rocky" | AlmaLinux => "AlmaLinux"
    | Ubuntu => "Ubuntu" end |}.
Solve All Obligations with solve_enum.
End Distro.

Module PackageType.
Inductive t := RPM | DEB.
#[global] Instance t_eq_dec : EqDecision t. Proof. solve_decision. Defined.
#[global, program] Instance t_enum : CppEnum t := {|
  enum_values := [RPM; DEB];
  enum_name x := match x with RPM => "RPM" | DEB => "DEB" end |}.
Solve All Obligations with solve_enum.
End PackageType.

(** ** State

    A [std::variant<std::monostate, T>] is an option; the versions are
    [unsigned]. *)
Record OS := mkOS {
  m_arch : option Arch.t;
  m_family : option Family.t;
  m_platform : option Platform.t;
  m_distro : option Distro.t;
  m_kernel : option string;
  m_majorVersion : Z;
  m_minorVersion : Z;
}.

Definition put_arch x (o : OS) : OS :=
  mkOS x (m_family o) (m_platform o) (m_distro o) (m_kernel o) (m_majorVersion o) (m_minorVersion o).
Definition put_family x (o : OS) : OS :=
  mkOS (m_arch o) x (m_platform o) (m_distro o) (m_kernel o) (m_majorVersion o) (m_minorVersion o).
Definition put_platform x (o : OS) : OS :=
  mkOS (m_arch o) (m_family o) x (m_distro o) (m_kernel o) (m_majorVersion o) (m_minorVersion o).
Definition put_distro x (o : OS) : OS :=
  mkOS (m_arch o) (m_family o) (m_platform o) x (m_kernel o) (m_majorVersion o) (m_minorVersion o).
Definition put_kernel x (o : OS) : OS :=
  mkOS (m_arch o) (m_family o) (m_platform o) (m_distro o) x (m_majorVersion o) (m_minorVersion o).
Definition put_majorVersion x (o : OS) : OS :=
  mkOS (m_arch o) (m_family o) (m_platform o) (m_distro o) (m_kernel o) x (m_minorVersion o).
Definition put_minorVersion x (o : OS) : OS :=
  mkOS (m_arch o) (m_family o) (m_platform o) (m_distro o) (m_kernel o) (m_majorVersion o) x.

(** [std::get<T>(variant)] *)
Definition get_variant {T} (v : option T) : outcome T :=
  match v with Some x => Ok x | None => Throw BadVariantAccess end.

(** ** Probing the host *)

Record HostOSProbe := mkProbe {
  architecture : string;
  family : string;
  kernel : string;
  platform : option string;
  distro : string;
  version : string;
}.

Definition valueFromOsReleaseLine (line : string) : string :=
  erase_char "034" (sdrop (after (find_char "=" line)) line).

(** [OS::getValueFromKey] is the same function. *)
Definition getValueFromKey (line : string) : string :=
  let value := sdrop (after (find_char "=" line)) line in
  erase_char "034" value.

(** The body of the loop over the lines of [/etc/os-release]. *)
Definition probe_line (isTest : bool) (p : HostOSProbe) (line : string) : HostOSProbe :=
  let p :=
    if starts_with "PLATFORM_ID=" line then
      let pl :=
        if isTest then "el9"
        else
          let value := valueFromOsReleaseLine line in
          if starts_with "platform:" value
          then sdrop (String.length "platform:") value
          else value in
      mkProbe (architecture p) (family p) (kernel p) (Some pl) (distro p) (version p)
    else p in
  let p :=
    if starts_with "ID=" line then
      mkProbe (architecture p) (family p) (kernel p) (platform p)
        (if negb isTest then valueFromOsReleaseLine line else "rocky") (version p)
    else p in
  if starts_with "VERSION_ID=" line then
    mkProbe (architecture p) (family p) (kernel p) (platform p) (distro p)
      (if negb isTest then valueFromOsReleaseLine line else "9.5")
  else if empty (version p) && starts_with "VERSION=" line then
    mkProbe (architecture p) (family p) (kernel p) (platform p) (distro p)
      (if negb isTest then valueFromOsReleaseLine line else "9.5")
  else p.

(** [uname] and the file are arguments: [os_release] is its content and
    whether reading ended on a device error, or [None] if it cannot be
    opened. *)
Definition probeHostOS (isTest : bool) (machine sysname release : string)
    (os_release : option (string * bool)) : outcome HostOSProbe :=
  let probe := mkProbe machine sysname release None "" "" in
  if String.eqb (family probe) "Linux" then
    match os_release with
    | None => Throw (RuntimeError "Error while opening file: /etc/os-release")
    | Some (content, bad) =>
        let probe := foldl (probe_line isTest) probe (getlines "010" content) in
        if bad : bool then Throw (RuntimeError "Error while reading file: /etc/os-release")
        else Ok probe
    end
  else Ok probe.

(** ** Methods *)

Definition getArch (o : OS) : outcome Arch.t := get_variant (m_arch o).

Definition setArch (arch : Arch.t) : M OS unit := modify (put_arch (Some arch)).

Definition setArch_string (arch : string) : M OS unit :=
  if negb (String.eqb arch "x86_64")
  then throw (RuntimeError ("Unsupported architecture: " +:+ arch))
  else setArch Arch.x86_64.

Definition getFamily (o : OS) : outcome Family.t := get_variant (m_family o).

Definition setFamily (f : Family.t) : M OS unit := modify (put_family (Some f)).

Definition setFamily_string (f : string) : M OS unit :=
  match ofStringOpt f Sensitive with
  | Some rv => setFamily rv
  | None => throw (RuntimeError ("Unsupported OS: " +:+ f))
  end.

Definition getPlatform (o : OS) : outcome Platform.t := get_variant (m_platform o).

Definition setPlatform (p : Platform.t) : M OS unit := modify (put_platform (Some p)).

(** [functions::abort] throws a [runtime_error]. *)
Definition setPlatform_string (p : string) : M OS unit :=
  match ofStringOpt p Insensitive with
  | None => throw (RuntimeError ("Unsupported Platform: " +:+ p))
  | Some enumValue => setPlatform enumValue
  end.

Definition getDistro (o : OS) : outcome Distro.t := get_variant (m_distro o).

Definition setDistro (d : Distro.t) : M OS unit := modify (put_distro (Some d)).

Definition normalizeDistro (d : string) : string :=
  let normalizedDistro := lower d in
  if String.eqb normalizedDistro "alma" then "almalinux"
  else if String.eqb normalizedDistro "ubuntu2404" || String.eqb normalizedDistro "ubuntu24"
          || String.eqb normalizedDistro "ubuntu24.04" then "ubuntu"
  else normalizedDistro.

Definition setDistro_string (d : string) : M OS unit :=
  match ofStringOpt (normalizeDistro d) Insensitive with
  | Some rval => setDistro rval
  | None => throw (RuntimeError ("Unsupported Distribution: " +:+ d))
  end.

Definition getPackageType (o : OS) : outcome PackageType.t :=
  d ← getDistro o;
  match d with
  | Distro.RHEL | Distro.OL | Distro.Rocky | Distro.AlmaLinux => Ok PackageType.RPM
  | Distro.Ubuntu => Ok PackageType.DEB
  end.

Definition setKernel (k : string) : M OS unit := modify (put_kernel (Some k)).

Definition setMajorVersion (majorVersion : Z) : M OS unit :=
  _ ← (if majorVersion =? 8 then modify (put_platform (Some Platform.el8))
       else if majorVersion =? 9 then modify (put_platform (Some Platform.el9))
       else if majorVersion =? 10 then modify (put_platform (Some Platform.el10))
       else if majorVersion =? 2404 then modify (put_platform (Some Platform.ubuntu2404))
       else throw (RuntimeError ("Unsupported release: " +:+ dec majorVersion +:+
                                 " is not supported.")));
  modify (put_majorVersion majorVersion).

Definition setMinorVersion (minorVersion : Z) : M OS unit := modify (put_minorVersion minorVersion).

Definition getVersion (o : OS) : outcome string :=
  d ← getDistro o;
  match d with
  | Distro.Ubuntu =>
      let base := dec (m_majorVersion o / 100) +:+ "." +:+ pad0 2 (dec (m_majorVersion o mod 100)) in
      if 0 <? m_minorVersion o then Ok (base +:+ "." +:+ dec (m_minorVersion o)) else Ok base
  | _ => Ok (dec (m_majorVersion o) +:+ "." +:+ dec (m_minorVersion o))
  end.

Definition getDistroString (o : OS) : outcome string :=
  d ← getDistro o;
  let distro := match d with
    | Distro.RHEL => "rhel" | Distro.AlmaLinux => "almalinux" | Distro.Rocky => "rocky"
    | Distro.OL => "ol" | Distro.Ubuntu => "ubuntu" end in
  v ← getVersion o;
  Ok (distro +:+ "-" +:+ v).

(** [substr(0, pos)], to the end when [pos] is [npos]. *)
Definition before (pos : option nat) (s : string) : string :=
  match pos with Some i => stake i s | None => s end.

(** [static_cast<unsigned>(std::stoul(s))] *)
Definition stou32 (s : string) : outcome Z := u32 <$> stoul10 s.

Definition setVersion (version : string) : M OS unit :=
  match find_char "." version with
  | None =>
      throw (RuntimeError ("Unexpected value for system.version (in answerfile.ini). " +:+
        "Expected M.N format, e.g., 9.5. Value found instead: " +:+ version))
  | Some first =>
      d ← (fun o => (getDistro o, o));
      if decide (d = Distro.Ubuntu) then
        year ← lift (stou32 (stake first version));
        let rest := sdrop (S first) version in
        let second := find_char "." rest in
        month ← lift (stou32 (before second rest));
        _ ← setMajorVersion (u32 (year * 100 + month));
        match second with
        | Some i =>
            minor ← lift (stou32 (sdrop (S i) rest));
            setMinorVersion minor
        | None => setMinorVersion 0
        end
      else
        major ← lift (stou32 (stake first version));
        _ ← setMajorVersion major;
        minor ← lift (stou32 (sdrop (S first) version));
        setMinorVersion minor
  end.

(** *** Constructors *)

(** [OS::OS()]: [host] is what the probe, run once per process, gave. *)
Definition OS_host (host : outcome HostOSProbe) : outcome OS :=
  construct
    (host ← lift host;
     _ ← setArch_string (architecture host);
     _ ← setFamily_string (family host);
     _ ← setKernel (kernel host);
     _ ← match platform host with Some p => setPlatform_string p | None => skip end;
     _ ← setDistro_string (distro host);
     setVersion (version host))
    (mkOS None None None None None 0 0).

Definition platform_major (p : Platform.t) : Z :=
  match p with
  | Platform.el10 => 10 | Platform.el9 => 9 | Platform.el8 => 8 | Platform.ubuntu2404 => 2404
  end.

(** [OS(distro, platform, minorVersion, arch, family)] *)
Definition OS_make (d : Distro.t) (p : Platform.t) (minorVersion : Z) (arch : Arch.t)
    (f : Family.t) : OS :=
  mkOS (Some arch) (Some f) (Some p) (Some d) None (platform_major p) minorVersion.

(** ** Version numbers *)

Definition major_platform (major : Z) : option Platform.t :=
  if major =? 8 then Some Platform.el8 else if major =? 9 then Some Platform.el9
  else if major =? 10 then Some Platform.el10 else if major =? 2404 then Some Platform.ubuntu2404
  else None.

Lemma major_platform_spec major p : major_platform major = Some p <-> major = platform_major p.
Proof.
  unfold major_platform. split.
  - repeat case_match; try done; intros [= <-]; cbn; lia.
  - intros ->. by destruct p.
Qed.

Definition put_release (p : Platform.t) (o : OS) : OS :=
  put_majorVersion (platform_major p) (put_platform (Some p) o).

Lemma setMajorVersion_spec major o :
  setMajorVersion major o =
  match major_platform major with
  | Some p => (Ok tt, put_release p o)
  | None => (Throw (RuntimeError ("Unsupported release: " +:+ dec major +:+ " is not supported.")), o)
  end.
Proof.
  unfold setMajorVersion, major_platform. cpp_simpl.
  destruct (Z.eqb_spec major 8) as [->|]; [done|]. destruct (Z.eqb_spec major 9) as [->|]; [done|].
  destruct (Z.eqb_spec major 10) as [->|]; [done|]. by destruct (Z.eqb_spec major 2404) as [->|].
Qed.

Lemma setMajorVersion_platform p o : setMajorVersion (platform_major p) o = (Ok tt, put_release p o).
Proof. rewrite setMajorVersion_spec. by rewrite (proj2 (major_platform_spec _ p) eq_refl). Qed.

Lemma stou32_digits s v :
  sforall is_digit s = true -> empty s = false -> digits_val 10 digit_val s 0 = v ->
  0 <= v < 2 ^ 32 -> stou32 s = Ok v.
Proof.
  intros Hd He Hv Hr. unfold stou32. rewrite stoul10_digits by (done || lia).
  cbn. by rewrite Hv, u32_id.
Qed.

Lemma stou32_dec v : 0 <= v < 2 ^ 32 -> stou32 (dec v) = Ok v.
Proof. intros. apply stou32_digits; [apply dec_digit; lia|apply dec_empty|apply dec_val; lia|done]. Qed.

(** [M.N] read by a distribution other than Ubuntu. *)
Lemma setVersion_el major minor o d :
  m_distro o = Some d -> d <> Distro.Ubuntu -> no_char "." major = true ->
  setVersion (major +:+ String "." minor) o =
  (major ← lift (stou32 major);
   _ ← setMajorVersion major;
   minor ← lift (stou32 minor); setMinorVersion minor) o.
Proof.
  intros Hd Hn Hm. unfold setVersion. rewrite find_char_at by done. cpp_simpl.
  unfold getDistro. rewrite Hd. cbn [get_variant]. rewrite decide_False by done.
  by rewrite stake_app, sdrop_at.
Qed.

(** [YY.MM] or [YY.MM.P] read by Ubuntu. *)
Lemma setVersion_ubuntu yy mm o :
  m_distro o = Some Distro.Ubuntu -> no_char "." yy = true -> no_char "." mm = true ->
  (forall point, setVersion (yy +:+ String "." (mm +:+ String "." point)) o =
    (year ← lift (stou32 yy); month ← lift (stou32 mm);
     _ ← setMajorVersion (u32 (year * 100 + month));
     minor ← lift (stou32 point); setMinorVersion minor) o) /\
  setVersion (yy +:+ String "." mm) o =
    (year ← lift (stou32 yy); month ← lift (stou32 mm);
     _ ← setMajorVersion (u32 (year * 100 + month)); setMinorVersion 0) o.
Proof.
  intros Hd Hy Hm. unfold setVersion. split; [intros point|];
    rewrite find_char_at by done; cpp_simpl; unfold getDistro; rewrite Hd;
    cbn [get_variant]; rewrite decide_True by done; rewrite stake_app, !sdrop_at.
  - rewrite find_char_at by done. cbn [before]. by rewrite stake_app, sdrop_at.
  - apply no_char_find in Hm. rewrite Hm. done.
Qed.

(** The version numbers and the platform agree. *)
Record os_ok (o : OS) : Prop := {
  os_distro : is_Some (m_distro o);
  os_release : exists p, m_platform o = Some p /\ m_majorVersion o = platform_major p;
  os_minor : 0 <= m_minorVersion o < 2 ^ 32;
}.

Lemma platform_year_month p :
  let yy := dec (platform_major p / 100) in
  let mm := pad0 2 (dec (platform_major p mod 100)) in
  no_char "." yy = true /\ no_char "." mm = true /\
  stou32 yy = Ok (platform_major p / 100) /\ stou32 mm = Ok (platform_major p mod 100) /\
  u32 (platform_major p / 100 * 100 + platform_major p mod 100) = platform_major p.
Proof. destruct p; vm_compute; done. Qed.

(** Printing the version of a model and reading it into any model of the same
    distribution transfers platform and version numbers. *)
Lemma getVersion_setVersion o o' p :
  is_Some (m_distro o) -> m_platform o = Some p -> m_majorVersion o = platform_major p ->
  0 <= m_minorVersion o < 2 ^ 32 -> m_distro o' = m_distro o ->
  exists v, getVersion o = Ok v /\
    setVersion v o' = (Ok tt, put_minorVersion (m_minorVersion o) (put_release p o')).
Proof.
  intros [d Hd] Hp Hm Hmin Hd'. unfold getVersion, getDistro. rewrite Hd in *. cbn [get_variant mbind outcome_bind].
  rewrite Hm.
  destruct (decide (d = Distro.Ubuntu)) as [->|Hn].
  - destruct (platform_year_month p) as (Hy & Hmm & Hsy & Hsm & Hu).
    destruct (setVersion_ubuntu _ _ o' Hd' Hy Hmm) as [H1 H2].
    destruct (Z.ltb_spec 0 (m_minorVersion o)).
    + eexists. split; [reflexivity|]. rewrite <- !sapp_assoc, !app_char, H1.
      cpp_simpl. rewrite Hsy, Hsm, Hu, setMajorVersion_platform. by rewrite stou32_dec.
    + eexists. split; [reflexivity|]. replace (m_minorVersion o) with 0 by lia.
      rewrite app_char, H2. cpp_simpl. by rewrite Hsy, Hsm, Hu, setMajorVersion_platform.
  - exists (dec (platform_major p) +:+ String "." (dec (m_minorVersion o))).
    split; [by destruct d|].
    assert (0 <= platform_major p < 2 ^ 32) by (destruct p; cbn; lia).
    rewrite (setVersion_el _ _ _ d) by (done || (apply digits_no_char; [done|apply dec_digit; lia])).
    cpp_simpl. rewrite stou32_dec by done. rewrite setMajorVersion_platform. by rewrite stou32_dec.
Qed.

(** Version round trip, for the RPM distributions and for Ubuntu's
    year-and-month encoding: a model whose platform and major version agree
    prints a version that, read back, leaves the model as it was; read into
    any model of the same distribution it transfers the release. *)
Theorem version_roundtrip (o : OS) :
  os_ok o ->
  exists v, getVersion o = Ok v /\ setVersion v o = (Ok tt, o) /\
    forall o', m_distro o' = m_distro o ->
      exists o'', setVersion v o' = (Ok tt, o'') /\
        m_platform o'' = m_platform o /\ m_majorVersion o'' = m_majorVersion o /\
        m_minorVersion o'' = m_minorVersion o.
Proof.
  intros [Hd (p & Hp & Hm) Hmin].
  destruct (getVersion_setVersion o o p) as (v & Hv & Hs); try done.
  exists v. split; [done|]. split.
  - rewrite Hs. destruct o; cbn in *. by subst.
  - intros o' Hd'. destruct (getVersion_setVersion o o' p) as (v' & Hv' & Hs'); try done.
    assert (v' = v) as -> by congruence. eexists. split; [done|]. cbn. by rewrite Hp, Hm.
Qed.

(** A failing [setVersion] either leaves the model alone or, when only the
    minor number is unreadable, has already switched platform and major
    version to a supported release; a success always ends in a supported
    release with a 32-bit minor number, whatever text it was given. *)
Theorem setVersion_outcome (v : string) (o o' : OS) (r : outcome unit) :
  setVersion v o = (r, o') ->
  match r with
  | Ok _ => exists p minor, 0 <= minor < 2 ^ 32 /\
              o' = put_minorVersion minor (put_release p o)
  | Throw _ => o' = o \/ exists p, o' = put_release p o
  | UB => False
  end.
Proof.
  assert (forall s, match stou32 s with Ok z => 0 <= z < 2 ^ 32 | Throw _ => True | UB => False end) as Hs.
  { intros s. unfold stou32. destruct (stoul10 s) eqn:E; cbn; [apply u32_range|done|].
    revert E. unfold stoul10. destruct (take_sign _). by repeat case_match. }
  unfold setVersion. destruct (find_char "." v) as [i|]; [|by intros [= <- <-]; left].
  cpp_simpl. destruct (getDistro o) as [d| |] eqn:Hd; [|by intros [= <- <-]; left|].
  2: { unfold getDistro, get_variant in Hd. by destruct (m_distro o). }
  case_decide.
  - pose proof (Hs (stake i v)) as H1. destruct (stou32 (stake i v)); [|by intros [= <- <-]; left|done].
    set (rest := sdrop (S i) v). pose proof (Hs (before (find_char "." rest) rest)) as H2.
    destruct (stou32 (before _ rest)) as [month| |]; [|by intros [= <- <-]; left|done].
    rewrite setMajorVersion_spec. destruct (major_platform _) as [p|]; [|by intros [= <- <-]; left].
    destruct (find_char "." rest) as [j|]; [|intros [= <- <-]; exists p, 0; split; [lia|done]].
    pose proof (Hs (sdrop (S j) rest)) as H3. destruct (stou32 (sdrop (S j) rest)) as [m| |];
      intros [= <- <-]; [by exists p, m|right; by exists p|done].
  - pose proof (Hs (stake i v)) as H1. destruct (stou32 (stake i v)); [|by intros [= <- <-]; left|done].
    rewrite setMajorVersion_spec. destruct (major_platform _) as [p|]; [|by intros [= <- <-]; left].
    pose proof (Hs (sdrop (S i) v)) as H3. destruct (stou32 (sdrop (S i) v)) as [m| |];
      intros [= <- <-]; [by exists p, m|right; by exists p|done].
Qed.

(** The casts to [unsigned] drop high bits, so a major version beyond 32 bits
    is taken for the release it is congruent to. *)
Example setVersion_wraps :
  setVersion "4294967304.5" (OS_make Distro.Rocky Platform.el9 0 Arch.x86_64 Family.Linux) =
  (Ok tt, OS_make Distro.Rocky Platform.el8 5 Arch.x86_64 Family.Linux).
Proof. vm_compute. reflexivity. Qed.

(** A minor version that is not a number leaves the new major in place. *)
Example setVersion_partial :
  exists e, setVersion "8.x" (OS_make Distro.Rocky Platform.el9 4 Arch.x86_64 Family.Linux) =
  (Throw e, OS_make Distro.Rocky Platform.el8 4 Arch.x86_64 Family.Linux).
Proof. eexists. vm_compute. reflexivity. Qed.

(** ** Distribution and platform names *)

Lemma setDistro_string_spec d o :
  setDistro_string d o =
  match ofStringOpt (normalizeDistro d) Insensitive with
  | Some x => (Ok tt, put_distro (Some x) o)
  | None => (Throw (RuntimeError ("Unsupported Distribution: " +:+ d)), o)
  end.
Proof. unfold setDistro_string. by case_match. Qed.

Lemma normalizeDistro_name (x : Distro.t) : ofStringOpt (normalizeDistro (toString x)) Insensitive = Some x.
Proof. by destruct x. Qed.

Lemma normalizeDistro_lower d : lower (normalizeDistro d) = normalizeDistro d.
Proof. unfold normalizeDistro. repeat case_match; try done. apply lower_idemp. Qed.

Definition distro_aliases (x : Distro.t) : list string :=
  match x with
  | Distro.AlmaLinux => ["alma"; "almalinux"]
  | Distro.Ubuntu => ["ubuntu"; "ubuntu24"; "ubuntu2404"; "ubuntu24.04"]
  | Distro.RHEL => ["rhel"]
  | Distro.OL => ["ol"]
  | Distro.Rocky => ["rocky"]
  end.

(** [setDistro] recognises, in any case, exactly the name of each
    distribution and the aliases [alma], [ubuntu24], [ubuntu2404] and
    [ubuntu24.04]; anything else is a [runtime_error] that changes nothing. *)
Theorem setDistro_spec (d : string) (o : OS) :
  (forall x, lower d ∈ distro_aliases x -> setDistro_string d o = (Ok tt, put_distro (Some x) o)) /\
  ((forall x, lower d ∉ distro_aliases x) ->
     setDistro_string d o = (Throw (RuntimeError ("Unsupported Distribution: " +:+ d)), o)).
Proof.
  split.
  - intros x Hx. rewrite setDistro_string_spec.
    assert (ofStringOpt (normalizeDistro d) Insensitive = Some x) as ->; [|done].
    unfold normalizeDistro. destruct x; cbn in Hx; set_unfold in Hx;
      repeat destruct Hx as [-> | Hx]; done.
  - intros Hx. rewrite setDistro_string_spec.
    destruct (ofStringOpt (normalizeDistro d) Insensitive) as [x|] eqn:E; [|done].
    apply ofStringOpt_insensitive in E. rewrite normalizeDistro_lower in E.
    exfalso. apply (Hx x). revert E. unfold normalizeDistro.
    destruct (String.eqb_spec (lower d) "alma") as [->|].
    { intros E. destruct x; vm_compute in E; try done. by left. }
    destruct (String.eqb_spec (lower d) "ubuntu2404") as [->|].
    { intros E. destruct x; vm_compute in E; try done. right; right; left. }
    destruct (String.eqb_spec (lower d) "ubuntu24") as [->|].
    { intros E. destruct x; vm_compute in E; try done. right; left. }
    destruct (String.eqb_spec (lower d) "ubuntu24.04") as [->|]; cbn [orb].
    { intros E. destruct x; vm_compute in E; try done. right; right; right; left. }
    intros ->. destruct x; vm_compute; set_solver.
Qed.

(** ** [/etc/os-release] *)

(** The file as a list of assignments: key, and text to the right of [=]. *)
Fixpoint render_os_release (es : list (string * string)) : string :=
  match es with
  | [] => ""
  | (k, raw) :: es => (k +:+ String "=" raw) +:+ String "010" (render_os_release es)
  end.

Definition entry_ok (e : string * string) : Prop :=
  no_char "=" e.1 = true /\ no_char "010" e.1 = true /\ no_char "010" e.2 = true.

(** The value of a key, with the double quotes dropped. *)
Definition os_release_get (es : list (string * string)) (k : string) : option string :=
  erase_char "034" <$> findOpt es k.

Definition strip_platform (value : string) : string :=
  if starts_with "platform:" value then sdrop (String.length "platform:") value else value.

Lemma valueFromOsReleaseLine_entry k raw :
  no_char "=" k = true -> valueFromOsReleaseLine (k +:+ String "=" raw) = erase_char "034" raw.
Proof.
  intros Hk. unfold valueFromOsReleaseLine. rewrite find_char_at by done. cbn [after].
  by rewrite sdrop_at.
Qed.

(** One line, in terms of its key. *)
Lemma probe_line_entry p k raw :
  no_char "=" k = true ->
  probe_line false p (k +:+ String "=" raw) =
  let v := erase_char "034" raw in
  mkProbe (architecture p) (family p) (kernel p)
    (if decide (k = "PLATFORM_ID") then Some (strip_platform v) else platform p)
    (if decide (k = "ID") then v else distro p)
    (if decide (k = "VERSION_ID") then v
     else if decide (k = "VERSION") then (if empty (version p) then v else version p)
     else version p).
Proof.
  intros Hk. unfold probe_line.
  assert (forall key, no_char "=" key = true ->
    starts_with (key +:+ String "=" "") (k +:+ String "=" raw) = bool_decide (k = key)) as Hs.
  { intros key Hkey. rewrite starts_with_key by done. apply bool_decide_ext. naive_solver. }
  rewrite (Hs "PLATFORM_ID" eq_refl : starts_with "PLATFORM_ID=" _ = _),
    (Hs "ID" eq_refl : starts_with "ID=" _ = _),
    (Hs "VERSION_ID" eq_refl : starts_with "VERSION_ID=" _ = _),
    (Hs "VERSION" eq_refl : starts_with "VERSION=" _ = _).
  rewrite valueFromOsReleaseLine_entry by done.
  repeat case_bool_decide; repeat case_decide; try congruence; cbn;
    rewrite ?andb_true_r, ?andb_false_r; try done;
    destruct (empty (version p)); by destruct p.
Qed.

Lemma findOpt_not_in (es : list (string * string)) k : k ∉ es.*1 -> findOpt es k = None.
Proof.
  induction es as [|[k' v] es IH]; [done|]. cbn. rewrite not_elem_of_cons. intros [Hn Hes].
  rewrite decide_False by done. by apply IH.
Qed.

Lemma probe_lines_spec es p :
  Forall entry_ok es -> NoDup es.*1 ->
  (forall v, os_release_get es "VERSION_ID" = Some v -> empty v = false) ->
  foldl (probe_line false) p (getlines "010" (render_os_release es)) =
  mkProbe (architecture p) (family p) (kernel p)
    (match os_release_get es "PLATFORM_ID" with Some v => Some (strip_platform v) | None => platform p end)
    (default (distro p) (os_release_get es "ID"))
    (match os_release_get es "VERSION_ID" with
     | Some v => v
     | None => if empty (version p) then default (version p) (os_release_get es "VERSION")
               else version p
     end).
Proof.
  intros Hes. revert p. induction Hes as [|[k raw] es (Hk & Hn1 & Hn2) _ IH]; intros p Hnd Hv.
  - cbn. destruct (empty (version p)); by destruct p.
  - cbn [render_os_release]. cbn in Hk, Hn1, Hn2.
    assert (no_char "010" (k +:+ String "=" raw) = true) as Hline.
    { unfold no_char in *. rewrite sforall_app. cbn. by rewrite Hn1. }
    rewrite getlines_line by exact Hline. cbn [foldl]. rewrite probe_line_entry by done.
    rewrite fmap_cons in Hnd. apply NoDup_cons in Hnd as [Hnew Hnd]. cbn in Hnew.
    assert (forall key, k = key -> findOpt es key = None) as Hold.
    { intros key <-. by apply findOpt_not_in. }
    rewrite IH; [|done|].
    2: { intros v Hget. apply Hv. unfold os_release_get in *. cbn.
         destruct (decide (k = "VERSION_ID")) as [->|]; [|done]. by rewrite Hold in Hget. }
    unfold os_release_get in *. cbn in Hv |- *. clear IH Hk Hn1 Hn2 Hline.
    destruct (decide (k = "PLATFORM_ID")) as [->|]; [by rewrite Hold|].
    destruct (decide (k = "ID")) as [->|]; [by rewrite (Hold "ID")|].
    destruct (decide (k = "VERSION_ID")) as [->|].
    { rewrite (Hold "VERSION_ID") by done. cbn. by rewrite (Hv _ eq_refl). }
    destruct (decide (k = "VERSION")) as [->|]; [|done].
    rewrite (Hold "VERSION") by done. cbn.
    destruct (findOpt es "VERSION_ID"); [done|]. cbn.
    destruct (empty (version p)) eqn:E; [|by rewrite E].
    by destruct (empty (erase_char "034" raw)).
Qed.

(** Probing a Linux host: from an [os-release] file that assigns each key
    at most once, in any order and with or without double quotes, the probe
    takes the platform from [PLATFORM_ID] without its [platform:] prefix, the
    distribution from [ID], and the version from [VERSION_ID] or, failing
    that, from [VERSION]. *)
Theorem probeHostOS_os_release es machine release :
  Forall entry_ok es -> NoDup es.*1 ->
  (forall v, os_release_get es "VERSION_ID" = Some v -> empty v = false) ->
  probeHostOS false machine "Linux" release (Some (render_os_release es, false)) =
  Ok (mkProbe machine "Linux" release
        (strip_platform <$> os_release_get es "PLATFORM_ID")
        (default "" (os_release_get es "ID"))
        (default (default "" (os_release_get es "VERSION")) (os_release_get es "VERSION_ID"))).
Proof.
  intros. unfold probeHostOS. cbn [family]. rewrite String.eqb_refl, probe_lines_spec by done.
  done.
Qed.

Definition rocky_os_release : list (string * string) :=
  [("NAME", "Rocky Linux"); ("VERSION", "9.5 (Blue Onyx)"); ("ID", "rocky");
   ("VERSION_ID", "9.5"); ("PLATFORM_ID", "platform:el9")].

(** The whole constructor on such a host. *)
Example OS_host_rocky :
  OS_host (probeHostOS false "x86_64" "Linux" "5.14.0" (Some (render_os_release rocky_os_release, false))) =
  Ok (mkOS (Some Arch.x86_64) (Some Family.Linux) (Some Platform.el9) (Some Distro.Rocky)
        (Some "5.14.0") 9 5).
Proof. vm_compute. reflexivity. Qed.
