(* ===== verification/World.v ===== *)
(** * The machine the program runs on

    The file tree, the processes started, and [std::filesystem].  A path is
    its text, as [std::filesystem::path] keeps it; files and directories are
    keyed by the canonical text of a path.  Symbolic links and permissions are
    left out: the program runs as root.  What a process answers, what it does
    to the files, the order a directory is listed in, and what stops removing a
    directory are up to the class [Machine]. *)

From stdpp Require Import base strings list gmap sorting.
From Stdlib Require Import ZArith Lia Ascii.
From S2P Require Import Prelude CppString.

Local Open Scope Z_scope.

(** ** [std::filesystem::path] *)

Definition filename (path : string) : string :=
  sdrop (after (find_last (Ascii.eqb "/") path)) path.

Definition extension (path : string) : string :=
  let f := filename path in
  if String.eqb f "." || String.eqb f ".." then ""
  else match find_last (Ascii.eqb ".") f with
       | None | Some O => ""
       | Some i => sdrop i f
       end.

Definition has_root (p : string) : bool := starts_with_char "/" p.

(** [a / b] *)
Definition path_append (a b : string) : string :=
  if has_root b then b
  else if empty a || ends_with_char "/" a then a +:+ b
  else a +:+ "/" +:+ b.

Definition parent_path (p : string) : string :=
  match find_last (Ascii.eqb "/") p with
  | None => ""
  | Some i => let q := rstrip (stake i p) "/" in if empty q then "/" else q
  end.

(** The names on the way from the root, [..] undoing the name before it. *)
Definition walk (names : list string) (name : string) : list string :=
  if String.eqb name "" || String.eqb name "." then names
  else if String.eqb name ".." then tail names
  else name :: names.
Definition names (p : string) : list string := reverse (foldl walk [] (getlines "/" p)).
Definition of_names (l : list string) : string := "/" +:+ concat_sep "/" l.
Definition canonical (p : string) : string := of_names (names p).

(** The directories a path lies in, and itself, from the root down. *)
Fixpoint prefixes {A} (l : list A) : list (list A) :=
  [] :: match l with [] => [] | x :: l' => cons x <$> prefixes l' end.
Definition lineage (p : string) : list string := of_names <$> prefixes (names p).
Definition directory_of (p : string) : string := of_names (reverse (tail (reverse (names p)))).

(** [p.lexically_normal()] *)
Definition walk_relative (names : list string) (name : string) : list string :=
  if String.eqb name "" || String.eqb name "." then names
  else if String.eqb name ".." then
    match names with
    | x :: names' => if String.eqb x ".." then ".." :: names else names'
    | [] => [".."]
    end
  else name :: names.
Definition ends_in_directory (p : string) : bool :=
  ends_with_char "/" p ||
  match last (getlines "/" p) with Some n => String.eqb n "." || String.eqb n ".." | None => false end.
Definition lexically_normal (p : string) : string :=
  let slash := if ends_in_directory p then "/" else "" in
  if empty p then ""
  else if has_root p then
    if decide (names p = []) then "/" else canonical p +:+ slash
  else
    match foldl walk_relative [] (getlines "/" p) with
    | [] => "."
    | x :: l => concat_sep "/" (reverse (x :: l)) +:+ (if String.eqb x ".." then "" else slash)
    end.

(** [operator==] compares paths name by name: runs of slashes do not count. *)
Fixpoint squeeze (p : string) : string :=
  match p with
  | String "/" (String "/" _ as p') => squeeze p'
  | String c p' => String c (squeeze p')
  | "" => ""
  end.
Definition path_eqb (a b : string) : bool := String.eqb (squeeze a) (squeeze b).

(** ** State *)

(** A process: a command line split into words and executed, or a script
    given to [/bin/bash -lc]. *)
Inductive command := Spawn (line : string) | Bash (script : string).

#[export] Instance command_eq_dec : EqDecision command.
Proof. solve_decision. Defined.

Record World := mkWorld {
  w_files : gmap string string;   (* regular files and their contents *)
  w_dirs : gset string;           (* directories, the root aside *)
  w_trace : list command;         (* the processes started so far *)
  w_mock : list string;           (* MockRunner::m_cmds *)
  w_vault : option bool;          (* RockyLinux::m_shouldUseVault *)
}.

Definition put_files x (w : World) : World := mkWorld x (w_dirs w) (w_trace w) (w_mock w) (w_vault w).
Definition put_dirs x (w : World) : World := mkWorld (w_files w) x (w_trace w) (w_mock w) (w_vault w).
Definition put_trace x (w : World) : World := mkWorld (w_files w) (w_dirs w) x (w_mock w) (w_vault w).
Definition put_mock x (w : World) : World := mkWorld (w_files w) (w_dirs w) (w_trace w) x (w_vault w).
Definition put_vault x (w : World) : World := mkWorld (w_files w) (w_dirs w) (w_trace w) (w_mock w) x.

Class Machine := {
  (* exit code and output of a process, and the tree it leaves; creating the
     process may throw *)
  react : World -> command -> outcome (Z * list string) * (gmap string string * gset string);
  (* the order [directory_iterator] visits entries in *)
  scan : list string -> list string;
  (* the order the elements of a [std::unordered_set], numbered in the order
     they were inserted, are visited in *)
  visit : list nat -> list nat;
  (* what keeps [remove_all] from removing all of a path, a busy mount point
     say: the message of its error, and the paths that are left *)
  obstacle : World -> string -> option (string * gset string);
}.

Class MachineLaws (H : Machine) := {
  scan_permutation l : scan l ≡ₚ l;
  visit_permutation l : visit l ≡ₚ l;
}.

(** What the program sees of the machine. *)
Definition ask {A} (f : World -> A) : M World A := gets f.

(** ** An object and the machine it works on *)

Definition on_object {T A} (m : M T A) : M (T * World) A := zoom fst (fun t s => (t, s.2)) m.
Definition on_machine {T A} (m : M World A) : M (T * World) A := zoom snd (fun w s => (s.1, w)) m.

(** A method of a member that works on the machine too *)
Definition on_member {S T A} (get : S -> T) (put : T -> S -> S) (m : M (T * World) A) : M (S * World) A :=
  zoom (fun s => (get s.1, s.2)) (fun t s => (put t.1 s.1, t.2)) m.

Lemma on_object_run {T A} (m : M T A) (s : T * World) : on_object m s = ((m s.1).1, ((m s.1).2, s.2)).
Proof. unfold on_object, zoom. by destruct (m s.1). Qed.

Section maintains_site.
Context {T : Type} (I : T -> Prop).

Lemma maintains_on_object {A} (m : M T A) : maintains I m -> maintains (fun s : T * World => I s.1) (on_object m).
Proof. intros Hm s Hs. rewrite on_object_run. by apply Hm. Qed.

Lemma maintains_on_machine {A} (m : M World A) : maintains (fun s : T * World => I s.1) (on_machine m).
Proof. by apply (maintains_zoom _ _ _ _ (fun _ => True)). Qed.

Lemma maintains_on_member {U A} (get : T -> U) put (m : M (U * World) A) :
  (forall u s, I s -> I (put u s)) -> maintains (fun s : T * World => I s.1) (on_member get put m).
Proof. intros Hp. apply (maintains_zoom _ _ _ _ (fun _ => True)); [done|intros u s Hs _; by apply Hp|done]. Qed.
End maintains_site.

Section maintains_machine.
Context {T : Type} (J : World -> Prop).

Lemma machine_on_object {A} (m : M T A) : maintains (fun s : T * World => J s.2) (on_object m).
Proof. intros s Hs. by rewrite on_object_run. Qed.

Lemma machine_on_machine {A} (m : M World A) : maintains J m -> maintains (fun s : T * World => J s.2) (on_machine m).
Proof. by apply maintains_zoom. Qed.

Lemma machine_on_member {U A} (get : T -> U) put (m : M (U * World) A) :
  maintains (fun s : U * World => J s.2) m -> maintains (fun s : T * World => J s.2) (on_member get put m).
Proof. by apply (maintains_zoom _ _ _ _ (fun s => J s.2)). Qed.
End maintains_machine.

(** ** The file tree *)

Definition is_regular_file (w : World) (p : string) : bool := bool_decide (is_Some (w_files w !! canonical p)).
Definition is_directory (w : World) (p : string) : bool :=
  bool_decide (canonical p = "/") || bool_decide (canonical p ∈ w_dirs w).
Definition fs_exists (w : World) (p : string) : bool := is_regular_file w p || is_directory w p.

(** The contents by path, as the key files read them. *)
Definition contents (w : World) (p : string) : option string := w_files w !! canonical p.

(** [std::filesystem::weakly_canonical]: what exists loses its final slash. *)
Definition weakly_canonical (w : World) (p : string) : string :=
  if fs_exists w p then canonical p else lexically_normal p.

(** A file can be created where there is a directory to hold it. *)
Definition has_place (w : World) (p : string) : bool := is_directory w (directory_of p).
Definition can_write (w : World) (p : string) : bool := has_place w p && negb (is_directory w p).

Definition put_file (p s : string) (w : World) : World := put_files (<[canonical p := s]> (w_files w)) w.

(** [std::ofstream file(path, std::ios::trunc)] and [std::ios::app], followed
    by [file << s]; the flag is [file.is_open()]. *)
Definition stream_write (p s : string) : M World bool := fun w =>
  if can_write w p then (Ok true, put_file p s w) else (Ok false, w).
Definition stream_append (p s : string) : M World bool := fun w =>
  if can_write w p then (Ok true, put_file p (default "" (contents w p) +:+ s) w) else (Ok false, w).

(** [std::ifstream]: [None] when it cannot be opened. *)
Definition stream_read (p : string) : M World (option string) := gets (fun w => contents w p).

Inductive fs_errc :=
  file_exists | no_such_file_or_directory | not_a_directory | is_a_directory | directory_not_empty.

Definition fs_error (e : fs_errc) : exn :=
  SystemError match e with
    | file_exists => "filesystem error: File exists"
    | no_such_file_or_directory => "filesystem error: No such file or directory"
    | not_a_directory => "filesystem error: Not a directory"
    | is_a_directory => "filesystem error: Is a directory"
    | directory_not_empty => "filesystem error: Directory not empty" end.

Definition create_directories (p : string) : M World unit := fun w =>
  if existsb (is_regular_file w) (lineage p) then (Throw (fs_error not_a_directory), w)
  else (Ok tt, put_dirs (list_to_set (lineage p) ∪ w_dirs w) w).

(** Whether a canonical path is [p] or lies below it. *)
Definition below (p q : string) : bool := bool_decide (p ∈ lineage q).

(** What [remove_all] leaves when it stops early: some of the paths at or below
    the one it was given. *)
Definition remove_tree (kept : gset string) (p : string) (w : World) : World :=
  put_dirs (filter (fun q => below (canonical p) q = false \/ q ∈ kept) (w_dirs w))
    (put_files (filter (fun '(q, _) => below (canonical p) q = false \/ q ∈ kept) (w_files w)) w).

Definition name_le (a b : string) : Prop := String.compare a b <> Gt.
#[export] Instance name_le_dec a b : Decision (name_le a b).
Proof. unfold name_le. destruct (String.compare a b); [left|left|right]; congruence. Defined.

(** The entries of a directory, in alphabetical order. *)
Definition entries (w : World) (dir : string) : list string :=
  merge_sort name_le
    (filter (fun q => q <> "/" /\ directory_of q = canonical dir)
       (elements (dom (w_files w) ∪ w_dirs w))).

Definition fs_remove (p : string) : M World unit := fun w =>
  if is_directory w p && negb (bool_decide (entries w p = [])) then (Throw (fs_error directory_not_empty), w)
  else (Ok tt, put_dirs (w_dirs w ∖ {[canonical p]}) (put_files (delete (canonical p) (w_files w)) w)).

Section machine.
Context `{Machine}.

(** [std::filesystem::remove_all(p, error)]: the message of the error *)
Definition remove_all (p : string) : M World (option string) := fun w =>
  match obstacle w p with
  | None => (Ok None, remove_tree ∅ p w)
  | Some (message, kept) => (Ok (Some message), remove_tree kept p w)
  end.

(** [std::filesystem::directory_iterator(dir)], run to its end *)
Definition directory_entries (dir : string) : M World (list string) := fun w =>
  if is_directory w dir then (Ok (scan (entries w dir)), w)
  else (Throw (fs_error (if is_regular_file w dir then not_a_directory else no_such_file_or_directory)), w).

(** [std::filesystem::copy_file] of a regular file, without options *)
Definition copy_regular (from to : string) (w : World) : option fs_errc * World :=
  if fs_exists w to then (Some file_exists, w)
  else if has_place w to then (None, put_file to (default "" (contents w from)) w)
  else (Some no_such_file_or_directory, w).

(** [std::filesystem::copy] without options: a directory is copied with the
    regular files in it, its subdirectories are passed over. *)
Fixpoint copy_entries (l : list string) (to : string) (w : World) : option fs_errc * World :=
  match l with
  | [] => (None, w)
  | x :: l =>
      if is_regular_file w x then
        let dest := path_append to (filename x) in
        match copy_regular x (if is_directory w dest then path_append dest (filename x) else dest) w with
        | (None, w') => copy_entries l to w'
        | r => r
        end
      else copy_entries l to w
  end.

Definition fs_copy (from to : string) (w : World) : option fs_errc * World :=
  if negb (fs_exists w from) then (Some no_such_file_or_directory, w)
  else if fs_exists w to && bool_decide (canonical from = canonical to) then (Some file_exists, w)
  else if is_regular_file w from then
    copy_regular from (if is_directory w to then path_append to (filename from) else to) w
  else if is_regular_file w to then (Some is_a_directory, w)
  else
    let w' := put_dirs ({[canonical to]} ∪ w_dirs w) w in
    if is_directory w to then copy_entries (scan (entries w from)) to w
    else if has_place w to then copy_entries (scan (entries w' from)) to w'
    else (Some no_such_file_or_directory, w).

(** Starting a process and waiting for it. *)
Definition execute (c : command) : M World (Z * list string) := fun w =>
  let '(r, (files, dirs)) := react w c in
  (r, mkWorld files dirs (w_trace w ++ [c]) (w_mock w) (w_vault w)).
End machine.
