(* ===== verification/WorldFacts.v ===== *)
(** * Paths, and what the file operations do to a file tree

    Lemmas on [World.v]: canonical paths, joining a directory and a name, and
    how the primitive operations change what a path leads to. *)

From stdpp Require Import base strings list gmap sorting.
From Stdlib Require Import ZArith Lia Ascii.
From S2P Require Import Prelude CppString World.

(** ** Names *)

(** A name of an entry. *)
Definition plain (n : string) : Prop :=
  n <> "" /\ n <> "." /\ n <> ".." /\ no_char "/" n = true.

Lemma walk_plain acc n : plain n -> walk acc n = n :: acc.
Proof.
  intros (H1 & H2 & H3 & _). unfold walk.
  by rewrite (proj2 (String.eqb_neq n "") H1), (proj2 (String.eqb_neq n ".") H2),
    (proj2 (String.eqb_neq n "..") H3).
Qed.

Lemma getlines_last c w : no_char c w = true -> empty w = false -> getlines c w = [w].
Proof.
  induction w as [|d w IH]; [done|]. intros [Hd%negb_true_iff Hw]%andb_true_iff _.
  cbn [getlines]. rewrite Hd. destruct w as [|e w]; [done|]. by rewrite IH.
Qed.

Lemma no_char_cons c d s : no_char c (String d s) = negb (Ascii.eqb c d) && no_char c s.
Proof. done. Qed.

(** A text without the character, or cut at the first one. *)
Lemma cut_at c s :
  no_char c s = true \/ exists w r, s = w +:+ String c r /\ no_char c w = true.
Proof.
  induction s as [|d s IH]; [by left|]. destruct (Ascii.eqb_spec c d) as [->|Hn].
  - right. by exists "", s.
  - destruct IH as [IH|(w & r & -> & Hw)].
    + left. rewrite no_char_cons, IH. by rewrite (proj2 (Ascii.eqb_neq c d)).
    + right. exists (String d w), r. split; [done|]. rewrite no_char_cons, Hw. by rewrite (proj2 (Ascii.eqb_neq c d)).
Qed.

Lemma walk_join acc a b :
  foldl walk acc (getlines "/" (a +:+ String "/" b)) =
  foldl walk (foldl walk acc (getlines "/" a)) (getlines "/" b).
Proof.
  remember (String.length a) as n eqn:Hn. revert acc a Hn.
  induction (lt_wf n) as [n _ IH]. intros acc a ->. destruct (cut_at "/" a) as [Ha|(w & r & -> & Hw)].
  - rewrite getlines_line by exact Ha. destruct a as [|c a]; [done|]. by rewrite (getlines_last "/" (String c a)).
  - rewrite <- sapp_assoc, app_cons, (getlines_line "/" w (r +:+ _)), (getlines_line "/" w r) by exact Hw. cbn [foldl].
    apply (IH (String.length r)); [|done]. rewrite length_sapp. cbn. lia.
Qed.

Lemma getlines_pieces delim p : Forall (fun l => no_char delim l = true) (getlines delim p).
Proof.
  remember (String.length p) as n eqn:Hn. revert p Hn.
  induction (lt_wf n) as [n _ IH]. intros p ->. destruct (cut_at delim p) as [Ha|(w & r & -> & Hw)].
  - destruct p as [|c p]; [done|]. rewrite getlines_last by done. by repeat constructor.
  - rewrite getlines_line by exact Hw. constructor; [done|]. apply (IH (String.length r)); [|done].
    rewrite length_sapp. cbn. lia.
Qed.

Lemma names_plain p : Forall plain (names p).
Proof.
  unfold names. rewrite Forall_reverse.
  assert (forall acc, Forall plain acc -> Forall plain (foldl walk acc (getlines "/" p))) as H; [|by apply H].
  intros acc Hacc.
  pose proof (getlines_pieces "/" p) as Hl.
  revert acc Hacc. induction Hl as [|l ls Hl _ IH]; intros acc Hacc; [done|]. cbn [foldl]. apply IH.
  unfold walk. destruct (String.eqb_spec l ""), (String.eqb_spec l "."); cbn; try done.
  destruct (String.eqb_spec l ".."); [|by constructor].
  destruct Hacc; [constructor|done].
Qed.

Lemma foldl_walk_plain acc l : Forall plain l -> foldl walk acc l = reverse l ++ acc.
Proof.
  intros Hl. revert acc. induction Hl as [|n l Hn _ IH]; intros acc; [done|]. cbn [foldl].
  by rewrite walk_plain, IH, reverse_cons, <- app_assoc.
Qed.

Lemma getlines_concat l : Forall plain l -> getlines "/" (concat_sep "/" l) = l.
Proof.
  induction 1 as [|n l (Hn & _ & _ & Hc) _ IH]; [done|]. destruct l as [|m l].
  - apply getlines_last; [done|]. by destruct n.
  - change (concat_sep "/" (n :: m :: l)) with (n +:+ String "/" (concat_sep "/" (m :: l))).
    rewrite getlines_line by exact Hc. by rewrite IH.
Qed.

Lemma names_of_names l : Forall plain l -> names (of_names l) = l.
Proof.
  intros Hl. unfold names, of_names. change ("/" +:+ ?s) with (String "/" s). cbn [getlines].
  change (Ascii.eqb "/" "/") with true. cbn iota. cbn [foldl].
  change (walk [] "") with (@nil string). rewrite getlines_concat, foldl_walk_plain by done.
  by rewrite app_nil_r, reverse_involutive.
Qed.

Lemma names_canonical p : names (canonical p) = names p.
Proof. apply names_of_names, names_plain. Qed.

Lemma canonical_idem p : canonical (canonical p) = canonical p.
Proof. unfold canonical at 1. by rewrite names_canonical. Qed.

Lemma of_names_inj l k : Forall plain l -> Forall plain k -> of_names l = of_names k -> l = k.
Proof. intros Hl Hk He. by rewrite <- (names_of_names l), <- (names_of_names k), He. Qed.

Lemma canonical_eq p q : canonical p = canonical q <-> names p = names q.
Proof.
  split; [|unfold canonical; congruence]. intros He. apply of_names_inj in He; [done|apply names_plain..].
Qed.

(** Joining a directory and a name. *)
Lemma names_append d n : plain n -> names (path_append d n) = names d ++ [n].
Proof.
  intros Hn. pose proof Hn as (H1 & _ & _ & H4). unfold path_append.
  assert (has_root n = false) as ->.
  { destruct n as [|c n]; [done|]. cbn in *. apply andb_true_iff in H4 as [H4 _]. by apply negb_true_iff. }
  assert (getlines "/" n = [n]) as Hg by (apply getlines_last; [done|by destruct n]).
  assert (forall acc, foldl walk acc [n] = n :: acc) as Hw by (intros; cbn; by rewrite walk_plain).
  assert (forall e, names (e +:+ String "/" n) = names e ++ [n]) as Hj.
  { intros e. unfold names. by rewrite walk_join, Hg, Hw, reverse_cons. }
  destruct (empty d) eqn:He.
  - destruct d; [|done]. cbn. change ("" +:+ n) with n. unfold names. rewrite Hg. cbn [foldl].
    by rewrite walk_plain.
  - cbn [orb]. destruct (ends_with_char "/" d) eqn:Hd.
    + apply ends_with_split in Hd as [e ->]. rewrite <- sapp_assoc, app_cons. change ("" +:+ n) with n.
      rewrite Hj. f_equal. unfold names. by rewrite walk_join.
    + change ("/" +:+ n) with (String "/" n). apply Hj.
Qed.

Lemma canonical_append d n : plain n -> canonical (path_append d n) = of_names (names d ++ [n]).
Proof. intros Hn. unfold canonical. by rewrite names_append. Qed.

Lemma directory_of_append d n : plain n -> directory_of (path_append d n) = canonical d.
Proof.
  intros Hn. unfold directory_of. rewrite names_append by done. rewrite reverse_snoc. cbn [tail].
  by rewrite reverse_involutive.
Qed.

Lemma names_snoc_plain d n : plain n -> Forall plain (names d ++ [n]).
Proof. intros Hn. apply Forall_app. split; [apply names_plain|by constructor]. Qed.

Lemma snoc_not_root d n : plain n -> of_names (names d ++ [n]) <> "/".
Proof.
  intros Hn He. apply (of_names_inj _ []) in He; [|by apply names_snoc_plain|constructor]. by destruct (names d).
Qed.

Lemma directory_of_canonical p : directory_of (canonical p) = directory_of p.
Proof. unfold directory_of. by rewrite names_canonical. Qed.

Lemma append_inj d n m : plain n -> plain m -> canonical (path_append d n) = canonical (path_append d m) -> n = m.
Proof.
  intros Hn Hm. rewrite !canonical_append by done. intros He.
  apply of_names_inj in He; [|by apply names_snoc_plain..]. by apply app_inj_tail in He as [_ ?].
Qed.

(** A canonical path other than the root is a directory and a name. *)
Lemma canonical_split p :
  canonical p <> "/" -> exists n, plain n /\ canonical p = of_names (names (directory_of p) ++ [n]).
Proof.
  intros Hp. destruct (names p) as [|x l] eqn:Hn using rev_ind; [unfold canonical in Hp; by rewrite Hn in Hp|].
  pose proof (names_plain p) as Hpl. rewrite Hn in Hpl. apply Forall_app in Hpl as [Hl [Hx _]%Forall_cons].
  exists x. split; [done|]. unfold directory_of. rewrite Hn, reverse_snoc. cbn [tail].
  rewrite reverse_involutive, names_of_names by done. unfold canonical. by rewrite Hn.
Qed.

Lemma filename_after a n : no_char "/" n = true -> filename (a +:+ String "/" n) = n.
Proof.
  intros Hn. unfold filename.
  assert (find_last (Ascii.eqb "/") n = None) as Hl.
  { clear a. induction n as [|c n IH]; [done|]. rewrite no_char_cons in Hn. apply andb_true_iff in Hn as [Hc Hn].
    cbn [find_last]. rewrite IH by done. apply negb_true_iff in Hc. by rewrite Hc. }
  assert (find_last (Ascii.eqb "/") (a +:+ String "/" n) = Some (String.length a)) as ->.
  { induction a as [|c a IH].
    - change ("" +:+ String "/" n) with (String "/" n). cbn [find_last]. by rewrite Hl.
    - rewrite app_cons. cbn [find_last]. by rewrite IH. }
  apply sdrop_at.
Qed.

Lemma of_names_snoc l n : exists a, of_names (l ++ [n]) = a +:+ String "/" n.
Proof.
  unfold of_names. destruct l as [|x l].
  - by exists "".
  - assert (concat_sep "/" ((x :: l) ++ [n]) = concat_sep "/" (x :: l) +:+ String "/" n) as ->.
    { revert x. induction l as [|y l IH]; intros x; [done|].
      change (concat_sep "/" ((x :: y :: l) ++ [n])) with (x +:+ "/" +:+ concat_sep "/" ((y :: l) ++ [n])).
      rewrite IH. change (concat_sep "/" (x :: y :: l)) with (x +:+ "/" +:+ concat_sep "/" (y :: l)).
      by rewrite <- !sapp_assoc. }
    exists ("/" +:+ concat_sep "/" (x :: l)). apply sapp_assoc.
Qed.

Lemma filename_of_names l n : plain n -> filename (of_names (l ++ [n])) = n.
Proof. intros (_ & _ & _ & Hn). destruct (of_names_snoc l n) as [a ->]. by apply filename_after. Qed.

Lemma filename_plain n : plain n -> filename n = n.
Proof.
  intros (_ & _ & _ & Hn). unfold filename.
  assert (find_last (Ascii.eqb "/") n = None) as ->; [|done].
  induction n as [|c n IH]; [done|]. rewrite no_char_cons in Hn. apply andb_true_iff in Hn as [Hc Hn].
  cbn [find_last]. rewrite IH by done. apply negb_true_iff in Hc. by rewrite Hc.
Qed.

Lemma extension_of_names l n : plain n -> extension (of_names (l ++ [n])) = extension n.
Proof. intros Hn. unfold extension. by rewrite filename_of_names, filename_plain by done. Qed.

(** ** The tree *)

(** Keys are canonical, a file is no directory and lies in one. *)
Record tree_ok (w : World) : Prop := {
  tree_files p : is_Some (w_files w !! p) -> canonical p = p /\ p ∉ w_dirs w /\ p <> "/" /\
    is_directory w (directory_of p) = true;
  tree_dirs p : p ∈ w_dirs w -> canonical p = p /\ is_directory w (directory_of p) = true;
}.

Lemma contents_canonical w p : contents w (canonical p) = contents w p.
Proof. unfold contents. by rewrite canonical_idem. Qed.

Lemma contents_put_file p s w q :
  contents (put_file p s w) q = if decide (canonical q = canonical p) then Some s else contents w q.
Proof.
  unfold contents, put_file. cbn. destruct (decide (canonical q = canonical p)) as [->|Hn].
  - apply lookup_insert_eq.
  - by apply lookup_insert_ne.
Qed.

Lemma is_regular_contents w p : is_regular_file w p = bool_decide (is_Some (contents w p)).
Proof. done. Qed.

(** The entries of a directory are its files and subdirectories. *)
Lemma entries_elem w dir q :
  q ∈ entries w dir <->
  q <> "/" /\ directory_of q = canonical dir /\ (is_Some (w_files w !! q) \/ q ∈ w_dirs w).
Proof.
  unfold entries. rewrite (merge_sort_Permutation name_le). rewrite list_elem_of_filter, elem_of_elements,
    elem_of_union, elem_of_dom. tauto.
Qed.

Lemma entries_NoDup w dir : NoDup (entries w dir).
Proof. unfold entries. rewrite (merge_sort_Permutation name_le). apply NoDup_filter, NoDup_elements. Qed.

Lemma entry_name w dir q :
  tree_ok w -> q ∈ entries w dir -> exists n, plain n /\ q = of_names (names dir ++ [n]) /\ canonical q = q.
Proof.
  intros Hw (Hr & Hd & Hin)%entries_elem.
  assert (canonical q = q) as Hc by (destruct Hin as [Hin|Hin]; [by apply (tree_files _ Hw) in Hin as [? _]|by apply (tree_dirs _ Hw) in Hin as [? _]]).
  destruct (canonical_split q) as (n & Hn & He); [congruence|]. rewrite Hc, Hd, names_canonical in He.
  by exists n.
Qed.

(** Nothing lies in what is no directory. *)
Lemma nothing_in w p q :
  tree_ok w -> is_directory w p = false -> directory_of q = canonical p ->
  contents w q = None /\ canonical q ∉ w_dirs w.
Proof.
  intros Hw Hp Hq. assert (is_directory w (directory_of q) = false) as Hd.
  { rewrite Hq. unfold is_directory in *. by rewrite canonical_idem. }
  rewrite <- directory_of_canonical in Hd. split.
  - unfold contents. destruct (w_files w !! canonical q) eqn:He; [|done].
    destruct (tree_files _ Hw (canonical q)) as (_ & _ & _ & Ht); [by eexists|]. congruence.
  - intros Hin. apply (tree_dirs _ Hw) in Hin as [_ Ht]. congruence.
Qed.

(** The lineage of a path, and making it. *)
Lemma prefixes_self {A} (l : list A) : l ∈ prefixes l.
Proof. induction l as [|x l IH]; [by left|]. right. by apply list_elem_of_fmap_2. Qed.

Lemma prefixes_prefix {A} (k l : list A) : k ∈ prefixes l -> exists r, l = k ++ r.
Proof.
  revert k. induction l as [|x l IH]; intros k; cbn [prefixes].
  - intros ->%list_elem_of_singleton. by exists [].
  - intros [->|Hk]%elem_of_cons; [by exists (x :: l)|].
    apply list_elem_of_fmap in Hk as (k' & -> & Hk'). apply IH in Hk' as [r ->]. by exists r.
Qed.

Lemma prefixes_init {A} (k l : list A) x : k ++ [x] ∈ prefixes l -> k ∈ prefixes l.
Proof.
  revert k. induction l as [|y l IH]; intros k; cbn [prefixes].
  - intros Hk%list_elem_of_singleton. by destruct k.
  - intros [Hk|Hk]%elem_of_cons; [by destruct k|]. apply list_elem_of_fmap in Hk as (k' & Hk' & Hin).
    destruct k as [|z k]; [by left|]. injection Hk' as -> <-. right. apply list_elem_of_fmap_2. by apply IH.
Qed.

Lemma lineage_elem q p : q ∈ lineage p <-> exists k, q = of_names k /\ k ∈ prefixes (names p).
Proof. apply list_elem_of_fmap. Qed.

Lemma lineage_self p : canonical p ∈ lineage p.
Proof. apply lineage_elem. exists (names p). split; [done|apply prefixes_self]. Qed.

Lemma lineage_names q p : q ∈ lineage p -> exists r, names p = names q ++ r /\ canonical q = q.
Proof.
  intros (k & -> & [r Hr]%prefixes_prefix)%lineage_elem. exists r.
  pose proof (names_plain p) as Hp. rewrite Hr in Hp. apply Forall_app in Hp as [Hk _].
  unfold canonical. by rewrite names_of_names by done.
Qed.

Lemma lineage_directory q p : q ∈ lineage p -> q <> "/" -> directory_of q ∈ lineage p.
Proof.
  intros Hq Hr. pose proof Hq as (r & Hn & Hc)%lineage_names.
  apply lineage_elem in Hq as (k & -> & Hk). apply lineage_elem.
  destruct k as [|x k _] using rev_ind; [done|].
  exists k. split; [|by eapply prefixes_init].
  unfold directory_of. pose proof (names_plain p) as Hp.
  apply prefixes_prefix in Hk as [s Hs]. rewrite Hs in Hp. apply Forall_app in Hp as [Hp _].
  rewrite names_of_names by done. rewrite reverse_snoc. cbn [tail]. by rewrite reverse_involutive.
Qed.

Definition with_lineage (p : string) (w : World) : World := put_dirs (list_to_set (lineage p) ∪ w_dirs w) w.

Lemma with_lineage_ok p w :
  tree_ok w -> Forall (fun q => is_regular_file w q = false) (lineage p) ->
  create_directories p w = (Ok tt, with_lineage p w) /\ tree_ok (with_lineage p w) /\
  is_directory (with_lineage p w) p = true.
Proof.
  intros Hw Hp. rewrite Forall_forall in Hp.
  assert (forall q, is_directory w q = true -> is_directory (with_lineage p w) q = true) as Hmore.
  { intros q [Hq|Hq]%orb_true_iff; unfold is_directory; [by rewrite Hq|].
    apply bool_decide_eq_true in Hq. rewrite (bool_decide_true (_ ∈ _)); [apply orb_true_r|].
    cbn. set_solver. }
  assert (forall q, q ∈ lineage p -> is_directory (with_lineage p w) q = true) as Hin.
  { intros q Hq. pose proof Hq as (r & _ & Hc)%lineage_names. unfold is_directory. rewrite Hc.
    rewrite (bool_decide_true (_ ∈ _)); [apply orb_true_r|]. cbn. set_solver. }
  split; [|split].
  - unfold create_directories. assert (existsb (is_regular_file w) (lineage p) = false) as ->; [|done].
    apply not_true_is_false. rewrite existsb_exists. intros (q & Hq%list_elem_of_In & Hf). by rewrite Hp in Hf.
  - split.
    + intros q Hq. destruct (tree_files _ Hw q Hq) as (Hc & Hd & Hr & Hdir). split; [done|]. split; [|split; [done|]].
      * cbn. rewrite elem_of_union, elem_of_list_to_set. intros [Hl|Hl]; [|done].
        specialize (Hp q Hl). unfold is_regular_file in Hp. rewrite Hc in Hp. by apply bool_decide_eq_false in Hp.
      * by apply Hmore.
    + intros q. cbn. rewrite elem_of_union, elem_of_list_to_set. intros [Hl|Hd].
      * pose proof Hl as (r & _ & Hc)%lineage_names. split; [done|]. destruct (decide (q = "/")) as [->|Hr]; [done|].
        apply Hin. by apply lineage_directory.
      * apply (tree_dirs _ Hw) in Hd as [Hc Hd]. split; [done|]. by apply Hmore.
  - pose proof (Hin (canonical p) (lineage_self p)) as Hd. unfold is_directory in *. by rewrite canonical_idem in Hd.
Qed.

(** Checking a tree by running over it. *)
Definition tree_okb (w : World) : bool :=
  forallb (fun p => String.eqb (canonical p) p && negb (bool_decide (p ∈ w_dirs w)) && negb (String.eqb p "/") &&
                    is_directory w (directory_of p)) (elements (dom (w_files w))) &&
  forallb (fun p => String.eqb (canonical p) p && is_directory w (directory_of p)) (elements (w_dirs w)).

Lemma tree_okb_ok w : tree_okb w = true -> tree_ok w.
Proof.
  intros [Hf Hd]%andb_true_iff. rewrite forallb_forall in Hf, Hd. split; intros p Hp.
  - assert (p ∈ elements (dom (w_files w))) as Hin%list_elem_of_In by by apply elem_of_elements, elem_of_dom.
    specialize (Hf p Hin). rewrite !andb_true_iff, !negb_true_iff, String.eqb_eq, String.eqb_neq, bool_decide_eq_false in Hf.
    tauto.
  - assert (p ∈ elements (w_dirs w)) as Hin%list_elem_of_In by by apply elem_of_elements.
    specialize (Hd p Hin). by rewrite andb_true_iff, String.eqb_eq in Hd.
Qed.
