(* ===== verification/FileOps.v ===== *)
(** * Working on files

    The file operations of [src/functions.cpp] with the templates of
    [include/opencattus/functions.h], and the functions of
    [src/services/files.cpp] and [src/services/cache.cpp].  The former look at
    the dry-run flag of the options, most of the time. *)

From stdpp Require Import base strings list gmap.
From Stdlib Require Import ZArith Lia Ascii.
From S2P Require Import Prelude CppString External Options World.

Local Open Scope Z_scope.

(** The end of a file operation that reports an error code by throwing. *)
Definition or_throw (f : World -> option fs_errc * World) : M World unit := fun w =>
  match f w with (None, w') => (Ok tt, w') | (Some e, w') => (Throw (fs_error e), w') end.

(** ** [src/functions.cpp] *)

Definition installPath : string := "/opt/opencattus".

Definition touchFile (opts : Options) (path : string) : M World unit :=
  if dryRun opts then skip
  else
    there ← ask (fun w => fs_exists w path);
    if there : bool then skip
    else
      file ← stream_append path "";
      if negb file then throw (RuntimeError ("Failed to touch file: " +:+ path)) else skip.

Definition createDirectory (opts : Options) (path : string) : M World unit :=
  if dryRun opts then skip else create_directories path.

Definition removeFile (opts : Options) (filename : string) : M World unit :=
  if dryRun opts then skip
  else
    there ← ask (fun w => fs_exists w filename);
    if there : bool then fs_remove filename else skip.

(** [std::fstream file(backupFile)] opens the file only if it is there. *)
Definition copy_file (from to : string) (w : World) : option fs_errc * World :=
  if is_regular_file w from then copy_regular from to w
  else (Some (if fs_exists w from then is_a_directory else no_such_file_or_directory), w).

Definition backupFile (opts : Options) (timestamp filename : string) : M World unit :=
  let backup := installPath +:+ "/backup" +:+ filename +:+ "_" +:+ timestamp in
  if dryRun opts then skip
  else
    _ ← createDirectory opts (parent_path backup);
    file ← ask (fun w => is_regular_file w backup);
    if negb file then or_throw (copy_file filename backup) else skip.

(** The stream is opened for appending before the dry-run flag is looked at. *)
Definition addStringToFile (opts : Options) (filename string : string) : M World unit :=
  ifs ← stream_read filename;
  if contains string (default "" ifs) then skip
  else
    file ← stream_append filename "";
    if dryRun opts then skip
    else if negb file then throw (RuntimeError ("Error opening file: " +:+ filename))
    else _ ← stream_append filename string; skip.

(** A file that cannot be read or parsed is taken as empty; [write_ini] opens
    the file before it writes. *)
Definition changeValueInConfigurationFile `{BoostIni} (opts : Options) (filename key value : string) : M World unit :=
  if dryRun opts then skip
  else
    text ← stream_read filename;
    let tree := default ptree_empty (text ≫= read_ini) in
    opened ← stream_write filename "";
    if negb opened then throw (RuntimeError (filename +:+ ": cannot open file"))
    else
      match write_ini (ptree_put key value tree) with
      | None => throw (RuntimeError (filename +:+ ": cannot write tree"))
      | Some text => _ ← stream_write filename text; skip
      end.

Definition is_file_exists (e : fs_errc) : bool := match e with file_exists => true | _ => false end.

Definition installFile (opts : Options) (path data : string) : M World unit :=
  if dryRun opts then skip
  else
    there ← ask (fun w => fs_exists w path);
    if there : bool then skip else _ ← stream_write path data; skip.

Section machine.
Context `{Machine}.

Definition copyFile (opts : Options) (source destination : string) : M World unit :=
  if dryRun opts then skip
  else fun w =>
    match fs_copy source destination w with
    | (None, w') => (Ok tt, w')
    | (Some e, w') => if is_file_exists e then (Ok tt, w') else (Throw (fs_error e), w')
    end.

(** ** [include/opencattus/functions.h] *)

Definition getFilesByExtension (path ext : string) : M World (list string) :=
  l ← directory_entries path;
  ask (fun w => filename <$> filter (fun entry => is_regular_file w entry = true /\ extension entry = ext) l).

Definition removeFilesWithExtension (path ext : string) : M World unit :=
  let extensionLower := lower ext in
  l ← directory_entries path;
  for_each l (fun entry =>
    regular ← ask (fun w => is_regular_file w entry);
    if (regular : bool) && String.eqb (lower (extension entry)) extensionLower then fs_remove entry else skip).

Definition copyFilesWithExtension (opts : Options) (source destination ext : string) : M World unit :=
  l ← directory_entries source;
  for_each l (fun entry =>
    regular ← ask (fun w => is_regular_file w entry);
    if (regular : bool) && String.eqb (extension entry) ext
    then copyFile opts entry (path_append destination (filename entry)) else skip).

Definition moveFilesWithExtension (opts : Options) (source destination ext : string) : M World unit :=
  _ ← copyFilesWithExtension opts source destination ext;
  removeFilesWithExtension source ext.

Definition backupFilesByExtension (opts : Options) (backupPath sourcePath ext : string) : M World unit :=
  _ ← (if shouldForce opts "backups" then
         error ← remove_all backupPath;
         match error with Some message => throw (SystemError ("filesystem error: " +:+ message)) | None => skip end
       else skip);
  there ← ask (fun w => fs_exists w backupPath);
  if negb there then
    _ ← createDirectory opts backupPath;
    moveFilesWithExtension opts sourcePath backupPath ext
  else skip.
End machine.

(** ** [src/services/files.cpp] *)

Module Files.

Definition file_error (path : string) : exn := SystemError ("File error " +:+ path).

Definition check (file : bool) (path : string) : M World unit :=
  if negb file then throw (file_error path) else skip.

Definition create (path : string) : M World unit :=
  there ← ask (fun w => fs_exists w path);
  if there : bool then skip
  else
    _ ← create_directories (parent_path path);
    file ← stream_write path "";
    check file path.

Definition remove (path : string) : M World unit :=
  there ← ask (fun w => fs_exists w path);
  if negb there then skip else fs_remove path.

Definition read (path : string) : M World string :=
  file ← stream_read path;
  _ ← check (bool_decide (is_Some file)) path;
  mret (default "" file).

Definition write (path contents : string) : M World unit :=
  there ← ask (fun w => fs_exists w path);
  _ ← (if negb there then create_directories (parent_path path) else skip);
  file ← stream_write path contents;
  check file path.

Definition append (path contents : string) : M World unit :=
  there ← ask (fun w => fs_exists w path);
  _ ← (if negb there then create_directories (parent_path path) else skip);
  file ← stream_append path contents;
  check file path.

Section checksum.
Context `{GChecksum}.

Definition CHUNK_SIZE : nat := Z.to_nat 16384.

Definition checksum (data : string) : string := gc_get_string (gc_update gc_sha256 data).

(** The reading loop: a read that fills the buffer is followed by another;
    what the last one got is added at the end.  A buffer of no bytes is always
    filled. *)
Fixpoint checksum_loop (fuel : nat) (chunkSize : nat) (rest : string) (c : gchecksum) : option gchecksum :=
  match fuel with
  | O => None
  | S fuel =>
      if (chunkSize <=? String.length rest)%nat then
        checksum_loop fuel chunkSize (sdrop chunkSize rest) (gc_update c (stake chunkSize rest))
      else Some (if empty rest then c else gc_update c rest)
  end.

Definition open_failed (path : string) : exn := SystemError ("filesystem error: Failed to open file [" +:+ path +:+ "]").

(** [None]: it never returns. *)
Definition checksum_file (path : string) (chunkSize : nat) (w : World) : option (outcome string) :=
  match contents w path with
  | None => Some (Throw (open_failed path))
  | Some data => (fun c => Ok (gc_get_string c)) <$> checksum_loop (S (String.length data)) chunkSize data gc_sha256
  end.
End checksum.
End Files.

(** ** [include/opencattus/services/cache.h], [src/services/cache.cpp] *)

Module Cache.

(** [run] *)
Definition run (path : string) (function : M World string) : M World string :=
  there ← ask (fun w => fs_exists w path);
  if there : bool then Files.read path
  else
    contents ← function;
    _ ← Files.write path contents;
    mret contents.

Definition checksum `{GChecksum} (path : string) : M World string :=
  run (path +:+ ".checksum") (fun w =>
    (match Files.checksum_file path Files.CHUNK_SIZE w with Some sum => sum | None => Throw NoReturn end, w)).
End Cache.
