(* ===== verification/FileOpsSpec.v ===== *)
(** * What the file operations do

    Checksums by pieces and their cache, dry runs, and moving files to a backup. *)

From stdpp Require Import base strings list gmap.
From Stdlib Require Import ZArith Lia Ascii.
From S2P Require Import Prelude CppString External Options World WorldFacts FileOps.

Local Open Scope Z_scope.

(** ** Checksums *)

Section checksum.
Context `{GChecksumLaws}.

Lemma checksum_loop_total chunkSize fuel rest c :
  (0 < chunkSize)%nat -> (String.length rest < fuel)%nat ->
  Files.checksum_loop fuel chunkSize rest c = Some (gc_update c rest).
Proof.
  intros Hc. revert rest c. induction fuel as [|fuel IH]; intros rest c Hf; [lia|]. cbn [Files.checksum_loop].
  destruct (Nat.leb_spec chunkSize (String.length rest)).
  - rewrite IH by (rewrite length_sdrop; lia). by rewrite gc_update_app, stake_sdrop.
  - destruct rest; [|done]. cbn. by rewrite gc_update_empty.
Qed.

Lemma checksum_loop_stuck fuel rest c : Files.checksum_loop fuel 0 rest c = None.
Proof. revert rest c. induction fuel as [|fuel IH]; intros rest c; [done|]. apply IH. Qed.
End checksum.

(** The checksum of a file is that of its contents in one piece, whatever
    the size of the pieces it is read in, unless that is zero: then reading
    never ends, however long it goes on.  A file that cannot be opened throws. *)
Theorem checksum_pieces `{GChecksumLaws} (path : string) (chunkSize : nat) (w : World) :
  ((0 < chunkSize)%nat -> Files.checksum_file path chunkSize w =
     Some match contents w path with
          | Some data => Ok (Files.checksum data)
          | None => Throw (Files.open_failed path)
          end) /\
  (forall fuel data, Files.checksum_loop fuel 0 data gc_sha256 = None).
Proof.
  split; [|intros; apply checksum_loop_stuck]. intros Hc. unfold Files.checksum_file.
  destruct (contents w path) as [data|]; [|done]. by rewrite checksum_loop_total by lia.
Qed.

(** ** Writing *)

(** Where a text can be written, every other can: in the directory that is
    there, or that is made first. *)
Lemma write_place path w :
  (Files.write path "" w).1 = Ok tt ->
  exists w1, can_write w1 path = true /\ w_files w1 = w_files w /\ w_dirs w ⊆ w_dirs w1 /\
    forall s, Files.write path s w = (Ok tt, put_file path s w1).
Proof.
  assert (forall w1, w_files w1 = w_files w -> w_dirs w ⊆ w_dirs w1 ->
    (forall s, Files.write path s w = (file ← stream_write path s; Files.check file path) w1) ->
    (Files.write path "" w).1 = Ok tt ->
    exists w1, can_write w1 path = true /\ w_files w1 = w_files w /\ w_dirs w ⊆ w_dirs w1 /\
      forall s, Files.write path s w = (Ok tt, put_file path s w1)) as Hat.
  { intros w1 Hf Hd Hrun. rewrite Hrun. intros Hok. exists w1.
    assert (can_write w1 path = true) as Hw.
    { unfold stream_write, mbind, M_bind in Hok. by destruct (can_write w1 path). }
    split_and!; [done..|]. intros s. rewrite Hrun. unfold stream_write, mbind, M_bind. by rewrite Hw. }
  destruct (fs_exists w path) eqn:He.
  - apply (Hat w); [done..|]. intros s. unfold Files.write, mbind, M_bind, ask, gets. rewrite He. done.
  - intros Hok. revert Hok. set (p := parent_path path).
    destruct (existsb (is_regular_file w) (lineage p)) eqn:Hl.
    { unfold Files.write, mbind, M_bind, ask, gets, create_directories. rewrite He. cbn [negb]. fold p. by rewrite Hl. }
    apply (Hat (put_dirs (list_to_set (lineage p) ∪ w_dirs w) w)); [done|apply union_subseteq_r|].
    intros s. unfold Files.write, mbind, M_bind, ask, gets, create_directories. rewrite He. cbn [negb]. fold p. by rewrite Hl.
Qed.

(** What is on the machine afterwards but for the contents of one file and
    the directories that lead to it *)
Record only_file (path : string) (w w' : World) : Prop := {
  only_contents q : q <> canonical path -> w_files w' !! q = w_files w !! q;
  only_kept : w_dirs w ⊆ w_dirs w';
  only_leading : w_dirs w' ⊆ list_to_set (lineage (parent_path path)) ∪ w_dirs w;
  only_trace : w_trace w' = w_trace w;
  only_mock : w_mock w' = w_mock w;
  only_vault : w_vault w' = w_vault w;
}.

Lemma only_file_refl path w : only_file path w w.
Proof. split; set_solver. Qed.

Lemma write_only path s w : only_file path w (Files.write path s w).2.
Proof.
  assert (forall w1, w_files w1 = w_files w -> w_dirs w ⊆ w_dirs w1 ->
    w_dirs w1 ⊆ list_to_set (lineage (parent_path path)) ∪ w_dirs w -> w_trace w1 = w_trace w ->
    w_mock w1 = w_mock w -> w_vault w1 = w_vault w ->
    only_file path w ((file ← stream_write path s; Files.check file path) w1).2) as Hat.
  { intros w1 Hf Hd Hd' Ht Hm Hv. unfold stream_write, mbind, M_bind.
    destruct (can_write w1 path); cbn; [|by split; rewrite ?Hf].
    split; cbn; [|done..]. intros q Hq. rewrite lookup_insert_ne by done. by rewrite Hf. }
  unfold Files.write, mbind at 1, M_bind at 1, ask, gets. destruct (fs_exists w path); cbn [negb].
  - apply Hat; set_solver.
  - unfold mbind at 1, M_bind at 1, create_directories.
    destruct (existsb _ _); [apply only_file_refl|]. apply Hat; cbn; set_solver.
Qed.

(** ** The cache *)

(** All that asking for a checksum does to the machine *)
Lemma checksum_there `{GChecksum} path w :
  fs_exists w (path +:+ ".checksum") = true -> Cache.checksum path w = Files.read (path +:+ ".checksum") w /\
  (Cache.checksum path w).2 = w.
Proof.
  intros He. unfold Cache.checksum, Cache.run, mbind, M_bind, ask, gets. rewrite He.
  unfold Files.read, stream_read, Files.check, mbind, M_bind, gets. by destruct (contents w _).
Qed.

Lemma checksum_only `{GChecksum} path w : only_file (path +:+ ".checksum") w (Cache.checksum path w).2.
Proof.
  destruct (fs_exists w (path +:+ ".checksum")) eqn:He.
  - destruct (checksum_there path w He) as [_ ->]. apply only_file_refl.
  - unfold Cache.checksum, Cache.run, mbind, M_bind, ask, gets. rewrite He.
    destruct (Files.checksum_file _ _ w) as [[sum|e|]|]; try apply only_file_refl.
    pose proof (write_only (path +:+ ".checksum") sum w) as Ho.
    by destruct (Files.write _ sum w) as [[[]|e|] w1].
Qed.

(** Asking for the checksum of a file looks at the cached one first; when
    it has to be computed it is written next to the file, which is all that
    changes, and asking again gives the same. *)
Theorem cached_checksum `{GChecksumLaws} (path : string) (w : World) :
  let cache := path +:+ ".checksum" in
  let '(sum, w') := Cache.checksum path w in
  only_file cache w w' /\
  (fs_exists w cache = true -> w' = w /\ (sum, w') = Files.read cache w) /\
  (fs_exists w cache = false -> contents w path = None -> sum = Throw (Files.open_failed path) /\ w' = w) /\
  (fs_exists w cache = false -> forall data, contents w path = Some data -> is_ok sum = true ->
     sum = Ok (Files.checksum data) /\ Cache.checksum path w' = (sum, w')).
Proof.
  cbv zeta. pose proof (checksum_only path w) as Ho. set (cache := path +:+ ".checksum") in *.
  destruct (Cache.checksum path w) as [sum w'] eqn:E. cbn [snd] in Ho. split; [exact Ho|]. split_and!.
  - intros He. destruct (checksum_there path w He) as [H1 H2]. rewrite E in H1, H2. by cbn in H2.
  - intros He Hc. unfold Cache.checksum, Cache.run in E. fold cache in E. unfold mbind, M_bind, ask, gets in E. rewrite He in E.
    rewrite (proj1 (checksum_pieces path _ w)) in E by (vm_compute; lia). rewrite Hc in E. by injection E as <- <-.
  - intros He data Hc Hok. unfold Cache.checksum, Cache.run in E. fold cache in E. unfold mbind, M_bind, ask, gets in E.
    rewrite He in E. rewrite (proj1 (checksum_pieces path _ w)) in E by (vm_compute; lia). rewrite Hc in E.
    destruct (Files.write cache (Files.checksum data) w) as [[[]|e|] w1] eqn:Ew; injection E as <- <-; [|done..].
    split; [done|].
    assert ((Files.write cache "" w).1 = Ok tt) as Hfree.
    { revert Ew. unfold Files.write, mbind, M_bind, ask, gets. rewrite He. cbn [negb].
      destruct (create_directories _ w) as [[[]|e|] w2]; [|done..]. unfold stream_write.
      by destruct (can_write w2 cache). }
    destruct (write_place _ _ Hfree) as (w2 & Hw & _ & _ & Hall). rewrite Hall in Ew. injection Ew as <-.
    set (w3 := put_file cache (Files.checksum data) w2).
    assert (contents w3 cache = Some (Files.checksum data)) as Hc3
      by (unfold w3; rewrite contents_put_file; by apply decide_True).
    assert (fs_exists w3 cache = true) as He3 by (unfold fs_exists; by rewrite is_regular_contents, Hc3).
    destruct (checksum_there path w3 He3) as [-> _]. fold cache.
    unfold Files.read, stream_read, mbind, M_bind, gets. by rewrite Hc3.
Qed.

(** ** Moving files *)

Section backup.
Context `{MachineLaws} (opts : Options) (source dest ext : string).

(** A regular file with the extension, when copying and when removing. *)
Definition selected (w : World) (q : string) : bool := is_regular_file w q && String.eqb (extension q) ext.
Definition removed (w : World) (q : string) : bool :=
  is_regular_file w q && String.eqb (lower (extension q)) (lower ext).

(** The files after copying some entries. *)
Definition target (q : string) : string := canonical (path_append dest (filename q)).
Definition copied (w : World) (l : list string) (files : gmap string string) : gmap string string :=
  foldl (fun files q => if selected w q then <[target q := default "" (contents w q)]> files else files) files l.

Lemma copied_other w l files k :
  k ∉ target <$> l -> copied w l files !! k = files !! k.
Proof.
  revert files. induction l as [|q l IH]; intros files Hk; [done|]. cbn in Hk. apply not_elem_of_cons in Hk as [Hn Hk].
  change (copied w (q :: l) files) with
    (copied w l (if selected w q then <[target q := default "" (contents w q)]> files else files)).
  rewrite IH by done. destruct (selected w q); [|done]. by apply lookup_insert_ne.
Qed.

Lemma copied_target w l files q :
  NoDup (target <$> l) -> q ∈ l ->
  copied w l files !! target q =
  if selected w q then Some (default "" (contents w q)) else files !! target q.
Proof.
  intros Hnd Hq. revert files Hnd. induction Hq as [q l|q q' l Hq IH]; intros files Hnd;
    apply NoDup_cons in Hnd as [Hn Hnd].
  - change (copied w (q :: l) files) with
      (copied w l (if selected w q then <[target q := default "" (contents w q)]> files else files)).
    rewrite copied_other by done. destruct (selected w q); [|done]. apply lookup_insert_eq.
  - change (copied w (q' :: l) files) with
      (copied w l (if selected w q' then <[target q' := default "" (contents w q')]> files else files)).
    rewrite IH by done. destruct (selected w q); [done|]. destruct (selected w q'); [|done].
    apply lookup_insert_ne. intros He. apply Hn. rewrite He. by apply list_elem_of_fmap_2.
Qed.

(** Copying entries of another directory into an empty one. *)
Lemma copy_loop w0 l w :
  dryRun opts = false ->
  is_directory w dest = true -> NoDup (target <$> l) ->
  (forall q, q ∈ l -> plain (filename q) /\ target q ∉ w_dirs w /\ target q <> "/" /\
     w_files w !! target q = None /\ contents w q = contents w0 q /\ forall q', q' ∈ l -> canonical q <> target q') ->
  for_each l (fun entry =>
      regular ← ask (fun w => is_regular_file w entry);
      if (regular : bool) && String.eqb (extension entry) ext
      then copyFile opts entry (path_append dest (filename entry)) else skip) w =
    (Ok tt, put_files (copied w0 l (w_files w)) w).
Proof.
  intros Hdry. revert w. induction l as [|q l IH]; intros w Hdir Hnd Hl.
  - by destruct w.
  - cbn [fmap list_fmap] in Hnd. apply NoDup_cons in Hnd as [Hn Hnd].
    destruct (Hl q) as (Hp & Htd & Htr & Htf & Hc & Hq); [by left|].
    assert (is_regular_file w q && String.eqb (extension q) ext = selected w0 q) as Hsel.
    { unfold selected. by rewrite !is_regular_contents, Hc. }
    set (w1 := if selected w0 q then put_file (path_append dest (filename q)) (default "" (contents w0 q)) w else w).
    cbn [for_each]. unfold mbind at 1, M_bind at 1. unfold mbind at 1, M_bind at 1. cbn [ask gets].
    rewrite Hsel. change (copied w0 (q :: l) (w_files w)) with
      (copied w0 l (if selected w0 q then <[target q := default "" (contents w0 q)]> (w_files w) else w_files w)).
    assert (w_dirs w1 = w_dirs w) as Hd1 by (unfold w1; by destruct (selected w0 q)).
    assert (forall k, k ∉ [target q] -> w_files w1 !! k = w_files w !! k) as Hf1.
    { intros k Hk%not_elem_of_cons. unfold w1. destruct (selected w0 q); [|done].
      apply lookup_insert_ne. naive_solver. }
    assert ((if selected w0 q then copyFile opts q (path_append dest (filename q)) else skip) w = (Ok tt, w1)) as ->.
    { unfold w1. destruct (selected w0 q) eqn:Hs; [|done]. unfold copyFile. rewrite Hdry. unfold fs_copy.
      apply andb_true_iff in Hsel as [Hreg _]. unfold fs_exists at 1 2. rewrite Hreg. cbn [orb negb].
      assert (is_regular_file w (path_append dest (filename q)) = false) as Hnr.
      { rewrite is_regular_contents. apply bool_decide_false. unfold contents.
        change (canonical (path_append dest (filename q))) with (target q). rewrite Htf. by intros []. }
      assert (is_directory w (path_append dest (filename q)) = false) as Hndir.
      { unfold is_directory. change (canonical (path_append dest (filename q))) with (target q).
        by rewrite !bool_decide_false. }
      rewrite Hnr, Hndir. cbn [orb andb]. unfold copy_regular, fs_exists. rewrite Hnr, Hndir. cbn [orb].
      assert (has_place w (path_append dest (filename q)) = true) as ->.
      { unfold has_place. rewrite directory_of_append by done. unfold is_directory in Hdir |- *.
        by rewrite canonical_idem. }
      by rewrite Hc. }
    rewrite IH; [| |done|].
    + unfold w1. by destruct (selected w0 q), w.
    + unfold is_directory. by rewrite Hd1.
    + intros q' Hq'. destruct (Hl q') as (Hp' & Htd' & Htr' & Htf' & Hc' & Hq''); [by right|]. rewrite Hd1.
      split; [done|]. split; [done|]. split; [done|]. split; [|split].
      * rewrite Hf1; [done|]. intros He%list_elem_of_singleton. apply Hn. rewrite <- He.
        by apply list_elem_of_fmap_2.
      * rewrite <- Hc'. apply Hf1. intros He%list_elem_of_singleton. apply (Hq'' q); [by left|done].
      * intros q0 Hq0. apply Hq''. by right.
Qed.

(** Removing entries. *)
Lemma remove_loop l w :
  (forall q, q ∈ l -> canonical q = q /\ q <> "/" /\ (is_Some (w_files w !! q) -> q ∉ w_dirs w)) -> NoDup l ->
  exists w', for_each l (fun entry =>
      regular ← ask (fun w => is_regular_file w entry);
      if (regular : bool) && String.eqb (lower (extension entry)) (lower ext) then fs_remove entry else skip) w
    = (Ok tt, w') /\ w_dirs w' ⊆ w_dirs w /\
    forall k, w_files w' !! k = if decide (k ∈ l /\ removed w k = true) then None else w_files w !! k.
Proof.
  revert w. induction l as [|q l IH]; intros w Hl Hnd.
  - exists w. split; [done|]. split; [done|]. intros k. rewrite decide_False; [done|]. by intros [?%elem_of_nil _].
  - apply NoDup_cons in Hnd as [Hn Hnd]. destruct (Hl q) as (Hc & Hr & Hd); [by left|].
    cbn [for_each]. unfold mbind at 1, M_bind at 1. unfold mbind at 1, M_bind at 1. cbn [ask gets].
    fold (removed w q).
    set (w1 := if removed w q then put_dirs (w_dirs w ∖ {[canonical q]}) (put_files (delete (canonical q) (w_files w)) w) else w).
    assert ((if removed w q then fs_remove q else skip) w = (Ok tt, w1)) as ->.
    { unfold w1. destruct (removed w q) eqn:Hrem; [|done]. unfold fs_remove.
      assert (is_directory w q = false) as ->; [|done].
      unfold removed in Hrem. apply andb_true_iff in Hrem as [Hreg _]. apply bool_decide_eq_true in Hreg.
      unfold is_directory. rewrite Hc in *. by rewrite !bool_decide_false by auto. }
    assert (w_dirs w1 ⊆ w_dirs w) as Hd1 by (unfold w1; destruct (removed w q); cbn; set_solver).
    assert (forall k, w_files w1 !! k = if decide (k = q /\ removed w q = true) then None else w_files w !! k) as Hf1.
    { intros k. unfold w1. destruct (removed w q); cbn.
      - rewrite Hc. destruct (decide (k = q)) as [->|Hk].
        + rewrite decide_True by done. apply lookup_delete_eq.
        + rewrite decide_False by naive_solver. by apply lookup_delete_ne.
      - rewrite decide_False; [done|]. by intros [_ ?]. }
    assert (forall k, k <> q -> w_files w1 !! k = w_files w !! k) as Hf2.
    { intros k Hk. rewrite Hf1. by rewrite decide_False by naive_solver. }
    destruct (IH w1) as (w' & Hrun & Hdirs & Hfiles); [|done|].
    { intros q' Hq'. destruct (Hl q') as (Hc' & Hr' & Hd'); [by right|]. split; [done|]. split; [done|].
      rewrite Hf2 by congruence. intros Hs ?%Hd1. by apply Hd'. }
    exists w'. split; [exact Hrun|]. split; [set_solver|]. intros k. rewrite Hfiles.
    destruct (decide (k = q)) as [->|Hk].
    + rewrite (decide_False (P := q ∈ l /\ _)) by naive_solver. rewrite Hf1.
      destruct (removed w q); [rewrite !decide_True; try done; by split; [left|]|].
      rewrite !decide_False; [done|by intros [_ ?]..].
    + assert (k ∈ l -> removed w1 k = removed w k) as Hrk.
      { intros Hkl. destruct (Hl k) as (Hck & _); [by right|]. unfold removed, is_regular_file. by rewrite Hck, Hf2. }
      destruct (decide (k ∈ l)) as [Hkl|Hkl].
      * rewrite Hrk by done. rewrite Hf2 by done.
        destruct (removed w k); [rewrite !decide_True; try done; by split; [right|]|].
        rewrite !decide_False; [done|by intros [_ ?]..].
      * rewrite !decide_False; [by apply Hf2| |naive_solver]. intros [[->|?]%elem_of_cons _]; done.
Qed.

(** The whole, after the directories are there. *)
Definition taken (w : World) (n : string) : option string :=
  if decide (dryRun opts = true \/ extension n <> ext) then None else contents w (path_append source n).

Lemma target_name n : plain n -> target (of_names (names source ++ [n])) = canonical (path_append dest n).
Proof. intros Hn. unfold target. by rewrite filename_of_names. Qed.

Lemma move_copies w :
  dryRun opts = false -> tree_ok w -> is_directory w source = true -> is_directory w dest = true ->
  canonical source <> canonical dest ->
  (forall n, plain n -> contents w (path_append dest n) = None /\ canonical (path_append dest n) ∉ w_dirs w) ->
  exists files, copyFilesWithExtension opts source dest ext w = (Ok tt, put_files files w) /\
    (forall n, plain n -> files !! canonical (path_append dest n) = taken w n) /\
    (forall k, (forall n, plain n -> k <> canonical (path_append dest n)) -> files !! k = w_files w !! k).
Proof.
  intros Hdry Hw Hsrc Hdst Hne Hfresh.
  assert (forall q, q ∈ scan (entries w source) -> exists n, plain n /\ q = of_names (names source ++ [n]) /\
    canonical q = q) as Hent.
  { intros q Hq. apply (entry_name w); [done|]. by rewrite <- scan_permutation. }
  assert (forall n m, plain n -> plain m -> of_names (names source ++ [n]) <> canonical (path_append dest m)) as Hdis.
  { intros n m Hn Hm He. rewrite canonical_append in He by done.
    apply of_names_inj in He; [|by apply names_snoc_plain..]. apply app_inj_tail in He as [He _].
    apply Hne. by apply canonical_eq. }
  assert (NoDup (target <$> scan (entries w source))) as Hnd.
  { apply NoDup_fmap_2_strong; [|rewrite scan_permutation; apply entries_NoDup].
    intros q1 q2 Hq1 Hq2 He. destruct (Hent _ Hq1) as (n1 & Hn1 & -> & _), (Hent _ Hq2) as (n2 & Hn2 & -> & _).
    rewrite !target_name in He by done. by rewrite (append_inj dest n1 n2). }
  exists (copied w (scan (entries w source)) (w_files w)). split; [|split].
  - unfold copyFilesWithExtension, directory_entries, mbind at 1, M_bind at 1. rewrite Hsrc.
    apply copy_loop; [done..|]. intros q Hq. destruct (Hent q Hq) as (n & Hn & -> & Hc). rewrite target_name, filename_of_names by done.
    destruct (Hfresh n Hn) as [Hf Hd]. split; [done|]. split; [done|]. split; [|split; [exact Hf|split; [done|]]].
    + rewrite canonical_append by done. by apply snoc_not_root.
    + intros q' Hq'. destruct (Hent _ Hq') as (n' & Hn' & -> & _). rewrite Hc, target_name by done. by apply Hdis.
  - intros n Hn. unfold taken. set (q := of_names (names source ++ [n])).
    assert (contents w q = contents w (path_append source n)) as Hq.
    { rewrite <- (contents_canonical w (path_append source n)). by rewrite canonical_append. }
    destruct (decide (q ∈ scan (entries w source))) as [Hin|Hout].
    + rewrite <- target_name by done. fold q. rewrite copied_target; [|..|exact Hin].
      * unfold selected. rewrite is_regular_contents, Hq. unfold q. rewrite extension_of_names by done.
        rewrite target_name by done. destruct (String.eqb_spec (extension n) ext) as [He|He].
        -- rewrite (decide_False (P := _ \/ _)) by (intros [Hx|Hx]; congruence). rewrite andb_true_r.
           case_bool_decide as Hs; [destruct Hs as [text ->]; done|].
           rewrite <- eq_None_not_Some in Hs. rewrite Hs. by apply Hfresh.
        -- rewrite andb_false_r, decide_True by auto. by apply Hfresh.
      * exact Hnd.
    + rewrite copied_other.
      * destruct (decide (dryRun opts = true \/ _)) as [_|He]; [by apply Hfresh|].
        rewrite <- Hq. destruct (contents w q) as [text|] eqn:Ht; [|by apply Hfresh]. exfalso. apply Hout.
        rewrite scan_permutation. apply entries_elem. unfold q in *.
        rewrite <- canonical_append, directory_of_canonical, directory_of_append by done.
        split; [|split; [done|]].
        -- rewrite canonical_append by done. by apply snoc_not_root.
        -- left. rewrite <- canonical_append in Ht by done. unfold contents in Ht. rewrite canonical_idem in Ht.
           by eexists.
      * intros (q' & He & Hq')%list_elem_of_fmap. destruct (Hent _ Hq') as (n' & Hn' & -> & _). rewrite target_name in He by done.
        apply append_inj in He as ->; [|done|done]. done.
  - intros k Hk. apply copied_other. intros (q' & -> & Hq')%list_elem_of_fmap.
    destruct (Hent _ Hq') as (n' & Hn' & -> & _). rewrite target_name in Hk by done. by apply (Hk n').
Qed.
End backup.

(** Removing the files of a directory by extension. *)
Lemma remove_files `{MachineLaws} source ext w :
  tree_ok w -> is_directory w source = true ->
  exists w', removeFilesWithExtension source ext w = (Ok tt, w') /\
    (forall n, plain n -> contents w' (path_append source n) =
       if decide (lower (extension n) = lower ext) then None else contents w (path_append source n)) /\
    forall p, directory_of p <> canonical source -> contents w' p = contents w p.
Proof.
  intros Hw Hsrc.
  assert (forall q, q ∈ scan (entries w source) -> q ∈ entries w source) as Hscan.
  { intros q Hq. by rewrite <- scan_permutation. }
  destruct (remove_loop ext (scan (entries w source)) w) as (w' & Hrun & _ & Hfiles).
  { intros q Hq%Hscan. pose proof Hq as (Hr & _ & _)%entries_elem.
    apply entry_name in Hq as (n & Hn & _ & Hc); [|done]. split; [done|]. split; [done|].
    intros Hs. by apply (tree_files _ Hw) in Hs as (_ & Hd & _). }
  { rewrite scan_permutation. apply entries_NoDup. }
  exists w'. split; [|split].
  - unfold removeFilesWithExtension, directory_entries, mbind at 1, M_bind at 1. rewrite Hsrc. exact Hrun.
  - intros n Hn. unfold contents. rewrite Hfiles, !canonical_append by done.
    set (q := of_names (names source ++ [n])).
    assert (canonical q = q) as Hc by (unfold q; rewrite <- canonical_append by done; apply canonical_idem).
    assert (removed ext w q = is_regular_file w q && String.eqb (lower (extension n)) (lower ext)) as Hrem.
    { unfold removed, q. by rewrite extension_of_names. }
    destruct (decide (lower (extension n) = lower ext)) as [He|He].
    + destruct (w_files w !! q) as [text|] eqn:Ht; [|by case_decide].
      rewrite decide_True; [done|]. split.
      * rewrite scan_permutation. apply entries_elem. split; [by apply snoc_not_root|]. split.
        -- unfold q. rewrite <- canonical_append, directory_of_canonical by done. by apply directory_of_append.
        -- left. by eexists.
      * rewrite Hrem, He, String.eqb_refl, andb_true_r. unfold is_regular_file. rewrite Hc, Ht.
        by apply bool_decide_eq_true.
    + rewrite decide_False; [done|]. rewrite Hrem. intros [_ [_ Hx%String.eqb_eq]%andb_true_iff]. done.
  - intros p Hp. unfold contents. rewrite Hfiles, decide_False; [done|].
    intros [(_ & Hd & _)%Hscan%entries_elem _]. by rewrite directory_of_canonical in Hd.
Qed.

(** The pieces of a backup: a copy in a dry run, a directory made for the
    files, and the tree once files were added to a directory. *)

Lemma copy_dry_run `{Machine} opts source dest ext w :
  dryRun opts = true -> is_directory w source = true -> copyFilesWithExtension opts source dest ext w = (Ok tt, w).
Proof.
  intros Hdry Hsrc. unfold copyFilesWithExtension, directory_entries, mbind at 1, M_bind at 1. rewrite Hsrc.
  generalize (scan (entries w source)) as l. induction l as [|q l IH]; [done|]. cbn [for_each].
  unfold mbind at 1, M_bind at 1. unfold mbind at 1, M_bind at 1. cbn [ask gets]. unfold copyFile at 1. rewrite Hdry.
  by destruct (is_regular_file w q && String.eqb (extension q) ext).
Qed.

Lemma fresh_directory w dest n :
  tree_ok w -> fs_exists w dest = false -> plain n ->
  contents (with_lineage dest w) (path_append dest n) = None /\
  canonical (path_append dest n) ∉ w_dirs (with_lineage dest w).
Proof.
  intros Hw [_ Hdd]%orb_false_iff Hn.
  destruct (nothing_in w dest (path_append dest n)) as [Hc Hd]; [done..|by apply directory_of_append|].
  split; [exact Hc|]. cbn. rewrite elem_of_union, elem_of_list_to_set. intros [(r & Hr & _)%lineage_names|?]; [|done].
  rewrite names_canonical, names_append in Hr by done.
  apply (f_equal length) in Hr. rewrite !length_app in Hr. cbn in Hr. lia.
Qed.

Lemma files_added_ok dest w files :
  tree_ok w -> is_directory w dest = true ->
  (forall n, plain n -> contents w (path_append dest n) = None /\ canonical (path_append dest n) ∉ w_dirs w) ->
  (forall k, (forall n, plain n -> k <> canonical (path_append dest n)) -> files !! k = w_files w !! k) ->
  tree_ok (put_files files w).
Proof.
  intros Hw Hd1 Hfresh Ho.
  split; [|exact (tree_dirs _ Hw)]. cbn. intros p Hp. destruct (decide (directory_of p = canonical dest /\ canonical p = p /\ p <> "/"))
    as [(Hpd & Hpc & Hpr)|Hno].
  - split; [done|]. destruct (canonical_split p) as (n & Hn & He); [congruence|].
    rewrite Hpd, names_canonical, <- canonical_append in He by done.
    split; [|split; [done|]].
    + rewrite <- Hpc, He. by apply Hfresh.
    + rewrite Hpd. unfold is_directory in *. rewrite canonical_idem. exact Hd1.
  - rewrite Ho in Hp; [by apply (tree_files _ Hw)|]. intros n Hn ->. apply Hno.
    rewrite directory_of_canonical, directory_of_append, canonical_idem by done. split; [done|]. split; [done|].
    rewrite canonical_append by done. by apply snoc_not_root.
Qed.

(** Backing up the files of a directory by extension into a directory
    that is not there yet: it returns; every file of the directory whose
    extension is the given one is in the backup with its contents; the files
    whose extension is the given one in any case are gone from the directory,
    so that one with another spelling is lost; no other file changes.  In a
    dry run the files are removed all the same, and copied nowhere. *)
Theorem backup_spec `{MachineLaws} (opts : Options) (source dest ext : string) (w : World) :
  tree_ok w -> is_directory w source = true -> fs_exists w dest = false -> shouldForce opts "backups" = false ->
  Forall (fun q => is_regular_file w q = false) (lineage dest) ->
  exists w', backupFilesByExtension opts dest source ext w = (Ok tt, w') /\
    (forall n, plain n -> contents w' (path_append source n) =
       if decide (lower (extension n) = lower ext) then None else contents w (path_append source n)) /\
    (forall n, plain n -> contents w' (path_append dest n) = taken opts source ext w n) /\
    (forall p, directory_of p <> canonical source -> directory_of p <> canonical dest -> contents w' p = contents w p).
Proof.
  intros Hw Hsrc Hdst Hforce Hlin. pose proof Hdst as [Hdf Hdd]%orb_false_iff.
  assert (canonical source <> canonical dest) as Hne.
  { intros He. unfold is_directory in Hsrc, Hdd. rewrite He in Hsrc. congruence. }
  unfold backupFilesByExtension. rewrite Hforce. cbn [mbind M_bind skip ask gets]. unfold mbind, M_bind, skip, ask, gets.
  rewrite Hdst. cbn [negb]. unfold createDirectory. destruct (dryRun opts) eqn:Hdry.
  - cbn [skip]. unfold skip. unfold moveFilesWithExtension, mbind, M_bind.
    rewrite copy_dry_run by done.
    destruct (remove_files source ext w Hw Hsrc) as (w' & Hrun & H1 & H2). exists w'.
    split; [exact Hrun|]. split; [exact H1|]. split; [|intros p Hp _; by apply H2].
    intros n Hn. unfold taken. rewrite decide_True by by left.
    rewrite H2 by by rewrite directory_of_append. apply (nothing_in w dest); [done|done|]. by apply directory_of_append.
  - destruct (with_lineage_ok dest w Hw Hlin) as (-> & Hw1 & Hd1). set (w1 := with_lineage dest w) in *.
    assert (is_directory w1 source = true) as Hs1.
    { unfold is_directory in Hsrc |- *. apply orb_true_iff in Hsrc as [Hs|Hs]; [by rewrite Hs|].
      apply bool_decide_eq_true in Hs. rewrite (bool_decide_true (_ ∈ _)); [apply orb_true_r|].
      cbn. set_solver. }
    assert (forall n, plain n -> contents w1 (path_append dest n) = None /\ canonical (path_append dest n) ∉ w_dirs w1) as Hfresh
      by (intros n Hn; by apply (fresh_directory w dest n)).
    destruct (move_copies opts source dest ext w1) as (files & Hcopy & Ht & Ho); [done..|].
    unfold moveFilesWithExtension, mbind, M_bind. rewrite Hcopy.
    assert (tree_ok (put_files files w1)) as Hw2 by (by apply (files_added_ok dest w1 files)).
    destruct (remove_files source ext (put_files files w1) Hw2) as (w' & Hrun & H1 & H2).
    { exact Hs1. }
    exists w'. split; [exact Hrun|]. split; [|split].
    + intros n Hn. rewrite H1 by done. case_decide; [done|]. unfold contents. cbn. apply Ho.
      intros m Hm. rewrite !canonical_append by done. intros He%of_names_inj; [|by apply names_snoc_plain..].
      apply app_inj_tail in He as [He _]. apply Hne. by apply canonical_eq.
    + intros n Hn. rewrite H2 by by rewrite directory_of_append. by apply Ht.
    + intros p Hp1 Hp2. rewrite H2 by done. unfold contents. cbn. apply Ho.
      intros n Hn He. apply Hp2. rewrite <- directory_of_canonical, He, directory_of_canonical. by apply directory_of_append.
Qed.

(** In a dry run the file operations that look at the flag leave the
    machine as it is, but for one: [addStringToFile] creates its file, empty,
    when it is not there and can be. *)
Theorem dry_run_keeps_files `{Machine} (opts : Options) (path other text timestamp : string) (w : World) :
  dryRun opts = true ->
  touchFile opts path w = (Ok tt, w) /\ createDirectory opts path w = (Ok tt, w) /\
  removeFile opts path w = (Ok tt, w) /\ backupFile opts timestamp path w = (Ok tt, w) /\
  copyFile opts path other w = (Ok tt, w) /\ installFile opts path text w = (Ok tt, w) /\
  exists w', addStringToFile opts path text w = (Ok tt, w') /\
    (w' = w \/ w' = put_file path (default "" (contents w path)) w).
Proof.
  intros Hdry. unfold touchFile, createDirectory, removeFile, backupFile, copyFile, installFile, addStringToFile.
  rewrite Hdry. repeat (split; [done|]). cpp_simpl. unfold stream_read, stream_append, gets, ask, gets.
  destruct (contains text _); [by exists w; split; [|left]|].
  destruct (can_write w path); eexists; (split; [done|]); [right|by left].
  by rewrite sapp_nil_r.
Qed.
