(* ===== verification/DiskImage.v ===== *)
(** * Disk images

    The class [DiskImage] of [src/diskImage.cpp]: the path of an installation
    image, which distribution its name announces, and whether its checksum is
    the published one.  The checksum of a known image is cached in a file next
    to it, so that setting the path may change the machine. *)

From stdpp Require Import base strings list gmap.
From Stdlib Require Import ZArith Lia Ascii.
From S2P Require Import Prelude CppString External Enums Options Os World FileOps.

(** ** The object *)

Record DiskImage := mkDiskImage {
  m_path : string;
  i_distro : option Distro.t;          (* m_distro *)
}.

Definition DiskImage_default : DiskImage := mkDiskImage "" None.

Definition knownImageFilename : list string :=
  ["AlmaLinux-8.8-x86_64-dvd.iso"; "OracleLinux-R8-U8-x86_64-dvd.iso"; "rhel-8.8-x86_64-dvd.iso";
   "Rocky-8.8-x86_64-dvd1.iso"; "Rocky-9.5-x86_64-dvd.iso"].

Definition toDistroImage (imageView : string) : option Distro.t :=
  if starts_with "Rocky" imageView then Some Distro.Rocky
  else if starts_with "rhel" imageView then Some Distro.RHEL
  else if starts_with "OracleLinux" imageView then Some Distro.OL
  else if starts_with "AlmaLinux" imageView then Some Distro.AlmaLinux
  else if starts_with "ubuntu-" imageView then Some Distro.Ubuntu
  else None.

Definition put_i_distro (d : option Distro.t) (i : DiskImage) : DiskImage := mkDiskImage (m_path i) d.

Fixpoint isKnownImage_loop (images : list string) (path : string) : M DiskImage bool :=
  match images with
  | [] => _ ← modify (put_i_distro (toDistroImage (filename path))); mret false
  | image :: images =>
      if String.eqb (filename path) image then
        _ ← modify (put_i_distro (toDistroImage image));
        d ← gets i_distro;
        match d with Some _ => mret true | None => isKnownImage_loop images path end
      else isKnownImage_loop images path
  end.
Definition isKnownImage (path : string) : M DiskImage bool := isKnownImage_loop knownImageFilename path.

Definition hash_map : list (string * string) :=
  [("rhel-8.8-x86_64-dvd.iso", "517abcc67ee3b7212f57e180f5d30be3e8269e7a99e127a3399b7935c7e00a09");
   ("OracleLinux-R8-U8-x86_64-dvd.iso", "cae39116245ff7c3c86d5305d9c11430ce5c4e512987563435ac59c37a082d7e");
   ("Rocky-8.8-x86_64-dvd1.iso", "7b8bdfe189cf24ae5c2d6a88f7a0b5f3012d23f9332c47943d538b4bc03a3704");
   ("AlmaLinux-8.8-x86_64-dvd.iso", "635b30b967b509a32a1a3d81401db9861922acb396d065922b39405a43a04a31");
   ("Rocky-9.5-x86_64-dvd.iso", "ba60c3653640b5747610ddfb4d09520529bef2d1d83c1feb86b0c84dff31e04e")].

Section checksum.
Context `{GChecksum}.

Definition hasVerifiedChecksum (opts : Options) (path : string) : M World bool :=
  if dryRun opts then mret true
  else if shouldSkip opts "disk-checksum" then mret true
  else
    checksum ← Cache.checksum path;
    mret match findOpt hash_map (filename path) with
         | Some expected => String.eqb checksum expected
         | None => false
         end.

(** An invalid checksum is only logged. *)
Definition setPath (opts : Options) (path : string) : M (DiskImage * World) unit :=
  if negb (String.eqb (extension path) ".iso") then
    throw (RuntimeError "Disk Image must have ISO extension")
  else
    known ← on_object (isKnownImage path);
    _ ← (if known : bool then _ ← on_machine (hasVerifiedChecksum opts path); skip else skip);
    on_object (modify (fun i => mkDiskImage path (i_distro i))).
End checksum.

Definition getDistro (i : DiskImage) : outcome Distro.t := value (i_distro i).

(** ** What accepting a path means *)

Lemma isKnownImage_spec path i :
  isKnownImage path i =
  (Ok (bool_decide (filename path ∈ knownImageFilename)),
   put_i_distro (toDistroImage (filename path)) i).
Proof.
  unfold isKnownImage.
  assert (forall l, Forall (fun image => is_Some (toDistroImage image)) l ->
    isKnownImage_loop l path i =
    (Ok (bool_decide (filename path ∈ l)), put_i_distro (toDistroImage (filename path)) i)) as H.
  { induction 1 as [|image l [d Hd] _ IH]; [done|]. cbn [isKnownImage_loop].
    destruct (String.eqb_spec (filename path) image) as [->|Hne].
    - rewrite bool_decide_true by left. cpp_simpl. cbn. by rewrite Hd.
    - rewrite IH. f_equal. f_equal. apply bool_decide_ext. rewrite elem_of_cons. naive_solver. }
  apply H. by repeat constructor.
Qed.

(** Known images are never rejected without looking at the file, and others
    are accepted by name alone. *)
Definition needs_checksum (opts : Options) (path : string) : bool :=
  bool_decide (filename path ∈ knownImageFilename) && negb (dryRun opts) &&
  negb (shouldSkip opts "disk-checksum").

(** A disk image path is accepted exactly when its extension is [.iso] and
    the cached checksum of the file, asked for only for a known image outside
    dry runs and [--skip disk-checksum], can be had; the checksum being wrong
    rejects nothing.  The distribution is then the one the file name announces,
    also for an unknown image; and the machine is left as caching the checksum
    leaves it. *)
Theorem setPath_spec `{GChecksum} (opts : Options) (path : string) (i : DiskImage) (w : World) :
  setPath opts path (i, w) =
  if negb (String.eqb (extension path) ".iso")
  then (Throw (RuntimeError "Disk Image must have ISO extension"), (i, w))
  else
    let named := put_i_distro (toDistroImage (filename path)) i in
    let accepted := mkDiskImage path (toDistroImage (filename path)) in
    if needs_checksum opts path then
      let '(sum, w') := Cache.checksum path w in
      match sum with
      | Ok _ => (Ok tt, (accepted, w'))
      | Throw e => (Throw e, (named, w'))
      | UB => (UB, (named, w'))
      end
    else (Ok tt, (accepted, w)).
Proof.
  unfold setPath. destruct (negb _); [done|].
  erewrite M_bind_ok by (unfold on_object, zoom; cbn [fst snd]; by rewrite isKnownImage_spec).
  unfold needs_checksum, hasVerifiedChecksum. destruct (bool_decide _); cbn [andb]; [|done].
  destruct (dryRun opts); [done|]. destruct (shouldSkip opts "disk-checksum"); [done|]. cbn [andb negb].
  unfold on_machine, on_object, zoom, mbind, M_bind. cbn [fst snd].
  by destruct (Cache.checksum path w) as [[sum|e|] w'].
Qed.

Definition image_complete (image : string) : bool :=
  String.eqb (extension image) ".iso" && String.eqb (filename image) image &&
  bool_decide (is_Some (toDistroImage image)) &&
  match findOpt hash_map image with
  | Some sum => Nat.eqb (String.length sum) 64 && sforall is_hex sum
  | None => false
  end.

(** Every image the class knows has an [.iso] name that announces a
    distribution, and a published checksum. *)
Theorem known_images_complete (image : string) :
  image ∈ knownImageFilename ->
  extension image = ".iso" /\ filename image = image /\ is_Some (toDistroImage image) /\
  exists sum, findOpt hash_map image = Some sum /\ String.length sum = 64%nat /\ sforall is_hex sum = true.
Proof.
  intros Hi. assert (forallb image_complete knownImageFilename = true) as Hall by (vm_compute; reflexivity).
  rewrite forallb_forall in Hall. specialize (Hall image (proj1 (list_elem_of_In _ _) Hi)).
  unfold image_complete in Hall. rewrite !andb_true_iff in Hall. destruct Hall as [[[He Hf] Hd] Hs].
  apply String.eqb_eq in He, Hf. apply bool_decide_eq_true in Hd. split; [done|]. split; [done|]. split; [done|].
  destruct (findOpt hash_map image) as [sum|]; [|done]. apply andb_true_iff in Hs as [Hl Hx].
  apply Nat.eqb_eq in Hl. by exists sum.
Qed.
