(* ===== verification/ScriptBuilder.v ===== *)
(** * Building shell scripts

    The class [ScriptBuilder] of [src/services/scriptbuilder.cpp] and
    [include/opencattus/services/scriptbuilder.h].  The builder methods return
    the builder, so that calls chain; here they are methods on its state.  A
    format string and its arguments are the text they make. *)

From stdpp Require Import base strings list gmap sorting.
From Stdlib Require Import ZArith Lia Ascii.
From S2P Require Import Prelude CppString External Enums Os World.

Record ScriptBuilder := mkScriptBuilder { m_commands : list string; m_os : OS }.

(** [ScriptBuilder::ScriptBuilder] *)
Definition ScriptBuilder_make (osinfo : OS) : ScriptBuilder := mkScriptBuilder ["#!/bin/bash -xeu"] osinfo.

Definition addCommand (text : string) : M ScriptBuilder unit :=
  modify (fun b => mkScriptBuilder (m_commands b ++ [text]) (m_os b)).

Definition dquote : string := String "034" "".
Definition newline : string := String "010" "".

Definition addLineToFile (path key line : string) : M ScriptBuilder unit :=
  _ ← addCommand "# Adding line to file";
  addCommand ("grep -q " +:+ dquote +:+ key +:+ dquote +:+ " " +:+ dquote +:+ path +:+ dquote +:+ " || \" +:+
    newline +:+ "  echo " +:+ dquote +:+ line +:+ dquote +:+ " >> " +:+ dquote +:+ path +:+ dquote).

Definition addFileTemplate (path content : string) : M ScriptBuilder unit :=
  _ ← addCommand ("# Create " +:+ path +:+ " file");
  addCommand ("touch " +:+ path +:+ newline +:+ "cat <<EOF > " +:+ path +:+ newline +:+ content +:+
    newline +:+ "EOF" +:+ newline).

Definition addNewLine : M ScriptBuilder unit := addCommand "".
Definition enableService (service : string) : M ScriptBuilder unit :=
  addCommand ("systemctl enable --now " +:+ service).
Definition disableService (service : string) : M ScriptBuilder unit :=
  addCommand ("systemctl disable --now " +:+ service).
Definition startService (service : string) : M ScriptBuilder unit := addCommand ("systemctl start " +:+ service).
Definition stopService (service : string) : M ScriptBuilder unit := addCommand ("systemctl stop " +:+ service).

(** [m_os.getPackageType()], which throws for an unknown distribution. *)
Definition package_type : M ScriptBuilder PackageType.t := fun b => (getPackageType (m_os b), b).

Definition addPackage (pkg : string) : M ScriptBuilder unit :=
  t ← package_type;
  match t with
  | PackageType.RPM => addCommand ("dnf install -y " +:+ pkg)
  | PackageType.DEB => addCommand ("DEBIAN_FRONTEND=noninteractive apt install -y " +:+ pkg)
  end.

(** A [std::set] is iterated in order. *)
Definition in_order (s : gset string) : list string := merge_sort name_le (elements s).

Definition addPackages (pkgs : gset string) : M ScriptBuilder unit :=
  t ← package_type;
  match t with
  | PackageType.RPM => addCommand ("dnf install -y " +:+ concat_sep " " (in_order pkgs))
  | PackageType.DEB => addCommand ("DEBIAN_FRONTEND=noninteractive apt install -y " +:+ concat_sep " " (in_order pkgs))
  end.

Definition removePackage (pkg : string) : M ScriptBuilder unit :=
  t ← package_type;
  match t with
  | PackageType.RPM => addCommand ("dnf remove -y " +:+ pkg)
  | PackageType.DEB => addCommand ("DEBIAN_FRONTEND=noninteractive apt remove -y " +:+ pkg)
  end.

Definition removeLineWithKeyFromFile (path key : string) : M ScriptBuilder unit :=
  _ ← addCommand ("# Removing line with " +:+ key +:+ " from " +:+ path);
  addCommand ("grep -q " +:+ dquote +:+ key +:+ dquote +:+ " " +:+ dquote +:+ path +:+ dquote +:+ " && sed -i " +:+
    dquote +:+ "/" +:+ key +:+ "/d" +:+ dquote +:+ " " +:+ dquote +:+ path +:+ dquote).

(** [boost::algorithm::join(m_commands, \n)] *)
Definition toString `{BoostText} (b : ScriptBuilder) : string := join (m_commands b) newline.
