(* ===== verification/Runner.v ===== *)
(** * Running commands

    [src/services/runner.cpp] and [include/opencattus/services/runner.h]: the
    interface [IRunner] with its implementations, the shell functions, and
    reading the output of a process line by line; and, from
    [src/functions.cpp] and [include/opencattus/functions.h], the functions
    that use a runner. *)

From stdpp Require Import base strings list gmap.
From Stdlib Require Import ZArith Lia Ascii.
From S2P Require Import Prelude CppString External Enums Options World FileOps.
From S2P Require ScriptBuilder.

Local Open Scope Z_scope.

(** ** Processes *)

Section machine.
Context `{Machine} (opts : Options).

Definition runCommand (command : string) (overrideDryRun : bool) : M World (Z * list string) :=
  if negb (dryRun opts) || overrideDryRun then execute (Spawn command) else mret (0, []).

(** [shell::unsafe::cmd], both overloads: exit code and lines of output *)
Definition unsafe_cmd (command : string) : M World (Z * list string) :=
  if negb (dryRun opts) then
    execute (Bash ("set -xeu -o pipefail" +:+ ScriptBuilder.newline +:+ command))
  else mret (0, []).

Definition failed_with (command : string) (exitCode : Z) : exn :=
  RuntimeError ("Command " +:+ command +:+ " failed with exit code " +:+ dec_int exitCode).

(** [shell::cmd], and [shell::fmt] on the formatted text *)
Definition shell_cmd (cmd : string) : M World unit :=
  r ← unsafe_cmd cmd;
  if negb (r.1 =? 0) then throw (failed_with cmd r.1) else skip.

Definition shell_output (command : string) : M World string :=
  r ← unsafe_cmd command;
  if negb (r.1 =? 0) then throw (failed_with command r.1)
  else mret (concat_sep ScriptBuilder.newline r.2).
End machine.

(** ** The interface

    A singleton of the program is one of three implementations.  The overload
    of [executeCommand] with an output list returns what it appends. *)
Record IRunner := mkRunner {
  executeCommand : string -> M World Z;
  executeCommand_output : string -> M World (Z * list string);
  checkCommand : string -> M World unit;
  checkOutput : string -> M World (list string);
  downloadFile : string -> string -> M World Z;
  run : ScriptBuilder.ScriptBuilder -> M World Z;
}.

Definition wget (url file : string) : string := "wget -NP " +:+ file +:+ " " +:+ url.
Definition check_failed (cmd : string) : exn := RuntimeError ("ERROR: Command failed '" +:+ cmd +:+ "'").

Section runners.
Context `{Machine} `{BoostText} `{GChecksum} (opts : Options).

Definition check_output (cmd : string) (overrideDryRun : bool) : M World (list string) :=
  r ← runCommand opts cmd overrideDryRun;
  if negb (r.1 =? 0) then throw (check_failed cmd) else mret r.2.

Definition Runner_executeCommand (cmd : string) : M World Z :=
  r ← runCommand opts cmd true; mret r.1.

Definition script_path (content : string) : string := "/tmp/" +:+ Files.checksum content +:+ ".sh".

Definition Runner_run (script : ScriptBuilder.ScriptBuilder) : M World Z :=
  let content := ScriptBuilder.toString script in
  let path := script_path content in
  _ ← installFile opts path content;
  exitCode ← Runner_executeCommand ("bash " +:+ path);
  if negb (exitCode =? 0) then
    throw (RuntimeError ("Script " +:+ path +:+ " failed with exit code " +:+ dec_int exitCode))
  else mret exitCode.

Definition Runner : IRunner := {|
  executeCommand := Runner_executeCommand;
  executeCommand_output cmd := runCommand opts cmd true;
  checkCommand cmd := r ← runCommand opts cmd true;
    if negb (r.1 =? 0) then throw (check_failed cmd) else skip;
  checkOutput cmd := check_output cmd false;
  downloadFile url file := Runner_executeCommand (wget url file);
  run := Runner_run |}.

(** Everything is only logged, except for [checkOutput], which overrides the
    dry run. *)
Definition DryRunner : IRunner := {|
  executeCommand _ := mret 0;
  executeCommand_output _ := mret (0, []);
  checkCommand _ := skip;
  checkOutput cmd := check_output cmd true;
  downloadFile _ _ := mret 0;
  run _ := mret 0 |}.

Definition remember_cmd (cmd : string) : M World unit := modify (fun w => put_mock (w_mock w ++ [cmd]) w).

Definition MockRunner : IRunner := {|
  executeCommand cmd := _ ← remember_cmd cmd; mret 0;
  executeCommand_output cmd := _ ← remember_cmd cmd; mret (0, []);
  checkCommand _ := skip;
  checkOutput _ := mret [];
  downloadFile url file := _ ← remember_cmd (wget url file); mret 0;
  run _ := mret 0 |}.
Definition listCommands (w : World) : list string := w_mock w.
End runners.

(** ** Reading the output while a process runs

    The pipe is the text it still delivers and whether the stream is good; a
    [getline] that meets the end of the text leaves it bad, and fails when
    there was nothing to extract. *)

Record CommandProxy := mkProxy { valid : bool; hasProcess : bool; pipe : string; good : bool }.

Definition CommandProxy_none : CommandProxy := mkProxy false false "" false.

(** [runCommandIter], the process' output given; [None] in a dry run *)
Definition runCommandIter (opts : Options) (output : string) (overrideDryRun : bool) : CommandProxy :=
  if negb (dryRun opts) || overrideDryRun then mkProxy true true output true else CommandProxy_none.

(** [std::getline(pipe, line, delim)] on a good stream: the line if it
    succeeds, the text left and whether the stream is still good *)
Definition pipe_getline (delim : ascii) (text : string) : option string * string * bool :=
  match find_char delim text with
  | Some i => (Some (stake i text), sdrop (S i) text, true)
  | None => (if empty text then None else Some text, "", false)
  end.

(** [getline] and [getUntil]: the [valid = false] of a failed read is
    overwritten by what [retrieveLine] returns. *)
Definition getUntil (chr : ascii) (p : CommandProxy) : option string * CommandProxy :=
  if negb (valid p) then (None, p)
  else if good p then
    let '(line, text, g) := pipe_getline chr (pipe p) in
    (Some (default "" line), mkProxy true (hasProcess p) text g)
  else (None, mkProxy false (hasProcess p) (pipe p) (good p)).
Definition getline : CommandProxy -> option string * CommandProxy := getUntil "010".

(** [while (auto line = proxy.getUntil(chr))]: the lines seen, [None] when the
    fuel runs out. *)
Fixpoint drain (fuel : nat) (chr : ascii) (p : CommandProxy) : option (list string) :=
  match fuel with
  | O => None
  | S fuel =>
      match getUntil chr p with
      | (None, _) => Some []
      | (Some line, p) => cons line <$> drain fuel chr p
      end
  end.

(** ** Functions that use a runner *)

Section functions.
Context `{Machine} (opts : Options) (runner : IRunner).

Definition curl_status (url : string) : string :=
  "bash -c " +:+ ScriptBuilder.dquote +:+ "curl -sSLI " +:+ url +:+ " | awk '/HTTP/ {print $2}' | tail -1" +:+
    ScriptBuilder.dquote +:+ " ".

Definition getHttpStatusInner (url : string) : M World string :=
  lines ← checkOutput runner (curl_status url);
  mret (match lines with line :: _ => line | [] => "CURL ERROR" end).

(** The header seen last is returned when the retries are used up. *)
Fixpoint getHttpStatus_loop (retries : nat) (url header : string) : M World string :=
  match retries with
  | O => mret header
  | S retries =>
      header ← getHttpStatusInner url;
      if starts_with "2" header then mret header
      else getHttpStatus_loop retries url header
  end.

Definition getHttpStatus (url : string) (maxRetries : nat) : M World string :=
  if shouldSkip opts "http-status" then mret "200" else getHttpStatus_loop maxRetries url "".

Record HTTPRepo := mkHTTPRepo { directory : string; hr_name : string; hr_url : string }.

Definition httpd_conf (repoFolder : string) : string :=
  "<Directory " +:+ ScriptBuilder.dquote +:+ repoFolder +:+ ScriptBuilder.dquote +:+ ">" +:+ ScriptBuilder.newline +:+
  "Options +Indexes +FollowSymLinks" +:+ ScriptBuilder.newline +:+
  "AllowOverride None" +:+ ScriptBuilder.newline +:+
  "Require all granted" +:+ ScriptBuilder.newline +:+
  "IndexOptions FancyIndexing VersionSort NameWidth=* HTMLTable Charset=UTF-8" +:+ ScriptBuilder.newline +:+
  "</Directory>" +:+ ScriptBuilder.newline.

Definition createHTTPRepo (repoName : string) : M World HTTPRepo :=
  let confPath := "/etc/httpd/conf.d/" +:+ repoName +:+ ".conf" in
  let repoFolder := "/var/www/html/repos/" +:+ repoName in
  let repo := mkHTTPRepo repoFolder repoName ("http://localhost/repos/" +:+ repoName) in
  there ← ask (fun w => fs_exists w confPath);
  if there : bool then mret repo
  else
    _ ← createDirectory opts "/var/www/html/repos/";
    _ ← createDirectory opts repoFolder;
    _ ← installFile opts confPath (httpd_conf repoFolder);
    _ ← checkCommand runner "apachectl configtest";
    _ ← checkCommand runner "systemctl restart httpd";
    mret repo.
End functions.
