(* ===== verification/RunnerSpec.v ===== *)
(** * What running commands amounts to

    The number of attempts of an HTTP request, and the lines read from a
    process while it runs. *)

From stdpp Require Import base strings list gmap.
From Stdlib Require Import ZArith Lia Ascii.
From S2P Require Import Prelude CppString External Enums Options World FileOps Runner WorldFacts.

Local Open Scope Z_scope.

Section http.
Context `{Machine} `{BoostText} `{GChecksum} (opts : Options).

Lemma Runner_checkOutput cmd w r w' :
  dryRun opts = false -> checkOutput (Runner opts) cmd w = (r, w') ->
  w_trace w' = w_trace w ++ [Spawn cmd].
Proof.
  intros Hdry. cbn. unfold check_output, runCommand. rewrite Hdry. cbn [negb orb].
  cpp_simpl. unfold execute. destruct (react w (Spawn cmd)) as [[[code out]| |] [files dirs]]; cbn.
  - destruct (negb (code =? 0)); intros [= _ <-]; done.
  - by intros [= _ <-].
  - by intros [= _ <-].
Qed.

Lemma getHttpStatus_loop_spec url n header w h w' :
  dryRun opts = false ->
  getHttpStatus_loop (Runner opts) n url header w = (Ok h, w') ->
  exists k, (k <= n)%nat /\
    w_trace w' = w_trace w ++ repeat (Spawn (curl_status url)) k /\
    ((0 < k)%nat /\ starts_with "2" h = true \/ k = n /\ (n = O -> h = header)).
Proof.
  intros Hdry. revert header w. induction n as [|n IH]; intros header w.
  - intros [= <- <-]. exists O. split; [done|]. split; [by rewrite app_nil_r|]. by right.
  - cbn [getHttpStatus_loop]. intros Hr. step Hr as (h1 & w1 & Hin). unfold getHttpStatusInner in Hin.
    step Hin as (lines & w0 & Hout). injection Hin as Hh1 <-.
    apply Runner_checkOutput in Hout; [|done]. destruct (starts_with "2" h1) eqn:Hs.
    + injection Hr as <- <-. exists 1%nat. split; [lia|]. split; [done|]. left. split; [lia|done].
    + apply IH in Hr as (k & Hk & Ht & Hc). exists (S k). split; [lia|]. split.
      * rewrite Ht, Hout, <- app_assoc. done.
      * destruct Hc as [[Hk0 Hc]|[-> Hc]]; [left; split; [lia|done]|right; split; [done|by intros]].
Qed.
End http.

(** An HTTP status is asked for at most as often as there are retries, by
    the same command each time and nothing else; when fewer attempts were made
    the last one was a success, that is its answer starts with a 2.  With
    [--skip=http-status] nothing is asked and the answer is 200. *)
Theorem getHttpStatus_attempts `{Machine} `{BoostText} `{GChecksum} (opts : Options) (url : string) (maxRetries : nat)
    (w w' : World) (status : string) :
  dryRun opts = false ->
  getHttpStatus opts (Runner opts) url maxRetries w = (Ok status, w') ->
  (shouldSkip opts "http-status" = true -> status = "200" /\ w' = w) /\
  (shouldSkip opts "http-status" = false ->
   exists attempts, (attempts <= maxRetries)%nat /\
     w_trace w' = w_trace w ++ repeat (Spawn (curl_status url)) attempts /\
     ((attempts < maxRetries)%nat -> starts_with "2" status = true)).
Proof.
  intros Hdry. unfold getHttpStatus. destruct (shouldSkip opts "http-status"); intros Hr.
  - injection Hr as <- <-. by split.
  - split; [done|]. intros _. apply getHttpStatus_loop_spec in Hr as (k & Hk & Ht & Hc); [|done].
    exists k. split; [done|]. split; [done|]. intros Hlt. destruct Hc as [[_ Hc]|[-> _]]; [done|lia].
Qed.

(** ** Reading lines *)

Section drain.
Context (chr : ascii).

(** The stream has met its end. *)
Lemma drain_end fuel b text : (0 < fuel)%nat -> drain fuel chr (mkProxy true b text false) = Some [].
Proof. destruct fuel; [lia|done]. Qed.

Lemma drain_pieces fuel b text :
  (S (String.length text) < fuel)%nat ->
  exists lines, drain fuel chr (mkProxy true b text true) = Some lines /\ lines <> [] /\
    concat_sep (String chr "") lines = text /\ Forall (fun line => no_char chr line = true) lines.
Proof.
  revert text. induction fuel as [|fuel IH]; intros text Hf; [lia|].
  cbn [drain]. unfold getUntil. cbn [valid good negb pipe hasProcess]. unfold pipe_getline.
  destruct (cut_at chr text) as [Ha|(line & rest & -> & Hl)].
  - rewrite (proj1 (no_char_find chr text) Ha). rewrite drain_end by lia. cbn [fmap option_fmap option_map].
    assert (default "" (if empty text then None else Some text) = text) as -> by (by destruct text).
    exists [text]. repeat split; [done|]. by constructor.
  - rewrite find_char_at by exact Hl. rewrite stake_app, sdrop_at. cbn [default].
    destruct (IH rest) as (lines & Hd & Hn & Hc & Hall).
    { rewrite length_sapp in Hf. cbn in Hf. lia. }
    rewrite Hd. exists (line :: lines). split; [done|]. split; [done|]. split; [|by constructor].
    destruct lines as [|l lines]; [done|]. by rewrite <- Hc.
Qed.
End drain.

(** Reading the output of a process line by line ends, whatever the output
    and the delimiter, and loses nothing: the lines, none of which contains
    the delimiter, joined by it are the output.  So an output that ends with
    the delimiter is followed by one more, empty, line; and in a dry run there
    are no lines at all. *)
Theorem drain_lossless (opts : Options) (output : string) (chr : ascii) (overrideDryRun : bool) (fuel : nat) :
  (S (String.length output) < fuel)%nat ->
  exists lines, drain fuel chr (runCommandIter opts output overrideDryRun) = Some lines /\
    (dryRun opts && negb overrideDryRun = true -> lines = []) /\
    (dryRun opts && negb overrideDryRun = false ->
     lines <> [] /\ concat_sep (String chr "") lines = output /\
     Forall (fun line => no_char chr line = true) lines).
Proof.
  intros Hf. unfold runCommandIter.
  destruct (dryRun opts), overrideDryRun; cbn [negb orb andb]; [| |  |];
    try (destruct (drain_pieces chr fuel true output Hf) as (lines & Hd & Hn & Hc & Ha);
         exists lines; split; [exact Hd|]; by split).
  exists []. destruct fuel; [lia|]. by split.
Qed.
