(* ===== verification/OsService.v ===== *)
(** * Operating system services

    [src/services/osservice.cpp]: the commands of the two package families
    behind [IOSService], and whether Rocky Linux has moved to the vault. *)

From stdpp Require Import base strings list gmap.
From Stdlib Require Import ZArith Lia Ascii.
From S2P Require Import Prelude CppString External Enums Options Os World Runner.
From S2P Require ScriptBuilder.

Local Open Scope Z_scope.

Record IOSService := mkOSService {
  getKernelInstalled : M World string;
  getKernelRunning : M World string;
  getLocale : M World string;
  getAvailableLocales : M World (list string);
  install : string -> M World bool;
  reinstall : string -> M World bool;
  groupInstall : string -> M World bool;
  remove : string -> M World bool;
  update_package : string -> M World bool;
  update : M World bool;
  check : M World unit;
  pinOSVersion : M World unit;
  clean : M World unit;
  repolist : M World (list string);
  enableService : string -> M World bool;
  disableService : string -> M World bool;
  startService : string -> M World bool;
  stopService : string -> M World bool;
  restartService : string -> M World bool;
}.

Section services.
Context (runner : IRunner) (m_osinfo : OS).

Definition q : string := ScriptBuilder.dquote.

(** [checkOutput(cmd)[0]]: undefined when there is no output. *)
Definition first_line (cmd : string) : M World string :=
  lines ← checkOutput runner cmd;
  lift (deref (head lines)).

(** [executeCommand(cmd) != 0] and [== 0] *)
Definition fails (cmd : string) : M World bool := code ← executeCommand runner cmd; mret (negb (code =? 0)).
Definition succeeds (cmd : string) : M World bool := code ← executeCommand runner cmd; mret (code =? 0).
Definition run_only (cmd : string) : M World unit := _ ← executeCommand runner cmd; skip.

Definition locale_command : string :=
  "bash -c " +:+ q +:+ "localectl status | awk -F'=' '/System Locale: / {print $2}'" +:+ q.

Definition ELOSService : IOSService := {|
  getKernelInstalled := first_line
    ("bash -c " +:+ q +:+ "rpm -q kernel --qf '%{VERSION}-%{RELEASE}.%{ARCH} %{BUILDTIME}" +:+ ScriptBuilder.newline +:+
     "' | sort -nrk 2 | head -1 | awk '{print $1}'" +:+ q);
  getKernelRunning := first_line "uname -r";
  getLocale := first_line locale_command;
  getAvailableLocales := checkOutput runner "locale -a";
  install package := fails ("dnf -y install " +:+ package);
  reinstall package := fails ("dnf -y reinstall " +:+ package);
  groupInstall package := fails ("dnf -y groupinstall " +:+ q +:+ package +:+ q);
  remove package := fails ("dnf -y remove " +:+ package);
  update_package package := fails ("dnf -y update " +:+ package);
  update := fails "dnf -y update";
  check := run_only "dnf check";
  pinOSVersion :=
    distro ← lift (getDistro m_osinfo);
    match distro with
    | Distro.Rocky | Distro.AlmaLinux | Distro.OL => skip
    | Distro.RHEL =>
        version ← lift (getVersion m_osinfo);
        run_only ("subscription-manager release --set=" +:+ version)
    | Distro.Ubuntu => lift UB
    end;
  clean := run_only "dnf clean all";
  repolist := checkOutput runner "dnf repolist";
  enableService service := succeeds ("systemctl enable --now " +:+ service);
  disableService service := succeeds ("systemctl disable --now " +:+ service);
  startService service := succeeds ("systemctl start " +:+ service);
  stopService service := succeeds ("systemctl stop " +:+ service);
  restartService service := succeeds ("systemctl restart " +:+ service) |}.

Definition apt_install (package : string) : M World bool :=
  fails ("DEBIAN_FRONTEND=noninteractive apt install -y " +:+ package).

Definition UbuntuOSService : IOSService := {|
  getKernelInstalled :=
    output ← checkOutput runner
      ("bash -c " +:+ q +:+ "dpkg-query -W -f='${Version} ${Package}\n' 'linux-image-*' 2>/dev/null | " +:+
       "sort -Vr | head -1 | awk '{print $1}'" +:+ q);
    match output with [] => first_line "uname -r" | line :: _ => mret line end;
  getKernelRunning := first_line "uname -r";
  getLocale := first_line locale_command;
  getAvailableLocales := checkOutput runner "locale -a";
  install := apt_install;
  reinstall package := fails ("DEBIAN_FRONTEND=noninteractive apt install --reinstall -y " +:+ package);
  groupInstall := apt_install;
  remove package := fails ("DEBIAN_FRONTEND=noninteractive apt remove -y " +:+ package);
  update_package package := fails ("DEBIAN_FRONTEND=noninteractive apt install --only-upgrade -y " +:+ package);
  update := fails "DEBIAN_FRONTEND=noninteractive apt update && DEBIAN_FRONTEND=noninteractive apt upgrade -y";
  check := run_only "apt check";
  pinOSVersion := skip;
  clean := run_only "apt clean";
  repolist := checkOutput runner "apt-cache policy";
  enableService service := succeeds ("systemctl enable --now " +:+ service);
  disableService service := succeeds ("systemctl disable --now " +:+ service);
  startService service := succeeds ("systemctl start " +:+ service);
  stopService service := succeeds ("systemctl stop " +:+ service);
  restartService service := succeeds ("systemctl restart " +:+ service) |}.
End services.

(** [IOSService::factory] *)
Definition factory (runner : IRunner) (osinfo : OS) : outcome IOSService :=
  d ← getDistro osinfo;
  match d with
  | Distro.RHEL | Distro.Rocky | Distro.AlmaLinux | Distro.OL => Ok (ELOSService runner osinfo)
  | Distro.Ubuntu => Ok (UbuntuOSService runner)
  end.

(** [RockyLinux::shouldUseVault], with its cache *)
Definition vault_url (version : string) : string :=
  "https://dl.rockylinux.org/vault/rocky/" +:+ version +:+ "/BaseOS/x86_64/os/repodata/repomd.xml".

Definition shouldUseVault (opts : Options) (runner : IRunner) (osinfo : OS) : M World bool :=
  cached ← ask w_vault;
  match cached with
  | Some should => mret should
  | None =>
      lastVersion ← lift (getVersion osinfo);
      output ← getHttpStatus opts runner (vault_url lastVersion) 1;
      let should := String.eqb output "200" in
      _ ← modify (fun w => put_vault (Some should) w);
      mret should
  end.
