(* ===== verification/StdMap.v ===== *)
(** * [std::map] with text keys

    A map is a [gmap]; what the order of a [std::map] adds is that iterating
    goes through the keys in ascending order. *)

From stdpp Require Import base strings list gmap sorting.
From Stdlib Require Import OrdersEx Sorted.
From S2P Require Import Prelude CppString World.

Definition entry_le {A} (a b : string * A) : Prop := name_le a.1 b.1.
#[export] Instance entry_le_dec {A} (a b : string * A) : Decision (entry_le a b).
Proof. unfold entry_le. apply _. Defined.

(** The entries in the order a [for] loop meets them. *)
Definition in_order {A} (m : gmap string A) : list (string * A) := merge_sort entry_le (map_to_list m).

(** [m.emplace(k, v)]: an entry that is there stays. *)
Definition emplace {A} (k : string) (v : A) (m : gmap string A) : gmap string A :=
  match m !! k with Some _ => m | None => <[k := v]> m end.

(** [m.at(k)] *)
Definition at_key {A} (m : gmap string A) (k : string) : outcome A :=
  match m !! k with Some v => Ok v | None => Throw (OutOfRange "map::at") end.

(** ** The order *)

#[export] Instance name_le_total : Total name_le.
Proof.
  intros a b. unfold name_le. destruct (String.compare a b) eqn:Hc; [by left|by left|].
  right. rewrite String.compare_antisym, Hc. done.
Qed.

#[export] Instance name_le_trans : Transitive name_le.
Proof.
  intros a b c. unfold name_le. intros Hab Hbc Hac.
  assert (String.compare c a = Lt) as Hca by (by rewrite String.compare_antisym, Hac).
  destruct (String.compare a b) eqn:H1; [|clear Hab|done].
  - apply String.compare_eq_iff in H1 as ->. congruence.
  - assert (String.compare c b = Lt) as Hcb
      by (exact (StrictOrder_Transitive (R := String_as_OT.lt) _ _ _ Hca H1)).
    rewrite String.compare_antisym, Hcb in Hbc. done.
Qed.

Lemma name_le_antisym a b : name_le a b -> name_le b a -> a = b.
Proof.
  unfold name_le. rewrite (String.compare_antisym b a). destruct (String.compare a b) eqn:Hc; cbn; [|done..].
  intros _ _. by apply String.compare_eq_iff.
Qed.

#[export] Instance entry_le_total {A} : Total (@entry_le A).
Proof. intros a b. apply (name_le_total a.1 b.1). Qed.
#[export] Instance entry_le_trans {A} : Transitive (@entry_le A).
Proof. intros a b c. apply (name_le_trans a.1 b.1 c.1). Qed.

Section in_order.
Context {A : Type}.
Implicit Types m : gmap string A.

Lemma in_order_permutation m : in_order m ≡ₚ map_to_list m.
Proof. apply merge_sort_Permutation. Qed.

Lemma in_order_sorted m : StronglySorted entry_le (in_order m).
Proof. apply (StronglySorted_merge_sort _). Qed.

Lemma in_order_elem m k v : (k, v) ∈ in_order m <-> m !! k = Some v.
Proof. rewrite in_order_permutation. apply elem_of_map_to_list. Qed.

Lemma in_order_NoDup m : NoDup (in_order m).*1.
Proof. rewrite in_order_permutation. apply NoDup_fst_map_to_list. Qed.

Lemma in_order_keys m k : k ∈ (in_order m).*1 <-> is_Some (m !! k).
Proof.
  rewrite list_elem_of_fmap. split.
  - intros ([k' v] & -> & Hv%in_order_elem). by eexists.
  - intros [v Hv]. exists (k, v). split; [done|]. by apply in_order_elem.
Qed.

Lemma in_order_empty : in_order (∅ : gmap string A) = [].
Proof. done. Qed.

Lemma emplace_lookup k v m k' :
  emplace k v m !! k' = match m !! k' with Some x => Some x | None => if decide (k = k') then Some v else None end.
Proof.
  unfold emplace. destruct (m !! k) as [x|] eqn:Hk.
  - destruct (m !! k') eqn:Hk'; [done|]. rewrite decide_False; [done|]. intros ->. congruence.
  - destruct (decide (k = k')) as [->|Hn].
    + by rewrite lookup_insert_eq, Hk.
    + rewrite lookup_insert_ne by done. by destruct (m !! k').
Qed.

(** Filling a map from a list: the first entry of each key. *)
Definition fill (l : list (string * A)) m : gmap string A := foldl (fun m kv => emplace kv.1 kv.2 m) m l.

Lemma fill_lookup l m k :
  fill l m !! k =
  match m !! k with Some x => Some x | None => snd <$> find (fun kv => String.eqb kv.1 k) l end.
Proof.
  revert m. induction l as [|[k' v] l IH]; intros m; cbn [fill foldl find fst snd].
  - by destruct (m !! k).
  - change (foldl ?f ?a l) with (fill l a). rewrite IH, emplace_lookup. cbn [fst snd].
    destruct (m !! k); [done|]. destruct (String.eqb_spec k' k) as [->|Hn].
    + by rewrite decide_True.
    + by rewrite decide_False.
Qed.
End in_order.
