(* ===== verification/RepoData.v ===== *)
(** * Repositories and their files

    From [src/services/repos.cpp]: an RPM repository, the parser and writer of
    [.repo] files, and the settings a repository is made from. *)

From stdpp Require Import base strings list gmap.
From Stdlib Require Import ZArith Lia Ascii.
From S2P Require Import Prelude CppString External Enums KeyFile Options World StdMap.

(** ** An RPM repository *)

Record RPMRepository := mkRPMRepository {
  r_id : string;
  r_enabled : bool;
  r_name : string;
  r_baseurl : option string;
  r_metalink : option string;
  r_gpgkey : option string;
  r_gpgcheck : bool;
  r_source : string;
  r_group : string;
}.

Definition RPMRepository_default : RPMRepository := mkRPMRepository "" true "" None None None true "" "".

Definition put_id x (r : RPMRepository) := mkRPMRepository x (r_enabled r) (r_name r) (r_baseurl r)
  (r_metalink r) (r_gpgkey r) (r_gpgcheck r) (r_source r) (r_group r).
Definition put_enabled x (r : RPMRepository) := mkRPMRepository (r_id r) x (r_name r) (r_baseurl r)
  (r_metalink r) (r_gpgkey r) (r_gpgcheck r) (r_source r) (r_group r).
Definition put_name x (r : RPMRepository) := mkRPMRepository (r_id r) (r_enabled r) x (r_baseurl r)
  (r_metalink r) (r_gpgkey r) (r_gpgcheck r) (r_source r) (r_group r).
Definition put_baseurl x (r : RPMRepository) := mkRPMRepository (r_id r) (r_enabled r) (r_name r) x
  (r_metalink r) (r_gpgkey r) (r_gpgcheck r) (r_source r) (r_group r).
Definition put_metalink x (r : RPMRepository) := mkRPMRepository (r_id r) (r_enabled r) (r_name r) (r_baseurl r)
  x (r_gpgkey r) (r_gpgcheck r) (r_source r) (r_group r).
Definition put_gpgkey x (r : RPMRepository) := mkRPMRepository (r_id r) (r_enabled r) (r_name r) (r_baseurl r)
  (r_metalink r) x (r_gpgcheck r) (r_source r) (r_group r).
Definition put_gpgcheck x (r : RPMRepository) := mkRPMRepository (r_id r) (r_enabled r) (r_name r) (r_baseurl r)
  (r_metalink r) (r_gpgkey r) x (r_source r) (r_group r).
Definition put_source x (r : RPMRepository) := mkRPMRepository (r_id r) (r_enabled r) (r_name r) (r_baseurl r)
  (r_metalink r) (r_gpgkey r) (r_gpgcheck r) x (r_group r).
Definition put_group x (r : RPMRepository) := mkRPMRepository (r_id r) (r_enabled r) (r_name r) (r_baseurl r)
  (r_metalink r) (r_gpgkey r) (r_gpgcheck r) (r_source r) x.

(** [uri() override], and [operator==], which compares ids only *)
Definition uri (r : RPMRepository) : option string := r_baseurl r.
Definition same_repository (a b : RPMRepository) : bool := String.eqb (r_id b) (r_id a).

(** ** Files of repositories *)

(** A file and its repositories by id.  The repositories are held by shared
    pointers that no one else keeps. *)
Record RPMRepositoryFile := mkRepositoryFile { rf_path : string; rf_repos : gmap string RPMRepository }.

Definition put_repos x (f : RPMRepositoryFile) : RPMRepositoryFile := mkRepositoryFile (rf_path f) x.

(** [m_repos.at(name)] *)
Definition file_repo (f : RPMRepositoryFile) (name : string) : outcome RPMRepository := at_key (rf_repos f) name.

Section parser.
Context `{GKeyFile} `{BoostText}.

(** [KeyFile(path)] and [save()] on the machine: a directory exists but cannot
    be read, and a file needs a directory to be in. *)
Definition open_keyfile (path : string) : M World KeyFile := fun w =>
  if is_directory w path then (Throw GlibFileError, w) else (KeyFile_make (contents w) path true, w).

Definition save_keyfile (f : KeyFile) : M World unit :=
  saved ← stream_write (save f).1 (save f).2;
  if saved : bool then skip else throw GlibFileError.

Definition parseRepoBoolean (file : KeyFile) (group key : string) (defaultValue : bool) : outcome bool :=
  value ← getStringOpt file group key;
  match value with
  | None => Ok defaultValue
  | Some value =>
      let normalized := to_lower_copy (trim value) in
      if String.eqb normalized "1" || String.eqb normalized "true" || String.eqb normalized "yes" then Ok true
      else if String.eqb normalized "0" || String.eqb normalized "false" || String.eqb normalized "no" then Ok false
      else Throw (RuntimeError ("Keyfile Error, invalid boolean [" +:+ group +:+ "]." +:+ key +:+ "=" +:+ normalized))
  end.

(** The body of the loop of [RPMRepositoryParser::parse] *)
Definition parse_repository (file : KeyFile) (path repogroup : string) : outcome RPMRepository :=
  name ← getString file repogroup "name";
  if empty name then Throw (RuntimeError ("Could not load repo name from repo '" +:+ repogroup +:+ "'"))
  else
    metalink ← getStringOpt file repogroup "metalink";
    baseurl ← getStringOpt file repogroup "baseurl";
    gpgkey ← getStringOpt file repogroup "gpgkey";
    enabled ← parseRepoBoolean file repogroup "enabled" true;
    gpgcheck ← parseRepoBoolean file repogroup "gpgcheck" (bool_decide (is_Some gpgkey));
    Ok (put_id repogroup (put_source path (put_gpgkey gpgkey (put_gpgcheck gpgcheck (put_enabled enabled
      (put_baseurl baseurl (put_metalink metalink (put_name name (put_group repogroup RPMRepository_default))))))))).

(** [RPMRepositoryParser::parse], from the map it adds to *)
Definition parse_repo_file (path : string) (output : gmap string RPMRepository) : M World (gmap string RPMRepository) :=
  file ← open_keyfile path;
  repos ← lift (mapo (parse_repository file path) (getGroups file));
  mret (fill ((fun r => (r_id r, r)) <$> repos) output).

(** One repository of [RPMRepositoryParser::unparse] *)
Definition unparse_repository (repo : RPMRepository) : M KeyFile unit :=
  _ ← setString (r_group repo) "name" (r_name repo);
  _ ← setBoolean (r_group repo) "enabled" (r_enabled repo);
  _ ← setBoolean (r_group repo) "gpgcheck" (r_gpgcheck repo);
  _ ← setString_opt (r_group repo) "gpgkey" (r_gpgkey repo);
  _ ← setString_opt (r_group repo) "metalink" (r_metalink repo);
  setString_opt (r_group repo) "baseurl" (r_baseurl repo).

Definition unparse (repos : gmap string RPMRepository) (path : string) : M World unit :=
  file ← open_keyfile path;
  written ← lift (construct (for_each (in_order repos) (fun kv => unparse_repository kv.2)) file);
  save_keyfile written.

(** [RPMRepositoryFile(path)] and [save()] *)
Definition RPMRepositoryFile_load (path : string) : M World RPMRepositoryFile :=
  repos ← parse_repo_file path ∅;
  mret (mkRepositoryFile path repos).
Definition save_repositories (f : RPMRepositoryFile) : M World unit := unparse (rf_repos f) (rf_path f).
End parser.

(** ** The settings of a repository *)

Record RepoPaths := mkRepoPaths { rp_repo : string; rp_gpgkey : option string }.
Record RepoId := mkRepoId { ri_id : string; ri_name : string; ri_filename : string }.
Record RepoConfig := mkRepoConfig { repoId : RepoId; mirror : RepoPaths; upstream : RepoPaths }.

Record RepoConfigVars := mkRepoConfigVars {
  v_arch : string;
  v_beegfsVersion : string;
  v_ohpcVersion : string;
  v_osversion : string;
  v_releasever : string;
  v_xcatVersion : string;
  v_zabbixVersion : string;
  v_ofedVersion : string;
  v_ofedRepoTarget : string;
  v_cudaGPGKey : string;
  v_rhelBaseMirrorGPGKey : string;
  v_rhelCodeReadyMirrorRepo : string;
  v_rhelCodeReadyMirrorGPGKey : string;
}.

(** [RepoConfFile]: the settings by file name *)
Definition RepoConfFile : Type := gmap string (list RepoConfig).

Definition conf_insert (filename : string) (value : RepoConfig) (f : RepoConfFile) : RepoConfFile :=
  let f := match f !! filename with None => emplace filename [] f | Some _ => f end in
  <[filename := default [] (f !! filename) ++ [value]]> f.

Definition conf_at (f : RepoConfFile) (key : string) : outcome (list RepoConfig) := at_key f key.
Definition filesnames (f : RepoConfFile) : list string := (in_order f).*1.
Definition conf_find (f : RepoConfFile) (repoid : string) : option RepoConfig :=
  find (fun config => String.eqb (ri_id (repoId config)) repoid) ((in_order f).*2 ≫= id).

Record RepoConfFiles := mkRepoConfFiles { distroRepos : RepoConfFile; nonDistroRepos : RepoConfFile }.
