(* ===== verification/RepoFileSpec.v ===== *)
(** * Saving and loading repository files

    A [.repo] file is changed by rewriting the entries of its repositories in
    the key file on disk.  What is saved is what the next load gives. *)

From stdpp Require Import base strings list gmap sorting.
From Stdlib Require Import ZArith Lia Ascii Sorted.
From S2P Require Import Prelude CppString External Enums KeyFile Options World WorldFacts StdMap RepoData.

Section writes.
Context `{GL : GKeyFileLaws} `{BL : BoostTextLaws}.

(** ** Storable key files stay storable *)

Lemma storable_create : storable gkf_create.
Proof.
  unfold storable. rewrite gkf_create_groups. split_and!; [constructor|constructor|].
  intros g k Hk. enough (gkf_has_key gkf_create g k = None) by congruence.
  apply gkf_has_key_group. rewrite gkf_has_group_spec, gkf_create_groups. apply bool_decide_false.
  by intros ?%elem_of_nil.
Qed.

Definition storable_write (w : write) : Prop :=
  group_text w.1.1 = true /\ key_text w.1.2 = true /\ value_text w.2 = true.

Lemma storable_set kf g k v : storable kf -> storable_write (g, k, v) -> storable (gkf_set_string kf g k v).
Proof.
  intros (Hnd & Hgs & Hks) (Hg & Hk & Hv). unfold storable. rewrite gkf_set_groups, gkf_has_group_spec.
  split_and!.
  - case_bool_decide as Hin; [done|]. apply NoDup_app. split_and!; [done|set_solver|apply NoDup_singleton].
  - case_bool_decide; [done|]. apply Forall_app. by repeat constructor.
  - intros g' k'. rewrite gkf_set_has, gkf_set_get. case_decide as He; [|case_decide as Heg].
    + injection He as -> ->. eauto.
    + subst g'. destruct (gkf_has_key kf g k') as [[]|] eqn:Hh; [|done..]. eauto.
    + eauto.
Qed.

Lemma storable_write_all ws k :
  Forall storable_write ws -> storable (m_keyfile k) -> storable (m_keyfile (write_all ws k)).
Proof.
  intros Hw. revert k. induction Hw as [|[[g key] v] ws Hx _ IH]; intros k Hk; [done|].
  apply (IH (put_keyfile (gkf_set_string (m_keyfile k) g key v) k)). by apply storable_set.
Qed.

(** What a storable file answers. *)
Definition slot_at (kf : gkeyfile) (g key : string) : slot :=
  match gkf_has_key kf g key with
  | None => NoGroup
  | Some false => NoKey
  | Some true => Present (default "" (gkf_get_string kf g key))
  end.

Lemma has_group_key (k : KeyFile) g key b : gkf_has_key (m_keyfile k) g key = Some b -> hasGroup k g = true.
Proof.
  intros Hb. unfold hasGroup. apply not_false_iff_true. intros Hg. by rewrite (proj2 (gkf_has_key_group _ _ key) Hg) in Hb.
Qed.

Lemma holds_slot_at k g key : storable (m_keyfile k) -> holds k g key (slot_at (m_keyfile k) g key).
Proof.
  intros (_ & _ & Hs). unfold slot_at. destruct (gkf_has_key _ g key) as [[]|] eqn:Hk; cbn.
  - destruct (Hs _ _ Hk) as (_ & v & Hv & _). rewrite Hv. split; [|done]. by eapply has_group_key.
  - split; [|done]. by eapply has_group_key.
  - by apply (gkf_has_key_group _ _ key).
Qed.

(** The same file read again. *)
Lemma holds_reload (k k' : KeyFile) g key s :
  (gkf_has_key (m_keyfile k') g key = gkf_has_key (m_keyfile k) g key /\
   gkf_get_string (m_keyfile k') g key = gkf_get_string (m_keyfile k) g key) ->
  holds k g key s -> holds k' g key s.
Proof.
  intros [Hk Hv] Hs.
  assert (hasGroup k' g = hasGroup k g) as Hg.
  { unfold hasGroup. apply eq_bool_prop_intro. rewrite !Is_true_true, <- !not_false_iff_true.
    by rewrite <- !(gkf_has_key_group _ _ key), Hk. }
  destruct s; cbn in *; by rewrite Hg, ?Hk, ?Hv.
Qed.

(** ** The writes of the repositories *)

Definition flag (b : bool) : string := if b then "true" else "false".

Definition repository_writes (kv : string * RPMRepository) : list write :=
  let g := r_group kv.2 in
  [(g, "name", r_name kv.2)] ++ [(g, "enabled", flag (r_enabled kv.2))] ++ [(g, "gpgcheck", flag (r_gpgcheck kv.2))] ++
  opt_write g "gpgkey" (r_gpgkey kv.2) ++ opt_write g "metalink" (r_metalink kv.2) ++
  opt_write g "baseurl" (r_baseurl kv.2).

Lemma setString_opt_write g key v k : setString_opt g key v k = (Ok tt, write_all (opt_write g key v) k).
Proof. by destruct v. Qed.

Lemma setBoolean_write g key b k : setBoolean g key b k = (Ok tt, write_all [(g, key, flag b)] k).
Proof. unfold setBoolean, modify. by rewrite gkf_set_boolean_string. Qed.

Lemma unparse_repository_writes kv k : unparse_repository kv.2 k = (Ok tt, write_all (repository_writes kv) k).
Proof.
  unfold unparse_repository, repository_writes. rewrite !write_all_app.
  rewrite (M_bind_ok _ _ _ _ _ (setString_write _ _ _ _)), (M_bind_ok _ _ _ _ _ (setBoolean_write _ _ _ _)).
  rewrite (M_bind_ok _ _ _ _ _ (setBoolean_write _ _ _ _)), (M_bind_ok _ _ _ _ _ (setString_opt_write _ _ _ _)).
  rewrite (M_bind_ok _ _ _ _ _ (setString_opt_write _ _ _ _)). apply setString_opt_write.
Qed.

Lemma unparse_all_writes l k :
  for_each l (fun kv => unparse_repository kv.2) k = (Ok tt, write_all (l ≫= repository_writes) k).
Proof.
  revert k. induction l as [|kv l IH]; intros k; [done|]. cbn [for_each mbind list_bind].
  rewrite (M_bind_ok _ _ _ _ _ (unparse_repository_writes kv k)), write_all_app. apply IH.
Qed.
End writes.

(** ** Repositories that can be written *)

Definition value_opt (v : option string) : bool := match v with Some v => value_text v | None => true end.

(** An id is the group it is stored under, and every text can be stored. *)
Definition repository_ok (k : string) (r : RPMRepository) : Prop :=
  r_id r = k /\ r_group r = k /\ group_text k = true /\ empty (r_name r) = false /\ value_text (r_name r) = true /\
  value_opt (r_gpgkey r) = true /\ value_opt (r_metalink r) = true /\ value_opt (r_baseurl r) = true.

Lemma repository_writes_within k r : repository_ok k r -> within (fun g => g = k) (repository_writes (k, r)).
Proof.
  intros (_ & <- & _). unfold repository_writes. cbn [snd]. rewrite !within_app.
  split_and!; eauto with cpp.
Qed.

Lemma storable_opt g key v :
  group_text g = true -> key_text key = true -> value_opt v = true -> Forall storable_write (opt_write g key v).
Proof. intros Hg Hk Hv. destruct v; repeat constructor; done. Qed.

Lemma repository_writes_storable k r : repository_ok k r -> Forall storable_write (repository_writes (k, r)).
Proof.
  intros (_ & <- & Hg & _ & Hn & Hkey & Hm & Hb). unfold repository_writes. cbn [snd]. rewrite !Forall_app.
  assert (forall b, value_text (flag b) = true) as Hf by (by intros []).
  split_and!; first [by apply storable_opt|apply Forall_singleton; split_and!; done || apply Hf].
Qed.

Definition opt_written (v : option string) (s : slot) : slot :=
  match v with Some v => Present v | None => match s with NoGroup => NoKey | _ => s end end.

(** What a repository's writes leave in its group. *)
Lemma repository_slots k r key s :
  repository_ok k r ->
  slot_after (repository_writes (k, r)) k key s =
  match written (repository_writes (k, r)) k key with
  | Some v => Present v
  | None => match s with NoGroup => NoKey | _ => s end
  end.
Proof.
  intros (_ & <- & _). rewrite slot_after_spec. unfold repository_writes. cbn [snd].
  destruct (written _ _ _); [done|]. autorewrite with slots. done.
Qed.

Lemma repository_written k r :
  repository_ok k r ->
  written (repository_writes (k, r)) k "name" = Some (r_name r) /\
  written (repository_writes (k, r)) k "enabled" = Some (flag (r_enabled r)) /\
  written (repository_writes (k, r)) k "gpgcheck" = Some (flag (r_gpgcheck r)) /\
  written (repository_writes (k, r)) k "gpgkey" = r_gpgkey r /\
  written (repository_writes (k, r)) k "metalink" = r_metalink r /\
  written (repository_writes (k, r)) k "baseurl" = r_baseurl r.
Proof.
  intros (_ & <- & _). unfold repository_writes. cbn [snd].
  split_and!; autorewrite with slots; cbn; by autorewrite with slots.
Qed.

Lemma slot_after_within (ws : list write) g key s :
  touches ws g = false -> (forall k, written ws g k = None) -> slot_after ws g key s = s.
Proof. intros Ht Hw. by rewrite slot_after_spec, Hw, Ht. Qed.

Lemma slot_after_app ws1 ws2 g key s : slot_after (ws1 ++ ws2) g key s = slot_after ws2 g key (slot_after ws1 g key s).
Proof. apply foldl_app. Qed.

Lemma other_writes l g key s :
  Forall (fun kv => repository_ok kv.1 kv.2) l -> g ∉ l.*1 -> slot_after (l ≫= repository_writes) g key s = s.
Proof.
  intros Hok Hg. revert s. induction Hok as [|[k r] l' Hkr _ IH]; intros s; [done|].
  rewrite fmap_cons, not_elem_of_cons in Hg. destruct Hg as [Hne Hg].
  cbn [mbind list_bind]. rewrite slot_after_app.
  destruct (within_other _ _ g (repository_writes_within k r Hkr)) as [Ht Hw]; [done|].
  rewrite (slot_after_within _ _ _ _ Ht Hw). by apply IH.
Qed.
Lemma all_writes l g r key s :
  Forall (fun kv => repository_ok kv.1 kv.2) l -> NoDup l.*1 -> (g, r) ∈ l ->
  slot_after (l ≫= repository_writes) g key s = slot_after (repository_writes (g, r)) g key s.
Proof.
  intros Hok Hnd Hin. apply list_elem_of_split in Hin as (l1 & l2 & ->).
  rewrite fmap_app, fmap_cons, NoDup_app in Hnd. destruct Hnd as (_ & Hd & [Hd2 _]%NoDup_cons).
  apply Forall_app in Hok as [Hok1 [Hok Hok2]%Forall_cons].
  rewrite bind_app, slot_after_app, (other_writes l1) by (done || (intros H1; apply (Hd g H1); left)).
  cbn [mbind list_bind]. by rewrite slot_after_app, (other_writes l2).
Qed.

(** ** Reading them back *)

Section reload.
Context `{GL : GKeyFileLaws} `{BL : BoostTextLaws}.

(** No entry of the file outlives the field it came from. *)
Definition no_stale (kf : gkeyfile) (g : string) (r : RPMRepository) : Prop :=
  (r_gpgkey r = None -> gkf_has_key kf g "gpgkey" <> Some true) /\
  (r_metalink r = None -> gkf_has_key kf g "metalink" <> Some true) /\
  (r_baseurl r = None -> gkf_has_key kf g "baseurl" <> Some true).

Lemma trim_id s : trimmed s = true -> trim s = s.
Proof. intros Hs. pose proof (trim_spaces "" s "") as Ht. rewrite sapp_nil_r in Ht. by apply Ht. Qed.

Lemma parseRepoBoolean_flag k g key b d :
  holds k g key (Present (flag b)) -> parseRepoBoolean k g key d = Ok b.
Proof.
  intros Hk. unfold parseRepoBoolean. rewrite (getStringOpt_holds _ _ _ _ Hk). cbn.
  rewrite trim_id, to_lower_copy_lower by (by destruct b). by destruct b.
Qed.

Lemma getStringOpt_opt k g key v s :
  holds k g key (opt_written v s) -> (v = None -> forall x, s <> Present x) -> getStringOpt k g key = Ok v.
Proof.
  intros Hk Hs. rewrite (getStringOpt_holds _ _ _ _ Hk).
  destruct v as [v|]; [done|]. destruct s as [| |x]; [done..|]. by destruct (Hs eq_refl x).
Qed.

Lemma parse_repository_back (k : KeyFile) path g r (before : string -> slot) :
  repository_ok g r ->
  (forall key, holds k g key (slot_after (repository_writes (g, r)) g key (before key))) ->
  (r_gpgkey r = None -> forall x, before "gpgkey" <> Present x) ->
  (r_metalink r = None -> forall x, before "metalink" <> Present x) ->
  (r_baseurl r = None -> forall x, before "baseurl" <> Present x) ->
  parse_repository k path g = Ok (put_source path r).
Proof.
  intros Hok Hk Hkey Hmeta Hbase.
  assert (forall key, holds k g key (opt_written (written (repository_writes (g, r)) g key) (before key))) as Hw.
  { intros key. specialize (Hk key). by rewrite repository_slots in Hk. }
  destruct (repository_written g r Hok) as (Hn & He & Hc & Hg & Hm & Hb).
  pose proof (Hw "name") as Wn. pose proof (Hw "enabled") as We. pose proof (Hw "gpgcheck") as Wc.
  pose proof (Hw "gpgkey") as Wg. pose proof (Hw "metalink") as Wm. pose proof (Hw "baseurl") as Wb.
  rewrite Hn in Wn. rewrite He in We. rewrite Hc in Wc. rewrite Hg in Wg. rewrite Hm in Wm. rewrite Hb in Wb.
  unfold parse_repository. rewrite (getString_holds _ _ _ _ Wn). destruct Hok as (Hid & Hgr & _ & Hne & _). cbn.
  rewrite Hne, (getStringOpt_opt _ _ _ _ _ Wm), (getStringOpt_opt _ _ _ _ _ Wb), (getStringOpt_opt _ _ _ _ _ Wg) by done.
  cbn. rewrite (parseRepoBoolean_flag _ _ _ _ _ We), (parseRepoBoolean_flag _ _ _ _ _ Wc). cbn.
  by destruct r; cbn in *; subst.
Qed.
(** The key file a file of repositories is saved to: what is there now is
    theirs and can be kept. *)
Definition rewritable (w : World) (path : string) (repos : gmap string RPMRepository) : Prop :=
  can_write w path = true /\
  exists k, KeyFile_make (contents w) path true = Ok k /\ storable (m_keyfile k) /\
    (forall g, g ∈ getGroups k -> is_Some (repos !! g)) /\
    (forall g r, repos !! g = Some r -> no_stale (m_keyfile k) g r).

Definition repositories_ok (repos : gmap string RPMRepository) : Prop :=
  forall k r, repos !! k = Some r -> repository_ok k r.

Lemma in_order_ok repos :
  repositories_ok repos -> Forall (fun kv => repository_ok kv.1 kv.2) (in_order repos).
Proof. intros Hok. apply Forall_forall. intros [k r] Hkr%in_order_elem. by apply Hok. Qed.

Lemma storable_repositories repos :
  repositories_ok repos -> Forall storable_write (in_order repos ≫= repository_writes).
Proof.
  intros Hok. apply Forall_bind. eapply Forall_impl; [by apply in_order_ok|].
  intros [k r] Hkr. by apply repository_writes_storable in Hkr.
Qed.

Lemma group_order_elem ws gs g : g ∈ group_order ws gs <-> g ∈ gs \/ touches ws g = true.
Proof.
  revert gs. induction ws as [|w ws IH]; intros gs; [by split; [left|intros []]|].
  change (group_order (w :: ws) gs) with (group_order ws (add_group gs w)). rewrite IH.
  cbn [touches existsb]. fold (touches ws g). rewrite orb_true_iff. unfold in_group, add_group.
  rewrite String.eqb_eq. case_decide; rewrite ?elem_of_app, ?list_elem_of_singleton; naive_solver.
Qed.

Lemma repository_touches k r g :
  repository_ok k r -> touches (repository_writes (k, r)) g = String.eqb k g.
Proof.
  intros Hok. destruct (String.eqb_spec k g) as [<-|Hne].
  - destruct Hok as (_ & <- & _). unfold repository_writes. cbn [snd]. by autorewrite with slots.
  - by apply (within_other _ _ g (repository_writes_within k r Hok)).
Qed.

Lemma touches_repositories repos g :
  repositories_ok repos -> touches (in_order repos ≫= repository_writes) g = true <-> is_Some (repos !! g).
Proof.
  intros Hok. rewrite <- in_order_keys. pose proof (in_order_ok repos Hok) as Hl. revert Hl.
  generalize (in_order repos). intros l. induction 1 as [|[k r] l Hkr _ IH]; [by split; [|intros ?%elem_of_nil]|].
  cbn [mbind list_bind]. rewrite touches_app, orb_true_iff, IH, fmap_cons, elem_of_cons. cbn [fst].
  rewrite (repository_touches k r g Hkr), String.eqb_eq. naive_solver.
Qed.

Lemma KeyFile_make_path fs path b k : KeyFile_make fs path b = Ok k -> m_path k = path.
Proof.
  unfold KeyFile_make. destruct (_ && _); [|by intros [= <-]].
  intros (g & _ & [= <-])%bind_Ok. done.
Qed.

Lemma open_keyfile_make w path : is_directory w path = false -> open_keyfile path w = (KeyFile_make (contents w) path true, w).
Proof. intros Hd. unfold open_keyfile. by rewrite Hd. Qed.

Lemma can_write_file w path : can_write w path = true -> is_directory w path = false.
Proof. unfold can_write. by intros [_ ?%negb_true_iff]%andb_true_iff. Qed.

(** The file after the save, read again. *)
Definition saved_file (k : KeyFile) (repos : gmap string RPMRepository) : KeyFile :=
  write_all (in_order repos ≫= repository_writes) k.

Lemma unparse_saves w path repos k :
  can_write w path = true -> KeyFile_make (contents w) path true = Ok k ->
  unparse repos path w = (Ok tt, put_file path (toData (saved_file k repos)) w).
Proof.
  intros Hw Hk. unfold unparse.
  rewrite (M_bind_ok _ _ _ _ _ (eq_trans (open_keyfile_make w path (can_write_file _ _ Hw)) (f_equal (fun o => (o, w)) Hk))).
  assert (construct (for_each (in_order repos) (fun kv => unparse_repository kv.2)) k = Ok (saved_file k repos)) as Hc.
  { unfold construct. by rewrite unparse_all_writes. }
  rewrite (M_bind_ok _ _ _ _ _ (lift_ok _ _ w Hc)).
  unfold save_keyfile, stream_write, save, mbind, M_bind. cbn [fst snd].
  unfold saved_file. rewrite write_all_path, (KeyFile_make_path _ _ _ _ Hk), Hw. done.
Qed.

Lemma parse_saved w path repos k :
  can_write w path = true -> KeyFile_make (contents w) path true = Ok k -> storable (m_keyfile k) ->
  (forall g, g ∈ getGroups k -> is_Some (repos !! g)) ->
  (forall g r, repos !! g = Some r -> no_stale (m_keyfile k) g r) -> repositories_ok repos ->
  exists k', KeyFile_make (contents (put_file path (toData (saved_file k repos)) w)) path true = Ok k' /\
    NoDup (getGroups k') /\ (forall g, g ∈ getGroups k' <-> is_Some (repos !! g)) /\
    forall g r, repos !! g = Some r -> parse_repository k' path g = Ok (put_source path r).
Proof.
  intros Hw Hk Hs Hgs Hst Hok.
  assert (storable (m_keyfile (saved_file k repos))) as Hs1.
  { apply storable_write_all; [by apply storable_repositories|done]. }
  destruct (gkf_reload _ Hs1) as (kf & Hload & Hg & Hslots).
  exists (mkKeyFile path kf). split_and!.
  - unfold KeyFile_make, load_from_file. rewrite contents_put_file, decide_True by done. cbn.
    unfold toData. by rewrite Hload.
  - unfold getGroups. cbn. rewrite Hg. by destruct Hs1.
  - intros g. unfold getGroups. cbn. rewrite Hg. fold (getGroups (saved_file k repos)).
    unfold saved_file. rewrite getGroups_write_all, group_order_elem, touches_repositories by done. naive_solver.
  - intros g r Hr. destruct (Hst g r Hr) as (H1 & H2 & H3).
    assert (forall key, gkf_has_key (m_keyfile k) g key <> Some true ->
              forall x, slot_at (m_keyfile k) g key <> Present x) as Hno.
    { intros key Hn x. unfold slot_at. destruct (gkf_has_key (m_keyfile k) g key) as [[]|]; done. }
    apply (parse_repository_back _ path g r (slot_at (m_keyfile k) g)); [by apply Hok| |auto..].
    intros key. apply (holds_reload (saved_file k repos)); [apply Hslots|].
    rewrite <- (all_writes (in_order repos)); [|by apply in_order_ok|apply in_order_NoDup|by apply in_order_elem].
    by apply holds_write_all, holds_slot_at.
Qed.

Lemma mapo_all {X Y} (f : X -> outcome Y) (g : X -> Y) l :
  (forall x, x ∈ l -> f x = Ok (g x)) -> mapo f l = Ok (g <$> l).
Proof.
  intros Hf. apply mapo_Ok_Forall2, Forall2_fmap_r, Forall_Forall2_diag, Forall_forall. exact Hf.
Qed.

(** A map filled from its own entries under another name. *)
Lemma fill_keys {X Y} (m : gmap string X) (f : X -> Y) (h : string -> Y) ks :
  NoDup ks -> (forall k, k ∈ ks <-> is_Some (m !! k)) -> (forall k a, m !! k = Some a -> h k = f a) ->
  fill ((fun k => (k, h k)) <$> ks) ∅ = f <$> m.
Proof.
  intros Hnd Hks Hh. apply map_eq. intros k. rewrite fill_lookup, lookup_empty, lookup_fmap.
  destruct (m !! k) as [a|] eqn:Hk.
  - assert (k ∈ ks) as Hin by (apply Hks; by rewrite Hk). clear Hnd Hks.
    change (f <$> Some a) with (Some (f a)). rewrite <- (Hh _ _ Hk). clear Hh Hk.
    induction ks as [|k' ks IH]; [by apply elem_of_nil in Hin|]. cbn.
    destruct (String.eqb_spec k' k) as [->|Hne]; [done|]. apply IH.
    apply elem_of_cons in Hin as [->|]; done.
  - assert (k ∉ ks) as Hin by (rewrite Hks, Hk; by intros []). clear Hnd Hks Hh.
    induction ks as [|k' ks IH]; [done|]. cbn. rewrite not_elem_of_cons in Hin.
    destruct (String.eqb_spec k' k) as [->|Hne]; naive_solver.
Qed.

Lemma save_load w path repos :
  repositories_ok repos -> rewritable w path repos ->
  exists data, unparse repos path w = (Ok tt, put_file path data w) /\
    parse_repo_file path ∅ (put_file path data w) = (Ok (put_source path <$> repos), put_file path data w).
Proof.
  intros Hok (Hw & k & Hk & Hs & Hgs & Hst).
  destruct (parse_saved w path repos k) as (k' & Hk' & Hnd & Hg & Hparse); [done..|].
  eexists. split; [by apply unparse_saves|]. set (w1 := put_file path _ w) in *.
  assert (is_directory w1 path = false) as Hd by (apply (can_write_file w path Hw)).
  unfold parse_repo_file.
  rewrite (M_bind_ok _ _ _ _ _ (eq_trans (open_keyfile_make w1 path Hd) (f_equal (fun o => (o, w1)) Hk'))).
  set (h g := default RPMRepository_default (put_source path <$> repos !! g)).
  assert (forall g, g ∈ getGroups k' -> parse_repository k' path g = Ok (h g)) as Hall.
  { intros g [r Hr]%Hg. rewrite (Hparse g r Hr). unfold h. by rewrite Hr. }
  rewrite (M_bind_ok _ _ _ _ _ (lift_ok _ _ w1 (mapo_all _ _ _ Hall))). unfold mret, M_ret. do 2 f_equal.
  rewrite <- list_fmap_compose.
  assert ((fun r => (r_id r, r)) ∘ h <$> getGroups k' = (fun g => (g, h g)) <$> getGroups k') as ->.
  { apply list_fmap_ext. intros i g Hi. cbn. f_equal.
    apply list_elem_of_lookup_2 in Hi as [r Hr]%Hg. unfold h. rewrite Hr. cbn. by destruct (Hok g r Hr). }
  apply fill_keys; [done..|]. intros g r Hr. unfold h. by rewrite Hr.
Qed.

(** ** What a load says about the file *)

Lemma getString_text (k : KeyFile) g key v :
  storable (m_keyfile k) -> getString k g key = Ok v -> value_text v = true.
Proof.
  intros (_ & _ & Hs). unfold getString. destruct (gkf_get_string _ g key) as [v'|] eqn:Hv; [|done].
  intros [= <-]. destruct (Hs g key) as (_ & x & Hx & Ht); [by eapply gkf_get_has|congruence].
Qed.

Lemma getStringOpt_text (k : KeyFile) g key v :
  storable (m_keyfile k) -> getStringOpt k g key = Ok v ->
  value_opt v = true /\ (v = None -> gkf_has_key (m_keyfile k) g key <> Some true).
Proof.
  intros (_ & _ & Hs). unfold getStringOpt. destruct (gkf_has_key _ g key) as [[]|] eqn:Hk; cbn; [|by intros [= <-]|done].
  destruct (Hs g key Hk) as (_ & x & -> & Ht). by intros [= <-].
Qed.

Lemma parse_repository_facts (k : KeyFile) path g r :
  storable (m_keyfile k) -> g ∈ getGroups k -> parse_repository k path g = Ok r ->
  repository_ok g r /\ no_stale (m_keyfile k) g r /\ r_source r = path.
Proof.
  intros Hs Hg. unfold parse_repository.
  intros (name & Hname & Hr)%bind_Ok. destruct (empty name) eqn:Hne; [done|].
  apply bind_Ok in Hr as (metalink & Hm & Hr). apply bind_Ok in Hr as (baseurl & Hb & Hr).
  apply bind_Ok in Hr as (gpgkey & Hk & Hr). apply bind_Ok in Hr as (enabled & He & Hr).
  apply bind_Ok in Hr as (gpgcheck & Hc & [= <-]).
  apply getString_text in Hname; [|done]. apply getStringOpt_text in Hm as [Hm1 Hm2]; [|done].
  apply getStringOpt_text in Hb as [Hb1 Hb2]; [|done]. apply getStringOpt_text in Hk as [Hk1 Hk2]; [|done].
  split_and!; [|by split_and!|done].
  unfold repository_ok. cbn. split_and!; try done. destruct Hs as (_ & Hgs & _).
  exact (proj1 (Forall_forall _ _) Hgs g Hg).
Qed.

(** The repositories of a file are those of its groups. *)
Lemma parse_repo_file_groups w path repos k :
  is_directory w path = false -> KeyFile_make (contents w) path true = Ok k -> storable (m_keyfile k) ->
  parse_repo_file path ∅ w = (Ok repos, w) ->
  (forall g, g ∈ getGroups k -> is_Some (repos !! g)) /\
  (forall g r, repos !! g = Some r -> g ∈ getGroups k /\ parse_repository k path g = Ok r).
Proof.
  intros Hd Hk Hs. unfold parse_repo_file.
  rewrite (M_bind_ok _ _ _ _ _ (eq_trans (open_keyfile_make w path Hd) (f_equal (fun o => (o, w)) Hk))).
  intros Hr. apply M_bind_inv_ok in Hr as (l & w1 & Hl & Hr). injection Hl as Hl <-. injection Hr as <-.
  apply mapo_Ok_Forall2 in Hl.
  assert (forall g, g ∈ getGroups k -> exists r, r ∈ l /\
    parse_repository k path g = Ok r /\ r_id r = g) as Hto.
  { intros g (i & Hi)%list_elem_of_lookup. destruct (Forall2_lookup_l _ _ _ _ _ Hl Hi) as (r & Hr & Hp).
    exists r. split_and!; [by eapply list_elem_of_lookup_2|done|].
    by destruct (parse_repository_facts k path g r Hs (list_elem_of_lookup_2 _ _ _ Hi) Hp) as ((Hid & _) & _). }
  assert (forall r, r ∈ l -> r_id r ∈ getGroups k /\ parse_repository k path (r_id r) = Ok r) as Hfrom.
  { intros r (i & Hi)%list_elem_of_lookup. destruct (Forall2_lookup_r _ _ _ _ _ Hl Hi) as (g & Hg & Hp).
    apply list_elem_of_lookup_2 in Hg.
    destruct (parse_repository_facts k path g r Hs Hg Hp) as ((-> & _) & _). done. }
  split.
  - intros g (r & Hr & _ & <-)%Hto. rewrite fill_lookup, lookup_empty. apply fmap_is_Some.
    destruct (find _ _) as [kv|] eqn:Hf; [by eexists|].
    pose proof (find_none _ _ Hf (r_id r, r)) as Hn. cbn in Hn. rewrite String.eqb_refl in Hn.
    discriminate Hn. apply list_elem_of_In, list_elem_of_fmap. eauto.
  - intros g r. rewrite fill_lookup, lookup_empty. destruct (find _ _) as [kv|] eqn:Hf; [|done].
    apply find_some in Hf as [Hin Hg]. apply list_elem_of_In, list_elem_of_fmap in Hin as (r' & -> & Hr').
    apply String.eqb_eq in Hg as <-. cbn. intros [= <-]. by apply Hfrom.
Qed.

Lemma load_rewritable w path repos k :
  can_write w path = true -> KeyFile_make (contents w) path true = Ok k -> storable (m_keyfile k) ->
  parse_repo_file path ∅ w = (Ok repos, w) ->
  repositories_ok repos /\ rewritable w path repos /\ (forall g r, repos !! g = Some r -> r_source r = path).
Proof.
  intros Hw Hk Hs Hp. destruct (parse_repo_file_groups w path repos k) as [Hg Hr]; [by apply can_write_file|done..|].
  assert (forall g r, repos !! g = Some r -> repository_ok g r /\ no_stale (m_keyfile k) g r /\ r_source r = path) as Hf.
  { intros g r [Hg' Hr']%Hr. by apply parse_repository_facts. }
  split_and!; [intros g r Hgr; by apply Hf| |intros g r Hgr; by apply Hf in Hgr as (_ & _ & ?)].
  split; [done|]. exists k. split_and!; [done..|]. intros g r Hgr. by apply Hf.
Qed.

(** Switching a repository changes nothing that matters to saving. *)
Lemma alter_enabled_cases (repos : gmap string RPMRepository) id value g r :
  alter (put_enabled value) id repos !! g = Some r ->
  exists r0, repos !! g = Some r0 /\ (r = r0 \/ r = put_enabled value r0).
Proof.
  destruct (decide (g = id)) as [->|Hne].
  - rewrite lookup_alter_eq. destruct (repos !! id) as [r0|]; [|done]. intros [= <-]. eauto.
  - rewrite lookup_alter_ne by done. eauto.
Qed.

Lemma switched_repositories_ok repos id value :
  repositories_ok repos -> repositories_ok (alter (put_enabled value) id repos).
Proof. intros Hok g r (r0 & Hr & [-> | ->])%alter_enabled_cases; by apply Hok in Hr. Qed.

Lemma switched_rewritable w path repos id value :
  rewritable w path repos -> rewritable w path (alter (put_enabled value) id repos).
Proof.
  intros (Hw & k & Hk & Hs & Hg & Hst). split; [done|]. exists k. split_and!; [done..| |].
  - intros g [r Hr]%Hg. destruct (decide (g = id)) as [->|Hne].
    + rewrite lookup_alter_eq, Hr. by eexists.
    + rewrite lookup_alter_ne by done. by eexists.
  - intros g r (r0 & Hr & [-> | ->])%alter_enabled_cases; by apply Hst in Hr.
Qed.
End reload.

(** C26. Saving a file of repositories whose texts can be stored and loading it
    again gives the same repositories, each with the file as its source,
    whether the file is new or what it holds so far is theirs; nothing but the
    file changes. *)
Theorem repository_file_roundtrip `{GKeyFileLaws} `{BoostTextLaws} (w : World) (f : RPMRepositoryFile)
    (Hok : repositories_ok (rf_repos f)) (Hw : rewritable w (rf_path f) (rf_repos f)) :
  exists data,
    save_repositories f w = (Ok tt, put_file (rf_path f) data w) /\
    RPMRepositoryFile_load (rf_path f) (put_file (rf_path f) data w) =
      (Ok (mkRepositoryFile (rf_path f) (put_source (rf_path f) <$> rf_repos f)), put_file (rf_path f) data w).
Proof.
  destruct (save_load w (rf_path f) (rf_repos f) Hok Hw) as (data & Hs & Hl).
  exists data. split; [exact Hs|]. unfold RPMRepositoryFile_load. by rewrite (M_bind_ok _ _ _ _ _ Hl).
Qed.
