(* ===== verification/RepoChoice.v ===== *)
(** * Mirror or upstream

    From [src/services/repos.cpp]: the locations of a repository, the choice
    between them, and the repository file made from the choice.  Whether a
    location exists is asked through a checker. *)

From stdpp Require Import base strings list gmap.
From Stdlib Require Import ZArith Lia Ascii.
From S2P Require Import Prelude CppString External Enums KeyFile Options World Runner StdMap RepoData.

(** The template parameter [MirrorExistenceChecker] and its three instances. *)
Record Checker := mkChecker { pathExists : string -> M World bool; urlExists : string -> M World bool }.

Definition DefaultMirrorExistenceChecker (opts : Options) (runner : IRunner) : Checker := {|
  pathExists path := ask (fun w => fs_exists w path);
  urlExists url := status ← getHttpStatus opts runner url 3; mret (String.eqb status "200") |}.
Definition FalseMirrorExistenceChecker : Checker := {|
  pathExists _ := mret false; urlExists _ := mret false |}.
Definition TrueMirrorExistenceChecker : Checker := {|
  pathExists _ := mret true; urlExists _ := mret true |}.

Section mirror.
Context (opts : Options) (checker : Checker) (paths : RepoPaths).

(** [MirrorRepo] *)
Definition mirror_baseurl : string := rstrip (mirrorBaseUrl opts +:+ "/" +:+ rp_repo paths) "/".
Definition mirror_gpgkey : option string :=
  match rp_gpgkey paths with
  | None => None
  | Some key => Some (mirrorBaseUrl opts +:+ "/" +:+ key)
  end.
Definition isLocalUrl (url : string) : bool := starts_with "file://" url.
Definition localPath (url : string) : string := sdrop 7 url.
Definition mirror_exists : M World bool :=
  if empty (rp_repo paths) then mret false
  else if isLocalUrl (mirrorBaseUrl opts) then pathExists checker (localPath mirror_baseurl)
  else urlExists checker (mirror_baseurl +:+ "/repodata/repomd.xml").

(** [UpstreamRepo] *)
Definition upstream_baseurl : string := rstrip (rp_repo paths) "/".
Definition gpgurl : option string :=
  match rp_gpgkey paths with None => None | Some _ => rp_gpgkey paths end.
Definition upstream_exists : M World bool := urlExists checker (upstream_baseurl +:+ "/repodata/repomd.xml").
Definition upstream_gpgkey : M World (option string) :=
  match rp_gpgkey paths with
  | None => mret None
  | Some _ =>
      match gpgurl with
      | None => mret None
      | Some url =>
          there ← urlExists checker url;
          mret (if there : bool then gpgurl else None)
      end
  end.
End mirror.

Inductive Choice := UPSTREAM | MIRROR.
#[export] Instance Choice_eq_dec : EqDecision Choice.
Proof. solve_decision. Defined.

Section choose.
Context (opts : Options) (mchecker uchecker : Checker).

(** [RepoChooser::choose] *)
Definition choose (mirror upstream : RepoPaths) (forceUpstream : bool) : M World Choice :=
  if forceUpstream then mret UPSTREAM
  else if negb (enableMirrors opts) then mret UPSTREAM
  else
    there ← mirror_exists opts mchecker mirror;
    if negb there then
      _ ← upstream_exists uchecker upstream;
      mret UPSTREAM
    else mret MIRROR.

(** [RepoAssembler::assemble] *)
Definition assemble (repoid : RepoId) (mirror upstream : RepoPaths) (enabled forceUpstream : bool)
  : M World RPMRepository :=
  let repo := put_enabled enabled (put_source (ri_filename repoid) (put_name (ri_name repoid)
    (put_id (ri_id repoid) (put_group (ri_id repoid) RPMRepository_default)))) in
  choice ← choose mirror upstream forceUpstream;
  match choice with
  | UPSTREAM =>
      key ← upstream_gpgkey uchecker upstream;
      again ← upstream_gpgkey uchecker upstream;
      mret (put_gpgcheck (bool_decide (is_Some (again : option string)))
        (put_gpgkey key (put_baseurl (Some (upstream_baseurl upstream)) repo)))
  | MIRROR =>
      mret (put_gpgcheck (bool_decide (is_Some (mirror_gpgkey opts mirror)))
        (put_gpgkey (mirror_gpgkey opts mirror) (put_baseurl (Some (mirror_baseurl opts mirror)) repo)))
  end.

(** [RepoConfAdapter] *)
Definition fromConfig (config : RepoConfig) : M World RPMRepository :=
  assemble (repoId config) (mirror config) (upstream config) false false.

Fixpoint fromConfigs_loop (configs : list RepoConfig) (repos : gmap string RPMRepository)
  : M World (gmap string RPMRepository) :=
  match configs with
  | [] => mret repos
  | config :: configs =>
      repo ← fromConfig config;
      fromConfigs_loop configs (emplace (ri_id (repoId config)) repo repos)
  end.

Definition fromConfigs (filename : string) (configs : list RepoConfig) (basedir : string)
  : M World RPMRepositoryFile :=
  repos ← fromConfigs_loop configs ∅;
  mret (mkRepositoryFile (path_append basedir filename) repos).

Fixpoint fromConfFile_loop (files : list (string * list RepoConfig)) (repoList : list string) (basedir : string)
  : M World (list RPMRepositoryFile) :=
  match files with
  | [] => mret []
  | (filename, configs) :: files =>
      if bool_decide (filename ∈ repoList) then
        repofile ← fromConfigs filename configs basedir;
        rest ← fromConfFile_loop files repoList basedir;
        mret (repofile :: rest)
      else fromConfFile_loop files repoList basedir
  end.

Definition fromConfFile (conffile : RepoConfFile) (repoList : list string) (basedir : string)
  : M World (list RPMRepositoryFile) :=
  fromConfFile_loop (in_order conffile) repoList basedir.

(** [RepoGenerator::generate] on loaded settings *)
Definition generate_files `{GKeyFile} (conffiles : RepoConfFiles) (path : string) : M World Z :=
  let reposToGenerate := filesnames (distroRepos conffiles) ++ filesnames (nonDistroRepos conffiles) in
  repofiles ← fromConfFile (distroRepos conffiles) reposToGenerate path;
  nonDistroRepositories ← fromConfFile (nonDistroRepos conffiles) reposToGenerate path;
  let repofiles := repofiles ++ nonDistroRepositories in
  _ ← for_each repofiles save_repositories;
  mret (Z.of_nat (length repofiles)).
End choose.
