(* ===== verification/RepoChoiceSpec.v ===== *)
(** * What repository is made of two locations

    For any checkers, those that ask over the network included, the choice of
    a location and the repositories of a settings file as far as the answers
    of the checkers account for them. *)

From stdpp Require Import base strings list gmap sorting.
From Stdlib Require Import ZArith Lia Ascii Sorted.
From S2P Require Import Prelude CppString External Enums KeyFile Options World Runner StdMap RepoData RepoChoice.

(** The answer to a question, on some machine *)
Definition says (question : M World bool) (answer : bool) : Prop := exists w w', question w = (Ok answer, w').

(** The answers to a question put twice in a row *)
Definition says_twice (question : M World bool) (first second : bool) : Prop :=
  exists w w1 w2, question w = (Ok first, w1) /\ question w1 = (Ok second, w2).

(** A question that never throws, and one that is always answered alike *)
Definition answered (question : M World bool) : Prop := forall w, is_ok (question w).1 = true.
Definition steady_answer (question : M World bool) : Prop :=
  forall a b, says question a -> says question b -> a = b.

Lemma says_twice_steady q first second : steady_answer q -> says_twice q first second -> first = second.
Proof. intros Hq (w & w1 & w2 & H1 & H2). apply Hq; [by exists w, w1|by exists w1, w2]. Qed.

Lemma answered_ok q w : answered q -> exists b w', q w = (Ok b, w').
Proof. intros Hq. specialize (Hq w). destruct (q w) as [[b|e|] w']; [by exists b, w'|done..]. Qed.

Section spec.
Context (opts : Options) (mchecker uchecker : Checker).

(** The place of a repository that is taken from upstream: the key is there
    if the first asking said so, and is checked against if the second did. *)
Record at_upstream (u : RepoPaths) (r : RPMRepository) : Prop := {
  upstream_place : r_baseurl r = Some (upstream_baseurl u);
  upstream_key :
    match rp_gpgkey u with
    | None => r_gpgkey r = None /\ r_gpgcheck r = false
    | Some key => exists first second,
        says_twice (urlExists uchecker key) first second /\
        r_gpgkey r = (if first then Some key else None) /\ r_gpgcheck r = second
    end;
}.

Record at_mirror (m : RepoPaths) (r : RPMRepository) : Prop := {
  mirror_place : r_baseurl r = Some (mirror_baseurl opts m);
  mirror_key : r_gpgkey r = mirror_gpgkey opts m;
  mirror_checked : r_gpgcheck r = bool_decide (is_Some (mirror_gpgkey opts m));
}.

(** What a repository made of the settings is *)
Record made_of (c : RepoConfig) (r : RPMRepository) : Prop := {
  made_id : r_id r = ri_id (repoId c);
  made_name : r_name r = ri_name (repoId c);
  made_group : r_group r = ri_id (repoId c);
  made_source : r_source r = ri_filename (repoId c);
  made_enabled : r_enabled r = false;
  made_metalink : r_metalink r = None;
  made_place :
    enableMirrors opts = true /\ says (mirror_exists opts mchecker (mirror c)) true /\ at_mirror (mirror c) r \/
    (enableMirrors opts = false \/ says (mirror_exists opts mchecker (mirror c)) false) /\ at_upstream (upstream c) r;
}.

Lemma choose_says m u w choice w' :
  choose opts mchecker uchecker m u false w = (Ok choice, w') ->
  match choice with
  | MIRROR => enableMirrors opts = true /\ says (mirror_exists opts mchecker m) true
  | UPSTREAM => enableMirrors opts = false \/ says (mirror_exists opts mchecker m) false
  end.
Proof.
  unfold choose. destruct (enableMirrors opts); cbn [negb]; [|intros [= <- <-]; by left].
  intros (there & w1 & Hm & Hr)%M_bind_inv_ok. destruct there; cbn [negb] in Hr.
  - injection Hr as <- <-. split; [done|by exists w, w1].
  - apply M_bind_inv_ok in Hr as (? & w2 & _ & [= <- <-]). right. by exists w, w1.
Qed.

(** Asking for the key of a repository upstream *)
Lemma upstream_gpgkey_cases u w key w' :
  upstream_gpgkey uchecker u w = (Ok key, w') ->
  match rp_gpgkey u with
  | None => key = None
  | Some url => exists there : bool, urlExists uchecker url w = (Ok there, w') /\ key = if there then Some url else None
  end.
Proof.
  unfold upstream_gpgkey, gpgurl. destruct (rp_gpgkey u) as [url|] eqn:Hu; [|by intros [= <- _]].
  intros (there & w1 & Ht & [= <- <-])%M_bind_inv_ok. exists there. by destruct there.
Qed.

Lemma fromConfig_made c w r w' : fromConfig opts mchecker uchecker c w = (Ok r, w') -> made_of c r.
Proof.
  unfold fromConfig, assemble. intros (choice & w1 & Hc%choose_says & Hr)%M_bind_inv_ok. destruct choice.
  - apply M_bind_inv_ok in Hr as (key & w2 & H1 & Hr). apply M_bind_inv_ok in Hr as (again & w3 & H2 & [= <- _]).
    apply upstream_gpgkey_cases in H1, H2. split; [done..|]. right. split; [done|]. split; [done|].
    destruct (rp_gpgkey (upstream c)) as [url|]; [|by subst].
    destruct H1 as (first & H1 & ->), H2 as (second & H2 & ->). exists first, second.
    split; [by exists w1, w2, w3|]. by destruct second.
  - injection Hr as <- _. split; [done..|]. left. by split_and!; [apply Hc..|].
Qed.

(** The repository of an id is made of the first settings for it. *)
Definition first_config (configs : list RepoConfig) (id : string) : option RepoConfig :=
  find (fun c => String.eqb (ri_id (repoId c)) id) configs.

Definition made_from (configs : list RepoConfig) (repos : gmap string RPMRepository) : Prop :=
  forall id, match first_config configs id with
             | None => repos !! id = None
             | Some c => exists r, repos !! id = Some r /\ made_of c r
             end.

Lemma fromConfigs_loop_made configs repos w out w' :
  fromConfigs_loop opts mchecker uchecker configs repos w = (Ok out, w') ->
  forall id, match repos !! id, first_config configs id with
             | Some x, _ => out !! id = Some x
             | None, None => out !! id = None
             | None, Some c => exists r, out !! id = Some r /\ made_of c r
             end.
Proof.
  revert repos w. induction configs as [|c configs IH]; intros repos w.
  - intros [= <- _] id. by destruct (repos !! id).
  - cbn [fromConfigs_loop]. intros (r & w1 & Hr%fromConfig_made & Hl)%M_bind_inv_ok id. specialize (IH _ _ Hl id).
    rewrite emplace_lookup in IH. unfold first_config in *. cbn [find].
    destruct (repos !! id); [done|]. destruct (String.eqb_spec (ri_id (repoId c)) id) as [Hi|Hi].
    + rewrite decide_True in IH by done. by exists r.
    + by rewrite decide_False in IH by done.
Qed.

Lemma fromConfigs_made filename configs basedir w f w' :
  fromConfigs opts mchecker uchecker filename configs basedir w = (Ok f, w') ->
  rf_path f = path_append basedir filename /\ made_from configs (rf_repos f).
Proof.
  unfold fromConfigs. intros (repos & w1 & Hl & [= <- _])%M_bind_inv_ok. split; [done|]. intros id.
  pose proof (fromConfigs_loop_made _ _ _ _ _ Hl id) as Hi. by rewrite lookup_empty in Hi.
Qed.

Lemma fromConfFile_loop_made files repoList basedir w out w' :
  fromConfFile_loop opts mchecker uchecker files repoList basedir w = (Ok out, w') ->
  Forall2 (fun kv f => rf_path f = path_append basedir kv.1 /\ made_from kv.2 (rf_repos f))
    (filter (fun kv => kv.1 ∈ repoList) files) out.
Proof.
  revert w out w'. induction files as [|[filename configs] files IH]; intros w out w'; cbn [fromConfFile_loop].
  { intros [= <- _]. constructor. }
  case_bool_decide as Hin; [rewrite filter_cons_True by done|rewrite filter_cons_False by done; apply IH].
  intros (f & w1 & Hf%fromConfigs_made & Hr)%M_bind_inv_ok. apply M_bind_inv_ok in Hr as (rest & w2 & Hr%IH & [= <- _]).
  by constructor.
Qed.

(** *** Checkers that always answer *)

Section answering.
Hypothesis Hurls : forall url, answered (urlExists uchecker url).
Hypothesis Hmirror : forall m, answered (mirror_exists opts mchecker m).

Lemma key_answered u w : exists key w', upstream_gpgkey uchecker u w = (Ok key, w').
Proof.
  unfold upstream_gpgkey, gpgurl. destruct (rp_gpgkey u) as [url|]; [|by eexists _, _].
  destruct (answered_ok _ w (Hurls url)) as (b & w1 & Hb). rewrite (M_bind_ok _ _ _ _ _ Hb). by eexists _, _.
Qed.

Lemma fromConfig_answered c w : exists r w', fromConfig opts mchecker uchecker c w = (Ok r, w').
Proof.
  unfold fromConfig, assemble.
  assert (exists choice w1, choose opts mchecker uchecker (mirror c) (upstream c) false w = (Ok choice, w1))
    as (choice & w1 & Hc).
  { unfold choose. destruct (enableMirrors opts); cbn [negb]; [|by eexists _, _].
    destruct (answered_ok _ w (Hmirror (mirror c))) as (b & w1 & Hb). rewrite (M_bind_ok _ _ _ _ _ Hb).
    destruct b; cbn [negb]; [by eexists _, _|]. unfold upstream_exists.
    destruct (answered_ok _ w1 (Hurls (upstream_baseurl (upstream c) +:+ "/repodata/repomd.xml"))) as (b & w2 & Hb').
    rewrite (M_bind_ok _ _ _ _ _ Hb'). by eexists _, _. }
  rewrite (M_bind_ok _ _ _ _ _ Hc). destruct choice; [|by eexists _, _].
  destruct (key_answered (upstream c) w1) as (key & w2 & H1). rewrite (M_bind_ok _ _ _ _ _ H1).
  destruct (key_answered (upstream c) w2) as (again & w3 & H2). rewrite (M_bind_ok _ _ _ _ _ H2). by eexists _, _.
Qed.

Lemma fromConfFile_answered files repoList basedir w :
  exists out w', fromConfFile_loop opts mchecker uchecker files repoList basedir w = (Ok out, w').
Proof.
  assert (forall configs repos w, exists out w', fromConfigs_loop opts mchecker uchecker configs repos w = (Ok out, w')) as Hl.
  { induction configs as [|c configs IH]; intros repos w1; cbn [fromConfigs_loop]; [by eexists _, _|].
    destruct (fromConfig_answered c w1) as (r & w2 & Hr). rewrite (M_bind_ok _ _ _ _ _ Hr). apply IH. }
  revert w. induction files as [|[filename configs] files IH]; intros w; cbn [fromConfFile_loop]; [by eexists _, _|].
  case_bool_decide; [|apply IH]. destruct (Hl configs ∅ w) as (repos & w1 & H1).
  unfold fromConfigs at 1. rewrite (M_bind_ok _ _ w (mkRepositoryFile (path_append basedir filename) repos) w1)
    by (by rewrite (M_bind_ok _ _ _ _ _ H1)).
  destruct (IH w1) as (rest & w2 & H2). rewrite (M_bind_ok _ _ _ _ _ H2). by eexists _, _.
Qed.
End answering.
End spec.

(** C30. Whatever the checkers answer and whatever asking does to the machine,
    the repository files made of the settings are, in the order of their names,
    those that are asked for, and hold for every id the repository of its
    first settings: disabled, at the mirror, with its key, if mirrors are
    enabled and the mirror was said to be there; and else upstream, where the
    key is asked for twice: it is set if the first answer is yes and checked
    against if the second is, so that the two can differ, and do not when that
    key is always answered for alike.  If the checkers answer every time, the
    files are made. *)
Theorem fromConfFile_spec (opts : Options) (mchecker uchecker : Checker) (conffile : RepoConfFile)
    (repoList : list string) (basedir : string) (w : World) :
  ((forall url, answered (urlExists uchecker url)) -> (forall m, answered (mirror_exists opts mchecker m)) ->
   exists files w', fromConfFile opts mchecker uchecker conffile repoList basedir w = (Ok files, w')) /\
  forall files w', fromConfFile opts mchecker uchecker conffile repoList basedir w = (Ok files, w') ->
    rf_path <$> files = path_append basedir <$> filter (fun filename => filename ∈ repoList) (filesnames conffile) /\
    forall filename configs, conffile !! filename = Some configs -> filename ∈ repoList ->
      exists f, f ∈ files /\ rf_path f = path_append basedir filename /\
        forall id, match first_config configs id with
                   | None => rf_repos f !! id = None
                   | Some c => exists r, rf_repos f !! id = Some r /\ made_of opts mchecker uchecker c r /\
                       (forall key, rp_gpgkey (upstream c) = Some key -> steady_answer (urlExists uchecker key) ->
                          r_gpgcheck r = bool_decide (is_Some (r_gpgkey r)))
                   end.
Proof.
  split; [intros Hu Hm; by apply fromConfFile_answered|]. unfold fromConfFile. intros files w' Hl%fromConfFile_loop_made.
  split.
  - assert (rf_path <$> files = path_append basedir <$> (filter (fun kv => kv.1 ∈ repoList) (in_order conffile)).*1) as ->.
    { clear -Hl. induction Hl as [|kv f l k [Hp _] _ IH]; [done|]. cbn. by rewrite Hp, IH. }
    clear Hl. f_equal. unfold filesnames. induction (in_order conffile) as [|[filename configs] l IH]; [done|].
    cbn [fmap list_fmap fst]. rewrite !filter_cons. cbn [fst]. case_decide; cbn; by rewrite IH.
  - intros filename configs Hc Hin.
    assert ((filename, configs) ∈ filter (fun kv => kv.1 ∈ repoList) (in_order conffile)) as Helem
      by (apply list_elem_of_filter; by rewrite in_order_elem).
    apply list_elem_of_lookup in Helem as [i Hi]. destruct (Forall2_lookup_l _ _ _ _ _ Hl Hi) as (f & Hf & Hp & Hmade).
    exists f. split; [by apply list_elem_of_lookup_2 in Hf|]. split; [done|]. intros id. specialize (Hmade id). cbn [snd] in Hmade.
    destruct (first_config configs id) as [c|]; [|done]. destruct Hmade as (r & Hr & Hof). exists r.
    split; [done|]. split; [done|]. intros key Hkey Hs. destruct (made_place _ _ _ _ _ Hof) as [(_ & _ & [_ Hk Hch])|[_ [_ Hu]]].
    + by rewrite Hk, Hch.
    + rewrite Hkey in Hu. destruct Hu as (first & second & Ht & -> & ->). apply says_twice_steady in Ht; [|done].
      subst. by destruct second.
Qed.
