(* ===== verification/RepoConfig.v ===== *)
(** * The settings of the repositories

    From [src/services/repos.cpp]: reading [repos.conf] and the settings of a
    distribution, finding the directory they are in, and the variables that
    are filled into them. *)

From stdpp Require Import base strings list gmap.
From Stdlib Require Import ZArith Lia Ascii.
From S2P Require Import Prelude CppString External Enums KeyFile Options Os World Runner StdMap RepoData.
From S2P Require OsService.

Local Open Scope Z_scope.

(** ** [RepoConfigParser] *)

Section parser.
Context `{GKeyFile} `{Fmt}.

Definition var_args (vars : RepoConfigVars) : list (string * string) :=
  [("releasever", v_releasever vars); ("osversion", v_osversion vars); ("arch", v_arch vars);
   ("beegfsVersion", v_beegfsVersion vars); ("zabbixVersion", v_zabbixVersion vars);
   ("xcatVersion", v_xcatVersion vars); ("ohpcVersion", v_ohpcVersion vars);
   ("ofedVersion", v_ofedVersion vars); ("ofedRepoTarget", v_ofedRepoTarget vars);
   ("cudaGPGKey", v_cudaGPGKey vars); ("rhelBaseMirrorGPGKey", v_rhelBaseMirrorGPGKey vars);
   ("rhelCodeReadyMirrorRepo", v_rhelCodeReadyMirrorRepo vars);
   ("rhelCodeReadyMirrorGPGKey", v_rhelCodeReadyMirrorGPGKey vars)].

(** [inl what]: throws a [fmt::format_error], which every caller catches. *)
Definition interpolateVars (fmt : string) (vars : RepoConfigVars) : string + string :=
  vformat fmt (var_args vars).

Definition interpolate_or (fmt : string) (vars : RepoConfigVars) (message : string -> string) : outcome string :=
  match interpolateVars fmt vars with inr text => Ok text | inl what => Throw (RuntimeError (message what)) end.

(** A GPG key that becomes empty counts as none. *)
Definition interpolate_key (key : option string) (vars : RepoConfigVars) (message : string -> string)
  : outcome (option string) :=
  match key with
  | None => Ok None
  | Some key =>
      value ← interpolate_or key vars message;
      Ok (if empty value then None else Some value)
  end.

Definition in_repo (what repoGroup : string) : string := what +:+ " repo '" +:+ repoGroup +:+ "'".

(** [file.getString] followed by the check that it is not empty *)
Definition required (file : KeyFile) (repoGroup key : string) : outcome string :=
  value ← getString file repoGroup key;
  if empty value then Throw (RuntimeError (in_repo ("Could not load " +:+ key +:+ " from") repoGroup)) else Ok value.

(** The body of the loop of [RepoConfigParser::parse] *)
Definition parse_config (file : KeyFile) (vars : RepoConfigVars) (repoGroup : string) : outcome RepoConfig :=
  let failed_to_format what := fun e => in_repo ("Failed to format " +:+ what +:+ " for") repoGroup +:+ ": " +:+ e in
  id ← interpolate_or repoGroup vars (failed_to_format "repository id");
  name ← required file repoGroup "name";
  name ← interpolate_or name vars (failed_to_format "name");
  filename ← required file repoGroup "filename";
  mirrorRepoOpt ← getStringOpt file repoGroup "mirror.repo";
  mirrorRepo ← match mirrorRepoOpt with
               | Some mirrorRepo =>
                   interpolate_or mirrorRepo vars
                     (fun _ => in_repo "Could not interpolate mirror.repo from" repoGroup)
               | None => Ok ""
               end;
  mirrorGpgkey ← getStringOpt file repoGroup "mirror.gpgkey";
  mirrorGpgkey ← interpolate_key mirrorGpgkey vars (failed_to_format "mirror.gpgkey");
  upstreamRepo ← required file repoGroup "upstream.repo";
  upstreamRepo ← interpolate_or upstreamRepo vars (failed_to_format "upstream.repo");
  upstreamGpgkey ← getStringOpt file repoGroup "upstream.gpgkey";
  upstreamGpgkey ← interpolate_key upstreamGpgkey vars (failed_to_format "upstream.gpgkey");
  Ok (mkRepoConfig (mkRepoId id name filename) (mkRepoPaths mirrorRepo mirrorGpgkey)
    (mkRepoPaths upstreamRepo upstreamGpgkey)).

Definition insert_config (f : RepoConfFile) (config : RepoConfig) : RepoConfFile :=
  conf_insert (ri_filename (repoId config)) config f.

Definition defaultPath : string := "/opt/opencattus/conf/repos/".

(** The copies of the settings in the binary are generated by the build. *)
Definition seedFromEmbedded (entries : list (string * string)) (path : string) : M World bool :=
  canonicalParent ← ask (fun w => weakly_canonical w (parent_path path));
  canonicalDefault ← ask (fun w => weakly_canonical w defaultPath);
  if negb (path_eqb canonicalParent canonicalDefault) then mret false
  else
    match find (fun entry => String.eqb entry.1 (filename path)) entries with
    | None => mret false
    | Some entry =>
        try_catchM (_ ← create_directories (parent_path path); stream_write path entry.2)
          is_std_exception (fun _ => mret false)
    end.

Definition missing_config (path : string) : exn :=
  RuntimeError ("Repository configuration file is missing: " +:+ path).

Definition parse (entries : list (string * string)) (path : string) (output : RepoConfFile) (vars : RepoConfigVars)
  : M World RepoConfFile :=
  there ← ask (fun w => fs_exists w path);
  seeded ← (if there : bool then mret true else seedFromEmbedded entries path);
  if negb seeded then throw (missing_config path)
  else
    file ← open_keyfile path;
    configs ← lift (mapo (parse_config file vars) (getGroups file));
    mret (foldl insert_config output configs).

(** [load], given [UseVaultService::shouldUseVault] *)
Definition load (entries : list (string * string)) (shouldUseVault : OS -> M World bool) (basePath : string)
    (osinfo : OS) (vars : RepoConfigVars) : M World RepoConfFiles :=
  let commonReposPath := path_append basePath "repos.conf" in
  distro ← lift (getDistro osinfo);
  distroReposPath ←
    match distro with
    | Distro.RHEL => mret (path_append basePath "rhel.conf")
    | Distro.OL => mret (path_append basePath "oracle.conf")
    | Distro.AlmaLinux => mret (path_append basePath "alma.conf")
    | Distro.Rocky =>
        vault ← shouldUseVault osinfo;
        mret (path_append basePath (if vault : bool then "rocky-vault.conf" else "rocky-upstream.conf"))
    | Distro.Ubuntu => lift UB
    end;
  nonDistroRepos ← parse entries commonReposPath ∅ vars;
  distroRepos ← parse entries distroReposPath ∅ vars;
  mret (mkRepoConfFiles distroRepos nonDistroRepos).
End parser.

(** ** Where the settings are *)

Definition append_candidate (candidates : list string) (path : string) : list string :=
  let path := lexically_normal path in
  if existsb (path_eqb path) candidates then candidates else candidates ++ [path].

Definition repoConfigCandidatePaths (currentPath : string) (executablePath : option string) : list string :=
  let candidates :=
    match executablePath with
    | Some executable =>
        let executableDirectory := parent_path executable in
        foldl append_candidate []
          [path_append executableDirectory "repos"; path_append executableDirectory "../repos";
           path_append executableDirectory "../../repos"]
    | None => []
    end in
  foldl append_candidate candidates
    [defaultPath; path_append currentPath "repos"; path_append currentPath "../repos";
     path_append currentPath "../../repos"].

Definition hasRepoConfig (w : World) (path : string) : bool := fs_exists w (path_append path "repos.conf").

Fixpoint findRepoConfigBasePath (w : World) (candidates : list string) : option string :=
  match candidates with
  | [] => None
  | candidate :: candidates =>
      if hasRepoConfig w candidate then Some candidate else findRepoConfigBasePath w candidates
  end.

Definition formatRepoConfigCandidates (candidates : list string) : string := concat_sep ", " candidates.

(** The current directory and what [/proc/self/exe] leads to are arguments. *)
Record Place := mkPlace { current_path : string; executable_path : option string }.

Definition repoConfigBasePath (place : Place) : M World string :=
  let candidates := repoConfigCandidatePaths (current_path place) (executable_path place) in
  basePath ← ask (fun w => findRepoConfigBasePath w candidates);
  match basePath with
  | Some basePath => mret basePath
  | None =>
      throw (RuntimeError ("Repository configuration was not found. Checked: " +:+
        formatRepoConfigCandidates candidates))
  end.

(** ** The variables *)

Definition defaultOpenHPCVersionFor (osinfo : OS) : outcome string :=
  platform ← getPlatform osinfo;
  match platform with
  | Platform.el8 => Ok "2"
  | Platform.el9 => Ok "3"
  | Platform.el10 => Ok "4"
  | Platform.ubuntu2404 => Ok "versatushpc-4"
  end.

Definition defaultZabbixVersionFor (requestedVersion : string) : string :=
  if empty requestedVersion || String.eqb requestedVersion "latest-lts" || String.eqb requestedVersion "lts"
  then "7.0" else requestedVersion.

Definition lts_prefix : string := "latest-".
Definition lts_suffix : string := "-lts".

Definition parseDocaLtsVersion (ofedVersion : string) : option (Z * Z) :=
  let normalized := lower ofedVersion in
  if negb (contains "lts" normalized) then None
  else
    match find_str lts_prefix normalized, rfind_str lts_suffix normalized with
    | Some prefixPos, Some suffixPos =>
        let start := (prefixPos + String.length lts_prefix)%nat in
        if (suffixPos <=? start)%nat then None
        else
          let versionToken := stake (suffixPos - start) (sdrop start normalized) in
          match find_char "." versionToken with
          | None => None
          | Some dotPos =>
              match stoi (stake dotPos versionToken), stoi (sdrop (S dotPos) versionToken) with
              | Ok major, Ok minor => Some (major, minor)
              | _, _ => None
              end
          end
    | _, _ => None
    end.

(** [parsed >= std::pair { 3, 2 }] *)
Definition usesDocaMajorVersionRepo (ofedVersion : string) : bool :=
  if negb (contains "lts" (lower ofedVersion)) then true
  else
    match parseDocaLtsVersion ofedVersion with
    | Some (major, minor) => (3 <? major) || ((major =? 3) && (2 <=? minor))
    | None => false
    end.

Definition doca_unsupported (osinfo : OS) : exn :=
  RuntimeError ("Unsupported DOCA repository baseline for EL" +:+ dec (m_majorVersion osinfo)).

Definition defaultDOCARepoTargetFor (osinfo : OS) (ofedVersion : string) : outcome string :=
  distro ← getDistro osinfo;
  if decide (distro = Distro.Ubuntu) then Ok ""
  else if usesDocaMajorVersionRepo ofedVersion then
    platform ← getPlatform osinfo;
    match platform with
    | Platform.el8 => Ok "8"
    | Platform.el9 => Ok "9"
    | Platform.el10 => Ok "10"
    | Platform.ubuntu2404 => Throw (doca_unsupported osinfo)
    end
  else
    platform ← getPlatform osinfo;
    match platform with
    | Platform.el8 => Ok "8.10"
    | Platform.el9 => Ok "9.6"
    | Platform.el10 =>
        Throw (RuntimeError ("Legacy DOCA LTS repo target is not defined for EL10; choose a " +:+
          "major-version DOCA stream such as latest or latest-3.2-LTS"))
    | Platform.ubuntu2404 => Throw (doca_unsupported osinfo)
    end.

Definition defaultCUDAGPGKeyFor (osinfo : OS) : outcome string :=
  platform ← getPlatform osinfo;
  match platform with
  | Platform.el8 | Platform.el9 => Ok "D42D0685.pub"
  | Platform.el10 => Ok "CDF6BA43.pub"
  | Platform.ubuntu2404 => Ok ""
  end.

Definition defaultRHELCodeReadyMirrorRepoFor (osinfo : OS) : outcome string :=
  distro ← getDistro osinfo;
  if decide (distro = Distro.Ubuntu) then Ok ""
  else
    arch ← toString <$> getArch osinfo;
    platform ← getPlatform osinfo;
    match platform with
    | Platform.el8 | Platform.el9 =>
        Ok ("rhel/codeready-builder-for-rhel-" +:+ dec (m_majorVersion osinfo) +:+ "-" +:+ arch +:+ "-rpms/")
    | Platform.el10 => Ok ("rocky/linux/" +:+ dec (m_majorVersion osinfo) +:+ "/CRB/" +:+ arch +:+ "/os/")
    | Platform.ubuntu2404 =>
        Throw (RuntimeError ("Unsupported RHEL CodeReady mirror baseline for EL" +:+ dec (m_majorVersion osinfo)))
    end.

Definition defaultRHELBaseMirrorGPGKeyFor (osinfo : OS) : outcome string :=
  distro ← getDistro osinfo;
  if decide (distro = Distro.Ubuntu) then Ok ""
  else
    platform ← getPlatform osinfo;
    match platform with
    | Platform.el8 | Platform.el9 => Ok "rhel/RPM-GPG-KEY-redhat-release"
    | Platform.el10 => Ok ""
    | Platform.ubuntu2404 =>
        Throw (RuntimeError ("Unsupported RHEL BaseOS mirror signing baseline for EL" +:+ dec (m_majorVersion osinfo)))
    end.

Definition defaultRHELCodeReadyMirrorGPGKeyFor (osinfo : OS) : outcome string :=
  distro ← getDistro osinfo;
  if decide (distro = Distro.Ubuntu) then Ok ""
  else
    platform ← getPlatform osinfo;
    match platform with
    | Platform.el8 | Platform.el9 => Ok "rhel/RPM-GPG-KEY-redhat-release"
    | Platform.el10 => Ok ""
    | Platform.ubuntu2404 =>
        Throw (RuntimeError ("Unsupported RHEL CodeReady mirror signing baseline for EL" +:+
          dec (m_majorVersion osinfo)))
    end.

Definition buildRepoConfigVars (opts : Options) (osinfo : OS) (ofedVersion : string) : outcome RepoConfigVars :=
  let resolvedOfedVersion := if empty ofedVersion then "latest" else ofedVersion in
  arch ← toString <$> getArch osinfo;
  ohpcVersion ← defaultOpenHPCVersionFor osinfo;
  osversion ← getVersion osinfo;
  ofedRepoTarget ← defaultDOCARepoTargetFor osinfo resolvedOfedVersion;
  cudaGPGKey ← defaultCUDAGPGKeyFor osinfo;
  rhelBaseMirrorGPGKey ← defaultRHELBaseMirrorGPGKeyFor osinfo;
  rhelCodeReadyMirrorRepo ← defaultRHELCodeReadyMirrorRepoFor osinfo;
  rhelCodeReadyMirrorGPGKey ← defaultRHELCodeReadyMirrorGPGKeyFor osinfo;
  Ok {| v_arch := arch; v_beegfsVersion := beegfsVersion opts; v_ohpcVersion := ohpcVersion;
        v_osversion := osversion; v_releasever := dec (m_majorVersion osinfo);
        v_xcatVersion := xcatVersion opts; v_zabbixVersion := defaultZabbixVersionFor (zabbixVersion opts);
        v_ofedVersion := resolvedOfedVersion; v_ofedRepoTarget := ofedRepoTarget; v_cudaGPGKey := cudaGPGKey;
        v_rhelBaseMirrorGPGKey := rhelBaseMirrorGPGKey; v_rhelCodeReadyMirrorRepo := rhelCodeReadyMirrorRepo;
        v_rhelCodeReadyMirrorGPGKey := rhelCodeReadyMirrorGPGKey |}.

(** ** The repositories of a distribution *)

Definition unsupported_platform : exn := RuntimeError "Unsupported platform".
Definition unsupported_distro : exn := RuntimeError "Unsupported distro".

Definition resolveCodeReadyBuilderName (osinfo : OS) : outcome string :=
  distro ← getDistro osinfo;
  platform ← getPlatform osinfo;
  arch ← toString <$> getArch osinfo;
  match distro with
  | Distro.AlmaLinux =>
      match platform with
      | Platform.el8 => Ok "AlmaLinuxPowerTools"
      | Platform.el9 | Platform.el10 => Ok "AlmaLinuxCRB"
      | _ => Throw unsupported_platform
      end
  | Distro.Rocky =>
      match platform with
      | Platform.el8 => Ok "powertools"
      | Platform.el9 | Platform.el10 => Ok "crb"
      | _ => Throw unsupported_platform
      end
  | Distro.RHEL =>
      Ok ("codeready-builder-for-rhel-" +:+ dec (m_majorVersion osinfo) +:+ "-" +:+ arch +:+ "-rpms")
  | Distro.OL => Ok ("ol" +:+ dec (m_majorVersion osinfo) +:+ "_codeready_builder")
  | Distro.Ubuntu => Throw unsupported_distro
  end.

Definition distro_names (osinfo : OS) : outcome (list string) :=
  distro ← getDistro osinfo;
  let rhel suffix := "rhel-" +:+ dec (m_majorVersion osinfo) +:+ suffix in
  match distro with
  | Distro.AlmaLinux =>
      crb ← resolveCodeReadyBuilderName osinfo; Ok ["AlmaLinuxAppStream"; "AlmaLinuxBaseOS"; crb]
  | Distro.Rocky => crb ← resolveCodeReadyBuilderName osinfo; Ok ["appstream"; "baseos"; crb]
  | Distro.RHEL => Ok [rhel "-appstream"; rhel "-baseos"; rhel "-codeready-builder"]
  | Distro.OL => Ok ["OLAppStream"; "OLBaseOS"; "ol" +:+ dec (m_majorVersion osinfo) +:+ "_codeready_builder"]
  | Distro.Ubuntu => Throw unsupported_distro
  end.

(** [RepoNames::resolveReposNames]: the settings it is given are not used. *)
Definition resolveReposNames (osinfo : OS) (conffiles : RepoConfFiles) : outcome (list string) :=
  names ← distro_names osinfo; Ok (names ++ ["epel"; "OpenHPC"; "OpenHPC-Updates"]).

(** [expandSelectedRepositoryIds]: repositories another one needs come after
    it; the recursion ends since a repository is entered once. *)
Definition dependencies : list (string * list string) := [("beegfs", ["grafana"; "influxdata"])].

Definition dependencies_of (repoId : string) : list string :=
  match find (fun d => String.eqb d.1 repoId) dependencies with Some d => d.2 | None => [] end.

Fixpoint append_repository (fuel : nat) (expanded : list string) (repoId : string) : list string :=
  match fuel with
  | O => expanded
  | S fuel =>
      if decide (repoId ∈ expanded) then expanded
      else foldl (append_repository fuel) (expanded ++ [repoId]) (dependencies_of repoId)
  end.

Definition expandSelectedRepositoryIds (repositoryIds : list string) : list string :=
  foldl (append_repository (length repositoryIds + 3)) [] repositoryIds.

Definition selectRepositoryBootstrapOS (headnodeOS computeOS : OS) : outcome OS :=
  head ← getPackageType headnodeOS;
  compute ← getPackageType computeOS;
  Ok (if decide (head <> compute) then headnodeOS else computeOS).

Record RepositorySelection := mkSelection { sel_id : string; sel_name : string; sel_enabled : bool }.

Definition ubuntu_selections : list RepositorySelection :=
  [mkSelection "ubuntu-main" "Ubuntu 24.04 main, restricted, universe, multiverse" true;
   mkSelection "ubuntu-updates" "Ubuntu 24.04 updates" true;
   mkSelection "ubuntu-security" "Ubuntu 24.04 security" true;
   mkSelection "OpenHPC" "VersatusHPC OpenHPC 4.x for Ubuntu 24.04" true].

Definition select_config (enabledSet : list string) (m : gmap string RepositorySelection) (config : RepoConfig)
  : gmap string RepositorySelection :=
  <[ri_id (repoId config) := mkSelection (ri_id (repoId config)) (ri_name (repoId config))
      (bool_decide (ri_id (repoId config) ∈ enabledSet))]> m.
Definition appendSelections (enabledSet : list string) (confFile : RepoConfFile) (m : gmap string RepositorySelection)
  : gmap string RepositorySelection :=
  foldl (select_config enabledSet) m ((in_order confFile).*2 ≫= id).

Definition enabled_ids (names : list string) (enabledRepositories enabledOpenHPCBundles : option (list string))
  : list string :=
  names ++
  match enabledRepositories with Some ids => expandSelectedRepositoryIds ids | None => [] end ++
  match enabledOpenHPCBundles with
  | Some bundles => if decide ("intel-oneapi" ∈ bundles) then ["oneAPI"] else []
  | None => []
  end.

Definition selections (conffiles : RepoConfFiles) (enabledSet : list string) : list RepositorySelection :=
  (in_order (appendSelections enabledSet (nonDistroRepos conffiles)
     (appendSelections enabledSet (distroRepos conffiles) ∅))).*2.

Definition defaultRepositoriesFor `{GKeyFile} `{Fmt} (opts : Options) (entries : list (string * string)) (place : Place)
    (osinfo : OS) (ofedVersion : string) (enabledRepositories enabledOpenHPCBundles : option (list string))
  : M World (list RepositorySelection) :=
  distro ← lift (getDistro osinfo);
  if decide (distro = Distro.Ubuntu) then mret ubuntu_selections
  else
    vars ← lift (buildRepoConfigVars opts osinfo ofedVersion);
    basePath ← repoConfigBasePath place;
    conffiles ← load entries (fun _ => mret false) basePath osinfo vars;
    names ← lift (resolveReposNames osinfo conffiles);
    mret (selections conffiles (enabled_ids names enabledRepositories enabledOpenHPCBundles)).
