(* ===== verification/RepoConfigSpec.v ===== *)
(** * What the settings of the repositories come to

    The repositories offered for a distribution, the closure of the selected
    ones under what they need, and the directory the settings are read from. *)

From stdpp Require Import base strings list gmap sorting.
From Stdlib Require Import ZArith Lia Ascii Sorted.
From S2P Require Import Prelude CppString External Enums KeyFile Options Os World Runner StdMap RepoData.
From S2P Require Import RepoConfig.

(** ** Selected repositories *)

Definition enter (l : list string) (x : string) : list string := if decide (x ∈ l) then l else l ++ [x].

(** The elements of a list, each where it occurs first. *)
Definition first_occurrences (l : list string) : list string := foldl enter [] l.

Definition with_dependencies (id : string) : list string := id :: dependencies_of id.

Lemma dependencies_of_cases id :
  (id = "beegfs" /\ dependencies_of id = ["grafana"; "influxdata"]) \/ (id <> "beegfs" /\ dependencies_of id = []).
Proof.
  unfold dependencies_of, dependencies. cbn [find fst].
  destruct (String.eqb_spec "beegfs" id) as [<-|]; [by left|right; auto].
Qed.

(** What is needed needs nothing more. *)
Lemma dependencies_flat id d : d ∈ dependencies_of id -> dependencies_of d = [].
Proof.
  destruct (dependencies_of_cases id) as [[_ ->]|[_ ->]]; [|by rewrite elem_of_nil].
  rewrite !elem_of_cons, elem_of_nil. by intros [->|[->|[]]].
Qed.

Lemma enter_elem l x y : y ∈ enter l x <-> y ∈ l \/ y = x.
Proof. unfold enter. case_decide; set_solver. Qed.

Lemma enter_all_elem k l y : y ∈ foldl enter l k <-> y ∈ l \/ y ∈ k.
Proof. revert l. induction k as [|x k IH]; intros l; cbn; [set_solver|]. rewrite IH, enter_elem. set_solver. Qed.

Lemma enter_all_NoDup k l : NoDup l -> NoDup (foldl enter l k).
Proof.
  revert l. induction k as [|x k IH]; intros l Hl; [done|]. cbn. apply IH. unfold enter. case_decide; [done|].
  apply NoDup_app. repeat split; [done|set_solver|apply NoDup_singleton].
Qed.

Lemma enter_all_id k l : (forall x, x ∈ k -> x ∈ l) -> foldl enter l k = l.
Proof.
  revert l. induction k as [|x k IH]; intros l Hl; [done|]. cbn.
  rewrite IH; unfold enter; rewrite decide_True by (apply Hl; left); [done|]. intros y Hy. apply Hl. by right.
Qed.

Lemma append_plain n l x : dependencies_of x = [] -> append_repository (S n) l x = enter l x.
Proof. intros Hx. cbn [append_repository]. rewrite Hx. unfold enter. by case_decide. Qed.

Lemma append_all_plain n k l :
  (forall d, d ∈ k -> dependencies_of d = []) -> foldl (append_repository (S n)) l k = foldl enter l k.
Proof.
  revert l. induction k as [|x k IH]; intros l Hk; [done|]. cbn [foldl].
  rewrite append_plain by (apply Hk; left). apply IH. intros d Hd. apply Hk. by right.
Qed.

Definition closed (l : list string) : Prop := forall id d, id ∈ l -> d ∈ dependencies_of id -> d ∈ l.

Lemma append_repository_enter n l id :
  closed l -> append_repository (S (S n)) l id = foldl enter l (with_dependencies id).
Proof.
  intros Hl. cbn [append_repository with_dependencies foldl]. unfold enter at 2. case_decide as Hid.
  - symmetry. apply enter_all_id. eauto.
  - apply append_all_plain. eauto using dependencies_flat.
Qed.

Lemma closed_enter l id : closed l -> closed (foldl enter l (with_dependencies id)).
Proof.
  unfold with_dependencies. intros Hl x d. rewrite !enter_all_elem. intros [Hx|Hx]%or_comm Hd; [|eauto].
  apply elem_of_cons in Hx as [->|Hx]; [set_solver|]. rewrite (dependencies_flat _ _ Hx) in Hd. set_solver.
Qed.

Lemma append_repository_all n ids l :
  closed l -> foldl (append_repository (S (S n))) l ids = foldl enter l (ids ≫= with_dependencies).
Proof.
  revert l. induction ids as [|id ids IH]; intros l Hl; [done|].
  cbn [foldl mbind list_bind]. rewrite append_repository_enter, foldl_app by done. by apply IH, closed_enter.
Qed.

Lemma expand_first ids : expandSelectedRepositoryIds ids = first_occurrences (ids ≫= with_dependencies).
Proof.
  unfold expandSelectedRepositoryIds. replace (length ids + 3) with (S (S (length ids + 1))) by lia.
  apply append_repository_all. intros id d. by rewrite elem_of_nil.
Qed.

(** C39. Expanding the selected repositories gives each of them followed by
    those it needs, every repository where it occurs first and none twice; the
    result lacks nothing that is needed; the depth the recursion is given is
    never used up. *)
Theorem expandSelectedRepositoryIds_spec (ids : list string) :
  expandSelectedRepositoryIds ids = first_occurrences (ids ≫= with_dependencies) /\
  NoDup (expandSelectedRepositoryIds ids) /\
  (forall x, x ∈ expandSelectedRepositoryIds ids <->
             x ∈ ids \/ exists id, id ∈ ids /\ x ∈ dependencies_of id) /\
  (forall id d, id ∈ expandSelectedRepositoryIds ids -> d ∈ dependencies_of id ->
                d ∈ expandSelectedRepositoryIds ids) /\
  (forall n, foldl (append_repository (S (S n))) [] ids = expandSelectedRepositoryIds ids).
Proof.
  assert (forall x, x ∈ expandSelectedRepositoryIds ids <->
    x ∈ ids \/ exists id, id ∈ ids /\ x ∈ dependencies_of id) as Hin.
  { intros x. rewrite expand_first. unfold first_occurrences. rewrite enter_all_elem, list_elem_of_bind.
    unfold with_dependencies. split.
    - intros [?%elem_of_nil|(id & Hx & Hid)]; [done|].
      apply elem_of_cons in Hx as [->|Hx]; eauto.
    - intros [Hx|(id & Hid & Hx)]; right; [exists x|exists id]; (split; [|done]); [left|by right]. }
  split_and!; [apply expand_first|rewrite expand_first; apply enter_all_NoDup, NoDup_nil_2|done| |].
  - intros id d. rewrite !Hin. intros [Hid|(i & Hi & Hid)] Hd; [eauto|].
    rewrite (dependencies_flat _ _ Hid) in Hd. set_solver.
  - intros n. rewrite expand_first. apply append_repository_all. intros id d. by rewrite elem_of_nil.
Qed.

(** ** Offered repositories *)

Definition all_configs (f : RepoConfFile) : list RepoConfig := (in_order f).*2 ≫= id.

(** The last settings of an id, which win. *)
Definition last_config (id : string) (l : list RepoConfig) : option RepoConfig :=
  last (filter (fun c => ri_id (repoId c) = id) l).

Definition selection (enabledSet : list string) (c : RepoConfig) : RepositorySelection :=
  mkSelection (ri_id (repoId c)) (ri_name (repoId c)) (bool_decide (ri_id (repoId c) ∈ enabledSet)).

Lemma select_all_lookup E l m id :
  foldl (select_config E) m l !! id =
  match last_config id l with Some c => Some (selection E c) | None => m !! id end.
Proof.
  induction l as [|c l IH] using rev_ind; [done|].
  rewrite foldl_snoc. unfold last_config in *. rewrite filter_app. unfold select_config at 1.
  destruct (decide (ri_id (repoId c) = id)) as [<-|Hn].
  - rewrite filter_cons_True, filter_nil, last_snoc by done. apply lookup_insert_eq.
  - rewrite filter_cons_False, filter_nil, app_nil_r by done. by rewrite lookup_insert_ne.
Qed.

Definition offered (conffiles : RepoConfFiles) : list RepoConfig :=
  all_configs (distroRepos conffiles) ++ all_configs (nonDistroRepos conffiles).

Lemma selections_lookup conffiles E id :
  appendSelections E (nonDistroRepos conffiles) (appendSelections E (distroRepos conffiles) ∅) !! id =
  selection E <$> last_config id (offered conffiles).
Proof.
  unfold appendSelections, offered, all_configs. rewrite <- foldl_app, select_all_lookup.
  by destruct (last_config _ _).
Qed.

Lemma last_config_id id l c : last_config id l = Some c -> ri_id (repoId c) = id /\ c ∈ l.
Proof. unfold last_config. intros Hc%last_Some_elem_of. by apply list_elem_of_filter in Hc. Qed.

Lemma last_config_is_Some id l : is_Some (last_config id l) <-> id ∈ (fun c => ri_id (repoId c)) <$> l.
Proof.
  unfold last_config. rewrite last_is_Some, list_elem_of_fmap. split.
  - intros Hne. destruct (filter _ l) as [|c k] eqn:Hf; [done|]. exists c.
    assert (c ∈ filter (fun c => ri_id (repoId c) = id) l) as Hc by (rewrite Hf; left).
    by apply list_elem_of_filter in Hc as [<- ?].
  - intros (c & -> & Hc) Hf. apply (f_equal (fun l => c ∈ l)) in Hf.
    assert (c ∈ @nil RepoConfig) as []%elem_of_nil.
    rewrite <- Hf. by apply list_elem_of_filter.
Qed.

(** Values filed under a key of their own come in the order of the keys. *)
Lemma in_order_values {A} (key : A -> string) (m : gmap string A) :
  (forall k v, m !! k = Some v -> key v = k) -> key <$> (in_order m).*2 = (in_order m).*1.
Proof.
  intros Hk. rewrite <- list_fmap_compose. apply list_fmap_ext. intros i [k v] Hi. cbn.
  apply Hk, in_order_elem. by eapply list_elem_of_lookup_2.
Qed.

Lemma in_order_keys_sorted {A} (m : gmap string A) : StronglySorted name_le (in_order m).*1.
Proof.
  induction (in_order_sorted m) as [|[k v] l Hl IH Hf]; cbn; constructor; [done|].
  apply Forall_fmap. eapply Forall_impl; [exact Hf|]. by intros [] ?.
Qed.

Lemma selections_elem conffiles E s :
  s ∈ selections conffiles E <-> exists id, selection E <$> last_config id (offered conffiles) = Some s.
Proof.
  unfold selections. rewrite list_elem_of_fmap. setoid_rewrite <- selections_lookup. split.
  - intros ([k v] & -> & Hv%in_order_elem). eauto.
  - intros (id & Hs). exists (id, s). split; [done|]. by apply in_order_elem.
Qed.

Lemma selections_ids conffiles E :
  exists m : gmap string RepositorySelection,
    sel_id <$> selections conffiles E = (in_order m).*1 /\ selections conffiles E = (in_order m).*2.
Proof.
  eexists. split; [|done]. apply in_order_values. intros k v. rewrite selections_lookup.
  destruct (last_config _ _) as [c|] eqn:Hc; [|done]. intros [= <-]. by apply last_config_id in Hc as [? _].
Qed.

Lemma enabled_ids_elem names er eb id :
  id ∈ enabled_ids names er eb <->
  id ∈ names \/ (exists ids, er = Some ids /\ id ∈ expandSelectedRepositoryIds ids) \/
  (id = "oneAPI" /\ exists bundles, eb = Some bundles /\ "intel-oneapi" ∈ bundles).
Proof.
  unfold enabled_ids. rewrite !elem_of_app. destruct er as [ids|], eb as [b|]; cbn;
    repeat case_decide; set_solver.
Qed.

Lemma repoConfigBasePath_ok place w basePath w' :
  repoConfigBasePath place w = (Ok basePath, w') ->
  w' = w /\ findRepoConfigBasePath w (repoConfigCandidatePaths (current_path place) (executable_path place)) = Some basePath.
Proof.
  unfold repoConfigBasePath, ask, gets, mbind, M_bind, mret, M_ret, throw.
  destruct (findRepoConfigBasePath _ _); [by intros [= -> ->]|done].
Qed.

(** C29. The repositories offered for a distribution other than Ubuntu come in
    the order of their ids, which differ, one for every id of its settings and
    of the common ones, named as the common ones say where both have it; one is
    switched on exactly when the distribution needs it, when it or one that
    needs it was selected, or when it is the one of the Intel bundle and that
    was selected.  Ubuntu has four of its own. *)
Theorem defaultRepositoriesFor_spec `{GKeyFile} `{Fmt} (opts : Options) (entries : list (string * string))
    (place : Place) (osinfo : OS) (ofedVersion : string) (enabledRepositories enabledOpenHPCBundles : option (list string))
    (w w' : World) (l : list RepositorySelection)
    (Hrun : defaultRepositoriesFor opts entries place osinfo ofedVersion enabledRepositories enabledOpenHPCBundles w
            = (Ok l, w')) :
  (getDistro osinfo = Ok Distro.Ubuntu /\ l = ubuntu_selections /\ w' = w) \/
  exists vars basePath conffiles names,
    buildRepoConfigVars opts osinfo ofedVersion = Ok vars /\
    findRepoConfigBasePath w (repoConfigCandidatePaths (current_path place) (executable_path place)) = Some basePath /\
    load entries (fun _ => mret false) basePath osinfo vars w = (Ok conffiles, w') /\
    resolveReposNames osinfo conffiles = Ok names /\
    StronglySorted name_le (sel_id <$> l) /\ NoDup (sel_id <$> l) /\
    (forall id, id ∈ sel_id <$> l <-> id ∈ (fun c => ri_id (repoId c)) <$> offered conffiles) /\
    (forall s, s ∈ l ->
       (exists c, last_config (sel_id s) (offered conffiles) = Some c /\ sel_name s = ri_name (repoId c)) /\
       (sel_enabled s = true <->
        sel_id s ∈ names \/
        (exists ids, enabledRepositories = Some ids /\ sel_id s ∈ expandSelectedRepositoryIds ids) \/
        (sel_id s = "oneAPI" /\ exists bundles, enabledOpenHPCBundles = Some bundles /\ "intel-oneapi" ∈ bundles))).
Proof.
  unfold defaultRepositoriesFor in Hrun. step_pure Hrun distro Hd.
  destruct (decide (distro = Distro.Ubuntu)) as [->|_].
  { left. by injection Hrun as <- <-. }
  right. step_pure Hrun vars Hvars. step Hrun as (basePath & w1 & Hb).
  apply repoConfigBasePath_ok in Hb as [-> Hb]. step Hrun as (conffiles & w2 & Hl).
  step_pure Hrun names Hnames. injection Hrun as <- <-.
  exists vars, basePath, conffiles, names. set (E := enabled_ids names _ _).
  destruct (selections_ids conffiles E) as (m & Hm & _).
  split_and!; [done..|by rewrite Hm; apply in_order_keys_sorted|by rewrite Hm; apply in_order_NoDup| |].
  - intros id. rewrite <- last_config_is_Some, list_elem_of_fmap. setoid_rewrite selections_elem. split.
    + intros (s & -> & id' & Hs). destruct (last_config id' _) as [c|] eqn:Hc; [|done].
      injection Hs as <-. cbn. apply last_config_id in Hc as Hc'. destruct Hc' as [-> _]. eauto.
    + intros [c Hc]. exists (selection E c). apply last_config_id in Hc as Hc'. destruct Hc' as [Hc' _].
      split; [done|]. exists id. by rewrite Hc.
  - intros s (id & Hs)%selections_elem. destruct (last_config id _) as [c|] eqn:Hc; [|done].
    injection Hs as <-. apply last_config_id in Hc as Hc'. destruct Hc' as [Hc' _]. cbn.
    rewrite Hc', bool_decide_eq_true, <- enabled_ids_elem. eauto.
Qed.

(** ** DOCA streams *)

Lemma rfind_str_end needle s : rfind_str needle needle = Some 0 -> rfind_str needle (s +:+ needle) = Some (String.length s).
Proof. intros Hn. induction s as [|c s IH]; [done|]. rewrite app_cons. cbn. by rewrite IH. Qed.

Lemma find_str_end needle s : is_Some (find_str needle (s +:+ needle)).
Proof.
  induction s as [|c s [i Hi]].
  - exists 0. assert (String.prefix needle needle = true) as Hp.
    { pose proof (starts_with_app needle "") as Hp. by rewrite sapp_nil_r in Hp. }
    change ("" +:+ needle) with needle. by destruct needle; cbn [find_str]; rewrite ?Hp.
  - rewrite app_cons. cbn [find_str]. rewrite Hi. destruct (String.prefix _ _); by eexists.
Qed.

Lemma find_str_start needle s : find_str needle (needle +:+ s) = Some 0.
Proof.
  pose proof (starts_with_app needle s) as Hp. unfold starts_with in Hp.
  by destruct (needle +:+ s) eqn:Hs; cbn [find_str]; rewrite Hp.
Qed.

Lemma lower_dec n : (0 <= n)%Z -> lower (dec n) = dec n.
Proof.
  intros Hn. apply lower_id. eapply sforall_impl, dec_digit; [|done]. intros c Hc.
  apply digit_not_upper in Hc. revert Hc. clear. by_chars c.
Qed.

Definition lts_stream (major minor : Z) : string := "latest-" +:+ dec major +:+ "." +:+ dec minor +:+ "-LTS".

Lemma lower_lts_stream major minor :
  (0 <= major)%Z -> (0 <= minor)%Z ->
  lower (lts_stream major minor) = (lts_prefix +:+ (dec major +:+ String "." (dec minor))) +:+ lts_suffix.
Proof.
  intros Ha Hb. unfold lts_stream, lower. rewrite !smap_app. fold (lower (dec major)) (lower (dec minor)).
  rewrite !lower_dec by done. by rewrite <- !sapp_assoc.
Qed.

Lemma parse_lts_stream major minor :
  (0 <= major < 2 ^ 31)%Z -> (0 <= minor < 2 ^ 31)%Z ->
  contains "lts" (lower (lts_stream major minor)) = true /\
  parseDocaLtsVersion (lts_stream major minor) = Some (major, minor).
Proof.
  intros Ha Hb. unfold parseDocaLtsVersion. rewrite lower_lts_stream by lia.
  set (token := dec major +:+ String "." (dec minor)).
  assert (contains "lts" ((lts_prefix +:+ token) +:+ lts_suffix) = true) as Hlts.
  { apply bool_decide_eq_true. change lts_suffix with ("-" +:+ "lts"). rewrite sapp_assoc. apply find_str_end. }
  split; [done|]. rewrite Hlts. cbn [negb].
  rewrite rfind_str_end by done.
  assert (find_str lts_prefix ((lts_prefix +:+ token) +:+ lts_suffix) = Some 0) as ->.
  { rewrite <- sapp_assoc. apply find_str_start. }
  rewrite length_sapp. assert (0 < String.length token) as Hpos.
  { unfold token. rewrite length_sapp. cbn. lia. }
  rewrite (proj2 (Nat.leb_gt _ _)) by lia.
  rewrite Nat.add_0_l, Nat.add_comm, Nat.add_sub, <- sapp_assoc, sdrop_app, stake_app.
  unfold token. rewrite find_char_at, stake_app, sdrop_at, !stoi_dec by
    first [done|apply digits_no_char; [done|apply dec_digit; lia]]. done.
Qed.

(** The streams NVIDIA calls latest-X.Y-LTS are told apart by the numbers
    in their names: up to 3.1 the repository of a minor release is used, and
    Enterprise Linux 10 has none; from 3.2 on that of the major release. *)
Theorem lts_stream_target (osinfo : OS) (major minor : Z) (d : Distro.t) (p : Platform.t)
    (Hmajor : (0 <= major < 2 ^ 31)%Z) (Hminor : (0 <= minor < 2 ^ 31)%Z)
    (Hdistro : getDistro osinfo = Ok d) (Hd : d <> Distro.Ubuntu)
    (Hplatform : getPlatform osinfo = Ok p) (Hp : p <> Platform.ubuntu2404) :
  parseDocaLtsVersion (lts_stream major minor) = Some (major, minor) /\
  defaultDOCARepoTargetFor osinfo (lts_stream major minor) =
    if decide (3 < major \/ (major = 3 /\ 2 <= minor))%Z then
      Ok match p with Platform.el8 => "8" | Platform.el9 => "9" | _ => "10" end
    else
      match p with
      | Platform.el8 => Ok "8.10"
      | Platform.el9 => Ok "9.6"
      | _ => Throw (RuntimeError ("Legacy DOCA LTS repo target is not defined for EL10; choose a " +:+
               "major-version DOCA stream such as latest or latest-3.2-LTS"))
      end.
Proof.
  destruct (parse_lts_stream major minor) as [Hlts Hparse]; [done..|]. split; [done|].
  unfold defaultDOCARepoTargetFor, usesDocaMajorVersionRepo. rewrite Hdistro, Hplatform, Hlts, Hparse. cbn.
  rewrite decide_False by done.
  assert ((3 <? major)%Z || ((major =? 3)%Z && (2 <=? minor)%Z) =
    bool_decide (3 < major \/ (major = 3 /\ 2 <= minor))%Z) as ->.
  { case_bool_decide; lia. }
  destruct (decide _); [rewrite bool_decide_true by done|rewrite bool_decide_false by done]; by destruct p.
Qed.

(** ** Settings with variables *)

(** The variables of the settings. *)
Definition variables : list string :=
  ["releasever"; "osversion"; "arch"; "beegfsVersion"; "zabbixVersion"; "xcatVersion"; "ohpcVersion"; "ofedVersion";
   "ofedRepoTarget"; "cudaGPGKey"; "rhelBaseMirrorGPGKey"; "rhelCodeReadyMirrorRepo"; "rhelCodeReadyMirrorGPGKey"].

Definition known_piece (p : piece) : bool :=
  match p with Text _ => true | Field name => bool_decide (name ∈ variables) end.

Definition pattern_ok (ps : list piece) : bool := forallb piece_ok ps && forallb known_piece ps.
Definition expansion (vars : RepoConfigVars) (ps : list piece) : string := default "" (expand (var_args vars) ps).

(** One group of a settings file: every text a pattern. *)
Record GroupSettings := mkGroupSettings {
  gs_id : list piece;
  gs_name : list piece;
  gs_filename : string;
  gs_mirror_repo : option (list piece);
  gs_mirror_gpgkey : option (list piece);
  gs_upstream_repo : list piece;
  gs_upstream_gpgkey : option (list piece);
}.

Definition pattern_opt (ps : option (list piece)) : bool := from_option pattern_ok true ps.

Definition settings_ok (g : GroupSettings) : bool :=
  pattern_ok (gs_id g) && pattern_ok (gs_name g) && negb (empty (template (gs_name g))) &&
  negb (empty (gs_filename g)) && pattern_opt (gs_mirror_repo g) && pattern_opt (gs_mirror_gpgkey g) &&
  pattern_ok (gs_upstream_repo g) && negb (empty (template (gs_upstream_repo g))) && pattern_opt (gs_upstream_gpgkey g).

(** The file has the settings in their group. *)
Definition has_settings `{GKeyFile} (k : KeyFile) (g : GroupSettings) : Prop :=
  let group := template (gs_id g) in
  getString k group "name" = Ok (template (gs_name g)) /\
  getString k group "filename" = Ok (gs_filename g) /\
  getStringOpt k group "mirror.repo" = Ok (template <$> gs_mirror_repo g) /\
  getStringOpt k group "mirror.gpgkey" = Ok (template <$> gs_mirror_gpgkey g) /\
  getString k group "upstream.repo" = Ok (template (gs_upstream_repo g)) /\
  getStringOpt k group "upstream.gpgkey" = Ok (template <$> gs_upstream_gpgkey g).

(** A key that comes to nothing is no key. *)
Definition expanded_key (vars : RepoConfigVars) (ps : option (list piece)) : option string :=
  ps ← ps; let key := expansion vars ps in if empty key then None else Some key.

Definition expanded (vars : RepoConfigVars) (g : GroupSettings) : RepoConfig :=
  mkRepoConfig (mkRepoId (expansion vars (gs_id g)) (expansion vars (gs_name g)) (gs_filename g))
    (mkRepoPaths (from_option (expansion vars) "" (gs_mirror_repo g)) (expanded_key vars (gs_mirror_gpgkey g)))
    (mkRepoPaths (expansion vars (gs_upstream_repo g)) (expanded_key vars (gs_upstream_gpgkey g))).

Section settings.
Context `{FmtLaws} `{GKeyFile}.

Lemma named_variable vars name : name ∈ variables -> is_Some (named (var_args vars) name).
Proof.
  unfold variables. rewrite !elem_of_cons, elem_of_nil. intros Hn.
  repeat (destruct Hn as [-> | Hn]; [by eexists|]). done.
Qed.

Lemma expand_known vars ps : forallb known_piece ps = true -> is_Some (expand (var_args vars) ps).
Proof.
  induction ps as [|[s|name] ps IH]; [by eexists|..]; cbn [forallb known_piece]; intros [Hn Hps]%andb_true_iff;
    destruct (IH Hps) as [text Ht]; cbn [expand]; rewrite Ht; [by eexists|].
  apply bool_decide_eq_true in Hn. destruct (named_variable vars name Hn) as [v ->]. by eexists.
Qed.

Lemma interpolate_pattern vars ps message :
  pattern_ok ps = true -> interpolate_or (template ps) vars message = Ok (expansion vars ps).
Proof.
  intros [Hp Hk]%andb_true_iff. destruct (expand_known vars ps Hk) as [text Ht].
  pose proof (vformat_template (var_args vars) ps Hp) as Hf. rewrite Ht in Hf.
  unfold interpolate_or, interpolateVars, expansion. by rewrite Hf, Ht.
Qed.

Lemma interpolate_key_pattern vars ps message :
  pattern_opt ps = true -> interpolate_key (template <$> ps) vars message = Ok (expanded_key vars ps).
Proof.
  destruct ps as [ps|]; [|done]. cbn. intros Hp. by rewrite interpolate_pattern.
Qed.

Lemma required_present k group key v : getString k group key = Ok v -> empty v = false -> required k group key = Ok v.
Proof. intros Hv He. unfold required. rewrite Hv. cbn. by rewrite He. Qed.

Lemma parse_config_settings k vars g :
  settings_ok g = true -> has_settings k g -> parse_config k vars (template (gs_id g)) = Ok (expanded vars g).
Proof.
  unfold settings_ok. rewrite !andb_true_iff, !negb_true_iff.
  intros ((((((((Hid & Hname) & Hne) & Hfe) & Hm) & Hmk) & Hu) & Hue) & Huk) (Fname & Ffile & Fm & Fmk & Fu & Fuk).
  unfold parse_config. rewrite interpolate_pattern by done. cbn.
  rewrite (required_present _ _ _ _ Fname Hne). cbn. rewrite interpolate_pattern by done. cbn.
  rewrite (required_present _ _ _ _ Ffile Hfe). cbn. rewrite Fm. cbn.
  assert (match template <$> gs_mirror_repo g with
          | Some mirrorRepo => interpolate_or mirrorRepo vars
              (fun _ => in_repo "Could not interpolate mirror.repo from" (template (gs_id g)))
          | None => Ok ""
          end = Ok (from_option (expansion vars) "" (gs_mirror_repo g))) as ->.
  { destruct (gs_mirror_repo g); [|done]. cbn in *. by apply interpolate_pattern. }
  cbn. rewrite Fmk. cbn. rewrite interpolate_key_pattern by done. cbn.
  rewrite (required_present _ _ _ _ Fu Hue). cbn. rewrite interpolate_pattern by done. cbn.
  rewrite Fuk. cbn. by rewrite interpolate_key_pattern.
Qed.

Lemma parse_all_settings k vars l :
  Forall (fun g => settings_ok g = true /\ has_settings k g) l ->
  mapo (parse_config k vars) ((fun g => template (gs_id g)) <$> l) = Ok (expanded vars <$> l).
Proof.
  intros Hl. apply mapo_Ok_Forall2, Forall2_fmap, Forall_Forall2_diag.
  eapply Forall_impl; [exact Hl|]. intros g [Hok Hg]. by apply parse_config_settings.
Qed.
End settings.

(** Settings are kept by file name, in order. *)
Definition settings_for (filename : string) (l : list RepoConfig) : list RepoConfig :=
  filter (fun c => ri_filename (repoId c) = filename) l.

Lemma conf_insert_lookup f c filename :
  insert_config f c !! filename =
  if decide (ri_filename (repoId c) = filename) then Some (default [] (f !! filename) ++ [c]) else f !! filename.
Proof.
  unfold insert_config, conf_insert, RepoConfFile in *. set (name := ri_filename (repoId c)).
  set (f' := match f !! name with None => emplace name [] f | Some _ => f end).
  assert (forall x, f' !! x = if decide (name = x) then Some (default [] (f !! x)) else f !! x) as Hf'.
  { intros x. unfold f'. destruct (f !! name) eqn:Hn; [case_decide as Hx; [subst x; by rewrite Hn|done]|].
    rewrite emplace_lookup. destruct (f !! x) eqn:Hx; case_decide; [congruence|done|done|done]. }
  case_decide as Hn.
  - subst filename. rewrite lookup_insert_eq, Hf', decide_True by done. done.
  - by rewrite lookup_insert_ne, Hf', decide_False.
Qed.

Lemma insert_all_lookup l f filename :
  foldl insert_config f l !! filename =
  match settings_for filename l with [] => f !! filename | cs => Some (default [] (f !! filename) ++ cs) end.
Proof.
  unfold settings_for. induction l as [|c l IH] using rev_ind; [done|].
  rewrite foldl_snoc, conf_insert_lookup, IH, filter_app, filter_cons, filter_nil. case_decide as Hc.
  - destruct (filter _ l) as [|c' l']; [done|]. cbn. f_equal. by rewrite <- app_assoc.
  - rewrite app_nil_r. done.
Qed.

(** A settings file of patterns over the known variables is read as their
    expansions, every group under the file it names, in the order of the file,
    after what was there; a key that expands to nothing is left out. *)
Theorem settings_file_spec `{FmtLaws} `{GKeyFile} (entries : list (string * string)) (path : string)
    (output : RepoConfFile) (vars : RepoConfigVars) (w : World) (k : KeyFile) (l : list GroupSettings)
    (Hfile : is_regular_file w path = true) (Hdir : is_directory w path = false)
    (Hk : KeyFile_make (contents w) path true = Ok k)
    (Hgroups : getGroups k = (fun g => template (gs_id g)) <$> l)
    (Hl : Forall (fun g => settings_ok g = true /\ has_settings k g) l) :
  exists f, parse entries path output vars w = (Ok f, w) /\
    forall filename, f !! filename =
      match settings_for filename (expanded vars <$> l) with
      | [] => output !! filename
      | cs => Some (default [] (output !! filename) ++ cs)
      end.
Proof.
  eexists. split; [|intros filename; apply insert_all_lookup].
  unfold parse, ask, gets. unfold mbind at 1, M_bind at 1. unfold fs_exists. rewrite Hfile. cbn [orb].
  unfold mbind at 1, M_bind at 1. cbn [mret M_ret negb].
  rewrite (M_bind_ok _ _ w k w) by (unfold open_keyfile; rewrite Hdir, Hk; done).
  rewrite Hgroups. by rewrite (M_bind_ok _ _ _ _ _ (lift_ok _ _ w (parse_all_settings k vars l Hl))).
Qed.
