(* ===== verification/Server.v ===== *)
(** * Servers

    The hardware and host models: [src/models/cpu.cpp], [src/services/bmc.cpp],
    [server.cpp], [node.cpp], [headnode.cpp], [queuesystem.cpp] and [pbs.cpp].
    A node is a server with inventory data, a headnode one with a boot target. *)

From stdpp Require Import base strings list relations.
From Stdlib Require Import ZArith Lia Ascii.
From S2P Require Import Prelude CppString Regex External Enums Os.
From S2P Require Network Connection.

Local Open Scope Z_scope.

(** ** CPU topology, in [std::size_t] *)

Record CPU := mkCPU {
  m_sockets : Z;
  m_cores : Z;
  m_threads : Z;
  m_coresPerSocket : Z;
  m_threadsPerCore : Z;
}.

Definition checkTopology (c : CPU) : outcome unit :=
  if (m_sockets c =? 0) || (m_cores c =? 0) || (m_threads c =? 0) || (m_coresPerSocket c =? 0)
     || (m_threadsPerCore c =? 0)
  then Throw (RuntimeError "Invalid number of processors")
  else if negb (m_threads c =? u64 (m_cores c * m_threadsPerCore c))
  then Throw (RuntimeError "Total number of threads is not valid")
  else if negb (m_cores c =? u64 (m_sockets c * m_coresPerSocket c))
  then Throw (RuntimeError "Total number of cores is not valid")
  else Ok tt.

Definition CPU_default : CPU := mkCPU 0 0 0 0 0.

Definition CPU_full (sockets cores threads coresPerSocket threadsPerCore : Z) : outcome CPU :=
  let c := mkCPU sockets cores threads coresPerSocket threadsPerCore in
  _ ← checkTopology c; Ok c.

Definition CPU_make (sockets coresPerSocket threadsPerCore : Z) : outcome CPU :=
  CPU_full sockets (u64 (coresPerSocket * sockets))
    (u64 (u64 (threadsPerCore * coresPerSocket) * sockets)) coresPerSocket threadsPerCore.

Definition setSockets v (c : CPU) : CPU :=
  mkCPU v (m_cores c) (m_threads c) (m_coresPerSocket c) (m_threadsPerCore c).
Definition setCores v (c : CPU) : CPU :=
  mkCPU (m_sockets c) v (m_threads c) (m_coresPerSocket c) (m_threadsPerCore c).
Definition setThreads v (c : CPU) : CPU :=
  mkCPU (m_sockets c) (m_cores c) v (m_coresPerSocket c) (m_threadsPerCore c).
Definition setCoresPerSocket v (c : CPU) : CPU :=
  mkCPU (m_sockets c) (m_cores c) (m_threads c) v (m_threadsPerCore c).
Definition setThreadsPerCore v (c : CPU) : CPU :=
  mkCPU (m_sockets c) (m_cores c) (m_threads c) (m_coresPerSocket c) v.

(** ** BMC *)

Module BMCKind.
Inductive t := IPMI.
#[global] Instance t_eq_dec : EqDecision t. Proof. solve_decision. Defined.
#[global, program] Instance t_enum : CppEnum t := {|
  enum_values := [IPMI]; enum_name x := match x with IPMI => "IPMI" end |}.
Solve All Obligations with solve_enum.
End BMCKind.

Record BMC := mkBMC {
  b_address : string;
  b_username : string;
  b_password : string;
  b_serialPort : Z;
  b_serialSpeed : Z;
  b_kind : BMCKind.t;
}.

#[export] Instance BMC_eq_dec : EqDecision BMC.
Proof. solve_decision. Defined.

Definition BMC_default : BMC := mkBMC "" "" "" 0 115200 BMCKind.IPMI.

(** ** Servers *)

Section server.
Context `{Asio} `{BoostText}.

Record Server := mkServer {
  s_hostname : string;
  s_os : OS;
  s_cpu : CPU;
  s_connection : list Connection.Connection;
  s_bmc : option BMC;
  s_fqdn : string;
}.

Definition put_s_hostname v (s : Server) : Server :=
  mkServer v (s_os s) (s_cpu s) (s_connection s) (s_bmc s) (s_fqdn s).
Definition put_s_os v (s : Server) : Server :=
  mkServer (s_hostname s) v (s_cpu s) (s_connection s) (s_bmc s) (s_fqdn s).
Definition put_s_cpu v (s : Server) : Server :=
  mkServer (s_hostname s) (s_os s) v (s_connection s) (s_bmc s) (s_fqdn s).
Definition put_s_connection v (s : Server) : Server :=
  mkServer (s_hostname s) (s_os s) (s_cpu s) v (s_bmc s) (s_fqdn s).
Definition put_s_bmc v (s : Server) : Server :=
  mkServer (s_hostname s) (s_os s) (s_cpu s) (s_connection s) v (s_fqdn s).
Definition put_s_fqdn v (s : Server) : Server :=
  mkServer (s_hostname s) (s_os s) (s_cpu s) (s_connection s) (s_bmc s) v.

Definition setHostname (hostname : string) : M Server unit := modify (put_s_hostname hostname).
Definition setFQDN (fqdn : string) : M Server unit := modify (put_s_fqdn fqdn).
Definition setOS (os : OS) : M Server unit := modify (put_s_os os).
Definition setCPU (cpu : CPU) : M Server unit := modify (put_s_cpu cpu).
Definition setBMC (bmc : BMC) : M Server unit := modify (put_s_bmc (Some bmc)).
Definition setConnection (l : list Connection.Connection) : M Server unit :=
  modify (put_s_connection l).

(** [Server(hostname, os, cpu, connections, bmc)] *)
Definition Server_full (hostname : string) (os : OS) (cpu : CPU)
    (connections : list Connection.Connection) (bmc : option BMC) : outcome Server :=
  construct (setHostname hostname) (mkServer "" os cpu connections bmc "").

(** [Server() = default]: the operating system member probes the host. *)
Definition Server_default (host : outcome HostOSProbe) : outcome Server :=
  os ← OS_host host; Ok (mkServer "" os CPU_default [] None "").

Definition emplace_connection (c : outcome Connection.Connection) : M Server unit :=
  c ← lift c; modify (fun s => put_s_connection (s_connection s ++ [c]) s).

Definition addConnection_network (networks : Connection.NetworkPtr -> Network.Network)
    (network : Connection.NetworkPtr) : M Server unit :=
  emplace_connection (Connection.Connection_network networks network).

Definition addConnection_full (networks : Connection.NetworkPtr -> Network.Network)
    (ifs : Network.getifaddrs_result) (network : Connection.NetworkPtr)
    (interface : option string) (mac ip : string) : M Server unit :=
  emplace_connection (Connection.Connection_full networks ifs network interface (Some mac) ip).

Definition addConnection (c : Connection.Connection) : M Server unit := emplace_connection (Ok c).

Fixpoint getConnection_loop (networks : Connection.NetworkPtr -> Network.Network)
    (l : list Connection.Connection) (profile : Network.Profile.t)
  : outcome Connection.Connection :=
  match l with
  | [] => Throw (RuntimeError ("Cannot get any connection with profile " +:+ toString profile))
  | c :: l' =>
      if decide (Network.m_profile (networks (Connection.m_network c)) = profile)
      then Ok c else getConnection_loop networks l' profile
  end.

Definition getConnection (networks : Connection.NetworkPtr -> Network.Network) (s : Server)
    (profile : Network.Profile.t) : outcome Connection.Connection :=
  getConnection_loop networks (s_connection s) profile.

(** *** Validation

    [std::expected<std::string_view, std::string>].  Returning a
    [std::string] initialises the value, not the error, with a view of a
    temporary that is gone when the caller looks at it. *)
Inductive string_view := View (s : string) | Dangling.
Inductive expected := Value (v : string_view) | Unexpected (e : string).

Definition return_string (s : string) : expected := Value Dangling.

Definition validateHostname (s : Server) : outcome expected :=
  if 63 <? size (s_hostname s) then
    Throw (ThrownString "Hostname cannot be bigger than 63 characters")
  else if starts_with_char "-" (s_hostname s) || ends_with_char "-" (s_hostname s) then
    Throw (ThrownString "Invalid hostname")
  else if regex_match Network.regex_digits (s_hostname s) then
    Throw (ThrownString "Hostname cannot contain only digits")
  else if negb (regex_match Connection.regex_hostname (s_hostname s)) then
    Ok (return_string "Hostname can only have alphanumerics")
  else Ok (Value (View (s_hostname s))).

Definition fqdn_alnum (c : ascii) : bool := is_alpha c || is_digit c.     (* [a-zA-Z0-9] *)
(* [a-zA-Z0-9\\-] in a raw string: the backslash is a member of the class *)
Definition fqdn_inner (c : ascii) : bool :=
  fqdn_alnum c || Ascii.eqb c "\" || Ascii.eqb c "-".
Definition fqdn_label : regex :=
  RCat (RSet fqdn_alnum) (ROpt (RCat (RStar (RSet fqdn_inner)) (RSet fqdn_alnum))).
Definition fqdnPattern : regex := RCat (RPlus (RCat fqdn_label (RChar "."))) fqdn_label.

Definition validateFQDN (s : Server) : outcome expected :=
  if 255 <? size (s_fqdn s) then Ok (return_string "FQDN cannot be bigger than 255 characters")
  else if negb (regex_match fqdnPattern (s_fqdn s)) then Ok (return_string "Invalid FQDN format")
  else Ok (Value (View (s_fqdn s))).

(** ** Nodes *)

Record Node := mkNode {
  n_server : Server;
  m_prefix : option string;
  m_padding : option Z;
  m_node_start_ip : option address;
  m_mac_address : string;
  m_node_root_password : option string;
}.

Definition put_n_server v (n : Node) : Node :=
  mkNode v (m_prefix n) (m_padding n) (m_node_start_ip n) (m_mac_address n) (m_node_root_password n).
Definition setPrefix v (n : Node) : Node :=
  mkNode (n_server n) v (m_padding n) (m_node_start_ip n) (m_mac_address n) (m_node_root_password n).
Definition setPadding v (n : Node) : Node :=
  mkNode (n_server n) (m_prefix n) v (m_node_start_ip n) (m_mac_address n) (m_node_root_password n).
Definition setNodeStartIp v (n : Node) : Node :=
  mkNode (n_server n) (m_prefix n) (m_padding n) v (m_mac_address n) (m_node_root_password n).
Definition setMACAddress (macAddress : string) (n : Node) : Node :=
  mkNode (n_server n) (m_prefix n) (m_padding n) (m_node_start_ip n)
    (to_lower_copy macAddress) (m_node_root_password n).
Definition setNodeRootPassword v (n : Node) : Node :=
  mkNode (n_server n) (m_prefix n) (m_padding n) (m_node_start_ip n) (m_mac_address n) v.

Definition Node_full (hostname : string) (os : OS) (cpu : CPU)
    (connections : list Connection.Connection) (bmc : option BMC) : outcome Node :=
  s ← Server_full hostname os cpu connections bmc; Ok (mkNode s None None None "" None).

Definition Node_default (host : outcome HostOSProbe) : outcome Node :=
  s ← Server_default host; Ok (mkNode s None None None "" None).
End server.

(** ** The headnode *)

Module BootTarget.
Inductive t := Text | Graphical.
#[global] Instance t_eq_dec : EqDecision t. Proof. solve_decision. Defined.
End BootTarget.

Record Headnode `{Asio} := mkHeadnode { h_server : Server; m_bootTarget : BootTarget.t }.

(** [nodename] is that of [uname]; [hostparts\[0\]] exists since a split has
    at least one part. *)
Definition discoverNames `{Asio} `{BoostText} (nodename : string) : M Server unit :=
  let fqdn := nodename in
  let hostparts := split_any "." false fqdn in
  hostname ← (if empty fqdn then mret "localhost" else lift (deref (hostparts !! 0%nat)));
  let hasDomain :=
    match hostparts !! 1%nat with
    | Some part => negb (empty part) && negb (String.eqb part "(none)")
    | None => false
    end in
  _ ← setHostname hostname;
  setFQDN (if hasDomain then fqdn else hostname +:+ ".localdomain").

Definition Headnode_make `{Asio} `{BoostText} (host : outcome HostOSProbe) (nodename : string)
  : outcome Headnode :=
  s ← Server_default host;
  s ← construct (discoverNames nodename) s;
  Ok (mkHeadnode _ s BootTarget.Text).

Definition setBootTarget `{Asio} (t : BootTarget.t) (h : Headnode) : Headnode :=
  mkHeadnode _ (h_server h) t.

(** ** Queue systems *)

Module QueueKind.
Inductive t := None | SLURM | PBS.
#[global] Instance t_eq_dec : EqDecision t. Proof. solve_decision. Defined.
#[global, program] Instance t_enum : CppEnum t := {|
  enum_values := [None; SLURM; PBS];
  enum_name x := match x with None => "None" | SLURM => "SLURM" | PBS => "PBS" end |}.
Solve All Obligations with solve_enum.
End QueueKind.

Module ExecutionPlace.
Inductive t := Shared | Scatter.
#[global] Instance t_eq_dec : EqDecision t. Proof. solve_decision. Defined.
#[global, program] Instance t_enum : CppEnum t := {|
  enum_values := [Shared; Scatter];
  enum_name x := match x with Shared => "Shared" | Scatter => "Scatter" end |}.
Solve All Obligations with solve_enum.
End ExecutionPlace.

(** The cluster reference of the base class is left to the caller. *)
Record QueueSystem := mkQueue {
  q_kind : QueueKind.t;
  q_defaultQueue : string;
  q_executionPlace : ExecutionPlace.t;     (* of a PBS *)
}.

Definition setKind k (q : QueueSystem) : QueueSystem := mkQueue k (q_defaultQueue q) (q_executionPlace q).
Definition setDefaultQueue d (q : QueueSystem) : QueueSystem := mkQueue (q_kind q) d (q_executionPlace q).
Definition setExecutionPlace e (q : QueueSystem) : QueueSystem := mkQueue (q_kind q) (q_defaultQueue q) e.

Definition QueueSystem_make : QueueSystem := mkQueue QueueKind.None "" ExecutionPlace.Shared.
Definition PBS_make : QueueSystem :=
  setDefaultQueue "execution" (setKind QueueKind.PBS QueueSystem_make).
Definition SLURM_make : QueueSystem := setKind QueueKind.SLURM QueueSystem_make.

(** ** Topology *)

Lemma u64_mul_l a b : u64 (u64 a * b) = u64 (a * b).
Proof. unfold u64. by rewrite Z.mul_mod_idemp_l by lia. Qed.

(** A CPU given by sockets, cores per socket and threads per core: the
    constructor succeeds exactly when none of the counts or of the 64-bit
    products is zero, so it is the zero checks alone that decide (the two
    equations of [checkTopology] always hold of the wrapped products); when
    the products fit in 64 bits the totals are the exact ones. *)
Theorem CPU_make_spec (sockets coresPerSocket threadsPerCore : Z) :
  0 <= sockets < 2 ^ 64 -> 0 <= coresPerSocket < 2 ^ 64 -> 0 <= threadsPerCore < 2 ^ 64 ->
  let cores := u64 (sockets * coresPerSocket) in
  let threads := u64 (sockets * coresPerSocket * threadsPerCore) in
  CPU_make sockets coresPerSocket threadsPerCore =
    (if decide (threads = 0) then Throw (RuntimeError "Invalid number of processors")
     else Ok (mkCPU sockets cores threads coresPerSocket threadsPerCore)) /\
  (0 < sockets -> 0 < coresPerSocket -> 0 < threadsPerCore ->
   sockets * coresPerSocket * threadsPerCore < 2 ^ 64 ->
   CPU_make sockets coresPerSocket threadsPerCore =
     Ok (mkCPU sockets (sockets * coresPerSocket) (sockets * coresPerSocket * threadsPerCore)
           coresPerSocket threadsPerCore)).
Proof.
  intros Hs Hc Ht cores threads.
  assert (CPU_make sockets coresPerSocket threadsPerCore =
    if decide (threads = 0) then Throw (RuntimeError "Invalid number of processors")
    else Ok (mkCPU sockets cores threads coresPerSocket threadsPerCore)) as Hmake.
  { unfold CPU_make, CPU_full.
    assert (u64 (u64 (threadsPerCore * coresPerSocket) * sockets) = threads) as ->.
    { rewrite u64_mul_l. unfold threads. f_equal. lia. }
    replace (coresPerSocket * sockets) with (sockets * coresPerSocket) by lia. fold cores.
    assert (u64 (cores * threadsPerCore) = threads) as Hth by apply u64_mul_l.
    assert (sockets = 0 \/ coresPerSocket = 0 \/ threadsPerCore = 0 \/ cores = 0 -> threads = 0) as Hz.
    { rewrite <- Hth. unfold cores.
      intros [->|[->|[->|H]]]; rewrite ?Z.mul_0_l, ?Z.mul_0_r; try done.
      fold cores in H |- *. by rewrite H, Z.mul_0_l. }
    unfold checkTopology. cbn [m_sockets m_cores m_threads m_coresPerSocket m_threadsPerCore].
    fold cores. rewrite Hth, !Z.eqb_refl. cbn [negb].
    destruct (Z.eqb_spec threads 0) as [E|E].
    - rewrite !orb_true_r, !orb_true_l. cbn. by rewrite decide_True.
    - rewrite decide_False by done.
      assert (forall z, (z = 0 -> threads = 0) -> (z =? 0) = false) as Hne.
      { intros z Hzz. apply Z.eqb_neq. tauto. }
      by rewrite (Hne sockets), (Hne cores), (Hne coresPerSocket), (Hne threadsPerCore) by tauto. }
  split; [done|]. intros. rewrite Hmake.
  assert (0 < sockets * coresPerSocket) by nia.
  assert (sockets * coresPerSocket <= sockets * coresPerSocket * threadsPerCore) by nia.
  unfold threads, cores. rewrite !u64_id by lia. rewrite decide_False by nia. done.
Qed.

(** A wrapped product goes unnoticed. *)
Example CPU_make_wraps :
  CPU_make (2 ^ 63 + 1) 2 1 = Ok (mkCPU (2 ^ 63 + 1) 2 2 2 1).
Proof. vm_compute. reflexivity. Qed.

(** ** Name validation *)

(** [validateHostname] never returns an error: a name that is too long,
    hyphenated at an end, or all digits makes it throw a [std::string]
    (which is not a [std::exception]); every other inadmissible name, the
    empty one included, is reported as a value, a dangling view.  Only an
    admissible name comes back as itself.  [validateFQDN] likewise always
    returns a value. *)
Theorem validate_never_errors `{Asio} (s : Server) :
  match validateHostname s with
  | Ok (Value (View h)) => h = s_hostname s /\ Connection.valid_hostname h
  | Ok (Value Dangling) =>
      size (s_hostname s) <= 63 /\
      (s_hostname s = "" \/ sforall Connection.hostname_char (s_hostname s) = false)
  | Ok (Unexpected _) => False
  | Throw e => is_std_exception e = false /\ ~ Connection.valid_hostname (s_hostname s)
  | UB => False
  end /\
  (exists v, validateFQDN s = Ok (Value v)).
Proof.
  split.
  - unfold validateHostname, Connection.valid_hostname, Network.regex_digits, Connection.regex_hostname.
    rewrite !regex_plus_set. set (h := s_hostname s).
    destruct (Z.ltb_spec 63 (size h)).
    { split; [done|]. intros (_ & ? & _). lia. }
    destruct (starts_with_char "-" h) eqn:H1; [cbn; split; [done|]; intros (_ & _ & ? & _); done|].
    destruct (ends_with_char "-" h) eqn:H2; [cbn; split; [done|]; intros (_ & _ & _ & ? & _); done|].
    destruct (empty h) eqn:He.
    { cbn. split; [done|]. left. by destruct h. }
    destruct (sforall is_digit h) eqn:H3; [cbn; split; [done|]; intros (_ & _ & _ & _ & ? & _); done|].
    destruct (sforall Connection.hostname_char h) eqn:Hc; cbn -[size]; [repeat split; done || lia|]. split; [done|by right].
  - unfold validateFQDN. repeat case_match; by eexists.
Qed.

(** The pattern was meant to escape the hyphen; in a raw string it admits
    backslashes. *)
Example validateFQDN_backslash `{Asio} (os : OS) :
  validateFQDN (mkServer "n01" os CPU_default [] None "a\b.cluster") =
  Ok (Value (View "a\b.cluster")).
Proof. vm_compute. reflexivity. Qed.

(** ** Connections of a server *)

(** [getConnection] returns the first connection whose network has the
    profile, reading the profile through the pointer at the time of the call;
    it throws exactly when there is none. *)
Theorem getConnection_spec `{Asio} networks (s : Server) profile :
  match getConnection networks s profile with
  | Ok c => exists l1 l2, s_connection s = l1 ++ c :: l2 /\
      Network.m_profile (networks (Connection.m_network c)) = profile /\
      Forall (fun c' => Network.m_profile (networks (Connection.m_network c')) <> profile) l1
  | Throw e => e = RuntimeError ("Cannot get any connection with profile " +:+ toString profile) /\
      Forall (fun c' => Network.m_profile (networks (Connection.m_network c')) <> profile) (s_connection s)
  | UB => False
  end.
Proof.
  unfold getConnection. induction (s_connection s) as [|c l IH]; cbn; [done|].
  case_decide as Hp; [by exists [], l|].
  destruct (getConnection_loop networks l profile) as [c'|e|]; [|naive_solver|done].
  destruct IH as (l1 & l2 & -> & Hc & Hl). exists (c :: l1), l2. by repeat constructor.
Qed.

(** ** Discovering the names of the headnode *)

(** A text up to its first dot, and the rest if there is one. *)
Lemma split_dot `{BoostTextLaws} s :
  (no_char "." s = true /\ split_any "." false s = [s]) \/
  exists w r, s = w +:+ String "." r /\ no_char "." w = true /\
    split_any "." false s = w :: split_any "." false r.
Proof.
  destruct (find_char "." s) as [i|] eqn:Hf.
  - apply find_first_Some in Hf as (c & Hs & Hc%Ascii.eqb_eq & Hw). subst c. right.
    exists (stake i s), (sdrop (S i) s). repeat split; [done..|]. rewrite Hs at 1.
    by apply split_char_cons.
  - apply no_char_find in Hf. left. split; [done|]. by apply split_char_last.
Qed.

Lemma split_dot_head `{BoostTextLaws} s :
  exists w l, split_any "." false s = w :: l /\
    (empty w = false -> starts_with_char "." s = false /\ empty s = false).
Proof.
  assert (forall c w s', no_char "." (String c w) = true -> starts_with_char "." (String c s') = false) as Hc.
  { intros c w s' [Hn%negb_true_iff _]%andb_true_iff. exact Hn. }
  destruct (split_dot s) as [[Hn ->]|(w & r & -> & Hn & ->)]; do 2 eexists; (split; [reflexivity|]);
    intros.
  - destruct s as [|c s]; [done|]. split; [by eapply Hc|done].
  - destruct w as [|c w]; [done|]. rewrite app_cons. split; [by eapply Hc|done].
Qed.

(** Whatever [uname] reports as the node name, the headnode gets a host
    name without dots and an FQDN that is this host name followed by a dot
    and a domain: the reported one if there is one that is neither empty nor
    starting with an empty label, and [localdomain] otherwise. *)
Theorem discoverNames_spec `{BoostTextLaws} `{Asio} (nodename : string) (s : Server) :
  exists host,
    (discoverNames nodename s).1 = Ok tt /\
    let s' := (discoverNames nodename s).2 in
    s_hostname s' = host /\ no_char "." host = true /\
    (s_fqdn s' = host +:+ ".localdomain" \/
     exists domain, nodename = host +:+ "." +:+ domain /\ s_fqdn s' = nodename /\
       starts_with_char "." domain = false /\ empty domain = false).
Proof.
  unfold discoverNames. cpp_simpl.
  destruct (split_dot nodename) as [[Hn ->]|(w & r & -> & Hn & ->)].
  { exists (if empty nodename then "localhost" else nodename).
    destruct (empty nodename); cbn; auto. }
  assert (empty (w +:+ String "." r) = false) as -> by (by destruct w). cbn.
  exists w. split; [done|]. split; [done|]. split; [done|].
  destruct (split_dot_head r) as (x & l & -> & Hx). cbn.
  destruct (empty x); cbn; [by left|]. destruct (Hx eq_refl) as [Hd He].
  destruct (String.eqb x "(none)"); cbn; [by left|].
  right. by exists r.
Qed.
