(* ===== verification/AnswerFileData.v ===== *)
(** * The answer file: data

    The structures of [include/opencattus/models/answerfile.h], with
    functional updates of the members the loaders assign one by one.  Members
    without an initialiser ([distro], [profile]) are [None] until assigned. *)

From stdpp Require Import base strings list.
From Stdlib Require Import ZArith Lia Ascii.
From S2P Require Import Prelude CppString External Enums KeyFile.
From S2P Require Export Os Server.

Local Open Scope Z_scope.

(** [Postfix::Profile] *)
Module PostfixProfile.
Inductive t := Local | Relay | SASL.
#[global] Instance t_eq_dec : EqDecision t. Proof. solve_decision. Defined.
#[global, program] Instance t_enum : CppEnum t := {|
  enum_values := [Local; Relay; SASL];
  enum_name x := match x with Local => "Local" | Relay => "Relay" | SASL => "SASL" end |}.
Solve All Obligations with solve_enum.
End PostfixProfile.

(** [OFED::Kind] *)
Module OFEDKind.
Inductive t := Inbox | Doca | Oracle.
#[global] Instance t_eq_dec : EqDecision t. Proof. solve_decision. Defined.
#[global, program] Instance t_enum : CppEnum t := {|
  enum_values := [Inbox; Doca; Oracle];
  enum_name x := match x with Inbox => "Inbox" | Doca => "Doca" | Oracle => "Oracle" end |}.
Solve All Obligations with solve_enum.
End OFEDKind.

Section data.
Context `{Asio} `{GKeyFile}.

Record AFNode := mkAFNode {
  nd_prefix : option string;
  nd_padding : option string;
  nd_start_ip : option address;
  nd_hostname : option string;
  nd_root_password : option string;
  nd_mac_address : option string;
  nd_sockets : option string;
  nd_cores_per_socket : option string;
  nd_threads_per_core : option string;
  nd_cpus_per_node : option string;
  nd_real_memory : option string;
  nd_bmc_address : option string;
  nd_bmc_username : option string;
  nd_bmc_password : option string;
  nd_bmc_serialport : option string;
  nd_bmc_serialspeed : option string;
}.

Definition put_nd_hostname (v : option string) (a : AFNode) : AFNode :=
  mkAFNode (nd_prefix a) (nd_padding a) (nd_start_ip a) v (nd_root_password a) (nd_mac_address
    a) (nd_sockets a) (nd_cores_per_socket a) (nd_threads_per_core a) (nd_cpus_per_node a)
    (nd_real_memory a) (nd_bmc_address a) (nd_bmc_username a) (nd_bmc_password a)
    (nd_bmc_serialport a) (nd_bmc_serialspeed a).

(** [start_ip] defaults to [address()]. *)
Definition AFNode_default : AFNode :=
  mkAFNode None None (Some default_address) None None None None None None None None None None None
    None None.

Record AFNetwork := mkAFNetwork {
  nw_subnet_mask : option address;
  nw_gateway : option address;
  nw_domain_name : option string;
  nw_nameservers : option (list string);
  nw_con_interface : option string;
  nw_con_ip_addr : option address;
  nw_con_mac_addr : option string;
}.

Definition put_nw_subnet_mask (v : option address) (a : AFNetwork) : AFNetwork :=
  mkAFNetwork v (nw_gateway a) (nw_domain_name a) (nw_nameservers a) (nw_con_interface a)
    (nw_con_ip_addr a) (nw_con_mac_addr a).
Definition put_nw_gateway (v : option address) (a : AFNetwork) : AFNetwork :=
  mkAFNetwork (nw_subnet_mask a) v (nw_domain_name a) (nw_nameservers a) (nw_con_interface a)
    (nw_con_ip_addr a) (nw_con_mac_addr a).
Definition put_nw_domain_name (v : option string) (a : AFNetwork) : AFNetwork :=
  mkAFNetwork (nw_subnet_mask a) (nw_gateway a) v (nw_nameservers a) (nw_con_interface a)
    (nw_con_ip_addr a) (nw_con_mac_addr a).
Definition put_nw_nameservers (v : option (list string)) (a : AFNetwork) : AFNetwork :=
  mkAFNetwork (nw_subnet_mask a) (nw_gateway a) (nw_domain_name a) v (nw_con_interface a)
    (nw_con_ip_addr a) (nw_con_mac_addr a).
Definition put_nw_con_interface (v : option string) (a : AFNetwork) : AFNetwork :=
  mkAFNetwork (nw_subnet_mask a) (nw_gateway a) (nw_domain_name a) (nw_nameservers a) v
    (nw_con_ip_addr a) (nw_con_mac_addr a).
Definition put_nw_con_ip_addr (v : option address) (a : AFNetwork) : AFNetwork :=
  mkAFNetwork (nw_subnet_mask a) (nw_gateway a) (nw_domain_name a) (nw_nameservers a)
    (nw_con_interface a) v (nw_con_mac_addr a).
Definition put_nw_con_mac_addr (v : option string) (a : AFNetwork) : AFNetwork :=
  mkAFNetwork (nw_subnet_mask a) (nw_gateway a) (nw_domain_name a) (nw_nameservers a)
    (nw_con_interface a) (nw_con_ip_addr a) v.

Record AFInformation := mkAFInformation {
  in_cluster_name : string;
  in_company_name : string;
  in_administrator_email : string;
}.

Definition put_in_cluster_name (v : string) (a : AFInformation) : AFInformation :=
  mkAFInformation v (in_company_name a) (in_administrator_email a).
Definition put_in_company_name (v : string) (a : AFInformation) : AFInformation :=
  mkAFInformation (in_cluster_name a) v (in_administrator_email a).
Definition put_in_administrator_email (v : string) (a : AFInformation) : AFInformation :=
  mkAFInformation (in_cluster_name a) (in_company_name a) v.

Record AFTime := mkAFTime {
  tm_timezone : string;
  tm_timeserver : string;
  tm_locale : string;
}.

Definition put_tm_timezone (v : string) (a : AFTime) : AFTime :=
  mkAFTime v (tm_timeserver a) (tm_locale a).
Definition put_tm_timeserver (v : string) (a : AFTime) : AFTime :=
  mkAFTime (tm_timezone a) v (tm_locale a).
Definition put_tm_locale (v : string) (a : AFTime) : AFTime :=
  mkAFTime (tm_timezone a) (tm_timeserver a) v.

Record AFHostname := mkAFHostname {
  hn_hostname : string;
  hn_domain_name : string;
}.

Definition put_hn_hostname (v : string) (a : AFHostname) : AFHostname :=
  mkAFHostname v (hn_domain_name a).
Definition put_hn_domain_name (v : string) (a : AFHostname) : AFHostname :=
  mkAFHostname (hn_hostname a) v.

Record AFSystem := mkAFSystem {
  sy_disk_image : string;
  sy_distro : option Distro.t;
  sy_version : string;
  sy_kernel : option string;
  sy_provisioner : string;
}.

Definition put_sy_disk_image (v : string) (a : AFSystem) : AFSystem :=
  mkAFSystem v (sy_distro a) (sy_version a) (sy_kernel a) (sy_provisioner a).
Definition put_sy_distro (v : option Distro.t) (a : AFSystem) : AFSystem :=
  mkAFSystem (sy_disk_image a) v (sy_version a) (sy_kernel a) (sy_provisioner a).
Definition put_sy_version (v : string) (a : AFSystem) : AFSystem :=
  mkAFSystem (sy_disk_image a) (sy_distro a) v (sy_kernel a) (sy_provisioner a).
Definition put_sy_kernel (v : option string) (a : AFSystem) : AFSystem :=
  mkAFSystem (sy_disk_image a) (sy_distro a) (sy_version a) v (sy_provisioner a).
Definition put_sy_provisioner (v : string) (a : AFSystem) : AFSystem :=
  mkAFSystem (sy_disk_image a) (sy_distro a) (sy_version a) (sy_kernel a) v.

Record AFSlurm := mkAFSlurm {
  sl_enabled : bool;
  sl_mariadb_root_password : string;
  sl_slurmdb_password : string;
  sl_storage_password : string;
  sl_partition_name : string;
}.

Definition put_sl_enabled (v : bool) (a : AFSlurm) : AFSlurm :=
  mkAFSlurm v (sl_mariadb_root_password a) (sl_slurmdb_password a) (sl_storage_password a)
    (sl_partition_name a).
Definition put_sl_mariadb_root_password (v : string) (a : AFSlurm) : AFSlurm :=
  mkAFSlurm (sl_enabled a) v (sl_slurmdb_password a) (sl_storage_password a) (sl_partition_name
    a).
Definition put_sl_slurmdb_password (v : string) (a : AFSlurm) : AFSlurm :=
  mkAFSlurm (sl_enabled a) (sl_mariadb_root_password a) v (sl_storage_password a)
    (sl_partition_name a).
Definition put_sl_storage_password (v : string) (a : AFSlurm) : AFSlurm :=
  mkAFSlurm (sl_enabled a) (sl_mariadb_root_password a) (sl_slurmdb_password a) v
    (sl_partition_name a).
Definition put_sl_partition_name (v : string) (a : AFSlurm) : AFSlurm :=
  mkAFSlurm (sl_enabled a) (sl_mariadb_root_password a) (sl_slurmdb_password a)
    (sl_storage_password a) v.

Record AFPBS := mkAFPBS {
  pb_enabled : bool;
  pb_execution_place : ExecutionPlace.t;
}.

Definition put_pb_enabled (v : bool) (a : AFPBS) : AFPBS :=
  mkAFPBS v (pb_execution_place a).
Definition put_pb_execution_place (v : ExecutionPlace.t) (a : AFPBS) : AFPBS :=
  mkAFPBS (pb_enabled a) v.

Record AFNodes := mkAFNodes {
  ns_generic : option AFNode;
  ns_nodes : list AFNode;
}.

Definition put_ns_generic (v : option AFNode) (a : AFNodes) : AFNodes :=
  mkAFNodes v (ns_nodes a).
Definition put_ns_nodes (v : list AFNode) (a : AFNodes) : AFNodes :=
  mkAFNodes (ns_generic a) v.

Record SASL := mkSASL {
  sa_username : string;
  sa_password : string;
}.

Record SMTP := mkSMTP {
  sm_server : string;
  sm_port : Z;
  sm_sasl : option SASL;
}.

Record AFPostfix := mkAFPostfix {
  pf_enabled : bool;
  pf_destination : list string;
  pf_profile : option PostfixProfile.t;
  pf_smtp : option SMTP;
  pf_cert_file : string;
  pf_key_file : string;
}.

Definition put_pf_enabled (v : bool) (a : AFPostfix) : AFPostfix :=
  mkAFPostfix v (pf_destination a) (pf_profile a) (pf_smtp a) (pf_cert_file a) (pf_key_file a).
Definition put_pf_destination (v : list string) (a : AFPostfix) : AFPostfix :=
  mkAFPostfix (pf_enabled a) v (pf_profile a) (pf_smtp a) (pf_cert_file a) (pf_key_file a).
Definition put_pf_profile (v : option PostfixProfile.t) (a : AFPostfix) : AFPostfix :=
  mkAFPostfix (pf_enabled a) (pf_destination a) v (pf_smtp a) (pf_cert_file a) (pf_key_file a).
Definition put_pf_smtp (v : option SMTP) (a : AFPostfix) : AFPostfix :=
  mkAFPostfix (pf_enabled a) (pf_destination a) (pf_profile a) v (pf_cert_file a) (pf_key_file
    a).
Definition put_pf_cert_file (v : string) (a : AFPostfix) : AFPostfix :=
  mkAFPostfix (pf_enabled a) (pf_destination a) (pf_profile a) (pf_smtp a) v (pf_key_file a).
Definition put_pf_key_file (v : string) (a : AFPostfix) : AFPostfix :=
  mkAFPostfix (pf_enabled a) (pf_destination a) (pf_profile a) (pf_smtp a) (pf_cert_file a) v.

Record AFOFED := mkAFOFED {
  of_kind : string;
  of_version : option string;
  of_enabled : bool;
}.

Definition put_of_kind (v : string) (a : AFOFED) : AFOFED :=
  mkAFOFED v (of_version a) (of_enabled a).
Definition put_of_version (v : option string) (a : AFOFED) : AFOFED :=
  mkAFOFED (of_kind a) v (of_enabled a).
Definition put_of_enabled (v : bool) (a : AFOFED) : AFOFED :=
  mkAFOFED (of_kind a) (of_version a) v.

Record AFRepositories := mkAFRepositories {
  rp_enabled : option (list string);
}.

Definition put_rp_enabled (v : option (list string)) (a : AFRepositories) : AFRepositories :=
  mkAFRepositories v.

Record AFOHPC := mkAFOHPC {
  oh_enabled : option (list string);
}.

Definition put_oh_enabled (v : option (list string)) (a : AFOHPC) : AFOHPC :=
  mkAFOHPC v.

Record AnswerFile := mkAnswerFile {
  af_path : string;
  af_keyfile : KeyFile;
  external : AFNetwork;
  management : AFNetwork;
  application : AFNetwork;
  service : AFNetwork;
  information : AFInformation;
  time : AFTime;
  hostname : AFHostname;
  system : AFSystem;
  nodes : AFNodes;
  postfix : AFPostfix;
  ofed : AFOFED;
  repositories : AFRepositories;
  ohpc : AFOHPC;
  slurm : AFSlurm;
  pbs : AFPBS;
}.

Definition put_af_path (v : string) (a : AnswerFile) : AnswerFile :=
  mkAnswerFile v (af_keyfile a) (external a) (management a) (application a) (service a)
    (information a) (time a) (hostname a) (system a) (nodes a) (postfix a) (ofed a)
    (repositories a) (ohpc a) (slurm a) (pbs a).
Definition put_af_keyfile (v : KeyFile) (a : AnswerFile) : AnswerFile :=
  mkAnswerFile (af_path a) v (external a) (management a) (application a) (service a)
    (information a) (time a) (hostname a) (system a) (nodes a) (postfix a) (ofed a)
    (repositories a) (ohpc a) (slurm a) (pbs a).
Definition put_external (v : AFNetwork) (a : AnswerFile) : AnswerFile :=
  mkAnswerFile (af_path a) (af_keyfile a) v (management a) (application a) (service a)
    (information a) (time a) (hostname a) (system a) (nodes a) (postfix a) (ofed a)
    (repositories a) (ohpc a) (slurm a) (pbs a).
Definition put_management (v : AFNetwork) (a : AnswerFile) : AnswerFile :=
  mkAnswerFile (af_path a) (af_keyfile a) (external a) v (application a) (service a)
    (information a) (time a) (hostname a) (system a) (nodes a) (postfix a) (ofed a)
    (repositories a) (ohpc a) (slurm a) (pbs a).
Definition put_application (v : AFNetwork) (a : AnswerFile) : AnswerFile :=
  mkAnswerFile (af_path a) (af_keyfile a) (external a) (management a) v (service a) (information
    a) (time a) (hostname a) (system a) (nodes a) (postfix a) (ofed a) (repositories a) (ohpc a)
    (slurm a) (pbs a).
Definition put_service (v : AFNetwork) (a : AnswerFile) : AnswerFile :=
  mkAnswerFile (af_path a) (af_keyfile a) (external a) (management a) (application a) v
    (information a) (time a) (hostname a) (system a) (nodes a) (postfix a) (ofed a)
    (repositories a) (ohpc a) (slurm a) (pbs a).
Definition put_information (v : AFInformation) (a : AnswerFile) : AnswerFile :=
  mkAnswerFile (af_path a) (af_keyfile a) (external a) (management a) (application a) (service
    a) v (time a) (hostname a) (system a) (nodes a) (postfix a) (ofed a) (repositories a) (ohpc
    a) (slurm a) (pbs a).
Definition put_time (v : AFTime) (a : AnswerFile) : AnswerFile :=
  mkAnswerFile (af_path a) (af_keyfile a) (external a) (management a) (application a) (service
    a) (information a) v (hostname a) (system a) (nodes a) (postfix a) (ofed a) (repositories a)
    (ohpc a) (slurm a) (pbs a).
Definition put_hostname (v : AFHostname) (a : AnswerFile) : AnswerFile :=
  mkAnswerFile (af_path a) (af_keyfile a) (external a) (management a) (application a) (service
    a) (information a) (time a) v (system a) (nodes a) (postfix a) (ofed a) (repositories a)
    (ohpc a) (slurm a) (pbs a).
Definition put_system (v : AFSystem) (a : AnswerFile) : AnswerFile :=
  mkAnswerFile (af_path a) (af_keyfile a) (external a) (management a) (application a) (service
    a) (information a) (time a) (hostname a) v (nodes a) (postfix a) (ofed a) (repositories a)
    (ohpc a) (slurm a) (pbs a).
Definition put_nodes (v : AFNodes) (a : AnswerFile) : AnswerFile :=
  mkAnswerFile (af_path a) (af_keyfile a) (external a) (management a) (application a) (service
    a) (information a) (time a) (hostname a) (system a) v (postfix a) (ofed a) (repositories a)
    (ohpc a) (slurm a) (pbs a).
Definition put_postfix (v : AFPostfix) (a : AnswerFile) : AnswerFile :=
  mkAnswerFile (af_path a) (af_keyfile a) (external a) (management a) (application a) (service
    a) (information a) (time a) (hostname a) (system a) (nodes a) v (ofed a) (repositories a)
    (ohpc a) (slurm a) (pbs a).
Definition put_ofed (v : AFOFED) (a : AnswerFile) : AnswerFile :=
  mkAnswerFile (af_path a) (af_keyfile a) (external a) (management a) (application a) (service
    a) (information a) (time a) (hostname a) (system a) (nodes a) (postfix a) v (repositories a)
    (ohpc a) (slurm a) (pbs a).
Definition put_repositories (v : AFRepositories) (a : AnswerFile) : AnswerFile :=
  mkAnswerFile (af_path a) (af_keyfile a) (external a) (management a) (application a) (service
    a) (information a) (time a) (hostname a) (system a) (nodes a) (postfix a) (ofed a) v (ohpc
    a) (slurm a) (pbs a).
Definition put_ohpc (v : AFOHPC) (a : AnswerFile) : AnswerFile :=
  mkAnswerFile (af_path a) (af_keyfile a) (external a) (management a) (application a) (service
    a) (information a) (time a) (hostname a) (system a) (nodes a) (postfix a) (ofed a)
    (repositories a) v (slurm a) (pbs a).
Definition put_slurm (v : AFSlurm) (a : AnswerFile) : AnswerFile :=
  mkAnswerFile (af_path a) (af_keyfile a) (external a) (management a) (application a) (service
    a) (information a) (time a) (hostname a) (system a) (nodes a) (postfix a) (ofed a)
    (repositories a) (ohpc a) v (pbs a).
Definition put_pbs (v : AFPBS) (a : AnswerFile) : AnswerFile :=
  mkAnswerFile (af_path a) (af_keyfile a) (external a) (management a) (application a) (service
    a) (information a) (time a) (hostname a) (system a) (nodes a) (postfix a) (ofed a)
    (repositories a) (ohpc a) (slurm a) v.

Definition AFNetwork_default : AFNetwork := mkAFNetwork None None None None None None None.

(** The object before anything is loaded into it. *)
Definition AnswerFile_init (path : string) (k : KeyFile) : AnswerFile :=
  mkAnswerFile path k AFNetwork_default AFNetwork_default AFNetwork_default AFNetwork_default
    (mkAFInformation "" "" "") (mkAFTime "" "" "") (mkAFHostname "" "")
    (mkAFSystem "" None "" None "")
    (mkAFNodes None [])
    (mkAFPostfix false [] None None "" "")
    (mkAFOFED (toString OFEDKind.Inbox) (Some "latest") false)
    (mkAFRepositories None) (mkAFOHPC None)
    (mkAFSlurm false "" "" "" "") (mkAFPBS false ExecutionPlace.Shared).
End data.
