(* ===== verification/Postfix.v ===== *)
(** * The mail system

    The class [Postfix] of [src/mailsystem/postfix.cpp]: its settings and the
    rewriting of [master.cf].  Setting it up on the machine is in [Daemons]. *)

From stdpp Require Import base strings list gmap.
From Stdlib Require Import ZArith Lia Ascii.
From S2P Require Import Prelude CppString External Enums Timezone.
From S2P Require Import AnswerFileData.

Local Open Scope Z_scope.

Record Postfix := mkPostfix {
  m_profile : PostfixProfile.t;
  m_hostname : option string;
  m_domain : option string;
  m_smtp_server : option string;
  m_destination : option (list string);
  m_port : option Z;                   (* uint16_t *)
  m_username : option string;
  m_password : option string;
  m_cert_file : option string;
  m_key_file : option string;
}.

Definition Postfix_make (profile : PostfixProfile.t) : Postfix :=
  mkPostfix profile None None None None None None None None None.

Definition setProfile v (p : Postfix) : Postfix :=
  mkPostfix v (m_hostname p) (m_domain p) (m_smtp_server p) (m_destination p) (m_port p)
    (m_username p) (m_password p) (m_cert_file p) (m_key_file p).
Definition setHostname v (p : Postfix) : Postfix :=
  mkPostfix (m_profile p) v (m_domain p) (m_smtp_server p) (m_destination p) (m_port p)
    (m_username p) (m_password p) (m_cert_file p) (m_key_file p).
Definition setDomain v (p : Postfix) : Postfix :=
  mkPostfix (m_profile p) (m_hostname p) v (m_smtp_server p) (m_destination p) (m_port p)
    (m_username p) (m_password p) (m_cert_file p) (m_key_file p).
Definition setSMTPServer v (p : Postfix) : Postfix :=
  mkPostfix (m_profile p) (m_hostname p) (m_domain p) v (m_destination p) (m_port p)
    (m_username p) (m_password p) (m_cert_file p) (m_key_file p).
Definition setDestination v (p : Postfix) : Postfix :=
  mkPostfix (m_profile p) (m_hostname p) (m_domain p) (m_smtp_server p) v (m_port p)
    (m_username p) (m_password p) (m_cert_file p) (m_key_file p).
(** An [int] argument is converted to [uint16_t]. *)
Definition setPort (v : option Z) (p : Postfix) : Postfix :=
  mkPostfix (m_profile p) (m_hostname p) (m_domain p) (m_smtp_server p) (m_destination p) (u16 <$> v)
    (m_username p) (m_password p) (m_cert_file p) (m_key_file p).
Definition setUsername v (p : Postfix) : Postfix :=
  mkPostfix (m_profile p) (m_hostname p) (m_domain p) (m_smtp_server p) (m_destination p) (m_port p)
    v (m_password p) (m_cert_file p) (m_key_file p).
Definition setPassword v (p : Postfix) : Postfix :=
  mkPostfix (m_profile p) (m_hostname p) (m_domain p) (m_smtp_server p) (m_destination p) (m_port p)
    (m_username p) v (m_cert_file p) (m_key_file p).
Definition setCertFile v (p : Postfix) : Postfix :=
  mkPostfix (m_profile p) (m_hostname p) (m_domain p) (m_smtp_server p) (m_destination p) (m_port p)
    (m_username p) (m_password p) v (m_key_file p).
Definition setKeyFile v (p : Postfix) : Postfix :=
  mkPostfix (m_profile p) (m_hostname p) (m_domain p) (m_smtp_server p) (m_destination p) (m_port p)
    (m_username p) (m_password p) (m_cert_file p) v.

(** ** [master.cf] *)

Section master.
Context `{BoostText}.

Definition maybeDisableLocalOnMasterFile (line : string) : outcome string :=
  let linedata := split_any (String tab " ") true line in
  first ← deref (linedata !! 0%nat);
  Ok (if String.eqb first "local" then "#" +:+ line else line).

(** [line\[0\]] of an empty line is the terminating null. *)
Definition rewrite_line (profile : PostfixProfile.t) (line : string) : outcome string :=
  if negb (starts_with_char "#" line) && negb (bool_decide (profile = PostfixProfile.Local))
  then maybeDisableLocalOnMasterFile line
  else Ok line.

(** The text written back, from the text of the file; [None] if it cannot be
    opened, which reads as no line. *)
Definition changeMasterFile (profile : PostfixProfile.t) (master : option string) : outcome string :=
  lines ← mapo (rewrite_line profile)
            (match master with Some text => stream_pieces newline text | None => [] end);
  Ok (foldr (fun l rest => l +:+ rest) "" lines).

(** The [relayhost] entry [createFiles] and [configureRelay] write. *)
Definition relayhost_createFiles (p : Postfix) : option string :=
  match m_profile p with
  | PostfixProfile.Local => None
  | PostfixProfile.SASL | PostfixProfile.Relay =>
      match m_smtp_server p, m_port p with
      | Some server, Some port => Some ("[" +:+ server +:+ "]:" +:+ dec port)
      | _, _ => None
      end
  end.
Definition relayhost_configureRelay (p : Postfix) : option string :=
  match m_smtp_server p, m_port p with
  | Some server, Some port => Some (server +:+ ":" +:+ dec port)
  | _, _ => None
  end.
End master.

Lemma rewrite_line_no_newline `{BoostText} profile line l :
  no_char newline line = true -> rewrite_line profile line = Ok l -> no_char newline l = true.
Proof.
  intros Hl. unfold rewrite_line, maybeDisableLocalOnMasterFile.
  destruct (negb _ && _); [|by intros [= <-]].
  destruct (_ !! 0%nat) as [first|]; cpp_simpl; [|done].
  intros Hr. injection Hr as <-. by destruct (String.eqb first "local").
Qed.

(** Rewriting [master.cf] joins its lines: whatever the profile and the
    file, the text written back contains no newline. *)
Theorem changeMasterFile_one_line `{BoostText} (profile : PostfixProfile.t) (master : option string) (text : string) :
  changeMasterFile profile master = Ok text -> no_char newline text = true.
Proof.
  unfold changeMasterFile. intros (lines & Hl & Ht)%bind_Ok. injection Ht as <-.
  apply mapo_Ok_Forall2 in Hl.
  assert (Forall (fun p => no_char newline p = true)
    (match master with Some text => stream_pieces newline text | None => [] end)) as Hp
    by (destruct master; [apply stream_pieces_no_char|constructor]).
  induction Hl as [|x y l k Hxy _ IH]; [done|]. apply Forall_cons in Hp as [Hx Hp].
  cbn [foldr]. unfold no_char. rewrite sforall_app. apply andb_true_iff. split; [|by apply IH].
  by eapply rewrite_line_no_newline.
Qed.
