(* ===== verification/AnswerFile.v ===== *)
(** * The answer file: validation and loading

    The helpers and the [load*] half of [src/models/answerfile.cpp].  A loader
    is a method of the part it fills, so an exception leaves the members
    assigned before it; [k] is the key file it reads. *)

From stdpp Require Import base strings list gmap.
From Stdlib Require Import ZArith Lia Ascii.
From S2P Require Import Prelude CppString External Enums KeyFile.
From S2P Require Export AnswerFileData.
From S2P Require Network.

Local Open Scope Z_scope.

Definition dquote : string := String "034" "".

(** ** Validation helpers *)

Section helpers.
Context `{Asio}.

Definition ipv4NetworkAddress (ip subnetMask : address) : outcome address :=
  if negb (is_v4 ip) || negb (is_v4 subnetMask)
  then Throw (InvalidArgument "only IPv4 network sections are supported")
  else Ok (address_v4 (Z.land (to_uint ip) (to_uint subnetMask))).

Definition validateSubnetMask (networkSection : string) (subnetMask : address) : outcome unit :=
  if negb (is_v4 subnetMask) || negb (Network.cidr_contains (to_string subnetMask))
  then Throw (InvalidArgument ("Network section '" +:+ networkSection +:+
    "' field 'subnet_mask' validation failed - invalid subnet mask '" +:+
    to_string subnetMask +:+ "'"))
  else Ok tt.

(** [Network::cidr.at], which throws on a text that is not in the table. *)
Definition cidr_at (s : string) : outcome Z :=
  match findOpt Network.cidr s with Some c => Ok c | None => Throw (OutOfRange "_Map_base::at") end.

Definition validateGatewayInSubnet (networkSection : string)
    (hostAddress subnetMask gateway : address) : outcome unit :=
  if is_unspecified gateway then Ok tt
  else
    networkAddress ← ipv4NetworkAddress hostAddress subnetMask;
    gatewayNetwork ← ipv4NetworkAddress gateway subnetMask;
    if negb (bool_decide (networkAddress = gatewayNetwork)) then
      prefix ← cidr_at (to_string subnetMask);
      Throw (InvalidArgument ("Network section '" +:+ networkSection +:+
        "' field 'gateway' validation failed - gateway " +:+ to_string gateway +:+
        " is outside " +:+ to_string networkAddress +:+ "/" +:+ dec prefix))
    else Ok tt.
End helpers.

(** [seen.emplace(value, owner)] on a [std::map]. *)
Definition rememberUniqueNodeValue (seen : gmap string string)
    (fieldName value owner : string) : outcome (gmap string string) :=
  if empty value then Ok seen
  else match seen !! value with
       | Some other =>
           Throw (InvalidArgument ("Duplicate " +:+ fieldName +:+ " '" +:+ value +:+
             "' used by " +:+ other +:+ " and " +:+ owner))
       | None => Ok (<[value := owner]> seen)
       end.

Record seen_values := mkSeen {
  hostnames : gmap string string;
  macAddresses : gmap string string;
  nodeAddresses : gmap string string;
  bmcAddresses : gmap string string;
  allAddresses : gmap string string;
}.

Section inventory.
Context `{Asio} `{GKeyFile}.

(** The body of the loop over the nodes. *)
Definition check_node (nodeNumber : Z) (node : AFNode) (s : seen_values) : outcome seen_values :=
  let owner := "node '" +:+ default ("#" +:+ dec nodeNumber) (nd_hostname node) +:+ "'" in
  h ← match nd_hostname node with
      | Some h => rememberUniqueNodeValue (hostnames s) "hostname" h owner
      | None => Ok (hostnames s)
      end;
  m ← match nd_mac_address node with
      | Some m => rememberUniqueNodeValue (macAddresses s) "mac_address" (lower m) owner
      | None => Ok (macAddresses s)
      end;
  '(n, all) ←
    match nd_start_ip node with
    | Some ip =>
        if negb (is_unspecified ip) then
          let nodeAddress := to_string ip in
          n ← rememberUniqueNodeValue (nodeAddresses s) "node_ip" nodeAddress owner;
          all ← rememberUniqueNodeValue (allAddresses s) "node/BMC address" nodeAddress
                  (owner +:+ " node_ip");
          Ok (n, all)
        else Ok (nodeAddresses s, allAddresses s)
    | None => Ok (nodeAddresses s, allAddresses s)
    end;
  '(b, all) ←
    match nd_bmc_address node with
    | Some addr =>
        if negb (empty addr) then
          b ← rememberUniqueNodeValue (bmcAddresses s) "bmc_address" addr owner;
          all ← rememberUniqueNodeValue all "node/BMC address" addr (owner +:+ " bmc_address");
          Ok (b, all)
        else Ok (bmcAddresses s, all)
    | None => Ok (bmcAddresses s, all)
    end;
  Ok (mkSeen h m n b all).

Fixpoint inventory_loop (nodeNumber : Z) (nodes : list AFNode) (s : seen_values)
  : outcome seen_values :=
  match nodes with
  | [] => Ok s
  | node :: nodes => s ← check_node (nodeNumber + 1) node s; inventory_loop (nodeNumber + 1) nodes s
  end.

Definition validateNodeInventoryTopology (nodes : list AFNode) : outcome unit :=
  _ ← inventory_loop 0 nodes (mkSeen ∅ ∅ ∅ ∅ ∅); Ok tt.
End inventory.

Definition parseUnsignedAnswerfileField (section field value : string) (allowZero : bool)
  : outcome Z :=
  let expectedType := if allowZero then "an unsigned integer" else "a positive integer" in
  let fail (reason : string) : outcome Z :=
    Throw (InvalidArgument ("Section '" +:+ section +:+ "' field '" +:+ field +:+
      "' validation failed - " +:+ reason +:+ " (expected " +:+ expectedType +:+
      ", value is '" +:+ value +:+ "')")) in
  if empty value then fail "empty value"
  else if negb (sforall is_digit value) then fail "not a number"
  else
    let '(parsed, ptr, error) := from_chars value in
    if bool_decide (error = errc_result_out_of_range) then fail "value is out of range"
    else if negb (bool_decide (error = errc_none)) || negb (empty ptr) then fail "not a number"
    else if negb allowZero && (parsed =? 0) then fail "zero is not valid"
    else Ok parsed.

Definition validateUnsignedAnswerfileField (section field : string) (value : option string)
    (allowZero : bool) : outcome unit :=
  match value with
  | None => Ok tt
  | Some v => _ ← parseUnsignedAnswerfileField section field v allowZero; Ok tt
  end.

Definition parsePortAnswerfileField (section field value : string) : outcome Z :=
  port ← parseUnsignedAnswerfileField section field value false;
  if 65535 <? port then
    Throw (InvalidArgument ("Section '" +:+ section +:+ "' field '" +:+ field +:+
      "' validation failed - port is out of range (expected 1-65535, value is '" +:+ value +:+ "')"))
  else Ok port.

Definition normalizeOFEDKind (rawKind : string) : option string :=
  let normalized := lower rawKind in
  if String.eqb normalized "mellanox" then Some "doca"
  else match ofStringOpt (T := OFEDKind.t) normalized Insensitive with
       | Some _ => Some normalized
       | None => None
       end.

Definition validateSingleQueueSystem (slurmEnabled pbsEnabled : bool) : outcome unit :=
  if slurmEnabled && pbsEnabled then
    Throw (InvalidArgument
      "Queue system validation failed - answerfile cannot contain both [slurm] and [pbs] sections")
  else Ok tt.

Definition validateGenericNodeScalars `{Asio} (node : AFNode) : outcome unit :=
  _ ← validateUnsignedAnswerfileField "node" "padding" (nd_padding node) true;
  _ ← validateUnsignedAnswerfileField "node" "sockets" (nd_sockets node) false;
  _ ← validateUnsignedAnswerfileField "node" "cores_per_socket" (nd_cores_per_socket node) false;
  _ ← validateUnsignedAnswerfileField "node" "cpus_per_node" (nd_cpus_per_node node) false;
  _ ← validateUnsignedAnswerfileField "node" "threads_per_core" (nd_threads_per_core node) false;
  _ ← validateUnsignedAnswerfileField "node" "real_memory" (nd_real_memory node) false;
  _ ← validateUnsignedAnswerfileField "node" "bmc_serialport" (nd_bmc_serialport node) true;
  validateUnsignedAnswerfileField "node" "bmc_serialspeed" (nd_bmc_serialspeed node) false.

Definition validateResolvedNodeScalars `{Asio} (section : string) (node : AFNode) : outcome unit :=
  _ ← validateUnsignedAnswerfileField section "sockets" (nd_sockets node) false;
  _ ← validateUnsignedAnswerfileField section "cores_per_socket" (nd_cores_per_socket node) false;
  _ ← validateUnsignedAnswerfileField section "threads_per_core" (nd_threads_per_core node) false;
  _ ← validateUnsignedAnswerfileField section "bmc_serialport" (nd_bmc_serialport node) true;
  validateUnsignedAnswerfileField section "bmc_serialspeed" (nd_bmc_serialspeed node) false.

(** ** Loading *)

Section load.
Context `{Asio} `{BoostText} `{GKeyFile}.

Definition convertStringToAddress (addr : string) : outcome address :=
  try_catch (Network.make_address_exc addr)
    is_system_error (fun _ => Throw (InvalidArgument "Invalid address")).

Definition convertStringToMultipleAddresses (addr : string) : outcome (list address) :=
  mapo convertStringToAddress (split_any "," false addr).

Definition needs_key (sectionName attributeName : string) : exn :=
  InvalidArgument (sectionName +:+ " must have a " +:+ dquote +:+ attributeName +:+ dquote +:+
    " key or you must inform a generic " +:+ dquote +:+ attributeName +:+ dquote +:+ " value").

(** [validateAttribute] at [std::optional<std::string>]: the resolved value. *)
Definition validateAttribute (sectionName attributeName : string)
    (objectAttr genericAttr : option string) : outcome (option string) :=
  match objectAttr with
  | Some (String _ _) => Ok objectAttr
  | _ =>
      match genericAttr with
      | Some (String _ _) => Ok genericAttr
      | _ => Throw (needs_key sectionName attributeName)
      end
  end.

(** ... and at [std::optional<address>]. *)
Definition validateAttribute_address (sectionName attributeName : string)
    (objectAttr genericAttr : option address) : outcome (option address) :=
  if match objectAttr with Some a => negb (is_unspecified a) | None => false end
  then Ok objectAttr
  else if match genericAttr with Some a => is_unspecified a | None => true end
  then Throw (needs_key sectionName attributeName)
  else Ok genericAttr.

(** [destination] is the member [put] assigns. *)
Definition convertNetworkAddressAndValidate {S} (k : KeyFile) (sectionName fieldName : string)
    (put : option address -> S -> S) : M S unit :=
  present ← lift (getStringOpt k sectionName fieldName);
  match present with
  | None => skip
  | Some _ =>
      value ← lift (getString k sectionName fieldName);
      a ← lift (try_catch (convertStringToAddress value) is_invalid_argument
            (fun e => Throw (InvalidArgument ("Network section '" +:+ sectionName +:+
               "' field '" +:+ fieldName +:+ "' validation failed - " +:+ what e))));
      modify (put (Some a))
  end.

Definition loadNetwork (k : KeyFile) (networkSection : string) : M AFNetwork unit :=
  con_interface ← lift (getString k networkSection "interface");
  _ ← modify (put_nw_con_interface (Some con_interface));
  _ ← convertNetworkAddressAndValidate k networkSection "ip_address" put_nw_con_ip_addr;
  con_mac_addr ← lift (getString_default k networkSection "mac_address" "");
  _ ← modify (put_nw_con_mac_addr (Some con_mac_addr));
  _ ← convertNetworkAddressAndValidate k networkSection "subnet_mask" put_nw_subnet_mask;
  subnet_mask ← gets nw_subnet_mask;
  _ ← match subnet_mask with
      | Some m => lift (validateSubnetMask networkSection m)
      | None => skip
      end;
  domain_name ← lift (getStringOpt k networkSection "domain_name");
  _ ← modify (put_nw_domain_name domain_name);
  _ ← convertNetworkAddressAndValidate k networkSection "gateway" put_nw_gateway;
  network ← gets id;
  _ ← match nw_con_ip_addr network, nw_subnet_mask network, nw_gateway network with
      | Some ip, Some m, Some g => lift (validateGatewayInSubnet networkSection ip m g)
      | _, _, _ => skip
      end;
  opt ← lift (getStringOpt k networkSection "nameservers");
  match opt with
  | Some v => modify (put_nw_nameservers (Some (split_any ", " true v)))
  | None => skip
  end.

Definition loadInformation (k : KeyFile) : M AFInformation unit :=
  v ← lift (getString k "information" "cluster_name");
  _ ← modify (put_in_cluster_name v);
  v ← lift (getString k "information" "company_name");
  _ ← modify (put_in_company_name v);
  v ← lift (getString k "information" "administrator_email");
  modify (put_in_administrator_email v).

Definition loadTimeSettings (k : KeyFile) : M AFTime unit :=
  v ← lift (getString k "time" "timezone");
  _ ← modify (put_tm_timezone v);
  v ← lift (getString k "time" "timeserver");
  _ ← modify (put_tm_timeserver v);
  v ← lift (getString k "time" "locale");
  modify (put_tm_locale v).

Definition loadHostnameSettings (k : KeyFile) : M AFHostname unit :=
  v ← lift (getString k "hostname" "hostname");
  _ ← modify (put_hn_hostname v);
  v ← lift (getString k "hostname" "domain_name");
  modify (put_hn_domain_name v).

(** [path] is that of the answer file, for the message. *)
Definition loadSystemSettings (dryRun : bool) (path : string) (k : KeyFile) : M AFSystem unit :=
  v ← lift (getString k "system" "disk_image");
  _ ← modify (put_sy_disk_image v);
  v ← lift (getString k "system" "distro");
  let afDistro := lower v in
  let afDistro := if String.eqb afDistro "alma" then "almalinux" else afDistro in
  match ofStringOpt afDistro Insensitive with
  | None => if dryRun then skip else throw (RuntimeError ("Unsupported distro: " +:+ afDistro))
  | Some formatDistro =>
      _ ← modify (put_sy_distro (Some formatDistro));
      v ← lift (getString k "system" "version");
      _ ← modify (put_sy_version v);
      v ← lift (getStringOpt k "system" "kernel");
      _ ← modify (put_sy_kernel v);
      v ← lift (getStringOpt k "system" "provisioner");
      v ← lift (unwrap v ("[system].provisioner missing in the answerfile " +:+ path +:+
                  ", expecting one of: confluent, xcat"));
      let provisioner := lower v in
      _ ← modify (put_sy_provisioner provisioner);
      if negb (String.eqb provisioner "confluent") && negb (String.eqb provisioner "xcat") then
        throw (InvalidArgument ("Section 'system' field 'provisioner' validation failed - " +:+
          "unsupported provisioner '" +:+ provisioner +:+ "' (expected confluent or xcat)"))
      else skip
  end.

(** *** Nodes *)

Definition node_ip_error (section : string) (e : exn) : outcome address :=
  Throw (InvalidArgument ("Section '" +:+ section +:+
    "' field 'node_ip' validation failed - " +:+ what e)).

(** [convertStringToAddress(m_keyfile.getString(section, "node_ip"))] in its
    [try] block. *)
Definition load_node_ip (k : KeyFile) (section : string) : outcome address :=
  try_catch (v ← getString k section "node_ip"; convertStringToAddress v)
    is_invalid_argument (node_ip_error section).

Definition loadNode_generic (k : KeyFile) (section : string) : outcome AFNode :=
  prefix ← getString k section "prefix";
  padding ← getString k section "padding";
  root_password ← getString k section "node_root_password";
  sockets ← getString k section "sockets";
  cores_per_socket ← getString k section "cores_per_socket";
  cpus_per_node ← getString k section "cpus_per_node";
  threads_per_core ← getString k section "threads_per_core";
  real_memory ← getString k section "real_memory";
  bmc_username ← getString k section "bmc_username";
  bmc_password ← getString k section "bmc_password";
  bmc_serialport ← getString k section "bmc_serialport";
  bmc_serialspeed ← getString k section "bmc_serialspeed";
  start_ip ← load_node_ip k section;
  let node := {|
    nd_prefix := Some prefix; nd_padding := Some padding; nd_start_ip := Some start_ip;
    nd_hostname := None; nd_root_password := Some root_password; nd_mac_address := None;
    nd_sockets := Some sockets; nd_cores_per_socket := Some cores_per_socket;
    nd_threads_per_core := Some threads_per_core; nd_cpus_per_node := Some cpus_per_node;
    nd_real_memory := Some real_memory; nd_bmc_address := None;
    nd_bmc_username := Some bmc_username; nd_bmc_password := Some bmc_password;
    nd_bmc_serialport := Some bmc_serialport; nd_bmc_serialspeed := Some bmc_serialspeed |} in
  _ ← validateGenericNodeScalars node;
  Ok node.

Definition loadNode (k : KeyFile) (section : string) : outcome AFNode :=
  if String.eqb section "node" then loadNode_generic k section
  else
    mac_address ← getString k section "mac_address";
    present ← getStringOpt k section "node_ip";
    start_ip ← match present with
               | Some _ => load_node_ip k section
               | None => Ok default_address
               end;
    hostname ← getString_default k section "hostname" "";
    root_password ← getString_default k section "node_root_password" "";
    sockets ← getString_default k section "sockets" "";
    _ ← getString_default k section "cores_per_socket" "";
    cores_per_socket ← getString_default k section "cores_per_socket" "";
    threads_per_core ← getString_default k section "threads_per_core" "";
    bmc_address ← getString_default k section "bmc_address" "";
    bmc_username ← getString_default k section "bmc_username" "";
    bmc_password ← getString_default k section "bmc_password" "";
    bmc_serialport ← getString_default k section "bmc_serialport" "";
    bmc_serialspeed ← getString_default k section "bmc_serialspeed" "";
    Ok {|
      nd_prefix := None; nd_padding := None; nd_start_ip := Some start_ip;
      nd_hostname := Some hostname; nd_root_password := Some root_password;
      nd_mac_address := Some mac_address; nd_sockets := Some sockets;
      nd_cores_per_socket := Some cores_per_socket;
      nd_threads_per_core := Some threads_per_core; nd_cpus_per_node := None;
      nd_real_memory := None; nd_bmc_address := Some bmc_address;
      nd_bmc_username := Some bmc_username; nd_bmc_password := Some bmc_password;
      nd_bmc_serialport := Some bmc_serialport; nd_bmc_serialspeed := Some bmc_serialspeed |}.

Definition hasText (value : option string) : bool :=
  match value with Some v => negb (empty v) | None => false end.
Definition clearIfEmpty (value : option string) : option string :=
  match value with Some "" => None | v => v end.

Definition validateNode (generic_opt : option AFNode) (node : AFNode) (section : string)
  : outcome AFNode :=
  generic ← deref generic_opt;
  start_ip ← validateAttribute_address "node" "node_ip" (nd_start_ip node) (nd_start_ip generic);
  root_password ← validateAttribute "node" "node_root_password"
    (nd_root_password node) (nd_root_password generic);
  sockets ← validateAttribute "node" "sockets" (nd_sockets node) (nd_sockets generic);
  cores_per_socket ← validateAttribute "node" "cores_per_socket"
    (nd_cores_per_socket node) (nd_cores_per_socket generic);
  threads_per_core ← validateAttribute "node" "threads_per_core"
    (nd_threads_per_core node) (nd_threads_per_core generic);
  let node := mkAFNode (nd_prefix node) (nd_padding node) start_ip (nd_hostname node)
    root_password (nd_mac_address node) sockets cores_per_socket threads_per_core
    (nd_cpus_per_node node) (nd_real_memory node) (nd_bmc_address node) (nd_bmc_username node)
    (nd_bmc_password node) (nd_bmc_serialport node) (nd_bmc_serialspeed node) in
  let with_bmc addr user pass port speed :=
    mkAFNode (nd_prefix node) (nd_padding node) (nd_start_ip node) (nd_hostname node)
      (nd_root_password node) (nd_mac_address node) (nd_sockets node) (nd_cores_per_socket node)
      (nd_threads_per_core node) (nd_cpus_per_node node) (nd_real_memory node)
      addr user pass port speed in
  node ←
    (if hasText (nd_bmc_address node) || hasText (nd_bmc_address generic) then
       addr ← validateAttribute "node" "bmc_address" (nd_bmc_address node) (nd_bmc_address generic);
       user ← validateAttribute "node" "bmc_username" (nd_bmc_username node) (nd_bmc_username generic);
       pass ← validateAttribute "node" "bmc_password" (nd_bmc_password node) (nd_bmc_password generic);
       port ← validateAttribute "node" "bmc_serialport"
                (nd_bmc_serialport node) (nd_bmc_serialport generic);
       speed ← validateAttribute "node" "bmc_serialspeed"
                 (nd_bmc_serialspeed node) (nd_bmc_serialspeed generic);
       Ok (with_bmc addr user pass port speed)
     else
       Ok (with_bmc (clearIfEmpty (nd_bmc_address node)) (clearIfEmpty (nd_bmc_username node))
             (clearIfEmpty (nd_bmc_password node)) (clearIfEmpty (nd_bmc_serialport node))
             (clearIfEmpty (nd_bmc_serialspeed node))));
  _ ← validateResolvedNodeScalars section node;
  Ok node.

(** The lambda [node_counter]; a failed cast throws [bad_lexical_cast]. *)
Definition node_counter (node : string) : outcome Z :=
  match lexical_cast_size_t (sdrop (after (find_char "." node)) node) with
  | Some n => Ok n
  | None => Throw BadLexicalCast
  end.
Definition is_node_number (node : string) : bool :=
  match node_counter node with Ok n => 0 <? n | _ => false end.

(** The default host name of node [n]: [fmt::format("{}{:0>{}}", ...)]. *)
Definition generated_hostname (generic : AFNode) (n : Z) : outcome string :=
  prefix ← value (nd_prefix generic);
  padding ← value (nd_padding generic);
  width ← stoi padding;
  Ok (prefix +:+ pad0 width (dec n)).

(** One iteration of the loop over the node sections. *)
Definition load_one_node (generic : AFNode) (k : KeyFile) (nodeSection : string)
  : M AFNodes unit :=
  nodeCounter ← lift (node_counter nodeSection);
  newNode ← lift (loadNode k nodeSection);
  h ← lift (deref (nd_hostname newNode));
  newNode ←
    (if empty h then
       prefix ← lift (deref (nd_prefix generic));
       if empty prefix then
         throw (InvalidArgument ("Section node." +:+ dec nodeCounter +:+
           " must have a 'hostname' key or you must inform a generic 'prefix' value"))
       else
         padding ← lift (deref (nd_padding generic));
         if empty padding then
           throw (InvalidArgument ("Section node." +:+ dec nodeCounter +:+
             " must have a 'hostname' key or you must inform a generic 'padding' value"))
         else
           name ← lift (generated_hostname generic nodeCounter);
           mret (put_nd_hostname (Some name) newNode)
     else mret newNode);
  generic_opt ← gets ns_generic;
  newNode ← lift (try_catch (validateNode generic_opt newNode nodeSection) is_invalid_argument
    (fun e => Throw (InvalidArgument ("Section node." +:+ dec nodeCounter +:+
       " validation failed - " +:+ what e))));
  modify (fun ns => put_ns_nodes (ns_nodes ns ++ [newNode]) ns).

Definition loadNodes (k : KeyFile) : M AFNodes unit :=
  generic ← lift (loadNode k "node");
  _ ← modify (put_ns_generic (Some generic));
  let nodelist := listAllPrefixedEntries k "node." in
  _ ← for_each (filter (fun s => Is_true (is_node_number s)) nodelist) (load_one_node generic k);
  nodes ← gets ns_nodes;
  lift (validateNodeInventoryTopology nodes).

Definition nodesNames (ns : AFNodes) : outcome (list string) :=
  (fix loop (nodeIdx : Z) (l : list AFNode) :=
     match l with
     | [] => Ok []
     | node :: l =>
         let nodeIdx := u32 (nodeIdx + 1) in
         h ← unwrap (nd_hostname node) ("hostname missing for node " +:+ dec nodeIdx);
         hs ← loop nodeIdx l;
         Ok (h :: hs)
     end) 0 (ns_nodes ns).

Definition checkEnabled (k : KeyFile) (section : string) : outcome bool :=
  opt ← getStringOpt k section "enabled";
  match opt with
  | None => Ok false
  | Some _ => v ← getString k section "enabled"; Ok (String.eqb v "1")
  end.
End load.

(** *** The optional sections *)

Section load_optional.
Context `{Asio} `{BoostText} `{GKeyFile}.

(** [boost::split(_, s, boost::is_any_of(", "), boost::token_compress_on)] *)
Definition split_list (s : string) : list string := split_any ", " true s.

Definition load_smtp (k : KeyFile) (section : string) : outcome (string * Z) :=
  server ← getString k section "server";
  port ← getString k section "port";
  port ← parsePortAnswerfileField section "port" port;
  Ok (server, port).

Definition loadPostfix (k : KeyFile) : M AFPostfix unit :=
  if negb (hasGroup k "postfix") then skip
  else
    _ ← modify (put_pf_enabled true);
    destination ← lift (getStringOpt k "postfix" "destination");
    _ ← match destination with
        | Some d => if negb (empty d) then modify (put_pf_destination (split_list d)) else skip
        | None => skip
        end;
    profileValue ← lift (getString k "postfix" "profile");
    match ofStringOpt profileValue Insensitive with
    | None =>
        throw (InvalidArgument ("Section 'postfix' field 'profile' validation failed - " +:+
          "unsupported profile '" +:+ profileValue +:+ "' (expected Local, Relay, or SASL)"))
    | Some profile =>
        _ ← modify (put_pf_profile (Some profile));
        _ ← match profile with
            | PostfixProfile.Local => skip
            | PostfixProfile.Relay =>
                '(server, port) ← lift (load_smtp k "postfix.relay");
                modify (put_pf_smtp (Some (mkSMTP server port None)))
            | PostfixProfile.SASL =>
                '(server, port) ← lift (load_smtp k "postfix.sasl");
                username ← lift (getString k "postfix.sasl" "username");
                password ← lift (getString k "postfix.sasl" "password");
                modify (put_pf_smtp (Some (mkSMTP server port (Some (mkSASL username password)))))
            end;
        v ← lift (getStringOpt k "postfix" "smtpd_tls_cert_file");
        _ ← modify (put_pf_cert_file (default "" v));
        v ← lift (getStringOpt k "postfix" "smtpd_tls_key_file");
        modify (put_pf_key_file (default "" v))
    end.

Definition loadOFED (k : KeyFile) : M AFOFED unit :=
  if hasGroup k "ofed" then
    kind ← lift (getString k "ofed" "kind");
    if negb (String.eqb kind "") then
      match normalizeOFEDKind kind with
      | None =>
          throw (InvalidArgument ("Section 'ofed' field 'kind' validation failed - " +:+
            "unsupported OFED kind '" +:+ kind +:+
            "' (expected inbox, doca, oracle, or mellanox)"))
      | Some normalizedKind =>
          _ ← modify (put_of_enabled true);
          _ ← modify (put_of_kind normalizedKind);
          afVersion ← lift (getString k "ofed" "version");
          if negb (String.eqb afVersion "") then modify (put_of_version (Some afVersion))
          else modify (put_of_version (Some "latest"))
      end
    else skip
  else skip.

Definition loadRepositories (k : KeyFile) : M AFRepositories unit :=
  if negb (hasGroup k "repositories") then skip
  else
    _ ← modify (put_rp_enabled (Some []));
    enabled ← lift (getStringOpt k "repositories" "enabled");
    match enabled with
    | None | Some "" => skip
    | Some v => modify (put_rp_enabled (Some (split_list v)))
    end.

Definition loadOHPC (k : KeyFile) : M AFOHPC unit :=
  if negb (hasGroup k "ohpc") then skip
  else
    _ ← modify (put_oh_enabled (Some []));
    enabled ← lift (getStringOpt k "ohpc" "enabled");
    match enabled with
    | None | Some "" => skip
    | Some v => modify (put_oh_enabled (Some (split_list v)))
    end.

(** [optional::unwrap(m_keyfile.getStringOpt("slurm", field), ...)] *)
Definition slurm_field (path : string) (k : KeyFile) (field : string) : outcome string :=
  v ← getStringOpt k "slurm" field;
  unwrap v (field +:+ " missing in the answerfile " +:+ path).

Definition loadSlurm (path : string) (k : KeyFile) : M AFSlurm unit :=
  if negb (hasGroup k "slurm") then skip
  else
    _ ← modify (put_sl_enabled true);
    v ← lift (slurm_field path k "mariadb_root_password");
    _ ← modify (put_sl_mariadb_root_password v);
    v ← lift (slurm_field path k "slurmdb_password");
    _ ← modify (put_sl_slurmdb_password v);
    v ← lift (slurm_field path k "storage_password");
    _ ← modify (put_sl_storage_password v);
    v ← lift (slurm_field path k "partition_name");
    modify (put_sl_partition_name v).

Definition loadPBS (k : KeyFile) : M AFPBS unit :=
  if negb (hasGroup k "pbs") then skip
  else
    _ ← modify (put_pb_enabled true);
    v ← lift (getStringOpt k "pbs" "execution_place");
    let executionPlace := default "Shared" v in
    match ofStringOpt executionPlace Insensitive with
    | None =>
        throw (InvalidArgument ("Section 'pbs' field 'execution_place' validation failed - " +:+
          "unsupported execution place '" +:+ executionPlace +:+ "' (expected Shared or Scatter)"))
    | Some parsedExecutionPlace => modify (put_pb_execution_place parsedExecutionPlace)
    end.

(** *** The whole file *)

Definition loadExternalNetwork : M AnswerFile unit :=
  k ← gets af_keyfile; zoom external put_external (loadNetwork k "network_external").
Definition loadManagementNetwork : M AnswerFile unit :=
  k ← gets af_keyfile; zoom management put_management (loadNetwork k "network_management").
Definition loadServiceNetwork : M AnswerFile unit :=
  k ← gets af_keyfile;
  if negb (hasGroup k "network_service") then skip
  else zoom service put_service (loadNetwork k "network_service").
Definition loadApplicationNetwork : M AnswerFile unit :=
  k ← gets af_keyfile;
  if negb (hasGroup k "network_application") then skip
  else zoom application put_application (loadNetwork k "network_application").

Definition loadOptions (dryRun : bool) : M AnswerFile unit :=
  _ ← loadExternalNetwork;
  _ ← loadManagementNetwork;
  _ ← loadServiceNetwork;
  _ ← loadApplicationNetwork;
  k ← gets af_keyfile;
  path ← gets af_path;
  _ ← zoom information put_information (loadInformation k);
  _ ← zoom time put_time (loadTimeSettings k);
  _ ← zoom hostname put_hostname (loadHostnameSettings k);
  _ ← zoom system put_system (loadSystemSettings dryRun path k);
  _ ← zoom repositories put_repositories (loadRepositories k);
  _ ← zoom ohpc put_ohpc (loadOHPC k);
  _ ← zoom nodes put_nodes (loadNodes k);
  _ ← zoom postfix put_postfix (loadPostfix k);
  _ ← zoom ofed put_ofed (loadOFED k);
  _ ← zoom slurm put_slurm (loadSlurm path k);
  _ ← zoom pbs put_pbs (loadPBS k);
  a ← gets id;
  lift (validateSingleQueueSystem (sl_enabled (slurm a)) (pb_enabled (pbs a))).

(** [m_keyfile.load()] reads the path the key file was made with. *)
Definition loadFile (dryRun : bool) (fs : string -> option string) (path : string)
  : M AnswerFile unit :=
  _ ← modify (put_af_path path);
  _ ← zoom af_keyfile put_af_keyfile (KeyFile.load fs);
  loadOptions dryRun.

Definition AnswerFile_make (dryRun : bool) (fs : string -> option string) (path : string)
    (loadFromDisk : bool) : outcome AnswerFile :=
  keyfile ← KeyFile_make fs path false;
  construct (when loadFromDisk (loadFile dryRun fs path)) (AnswerFile_init path keyfile).
End load_optional.
