(* ===== verification/AnswerFileDump.v ===== *)
(** * The answer file: dumping

    The [dump*] half of [src/models/answerfile.cpp]: methods that write the
    parts of an answer file into its key file. *)

From stdpp Require Import base strings list.
From Stdlib Require Import ZArith Lia Ascii.
From S2P Require Import Prelude CppString External Enums KeyFile.
From S2P Require Export AnswerFile.

Local Open Scope Z_scope.

Section dump.
Context `{Asio} `{BoostText} `{GKeyFile}.

(** [m_keyfile.setString(group, key, value)], for a value and an optional. *)
Definition set_string (group key value : string) : M AnswerFile unit :=
  zoom af_keyfile put_af_keyfile (setString group key value).
Definition set_string_opt (group key : string) (value : option string) : M AnswerFile unit :=
  zoom af_keyfile put_af_keyfile (setString_opt group key value).

(** [if (opt) { m_keyfile.setString(group, key, *opt); }] *)
Definition if_set (group key : string) (value : option string) : M AnswerFile unit :=
  match value with Some v => set_string group key v | None => skip end.

Definition dumpNetwork (network : AFNetwork) (networkSection : string) : M AnswerFile unit :=
  _ ← if_set networkSection "interface" (nw_con_interface network);
  _ ← if_set networkSection "ip_address" (to_string <$> nw_con_ip_addr network);
  _ ← if_set networkSection "mac_address" (nw_con_mac_addr network);
  _ ← if_set networkSection "subnet_mask" (to_string <$> nw_subnet_mask network);
  _ ← if_set networkSection "domain_name" (nw_domain_name network);
  _ ← if_set networkSection "gateway" (to_string <$> nw_gateway network);
  match nw_nameservers network with
  | Some ((_ :: _) as ns) => set_string networkSection "nameservers" (join ns ", ")
  | _ => skip
  end.

Definition dumpExternalNetwork : M AnswerFile unit :=
  n ← gets external; dumpNetwork n "network_external".
Definition dumpManagementNetwork : M AnswerFile unit :=
  n ← gets management; dumpNetwork n "network_management".
Definition dumpServiceNetwork : M AnswerFile unit :=
  n ← gets service; dumpNetwork n "network_service".
Definition dumpApplicationNetwork : M AnswerFile unit :=
  n ← gets application; dumpNetwork n "network_application".

Definition dumpInformation : M AnswerFile unit :=
  i ← gets information;
  _ ← set_string "information" "cluster_name" (in_cluster_name i);
  _ ← set_string "information" "company_name" (in_company_name i);
  set_string "information" "administrator_email" (in_administrator_email i).

Definition dumpTimeSettings : M AnswerFile unit :=
  t ← gets time;
  _ ← set_string "time" "timezone" (tm_timezone t);
  _ ← set_string "time" "timeserver" (tm_timeserver t);
  set_string "time" "locale" (tm_locale t).

Definition dumpHostnameSettings : M AnswerFile unit :=
  h ← gets hostname;
  _ ← set_string "hostname" "hostname" (hn_hostname h);
  set_string "hostname" "domain_name" (hn_domain_name h).

(** Reading [system.distro] before it was assigned is undefined. *)
Definition dumpSystemSettings : M AnswerFile unit :=
  s ← gets system;
  distro ← lift (deref (sy_distro s));
  let distroName := toString distro in
  _ ← set_string "system" "disk_image" (sy_disk_image s);
  _ ← set_string "system" "distro" distroName;
  _ ← set_string "system" "version" (sy_version s);
  _ ← set_string_opt "system" "kernel" (sy_kernel s);
  set_string "system" "provisioner" (sy_provisioner s).

Definition dump_generic (generic : AFNode) : M AnswerFile unit :=
  _ ← if_set "node" "prefix" (nd_prefix generic);
  _ ← if_set "node" "padding" (nd_padding generic);
  _ ← if_set "node" "node_ip" (to_string <$> nd_start_ip generic);
  _ ← if_set "node" "node_root_password" (nd_root_password generic);
  _ ← if_set "node" "sockets" (nd_sockets generic);
  _ ← if_set "node" "cores_per_socket" (nd_cores_per_socket generic);
  _ ← if_set "node" "cpus_per_node" (nd_cpus_per_node generic);
  _ ← if_set "node" "threads_per_core" (nd_threads_per_core generic);
  _ ← if_set "node" "real_memory" (nd_real_memory generic);
  _ ← if_set "node" "bmc_username" (nd_bmc_username generic);
  _ ← if_set "node" "bmc_password" (nd_bmc_password generic);
  _ ← if_set "node" "bmc_serialport" (nd_bmc_serialport generic);
  if_set "node" "bmc_serialspeed" (nd_bmc_serialspeed generic).

Definition dump_node (node : AFNode) (sectionName : string) : M AnswerFile unit :=
  _ ← if_set sectionName "hostname" (nd_hostname node);
  _ ← if_set sectionName "mac_address" (nd_mac_address node);
  _ ← if_set sectionName "node_ip" (to_string <$> nd_start_ip node);
  _ ← if_set sectionName "node_root_password" (nd_root_password node);
  _ ← if_set sectionName "sockets" (nd_sockets node);
  _ ← if_set sectionName "cores_per_socket" (nd_cores_per_socket node);
  _ ← if_set sectionName "threads_per_core" (nd_threads_per_core node);
  _ ← if_set sectionName "cpus_per_node" (nd_cpus_per_node node);
  _ ← if_set sectionName "real_memory" (nd_real_memory node);
  _ ← if_set sectionName "bmc_address" (nd_bmc_address node);
  _ ← if_set sectionName "bmc_username" (nd_bmc_username node);
  _ ← if_set sectionName "bmc_password" (nd_bmc_password node);
  _ ← if_set sectionName "bmc_serialport" (nd_bmc_serialport node);
  if_set sectionName "bmc_serialspeed" (nd_bmc_serialspeed node).

Definition node_section (n : Z) : string := "node." +:+ dec n.

Fixpoint dump_nodes_loop (counter : Z) (l : list AFNode) : M AnswerFile unit :=
  match l with
  | [] => skip
  | node :: l => _ ← dump_node node (node_section counter); dump_nodes_loop (counter + 1) l
  end.

Definition dumpNodes : M AnswerFile unit :=
  ns ← gets nodes;
  _ ← match ns_generic ns with Some generic => dump_generic generic | None => skip end;
  dump_nodes_loop 1 (ns_nodes ns).

Definition if_nonempty (group key value : string) : M AnswerFile unit :=
  if negb (empty value) then set_string group key value else skip.

Definition dumpPostfix : M AnswerFile unit :=
  p ← gets postfix;
  if negb (pf_enabled p) then skip
  else
    profile ← lift (deref (pf_profile p));
    _ ← set_string "postfix" "profile" (toString profile);
    _ ← match pf_destination p with
        | [] => skip
        | d => set_string "postfix" "destination" (join d ", ")
        end;
    _ ← if_nonempty "postfix" "smtpd_tls_cert_file" (pf_cert_file p);
    _ ← if_nonempty "postfix" "smtpd_tls_key_file" (pf_key_file p);
    match profile with
    | PostfixProfile.Local => skip
    | PostfixProfile.Relay =>
        match pf_smtp p with
        | Some smtp =>
            _ ← set_string "postfix.relay" "server" (sm_server smtp);
            set_string "postfix.relay" "port" (dec_int (sm_port smtp))
        | None => skip
        end
    | PostfixProfile.SASL =>
        match pf_smtp p with
        | Some smtp =>
            _ ← set_string "postfix.sasl" "server" (sm_server smtp);
            _ ← set_string "postfix.sasl" "port" (dec_int (sm_port smtp));
            match sm_sasl smtp with
            | Some sasl =>
                _ ← set_string "postfix.sasl" "username" (sa_username sasl);
                set_string "postfix.sasl" "password" (sa_password sasl)
            | None => skip
            end
        | None => skip
        end
    end.

Definition dumpOFED : M AnswerFile unit :=
  o ← gets ofed;
  if negb (of_enabled o) then skip
  else
    _ ← set_string "ofed" "kind" (of_kind o);
    if_set "ofed" "version" (of_version o).

Definition dumpRepositories : M AnswerFile unit :=
  r ← gets repositories;
  match rp_enabled r with
  | None => skip
  | Some l => set_string "repositories" "enabled" (join l ", ")
  end.

Definition dumpOHPC : M AnswerFile unit :=
  o ← gets ohpc;
  match oh_enabled o with
  | None => skip
  | Some l => set_string "ohpc" "enabled" (join l ", ")
  end.

Definition dumpSlurm : M AnswerFile unit :=
  s ← gets slurm;
  if negb (sl_enabled s) then skip
  else
    _ ← set_string "slurm" "mariadb_root_password" (sl_mariadb_root_password s);
    _ ← set_string "slurm" "slurmdb_password" (sl_slurmdb_password s);
    _ ← set_string "slurm" "storage_password" (sl_storage_password s);
    set_string "slurm" "partition_name" (sl_partition_name s).

Definition dumpPBS : M AnswerFile unit :=
  p ← gets pbs;
  if negb (pb_enabled p) then skip
  else set_string "pbs" "execution_place" (toString (pb_execution_place p)).

Definition dumpOptions : M AnswerFile unit :=
  _ ← dumpExternalNetwork;
  _ ← dumpManagementNetwork;
  _ ← dumpServiceNetwork;
  _ ← dumpApplicationNetwork;
  _ ← dumpInformation;
  _ ← dumpTimeSettings;
  _ ← dumpHostnameSettings;
  _ ← dumpSystemSettings;
  _ ← dumpRepositories;
  _ ← dumpOHPC;
  _ ← dumpSlurm;
  _ ← dumpPBS;
  _ ← dumpNodes;
  _ ← dumpOFED;
  dumpPostfix.

(** The file it writes: its path and its text. *)
Definition dumpFile (path : string) : M AnswerFile (string * string) :=
  _ ← modify (put_af_path path);
  _ ← dumpOptions;
  k ← gets af_keyfile;
  mret (path, toData k).
End dump.
