(* ===== verification/AnswerFileValidation.v ===== *)
(** * The answer file: what validation guarantees

    Theorems on the helpers and loaders of [AnswerFile.v]. *)

From stdpp Require Import base strings list gmap fin_maps.
From Stdlib Require Import ZArith Lia Ascii.
From S2P Require Import Prelude CppString External Enums KeyFile AnswerFile.
From S2P Require Network.

Local Open Scope Z_scope.

(** ** Numbers *)

Lemma digits_val_nonneg s acc :
  sforall is_digit s = true -> 0 <= acc -> 0 <= digits_val 10 digit_val s acc.
Proof.
  revert acc. induction s as [|c s IH]; intros acc; cbn; [done|].
  rewrite andb_true_iff. intros [Hc Hs] Ha. apply IH; [done|].
  unfold is_digit, in_range, digit_val in *. lia.
Qed.

Definition unsigned_text (allowZero : bool) (value : string) (n : Z) : Prop :=
  empty value = false /\ sforall is_digit value = true /\
  n = digits_val 10 digit_val value 0 /\ n < 2 ^ 64 /\ (allowZero = true \/ n <> 0).

Lemma parseUnsigned_ok section field value allowZero n :
  parseUnsignedAnswerfileField section field value allowZero = Ok n <->
  unsigned_text allowZero value n.
Proof.
  unfold parseUnsignedAnswerfileField, unsigned_text.
  destruct (empty value) eqn:He; [naive_solver|].
  destruct (sforall is_digit value) eqn:Hd; cbn [negb]; [|naive_solver].
  unfold from_chars. rewrite span_all by done. rewrite He.
  destruct (Z.leb_spec (2 ^ 64) (digits_val 10 digit_val value 0)); cbn -[digits_val].
  { split; [done|]. intros (_ & _ & -> & ? & _). lia. }
  destruct allowZero; cbn -[digits_val]; [naive_solver|].
  destruct (Z.eqb_spec (digits_val 10 digit_val value 0) 0); naive_solver.
Qed.

Lemma parseUnsigned_error section field value allowZero :
  match parseUnsignedAnswerfileField section field value allowZero with
  | Ok _ | Throw (InvalidArgument _) => True | _ => False end.
Proof. unfold parseUnsignedAnswerfileField. by repeat case_match; simplify_eq/=. Qed.

(** Ports: a text is accepted exactly when it is a non-empty run of
    decimal digits whose value is between 1 and 65535, and the result is that
    value; anything else, however long, is an [invalid_argument]. *)
Theorem parsePort_spec (section field value : string) :
  (forall n, parsePortAnswerfileField section field value = Ok n <->
     empty value = false /\ sforall is_digit value = true /\
     n = digits_val 10 digit_val value 0 /\ 1 <= n <= 65535) /\
  match parsePortAnswerfileField section field value with
  | Ok _ | Throw (InvalidArgument _) => True | _ => False end.
Proof.
  unfold parsePortAnswerfileField. split.
  - intros n. rewrite bind_Ok. split.
    + intros (m & Hm%parseUnsigned_ok & Hn). destruct Hm as (He & Hd & -> & Hlt & [Hz|Hz]); [done|].
      pose proof (digits_val_nonneg value 0 Hd). case_match eqn:Hp; [done|]. apply Z.ltb_ge in Hp.
      injection Hn as <-. repeat split; try done; lia.
    + intros (He & Hd & -> & Hn). eexists. split.
      * apply parseUnsigned_ok. repeat split; try done; [lia|]. right. lia.
      * by rewrite (proj2 (Z.ltb_ge _ _)) by lia.
  - pose proof (parseUnsigned_error section field value false) as He.
    destruct (parseUnsignedAnswerfileField section field value false); cpp_simpl; [|done..].
    by destruct (65535 <? a).
Qed.

(** ** Gateways *)

(** A gateway passes exactly when it is unspecified or shares the prefix
    of the host address under the mask; a gateway outside, or an IPv6 host or
    gateway, is an [invalid_argument]. *)
Theorem validateGatewayInSubnet_spec `{AsioLaws} section (host gateway : address) (k : Z) :
  0 <= k <= 32 ->
  let mask := address_v4 (Network.netmask k) in
  (validateGatewayInSubnet section host mask gateway = Ok tt <->
   is_unspecified gateway = true \/
   (is_v4 host = true /\ is_v4 gateway = true /\
    to_uint host / 2 ^ (32 - k) = to_uint gateway / 2 ^ (32 - k))) /\
  match validateGatewayInSubnet section host mask gateway with
  | Ok _ | Throw (InvalidArgument _) => True | _ => False end.
Proof.
  intros Hk mask. pose proof (Network.netmask_range k Hk) as Hr.
  unfold validateGatewayInSubnet. destruct (is_unspecified gateway); [naive_solver|].
  unfold ipv4NetworkAddress, mask. rewrite address_v4_is_v4, !orb_false_r.
  destruct (is_v4 host) eqn:Hh; cbn [negb]; cpp_simpl; [|naive_solver].
  destruct (is_v4 gateway) eqn:Hg; cbn [negb]; [|naive_solver].
  rewrite address_v4_uint by done.
  rewrite !Network.land_netmask by (done || by apply to_uint_range).
  set (h := to_uint host / 2 ^ (32 - k)). set (g := to_uint gateway / 2 ^ (32 - k)).
  assert (0 < 2 ^ (32 - k)) as Hp by (apply Z.pow_pos_nonneg; lia).
  assert (forall a, is_v4 a = true ->
    0 <= to_uint a / 2 ^ (32 - k) * 2 ^ (32 - k) < 2 ^ 32) as Hb.
  { intros a Ha. rewrite <- Network.land_netmask by (done || by apply to_uint_range).
    apply land_range; [by apply to_uint_range|lia]. }
  case_bool_decide as Heq; cbn [negb].
  - apply address_v4_inj in Heq; [|by apply Hb..].
    split; [|done]. split; [|done]. intros _. right. repeat split. nia.
  - unfold cidr_at. rewrite to_string_v4, Network.cidr_lookup by done.
    split; [|done]. split; [done|]. intros [?|(_ & _ & He)]; [done|]. by rewrite He in Heq.
Qed.

(** ** Inventory uniqueness *)

(** New, distinct values with respect to those already seen. *)
Definition fresh (D : gset string) (l : list string) : Prop :=
  NoDup l /\ forall v, v ∈ l -> v ∉ D.

Lemma fresh_nil D : fresh D [].
Proof. split; [constructor|by intros v ?%elem_of_nil]. Qed.

Lemma fresh_app D l1 l2 : fresh D (l1 ++ l2) <-> fresh D l1 /\ fresh (D ∪ list_to_set l1) l2.
Proof.
  unfold fresh. rewrite NoDup_app. split.
  - intros [(H1 & H2 & H3) HD]. repeat split; try done; set_solver.
  - intros [[H1 HD1] [H3 HD2]]. repeat split; try done; set_solver.
Qed.

Definition nonempty (v : string) : list string := if empty v then [] else [v].

Lemma remember_spec seen field v owner :
  match rememberUniqueNodeValue seen field v owner with
  | Ok seen' => fresh (dom seen) (nonempty v) /\ dom seen' = dom seen ∪ list_to_set (nonempty v)
  | Throw (InvalidArgument _) => ~ fresh (dom seen) (nonempty v)
  | _ => False
  end.
Proof.
  unfold rememberUniqueNodeValue, nonempty. destruct (empty v).
  - split; [apply fresh_nil|]. set_solver.
  - destruct (seen !! v) eqn:E.
    + intros [_ Hf]. apply (Hf v); [left|]. by apply elem_of_dom_2 in E.
    + apply not_elem_of_dom in E. split; [|rewrite dom_insert_L; set_solver].
      split; [by apply NoDup_singleton|]. set_solver.
Qed.

Section inventory.
Context `{Asio} `{GKeyFile}.

(** What a node contributes to each check. *)
Definition node_host (n : AFNode) : list string :=
  match nd_hostname n with Some h => nonempty h | None => [] end.
Definition node_mac (n : AFNode) : list string :=
  match nd_mac_address n with Some m => nonempty (lower m) | None => [] end.
Definition node_ip (n : AFNode) : list string :=
  match nd_start_ip n with
  | Some ip => if is_unspecified ip then [] else nonempty (to_string ip)
  | None => []
  end.
Definition node_bmc (n : AFNode) : list string :=
  match nd_bmc_address n with Some a => nonempty a | None => [] end.
Definition node_addresses (n : AFNode) : list string := node_ip n ++ node_bmc n.

Record seen_dom (s : seen_values) (H M N B A : gset string) : Prop := {
  seen_h : dom (hostnames s) = H;
  seen_m : dom (macAddresses s) = M;
  seen_n : dom (nodeAddresses s) = N;
  seen_b : dom (bmcAddresses s) = B;
  seen_a : dom (allAddresses s) = A;
}.

Definition all_fresh (s : seen_values) (h m n b a : list string) : Prop :=
  fresh (dom (hostnames s)) h /\ fresh (dom (macAddresses s)) m /\
  fresh (dom (nodeAddresses s)) n /\ fresh (dom (bmcAddresses s)) b /\
  fresh (dom (allAddresses s)) a.

(** Remembering one optional value in one map. *)
Definition remembers (r : outcome (gmap string string)) (seen : gmap string string)
    (l : list string) : Prop :=
  owp r (fun seen' => fresh (dom seen) l /\ dom seen' = dom seen ∪ list_to_set l)
    (fun e => is_invalid_argument e = true /\ ~ fresh (dom seen) l).

Lemma remembers_value seen f v o : remembers (rememberUniqueNodeValue seen f v o) seen (nonempty v).
Proof. pose proof (remember_spec seen f v o) as Hr. by destruct (rememberUniqueNodeValue _ _ _ _) as [|[]|]. Qed.

Lemma remembers_none seen : remembers (Ok seen) seen [].
Proof. split; [apply fresh_nil|set_solver]. Qed.

Lemma remembers_opt (g : string -> string) o seen f owner :
  remembers (match o with Some v => rememberUniqueNodeValue seen f (g v) owner | None => Ok seen end)
    seen (match o with Some v => nonempty (g v) | None => [] end).
Proof. destruct o; [apply remembers_value|apply remembers_none]. Qed.

Definition inventory_error (P : Prop) (e : exn) : Prop := is_invalid_argument e = true /\ ~ P.

Lemma check_node_ip node s owner :
  owp (match nd_start_ip node with
       | Some ip =>
           if negb (is_unspecified ip) then
             let nodeAddress := to_string ip in
             n ← rememberUniqueNodeValue (nodeAddresses s) "node_ip" nodeAddress owner;
             all ← rememberUniqueNodeValue (allAddresses s) "node/BMC address" nodeAddress
                     (owner +:+ " node_ip");
             Ok (n, all)
           else Ok (nodeAddresses s, allAddresses s)
       | None => Ok (nodeAddresses s, allAddresses s)
       end)
    (fun '(n, all) =>
       (fresh (dom (nodeAddresses s)) (node_ip node) /\
        dom n = dom (nodeAddresses s) ∪ list_to_set (node_ip node)) /\
       (fresh (dom (allAddresses s)) (node_ip node) /\
        dom all = dom (allAddresses s) ∪ list_to_set (node_ip node)))
    (inventory_error (fresh (dom (nodeAddresses s)) (node_ip node) /\
                      fresh (dom (allAddresses s)) (node_ip node))).
Proof.
  unfold node_ip. destruct (nd_start_ip node) as [ip|]; [|split; apply remembers_none].
  destruct (is_unspecified ip); [split; apply remembers_none|]. cbn [negb]. cbn zeta.
  apply owp_bind. eapply owp_mono; [apply remembers_value| |].
  - intros n Hn. apply owp_bind. eapply owp_mono; [apply remembers_value| |].
    + intros all Hall. by split.
    + intros e [He Hf]. split; [done|tauto].
  - intros e [He Hf]. split; [done|tauto].
Qed.

Lemma check_node_bmc node (b0 all0 : gmap string string) owner :
  owp (match nd_bmc_address node with
       | Some addr =>
           if negb (empty addr) then
             b ← rememberUniqueNodeValue b0 "bmc_address" addr owner;
             all ← rememberUniqueNodeValue all0 "node/BMC address" addr (owner +:+ " bmc_address");
             Ok (b, all)
           else Ok (b0, all0)
       | None => Ok (b0, all0)
       end)
    (fun '(b, all) =>
       (fresh (dom b0) (node_bmc node) /\ dom b = dom b0 ∪ list_to_set (node_bmc node)) /\
       (fresh (dom all0) (node_bmc node) /\ dom all = dom all0 ∪ list_to_set (node_bmc node)))
    (inventory_error (fresh (dom b0) (node_bmc node) /\ fresh (dom all0) (node_bmc node))).
Proof.
  unfold node_bmc. destruct (nd_bmc_address node) as [a|]; [|split; apply remembers_none].
  destruct (empty a) eqn:He; cbn [negb].
  { assert (nonempty a = []) as -> by (unfold nonempty; by rewrite He). split; apply remembers_none. }
  apply owp_bind. eapply owp_mono; [apply remembers_value| |].
  - intros b Hb. apply owp_bind. eapply owp_mono; [apply remembers_value| |].
    + intros all Hall. by split.
    + intros e [Hi Hf]. split; [done|tauto].
  - intros e [Hi Hf]. split; [done|tauto].
Qed.

Lemma all_fresh_split s node :
  all_fresh s (node_host node) (node_mac node) (node_ip node) (node_bmc node) (node_addresses node) <->
  fresh (dom (hostnames s)) (node_host node) /\ fresh (dom (macAddresses s)) (node_mac node) /\
  fresh (dom (nodeAddresses s)) (node_ip node) /\ fresh (dom (bmcAddresses s)) (node_bmc node) /\
  fresh (dom (allAddresses s)) (node_ip node) /\
  fresh (dom (allAddresses s) ∪ list_to_set (node_ip node)) (node_bmc node).
Proof. unfold all_fresh, node_addresses. rewrite (fresh_app (dom (allAddresses s))). tauto. Qed.

Lemma check_node_spec k node s :
  owp (check_node k node s)
    (fun s' =>
      all_fresh s (node_host node) (node_mac node) (node_ip node) (node_bmc node) (node_addresses node) /\
      seen_dom s' (dom (hostnames s) ∪ list_to_set (node_host node))
        (dom (macAddresses s) ∪ list_to_set (node_mac node))
        (dom (nodeAddresses s) ∪ list_to_set (node_ip node))
        (dom (bmcAddresses s) ∪ list_to_set (node_bmc node))
        (dom (allAddresses s) ∪ list_to_set (node_addresses node)))
    (inventory_error (all_fresh s (node_host node) (node_mac node) (node_ip node) (node_bmc node)
                        (node_addresses node))).
Proof.
  pose proof (all_fresh_split s node) as Hsp.
  unfold check_node. set (owner := "node '" +:+ _). cbn zeta.
  apply owp_bind. eapply owp_mono; [apply (remembers_opt (fun h => h) (nd_hostname node) (hostnames s))| |].
  2: { intros e [He Hf]. split; [done|]. rewrite Hsp. unfold node_host. tauto. }
  fold (node_host node). intros h [Hh Hdh]. apply owp_bind.
  eapply owp_mono; [apply (remembers_opt lower (nd_mac_address node) (macAddresses s))| |].
  2: { intros e [He Hf]. split; [done|]. rewrite Hsp. unfold node_mac. tauto. }
  fold (node_mac node). intros m [Hm Hdm]. apply owp_bind. eapply owp_mono; [apply (check_node_ip node s owner)| |].
  2: { intros e [He Hf]. split; [done|]. rewrite Hsp. tauto. }
  intros [n all] [[Hn Hdn] [Ha Hda]]. apply owp_bind.
  eapply owp_mono; [apply (check_node_bmc node (bmcAddresses s) all owner)| |].
  2: { intros e [He Hf]. rewrite Hda in Hf. split; [done|]. rewrite Hsp. tauto. }
  intros [b all'] [[Hb Hdb] [Ha' Hda']]. rewrite Hda in Ha', Hda'. cbn [owp]. split; [rewrite Hsp; tauto|].
  constructor; try done. cbn [allAddresses]. rewrite Hda'. unfold node_addresses.
  by rewrite list_to_set_app_L, assoc_L by apply _.
Qed.

(** All the nodes together. *)
Definition gather (f : AFNode -> list string) (l : list AFNode) : list string := l ≫= f.

Lemma inventory_loop_spec k nodes s :
  owp (inventory_loop k nodes s)
    (fun _ => all_fresh s (gather node_host nodes) (gather node_mac nodes) (gather node_ip nodes)
                (gather node_bmc nodes) (gather node_addresses nodes))
    (inventory_error (all_fresh s (gather node_host nodes) (gather node_mac nodes)
      (gather node_ip nodes) (gather node_bmc nodes) (gather node_addresses nodes))).
Proof.
  revert k s. induction nodes as [|node nodes IH]; intros k s.
  - cbn. repeat split; try constructor; by intros ? ?%elem_of_nil.
  - assert (forall (f : AFNode -> list string) D, fresh D (gather f (node :: nodes)) <->
      fresh D (f node) /\ fresh (D ∪ list_to_set (f node)) (gather f nodes)) as Hg.
    { intros f D. apply (fresh_app D (f node)). }
    cbn [inventory_loop]. apply owp_bind. eapply owp_mono; [apply check_node_spec| |].
    + intros s' [(H1 & H2 & H3 & H4 & H5) [D1 D2 D3 D4 D5]]. specialize (IH (k + 1) s').
      unfold all_fresh in IH |- *. rewrite D1, D2, D3, D4, D5 in IH.
      eapply owp_mono; [exact IH| |].
      * intros ?. cbn beta. rewrite !Hg. tauto.
      * intros e [He Hf]. split; [done|]. rewrite !Hg. tauto.
    + intros e [He Hf]. split; [done|]. intros Hall. apply Hf. revert Hall.
      unfold all_fresh. rewrite !Hg. tauto.
Qed.
End inventory.

Lemma fresh_empty l : fresh ∅ l <-> NoDup l.
Proof. unfold fresh. split; [by intros []|]. intros. split; [done|]. set_solver. Qed.

Lemma gather_sublist `{Asio} f g (l : list AFNode) :
  (forall n, f n `sublist_of` g n) -> gather f l `sublist_of` gather g l.
Proof.
  intros Hfg. unfold gather. induction l as [|n l IH]; [done|]. cbn. by apply sublist_app.
Qed.

Lemma inventory_checked `{Asio} (nodes : list AFNode) :
  owp (validateNodeInventoryTopology nodes)
    (fun _ => NoDup (gather node_host nodes) /\ NoDup (gather node_mac nodes) /\
              NoDup (gather node_addresses nodes))
    (fun e => is_invalid_argument e = true /\
       ~ (NoDup (gather node_host nodes) /\ NoDup (gather node_mac nodes) /\
          NoDup (gather node_addresses nodes))).
Proof.
  unfold validateNodeInventoryTopology. apply owp_bind.
  assert (forall h m n b a, all_fresh (mkSeen ∅ ∅ ∅ ∅ ∅) h m n b a <->
    NoDup h /\ NoDup m /\ NoDup n /\ NoDup b /\ NoDup a) as Hall.
  { intros. unfold all_fresh. cbn. by rewrite !dom_empty_L, !fresh_empty. }
  eapply owp_mono; [apply inventory_loop_spec| |].
  - intros ? Hf. apply Hall in Hf. cbn. tauto.
  - intros e [He Hf]. split; [done|]. rewrite Hall in Hf. intros (Hh & Hm & Ha).
    apply Hf. repeat split; try done.
    + eapply sublist_NoDup; [exact Ha|]. apply gather_sublist. intros n.
      by apply sublist_inserts_r.
    + eapply sublist_NoDup; [exact Ha|]. apply gather_sublist. intros n.
      by apply sublist_inserts_l.
Qed.

Lemma inventory_accepts `{Asio} (nodes : list AFNode) :
  validateNodeInventoryTopology nodes = Ok tt <->
  NoDup (gather node_host nodes) /\ NoDup (gather node_mac nodes) /\ NoDup (gather node_addresses nodes).
Proof.
  pose proof (inventory_checked nodes) as Hi.
  destruct (validateNodeInventoryTopology nodes) as [[]|[]|]; cbn in Hi; naive_solver.
Qed.

(** The inventory check accepts a list of nodes exactly when no host name
    and no MAC address (compared in lower case) occurs twice and all node and
    BMC addresses of the cluster, taken together, are distinct; empty values
    and unspecified addresses do not count.  Otherwise it is an
    [invalid_argument]. *)
Theorem inventory_spec `{Asio} (nodes : list AFNode) :
  (validateNodeInventoryTopology nodes = Ok tt <->
     NoDup (gather node_host nodes) /\ NoDup (gather node_mac nodes) /\
     NoDup (gather node_addresses nodes)) /\
  match validateNodeInventoryTopology nodes with
  | Ok _ | Throw (InvalidArgument _) => True | _ => False end.
Proof.
  pose proof (inventory_checked nodes) as Hi.
  destruct (validateNodeInventoryTopology nodes) as [[]|[]|]; cbn in Hi; naive_solver.
Qed.

(** ** Nodes *)

Section nodes.
Context `{Asio} `{BoostText} `{GKeyFile}.

(** A node's own value if it has text, the generic one otherwise. *)
Definition pick (own generic : option string) : option string :=
  if hasText own then own else generic.
Definition pick_address (own generic : option address) : option address :=
  match own with
  | Some a => if is_unspecified a then generic else own
  | None => generic
  end.

Lemma validateAttribute_ok section name own generic v :
  validateAttribute section name own generic = Ok v <-> v = pick own generic /\ hasText v = true.
Proof. unfold validateAttribute, pick. destruct own as [[|]|], generic as [[|]|]; cbn; naive_solver. Qed.

Lemma validateAttribute_error section name own generic :
  match validateAttribute section name own generic with
  | Ok _ => True | Throw e => is_invalid_argument e = true | UB => False end.
Proof. unfold validateAttribute. by destruct own as [[|]|], generic as [[|]|]. Qed.

Definition specified (o : option address) : Prop := exists a, o = Some a /\ is_unspecified a = false.

Lemma validateAttribute_address_ok section name own generic v :
  validateAttribute_address section name own generic = Ok v <-> v = pick_address own generic /\ specified v.
Proof.
  unfold validateAttribute_address, pick_address, specified.
  destruct own as [a|]; [destruct (is_unspecified a) eqn:Ha|]; cbn;
    try (destruct generic as [b|]; [destruct (is_unspecified b) eqn:Hb|]; cbn); naive_solver congruence.
Qed.

Definition unsigned_opt (allowZero : bool) (v : option string) : Prop :=
  match v with Some s => exists n, unsigned_text allowZero s n | None => True end.

Lemma validateUnsigned_ok section field v allowZero :
  validateUnsignedAnswerfileField section field v allowZero = Ok tt <-> unsigned_opt allowZero v.
Proof.
  unfold validateUnsignedAnswerfileField, unsigned_opt. destruct v as [s|]; [|done]. rewrite bind_Ok. split.
  - intros (n & Hn%parseUnsigned_ok & _). by exists n.
  - intros (n & Hn%(parseUnsigned_ok section field)). by exists n.
Qed.

(** What every node of a loaded answer file satisfies. *)
Record complete_node (n : AFNode) : Prop := {
  complete_ip : exists a, nd_start_ip n = Some a /\ is_unspecified a = false;
  complete_password : hasText (nd_root_password n) = true;
  complete_sockets : hasText (nd_sockets n) = true /\ unsigned_opt false (nd_sockets n);
  complete_cores : hasText (nd_cores_per_socket n) = true /\ unsigned_opt false (nd_cores_per_socket n);
  complete_threads : hasText (nd_threads_per_core n) = true /\ unsigned_opt false (nd_threads_per_core n);
  complete_bmc :
    unsigned_opt true (nd_bmc_serialport n) /\ unsigned_opt false (nd_bmc_serialspeed n) /\
    (nd_bmc_address n = None \/
     (hasText (nd_bmc_address n) = true /\ hasText (nd_bmc_username n) = true /\
      hasText (nd_bmc_password n) = true /\ hasText (nd_bmc_serialport n) = true /\
      hasText (nd_bmc_serialspeed n) = true));
}.

(** A node completed by the generic one: its own values where they have text,
    the BMC only if one of the two has one *)
Definition completed (generic own : AFNode) : AFNode :=
  let bmc (f : AFNode -> option string) : option string :=
    if hasText (nd_bmc_address own) || hasText (nd_bmc_address generic) then pick (f own) (f generic)
    else clearIfEmpty (f own) in
  mkAFNode (nd_prefix own) (nd_padding own) (pick_address (nd_start_ip own) (nd_start_ip generic)) (nd_hostname own)
    (pick (nd_root_password own) (nd_root_password generic)) (nd_mac_address own)
    (pick (nd_sockets own) (nd_sockets generic)) (pick (nd_cores_per_socket own) (nd_cores_per_socket generic))
    (pick (nd_threads_per_core own) (nd_threads_per_core generic)) (nd_cpus_per_node own) (nd_real_memory own)
    (bmc nd_bmc_address) (bmc nd_bmc_username) (bmc nd_bmc_password) (bmc nd_bmc_serialport) (bmc nd_bmc_serialspeed).

Lemma validateResolved_ok section n :
  validateResolvedNodeScalars section n = Ok tt <->
  unsigned_opt false (nd_sockets n) /\ unsigned_opt false (nd_cores_per_socket n) /\
  unsigned_opt false (nd_threads_per_core n) /\ unsigned_opt true (nd_bmc_serialport n) /\
  unsigned_opt false (nd_bmc_serialspeed n).
Proof.
  unfold validateResolvedNodeScalars. rewrite <- !(validateUnsigned_ok section). split.
  - intros ([] & Hs & ([] & Hc & ([] & Ht & ([] & Hp & Hsp)%bind_Ok)%bind_Ok)%bind_Ok)%bind_Ok. split_and!; done.
  - intros (Hs & Hc & Ht & Hp & Hsp). apply bind_Ok. exists tt. split; [exact Hs|]. apply bind_Ok. exists tt.
    split; [exact Hc|]. apply bind_Ok. exists tt. split; [exact Ht|]. apply bind_Ok. exists tt. by split.
Qed.

Lemma clearIfEmpty_none v : hasText v = false -> clearIfEmpty v = None.
Proof. by destruct v as [[|]|]. Qed.

(** The BMC part of [validateNode] *)
Definition bmc_of (own generic : AFNode) (f : AFNode -> option string) : option string :=
  if hasText (nd_bmc_address own) || hasText (nd_bmc_address generic) then pick (f own) (f generic)
  else clearIfEmpty (f own).

Lemma validateNode_bmc {X} (own generic : AFNode) (f : option string -> option string ->
    option string -> option string -> option string -> X) x :
  (if hasText (nd_bmc_address own) || hasText (nd_bmc_address generic) then
     addr ← validateAttribute "node" "bmc_address" (nd_bmc_address own) (nd_bmc_address generic);
     user ← validateAttribute "node" "bmc_username" (nd_bmc_username own) (nd_bmc_username generic);
     pass ← validateAttribute "node" "bmc_password" (nd_bmc_password own) (nd_bmc_password generic);
     port ← validateAttribute "node" "bmc_serialport" (nd_bmc_serialport own) (nd_bmc_serialport generic);
     speed ← validateAttribute "node" "bmc_serialspeed" (nd_bmc_serialspeed own) (nd_bmc_serialspeed generic);
     Ok (f addr user pass port speed)
   else
     Ok (f (clearIfEmpty (nd_bmc_address own)) (clearIfEmpty (nd_bmc_username own))
           (clearIfEmpty (nd_bmc_password own)) (clearIfEmpty (nd_bmc_serialport own))
           (clearIfEmpty (nd_bmc_serialspeed own)))) = Ok x <->
  let bmc := bmc_of own generic in
  x = f (bmc nd_bmc_address) (bmc nd_bmc_username) (bmc nd_bmc_password) (bmc nd_bmc_serialport) (bmc nd_bmc_serialspeed) /\
  (bmc nd_bmc_address = None \/
   hasText (bmc nd_bmc_address) = true /\ hasText (bmc nd_bmc_username) = true /\ hasText (bmc nd_bmc_password) = true /\
   hasText (bmc nd_bmc_serialport) = true /\ hasText (bmc nd_bmc_serialspeed) = true).
Proof.
  cbv zeta. unfold bmc_of. destruct (hasText (nd_bmc_address own) || hasText (nd_bmc_address generic)) eqn:Hb.
  - assert (hasText (pick (nd_bmc_address own) (nd_bmc_address generic)) = true) as Ha.
    { unfold pick. destruct (hasText (nd_bmc_address own)) eqn:Ho; [done|exact Hb]. }
    rewrite !bind_Ok. split.
    + intros (a & [-> _]%validateAttribute_ok & (u & [-> Hu]%validateAttribute_ok & (p & [-> Hp]%validateAttribute_ok &
        (po & [-> Hpo]%validateAttribute_ok & (sp & [-> Hsp]%validateAttribute_ok & [= <-])%bind_Ok)%bind_Ok)%bind_Ok)%bind_Ok).
      split; [done|]. by right.
    + intros [-> [Hn|(_ & Hu & Hp & Hpo & Hsp)]]; [by rewrite Hn in Ha|].
      eexists. split; [by apply validateAttribute_ok|]. apply bind_Ok. eexists. split; [by apply validateAttribute_ok|].
      apply bind_Ok. eexists. split; [by apply validateAttribute_ok|]. apply bind_Ok. eexists.
      split; [by apply validateAttribute_ok|]. apply bind_Ok. eexists. split; [by apply validateAttribute_ok|]. done.
  - split; [|by intros [-> _]]. intros [= <-]. split; [done|]. left. apply clearIfEmpty_none.
    by apply orb_false_iff in Hb as [-> _].
Qed.

(** A node is accepted exactly when the completed one lacks nothing. *)
Lemma validateNode_ok generic own section n :
  validateNode (Some generic) own section = Ok n <-> n = completed generic own /\ complete_node n.
Proof.
  unfold validateNode. cbn [deref mbind outcome_bind]. rewrite !bind_Ok. split.
  - intros (ip & [-> Hip]%validateAttribute_address_ok & (pw & [-> Hpw]%validateAttribute_ok &
      (so & [-> Hso]%validateAttribute_ok & (co & [-> Hco]%validateAttribute_ok & (th & [-> Hth]%validateAttribute_ok &
      Hr)%bind_Ok)%bind_Ok)%bind_Ok)%bind_Ok).
    cbv zeta in Hr. apply bind_Ok in Hr as (n' & Hbmc & Hr).
    apply (validateNode_bmc own generic (mkAFNode _ _ _ _ _ _ _ _ _ _ _)) in Hbmc as [-> Hbmc].
    apply bind_Ok in Hr as ([] & Hs%validateResolved_ok & [= <-]). split; [done|].
    destruct Hs as (? & ? & ? & ? & ?). by constructor.
  - intros [-> [Hip Hpw [Hso Hso'] [Hco Hco'] [Hth Hth'] (Hpo & Hsp & Hbmc)]].
    eexists. split; [by apply validateAttribute_address_ok|]. apply bind_Ok.
    eexists. split; [by apply validateAttribute_ok|]. apply bind_Ok.
    eexists. split; [by apply validateAttribute_ok|]. apply bind_Ok.
    eexists. split; [by apply validateAttribute_ok|]. apply bind_Ok.
    eexists. split; [by apply validateAttribute_ok|]. cbv zeta. apply bind_Ok.
    eexists. split; [apply (validateNode_bmc own generic (mkAFNode _ _ _ _ _ _ _ _ _ _ _)); by split|].
    apply bind_Ok. exists tt. split; [by apply validateResolved_ok|]. done.
Qed.
End nodes.

Section load_nodes.
Context `{Asio} `{BoostText} `{GKeyFile}.

(** The host name of a node whose section gives none. *)
Definition node_name (generic own : AFNode) (number : Z) (name : string) : Prop :=
  match nd_hostname own with
  | Some h =>
      if empty h then
        exists prefix padding width,
          nd_prefix generic = Some prefix /\ empty prefix = false /\
          nd_padding generic = Some padding /\ stoi padding = Ok width /\
          name = prefix +:+ pad0 width (dec number)
      else name = h
  | None => False
  end.

(** The node made from a section of the file. *)
Definition node_of (k : KeyFile) (generic : AFNode) (section : string) (n : AFNode) : Prop :=
  exists own number name,
    loadNode k section = Ok own /\ node_counter section = Ok number /\
    node_name generic own number name /\
    n = completed generic (put_nd_hostname (Some name) own) /\ complete_node n.

Lemma loadNode_generic_fields k generic :
  loadNode k "node" = Ok generic ->
  (exists p, nd_prefix generic = Some p) /\ (exists p, nd_padding generic = Some p).
Proof.
  unfold loadNode. change (String.eqb "node" "node") with true. unfold loadNode_generic. intros Hl.
  repeat (apply bind_Ok in Hl as (? & _ & Hl)). injection Hl as <-. cbn. eauto.
Qed.

(** The name a node is given *)
Definition name_node (generic own : AFNode) (number : Z) : M AFNodes AFNode :=
  h ← lift (deref (nd_hostname own));
  if empty h then
    prefix ← lift (deref (nd_prefix generic));
    if empty prefix then
      throw (InvalidArgument ("Section node." +:+ dec number +:+
        " must have a 'hostname' key or you must inform a generic 'prefix' value"))
    else
      padding ← lift (deref (nd_padding generic));
      if empty padding then
        throw (InvalidArgument ("Section node." +:+ dec number +:+
          " must have a 'hostname' key or you must inform a generic 'padding' value"))
      else
        name ← lift (generated_hostname generic number);
        mret (put_nd_hostname (Some name) own)
  else mret own.

Lemma name_node_ok generic own number ns named ns' :
  (exists p, nd_prefix generic = Some p) -> (exists p, nd_padding generic = Some p) ->
  name_node generic own number ns = (Ok named, ns') <->
  ns' = ns /\ exists name, node_name generic own number name /\ named = put_nd_hostname (Some name) own.
Proof.
  intros [prefix Hp] [padding Hpad]. unfold name_node, node_name, generated_hostname. rewrite Hp, Hpad. cpp_simpl.
  destruct (nd_hostname own) as [h|] eqn:Hh; [|split; [done|naive_solver]]. cpp_simpl. destruct (empty h) eqn:He.
  - destruct (empty prefix) eqn:Hpe; [split; [done|naive_solver congruence]|]. cpp_simpl.
    destruct (empty padding) eqn:Hpa.
    { split; [done|]. intros (_ & name & (? & pad & width & _ & _ & [= <-] & Hw & _) & _). by destruct padding. }
    cpp_simpl. destruct (stoi padding) as [w|e|] eqn:Hw; cbn; naive_solver congruence.
  - assert (put_nd_hostname (Some h) own = own) as Hsame by (destruct own; cbn in *; by subst). split.
    + intros [= <- <-]. split; [done|]. by exists h.
    + intros (-> & name & -> & ->). by rewrite Hsame.
Qed.

Lemma load_one_node_named generic k section ns :
  load_one_node generic k section ns =
  (number ← lift (node_counter section); own ← lift (loadNode k section); named ← name_node generic own number;
   g ← gets ns_generic;
   n ← lift (try_catch (validateNode g named section) is_invalid_argument
     (fun e => Throw (InvalidArgument ("Section node." +:+ dec number +:+ " validation failed - " +:+ what e))));
   modify (fun ns => put_ns_nodes (ns_nodes ns ++ [n]) ns)) ns.
Proof.
  unfold load_one_node, name_node. apply M_bind_ext; [done|]. intros number s. apply M_bind_ext; [done|]. intros own s'.
  rewrite M_bind_assoc. by apply M_bind_ext.
Qed.

Lemma validated_ok generic named section number n :
  try_catch (validateNode (Some generic) named section) is_invalid_argument
    (fun e => Throw (InvalidArgument ("Section node." +:+ dec number +:+ " validation failed - " +:+ what e))) = Ok n <->
  n = completed generic named /\ complete_node n.
Proof.
  rewrite <- (validateNode_ok generic named section). unfold try_catch.
  destruct (validateNode _ _ _) as [n'|e|]; [done| |done]. by destruct (is_invalid_argument e).
Qed.

Lemma load_one_node_ok k generic section ns ns' :
  (exists p, nd_prefix generic = Some p) -> (exists p, nd_padding generic = Some p) ->
  ns_generic ns = Some generic ->
  load_one_node generic k section ns = (Ok tt, ns') <->
  exists n, ns' = put_ns_nodes (ns_nodes ns ++ [n]) ns /\ node_of k generic section n.
Proof.
  intros Hp Hpad Hg. rewrite load_one_node_named. split.
  - intros (number & s1 & [= Hnum <-] & Hr)%M_bind_inv_ok. apply M_bind_inv_ok in Hr as (own & s2 & [= Hown <-] & Hr).
    apply M_bind_inv_ok in Hr as (named & s3 & Hn & Hr). apply name_node_ok in Hn as [-> (name & Hname & ->)]; [|done..].
    apply M_bind_inv_ok in Hr as (g & s4 & [= <- <-] & Hr). rewrite Hg in Hr.
    apply M_bind_inv_ok in Hr as (n & s5 & Hv & [= <-]). injection Hv as Hv <-. apply validated_ok in Hv as [-> Hc].
    eexists. split; [done|]. by exists own, number, name.
  - intros (n & -> & own & number & name & Hown & Hnum & Hname & Hn & Hc).
    rewrite (M_bind_ok _ _ ns number ns) by (unfold lift; by rewrite Hnum).
    rewrite (M_bind_ok _ _ ns own ns) by (unfold lift; by rewrite Hown).
    rewrite (M_bind_ok _ _ ns (put_nd_hostname (Some name) own) ns)
      by (apply name_node_ok; [done..|]; split; [done|]; by exists name).
    rewrite (M_bind_ok _ _ ns (Some generic) ns) by (unfold gets; by rewrite Hg).
    rewrite (M_bind_ok _ _ ns n ns); [done|]. unfold lift. f_equal. by apply validated_ok.
Qed.

Lemma load_nodes_loop k generic sections ns ns' :
  (exists p, nd_prefix generic = Some p) -> (exists p, nd_padding generic = Some p) ->
  ns_generic ns = Some generic ->
  for_each sections (load_one_node generic k) ns = (Ok tt, ns') <->
  exists l, ns' = put_ns_nodes (ns_nodes ns ++ l) ns /\ Forall2 (node_of k generic) sections l.
Proof.
  intros Hp Hpad. revert ns. induction sections as [|s sections IH]; intros ns Hg; cbn [for_each].
  - split.
    + intros [= <-]. exists []. rewrite app_nil_r. split; [by destruct ns|constructor].
    + intros (l & -> & ->%Forall2_nil_inv_l). rewrite app_nil_r. by destruct ns.
  - split.
    + intros ([] & s1 & Hs & Hr)%M_bind_inv_ok. apply load_one_node_ok in Hs as (n & -> & Hn); [|done..].
      apply IH in Hr as (l & -> & Hf); [|done]. exists (n :: l). split; [|by constructor].
      cbn. by rewrite <- (assoc_L (++)).
    + intros (l & -> & Hf). apply Forall2_cons_inv_l in Hf as (n & l' & Hn & Hf & ->).
      rewrite (M_bind_ok _ _ ns tt (put_ns_nodes (ns_nodes ns ++ [n]) ns)) by (apply load_one_node_ok; [done..|]; by exists n).
      apply IH; [done|]. exists l'. split; [|done]. cbn. by rewrite <- (assoc_L (++)).
Qed.

(** The sections that describe nodes: [node.<n>] with a positive number, in
    the order of the file. *)
Definition node_sections (k : KeyFile) : list string :=
  filter (fun s => Is_true (is_node_number s)) (listAllPrefixedEntries k "node.").

End load_nodes.

(** C31. Loading the nodes of an answer file into a fresh object succeeds
    exactly when the generic node can be read, every numbered section gives a
    node, and no host name, MAC address, node or BMC address is used twice;
    what it leaves is then that generic node and those nodes, one per section
    in file order.  A section gives a node when it can be read and, completed
    by the generic node where it has no text of its own, has a specified
    address, a root password, positive socket, core and thread counts, and
    either no BMC address or complete BMC credentials; a missing host name is
    the prefix followed by the section number padded with zeros. *)
Theorem loadNodes_spec `{Asio} `{BoostText} `{GKeyFile} (k : KeyFile) (ns ns' : AFNodes) :
  ns_nodes ns = [] ->
  loadNodes k ns = (Ok tt, ns') <->
  exists generic,
    loadNode k "node" = Ok generic /\ ns_generic ns' = Some generic /\
    Forall2 (node_of k generic) (node_sections k) (ns_nodes ns') /\
    NoDup (gather node_host (ns_nodes ns')) /\ NoDup (gather node_mac (ns_nodes ns')) /\
    NoDup (gather node_addresses (ns_nodes ns')).
Proof.
  intros Hns. unfold loadNodes. split.
  - intros (generic & s1 & [= Hgen <-] & Hr)%M_bind_inv_ok. exists generic. split; [done|].
    destruct (loadNode_generic_fields _ _ Hgen) as [Hp Hpad].
    apply M_bind_inv_ok in Hr as ([] & s2 & [= <-] & Hr). apply M_bind_inv_ok in Hr as ([] & s3 & Hloop & Hr).
    apply load_nodes_loop in Hloop as (l & -> & Hf); [|done..].
    apply M_bind_inv_ok in Hr as (nodes & s4 & [= <- <-] & Hv). injection Hv as Hv <-. cbn in Hv |- *. rewrite Hns in *.
    split; [done|]. split; [done|]. by apply inventory_accepts.
  - intros (generic & Hgen & Hg & Hf & Hdup). destruct (loadNode_generic_fields _ _ Hgen) as [Hp Hpad].
    rewrite (M_bind_ok _ _ ns generic ns) by (unfold lift; by rewrite Hgen).
    rewrite (M_bind_ok _ _ ns tt (put_ns_generic (Some generic) ns)) by done.
    assert (put_ns_nodes (ns_nodes ns') (put_ns_generic (Some generic) ns) = ns') as Hns'
      by (destruct ns'; cbn in *; by subst).
    rewrite (M_bind_ok _ _ _ tt ns').
    2: { apply load_nodes_loop; [done..|]. exists (ns_nodes ns'). split; [|done]. cbn. by rewrite Hns. }
    rewrite (M_bind_ok _ _ ns' (ns_nodes ns') ns') by done. unfold lift. f_equal. by apply inventory_accepts.
Qed.
