(* ===== verification/AnswerFileWrites.v ===== *)
(** * The answer file: dumping as writing

    Each [dump*] method of [src/models/answerfile.cpp] is a list of writes to
    the key file and nothing else; the lists are the [ws_*] definitions, and
    each touches the groups of its own section only. *)

From stdpp Require Import base strings list gmap.
From Stdlib Require Import ZArith Lia Ascii.
From S2P Require Import Prelude CppString External Enums KeyFile AnswerFile AnswerFileDump.
From S2P Require Import AnswerFileValidation.
From S2P Require Network.

Local Open Scope Z_scope.

(** ** Dumping as writing *)

Section writes.
Context `{Asio} `{BoostText} `{GKeyFile}.

Definition add_writes (ws : list write) (a : AnswerFile) : AnswerFile :=
  put_af_keyfile (write_all ws (af_keyfile a)) a.

(** The method writes [ws] and changes nothing else. *)
Definition writes (m : M AnswerFile unit) (a : AnswerFile) (ws : list write) : Prop :=
  m a = (Ok tt, add_writes ws a).

Lemma add_writes_nil a : add_writes [] a = a.
Proof. by destruct a. Qed.

Lemma add_writes_app ws1 ws2 a : add_writes (ws1 ++ ws2) a = add_writes ws2 (add_writes ws1 a).
Proof. unfold add_writes. cbn. by rewrite write_all_app. Qed.

Lemma writes_skip a : writes skip a [].
Proof. unfold writes. by rewrite add_writes_nil. Qed.

Lemma writes_bind m n a ws1 ws2 :
  writes m a ws1 -> writes n (add_writes ws1 a) ws2 -> writes (_ ← m; n) a (ws1 ++ ws2).
Proof. unfold writes. intros Hm Hn. erewrite M_bind_ok by exact Hm. by rewrite Hn, add_writes_app. Qed.

(** Reading a part first; writes do not change it. *)
Lemma writes_gets {T} (f : AnswerFile -> T) (m : T -> M AnswerFile unit) a ws :
  writes (m (f a)) a ws -> writes (x ← gets f; m x) a ws.
Proof. done. Qed.

Lemma writes_eq m a ws ws' : writes m a ws -> ws = ws' -> writes m a ws'.
Proof. by intros ? <-. Qed.

Lemma writes_set g key v a : writes (set_string g key v) a [(g, key, v)].
Proof. done. Qed.

Lemma writes_set_opt g key v a : writes (set_string_opt g key v) a (opt_write g key v).
Proof. destruct v; [done|]. unfold writes. by destruct a. Qed.

Lemma writes_if_set g key v a : writes (if_set g key v) a (opt_write g key v).
Proof. destruct v; [done|]. unfold writes. by destruct a. Qed.

(** *** The writes of each section *)

Definition nonempty_write (g key v : string) : list write :=
  if empty v then [] else [(g, key, v)].

Definition ws_network (n : AFNetwork) (g : string) : list write :=
  opt_write g "interface" (nw_con_interface n) ++
  opt_write g "ip_address" (to_string <$> nw_con_ip_addr n) ++
  opt_write g "mac_address" (nw_con_mac_addr n) ++
  opt_write g "subnet_mask" (to_string <$> nw_subnet_mask n) ++
  opt_write g "domain_name" (nw_domain_name n) ++
  opt_write g "gateway" (to_string <$> nw_gateway n) ++
  opt_write g "nameservers"
    (match nw_nameservers n with Some ((_ :: _) as ns) => Some (join ns ", ") | _ => None end).

Definition ws_information (i : AFInformation) : list write :=
  [("information", "cluster_name", in_cluster_name i)] ++
  [("information", "company_name", in_company_name i)] ++
  [("information", "administrator_email", in_administrator_email i)].

Definition ws_time (t : AFTime) : list write :=
  [("time", "timezone", tm_timezone t)] ++ [("time", "timeserver", tm_timeserver t)] ++
  [("time", "locale", tm_locale t)].

Definition ws_hostname (h : AFHostname) : list write :=
  [("hostname", "hostname", hn_hostname h)] ++ [("hostname", "domain_name", hn_domain_name h)].

Definition ws_system (s : AFSystem) (d : Distro.t) : list write :=
  [("system", "disk_image", sy_disk_image s)] ++ [("system", "distro", toString d)] ++
  [("system", "version", sy_version s)] ++ opt_write "system" "kernel" (sy_kernel s) ++
  [("system", "provisioner", sy_provisioner s)].

Definition ws_generic (g : AFNode) : list write :=
  opt_write "node" "prefix" (nd_prefix g) ++
  opt_write "node" "padding" (nd_padding g) ++
  opt_write "node" "node_ip" (to_string <$> nd_start_ip g) ++
  opt_write "node" "node_root_password" (nd_root_password g) ++
  opt_write "node" "sockets" (nd_sockets g) ++
  opt_write "node" "cores_per_socket" (nd_cores_per_socket g) ++
  opt_write "node" "cpus_per_node" (nd_cpus_per_node g) ++
  opt_write "node" "threads_per_core" (nd_threads_per_core g) ++
  opt_write "node" "real_memory" (nd_real_memory g) ++
  opt_write "node" "bmc_username" (nd_bmc_username g) ++
  opt_write "node" "bmc_password" (nd_bmc_password g) ++
  opt_write "node" "bmc_serialport" (nd_bmc_serialport g) ++
  opt_write "node" "bmc_serialspeed" (nd_bmc_serialspeed g).

Definition ws_node (n : AFNode) (g : string) : list write :=
  opt_write g "hostname" (nd_hostname n) ++
  opt_write g "mac_address" (nd_mac_address n) ++
  opt_write g "node_ip" (to_string <$> nd_start_ip n) ++
  opt_write g "node_root_password" (nd_root_password n) ++
  opt_write g "sockets" (nd_sockets n) ++
  opt_write g "cores_per_socket" (nd_cores_per_socket n) ++
  opt_write g "threads_per_core" (nd_threads_per_core n) ++
  opt_write g "cpus_per_node" (nd_cpus_per_node n) ++
  opt_write g "real_memory" (nd_real_memory n) ++
  opt_write g "bmc_address" (nd_bmc_address n) ++
  opt_write g "bmc_username" (nd_bmc_username n) ++
  opt_write g "bmc_password" (nd_bmc_password n) ++
  opt_write g "bmc_serialport" (nd_bmc_serialport n) ++
  opt_write g "bmc_serialspeed" (nd_bmc_serialspeed n).

Fixpoint ws_node_list (counter : Z) (l : list AFNode) : list write :=
  match l with
  | [] => []
  | n :: l => ws_node n (node_section counter) ++ ws_node_list (counter + 1) l
  end.

Definition ws_nodes (ns : AFNodes) : list write :=
  match ns_generic ns with Some g => ws_generic g | None => [] end ++ ws_node_list 1 (ns_nodes ns).

Definition ws_smtp (p : AFPostfix) (profile : PostfixProfile.t) : list write :=
  match profile, pf_smtp p with
  | PostfixProfile.Relay, Some s =>
      [("postfix.relay", "server", sm_server s)] ++ [("postfix.relay", "port", dec_int (sm_port s))]
  | PostfixProfile.SASL, Some s =>
      [("postfix.sasl", "server", sm_server s)] ++ [("postfix.sasl", "port", dec_int (sm_port s))] ++
      match sm_sasl s with
      | Some c => [("postfix.sasl", "username", sa_username c)] ++
                  [("postfix.sasl", "password", sa_password c)]
      | None => []
      end
  | _, _ => []
  end.

Definition destination_text (d : list string) : option string :=
  match d with [] => None | _ => Some (join d ", ") end.

Definition ws_postfix (p : AFPostfix) (profile : PostfixProfile.t) : list write :=
  [("postfix", "profile", toString profile)] ++
  opt_write "postfix" "destination" (destination_text (pf_destination p)) ++
  nonempty_write "postfix" "smtpd_tls_cert_file" (pf_cert_file p) ++
  nonempty_write "postfix" "smtpd_tls_key_file" (pf_key_file p) ++
  ws_smtp p profile.

Definition ws_ofed (o : AFOFED) : list write :=
  if of_enabled o then [("ofed", "kind", of_kind o)] ++ opt_write "ofed" "version" (of_version o)
  else [].

Definition ws_repositories (r : AFRepositories) : list write :=
  opt_write "repositories" "enabled" ((fun l => join l ", ") <$> rp_enabled r).
Definition ws_ohpc (o : AFOHPC) : list write :=
  opt_write "ohpc" "enabled" ((fun l => join l ", ") <$> oh_enabled o).

Definition ws_slurm (s : AFSlurm) : list write :=
  if sl_enabled s then
    [("slurm", "mariadb_root_password", sl_mariadb_root_password s)] ++
    [("slurm", "slurmdb_password", sl_slurmdb_password s)] ++
    [("slurm", "storage_password", sl_storage_password s)] ++
    [("slurm", "partition_name", sl_partition_name s)]
  else [].

Definition ws_pbs (p : AFPBS) : list write :=
  if pb_enabled p then [("pbs", "execution_place", toString (pb_execution_place p))] else [].

(** *** They are what the methods write *)

Ltac writes_step :=
  first [ apply writes_bind
        | apply writes_set | apply writes_set_opt | apply writes_if_set | apply writes_skip ].

Lemma dumpNetwork_writes n g a : writes (dumpNetwork n g) a (ws_network n g).
Proof.
  unfold dumpNetwork, ws_network. repeat writes_step.
  destruct (nw_nameservers n) as [[|x l]|]; apply writes_skip || apply writes_set.
Qed.

Lemma dumpSystemSettings_writes a d :
  sy_distro (system a) = Some d -> writes dumpSystemSettings a (ws_system (system a) d).
Proof.
  intros Hd. unfold dumpSystemSettings. apply writes_gets. rewrite Hd.
  unfold ws_system. change (x ← lift (deref (Some d)); ?f x) with (f d). cbv zeta. repeat writes_step.
Qed.

Lemma dump_nodes_loop_writes l counter a :
  writes (dump_nodes_loop counter l) a (ws_node_list counter l).
Proof.
  revert counter a. induction l as [|n l IH]; intros counter a; cbn [dump_nodes_loop ws_node_list].
  - apply writes_skip.
  - apply writes_bind; [|apply IH]. unfold dump_node, ws_node. repeat writes_step.
Qed.

Lemma dumpNodes_writes a : writes dumpNodes a (ws_nodes (nodes a)).
Proof.
  unfold dumpNodes, ws_nodes. apply writes_gets. apply writes_bind; [|apply dump_nodes_loop_writes].
  destruct (ns_generic (nodes a)); [|apply writes_skip]. unfold dump_generic, ws_generic. repeat writes_step.
Qed.

Lemma if_nonempty_writes g key v a : writes (if_nonempty g key v) a (nonempty_write g key v).
Proof. unfold if_nonempty, nonempty_write. destruct (empty v); [apply writes_skip|apply writes_set]. Qed.

Lemma dumpPostfix_writes a :
  (pf_enabled (postfix a) = true -> exists p, pf_profile (postfix a) = Some p) ->
  writes dumpPostfix a
    (match pf_enabled (postfix a), pf_profile (postfix a) with
     | true, Some p => ws_postfix (postfix a) p | _, _ => [] end).
Proof.
  intros Hp. unfold dumpPostfix. apply writes_gets.
  destruct (pf_enabled (postfix a)); [|apply writes_skip]. cbn [negb].
  destruct (Hp eq_refl) as [p ->]. change (x ← lift (deref (Some p)); ?f x) with (f p).
  unfold ws_postfix. apply writes_bind; [apply writes_set|].
  apply writes_bind; [destruct (pf_destination (postfix a)); [apply writes_skip|apply writes_set]|].
  apply writes_bind; [apply if_nonempty_writes|]. apply writes_bind; [apply if_nonempty_writes|].
  unfold ws_smtp. destruct p, (pf_smtp (postfix a)) as [s|]; try apply writes_skip; repeat writes_step.
  destruct (sm_sasl s); [repeat writes_step|apply writes_skip].
Qed.

Lemma dumpOFED_writes a : writes dumpOFED a (ws_ofed (ofed a)).
Proof.
  unfold dumpOFED, ws_ofed. apply writes_gets. destruct (of_enabled (ofed a)); cbn [negb];
    repeat writes_step.
Qed.

Lemma dumpRepositories_writes a : writes dumpRepositories a (ws_repositories (repositories a)).
Proof.
  unfold dumpRepositories, ws_repositories. apply writes_gets.
  destruct (rp_enabled (repositories a)); [apply writes_set|apply writes_skip].
Qed.

Lemma dumpOHPC_writes a : writes dumpOHPC a (ws_ohpc (ohpc a)).
Proof.
  unfold dumpOHPC, ws_ohpc. apply writes_gets.
  destruct (oh_enabled (ohpc a)); [apply writes_set|apply writes_skip].
Qed.

Lemma dumpSlurm_writes a : writes dumpSlurm a (ws_slurm (slurm a)).
Proof.
  unfold dumpSlurm, ws_slurm. apply writes_gets. destruct (sl_enabled (slurm a)); cbn [negb];
    repeat writes_step.
Qed.

Lemma dumpPBS_writes a : writes dumpPBS a (ws_pbs (pbs a)).
Proof.
  unfold dumpPBS, ws_pbs. apply writes_gets. destruct (pb_enabled (pbs a)); cbn [negb];
    repeat writes_step.
Qed.

Definition ws_postfix_opt (p : AFPostfix) : list write :=
  match pf_enabled p, pf_profile p with true, Some pr => ws_postfix p pr | _, _ => [] end.

(** The whole dump, in the order of the code. *)
Definition ws_all (a : AnswerFile) (d : Distro.t) : list write :=
  ws_network (external a) "network_external" ++ ws_network (management a) "network_management" ++
  ws_network (service a) "network_service" ++ ws_network (application a) "network_application" ++
  ws_information (information a) ++ ws_time (time a) ++ ws_hostname (hostname a) ++
  ws_system (system a) d ++ ws_repositories (repositories a) ++ ws_ohpc (ohpc a) ++
  ws_slurm (slurm a) ++ ws_pbs (pbs a) ++ ws_nodes (nodes a) ++ ws_ofed (ofed a) ++
  ws_postfix_opt (postfix a).

Lemma dumpOptions_writes a d :
  sy_distro (system a) = Some d ->
  (pf_enabled (postfix a) = true -> exists p, pf_profile (postfix a) = Some p) ->
  writes dumpOptions a (ws_all a d).
Proof.
  intros Hd Hp. unfold dumpOptions, ws_all.
  apply writes_bind; [apply writes_gets, dumpNetwork_writes|].
  apply writes_bind; [apply writes_gets, dumpNetwork_writes|].
  apply writes_bind; [apply writes_gets, dumpNetwork_writes|].
  apply writes_bind; [apply writes_gets, dumpNetwork_writes|].
  apply writes_bind; [apply writes_gets; repeat writes_step|].
  apply writes_bind; [apply writes_gets; repeat writes_step|].
  apply writes_bind; [apply writes_gets; repeat writes_step|].
  apply writes_bind; [eapply writes_eq; [by apply dumpSystemSettings_writes|done]|].
  apply writes_bind; [eapply writes_eq; [apply dumpRepositories_writes|done]|].
  apply writes_bind; [eapply writes_eq; [apply dumpOHPC_writes|done]|].
  apply writes_bind; [eapply writes_eq; [apply dumpSlurm_writes|done]|].
  apply writes_bind; [eapply writes_eq; [apply dumpPBS_writes|done]|].
  apply writes_bind; [eapply writes_eq; [apply dumpNodes_writes|done]|].
  apply writes_bind; [eapply writes_eq; [apply dumpOFED_writes|done]|].
  eapply writes_eq; [by apply dumpPostfix_writes|done].
Qed.

(** *** Each section keeps to its groups *)

Ltac within_step :=
  first [ apply within_app; split | apply within_opt; done | apply within_one; done | apply within_nil ].

Lemma ws_network_within n g : within (fun g' => g' = g) (ws_network n g).
Proof. unfold ws_network. by repeat within_step. Qed.

Lemma ws_information_within i : within (fun g => g = "information") (ws_information i).
Proof. by repeat within_step. Qed.

Lemma ws_time_within t : within (fun g => g = "time") (ws_time t).
Proof. by repeat within_step. Qed.

Lemma ws_hostname_within h : within (fun g => g = "hostname") (ws_hostname h).
Proof. by repeat within_step. Qed.

Lemma ws_system_within s d : within (fun g => g = "system") (ws_system s d).
Proof. by repeat within_step. Qed.

Lemma ws_repositories_within r : within (fun g => g = "repositories") (ws_repositories r).
Proof. unfold ws_repositories. by repeat within_step. Qed.

Lemma ws_ohpc_within o : within (fun g => g = "ohpc") (ws_ohpc o).
Proof. unfold ws_ohpc. by repeat within_step. Qed.

Lemma ws_slurm_within s : within (fun g => g = "slurm") (ws_slurm s).
Proof. unfold ws_slurm. destruct (sl_enabled s); by repeat within_step. Qed.

Lemma ws_pbs_within p : within (fun g => g = "pbs") (ws_pbs p).
Proof. unfold ws_pbs. destruct (pb_enabled p); by repeat within_step. Qed.

Lemma ws_ofed_within o : within (fun g => g = "ofed") (ws_ofed o).
Proof. unfold ws_ofed. destruct (of_enabled o); by repeat within_step. Qed.

Lemma nonempty_within (P : string -> Prop) g key v : P g -> within P (nonempty_write g key v).
Proof. intros. unfold nonempty_write. destruct (empty v); by repeat within_step. Qed.

Lemma ws_postfix_within p : within (fun g => starts_with "postfix" g = true) (ws_postfix_opt p).
Proof.
  unfold ws_postfix_opt, ws_postfix. destruct (pf_enabled p), (pf_profile p) as [pr|]; try apply within_nil.
  apply within_app; split; [by repeat within_step|].
  apply within_app; split; [by repeat within_step|].
  apply within_app; split; [by apply nonempty_within|]. apply within_app; split; [by apply nonempty_within|].
  unfold ws_smtp. destruct pr, (pf_smtp p) as [s|]; try apply within_nil; try by repeat within_step.
  destruct (sm_sasl s); by repeat within_step.
Qed.

Lemma ws_generic_within g : within (fun g => g = "node") (ws_generic g).
Proof. unfold ws_generic. by repeat within_step. Qed.

Lemma ws_node_within n g : within (fun g' => g' = g) (ws_node n g).
Proof. unfold ws_node. by repeat within_step. Qed.

Lemma within_mono (P Q : string -> Prop) ws : (forall g, P g -> Q g) -> within P ws -> within Q ws.
Proof. intros HPQ Hw. eapply Forall_impl; [exact Hw|]. intros w. apply HPQ. Qed.

Lemma ws_node_list_within c l :
  within (fun g => exists i, (i < length l)%nat /\ g = node_section (c + Z.of_nat i)) (ws_node_list c l).
Proof.
  revert c. induction l as [|n l IH]; intros c; cbn [ws_node_list]; [apply within_nil|].
  apply within_app; split.
  - eapply within_mono; [|apply ws_node_within]. intros g ->. exists 0%nat. cbn. split; [lia|].
    f_equal. lia.
  - eapply within_mono; [|apply IH]. intros g (i & Hi & ->). exists (S i). cbn. split; [lia|]. f_equal. lia.
Qed.

Lemma ws_nodes_within ns : within (fun g => starts_with "node" g = true) (ws_nodes ns).
Proof.
  unfold ws_nodes. apply within_app; split.
  - destruct (ns_generic ns) as [g|]; [|apply within_nil].
    eapply within_mono; [|apply ws_generic_within]. by intros ? ->.
  - eapply within_mono; [|apply ws_node_list_within]. by intros ? (i & _ & ->).
Qed.
End writes.
