(* ===== verification/AnswerFileReads.v ===== *)
(** * The answer file: reading back what a dump wrote

    For each section, loading from a key file that agrees with the section's
    writes gives back the structure that was dumped, when the structure is one
    the loaders accept. *)

From stdpp Require Import base strings list gmap.
From Stdlib Require Import ZArith Lia Ascii.
From S2P Require Import Prelude CppString External Enums KeyFile AnswerFile AnswerFileDump.
From S2P Require Import AnswerFileValidation AnswerFileWrites.
From S2P Require Network.

Local Open Scope Z_scope.

(** [slots] computes what a list of writes with literal groups and keys left
    in a slot. *)
Ltac slots :=
  autorewrite with slots; cbn [String.eqb Ascii.eqb Bool.eqb]; autorewrite with slots; try reflexivity.

(** [reads Ha defs] replaces the look-ups of a loader by what [Ha] says the
    key file holds. *)
Ltac reads Ha :=
  repeat match goal with
  | |- context [getString ?k ?g ?key] =>
      erewrite (agrees_getString k _ g key _ Ha) by slots
  | |- context [getString_default ?k ?g ?key ?d] =>
      erewrite (agrees_getString_default k _ g key d _ Ha) by slots
  | |- context [getStringOpt ?k ?g ?key] =>
      erewrite (agrees_getStringOpt k _ g key _ Ha) by slots
  end.

Section reads.
Context `{AL : AsioLaws} `{BL : BoostTextLaws} `{GL : GKeyFileLaws}.

Lemma convertStringToAddress_to_string a : convertStringToAddress (to_string a) = Ok a.
Proof.
  unfold convertStringToAddress, Network.make_address_exc. by rewrite make_address_to_string.
Qed.

(** *** Sections of plain texts *)

Lemma loadInformation_back k i i0 :
  agrees k (ws_information i) "information" -> loadInformation k i0 = (Ok tt, i).
Proof.
  intros Ha. unfold loadInformation. unfold ws_information in Ha. reads Ha. by destruct i.
Qed.

Lemma loadTimeSettings_back k t t0 :
  agrees k (ws_time t) "time" -> loadTimeSettings k t0 = (Ok tt, t).
Proof.
  intros Ha. unfold loadTimeSettings. unfold ws_time in Ha. reads Ha. by destruct t.
Qed.

Lemma loadHostnameSettings_back k h h0 :
  agrees k (ws_hostname h) "hostname" -> loadHostnameSettings k h0 = (Ok tt, h).
Proof.
  intros Ha. unfold loadHostnameSettings. unfold ws_hostname in Ha. reads Ha. by destruct h.
Qed.

Lemma distro_name_back (d : Distro.t) :
  String.eqb (lower (toString d)) "alma" = false /\ ofStringOpt (lower (toString d)) Insensitive = Some d.
Proof. by destruct d. Qed.

Definition system_ok (s : AFSystem) : Prop :=
  (exists d, sy_distro s = Some d) /\ (sy_provisioner s = "confluent" \/ sy_provisioner s = "xcat").

Lemma loadSystemSettings_back k s d dryRun path s0 :
  sy_distro s = Some d -> system_ok s ->
  agrees k (ws_system s d) "system" -> loadSystemSettings dryRun path k s0 = (Ok tt, s).
Proof.
  intros Hd [_ Hp] Ha. unfold loadSystemSettings.
  unfold ws_system in Ha. reads Ha.
  destruct (distro_name_back d) as [Hal Hof].
  cpp_simpl. rewrite Hal, Hof. destruct s as [di di' ve ke pr]. cbn in *. subst di'.
  by destruct Hp as [-> | ->].
Qed.

(** *** Networks *)

(** A network that was never written, or one the loader accepts. *)
Record network_ok (g : string) (n : AFNetwork) : Prop := {
  nw_interface_set : is_Some (nw_con_interface n);
  nw_mac_set : is_Some (nw_con_mac_addr n);
  nw_mask_valid m : nw_subnet_mask n = Some m -> validateSubnetMask g m = Ok tt;
  nw_gateway_valid ip m gw :
    nw_con_ip_addr n = Some ip -> nw_subnet_mask n = Some m -> nw_gateway n = Some gw ->
    validateGatewayInSubnet g ip m gw = Ok tt;
  nw_nameservers_valid ns : nw_nameservers n = Some ns -> ns <> [] /\ Forall (no_sep ", ") ns;
}.

Lemma split_list_join l : l <> [] -> Forall (no_sep ", ") l -> split_list (join l ", ") = l.
Proof. intros Hl Hf. by apply split_join. Qed.

Lemma convertNetworkAddress_back {S} k ws g field o (put : option address -> S -> S) s :
  agrees k ws g -> touches ws g = true -> written ws g field = to_string <$> o ->
  convertNetworkAddressAndValidate k g field put s =
  (Ok tt, match o with Some a => put (Some a) s | None => s end).
Proof.
  intros Ha Ht Hw. unfold convertNetworkAddressAndValidate.
  rewrite (agrees_getStringOpt _ _ _ _ _ Ha Ht Hw). destruct o as [a|]; [|done].
  rewrite (agrees_getString _ _ _ _ _ Ha Hw). cpp_simpl. cbn.
  by rewrite convertStringToAddress_to_string.
Qed.

Lemma loadNetwork_back k n g :
  network_ok g n -> agrees k (ws_network n g) g -> loadNetwork k g AFNetwork_default = (Ok tt, n).
Proof.
  intros [[itf Hitf] [mac Hmac] Hmask Hgw Hns] Ha.
  assert (touches (ws_network n g) g = true) as Ht by (unfold ws_network; rewrite Hitf; slots).
  assert (forall key o, written (ws_network n g) g key = o -> getStringOpt k g key = Ok o) as Ho
    by (intros; by eapply agrees_getStringOpt).
  unfold loadNetwork.
  rewrite (agrees_getString k _ g "interface" itf Ha) by (unfold ws_network; rewrite <- Hitf; slots).
  rewrite (agrees_getString_default k _ g "mac_address" "" (Some mac) Ha Ht)
    by (unfold ws_network; rewrite <- Hmac; slots).
  rewrite (Ho "domain_name" (nw_domain_name n)) by (unfold ws_network; slots).
  rewrite (Ho "nameservers" (match nw_nameservers n with Some ((_ :: _) as ns) => Some (join ns ", ") | _ => None end))
    by (unfold ws_network; slots).
  pose proof (fun put s => convertNetworkAddress_back (S := AFNetwork) k (ws_network n g) g "ip_address" (nw_con_ip_addr n) put s) as Hip.
  pose proof (fun put s => convertNetworkAddress_back (S := AFNetwork) k (ws_network n g) g "subnet_mask" (nw_subnet_mask n) put s) as Hsm.
  pose proof (fun put s => convertNetworkAddress_back (S := AFNetwork) k (ws_network n g) g "gateway" (nw_gateway n) put s) as Hga.
  unfold mbind, M_bind, lift, gets, modify. cbn [default from_option id].
  rewrite (Hip _ _ Ha Ht) by (unfold ws_network; slots).
  rewrite (Hsm _ _ Ha Ht) by (unfold ws_network; slots).
  destruct n as [sm ga dn ns ci ip ma]. cbn in *. subst ci ma.
  destruct ip as [ip|], sm as [sm|]; cbn; rewrite ?(Hmask _ eq_refl), (Hga _ _ Ha Ht) by (unfold ws_network; slots).
  all: destruct ga as [ga|]; cbn; rewrite ?(Hgw _ _ _ eq_refl eq_refl eq_refl).
  all: destruct ns as [[|x l]|]; cbn; [by destruct (Hns _ eq_refl)| |done].
  all: destruct (Hns _ eq_refl). all: by rewrite (split_join ", " ", " (x :: l)) by done.
Qed.

Lemma ws_network_default g : ws_network AFNetwork_default g = [].
Proof. done. Qed.

(** The optional networks: absent from the file when nothing is set. *)
Definition optional_network_ok (g : string) (n : AFNetwork) : Prop :=
  n = AFNetwork_default \/ network_ok g n.

Lemma optional_network_back k n g :
  optional_network_ok g n -> agrees k (ws_network n g) g ->
  (if negb (hasGroup k g) then skip else loadNetwork k g) AFNetwork_default = (Ok tt, n).
Proof.
  intros [->|Hn] Ha; rewrite (agrees_hasGroup _ _ _ Ha).
  - done.
  - assert (touches (ws_network n g) g = true) as ->.
    { destruct Hn as [[itf Hitf] _ _ _ _]. unfold ws_network. rewrite Hitf. slots. }
    by apply loadNetwork_back.
Qed.

(** *** Lists of repositories *)

Definition names_ok (o : option (list string)) : Prop :=
  match o with Some l => Forall (no_sep ", ") l | None => True end.

(** Joining names leaves no empty text unless there are none. *)
Lemma join_text l : Forall (no_sep ", ") l -> l <> [] -> exists c s, join l ", " = String c s.
Proof.
  intros Hf Hn. pose proof (split_list_join l Hn Hf) as Hs.
  destruct l as [|x [|y l]]; [done| |]; apply Forall_cons in Hf as [[He _] _]; destruct x; try done.
  - rewrite join_one. eauto.
  - rewrite join_cons. cbn. eauto.
Qed.

Lemma loadRepositories_back k r :
  names_ok (rp_enabled r) -> agrees k (ws_repositories r) "repositories" ->
  loadRepositories k (mkAFRepositories None) = (Ok tt, r).
Proof.
  intros Hn Ha. unfold loadRepositories. rewrite (agrees_hasGroup _ _ _ Ha).
  unfold ws_repositories in *. destruct r as [[l|]]; [|done]. cbn in Hn. reads Ha. cbn.
  destruct l as [|x l]; [by rewrite join_nil|].
  destruct (join_text _ Hn) as (c & s & Hj); [done|]. cpp_simpl. rewrite Hj.
  by rewrite <- Hj, split_list_join.
Qed.

Lemma loadOHPC_back k o :
  names_ok (oh_enabled o) -> agrees k (ws_ohpc o) "ohpc" ->
  loadOHPC k (mkAFOHPC None) = (Ok tt, o).
Proof.
  intros Hn Ha. unfold loadOHPC. rewrite (agrees_hasGroup _ _ _ Ha).
  unfold ws_ohpc in *. destruct o as [[l|]]; [|done]. cbn in Hn. reads Ha. cbn.
  destruct l as [|x l]; [by rewrite join_nil|].
  destruct (join_text _ Hn) as (c & s & Hj); [done|]. cpp_simpl. rewrite Hj.
  by rewrite <- Hj, split_list_join.
Qed.

(** *** Queue systems *)

Definition slurm_ok (s : AFSlurm) : Prop := sl_enabled s = true \/ s = mkAFSlurm false "" "" "" "".

Lemma loadSlurm_back path k s :
  slurm_ok s -> agrees k (ws_slurm s) "slurm" ->
  loadSlurm path k (mkAFSlurm false "" "" "" "") = (Ok tt, s).
Proof.
  intros [He| ->] Ha; unfold loadSlurm; rewrite (agrees_hasGroup _ _ _ Ha); [|done].
  unfold ws_slurm in *. rewrite He in *. unfold slurm_field. reads Ha. destruct s. cbn in *. by subst.
Qed.

Definition pbs_ok (p : AFPBS) : Prop := pb_enabled p = true \/ p = mkAFPBS false ExecutionPlace.Shared.

Lemma loadPBS_back k p :
  pbs_ok p -> agrees k (ws_pbs p) "pbs" -> loadPBS k (mkAFPBS false ExecutionPlace.Shared) = (Ok tt, p).
Proof.
  intros [He| ->] Ha; unfold loadPBS; rewrite (agrees_hasGroup _ _ _ Ha); [|done].
  unfold ws_pbs in *. rewrite He in *. reads Ha. destruct p as [en pl]. cbn in *. subst en. by destruct pl.
Qed.

(** *** OFED *)

Definition OFED_default : AFOFED := mkAFOFED (toString OFEDKind.Inbox) (Some "latest") false.

(** An enabled OFED has the kind in lower case and a version. *)
Definition ofed_ok (o : AFOFED) : Prop :=
  o = OFED_default \/
  (of_enabled o = true /\ (exists kind : OFEDKind.t, of_kind o = lower (toString kind)) /\
   exists v, of_version o = Some v /\ empty v = false).

Lemma normalizeOFEDKind_lower (kind : OFEDKind.t) :
  normalizeOFEDKind (lower (toString kind)) = Some (lower (toString kind)).
Proof. by destruct kind. Qed.

Lemma loadOFED_back k o :
  ofed_ok o -> agrees k (ws_ofed o) "ofed" -> loadOFED k OFED_default = (Ok tt, o).
Proof.
  intros Ho Ha. unfold loadOFED. rewrite (agrees_hasGroup _ _ _ Ha).
  destruct Ho as [->|(He & [kind Hk] & v & Hv & Hve)]; [done|].
  destruct o as [ki ve en]. cbn in He, Hk, Hv. subst ki ve en. unfold ws_ofed in *. cbn [of_enabled of_kind of_version] in *.
  change (touches _ "ofed") with true. cbv iota.
  rewrite (agrees_getString k _ _ "kind" (lower (toString kind)) Ha),
    (agrees_getString k _ _ "version" v Ha) by slots.
  cpp_simpl. destruct v as [|c v]; [done|].
  assert (String.eqb (lower (toString kind)) "" = false) as Hne by (by destruct kind). rewrite Hne.
  cbn [negb]. rewrite normalizeOFEDKind_lower. by destruct kind.
Qed.

(** *** Postfix *)

Definition postfix_default : AFPostfix := mkAFPostfix false [] None None "" "".

(** The SMTP server a profile asks for. *)
Definition smtp_ok (profile : PostfixProfile.t) (smtp : option SMTP) : Prop :=
  match profile, smtp with
  | PostfixProfile.Local, None => True
  | PostfixProfile.Relay, Some s => 1 <= sm_port s <= 65535 /\ sm_sasl s = None
  | PostfixProfile.SASL, Some s => 1 <= sm_port s <= 65535 /\ is_Some (sm_sasl s)
  | _, _ => False
  end.

Definition postfix_ok (p : AFPostfix) : Prop :=
  p = postfix_default \/
  (pf_enabled p = true /\ Forall (no_sep ", ") (pf_destination p) /\
   exists profile, pf_profile p = Some profile /\ smtp_ok profile (pf_smtp p)).

Lemma parsePort_dec section field n :
  1 <= n <= 65535 -> parsePortAnswerfileField section field (dec_int n) = Ok n.
Proof.
  intros Hn. rewrite dec_int_nonneg by lia. unfold parsePortAnswerfileField.
  assert (parseUnsignedAnswerfileField section field (dec n) false = Ok n) as ->.
  { apply parseUnsigned_ok. repeat split.
    - apply dec_empty.
    - apply dec_digit. lia.
    - symmetry. apply dec_val. lia.
    - lia.
    - right. lia. }
  cpp_simpl. by rewrite (proj2 (Z.ltb_ge _ _)) by lia.
Qed.

Lemma written_nonempty g key v g' key' :
  written (nonempty_write g key v) g' key' =
  if String.eqb g g' && String.eqb key key' && negb (empty v) then Some v else None.
Proof.
  unfold nonempty_write. destruct (empty v); cbn [negb]; rewrite ?andb_true_r, ?andb_false_r; [done|].
  apply written_one.
Qed.

Lemma nonempty_default v : default "" (if negb (empty v) then Some v else None) = v.
Proof. by destruct v. Qed.

Lemma profile_back (p : PostfixProfile.t) : ofStringOpt (toString p) Insensitive = Some p.
Proof. by destruct p. Qed.

Lemma touches_nonempty g key v g' : touches (nonempty_write g key v) g' = String.eqb g g' && negb (empty v).
Proof.
  unfold nonempty_write. destruct (empty v); cbn [negb]; rewrite ?andb_true_r, ?andb_false_r; [done|].
  apply touches_one.
Qed.

Hint Rewrite written_nonempty touches_nonempty : slots.

Lemma load_smtp_back k ws section server port :
  1 <= port <= 65535 -> agrees k ws section ->
  written ws section "server" = Some server -> written ws section "port" = Some (dec_int port) ->
  load_smtp k section = Ok (server, port).
Proof.
  intros Hp Ha Hs Hpo. unfold load_smtp.
  rewrite (agrees_getString _ _ _ _ _ Ha Hs), (agrees_getString _ _ _ _ _ Ha Hpo).
  cpp_simpl. by rewrite parsePort_dec.
Qed.

(** The profile's part of the loader. *)
Lemma load_smtp_profile_back k p profile s :
  smtp_ok profile (pf_smtp p) -> pf_smtp s = None ->
  agrees k (ws_smtp p profile) "postfix.relay" -> agrees k (ws_smtp p profile) "postfix.sasl" ->
  match profile with
  | PostfixProfile.Local => skip
  | PostfixProfile.Relay =>
      '(server, port) ← lift (load_smtp k "postfix.relay");
      modify (put_pf_smtp (Some (mkSMTP server port None)))
  | PostfixProfile.SASL =>
      '(server, port) ← lift (load_smtp k "postfix.sasl");
      username ← lift (getString k "postfix.sasl" "username");
      password ← lift (getString k "postfix.sasl" "password");
      modify (put_pf_smtp (Some (mkSMTP server port (Some (mkSASL username password)))))
  end s = (Ok tt, put_pf_smtp (pf_smtp p) s).
Proof.
  intros Hok Hs Hr Hsa. unfold ws_smtp in *. destruct s as [en de pr sm ce ke]. cbn in Hs. subst sm.
  destruct profile, (pf_smtp p) as [[server port sasl]|]; cbn in Hok; try done.
  - destruct Hok as [Hport ->]. cbn [sm_server sm_port] in *.
    erewrite (load_smtp_back _ _ _ server port Hport Hr); [done|slots..].
  - destruct Hok as [Hport [[u pw] ->]]. cbn [sm_server sm_port sm_sasl sa_username sa_password] in *.
    erewrite (load_smtp_back _ _ _ server port Hport Hsa); [|slots..]. reads Hsa. done.
Qed.

Lemma load_destination_back s d :
  Forall (no_sep ", ") d -> pf_destination s = [] ->
  match destination_text d with
  | Some d => if negb (empty d) then modify (put_pf_destination (split_list d)) else skip
  | None => skip
  end s = (Ok tt, put_pf_destination d s).
Proof.
  intros Hd Hs. destruct d as [|x d]; [destruct s; cbn in *; by subst|].
  destruct (join_text _ Hd) as (c & t & Hj); [done|]. cbn [destination_text]. rewrite Hj. cbn [negb empty].
  by rewrite <- Hj, split_list_join.
Qed.

Lemma loadPostfix_back k p :
  postfix_ok p -> agrees k (ws_postfix_opt p) "postfix" ->
  agrees k (ws_postfix_opt p) "postfix.relay" -> agrees k (ws_postfix_opt p) "postfix.sasl" ->
  loadPostfix k postfix_default = (Ok tt, p).
Proof.
  intros Hp Ha Hr Hs. unfold loadPostfix. rewrite (agrees_hasGroup _ _ _ Ha).
  destruct Hp as [->|(He & Hd & profile & Hpr & Hsm)]; [done|].
  unfold ws_postfix_opt in *. rewrite He, Hpr in *. unfold ws_postfix in *.
  assert (forall g, String.eqb "postfix" g = false -> agrees k
    ([("postfix", "profile", toString profile)] ++
     opt_write "postfix" "destination" (destination_text (pf_destination p)) ++
     nonempty_write "postfix" "smtpd_tls_cert_file" (pf_cert_file p) ++
     nonempty_write "postfix" "smtpd_tls_key_file" (pf_key_file p) ++
     ws_smtp p profile) g -> agrees k (ws_smtp p profile) g) as Hdrop.
  { intros g Hg H. do 4 (apply agrees_skip in H; [|autorewrite with slots; by rewrite Hg]). exact H. }
  apply Hdrop in Hr, Hs; [|done..].
  assert (touches (ws_smtp p profile) "postfix" = false) as Hto.
  { unfold ws_smtp. destruct profile, (pf_smtp p) as [[? ? [[]|]]|]; done. }
  assert (forall key, written (ws_smtp p profile) "postfix" key = None) as Hsw
    by (intros; by apply touches_written).
  assert (touches ([("postfix", "profile", toString profile)] ++
     opt_write "postfix" "destination" (destination_text (pf_destination p)) ++
     nonempty_write "postfix" "smtpd_tls_cert_file" (pf_cert_file p) ++
     nonempty_write "postfix" "smtpd_tls_key_file" (pf_key_file p) ++
     ws_smtp p profile) "postfix" = true) as Ht by slots.
  rewrite Ht. cbn [negb].
  rewrite (agrees_getString k _ _ "profile" (toString profile) Ha) by (autorewrite with slots; by rewrite Hsw).
  erewrite (agrees_getStringOpt k _ _ "destination" _ Ha Ht) by (autorewrite with slots; rewrite Hsw; slots).
  erewrite (agrees_getStringOpt k _ _ "smtpd_tls_cert_file" _ Ha Ht) by (autorewrite with slots; rewrite Hsw; slots).
  erewrite (agrees_getStringOpt k _ _ "smtpd_tls_key_file" _ Ha Ht) by (autorewrite with slots; rewrite Hsw; slots).
  erewrite M_bind_ok by done. erewrite M_bind_ok by done.
  erewrite M_bind_ok by (apply (load_destination_back _ (pf_destination p)); done).
  erewrite M_bind_ok by done. cbv beta. rewrite profile_back.
  erewrite M_bind_ok by done. erewrite M_bind_ok by (by apply load_smtp_profile_back).
  cpp_simpl. cbn. destruct p. cbn in *. subst. by rewrite !nonempty_default.
Qed.

(** *** Nodes *)

(** A field that a reload gives back: unset, or a text. *)
Definition set_or_unset (v : option string) : Prop := v = None \/ hasText v = true.

(** A node as [loadNodes] leaves it. *)
Record node_ok (n : AFNode) : Prop := {
  node_complete : complete_node n;
  node_hostname : hasText (nd_hostname n) = true;
  node_mac_set : is_Some (nd_mac_address n);
  node_generic_only : nd_prefix n = None /\ nd_padding n = None /\ nd_cpus_per_node n = None /\
    nd_real_memory n = None;
  node_bmc_fields : set_or_unset (nd_bmc_username n) /\ set_or_unset (nd_bmc_password n) /\
    set_or_unset (nd_bmc_serialport n) /\ set_or_unset (nd_bmc_serialspeed n);
}.

Lemma hasText_default v : hasText (Some (default "" v)) = hasText v.
Proof. by destruct v. Qed.

Lemma validateAttribute_own section name own generic :
  hasText own = true -> validateAttribute section name (Some (default "" own)) generic = Ok own.
Proof. by destruct own as [[|]|]. Qed.

Lemma clearIfEmpty_back v : set_or_unset v -> clearIfEmpty (Some (default "" v)) = v.
Proof. intros [->|H]; [done|]. by destruct v as [[|]|]. Qed.

Lemma unsigned_accepted section field v allowZero :
  unsigned_opt allowZero v -> validateUnsignedAnswerfileField section field v allowZero = Ok tt.
Proof. apply validateUnsigned_ok. Qed.

Lemma complete_scalars section n : complete_node n -> validateResolvedNodeScalars section n = Ok tt.
Proof. intros [_ _ [_ Hs] [_ Hc] [_ Ht] (Hp & Hsp & _)]. by apply validateResolved_ok. Qed.

(** What [loadNode] makes of a dumped node: missing fields are empty. *)
Definition loaded_node (n : AFNode) : AFNode :=
  mkAFNode None None (nd_start_ip n) (Some (default "" (nd_hostname n)))
    (Some (default "" (nd_root_password n))) (nd_mac_address n)
    (Some (default "" (nd_sockets n))) (Some (default "" (nd_cores_per_socket n)))
    (Some (default "" (nd_threads_per_core n))) None None
    (Some (default "" (nd_bmc_address n))) (Some (default "" (nd_bmc_username n)))
    (Some (default "" (nd_bmc_password n))) (Some (default "" (nd_bmc_serialport n)))
    (Some (default "" (nd_bmc_serialspeed n))).

Lemma node_section_not_node c : String.eqb (node_section c) "node" = false.
Proof. unfold node_section. by destruct (dec_cons c) as (x & s & ->). Qed.

Lemma ws_node_touches n g : is_Some (nd_mac_address n) -> touches (ws_node n g) g = true.
Proof. intros [m Hm]. unfold ws_node. rewrite Hm. slots. Qed.

Lemma loadNode_back k n g :
  node_ok n -> String.eqb g "node" = false -> agrees k (ws_node n g) g ->
  loadNode k g = Ok (loaded_node n).
Proof.
  intros Hn Hg Ha. destruct (node_mac_set n Hn) as [mac Hmac].
  destruct (complete_ip n (node_complete n Hn)) as (ip & Hip & _).
  unfold loadNode. rewrite Hg.
  pose proof (ws_node_touches n g (node_mac_set n Hn)) as Ht.
  assert (forall key o, written (ws_node n g) g key = o -> getString_default k g key "" = Ok (default "" o))
    as Ho by (intros; by apply (agrees_getString_default k (ws_node n g))).
  rewrite (agrees_getString k _ g "mac_address" mac Ha) by (unfold ws_node; rewrite <- Hmac; slots).
  rewrite (agrees_getStringOpt k _ g "node_ip" (Some (to_string ip)) Ha Ht)
    by (unfold ws_node; rewrite Hip; slots).
  unfold load_node_ip.
  rewrite (agrees_getString k _ g "node_ip" (to_string ip) Ha) by (unfold ws_node; rewrite Hip; slots).
  rewrite (Ho "hostname" (nd_hostname n)), (Ho "node_root_password" (nd_root_password n)),
    (Ho "sockets" (nd_sockets n)), (Ho "cores_per_socket" (nd_cores_per_socket n)),
    (Ho "threads_per_core" (nd_threads_per_core n)), (Ho "bmc_address" (nd_bmc_address n)),
    (Ho "bmc_username" (nd_bmc_username n)), (Ho "bmc_password" (nd_bmc_password n)),
    (Ho "bmc_serialport" (nd_bmc_serialport n)), (Ho "bmc_serialspeed" (nd_bmc_serialspeed n))
    by (unfold ws_node; slots).
  cpp_simpl. rewrite convertStringToAddress_to_string. unfold loaded_node. by rewrite Hip, Hmac.
Qed.

Lemma validateNode_back generic n section :
  node_ok n -> nd_bmc_address generic = None ->
  validateNode (Some generic) (loaded_node n) section = Ok n.
Proof.
  intros [Hc Hh Hm (Hpr & Hpa & Hcp & Hrm) (Hu & Hpw & Hsp & Hss)] Hg.
  pose proof (complete_scalars section n Hc) as Hres.
  destruct Hc as [(ip & Hip & Hun) Hroot [Hso _] [Hco _] [Hth _] (_ & _ & Hbmc)].
  unfold validateNode. cbn [deref mbind outcome_bind loaded_node nd_start_ip nd_root_password nd_sockets
    nd_cores_per_socket nd_threads_per_core nd_bmc_address nd_bmc_username nd_bmc_password nd_bmc_serialport
    nd_bmc_serialspeed nd_prefix nd_padding nd_hostname nd_mac_address nd_cpus_per_node nd_real_memory].
  rewrite Hg. unfold validateAttribute_address. rewrite Hip, Hun. cbn [negb mbind outcome_bind].
  rewrite (validateAttribute_own _ _ (nd_root_password n)), (validateAttribute_own _ _ (nd_sockets n)),
    (validateAttribute_own _ _ (nd_cores_per_socket n)), (validateAttribute_own _ _ (nd_threads_per_core n))
    by done.
  cbn [mbind outcome_bind]. rewrite hasText_default. cbn [hasText]. rewrite orb_false_r.
  assert (mkAFNode None None (Some ip) (Some (default "" (nd_hostname n))) (nd_root_password n)
    (nd_mac_address n) (nd_sockets n) (nd_cores_per_socket n) (nd_threads_per_core n) None None
    (nd_bmc_address n) (nd_bmc_username n) (nd_bmc_password n) (nd_bmc_serialport n)
    (nd_bmc_serialspeed n) = n) as Hn.
  { destruct n as [? ? ? ho]. cbn in *. subst. by destruct ho. }
  destruct Hbmc as [Hb|(Hb & Hu' & Hpw' & Hsp' & Hss')].
  - rewrite Hb in *. cbn [hasText default from_option]. rewrite !clearIfEmpty_back by done.
    change (clearIfEmpty (Some (id ""))) with (@None string). cbn [mbind outcome_bind].
    match goal with |- context [validateResolvedNodeScalars section ?m] => replace m with n by exact (eq_sym Hn) end.
    by rewrite Hres.
  - rewrite Hb. rewrite !validateAttribute_own by done. cbn [mbind outcome_bind].
    match goal with |- context [validateResolvedNodeScalars section ?m] => replace m with n by exact (eq_sym Hn) end.
    by rewrite Hres.
Qed.

Lemma node_counter_section c : 0 <= c < 2 ^ 64 -> node_counter (node_section c) = Ok c.
Proof.
  intros Hc. unfold node_counter, node_section. change ("node." +:+ dec c) with ("node" +:+ String "." (dec c)).
  rewrite find_char_at by done. cbn [after]. rewrite sdrop_at. by rewrite lexical_cast_dec.
Qed.

Lemma load_one_node_back k generic n c acc :
  0 <= c < 2 ^ 64 -> node_ok n -> nd_bmc_address generic = None ->
  agrees k (ws_node n (node_section c)) (node_section c) ->
  load_one_node generic k (node_section c) (mkAFNodes (Some generic) acc) =
  (Ok tt, mkAFNodes (Some generic) (acc ++ [n])).
Proof.
  intros Hc Hn Hg Ha. unfold load_one_node.
  rewrite node_counter_section, (loadNode_back k n) by (done || apply node_section_not_node).
  erewrite M_bind_ok by done. erewrite M_bind_ok by done. erewrite M_bind_ok by done. cbv beta.
  pose proof (node_hostname n Hn) as Hh. destruct (nd_hostname n) as [[|x h]|] eqn:Hho; [done| |done].
  cbn [from_option id empty]. erewrite M_bind_ok by done. erewrite M_bind_ok by done. cbv beta.
  cbn [ns_generic]. by rewrite validateNode_back.
Qed.

(** The generic section: every field the loader asks for, with valid
    numbers. *)
Record generic_ok (g : AFNode) : Prop := {
  generic_fields : Forall is_Some [nd_prefix g; nd_padding g; nd_root_password g; nd_sockets g;
    nd_cores_per_socket g; nd_cpus_per_node g; nd_threads_per_core g; nd_real_memory g; nd_bmc_username g;
    nd_bmc_password g; nd_bmc_serialport g; nd_bmc_serialspeed g];
  generic_ip : is_Some (nd_start_ip g);
  generic_none : nd_hostname g = None /\ nd_mac_address g = None /\ nd_bmc_address g = None;
  generic_allow_zero : Forall (unsigned_opt true) [nd_padding g; nd_bmc_serialport g];
  generic_positive : Forall (unsigned_opt false) [nd_sockets g; nd_cores_per_socket g; nd_cpus_per_node g;
    nd_threads_per_core g; nd_real_memory g; nd_bmc_serialspeed g];
}.

Lemma loadNode_generic_back k g :
  generic_ok g -> agrees k (ws_generic g) "node" -> loadNode k "node" = Ok g.
Proof.
  intros [Hf [ip Hip] (Hh & Hm & Hb) Hz Hp] Ha. change (loadNode k "node") with (loadNode_generic k "node").
  repeat (apply Forall_cons in Hf as [[? ?] Hf]). repeat (apply Forall_cons in Hz as [? Hz]).
  repeat (apply Forall_cons in Hp as [? Hp]). clear Hf Hz Hp.
  destruct g. cbn in *. subst. unfold loadNode_generic, load_node_ip, ws_generic in *.
  cbn [nd_prefix nd_padding nd_start_ip nd_root_password nd_sockets nd_cores_per_socket nd_threads_per_core
    nd_cpus_per_node nd_real_memory nd_bmc_username nd_bmc_password nd_bmc_serialport nd_bmc_serialspeed] in Ha.
  reads Ha.
  cpp_simpl. rewrite convertStringToAddress_to_string. cbn [try_catch]. unfold validateGenericNodeScalars.
  by rewrite !unsigned_accepted by done.
Qed.

(** The sections of the nodes, in order. *)
Definition sections_from (c : Z) (l : list AFNode) : list string :=
  node_section <$> seqZ c (Z.of_nat (length l)).

Lemma sections_from_cons c n l : sections_from c (n :: l) = node_section c :: sections_from (c + 1) l.
Proof.
  unfold sections_from. cbn [length]. rewrite seqZ_cons by lia. cbn. do 3 f_equal. lia.
Qed.

Lemma ws_node_nonempty n g : is_Some (nd_mac_address n) -> ws_node n g <> [].
Proof. intros Hm H. pose proof (ws_node_touches n g Hm) as Ht. by rewrite H in Ht. Qed.

Lemma node_section_inj c d : 0 <= c -> 0 <= d -> node_section c = node_section d -> c = d.
Proof. intros Hc Hd [= H]. by apply dec_inj. Qed.

Lemma group_order_nodes c l gs :
  0 <= c -> Forall node_ok l -> (forall g, g ∈ gs -> exists i, 0 <= i < c /\ g = node_section i) ->
  group_order (ws_node_list c l) gs = gs ++ sections_from c l.
Proof.
  intros Hc Hl. revert c gs Hc. induction Hl as [|n l Hn Hl IH]; intros c gs Hc Hgs.
  - by rewrite app_nil_r.
  - cbn [ws_node_list]. rewrite group_order_app, (group_order_one (node_section c) (ws_node n (node_section c))).
    2: apply ws_node_within. 2: apply ws_node_nonempty, Hn.
    rewrite decide_False.
    2: { intros (i & Hi & He)%Hgs. apply node_section_inj in He; lia. }
    rewrite IH; [by rewrite sections_from_cons, <- assoc_L by apply _|lia|].
    intros g [Hg| ->%list_elem_of_singleton]%elem_of_app.
    + destruct (Hgs g Hg) as (i & Hi & ->). exists i. split; [lia|done].
    + exists c. split; [lia|done].
Qed.

Lemma filter_within (P : string -> Prop) `{!forall g, Decision (P g)} ws :
  within P ws -> filter (fun w : write => P w.1.1) ws = ws.
Proof. induction 1 as [|w ws Hw _ IH]; [done|]. by rewrite filter_cons, decide_True, IH. Qed.

Lemma filter_outside (P : string -> Prop) `{!forall g, Decision (P g)} ws :
  within (fun g => ~ P g) ws -> filter (fun w : write => P w.1.1) ws = [].
Proof. induction 1 as [|w ws Hw _ IH]; [done|]. by rewrite filter_cons, decide_False, IH. Qed.

(** The loop over the sections. *)
Lemma load_nodes_back k generic c l acc :
  0 <= c -> c + Z.of_nat (length l) < 2 ^ 64 -> Forall node_ok l -> nd_bmc_address generic = None ->
  (forall i n, l !! i = Some n ->
     agrees k (ws_node n (node_section (c + Z.of_nat i))) (node_section (c + Z.of_nat i))) ->
  for_each (sections_from c l) (load_one_node generic k) (mkAFNodes (Some generic) acc) =
  (Ok tt, mkAFNodes (Some generic) (acc ++ l)).
Proof.
  intros Hc Hlt Hl Hg. revert c acc Hc Hlt. induction Hl as [|n l Hn Hl IH]; intros c acc Hc Hlt Ha.
  - by rewrite app_nil_r.
  - rewrite sections_from_cons. cbn [for_each]. cbn [length] in Hlt.
    specialize (Ha 0%nat n eq_refl) as Ha0. rewrite Z.add_0_r in Ha0.
    erewrite M_bind_ok by (apply (load_one_node_back k generic n); [lia|done..]).
    rewrite IH; [by rewrite <- assoc_L by apply _|lia..|].
    intros i m Hi. specialize (Ha (S i) m Hi). by replace (c + 1 + Z.of_nat i) with (c + Z.of_nat (S i)) by lia.
Qed.

Lemma is_node_number_section c : 0 < c < 2 ^ 64 -> is_node_number (node_section c) = true.
Proof. intros Hc. unfold is_node_number. rewrite node_counter_section by lia. lia. Qed.

Lemma node_sections_all c l :
  0 < c -> c + Z.of_nat (length l) < 2 ^ 64 ->
  filter (fun s => Is_true (is_node_number s)) (sections_from c l) = sections_from c l.
Proof.
  revert c. induction l as [|n l IH]; intros c Hc Hlt; [done|]. cbn [length] in Hlt.
  rewrite sections_from_cons, filter_cons, decide_True, IH; [done|lia..|].
  apply Is_true_true. apply is_node_number_section. lia.
Qed.
End reads.
