(* ===== verification/AnswerFileRoundtrip.v ===== *)
(** * The answer file: dumping and loading back

    [dumpOptions] is documented as the inverse of [loadOptions]; for the
    answer files the program accepts it is. *)

From stdpp Require Import base strings list gmap.
From Stdlib Require Import ZArith Lia Ascii.
From S2P Require Import Prelude CppString External Enums KeyFile AnswerFile AnswerFileDump.
From S2P Require Import AnswerFileValidation AnswerFileWrites AnswerFileReads.

Local Open Scope Z_scope.

Section canonical.
Context `{Asio} `{BoostText} `{GKeyFile}.

(** The answer files a dump preserves: what the loaders accept, with the
    sections that are off left at their initial values. *)
Record canonical (a : AnswerFile) : Prop := {
  ok_external : network_ok "network_external" (external a);
  ok_management : network_ok "network_management" (management a);
  ok_service : optional_network_ok "network_service" (service a);
  ok_application : optional_network_ok "network_application" (application a);
  ok_system : system_ok (system a);
  ok_repositories : names_ok (rp_enabled (repositories a));
  ok_ohpc : names_ok (oh_enabled (ohpc a));
  ok_slurm : slurm_ok (slurm a);
  ok_pbs : pbs_ok (pbs a);
  ok_queue : sl_enabled (slurm a) && pb_enabled (pbs a) = false;
  ok_generic : exists g, ns_generic (nodes a) = Some g /\ generic_ok g;
  ok_nodes : Forall node_ok (ns_nodes (nodes a));
  ok_count : 1 + Z.of_nat (length (ns_nodes (nodes a))) < 2 ^ 64;
  ok_inventory :
    NoDup (gather node_host (ns_nodes (nodes a))) /\ NoDup (gather node_mac (ns_nodes (nodes a))) /\
    NoDup (gather node_addresses (ns_nodes (nodes a)));
  ok_ofed : ofed_ok (ofed a);
  ok_postfix : postfix_ok (postfix a);
}.
End canonical.

Section roundtrip.
Context `{AL : AsioLaws} `{BL : BoostTextLaws} `{GL : GKeyFileLaws}.

Lemma touches_eq g0 ws g :
  within (fun g' => g' = g0) ws -> String.eqb g0 g = false -> touches ws g = false.
Proof. intros Hw Hg. apply (within_other _ _ _ Hw). intros ->. by rewrite String.eqb_refl in Hg. Qed.

Lemma touches_app_false ws1 ws2 g :
  touches ws1 g = false /\ touches ws2 g = false -> touches (ws1 ++ ws2) g = false.
Proof. intros [H1 H2]. by rewrite touches_app, H1, H2. Qed.

(** [other]: a list of sections does not touch a group. *)
Ltac other :=
  lazymatch goal with
  | |- touches (_ ++ _) _ = false => apply touches_app_false; split; other
  | _ => first
    [ eapply touches_eq; [apply ws_network_within|reflexivity]
    | eapply touches_eq; [apply ws_information_within|reflexivity]
    | eapply touches_eq; [apply ws_time_within|reflexivity]
    | eapply touches_eq; [apply ws_hostname_within|reflexivity]
    | eapply touches_eq; [apply ws_system_within|reflexivity]
    | eapply touches_eq; [apply ws_repositories_within|reflexivity]
    | eapply touches_eq; [apply ws_ohpc_within|reflexivity]
    | eapply touches_eq; [apply ws_slurm_within|reflexivity]
    | eapply touches_eq; [apply ws_pbs_within|reflexivity]
    | eapply touches_eq; [apply ws_ofed_within|reflexivity]
    | eapply within_touches; [apply ws_nodes_within|reflexivity]
    | eapply within_touches; [apply ws_postfix_within|reflexivity] ]
  end.

(** [section H] narrows an agreement on the whole dump to one section. *)
Ltac section H :=
  lazymatch type of H with
  | agrees _ (ws_all _ _) _ => unfold ws_all in H; section H
  | agrees _ (_ ++ _) _ =>
      first [ apply agrees_skip in H; [|solve [other]]; section H
            | apply agrees_keep in H; [|solve [other]]; exact H ]
  | _ => exact H
  end.

(** The group the text interface keeps for itself is none of an answer file's. *)
Lemma ws_all_tui a d : touches (ws_all a d) "tui" = false.
Proof. unfold ws_all. other. Qed.

Section sections.
Variables (k : KeyFile) (a : AnswerFile) (d : Distro.t).
Hypothesis (Hk : forall g, String.eqb g "tui" = false -> agrees k (ws_all a d) g).

Lemma section_external : agrees k (ws_network (external a) "network_external") "network_external".
Proof. pose proof (Hk "network_external" eq_refl) as Ha. section Ha. Qed.
Lemma section_management : agrees k (ws_network (management a) "network_management") "network_management".
Proof. pose proof (Hk "network_management" eq_refl) as Ha. section Ha. Qed.
Lemma section_service : agrees k (ws_network (service a) "network_service") "network_service".
Proof. pose proof (Hk "network_service" eq_refl) as Ha. section Ha. Qed.
Lemma section_application : agrees k (ws_network (application a) "network_application") "network_application".
Proof. pose proof (Hk "network_application" eq_refl) as Ha. section Ha. Qed.
Lemma section_information : agrees k (ws_information (information a)) "information".
Proof. pose proof (Hk "information" eq_refl) as Ha. section Ha. Qed.
Lemma section_time : agrees k (ws_time (time a)) "time".
Proof. pose proof (Hk "time" eq_refl) as Ha. section Ha. Qed.
Lemma section_hostname : agrees k (ws_hostname (hostname a)) "hostname".
Proof. pose proof (Hk "hostname" eq_refl) as Ha. section Ha. Qed.
Lemma section_system : agrees k (ws_system (system a) d) "system".
Proof. pose proof (Hk "system" eq_refl) as Ha. section Ha. Qed.
Lemma section_repositories : agrees k (ws_repositories (repositories a)) "repositories".
Proof. pose proof (Hk "repositories" eq_refl) as Ha. section Ha. Qed.
Lemma section_ohpc : agrees k (ws_ohpc (ohpc a)) "ohpc".
Proof. pose proof (Hk "ohpc" eq_refl) as Ha. section Ha. Qed.
Lemma section_slurm : agrees k (ws_slurm (slurm a)) "slurm".
Proof. pose proof (Hk "slurm" eq_refl) as Ha. section Ha. Qed.
Lemma section_pbs : agrees k (ws_pbs (pbs a)) "pbs".
Proof. pose proof (Hk "pbs" eq_refl) as Ha. section Ha. Qed.
Lemma section_ofed : agrees k (ws_ofed (ofed a)) "ofed".
Proof. pose proof (Hk "ofed" eq_refl) as Ha. section Ha. Qed.
Lemma section_postfix g :
  starts_with "postfix" g = true -> g ∈ ["postfix"; "postfix.relay"; "postfix.sasl"] ->
  agrees k (ws_postfix_opt (postfix a)) g.
Proof.
  intros _ Hg. pose proof (Hk g) as Ha.
  repeat (apply elem_of_cons in Hg as [->|Hg]; [specialize (Ha eq_refl); section Ha|]). by apply elem_of_nil in Hg.
Qed.

Lemma section_nodes s : agrees k (ws_nodes (nodes a)) ("node" +:+ s).
Proof. pose proof (Hk ("node" +:+ s) eq_refl) as Ha. section Ha. Qed.
End sections.

(** *** The nodes *)

Lemma node_list_touches c l i :
  0 <= c -> 0 <= i < c -> touches (ws_node_list c l) (node_section i) = false.
Proof.
  intros Hc Hi. apply (within_other _ _ _ (ws_node_list_within c l)). intros (j & _ & He).
  apply node_section_inj in He; lia.
Qed.

Lemma node_list_agrees k c l i n :
  0 <= c -> l !! i = Some n -> agrees k (ws_node_list c l) (node_section (c + Z.of_nat i)) ->
  agrees k (ws_node n (node_section (c + Z.of_nat i))) (node_section (c + Z.of_nat i)).
Proof.
  revert c i. induction l as [|m l IH]; intros c i Hc Hi Ha; [done|]. cbn [ws_node_list] in Ha.
  destruct i as [|i].
  - injection Hi as ->. rewrite Z.add_0_r in *.
    apply agrees_keep in Ha; [exact Ha|]. apply node_list_touches; lia.
  - apply agrees_skip in Ha.
    2: { apply (within_other _ _ _ (ws_node_within m (node_section c))). intros He.
         apply node_section_inj in He; lia. }
    replace (c + Z.of_nat (S i)) with (c + 1 + Z.of_nat i) in * by lia. apply IH; [lia|done..].
Qed.

Lemma loadNodes_back k ns g :
  ns_generic ns = Some g -> generic_ok g -> Forall node_ok (ns_nodes ns) ->
  1 + Z.of_nat (length (ns_nodes ns)) < 2 ^ 64 ->
  validateNodeInventoryTopology (ns_nodes ns) = Ok tt ->
  listAllPrefixedEntries k "node." = sections_from 1 (ns_nodes ns) ->
  (forall s, agrees k (ws_nodes ns) ("node" +:+ s)) ->
  loadNodes k (mkAFNodes None []) = (Ok tt, ns).
Proof.
  intros Hg Hok Hl Hlt Hinv Hlist Ha. unfold ws_nodes in Ha. rewrite Hg in Ha.
  assert (loadNode k "node" = Ok g) as Hgen.
  { apply loadNode_generic_back; [done|]. eapply agrees_keep; [|exact (Ha "")].
    apply (within_other _ _ _ (ws_node_list_within 1 _)). intros (j & _ & He). done. }
  unfold loadNodes. rewrite Hgen, Hlist. erewrite M_bind_ok by done. erewrite M_bind_ok by done.
  rewrite node_sections_all by lia.
  erewrite M_bind_ok.
  2: { apply (load_nodes_back k g 1 (ns_nodes ns) []); [lia|lia|done| |].
       - by destruct (generic_none g Hok) as (_ & _ & ?).
       - intros i n Hi. apply node_list_agrees with (l := ns_nodes ns); [lia|done|].
         eapply agrees_skip; [|exact (Ha ("." +:+ dec (1 + Z.of_nat i)))].
         apply (within_other _ _ _ (ws_generic_within g)). done. }
  cpp_simpl. cbn [ns_nodes app]. rewrite Hinv. destruct ns. cbn in *. by subst.
Qed.

(** *** The groups of the dump that start with [node.] *)

Definition node_writes (ws : list write) : list write :=
  filter (fun w : write => Is_true (starts_with "node." w.1.1)) ws.

Lemma node_writes_none ws :
  within (fun g => ~ Is_true (starts_with "node." g)) ws -> node_writes ws = [].
Proof. intros Hw. pose proof (filter_outside (fun g => Is_true (starts_with "node." g)) ws Hw) as E. exact E. Qed.

Lemma node_writes_all_of ws :
  within (fun g => Is_true (starts_with "node." g)) ws -> node_writes ws = ws.
Proof. intros Hw. pose proof (filter_within (fun g => Is_true (starts_with "node." g)) ws Hw) as E. exact E. Qed.

Lemma node_writes_app ws1 ws2 : node_writes (ws1 ++ ws2) = node_writes ws1 ++ node_writes ws2.
Proof. apply filter_app. Qed.

Lemma node_writes_other ws g0 :
  within (fun g => g = g0) ws -> starts_with "node." g0 = false -> node_writes ws = [].
Proof.
  intros Hw Hg. apply node_writes_none.
  eapply within_mono; [|exact Hw]. intros ? ->. rewrite Hg. by intros [].
Qed.

Lemma postfix_not_node g : starts_with "postfix" g = true -> ~ Is_true (starts_with "node." g).
Proof.
  destruct g as [|c g]; [done|]. unfold starts_with. cbn [String.prefix].
  destruct (ascii_dec "p" c) as [<-|]; [|done]. intros _. cbn. by intros [].
Qed.

Lemma node_writes_nodes ns : node_writes (ws_nodes ns) = ws_node_list 1 (ns_nodes ns).
Proof.
  unfold ws_nodes. rewrite node_writes_app.
  assert (node_writes (match ns_generic ns with Some g => ws_generic g | None => [] end) = []) as ->.
  { destruct (ns_generic ns); [|done]. eapply node_writes_other; [apply ws_generic_within|done]. }
  apply node_writes_all_of.
  eapply within_mono; [|apply ws_node_list_within]. intros ? (i & _ & ->). unfold node_section.
  by rewrite starts_with_app.
Qed.

Lemma node_writes_all a d : node_writes (ws_all a d) = ws_node_list 1 (ns_nodes (nodes a)).
Proof.
  assert (forall l1 l2, node_writes l1 = [] -> node_writes (l1 ++ l2) = node_writes l2) as Hskip.
  { intros l1 l2 H1. by rewrite node_writes_app, H1. }
  unfold ws_all. repeat (rewrite Hskip;
    [|first [ eapply node_writes_other; [apply ws_network_within|reflexivity]
            | eapply node_writes_other; [apply ws_information_within|reflexivity]
            | eapply node_writes_other; [apply ws_time_within|reflexivity]
            | eapply node_writes_other; [apply ws_hostname_within|reflexivity]
            | eapply node_writes_other; [apply ws_system_within|reflexivity]
            | eapply node_writes_other; [apply ws_repositories_within|reflexivity]
            | eapply node_writes_other; [apply ws_ohpc_within|reflexivity]
            | eapply node_writes_other; [apply ws_slurm_within|reflexivity]
            | eapply node_writes_other; [apply ws_pbs_within|reflexivity] ]]).
  rewrite node_writes_app, Hskip by (eapply node_writes_other; [apply ws_ofed_within|reflexivity]).
  rewrite node_writes_nodes, (node_writes_none (ws_postfix_opt _)); [apply app_nil_r|].
  eapply within_mono; [apply postfix_not_node|apply ws_postfix_within].
Qed.

Lemma group_order_listed a d ms :
  Forall node_ok (ns_nodes (nodes a)) -> node_writes ms = [] ->
  filter (fun g => Is_true (starts_with "node." g)) (group_order (ws_all a d ++ ms) []) =
  sections_from 1 (ns_nodes (nodes a)).
Proof.
  intros Hl Hms.
  pose proof (group_order_filter (fun g => Is_true (starts_with "node." g)) (ws_all a d ++ ms) []) as E.
  change (filter (fun w : write => Is_true (starts_with "node." w.1.1)) (ws_all a d ++ ms))
    with (node_writes (ws_all a d ++ ms)) in E.
  etransitivity; [exact E|]. rewrite node_writes_app, Hms, app_nil_r, node_writes_all. cbn [filter list_filter].
  rewrite group_order_nodes; [done|lia|done|]. by intros g ?%elem_of_nil.
Qed.

Lemma listAll_nodes a d path :
  Forall node_ok (ns_nodes (nodes a)) ->
  listAllPrefixedEntries (write_all (ws_all a d) (mkKeyFile path gkf_create)) "node." =
  sections_from 1 (ns_nodes (nodes a)).
Proof.
  intros Hl. unfold listAllPrefixedEntries. rewrite getGroups_write_all, getGroups_create.
  rewrite <- (app_nil_r (ws_all a d)). by apply group_order_listed.
Qed.

(** *** The whole file *)

Lemma dumped_ok a path :
  canonical a ->
  exists d, sy_distro (system a) = Some d /\
    dumpOptions (put_af_keyfile (mkKeyFile path gkf_create) a) =
    (Ok tt, put_af_keyfile (write_all (ws_all a d) (mkKeyFile path gkf_create)) a).
Proof.
  intros Ha. destruct (ok_system a Ha) as [[d Hd] _]. exists d. split; [done|].
  apply (dumpOptions_writes (put_af_keyfile (mkKeyFile path gkf_create) a) d Hd).
  intros He. cbn in He. destruct (ok_postfix a Ha) as [Hp|(_ & _ & p & Hp & _)]; [|by exists p].
  by rewrite Hp in He.
Qed.

Lemma inventory_ok (l : list AFNode) :
  NoDup (gather node_host l) /\ NoDup (gather node_mac l) /\ NoDup (gather node_addresses l) ->
  validateNodeInventoryTopology l = Ok tt.
Proof.
  intros Hl. pose proof (inventory_checked l) as Hi.
  destruct (validateNodeInventoryTopology l) as [[]| |]; [done|by destruct Hi|done].
Qed.

(** A part loaded only if its group exists. *)
Lemma zoom_optional {S T} (b : bool) (g : S -> T) p (m : M T unit) s t :
  p (g s) s = s -> (if b then skip else m) (g s) = (Ok tt, t) ->
  (if b then skip else zoom g p m) s = (Ok tt, p t s).
Proof.
  intros Hp Hm. destruct b; [|by apply zoom_ok]. injection Hm as <-. by rewrite Hp.
Qed.

Lemma loadOptions_back a d dryRun k :
  canonical a -> sy_distro (system a) = Some d ->
  (forall g, String.eqb g "tui" = false -> agrees k (ws_all a d) g) ->
  listAllPrefixedEntries k "node." = sections_from 1 (ns_nodes (nodes a)) ->
  loadOptions dryRun (AnswerFile_init (af_path a) k) = (Ok tt, put_af_keyfile k a).
Proof.
  intros Ha Hd Hk Hlist. destruct (ok_generic a Ha) as (g & Hg & Hgok). unfold loadOptions.
  erewrite M_bind_ok
    by (apply (zoom_ok external), (loadNetwork_back k (external a)); [by apply ok_external|by eapply section_external]).
  erewrite M_bind_ok
    by (apply (zoom_ok management), (loadNetwork_back k (management a)); [by apply ok_management|by eapply section_management]).
  erewrite M_bind_ok
    by (apply (zoom_optional _ service); [done|]; apply (optional_network_back k (service a));
        [by apply ok_service|by eapply section_service]).
  erewrite M_bind_ok
    by (apply (zoom_optional _ application); [done|]; apply (optional_network_back k (application a));
        [by apply ok_application|by eapply section_application]).
  do 2 erewrite M_bind_ok by done.
  erewrite M_bind_ok by (apply (zoom_ok information), (loadInformation_back k (information a)); by eapply section_information).
  erewrite M_bind_ok by (apply (zoom_ok time), (loadTimeSettings_back k (time a)); by eapply section_time).
  erewrite M_bind_ok by (apply (zoom_ok hostname), (loadHostnameSettings_back k (hostname a)); by eapply section_hostname).
  erewrite M_bind_ok by (apply (zoom_ok system), (loadSystemSettings_back k (system a) d);
    [done|by apply ok_system|by eapply section_system]).
  erewrite M_bind_ok by (apply (zoom_ok repositories), (loadRepositories_back k (repositories a));
    [by apply ok_repositories|by eapply section_repositories]).
  erewrite M_bind_ok by (apply (zoom_ok ohpc), (loadOHPC_back k (ohpc a)); [by apply ok_ohpc|by eapply section_ohpc]).
  erewrite M_bind_ok by (apply (zoom_ok nodes), (loadNodes_back k (nodes a) g);
    [done|done|by apply ok_nodes|by apply ok_count|by apply inventory_ok, ok_inventory|done|by intros; eapply section_nodes]).
  erewrite M_bind_ok by (apply (zoom_ok postfix), (loadPostfix_back k (postfix a));
    [by apply ok_postfix|eapply section_postfix; [done|done|set_solver]..]).
  erewrite M_bind_ok by (apply (zoom_ok ofed), (loadOFED_back k (ofed a)); [by apply ok_ofed|by eapply section_ofed]).
  erewrite M_bind_ok by (apply (zoom_ok slurm), (loadSlurm_back _ k (slurm a)); [by apply ok_slurm|by eapply section_slurm]).
  erewrite M_bind_ok by (apply (zoom_ok pbs), (loadPBS_back k (pbs a)); [by apply ok_pbs|by eapply section_pbs]).
  erewrite M_bind_ok by done. unfold lift, validateSingleQueueSystem. cbn [slurm pbs put_pbs put_slurm id].
  pose proof (ok_queue a Ha) as Hq. cbn. rewrite Hq. by destruct a.
Qed.
End roundtrip.

(** C1. Dumping is the inverse of loading: [dumpOptions] on a canonical answer
    file over a fresh key file succeeds and leaves every member as it was, and
    [loadOptions] of a new object from the resulting key file succeeds and
    gives the same answer file, whatever the dry-run option. *)
Theorem dump_load_roundtrip `{AsioLaws} `{BoostTextLaws} `{GKeyFileLaws} (a : AnswerFile) (path : string)
    (dryRun : bool) :
  canonical a ->
  exists k,
    dumpOptions (put_af_keyfile (mkKeyFile path gkf_create) a) = (Ok tt, put_af_keyfile k a) /\
    loadOptions dryRun (AnswerFile_init (af_path a) k) = (Ok tt, put_af_keyfile k a).
Proof.
  intros Ha. destruct (dumped_ok a path Ha) as (d & Hd & Hdump). eexists. split; [exact Hdump|].
  eapply loadOptions_back; [done|exact Hd| |].
  - intros g _. apply agrees_write_all.
  - apply listAll_nodes. by apply ok_nodes.
Qed.
