(* ===== verification/ClusterData.v ===== *)
(** * The cluster: data

    The class [Cluster] of [include/opencattus/models/cluster.h], with
    functional updates of its members.  A connection points to a network by
    its index in [k_network], a list the class only appends to. *)

From stdpp Require Import base strings list.
From Stdlib Require Import ZArith Lia Ascii.
From S2P Require Import Prelude CppString External Enums AnswerFileData.
From S2P Require Network Connection Timezone DiskImage Postfix.

Local Open Scope Z_scope.

Module SELinuxMode.
Inductive t := Permissive | Enforcing | Disabled.
#[global] Instance t_eq_dec : EqDecision t. Proof. solve_decision. Defined.
End SELinuxMode.

Module Provisioner.
Inductive t := xCAT | Confluent.
#[global] Instance t_eq_dec : EqDecision t. Proof. solve_decision. Defined.
End Provisioner.

(** [OFED] of [include/opencattus/ofed.h]. *)
Record OFED := mkOFED { o_kind : OFEDKind.t; o_version : string }.

Section cluster_data.
Context `{Asio}.

(** "All those leftovers from legacy C version", in the words of the header:
    the public members at the end of the class. *)
Record Leftovers := mkLeftovers {
  nodeQuantity : Z;
  nodePrefix : string;
  nodePadding : Z;
  nodeStartIP : address;
  nodeRootPassword : string;
  nodeSockets : Z;
  nodeCoresPerSocket : Z;
  nodeThreadsPerCore : Z;
  nodeCPUsPerNode : Z;
  nodeRealMemory : Z;
  nodeBMCUsername : string;
  nodeBMCPassword : string;
  nodeBMCSerialPort : Z;
  nodeBMCSerialSpeed : Z;
  slurmMariaDBRootPassword : string;
  slurmDBPassword : string;
  slurmStoragePassword : string;
}.

Definition put_nodeQuantity (v : Z) (a : Leftovers) : Leftovers :=
  mkLeftovers v (nodePrefix a) (nodePadding a) (nodeStartIP a) (nodeRootPassword a) (nodeSockets
    a) (nodeCoresPerSocket a) (nodeThreadsPerCore a) (nodeCPUsPerNode a) (nodeRealMemory a)
    (nodeBMCUsername a) (nodeBMCPassword a) (nodeBMCSerialPort a) (nodeBMCSerialSpeed a)
    (slurmMariaDBRootPassword a) (slurmDBPassword a) (slurmStoragePassword a).
Definition put_nodePrefix (v : string) (a : Leftovers) : Leftovers :=
  mkLeftovers (nodeQuantity a) v (nodePadding a) (nodeStartIP a) (nodeRootPassword a)
    (nodeSockets a) (nodeCoresPerSocket a) (nodeThreadsPerCore a) (nodeCPUsPerNode a)
    (nodeRealMemory a) (nodeBMCUsername a) (nodeBMCPassword a) (nodeBMCSerialPort a)
    (nodeBMCSerialSpeed a) (slurmMariaDBRootPassword a) (slurmDBPassword a)
    (slurmStoragePassword a).
Definition put_nodePadding (v : Z) (a : Leftovers) : Leftovers :=
  mkLeftovers (nodeQuantity a) (nodePrefix a) v (nodeStartIP a) (nodeRootPassword a)
    (nodeSockets a) (nodeCoresPerSocket a) (nodeThreadsPerCore a) (nodeCPUsPerNode a)
    (nodeRealMemory a) (nodeBMCUsername a) (nodeBMCPassword a) (nodeBMCSerialPort a)
    (nodeBMCSerialSpeed a) (slurmMariaDBRootPassword a) (slurmDBPassword a)
    (slurmStoragePassword a).
Definition put_nodeStartIP (v : address) (a : Leftovers) : Leftovers :=
  mkLeftovers (nodeQuantity a) (nodePrefix a) (nodePadding a) v (nodeRootPassword a)
    (nodeSockets a) (nodeCoresPerSocket a) (nodeThreadsPerCore a) (nodeCPUsPerNode a)
    (nodeRealMemory a) (nodeBMCUsername a) (nodeBMCPassword a) (nodeBMCSerialPort a)
    (nodeBMCSerialSpeed a) (slurmMariaDBRootPassword a) (slurmDBPassword a)
    (slurmStoragePassword a).
Definition put_nodeRootPassword (v : string) (a : Leftovers) : Leftovers :=
  mkLeftovers (nodeQuantity a) (nodePrefix a) (nodePadding a) (nodeStartIP a) v (nodeSockets a)
    (nodeCoresPerSocket a) (nodeThreadsPerCore a) (nodeCPUsPerNode a) (nodeRealMemory a)
    (nodeBMCUsername a) (nodeBMCPassword a) (nodeBMCSerialPort a) (nodeBMCSerialSpeed a)
    (slurmMariaDBRootPassword a) (slurmDBPassword a) (slurmStoragePassword a).
Definition put_nodeSockets (v : Z) (a : Leftovers) : Leftovers :=
  mkLeftovers (nodeQuantity a) (nodePrefix a) (nodePadding a) (nodeStartIP a) (nodeRootPassword
    a) v (nodeCoresPerSocket a) (nodeThreadsPerCore a) (nodeCPUsPerNode a) (nodeRealMemory a)
    (nodeBMCUsername a) (nodeBMCPassword a) (nodeBMCSerialPort a) (nodeBMCSerialSpeed a)
    (slurmMariaDBRootPassword a) (slurmDBPassword a) (slurmStoragePassword a).
Definition put_nodeCoresPerSocket (v : Z) (a : Leftovers) : Leftovers :=
  mkLeftovers (nodeQuantity a) (nodePrefix a) (nodePadding a) (nodeStartIP a) (nodeRootPassword
    a) (nodeSockets a) v (nodeThreadsPerCore a) (nodeCPUsPerNode a) (nodeRealMemory a)
    (nodeBMCUsername a) (nodeBMCPassword a) (nodeBMCSerialPort a) (nodeBMCSerialSpeed a)
    (slurmMariaDBRootPassword a) (slurmDBPassword a) (slurmStoragePassword a).
Definition put_nodeThreadsPerCore (v : Z) (a : Leftovers) : Leftovers :=
  mkLeftovers (nodeQuantity a) (nodePrefix a) (nodePadding a) (nodeStartIP a) (nodeRootPassword
    a) (nodeSockets a) (nodeCoresPerSocket a) v (nodeCPUsPerNode a) (nodeRealMemory a)
    (nodeBMCUsername a) (nodeBMCPassword a) (nodeBMCSerialPort a) (nodeBMCSerialSpeed a)
    (slurmMariaDBRootPassword a) (slurmDBPassword a) (slurmStoragePassword a).
Definition put_nodeCPUsPerNode (v : Z) (a : Leftovers) : Leftovers :=
  mkLeftovers (nodeQuantity a) (nodePrefix a) (nodePadding a) (nodeStartIP a) (nodeRootPassword
    a) (nodeSockets a) (nodeCoresPerSocket a) (nodeThreadsPerCore a) v (nodeRealMemory a)
    (nodeBMCUsername a) (nodeBMCPassword a) (nodeBMCSerialPort a) (nodeBMCSerialSpeed a)
    (slurmMariaDBRootPassword a) (slurmDBPassword a) (slurmStoragePassword a).
Definition put_nodeRealMemory (v : Z) (a : Leftovers) : Leftovers :=
  mkLeftovers (nodeQuantity a) (nodePrefix a) (nodePadding a) (nodeStartIP a) (nodeRootPassword
    a) (nodeSockets a) (nodeCoresPerSocket a) (nodeThreadsPerCore a) (nodeCPUsPerNode a) v
    (nodeBMCUsername a) (nodeBMCPassword a) (nodeBMCSerialPort a) (nodeBMCSerialSpeed a)
    (slurmMariaDBRootPassword a) (slurmDBPassword a) (slurmStoragePassword a).
Definition put_nodeBMCUsername (v : string) (a : Leftovers) : Leftovers :=
  mkLeftovers (nodeQuantity a) (nodePrefix a) (nodePadding a) (nodeStartIP a) (nodeRootPassword
    a) (nodeSockets a) (nodeCoresPerSocket a) (nodeThreadsPerCore a) (nodeCPUsPerNode a)
    (nodeRealMemory a) v (nodeBMCPassword a) (nodeBMCSerialPort a) (nodeBMCSerialSpeed a)
    (slurmMariaDBRootPassword a) (slurmDBPassword a) (slurmStoragePassword a).
Definition put_nodeBMCPassword (v : string) (a : Leftovers) : Leftovers :=
  mkLeftovers (nodeQuantity a) (nodePrefix a) (nodePadding a) (nodeStartIP a) (nodeRootPassword
    a) (nodeSockets a) (nodeCoresPerSocket a) (nodeThreadsPerCore a) (nodeCPUsPerNode a)
    (nodeRealMemory a) (nodeBMCUsername a) v (nodeBMCSerialPort a) (nodeBMCSerialSpeed a)
    (slurmMariaDBRootPassword a) (slurmDBPassword a) (slurmStoragePassword a).
Definition put_nodeBMCSerialPort (v : Z) (a : Leftovers) : Leftovers :=
  mkLeftovers (nodeQuantity a) (nodePrefix a) (nodePadding a) (nodeStartIP a) (nodeRootPassword
    a) (nodeSockets a) (nodeCoresPerSocket a) (nodeThreadsPerCore a) (nodeCPUsPerNode a)
    (nodeRealMemory a) (nodeBMCUsername a) (nodeBMCPassword a) v (nodeBMCSerialSpeed a)
    (slurmMariaDBRootPassword a) (slurmDBPassword a) (slurmStoragePassword a).
Definition put_nodeBMCSerialSpeed (v : Z) (a : Leftovers) : Leftovers :=
  mkLeftovers (nodeQuantity a) (nodePrefix a) (nodePadding a) (nodeStartIP a) (nodeRootPassword
    a) (nodeSockets a) (nodeCoresPerSocket a) (nodeThreadsPerCore a) (nodeCPUsPerNode a)
    (nodeRealMemory a) (nodeBMCUsername a) (nodeBMCPassword a) (nodeBMCSerialPort a) v
    (slurmMariaDBRootPassword a) (slurmDBPassword a) (slurmStoragePassword a).
Definition put_slurmMariaDBRootPassword (v : string) (a : Leftovers) : Leftovers :=
  mkLeftovers (nodeQuantity a) (nodePrefix a) (nodePadding a) (nodeStartIP a) (nodeRootPassword
    a) (nodeSockets a) (nodeCoresPerSocket a) (nodeThreadsPerCore a) (nodeCPUsPerNode a)
    (nodeRealMemory a) (nodeBMCUsername a) (nodeBMCPassword a) (nodeBMCSerialPort a)
    (nodeBMCSerialSpeed a) v (slurmDBPassword a) (slurmStoragePassword a).
Definition put_slurmDBPassword (v : string) (a : Leftovers) : Leftovers :=
  mkLeftovers (nodeQuantity a) (nodePrefix a) (nodePadding a) (nodeStartIP a) (nodeRootPassword
    a) (nodeSockets a) (nodeCoresPerSocket a) (nodeThreadsPerCore a) (nodeCPUsPerNode a)
    (nodeRealMemory a) (nodeBMCUsername a) (nodeBMCPassword a) (nodeBMCSerialPort a)
    (nodeBMCSerialSpeed a) (slurmMariaDBRootPassword a) v (slurmStoragePassword a).
Definition put_slurmStoragePassword (v : string) (a : Leftovers) : Leftovers :=
  mkLeftovers (nodeQuantity a) (nodePrefix a) (nodePadding a) (nodeStartIP a) (nodeRootPassword
    a) (nodeSockets a) (nodeCoresPerSocket a) (nodeThreadsPerCore a) (nodeCPUsPerNode a)
    (nodeRealMemory a) (nodeBMCUsername a) (nodeBMCPassword a) (nodeBMCSerialPort a)
    (nodeBMCSerialSpeed a) (slurmMariaDBRootPassword a) (slurmDBPassword a) v.

Definition Leftovers_default : Leftovers :=
  mkLeftovers 0 "" 0 default_address "" 0 0 0 0 0 "" "" 0 0 "" "" "".

Record Cluster := mkCluster {
  k_name : string;
  k_companyName : string;
  k_adminMail : string;
  k_headnode : Headnode;
  k_computeNodeOS : option OS;
  k_provisioner : Provisioner.t;
  k_ofed : option OFED;
  k_enabledRepositories : option (list string);
  k_enabledOpenHPCBundles : option (list string);
  k_queueSystem : option QueueSystem;
  k_mailSystem : option Postfix.Postfix;
  k_nodes : list Node;
  k_firewall : bool;
  k_selinux : SELinuxMode.t;
  k_timezone : Timezone.Timezone;
  k_locale : string;
  k_network : list Network.Network;
  k_updateSystem : bool;
  k_diskImage : DiskImage.DiskImage;
  k_pendingDiskImageDownloadURL : option string;
  k_leftovers : Leftovers;
}.

Definition put_k_name (v : string) (a : Cluster) : Cluster :=
  mkCluster v (k_companyName a) (k_adminMail a) (k_headnode a) (k_computeNodeOS a)
    (k_provisioner a) (k_ofed a) (k_enabledRepositories a) (k_enabledOpenHPCBundles a)
    (k_queueSystem a) (k_mailSystem a) (k_nodes a) (k_firewall a) (k_selinux a) (k_timezone a)
    (k_locale a) (k_network a) (k_updateSystem a) (k_diskImage a) (k_pendingDiskImageDownloadURL
    a) (k_leftovers a).
Definition put_k_companyName (v : string) (a : Cluster) : Cluster :=
  mkCluster (k_name a) v (k_adminMail a) (k_headnode a) (k_computeNodeOS a) (k_provisioner a)
    (k_ofed a) (k_enabledRepositories a) (k_enabledOpenHPCBundles a) (k_queueSystem a)
    (k_mailSystem a) (k_nodes a) (k_firewall a) (k_selinux a) (k_timezone a) (k_locale a)
    (k_network a) (k_updateSystem a) (k_diskImage a) (k_pendingDiskImageDownloadURL a)
    (k_leftovers a).
Definition put_k_adminMail (v : string) (a : Cluster) : Cluster :=
  mkCluster (k_name a) (k_companyName a) v (k_headnode a) (k_computeNodeOS a) (k_provisioner a)
    (k_ofed a) (k_enabledRepositories a) (k_enabledOpenHPCBundles a) (k_queueSystem a)
    (k_mailSystem a) (k_nodes a) (k_firewall a) (k_selinux a) (k_timezone a) (k_locale a)
    (k_network a) (k_updateSystem a) (k_diskImage a) (k_pendingDiskImageDownloadURL a)
    (k_leftovers a).
Definition put_k_headnode (v : Headnode) (a : Cluster) : Cluster :=
  mkCluster (k_name a) (k_companyName a) (k_adminMail a) v (k_computeNodeOS a) (k_provisioner a)
    (k_ofed a) (k_enabledRepositories a) (k_enabledOpenHPCBundles a) (k_queueSystem a)
    (k_mailSystem a) (k_nodes a) (k_firewall a) (k_selinux a) (k_timezone a) (k_locale a)
    (k_network a) (k_updateSystem a) (k_diskImage a) (k_pendingDiskImageDownloadURL a)
    (k_leftovers a).
Definition put_k_computeNodeOS (v : option OS) (a : Cluster) : Cluster :=
  mkCluster (k_name a) (k_companyName a) (k_adminMail a) (k_headnode a) v (k_provisioner a)
    (k_ofed a) (k_enabledRepositories a) (k_enabledOpenHPCBundles a) (k_queueSystem a)
    (k_mailSystem a) (k_nodes a) (k_firewall a) (k_selinux a) (k_timezone a) (k_locale a)
    (k_network a) (k_updateSystem a) (k_diskImage a) (k_pendingDiskImageDownloadURL a)
    (k_leftovers a).
Definition put_k_provisioner (v : Provisioner.t) (a : Cluster) : Cluster :=
  mkCluster (k_name a) (k_companyName a) (k_adminMail a) (k_headnode a) (k_computeNodeOS a) v
    (k_ofed a) (k_enabledRepositories a) (k_enabledOpenHPCBundles a) (k_queueSystem a)
    (k_mailSystem a) (k_nodes a) (k_firewall a) (k_selinux a) (k_timezone a) (k_locale a)
    (k_network a) (k_updateSystem a) (k_diskImage a) (k_pendingDiskImageDownloadURL a)
    (k_leftovers a).
Definition put_k_ofed (v : option OFED) (a : Cluster) : Cluster :=
  mkCluster (k_name a) (k_companyName a) (k_adminMail a) (k_headnode a) (k_computeNodeOS a)
    (k_provisioner a) v (k_enabledRepositories a) (k_enabledOpenHPCBundles a) (k_queueSystem a)
    (k_mailSystem a) (k_nodes a) (k_firewall a) (k_selinux a) (k_timezone a) (k_locale a)
    (k_network a) (k_updateSystem a) (k_diskImage a) (k_pendingDiskImageDownloadURL a)
    (k_leftovers a).
Definition put_k_enabledRepositories (v : option (list string)) (a : Cluster) : Cluster :=
  mkCluster (k_name a) (k_companyName a) (k_adminMail a) (k_headnode a) (k_computeNodeOS a)
    (k_provisioner a) (k_ofed a) v (k_enabledOpenHPCBundles a) (k_queueSystem a) (k_mailSystem
    a) (k_nodes a) (k_firewall a) (k_selinux a) (k_timezone a) (k_locale a) (k_network a)
    (k_updateSystem a) (k_diskImage a) (k_pendingDiskImageDownloadURL a) (k_leftovers a).
Definition put_k_enabledOpenHPCBundles (v : option (list string)) (a : Cluster) : Cluster :=
  mkCluster (k_name a) (k_companyName a) (k_adminMail a) (k_headnode a) (k_computeNodeOS a)
    (k_provisioner a) (k_ofed a) (k_enabledRepositories a) v (k_queueSystem a) (k_mailSystem a)
    (k_nodes a) (k_firewall a) (k_selinux a) (k_timezone a) (k_locale a) (k_network a)
    (k_updateSystem a) (k_diskImage a) (k_pendingDiskImageDownloadURL a) (k_leftovers a).
Definition put_k_queueSystem (v : option QueueSystem) (a : Cluster) : Cluster :=
  mkCluster (k_name a) (k_companyName a) (k_adminMail a) (k_headnode a) (k_computeNodeOS a)
    (k_provisioner a) (k_ofed a) (k_enabledRepositories a) (k_enabledOpenHPCBundles a) v
    (k_mailSystem a) (k_nodes a) (k_firewall a) (k_selinux a) (k_timezone a) (k_locale a)
    (k_network a) (k_updateSystem a) (k_diskImage a) (k_pendingDiskImageDownloadURL a)
    (k_leftovers a).
Definition put_k_mailSystem (v : option Postfix.Postfix) (a : Cluster) : Cluster :=
  mkCluster (k_name a) (k_companyName a) (k_adminMail a) (k_headnode a) (k_computeNodeOS a)
    (k_provisioner a) (k_ofed a) (k_enabledRepositories a) (k_enabledOpenHPCBundles a)
    (k_queueSystem a) v (k_nodes a) (k_firewall a) (k_selinux a) (k_timezone a) (k_locale a)
    (k_network a) (k_updateSystem a) (k_diskImage a) (k_pendingDiskImageDownloadURL a)
    (k_leftovers a).
Definition put_k_nodes (v : list Node) (a : Cluster) : Cluster :=
  mkCluster (k_name a) (k_companyName a) (k_adminMail a) (k_headnode a) (k_computeNodeOS a)
    (k_provisioner a) (k_ofed a) (k_enabledRepositories a) (k_enabledOpenHPCBundles a)
    (k_queueSystem a) (k_mailSystem a) v (k_firewall a) (k_selinux a) (k_timezone a) (k_locale
    a) (k_network a) (k_updateSystem a) (k_diskImage a) (k_pendingDiskImageDownloadURL a)
    (k_leftovers a).
Definition put_k_firewall (v : bool) (a : Cluster) : Cluster :=
  mkCluster (k_name a) (k_companyName a) (k_adminMail a) (k_headnode a) (k_computeNodeOS a)
    (k_provisioner a) (k_ofed a) (k_enabledRepositories a) (k_enabledOpenHPCBundles a)
    (k_queueSystem a) (k_mailSystem a) (k_nodes a) v (k_selinux a) (k_timezone a) (k_locale a)
    (k_network a) (k_updateSystem a) (k_diskImage a) (k_pendingDiskImageDownloadURL a)
    (k_leftovers a).
Definition put_k_selinux (v : SELinuxMode.t) (a : Cluster) : Cluster :=
  mkCluster (k_name a) (k_companyName a) (k_adminMail a) (k_headnode a) (k_computeNodeOS a)
    (k_provisioner a) (k_ofed a) (k_enabledRepositories a) (k_enabledOpenHPCBundles a)
    (k_queueSystem a) (k_mailSystem a) (k_nodes a) (k_firewall a) v (k_timezone a) (k_locale a)
    (k_network a) (k_updateSystem a) (k_diskImage a) (k_pendingDiskImageDownloadURL a)
    (k_leftovers a).
Definition put_k_timezone (v : Timezone.Timezone) (a : Cluster) : Cluster :=
  mkCluster (k_name a) (k_companyName a) (k_adminMail a) (k_headnode a) (k_computeNodeOS a)
    (k_provisioner a) (k_ofed a) (k_enabledRepositories a) (k_enabledOpenHPCBundles a)
    (k_queueSystem a) (k_mailSystem a) (k_nodes a) (k_firewall a) (k_selinux a) v (k_locale a)
    (k_network a) (k_updateSystem a) (k_diskImage a) (k_pendingDiskImageDownloadURL a)
    (k_leftovers a).
Definition put_k_locale (v : string) (a : Cluster) : Cluster :=
  mkCluster (k_name a) (k_companyName a) (k_adminMail a) (k_headnode a) (k_computeNodeOS a)
    (k_provisioner a) (k_ofed a) (k_enabledRepositories a) (k_enabledOpenHPCBundles a)
    (k_queueSystem a) (k_mailSystem a) (k_nodes a) (k_firewall a) (k_selinux a) (k_timezone a) v
    (k_network a) (k_updateSystem a) (k_diskImage a) (k_pendingDiskImageDownloadURL a)
    (k_leftovers a).
Definition put_k_network (v : list Network.Network) (a : Cluster) : Cluster :=
  mkCluster (k_name a) (k_companyName a) (k_adminMail a) (k_headnode a) (k_computeNodeOS a)
    (k_provisioner a) (k_ofed a) (k_enabledRepositories a) (k_enabledOpenHPCBundles a)
    (k_queueSystem a) (k_mailSystem a) (k_nodes a) (k_firewall a) (k_selinux a) (k_timezone a)
    (k_locale a) v (k_updateSystem a) (k_diskImage a) (k_pendingDiskImageDownloadURL a)
    (k_leftovers a).
Definition put_k_updateSystem (v : bool) (a : Cluster) : Cluster :=
  mkCluster (k_name a) (k_companyName a) (k_adminMail a) (k_headnode a) (k_computeNodeOS a)
    (k_provisioner a) (k_ofed a) (k_enabledRepositories a) (k_enabledOpenHPCBundles a)
    (k_queueSystem a) (k_mailSystem a) (k_nodes a) (k_firewall a) (k_selinux a) (k_timezone a)
    (k_locale a) (k_network a) v (k_diskImage a) (k_pendingDiskImageDownloadURL a) (k_leftovers
    a).
Definition put_k_diskImage (v : DiskImage.DiskImage) (a : Cluster) : Cluster :=
  mkCluster (k_name a) (k_companyName a) (k_adminMail a) (k_headnode a) (k_computeNodeOS a)
    (k_provisioner a) (k_ofed a) (k_enabledRepositories a) (k_enabledOpenHPCBundles a)
    (k_queueSystem a) (k_mailSystem a) (k_nodes a) (k_firewall a) (k_selinux a) (k_timezone a)
    (k_locale a) (k_network a) (k_updateSystem a) v (k_pendingDiskImageDownloadURL a)
    (k_leftovers a).
Definition put_k_pendingDiskImageDownloadURL (v : option string) (a : Cluster) : Cluster :=
  mkCluster (k_name a) (k_companyName a) (k_adminMail a) (k_headnode a) (k_computeNodeOS a)
    (k_provisioner a) (k_ofed a) (k_enabledRepositories a) (k_enabledOpenHPCBundles a)
    (k_queueSystem a) (k_mailSystem a) (k_nodes a) (k_firewall a) (k_selinux a) (k_timezone a)
    (k_locale a) (k_network a) (k_updateSystem a) (k_diskImage a) v (k_leftovers a).
Definition put_k_leftovers (v : Leftovers) (a : Cluster) : Cluster :=
  mkCluster (k_name a) (k_companyName a) (k_adminMail a) (k_headnode a) (k_computeNodeOS a)
    (k_provisioner a) (k_ofed a) (k_enabledRepositories a) (k_enabledOpenHPCBundles a)
    (k_queueSystem a) (k_mailSystem a) (k_nodes a) (k_firewall a) (k_selinux a) (k_timezone a)
    (k_locale a) (k_network a) (k_updateSystem a) (k_diskImage a) (k_pendingDiskImageDownloadURL
    a) v.

(** A change of the leftovers. *)
Definition put_left (f : Leftovers -> Leftovers) (a : Cluster) : Cluster :=
  put_k_leftovers (f (k_leftovers a)) a.

(** [Cluster()]: the head node and the timezones look at the host. *)
Definition Cluster_make (headnode : outcome Headnode) (timezone : outcome Timezone.Timezone)
  : outcome Cluster :=
  headnode ← headnode;
  timezone ← timezone;
  Ok (mkCluster "" "" "" headnode None Provisioner.xCAT None None None None None [] false
        SELinuxMode.Disabled timezone "" [] false DiskImage.DiskImage_default None Leftovers_default).
End cluster_data.
