(* ===== verification/Cluster.v ===== *)
(** * The cluster: methods

    The accessors and modifiers of [Cluster] in [src/models/cluster.cpp];
    [fillData] and [dumpData] are in files of their own. *)

From stdpp Require Import base strings list.
From Stdlib Require Import ZArith Lia Ascii.
From S2P Require Import Prelude CppString External Enums KeyFile Options World.
From S2P Require Export AnswerFileData ClusterData.
From S2P Require FileOps.
From S2P Require Network Connection Timezone DiskImage Postfix.

Local Open Scope Z_scope.

(** What the program finds on the machine it runs on. *)
Record Host := mkHost {
  h_opts : Options;
  h_ifs : Network.getifaddrs_result;
  h_resolver : option (list Z);               (* _res.nsaddr_list *)
  h_domainname : option string;               (* getdomainname *)
  h_routes : option string;                   (* /proc/net/route *)
  h_nametoindex : string -> Z;
  h_files : string -> option string;
  h_os : outcome HostOSProbe;                 (* the probe behind OS() *)
  h_status : string -> option exn;            (* the error std::filesystem::exists reports for a path *)
}.

(** The error code of [std::filesystem::exists]. *)
Definition permission_denied : exn := SystemError "Permission denied".

(** [std::filesystem::exists(path, statusError)]; what it reports is thrown
    here. *)
Definition path_status (h : Host) (path : string) (w : World) : outcome bool :=
  match h_status h path with Some e => Throw e | None => Ok (fs_exists w path) end.

Section cluster.
Context `{Asio} `{BoostText} `{GChecksum}.

(** ** Networks *)

Definition net_store (l : list Network.Network) (p : Connection.NetworkPtr) : Network.Network :=
  default Network.Network_default (l !! p).
Definition networks (c : Cluster) : Connection.NetworkPtr -> Network.Network := net_store (k_network c).

Fixpoint getNetwork_loop (i : nat) (l : list Network.Network) (profile : Network.Profile.t)
  : outcome Connection.NetworkPtr :=
  match l with
  | [] => Throw (RuntimeError ("Cannot get any network with the profile " +:+ toString profile))
  | n :: l =>
      if decide (Network.m_profile n = profile) then Ok i else getNetwork_loop (S i) l profile
  end.

(** The reference it returns, as an index. *)
Definition getNetwork (profile : Network.Profile.t) (c : Cluster) : outcome Connection.NetworkPtr :=
  getNetwork_loop 0 (k_network c) profile.

(** A method of the network a reference leads to. *)
Definition on_network {T} (p : Connection.NetworkPtr) (m : M Network.Network T) : M Cluster T :=
  zoom (fun c => networks c p) (fun n c => put_k_network (<[p := n]> (k_network c)) c) m.

Definition emplace_network (n : Network.Network) : M Cluster unit :=
  modify (fun c => put_k_network (k_network c ++ [n]) c).

Definition addNetwork_default : M Cluster unit := emplace_network Network.Network_default.
Definition addNetwork_profile (profile : Network.Profile.t) : M Cluster unit :=
  emplace_network (Network.Network_profile profile).
Definition addNetwork_type (profile : Network.Profile.t) (type : Network.NetType.t) : M Cluster unit :=
  emplace_network (Network.Network_profile_type profile type).
Definition addNetwork_addresses (profile : Network.Profile.t) (type : Network.NetType.t)
    (ip subnetMask gateway : string) (vlan : Z) (domainName : string) (nameserver : list address)
  : M Cluster unit :=
  n ← lift (Network.Network_addresses profile type ip subnetMask gateway vlan domainName nameserver);
  emplace_network n.
Definition addNetwork_strings (profile : Network.Profile.t) (type : Network.NetType.t)
    (ip subnetMask gateway : string) (vlan : Z) (domainName : string) (nameserver : list string)
  : M Cluster unit :=
  formattedNameservers ← lift (mapo Network.make_address_exc nameserver);
  addNetwork_addresses profile type ip subnetMask gateway vlan domainName formattedNameservers.
Definition addNetwork (n : Network.Network) : M Cluster unit := emplace_network n.

(** ** Plain members *)

Definition getComputeNodeOS (c : Cluster) : OS :=
  match k_computeNodeOS c with Some os => os | None => s_os (h_server (k_headnode c)) end.
Definition setComputeNodeOS (os : OS) : M Cluster unit := modify (put_k_computeNodeOS (Some os)).
Definition setName (name : string) : M Cluster unit := modify (put_k_name name).
Definition setCompanyName (name : string) : M Cluster unit := modify (put_k_companyName name).
Definition setAdminMail (mail : string) : M Cluster unit := modify (put_k_adminMail mail).
Definition setFirewall (b : bool) : M Cluster unit := modify (put_k_firewall b).
Definition setSELinux (m : SELinuxMode.t) : M Cluster unit := modify (put_k_selinux m).
Definition setTimezone (tz : string) : M Cluster unit :=
  zoom k_timezone put_k_timezone (Timezone.setTimezone tz).
Definition setLocale (locale : string) : M Cluster unit := modify (put_k_locale locale).
Definition setUpdateSystem (b : bool) : M Cluster unit := modify (put_k_updateSystem b).
Definition setProvisioner (p : Provisioner.t) : M Cluster unit := modify (put_k_provisioner p).
Definition setOFED (kind : OFEDKind.t) (version : string) : M Cluster unit :=
  modify (put_k_ofed (Some (mkOFED kind version))).
Definition setEnabledRepositories (l : list string) : M Cluster unit :=
  modify (put_k_enabledRepositories (Some l)).
Definition clearEnabledRepositories : M Cluster unit := modify (put_k_enabledRepositories None).
Definition setEnabledOpenHPCBundles (l : list string) : M Cluster unit :=
  modify (put_k_enabledOpenHPCBundles (Some l)).
Definition clearEnabledOpenHPCBundles : M Cluster unit := modify (put_k_enabledOpenHPCBundles None).
Definition setQueueSystem (kind : QueueKind.t) : M Cluster unit :=
  modify (put_k_queueSystem
    (match kind with
     | QueueKind.None => None
     | QueueKind.SLURM => Some SLURM_make
     | QueueKind.PBS => Some PBS_make
     end)).
Definition setMailSystem (profile : PostfixProfile.t) : M Cluster unit :=
  modify (put_k_mailSystem (Some (Postfix.Postfix_make profile))).

(** A method of the head node. *)
Definition on_headnode {T} (m : M Server T) : M Cluster T :=
  zoom (fun c => h_server (k_headnode c))
       (fun s c => put_k_headnode (mkHeadnode _ s (m_bootTarget (k_headnode c))) c) m.

(** ** Domain name *)

Definition getDomainName (c : Cluster) : string :=
  let fqdn := s_fqdn (h_server (k_headnode c)) in
  sdrop (after (find_char "." fqdn)) fqdn.

Definition setDomainName (domainName : string) : M Cluster unit :=
  c ← gets id;
  on_headnode (setFQDN (s_hostname (h_server (k_headnode c)) +:+ "." +:+ domainName)).

(** ** Disk image *)

Definition clearPendingDiskImageDownload : M Cluster unit :=
  modify (put_k_pendingDiskImageDownloadURL None).

Definition setDiskImage (h : Host) (diskImagePath : string) : M (Cluster * World) unit :=
  let accept :=
    _ ← on_member k_diskImage put_k_diskImage (DiskImage.setPath (h_opts h) diskImagePath);
    on_object clearPendingDiskImageDownload in
  status ← on_machine (ask (path_status h diskImagePath));
  match status with
  | Ok true => accept
  | status =>
      if dryRun (h_opts h) then accept
      else if decide (status = Throw permission_denied) then accept
      else match status with
           | Throw statusError =>
               throw (RuntimeError ("Unable to inspect disk image path " +:+ diskImagePath +:+ ": " +:+
                 what statusError))
           | _ => throw (RuntimeError ("Disk image path " +:+ diskImagePath +:+ " doesn't exist"))
           end
  end.

Definition setPendingDiskImageDownload (h : Host) (diskImagePath downloadURL : string) : M (Cluster * World) unit :=
  _ ← on_member k_diskImage put_k_diskImage (DiskImage.setPath (h_opts h) diskImagePath);
  on_object (modify (put_k_pendingDiskImageDownloadURL (Some downloadURL))).

(** ** Nodes *)

Definition addNode (n : Node) : M Cluster unit := modify (fun c => put_k_nodes (k_nodes c ++ [n]) c).
Definition addNode_full (hostname : string) (os : OS) (cpu : CPU)
    (connections : list Connection.Connection) (bmc : option BMC) : M Cluster unit :=
  n ← lift (Node_full hostname os cpu connections bmc); addNode n.
End cluster.

(** ** Support matrix *)

Definition validateProvisionerSupport (headnodeOS nodeOS : OS) (provisioner : Provisioner.t)
  : outcome unit :=
  _ ← (if decide (provisioner = Provisioner.xCAT) then
         headnodeType ← getPackageType headnodeOS;
         if decide (headnodeType = PackageType.DEB) then
           headnodePlatform ← getPlatform headnodeOS;
           if decide (headnodePlatform <> Platform.ubuntu2404) then
             Throw (RuntimeError "xCAT on DEB head nodes is only implemented for Ubuntu 24.04")
           else
             nodePlatform ← getPlatform nodeOS;
             if decide (nodePlatform <> Platform.ubuntu2404) then
               Throw (RuntimeError ("xCAT on Ubuntu 24.04 head nodes is only " +:+
                 "implemented for Ubuntu 24.04 compute images"))
             else Ok tt
         else Ok tt
       else Ok tt);
  _ ← getPlatform nodeOS;
  Ok tt.

Definition parseOFEDKind (rawKind : string) : option OFEDKind.t :=
  if String.eqb (lower rawKind) "mellanox" then Some OFEDKind.Doca
  else ofStringOpt rawKind Insensitive.

Definition supportedOFEDKinds : list string :=
  toStrings OFEDKind.t ++ ["mellanox (legacy alias for doca)"].

(** ** Properties *)

Lemma getNetwork_loop_spec `{Asio} i l profile :
  match getNetwork_loop i l profile with
  | Ok p => (i <= p)%nat /\ exists n, l !! (p - i)%nat = Some n /\ Network.m_profile n = profile /\
              Forall (fun m => Network.m_profile m <> profile) (take (p - i) l)
  | Throw (RuntimeError _) => Forall (fun m => Network.m_profile m <> profile) l
  | _ => False
  end.
Proof.
  revert i. induction l as [|n l IH]; intros i; cbn [getNetwork_loop]; [constructor|].
  case_decide as Hn.
  - split; [lia|]. exists n. by rewrite Nat.sub_diag.
  - specialize (IH (S i)). destruct (getNetwork_loop (S i) l profile) as [p|[]|]; try done.
    + destruct IH as [Hp (m & Hm & Hmp & Hf)]. split; [lia|]. exists m.
      replace (p - i)%nat with (S (p - S i)) by lia. split; [done|]. split; [done|]. by constructor.
    + by constructor.
Qed.

Lemma getNetwork_loop_app `{Asio} i l added profile p :
  getNetwork_loop i l profile = Ok p -> getNetwork_loop i (l ++ added) profile = Ok p.
Proof.
  revert i. induction l as [|n l IH]; intros i; cbn; [done|]. case_decide; [done|]. apply IH.
Qed.

Lemma getNetwork_loop_message `{Asio} i l profile e :
  getNetwork_loop i l profile = Throw e ->
  e = RuntimeError ("Cannot get any network with the profile " +:+ toString profile).
Proof.
  revert i. induction l as [|n l IH]; intros i; cbn; [by intros [= <-]|]. case_decide; [done|]. apply IH.
Qed.

Lemma k_network_put `{Asio} v (c : Cluster) : k_network (put_k_network v c) = v.
Proof. done. Qed.

(** [getNetwork] gives the first network of the profile, or a
    [runtime_error] naming the profile when there is none.  A network once
    found stays the answer when further networks are added, which is what the
    connections pointing to it rely on. *)
Theorem getNetwork_spec `{Asio} (profile : Network.Profile.t) (c : Cluster) :
  match getNetwork profile c with
  | Ok p =>
      exists n, k_network c !! p = Some n /\ Network.m_profile n = profile /\
        (forall q m, (q < p)%nat -> k_network c !! q = Some m -> Network.m_profile m <> profile) /\
        forall added, getNetwork profile (put_k_network (k_network c ++ added) c) = Ok p
  | Throw e =>
      e = RuntimeError ("Cannot get any network with the profile " +:+ toString profile) /\
      forall n, n ∈ k_network c -> Network.m_profile n <> profile
  | UB => False
  end.
Proof.
  unfold getNetwork. pose proof (getNetwork_loop_spec 0 (k_network c) profile) as Hs.
  destruct (getNetwork_loop 0 (k_network c) profile) as [p|e|] eqn:Hl; [|destruct e; try done|done].
  - destruct Hs as [_ (n & Hn & Hp & Hf)]. rewrite Nat.sub_0_r in *. exists n.
    split; [done|]. split; [done|]. split.
    + intros q m Hq Hm. eapply (Forall_lookup_1 _ _ q m Hf). by rewrite lookup_take_lt.
    + intros added. rewrite k_network_put. by apply getNetwork_loop_app.
  - split; [|by apply Forall_forall]. by apply getNetwork_loop_message in Hl.
Qed.

(** The support matrix, for operating systems that are set up: a
    provisioner is refused exactly for xCAT on an Ubuntu head node unless both
    the head node and the compute image are Ubuntu 24.04; the refusal is a
    [runtime_error], and no platform reaches the unreachable branch. *)
Theorem validateProvisionerSupport_spec (headnodeOS nodeOS : OS) (provisioner : Provisioner.t)
    (distro : Distro.t) (headnodePlatform nodePlatform : Platform.t) :
  m_distro headnodeOS = Some distro -> m_platform headnodeOS = Some headnodePlatform ->
  m_platform nodeOS = Some nodePlatform ->
  let refused := provisioner = Provisioner.xCAT /\ distro = Distro.Ubuntu /\
    ~ (headnodePlatform = Platform.ubuntu2404 /\ nodePlatform = Platform.ubuntu2404) in
  (validateProvisionerSupport headnodeOS nodeOS provisioner = Ok tt <-> ~ refused) /\
  (refused -> exists e, validateProvisionerSupport headnodeOS nodeOS provisioner = Throw (RuntimeError e)).
Proof.
  intros Hd Hh Hn refused. subst refused.
  unfold validateProvisionerSupport, getPackageType, getDistro, getPlatform. rewrite Hd, Hh, Hn.
  destruct provisioner, distro, headnodePlatform, nodePlatform; cbn; split;
    first [naive_solver | split; [done|intros Hr; exfalso; apply Hr; naive_solver] | idtac].
Qed.

(** When [setDiskImage] tries the path: it exists, or its absence is excused. *)
Definition image_accepted (h : Host) (path : string) (w : World) : Prop :=
  path_status h path w = Ok true \/ dryRun (h_opts h) = true \/ path_status h path w = Throw permission_denied.

#[export] Instance image_accepted_dec h path w : Decision (image_accepted h path w).
Proof. unfold image_accepted. apply _. Defined.

(** Setting a path: the machine after it, and what of the image is kept when
    that fails. *)
Definition after_checksum `{GChecksum} (opts : Options) (path : string) (w : World) : World :=
  if DiskImage.needs_checksum opts path then (FileOps.Cache.checksum path w).2 else w.

Lemma setPath_cases `{GChecksum} opts path i w :
  match DiskImage.setPath opts path (i, w) with
  | (Ok _, s) =>
      extension path = ".iso" /\
      s = (DiskImage.mkDiskImage path (DiskImage.toDistroImage (filename path)), after_checksum opts path w)
  | (_, s) =>
      DiskImage.m_path s.1 = DiskImage.m_path i /\
      (extension path <> ".iso" /\ s.2 = w \/
       DiskImage.needs_checksum opts path = true /\ is_ok (FileOps.Cache.checksum path w).1 = false /\
       s.2 = after_checksum opts path w)
  end.
Proof.
  rewrite DiskImage.setPath_spec. unfold after_checksum.
  destruct (String.eqb_spec (extension path) ".iso") as [He|He]; cbn [negb]; [|cbn; auto].
  destruct (DiskImage.needs_checksum opts path); [|done].
  destruct (FileOps.Cache.checksum path w) as [[sum|e|] w']; cbn; auto.
Qed.

(** [setDiskImage] either returns, with an existing (or excused) [.iso]
    path stored, the distribution its name announces, and no pending download;
    or it throws and leaves the path and the pending download as they were,
    because the path was not accepted, has another extension, or is a known
    image whose checksum could not be computed.  All it may do to the machine
    is to cache the checksum of a known image. *)
Theorem setDiskImage_spec `{Asio} `{GChecksum} (h : Host) (path : string) (c : Cluster) (w : World) :
  match setDiskImage h path (c, w) with
  | (Ok _, (c', w')) =>
      image_accepted h path w /\ extension path = ".iso" /\ w' = after_checksum (h_opts h) path w /\
      c' = put_k_pendingDiskImageDownloadURL None
             (put_k_diskImage
                (DiskImage.mkDiskImage path (DiskImage.toDistroImage (filename path))) c)
  | (_, (c', w')) =>
      DiskImage.m_path (k_diskImage c') = DiskImage.m_path (k_diskImage c) /\
      k_pendingDiskImageDownloadURL c' = k_pendingDiskImageDownloadURL c /\
      ((~ image_accepted h path w \/ extension path <> ".iso") /\ w' = w \/
       DiskImage.needs_checksum (h_opts h) path = true /\ is_ok (FileOps.Cache.checksum path w).1 = false /\
       w' = after_checksum (h_opts h) path w)
  end.
Proof.
  set (accept := (_ ← on_member k_diskImage put_k_diskImage (DiskImage.setPath (h_opts h) path);
     on_object clearPendingDiskImageDownload) : M (Cluster * World) unit).
  assert (image_accepted h path w -> setDiskImage h path (c, w) = accept (c, w)) as Haccept.
  { unfold setDiskImage, image_accepted. fold accept. rewrite (M_bind_ok _ _ _ (path_status h path w) (c, w)) by done.
    intros [Hs|[Hd|Hs]].
    - by rewrite Hs.
    - rewrite Hd. by destruct (path_status h path w) as [[]| |].
    - rewrite Hs. destruct (dryRun (h_opts h)); [done|]. by rewrite decide_True. }
  destruct (decide (image_accepted h path w)) as [Ha|Ha].
  - rewrite (Haccept Ha). unfold accept. pose proof (setPath_cases (h_opts h) path (k_diskImage c) w) as Hs.
    unfold on_member, zoom, mbind, M_bind. cbn [fst snd].
    destruct (DiskImage.setPath _ _ _) as [[[]|e|] [i w']]; cbn in *; [by destruct Hs as [He [= -> ->]]|naive_solver..].
  - pose proof Ha as Hno. unfold image_accepted in Hno. unfold setDiskImage. fold accept.
    rewrite (M_bind_ok _ _ _ (path_status h path w) (c, w)) by done.
    destruct (path_status h path w) as [[]|e|] eqn:Hst; [by destruct Hno; auto| | |];
      destruct (dryRun (h_opts h)) eqn:Hdry; try (by destruct Hno; auto);
      rewrite ?decide_False by naive_solver; cbn; auto 6.
Qed.

(** What has to do with the disk image is all they change of the cluster. *)
Section image_only.
Context `{Asio} `{GChecksum} (P : Cluster -> Prop).
Hypothesis P_image : forall i c, P c -> P (put_k_diskImage i c).
Hypothesis P_pending : forall u c, P c -> P (put_k_pendingDiskImageDownloadURL u c).

Lemma maintains_setDiskImage h path : maintains (fun s : Cluster * World => P s.1) (setDiskImage h path).
Proof.
  assert (maintains (fun s : Cluster * World => P s.1)
    (_ ← on_member k_diskImage put_k_diskImage (DiskImage.setPath (h_opts h) path);
     on_object clearPendingDiskImageDownload)) as Haccept.
  { apply maintains_bind; [by apply maintains_on_member|]. intros _. apply maintains_on_object, maintains_modify. auto. }
  unfold setDiskImage. apply maintains_bind; [apply maintains_on_machine|]. intros status. cbv zeta.
  repeat case_match; maintain; done.
Qed.

Lemma maintains_setPendingDiskImageDownload h path url :
  maintains (fun s : Cluster * World => P s.1) (setPendingDiskImageDownload h path url).
Proof.
  unfold setPendingDiskImageDownload. apply maintains_bind; [by apply maintains_on_member|]. intros _.
  apply maintains_on_object, maintains_modify. auto.
Qed.
End image_only.
