(* ===== verification/ClusterFill.v ===== *)
(** * The cluster: filling it from an answer file

    [Cluster::fillData] of [src/models/cluster.cpp], one definition per
    paragraph of the method; setting the disk image is the only one that
    touches the machine.  Networks are built on the side and moved into
    the cluster; what was already assigned when an exception leaves the
    method stays assigned. *)

From stdpp Require Import base strings list.
From Stdlib Require Import ZArith Lia Ascii.
From S2P Require Import Prelude CppString External Enums KeyFile Options World Cluster.
From S2P Require Network Connection Timezone DiskImage Postfix.

Local Open Scope Z_scope.

Section fill.
Context `{Asio} `{BoostText} `{GKeyFile} `{GChecksum}.
Variable h : Host.

(** ** Building the networks *)

Definition fill_managementNetwork (management : AFNetwork) : outcome Network.Network :=
  construct
    (mask ← lift (value (nw_subnet_mask management));
     _ ← Network.setSubnetMask mask;
     _ ← match nw_gateway management with Some g => Network.setGateway g | None => skip end;
     domain ← lift (value (nw_domain_name management));
     _ ← Network.setDomainName domain;
     _ ← match nw_nameservers management with
         | Some ns => Network.setNameservers_string ns
         | None => ns ← lift (Network.fetchNameservers (h_resolver h)); Network.setNameservers ns
         end;
     ip ← lift (value (nw_con_ip_addr management));
     n ← gets id;
     a ← lift (Network.calculateAddress n ip);
     Network.setAddress a)
    (Network.Network_profile_type Network.Profile.Management Network.NetType.Ethernet).

Definition fill_externalNetwork (external : AFNetwork) : outcome Network.Network :=
  construct
    (_ ← match nw_subnet_mask external with
         | Some mask => Network.setSubnetMask mask
         | None =>
             interface ← lift (value (nw_con_interface external));
             mask ← lift (Network.fetchSubnetMask (h_ifs h) interface);
             Network.setSubnetMask mask
         end;
     _ ← match nw_gateway external with Some g => Network.setGateway g | None => skip end;
     (* domain_name->empty() *)
     domain ← lift (deref (nw_domain_name external));
     _ ← (if negb (empty domain) then Network.setDomainName domain
          else domain ← lift (Network.fetchDomainName (h_domainname h)); Network.setDomainName domain);
     match nw_nameservers external with
     | Some ns => Network.setNameservers_string ns
     | None => ns ← lift (Network.fetchNameservers (h_resolver h)); Network.setNameservers ns
     end)
    (Network.Network_profile_type Network.Profile.External Network.NetType.Ethernet).

(** [managementNetwork] is the network [getNetwork(Management)] refers to;
    its [fetchSubnetMask] looks at the interfaces only. *)
Definition fill_serviceNetwork (interface : string) (service : AFNetwork) : M Cluster Network.Network :=
  mask ← match nw_subnet_mask service with
         | Some mask => mret mask
         | None =>
             c ← gets id;
             _ ← lift (getNetwork Network.Profile.Management c);
             lift (Network.fetchSubnetMask (h_ifs h) interface)
         end;
  lift (construct
    (_ ← Network.setSubnetMask mask;
     _ ← Network.setGateway
           (match nw_gateway service with
            | Some g => g
            | None => Network.fetchGateway (h_routes h) (h_nametoindex h) (h_files h) interface
            end);
     _ ← match nw_domain_name service with
         | Some (String _ _ as domain) => Network.setDomainName domain
         | _ => domain ← lift (Network.fetchDomainName (h_domainname h)); Network.setDomainName domain
         end;
     match nw_nameservers service with
     | Some ns => Network.setNameservers_string ns
     | None => ns ← lift (Network.fetchNameservers (h_resolver h)); Network.setNameservers ns
     end)
    (Network.Network_profile_type Network.Profile.Service Network.NetType.Ethernet)).

Definition fill_applicationNetwork (application : AFNetwork) : outcome Network.Network :=
  construct
    (_ ← match nw_subnet_mask application with Some mask => Network.setSubnetMask mask | None => skip end;
     _ ← match nw_gateway application with Some g => Network.setGateway g | None => skip end;
     _ ← match nw_domain_name application with Some d => Network.setDomainName d | None => skip end;
     match nw_nameservers application with Some ns => Network.setNameservers_string ns | None => skip end)
    (Network.Network_profile_type Network.Profile.Application Network.NetType.Ethernet).

(** ** Connections of the head node *)

(** [Connection(&getNetwork(profile))] *)
Definition connection_to (profile : Network.Profile.t) : M Cluster Connection.Connection :=
  c ← gets id;
  p ← lift (getNetwork profile c);
  lift (Connection.Connection_network (networks c) p).

(** A method of a local connection. *)
Definition on_connection (m : M Connection.Connection unit) (c : Connection.Connection)
  : outcome Connection.Connection := construct m c.

Definition set_mac (network : AFNetwork) (c : Connection.Connection) : outcome Connection.Connection :=
  mac ← deref (nw_con_mac_addr network);
  if negb (empty mac) then on_connection (Connection.setMAC mac) c else Ok c.

(** [getNetwork(p).setAddress(getNetwork(p).calculateAddress(ip))] *)
Definition set_network_address (profile : Network.Profile.t) (ip : address) : M Cluster unit :=
  c ← gets id;
  p ← lift (getNetwork profile c);
  a ← lift (Network.calculateAddress (networks c p) ip);
  on_network p (Network.setAddress a).

Definition fill_managementConnection (management : AFNetwork) : M Cluster unit :=
  connection ← connection_to Network.Profile.Management;
  interface ← lift (value (nw_con_interface management));
  connection ← lift (on_connection (Connection.setInterface (h_ifs h) interface) connection);
  ip ← lift (value (nw_con_ip_addr management));
  connection ← lift (on_connection (Connection.setAddress ip) connection);
  connection ← lift (set_mac management connection);
  on_headnode (addConnection connection).

Definition fill_externalConnection (external : AFNetwork) : M Cluster unit :=
  connection ← connection_to Network.Profile.External;
  interface ← lift (value (nw_con_interface external));
  connection ← lift (on_connection (Connection.setInterface (h_ifs h) interface) connection);
  ip ← match nw_con_ip_addr external with
       | Some ip => mret ip
       | None => lift (Connection.fetchAddress (h_ifs h) interface)
       end;
  connection ← lift (on_connection (Connection.setAddress ip) connection);
  _ ← set_network_address Network.Profile.External ip;
  connection ← lift (set_mac external connection);
  on_headnode (addConnection connection).

(** The service and application networks: MAC, interface, address. *)
Definition fill_optionalConnection (profile : Network.Profile.t) (interface : string)
    (network : AFNetwork) : M Cluster unit :=
  connection ← connection_to profile;
  connection ← lift (set_mac network connection);
  connection ← lift (on_connection (Connection.setInterface (h_ifs h) interface) connection);
  ip ← lift (value (nw_con_ip_addr network));
  connection ← lift (on_connection (Connection.setAddress ip) connection);
  _ ← set_network_address profile ip;
  on_headnode (addConnection connection).

Definition fill_service (service : AFNetwork) : M Cluster unit :=
  match nw_con_interface service with
  | None => skip
  | Some interface =>
      serviceNetwork ← fill_serviceNetwork interface service;
      _ ← addNetwork serviceNetwork;
      fill_optionalConnection Network.Profile.Service interface service
  end.

Definition fill_application (application : AFNetwork) : M Cluster unit :=
  match nw_con_interface application with
  | None => skip
  | Some interface =>
      applicationNetwork ← lift (fill_applicationNetwork application);
      _ ← addNetwork applicationNetwork;
      fill_optionalConnection Network.Profile.Application interface application
  end.

(** ** System *)

Definition fill_nodeOS (system : AFSystem) : outcome OS :=
  distro ← deref (sy_distro system);
  nodeOS ← OS_host (h_os h);
  construct
    (_ ← setArch Arch.x86_64;
     _ ← setFamily Family.Linux;
     _ ← setDistro distro;
     _ ← match sy_kernel system with Some k => setKernel k | None => skip end;
     setVersion (sy_version system))
    nodeOS.

Definition fill_names (af : AnswerFile) : M Cluster unit :=
  _ ← setName (in_cluster_name (information af));
  _ ← setCompanyName (in_company_name (information af));
  _ ← setAdminMail (in_administrator_email (information af));
  _ ← setTimezone (tm_timezone (time af));
  _ ← setLocale (tm_locale (time af));
  _ ← on_headnode (setHostname (hn_hostname (hostname af)));
  _ ← setDomainName (hn_domain_name (hostname af));
  c ← gets id;
  on_headnode (setFQDN (s_hostname (h_server (k_headnode c)) +:+ "." +:+ getDomainName c)).

(** The arguments of the message are in the order of the code. *)
Definition fill_ofed (o : AFOFED) : M Cluster unit :=
  if of_enabled o then
    match parseOFEDKind (of_kind o) with
    | None =>
        throw (RuntimeError ("Invalid OFED kind, expected one of " +:+ answerfile (h_opts h) +:+
          ", found " +:+ concat_sep ", " supportedOFEDKinds +:+ ". Edit the anwerfile " +:+ of_kind o +:+
          " [ofed] section and try again."))
    | Some kind => version ← lift (value (of_version o)); setOFED kind version
    end
  else setOFED OFEDKind.Inbox "latest".

Definition fill_queue (pbs : AFPBS) (slurm : AFSlurm) : M Cluster unit :=
  if pb_enabled pbs then
    _ ← setQueueSystem QueueKind.PBS;
    modify (fun c => put_k_queueSystem (setExecutionPlace (pb_execution_place pbs) <$> k_queueSystem c) c)
  else
    _ ← setQueueSystem QueueKind.SLURM;
    modify (fun c => put_k_queueSystem
      (setDefaultQueue (if sl_enabled slurm then sl_partition_name slurm else "execution")
         <$> k_queueSystem c) c).

Definition select_provisioner (system : AFSystem) : outcome Provisioner.t :=
  let provisioner := lower (sy_provisioner system) in
  if String.eqb provisioner "xcat" then Ok Provisioner.xCAT
  else if String.eqb provisioner "confluent" then Ok Provisioner.Confluent
  else Throw (RuntimeError ("Invalid provisioner " +:+ provisioner)).

(** ** Nodes *)

Definition convertOrError (nodename : string) (value field_name : string) : outcome Z :=
  try_catch (stoul10 value) is_invalid_argument (fun _ =>
    Throw (AnswerfileValidationException ("Conversion error on node " +:+ nodename +:+ ": field " +:+
      field_name +:+ " is not a number (value is " +:+ value +:+ ")"))).

Definition requireBMCField (hostname : string) (value : option string) (fieldName : string) : outcome string :=
  match value with
  | Some (String _ _ as v) => Ok v
  | _ => Throw (InvalidArgument ("Node " +:+ hostname +:+ " has a BMC address but is missing " +:+ fieldName))
  end.

Definition fill_cpu (nodename : string) (node : AFNode) : outcome CPU :=
  sockets ← value (nd_sockets node);
  sockets ← convertOrError nodename sockets "sockets";
  cores ← value (nd_cores_per_socket node);
  cores ← convertOrError nodename cores "cores_per_socket";
  threads ← value (nd_threads_per_core node);
  threads ← convertOrError nodename threads "threads_per_core";
  Ok (setThreadsPerCore threads (setCoresPerSocket cores (setSockets sockets CPU_default))).

Definition fill_bmc (nodename : string) (node : AFNode) : outcome (option BMC) :=
  match nd_bmc_address node with
  | Some (String _ _) =>
      addr ← requireBMCField nodename (nd_bmc_address node) "bmc_address";
      user ← requireBMCField nodename (nd_bmc_username node) "bmc_username";
      pass ← requireBMCField nodename (nd_bmc_password node) "bmc_password";
      port ← requireBMCField nodename (nd_bmc_serialport node) "bmc_serialport";
      port ← convertOrError nodename port "bmc_serialport";
      speed ← requireBMCField nodename (nd_bmc_serialspeed node) "bmc_serialspeed";
      speed ← convertOrError nodename speed "bmc_serialspeed";
      Ok (Some (mkBMC addr user pass port speed (b_kind BMC_default)))
  | _ => Ok None
  end.

(** A method of the base class. *)
Definition on_server {T} (m : M Server T) : M Node T := zoom n_server put_n_server m.

Definition checked_mac (nodename : string) (node : AFNode) : outcome string :=
  match nd_mac_address node with
  | Some mac =>
      match Connection.validateMAC mac with
      | inl err =>
          Throw (AnswerfileValidationException ("Error decoding MAC address (read " +:+ mac +:+
            ") of node " +:+ nodename +:+ ": " +:+ err))
      | inr _ => Ok mac
      end
  | None => Throw (AnswerfileValidationException ("Missing MAC address on node " +:+ nodename))
  end.

(** The body of the loop between the construction of the node and [addNode];
    [connection] is the one made first. *)
Definition fill_node_body (nodeOS : OS) (connection : Connection.Connection) (node : AFNode)
  : M Node unit :=
  nodename ← lift (value (nd_hostname node));
  _ ← on_server (setHostname nodename);
  start_ip ← lift (value (nd_start_ip node));
  _ ← modify (setNodeStartIp (Some start_ip));
  mac ← lift (checked_mac nodename node);
  _ ← modify (setMACAddress mac);
  root_password ← lift (value (nd_root_password node));
  _ ← modify (setNodeRootPassword (Some root_password));
  newNodeCPU ← lift (fill_cpu nodename node);
  newNodeBMC ← lift (fill_bmc nodename node);
  _ ← on_server (setCPU newNodeCPU);
  _ ← match newNodeBMC with Some bmc => on_server (setBMC bmc) | None => skip end;
  _ ← on_server (setOS nodeOS);
  newNode ← gets id;
  connection ← lift (on_connection (Connection.setMAC (m_mac_address newNode)) connection);
  ip ← lift (value (m_node_start_ip newNode));
  connection ← lift (on_connection (Connection.setAddress ip) connection);
  on_server (setConnection [connection]).

Definition fill_node (nodeOS : OS) (connection : Connection.Connection) (node : AFNode) : outcome Node :=
  newNode ← Node_default (h_os h);
  construct (fill_node_body nodeOS connection node) newNode.

Definition fill_nodes (nodeOS : OS) (nodes : list AFNode) : M Cluster unit :=
  for_each nodes (fun node =>
    connection ← connection_to Network.Profile.Management;
    newNode ← lift (fill_node nodeOS connection node);
    addNode newNode).

(** ** Mail *)

Definition on_mail (f : Postfix.Postfix -> Postfix.Postfix) : M Cluster unit :=
  modify (fun c => put_k_mailSystem (f <$> k_mailSystem c) c).

Definition fill_mail (postfix : AFPostfix) : M Cluster unit :=
  if negb (pf_enabled postfix) then skip
  else
    profile ← lift (deref (pf_profile postfix));
    _ ← setMailSystem profile;
    c ← gets id;
    _ ← on_mail (Postfix.setHostname (Some (s_hostname (h_server (k_headnode c)))));
    _ ← on_mail (Postfix.setDomain (Some (getDomainName c)));
    _ ← on_mail (Postfix.setDestination (Some (pf_destination postfix)));
    (* the domain was just set *)
    _ ← match profile with
        | PostfixProfile.Local => skip
        | PostfixProfile.Relay =>
            smtp ← lift (value (pf_smtp postfix));
            _ ← on_mail (Postfix.setSMTPServer (Some (sm_server smtp)));
            on_mail (Postfix.setPort (Some (sm_port smtp)))
        | PostfixProfile.SASL =>
            smtp ← lift (value (pf_smtp postfix));
            _ ← on_mail (Postfix.setSMTPServer (Some (sm_server smtp)));
            _ ← on_mail (Postfix.setPort (Some (sm_port smtp)));
            sasl ← lift (value (sm_sasl smtp));
            _ ← on_mail (Postfix.setUsername (Some (sa_username sasl)));
            on_mail (Postfix.setPassword (Some (sa_password sasl)))
        end;
    _ ← on_mail (Postfix.setCertFile (Some (pf_cert_file postfix)));
    on_mail (Postfix.setKeyFile (Some (pf_key_file postfix))).

(** ** The leftovers *)

Definition left (f : Leftovers -> Leftovers) : M Cluster unit := modify (put_left f).

Definition fill_leftovers (generic_opt : option AFNode) (slurm : AFSlurm) : M Cluster unit :=
  let number (field : AFNode -> option string) (put : Z -> Leftovers -> Leftovers) : M Cluster unit :=
    generic ← lift (deref generic_opt);
    text ← lift (value (field generic));
    n ← lift (stoul10 text);
    left (put n) in
  let number_or (field : AFNode -> option string) (put : Z -> Leftovers -> Leftovers) : M Cluster unit :=
    generic ← lift (deref generic_opt);
    n ← lift (stoul10 (default "0" (field generic)));
    left (put n) in
  generic ← lift (deref generic_opt);
  prefix ← lift (value (nd_prefix generic));
  _ ← left (put_nodePrefix prefix);
  _ ← number nd_padding put_nodePadding;
  start_ip ← lift (value (nd_start_ip generic));
  _ ← left (put_nodeStartIP start_ip);
  root_password ← lift (value (nd_root_password generic));
  _ ← left (put_nodeRootPassword root_password);
  _ ← number nd_sockets put_nodeSockets;
  _ ← number nd_cores_per_socket put_nodeCoresPerSocket;
  _ ← number nd_threads_per_core put_nodeThreadsPerCore;
  _ ← number nd_cpus_per_node put_nodeCPUsPerNode;
  _ ← number nd_real_memory put_nodeRealMemory;
  _ ← left (put_nodeBMCUsername (default "" (nd_bmc_username generic)));
  _ ← left (put_nodeBMCPassword (default "" (nd_bmc_password generic)));
  _ ← number_or nd_bmc_serialport put_nodeBMCSerialPort;
  _ ← number_or nd_bmc_serialspeed put_nodeBMCSerialSpeed;
  if sl_enabled slurm then
    _ ← left (put_slurmMariaDBRootPassword (sl_mariadb_root_password slurm));
    _ ← left (put_slurmDBPassword (sl_slurmdb_password slurm));
    left (put_slurmStoragePassword (sl_storage_password slurm))
  else skip.

(** ** The method

    What follows the disk image. *)

Definition fillData_rest (managementNetwork externalNetwork : Network.Network) (af : AnswerFile) : M Cluster unit :=
  nodeOS ← lift (fill_nodeOS (system af));
  _ ← fill_names af;
  _ ← fill_ofed (ofed af);
  _ ← match rp_enabled (repositories af) with
      | Some l => setEnabledRepositories l
      | None => clearEnabledRepositories
      end;
  _ ← match oh_enabled (ohpc af) with
      | Some l => setEnabledOpenHPCBundles l
      | None => clearEnabledOpenHPCBundles
      end;
  _ ← fill_queue (pbs af) (slurm af);
  _ ← addNetwork managementNetwork;
  _ ← fill_managementConnection (management af);
  _ ← addNetwork externalNetwork;
  _ ← fill_externalConnection (external af);
  _ ← fill_service (service af);
  _ ← fill_application (application af);
  _ ← setUpdateSystem true;
  selectedProvisioner ← lift (select_provisioner (system af));
  c ← gets id;
  _ ← lift (validateProvisionerSupport (s_os (h_server (k_headnode c))) nodeOS selectedProvisioner);
  _ ← setProvisioner selectedProvisioner;
  _ ← setComputeNodeOS nodeOS;
  _ ← fill_nodes nodeOS (ns_nodes (nodes af));
  _ ← fill_mail (postfix af);
  fill_leftovers (ns_generic (nodes af)) (slurm af).

(** The whole; setting the disk image is all it does on the machine. *)
Definition fillData (af : AnswerFile) : M (Cluster * World) unit :=
  managementNetwork ← lift (fill_managementNetwork (management af));
  externalNetwork ← lift (fill_externalNetwork (external af));
  _ ← setDiskImage h (sy_disk_image (system af));
  on_object (fillData_rest managementNetwork externalNetwork af).
End fill.
