(* ===== verification/RepoManager.v ===== *)
(** * The repository manager

    From [src/services/repos.cpp]: [RPMRepoManager], which keeps the loaded
    [.repo] files and switches repositories on and off in them, [RepoManager],
    the interface of the rest of the program, and setting up the default
    repositories. *)

From stdpp Require Import base strings list gmap.
From Stdlib Require Import ZArith Lia Ascii.
From S2P Require Import Prelude CppString External Enums KeyFile Options Os World FileOps Runner StdMap.
From S2P Require Import RepoData RepoChoice RepoConfig.
From S2P Require Cluster ClusterData Server OsService.

Local Open Scope Z_scope.

(** ** State

    The file objects the shared pointers lead to, by number, and the index
    from repository ids to them: several ids share a file. *)
Record RPMRepoManager := mkManager { m_objects : list RPMRepositoryFile; m_filesIdx : gmap string nat }.

Definition RPMRepoManager_default : RPMRepoManager := mkManager [] ∅.

Definition put_objects x (m : RPMRepoManager) : RPMRepoManager := mkManager x (m_filesIdx m).
Definition put_index x (m : RPMRepoManager) : RPMRepoManager := mkManager (m_objects m) x.

(** The machine and the manager. *)
Record Session := mkSession { s_world : World; s_rpm : RPMRepoManager }.

Definition put_world w (s : Session) : Session := mkSession w (s_rpm s).
Definition put_rpm m (s : Session) : Session := mkSession (s_world s) m.

Definition io {A} (m : M World A) : M Session A := zoom s_world put_world m.
Definition on_rpm {A} (m : M RPMRepoManager A) : M Session A := zoom s_rpm put_rpm m.

Definition basedir : string := "/etc/yum.repos.d/".

(** [*pointer]: pointers lead to objects. *)
Definition object (p : nat) : M Session RPMRepositoryFile := fun s => (deref (m_objects (s_rpm s) !! p), s).

Definition put_object (p : nat) (f : RPMRepositoryFile) : M Session unit :=
  on_rpm (modify (fun m => put_objects (<[p := f]> (m_objects m)) m)).

(** [std::make_shared<RPMRepositoryFile>] *)
Definition new_object (f : RPMRepositoryFile) : M Session nat := fun s =>
  (Ok (length (m_objects (s_rpm s))), put_rpm (put_objects (m_objects (s_rpm s) ++ [f]) (s_rpm s)) s).

Section manager.
Context `{Machine} `{GKeyFile} `{BoostText} (opts : Options).

(** ** [RPMRepoManager] *)

Definition install (source : string) : M Session unit :=
  let dest := path_append basedir (filename source) in
  _ ← (if path_eqb source dest then skip else io (copyFile opts source dest));
  if dryRun opts then skip
  else
    repofile ← io (RPMRepositoryFile_load dest);
    p ← new_object repofile;
    for_each (in_order (rf_repos repofile)) (fun kv =>
      on_rpm (modify (fun m => put_index (emplace kv.1 p (m_filesIdx m)) m))).

Definition ends_with (suffix s : string) : bool :=
  (String.length suffix <=? String.length s)%nat &&
  String.eqb (sdrop (String.length s - String.length suffix) s) suffix.

Definition install_entries (l : list string) : M Session unit :=
  for_each l (fun fil => if ends_with ".repo" (filename fil) then install fil else skip).

Definition loadDir (path : string) : M Session unit :=
  if dryRun opts then skip
  else
    l ← io (directory_entries path);
    install_entries l.
Definition loadBaseDir : M Session unit := loadDir basedir.

(** [m_filesIdx.at(id)] *)
Definition index_at (repo : string) : M Session nat := fun s => (at_key (m_filesIdx (s_rpm s)) repo, s).

Definition no_such_repository (m : RPMRepoManager) (repoName : string) : exn :=
  RuntimeError ("Cannot find repository " +:+ repoName +:+ ", no such repository loaded, repositories: available: " +:+
    concat_sep "," (in_order (m_filesIdx m)).*1).

Definition repo (repoName : string) : M Session RPMRepository :=
  try_catchM
    (p ← index_at repoName;
     repoFile ← object p;
     lift (file_repo repoFile repoName))
    is_out_of_range (fun _ s => (Throw (no_such_repository (s_rpm s) repoName), s)).

Definition repoFile (repoFileName : string) : M World (list RPMRepository) :=
  f ← RPMRepositoryFile_load (basedir +:+ "/" +:+ repoFileName);
  mret (in_order (rf_repos f)).*2.

(** [repofile->repo(repo)->enabled(value)] *)
Definition switch (p : nat) (repo : string) (value : bool) : M Session unit :=
  repofile ← object p;
  r ← lift (file_repo repofile repo);
  put_object p (put_repos (<[repo := put_enabled value r]> (rf_repos repofile)) repofile).

Definition save_object (p : nat) : M Session unit :=
  repofile ← object p;
  io (save_repositories repofile).

Definition enable_one (repo : string) (value : bool) : M Session unit :=
  p ← index_at repo;
  _ ← switch p repo value;
  save_object p.

Definition unknown_repository (repo : string) : exn :=
  RuntimeError ("Trying to enable unknown repository " +:+ repo +:+
    ", failed because the repository was not found.").

(** The set of files to save, in the order they were entered. *)
Fixpoint enable_loop (repos : list string) (value : bool) (toSave : list nat) : M Session (list nat) :=
  match repos with
  | [] => mret toSave
  | repo :: repos =>
      toSave ← try_catchM
        (p ← index_at repo;
         _ ← switch p repo value;
         mret (if decide (p ∈ toSave) then toSave else toSave ++ [p]))
        is_out_of_range (fun _ => throw (unknown_repository repo));
      enable_loop repos value toSave
  end.

(** The elements of an unordered set, in the order they are visited. *)
Definition visited {A} (l : list A) : list A := omap (fun i => l !! i) (visit (seq 0 (length l))).

Definition enable_many (repos : list string) (value : bool) : M Session unit :=
  toSave ← enable_loop repos value [];
  for_each (visited toSave) save_object.

(** The repositories of the files behind the index; of those with the same id
    the first one entered. *)
Definition enter_repository (output : list RPMRepository) (r : RPMRepository) : list RPMRepository :=
  if existsb (same_repository r) output then output else output ++ [r].

Definition loaded_files (m : RPMRepoManager) : list RPMRepositoryFile :=
  omap (fun kv => m_objects m !! kv.2) (in_order (m_filesIdx m)).

Definition repos (m : RPMRepoManager) : list RPMRepository :=
  visited (foldl enter_repository [] (loaded_files m ≫= fun f => (in_order (rf_repos f)).*2)).

(** ** [RepoManager], for the operating system of the head node *)

Section interface.
Context (osinfo : OS).

Definition not_implemented : exn := LogicError "Not implemented".

Definition on_rpm_system {A} (m : M Session A) : M Session A :=
  t ← lift (getPackageType osinfo);
  match t with PackageType.RPM => m | PackageType.DEB => throw not_implemented end.

Definition manager_enable (repoid : string) : M Session unit :=
  if dryRun opts then skip else on_rpm_system (enable_one repoid true).
Definition manager_enable_all (repos : list string) : M Session unit :=
  if dryRun opts then skip else on_rpm_system (enable_many repos true).
Definition manager_disable (repoid : string) : M Session unit :=
  if dryRun opts then skip
  else try_catchM (on_rpm_system (enable_one repoid false)) is_out_of_range (fun _ => skip).
Definition manager_disable_all (repos : list string) : M Session unit :=
  if dryRun opts then skip
  else try_catchM (on_rpm_system (enable_many repos false)) is_out_of_range (fun _ => skip).
Definition manager_install (path : string) : M Session unit := on_rpm_system (install path).
Definition manager_install_all (paths : list string) : M Session unit := for_each paths manager_install.
Definition listRepos : M Session (list RPMRepository) := on_rpm_system (gets (fun s => repos (s_rpm s))).
Definition manager_repo (name : string) : M Session RPMRepository := on_rpm_system (repo name).
Definition manager_repoFile (name : string) : M Session (list RPMRepository) := on_rpm_system (io (repoFile name)).
End interface.
End manager.

(** ** Ubuntu *)

Definition ubuntuOpenHpcRepositoryUrl (osinfo : OS) : outcome string :=
  platform ← getPlatform osinfo;
  match platform with
  | Platform.ubuntu2404 => Ok "https://repos.versatushpc.com.br/openhpc/versatushpc-4/Ubuntu_24.04/"
  | _ =>
      version ← getVersion osinfo;
      Throw (RuntimeError ("Unsupported Ubuntu OpenHPC repository baseline for " +:+ version))
  end.

Definition ubuntuOpenHpcRepositoryContents (osinfo : OS) : outcome string :=
  url ← ubuntuOpenHpcRepositoryUrl osinfo;
  Ok ("deb [trusted=yes] " +:+ url +:+ " ./" +:+ ScriptBuilder.newline).

Definition ubuntuXcatRepositoryContents (osinfo : OS) : outcome string :=
  platform ← getPlatform osinfo;
  if decide (platform <> Platform.ubuntu2404) then
    version ← getVersion osinfo;
    Throw (RuntimeError ("Unsupported Ubuntu xCAT repository baseline for " +:+ version))
  else
    Ok ("deb [trusted=yes] https://xcat.org/files/xcat/repos/apt/latest/xcat-core jammy main" +:+
        ScriptBuilder.newline +:+
        "deb [trusted=yes] https://xcat.org/files/xcat/repos/apt/latest/xcat-dep focal main" +:+
        ScriptBuilder.newline).

Definition writeUbuntuOpenHpcRepositoryFile (osinfo : OS) (path : string) : M World unit :=
  text ← lift (ubuntuOpenHpcRepositoryContents osinfo); Files.write path text.
Definition writeUbuntuXcatRepositoryFile (osinfo : OS) (path : string) : M World unit :=
  text ← lift (ubuntuXcatRepositoryContents osinfo); Files.write path text.

Definition apt_update : string := "DEBIAN_FRONTEND=noninteractive apt update".

Definition initializeDebianHeadnodeRepositories `{Machine} (opts : Options) (provisioner : ClusterData.Provisioner.t)
    (osinfo : OS) : M World unit :=
  distro ← lift (getDistro osinfo);
  if decide (distro <> Distro.Ubuntu) then
    throw (LogicError "Debian repository initialization is only implemented for Ubuntu")
  else
    _ ← shell_cmd opts apt_update;
    _ ← shell_cmd opts "DEBIAN_FRONTEND=noninteractive apt install -y ca-certificates";
    _ ← writeUbuntuOpenHpcRepositoryFile osinfo "/etc/apt/sources.list.d/opencattus-openhpc.list";
    _ ← (if decide (provisioner = ClusterData.Provisioner.xCAT)
         then writeUbuntuXcatRepositoryFile osinfo "/etc/apt/sources.list.d/opencattus-xcat.list" else skip);
    shell_cmd opts apt_update.

(** ** Setting up the default repositories *)

Section initialize.
Context `{Machine} `{GKeyFile} `{BoostText} `{Fmt} (opts : Options) (runner : IRunner).
(** The embedded settings, and where the program is. *)
Context (entries : list (string * string)) (place : Place).

(** [RepoGenerator::generate], which loads the settings *)
Definition generate (osinfo : OS) (vars : RepoConfigVars) : M World Z :=
  basePath ← repoConfigBasePath place;
  conffiles ← load entries (OsService.shouldUseVault opts runner) basePath osinfo vars;
  generate_files opts (DefaultMirrorExistenceChecker opts runner) (DefaultMirrorExistenceChecker opts runner)
    conffiles basedir.

(** [RPMRepositoryGenerator::generate] *)
Definition backupPath : string := "/opt/opencattus/backup/etc/yum.repos.d/".

Definition generate_repositories (computeOS : OS) (vars : RepoConfigVars) : M World unit :=
  _ ← backupFilesByExtension opts backupPath "/etc/yum.repos.d" ".repo";
  _ ← generate computeOS vars;
  skip.

Definition keepcache : string :=
  "grep -q '^keepcache=' /etc/dnf/dnf.conf || dnf config-manager --save --setopt=keepcache=True".

Definition initializeDefaultRepositories `{Asio} (cluster : ClusterData.Cluster) : M Session unit :=
  if dryRun opts then skip
  else
    let computeOS := Cluster.getComputeNodeOS cluster in
    let headnodeOS := Server.s_os (Server.h_server (ClusterData.k_headnode cluster)) in
    osinfo ← lift (selectRepositoryBootstrapOS headnodeOS computeOS);
    let ofedVersion :=
      match ClusterData.k_ofed cluster with Some ofed => ClusterData.o_version ofed | None => "latest" end in
    vars ← lift (buildRepoConfigVars opts osinfo ofedVersion);
    repositories ← io (defaultRepositoriesFor opts entries place osinfo ofedVersion
      (ClusterData.k_enabledRepositories cluster) (ClusterData.k_enabledOpenHPCBundles cluster));
    let managedRepoIds := sel_id <$> repositories in
    let enabledRepoIds := sel_id <$> filter (fun r => sel_enabled r = true) repositories in
    t ← lift (getPackageType osinfo);
    match t with
    | PackageType.RPM =>
        _ ← io (generate_repositories computeOS vars);
        _ ← loadBaseDir opts;
        _ ← (if decide (managedRepoIds = []) then skip else enable_many managedRepoIds false);
        _ ← (if decide (enabledRepoIds = []) then skip else enable_many enabledRepoIds true);
        io (shell_cmd opts keepcache)
    | PackageType.DEB =>
        io (initializeDebianHeadnodeRepositories opts (ClusterData.k_provisioner cluster) osinfo)
    end.
End initialize.
