(* ===== verification/RepoManagerSpec.v ===== *)
(** * What the repository manager keeps and does

    The index never leads astray, whatever is loaded and switched and whatever
    fails; switching repositories on and off, in memory and on disk; and a
    head node and compute nodes of different families. *)

From stdpp Require Import base strings list gmap relations.
From Stdlib Require Import ZArith Lia Ascii.
From S2P Require Import Prelude CppString External Enums KeyFile Options Os World WorldFacts FileOps Runner StdMap.
From S2P Require Import RepoData RepoFileSpec RepoChoice RepoConfig RepoManager.
From S2P Require Cluster ClusterData Server OsService.

(** ** Methods without undefined behaviour *)

Definition defined {S A} (m : M S A) : Prop := forall s, (m s).1 <> UB.

Lemma defined_wp {S A} (m : M S A) s : defined m -> wp m (fun _ _ => True) (fun _ _ => True) s.
Proof. intros Hm. specialize (Hm s). unfold wp. by destruct (m s) as [[] ?]. Qed.

Lemma defined_bind {S A B} (m : M S A) (f : A -> M S B) : defined m -> (forall a, defined (f a)) -> defined (a ← m; f a).
Proof.
  intros Hm Hf s. specialize (Hm s). unfold mbind, M_bind. destruct (m s) as [[a| |] s']; [apply Hf|done|done].
Qed.

Lemma defined_lift {S A} (m : outcome A) : m <> UB -> defined (S := S) (lift m).
Proof. intros Hm s. exact Hm. Qed.

Lemma defined_for_each {S A} (l : list A) (body : A -> M S unit) : (forall x, defined (body x)) -> defined (for_each l body).
Proof. intros Hb. induction l as [|x l IH]; [by intros s|]. by apply defined_bind. Qed.

(** [io m] keeps the manager. *)
Lemma wp_io {A} (m : M World A) (Q : A -> Session -> Prop) (E : exn -> Session -> Prop) s :
  wp m (fun a w => Q a (put_world w s)) (fun e w => E e (put_world w s)) (s_world s) -> wp (io m) Q E s.
Proof. unfold wp, io, zoom. by destruct (m (s_world s)) as [[] ?]. Qed.

Lemma wp_io_defined {A} (m : M World A) (Q : A -> Session -> Prop) (E : exn -> Session -> Prop) s :
  defined m -> (forall a w, Q a (put_world w s)) -> (forall e w, E e (put_world w s)) -> wp (io m) Q E s.
Proof.
  intros Hm HQ HE. apply wp_io. eapply wp_mono; [by apply defined_wp| |]; auto.
Qed.

Section keyfiles.
Context `{GKeyFile} `{BoostText}.

Lemma glib_defined {A} (r : option A) : glib r <> UB.
Proof. by destruct r. Qed.

Lemma getString_defined k g key : getString k g key <> UB.
Proof. unfold getString. by destruct (gkf_get_string _ _ _). Qed.

Lemma getStringOpt_defined k g key : getStringOpt k g key <> UB.
Proof.
  unfold getStringOpt. destruct (gkf_has_key _ _ _) as [[]|]; [|done..].
  by destruct (gkf_get_string _ _ _).
Qed.

Lemma bind_defined {A B} (m : outcome A) (f : A -> outcome B) : m <> UB -> (forall a, f a <> UB) -> (a ← m; f a) <> UB.
Proof. intros Hm Hf. by destruct m; [apply Hf| |]. Qed.

Lemma parseRepoBoolean_defined k g key d : parseRepoBoolean k g key d <> UB.
Proof. apply bind_defined; [apply getStringOpt_defined|]. intros [v|]; [|done]. cbn. by repeat case_match. Qed.

(** What is made of a group: a repository of its name, or an exception. *)
Lemma parse_repository_owp k path g :
  owp (parse_repository k path g) (fun r => r_id r = g /\ r_group r = g) (fun _ => True).
Proof.
  unfold parse_repository.
  repeat (apply owp_bind;
    match goal with |- owp ?m _ _ =>
      assert (m <> UB) by auto using getString_defined, getStringOpt_defined, parseRepoBoolean_defined;
      destruct m; [cbn|done..] end;
    try (match goal with |- owp (if ?b then _ else _) _ _ => destruct b; [done|] end)).
  done.
Qed.

Lemma KeyFile_make_defined fs path b : KeyFile_make fs path b <> UB.
Proof.
  unfold KeyFile_make, load_from_file. destruct (_ && _); [|done]. destruct (fs path); [|done].
  by destruct (gkf_load_from_data _).
Qed.

Lemma open_keyfile_defined path : defined (open_keyfile path).
Proof.
  intros w. unfold open_keyfile. destruct (is_directory w path); [done|]. apply KeyFile_make_defined.
Qed.

Lemma unparse_defined repos path : defined (unparse repos path).
Proof.
  apply defined_bind; [apply open_keyfile_defined|]. intros k. apply defined_bind.
  - apply defined_lift. unfold construct.
    assert (forall l k, exists k', for_each l (fun kv : string * RPMRepository => unparse_repository kv.2) k = (Ok tt, k')) as Hw.
    { intros l. induction l as [|[g r] l IH]; intros k0; [by eexists|]. cbn [for_each].
      assert (exists k1, unparse_repository r k0 = (Ok tt, k1)) as [k1 Hk1].
      { unfold unparse_repository. destruct (r_gpgkey r), (r_metalink r), (r_baseurl r); by eexists. }
      rewrite (M_bind_ok _ _ _ _ _ Hk1). apply IH. }
    destruct (Hw (in_order repos) k) as [k' ->]. done.
  - intros k'. intros w. unfold save_keyfile, stream_write, mbind, M_bind.
    by destruct (can_write _ _).
Qed.

Lemma save_repositories_defined f : defined (save_repositories f).
Proof. apply unparse_defined. Qed.
End keyfiles.

(** ** The manager's invariant *)

(** A repository is kept under its id, the group it has in the file. *)
Definition file_ok (f : RPMRepositoryFile) : Prop :=
  forall k r, rf_repos f !! k = Some r -> r_id r = k /\ r_group r = k.

(** The index leads to files that have the repository. *)
Definition manager_ok (m : RPMRepoManager) : Prop :=
  Forall file_ok (m_objects m) /\
  forall id p, m_filesIdx m !! id = Some p ->
    exists f, m_objects m !! p = Some f /\ is_Some (rf_repos f !! id).

Definition session_ok (s : Session) : Prop := manager_ok (s_rpm s).

(** A method of the manager has no undefined behaviour and keeps it well
    formed, also when it throws. *)
Definition keeps {A} (m : M Session A) : Prop :=
  forall s, session_ok s -> wp m (fun _ => session_ok) (fun _ => session_ok) s.

Lemma keeps_bind {A B} (m : M Session A) (f : A -> M Session B) : keeps m -> (forall a, keeps (f a)) -> keeps (a ← m; f a).
Proof. intros Hm Hf s Hs. apply wp_bind. eapply wp_mono; [by apply Hm|..]; [|done]. intros a s'. apply Hf. Qed.

Lemma keeps_io {A} (m : M World A) : defined m -> keeps (io m).
Proof. intros Hm s Hs. by apply wp_io_defined. Qed.

Lemma keeps_lift {A} (m : outcome A) : m <> UB -> keeps (lift m).
Proof. intros Hm s Hs. unfold wp, lift. by destruct m. Qed.

Lemma keeps_skip : keeps skip.
Proof. by intros s. Qed.
Lemma keeps_ret {A} (a : A) : keeps (mret a).
Proof. by intros s. Qed.
Lemma keeps_throw {A} e : keeps (A := A) (throw e).
Proof. by intros s. Qed.

Lemma keeps_for_each {A} (l : list A) (body : A -> M Session unit) : (forall x, keeps (body x)) -> keeps (for_each l body).
Proof. intros Hb s Hs. apply wp_for_each; [done|]. intros x s' _. apply Hb. Qed.

Lemma keeps_catch {A} (m : M Session A) sel h : keeps m -> (forall e, keeps (h e)) -> keeps (try_catchM m sel h).
Proof.
  intros Hm Hh s Hs. specialize (Hm s Hs). unfold wp, try_catchM in *.
  destruct (m s) as [[a|e|] s']; [done| |done]. destruct (sel e); [by apply Hh|done].
Qed.

Section manager.
Context `{Machine} `{GKeyFile} `{BoostText} (opts : Options).

Lemma parse_repo_file_wp path out w :
  (forall k r, out !! k = Some r -> r_id r = k /\ r_group r = k) ->
  wp (parse_repo_file path out)
    (fun repos w' => w' = w /\ forall k r, repos !! k = Some r -> r_id r = k /\ r_group r = k) (fun _ w' => w' = w) w.
Proof.
  intros Hout. unfold parse_repo_file. apply wp_bind.
  pose proof (open_keyfile_defined path w) as Hd. unfold wp.
  assert ((open_keyfile path w).2 = w) as Hw by (unfold open_keyfile; by destruct (is_directory w path)).
  destruct (open_keyfile path w) as [[k| |] w1]; cbn in Hd, Hw; subst w1; [|done|done].
  assert (mapo (parse_repository k path) (getGroups k) <> UB /\
    forall l, mapo (parse_repository k path) (getGroups k) = Ok l -> Forall (fun r => r_group r = r_id r) l) as [Hu Hl].
  { induction (getGroups k) as [|g gs [IH1 IH2]]; [split; [done|by intros l [= <-]]|]. cbn.
    pose proof (parse_repository_owp k path g) as Hp. destruct (parse_repository k path g); cbn in Hp; [|done..].
    cbn. destruct (mapo _ gs) as [l| |]; [|done..]. split; [done|]. intros l' [= <-].
    constructor; [by destruct Hp as [-> ->]|]. by apply IH2. }
  unfold lift, mbind, M_bind. destruct (mapo _ _) as [l| |]; [|done..]. cbn. split; [done|].
  specialize (Hl l eq_refl). intros id r. rewrite fill_lookup.
  destruct (out !! id) eqn:Ho; [intros [= ->]; by apply Hout|].
  clear Hu. induction Hl as [|r' l Hr' Hl IH]; [done|]. cbn.
  destruct (String.eqb_spec (r_id r') id) as [<-|Hn]; [intros [= <-]; done|done].
Qed.

Lemma RPMRepositoryFile_load_wp path w :
  wp (RPMRepositoryFile_load path) (fun f w' => w' = w /\ rf_path f = path /\ file_ok f) (fun _ w' => w' = w) w.
Proof.
  unfold RPMRepositoryFile_load. apply wp_bind. eapply wp_mono.
  - apply parse_repo_file_wp. intros k r. by rewrite lookup_empty.
  - intros repos w' [-> Hr]. done.
  - done.
Qed.

Lemma copyFile_defined source dest : defined (copyFile opts source dest).
Proof.
  intros w. unfold copyFile. destruct (dryRun opts); [done|].
  destruct (fs_copy source dest w) as [[[]|] w']; done.
Qed.

(** Entering the ids of a file into the index. *)
Definition index_ok (m : RPMRepoManager) (p : nat) (f : RPMRepositoryFile) : Prop :=
  manager_ok m /\ m_objects m !! p = Some f.

Lemma enter_ids (f : RPMRepositoryFile) p l s :
  index_ok (s_rpm s) p f -> (forall kv, kv ∈ l -> is_Some (rf_repos f !! kv.1)) ->
  wp (for_each (A := string * RPMRepository) l (fun kv =>
      on_rpm (modify (fun m => put_index (emplace kv.1 p (m_filesIdx m)) m))))
    (fun _ s' => index_ok (s_rpm s') p f) (fun _ s' => index_ok (s_rpm s') p f) s.
Proof.
  intros Hs Hl. apply (wp_for_each _ _ (fun s' => index_ok (s_rpm s') p f)); [done|].
  intros kv s' Hkv [[Hf Hi] Hp]. unfold wp, on_rpm, zoom, modify. cbn. split; [split|]; cbn; [done| |done].
  intros id q. rewrite emplace_lookup. destruct (m_filesIdx (s_rpm s') !! id) eqn:Hq; [intros [= ->]; by apply Hi|].
  case_decide as Hid; [|done]. intros [= <-]. exists f. split; [done|]. rewrite <- Hid. by apply Hl.
Qed.

Lemma install_keeps source : keeps (install opts source).
Proof.
  apply keeps_bind.
  { destruct (path_eqb _ _); [apply keeps_skip|]. apply keeps_io, copyFile_defined. }
  intros _. destruct (dryRun opts); [apply keeps_skip|]. intros s Hs.
  apply wp_bind, wp_io. eapply wp_mono; [apply RPMRepositoryFile_load_wp| |].
  - intros f w (-> & _ & Hf). apply wp_bind. unfold wp at 1, new_object. cbn.
    eapply wp_mono; [apply (enter_ids f)| |].
    + destruct Hs as [Ho Hi]. split; [split|]; cbn.
      * apply Forall_app. split; [done|by apply Forall_singleton].
      * intros id p Hp. destruct (Hi id p Hp) as (g & Hg & Hr). exists g. split; [|done].
        by apply lookup_app_l_Some.
      * by apply list_lookup_middle.
    + intros [k r] Hk%in_order_elem. by eexists.
    + by intros _ s' [? _].
    + by intros _ s' [? _].
  - by intros e w ->.
Qed.

Lemma directory_entries_defined dir : defined (directory_entries dir).
Proof. intros w. unfold directory_entries. by destruct (is_directory w dir). Qed.

Lemma loadDir_keeps path : keeps (loadDir opts path).
Proof.
  unfold loadDir. destruct (dryRun opts); [apply keeps_skip|].
  apply keeps_bind; [apply keeps_io, directory_entries_defined|]. intros l.
  apply keeps_for_each. intros x. destruct (ends_with _ _); [apply install_keeps|apply keeps_skip].
Qed.

(** Switching a repository of a file the index leads to. *)
Definition switched (id : string) (value : bool) (f : RPMRepositoryFile) : RPMRepositoryFile :=
  put_repos (alter (put_enabled value) id (rf_repos f)) f.

Definition switch_object (p : nat) (id : string) (value : bool) (m : RPMRepoManager) : RPMRepoManager :=
  put_objects (alter (switched id value) p (m_objects m)) m.

Lemma switch_at p id value s f r :
  m_objects (s_rpm s) !! p = Some f -> rf_repos f !! id = Some r ->
  switch p id value s = (Ok tt, put_rpm (switch_object p id value (s_rpm s)) s).
Proof.
  intros Hp Hr. unfold switch, object, mbind, M_bind, file_repo, at_key. rewrite Hp. cbn. rewrite Hr. cbn.
  unfold put_object, on_rpm, zoom, modify. do 2 f_equal. unfold switch_object. f_equal.
  assert (<[id := put_enabled value r]> (rf_repos f) = alter (put_enabled value) id (rf_repos f)) as ->.
  { apply map_eq. intros k. destruct (decide (k = id)) as [->|Hk].
    - by rewrite lookup_insert_eq, lookup_alter_eq, Hr.
    - by rewrite lookup_insert_ne, lookup_alter_ne. }
  apply list_eq. intros i. destruct (decide (i = p)) as [->|Hne].
  - rewrite list_lookup_alter_eq, Hp, list_lookup_insert_eq; [done|by eapply lookup_lt_Some].
  - by rewrite list_lookup_alter_ne, list_lookup_insert_ne.
Qed.

Lemma switched_ok id value f : file_ok f -> file_ok (switched id value f).
Proof.
  intros Hf k r. unfold switched. cbn. destruct (decide (k = id)) as [->|Hk].
  - rewrite lookup_alter_eq. destruct (rf_repos f !! id) as [r'|] eqn:Hr; [|done]. intros [= <-]. exact (Hf _ _ Hr).
  - rewrite lookup_alter_ne by done. apply Hf.
Qed.

Lemma switched_has id value f k : is_Some (rf_repos (switched id value f) !! k) <-> is_Some (rf_repos f !! k).
Proof.
  unfold switched. cbn. destruct (decide (k = id)) as [->|Hk].
  - rewrite lookup_alter_eq. apply fmap_is_Some.
  - by rewrite lookup_alter_ne.
Qed.

Lemma switch_object_ok p id value m : manager_ok m -> manager_ok (switch_object p id value m).
Proof.
  intros [Hf Hi]. split; cbn.
  - apply Forall_lookup. intros i f. destruct (decide (i = p)) as [->|Hne].
    + rewrite list_lookup_alter_eq. destruct (m_objects m !! p) as [g|] eqn:Hg; [|done]. intros [= <-].
      apply switched_ok. by eapply (Forall_lookup_1 _ _ _ _ Hf).
    + rewrite list_lookup_alter_ne by done. by apply (Forall_lookup_1 _ _ _ _ Hf).
  - intros k q Hq. destruct (Hi k q Hq) as (f & Hp & Hr). destruct (decide (q = p)) as [->|Hne].
    + exists (switched id value f). rewrite list_lookup_alter_eq, Hp. split; [done|]. by apply switched_has.
    + exists f. by rewrite list_lookup_alter_ne.
Qed.

(** Looking an id up and switching its repository. *)
Lemma switch_id id value s :
  session_ok s ->
  (p ← index_at id; _ ← switch p id value; mret p) s =
    match m_filesIdx (s_rpm s) !! id with
    | Some p => (Ok p, put_rpm (switch_object p id value (s_rpm s)) s)
    | None => (Throw (OutOfRange "map::at"), s)
    end.
Proof.
  intros [_ Hi]. destruct (m_filesIdx (s_rpm s) !! id) as [p|] eqn:Hp.
  - destruct (Hi id p Hp) as (f & Hf & r & Hr).
    rewrite (M_bind_ok _ _ _ p s) by (unfold index_at, at_key; by rewrite Hp).
    by rewrite (M_bind_ok _ _ _ _ _ (switch_at _ _ value _ _ _ Hf Hr)).
  - rewrite (M_bind_Throw _ _ _ (OutOfRange "map::at") s); [done|]. unfold index_at, at_key. by rewrite Hp.
Qed.

Lemma save_object_wp p s :
  is_Some (m_objects (s_rpm s) !! p) ->
  wp (save_object p) (fun _ s' => s_rpm s' = s_rpm s) (fun _ s' => s_rpm s' = s_rpm s) s.
Proof.
  intros [f Hf]. unfold save_object. apply wp_bind. unfold wp at 1, object. rewrite Hf. cbn.
  by apply wp_io_defined; [apply save_repositories_defined|..].
Qed.

Lemma enable_one_at id value s :
  session_ok s ->
  enable_one id value s =
    match m_filesIdx (s_rpm s) !! id with
    | Some p => save_object p (put_rpm (switch_object p id value (s_rpm s)) s)
    | None => (Throw (OutOfRange "map::at"), s)
    end.
Proof.
  intros Hs. pose proof (switch_id id value s Hs) as Hsw.
  unfold enable_one. destruct (m_filesIdx (s_rpm s) !! id) as [p|] eqn:Hp.
  - apply M_bind_inv_ok in Hsw as (q & s1 & Hq & Hsw). apply M_bind_inv_ok in Hsw as ([] & s2 & Hsw & Hr).
    rewrite (M_bind_ok _ _ _ _ _ Hq), (M_bind_ok _ _ _ _ _ Hsw). by injection Hr as -> ->.
  - rewrite (M_bind_Throw _ _ _ (OutOfRange "map::at") s); [done|]. unfold index_at, at_key. by rewrite Hp.
Qed.

(** Switching several, and the files that must be saved. *)
Definition enter_pointer (l : list nat) (p : nat) : list nat := if decide (p ∈ l) then l else l ++ [p].

Fixpoint switch_ids (ids : list string) (value : bool) (m : RPMRepoManager) : RPMRepoManager :=
  match ids with
  | [] => m
  | id :: ids =>
      switch_ids ids value (match m_filesIdx m !! id with Some p => switch_object p id value m | None => m end)
  end.

Definition pointers (ids : list string) (m : RPMRepoManager) : list nat := omap (fun id => m_filesIdx m !! id) ids.

Lemma switch_ids_index ids value m : m_filesIdx (switch_ids ids value m) = m_filesIdx m.
Proof.
  revert m. induction ids as [|id ids IH]; intros m; [done|]. cbn. rewrite IH.
  by destruct (m_filesIdx m !! id).
Qed.

Lemma switch_ids_ok ids value m : manager_ok m -> manager_ok (switch_ids ids value m).
Proof.
  revert m. induction ids as [|id ids IH]; intros m Hm; [done|]. cbn. apply IH.
  destruct (m_filesIdx m !! id); [by apply switch_object_ok|done].
Qed.

Lemma put_rpm_twice m m' s : put_rpm m (put_rpm m' s) = put_rpm m s.
Proof. done. Qed.

Lemma enable_loop_known ids value toSave s :
  session_ok s -> Forall (fun id => is_Some (m_filesIdx (s_rpm s) !! id)) ids ->
  enable_loop ids value toSave s =
    (Ok (foldl enter_pointer toSave (pointers ids (s_rpm s))), put_rpm (switch_ids ids value (s_rpm s)) s).
Proof.
  revert toSave s. induction ids as [|id ids IH]; intros toSave s Hs Hids; [by destruct s|].
  apply Forall_cons in Hids as [[p Hp] Hids]. pose proof (switch_id id value s Hs) as Hsw. rewrite Hp in Hsw.
  apply M_bind_inv_ok in Hsw as (q & s1 & Hq & Hsw). apply M_bind_inv_ok in Hsw as ([] & s2 & Hsw & Hr).
  injection Hr as -> ->. cbn [enable_loop].
  rewrite (M_bind_ok _ _ s (enter_pointer toSave p) (put_rpm (switch_object p id value (s_rpm s)) s)).
  2: { unfold try_catchM. by rewrite (M_bind_ok _ _ _ _ _ Hq), (M_bind_ok _ _ _ _ _ Hsw). }
  rewrite IH; [|by apply switch_object_ok|done].
  unfold pointers. cbn [omap list_omap switch_ids]. by rewrite Hp.
Qed.

Lemma enable_loop_app ids1 ids2 value toSave s :
  enable_loop (ids1 ++ ids2) value toSave s =
  (l ← enable_loop ids1 value toSave; enable_loop ids2 value l) s.
Proof.
  revert toSave s. induction ids1 as [|id ids1 IH]; intros toSave s; [done|].
  cbn [app enable_loop]. unfold mbind, M_bind. destruct (try_catchM _ _ _ s) as [[l| |] s']; [apply IH|done|done].
Qed.

Lemma enable_loop_unknown id ids value toSave s :
  m_filesIdx (s_rpm s) !! id = None ->
  enable_loop (id :: ids) value toSave s = (Throw (unknown_repository id), s).
Proof.
  intros Hid. cbn [enable_loop]. apply M_bind_Throw. unfold try_catchM.
  rewrite (M_bind_Throw _ _ _ (OutOfRange "map::at") s); [done|]. unfold index_at, at_key. by rewrite Hid.
Qed.

(** The repository an id stands for. *)
Definition repository_of (m : RPMRepoManager) (id : string) : option RPMRepository :=
  p ← m_filesIdx m !! id; f ← m_objects m !! p; rf_repos f !! id.

Lemma switch_object_of p id value m id' :
  m_filesIdx m !! id = Some p ->
  repository_of (switch_object p id value m) id' =
  (if decide (id' = id) then put_enabled value else fun r => r) <$> repository_of m id'.
Proof.
  intros Hp. unfold repository_of. cbn. destruct (m_filesIdx m !! id') as [q|] eqn:Hq; [|done]. cbn.
  destruct (decide (q = p)) as [->|Hne].
  - rewrite list_lookup_alter_eq. destruct (m_objects m !! p) as [f|]; [|done]. cbn.
    case_decide as Hid; [subst id'; by rewrite lookup_alter_eq|].
    rewrite lookup_alter_ne by done. by destruct (rf_repos f !! id').
  - rewrite list_lookup_alter_ne by done. case_decide as Hid; [congruence|].
    destruct (m_objects m !! q) as [f|]; [|done]. cbn. by destruct (rf_repos f !! id').
Qed.

Lemma switch_ids_of ids value m id :
  repository_of (switch_ids ids value m) id =
  (if decide (id ∈ ids) then put_enabled value else fun r => r) <$> repository_of m id.
Proof.
  revert m. induction ids as [|id' ids IH]; intros m.
  { cbn. case_decide as Hin; [by apply elem_of_nil in Hin|]. by destruct (repository_of m id). }
  cbn [switch_ids]. rewrite IH. destruct (m_filesIdx m !! id') as [p|] eqn:Hp.
  - rewrite (switch_object_of _ _ _ _ _ Hp), <- option_fmap_compose.
    destruct (repository_of m id) as [r|]; [|done]. cbn.
    destruct (decide (id = id')) as [->|Hne].
    + rewrite (decide_True (P := id' ∈ id' :: ids)) by left. by case_decide.
    + assert (id ∈ id' :: ids <-> id ∈ ids) as Hin by set_solver.
      case_decide as HD1; case_decide as HD2; tauto || done.
  - destruct (decide (id = id')) as [->|Hne].
    + unfold repository_of. by rewrite Hp.
    + assert (id ∈ id' :: ids <-> id ∈ ids) as Hin by set_solver.
      case_decide as HD1; case_decide as HD2; tauto || done.
Qed.

(** ** What switching does *)

Lemma wp_eq {S A} (m m' : M S A) Q E s s' : m s = m' s' -> wp m' Q E s' -> wp m Q E s.
Proof. unfold wp. by intros ->. Qed.

Lemma first_unknown (m : RPMRepoManager) ids :
  Forall (fun id => is_Some (m_filesIdx m !! id)) ids \/
  exists known id rest, ids = known ++ id :: rest /\ Forall (fun id => is_Some (m_filesIdx m !! id)) known /\
    m_filesIdx m !! id = None.
Proof.
  induction ids as [|id ids IH]; [by left|]. destruct (m_filesIdx m !! id) as [p|] eqn:Hp.
  - destruct IH as [IH|(known & x & rest & -> & Hk & Hx)]; [left; by constructor; eauto|].
    right. exists (id :: known), x, rest. split_and!; [done| |done]. constructor; eauto.
  - right. exists [], id, ids. by split_and!.
Qed.

Lemma visited_elem {A} (l : list A) x : x ∈ visited l -> x ∈ l.
Proof.
  unfold visited. intros (i & _ & Hi)%list_elem_of_omap. by eapply list_elem_of_lookup_2.
Qed.

Lemma enter_pointers_elem l k p : p ∈ foldl enter_pointer l k <-> p ∈ l \/ p ∈ k.
Proof.
  revert l. induction k as [|q k IH]; intros l; cbn; [set_solver|]. rewrite IH.
  unfold enter_pointer. case_decide; set_solver.
Qed.

Lemma save_all_wp l s :
  (forall p, p ∈ l -> is_Some (m_objects (s_rpm s) !! p)) ->
  wp (for_each l save_object) (fun _ s' => s_rpm s' = s_rpm s) (fun _ s' => s_rpm s' = s_rpm s) s.
Proof.
  intros Hl. apply (wp_for_each _ _ (fun s' => s_rpm s' = s_rpm s)); [done|].
  intros p s' Hp Hs'. rewrite <- Hs'. apply save_object_wp. rewrite Hs'. by apply Hl.
Qed.

Lemma enable_many_known ids value s :
  session_ok s -> Forall (fun id => is_Some (m_filesIdx (s_rpm s) !! id)) ids ->
  enable_many ids value s =
    for_each (visited (foldl enter_pointer [] (pointers ids (s_rpm s)))) save_object
      (put_rpm (switch_ids ids value (s_rpm s)) s).
Proof. intros Hs Hids. unfold enable_many. by rewrite (M_bind_ok _ _ _ _ _ (enable_loop_known ids value [] s Hs Hids)). Qed.

Lemma pointers_objects ids value m p :
  manager_ok m -> p ∈ visited (foldl enter_pointer [] (pointers ids m)) ->
  is_Some (m_objects (switch_ids ids value m) !! p).
Proof.
  intros Hm [[]%elem_of_nil|Hp]%visited_elem%enter_pointers_elem.
  apply list_elem_of_omap in Hp as (id & _ & Hid).
  destruct (switch_ids_ok ids value m Hm) as [_ Hi]. destruct (Hi id p) as (f & Hf & _); [by rewrite switch_ids_index|eauto].
Qed.

Lemma enable_many_unknown known id rest value s :
  session_ok s -> Forall (fun id => is_Some (m_filesIdx (s_rpm s) !! id)) known -> m_filesIdx (s_rpm s) !! id = None ->
  enable_many (known ++ id :: rest) value s =
    (Throw (unknown_repository id), put_rpm (switch_ids known value (s_rpm s)) s).
Proof.
  intros Hs Hk Hid. unfold enable_many. apply M_bind_Throw. rewrite enable_loop_app.
  rewrite (M_bind_ok _ _ _ _ _ (enable_loop_known known value [] s Hs Hk)).
  apply enable_loop_unknown. cbn. by rewrite switch_ids_index.
Qed.

Lemma enable_many_keeps ids value : keeps (enable_many ids value).
Proof.
  intros s Hs. destruct (first_unknown (s_rpm s) ids) as [Hk|(known & id & rest & -> & Hk & Hid)].
  - apply (wp_eq _ _ _ _ _ _ (enable_many_known ids value s Hs Hk)).
    eapply wp_mono; [apply save_all_wp; intros p; by apply pointers_objects| |];
      intros ? s' Hs'; unfold session_ok; rewrite Hs'; by apply switch_ids_ok.
  - unfold wp. rewrite (enable_many_unknown known id rest value s Hs Hk Hid). by apply switch_ids_ok.
Qed.

Lemma enable_one_keeps id value : keeps (enable_one id value).
Proof.
  intros s Hs. unfold wp. rewrite (enable_one_at id value s Hs).
  destruct (m_filesIdx (s_rpm s) !! id) as [p|] eqn:Hp; [|done].
  pose proof (switch_object_ok p id value _ Hs) as Hok.
  pose proof (save_object_wp p (put_rpm (switch_object p id value (s_rpm s)) s)) as Hw.
  destruct Hok as [_ Hi]. destruct (Hi id p Hp) as (f & Hf & _). cbn in Hf.
  specialize (Hw (ex_intro _ f Hf)). unfold wp in Hw.
  pose proof (switch_object_ok p id value _ Hs) as Hok.
  destruct (save_object p _) as [[] s']; [| |done]; unfold session_ok; by rewrite Hw.
Qed.

Lemma repo_defined id s : session_ok s -> exists r, repo id s = (r, s) /\ r <> UB.
Proof.
  intros [_ Hi]. unfold repo, try_catchM, index_at, mbind, M_bind, at_key.
  destruct (m_filesIdx (s_rpm s) !! id) as [p|] eqn:Hp; cbn; [|by eexists].
  destruct (Hi id p Hp) as (f & Hf & r & Hr). unfold object. rewrite Hf. cbn. unfold file_repo, at_key.
  rewrite Hr. by eexists.
Qed.

(** ** Every run of the program *)

(** What the rest of the program asks of the manager. *)
Inductive call :=
  | Install (path : string)
  | LoadDir (path : string)
  | Enable (id : string) (value : bool)
  | EnableMany (ids : list string) (value : bool)
  | LookUp (id : string).

Definition perform (c : call) : M Session unit :=
  match c with
  | Install path => install opts path
  | LoadDir path => loadDir opts path
  | Enable id value => enable_one id value
  | EnableMany ids value => enable_many ids value
  | LookUp id => _ ← repo id; skip
  end.

(** A call, whether it returns or throws; or anything else happens to the
    machine. *)
Inductive manager_step : Session -> Session -> Prop :=
  | step_call c s : manager_step s (perform c s).2
  | step_world w s : manager_step s (put_world w s).

Lemma perform_keeps c : keeps (perform c).
Proof.
  destruct c; cbn.
  - apply install_keeps.
  - apply loadDir_keeps.
  - apply enable_one_keeps.
  - apply enable_many_keeps.
  - apply keeps_bind; [|intros; apply keeps_skip]. intros s Hs.
    destruct (repo_defined id s Hs) as (r & Hr & Hu). unfold wp. rewrite Hr. by destruct r.
Qed.

Lemma wp_state {A} (m : M Session A) I s : wp m (fun _ => I) (fun _ => I) s -> I (m s).2 /\ (m s).1 <> UB.
Proof. unfold wp. by destruct (m s) as [[] s']. Qed.

Lemma known_repository (m : RPMRepoManager) id :
  manager_ok m -> is_Some (repository_of m id) <-> is_Some (m_filesIdx m !! id).
Proof.
  intros [_ Hi]. unfold repository_of. destruct (m_filesIdx m !! id) as [p|] eqn:Hp; [|split; by intros [? [=]]].
  destruct (Hi id p Hp) as (f & Hf & Hr). cbn. rewrite Hf. cbn. by split; [eauto|].
Qed.

Lemma enter_pointers_NoDup k l : NoDup l -> NoDup (foldl enter_pointer l k).
Proof.
  revert l. induction k as [|p k IH]; intros l Hl; [done|]. cbn. apply IH. unfold enter_pointer.
  case_decide; [done|]. apply NoDup_app. split_and!; [done|set_solver|apply NoDup_singleton].
Qed.

Lemma omap_app_positions {A} (l k : list A) n :
  (n <= length l)%nat -> omap (fun i => (l ++ k) !! i) (seq 0 n) = omap (fun i => l !! i) (seq 0 n).
Proof.
  intros Hn. induction n as [|n IH]; [done|]. rewrite seq_S, !omap_app, IH, Nat.add_0_l by lia.
  cbn. by rewrite lookup_app_l.
Qed.

Lemma omap_positions {A} (l : list A) : omap (fun i => l !! i) (seq 0 (length l)) = l.
Proof.
  induction l as [|x l IH] using rev_ind; [done|].
  rewrite length_app, Nat.add_1_r, seq_S, omap_app, omap_app_positions, IH by done.
  cbn. by rewrite list_lookup_middle.
Qed.

Lemma visited_permutation `{!MachineLaws H} {A} (l : list A) : visited l ≡ₚ l.
Proof. unfold visited. by rewrite (visit_permutation (seq 0 (length l))), omap_positions. Qed.
End manager.

(** C10. Whatever is loaded, installed and switched, and whatever of it fails,
    the index of the repository manager leads from every id to a file that has
    a repository of that id; so no call ever follows a bad pointer or looks
    for a repository that is not there. *)
Theorem manager_invariant `{Machine} `{GKeyFile} `{BoostText} (opts : Options) (w : World) (s : Session)
    (Hreach : rtc (manager_step opts) (mkSession w RPMRepoManager_default) s) :
  (forall id p, m_filesIdx (s_rpm s) !! id = Some p ->
     exists f r, m_objects (s_rpm s) !! p = Some f /\ rf_repos f !! id = Some r /\ r_id r = id /\ r_group r = id) /\
  (forall c, (perform opts c s).1 <> UB).
Proof.
  assert (session_ok s) as Hs.
  { apply (rtc_ind_r session_ok (mkSession w RPMRepoManager_default)) in Hreach; [done| |].
    - split; [constructor|]. by intros id p.
    - intros s1 s2 _ [c s'|w' s'] Hs'; [|done]. by apply wp_state, perform_keeps. }
  split.
  - intros id p Hp. destruct Hs as [Hf Hi]. destruct (Hi id p Hp) as (f & Hfp & r & Hr).
    exists f, r. split_and!; [done..|by apply (Forall_lookup_1 _ _ _ _ Hf Hfp id r)|by apply (Forall_lookup_1 _ _ _ _ Hf Hfp id r)].
  - intros c. by apply (wp_state _ session_ok), perform_keeps.
Qed.

(** C28. Switching a list of known repositories sets the flag of those it names,
    in whatever files they are, and no other; then each file that has one of
    them is saved once.  If one is unknown the call fails with the flags of
    those before it set, and no file is touched. *)
Theorem enable_many_spec `{MachineLaws} `{GKeyFile} `{BoostText} (ids : list string) (value : bool) (s : Session)
    (Hs : session_ok s) :
  ((forall id, id ∈ ids -> is_Some (repository_of (s_rpm s) id)) ->
     exists m order,
       enable_many ids value s = for_each order save_object (put_rpm m s) /\
       (forall id, repository_of m id =
          (if decide (id ∈ ids) then put_enabled value else fun r => r) <$> repository_of (s_rpm s) id) /\
       NoDup order /\
       (forall p, p ∈ order <-> exists id, id ∈ ids /\ m_filesIdx (s_rpm s) !! id = Some p)) /\
  (forall known id rest,
     ids = known ++ id :: rest -> (forall x, x ∈ known -> is_Some (repository_of (s_rpm s) x)) ->
     repository_of (s_rpm s) id = None ->
     exists m,
       enable_many ids value s = (Throw (unknown_repository id), put_rpm m s) /\
       (forall x, repository_of m x =
          (if decide (x ∈ known) then put_enabled value else fun r => r) <$> repository_of (s_rpm s) x)).
Proof.
  split.
  - intros Hids. eexists _, _. split; [|split; [|split]].
    + apply enable_many_known; [done|]. apply Forall_forall. intros id Hid. by apply known_repository, Hids.
    + intros id. apply switch_ids_of.
    + rewrite visited_permutation. apply enter_pointers_NoDup, NoDup_nil_2.
    + intros p. rewrite visited_permutation, enter_pointers_elem. unfold pointers. rewrite list_elem_of_omap.
      split; [intros [[]%elem_of_nil|?]; done|by right].
  - intros known id rest -> Hk Hid. eexists. split.
    + apply enable_many_unknown; [done| |].
      * apply Forall_forall. intros x Hx. by apply known_repository, Hk.
      * apply eq_None_not_Some. rewrite <- known_repository by done. rewrite Hid. by intros [].
    + intros x. apply switch_ids_of.
Qed.

(** C27. When the file of a repository on disk is what the manager has loaded,
    its texts can be stored and it can be written, switching the repository
    returns, changes the flag in memory, and a new load of the file gives the
    same repositories with that flag; no other file changes. *)
Theorem enable_one_on_disk `{GKeyFileLaws} `{BoostTextLaws} (id : string) (value : bool) (s : Session)
    (p : nat) (f : RPMRepositoryFile) (k : KeyFile)
    (Hs : session_ok s) (Hp : m_filesIdx (s_rpm s) !! id = Some p) (Hf : m_objects (s_rpm s) !! p = Some f)
    (Hload : RPMRepositoryFile_load (rf_path f) (s_world s) = (Ok f, s_world s))
    (Hk : KeyFile_make (contents (s_world s)) (rf_path f) true = Ok k) (Hst : storable (m_keyfile k))
    (Hw : can_write (s_world s) (rf_path f) = true) :
  exists data s',
    enable_one id value s = (Ok tt, s') /\
    s_world s' = put_file (rf_path f) data (s_world s) /\
    (forall x, repository_of (s_rpm s') x =
       (if decide (x = id) then put_enabled value else fun r => r) <$> repository_of (s_rpm s) x) /\
    RPMRepositoryFile_load (rf_path f) (s_world s') =
      (Ok (mkRepositoryFile (rf_path f) (alter (put_enabled value) id (rf_repos f))), s_world s').
Proof.
  assert (parse_repo_file (rf_path f) ∅ (s_world s) = (Ok (rf_repos f), s_world s)) as Hparse.
  { unfold RPMRepositoryFile_load in Hload. apply M_bind_inv_ok in Hload as (repos & w & Hr & [= Hf' ->]).
    rewrite Hr. by rewrite <- Hf'. }
  destruct (load_rewritable _ _ _ _ Hw Hk Hst Hparse) as (Hok & Hrw & Hsrc).
  set (repos := alter (put_enabled value) id (rf_repos f)).
  destruct (save_load (s_world s) (rf_path f) repos) as (data & Hsave & Hback);
    [by apply switched_repositories_ok|by apply switched_rewritable|].
  exists data, (put_world (put_file (rf_path f) data (s_world s)) (put_rpm (switch_object p id value (s_rpm s)) s)).
  split_and!.
  - rewrite (enable_one_at id value s Hs), Hp. unfold save_object, object, mbind, M_bind. cbn.
    rewrite list_lookup_alter_eq, Hf. cbn. unfold io, zoom. cbn. unfold save_repositories. cbn.
    fold repos. by rewrite Hsave.
  - done.
  - intros x. by apply switch_object_of.
  - cbn. unfold RPMRepositoryFile_load. rewrite (M_bind_ok _ _ _ _ _ Hback). unfold mret, M_ret.
    do 3 f_equal. apply map_eq. intros g. rewrite lookup_fmap. destruct (repos !! g) as [r|] eqn:Hr; [|done].
    cbn. f_equal. assert (r_source r = rf_path f) as <-; [|by destruct r].
    unfold repos in Hr. destruct (decide (g = id)) as [->|Hne].
    + rewrite lookup_alter_eq in Hr. destruct (rf_repos f !! id) as [r'|] eqn:Hr'; [|done].
      injection Hr as <-. exact (Hsrc id r' Hr').
    + rewrite lookup_alter_ne in Hr by done. by apply (Hsrc g).
Qed.

(** ** Setting up the default repositories *)

Lemma load_ubuntu `{GKeyFile} `{Fmt} entries vault basePath osinfo vars w :
  getDistro osinfo = Ok Distro.Ubuntu -> load entries vault basePath osinfo vars w = (UB, w).
Proof. intros Hd. unfold load. by rewrite (M_bind_ok _ _ _ _ _ (lift_ok _ _ w Hd)). Qed.

Lemma generate_ubuntu `{Machine} `{GKeyFile} `{BoostText} `{Fmt} opts runner entries place osinfo vars w a w' :
  getDistro osinfo = Ok Distro.Ubuntu -> generate opts runner entries place osinfo vars w <> (Ok a, w').
Proof.
  intros Hd Hg. unfold generate in Hg. step Hg as (basePath & w1 & Hb). step Hg as (conffiles & w2 & Hl).
  by rewrite (load_ubuntu _ _ _ _ _ _ Hd) in Hl.
Qed.

(** With a head node of the RPM family and compute nodes running Ubuntu,
    setting up the default repositories never finishes: the settings of the
    compute nodes' distribution are asked for, for which there is no case, and
    once the common settings are found the behaviour is undefined. *)
Theorem mixed_families `{Machine} `{GKeyFile} `{BoostText} `{Fmt} `{Asio} (opts : Options) (runner : IRunner)
    (entries : list (string * string)) (place : Place) (cluster : ClusterData.Cluster)
    (Hdry : dryRun opts = false)
    (Hhead : getPackageType (Server.s_os (Server.h_server (ClusterData.k_headnode cluster))) = Ok PackageType.RPM)
    (Hcompute : getDistro (Cluster.getComputeNodeOS cluster) = Ok Distro.Ubuntu) :
  (forall s a s', initializeDefaultRepositories opts runner entries place cluster s <> (Ok a, s')) /\
  (forall vars w basePath,
     findRepoConfigBasePath w (repoConfigCandidatePaths (current_path place) (executable_path place)) = Some basePath ->
     (generate opts runner entries place (Cluster.getComputeNodeOS cluster) vars w).1 = UB).
Proof.
  split.
  - intros s a s' Hrun. unfold initializeDefaultRepositories in Hrun. rewrite Hdry in Hrun.
    step_pure Hrun osinfo Hos.
    assert (osinfo = Server.s_os (Server.h_server (ClusterData.k_headnode cluster))) as ->.
    { unfold selectRepositoryBootstrapOS in Hos. rewrite Hhead in Hos.
      unfold getPackageType in Hos. rewrite Hcompute in Hos. cbn in Hos. by injection Hos as <-. }
    step_pure Hrun vars Hvars. step Hrun as (repositories & s1 & Hr). step_pure Hrun t Ht.
    rewrite Hhead in Ht. injection Ht as <-. step Hrun as (u1 & s2 & Hg).
    unfold io, zoom in Hg. destruct (generate_repositories _ _ _ _ _ _ _) as [[[]| |] w1] eqn:Hgen; [|done..].
    unfold generate_repositories in Hgen. step Hgen as (u2 & w2 & Hb). step Hgen as (n & w3 & Hn).
    by apply (generate_ubuntu _ _ _ _ _ _ _ _ _ Hcompute) in Hn.
  - intros vars w basePath Hb. unfold generate.
    assert (repoConfigBasePath place w = (Ok basePath, w)) as Hp.
    { unfold repoConfigBasePath, ask, gets, mbind, M_bind. by rewrite Hb. }
    rewrite (M_bind_ok _ _ _ _ _ Hp). unfold mbind, M_bind. by rewrite load_ubuntu.
Qed.
