(* ===== verification/Ofed.v ===== *)
(** * Installing the fabric drivers

    The class [OFED] of [src/ofed.cpp]: choosing between the ways NVIDIA's
    DOCA packages are installed, the commands, what to fall back on when a
    kernel is gone from the repositories, and the installation itself. *)

From stdpp Require Import base strings list gmap.
From Stdlib Require Import ZArith Lia Ascii.
From S2P Require Import Prelude CppString External Enums Options Os AnswerFileData World Runner.
From S2P Require OsService ClusterData RepoConfig RepoManager.

Local Open Scope Z_scope.

(** ** The DOCA stream *)

Inductive DocaInstallMode := LegacyKernelSupport | RepoDkms.

#[export] Instance DocaInstallMode_eq_dec : EqDecision DocaInstallMode.
Proof. solve_decision. Defined.

Definition normalizeOFEDVersion (version : string) : string := lower version.

Definition isDocaLtsStream (version : string) : bool := contains "lts" (normalizeOFEDVersion version).

(** This file has its own copy of the function of [repos.cpp]. *)
Definition parseDocaLtsVersion (version : string) : option (Z * Z) :=
  let normalized := normalizeOFEDVersion version in
  if negb (contains "lts" normalized) then None
  else
    match find_str "latest-" normalized, rfind_str "-lts" normalized with
    | Some prefixPos, Some suffixPos =>
        let start := (prefixPos + String.length "latest-")%nat in
        if (suffixPos <=? start)%nat then None
        else
          let versionToken := stake (suffixPos - start) (sdrop start normalized) in
          match find_char "." versionToken with
          | None => None
          | Some dotPos =>
              match stoi (stake dotPos versionToken), stoi (sdrop (S dotPos) versionToken) with
              | Ok major, Ok minor => Some (major, minor)
              | _, _ => None
              end
          end
    | _, _ => None
    end.

(** [parsed.value() < std::pair { 3, 2 }] *)
Definition usesDocaLegacyKernelSupport (version : string) : bool :=
  if negb (isDocaLtsStream version) then false
  else
    match parseDocaLtsVersion version with
    | Some (major, minor) => (major <? 3) || ((major =? 3) && (minor <? 2))
    | None => true
    end.

Definition selectDocaInstallMode (ofed : ClusterData.OFED) (osinfo : OS) (requestedKernel : option string)
    (runningKernel : string) : outcome DocaInstallMode :=
  platform ← getPlatform osinfo;
  match platform with
  | Platform.el8 | Platform.el9 | Platform.el10 =>
      let requested :=
        match requestedKernel with Some kernel => negb (String.eqb kernel runningKernel) | None => false end in
      Ok (if requested then LegacyKernelSupport
          else if usesDocaLegacyKernelSupport (ClusterData.o_version ofed) then LegacyKernelSupport
          else RepoDkms)
  | Platform.ubuntu2404 => UB
  end.

(** ** Commands *)

Definition buildDocaLegacyPrereqCommand (kernelVersion : option string) : string :=
  match kernelVersion with
  | Some v =>
      "dnf -y --nogpg install kernel-" +:+ v +:+ " kernel-devel-" +:+ v +:+ " kernel-headers-" +:+ v +:+
      " doca-extra tar"
  | None =>
      "bash -lc " +:+ quoted ("dnf -y --nogpg install kernel-$(uname -r) kernel-devel-$(uname -r) " +:+
        "kernel-headers-$(uname -r) doca-extra tar")
  end.

Definition buildDocaDkmsPrereqCommand (kernelVersion : option string) : string :=
  match kernelVersion with
  | Some v =>
      "dnf -y --nogpg install dkms gcc make perl mokutil kernel-devel-" +:+ v +:+ " kernel-headers-" +:+ v
  | None =>
      "dnf -y --nogpg install dkms gcc make perl mokutil kernel-devel-$(uname -r) kernel-headers-$(uname -r)"
  end.

Definition buildDocaHostInstallCommand : string :=
  "dnf install --nogpg -y --exclude=kernel --exclude=kernel-core --exclude=kernel-modules " +:+
  "--exclude=kernel-modules-core --exclude=kernel-devel\* --exclude=kernel-headers\* " +:+
  "doca-ofed mlnx-fw-updater".

Definition buildInboxOFEDInstalledCommand (osinfo : OS) : outcome string :=
  t ← getPackageType osinfo;
  Ok match t with
     | PackageType.RPM => "dnf group info " +:+ quoted "Infiniband Support"
     | PackageType.DEB => "dpkg-query -W rdma-core ibverbs-providers infiniband-diags"
     end.

(** A group of packages, or a command. *)
Definition buildInboxOFEDInstallCommand (osinfo : OS) : outcome string :=
  t ← getPackageType osinfo;
  Ok match t with
     | PackageType.RPM => "Infiniband Support"
     | PackageType.DEB =>
         "DEBIAN_FRONTEND=noninteractive apt install -y rdma-core ibverbs-providers infiniband-diags perftest"
     end.

Definition rockyKernelPackageRepositoryComponent (osinfo : OS) (packageName : string) : outcome string :=
  platform ← getPlatform osinfo;
  match platform with
  | Platform.el8 => Ok "BaseOS"
  | Platform.el9 | Platform.el10 =>
      Ok (if String.eqb packageName "kernel-devel" || String.eqb packageName "kernel-headers"
          then "AppStream" else "BaseOS")
  | Platform.ubuntu2404 => UB
  end.

Definition buildRockyKernelPackageUrl (osinfo : OS) (packageName kernelVersion : string) : outcome (option string) :=
  distro ← getDistro osinfo;
  if decide (distro <> Distro.Rocky) then Ok None
  else
    osversion ← getVersion osinfo;
    repo ← rockyKernelPackageRepositoryComponent osinfo packageName;
    arch ← toString <$> getArch osinfo;
    Ok (Some ("https://download.rockylinux.org/pub/rocky/" +:+ osversion +:+ "/" +:+ repo +:+ "/" +:+ arch +:+
      "/os/Packages/k/" +:+ packageName +:+ "-" +:+ kernelVersion +:+ ".rpm")).

Definition buildRockyLegacyPrereqFallbackCommand (osinfo : OS) (kernelVersion : string) : outcome (option string) :=
  kernelUrl ← buildRockyKernelPackageUrl osinfo "kernel" kernelVersion;
  develUrl ← buildRockyKernelPackageUrl osinfo "kernel-devel" kernelVersion;
  headersUrl ← buildRockyKernelPackageUrl osinfo "kernel-headers" kernelVersion;
  Ok match kernelUrl, develUrl, headersUrl with
     | Some kernelUrl, Some develUrl, Some headersUrl =>
         Some ("dnf -y --nogpg install doca-extra tar " +:+ kernelUrl +:+ " " +:+ develUrl +:+ " " +:+ headersUrl)
     | _, _, _ => None
     end.

Definition buildRockyDkmsPrereqFallbackCommand (osinfo : OS) (kernelVersion : string) : outcome (option string) :=
  develUrl ← buildRockyKernelPackageUrl osinfo "kernel-devel" kernelVersion;
  headersUrl ← buildRockyKernelPackageUrl osinfo "kernel-headers" kernelVersion;
  Ok match develUrl, headersUrl with
     | Some develUrl, Some headersUrl =>
         Some ("dnf -y --nogpg install dkms gcc make perl mokutil " +:+ develUrl +:+ " " +:+ headersUrl)
     | _, _ => None
     end.

(** ** Talking to the system *)

Section runner.
Context (runner : IRunner).

(** [throw;] throws what was caught again. *)
Definition installDocaPrereqsWithFallback (primaryCommand : string) (fallbackCommand : option string) : M World unit :=
  try_catchM (checkCommand runner primaryCommand) is_runtime_error
    (fun error =>
      match fallbackCommand with
      | None => throw error
      | Some fallbackCommand => checkCommand runner fallbackCommand
      end).

Definition kernel_core_query : string :=
  "bash -lc " +:+ quoted "rpm -q kernel-core --qf '%{INSTALLTIME} %{VERSION}-%{RELEASE}.%{ARCH}\n'".

(** The newest kernel seen and when it was installed, [None] before one was
    found. *)
Definition newer_kernel (best : option (Z * string)) (line : string) : outcome (option (Z * string)) :=
  match find_char " " line with
  | None => Ok best
  | Some separator =>
      if (String.length line <=? S separator)%nat then Ok best
      else
        installTime ← stoll (stake separator line);
        Ok match best with
           | Some (newestInstallTime, _) =>
               if newestInstallTime <? installTime then Some (installTime, sdrop (S separator) line) else best
           | None => Some (installTime, sdrop (S separator) line)
           end
  end.

Fixpoint newest_kernel (kernels : list string) (best : option (Z * string)) : outcome (option (Z * string)) :=
  match kernels with
  | [] => Ok best
  | line :: kernels => best ← newer_kernel best line; newest_kernel kernels best
  end.

Definition no_kernel : exn := RuntimeError "Could not determine the latest installed kernel-core package".

Definition latestInstalledKernelCore : M World string :=
  kernels ← checkOutput runner kernel_core_query;
  best ← lift (newest_kernel kernels None);
  match best with
  | Some (_, newestKernel) => if empty newestKernel then throw no_kernel else mret newestKernel
  | None => throw no_kernel
  end.

Definition shouldPrimeDocaDkmsForInstalledKernel (installedKernel runningKernel : string) : bool :=
  negb (String.eqb installedKernel runningKernel).

(** Both branches only log. *)
Definition primeDocaDkmsForInstalledKernel (runningKernel : string) : M World unit :=
  installedKernel ← latestInstalledKernelCore;
  if negb (shouldPrimeDocaDkmsForInstalledKernel installedKernel runningKernel) then skip else skip.

Definition kernel_repo_query : string :=
  "bash -c " +:+ quoted ("find /tmp/DOCA*/ -name 'doca-kernel-repo-*.rpm' -printf '%T@ %p\n' | sort -nk1 | tail -1 " +:+
    "| awk '{print $2}'").

Definition no_kernel_repo : exn :=
  RuntimeError "Could not locate the generated DOCA kernel repo RPM under /tmp/DOCA*/".

Definition findLatestGeneratedDocaKernelRepoRpm : M World string :=
  rpm ← checkOutput runner kernel_repo_query;
  match rpm with
  | [] => throw no_kernel_repo
  | line :: _ => if empty line then throw no_kernel_repo else mret line
  end.
End runner.

(** ** The class *)

Definition setKind (kind : OFEDKind.t) : M ClusterData.OFED unit :=
  modify (fun ofed => ClusterData.mkOFED kind (ClusterData.o_version ofed)).
Definition setVersion (version : string) : M ClusterData.OFED unit :=
  modify (fun ofed => ClusterData.mkOFED (ClusterData.o_kind ofed) version).

Section installation.
Context `{Machine} `{GKeyFile} `{BoostText} (opts : Options) (runner : IRunner).
(** The system of the head node, the services on it, and the kernel of the
    answer file. *)
Context (osinfo : OS) (osservice : OsService.IOSService) (requestedKernel : option string).

Definition installed (ofed : ClusterData.OFED) : M World bool :=
  if shouldForce opts "infiniband-install" then mret false
  else if dryRun opts then mret false
  else
    match ClusterData.o_kind ofed with
    | OFEDKind.Doca =>
        t ← lift (getPackageType osinfo);
        if decide (t = PackageType.DEB) then
          throw (RuntimeError "DOCA OFED is only implemented for Enterprise Linux head nodes")
        else
          code ← executeCommand runner "rpm -q doca-ofed";
          mret (code =? 0)
    | OFEDKind.Inbox =>
        command ← lift (buildInboxOFEDInstalledCommand osinfo);
        code ← executeCommand runner command;
        mret (code =? 0)
    | OFEDKind.Oracle => throw (LogicError "Not implemented")
    end.

Definition check_io (cmd : string) : M RepoManager.Session unit := RepoManager.io (checkCommand runner cmd).

Definition install_inbox : M World unit :=
  installCommand ← lift (buildInboxOFEDInstallCommand osinfo);
  t ← lift (getPackageType osinfo);
  match t with
  | PackageType.DEB => shell_cmd opts installCommand
  | PackageType.RPM => _ ← OsService.groupInstall osservice installCommand; skip
  end.

Definition doca_kernel_support : string := "/opt/mellanox/doca/tools/doca-kernel-support".

Definition install_kernel_repo : M World unit :=
  rpm ← findLatestGeneratedDocaKernelRepoRpm runner;
  checkCommand runner ("dnf install -y " +:+ rpm).

Definition install_legacy (runningKernel : string) : M World unit :=
  let kernelVersion := default runningKernel requestedKernel in
  fallback ← lift (buildRockyLegacyPrereqFallbackCommand osinfo kernelVersion);
  _ ← installDocaPrereqsWithFallback runner (buildDocaLegacyPrereqCommand (Some kernelVersion)) fallback;
  _ ← (if negb (shouldSkip opts "compile-doca-driver") then
         match requestedKernel with
         | Some kernel => checkCommand runner (doca_kernel_support +:+ " -k " +:+ kernel)
         | None => checkCommand runner doca_kernel_support
         end
       else skip);
  install_kernel_repo.

Definition install_dkms (runningKernel : string) : M RepoManager.Session unit :=
  _ ← RepoManager.manager_enable opts osinfo "epel";
  _ ← check_io "dnf makecache --repo=epel";
  fallback ← lift (buildRockyDkmsPrereqFallbackCommand osinfo runningKernel);
  RepoManager.io
    (_ ← installDocaPrereqsWithFallback runner (buildDocaDkmsPrereqCommand (Some runningKernel)) fallback;
     _ ← checkCommand runner "dnf -y --nogpg install doca-extra tar";
     if negb (shouldSkip opts "compile-doca-driver") then
       _ ← checkCommand runner doca_kernel_support;
       install_kernel_repo
     else skip).

Definition install_doca (ofed : ClusterData.OFED) : M RepoManager.Session unit :=
  runningKernel ← RepoManager.io (OsService.getKernelRunning osservice);
  installMode ← lift (selectDocaInstallMode ofed osinfo requestedKernel runningKernel);
  _ ← RepoManager.manager_enable opts osinfo "doca";
  _ ← check_io "dnf makecache --repo=doca";
  _ ← match installMode with
      | LegacyKernelSupport => RepoManager.io (install_legacy runningKernel)
      | RepoDkms => install_dkms runningKernel
      end;
  RepoManager.io
    (_ ← checkCommand runner "dnf makecache --repo=doca*";
     _ ← checkCommand runner buildDocaHostInstallCommand;
     _ ← primeDocaDkmsForInstalledKernel runner runningKernel;
     _ ← executeCommand runner "systemctl restart openibd || true";
     skip).

Definition install (ofed : ClusterData.OFED) : M RepoManager.Session unit :=
  if dryRun opts then skip
  else
    there ← RepoManager.io (installed ofed);
    if there : bool then skip
    else
      match ClusterData.o_kind ofed with
      | OFEDKind.Inbox => RepoManager.io install_inbox
      | OFEDKind.Doca => install_doca ofed
      | OFEDKind.Oracle => throw (LogicError "Oracle RDMA release is not yet supported")
      end.
End installation.
