(* ===== verification/OfedSpec.v ===== *)
(** * How the fabric drivers are installed

    The install mode against the repository it draws on, the newest kernel,
    falling back on other packages, and what happens on Ubuntu. *)

From stdpp Require Import base strings list gmap.
From Stdlib Require Import ZArith Lia Ascii.
From S2P Require Import Prelude CppString External Enums Options Os AnswerFileData World Runner RepoConfig RepoManager Ofed.
From S2P Require OsService ClusterData.

Local Open Scope Z_scope.

(** The two files decide alike whether a stream has legacy kernel support. *)
Lemma legacy_not_major version : usesDocaLegacyKernelSupport version = negb (usesDocaMajorVersionRepo version).
Proof.
  unfold usesDocaLegacyKernelSupport, usesDocaMajorVersionRepo, isDocaLtsStream, normalizeOFEDVersion.
  destruct (contains "lts" (lower version)); cbn [negb]; [|done].
  change (Ofed.parseDocaLtsVersion version) with (RepoConfig.parseDocaLtsVersion version).
  destruct (RepoConfig.parseDocaLtsVersion version) as [[major minor]|]; [|done].
  destruct (Z.ltb_spec major 3), (Z.ltb_spec 3 major), (Z.eqb_spec major 3), (Z.ltb_spec minor 2), (Z.leb_spec 2 minor);
    done || lia.
Qed.

(** The repository named after the major version alone. *)
Definition major_target (p : Platform.t) : string :=
  match p with Platform.el8 => "8" | Platform.el9 => "9" | Platform.el10 => "10" | Platform.ubuntu2404 => "" end.

(** Whether the kernel wanted is the one that runs, or none is asked for *)
Definition wanted_runs (requested : option string) (running : string) : Prop :=
  requested = None \/ requested = Some running.

(** C32. The drivers and their repository, on an Enterprise Linux head node:
    the packages built by DKMS are chosen exactly when the running kernel is
    the one wanted and the DOCA repository is the one of the major version.  A
    kernel pinned to another one gets the legacy kernel support whatever the
    repository.  With the running kernel, the legacy support goes with the
    repository of a minor version, which is missing on Enterprise Linux 10, and
    only there. *)
Theorem install_mode_matches_repository (ofed : ClusterData.OFED) (osinfo : OS) (d : Distro.t) (p : Platform.t)
    (requested : option string) (running : string) :
  m_distro osinfo = Some d -> d <> Distro.Ubuntu -> m_platform osinfo = Some p -> p <> Platform.ubuntu2404 ->
  let target := defaultDOCARepoTargetFor osinfo (ClusterData.o_version ofed) in
  exists mode, selectDocaInstallMode ofed osinfo requested running = Ok mode /\
    (mode = RepoDkms <-> wanted_runs requested running /\ target = Ok (major_target p)) /\
    (~ wanted_runs requested running -> mode = LegacyKernelSupport) /\
    (wanted_runs requested running -> mode = LegacyKernelSupport /\ p = Platform.el10 <-> is_ok target = false).
Proof.
  intros Hd Hu Hp Hn target. subst target. unfold selectDocaInstallMode, defaultDOCARepoTargetFor, getPlatform, getDistro, wanted_runs.
  rewrite Hp, Hd. cbn -[usesDocaLegacyKernelSupport usesDocaMajorVersionRepo]. rewrite decide_False by done.
  assert (match requested with Some kernel => negb (String.eqb kernel running) | None => false end = true <->
    ~ (requested = None \/ requested = Some running)) as Hpin.
  { destruct requested as [k|]; [|naive_solver]. destruct (String.eqb_spec k running); naive_solver. }
  destruct (match requested with Some kernel => negb (String.eqb kernel running) | None => false end).
  - assert (~ (requested = None \/ requested = Some running)) as Hother by by apply Hpin.
    destruct p; try done; eexists; (split; [reflexivity|]); naive_solver.
  - assert (requested = None \/ requested = Some running) as Hruns.
    { destruct (decide (requested = None)); [by left|]. destruct (decide (requested = Some running)); [by right|].
      exfalso. assert (false = true); [|done]. apply Hpin. naive_solver. }
    rewrite legacy_not_major.
    destruct (usesDocaMajorVersionRepo _), p; cbn; try done; eexists; (split; [reflexivity|]); naive_solver.
Qed.

(** ** The newest kernel *)

Definition rpm_line (k : Z * string) : string := dec k.1 +:+ String " " k.2.
Definition rpm_kernel (k : Z * string) : Prop := 0 <= k.1 < 2 ^ 63 /\ k.2 <> "".

Definition newer (best : option (Z * string)) (k : Z * string) : option (Z * string) :=
  match best with Some b => if b.1 <? k.1 then Some k else Some b | None => Some k end.

Lemma newer_kernel_line best k : rpm_kernel k -> newer_kernel best (rpm_line k) = Ok (newer best k).
Proof.
  destruct k as [t v]. intros [Ht Hv]. cbn in Ht, Hv. unfold newer_kernel, rpm_line. cbn [fst snd].
  assert (no_char " " (dec t) = true) as Hn by (apply digits_no_char; [done|apply dec_digit; lia]).
  rewrite find_char_at by exact Hn. rewrite stake_app, sdrop_at, stoll_dec by done.
  rewrite (proj2 (Nat.leb_gt _ _)).
  - destruct best as [[t' v']|]; cbn; [|done]. by destruct (t' <? t).
  - rewrite length_sapp. cbn. destruct v; [done|]. cbn. lia.
Qed.

Lemma newest_kernel_lines ks best : Forall rpm_kernel ks ->
  newest_kernel (rpm_line <$> ks) best = Ok (foldl newer best ks).
Proof.
  intros Hks. revert best. induction Hks as [|k ks Hk _ IH]; intros best; [done|].
  cbn [fmap list_fmap newest_kernel]. rewrite newer_kernel_line by done. cbn. apply IH.
Qed.

Lemma foldl_newer b ks : exists k, foldl newer (Some b) ks = Some k /\
  (k = b /\ Forall (fun x => x.1 <= b.1) ks \/
   exists before after, ks = before ++ k :: after /\ b.1 < k.1 /\
     Forall (fun x => x.1 < k.1) before /\ Forall (fun x => x.1 <= k.1) after).
Proof.
  revert b. induction ks as [|x ks IH]; intros b; [exists b; split; [done|]; by left|].
  cbn [foldl newer]. destruct (Z.ltb_spec b.1 x.1) as [Hlt|Hle].
  - destruct (IH x) as (k & Hk & [[-> Hall]|(l & r & -> & Hx & Hl & Hr)]); eexists; (split; [exact Hk|]); right.
    + exists [], ks. split; [done|]. split; [done|]. by split; [constructor|].
    + exists (x :: l), r. split; [done|]. split; [lia|]. by split; [constructor|].
  - destruct (IH b) as (k & Hk & [[-> Hall]|(l & r & -> & Hx & Hl & Hr)]); eexists; (split; [exact Hk|]).
    + left. split; [done|]. by constructor.
    + right. exists (x :: l), r. split; [done|]. split; [lia|]. split; [constructor; [lia|done]|done].
Qed.

(** From what [rpm] prints about the installed kernels, in whatever order,
    the one installed last is found, the first of them when several were
    installed at the same time; that there are none is an error. *)
Theorem latestInstalledKernelCore_spec (runner : IRunner) (w w' : World) (ks : list (Z * string)) :
  Forall rpm_kernel ks -> checkOutput runner kernel_core_query w = (Ok (rpm_line <$> ks), w') ->
  match latestInstalledKernelCore runner w with
  | (Ok kernel, w'') => w'' = w' /\
      exists time before after, ks = before ++ (time, kernel) :: after /\
        Forall (fun k => k.1 < time) before /\ Forall (fun k => k.1 <= time) after
  | (Throw e, w'') => w'' = w' /\ ks = [] /\ e = no_kernel
  | (UB, _) => False
  end.
Proof.
  intros Hks Hout. unfold latestInstalledKernelCore. erewrite M_bind_ok by exact Hout.
  rewrite newest_kernel_lines by done. destruct ks as [|x ks]; [done|].
  cbn [foldl newer]. destruct (foldl_newer x ks) as ([t k] & Hk & Hcase). rewrite Hk. cbn.
  assert (exists before after, x :: ks = before ++ (t, k) :: after /\
    Forall (fun k => k.1 < t) before /\ Forall (fun k => k.1 <= t) after) as (l & r & Hsplit & Hl & Hr).
  { destruct Hcase as [[<- Hall]|(l & r & -> & Hx & Hl & Hr)].
    - exists [], ks. by split_and!.
    - exists (x :: l), r. split_and!; [done|by constructor|done]. }
  assert (k <> "") as Hne.
  { rewrite Forall_forall in Hks. destruct (Hks (t, k)) as [_ Hne]; [|done].
    rewrite Hsplit. apply elem_of_app. right. by left. }
  destruct k as [|c k]; [done|]. cbn. split; [done|]. by exists t, l, r.
Qed.

(** ** Falling back *)

Section fallback.
Context `{Machine} `{BoostText} `{GChecksum} (opts : Options).

(** Whether the process succeeds where it is started. *)
Definition succeeds (w : World) (cmd : string) : Prop := exists out, (react w (Spawn cmd)).1 = Ok (0, out).
Definition after_command (w : World) (cmd : string) : World := (execute (Spawn cmd) w).2.

Lemma check_success w cmd : succeeds w cmd -> checkCommand (Runner opts) cmd w = (Ok tt, after_command w cmd).
Proof.
  intros (out & Hr). unfold after_command. cbn. unfold runCommand. rewrite orb_true_r. unfold execute, mbind, M_bind.
  destruct (react w (Spawn cmd)) as [r [files dirs]]. cbn in Hr |- *. by subst r.
Qed.

Lemma check_failure w cmd code out :
  (react w (Spawn cmd)).1 = Ok (code, out) -> code <> 0 ->
  checkCommand (Runner opts) cmd w = (Throw (check_failed cmd), after_command w cmd).
Proof.
  intros Hr Hc. unfold after_command. cbn. unfold runCommand. rewrite orb_true_r. unfold execute, mbind, M_bind.
  destruct (react w (Spawn cmd)) as [r [files dirs]]. cbn in Hr |- *. subst r. cbn.
  by rewrite (proj2 (Z.eqb_neq _ _) Hc).
Qed.
End fallback.

(** The packages a kernel needs: when the command for them succeeds
    nothing else is started; when it fails, the command with the addresses of
    the packages is started on what the first one left, and its outcome
    counts; without such a command the failure itself is reported. *)
Theorem fallback_spec `{Machine} `{BoostText} `{GChecksum} (opts : Options) (w : World) (primary : string)
    (fallback : option string) (code : Z) (out : list string) :
  (react w (Spawn primary)).1 = Ok (code, out) ->
  let w1 := after_command w primary in
  installDocaPrereqsWithFallback (Runner opts) primary fallback w =
    (if code =? 0 then (Ok tt, w1)
     else match fallback with
          | Some command => checkCommand (Runner opts) command w1
          | None => (Throw (check_failed primary), w1)
          end).
Proof.
  intros Hr w1. unfold installDocaPrereqsWithFallback, try_catchM.
  destruct (Z.eqb_spec code 0) as [->|Hc].
  - by rewrite check_success by (by exists out).
  - rewrite (check_failure _ _ _ _ _ Hr Hc). cbn [is_runtime_error check_failed]. by destruct fallback.
Qed.

(** ** Ubuntu *)

(** NVIDIA's drivers on an Ubuntu head node are refused with an error
    before anything is started, but not when the installation is forced: then
    the refusal is skipped with the check, and choosing the install mode is
    undefined. *)
Theorem doca_on_ubuntu `{Machine} `{GKeyFile} `{BoostText} (opts : Options) (runner : IRunner) (osinfo : OS)
    (osservice : OsService.IOSService) (kernel : option string) (ofed : ClusterData.OFED) (s : Session) (running : string)
    (w : World) :
  dryRun opts = false -> m_distro osinfo = Some Distro.Ubuntu -> m_platform osinfo = Some Platform.ubuntu2404 ->
  ClusterData.o_kind ofed = OFEDKind.Doca ->
  OsService.getKernelRunning osservice (s_world s) = (Ok running, w) ->
  Ofed.install opts runner osinfo osservice kernel ofed s =
    (if shouldForce opts "infiniband-install" then (UB, put_world w s)
     else (Throw (RuntimeError "DOCA OFED is only implemented for Enterprise Linux head nodes"), s)).
Proof.
  intros Hdry Hd Hp Hk Hrun. unfold Ofed.install, installed. rewrite Hdry, Hk.
  destruct (shouldForce opts "infiniband-install").
  - unfold install_doca. cpp_simpl. unfold io, zoom. cbn. unfold zoom in *. rewrite Hrun.
    unfold selectDocaInstallMode, getPlatform. rewrite Hp. by destruct s.
  - unfold getPackageType, getDistro. rewrite Hd. cpp_simpl. unfold io, zoom. cbn. by destruct s.
Qed.
