(* ===== verification/XcatCommands.v ===== *)
(** * What xCAT is told

    The functions of [src/services/xcat.cpp] that build the commands, scripts
    and names the provisioner works with. *)

From stdpp Require Import base strings list gmap.
From Stdlib Require Import ZArith Lia Ascii.
From S2P Require Import Prelude CppString External Enums Options AnswerFileData Os World FileOps Runner RepoData.
From S2P Require ScriptBuilder Network Server ClusterData Ofed.

Local Open Scope Z_scope.

Module ImageType.
Inductive t := Install | Netboot.
#[global] Instance t_eq_dec : EqDecision t. Proof. solve_decision. Defined.
End ImageType.

Module NodeType.
Inductive t := Compute | Service.
#[global] Instance t_eq_dec : EqDecision t. Proof. solve_decision. Defined.
End NodeType.

(** [XCAT::Image] and [XCAT::ImageInstallArgs] *)
Record Image := mkImage {
  otherpkgs : list string;
  osimage : string;
  chroot : string;
  postinstall : list string;
}.

Definition newline : string := ScriptBuilder.newline.
Definition Image_default : Image := mkImage [] "" "" ["#!/bin/sh" +:+ newline +:+ newline].

Record ImageInstallArgs := mkArgs {
  a_imageName : string;
  a_rootfs : string;
  a_postinstall : string;
  a_pkglist : string;
}.

(** ** Images *)

Definition getOSImageDistroVersion (nodeOS : OS) : outcome string :=
  distro ← getDistro nodeOS;
  match distro with
  | Distro.RHEL =>
      version ← getVersion nodeOS;
      platform ← getPlatform nodeOS;
      Ok ("rhels" +:+ version +:+ (if decide (platform = Platform.el9) then ".0" else ""))
  | Distro.OL => version ← getVersion nodeOS; Ok ("ol" +:+ version)
  | Distro.Rocky => version ← getVersion nodeOS; Ok ("rocky" +:+ version)
  | Distro.AlmaLinux => version ← getVersion nodeOS; Ok ("alma" +:+ version)
  | Distro.Ubuntu => version ← getVersion nodeOS; Ok ("ubuntu" +:+ version)
  end.

Definition isUbuntu2404ComputeImage (nodeOS : OS) : outcome bool :=
  platform ← getPlatform nodeOS; Ok (bool_decide (platform = Platform.ubuntu2404)).

Definition ubuntu2404XcatPkgdirEntries : list string :=
  ["/install/ubuntu24.04/x86_64";
   "http://archive.ubuntu.com/ubuntu noble main restricted universe multiverse";
   "http://archive.ubuntu.com/ubuntu noble-updates main restricted universe multiverse";
   "http://security.ubuntu.com/ubuntu noble-security main restricted universe multiverse"].

Definition ubuntu2404OpenHpcOtherpkgdirEntry : string :=
  "[trusted=yes] https://repos.versatushpc.com.br/openhpc/versatushpc-4/Ubuntu_24.04/ ./".

(** The packages of a [std::set], in its order. *)
Definition ubuntu2404OpenHpcPackages (enabledBundles : option (list string)) : list string :=
  let bundles := default ["serial-libs"; "parallel-libs"] enabledBundles in
  let bundle (name : string) (packages : list string) : gset string :=
    if decide (name ∈ bundles) then list_to_set packages else ∅ in
  ScriptBuilder.in_order
    (list_to_set ["ohpc-base-compute"; "gnu15-compilers-ohpc"; "openmpi5-gnu15-ohpc"; "mpich-ucx-gnu15-ohpc";
       "mvapich2-gnu15-ohpc"; "lmod-ohpc"; "lmod-defaults-gnu15-openmpi5-ohpc"; "ohpc-autotools"; "hwloc-ohpc"] ∪
     bundle "serial-libs" ["ohpc-gnu15-serial-libs"] ∪
     bundle "parallel-libs" ["ohpc-gnu15-parallel-libs"] ∪
     bundle "intel-oneapi" ["intel-oneapi-toolkit-release-ohpc"; "intel-compilers-devel-ohpc";
       "intel-mpi-devel-ohpc"; "ohpc-intel-serial-libs"; "ohpc-intel-impi-parallel-libs"]).

Definition buildUbuntu24OSImageDefinitionCommand (image : Image) : string :=
  "mkdef -f -t osimage " +:+ osimage image +:+ " imagetype=linux osname=Linux osvers=ubuntu24.04 osarch=x86_64 " +:+
  "osdistroname=ubuntu24.04-x86_64 profile=compute provmethod=netboot rootimgdir=" +:+ chroot image +:+
  " pkglist=/opt/xcat/share/xcat/netboot/ubuntu/compute.ubuntu24.04.x86_64.pkglist " +:+
  "otherpkglist=/install/custom/netboot/compute.otherpkglist " +:+
  "postinstall=/install/custom/netboot/compute.postinstall " +:+
  "synclists=/install/custom/netboot/compute.synclists".

Definition buildUbuntu24CopycdsCompatibilityCommand : string :=
  concat_sep ScriptBuilder.newline
  ["if [ ! -d /install/ubuntu24.04/x86_64 ]; then";
   "  ubuntu_copycds_dir=$(find /install -maxdepth 1 -type d -name 'ubuntu24.04.*' | sort -V | tail -n 1)";
   "  if [ -n " +:+ quoted "$ubuntu_copycds_dir" +:+ " ] && [ -d " +:+ quoted "$ubuntu_copycds_dir/x86_64" +:+ " ]; then";
   "    ln -sfnT " +:+ quoted "$ubuntu_copycds_dir" +:+ " /install/ubuntu24.04";
   "  fi";
   "fi";
   "test -d /install/ubuntu24.04/x86_64"].

(** ** Patching xCAT's own script *)

Definition oldBlock : string :=
  concat_sep ScriptBuilder.newline
  ["        if ($tempdir =~ /^http.*/) {";
   "            $otherpkgsdir_internet .= " +:+ quoted "deb " +:+ " . $tempdir . " +:+ quoted "\n" +:+ ";";
   "        }";
   "        else {"].
Definition patchedBlock : string :=
  concat_sep ScriptBuilder.newline
  ["        if ($tempdir =~ /^(\[[^\]]+\]\s*)?http.*/) {";
   "            $otherpkgsdir_internet .= " +:+ quoted "deb " +:+ " . $tempdir . " +:+ quoted "\n" +:+ ";";
   "        }";
   "        else {"].

Definition patchUbuntu24GenimageOtherpkgdirContent (content : string) : outcome string :=
  if contains patchedBlock content then Ok content
  else
    match find_str oldBlock content with
    | None => Throw (RuntimeError "Unable to patch xCAT Ubuntu genimage otherpkgdir handling")
    | Some pos =>
        Ok (stake pos content +:+ patchedBlock +:+ sdrop (pos + String.length oldBlock) content)
    end.

Definition genimage_path : string := "/opt/xcat/share/xcat/netboot/ubuntu/genimage".

Definition patchUbuntu24GenimageOtherpkgdirHandling (opts : Options) : M World unit :=
  if dryRun opts then skip
  else
    input ← stream_read genimage_path;
    match input with
    | None => throw (RuntimeError ("Unable to open xCAT Ubuntu genimage script at " +:+ genimage_path))
    | Some original =>
        patched ← lift (patchUbuntu24GenimageOtherpkgdirContent original);
        if String.eqb patched original then skip
        else
          output ← stream_write genimage_path patched;
          if negb output
          then throw (RuntimeError ("Unable to write xCAT Ubuntu genimage script at " +:+ genimage_path))
          else skip
    end.

Definition installNetbootPrefix : string := "/install/netboot/".

Definition cleanStatelessRootImage `{Machine} (opts : Options) (chroot : string) : M World unit :=
  if empty chroot then throw (LogicError "Refusing to clean an empty xCAT root image path")
  else
    let normalized := lexically_normal chroot in
    if negb (starts_with installNetbootPrefix normalized) then
      throw (LogicError ("Refusing to clean unexpected xCAT root image path " +:+ normalized))
    else if dryRun opts then skip
    else
      there ← ask (fun w => fs_exists w chroot);
      if negb there then skip
      else
        error ← remove_all chroot;
        match error with
        | Some message =>
            throw (RuntimeError ("Unable to remove stale xCAT root image directory " +:+ normalized +:+ ": " +:+ message))
        | None => skip
        end.

(** ** The head node *)

Definition xcatHttpServiceName (headnodeOS : OS) : outcome string :=
  t ← getPackageType headnodeOS; Ok (if decide (t = PackageType.DEB) then "apache2" else "httpd").

Definition xcatUsesKeaDhcpBackend (headnodeOS : OS) : outcome bool :=
  platform ← getPlatform headnodeOS;
  Ok (bool_decide (platform = Platform.ubuntu2404) || bool_decide (platform = Platform.el10)).

Definition xcatDhcpServiceName (headnodeOS : OS) : outcome string :=
  kea ← xcatUsesKeaDhcpBackend headnodeOS;
  if negb kea then Ok "dhcpd"
  else
    platform ← getPlatform headnodeOS;
    Ok (if decide (platform = Platform.ubuntu2404) then "kea-dhcp4-server" else "kea-dhcp4").

Record XcatNodeNetworkCommand := mkNetworkCommand { nc_command : string; mustSucceed : bool }.

Definition buildXcatAddNodesNetworkCommands (headnodeOS : OS) : outcome (list XcatNodeNetworkCommand) :=
  dhcpService ← xcatDhcpServiceName headnodeOS;
  kea ← xcatUsesKeaDhcpBackend headnodeOS;
  Ok (if kea : bool then
        [mkNetworkCommand "makehosts" false; mkNetworkCommand "makedns -n" true;
         mkNetworkCommand "makedhcp -n" true; mkNetworkCommand ("systemctl restart " +:+ dhcpService) true;
         mkNetworkCommand "makedhcp -a" true; mkNetworkCommand "makegocons" false]
      else
        [mkNetworkCommand "makehosts" false; mkNetworkCommand "makedhcp -n" false;
         mkNetworkCommand ("systemctl restart " +:+ dhcpService) true; mkNetworkCommand "makedns -n" false;
         mkNetworkCommand "makegocons" false]).

Definition buildXcatPackageInstallCommands (headnodeOS computeOS : OS) : outcome (list string) :=
  headnode ← getPackageType headnodeOS;
  match headnode with
  | PackageType.DEB =>
      Ok ["env DEBIAN_FRONTEND=noninteractive apt install -y xcat";
          "env DEBIAN_FRONTEND=noninteractive apt install -y ipmitool";
          "env DEBIAN_FRONTEND=noninteractive apt install -y debootstrap"]
  | PackageType.RPM =>
      compute ← getPackageType computeOS;
      Ok (["dnf -y install xCAT"; "dnf -y install ipmitool"; "dnf -y install createrepo_c"] ++
          (if decide (compute = PackageType.DEB) then ["dnf -y install debootstrap"] else []))
  end.

(** ** Enterprise Linux templates *)

Definition getEnterpriseLinuxTemplateVersion (nodeOS : OS) : outcome string :=
  platform ← getPlatform nodeOS;
  match platform with
  | Platform.el8 => Ok "rhels8"
  | Platform.el9 => Ok "rhels9"
  | Platform.el10 => Ok "rhels10"
  | Platform.ubuntu2404 => UB
  end.

Definition getEnterpriseLinuxCloneAliases (nodeOS : OS) : outcome (list (string * string)) :=
  platform ← getPlatform nodeOS;
  match platform with
  | Platform.el8 => Ok [("rocky", "rocky8"); ("ol", "ol8"); ("alma", "alma8")]
  | Platform.el9 => Ok [("rocky", "rocky9"); ("ol", "ol9"); ("alma", "alma9")]
  | Platform.el10 => Ok [("rocky", "rocky10"); ("ol", "ol10"); ("alma", "alma10")]
  | Platform.ubuntu2404 => UB
  end.

(** The commands the format string joins by commas, which are split again. *)
Definition createSymlinkCommands (templateVersion folder version : string) : list string :=
  let link (place source target : string) : string :=
    "ln -sf /opt/xcat/share/xcat/" +:+ place +:+ "/rh/" +:+ source +:+
    " /opt/xcat/share/xcat/" +:+ place +:+ "/" +:+ folder +:+ "/" +:+ target in
  let same (place name suffix : string) : string :=
    link place (name +:+ "." +:+ templateVersion +:+ suffix) (name +:+ "." +:+ version +:+ suffix) in
  [same "netboot" "compute" ".x86_64.exlist"; same "netboot" "compute" ".x86_64.pkglist";
   same "netboot" "compute" ".x86_64.postinstall"; same "netboot" "service" ".x86_64.exlist";
   same "netboot" "service" ".x86_64.otherpkgs.pkglist"; same "netboot" "service" ".x86_64.pkglist";
   same "netboot" "service" ".x86_64.postinstall"; same "install" "compute" ".pkglist";
   same "install" "compute" ".tmpl"; same "install" "service" ".pkglist";
   same "install" "service" ".tmpl"; same "install" "service" ".x86_64.otherpkgs.pkglist"].

Definition buildEnterpriseLinuxTemplateAliasCommands (nodeOS : OS) : outcome (list string) :=
  templateVersion ← getEnterpriseLinuxTemplateVersion nodeOS;
  cloneAliases ← getEnterpriseLinuxCloneAliases nodeOS;
  Ok (cloneAliases ≫= fun alias => createSymlinkCommands templateVersion alias.1 alias.2).

Definition getLocalOtherPkgRepoPath (nodeOS : OS) : outcome string :=
  version ← getOSImageDistroVersion nodeOS;
  arch ← toString <$> getArch nodeOS;
  Ok (path_append (path_append "/install/post/otherpkgs" version) arch).

Definition getKernelPackagesForGenimage (nodeOS : OS) (kernelVersion : string) : outcome (list string) :=
  platform ← getPlatform nodeOS;
  match platform with
  | Platform.el8 =>
      Ok ["kernel-" +:+ kernelVersion; "kernel-devel-" +:+ kernelVersion; "kernel-core-" +:+ kernelVersion;
          "kernel-modules-" +:+ kernelVersion]
  | Platform.el9 | Platform.el10 =>
      Ok ["kernel-" +:+ kernelVersion; "kernel-devel-" +:+ kernelVersion; "kernel-core-" +:+ kernelVersion;
          "kernel-modules-" +:+ kernelVersion; "kernel-modules-core-" +:+ kernelVersion]
  | Platform.ubuntu2404 => UB
  end.

(** ** Fabric drivers and kernels *)

Record XcatInfinibandPlan := mkPlan {
  otherPackages : list string;
  kernelVersion : option string;
  localRepoName : option string;
}.

Definition buildXcatInfinibandPlan (ofed : ClusterData.OFED) (nodeOS : OS) (configuredKernel : option string)
    (runningKernel : string) : outcome XcatInfinibandPlan :=
  platform ← getPlatform nodeOS;
  match platform with
  | Platform.ubuntu2404 =>
      if decide (ClusterData.o_kind ofed <> OFEDKind.Inbox) then
        Throw (InvalidArgument
          "xCAT Ubuntu 24.04 compute-node OFED staging only supports inbox RDMA packages today")
      else Ok (mkPlan ["rdma-core"; "ibverbs-utils"; "ibverbs-providers"; "infiniband-diags"] None None)
  | Platform.el8 | Platform.el9 | Platform.el10 =>
      match ClusterData.o_kind ofed with
      | OFEDKind.Inbox => Ok (mkPlan ["@infiniband"] None None)
      | OFEDKind.Doca =>
          let version := default runningKernel configuredKernel in
          Ok (mkPlan [] (Some version) (Some ("doca-kernel-" +:+ version)))
      | OFEDKind.Oracle => Throw (LogicError "Oracle RDMA release is not yet supported")
      end
  end.

Definition selectXcatImageKernelVersion (ofed : option ClusterData.OFED) (nodeOS : OS)
    (configuredKernel : option string) (runningKernel : string) : outcome (option string) :=
  match configuredKernel with
  | Some kernel => Ok (Some kernel)
  | None =>
      match ofed with
      | None => Ok None
      | Some ofed => kernelVersion <$> buildXcatInfinibandPlan ofed nodeOS None runningKernel
      end
  end.

Definition buildXcatKernelPackageNames (nodeOS : OS) : outcome (list string) :=
  platform ← getPlatform nodeOS;
  match platform with
  | Platform.el8 =>
      Ok ["kernel"; "kernel-devel"; "kernel-headers"; "kernel-core"; "kernel-modules"; "kernel-modules-extra"]
  | Platform.el9 | Platform.el10 =>
      Ok ["kernel"; "kernel-devel"; "kernel-headers"; "kernel-core"; "kernel-modules"; "kernel-modules-core";
          "kernel-modules-extra"]
  | Platform.ubuntu2404 => UB
  end.

Definition buildXcatKernelPackages (nodeOS : OS) (kernelVersion : string) : outcome string :=
  packages ← buildXcatKernelPackageNames nodeOS;
  Ok (foldl (fun output packageName =>
        (if empty output then output else output +:+ " ") +:+ packageName +:+ "-" +:+ kernelVersion) "" packages).

Definition rockyKernelPackageRepositoryComponent (nodeOS : OS) (packageName : string) : outcome string :=
  platform ← getPlatform nodeOS;
  match platform with
  | Platform.el8 => Ok "BaseOS"
  | Platform.el9 | Platform.el10 =>
      Ok (if String.eqb packageName "kernel-devel" || String.eqb packageName "kernel-headers"
          then "AppStream" else "BaseOS")
  | Platform.ubuntu2404 => UB
  end.

Definition buildRockyKernelPackageUrl (nodeOS : OS) (packageName kernelVersion : string) : outcome (option string) :=
  distro ← getDistro nodeOS;
  if decide (distro <> Distro.Rocky) then Ok None
  else
    version ← getVersion nodeOS;
    repo ← rockyKernelPackageRepositoryComponent nodeOS packageName;
    arch ← toString <$> getArch nodeOS;
    Ok (Some ("https://download.rockylinux.org/pub/rocky/" +:+ version +:+ "/" +:+ repo +:+ "/" +:+ arch +:+
      "/os/Packages/k/" +:+ packageName +:+ "-" +:+ kernelVersion +:+ ".rpm")).

(** The lines of the downloads, [None] as soon as a package has no URL. *)
Fixpoint fallbackDownloads (nodeOS : OS) (kernelVersion destinationDirectory : string) (packages : list string)
  : outcome (option (list string)) :=
  match packages with
  | [] => Ok (Some [])
  | packageName :: packages =>
      packageUrl ← buildRockyKernelPackageUrl nodeOS packageName kernelVersion;
      match packageUrl with
      | None => Ok None
      | Some packageUrl =>
          rest ← fallbackDownloads nodeOS kernelVersion destinationDirectory packages;
          let download := "    curl -fsSL --retry 5 --retry-delay 2 --retry-connrefused -o " +:+ destinationDirectory +:+
            "/" +:+ packageName +:+ "-" +:+ kernelVersion +:+ ".rpm " +:+ packageUrl in
          Ok (option_map (cons download) rest)
      end
  end.

Definition buildRockyXcatKernelDownloadFallbackCommand (nodeOS : OS) (kernelVersion destinationDirectory : string)
  : outcome (option string) :=
  distro ← getDistro nodeOS;
  if decide (distro <> Distro.Rocky) then Ok None
  else
    packages ← buildXcatKernelPackageNames nodeOS;
    downloads ← fallbackDownloads nodeOS kernelVersion destinationDirectory packages;
    match downloads with
    | None => Ok None
    | Some downloads =>
        kernelPackages ← buildXcatKernelPackages nodeOS kernelVersion;
        Ok (Some (unlines
          (["";
            "if ! dnf download " +:+ kernelPackages +:+ " --destdir " +:+ destinationDirectory +:+ "; then";
            "    rm -f " +:+ destinationDirectory +:+ "/*.rpm"] ++ downloads ++ ["fi"])))
    end.

(** ** Repositories of the images *)

Definition buildRockyXcatRepoUpstreamUrl (osinfo : OS) (repoId : string) : outcome (option string) :=
  distro ← getDistro osinfo;
  if decide (distro <> Distro.Rocky) then Ok None
  else
    let root := "https://dl.rockylinux.org/pub/rocky/" +:+ dec (m_majorVersion osinfo) in
    arch ← toString <$> getArch osinfo;
    let url (component : string) : string := root +:+ "/" +:+ component +:+ "/" +:+ arch +:+ "/os/" in
    Ok (if String.eqb repoId "appstream" then Some (url "AppStream")
        else if String.eqb repoId "baseos" then Some (url "BaseOS")
        else if String.eqb repoId "powertools" then Some (url "PowerTools")
        else if String.eqb repoId "crb" then Some (url "CRB")
        else None).

Definition extractOpenHpcVersionFromMirrorUrl (currentUri : string) : option string :=
  match find_str "/openhpc/" currentUri with
  | None => None
  | Some begin =>
      let rest := sdrop (begin + String.length "/openhpc/") currentUri in
      match find_char "/" rest with
      | None => None
      | Some versionEnd => Some (stake versionEnd rest)
      end
  end.

Definition buildXcatRepoUpstreamUrl (repoId currentUri : string) (osinfo : OS) : outcome (option string) :=
  rockyUpstream ← buildRockyXcatRepoUpstreamUrl osinfo repoId;
  match rockyUpstream with
  | Some url => Ok (Some url)
  | None =>
      arch ← toString <$> getArch osinfo;
      let major := dec (m_majorVersion osinfo) in
      if String.eqb repoId "epel" then
        Ok (Some ("https://download.fedoraproject.org/pub/epel/" +:+ major +:+ "/Everything/" +:+ arch +:+ "/"))
      else if negb (String.eqb repoId "OpenHPC") && negb (String.eqb repoId "OpenHPC-Updates") then Ok None
      else
        match extractOpenHpcVersionFromMirrorUrl currentUri with
        | None => Ok None
        | Some ohpcVersion =>
            let root := "https://repos.openhpc.community/OpenHPC/" +:+ ohpcVersion in
            Ok (Some (if String.eqb repoId "OpenHPC" then root +:+ "/EL_" +:+ major +:+ "/"
                      else root +:+ "/updates/EL_" +:+ major +:+ "/"))
        end
  end.

Definition no_uri (repo : RPMRepository) : string :=
  "Expecting value for repository URI " +:+ r_id repo +:+ ", found None, check " +:+ r_source repo.

Definition resolveXcatOsImageRepoUrl `{Machine} (opts : Options) (runner : IRunner) (repo : RPMRepository) (osinfo : OS)
  : M World string :=
  uri ← lift (unwrap (uri repo) (no_uri repo));
  let mirror := rstrip (mirrorBaseUrl opts) "/" in
  if negb (enableMirrors opts) || empty mirror || negb (starts_with mirror uri) then mret uri
  else
    metadataStatus ← getHttpStatus opts runner (rstrip uri "/" +:+ "/repodata/repomd.xml") 1;
    if starts_with "2" metadataStatus then mret uri
    else
      upstreamUrl ← lift (buildXcatRepoUpstreamUrl (r_id repo) uri osinfo);
      mret (default uri upstreamUrl).

(** ** Scripts *)

Definition buildXcatDocaPostInstallScript (kernelVersion docaRepoUrl localRepoUrl : string) : string :=
  unlines
  ["dnf -y --nogpgcheck \";
   "  --installroot=$IMG_ROOTIMGDIR \";
   "  --disablerepo='*' \";
   "  --enablerepo=appstream \";
   "  --enablerepo=baseos \";
   "  --enablerepo=crb \";
   "  --repofrompath=kernelpin,file:///install/kernels/" +:+ kernelVersion +:+ " \";
   "  install \";
   "  kernel-devel-" +:+ kernelVersion +:+ " \";
   "  kernel-headers-" +:+ kernelVersion +:+ " \";
   "  kernel-modules-extra-" +:+ kernelVersion;
   "install -d -m 0755 $IMG_ROOTIMGDIR/lib/modules/" +:+ kernelVersion;
   "if [ -d $IMG_ROOTIMGDIR/usr/src/kernels/" +:+ kernelVersion +:+ " ]; then";
   "  ln -sfn /usr/src/kernels/" +:+ kernelVersion +:+ " $IMG_ROOTIMGDIR/lib/modules/" +:+ kernelVersion +:+ "/build";
   "  ln -sfn /usr/src/kernels/" +:+ kernelVersion +:+ " $IMG_ROOTIMGDIR/lib/modules/" +:+ kernelVersion +:+ "/source";
   "fi";
   "if [ ! -e $IMG_ROOTIMGDIR/lib/modules/" +:+ kernelVersion +:+ "/build ]; then";
   "  echo " +:+ quoted ("Expected kernel build tree for " +:+ kernelVersion +:+ " inside the xCAT root image") +:+ " >&2";
   "  exit 1";
   "fi";
   "dnf -y --nogpgcheck \";
   "  --installroot=$IMG_ROOTIMGDIR \";
   "  --disablerepo='*' \";
   "  --enablerepo=appstream \";
   "  --enablerepo=baseos \";
   "  --enablerepo=crb \";
   "  --repofrompath=docaimage," +:+ docaRepoUrl +:+ " \";
   "  --repofrompath=dockernelimg," +:+ localRepoUrl +:+ " \";
   "  install \";
   "  --exclude=kernel \";
   "  --exclude=kernel-core \";
   "  --exclude=kernel-modules \";
   "  --exclude=kernel-modules-core \";
   "  --exclude=kernel-devel\* \";
   "  --exclude=kernel-headers\* \";
   "  doca-extra doca-ofed mlnx-ofa_kernel";
   "if ! chroot $IMG_ROOTIMGDIR rpm -q doca-extra doca-ofed mlnx-ofa_kernel >/dev/null 2>&1; then";
   "  echo " +:+ quoted "Expected the xCAT DOCA postinstall to install doca-extra, doca-ofed, and mlnx-ofa_kernel" +:+ " >&2";
   "  exit 1";
   "fi";
   "cleanup_doca_chroot() {";
   "  mountpoint -q $IMG_ROOTIMGDIR/dev && umount -R -l $IMG_ROOTIMGDIR/dev || :";
   "  mountpoint -q $IMG_ROOTIMGDIR/sys && umount -R -l $IMG_ROOTIMGDIR/sys || :";
   "  mountpoint -q $IMG_ROOTIMGDIR/proc && umount -l $IMG_ROOTIMGDIR/proc || :";
   "}";
   "trap cleanup_doca_chroot EXIT";
   "install -d -m 0755 $IMG_ROOTIMGDIR/proc $IMG_ROOTIMGDIR/sys $IMG_ROOTIMGDIR/dev";
   "mount -t proc proc $IMG_ROOTIMGDIR/proc";
   "mount --rbind /sys $IMG_ROOTIMGDIR/sys";
   "mount --make-rslave $IMG_ROOTIMGDIR/sys";
   "mount --rbind /dev $IMG_ROOTIMGDIR/dev";
   "mount --make-rslave $IMG_ROOTIMGDIR/dev";
   "if chroot $IMG_ROOTIMGDIR rpm -q mlnx-ofa_kernel-dkms >/dev/null 2>&1; then";
   "  chroot $IMG_ROOTIMGDIR dkms autoinstall -k " +:+ kernelVersion;
   "fi";
   "chroot $IMG_ROOTIMGDIR depmod -a " +:+ kernelVersion;
   "chroot $IMG_ROOTIMGDIR dracut --force /boot/initramfs-" +:+ kernelVersion +:+ ".img " +:+ kernelVersion;
   "cleanup_doca_chroot";
   "trap - EXIT"].

Definition formatDHCPInterfaces (interface : string) : string := interface.

Definition buildDHCPInterfacesCommand (interface : string) : string :=
  "chdef -t site dhcpinterfaces=" +:+ formatDHCPInterfaces interface.

(** ** DHCP *)

Section dhcp.
Context `{Asio}.

Definition buildNetworkDefinitionName (network : Network.Network) : string :=
  replace_char "." "_" (to_string (Network.m_address network)) +:+ "-" +:+
  replace_char "." "_" (to_string (Network.m_subnetMask network)).

(** [to_v4().to_uint()] *)
Definition to_v4_uint (a : address) : outcome Z := if is_v4 a then Ok (to_uint a) else Throw BadAddressCast.

(** The arithmetic is that of [uint32_t]. *)
Definition dynamicRange (subnetAddress subnetMask : Z) : outcome (Z * Z) :=
  let broadcastAddress := Z.lor subnetAddress (u32 (Z.lnot subnetMask)) in
  let firstUsableAddress := u32 (subnetAddress + 1) in
  let lastUsableAddress := u32 (broadcastAddress - 1) in
  if lastUsableAddress <? firstUsableAddress then
    Throw (InvalidArgument "Management network is too small for an xCAT DHCP dynamic range")
  else
    let preferredRangeEnd :=
      if u32 (firstUsableAddress + 2) <? lastUsableAddress then u32 (lastUsableAddress - 2) else lastUsableAddress in
    let availableAddresses := u32 (u32 (preferredRangeEnd - firstUsableAddress) + 1) in
    let rangeSize := Z.min 100 availableAddresses in
    let rangeStart := u32 (u32 (preferredRangeEnd - rangeSize) + 1) in
    Ok (rangeStart, preferredRangeEnd).

Definition defaultDHCPDynamicRangeFor (network : Network.Network) : outcome string :=
  subnetAddress ← to_v4_uint (Network.m_address network);
  subnetMask ← to_v4_uint (Network.m_subnetMask network);
  range ← dynamicRange subnetAddress subnetMask;
  Ok (to_string (address_v4 range.1) +:+ "-" +:+ to_string (address_v4 range.2)).

Definition buildDHCPDynamicRangeCommand (network : Network.Network) (interface : string) : outcome string :=
  range ← defaultDHCPDynamicRangeFor network;
  Ok ("chdef -t network " +:+ buildNetworkDefinitionName network +:+ " net=" +:+
    to_string (Network.m_address network) +:+ " mask=" +:+ to_string (Network.m_subnetMask network) +:+
    " mgtifname=" +:+ interface +:+ " dynamicrange=" +:+ range).
End dhcp.

Definition buildPrecreateMyPostscriptsCommand (enabled : bool) : string :=
  "chdef -t site precreatemypostscripts=" +:+ (if enabled then "YES" else "NO").

Definition buildXCATCredentialReadinessCheckCommand : string :=
  "bash -lc " +:+ quoted
    ("[ -s /etc/xcat/ca/ca-cert.pem ] && [ -s /etc/xcat/ca/private/ca-key.pem ] && " +:+
     "[ -s /etc/xcat/cert/server-cred.pem ] && [ -s /root/.xcat/client-cred.pem ] && " +:+
     "[ -s /home/conserver/.xcat/client-cred.pem ]").

(** ** Passwords *)

(** The loop over the characters, without the quotes around. *)
Fixpoint shellSingleQuote_loop (value : string) : outcome string :=
  match value with
  | "" => Ok ""
  | String chr value =>
      if Ascii.eqb chr "'" then rest ← shellSingleQuote_loop value; Ok ("'" +:+ quoted "'" +:+ "'" +:+ rest)
      else if Ascii.eqb chr "010" || Ascii.eqb chr "013" then
        Throw (InvalidArgument "Shell-quoted strings cannot contain newlines")
      else rest ← shellSingleQuote_loop value; Ok (String chr rest)
  end.

Definition shellSingleQuote (value : string) : outcome string :=
  body ← shellSingleQuote_loop value; Ok ("'" +:+ body +:+ "'").

Section nodes.
Context `{Asio}.

(** The node root password of all nodes. *)
Definition missing_password (node : Server.Node) : exn :=
  RuntimeError ("Node " +:+ Server.s_hostname (Server.n_server node) +:+ " is missing a root password").
Definition differing_password (node : Server.Node) : exn :=
  RuntimeError ("xCAT stateless images require the same node_root_password for all compute nodes; " +:+
    Server.s_hostname (Server.n_server node) +:+ " differs").

Fixpoint check_passwords (firstPassword : string) (nodes : list Server.Node) : outcome unit :=
  match nodes with
  | [] => Ok tt
  | node :: nodes =>
      match Server.m_node_root_password node with
      | None => Throw (missing_password node)
      | Some nodePassword =>
          if negb (String.eqb nodePassword firstPassword) then Throw (differing_password node)
          else check_passwords firstPassword nodes
      end
  end.

Definition getStatelessNodeRootPassword (nodes : list Server.Node) : outcome string :=
  firstNode ← deref (head nodes);
  match Server.m_node_root_password firstNode with
  | None => Throw (missing_password firstNode)
  | Some firstPassword => _ ← check_passwords firstPassword nodes; Ok firstPassword
  end.
End nodes.

Definition buildSetRootPasswordPostinstallSnippet (password : string) : outcome string :=
  quotedPassword ← shellSingleQuote password;
  Ok (unlines
   ["if [ -x " +:+ quoted "$IMG_ROOTIMGDIR/usr/sbin/chpasswd" +:+ " ]; then";
    "  printf 'root:%s\n' " +:+ quotedPassword +:+ " | chroot " +:+ quoted "$IMG_ROOTIMGDIR" +:+ " /usr/sbin/chpasswd || exit 1";
    "elif [ -x " +:+ quoted "$IMG_ROOTIMGDIR/sbin/chpasswd" +:+ " ]; then";
    "  printf 'root:%s\n' " +:+ quotedPassword +:+ " | chroot " +:+ quoted "$IMG_ROOTIMGDIR" +:+ " /sbin/chpasswd || exit 1";
    "else";
    "  echo " +:+ quoted "Unable to set root password: chpasswd not found in xCAT image" +:+ " >&2";
    "  exit 1";
    "fi"]).

Definition buildFinalizeStatelessRootImageScript (os : OS) (rootImage password : string)
  : outcome ScriptBuilder.ScriptBuilder :=
  quotedPassword ← shellSingleQuote password;
  quotedImage ← shellSingleQuote rootImage;
  construct
    (_ ← ScriptBuilder.addCommand "# Set xCAT system root password";
     _ ← ScriptBuilder.addCommand ("password=" +:+ quotedPassword);
     _ ← ScriptBuilder.addCommand ("chtab key=system passwd.username=root passwd.password=" +:+ quoted "$password" +:+
       " passwd.cryptmethod=sha512");
     _ ← ScriptBuilder.addCommand "# Set xCAT root image root password";
     _ ← ScriptBuilder.addCommand ("rootimg=" +:+ quotedImage);
     ScriptBuilder.addCommand (concat_sep ScriptBuilder.newline
      ["rootfs=";
       "for candidate in " +:+ quoted "$rootimg" +:+ " " +:+ quoted "$rootimg/rootimg" +:+ "; do";
       "  if [ -x " +:+ quoted "$candidate/usr/sbin/chpasswd" +:+ " ] || [ -x " +:+ quoted "$candidate/sbin/chpasswd" +:+ " ]; then";
       "    rootfs=" +:+ quoted "$candidate";
       "    break";
       "  fi";
       "done";
       "if [ -z " +:+ quoted "$rootfs" +:+ " ]; then";
       "  echo " +:+ quoted "Unable to set root password: chpasswd not found in xCAT image" +:+ " >&2";
       "  exit 1";
       "fi";
       "if [ -x " +:+ quoted "$rootfs/usr/sbin/chpasswd" +:+ " ]; then";
       "  printf 'root:%s\n' " +:+ quoted "$password" +:+ " | chroot " +:+ quoted "$rootfs" +:+ " /usr/sbin/chpasswd";
       "elif [ -x " +:+ quoted "$rootfs/sbin/chpasswd" +:+ " ]; then";
       "  printf 'root:%s\n' " +:+ quoted "$password" +:+ " | chroot " +:+ quoted "$rootfs" +:+ " /sbin/chpasswd";
       "else";
       "  echo " +:+ quoted "Unable to set root password: chpasswd not found in xCAT image" +:+ " >&2";
       "  exit 1";
       "fi"]))
    (ScriptBuilder.ScriptBuilder_make os).

(** ** Management controllers *)

Definition buildIpmitoolCommand (address username password subcommand : string) : outcome string :=
  address ← shellSingleQuote address;
  username ← shellSingleQuote username;
  password ← shellSingleQuote password;
  Ok ("ipmitool -I lanplus -H " +:+ address +:+ " -U " +:+ username +:+ " -P " +:+ password +:+ " " +:+ subcommand).

Section ipmi.
Context `{Asio} `{Machine} (opts : Options) (runner : IRunner).

(** What the script says to a node. *)
Definition ipmi_lines (description subcommand : string) (node : Server.Node) (bmc : Server.BMC) : outcome string :=
  message ← shellSingleQuote ("Trying direct IPMI fallback for " +:+ description +:+ " on " +:+
    Server.s_hostname (Server.n_server node));
  command ← buildIpmitoolCommand (Server.b_address bmc) (Server.b_username bmc) (Server.b_password bmc) subcommand;
  Ok (unlines ["echo " +:+ message; command +:+ " || rc=$?"]).

(** The script and [hasBMC] *)
Fixpoint ipmi_script (description subcommand script : string) (hasBMC : bool) (nodes : list Server.Node)
  : outcome (string * bool) :=
  match nodes with
  | [] => Ok (script, hasBMC)
  | node :: nodes =>
      match Server.s_bmc (Server.n_server node) with
      | None => ipmi_script description subcommand script hasBMC nodes
      | Some bmc =>
          text ← ipmi_lines description subcommand node bmc;
          ipmi_script description subcommand (script +:+ text) true nodes
      end
  end.

Definition runDirectIpmiCommand (nodes : list Server.Node) (description subcommand : string) : M World Z :=
  r ← lift (ipmi_script description subcommand (unlines ["rc=0"]) false nodes);
  if negb r.2 then mret 1
  else
    result ← unsafe_cmd opts (r.1 +:+ unlines ["exit $rc"]);
    mret result.1.

Definition runIpmiCommandWithFallback (nodes : list Server.Node) (xcatCommand subcommand description : string)
  : M World unit :=
  exitCode ← executeCommand runner xcatCommand;
  if exitCode =? 0 then skip
  else _ ← runDirectIpmiCommand nodes description subcommand; skip.

Definition buildBmcNodeSelector (nodes : list Server.Node) : string :=
  foldl (fun selector node =>
    match Server.s_bmc (Server.n_server node) with
    | None => selector
    | Some _ => (if empty selector then selector else selector +:+ ",") +:+ Server.s_hostname (Server.n_server node)
    end) "" nodes.
End ipmi.
