(* ===== verification/Nfs.v ===== *)
(** * NFS

    The class [NFS] of [src/NFS.cpp]: the script that exports directories of
    the head node, and the one that has an image mount them. *)

From stdpp Require Import base strings list gmap.
From Stdlib Require Import ZArith Lia Ascii.
From S2P Require Import Prelude CppString External Enums Os AnswerFileData ScriptBuilder XcatCommands.

Record NFS `{Asio} := mkNFS {
  m_directoryName : string;
  m_directoryPath : string;
  m_permissions : string;
  m_fullPath : string;
  m_address : address;
}.

Section nfs.
Context `{Asio}.

Definition setFullPath : M NFS unit := modify (fun n =>
  mkNFS _ (m_directoryName n) (m_directoryPath n) (m_permissions n)
    (m_directoryPath n +:+ "/" +:+ m_directoryName n) (m_address n)).

Definition NFS_make (directoryName directoryPath : string) (a : address) (permissions : string) : outcome NFS :=
  construct setFullPath (mkNFS _ directoryName directoryPath permissions "" a).
End nfs.

Definition tab : string := String "009" "".
Definition exports : string := "/etc/exports".

Definition firewall_rules : string :=
  concat_sep ScriptBuilder.newline
  ["# Update firewall rules";
   tab +:+ "if systemctl is-active --quiet firewalld.service; then";
   tab +:+ "    firewall-cmd --permanent --add-service={nfs,mountd,rpc-bind}";
   tab +:+ "    firewall-cmd --reload";
   tab +:+ "fi"].

(** Given the provisioner of the answer file. *)
Definition installScript (provisioner : string) (osinfo : OS) : outcome ScriptBuilder :=
  t ← getPackageType osinfo;
  let nfsServerPackage := match t with PackageType.DEB => "nfs-kernel-server" | PackageType.RPM => "nfs-utils" end in
  let nfsServerServices :=
    match t with PackageType.DEB => "rpcbind nfs-kernel-server" | PackageType.RPM => "rpcbind nfs-server" end in
  construct
    (_ ← addNewLine;
     _ ← addCommand "# Variables";
     _ ← addCommand "HEADNODE=$(hostname -s)";
     _ ← addNewLine;
     _ ← addCommand "# install packages";
     _ ← addPackage nfsServerPackage;
     _ ← addNewLine;
     _ ← addCommand "# Add exports to /etc/exports";
     _ ← addLineToFile exports "^/home[[:space:]]" "/home *(rw,no_subtree_check,fsid=10,no_root_squash)";
     _ ← addLineToFile exports "/opt/ohpc/pub" "/opt/ohpc/pub *(ro,no_subtree_check,fsid=11)";
     _ ← addLineToFile exports "/opt/spack" "/opt/spack *(ro,no_subtree_check)";
     _ ← when (String.eqb provisioner "xcat")
           (_ ← addLineToFile exports "/tftpboot" "/tftpboot *(rw,no_root_squash,sync,no_subtree_check)";
            _ ← addLineToFile exports "/install" "/install *(rw,no_root_squash,sync,no_subtree_check)";
            addNewLine);
     _ ← enableService nfsServerServices;
     _ ← addCommand "exportfs -a > /dev/null 2>&1 || :";
     _ ← addNewLine;
     addCommand firewall_rules)
    (ScriptBuilder_make osinfo).

Definition imageInstallScript (osinfo : OS) (args : ImageInstallArgs) : outcome ScriptBuilder :=
  t ← getPackageType osinfo;
  let nfsClientPackage := match t with PackageType.DEB => "nfs-common" | PackageType.RPM => "nfs-utils" end in
  construct
    (_ ← addNewLine;
     _ ← addCommand "# Define variables (for shell script execution)";
     _ ← addCommand ("IMAGE=" +:+ quoted (a_imageName args));
     _ ← addCommand ("ROOTFS=" +:+ quoted (a_rootfs args));
     _ ← addCommand ("POSTINSTALL=" +:+ quoted (a_postinstall args));
     _ ← addCommand ("PKGLIST=" +:+ quoted (a_pkglist args));
     _ ← addCommand "HEADNODE=$(hostname -s)";
     _ ← addNewLine;
     _ ← addCommand "# Add autofs commands to postinstall";
     _ ← addLineToFile "${POSTINSTALL}" "autofs" "chroot \${IMG_ROOTIMGDIR} systemctl enable autofs";
     _ ← addCommand ("chmod +x " +:+ quoted "${POSTINSTALL}");
     _ ← addNewLine;
     _ ← addCommand "# Add required packages to the image";
     _ ← addLineToFile "${PKGLIST}" nfsClientPackage nfsClientPackage;
     _ ← addLineToFile "${PKGLIST}" "autofs" "autofs";
     _ ← addNewLine;
     _ ← addCommand "# Configure autofs";
     _ ← addLineToFile "${ROOTFS}/etc/auto.master" "/home" "/home   /etc/auto.home";
     _ ← addLineToFile "${ROOTFS}/etc/auto.master" "/opt/ohpc/pub" "/opt/ohpc/pub   /etc/auto.ohpc";
     _ ← addNewLine;
     _ ← addLineToFile "${ROOTFS}/etc/auto.home" "home-map"
           "* -fstype=nfs,rw,no_subtree_check,no_root_squash ${HEADNODE}:/home/&";
     _ ← addNewLine;
     _ ← addLineToFile "${ROOTFS}/etc/auto.ohpc" "ohpc-map"
           "* -fstype=nfs,ro,no_subtree_check ${HEADNODE}:/opt/ohpc/pub/&";
     _ ← addNewLine;
     _ ← addCommand "# Create mount points";
     _ ← addCommand "mkdir -p ${ROOTFS}/home ${ROOTFS}/opt/ohpc/pub || :";
     _ ← addNewLine;
     _ ← addCommand "# Update xCAT configuration";
     addCommand ("chdef -t osimage ${IMAGE} postinstall=" +:+ quoted "${POSTINSTALL}"))
    (ScriptBuilder_make osinfo).
