(* ===== verification/Confluent.v ===== *)
(** * The Confluent provisioner

    [src/services/confluent.cpp]: one script that sets Confluent up and builds
    the image of the compute nodes, put together from the commands of each
    part; then the nodes, the hosts file and the queue system's nodes.  The
    arguments of a format are evaluated in the order they are written in. *)

From stdpp Require Import base strings list gmap.
From Stdlib Require Import ZArith Lia Ascii.
From S2P Require Import Prelude CppString External Enums Options Os AnswerFileData World Runner.
From S2P Require ScriptBuilder Network Connection Server ClusterData Cluster OsService.

Local Open Scope Z_scope.

(** ** The head node *)

Definition buildFirewalldTrustedInterfaceCommands (internalNic : string) : string :=
  unlines
  ["";
   "# Configure the internal network interfaces as trusted on FirewallD";
   "if systemctl is-active --quiet firewalld.service; then";
   "    firewall-cmd --zone=trusted --change-interface=" +:+ internalNic +:+ " --permanent";
   "    firewall-cmd --reload";
   "fi"].

Definition buildHttpdTlsBootstrapCommands : string :=
  unlines
  ["";
   "# Some EL9 family lanes can leave zero-length default mod_ssl assets behind.";
   "if [ ! -s /etc/pki/tls/certs/localhost.crt ] || [ ! -s /etc/pki/tls/private/localhost.key ]; then";
   "    rm -f /etc/pki/tls/certs/localhost.crt /etc/pki/tls/private/localhost.key";
   "    openssl req -x509 -nodes -newkey rsa:2048 -sha256 -days 3650 \";
   "        -subj '/CN=localhost' \";
   "        -keyout /etc/pki/tls/private/localhost.key \";
   "        -out /etc/pki/tls/certs/localhost.crt";
   "    chmod 0600 /etc/pki/tls/private/localhost.key /etc/pki/tls/certs/localhost.crt";
   "    restorecon /etc/pki/tls/certs/localhost.crt /etc/pki/tls/private/localhost.key || :";
   "fi"].

Section confluent.
Context `{Asio} `{Machine} `{GKeyFile}.

Definition node_bmc (node : Server.Node) : string :=
  match Server.s_bmc (Server.n_server node) with
  | Some bmc =>
      "nodeattrib " +:+ Server.s_hostname (Server.n_server node) +:+ " bmcuser=" +:+ Server.b_username bmc +:+
      " bmcpass=" +:+ Server.b_password bmc +:+ ScriptBuilder.newline
  | None => ""
  end.

Definition node_hwaddr (node : Server.Node) (c : Connection.Connection) : string :=
  match Connection.m_mac c with
  | Some nodeMac =>
      "nodeattrib " +:+ Server.s_hostname (Server.n_server node) +:+ " net.hwaddr=" +:+ nodeMac +:+
      ScriptBuilder.newline
  | None => ""
  end.

Definition buildNodeDefinitionScript (networks : Connection.NetworkPtr -> Network.Network) (node : Server.Node)
    (image : string) : outcome string :=
  let nodeName := Server.s_hostname (Server.n_server node) in
  rootpwd ← unwrap (Server.m_node_root_password node) ("No root password configured for node " +:+ nodeName);
  c ← Server.getConnection networks (Server.n_server node) Network.Profile.Management;
  let nodeIp := to_string (Connection.c_address c) in
  cidr ← Network.subnetMaskToCIDR (Network.m_subnetMask (networks (Connection.m_network c)));
  let nodeCIDR := dec cidr in
  let grubpwd := rootpwd in
  Ok ((unlines
  ["";
   "nodedefine " +:+ nodeName;
   "nodeattrib " +:+ nodeName +:+ " net.ipv4_address=" +:+ nodeIp +:+ "/" +:+ nodeCIDR;
   "nodeattrib " +:+ nodeName +:+ " crypted.rootpassword=" +:+ rootpwd +:+ " crypted.grubpassword=" +:+ grubpwd])
    +:+ node_bmc node +:+ node_hwaddr node c +:+
    "nodedeploy -p " +:+ nodeName +:+ " -n " +:+ image +:+ "-diskless" +:+ ScriptBuilder.newline +:+
    "confluent2hosts -a everything" +:+ ScriptBuilder.newline).

Definition tab : string := String "009" "".

Definition buildHeadnodeHostsRepairScript (managementIp fqdn hostname : string) : string :=
  unlines
  ["";
   "# confluent2hosts rewrites /etc/hosts; restore the headnode mapping that";
   "# Slurm and other local services expect to resolve through the management IP.";
   "grep -Fqx '" +:+ managementIp +:+ "" +:+ tab +:+ "" +:+ fqdn +:+ " " +:+ hostname +:+ "' /etc/hosts || \";
   "    printf '" +:+ managementIp +:+ "\t" +:+ fqdn +:+ " " +:+ hostname +:+ "\n' >> /etc/hosts"].

Definition buildConfluentRepoRpmUrl (opts : Options) (os : OS) : outcome string :=
  a ← getArch os;
  let arch := toString a in
  let releasever := dec (m_majorVersion os) in
  let path := "lenovo-hpc/rpm/latest/el" +:+ releasever +:+ "/" +:+ arch +:+ "/lenovo-hpc-yum-1-1." +:+ arch +:+ ".rpm" in
  Ok (if enableMirrors opts then rstrip (mirrorBaseUrl opts) "/" +:+ "/" +:+ path
      else "https://hpc.lenovo.com/yum/latest/el" +:+ releasever +:+ "/" +:+ arch +:+ "/lenovo-hpc-yum-1-1." +:+
           arch +:+ ".rpm").

Definition bootstrap_deb : string :=
  unlines
  ["";
   "# Add the Confluent repository";
   "DEBIAN_FRONTEND=noninteractive apt update";
   "DEBIAN_FRONTEND=noninteractive apt install -y ca-certificates wget";
   "wget -q -O /etc/apt/trusted.gpg.d/confluent.gpg https://hpc.lenovo.com/apt/latest/lenovo-hpc.key";
   "cat > /etc/apt/sources.list.d/confluent.sources <<'EOF'";
   "Types: deb";
   "URIs: https://hpc.lenovo.com/apt/latest/noble";
   "Suites: noble";
   "Components: main";
   "Signed-By: /etc/apt/trusted.gpg.d/confluent.gpg";
   "EOF";
   "";
   "# Install required packages";
   "DEBIAN_FRONTEND=noninteractive apt update";
   "DEBIAN_FRONTEND=noninteractive apt install -y lenovo-confluent tftpd-hpa dnsmasq";
   "systemctl enable confluent --now";
   "systemctl enable apache2 --now";
   "systemctl enable tftpd-hpa --now";
   "systemctl stop dnsmasq || :";
   "systemctl enable dnsmasq";
   "";
   "# Enable the Confluent environment";
   "test -f /etc/profile.d/confluent_env.sh";
   "set +xeu # confluent_env.sh has undefined variables";
   "source /etc/profile.d/confluent_env.sh";
   "set -xeu";
   "command -v confluent2hosts >/dev/null";
   "command -v osdeploy >/dev/null";
   "command -v imgutil >/dev/null"].

Definition bootstrap_rpm (repoRpmUrl httpdTlsBootstrapCommands : string) : string :=
  unlines
  ["";
   "# Add the Confluent repository";
   "rpm -q lenovo-hpc-yum >/dev/null 2>&1 || rpm -Uvh " +:+ repoRpmUrl;
   "";
   "# Install required packages";
   "dnf install -y lenovo-confluent tftp-server dnsmasq";
   httpdTlsBootstrapCommands;
   "systemctl enable confluent --now";
   "systemctl enable httpd --now";
   "systemctl enable tftp.socket --now";
   "systemctl enable dnsmasq --now";
   "";
   "# Enable the Confluent environment";
   "test -f /etc/profile.d/confluent_env.sh";
   "set +xeu # confluent_env.sh has undefined variables";
   "source /etc/profile.d/confluent_env.sh";
   "set -xeu";
   "command -v confluent2hosts >/dev/null";
   "command -v osdeploy >/dev/null";
   "command -v imgutil >/dev/null"].

Definition buildConfluentBootstrapCommands (opts : Options) (os : OS) : outcome string :=
  t ← getPackageType os;
  match t with
  | PackageType.DEB => Ok bootstrap_deb
  | PackageType.RPM => url ← buildConfluentRepoRpmUrl opts os; Ok (bootstrap_rpm url buildHttpdTlsBootstrapCommands)
  end.

Definition buildConfluentImageName (os : OS) : outcome string :=
  d ← getDistro os;
  version ← getVersion os;
  arch ← getArch os;
  Ok (match d with
      | Distro.Rocky => "rocky-" | Distro.AlmaLinux => "alma-" | Distro.RHEL => "rhel-" | Distro.OL => "ol-"
      | Distro.Ubuntu => "ubuntu"
      end +:+ version +:+ "-" +:+ toString arch).

Definition buildConfluentImageSourceResolutionScript (os : OS) (image : string) : outcome string :=
  d ← getDistro os;
  Ok (if decide (d = Distro.Ubuntu) then
        unlines
  ["# Ubuntu imgutil builds from the build system repositories.";
   "# Confluent does not support imgutil build --source for Ubuntu."]
      else
        unlines
  ["export confluent_image_source=" +:+ quoted image;
   "if ! test -d " +:+ quoted "/var/lib/confluent/distributions/${confluent_image_source}" +:+ "; then";
   "    echo " +:+ quoted "Unable to locate Confluent distribution source ${confluent_image_source}" +:+ " >&2";
   "    find /var/lib/confluent/distributions -maxdepth 1 -mindepth 1 -type d -printf '%f\n' >&2 || :";
   "    exit 1";
   "fi"]).

Definition dnsmasq_conf (internalNic headnodeAddress domain : string) : string :=
  unlines
  ["";
   "# Keep dnsmasq away from systemd-resolved's loopback stub on Ubuntu.";
   "cat > /etc/dnsmasq.d/opencattus-confluent.conf <<'EOF'";
   "interface=" +:+ internalNic;
   "bind-interfaces";
   "except-interface=lo";
   "listen-address=" +:+ headnodeAddress;
   "domain=" +:+ domain;
   "expand-hosts";
   "local=/" +:+ domain +:+ "/";
   "EOF";
   "systemctl restart dnsmasq";
   "systemctl is-active --quiet dnsmasq"].

Definition buildConfluentDnsmasqCommands (os : OS) (internalNic headnodeAddress domain : string) : outcome string :=
  t ← getPackageType os;
  Ok (match t with PackageType.DEB => dnsmasq_conf internalNic headnodeAddress domain | PackageType.RPM => "" end).

Definition apache_publish : string :=
  unlines
  ["";
   "# Publish Confluent boot assets and API through Apache on Ubuntu.";
   "cat > /etc/apache2/conf-available/opencattus-confluent-public.conf <<'EOF'";
   "Alias /confluent-public/ /var/lib/confluent/public/";
   "Alias /confluent-public /var/lib/confluent/public";
   "";
   "<Directory /var/lib/confluent/public>";
   "    Options FollowSymLinks";
   "    AllowOverride None";
   "    Require all granted";
   "</Directory>";
   "EOF";
   "";
   "install -d -m 0755 /etc/confluent/apache";
   "export opencattus_apache_fqdn=$(hostname -f 2>/dev/null || hostname)";
   "export opencattus_apache_san=/etc/confluent/apache/opencattus-apache-san.cnf";
   "cat > " +:+ quoted "${opencattus_apache_san}" +:+ " <<EOF";
   "[req]";
   "distinguished_name=req_distinguished_name";
   "prompt=no";
   "req_extensions=v3_req";
   "[req_distinguished_name]";
   "CN=${opencattus_apache_fqdn}";
   "[v3_req]";
   "keyUsage=digitalSignature,keyEncipherment";
   "extendedKeyUsage=serverAuth";
   "subjectAltName=@alt_names";
   "[alt_names]";
   "DNS.1=${opencattus_apache_fqdn}";
   "DNS.2=$(hostname)";
   "EOF";
   "";
   "opencattus_dns_idx=3";
   "hostname -A 2>/dev/null | tr ' ' '\n' | sort -u | while read -r name; do";
   "    if [ -n " +:+ quoted "${name}" +:+ " ]; then";
   "        printf 'DNS.%s=%s\n' " +:+ quoted "${opencattus_dns_idx}" +:+ " " +:+ quoted "${name}" +:+ " >> " +:+ quoted "${opencattus_apache_san}";
   "        opencattus_dns_idx=$((opencattus_dns_idx + 1))";
   "    fi";
   "done";
   "";
   "opencattus_ip_idx=1";
   "(";
   "    ip -o addr show scope global up | awk '{ print $4 }' | cut -d/ -f1";
   "    ip -o -6 addr show scope link up | awk '{ print $4 }' | cut -d/ -f1 | cut -d% -f1";
   ") | sort -u | while read -r addr; do";
   "    if [ -n " +:+ quoted "${addr}" +:+ " ]; then";
   "        printf 'IP.%s=%s\n' " +:+ quoted "${opencattus_ip_idx}" +:+ " " +:+ quoted "${addr}" +:+ " >> " +:+ quoted "${opencattus_apache_san}";
   "        opencattus_ip_idx=$((opencattus_ip_idx + 1))";
   "    fi";
   "done";
   "";
   "openssl req -new -nodes -newkey rsa:2048 \";
   "    -keyout /etc/confluent/apache/opencattus-apache.key \";
   "    -out /etc/confluent/apache/opencattus-apache.csr \";
   "    -config " +:+ quoted "${opencattus_apache_san}";
   "openssl x509 -req \";
   "    -in /etc/confluent/apache/opencattus-apache.csr \";
   "    -CA /etc/confluent/tls/cacert.pem \";
   "    -CAkey /etc/confluent/tls/ca/private/cakey.pem \";
   "    -CAcreateserial \";
   "    -out /etc/confluent/apache/opencattus-apache.crt \";
   "    -days 3650 -sha256 \";
   "    -extensions v3_req -extfile " +:+ quoted "${opencattus_apache_san}";
   "chmod 0644 /etc/confluent/apache/opencattus-apache.crt";
   "chmod 0600 /etc/confluent/apache/opencattus-apache.key";
   "chown root:root /etc/confluent/apache/opencattus-apache.*";
   "";
   "cat > /etc/apache2/sites-available/opencattus-confluent-ssl.conf <<EOF";
   "<VirtualHost *:443>";
   "    ServerName ${opencattus_apache_fqdn}";
   "    SSLEngine on";
   "    SSLCertificateFile /etc/confluent/apache/opencattus-apache.crt";
   "    SSLCertificateKeyFile /etc/confluent/apache/opencattus-apache.key";
   "";
   "    ProxyPreserveHost On";
   "    ProxyPass /confluent-api/ http://127.0.0.1:4005/confluent-api/";
   "    ProxyPassReverse /confluent-api/ http://127.0.0.1:4005/confluent-api/";
   "";
   "    Alias /confluent-public/ /var/lib/confluent/public/";
   "    Alias /confluent-public /var/lib/confluent/public";
   "    <Directory /var/lib/confluent/public>";
   "        Options FollowSymLinks";
   "        AllowOverride None";
   "        Require all granted";
   "    </Directory>";
   "</VirtualHost>";
   "EOF";
   "";
   "a2enmod ssl proxy proxy_http headers";
   "a2enconf opencattus-confluent-public";
   "a2ensite opencattus-confluent-ssl";
   "apache2ctl configtest";
   "systemctl reload apache2"].

Definition buildConfluentHttpPublishCommands (os : OS) : outcome string :=
  t ← getPackageType os;
  Ok (match t with PackageType.DEB => apache_publish | PackageType.RPM => "" end).

Definition buildImgutilBuildCommand (os : OS) : outcome string :=
  d ← getDistro os;
  Ok (if decide (d = Distro.Ubuntu) then "imgutil build -y $scratchdir"
      else "imgutil build -y -s " +:+ quoted "$confluent_image_source" +:+ " $scratchdir").

Definition buildSpackModuleTree (os : OS) : outcome string :=
  d ← getDistro os;
  arch ← getArch os;
  let el (distro : string) := "linux-" +:+ distro +:+ dec (m_majorVersion os) +:+ "-" +:+ toString arch in
  match d with
  | Distro.RHEL => Ok (el "rhel")
  | Distro.AlmaLinux => Ok (el "almalinux")
  | Distro.Rocky => Ok (el "rocky")
  | Distro.OL => Ok (el "ol")
  | Distro.Ubuntu => version ← getVersion os; Ok ("linux-ubuntu" +:+ version +:+ "-" +:+ toString arch)
  end.

Definition buildUserSpackModulePathExport (os : OS) : outcome string :=
  tree ← buildSpackModuleTree os;
  Ok ("export MODULEPATH=/opt/spack/share/spack/lmod/" +:+ tree +:+ "/Core${MODULEPATH:+:$MODULEPATH}").

Definition buildNodeImageRepoFiles (os : OS) : outcome string :=
  d ← getDistro os;
  Ok (match d with
      | Distro.Rocky => "{epel,OpenHPC,rocky}.repo"
      | Distro.AlmaLinux => "{epel,OpenHPC,almalinux}.repo"
      | Distro.RHEL => "{epel,OpenHPC,rhel}.repo"
      | Distro.OL => "{epel,OpenHPC,oracle}.repo"
      | Distro.Ubuntu => ""
      end).

(** ** The image *)

Definition queueSystemNodePackage (queue : Server.QueueKind.t) : string :=
  match queue with
  | Server.QueueKind.SLURM => "ohpc-slurm-client"
  | Server.QueueKind.PBS => "openpbs-execution-ohpc"
  | Server.QueueKind.None => ""
  end.

Fixpoint joinPackages_loop (packages : list string) (joined : string) : string :=
  match packages with
  | [] => joined
  | package :: packages =>
      if empty package then joinPackages_loop packages joined
      else joinPackages_loop packages ((if empty joined then joined else joined +:+ " ") +:+ package)
  end.
Definition joinPackages (packages : list string) : string := joinPackages_loop packages "".

Definition buildNodeImagePackages (os : OS) (queue : Server.QueueKind.t) : outcome string :=
  let queuePackage := queueSystemNodePackage queue in
  platform ← getPlatform os;
  Ok (joinPackages
    match platform with
    | Platform.el8 => ["ohpc-base-compute"; queuePackage; "lmod-ohpc"; "hwloc-libs"; "lua-filesystem"; "lua-posix"]
    | Platform.el9 | Platform.el10 => ["ohpc-base-compute"; queuePackage; "lmod-ohpc"; "hwloc-libs"]
    | Platform.ubuntu2404 => ["ohpc-base-compute"; queuePackage; "lmod-ohpc"; "hwloc-ohpc"]
    end).

Definition buildNodeImageInstallCommand (os : OS) (queue : Server.QueueKind.t) : outcome string :=
  packages ← buildNodeImagePackages os queue;
  platform ← getPlatform os;
  Ok (match platform with
      | Platform.el8 => "dnf install -y --nogpg --enablerepo=powertools " +:+ packages
      | Platform.el9 | Platform.el10 => "dnf install -y --nogpg " +:+ packages
      | Platform.ubuntu2404 =>
          "DEBIAN_FRONTEND=noninteractive apt update && DEBIAN_FRONTEND=noninteractive apt install -y " +:+
          "ca-certificates && DEBIAN_FRONTEND=noninteractive apt update && " +:+
          "DEBIAN_FRONTEND=noninteractive apt install -y " +:+ packages
      end).

Definition buildConfluentHeadnodeSELinuxCommands (os : OS) : outcome string :=
  t ← getPackageType os;
  Ok (match t with
      | PackageType.DEB => "# SELinux is not configured on Ubuntu head nodes"
      | PackageType.RPM =>
          "# Configure SELinux to allow httpd to make connections" +:+ ScriptBuilder.newline +:+
          "setsebool -P httpd_can_network_connect=on"
      end).

Definition repository_sync_deb : string :=
  unlines
  ["";
   "# Install the APT sources and keys into the scratch image";
   "install -d $scratchdir/etc/apt/sources.list.d";
   "install -d $scratchdir/etc/apt/trusted.gpg.d";
   "if test -f /etc/apt/sources.list; then";
   "    \cp -va /etc/apt/sources.list $scratchdir/etc/apt/sources.list";
   "fi";
   "find /etc/apt/sources.list.d -maxdepth 1 \( -name '*.list' -o -name '*.sources' \) -exec \cp -va {} $scratchdir/etc/apt/sources.list.d/ \;";
   "find /etc/apt/trusted.gpg.d -maxdepth 1 -type f -exec \cp -va {} $scratchdir/etc/apt/trusted.gpg.d/ \;"].

Definition repository_sync_rpm (nodeImageRepoFiles : string) : string :=
  unlines
  ["";
   "# Install the GPG keys & repos";
   "\cp -va /etc/yum.repos.d/" +:+ nodeImageRepoFiles +:+ " $scratchdir/etc/yum.repos.d/"].

Definition buildNodeImageRepositorySyncCommands (os : OS) (nodeImageRepoFiles : string) : outcome string :=
  t ← getPackageType os;
  Ok (match t with PackageType.DEB => repository_sync_deb | PackageType.RPM => repository_sync_rpm nodeImageRepoFiles end).

Definition buildNodeImageChronyCommands (os : OS) (hnIp : string) : outcome string :=
  t ← getPackageType os;
  Ok (match t with
      | PackageType.DEB =>
  unlines
  ["";
   "# Install and configure chrony";
   "imgutil exec $scratchdir <<EOF";
   "set -xeu -o pipefail";
   "DEBIAN_FRONTEND=noninteractive apt update";
   "DEBIAN_FRONTEND=noninteractive apt install -y chrony";
   "sed -e '/^pool /d' -e '/^server .* iburst$/d' -i /etc/chrony/chrony.conf";
   "echo " +:+ quoted ("server " +:+ hnIp +:+ " iburst") +:+ " >> /etc/chrony/chrony.conf";
   "grep -HE '^server' /etc/chrony/chrony.conf";
   "systemctl enable chrony";
   "EOF"]
      | PackageType.RPM =>
  unlines
  ["";
   "# Install and configure chrony";
   "imgutil exec $scratchdir <<EOF";
   "set -xeu -o pipefail";
   "dnf install -y chrony";
   "sed -e '/^server .* iburst$/d' -i /etc/chrony.conf";
   "echo " +:+ quoted ("server " +:+ hnIp +:+ " iburst") +:+ " >> /etc/chrony.conf";
   "grep -HE '^server' /etc/chrony.conf";
   "systemctl enable chronyd";
   "EOF"]
      end).

Definition autofs_commands (installCommand hnIp : string) : string :=
  unlines
  ["";
   "# Install and configure nfs and autofs";
   "imgutil exec $scratchdir <<EOF";
   "set -xeu -o pipefail";
   installCommand;
   "mkdir -p /home /opt/ohpc/pub /opt/spack /opt/intel /opt/nvidia /scratch";
   "echo " +:+ quoted "/opt/ohpc/pub /etc/auto.ohpc" +:+ " > /etc/auto.master.d/ohpc.autofs";
   "echo " +:+ quoted ("* -nfsvers=4 " +:+ hnIp +:+ ":/opt/ohpc/pub/&") +:+ " > /etc/auto.ohpc";
   "";
   "echo " +:+ quoted "/home /etc/auto.home" +:+ " > /etc/auto.master.d/home.autofs";
   "echo " +:+ quoted ("* -nfsvers=4 " +:+ hnIp +:+ ":/home/&") +:+ " > /etc/auto.home";
   "";
   "echo " +:+ quoted "/opt/spack /etc/auto.spack" +:+ " > /etc/auto.master.d/spack.autofs";
   "echo " +:+ quoted ("* -nfsvers=4 " +:+ hnIp +:+ ":/opt/spack/&") +:+ " > /etc/auto.spack";
   "";
   "echo " +:+ quoted "/opt/intel /etc/auto.intel" +:+ " > /etc/auto.master.d/intel.autofs";
   "echo " +:+ quoted ("* -nfsvers=4 " +:+ hnIp +:+ ":/opt/intel/&") +:+ " > /etc/auto.intel";
   "";
   "echo " +:+ quoted "/opt/nvidia /etc/auto.nvidia" +:+ " > /etc/auto.master.d/nvidia.autofs";
   "echo " +:+ quoted ("* -nfsvers=4 " +:+ hnIp +:+ ":/opt/nvidia/&") +:+ " > /etc/auto.nvidia";
   "";
   "# Configure scratch area";
   "echo " +:+ quoted "/scratch /etc/auto.scratch" +:+ " > /etc/auto.master.d/scratch.autofs";
   "echo " +:+ quoted "local -fstype=xfs,rw :/dev/sda1" +:+ " > /etc/auto.scratch";
   "";
   "# Check that the mounts are correct";
   "grep -H " +:+ quoted hnIp +:+ " /etc/auto.{home,ohpc,spack,intel,nvidia} 2> /dev/null";
   "";
   "systemctl enable autofs";
   "EOF"].

Definition buildNodeImageAutofsCommands (os : OS) (hnIp : string) : outcome string :=
  t ← getPackageType os;
  Ok (autofs_commands
    match t with
    | PackageType.DEB =>
        "DEBIAN_FRONTEND=noninteractive apt update && DEBIAN_FRONTEND=noninteractive apt install -y autofs nfs-common"
    | PackageType.RPM => "dnf install -y autofs"
    end hnIp).

Definition buildNodeImageMotdCommands (os : OS) : outcome string :=
  t ← getPackageType os;
  Ok (match t with
      | PackageType.RPM => ""
      | PackageType.DEB =>
  unlines
  ["";
   "# Quiet down the dynamic Ubuntu login banner on the compute nodes";
   "imgutil exec $scratchdir <<EOF";
   "set -xeu -o pipefail";
   "if [ -d /etc/update-motd.d ]; then";
   "    chmod -x /etc/update-motd.d/* 2>/dev/null || :";
   "fi";
   ":> /etc/motd || :";
   "if [ -f /etc/default/motd-news ]; then";
   "    sed -i 's/^ENABLED=1/ENABLED=0/' /etc/default/motd-news";
   "fi";
   "systemctl disable motd-news.timer 2>/dev/null || :";
   "EOF"]
      end).

Definition buildNodeImageSlurmDefaultsCommand (os : OS) (hnIp : string) : outcome string :=
  t ← getPackageType os;
  Ok ("echo SLURMD_OPTIONS=\" +:+ ScriptBuilder.dquote +:+ "--conf-server " +:+ hnIp +:+ "\" +:+ ScriptBuilder.dquote +:+
    match t with PackageType.DEB => " > /etc/default/slurmd" | PackageType.RPM => " > /etc/sysconfig/slurmd" end).

Definition queue_commands_slurm (installCommand slurmDefaultsCommand : string) : string :=
  concat_sep ScriptBuilder.newline
  ["# Slurm node configuration";
   "\install -vD -m 0400 -o munge -g munge /etc/munge/munge.key       $scratchdir/etc/munge/munge.key";
   "\install -vD -m 0644 -o root  -g root  /etc/slurm/slurm.conf      $scratchdir/etc/slurm/slurm.conf";
   "imgutil exec $scratchdir <<EOF";
   "set -xeu -o pipefail";
   installCommand;
   "sed -e '/^account required pam_slurm.so/d' -i /etc/pam.d/sshd";
   "echo 'account required pam_slurm.so' >> /etc/pam.d/sshd";
   slurmDefaultsCommand;
   "chown munge: /etc/munge/munge.key";
   "systemctl enable munge";
   "systemctl enable slurmd";
   "EOF"].

Definition queue_commands_pbs (installCommand headnodeHostname : string) : string :=
  concat_sep ScriptBuilder.newline
  ["# PBS node configuration";
   "imgutil exec $scratchdir <<EOF";
   "set -xeu -o pipefail";
   installCommand;
   "cat > /etc/pbs.conf <<'END'";
   "PBS_SERVER=" +:+ headnodeHostname;
   "PBS_START_SERVER=0";
   "PBS_START_SCHED=0";
   "PBS_START_COMM=0";
   "PBS_START_MOM=1";
   "PBS_EXEC=/opt/pbs";
   "PBS_HOME=/var/spool/pbs";
   "PBS_CORE_LIMIT=4096";
   "PBS_SCP=/usr/bin/scp";
   "END";
   "test -x /opt/pbs/libexec/pbs_habitat && /opt/pbs/libexec/pbs_habitat || :";
   "mkdir -p /var/spool/pbs/mom_priv";
   "cat > /var/spool/pbs/mom_priv/config <<'END'";
   "\$clienthost " +:+ headnodeHostname;
   "\$usecp *:/home /home";
   "END";
   "systemctl enable pbs";
   "EOF"].

Definition queue_commands_none (installCommand : string) : string :=
  concat_sep ScriptBuilder.newline
  ["# No queue system selected; install the base OHPC tooling";
   "imgutil exec $scratchdir <<EOF";
   "set -xeu -o pipefail";
   installCommand;
   "EOF"].

Definition buildNodeImageQueueSystemCommands (os : OS) (queue : Server.QueueKind.t) (headnodeHostname hnIp : string)
  : outcome string :=
  installCommand ← buildNodeImageInstallCommand os queue;
  match queue with
  | Server.QueueKind.SLURM =>
      slurmDefaultsCommand ← buildNodeImageSlurmDefaultsCommand os hnIp;
      Ok (queue_commands_slurm installCommand slurmDefaultsCommand)
  | Server.QueueKind.PBS => Ok (queue_commands_pbs installCommand headnodeHostname)
  | Server.QueueKind.None => Ok (queue_commands_none installCommand)
  end.

(** ** The kernel of the image *)

Definition selectConfluentImageKernelVersion (ofed : option ClusterData.OFED) (configuredKernel : option string)
    (runningKernel : string) : option string :=
  match configuredKernel with
  | Some kernel => Some kernel
  | None =>
      match ofed with
      | Some o => if decide (ClusterData.o_kind o = OFEDKind.Doca) then Some runningKernel else None
      | None => None
      end
  end.

Definition buildConfluentKernelPackages (os : OS) (kernelVersion : string) : outcome string :=
  platform ← getPlatform os;
  match platform with
  | Platform.el8 =>
      Ok ("kernel-" +:+ kernelVersion +:+ " kernel-core-" +:+ kernelVersion +:+ " kernel-modules-" +:+ kernelVersion +:+
        " kernel-modules-extra-" +:+ kernelVersion)
  | Platform.el9 | Platform.el10 =>
      Ok ("kernel-" +:+ kernelVersion +:+ " kernel-core-" +:+ kernelVersion +:+ " kernel-modules-" +:+ kernelVersion +:+
        " kernel-modules-core-" +:+ kernelVersion +:+ " kernel-modules-extra-" +:+ kernelVersion)
  | Platform.ubuntu2404 => UB
  end.

Definition rocky_packages (os : OS) (component : string) : outcome string :=
  arch ← getArch os;
  version ← getVersion os;
  Ok ("https://download.rockylinux.org/pub/rocky/" +:+ version +:+ "/" +:+ component +:+ "/" +:+ toString arch +:+
    "/os/Packages/k").

Definition image_fallback_el8 (kernelVersion packageBase : string) : string :=
  unlines
  ["if ! dnf install --nogpg -y \";
   "    kernel-" +:+ kernelVersion +:+ " \";
   "    kernel-core-" +:+ kernelVersion +:+ " \";
   "    kernel-modules-" +:+ kernelVersion +:+ " \";
   "    kernel-modules-extra-" +:+ kernelVersion +:+ "; then";
   "    dnf install --nogpg -y \";
   "        " +:+ packageBase +:+ "/kernel-" +:+ kernelVersion +:+ ".rpm \";
   "        " +:+ packageBase +:+ "/kernel-core-" +:+ kernelVersion +:+ ".rpm \";
   "        " +:+ packageBase +:+ "/kernel-modules-" +:+ kernelVersion +:+ ".rpm \";
   "        " +:+ packageBase +:+ "/kernel-modules-extra-" +:+ kernelVersion +:+ ".rpm";
   "fi"].

Definition image_fallback_el9 (kernelVersion packageBase : string) : string :=
  unlines
  ["if ! dnf install --nogpg -y \";
   "    kernel-" +:+ kernelVersion +:+ " \";
   "    kernel-core-" +:+ kernelVersion +:+ " \";
   "    kernel-modules-" +:+ kernelVersion +:+ " \";
   "    kernel-modules-core-" +:+ kernelVersion +:+ " \";
   "    kernel-modules-extra-" +:+ kernelVersion +:+ "; then";
   "    dnf install --nogpg -y \";
   "        " +:+ packageBase +:+ "/kernel-" +:+ kernelVersion +:+ ".rpm \";
   "        " +:+ packageBase +:+ "/kernel-core-" +:+ kernelVersion +:+ ".rpm \";
   "        " +:+ packageBase +:+ "/kernel-modules-" +:+ kernelVersion +:+ ".rpm \";
   "        " +:+ packageBase +:+ "/kernel-modules-core-" +:+ kernelVersion +:+ ".rpm \";
   "        " +:+ packageBase +:+ "/kernel-modules-extra-" +:+ kernelVersion +:+ ".rpm";
   "fi"].

Definition buildRockyKernelImageFallbackCommands (os : OS) (kernelVersionExpr : string) : outcome (option string) :=
  d ← getDistro os;
  if decide (d <> Distro.Rocky) then Ok None
  else
    packageBase ← rocky_packages os "BaseOS";
    platform ← getPlatform os;
    match platform with
    | Platform.el8 => Ok (Some (image_fallback_el8 kernelVersionExpr packageBase))
    | Platform.el9 | Platform.el10 => Ok (Some (image_fallback_el9 kernelVersionExpr packageBase))
    | Platform.ubuntu2404 => UB
    end.

Definition support_fallback (kernelVersion packageBase : string) : string :=
  unlines
  ["if ! dnf install --nogpg -y kernel-devel-" +:+ kernelVersion +:+ " kernel-headers-" +:+ kernelVersion +:+ "; then";
   "    dnf install --nogpg -y \";
   "        " +:+ packageBase +:+ "/kernel-devel-" +:+ kernelVersion +:+ ".rpm \";
   "        " +:+ packageBase +:+ "/kernel-headers-" +:+ kernelVersion +:+ ".rpm";
   "fi"].

Definition buildRockyKernelSupportFallbackCommands (os : OS) (kernelVersionExpr : string) : outcome (option string) :=
  d ← getDistro os;
  if decide (d <> Distro.Rocky) then Ok None
  else
    arch ← getArch os;
    platform ← getPlatform os;
    repoComponent ← match platform with
                    | Platform.el8 => Ok "BaseOS"
                    | Platform.el9 | Platform.el10 => Ok "AppStream"
                    | Platform.ubuntu2404 => UB
                    end;
    packageBase ← rocky_packages os repoComponent;
    Ok (Some (support_fallback kernelVersionExpr packageBase)).

(** ** The fabric drivers of the image *)

Definition inbox_deb : string :=
  unlines
  ["";
   "imgutil exec $scratchdir <<EOF";
   "DEBIAN_FRONTEND=noninteractive apt install -y rdma-core ibverbs-providers perftest";
   "EOF"].
Definition inbox_rpm : string :=
  unlines
  ["";
   "imgutil exec $scratchdir <<EOF";
   "dnf group install -y --nogpg " +:+ quoted "Infiniband Support";
   "EOF"].

Definition doca_image_kernel : string := "${doca_image_kernel}".

Definition kernel_install (kernelPackages : string) : string :=
  unlines
  ["";
   "dnf install --nogpg -y \";
   "    " +:+ kernelPackages].
Definition support_install : string :=
  unlines
  ["";
   "dnf install --nogpg -y kernel-devel-${doca_image_kernel} kernel-headers-${doca_image_kernel}"].

Definition kernel_selected (kernelVersion kernelImageInstallCommands : string) : string :=
  unlines
  ["export doca_image_kernel=" +:+ kernelVersion;
   "imgutil exec $scratchdir <<EOF";
   "set -xeu -o pipefail";
   kernelImageInstallCommands;
   "EOF"].
Definition kernel_found : string :=
  unlines
  ["export doca_image_kernel=$(rpm --root " +:+ quoted "$scratchdir" +:+ " -q kernel-core --qf '%{INSTALLTIME} %{VERSION}-%{RELEASE}.%{ARCH}\n' | sort -n | tail -1 | cut -d' ' -f2-)"].

Definition doca_commands (kernelSelectionCommands kernelPackages kernelSupportInstallCommands : string) : string :=
  (unlines
  ["";
   "if ! test -f /etc/yum.repos.d/mlnx-doca.repo; then";
   "    echo " +:+ quoted "Expected /etc/yum.repos.d/mlnx-doca.repo for DOCA node image staging" +:+ " >&2";
   "    exit 1";
   "fi"]) +:+ kernelSelectionCommands +:+
  (concat_sep ScriptBuilder.newline
  ["";
   "if test -z " +:+ quoted "$doca_image_kernel" +:+ "; then";
   "    echo " +:+ quoted "Could not determine the Confluent node image kernel for DOCA staging" +:+ " >&2";
   "    exit 1";
   "fi";
   "if ! rpm --root " +:+ quoted "$scratchdir" +:+ " -q "]) +:+ kernelPackages +:+
  (unlines
  [" >/dev/null 2>&1; then";
   "    echo " +:+ quoted "Failed to stage the exact kernel payload ${doca_image_kernel} into the Confluent node image" +:+ " >&2";
   "    exit 1";
   "fi";
   "if ! test -f /etc/yum.repos.d/doca-kernel-${doca_image_kernel}.repo; then"]) +:+ kernelSupportInstallCommands +:+
  (unlines
  ["";
   "    /opt/mellanox/doca/tools/doca-kernel-support -k " +:+ quoted "${doca_image_kernel}";
   "    export doca_repo_rpm=$(bash -c " +:+ quoted "find /tmp/DOCA*/ -name 'doca-kernel-repo-*.rpm' -printf '%T@ %p\n' | sort -nk1 | tail -1 | awk '{print \$2}'" +:+ ")";
   "    if test -z " +:+ quoted "$doca_repo_rpm" +:+ "; then";
   "        echo " +:+ quoted "Failed to locate a generated DOCA kernel repo RPM for ${doca_image_kernel}" +:+ " >&2";
   "        exit 1";
   "    fi";
   "    dnf install --nogpg -y " +:+ quoted "$doca_repo_rpm";
   "fi";
   "export doca_repo_folder=$(perl -lane 'print $1 if /baseurl=file:\/\/(.*)/' /etc/yum.repos.d/doca-kernel-${doca_image_kernel}.repo)";
   "if test -z " +:+ quoted "$doca_repo_folder" +:+ "; then";
   "    echo " +:+ quoted "Could not determine the DOCA repo folder for image kernel ${doca_image_kernel}" +:+ " >&2";
   "    exit 1";
   "fi";
   "\cp -va /etc/yum.repos.d/mlnx-doca.repo $scratchdir/etc/yum.repos.d/";
   "\cp -va /etc/yum.repos.d/doca-kernel-${doca_image_kernel}.repo $scratchdir/etc/yum.repos.d/";
   "imgutil exec -v $doca_repo_folder:$doca_repo_folder $scratchdir <<EOF";
   "set -xeu -o pipefail"]) +:+ kernelSupportInstallCommands +:+
  (unlines
  ["";
   "dnf install --nogpg -y \";
   "    --exclude=kernel \";
   "    --exclude=kernel-core \";
   "    --exclude=kernel-modules \";
   "    --exclude=kernel-modules-core \";
   "    --exclude=kernel-devel\* \";
   "    --exclude=kernel-headers\* \";
   "    doca-extra doca-ofed mlnx-ofa_kernel";
   "EOF";
   "if ! rpm --root " +:+ quoted "$scratchdir" +:+ " -q doca-extra doca-ofed mlnx-ofa_kernel >/dev/null 2>&1; then";
   "    echo " +:+ quoted "Confluent DOCA image staging did not install doca-extra, doca-ofed, and mlnx-ofa_kernel into the scratch image" +:+ " >&2";
   "    exit 1";
   "fi"]).

Definition doca_deb : exn :=
  LogicError "DOCA staging is not supported for Ubuntu Confluent images yet".
Definition oracle_rdma : exn :=
  LogicError "Oracle RDMA is not yet supported in the Confluent node image path".

(** [value_or] evaluates its argument also when it is not needed. *)
Definition stage_doca (os : OS) (kernelVersion : option string) : outcome string :=
  t ← getPackageType os;
  match t with
  | PackageType.DEB => Throw doca_deb
  | PackageType.RPM =>
      fallback ← buildRockyKernelImageFallbackCommands os doca_image_kernel;
      kernelPackages ← buildConfluentKernelPackages os doca_image_kernel;
      let kernelImageInstallCommands := default (kernel_install kernelPackages) fallback in
      support ← buildRockyKernelSupportFallbackCommands os doca_image_kernel;
      let kernelSelectionCommands :=
        match kernelVersion with
        | Some kernelVersion => kernel_selected kernelVersion kernelImageInstallCommands
        | None => kernel_found
        end in
      Ok (doca_commands kernelSelectionCommands kernelPackages (default support_install support))
  end.

Definition buildNodeImageOFEDCommands (os : OS) (applicationNetworkConfigured : bool)
    (ofed : option ClusterData.OFED) (kernelVersion : option string) : outcome string :=
  match ofed with
  | Some o =>
      if negb applicationNetworkConfigured then Ok ""
      else
        match ClusterData.o_kind o with
        | OFEDKind.Inbox =>
            t ← getPackageType os;
            Ok (match t with PackageType.DEB => inbox_deb | PackageType.RPM => inbox_rpm end)
        | OFEDKind.Doca => stage_doca os kernelVersion
        | OFEDKind.Oracle => Throw oracle_rdma
        end
  | None => Ok ""
  end.

(** ** Nodes *)

Context (opts : Options) (osservice : OsService.IOSService) (cluster : ClusterData.Cluster) (answerfile : AnswerFile).

Definition headnode : Server.Server := Server.h_server (ClusterData.k_headnode cluster).
Definition headnodeOS : OS := Server.s_os headnode.
Definition computeOS : OS := Cluster.getComputeNodeOS cluster.
Definition queueKind : option Server.QueueKind.t := Server.q_kind <$> ClusterData.k_queueSystem cluster.

Definition addNode (image : string) (node : Server.Node) : M World unit :=
  script ← lift (buildNodeDefinitionScript (Cluster.networks cluster) node image);
  shell_cmd opts script.

Definition buildPbsNodeRegistrationCommand (hostname : string) : string :=
  "/opt/pbs/bin/qmgr -c 'list node " +:+ hostname +:+ "' >/dev/null 2>&1 || /opt/pbs/bin/qmgr -c 'create node " +:+
  hostname +:+ "'".

Definition addNodes (image : string) : M World unit := for_each (ClusterData.k_nodes cluster) (addNode image).

Definition registerPbsNodes : M World unit :=
  if decide (queueKind = Some Server.QueueKind.PBS) then
    _ ← for_each (ClusterData.k_nodes cluster) (fun node =>
          shell_cmd opts (buildPbsNodeRegistrationCommand (Server.s_hostname (Server.n_server node))));
    shell_cmd opts "systemctl restart pbs"
  else skip.

(** ** Everything in order *)

Definition headnode_address : outcome string :=
  c ← Server.getConnection (Cluster.networks cluster) headnode Network.Profile.Management;
  Ok (to_string (Connection.c_address c)).

Definition internal_interface : outcome string :=
  unwrap (nw_con_interface (management answerfile)) "Internal interface not found in [network_management]".

(** The fields of the script *)
Record Fields := mkFields {
  domain : string;
  confluentBootstrapCommands : string;
  confluentHttpPublishCommands : string;
  confluentDnsmasqCommands : string;
  confluentImageSourceResolutionScript : string;
  imgutilBuildCommand : string;
  headnodeSELinuxCommands : string;
  spackModulePathExport : string;
  nodeImageChronyCommands : string;
  nodeImageAutofsCommands : string;
  nodeImageMotdCommands : string;
  nodeImageRepositorySyncCommands : string;
  nodeImageQueueSystemCommands : string;
  hnIp : string;
  isoPath : string;
  trustedNetworkCommands : string;
  nodeImageOFEDCommands : string;
}.

Definition image_script (image : string) (f : Fields) : string :=
  let 'mkFields domain confluentBootstrapCommands confluentHttpPublishCommands confluentDnsmasqCommands
    confluentImageSourceResolutionScript imgutilBuildCommand headnodeSELinuxCommands spackModulePathExport
    nodeImageChronyCommands nodeImageAutofsCommands nodeImageMotdCommands nodeImageRepositorySyncCommands
    nodeImageQueueSystemCommands hnIp isoPath trustedNetworkCommands nodeImageOFEDCommands := f in
  unlines
  ["";
   confluentBootstrapCommands;
   "";
   confluentDnsmasqCommands;
   "";
   headnodeSELinuxCommands;
   "";
   trustedNetworkCommands;
   "";
   "# Add basic settings to allow a minimalist boot environment";
   "nodegroupattrib everything \";
   "    dns.servers=" +:+ hnIp +:+ " \";
   "    dns.domain=" +:+ domain +:+ " \";
   "    net.ipv4_gateway=" +:+ hnIp +:+ " \";
   "    deployment.useinsecureprotocols=always";
   "";
   "# Generate a keypair for internal cluster usage";
   "test -f ~/.ssh/id_ed25519 || ssh-keygen -f ~/.ssh/id_ed25519 -t ed25519 -N " +:+ quoted "";
   "";
   "# Configure the osdeploy parameters";
   "osdeploy initialize -u -s -k -l -p -a -t -g";
   "";
   confluentHttpPublishCommands;
   "";
   "# Import the OS ISO file.";
   "osdeploy import " +:+ isoPath +:+ " || :";
   confluentImageSourceResolutionScript;
   "";
   "# Create a temporary chroot to work as basis for the boot image";
   "export scratchdir=/var/tmp/opencattus-scratchdir";
   "rm -rf $scratchdir || :";
   "rm -rf /var/lib/confluent/public/os/" +:+ image +:+ "-diskless || :";
   imgutilBuildCommand;
   "";
   "\install -vD -m 0644 -o root  -g root  /etc/hosts                 $scratchdir/etc/hosts";
   "\install -vD -m 0644 -o root  -g root  /etc/passwd                $scratchdir/etc/passwd";
   "\install -vD -m 0644 -o root  -g root  /etc/group                 $scratchdir/etc/group";
   "\install -vD -m 0000 -o root  -g root  /etc/shadow                $scratchdir/etc/shadow";
   "\install -vD -m 0644 -o root  -g root  /etc/security/limits.conf  $scratchdir/etc/security/limits.conf";
   "";
   "#";
   "# Customize the image";
   "#";
   "";
   "# Sync the headnode package repositories into the image before any package";
   "# install, so universe (autofs) and the OHPC/confluent repos resolve. Under";
   "# `set -e` an unresolved package would otherwise abort the whole image build.";
   nodeImageRepositorySyncCommands;
   "";
   nodeImageChronyCommands;
   "";
   nodeImageAutofsCommands;
   "";
   nodeImageMotdCommands;
   "";
   nodeImageQueueSystemCommands;
   "";
   nodeImageOFEDCommands;
   "";
   "# Spack node configuration";
   "imgutil exec $scratchdir <<EOF";
   "cat <<'END' > /etc/profile.d/spack-env.sh";
   "#!/bin/bash";
   "";
   "if [ $EUID -eq 0 ] ; then";
   "    # Root gets full Spack functionality";
   "    source /opt/spack/share/spack/setup-env.sh";
   "    source /opt/spack/share/spack/spack-completion.bash";
   "else";
   "    # Normal users get access to prebuilt Spack modules";
   "    " +:+ spackModulePathExport;
   "fi";
   "";
   "export LMOD_IGNORE_CACHE=1";
   "END";
   "EOF";
   "";
   "";
   "";
   "# Pack the image from the temporary chroot and give a name";
   "imgutil pack $scratchdir/ " +:+ image +:+ "-diskless";
   "if test -n " +:+ quoted "${doca_image_kernel:-}" +:+ "; then";
   "    osdeploy updateboot " +:+ image +:+ "-diskless";
   "    if ! file /var/lib/confluent/public/os/" +:+ image +:+ "-diskless/boot/kernel | grep -F " +:+ quoted "$doca_image_kernel" +:+ " >/dev/null; then";
   "        echo " +:+ quoted ("Published Confluent boot kernel for " +:+ image +:+ "-diskless does not match ${doca_image_kernel}") +:+ " >&2";
   "        exit 1";
   "    fi";
   "fi";
   "";
   "# Ensure the diskless profile has a syncfiles so Confluent keeps";
   "# /etc/passwd and /etc/group in sync with the headnode at boot time.";
   "cat > /var/lib/confluent/public/os/" +:+ image +:+ "-diskless/syncfiles <<'SYNCFILES_EOF'";
   "MERGE:";
   "/etc/passwd";
   "/etc/group";
   "SYNCFILES_EOF";
   "";
   "# Remove the leftover files from the chroot";
   "rm -rf $scratchdir || :"].

Definition script_fields (image : string) (nodeImageKernel : option string) : outcome Fields :=
  bootstrap ← buildConfluentBootstrapCommands opts headnodeOS;
  publish ← buildConfluentHttpPublishCommands headnodeOS;
  nic ← internal_interface;
  ip ← headnode_address;
  dnsmasq ← buildConfluentDnsmasqCommands headnodeOS nic ip (Cluster.getDomainName cluster);
  source ← buildConfluentImageSourceResolutionScript computeOS image;
  imgutil ← buildImgutilBuildCommand computeOS;
  selinux ← buildConfluentHeadnodeSELinuxCommands headnodeOS;
  spack ← buildUserSpackModulePathExport computeOS;
  chrony ← buildNodeImageChronyCommands computeOS ip;
  autofs ← buildNodeImageAutofsCommands computeOS ip;
  motd ← buildNodeImageMotdCommands computeOS;
  repoFiles ← buildNodeImageRepoFiles computeOS;
  sync ← buildNodeImageRepositorySyncCommands computeOS repoFiles;
  queue ← buildNodeImageQueueSystemCommands computeOS (default Server.QueueKind.None queueKind)
            (Server.s_hostname headnode) ip;
  _ ← getDistroString computeOS;
  _ ← getVersion computeOS;
  ofed ← buildNodeImageOFEDCommands computeOS (bool_decide (is_Some (nw_con_interface (application answerfile))))
           (ClusterData.k_ofed cluster) nodeImageKernel;
  Ok (mkFields (Cluster.getDomainName cluster) bootstrap publish dnsmasq source imgutil selinux spack chrony autofs
        motd sync queue ip (sy_disk_image (system answerfile)) (buildFirewalldTrustedInterfaceCommands nic) ofed).

Definition install : M World unit :=
  runningKernel ← OsService.getKernelRunning osservice;
  let nodeImageKernel :=
    selectConfluentImageKernelVersion (ClusterData.k_ofed cluster) (sy_kernel (system answerfile)) runningKernel in
  image ← lift (buildConfluentImageName computeOS);
  fields ← lift (script_fields image nodeImageKernel);
  _ ← shell_cmd opts (image_script image fields);
  _ ← addNodes image;
  ip ← lift headnode_address;
  _ ← shell_cmd opts (buildHeadnodeHostsRepairScript ip (Server.s_fqdn headnode) (Server.s_hostname headnode));
  _ ← registerPbsNodes;
  shell_cmd opts "osdeploy initialize -l".
End confluent.
