(* ===== verification/ConfluentSpec.v ===== *)
(** * What the Confluent provisioner runs

    The installation is a list of scripts run in order until one fails; what
    the list holds, and which of the settings it depends on. *)

From stdpp Require Import base strings list gmap.
From Stdlib Require Import ZArith Lia Ascii.
From S2P Require Import Prelude CppString External Enums Options Os AnswerFileData World Runner.
From S2P Require ScriptBuilder Network Connection Server ClusterData Cluster OsService.
From S2P Require Import Confluent.

Local Open Scope Z_scope.

(** ** Steps

    A step is a script that may not come about: building it can throw. *)

#[local] Instance Ok_inj {A} : Inj (=) (=) (Ok (A := A)).
Proof. by intros a b [= ->]. Qed.

Section steps.
Context `{Machine} (opts : Options).

Definition run_step (s : outcome string) : M World unit := script ← lift s; shell_cmd opts script.
Definition run_steps (l : list (outcome string)) : M World unit := for_each l run_step.

Lemma run_steps_cons s l w : run_steps (s :: l) w = (_ ← run_step s; run_steps l) w.
Proof. done. Qed.

Lemma run_steps_one s w : run_steps [s] w = run_step s w.
Proof. unfold run_steps. cbn [for_each]. unfold mbind, M_bind. by destruct (run_step s w) as [[[]| |] w1]. Qed.

Lemma run_steps_app l1 l2 w : run_steps (l1 ++ l2) w = (_ ← run_steps l1; run_steps l2) w.
Proof.
  revert w. induction l1 as [|s l1 IH]; intros w; [done|].
  unfold run_steps. cbn [app for_each]. unfold mbind, M_bind at 1 2 3.
  destruct (run_step s w) as [[[]| |] w1]; [|done..]. apply IH.
Qed.

(** The process a script is run by *)
Definition started (script : string) : command :=
  Bash ("set -xeu -o pipefail" +:+ ScriptBuilder.newline +:+ script).

(** How a run ends: what was started is a beginning of the list; everything
    was if it returns, and what is left begins with a script that could not be
    built if nothing that was started failed. *)
Definition ran (l : list (outcome string)) (w : World) (r : outcome unit) (w' : World) : Prop :=
  exists done rest, l = (Ok <$> done) ++ rest /\
    w_trace w' = w_trace w ++ (started <$> done) /\
    match r with
    | Ok _ => rest = []
    | Throw e =>
        (exists rest', rest = Throw e :: rest') \/
        exists before script w0, done = before ++ [script] /\ shell_cmd opts script w0 = (Throw e, w')
    | UB => (exists rest', rest = UB :: rest') \/
        exists before script w0, done = before ++ [script] /\ shell_cmd opts script w0 = (UB, w')
    end.

Lemma shell_cmd_trace script w : dryRun opts = false ->
  w_trace (shell_cmd opts script w).2 = w_trace w ++ [started script].
Proof.
  intros Hdry. unfold shell_cmd, unsafe_cmd, execute, started. rewrite Hdry. unfold mbind, M_bind. cbn.
  destruct (react w _) as [[[code out]| |] [files dirs]]; cbn; [|done..]. by destruct (code =? 0).
Qed.

Lemma run_steps_ran l w r w' : dryRun opts = false -> run_steps l w = (r, w') -> ran l w r w'.
Proof.
  intros Hdry. revert w. induction l as [|s l IH]; intros w.
  { intros [= <- <-]. exists [], []. split_and!; [done|by rewrite app_nil_r|done]. }
  unfold run_steps. cbn [for_each]. unfold mbind, M_bind at 1, run_step, mbind, M_bind, lift.
  destruct s as [script|e|].
  - pose proof (shell_cmd_trace script w Hdry) as Ht.
    destruct (shell_cmd opts script w) as [[[]|e|] w1] eqn:Hc; cbn [fst snd] in Ht.
    + intros (done & rest & -> & Htr & Hr)%IH. exists (script :: done), rest.
      split_and!; [done|by rewrite Htr, Ht, <- app_assoc|]. destruct r; [done|..].
      all: destruct Hr as [Hr | (before & s & w0 & -> & Hs)]; [by left|right]; by exists (script :: before), s, w0.
    + intros [= <- <-]. exists [script], l. split_and!; [done..|]. right. by exists [], script, w.
    + intros [= <- <-]. exists [script], l. split_and!; [done..|]. right. by exists [], script, w.
  - intros [= <- <-]. exists [], (Throw e :: l). split_and!; [done|by rewrite app_nil_r|]. left. by eexists.
  - intros [= <- <-]. exists [], (UB :: l). split_and!; [done|by rewrite app_nil_r|]. left. by eexists.
Qed.

(** Every script exits with zero. *)
Definition all_succeed : Prop := forall w script, exists out, (react w (started script)).1 = Ok (0, out).

Lemma shell_cmd_succeeds script w : dryRun opts = false -> all_succeed -> exists w', shell_cmd opts script w = (Ok tt, w').
Proof.
  intros Hdry Hs. unfold shell_cmd, unsafe_cmd, execute. rewrite Hdry. unfold mbind, M_bind. cbn [negb].
  destruct (Hs w script) as [out Hout]. unfold started in Hout.
  destruct (react w _) as [[[code o]| |] [files dirs]]; cbn in Hout; try done. injection Hout as -> ->. by eexists.
Qed.

Lemma run_steps_complete (scripts : list string) (w : World) : dryRun opts = false -> all_succeed ->
  exists w', run_steps (Ok <$> scripts) w = (Ok tt, w') /\ w_trace w' = w_trace w ++ (started <$> scripts).
Proof.
  intros Hdry Hs. assert (exists w', run_steps (Ok <$> scripts) w = (Ok tt, w')) as [w' Hw'].
  { revert w. induction scripts as [|script scripts IH]; intros w; [by eexists|].
    destruct (shell_cmd_succeeds script w Hdry Hs) as [w1 H1]. destruct (IH w1) as [w' Hw']. exists w'.
    cbn [fmap list_fmap]. rewrite run_steps_cons. unfold run_step. rewrite M_bind_assoc.
    rewrite (M_bind_ok (lift (Ok script)) _ w script w) by done. by rewrite (M_bind_ok _ _ _ _ _ H1). }
  exists w'. split; [done|]. destruct (run_steps_ran _ _ _ _ Hdry Hw') as (done & rest & Hl & Ht & ->).
  rewrite app_nil_r in Hl. apply (inj (fmap Ok)) in Hl. by rewrite Hl.
Qed.
End steps.

(** ** The installation *)

Section plan.
Context `{Asio} `{Machine} `{GKeyFile} (opts : Options) (cluster : ClusterData.Cluster) (answerfile : AnswerFile).

Definition node_steps (image : string) : list (outcome string) :=
  (fun node => buildNodeDefinitionScript (Cluster.networks cluster) node image) <$> ClusterData.k_nodes cluster.

Definition repair_step : outcome string :=
  ip ← headnode_address cluster;
  Ok (buildHeadnodeHostsRepairScript ip (Server.s_fqdn (headnode cluster)) (Server.s_hostname (headnode cluster))).

Definition registration (node : Server.Node) : string :=
  buildPbsNodeRegistrationCommand (Server.s_hostname (Server.n_server node)).

Definition pbs_steps : list (outcome string) :=
  if decide (queueKind cluster = Some Server.QueueKind.PBS)
  then ((fun node => Ok (registration node)) <$> ClusterData.k_nodes cluster) ++ [Ok "systemctl restart pbs"]
  else [].

(** The script that sets Confluent up and builds the image; each node; the
    hosts file; the nodes of PBS, which need both; the SSH keys. *)
Definition steps (image : string) (fields : Fields) : list (outcome string) :=
  [Ok (image_script image fields)] ++ node_steps image ++ [repair_step] ++ pbs_steps ++ [Ok "osdeploy initialize -l"].

Lemma addNodes_steps image w : addNodes opts cluster image w = run_steps opts (node_steps image) w.
Proof.
  unfold addNodes, node_steps, run_steps. revert w.
  induction (ClusterData.k_nodes cluster) as [|n l IH]; intros w; [done|]. cbn [fmap list_fmap for_each].
  apply M_bind_ext; [done|]. intros []. apply IH.
Qed.

Lemma registerPbsNodes_steps w : registerPbsNodes opts cluster w = run_steps opts pbs_steps w.
Proof.
  unfold registerPbsNodes, pbs_steps. case_decide; [|done]. revert w.
  induction (ClusterData.k_nodes cluster) as [|n l IH]; intros w; cbn [fmap list_fmap for_each app].
  - by rewrite run_steps_one.
  - rewrite M_bind_assoc, run_steps_cons. apply M_bind_ext; [done|]. intros []. apply IH.
Qed.

Context (osservice : OsService.IOSService).

Definition image_kernel (running : string) : option string :=
  selectConfluentImageKernelVersion (ClusterData.k_ofed cluster) (sy_kernel (system answerfile)) running.

Lemma install_steps kernel w w1 image fields :
  OsService.getKernelRunning osservice w = (Ok kernel, w1) ->
  buildConfluentImageName (computeOS cluster) = Ok image ->
  script_fields opts cluster answerfile image (image_kernel kernel) = Ok fields ->
  Confluent.install opts osservice cluster answerfile w = run_steps opts (steps image fields) w1.
Proof.
  intros Hk Hi Hf. unfold Confluent.install, steps. rewrite (M_bind_ok _ _ _ _ _ Hk), Hi.
  rewrite (M_bind_ok _ _ w1 image w1) by done. fold (image_kernel kernel). rewrite Hf.
  rewrite (M_bind_ok _ _ w1 fields w1) by done. rewrite run_steps_app. apply M_bind_ext.
  { by rewrite run_steps_one. }
  intros [] w2. rewrite run_steps_app. apply M_bind_ext; [apply addNodes_steps|]. intros [] w3.
  cbn [app]. rewrite run_steps_cons. unfold run_step at 1, repair_step. rewrite M_bind_assoc.
  destruct (headnode_address cluster) as [ip| |]; [|done..]. cbn [mbind outcome_bind].
  rewrite (M_bind_ok (lift (Ok ip)) _ w3 ip w3), (M_bind_ok (lift (Ok _)) _ w3 _ w3) by done.
  apply M_bind_ext; [done|].
  intros [] w4. rewrite run_steps_app. apply M_bind_ext; [apply registerPbsNodes_steps|]. intros [] w5.
  by rewrite run_steps_one.
Qed.
End plan.

(** ** Packages *)

Lemma joinPackages_loop_spec l joined :
  joinPackages_loop l joined =
  joined +:+ (if empty joined || bool_decide (filter (fun p => Is_true (negb (empty p))) l = []) then "" else " ") +:+
  concat_sep " " (filter (fun p => Is_true (negb (empty p))) l).
Proof.
  revert joined. induction l as [|p l IH]; intros joined; cbn [joinPackages_loop].
  - rewrite filter_nil, bool_decide_true, orb_true_r by done. by rewrite sapp_nil_r.
  - rewrite filter_cons. destruct p as [|c p]; cbn [empty negb]; [rewrite decide_False by (by intros []); apply IH|].
    rewrite decide_True by done. rewrite IH, (bool_decide_false (_ :: _ = [])), orb_false_r by done.
    set (f := filter _ l). assert (concat_sep " " (String c p :: f) =
      String c p +:+ (if bool_decide (f = []) then "" else " ") +:+ concat_sep " " f) as ->
      by (destruct f; [rewrite bool_decide_true by done; cbn [concat_sep]; by rewrite !sapp_nil_r|by rewrite bool_decide_false]).
    destruct joined as [|d s]; cbn [empty]; [done|]. cbn [orb].
    by rewrite !sapp_assoc.
Qed.

(** The packages of an image are joined by single blanks, and an empty name
    (that of no queue system) leaves no trace: there is never a blank too many. *)
Theorem joinPackages_spec (packages : list string) :
  joinPackages packages = concat_sep " " (filter (fun p => Is_true (negb (empty p))) packages).
Proof. unfold joinPackages. by rewrite joinPackages_loop_spec. Qed.

(** ** The kernel *)

Definition no_doca `{Asio} `{GKeyFile} (cluster : ClusterData.Cluster) (answerfile : AnswerFile) : Prop :=
  ClusterData.o_kind <$> ClusterData.k_ofed cluster <> Some OFEDKind.Doca \/
  nw_con_interface (application answerfile) = None.

Lemma drivers_kernel `{Asio} `{GKeyFile} cluster answerfile os k k' : no_doca cluster answerfile ->
  buildNodeImageOFEDCommands os (bool_decide (is_Some (nw_con_interface (application answerfile))))
    (ClusterData.k_ofed cluster) k =
  buildNodeImageOFEDCommands os (bool_decide (is_Some (nw_con_interface (application answerfile))))
    (ClusterData.k_ofed cluster) k'.
Proof.
  intros Hno. unfold buildNodeImageOFEDCommands. destruct (ClusterData.k_ofed cluster) as [o|] eqn:E; [|done].
  destruct Hno as [Hno | ->]; [|done]. rewrite E in Hno. destruct (negb _); [done|].
  by destruct (ClusterData.o_kind o) eqn:Ho; [|cbn in Hno; congruence|].
Qed.

Lemma script_fields_kernel `{Asio} `{GKeyFile} opts cluster answerfile image k k' kernel :
  no_doca cluster answerfile ->
  script_fields opts cluster (put_system (put_sy_kernel kernel (system answerfile)) answerfile) image k =
  script_fields opts cluster answerfile image k'.
Proof.
  intros Hno. pose proof (drivers_kernel cluster answerfile (computeOS cluster) k k' Hno) as Hk.
  unfold script_fields. repeat (apply outcome_bind_ext; intros ?). cbn [application put_system] in *.
  by rewrite Hk.
Qed.

(** ** The theorems *)

(** C13. Installing with Confluent, given the running kernel: if the image's name
    and every part of its script can be made, the scripts of [steps] are run in
    their order, each once, up to the first that fails or cannot be built, whose
    error is the outcome, and up to the last when none does; so the nodes of PBS
    are registered only after every node has been defined and the hosts file
    repaired.  If a part cannot be made, nothing is run at all. *)
Theorem confluent_installation `{Asio} `{Machine} `{GKeyFile} (opts : Options) (osservice : OsService.IOSService)
    (cluster : ClusterData.Cluster) (answerfile : AnswerFile) (kernel : string) (w w1 w' : World) (r : outcome unit) :
  dryRun opts = false -> OsService.getKernelRunning osservice w = (Ok kernel, w1) ->
  Confluent.install opts osservice cluster answerfile w = (r, w') ->
  match (image ← buildConfluentImageName (computeOS cluster);
         fields ← script_fields opts cluster answerfile image (image_kernel cluster answerfile kernel);
         Ok (image, fields)) with
  | Ok (image, fields) => ran opts (steps cluster image fields) w1 r w'
  | Throw e => r = Throw e /\ w' = w1
  | UB => r = UB /\ w' = w1
  end.
Proof.
  intros Hdry Hk Hi. destruct (buildConfluentImageName (computeOS cluster)) as [image|e|] eqn:Hn; cbn [mbind outcome_bind].
  - destruct (script_fields _ _ _ _ _) as [fields|e|] eqn:Hf; cbn [mbind outcome_bind].
    + rewrite (install_steps opts cluster answerfile osservice kernel w w1 image fields Hk Hn Hf) in Hi.
      by apply run_steps_ran.
    + unfold Confluent.install in Hi. rewrite (M_bind_ok _ _ _ _ _ Hk), Hn, (M_bind_ok (lift (Ok image)) _ w1 image w1) in Hi by done.
      fold (image_kernel cluster answerfile kernel) in Hi. rewrite Hf in Hi. by injection Hi as <- <-.
    + unfold Confluent.install in Hi. rewrite (M_bind_ok _ _ _ _ _ Hk), Hn, (M_bind_ok (lift (Ok image)) _ w1 image w1) in Hi by done.
      fold (image_kernel cluster answerfile kernel) in Hi. rewrite Hf in Hi. by injection Hi as <- <-.
  - unfold Confluent.install in Hi. rewrite (M_bind_ok _ _ _ _ _ Hk), Hn in Hi. by injection Hi as <- <-.
  - unfold Confluent.install in Hi. rewrite (M_bind_ok _ _ _ _ _ Hk), Hn in Hi. by injection Hi as <- <-.
Qed.

(** Although the installation announces that it uses the kernel of the
    answer file, without DOCA drivers on an application network that setting
    changes nothing: whatever kernel is asked for, the installation is the same. *)
Theorem configured_kernel_ignored `{Asio} `{Machine} `{GKeyFile} (opts : Options) (osservice : OsService.IOSService)
    (cluster : ClusterData.Cluster) (answerfile : AnswerFile) (kernel : option string) (w : World) :
  no_doca cluster answerfile ->
  Confluent.install opts osservice cluster
    (put_system (put_sy_kernel kernel (system answerfile)) answerfile) w =
  Confluent.install opts osservice cluster answerfile w.
Proof.
  intros Hno. unfold Confluent.install. apply M_bind_ext; [done|]. intros running w1.
  apply M_bind_ext; [done|]. intros image w2. apply M_bind_ext; [|done]. unfold lift.
  by rewrite (script_fields_kernel _ _ _ _ _ (image_kernel cluster answerfile running) kernel Hno).
Qed.

(** C14. When every script exits with zero and every part of the installation
    can be made, installing with Confluent gets to its end: it returns, having
    run each of its scripts once and in order. *)
Theorem confluent_completes `{Asio} `{Machine} `{GKeyFile} (opts : Options) (osservice : OsService.IOSService)
    (cluster : ClusterData.Cluster) (answerfile : AnswerFile) (kernel image : string) (fields : Fields)
    (scripts : list string) (w w1 : World) :
  dryRun opts = false -> OsService.getKernelRunning osservice w = (Ok kernel, w1) -> all_succeed ->
  buildConfluentImageName (computeOS cluster) = Ok image ->
  script_fields opts cluster answerfile image (image_kernel cluster answerfile kernel) = Ok fields ->
  steps cluster image fields = Ok <$> scripts ->
  exists w', Confluent.install opts osservice cluster answerfile w = (Ok tt, w') /\
    w_trace w' = w_trace w1 ++ (started <$> scripts).
Proof.
  intros Hdry Hk Hs Hi Hf Hl. rewrite (install_steps _ _ _ _ _ _ _ _ _ Hk Hi Hf), Hl. by apply run_steps_complete.
Qed.
