(* ===== verification/Xcat.v ===== *)
(** * The xCAT provisioner

    The class [XCAT] of [src/services/xcat.cpp]: preparing the head node,
    building the image of the compute nodes, registering them and starting
    them.  The program is that of a release build. *)

From stdpp Require Import base strings list gmap.
From Stdlib Require Import ZArith Lia Ascii.
From S2P Require Import Prelude CppString External Enums Options AnswerFileData Os World FileOps Runner RepoData.
From S2P Require Import RepoManager XcatCommands.
From S2P Require ScriptBuilder Network Connection Server ClusterData Cluster OsService Nfs.

Local Open Scope Z_scope.

(** ** State: the session, and the image being put together *)

Record Provisioning := mkProvisioning { p_session : Session; m_stateless : Image }.

Definition put_session x (p : Provisioning) : Provisioning := mkProvisioning x (m_stateless p).
Definition put_stateless x (p : Provisioning) : Provisioning := mkProvisioning (p_session p) x.

Definition on_session {A} (m : M Session A) : M Provisioning A := zoom p_session put_session m.
Definition world {A} (m : M World A) : M Provisioning A := on_session (io m).
Definition on_stateless {A} (m : M Image A) : M Provisioning A := zoom m_stateless put_stateless m.
Definition stateless : M Provisioning Image := gets m_stateless.

Definition emplace_otherpkg (package : string) : M Image unit :=
  modify (fun i => mkImage (otherpkgs i ++ [package]) (osimage i) (chroot i) (postinstall i)).
Definition emplace_postinstall (text : string) : M Image unit :=
  modify (fun i => mkImage (otherpkgs i) (osimage i) (chroot i) (postinstall i ++ [text])).
Definition set_osimage (x : string) : M Image unit :=
  modify (fun i => mkImage (otherpkgs i) x (chroot i) (postinstall i)).
Definition set_chroot (x : string) : M Image unit :=
  modify (fun i => mkImage (otherpkgs i) (osimage i) x (postinstall i)).

Definition otherpkglist_file : string := "/install/custom/netboot/compute.otherpkglist".
Definition postinstall_file : string := "/install/custom/netboot/compute.postinstall".
Definition synclists_file : string := "/install/custom/netboot/compute.synclists".

Section xcat.
Context `{Asio} `{BoostText} `{Machine} `{GKeyFile} (opts : Options) (runner : IRunner).
Context (osservice : OsService.IOSService) (cluster : ClusterData.Cluster).
(** The answer file the cluster was filled from. *)
Context (answerfile : AnswerFile).

(** ** What is read from the cluster *)

(** [cluster()->getNodes().front().getOS()], undefined without a node. *)
Definition nodeOS : outcome OS :=
  node ← deref (head (ClusterData.k_nodes cluster)); Ok (Server.s_os (Server.n_server node)).
Definition headnode : Server.Server := Server.h_server (ClusterData.k_headnode cluster).
Definition headnodeOS : OS := Server.s_os headnode.
Definition computeOS : OS := Cluster.getComputeNodeOS cluster.

Definition connection (server : Server.Server) (profile : Network.Profile.t) : outcome Connection.Connection :=
  Server.getConnection (Cluster.networks cluster) server profile.
Definition headnode_address : outcome string :=
  c ← connection headnode Network.Profile.Management; Ok (to_string (Connection.c_address c)).

(** [std::exit(0)] after the step asked for. *)
Definition stop_after (step : string) : M World unit :=
  if maybeStopAfterStep opts step then throw (ProcessExit 0) else skip.

(** ** Names *)

Definition generateOSImageName (imageType : ImageType.t) (nodeType : NodeType.t) : M Image unit :=
  os ← lift nodeOS;
  version ← lift (getOSImageDistroVersion os);
  arch ← lift (getArch os);
  set_osimage (version +:+ "-" +:+ match arch with Arch.x86_64 => "x86_64" | Arch.ppc64le => "ppc64le" end +:+ "-" +:+
    match imageType with ImageType.Install => "install" | ImageType.Netboot => "netboot" end +:+ "-" +:+
    match nodeType with NodeType.Compute => "compute" | NodeType.Service => "service" end).

Definition generateOSImagePath (imageType : ImageType.t) (nodeType : NodeType.t) : M Image unit :=
  if decide (imageType <> ImageType.Netboot) then
    throw (LogicError "Image path is only available on Netboot (Stateless) images")
  else
    os ← lift nodeOS;
    version ← lift (getOSImageDistroVersion os);
    arch ← lift (getArch os);
    set_chroot ("/install/netboot/" +:+ version +:+ "/" +:+
      match arch with Arch.x86_64 => "x86_64" | Arch.ppc64le => "ppc64le" end +:+ "/compute/rootimg").

(** The constructor; the variables it puts into the environment are left out. *)
Definition XCAT_make : outcome Image :=
  construct (generateOSImageName ImageType.Netboot NodeType.Compute) Image_default.

(** ** Preparing the head node *)

Definition installPackages : M World unit :=
  commands ← lift (buildXcatPackageInstallCommands headnodeOS computeOS);
  for_each commands (checkCommand runner).

Definition grep_patched : string :=
  "grep -q " +:+ quoted "extensions usr_cert" +:+ " /opt/xcat/share/xcat/scripts/setup-local-client.sh".
Definition sed_client : string :=
  "sed -i " +:+ quoted "s/-extensions usr_cert //g" +:+ " /opt/xcat/share/xcat/scripts/setup-local-client.sh".
Definition sed_server : string :=
  "sed -i " +:+ quoted "s/-extensions server //g" +:+ " /opt/xcat/share/xcat/scripts/setup-server-cert.sh".

Definition tab : string := String "009" "".
Definition ddns_patch : string :=
  concat_sep ScriptBuilder.newline
  ["(cd / && patch --forward --batch -p0 <<'EOF'";
   "--- opt/xcat/lib/perl/xCAT_plugin/ddns.pm.orig	2025-07-16 09:53:20.546246189 -0300";
   "+++ opt/xcat/lib/perl/xCAT_plugin/ddns.pm	2025-07-16 09:53:36.614512354 -0300";
   "@@ -1286,8 +1286,8 @@ sub update_namedconf {";
   "             my @bind_version =xCAT::Utils->runcmd($bind_version_cmd, 0);";
   "             # Turn off DNSSEC if running with bind vers 9.16.6 or higher";
   "             if ((scalar @bind_version > 0) && (xCAT::Utils::CheckVersion($bind_version[0], " +:+ quoted "9.16.6" +:+ ") >= 0)) {";
   "-                push @newnamed, " +:+ quoted "\tdnssec-enable no;\n" +:+ ";";
   "-                push @newnamed, " +:+ quoted "\tdnssec-validation no;\n" +:+ ";";
   "+                push @newnamed, " +:+ quoted "\t#dnssec-enable no;\n" +:+ ";";
   "+                push @newnamed, " +:+ quoted "\t#dnssec-validation no;\n" +:+ ";";
   "             }";
   "         }";
   " ";
   "EOF";
   ")"].

Definition patchInstall : M World unit :=
  httpService ← lift (xcatHttpServiceName headnodeOS);
  unpatched ← (if shouldForce opts "xcat-patch" then mret true
               else code ← executeCommand runner grep_patched; mret (code =? 0));
  _ ← (if unpatched : bool then
         _ ← executeCommand runner sed_client;
         _ ← executeCommand runner sed_server;
         _ ← shell_cmd opts ddns_patch;
         stop_after "xcat-patch"
       else skip);
  _ ← executeCommand runner ("systemctl enable --now xcatd " +:+ httpService);
  code ← executeCommand runner buildXCATCredentialReadinessCheckCommand;
  _ ← (if negb (code =? 0) then checkCommand runner "/opt/xcat/sbin/xcatconfig -c" else skip);
  _ ← executeCommand runner ("systemctl restart xcatd " +:+ httpService);
  skip.

(** The attempts left; between two of them the program sleeps. *)
Fixpoint setup_wait (attempts : nat) : M World unit :=
  match attempts with
  | O => throw (RuntimeError "ERROR: xCAT site table never became ready")
  | S attempts =>
      code ← executeCommand runner "/opt/xcat/bin/lsdef -t site";
      if code =? 0 then skip else setup_wait attempts
  end.

Definition setDHCPInterfaces (interface : string) : M World unit :=
  checkCommand runner (buildDHCPInterfacesCommand interface).
Definition setDHCPDynamicRange (network : Network.Network) (interface : string) : M World unit :=
  command ← lift (buildDHCPDynamicRangeCommand network interface); checkCommand runner command.
Definition setPrecreateMyPostscripts (enabled : bool) : M World unit :=
  checkCommand runner (buildPrecreateMyPostscriptsCommand enabled).
Definition setDomain (domain : string) : M World unit :=
  checkCommand runner ("chdef -t site domain=" +:+ domain).

Definition setup : M World unit :=
  _ ← setup_wait 30;
  managementConnection ← lift (connection headnode Network.Profile.Management);
  managementInterface ← lift (value (Connection.m_interface managementConnection));
  managementNetwork ← lift (Cluster.getNetwork Network.Profile.Management cluster);
  _ ← setDHCPInterfaces managementInterface;
  _ ← setDHCPDynamicRange (Cluster.networks cluster managementNetwork) managementInterface;
  _ ← setPrecreateMyPostscripts true;
  setDomain (Cluster.getDomainName cluster).

(** ** Building images *)

Definition shouldReuseExistingImage (imageExists skipCopycds : bool) : bool := imageExists && negb skipCopycds.

Definition imageExists (image : string) : M World bool :=
  if dryRun opts then mret false
  else
    _ ← (if shouldForce opts "genimage"
         then _ ← executeCommand runner ("rmdef -t osimage -o " +:+ image); skip else skip);
    result ← executeCommand_output runner ("lsdef -t osimage " +:+ image);
    mret (result.1 =? 0).

Definition copycds (diskImage : string) : M World unit :=
  path ← lift (shellSingleQuote diskImage); shell_cmd opts ("copycds " +:+ path).

Definition custom_kernel : exn :=
  InvalidArgument "Custom xCAT kernels are not supported for Ubuntu 24.04 images yet".

(** A repository with the kernel, and the image with that kernel. *)
Definition genimage_kernel (os : OS) (image kernelVersion : string) : M World unit :=
  kernelPackages ← lift (buildXcatKernelPackages os kernelVersion);
  let kernelDirectory := "/install/kernels/" +:+ kernelVersion in
  _ ← shell_cmd opts ("mkdir -p " +:+ kernelDirectory);
  fallbackCommand ← lift (buildRockyXcatKernelDownloadFallbackCommand os kernelVersion kernelDirectory);
  _ ← match fallbackCommand with
      | Some command => shell_cmd opts command
      | None => shell_cmd opts ("dnf download " +:+ kernelPackages +:+ " --destdir " +:+ kernelDirectory)
      end;
  _ ← shell_cmd opts ("createrepo " +:+ kernelDirectory);
  _ ← shell_cmd opts ("chdef -t osimage " +:+ image +:+ " -p pkgdir=" +:+ kernelDirectory);
  shell_cmd opts ("genimage " +:+ image +:+ " -k " +:+ kernelVersion).

(** The kernel of the image, [None] for that of the distribution. *)
Definition genimage_version (runningKernel : string) : outcome (option string) :=
  os ← nodeOS;
  selectXcatImageKernelVersion (ClusterData.k_ofed cluster) os (sy_kernel (system answerfile)) runningKernel.

Definition genimage (image : string) : M World unit :=
  os ← lift nodeOS;
  runningKernel ← OsService.getKernelRunning osservice;
  kernelVersionOpt ← lift (genimage_version runningKernel);
  t ← lift (getPackageType os);
  match kernelVersionOpt with
  | Some kernelVersion =>
      if decide (t = PackageType.DEB) then throw custom_kernel else genimage_kernel os image kernelVersion
  | None => shell_cmd opts ("genimage " +:+ image +:+ " ")
  end.

Definition packimage (image : string) : M World unit := checkCommand runner ("packimage " +:+ image).

Definition finalizeStatelessRootImage (chroot : string) : M World unit :=
  password ← lift (getStatelessNodeRootPassword (ClusterData.k_nodes cluster));
  script ← lift (buildFinalizeStatelessRootImageScript headnodeOS chroot password);
  _ ← run runner script;
  skip.

Definition nodeset (nodes image : string) : M World unit :=
  checkCommand runner ("nodeset " +:+ nodes +:+ " osimage=" +:+ image +:+ " -g").

Definition createDirectoryTree : M World unit :=
  _ ← createDirectory opts "/install/custom/netboot";
  os ← lift nodeOS;
  path ← lift (getLocalOtherPkgRepoPath os);
  createDirectory opts path.

(** *** What goes into an image *)

Definition configureSELinux : M Image unit :=
  os ← lift nodeOS;
  t ← lift (getPackageType os);
  match t with
  | PackageType.DEB => skip
  | PackageType.RPM =>
      emplace_postinstall ("echo " +:+ quoted ("SELINUX=disabled" +:+ newline +:+ "SELINUXTYPE=targeted") +:+
        " > $IMG_ROOTIMGDIR/etc/selinux/config" +:+ newline +:+ newline)
  end.

Definition configureOpenHPC : M Image unit :=
  os ← lift nodeOS;
  t ← lift (getPackageType os);
  for_each
    match t with
    | PackageType.DEB => ubuntu2404OpenHpcPackages (ClusterData.k_enabledOpenHPCBundles cluster)
    | PackageType.RPM => ["ohpc-base-compute"; "lmod-ohpc"; "lua"]
    end emplace_otherpkg.

Definition configureTimeService : M Image unit :=
  _ ← emplace_otherpkg "chrony";
  address ← lift headnode_address;
  emplace_postinstall (unlines
    ["echo " +:+ quoted ("server " +:+ address +:+ " iburst") +:+ " >> $IMG_ROOTIMGDIR/etc/chrony.conf"; ""]).

Definition remote_access : string :=
  unlines
  ["install -d -m 0700 $IMG_ROOTIMGDIR/root/.ssh";
   "if [ -f /install/postscripts/_ssh/authorized_keys ]; then";
   "  install -m 0600 /install/postscripts/_ssh/authorized_keys $IMG_ROOTIMGDIR/root/.ssh/authorized_keys";
   "fi";
   "ssh_group=root";
   "if getent group ssh_keys >/dev/null 2>&1; then";
   "  ssh_group=ssh_keys";
   "fi";
   "for key_type in rsa ecdsa ed25519; do";
   "  key_path=$IMG_ROOTIMGDIR/etc/ssh/ssh_host_${key_type}_key";
   "  if [ ! -s $key_path ]; then";
   "    ssh-keygen -q -t ${key_type} -N '' -f $key_path";
   "  fi";
   "  chown root:${ssh_group} $key_path $key_path.pub";
   "  chmod 0640 $key_path";
   "  chmod 0644 $key_path.pub";
   "done";
   "install -d $IMG_ROOTIMGDIR/usr/lib/tmpfiles.d";
   "cat > $IMG_ROOTIMGDIR/usr/lib/tmpfiles.d/opencattus-sshd.conf <<'EOF'";
   "d /run/sshd 0755 root root -";
   "EOF";
   ""].

Definition configureRemoteAccess : M Image unit :=
  nodeRootPassword ← lift (getStatelessNodeRootPassword (ClusterData.k_nodes cluster));
  snippet ← lift (buildSetRootPasswordPostinstallSnippet nodeRootPassword);
  emplace_postinstall (snippet +:+ remote_access).

(** A repository of the head node with the kernel modules, for the image and
    its postinstall script. *)
Definition stage_doca_repository (repoName kernelVersion : string) : M Provisioning unit :=
  localRepo ← world (createHTTPRepo opts runner repoName);
  _ ← world (checkCommand runner ("bash -c " +:+ quoted ("cp -v /usr/share/doca-host-*/Modules/" +:+ kernelVersion +:+
    "/*.rpm " +:+ directory localRepo)));
  _ ← world (checkCommand runner ("createrepo " +:+ directory localRepo));
  doca ← on_session (manager_repo headnodeOS "doca");
  docaUrl ← lift (value (uri doca));
  image ← stateless;
  let add_otherpkgdir (url : string) : M World unit :=
    checkCommand runner ("bash -c " +:+ quoted ("chdef -t osimage " +:+ osimage image +:+ " --plus otherpkgdir=" +:+ url)) in
  _ ← world (if negb (dryRun opts) then add_otherpkgdir docaUrl else skip);
  _ ← world (add_otherpkgdir (hr_url localRepo));
  on_stateless (emplace_postinstall (buildXcatDocaPostInstallScript kernelVersion docaUrl (hr_url localRepo))).

Definition infiniband_plan (ofed : ClusterData.OFED) (runningKernel : string) : outcome XcatInfinibandPlan :=
  os ← nodeOS; buildXcatInfinibandPlan ofed os (m_kernel os) runningKernel.

Definition configureInfiniband : M Provisioning unit :=
  _ ← lift nodeOS;
  match ClusterData.k_ofed cluster with
  | None => skip
  | Some ofed =>
      runningKernel ← world (OsService.getKernelRunning osservice);
      plan ← lift (infiniband_plan ofed runningKernel);
      _ ← on_stateless (for_each (otherPackages plan) emplace_otherpkg);
      match localRepoName plan with
      | None => skip
      | Some repoName =>
          version ← lift (value (kernelVersion plan));
          stage_doca_repository repoName version
      end
  end.

Definition slurm_files : string :=
  unlines
  ["install -d -m 0755 $IMG_ROOTIMGDIR/usr/lib/tmpfiles.d";
   "cat > $IMG_ROOTIMGDIR/usr/lib/tmpfiles.d/opencattus-slurm.conf <<'EOF'";
   "d /run/slurm 0755 slurm slurm -";
   "d /run/slurmd 0755 slurm slurm -";
   "d /var/log/slurm 0755 slurm slurm -";
   "d /var/spool/slurmd 0755 slurm slurm -";
   "f /var/log/slurm/slurmd.log 0640 slurm slurm -";
   "EOF";
   "install -d -o slurm -g slurm -m 0755 $IMG_ROOTIMGDIR/var/log/slurm $IMG_ROOTIMGDIR/var/spool/slurmd";
   "install -m 0640 -o slurm -g slurm /dev/null $IMG_ROOTIMGDIR/var/log/slurm/slurmd.log";
   "chroot $IMG_ROOTIMGDIR systemctl enable munge";
   "chroot $IMG_ROOTIMGDIR systemctl enable slurmd";
   ""].

Definition configureSLURM : M Image unit :=
  os ← lift nodeOS;
  _ ← emplace_otherpkg "ohpc-slurm-client";
  t ← lift (getPackageType os);
  _ ← emplace_otherpkg match t with PackageType.DEB => "hwloc-ohpc" | PackageType.RPM => "hwloc-libs" end;
  let slurmdOptionsPath :=
    match t with PackageType.DEB => "/etc/default/slurmd" | PackageType.RPM => "/etc/sysconfig/slurmd" end in
  address ← lift headnode_address;
  _ ← emplace_postinstall (unlines
    ["install -d $IMG_ROOTIMGDIR/" +:+ parent_path slurmdOptionsPath;
     "echo SLURMD_OPTIONS=\" +:+ quoted ("--conf-server " +:+ address +:+ "\") +:+ " > $IMG_ROOTIMGDIR" +:+
       slurmdOptionsPath; ""]);
  emplace_postinstall slurm_files.

Definition pbs_files (hostname : string) : string :=
  unlines
  ["cat > $IMG_ROOTIMGDIR/etc/pbs.conf <<'END'";
   "PBS_SERVER=" +:+ hostname;
   "PBS_START_SERVER=0";
   "PBS_START_SCHED=0";
   "PBS_START_COMM=0";
   "PBS_START_MOM=1";
   "PBS_EXEC=/opt/pbs";
   "PBS_HOME=/var/spool/pbs";
   "PBS_CORE_LIMIT=4096";
   "PBS_SCP=/usr/bin/scp";
   "END";
   "chroot $IMG_ROOTIMGDIR bash -c 'test -x /opt/pbs/libexec/pbs_habitat && /opt/pbs/libexec/pbs_habitat || :'";
   "mkdir -p $IMG_ROOTIMGDIR/var/spool/pbs/mom_priv";
   "cat > $IMG_ROOTIMGDIR/var/spool/pbs/mom_priv/config <<'END'";
   "$clienthost " +:+ hostname;
   "$usecp *:/home /home";
   "END";
   "chroot $IMG_ROOTIMGDIR systemctl enable pbs";
   ""].

Definition configurePBS : M Image unit :=
  _ ← emplace_otherpkg "openpbs-execution-ohpc";
  emplace_postinstall (pbs_files (Server.s_hostname headnode)).

(** *** The queue system an image was built for *)

Definition queueMarkerToken (queue : option Server.QueueKind.t) : string :=
  match queue with
  | None => "none"
  | Some Server.QueueKind.SLURM => "slurm"
  | Some Server.QueueKind.PBS => "pbs"
  | Some Server.QueueKind.None => "none"
  end.

Definition selectedQueueKind : option Server.QueueKind.t := Server.q_kind <$> ClusterData.k_queueSystem cluster.

Definition imageQueueMarkerFile (osimage : string) : string := "/install/custom/netboot/compute.queue." +:+ osimage.

Definition queueMarkerValue : string :=
  let kind := selectedQueueKind in
  if decide (kind = Some Server.QueueKind.PBS)
  then queueMarkerToken kind +:+ " " +:+ Server.s_hostname headnode
  else queueMarkerToken kind.

Definition imageMatchesSelectedQueue (osimage : string) : M World bool :=
  file ← stream_read (imageQueueMarkerFile osimage);
  match file with
  | None => mret false
  | Some text => mret (String.eqb (default "" (head (getlines "010" text))) queueMarkerValue)
  end.

Definition writeImageQueueMarker (osimage : string) : M World unit :=
  let filename := imageQueueMarkerFile osimage in
  _ ← removeFile opts filename;
  addStringToFile opts filename (unlines [queueMarkerValue]).

(** *** The files the image is described by *)

Definition generateOtherPkgListFile (image : Image) : M World unit :=
  _ ← removeFile opts otherpkglist_file;
  addStringToFile opts otherpkglist_file (concat_sep newline (otherpkgs image) +:+ newline).

Definition placeholder_rules : string :=
  unlines
  ["install -d $IMG_ROOTIMGDIR/etc/rc.d/init.d $IMG_ROOTIMGDIR/etc/udev/rules.d";
   "if [ ! -e $IMG_ROOTIMGDIR/etc/init.d ]; then";
   "  ln -s rc.d/init.d $IMG_ROOTIMGDIR/etc/init.d";
   "fi";
   "cat > $IMG_ROOTIMGDIR/etc/udev/rules.d/99-opencattus-placeholder.rules <<'EOF'";
   "# Placeholder file for xCAT EL9 image generation.";
   "EOF"].
Definition memlock_limits : string :=
  unlines
  ["perl -pi -e 's/# End of file/\* soft memlock unlimited\n$&/s' $IMG_ROOTIMGDIR/etc/security/limits.conf";
   "perl -pi -e 's/# End of file/\* hard memlock unlimited\n$&/s' $IMG_ROOTIMGDIR/etc/security/limits.conf";
   ""].

(** [std::filesystem::permissions] on the file; the permissions themselves
    are left out. *)
Definition add_permissions (path : string) : M World unit :=
  there ← ask (fun w => fs_exists w path);
  if there : bool then skip else throw (fs_error no_such_file_or_directory).

Definition generatePostinstallFile : M Provisioning unit :=
  _ ← world (removeFile opts postinstall_file);
  _ ← on_stateless (emplace_postinstall placeholder_rules);
  _ ← on_stateless (emplace_postinstall memlock_limits);
  os ← lift nodeOS;
  t ← lift (getPackageType os);
  _ ← on_stateless (emplace_postinstall (unlines
    [match t with
     | PackageType.RPM => "chroot $IMG_ROOTIMGDIR systemctl disable firewalld"
     | PackageType.DEB => "chroot $IMG_ROOTIMGDIR systemctl disable ufw 2>/dev/null || :"
     end]));
  image ← stateless;
  world
    (_ ← for_each (postinstall image) (addStringToFile opts postinstall_file);
     if dryRun opts then skip else add_permissions postinstall_file).

Definition generateSynclistsFile : M World unit :=
  _ ← removeFile opts synclists_file;
  _ ← addStringToFile opts synclists_file
        (unlines ["/etc/passwd -> /etc/passwd"; "/etc/group -> /etc/group"]);
  if decide (selectedQueueKind = Some Server.QueueKind.SLURM) then
    addStringToFile opts synclists_file
      (unlines ["/etc/slurm/slurm.conf -> /etc/slurm/slurm.conf"; "/etc/munge/munge.key -> /etc/munge/munge.key"])
  else skip.

(** *** The definition of the image *)

(** The locations of the enabled repositories of a file *)
Fixpoint enabled_urls (repositories : list RPMRepository) : M Session (list string) :=
  match repositories with
  | [] => mret []
  | repo :: repositories =>
      if r_enabled repo then
        url ← io (resolveXcatOsImageRepoUrl opts runner repo computeOS);
        urls ← enabled_urls repositories;
        mret (url :: urls)
      else enabled_urls repositories
  end.

Definition addReposFromFile (filename : string) : M Session (list string) :=
  repositories ← manager_repoFile headnodeOS filename; enabled_urls repositories.

Definition getxCATOSImageRepos : M Session (list string) :=
  t ← lift (getPackageType computeOS);
  match t with
  | PackageType.DEB => mret [ubuntu2404OpenHpcOtherpkgdirEntry]
  | PackageType.RPM =>
      distro ← lift (getDistro computeOS);
      distroRepos ←
        match distro with
        | Distro.RHEL => addReposFromFile "rhel.repo"
        | Distro.OL => addReposFromFile "oracle.repo"
        | Distro.Rocky =>
            vault ← io (OsService.shouldUseVault opts runner computeOS);
            addReposFromFile (if vault : bool then "rocky-vault.repo" else "rocky.repo")
        | Distro.AlmaLinux => addReposFromFile "almalinux.repo"
        | Distro.Ubuntu => lift UB
        end;
      epel ← addReposFromFile "epel.repo";
      openHPC ← addReposFromFile "OpenHPC.repo";
      mret (distroRepos ++ epel ++ openHPC)
  end.

Definition set_local_otherpkgs (os : OS) : M World unit :=
  t ← lift (getPackageType os);
  match t with
  | PackageType.RPM =>
      localOtherPkgDir ← lift (getLocalOtherPkgRepoPath os);
      dir ← lift (shellSingleQuote localOtherPkgDir);
      shell_cmd opts ("mkdir -p " +:+ dir +:+ " && createrepo_c --update " +:+ dir)
  | PackageType.DEB => skip
  end.

Definition chdef_plus (image attribute path : string) : M World unit :=
  _ ← executeCommand runner ("chdef -t osimage " +:+ image +:+ " --plus " +:+ attribute +:+ "=" +:+ path); skip.

Definition configureOSImageDefinition (image : string) : M Session unit :=
  os ← lift nodeOS;
  _ ← io (set_local_otherpkgs os);
  _ ← io (chdef_plus image "otherpkglist" otherpkglist_file);
  _ ← io (chdef_plus image "postinstall" postinstall_file);
  _ ← io (chdef_plus image "synclists" synclists_file);
  if dryRun opts then skip
  else
    t ← lift (getPackageType os);
    _ ← match t with
        | PackageType.DEB =>
            pkgdir ← lift (shellSingleQuote (concat_sep "," ubuntu2404XcatPkgdirEntries));
            io (shell_cmd opts ("chdef -t osimage " +:+ image +:+ " pkgdir=" +:+ pkgdir))
        | PackageType.RPM => skip
        end;
    repos ← getxCATOSImageRepos;
    otherpkgdir ← lift (shellSingleQuote (concat_sep "," repos));
    io (shell_cmd opts ("chdef -t osimage " +:+ image +:+ " --plus otherpkgdir=" +:+ otherpkgdir)).

(** *** Putting an image together *)

Definition munge_fixes (chroot : string) : list string :=
  ["cp -f /etc/passwd /etc/group /etc/shadow " +:+ chroot +:+ "/etc";
   "mkdir -p " +:+ chroot +:+ "/var/lib/munge " +:+ chroot +:+ "/var/log/munge " +:+ chroot +:+ "/etc/munge " +:+
     chroot +:+ "/run/munge";
   "chown munge:munge " +:+ chroot +:+ "/var/lib/munge";
   "chown munge:munge " +:+ chroot +:+ "/var/log/munge";
   "chown munge:munge " +:+ chroot +:+ "/etc/munge";
   "chown munge:munge " +:+ chroot +:+ "/run/munge"].

Definition execute_all (commands : list string) : M World unit :=
  for_each commands (fun command => _ ← executeCommand runner command; skip).

Definition customizeImage (chroot : string) (customizations : list ScriptBuilder.ScriptBuilder) : M World unit :=
  _ ← (if decide (selectedQueueKind = Some Server.QueueKind.SLURM) then
         _ ← createDirectory opts (path_append chroot "etc");
         execute_all (munge_fixes chroot)
       else skip);
  for_each customizations (fun script => _ ← run runner script; skip).

(** [configureEL8], [configureEL9] and [configureEL10] *)
Definition configureEL : M World unit :=
  os ← lift nodeOS;
  commands ← lift (buildEnterpriseLinuxTemplateAliasCommands os);
  execute_all commands.

Definition ubuntu_pkglist : string :=
  concat_sep ScriptBuilder.newline
  ["bash -c " +:+ ScriptBuilder.dquote +:+ "cat > /opt/xcat/share/xcat/netboot/ubuntu/compute.ubuntu24.04.x86_64.pkglist <<'EOF'";
   "bash";
   "nfs-common";
   "openssl";
   "isc-dhcp-client";
   "libc-bin";
   "linux-image-generic";
   "openssh-server";
   "openssh-client";
   "wget";
   "rsync";
   "busybox-static";
   "gawk";
   "dnsutils";
   "tar";
   "gzip";
   "xz-utils";
   "cpio";
   "chrony";
   "EOF";
   "for suffix in exlist postinstall; do";
   "  target=/opt/xcat/share/xcat/netboot/ubuntu/compute.ubuntu24.04.x86_64.${suffix}";
   "  if [ -e /opt/xcat/share/xcat/netboot/ubuntu/compute.ubuntu20.04.x86_64.${suffix} ]; then";
   "    ln -sf /opt/xcat/share/xcat/netboot/ubuntu/compute.ubuntu20.04.x86_64.${suffix} \" +:+ quoted "$target\";
   "  elif [ -e /opt/xcat/share/xcat/netboot/ubuntu/compute.${suffix} ]; then";
   "    ln -sf /opt/xcat/share/xcat/netboot/ubuntu/compute.${suffix} \" +:+ quoted "$target\";
   "  fi";
   "done" +:+ ScriptBuilder.dquote].

Definition configureUbuntu24 : M World unit :=
  _ ← patchUbuntu24GenimageOtherpkgdirHandling opts;
  execute_all ["install -d /opt/xcat/share/xcat/netboot/ubuntu"; ubuntu_pkglist].

Definition getImageInstallArgs (imageType : ImageType.t) (nodeType : NodeType.t) : M Image ImageInstallArgs :=
  _ ← generateOSImageName imageType nodeType;
  _ ← generateOSImagePath imageType nodeType;
  image ← gets id;
  mret (mkArgs (osimage image) (chroot image) postinstall_file otherpkglist_file).

(** The templates of the distribution *)
Definition configure_templates : M World unit :=
  os ← lift nodeOS;
  platform ← lift (getPlatform os);
  match platform with
  | Platform.ubuntu2404 => configureUbuntu24
  | Platform.el8 | Platform.el9 | Platform.el10 => configureEL
  end.

Definition remove_rootfs (chroot : string) : string :=
  "bash -c " +:+ quoted ("rm -rf " +:+ chroot +:+ " && echo > " +:+ otherpkglist_file +:+ " && echo > " +:+
    postinstall_file).

(** The media are copied and the old root image removed. *)
Definition clear_image (image : Image) : M World unit :=
  _ ← (if shouldSkip opts "copycds" then _ ← executeCommand runner (remove_rootfs (chroot image)); skip
       else
         _ ← copycds (DiskImage.m_path (ClusterData.k_diskImage cluster));
         os ← lift nodeOS;
         ubuntu ← lift (isUbuntu2404ComputeImage os);
         if ubuntu : bool then shell_cmd opts buildUbuntu24CopycdsCompatibilityCommand else skip);
  _ ← cleanStatelessRootImage opts (chroot image);
  os ← lift nodeOS;
  ubuntu ← lift (isUbuntu2404ComputeImage os);
  _ ← (if ubuntu : bool
       then _ ← executeCommand runner (buildUbuntu24OSImageDefinitionCommand image); skip else skip);
  createDirectoryTree.

(** The marker goes first. *)
Definition reset_image (image : Image) : M World unit :=
  _ ← removeFile opts (imageQueueMarkerFile (osimage image)); clear_image image.

Definition configure_queue : M Image unit :=
  match selectedQueueKind with
  | Some Server.QueueKind.SLURM => configureSLURM
  | Some Server.QueueKind.PBS => configurePBS
  | Some Server.QueueKind.None | None => skip
  end.

Definition describe_image : M Provisioning unit :=
  _ ← on_stateless configureSELinux;
  _ ← on_stateless configureOpenHPC;
  _ ← on_stateless configureTimeService;
  _ ← on_stateless configureRemoteAccess;
  _ ← configureInfiniband;
  _ ← on_stateless configure_queue;
  image ← stateless;
  _ ← world (generateOtherPkgListFile image);
  generatePostinstallFile.

(** A new image, up to its marker. *)
Definition build_image (customizations : list ScriptBuilder.ScriptBuilder) : M Provisioning unit :=
  image ← stateless;
  _ ← world (reset_image image);
  _ ← describe_image;
  _ ← on_session (configureOSImageDefinition (osimage image));
  _ ← world (customizeImage (chroot image) customizations);
  world (_ ← genimage (osimage image); writeImageQueueMarker (osimage image)).

(** Whether the image is there, built for the selected queue system. *)
Definition reusable (image : string) : M World bool :=
  there ← imageExists image;
  there ← (if there : bool then imageMatchesSelectedQueue image else mret false);
  mret (shouldReuseExistingImage there (shouldSkip opts "copycds")).

Definition createImage (imageType : ImageType.t) (nodeType : NodeType.t)
    (customizations : list ScriptBuilder.ScriptBuilder) : M Provisioning unit :=
  _ ← world configure_templates;
  _ ← on_stateless (generateOSImageName imageType nodeType);
  _ ← on_stateless (generateOSImagePath imageType nodeType);
  image ← stateless;
  reuseExistingImage ← world (reusable (osimage image));
  _ ← (if negb reuseExistingImage then build_image customizations else skip);
  world
    (_ ← generateSynclistsFile;
     _ ← finalizeStatelessRootImage (chroot image);
     packimage (osimage image)).

(** ** Nodes *)

Definition ib0 (address : string) : string :=
  "nicips.ib0=" +:+ address +:+ " nictypes.ib0=" +:+ quoted "InfiniBand" +:+ " nicnetworks.ib0=ib0 ".

Definition node_command (node : Server.Node) : outcome string :=
  let server := Server.n_server node in
  arch ← toString <$> getArch (Server.s_os server);
  management ← connection server Network.Profile.Management;
  mac ← value (Connection.m_mac management);
  let command := "mkdef -f -t node " +:+ Server.s_hostname server +:+ " arch=" +:+ arch +:+ " ip=" +:+
    to_string (Connection.c_address management) +:+ " mac=" +:+ mac +:+ " groups=compute,all netboot=xnba " in
  let bmc :=
    match Server.s_bmc server with
    | Some bmc =>
        "bmc=" +:+ Server.b_address bmc +:+ " bmcusername=" +:+ Server.b_username bmc +:+ " bmcpassword=" +:+
        Server.b_password bmc +:+ " mgt=ipmi cons=ipmi serialport=" +:+ dec (Server.b_serialPort bmc) +:+
        " serialspeed=" +:+ dec (Server.b_serialSpeed bmc) +:+ " "
    | None => ""
    end in
  application ←
    try_catch (c ← connection server Network.Profile.Application; Ok (ib0 (to_string (Connection.c_address c))))
      (fun _ => true) (fun _ => Ok "");
  Ok (command +:+ bmc +:+ application).

Definition addNode (node : Server.Node) : M World unit :=
  command ← lift (node_command node); _ ← executeCommand runner command; skip.

Definition setNodesImage (image : string) : M World unit := nodeset "compute" image.

Definition pbs_register (node : Server.Node) : string :=
  let hostname := Server.s_hostname (Server.n_server node) in
  "/opt/pbs/bin/qmgr -c 'list node " +:+ hostname +:+ "' >/dev/null 2>&1 || /opt/pbs/bin/qmgr -c 'create node " +:+
  hostname +:+ "'".

Definition network_command (c : XcatNodeNetworkCommand) : M World unit :=
  if mustSucceed c then checkCommand runner (nc_command c)
  else _ ← executeCommand runner (nc_command c); skip.

Definition addNodes (image : string) : M World unit :=
  _ ← for_each (ClusterData.k_nodes cluster) addNode;
  commands ← lift (buildXcatAddNodesNetworkCommands headnodeOS);
  _ ← for_each commands network_command;
  _ ← (if decide (selectedQueueKind = Some Server.QueueKind.PBS) then
         _ ← for_each (ClusterData.k_nodes cluster) (fun node => shell_cmd opts (pbs_register node));
         shell_cmd opts "systemctl restart pbs"
       else skip);
  setNodesImage image.

Definition setNodesBoot : M World unit :=
  let nodes := buildBmcNodeSelector (ClusterData.k_nodes cluster) in
  if empty nodes then skip
  else runIpmiCommandWithFallback opts runner (ClusterData.k_nodes cluster) ("rsetboot " +:+ nodes +:+ " net")
         "chassis bootdev pxe" "PXE boot configuration".

Definition resetNodes : M World unit :=
  let nodes := buildBmcNodeSelector (ClusterData.k_nodes cluster) in
  if empty nodes then skip
  else runIpmiCommandWithFallback opts runner (ClusterData.k_nodes cluster) ("rpower " +:+ nodes +:+ " reset")
         "chassis power reset" "node reset".

(** ** Everything in order *)

Definition enable_xcat_repositories : M Session unit :=
  t ← lift (getPackageType headnodeOS);
  match t with
  | PackageType.RPM =>
      _ ← manager_enable opts headnodeOS "xcat-core";
      manager_enable opts headnodeOS "xcat-dep"
  | PackageType.DEB => skip
  end.

Definition start_nodes (image : string) : M World unit :=
  _ ← addNodes image;
  _ ← setNodesImage image;
  _ ← setNodesBoot;
  _ ← resetNodes;
  _ ← OsService.restartService osservice "chronyd";
  skip.

Definition install : M Provisioning unit :=
  _ ← on_session enable_xcat_repositories;
  managementConnection ← lift (connection headnode Network.Profile.Management);
  networkFileSystem ← lift (Nfs.NFS_make "pub" "/opt/ohpc" (Connection.c_address managementConnection)
    "ro,no_subtree_check");
  nfsInstallScript ← lift (Nfs.installScript (sy_provisioner (system answerfile)) headnodeOS);
  _ ← world installPackages;
  _ ← world (_ ← run runner nfsInstallScript; skip);
  _ ← world patchInstall;
  _ ← world setup;
  _ ← world (stop_after "provisioner-setup");
  imageInstallArgs ← on_stateless (getImageInstallArgs ImageType.Netboot NodeType.Compute);
  nfsImageInstallScript ← lift (Nfs.imageInstallScript computeOS imageInstallArgs);
  _ ← createImage ImageType.Netboot NodeType.Compute [nfsImageInstallScript];
  _ ← world (stop_after "provisioner-create-image");
  image ← stateless;
  world (start_nodes (osimage image)).
End xcat.
