(* ===== verification/XcatSpec.v ===== *)
(** * What xCAT is told, proved

    Quoting for the shell, the range of addresses handed out, the password of
    the images, patching xCAT's script, and clearing root images. *)

From stdpp Require Import base strings list gmap.
From Stdlib Require Import ZArith Lia Ascii.
From S2P Require Import Prelude CppString External Enums Options AnswerFileData Os World WorldFacts FileOps Runner.
From S2P Require Import XcatCommands.
From S2P Require Network Server.

Local Open Scope Z_scope.

(** ** Quoting

    Reading a word as POSIX shells do: the quotes around the parts of a word
    are taken off, and it ends at a blank.  What else has a meaning to the
    shell outside single quotes is not read. *)
Inductive quoting := Unquoted | Single | Double.

Definition double_quote : ascii := "034".
Definition special (c : ascii) : bool := char_in "$`\|&;<>()*?[#~=%!{}" c.

Fixpoint shell_word (mode : quoting) (s : string) : option (string * string) :=
  match s with
  | "" => match mode with Unquoted => Some ("", "") | _ => None end
  | String c s' =>
      let keep (mode : quoting) := r ← shell_word mode s'; Some (String c r.1, r.2) in
      match mode with
      | Unquoted =>
          if Ascii.eqb c "'" then shell_word Single s'
          else if Ascii.eqb c double_quote then shell_word Double s'
          else if is_space c then Some ("", s)
          else if special c then None
          else keep Unquoted
      | Single => if Ascii.eqb c "'" then shell_word Unquoted s' else keep Single
      | Double =>
          if Ascii.eqb c double_quote then shell_word Unquoted s'
          else if special c then None
          else keep Double
      end
  end.

Definition line_break (c : ascii) : bool := Ascii.eqb c "010" || Ascii.eqb c "013".

(** Quoting fails on a line break only. *)
Lemma quote_loop_ok value : is_ok (shellSingleQuote_loop value) = sforall (fun c => negb (line_break c)) value.
Proof.
  induction value as [|c value IH]; [done|]. cbn [shellSingleQuote_loop sforall].
  destruct (Ascii.eqb_spec c "'") as [->|Hc].
  - cbn [line_break]. rewrite <- IH. by destruct (shellSingleQuote_loop value).
  - fold (line_break c). destruct (line_break c); [done|]. cbn [negb andb]. rewrite <- IH.
    by destruct (shellSingleQuote_loop value).
Qed.

Lemma quote_loop_fails value e :
  shellSingleQuote_loop value = Throw e -> e = InvalidArgument "Shell-quoted strings cannot contain newlines".
Proof.
  induction value as [|c value IH]; [done|]. cbn [shellSingleQuote_loop].
  destruct (Ascii.eqb c "'"); [|destruct (_ || _); [by intros [= <-]|]];
    (destruct (shellSingleQuote_loop value) as [|e'|]; [done| |done]); intros [= <-]; by apply IH.
Qed.

Lemma quote_loop_defined value : shellSingleQuote_loop value <> UB.
Proof.
  induction value as [|c value IH]; [done|]. cbn [shellSingleQuote_loop].
  destruct (Ascii.eqb c "'"); [|destruct (_ || _); [done|]]; by destruct (shellSingleQuote_loop value).
Qed.

Lemma quote_loop_read value body rest : shellSingleQuote_loop value = Ok body ->
  shell_word Single (body +:+ String "'" rest) = (r ← shell_word Unquoted rest; Some (value +:+ r.1, r.2)).
Proof.
  revert body. induction value as [|c value IH]; intros body.
  - intros [= <-]. change ("" +:+ String "'" rest) with (String "'" rest). cbn.
    by destruct (shell_word Unquoted rest) as [[]|].
  - cbn [shellSingleQuote_loop]. destruct (Ascii.eqb_spec c "'") as [->|Hc].
    + destruct (shellSingleQuote_loop value) as [body'| |] eqn:Hb; [|done..]. intros [= <-].
      change ("'" +:+ quoted "'" +:+ "'" +:+ body')
        with (String "'" (String double_quote (String "'" (String double_quote (String "'" body'))))).
      rewrite !app_cons. cbn -[String.append]. rewrite (IH body' eq_refl). by destruct (shell_word Unquoted rest) as [[]|].
    + destruct (_ || _); [done|]. destruct (shellSingleQuote_loop value) as [body'| |] eqn:Hb; [|done..].
      intros [= <-]. rewrite !app_cons. cbn [shell_word]. rewrite (proj2 (Ascii.eqb_neq _ _) Hc), (IH body' eq_refl).
      by destruct (shell_word Unquoted rest) as [[]|].
Qed.

(** The rest of the command starts with a blank, or there is none. *)
Definition ends_word (rest : string) : bool := match rest with String c _ => is_space c | "" => true end.

Lemma shell_word_end rest : ends_word rest = true -> shell_word Unquoted rest = Some ("", rest).
Proof.
  destruct rest as [|c rest]; [done|]. cbn. intros Hs.
  destruct (Ascii.eqb_spec c "'") as [->|]; [done|]. destruct (Ascii.eqb_spec c double_quote) as [->|]; [done|].
  by rewrite Hs.
Qed.

(** C21. Whatever a value contains, quotes, blanks and dollar signs included,
    the shell reads the quoted text as that value alone, and goes on after it;
    only a value with a line break is refused. *)
Theorem shellSingleQuote_roundtrip (value rest : string) :
  ends_word rest = true ->
  if sforall (fun c => negb (line_break c)) value
  then exists text, shellSingleQuote value = Ok text /\ shell_word Unquoted (text +:+ rest) = Some (value, rest)
  else shellSingleQuote value = Throw (InvalidArgument "Shell-quoted strings cannot contain newlines").
Proof.
  intros Hrest. rewrite <- quote_loop_ok. unfold shellSingleQuote.
  destruct (shellSingleQuote_loop value) as [body|e|] eqn:Hb; cbn [is_ok].
  - eexists. split; [done|]. rewrite <- !sapp_assoc, !app_char. cbn -[String.append].
    rewrite (quote_loop_read _ _ _ Hb), shell_word_end by done. cbn -[String.append]. by rewrite sapp_nil_r.
  - cbn. f_equal. by eapply quote_loop_fails.
  - by destruct (quote_loop_defined value).
Qed.

(** ** Addresses handed out *)

Lemma host_bits k : 0 <= k <= 32 -> u32 (Z.lnot (Network.netmask k)) = 2 ^ (32 - k) - 1.
Proof.
  intros Hk. unfold u32, Network.netmask, Z.lnot. pose proof (Z.pow_pos_nonneg 2 (32 - k)).
  assert (2 ^ (32 - k) <= 2 ^ 32) by (apply Z.pow_le_mono_r; lia).
  replace (Z.pred (- (2 ^ 32 - 2 ^ (32 - k)))) with (2 ^ (32 - k) - 1 + (-1) * 2 ^ 32) by lia.
  rewrite Z.mod_add by lia. apply Z.mod_small. lia.
Qed.

Lemma broadcast k a : 0 <= k <= 32 -> 0 <= a < 2 ^ 32 -> Z.land a (Network.netmask k) = a ->
  Z.lor a (u32 (Z.lnot (Network.netmask k))) = a + 2 ^ (32 - k) - 1 /\ a + 2 ^ (32 - k) <= 2 ^ 32.
Proof.
  intros Hk Ha Hn. rewrite host_bits by done. rewrite Network.land_netmask in Hn by done.
  set (h := 2 ^ (32 - k)) in *. assert (0 < h) by (apply Z.pow_pos_nonneg; lia).
  assert (2 ^ 32 = 2 ^ k * h) as Hp by (unfold h; rewrite <- Z.pow_add_r by lia; f_equal; lia).
  split.
  - assert (Z.land a (h - 1) = 0) as Hz.
    { rewrite <- Hn. apply Z.bits_inj_0. intros i. rewrite Z.land_spec. unfold h.
      replace (2 ^ (32 - k) - 1) with (Z.ones (32 - k)) by (rewrite Z.ones_equiv; lia).
      destruct (Z.ltb_spec i (32 - k)); [|rewrite Z.ones_spec_high by lia; apply andb_false_r].
      destruct (Z.ltb_spec i 0); [by rewrite !Z.testbit_neg_r|]. by rewrite Z.mul_pow2_bits_low. }
    rewrite <- Z.lxor_lor, <- Z.add_nocarry_lxor by exact Hz. lia.
  - assert (a / h < 2 ^ k) by (apply Z.div_lt_upper_bound; nia). nia.
Qed.

(** The addresses of a subnet of a given prefix length that hosts can have. *)
Definition usable (k : Z) : Z := 2 ^ (32 - k) - 2.

Lemma dynamicRange_spec a k : 0 <= k <= 30 -> 0 <= a < 2 ^ 32 -> Z.land a (Network.netmask k) = a ->
  exists first last, dynamicRange a (Network.netmask k) = Ok (first, last) /\
    a < first /\ first <= last /\ last < a + 2 ^ (32 - k) - 1 /\
    last - first + 1 = Z.min 100 (if 4 <=? usable k then usable k - 2 else usable k).
Proof.
  intros Hk Ha Hn. destruct (broadcast k a) as [Hb Hmax]; [lia|done..|].
  unfold dynamicRange, usable. rewrite Hb. set (h := 2 ^ (32 - k)) in *.
  assert (4 <= h).
  { change 4 with (2 ^ 2). apply Z.pow_le_mono_r; lia. }
  rewrite (u32_id (a + 1)), (u32_id (a + h - 1 - 1)), (u32_id (a + 1 + 2)) by lia.
  rewrite (proj2 (Z.ltb_ge _ _)) by lia.
  assert (forall m, (a + 1 <= m < a + h - 1) ->
    u32 (u32 (m - (a + 1)) + 1) = m - a /\ u32 (u32 (m - Z.min 100 (m - a)) + 1) = m - Z.min 100 (m - a) + 1) as Hr.
  { intros m Hm. rewrite (u32_id (m - (a + 1))), (u32_id (m - (a + 1) + 1)) by lia.
    rewrite (u32_id (m - Z.min 100 (m - a))), (u32_id (m - Z.min 100 (m - a) + 1)) by lia. lia. }
  destruct (Z.ltb_spec (a + 1 + 2) (a + h - 1 - 1)), (Z.leb_spec 4 (h - 2)); [|lia..|].
  - rewrite (u32_id (a + h - 1 - 1 - 2)) by lia. destruct (Hr (a + h - 1 - 1 - 2)) as [-> ->]; [lia|].
    eexists _, _. split; [done|]. lia.
  - destruct (Hr (a + h - 1 - 1)) as [-> ->]; [lia|]. eexists _, _. split; [done|]. lia.
Qed.

Lemma dynamicRange_small a : 0 <= a < 2 ^ 32 -> Z.land a (Network.netmask 31) = a ->
  dynamicRange a (Network.netmask 31) =
    Throw (InvalidArgument "Management network is too small for an xCAT DHCP dynamic range").
Proof.
  intros Ha Hn. destruct (broadcast 31 a) as [Hb Hmax]; [lia|done..|]. unfold dynamicRange. rewrite Hb.
  change (2 ^ (32 - 31)) with 2 in *. rewrite !u32_id by lia. by rewrite (proj2 (Z.ltb_lt _ _)) by lia.
Qed.

(** C33. The range of addresses xCAT hands out, in a management network given
    by its address and mask: it lies strictly between the network address
    and the broadcast address, has at most 100 addresses, and ends two below
    the last address when the network has four or more; a network of two
    addresses is refused. *)
Theorem dynamic_range_spec `{AsioLaws} (network : Network.Network) (a k : Z) :
  0 <= k <= 31 -> 0 <= a < 2 ^ 32 -> Z.land a (Network.netmask k) = a ->
  Network.m_address network = address_v4 a -> Network.m_subnetMask network = address_v4 (Network.netmask k) ->
  if k =? 31 then is_ok (defaultDHCPDynamicRangeFor network) = false
  else exists first last,
    defaultDHCPDynamicRangeFor network = Ok (dotted first +:+ "-" +:+ dotted last) /\
    a < first /\ first <= last /\ last < a + 2 ^ (32 - k) - 1 /\
    last - first + 1 = Z.min 100 (if 4 <=? usable k then usable k - 2 else usable k).
Proof.
  intros Hk Ha Hn Haddr Hmask. unfold defaultDHCPDynamicRangeFor, to_v4_uint.
  assert (0 <= Network.netmask k < 2 ^ 32) by (apply Network.netmask_range; lia).
  rewrite Haddr, Hmask, !address_v4_is_v4, !address_v4_uint by done. cbn [mbind outcome_bind].
  destruct (Z.eqb_spec k 31) as [->|Hk31].
  - by rewrite dynamicRange_small.
  - destruct (dynamicRange_spec a k) as (first & last & Hr & H1 & H2 & H3 & H4); [lia|done..|].
    exists first, last. rewrite Hr. cbn [fst snd mbind outcome_bind].
    assert (a + 2 ^ (32 - k) <= 2 ^ 32) by (apply (broadcast k a); [lia|done..]).
    rewrite !to_string_v4 by lia. done.
Qed.

(** ** Passwords *)

Lemma check_passwords_spec `{Asio} password nodes :
  (check_passwords password nodes = Ok tt /\ Forall (fun node => Server.m_node_root_password node = Some password) nodes) \/
  (exists e node, check_passwords password nodes = Throw (RuntimeError e) /\ node ∈ nodes /\
    Server.m_node_root_password node <> Some password).
Proof.
  induction nodes as [|node nodes IH]; [by left|]. cbn [check_passwords].
  destruct (Server.m_node_root_password node) as [p|] eqn:Hp.
  - destruct (String.eqb_spec p password) as [->|Hne]; cbn [negb].
    + destruct IH as [[Hc Hall]|(e & n & Hc & Hn & Hd)].
      * left. split; [done|]. by constructor.
      * right. exists e, n. split; [done|]. split; [by right|done].
    + right. eexists _, node. split; [done|]. split; [by left|]. rewrite Hp. congruence.
  - right. eexists _, node. split; [done|]. split; [by left|]. by rewrite Hp.
Qed.

(** The root password of a stateless image is the one all nodes have: it
    is found exactly when there are nodes and each of them has that password;
    nodes without one, or with different ones, are an error, and without
    nodes the behaviour is undefined. *)
Theorem node_root_password_spec `{Asio} (nodes : list Server.Node) (password : string) :
  (getStatelessNodeRootPassword nodes = Ok password <->
   nodes <> [] /\ Forall (fun node => Server.m_node_root_password node = Some password) nodes) /\
  (getStatelessNodeRootPassword nodes = UB <-> nodes = []).
Proof.
  unfold getStatelessNodeRootPassword. destruct nodes as [|node nodes]; [by cbn; naive_solver|].
  cbn [head deref mbind outcome_bind]. destruct (Server.m_node_root_password node) as [first|] eqn:Hp.
  - destruct (check_passwords_spec first (node :: nodes)) as [[-> Hall]|(e & n & -> & Hn & Hd)]; cbn; split; split; try done.
    + intros [= <-]. by split.
    + intros [_ Hall']. inversion Hall'. congruence.
    + intros [_ Hall']. inversion Hall'. rewrite Forall_forall in Hall'.
      specialize (Hall' _ Hn). congruence.
  - split; split; try done. intros [_ Hall]. inversion Hall. congruence.
Qed.

(** ** Patching xCAT's script *)

Lemma prefix_split p s : String.prefix p s = true -> s = p +:+ sdrop (String.length p) s.
Proof.
  revert s. induction p as [|c p IH]; intros s; [done|]. destruct s as [|d s]; [done|].
  cbn [String.prefix]. destruct (ascii_dec c d) as [->|]; [|done]. intros Hs.
  rewrite app_cons. cbn. f_equal. by apply IH.
Qed.

Lemma find_str_Some needle s i : find_str needle s = Some i ->
  s = stake i s +:+ needle +:+ sdrop (i + String.length needle) s.
Proof.
  revert i. induction s as [|c s IH]; intros i; cbn [find_str].
  - destruct (String.prefix needle "") eqn:Hp; [|done]. intros [= <-]. by apply prefix_split.
  - destruct (String.prefix needle (String c s)) eqn:Hp.
    + intros [= <-]. by apply prefix_split.
    + destruct (find_str needle s) as [j|] eqn:Hj; [|done]. intros [= <-]. cbn. rewrite app_cons. f_equal. by apply IH.
Qed.

Lemma prefix_app p s : String.prefix p (p +:+ s) = true.
Proof. exact (starts_with_app p s). Qed.

Lemma contains_middle needle a b : contains needle (a +:+ needle +:+ b) = true.
Proof.
  apply bool_decide_eq_true. induction a as [|c a [i Hi]].
  - change ("" +:+ needle +:+ b) with (needle +:+ b). exists O.
    by destruct (needle +:+ b) eqn:Hs; cbn [find_str]; rewrite <- Hs, prefix_app.
  - rewrite app_cons. cbn [find_str]. rewrite Hi. destruct (String.prefix _ _); by eexists.
Qed.

(** Patching xCAT's script replaces the one block, leaves the text around
    it alone, and is idempotent: a patched script is not patched again; the
    patch is refused exactly when neither block is in the script. *)
Theorem genimage_patch_spec (content : string) :
  match patchUbuntu24GenimageOtherpkgdirContent content with
  | Ok patched =>
      patchUbuntu24GenimageOtherpkgdirContent patched = Ok patched /\
      (patched = content \/
       exists before after, content = before +:+ oldBlock +:+ after /\ patched = before +:+ patchedBlock +:+ after)
  | Throw e => contains oldBlock content = false /\ contains patchedBlock content = false
  | UB => False
  end.
Proof.
  unfold patchUbuntu24GenimageOtherpkgdirContent at 1. destruct (contains patchedBlock content) eqn:Hc.
  - split; [|by left]. unfold patchUbuntu24GenimageOtherpkgdirContent. by rewrite Hc.
  - destruct (find_str oldBlock content) as [pos|] eqn:Hp.
    + split.
      * unfold patchUbuntu24GenimageOtherpkgdirContent. by rewrite contains_middle.
      * right. eexists _, _. split; [by apply find_str_Some|done].
    + split; [|done]. apply bool_decide_eq_false. rewrite Hp. by intros [].
Qed.

(** ** Clearing root images *)

Definition netboot : string := "/install/netboot".

Lemma getlines_concat_slash n l : Forall plain (n :: l) -> getlines "/" (concat_sep "/" (n :: l) +:+ "/") = n :: l.
Proof.
  revert n. induction l as [|m l IH]; intros n [(_ & _ & _ & Hc) Hl]%Forall_cons.
  - exact (getlines_line "/" n "" Hc).
  - change (concat_sep "/" (n :: m :: l)) with (n +:+ String "/" (concat_sep "/" (m :: l))).
    rewrite <- sapp_assoc, app_cons, getlines_line by exact Hc. by rewrite IH.
Qed.

Lemma relative_first p x l : foldl walk_relative [] (getlines "/" p) = x :: l ->
  exists c y, hd "" (reverse (x :: l)) = String c y /\ Ascii.eqb "/" c = false.
Proof.
  assert (forall acc, Forall (fun n => n <> "" /\ no_char "/" n = true) acc ->
    Forall (fun n => n <> "" /\ no_char "/" n = true) (foldl walk_relative acc (getlines "/" p))) as Hall.
  { induction (getlines_pieces "/" p) as [|n ls Hn _ IH]; intros acc Hacc; [done|]. cbn [foldl]. apply IH.
    unfold walk_relative. destruct (String.eqb_spec n ""), (String.eqb_spec n "."); cbn; try done.
    destruct (String.eqb_spec n ".."); [|by constructor].
    destruct Hacc as [|m acc Hm Hacc]; [by repeat constructor|].
    destruct (String.eqb m ".."); [constructor; [done|]|done]. by constructor. }
  intros Hr. specialize (Hall [] (List.Forall_nil _)). rewrite Hr, <- Forall_reverse in Hall.
  destruct (reverse (x :: l)) as [|n ns] eqn:He; [by apply (f_equal length) in He; rewrite length_reverse in He|].
  inversion Hall as [|? ? [Hn Hc]]. destruct n as [|c n]; [done|]. exists c, n. split; [done|].
  rewrite no_char_cons in Hc. by apply andb_true_iff in Hc as [Hc%negb_true_iff _].
Qed.

Lemma ends_in_directory_slash p : (if ends_in_directory p then "/" else "") = "" \/
  (if ends_in_directory p then "/" else "") = "/".
Proof. destruct (ends_in_directory p); auto. Qed.

Lemma prefix_cons c p s : String.prefix (String c p) s = true -> exists r, s = String c r /\ String.prefix p r = true.
Proof.
  destruct s as [|d s]; [done|]. cbn [String.prefix]. destruct (ascii_dec c d) as [->|]; [|done]. intros Hp. by exists s.
Qed.

Lemma prefixes_app {A} (k r : list A) : k ∈ prefixes (k ++ r).
Proof.
  induction k as [|x k IH]; [destruct r; by left|]. cbn [app prefixes]. right. apply list_elem_of_fmap. by exists k.
Qed.

(** A path that looks as if it lay below [/install/netboot/] once normalised
    does. *)
Lemma normal_below p : starts_with installNetbootPrefix (lexically_normal p) = true -> below netboot p = true.
Proof.
  intros Hs. unfold lexically_normal in Hs. destruct (empty p); [done|]. destruct (has_root p).
  - case_decide as Hn; [done|]. unfold canonical in Hs.
    destruct (names p) as [|n l] eqn:Hnames; [done|].
    assert (n :: l = "install" :: "netboot" :: tail (tail (n :: l))) as Hl.
    { pose proof (names_plain p) as Hall. rewrite Hnames in Hall.
      apply prefix_split in Hs. unfold of_names in Hs.
      assert (forall s, concat_sep "/" (n :: l) +:+ s = "install/netboot/" +:+
        sdrop (String.length installNetbootPrefix) (("/" +:+ concat_sep "/" (n :: l)) +:+ s) ->
        getlines "/" (concat_sep "/" (n :: l) +:+ s) = n :: l ->
        n :: l = "install" :: "netboot" :: tail (tail (n :: l))) as Hgo.
      { intros s He Hg. rewrite He in Hg.
        change ("install/netboot/" +:+ ?r) with ("install" +:+ String "/" ("netboot" +:+ String "/" r)) in Hg.
        rewrite !getlines_line in Hg by done. rewrite <- Hg. done. }
      destruct (ends_in_directory_slash p) as [Hd|Hd]; rewrite Hd in Hs.
      - apply (Hgo "").
        + by injection Hs as Hs.
        + rewrite sapp_nil_r. by apply getlines_concat.
      - apply (Hgo "/").
        + by injection Hs as Hs.
        + by apply getlines_concat_slash. }
    unfold below. apply bool_decide_eq_true, lineage_elem. exists ["install"; "netboot"].
    split; [done|]. rewrite Hnames, Hl. apply (prefixes_app ["install"; "netboot"]).
  - destruct (foldl walk_relative [] (getlines "/" p)) as [|x l] eqn:Hf; [done|].
    destruct (relative_first p x l Hf) as (c & y & Hhd & Hc). exfalso.
    destruct (reverse (x :: l)) as [|n ns]; [done|]. cbn in Hhd. subst n.
    apply prefix_cons in Hs as (r & Hs & _). revert Hs. destruct ns; cbn [concat_sep]; rewrite ?app_cons;
      intros [= Hcc _]; by rewrite Hcc in Hc.
Qed.

Lemma below_names q p : below q p = true <-> exists r, names p = names q ++ r /\ canonical q = q.
Proof.
  unfold below. rewrite bool_decide_eq_true. split.
  - apply lineage_names.
  - intros (r & Hn & Hq). apply lineage_elem. exists (names q). split; [by rewrite <- Hq at 1|].
    rewrite Hn. apply prefixes_app.
Qed.

Lemma below_trans a b c : below a b = true -> below b c = true -> below a c = true.
Proof.
  rewrite !below_names. intros (r & Hr & Ha) (s & Hs & _). exists (r ++ s). split; [|done].
  by rewrite Hs, Hr, app_assoc.
Qed.

Lemma below_canonical a b : below a (canonical b) = below a b.
Proof. unfold below, lineage. by rewrite names_canonical. Qed.

Section clean.
Context `{Machine}.

Lemma contents_remove_tree kept p w q :
  contents (remove_tree kept p w) q =
  if below (canonical p) (canonical q) && negb (bool_decide (canonical q ∈ kept)) then None else contents w q.
Proof.
  unfold remove_tree, contents. cbn. apply option_eq. intros s. rewrite map_lookup_filter_Some.
  destruct (below (canonical p) (canonical q)), (bool_decide_reflect (canonical q ∈ kept)); cbn; naive_solver.
Qed.

(** Removing takes files away below its path only: all of them, unless it
    reports an error. *)
Lemma remove_all_cases p w :
  exists kept, (remove_all p w).2 = remove_tree kept p w /\
    match (remove_all p w).1 with
    | Ok None => kept = ∅ /\ obstacle w p = None
    | Ok (Some message) => obstacle w p = Some (message, kept)
    | _ => False
    end.
Proof. unfold remove_all. destruct (obstacle w p) as [[message kept]|]; by eexists. Qed.

Lemma contents_remove_all p w q :
  contents (remove_all p w).2 q = contents w q \/
  contents (remove_all p w).2 q = None /\ below (canonical p) (canonical q) = true.
Proof.
  destruct (remove_all_cases p w) as (kept & -> & _). rewrite contents_remove_tree.
  destruct (below _ _), (bool_decide _); cbn; auto.
Qed.
End clean.

(** C25. Clearing the root image of an earlier run touches nothing outside
    [/install/netboot], whatever path it is given, dots, relative and empty
    paths included: files elsewhere keep their contents, and no file anywhere
    gets new ones.  An empty path and one outside are refused and nothing
    happens.  Otherwise, unless it is a dry run, no file is left below the path
    when the path exists; or removing stopped early, which is reported, and
    then some of the files below the path may be gone, and only of those. *)
Theorem clean_root_image_spec `{Machine} (opts : Options) (path : string) (w : World) :
  let '(r, w') := cleanStatelessRootImage opts path w in
  (forall q, below netboot q = false -> contents w' q = contents w q) /\
  (forall q, contents w' q = contents w q \/ contents w' q = None /\ below (canonical path) q = true) /\
  match r with
  | Ok _ => below netboot path = true /\
      (dryRun opts = false -> fs_exists w path = true -> forall q, below (canonical path) q = true -> contents w' q = None)
  | Throw (LogicError _) => w' = w
  | Throw e => below netboot path = true /\ dryRun opts = false /\ fs_exists w path = true /\
      exists message kept, obstacle w path = Some (message, kept) /\
        e = RuntimeError ("Unable to remove stale xCAT root image directory " +:+ lexically_normal path +:+ ": " +:+ message)
  | UB => False
  end.
Proof.
  unfold cleanStatelessRootImage. destruct (empty path); [by cbn; split_and!; auto|].
  destruct (starts_with installNetbootPrefix (lexically_normal path)) eqn:Hs; cbn [negb]; [|by cbn; split_and!; auto].
  apply normal_below in Hs. destruct (dryRun opts); [by cbn; split_and!; auto|].
  unfold ask. cpp_simpl. destruct (fs_exists w path) eqn:He; cbn [negb]; [|by cbn; split_and!; auto].
  assert (forall q, contents (remove_all path w).2 q = contents w q \/
    contents (remove_all path w).2 q = None /\ below (canonical path) q = true) as Hr.
  { intros q. rewrite <- below_canonical. apply contents_remove_all. }
  assert (forall q, below netboot q = false -> contents (remove_all path w).2 q = contents w q) as Hout.
  { intros q Hq. destruct (Hr q) as [?|[_ Hb]]; [done|].
    rewrite (below_trans netboot (canonical path) q) in Hq; [done|by rewrite below_canonical|done]. }
  destruct (remove_all_cases path w) as (kept & Hw & Hcase).
  unfold mbind, M_bind. destruct (remove_all path w) as [[[message|]|e|] w'] eqn:Hrem; cbn [fst snd] in *; [| |done..].
  - split_and!; [done..|]. by exists message, kept.
  - destruct Hcase as [-> _]. split_and!; [done..|]. intros _ _ q Hq. rewrite Hw, contents_remove_tree, below_canonical, Hq. done.
Qed.
