(* ===== verification/XcatFrame.v ===== *)
(** * What the xCAT provisioner leaves alone

    An assertion about the machine that each of the operations the
    provisioner is made of maintains is maintained by the provisioner.  The
    operations are listed in the record [frame]: the theorems on images give
    one, and so does the theorem on dry runs at the end of this file. *)

From stdpp Require Import base strings list gmap.
From Stdlib Require Import ZArith Lia Ascii.
From S2P Require Import Prelude CppString External Enums Options AnswerFileData Os World FileOps Runner RepoData.
From S2P Require Import RepoManager XcatCommands Xcat.
From S2P Require ScriptBuilder Network Connection Server ClusterData Cluster OsService Ofed Nfs.

(** ** On the session and the provisioner *)

Definition of_session (I : World -> Prop) (s : Session) : Prop := I (s_world s).
Definition of_provisioning (I : World -> Prop) (p : Provisioning) : Prop := of_session I (p_session p).

Lemma maintains_io {A} I (m : M World A) : maintains I m -> maintains (of_session I) (io m).
Proof. intros Hm. by apply (maintains_zoom _ _ _ _ I). Qed.

Lemma maintains_on_rpm {A} I (m : M RPMRepoManager A) : maintains (of_session I) (on_rpm m).
Proof. by apply (maintains_zoom _ _ _ _ (fun _ => True)). Qed.

Lemma maintains_on_session {A} I (m : M Session A) :
  maintains (of_session I) m -> maintains (of_provisioning I) (on_session m).
Proof. intros Hm. by apply (maintains_zoom _ _ _ _ (of_session I)). Qed.

Lemma maintains_world {A} I (m : M World A) : maintains I m -> maintains (of_provisioning I) (world m).
Proof. intros Hm. by apply maintains_on_session, maintains_io. Qed.

Lemma maintains_on_stateless {A} I (m : M Image A) : maintains (of_provisioning I) (on_stateless m).
Proof. by apply (maintains_zoom _ _ _ _ (fun _ => True)). Qed.

(** [framed] goes through a method, with the hypotheses at hand. *)
Ltac framed :=
  repeat first
    [ progress maintain | apply maintains_on_session | apply maintains_world | apply maintains_io
    | apply maintains_on_rpm | apply maintains_on_stateless | apply maintains_gets
    | match goal with |- maintains _ (let _ := _ in _) => cbv zeta end ].

Section frame.
Context `{Asio} `{BoostText} `{Machine} `{GKeyFile} (opts : Options) (runner : IRunner).
Context (osservice : OsService.IOSService) (cluster : ClusterData.Cluster) (answerfile : AnswerFile).

Record frame (I : World -> Prop) : Prop := {
  fr_execute cmd : maintains I (executeCommand runner cmd);
  fr_execute_output cmd : maintains I (executeCommand_output runner cmd);
  fr_check cmd : maintains I (checkCommand runner cmd);
  fr_run script : maintains I (run runner script);
  fr_shell cmd : maintains I (shell_cmd opts cmd);
  fr_unsafe cmd : maintains I (unsafe_cmd opts cmd);
  fr_directory path : maintains I (createDirectory opts path);
  fr_remove path : maintains I (removeFile opts path);
  fr_otherpkglist text : maintains I (addStringToFile opts otherpkglist_file text);
  fr_postinstall text : maintains I (addStringToFile opts postinstall_file text);
  fr_synclists text : maintains I (addStringToFile opts synclists_file text);
  fr_conf name text : maintains I (installFile opts ("/etc/httpd/conf.d/" +:+ name +:+ ".conf") text);
  fr_patch : maintains I (patchUbuntu24GenimageOtherpkgdirHandling opts);
  fr_clean path : maintains I (cleanStatelessRootImage opts path);
  fr_kernel : maintains I (OsService.getKernelRunning osservice);
  fr_http url : dryRun opts = false -> maintains I (getHttpStatus opts runner url 1);
  fr_vault os : dryRun opts = false -> maintains I (OsService.shouldUseVault opts runner os);
}.

Context (I : World -> Prop) (F : frame I).

(** *** Repositories *)

Lemma load_frame path : maintains I (RPMRepositoryFile_load path).
Proof.
  unfold RPMRepositoryFile_load, parse_repo_file. framed.
  intros w Hw. unfold open_keyfile. by destruct (is_directory w path).
Qed.

Lemma repoFile_frame os name : maintains (of_session I) (manager_repoFile os name).
Proof. pose proof load_frame. unfold manager_repoFile, on_rpm_system, repoFile. framed. Qed.

Lemma repo_frame os name : maintains (of_session I) (manager_repo os name).
Proof.
  unfold manager_repo, on_rpm_system, repo. framed.
  all: intros s Hs; done.
Qed.

Lemma resolve_frame repo os : dryRun opts = false -> maintains I (resolveXcatOsImageRepoUrl opts runner repo os).
Proof. destruct F. intros Hdry. unfold resolveXcatOsImageRepoUrl. framed. Qed.

Lemma repos_from_file_frame name : dryRun opts = false ->
  maintains (of_session I) (addReposFromFile opts runner cluster name).
Proof.
  intros Hdry. pose proof repoFile_frame. pose proof (fun r os => resolve_frame r os Hdry).
  unfold addReposFromFile. apply maintains_bind; [framed|]. intros l.
  induction l as [|r l IH]; cbn [enabled_urls]; framed.
Qed.

Lemma image_repos_frame : dryRun opts = false -> maintains (of_session I) (getxCATOSImageRepos opts runner cluster).
Proof.
  intros Hdry. pose proof (fun name => repos_from_file_frame name Hdry). destruct F as [].
  specialize (fun os => fr_vault0 os Hdry) as Hvault. unfold getxCATOSImageRepos. framed.
Qed.

(** *** Steps on the image *)

Lemma http_repo_frame name : maintains I (createHTTPRepo opts runner name).
Proof. destruct F. unfold createHTTPRepo. framed. Qed.

Lemma infiniband_frame : maintains (of_provisioning I) (configureInfiniband opts runner osservice cluster).
Proof.
  pose proof http_repo_frame. pose proof repo_frame. destruct F.
  unfold configureInfiniband, stage_doca_repository, stateless. framed.
Qed.

Lemma describe_frame : maintains (of_provisioning I) (describe_image opts runner osservice cluster).
Proof.
  pose proof infiniband_frame. destruct F.
  unfold describe_image, generateOtherPkgListFile, generatePostinstallFile, add_permissions, stateless. framed.
Qed.

Lemma execute_all_frame commands : maintains I (execute_all runner commands).
Proof. destruct F. unfold execute_all. framed. Qed.

Lemma templates_frame : maintains I (configure_templates opts runner cluster).
Proof. pose proof execute_all_frame. destruct F. unfold configure_templates, configureUbuntu24, configureEL. framed. Qed.

Lemma definition_frame image : maintains (of_session I) (configureOSImageDefinition opts runner cluster image).
Proof.
  unfold configureOSImageDefinition. pose proof image_repos_frame as Hrepos. destruct F.
  unfold set_local_otherpkgs, chdef_plus. destruct (dryRun opts) eqn:Hdry; [|specialize (Hrepos eq_refl)]; framed.
Qed.

Lemma customize_frame chroot customizations : maintains I (customizeImage opts runner cluster chroot customizations).
Proof. pose proof execute_all_frame. destruct F. unfold customizeImage. framed. Qed.

Lemma genimage_frame image : maintains I (genimage opts osservice cluster answerfile image).
Proof. destruct F. unfold genimage, genimage_kernel. framed. Qed.

Lemma synclists_frame : maintains I (generateSynclistsFile opts cluster).
Proof. destruct F. unfold generateSynclistsFile. framed. Qed.

Lemma directory_tree_frame : maintains I (createDirectoryTree opts cluster).
Proof. destruct F. unfold createDirectoryTree. framed. Qed.

Lemma clear_frame image : maintains I (clear_image opts runner cluster image).
Proof. pose proof directory_tree_frame. destruct F. unfold clear_image, copycds. framed. Qed.

Lemma reset_frame image : maintains I (reset_image opts runner cluster image).
Proof. pose proof clear_frame. destruct F. unfold reset_image. framed. Qed.

Lemma image_exists_frame image : maintains I (imageExists opts runner image).
Proof. destruct F. unfold imageExists. framed. Qed.

Lemma matches_frame image : maintains I (imageMatchesSelectedQueue cluster image).
Proof. unfold imageMatchesSelectedQueue, stream_read. framed. Qed.

Lemma reusable_frame image : maintains I (reusable opts runner cluster image).
Proof. pose proof image_exists_frame. pose proof matches_frame. unfold reusable. framed. Qed.

Lemma finalize_frame chroot : maintains I (finalizeStatelessRootImage runner cluster chroot).
Proof. destruct F. unfold finalizeStatelessRootImage. framed. Qed.

(** *** The head node and the nodes *)

Lemma patch_install_frame : maintains I (patchInstall opts runner cluster).
Proof. destruct F. unfold patchInstall, stop_after. framed. Qed.

Lemma setup_frame : maintains I (setup runner cluster).
Proof.
  destruct F. unfold setup, setDHCPInterfaces, setDHCPDynamicRange, setPrecreateMyPostscripts, setDomain.
  assert (forall n, maintains I (setup_wait runner n)) by (induction n; cbn [setup_wait]; framed). framed.
Qed.

Lemma ipmi_frame command subcommand description :
  maintains I (runIpmiCommandWithFallback opts runner (ClusterData.k_nodes cluster) command subcommand description).
Proof. destruct F. unfold runIpmiCommandWithFallback, runDirectIpmiCommand. framed. Qed.

Lemma nodes_frame image : maintains I (addNodes opts runner cluster image).
Proof. destruct F. unfold addNodes, addNode, network_command, setNodesImage, nodeset. framed. Qed.

(** *** All of it *)

Context (Hmark : forall image, maintains I (writeImageQueueMarker opts cluster image)).

Lemma build_frame customizations :
  maintains (of_provisioning I) (build_image opts runner osservice cluster answerfile customizations).
Proof.
  pose proof reset_frame. pose proof describe_frame. pose proof definition_frame. pose proof customize_frame.
  pose proof genimage_frame. unfold build_image, stateless. framed.
Qed.

Lemma create_frame imageType nodeType customizations :
  maintains (of_provisioning I) (createImage opts runner osservice cluster answerfile imageType nodeType customizations).
Proof.
  pose proof templates_frame. pose proof build_frame. pose proof reusable_frame. pose proof synclists_frame.
  pose proof finalize_frame. destruct F. unfold createImage, packimage, stateless. framed.
Qed.

Context (Henable : forall os repo, maintains (of_session I) (manager_enable opts os repo)).
Context (Hclock : maintains I (OsService.restartService osservice "chronyd")).

Lemma install_frame : maintains (of_provisioning I) (Xcat.install opts runner osservice cluster answerfile).
Proof.
  pose proof patch_install_frame. pose proof setup_frame. pose proof create_frame. pose proof nodes_frame.
  pose proof ipmi_frame. destruct F.
  unfold Xcat.install, enable_xcat_repositories, installPackages, stop_after, start_nodes, setNodesBoot, resetNodes,
    setNodesImage, nodeset, stateless. framed.
Qed.
End frame.

(** ** A dry run

    With [--dry], installing changes nothing on the machine but for four kinds
    of empty files. *)

(** The files of an image description that [addStringToFile] opens. *)
Definition description_file (p : string) : Prop :=
  p ∈ [otherpkglist_file; postinstall_file; synclists_file] \/ exists image, p = imageQueueMarkerFile image.

(** All that differs from [w0]: the running kernel has been asked for, and
    files that were not there may be there, empty, if they are among those
    [opened]. *)
Record untouched_but (opened : string -> Prop) (w0 w : World) : Prop := {
  un_dirs : w_dirs w = w_dirs w0;
  un_trace : exists k, w_trace w = w_trace w0 ++ replicate k (Spawn "uname -r");
  un_mock : w_mock w = w_mock w0;
  un_vault : w_vault w = w_vault w0;
  un_files p :
    w_files w !! p = w_files w0 !! p \/
    w_files w0 !! p = None /\ w_files w !! p = Some "" /\ exists f, p = canonical f /\ opened f;
}.

Definition untouched : World -> World -> Prop := untouched_but description_file.

Lemma untouched_refl opened w : untouched_but opened w w.
Proof. split; [done|exists 0%nat; by rewrite app_nil_r|done..|by left]. Qed.

Section dry.
Context `{Asio} `{BoostText} `{Machine} `{GChecksum} `{GKeyFile} (opts : Options) (opened : string -> Prop) (w0 : World).
Context (Hdry : dryRun opts = true).
Context (Huname : forall w, (react w (Spawn "uname -r")).2 = (w_files w, w_dirs w)).

Lemma open_untouched p : opened p -> maintains (untouched_but opened w0) (stream_append p "").
Proof.
  intros Hp w [Hd Ht Hm Hv Hf]. unfold stream_append. case_match; [|done].
  split; cbn; [done..|]. intros q. destruct (decide (canonical p = q)) as [<-|Hq].
  - rewrite lookup_insert_eq. unfold contents.
    destruct (Hf (canonical p)) as [Hs | (Hn & Hs & _)]; rewrite Hs; cbn; [|by right; eauto].
    destruct (w_files w0 !! canonical p) as [s|]; cbn; [|by right; eauto]. left. by rewrite sapp_nil_r.
  - by rewrite lookup_insert_ne.
Qed.

Lemma add_untouched p text : opened p -> maintains (untouched_but opened w0) (addStringToFile opts p text).
Proof.
  intros Hp. pose proof (open_untouched _ Hp). unfold addStringToFile, stream_read. rewrite Hdry. maintain.
Qed.

Lemma uname_untouched : maintains (untouched_but opened w0) (checkOutput (DryRunner opts) "uname -r").
Proof.
  cbn. unfold check_output, runCommand. rewrite orb_true_r.
  assert (maintains (untouched_but opened w0) (execute (Spawn "uname -r"))) as Hx.
  { intros w [Hd (k & Ht) Hm Hv Hf]. unfold execute. specialize (Huname w).
    destruct (react w (Spawn "uname -r")) as [r [files dirs]]. cbn in Huname. injection Huname as -> ->.
    split; cbn; [done| |done..]. exists (S k). by rewrite Ht, <- app_assoc, <- replicate_cons_app. }
  maintain.
Qed.

(** Of the commands of a service, only the one that asks for the kernel is run. *)
Lemma service_untouched headOS osservice :
  OsService.factory (DryRunner opts) headOS = Ok osservice ->
  maintains (untouched_but opened w0) (OsService.getKernelRunning osservice) /\
  forall s,
    maintains (untouched_but opened w0) (OsService.restartService osservice s) /\
    maintains (untouched_but opened w0) (OsService.enableService osservice s) /\
    maintains (untouched_but opened w0) (OsService.disableService osservice s) /\
    maintains (untouched_but opened w0) (OsService.install osservice s).
Proof.
  intros Hs. pose proof uname_untouched. unfold OsService.factory in Hs. rewrite bind_Ok in Hs.
  destruct Hs as (d & _ & Hs). unfold OsService.first_line.
  destruct d; injection Hs as <-; cbn;
    unfold OsService.first_line, OsService.apt_install, OsService.succeeds, OsService.fails; cbn; split_and!; maintain.
  all: intros; split_and!; maintain.
Qed.

Lemma kernel_untouched headOS osservice :
  OsService.factory (DryRunner opts) headOS = Ok osservice ->
  maintains (untouched_but opened w0) (OsService.getKernelRunning osservice) /\
  maintains (untouched_but opened w0) (OsService.restartService osservice "chronyd").
Proof. intros Hs. destruct (service_untouched _ _ Hs) as [Hk Ha]. split; [done|apply Ha]. Qed.

Context (Hopened : forall p, description_file p -> opened p).

Lemma dry_frame headOS osservice :
  OsService.factory (DryRunner opts) headOS = Ok osservice ->
  frame opts (DryRunner opts) osservice (untouched_but opened w0).
Proof.
  intros Hs. pose proof (kernel_untouched _ _ Hs) as [Hk _].
  assert (forall text p, p ∈ [otherpkglist_file; postinstall_file; synclists_file] ->
    maintains (untouched_but opened w0) (addStringToFile opts p text)) as Ha
    by (intros; apply add_untouched, Hopened; by left).
  split; intros; try congruence; try (apply Ha; set_solver); try done; cbn;
    unfold shell_cmd, unsafe_cmd, createDirectory, removeFile, installFile, patchUbuntu24GenimageOtherpkgdirHandling,
      cleanStatelessRootImage; rewrite ?Hdry; cbn; maintain.
Qed.

Lemma xcat_untouched headOS osservice cluster answerfile :
  OsService.factory (DryRunner opts) headOS = Ok osservice ->
  maintains (of_provisioning (untouched_but opened w0)) (Xcat.install opts (DryRunner opts) osservice cluster answerfile).
Proof.
  intros Hs. apply install_frame.
  - by eapply dry_frame.
  - intros image. unfold writeImageQueueMarker, removeFile. rewrite Hdry.
    pose proof (add_untouched (imageQueueMarkerFile image)) as Ha.
    apply maintains_bind; [apply maintains_skip|]. intros. apply Ha, Hopened. right. eauto.
  - intros os repo. unfold manager_enable. rewrite Hdry. maintain.
  - by eapply kernel_untouched.
Qed.
End dry.

(** A dry run of the provisioner leaves the machine alone: no process is
    started except [uname -r], no directory is made or removed, and no file is
    changed or removed.  It may leave behind an empty file where an image
    description or the queue marker of an image would be, since
    [addStringToFile] opens the file before it looks at the flag. *)
Theorem dry_run_untouched `{Asio} `{BoostText} `{Machine} `{GChecksum} `{GKeyFile} (opts : Options)
    (osservice : OsService.IOSService) (headOS : OS) (cluster : ClusterData.Cluster) (answerfile : AnswerFile)
    (p p' : Provisioning) (r : outcome unit) :
  dryRun opts = true ->
  (forall w, (react w (Spawn "uname -r")).2 = (w_files w, w_dirs w)) ->
  OsService.factory (DryRunner opts) headOS = Ok osservice ->
  Xcat.install opts (DryRunner opts) osservice cluster answerfile p = (r, p') ->
  untouched (s_world (p_session p)) (s_world (p_session p')).
Proof.
  intros Hdry Huname Hs Hi. change (of_provisioning (untouched (s_world (p_session p))) p').
  replace p' with (r, p').2 by done. rewrite <- Hi.
  eapply xcat_untouched; [done|done|done|exact Hs|apply untouched_refl].
Qed.
