(* ===== verification/XcatImageSpec.v ===== *)
(** * Which images are used again

    An image that was built is used again by a later run only when its build
    had returned, and for the queue system it was built for: the marker file
    next to it says so.  Also the file of files to keep in step on the nodes,
    and the kernel of an image. *)

From stdpp Require Import base strings list gmap.
From Stdlib Require Import ZArith Lia Ascii.
From S2P Require Import Prelude CppString External Enums Options AnswerFileData Os World WorldFacts FileOps Runner.
From S2P Require Import RepoManager XcatCommands XcatSpec Xcat XcatFrame.
From S2P Require ScriptBuilder Network Connection Server ClusterData Cluster ClusterFill OsService.

Local Open Scope Z_scope.

(** ** Names of images *)

Definition image_name (image : string) : Prop := no_char "/" image = true /\ last_char image = Some "e"%char.

Lemma last_char_app a b : empty b = false -> last_char (a +:+ b) = last_char b.
Proof.
  intros Hb. induction a as [|c a IH]; [done|]. rewrite app_cons. cbn [last_char]. rewrite IH.
  destruct (last_char_is_Some b Hb) as [d Hd]. by rewrite Hd.
Qed.

Lemma dec_digits_are_digits fuel n acc : sforall is_digit acc = true -> sforall is_digit (dec_digits fuel n acc) = true.
Proof.
  revert n acc. induction fuel as [|fuel IH]; intros n acc Hacc; [done|]. cbn [dec_digits].
  assert (sforall is_digit (String (digit_char (n mod 10)) acc) = true) as Hd.
  { cbn [sforall]. rewrite Hacc. destruct (digit_char_spec (n mod 10)) as [-> _]; [lia|done]. }
  destruct (n <? 10); [done|]. by apply IH.
Qed.

Lemma dec_no_slash n : no_char "/" (dec n) = true.
Proof. apply digits_no_char; [done|]. by apply dec_digits_are_digits. Qed.

Lemma pad_no_slash w s : no_char "/" s = true -> no_char "/" (pad0 w s) = true.
Proof.
  intros Hs. unfold pad0. rewrite no_char_app, Hs, andb_true_r.
  induction (Z.to_nat w - String.length s)%nat as [|n IH]; [done|]. done.
Qed.

Lemma version_no_slash os v : getVersion os = Ok v -> no_char "/" v = true.
Proof.
  unfold getVersion. destruct (getDistro os) as [d| |]; [|done..]. cbn [mbind outcome_bind].
  destruct d; [..|destruct (0 <? m_minorVersion os)]; intros [= <-];
    rewrite ?no_char_app, ?(pad_no_slash 2) by apply dec_no_slash; by rewrite ?dec_no_slash.
Qed.

Lemma distro_version_no_slash os v : getOSImageDistroVersion os = Ok v -> no_char "/" v = true.
Proof.
  unfold getOSImageDistroVersion. destruct (getDistro os) as [d| |]; [|done..]. cbn [mbind outcome_bind].
  destruct (getVersion os) as [version| |] eqn:Hv; [|by destruct d..]. apply version_no_slash in Hv.
  destruct d; cbn [mbind outcome_bind]; [destruct (getPlatform os); [|done..]; cbn [mbind outcome_bind]|..];
    intros [= <-]; rewrite ?no_char_app, Hv; try done. by case_decide.
Qed.

Lemma generated_name `{Asio} cluster imageType nodeType i i' :
  generateOSImageName cluster imageType nodeType i = (Ok tt, i') -> image_name (osimage i').
Proof.
  unfold generateOSImageName. intros Hr. step_pure Hr os Hos. step_pure Hr version Hv. step_pure Hr arch Ha.
  injection Hr as <-. cbn [osimage]. apply distro_version_no_slash in Hv. split.
  - rewrite !no_char_app, Hv. by destruct arch, imageType, nodeType.
  - destruct nodeType; rewrite !last_char_app by (by destruct arch, imageType); done.
Qed.

(** ** The marker is a file of its own *)

Section marker.
Context (image : string) (Hname : image_name image).

Definition marker : string := imageQueueMarkerFile image.

Lemma marker_plain : plain ("compute.queue." +:+ image).
Proof. destruct Hname as [Hn _]. split; [done|]. split; [done|]. split; [done|]. by rewrite no_char_app, Hn. Qed.

Lemma marker_names : names marker = ["install"; "custom"; "netboot"; "compute.queue." +:+ image].
Proof. apply (names_append "/install/custom/netboot" _ marker_plain). Qed.

Definition other (p : string) : Prop := canonical p <> canonical marker.

Lemma other_names p : names p <> names marker -> other p.
Proof. intros Hn He. apply Hn. by apply canonical_eq. Qed.

Lemma other_in_netboot name : String.prefix "compute.queue." name = false -> plain name ->
  other (path_append "/install/custom/netboot" name).
Proof.
  intros Hp Hn. apply other_names. rewrite names_append, marker_names by done. intros [= He].
  by rewrite He, prefix_app in Hp.
Qed.

Lemma other_otherpkglist : other otherpkglist_file.
Proof. by apply (other_in_netboot "compute.otherpkglist"). Qed.
Lemma other_postinstall : other postinstall_file.
Proof. by apply (other_in_netboot "compute.postinstall"). Qed.
Lemma other_synclists : other synclists_file.
Proof. by apply (other_in_netboot "compute.synclists"). Qed.
Lemma other_genimage : other genimage_path.
Proof. apply other_names. rewrite marker_names. vm_compute. done. Qed.

(** A path with an extension keeps it when normalised. *)
Lemma ending_name p suffix acc : no_char "/" suffix = true -> (2 < String.length suffix)%nat ->
  exists l y, foldl walk acc (getlines "/" (p +:+ suffix)) = (y +:+ suffix) :: l.
Proof.
  intros Hs Hlen. remember (String.length p) as n eqn:Hn. revert acc p Hn.
  induction (lt_wf n) as [n _ IH]. intros acc p ->. destruct (cut_at "/" p) as [Hp|(w & r & -> & Hw)].
  - exists acc, p. assert (plain (p +:+ suffix)) as Hpl.
    { split_and!; [..|by rewrite no_char_app, Hp];
        intros He; apply (f_equal String.length) in He; rewrite length_sapp in He; cbn in He; lia. }
    rewrite getlines_last by (by destruct Hpl as (He & _ & _ & Hc); destruct (p +:+ suffix)).
    cbn [foldl]. by apply walk_plain.
  - rewrite <- sapp_assoc, app_cons, getlines_line by exact Hw. cbn [foldl].
    apply (IH (String.length r)); [|done]. rewrite length_sapp. cbn. lia.
Qed.

Lemma other_extension p suffix :
  no_char "/" suffix = true -> (2 < String.length suffix)%nat -> last_char suffix <> Some "e"%char ->
  other (p +:+ suffix).
Proof.
  intros Hs Hlen Hlast. apply other_names. rewrite marker_names. unfold names.
  destruct (ending_name p suffix [] Hs Hlen) as (l & y & ->). rewrite reverse_cons. intros He.
  change ["install"; "custom"; "netboot"; "compute.queue." +:+ image]
    with (["install"; "custom"; "netboot"] ++ ["compute.queue." +:+ image]) in He.
  apply app_inj_tail in He as [_ He]. apply (f_equal last_char) in He.
  assert (empty image = false) as Hi by (destruct Hname as [_ Hl]; by destruct image).
  assert (empty suffix = false) as He' by (destruct suffix; [cbn in Hlen; lia|done]).
  rewrite (last_char_app y), (last_char_app "compute.queue.") in He by done.
  destruct Hname as [_ Hl]. congruence.
Qed.
End marker.

(** ** Nothing but the program writes the marker *)

(** What a command does to files is not known, but xCAT and the other tools
    that are started do not write to a file of this program. *)
Definition marker_untouched `{Machine} (image : string) : Prop :=
  forall w c, (react w c).2.1 !! canonical (marker image) = w_files w !! canonical (marker image).

Section absent.
Context `{Asio} `{BoostText} `{Machine} `{GKeyFile} `{GChecksum} (opts : Options) (image : string).
Context (Hname : image_name image) (Hlaw : marker_untouched image).

Definition reads (text : option string) (w : World) : Prop := contents w (marker image) = text.
Definition absent : World -> Prop := reads None.

Lemma execute_reads text c : maintains (reads text) (execute c).
Proof.
  intros w Hw. unfold execute. specialize (Hlaw w c). destruct (react w c) as [r [files dirs]]. cbn in Hlaw |- *.
  unfold reads, contents in *. cbn. by rewrite Hlaw.
Qed.

Lemma run_reads text cmd override : maintains (reads text) (runCommand opts cmd override).
Proof. pose proof (execute_reads text). unfold runCommand. framed. Qed.

Lemma unsafe_reads text cmd : maintains (reads text) (unsafe_cmd opts cmd).
Proof. pose proof (execute_reads text). unfold unsafe_cmd. framed. Qed.

Lemma runner_reads text cmd :
  maintains (reads text) (executeCommand (Runner opts) cmd) /\
  maintains (reads text) (executeCommand_output (Runner opts) cmd) /\
  maintains (reads text) (checkCommand (Runner opts) cmd) /\
  maintains (reads text) (checkOutput (Runner opts) cmd).
Proof.
  pose proof (run_reads text). cbn. unfold Runner_executeCommand, check_output. split_and!; framed.
Qed.

Lemma put_file_absent p s w : other image p -> absent w -> absent (put_file p s w).
Proof. intros Ho Hw. unfold absent, reads. rewrite contents_put_file, decide_False by by apply not_eq_sym. done. Qed.

Lemma stream_write_absent p s : other image p -> maintains absent (stream_write p s).
Proof. intros Ho w Hw. unfold stream_write. destruct (can_write w p); [|done]. by apply put_file_absent. Qed.

Lemma stream_append_absent p s : other image p -> maintains absent (stream_append p s).
Proof. intros Ho w Hw. unfold stream_append. destruct (can_write w p); [|done]. by apply put_file_absent. Qed.

Lemma add_string_absent p s : other image p -> maintains absent (addStringToFile opts p s).
Proof.
  intros Ho. pose proof (fun s => stream_append_absent p s Ho). unfold addStringToFile, stream_read. framed.
Qed.

Lemma install_file_absent p s : other image p -> maintains absent (installFile opts p s).
Proof. intros Ho. pose proof (fun s => stream_write_absent p s Ho). unfold installFile. framed. Qed.

Lemma create_directory_absent p : maintains absent (createDirectory opts p).
Proof.
  unfold createDirectory. framed. intros w Hw. unfold create_directories. by destruct (existsb _ _).
Qed.

Lemma fs_remove_absent p : maintains absent (fs_remove p).
Proof.
  intros w Hw. unfold fs_remove. destruct (_ && _); [done|]. unfold absent, reads, contents in *. cbn.
  apply lookup_delete_None. by right.
Qed.

Lemma remove_file_absent p : maintains absent (removeFile opts p).
Proof. pose proof fs_remove_absent. unfold removeFile. framed. Qed.

Lemma clean_absent p : maintains absent (cleanStatelessRootImage opts p).
Proof.
  assert (maintains absent (remove_all p)) as Hr.
  { intros w Hw. unfold absent, reads in *.
    match goal with |- contents _ ?q = _ => by destruct (contents_remove_all p w q) as [->|[-> _]] end. }
  unfold cleanStatelessRootImage. framed.
Qed.

Lemma patch_absent : maintains absent (patchUbuntu24GenimageOtherpkgdirHandling opts).
Proof.
  pose proof (fun s => stream_write_absent _ s (other_genimage image Hname)).
  unfold patchUbuntu24GenimageOtherpkgdirHandling, stream_read. framed.
Qed.

Lemma http_absent url n : maintains absent (getHttpStatus opts (Runner opts) url n).
Proof.
  pose proof (fun cmd => runner_reads None cmd) as Hr.
  assert (forall h, maintains absent (getHttpStatus_loop (Runner opts) n url h)) as Hloop.
  { induction n as [|n IH]; intros h; cbn [getHttpStatus_loop]; [framed|]. unfold getHttpStatusInner.
    apply maintains_bind; [apply maintains_bind; [apply Hr|intros; framed]|]. intros. framed. }
  unfold getHttpStatus. framed.
Qed.

Lemma vault_absent os : maintains absent (OsService.shouldUseVault opts (Runner opts) os).
Proof. pose proof http_absent. unfold OsService.shouldUseVault. framed. all: by intros w Hw. Qed.

Context (os : OS) (osservice : OsService.IOSService).
Context (Hservice : OsService.factory (Runner opts) os = Ok osservice).

Lemma service_kernel : OsService.getKernelRunning osservice = OsService.first_line (Runner opts) "uname -r".
Proof.
  unfold OsService.factory in Hservice. destruct (getDistro os) as [d| |]; [|done..].
  by destruct d; injection Hservice as <-.
Qed.

Lemma absent_frame : frame opts (Runner opts) osservice absent.
Proof.
  pose proof (runner_reads None) as Hr.
  split; intros; try apply Hr.
  - cbn. unfold Runner_run, Runner_executeCommand. pose proof (run_reads None).
    assert (forall sum text, maintains absent (installFile opts ("/tmp/" +:+ sum +:+ ".sh") text)).
    { intros sum text. rewrite sapp_assoc. apply install_file_absent, other_extension; done || (cbn; lia). }
    unfold script_path. framed.
  - pose proof (unsafe_reads None). unfold shell_cmd. framed.
  - apply unsafe_reads.
  - apply create_directory_absent.
  - apply remove_file_absent.
  - apply add_string_absent, other_otherpkglist. done.
  - apply add_string_absent, other_postinstall. done.
  - apply add_string_absent, other_synclists. done.
  - rewrite sapp_assoc. apply install_file_absent, other_extension; done || (cbn; lia).
  - apply patch_absent.
  - apply clean_absent.
  - rewrite service_kernel. unfold OsService.first_line. apply maintains_bind; [apply Hr|]. framed.
  - apply http_absent.
  - apply vault_absent.
Qed.
End absent.

(** ** Writing the marker, and a file anew *)

Lemma contains_empty s : s <> "" -> contains s "" = false.
Proof.
  intros Hs. apply bool_decide_eq_false. intros [i Hi]. destruct s as [|c s]; [done|]. done.
Qed.

(** A file that is not there, written with a text. *)
Lemma add_string_fresh opts p s w : dryRun opts = false -> contents w p = None -> s <> "" ->
  if can_write w p then addStringToFile opts p s w = (Ok tt, put_file p s (put_file p "" w))
  else addStringToFile opts p s w = (Throw (RuntimeError ("Error opening file: " +:+ p)), w).
Proof.
  intros Hdry Hp Hs. unfold addStringToFile, stream_read, stream_append. rewrite Hdry. cpp_simpl. rewrite Hp. cbn.
  rewrite contains_empty by done. destruct (can_write w p) eqn:Hw; cbn; [|done].
  rewrite Hp. cbn. rewrite sapp_nil_r.
  assert (can_write (put_file p "" w) p = true) as -> by exact Hw. cbn.
  by rewrite contents_put_file, decide_True.
Qed.

Lemma remove_file_gone opts p w : dryRun opts = false -> is_directory w p = false ->
  exists w', removeFile opts p w = (Ok tt, w') /\ contents w' p = None /\ w_dirs w' = w_dirs w ∖ {[canonical p]} \/
    removeFile opts p w = (Ok tt, w) /\ contents w p = None.
Proof.
  intros Hdry Hd. unfold removeFile. rewrite Hdry. unfold ask. cpp_simpl. unfold fs_exists. rewrite Hd, orb_false_r.
  destruct (is_regular_file w p) eqn:Hf.
  - unfold fs_remove. rewrite Hd. cbn. eexists. left. split; [done|]. split; [|done]. apply lookup_delete_eq.
  - exists w. right. split; [done|]. unfold is_regular_file in Hf. apply bool_decide_eq_false in Hf.
    by apply eq_None_not_Some.
Qed.

Section build.
Context `{Asio} `{BoostText} `{Machine} `{GKeyFile} `{GChecksum} (opts : Options).
Context (cluster : ClusterData.Cluster) (answerfile : AnswerFile) (os : OS) (osservice : OsService.IOSService).
Context (image : string) (Hname : image_name image) (Hlaw : marker_untouched image) (Hdry : dryRun opts = false).
Context (Hservice : OsService.factory (Runner opts) os = Ok osservice).

Definition marked (w : World) : Prop := reads image (Some (unlines [queueMarkerValue cluster])) w.

(** Either the method returned and the marker is there, or there is none. *)
Definition marks (r : outcome unit) (w : World) : Prop :=
  r = Ok tt /\ marked w \/ (forall a, r <> Ok a) /\ absent image w.

Lemma value_not_empty : unlines [queueMarkerValue cluster] <> "".
Proof. unfold unlines. by destruct (queueMarkerValue cluster). Qed.

Lemma write_marker w : absent image w ->
  marks (writeImageQueueMarker opts cluster image w).1 (writeImageQueueMarker opts cluster image w).2.
Proof.
  intros Hw. unfold writeImageQueueMarker. pose proof (remove_file_absent opts image (marker image) w Hw) as Hr.
  fold (marker image). unfold mbind at 1, M_bind at 1.
  unfold mbind at 1, M_bind at 1.
  destruct (removeFile opts (marker image) w) as [[[]| |] w1]; cbn [snd] in Hr; [|right; by split..].
  pose proof (add_string_fresh opts (marker image) _ w1 Hdry Hr value_not_empty) as Ha.
  destruct (can_write w1 (marker image)); rewrite Ha; [left|right; by split].
  split; [done|]. unfold marked, reads. cbn [snd]. by rewrite contents_put_file, decide_True.
Qed.

(** What follows on a method that leaves no marker. *)
Lemma marks_bind {S A} (f : S -> World) (m : M S A) (k : A -> M S unit) s :
  absent image (f (m s).2) -> (forall a s', absent image (f s') -> marks (k a s').1 (f (k a s').2)) ->
  marks ((a ← m; k a) s).1 (f ((a ← m; k a) s).2).
Proof.
  intros Hm Hk. unfold mbind, M_bind. destruct (m s) as [[a|e|] s']; cbn in *; [by apply Hk|right; by split..].
Qed.

Lemma reset_absent i w : osimage i = image -> is_directory w (marker image) = false ->
  absent image (reset_image opts (Runner opts) cluster i w).2.
Proof.
  intros <- Hd. pose proof (clear_frame opts (Runner opts) osservice cluster _
    (absent_frame opts _ Hname Hlaw os osservice Hservice) i) as Hc.
  unfold reset_image. destruct (remove_file_gone opts _ w Hdry Hd) as (w' & [(Hr & Ha & _)|[Hr Ha]]);
    rewrite (M_bind_ok _ _ _ _ _ Hr); by apply Hc.
Qed.

Definition machine (p : Provisioning) : World := s_world (p_session p).

Lemma world_machine {A} (m : M World A) p : (world m p).1 = (m (machine p)).1 /\ machine (world m p).2 = (m (machine p)).2.
Proof. unfold world, on_session, io, zoom, machine. by destruct (m (s_world (p_session p))). Qed.

Lemma build_marks customizations p : osimage (m_stateless p) = image -> is_directory (machine p) (marker image) = false ->
  marks (build_image opts (Runner opts) osservice cluster answerfile customizations p).1
    (machine (build_image opts (Runner opts) osservice cluster answerfile customizations p).2).
Proof.
  intros Hi Hd. pose proof (absent_frame opts image Hname Hlaw os osservice Hservice) as F.
  unfold build_image. rewrite (M_bind_ok stateless _ p (m_stateless p) p eq_refl).
  apply (marks_bind machine).
  { rewrite (proj2 (world_machine _ p)). by apply reset_absent. }
  intros _ s1 Hs1. apply (marks_bind machine); [by apply (describe_frame _ _ _ _ _ F)|].
  intros _ s2 Hs2. apply (marks_bind machine).
  { apply (maintains_on_session (absent image)); [|done]. by apply (definition_frame _ _ _ _ _ F). }
  intros _ s3 Hs3. apply (marks_bind machine).
  { apply (maintains_world (absent image)); [|done]. by apply (customize_frame _ _ _ _ _ F). }
  intros _ s4 Hs4.
  match goal with |- marks (world ?m s4).1 _ => destruct (world_machine m s4) as [-> ->] end.
  apply (marks_bind id); [by apply (genimage_frame _ _ _ _ _ _ F)|].
  intros _ s5 Hs5. rewrite Hi. by apply write_marker.
Qed.
End build.

(** ** Using an image again *)

Lemma reusable_reads `{Asio} `{Machine} `{BoostText} `{GChecksum} (opts : Options) cluster image w w' :
  marker_untouched image -> reusable opts (Runner opts) cluster image w = (Ok true, w') ->
  exists text, contents w (marker image) = Some text /\
    default "" (head (getlines "010" text)) = queueMarkerValue cluster.
Proof.
  intros Hlaw Hr. unfold reusable in Hr. step Hr as (there & w1 & Hthere). step Hr as (there' & w2 & Hthere').
  injection Hr as Hr _. unfold shouldReuseExistingImage in Hr. apply andb_true_iff in Hr as [-> _].
  destruct there; [|done]. assert (contents w1 (marker image) = contents w (marker image)) as Hc.
  { pose proof (fun cmd => runner_reads opts image Hlaw (contents w (marker image)) cmd) as Hq.
    assert (maintains (reads image (contents w (marker image))) (imageExists opts (Runner opts) image)) as Hm.
    { unfold imageExists. destruct (dryRun opts); [framed|]. apply maintains_bind.
      - destruct (shouldForce opts "genimage"); [|framed]. apply maintains_bind; [apply Hq|framed].
      - intros _. apply maintains_bind; [apply Hq|framed]. }
    specialize (Hm w eq_refl). by rewrite Hthere in Hm. }
  unfold imageMatchesSelectedQueue in Hthere'. step_pure Hthere' file Hfile. injection Hfile as Hfile.
  fold (marker image) in Hfile. rewrite Hc in Hfile. rewrite Hfile. destruct file as [text|]; [|done].
  injection Hthere' as Ht _. exists text. split; [done|]. by apply String.eqb_eq.
Qed.

Lemma first_line_marker v : no_char "010" v = true -> v <> "" -> default "" (head (getlines "010" (unlines [v]))) = v.
Proof. intros Hv Hne. cbn [unlines]. by rewrite getlines_line. Qed.

Lemma marker_value_line `{Asio} cluster : no_char "010" (Server.s_hostname (headnode cluster)) = true ->
  no_char "010" (queueMarkerValue cluster) = true /\ queueMarkerValue cluster <> "".
Proof.
  intros Hn. unfold queueMarkerValue. destruct (selectedQueueKind cluster) as [[]|]; cbn; by split.
Qed.

(** C11. Images are used again soundly.  Whatever the commands that build an
    image do, as long as they do not write the marker file: when a later run
    with any options and any cluster decides to use the image again, without
    the file having been changed meanwhile, then the build had returned, so
    that no failed or half-built image is used, and it was for the same
    queue system, and with OpenPBS the same head node.  After a build that
    returned, the file says so. *)
Theorem image_reuse_is_sound `{Asio} `{BoostText} `{Machine} `{GKeyFile} `{GChecksum} (opts : Options)
    (cluster : ClusterData.Cluster) (answerfile : AnswerFile) (os : OS) (osservice : OsService.IOSService)
    (imageType : ImageType.t) (nodeType : NodeType.t) (i0 i : Image) (customizations : list ScriptBuilder.ScriptBuilder)
    (p p' : Provisioning) (r : outcome unit) :
  dryRun opts = false -> OsService.factory (Runner opts) os = Ok osservice ->
  generateOSImageName cluster imageType nodeType i0 = (Ok tt, i) -> osimage (m_stateless p) = osimage i ->
  marker_untouched (osimage i) -> is_directory (machine p) (imageQueueMarkerFile (osimage i)) = false ->
  no_char "010" (Server.s_hostname (headnode cluster)) = true ->
  build_image opts (Runner opts) osservice cluster answerfile customizations p = (r, p') ->
  (r = Ok tt -> imageMatchesSelectedQueue cluster (osimage i) (machine p') = (Ok true, machine p')) /\
  (forall later cluster' w w',
    contents w (imageQueueMarkerFile (osimage i)) = contents (machine p') (imageQueueMarkerFile (osimage i)) ->
    reusable later (Runner later) cluster' (osimage i) w = (Ok true, w') ->
    r = Ok tt /\ queueMarkerValue cluster' = queueMarkerValue cluster).
Proof.
  intros Hdry Hservice Hgen Hosimage Hlaw Hdir Hhost Hbuild.
  pose proof (generated_name _ _ _ _ _ Hgen) as Hname. destruct (marker_value_line cluster Hhost) as [Hv Hne].
  pose proof (build_marks opts cluster answerfile os osservice _ Hname Hlaw Hdry Hservice customizations p Hosimage Hdir) as Hm.
  rewrite Hbuild in Hm. cbn [fst snd] in Hm. split.
  - intros ->. destruct Hm as [[_ Hmark]|[Hno _]]; [|by destruct (Hno tt)].
    unfold imageMatchesSelectedQueue, stream_read. cpp_simpl. fold (marker (osimage i)). rewrite Hmark.
    by rewrite first_line_marker, String.eqb_refl.
  - intros later cluster' w w' Hsame Hr. apply reusable_reads in Hr as (text & Htext & Hline); [|done].
    fold (marker (osimage i)) in Hsame. rewrite Hsame in Htext.
    destruct Hm as [[-> Hmark]|[_ Habs]]; [|by rewrite Habs in Htext].
    split; [done|]. unfold marked, reads in Hmark. rewrite Hmark in Htext. injection Htext as <-.
    rewrite <- Hline. by apply first_line_marker.
Qed.

(** ** The files of an image *)

Definition synclists_text (queue : option Server.QueueKind.t) : string :=
  unlines ["/etc/passwd -> /etc/passwd"; "/etc/group -> /etc/group"] +:+
  (if decide (queue = Some Server.QueueKind.SLURM)
   then unlines ["/etc/slurm/slurm.conf -> /etc/slurm/slurm.conf"; "/etc/munge/munge.key -> /etc/munge/munge.key"]
   else "").

Lemma add_string_more opts p s w old : dryRun opts = false -> contents w p = Some old -> contains s old = false ->
  can_write w p = true ->
  addStringToFile opts p s w = (Ok tt, put_file p (old +:+ s) (put_file p old w)).
Proof.
  intros Hdry Hp Hc Hw. unfold addStringToFile, stream_read, stream_append. rewrite Hdry. cpp_simpl. rewrite Hp. cbn.
  rewrite Hc. rewrite Hw, Hp. cbn. rewrite sapp_nil_r.
  assert (can_write (put_file p old w) p = true) as -> by exact Hw. cbn. by rewrite contents_put_file, decide_True.
Qed.

Lemma contents_remove_file opts p w w' q : removeFile opts p w = (Ok tt, w') -> canonical q <> canonical p ->
  contents w' q = contents w q.
Proof.
  unfold removeFile, ask. destruct (dryRun opts); [by intros [= <-]|]. cpp_simpl. destruct (fs_exists w p); [|by intros [= <-]].
  unfold fs_remove. destruct (_ && _); [done|]. intros [= <-] Hq. unfold contents. cbn. by rewrite lookup_delete_ne.
Qed.

(** The list of files xCAT keeps in step on the nodes is that of the
    selected queue system alone, whatever the file held before, for instance
    from an image for another queue system; no other file changes. *)
Theorem synclists_spec `{Asio} (opts : Options) (cluster : ClusterData.Cluster) (w : World) :
  dryRun opts = false -> can_write w synclists_file = true ->
  exists w', generateSynclistsFile opts cluster w = (Ok tt, w') /\
    contents w' synclists_file = Some (synclists_text (selectedQueueKind cluster)) /\
    forall q, canonical q <> canonical synclists_file -> contents w' q = contents w q.
Proof.
  intros Hdry Hw. pose proof Hw as Hw'. unfold can_write in Hw'. apply andb_true_iff in Hw' as [Hplace Hd%negb_true_iff].
  assert (exists w1, removeFile opts synclists_file w = (Ok tt, w1) /\ contents w1 synclists_file = None /\
    can_write w1 synclists_file = true) as (w1 & Hr & Hc & Hw1).
  { destruct (remove_file_gone opts synclists_file w Hdry Hd) as (w1 & [(Hr & Hc & Hdirs)|[Hr Hc]]); [|by exists w].
    exists w1. split; [done|]. split; [done|]. unfold can_write, has_place, is_directory in *. rewrite Hdirs.
    revert Hplace Hd. rewrite !orb_true_iff, !orb_false_iff, !bool_decide_eq_true, !bool_decide_eq_false.
    change (canonical (directory_of synclists_file)) with "/install/custom/netboot".
    change (canonical synclists_file) with synclists_file. intros Hplace Hd. apply andb_true_iff. split.
    - apply orb_true_iff. right. apply bool_decide_eq_true. destruct Hplace as [Hplace|Hplace]; [done|].
      apply elem_of_difference. split; [done|]. by rewrite elem_of_singleton.
    - apply negb_true_iff, orb_false_iff. rewrite !bool_decide_eq_false. set_solver. }
  unfold generateSynclistsFile. rewrite (M_bind_ok _ _ _ _ _ Hr).
  pose proof (add_string_fresh opts synclists_file
    (unlines ["/etc/passwd -> /etc/passwd"; "/etc/group -> /etc/group"]) w1 Hdry Hc) as Ha.
  rewrite Hw1 in Ha. rewrite (M_bind_ok _ _ _ _ _ (Ha ltac:(done))). unfold synclists_text.
  assert (forall q, canonical q <> canonical synclists_file -> contents w1 q = contents w q) as Hsame
    by (intros q Hq; by apply (contents_remove_file opts synclists_file)).
  case_decide.
  - erewrite add_string_more; [|done|by rewrite contents_put_file, decide_True|vm_compute; reflexivity|exact Hw1].
    eexists. split; [done|]. split; [by rewrite contents_put_file, decide_True|].
    intros q Hq. rewrite !contents_put_file, !decide_False by done. by apply Hsame.
  - eexists. split; [done|]. split; [by rewrite contents_put_file, decide_True, sapp_nil_r|].
    intros q Hq. rewrite !contents_put_file, !decide_False by done. by apply Hsame.
Qed.

(** ** The kernel of an image *)

Lemma setVersion_kernel v : steady m_kernel (setVersion v).
Proof. unfold setVersion, setMajorVersion, setMinorVersion. steadily; by intros s a s' [= _ <-]. Qed.

Lemma probe_kernel probe os : OS_host (Ok probe) = Ok os -> m_kernel os = Some (kernel probe).
Proof.
  unfold OS_host. intros Ho%construct_ok. step_pure Ho h Hh. injection Hh as <-.
  step Ho as (u1 & s1 & H1). step Ho as (u2 & s2 & H2). step Ho as (u3 & s3 & H3). injection H3 as _ <-.
  step Ho as (u4 & s4 & H4). step Ho as (u5 & s5 & H5). apply setVersion_kernel in Ho. rewrite Ho.
  assert (steady m_kernel (setDistro_string (distro probe))) as Hs.
  { unfold setDistro_string, setDistro. steadily. }
  rewrite (Hs _ _ _ H5). destruct (platform probe) as [pl|]; [|by injection H4 as _ <-].
  assert (steady m_kernel (setPlatform_string pl)) as Hp by (unfold setPlatform_string, setPlatform; steadily).
  by rewrite (Hp _ _ _ H4).
Qed.

(** C38. The drivers staged for an image fit its kernel.  For a cluster filled
    from an answer file, with DOCA drivers on Enterprise Linux nodes: a kernel
    given in the answer file is that of the image and of the drivers; without
    one the image has the running kernel and the drivers are for the kernel
    found when the cluster was filled, so that they fit unless it has changed
    in between. *)
Theorem image_kernel_fits `{Asio} `{BoostText} `{GKeyFile} (h : Cluster.Host) (answerfile : AnswerFile)
    (cluster : ClusterData.Cluster) (probe : HostOSProbe) (os : OS) (node : Server.Node) (nodes : list Server.Node)
    (ofed : ClusterData.OFED) (p : Platform.t) (running : string) :
  Cluster.h_os h = Ok probe -> ClusterFill.fill_nodeOS h (system answerfile) = Ok os ->
  ClusterData.k_nodes cluster = node :: nodes -> Server.s_os (Server.n_server node) = os ->
  ClusterData.k_ofed cluster = Some ofed -> ClusterData.o_kind ofed = OFEDKind.Doca ->
  m_platform os = Some p -> p <> Platform.ubuntu2404 ->
  exists plan drivers image,
    infiniband_plan cluster ofed running = Ok plan /\ kernelVersion plan = Some drivers /\
    genimage_version cluster answerfile running = Ok (Some image) /\
    match sy_kernel (system answerfile) with
    | Some k => drivers = k /\ image = k
    | None => drivers = kernel probe /\ image = running
    end.
Proof.
  intros Hprobe Hfill Hnodes Hos Hofed Hkind Hp Hel.
  assert (m_kernel os = Some (default (kernel probe) (sy_kernel (system answerfile)))) as Hk.
  { unfold ClusterFill.fill_nodeOS in Hfill. rewrite bind_Ok in Hfill. destruct Hfill as (d & _ & Hfill).
    rewrite bind_Ok, Hprobe in Hfill. destruct Hfill as (os0 & Hos0 & Hfill%construct_ok). apply probe_kernel in Hos0.
    step Hfill as (u1 & s1 & Hs1). step Hfill as (u2 & s2 & Hs2). step Hfill as (u3 & s3 & Hs3).
    step Hfill as (u4 & s4 & Hs4). apply setVersion_kernel in Hfill. rewrite Hfill.
    injection Hs1 as _ <-. injection Hs2 as _ <-. injection Hs3 as _ <-.
    destruct (sy_kernel (system answerfile)); by injection Hs4 as _ <-. }
  unfold infiniband_plan, genimage_version, nodeOS. rewrite Hnodes, Hofed. cbn [head deref mbind outcome_bind]. rewrite Hos, Hk.
  unfold selectXcatImageKernelVersion, buildXcatInfinibandPlan, getPlatform. rewrite Hp, Hkind.
  destruct p; [..|done]; cbn; destruct (sy_kernel (system answerfile)); cbn; naive_solver.
Qed.
