(* ===== verification/ClusterFillSpec.v ===== *)
(** * The cluster: what filling it establishes

    Properties of [fillData] and of its parts. *)

From stdpp Require Import base strings list.
From Stdlib Require Import ZArith Lia Ascii.
From S2P Require Import Prelude CppString External Enums KeyFile Options Cluster ClusterFill.
From S2P Require Import AnswerFile AnswerFileValidation.
From S2P Require Network Connection Timezone DiskImage Postfix.

Local Open Scope Z_scope.

(** ** Names *)

Definition domain_of (fqdn : string) : string := sdrop (after (find_char "." fqdn)) fqdn.

Lemma domain_of_dot host domain : no_char "." host = true -> domain_of (host +:+ "." +:+ domain) = domain.
Proof.
  intros Hh. unfold domain_of. change (host +:+ "." +:+ domain) with (host +:+ String "." domain).
  rewrite find_char_at by done. cbn [after]. apply sdrop_at.
Qed.

Section names.
Context `{Asio} `{GKeyFile}.

(** The fully qualified name [fill_names] gives the head node. *)
Definition filled_fqdn (a : AnswerFile) : string :=
  hn_hostname (hostname a) +:+ "." +:+
  domain_of (hn_hostname (hostname a) +:+ "." +:+ hn_domain_name (hostname a)).

Definition named (a : AnswerFile) (c : Cluster) : Cluster :=
  let s := h_server (k_headnode c) in
  let t := k_timezone c in
  mkCluster (in_cluster_name (information a)) (in_company_name (information a))
    (in_administrator_email (information a))
    (mkHeadnode _ (put_s_fqdn (filled_fqdn a) (put_s_hostname (hn_hostname (hostname a)) s))
       (m_bootTarget (k_headnode c)))
    (k_computeNodeOS c) (k_provisioner c) (k_ofed c) (k_enabledRepositories c)
    (k_enabledOpenHPCBundles c) (k_queueSystem c) (k_mailSystem c) (k_nodes c) (k_firewall c)
    (k_selinux c) (Timezone.mkTimezone (tm_timezone (time a)) (Timezone.m_timezoneArea t)
       (Timezone.m_availableTimezones t) (Timezone.m_timeservers t)) (tm_locale (time a))
    (k_network c) (k_updateSystem c) (k_diskImage c) (k_pendingDiskImageDownloadURL c) (k_leftovers c).

Lemma fill_names_named a c : fill_names a c = (Ok tt, named a c).
Proof. reflexivity. Qed.
End names.

(** Filling in the names succeeds and stores them as they are; the domain
    the cluster then reports is the answer file's, and the head node's FQDN is
    the host name followed by it, when the host name has no dot.  A host name
    with a dot is taken apart again: what follows its first dot appears twice
    in the FQDN. *)
Theorem fill_names_spec `{Asio} `{GKeyFile} (a : AnswerFile) (c : Cluster) :
  exists c', fill_names a c = (Ok tt, c') /\
    k_name c' = in_cluster_name (information a) /\
    k_companyName c' = in_company_name (information a) /\
    k_adminMail c' = in_administrator_email (information a) /\
    Timezone.m_timezone (k_timezone c') = tm_timezone (time a) /\
    k_locale c' = tm_locale (time a) /\
    s_hostname (h_server (k_headnode c')) = hn_hostname (hostname a) /\
    (no_char "." (hn_hostname (hostname a)) = true ->
     s_fqdn (h_server (k_headnode c')) = hn_hostname (hostname a) +:+ "." +:+ hn_domain_name (hostname a) /\
     getDomainName c' = hn_domain_name (hostname a)) /\
    (forall host rest, no_char "." host = true -> hn_hostname (hostname a) = host +:+ "." +:+ rest ->
     s_fqdn (h_server (k_headnode c')) =
       host +:+ "." +:+ rest +:+ "." +:+ rest +:+ "." +:+ hn_domain_name (hostname a)).
Proof.
  exists (named a c). split; [apply fill_names_named|]. do 6 (split; [done|]).
  change (getDomainName (named a c)) with (domain_of (filled_fqdn a)).
  change (s_fqdn (h_server (k_headnode (named a c)))) with (filled_fqdn a). unfold filled_fqdn. split.
  - intros Hh. by rewrite !domain_of_dot.
  - intros host rest Hh ->. rewrite <- !sapp_assoc, domain_of_dot by done.
    by rewrite <- ?sapp_assoc.
Qed.

(** ** Nodes *)

(** The value of a field that holds a number. *)
Definition number_of (v : option string) : Z := digits_val 10 digit_val (default "" v) 0.

Lemma convert_number nodename field allowZero s :
  unsigned_opt allowZero (Some s) -> convertOrError nodename s field = Ok (number_of (Some s)).
Proof.
  intros (n & He & Hd & -> & Hlt & _). unfold convertOrError. by rewrite stoul10_digits.
Qed.

Lemma convert_text nodename field allowZero v :
  hasText v = true -> unsigned_opt allowZero v ->
  convertOrError nodename (default "" v) field = Ok (number_of v).
Proof. destruct v as [s|]; [|done]. intros _. apply convert_number. Qed.

Lemma value_text v : hasText v = true -> value v = Ok (default "" v).
Proof. by destruct v. Qed.

Lemma require_text hostname v field :
  hasText v = true -> requireBMCField hostname v field = Ok (default "" v).
Proof. by destruct v as [[|]|]. Qed.

Section fill_nodes.
Context `{AL : AsioLaws} `{BL : BoostTextLaws} `{G : GKeyFile}.

(** The topology an answer file node gives; the totals are not computed. *)
Definition filled_cpu (node : AFNode) : CPU :=
  mkCPU (number_of (nd_sockets node)) 0 0 (number_of (nd_cores_per_socket node))
    (number_of (nd_threads_per_core node)).

Definition filled_bmc (node : AFNode) : option BMC :=
  if hasText (nd_bmc_address node) then
    Some (mkBMC (default "" (nd_bmc_address node)) (default "" (nd_bmc_username node))
            (default "" (nd_bmc_password node)) (number_of (nd_bmc_serialport node))
            (number_of (nd_bmc_serialspeed node)) BMCKind.IPMI)
  else None.

(** The node made of a complete answer file node. *)
Definition filled_node (nodeOS : OS) (connection : Connection.Connection) (name mac : string)
    (node : AFNode) : Node :=
  let ip := default default_address (nd_start_ip node) in
  mkNode
    (mkServer name nodeOS (filled_cpu node)
       [Connection.put_c_address ip (Connection.put_mac (Some (lower mac)) connection)]
       (filled_bmc node) "")
    None None (Some ip) (lower mac) (nd_root_password node).

Lemma fill_cpu_complete nodename node : complete_node node -> fill_cpu nodename node = Ok (filled_cpu node).
Proof.
  intros [_ _ [Hs Hs'] [Hc Hc'] [Ht Ht'] _]. unfold fill_cpu. rewrite !value_text by done.
  cbn [mbind outcome_bind]. by erewrite !convert_text by done.
Qed.

Lemma fill_bmc_complete nodename node : complete_node node -> fill_bmc nodename node = Ok (filled_bmc node).
Proof.
  intros [_ _ _ _ _ (Hport & Hspeed & Hbmc)]. unfold fill_bmc, filled_bmc.
  destruct Hbmc as [-> |(Ha & Hu & Hp & Hsp & Hss)]; [done|]. rewrite Ha.
  destruct (nd_bmc_address node) as [[|ch addr]|] eqn:Haddr; [done| |done].
  rewrite !require_text by done. cbn [mbind outcome_bind]. by erewrite !convert_text by done.
Qed.

Lemma specified_neq a : is_unspecified a = false -> a <> Network.unspecified.
Proof. intros Ha ->. unfold Network.unspecified in Ha. by rewrite is_unspecified_v4 in Ha. Qed.

Lemma on_connection_mac mac c :
  Connection.mac_valid mac = true ->
  on_connection (Connection.setMAC (to_lower_copy mac)) c = Ok (Connection.put_mac (Some (lower mac)) c).
Proof.
  intros Hv. unfold on_connection, construct. rewrite to_lower_copy_lower.
  pose proof (Connection.setMAC_cases (lower mac) c) as Hs.
  rewrite Connection.mac_valid_lower in Hs by done. by rewrite Hs, lower_idemp.
Qed.

Lemma on_connection_address a c :
  a <> Network.unspecified ->
  on_connection (Connection.setAddress a) c = Ok (Connection.put_c_address a c).
Proof.
  intros Ha. unfold on_connection, construct. by rewrite Connection.setAddress_conn_spec, decide_False.
Qed.

(** [fill_node] on a node as [loadNodes] leaves it. *)
Lemma fill_node_cases h os0 nodeOS connection name node :
  complete_node node -> nd_hostname node = Some name -> OS_host (h_os h) = Ok os0 ->
  match nd_mac_address node with
  | Some mac =>
      if Connection.mac_valid mac then
        fill_node h nodeOS connection node = Ok (filled_node nodeOS connection name mac node)
      else exists e, fill_node h nodeOS connection node = Throw (AnswerfileValidationException e)
  | None => exists e, fill_node h nodeOS connection node = Throw (AnswerfileValidationException e)
  end.
Proof.
  intros Hok Hname Hos. pose proof (fill_cpu_complete name node Hok) as Hcpu.
  pose proof (fill_bmc_complete name node Hok) as Hbmc.
  destruct (complete_ip _ Hok) as (ip & Hip & Hspec). pose proof (complete_password _ Hok) as Hpw.
  destruct (nd_root_password node) as [pw|] eqn:Epw; [|done].
  unfold fill_node, Node_default, Server_default. rewrite Hos. cbn [mbind outcome_bind].
  unfold construct, fill_node_body. rewrite Hname, Hip, Epw.
  do 4 (erewrite M_bind_ok by done). unfold checked_mac.
  destruct (nd_mac_address node) as [mac|]; [|by eexists].
  pose proof (Connection.validateMAC_spec mac) as Hv. destruct (Connection.mac_valid mac) eqn:Hmac.
  2: { destruct Hv as [e ->]. by eexists. }
  rewrite Hv, Hcpu, Hbmc. do 7 (erewrite M_bind_ok by done).
  unfold filled_node. rewrite Hip, Epw, <- (to_lower_copy_lower mac).
  destruct (filled_bmc node) as [bmc|]; do 3 (erewrite M_bind_ok by done);
    (erewrite M_bind_ok by (apply lift_ok; by apply on_connection_mac));
    (erewrite M_bind_ok by done);
    (erewrite M_bind_ok by (apply lift_ok, on_connection_address; by apply specified_neq));
    by rewrite <- (to_lower_copy_lower mac).
Qed.

End fill_nodes.

(** A node of a loaded answer file, which is complete and has a host name:
    it is turned into a cluster node exactly when it has a MAC address in one
    of the accepted notations, and refused with an answer file validation
    error otherwise; no other error is possible.  The cluster node has the
    host name, the address, the password and the numbers of the answer file,
    the compute operating system, a BMC exactly when an address is given, and
    one connection, that of the management network, with the same MAC address
    in lower case and the same IP address. *)
Theorem fill_node_spec `{AsioLaws} `{BoostTextLaws} `{GKeyFile} (h : Host) (os0 nodeOS : OS)
    (connection : Connection.Connection) (name : string) (node : AFNode) :
  complete_node node -> nd_hostname node = Some name -> OS_host (h_os h) = Ok os0 ->
  (forall mac, nd_mac_address node = Some mac -> Connection.mac_valid mac = true ->
     fill_node h nodeOS connection node = Ok (filled_node nodeOS connection name mac node)) /\
  ((nd_mac_address node = None \/
    exists mac, nd_mac_address node = Some mac /\ Connection.mac_valid mac = false) ->
   exists e, fill_node h nodeOS connection node = Throw (AnswerfileValidationException e)).
Proof.
  intros Hok Hname Hos. pose proof (fill_node_cases h os0 nodeOS connection name node Hok Hname Hos) as Hc.
  split.
  - intros mac Hmac Hv. by rewrite Hmac, Hv in Hc.
  - intros [Hmac|(mac & Hmac & Hv)]; rewrite Hmac in Hc; [done|]. by rewrite Hv in Hc.
Qed.
