(* ===== verification/ClusterLayout.v ===== *)
(** * The cluster: the networks, connections and nodes of a filled cluster

    [fillData] gives every network of the answer file a network object, a
    connection of the head node that points to it, and every node of the
    answer file a node. *)

From stdpp Require Import base strings list sets.
From Stdlib Require Import ZArith Lia Ascii.
From S2P Require Import Prelude CppString External Enums KeyFile Options World Cluster ClusterFill ClusterFillSpec.
From S2P Require Import AnswerFile AnswerFileValidation.
From S2P Require Network Connection Timezone DiskImage Postfix.

Local Open Scope Z_scope.

(** ** What the steps leave alone *)

Section steady_steps.
Context `{AL : AsioLaws} `{BL : BoostTextLaws} `{G : GKeyFile} `{GC : GChecksum}.

(** The networks, the nodes and the head node's connections. *)
Definition layout (c : Cluster) : list Network.Network * list Node * list Connection.Connection :=
  (k_network c, k_nodes c, s_connection (h_server (k_headnode c))).

Lemma layout_setDiskImage h path s r s' : setDiskImage h path s = (r, s') -> layout s'.1 = layout s.1.
Proof.
  intros Hs. pose proof (maintains_setDiskImage (fun c => layout c = layout s.1)) as Hm.
  specialize (Hm ltac:(done) ltac:(done) h path s eq_refl). by rewrite Hs in Hm.
Qed.

(** Filling the cluster is setting the disk image and the rest. *)
Lemma fillData_steps h a c w c' w' :
  fillData h a (c, w) = (Ok tt, (c', w')) ->
  exists management_ external_ c0,
    fill_managementNetwork h (management a) = Ok management_ /\ fill_externalNetwork h (external a) = Ok external_ /\
    setDiskImage h (sy_disk_image (system a)) (c, w) = (Ok tt, (c0, w')) /\
    fillData_rest h management_ external_ a c0 = (Ok tt, c').
Proof.
  unfold fillData. intros Hr.
  apply M_bind_inv_ok in Hr as (m & s0 & [= Hm <-] & Hr). apply M_bind_inv_ok in Hr as (e & s1 & [= He <-] & Hr).
  apply M_bind_inv_ok in Hr as ([] & [c0 w0] & Hs & Hr). rewrite on_object_run in Hr. cbn [fst snd] in Hr.
  injection Hr as Hr1 Hr2 ->. exists m, e, c0. split_and!; [done..|]. rewrite <- Hr1, <- Hr2. apply surjective_pairing.
Qed.

Lemma steady_fill_names a : steady layout (fill_names a).
Proof. intros c r c'. rewrite fill_names_named. by intros [= _ <-]. Qed.

Lemma steady_fill_ofed h o : steady layout (fill_ofed h o).
Proof. unfold fill_ofed, setOFED. steadily. Qed.

Lemma steady_fill_queue p s : steady layout (fill_queue p s).
Proof. unfold fill_queue, setQueueSystem. steadily. Qed.

Lemma steady_fill_mail p : steady layout (fill_mail p).
Proof.
  unfold fill_mail, on_mail, setMailSystem. steadily.
Qed.

Lemma steady_leftovers g s : steady layout (fill_leftovers g s).
Proof. unfold fill_leftovers, left. cbv zeta. steadily. Qed.
End steady_steps.

(** ** The networks built *)

Section networks_built.
Context `{AL : AsioLaws} `{BL : BoostTextLaws} `{G : GKeyFile}.

Definition net_core (n : Network.Network) : Network.Profile.t * address :=
  (Network.m_profile n, Network.m_subnetMask n).

Lemma steady_setGateway g : steady net_core (Network.setGateway g).
Proof. by apply steady_modify. Qed.
Lemma steady_setDomainName d : steady net_core (Network.setDomainName d).
Proof. by intros n [] n' [_ ->]%Network.setDomainName_ok. Qed.
Lemma steady_setNameservers l : steady net_core (Network.setNameservers l).
Proof. intros n r n'. rewrite Network.setNameservers_spec. by intros [= _ <-]. Qed.
Lemma steady_setNameservers_string l : steady net_core (Network.setNameservers_string l).
Proof.
  intros n r n'. rewrite Network.setNameservers_string_spec. destruct (mapM make_address l); [|done].
  rewrite Network.setNameservers_spec. by intros [= _ <-].
Qed.
Lemma steady_setNetAddress a : steady net_core (Network.setAddress a).
Proof. intros n r n'. rewrite Network.setAddress_spec. case_decide; [done|]. by intros [= _ <-]. Qed.
#[local] Hint Resolve steady_setGateway steady_setDomainName steady_setNameservers
  steady_setNameservers_string steady_setNetAddress : steady.

(** The mask a network has when the answer file gives one. *)
Definition masked (f : AFNetwork) (n : Network.Network) : Prop :=
  forall mask, nw_subnet_mask f = Some mask -> Network.m_subnetMask n = mask.

(** A network of a profile, with the mask of the answer file. *)
Definition built (profile : Network.Profile.t) (f : AFNetwork) (n : Network.Network) : Prop :=
  Network.m_profile n = profile /\ masked f n.

Lemma built_steady {T} profile f (m : M Network.Network T) r n n' :
  steady net_core m -> m n = (Ok r, n') -> built profile f n -> built profile f n'.
Proof.
  intros Hm Hr [Hp Hf]. apply Hm in Hr. injection Hr as Hp' Hs. split; [congruence|].
  intros mask Hmask. rewrite Hs. by apply Hf.
Qed.

Lemma built_mask profile f mask n r n' :
  (forall m, nw_subnet_mask f = Some m -> m = mask) ->
  Network.setSubnetMask mask n = (Ok r, n') -> Network.m_profile n = profile -> built profile f n'.
Proof.
  intros Hf Hs Hp. destruct r. apply Network.setSubnetMask_ok in Hs as [_ ->]. split; [done|].
  intros m Hm. symmetry. by apply Hf.
Qed.

Lemma fill_managementNetwork_built h f n :
  fill_managementNetwork h f = Ok n ->
  built Network.Profile.Management f n /\
  exists ip, nw_con_ip_addr f = Some ip /\ Network.calculateAddress n ip = Ok (Network.m_address n).
Proof.
  intros Hn%construct_ok. step_pure Hn mask Hmask. step Hn as (r & s & Hs).
  assert (built Network.Profile.Management f s) as Hb.
  { eapply built_mask; [|exact Hs|done]. intros m Hm. rewrite Hm in Hmask. by injection Hmask. }
  clear Hs. step Hn as (r1 & s1 & Hs). eapply built_steady in Hs; [|steadily|exact Hb].
  step_pure Hn d Hd. step Hn as (r2 & s2 & Hs2). eapply built_steady in Hs2; [|steadily|exact Hs].
  step Hn as (r3 & s3 & Hs3). eapply built_steady in Hs3; [|steadily|exact Hs2].
  step_pure Hn ip Hip. step_pure Hn n0 Hn0. step_pure Hn a Ha. injection Hn0 as <-.
  assert (built Network.Profile.Management f n) as Hbn by (eapply built_steady; [|exact Hn|exact Hs3]; steadily).
  split; [done|]. exists ip. destruct (nw_con_ip_addr f) as [ip'|]; [|done]. injection Hip as ->. split; [done|].
  rewrite Network.setAddress_spec in Hn. case_decide; [done|]. by injection Hn as <-.
Qed.

Lemma fill_externalNetwork_built h f n :
  fill_externalNetwork h f = Ok n -> built Network.Profile.External f n.
Proof.
  intros Hn%construct_ok. step Hn as (r & s & Hs).
  assert (built Network.Profile.External f s) as Hb.
  { destruct (nw_subnet_mask f) as [mask|] eqn:Hmask.
    - eapply built_mask; [|exact Hs|done]. congruence.
    - step_pure Hs i Hi. step_pure Hs mask Hm. eapply built_mask; [|exact Hs|done]. congruence. }
  eapply built_steady; [|exact Hn|exact Hb]. steadily.
Qed.

Lemma fill_serviceNetwork_built h i f c n c' :
  fill_serviceNetwork h i f c = (Ok n, c') -> built Network.Profile.Service f n /\ c' = c.
Proof.
  intros Hn. step Hn as (mask & c1 & Hmask). injection Hn as Hn <-.
  assert ((forall m, nw_subnet_mask f = Some m -> m = mask) /\ c1 = c) as [Hm ->].
  { destruct (nw_subnet_mask f) as [m|]; [by injection Hmask as <- <-; split; [congruence|]|].
    step_pure Hmask c2 Hc2. step_pure Hmask p Hp. by injection Hmask as _ <-. }
  split; [|done]. apply construct_ok in Hn. step Hn as (r & s & Hs).
  eapply built_steady; [|exact Hn|]; [|by eapply built_mask; [exact Hm|exact Hs|]].
  steadily.
Qed.

Lemma fill_applicationNetwork_built f n :
  fill_applicationNetwork f = Ok n -> built Network.Profile.Application f n.
Proof.
  intros Hn%construct_ok. step Hn as (r & s & Hs).
  eapply built_steady; [|exact Hn|]; [steadily|].
  destruct (nw_subnet_mask f) as [m|] eqn:Hm; [eapply built_mask; [|exact Hs|done]; congruence|].
  injection Hs as _ <-. split; [done|]. intros m. by rewrite Hm.
Qed.
End networks_built.

(** ** The connections made *)

Section connections_made.
Context `{AL : AsioLaws} `{BL : BoostTextLaws} `{G : GKeyFile}.

Lemma setInterface_made ifs i c c' :
  on_connection (Connection.setInterface ifs i) c = Ok c' -> c' = Connection.put_interface (Some i) c.
Proof.
  intros Hs%construct_ok. rewrite Connection.setInterface_spec in Hs.
  case_decide; [done|]. destruct ifs; [done|]. case_decide; [|done]. by injection Hs as <-.
Qed.

Lemma setAddress_made a c c' :
  on_connection (Connection.setAddress a) c = Ok c' -> c' = Connection.put_c_address a c.
Proof.
  intros Hs%construct_ok. rewrite Connection.setAddress_conn_spec in Hs.
  case_decide; [done|]. by injection Hs as <-.
Qed.

(** The MAC address of the answer file, if it has text. *)
Definition given_mac (f : AFNetwork) : option string :=
  if hasText (nw_con_mac_addr f) then lower <$> nw_con_mac_addr f else None.

Lemma set_mac_made f c c' :
  set_mac f c = Ok c' -> Connection.m_mac c = None -> c' = Connection.put_mac (given_mac f) c.
Proof.
  unfold set_mac, given_mac. destruct (nw_con_mac_addr f) as [mac|]; [|done]. cbn [deref mbind outcome_bind hasText].
  destruct (empty mac); cbn [negb]; intros Hs Hm.
  - injection Hs as <-. unfold Connection.put_mac. rewrite <- Hm. by destruct c.
  - apply construct_ok in Hs. pose proof (Connection.setMAC_cases mac c) as Hc.
    destruct (Connection.mac_valid mac); [|destruct Hc as [e Hc]]; rewrite Hc in Hs; by simplify_eq.
Qed.

(** The connection the head node gets to the network [p]. *)
Definition made (c : Cluster) (p : Connection.NetworkPtr) (f : AFNetwork) (interface : string)
    (ip : address) : Connection.Connection :=
  Connection.mkConnection _ p (Some interface) (given_mac f) ip
    (Connection.default_mtu (Network.m_type (networks c p))) "" "".

Lemma connection_to_made profile c conn c' :
  connection_to profile c = (Ok conn, c') ->
  c' = c /\ exists p, getNetwork profile c = Ok p /\
    conn = Connection.mkConnection _ p None None default_address
             (Connection.default_mtu (Network.m_type (networks c p))) "" "".
Proof.
  intros Hr. step_pure Hr c0 Hc0. injection Hc0 as <-. step_pure Hr p Hp.
  unfold lift in Hr. rewrite Connection.Connection_network_spec in Hr. injection Hr as <- <-. eauto.
Qed.

(** What the head node's connections become. *)
Definition connected (conn : Connection.Connection) (c : Cluster) : Cluster :=
  put_k_headnode (mkHeadnode _ (put_s_connection (s_connection (h_server (k_headnode c)) ++ [conn])
    (h_server (k_headnode c))) (m_bootTarget (k_headnode c))) c.

Lemma set_network_address_made profile ip c c' :
  set_network_address profile ip c = (Ok tt, c') ->
  exists p a, getNetwork profile c = Ok p /\ Network.calculateAddress (networks c p) ip = Ok a /\
    c' = put_k_network (<[p := Network.put_address a (networks c p)]> (k_network c)) c.
Proof.
  intros Hr. step_pure Hr c0 Hc0. injection Hc0 as <-. step_pure Hr p Hp. step_pure Hr a Ha.
  exists p, a. split; [done|]. split; [done|]. unfold on_network, zoom in Hr.
  rewrite Network.setAddress_spec in Hr. case_decide; [done|]. by injection Hr as <-.
Qed.

Lemma fill_managementConnection_made h f c c' :
  fill_managementConnection h f c = (Ok tt, c') ->
  exists p i ip, getNetwork Network.Profile.Management c = Ok p /\ nw_con_interface f = Some i /\
    nw_con_ip_addr f = Some ip /\ c' = connected (made c p f i ip) c.
Proof.
  intros Hr. step Hr as (conn & c0 & Hconn). apply connection_to_made in Hconn as (-> & p & Hp & ->).
  step_pure Hr i Hi. step_pure Hr c1 Hc1. apply setInterface_made in Hc1 as ->.
  step_pure Hr ip Hip. step_pure Hr c2 Hc2. apply setAddress_made in Hc2 as ->.
  step_pure Hr c3 Hc3. apply set_mac_made in Hc3 as ->; [|done].
  exists p, i, ip. destruct (nw_con_interface f); [|done]. destruct (nw_con_ip_addr f); [|done].
  injection Hi as ->. injection Hip as ->. by injection Hr as <-.
Qed.

Lemma fill_externalConnection_made h f c c' :
  fill_externalConnection h f c = (Ok tt, c') ->
  exists p a i ip, getNetwork Network.Profile.External c = Ok p /\ nw_con_interface f = Some i /\
    (forall ip', nw_con_ip_addr f = Some ip' -> ip' = ip) /\
    Network.calculateAddress (networks c p) ip = Ok a /\
    c' = connected (made c p f i ip)
           (put_k_network (<[p := Network.put_address a (networks c p)]> (k_network c)) c).
Proof.
  intros Hr. step Hr as (conn & c0 & Hconn). apply connection_to_made in Hconn as (-> & p & Hp & ->).
  step_pure Hr i Hi. step_pure Hr c1 Hc1. apply setInterface_made in Hc1 as ->.
  step Hr as (ip & c2 & Hip). step_pure Hr c3 Hc3. apply setAddress_made in Hc3 as ->.
  assert ((forall ip', nw_con_ip_addr f = Some ip' -> ip' = ip) /\ c2 = c) as [Hf ->].
  { destruct (nw_con_ip_addr f) as [ip'|]; injection Hip as E <-; split; congruence. }
  step Hr as (r & c4 & Ha). destruct r.
  apply set_network_address_made in Ha as (p' & a & Hp' & Ha & ->). rewrite Hp in Hp'. injection Hp' as <-.
  step_pure Hr c5 Hc5. apply set_mac_made in Hc5 as ->; [|done].
  exists p, a, i, ip. destruct (nw_con_interface f); [|done]. injection Hi as ->.
  by injection Hr as <-.
Qed.

Lemma fill_optionalConnection_made h profile i f c c' :
  fill_optionalConnection h profile i f c = (Ok tt, c') ->
  exists p a ip, getNetwork profile c = Ok p /\ nw_con_ip_addr f = Some ip /\
    Network.calculateAddress (networks c p) ip = Ok a /\
    c' = connected (made c p f i ip)
           (put_k_network (<[p := Network.put_address a (networks c p)]> (k_network c)) c).
Proof.
  intros Hr. step Hr as (conn & c0 & Hconn). apply connection_to_made in Hconn as (-> & p & Hp & ->).
  step_pure Hr c1 Hc1. apply set_mac_made in Hc1 as ->; [|done].
  step_pure Hr c2 Hc2. apply setInterface_made in Hc2 as ->.
  step_pure Hr ip Hip. step_pure Hr c3 Hc3. apply setAddress_made in Hc3 as ->.
  step Hr as (r & c4 & Ha). destruct r.
  apply set_network_address_made in Ha as (p' & a & Hp' & Ha & ->). rewrite Hp in Hp'. injection Hp' as <-.
  exists p, a, ip. destruct (nw_con_ip_addr f); [|done]. injection Hip as ->. by injection Hr as <-.
Qed.
End connections_made.

(** ** The layout of a filled cluster *)

Section layouts.
Context `{AL : AsioLaws} `{BL : BoostTextLaws} `{G : GKeyFile}.

(** A network of the answer file, its network object at index [i], and the
    head node's connection to it. *)
Record attached (i : nat) (w : Network.Profile.t * AFNetwork) (n : Network.Network)
    (conn : Connection.Connection) : Prop := {
  attached_built : built w.1 w.2 n;
  attached_network : Connection.m_network conn = i;
  attached_interface : Connection.m_interface conn = nw_con_interface w.2;
  attached_mac : Connection.m_mac conn = given_mac w.2;
  attached_ip : forall ip, nw_con_ip_addr w.2 = Some ip -> Connection.c_address conn = ip;
  attached_address : Network.calculateAddress n (Connection.c_address conn) = Ok (Network.m_address n);
}.

Record laid (ws : list (Network.Profile.t * AFNetwork)) (nets : list Network.Network)
    (conns : list Connection.Connection) : Prop := {
  laid_networks : length nets = length ws;
  laid_connections : length conns = length ws;
  laid_attached i w : ws !! i = Some w ->
    exists n conn, nets !! i = Some n /\ conns !! i = Some conn /\ attached i w n conn;
}.

Lemma laid_snoc ws nets conns w n conn :
  laid ws nets conns -> attached (length ws) w n conn -> laid (ws ++ [w]) (nets ++ [n]) (conns ++ [conn]).
Proof.
  intros [Hn Hc Ha] Hw. split; rewrite ?length_app; cbn; [lia..|].
  intros i w' [Hi|[Hi Hi']]%lookup_app_Some.
  - destruct (Ha i w' Hi) as (n' & conn' & Hn' & Hc' & Hw'). exists n', conn'.
    split; [by apply lookup_app_l_Some|]. split; [by apply lookup_app_l_Some|done].
  - apply list_lookup_singleton_Some in Hi' as [Hz <-]. assert (i = length ws) as -> by lia.
    exists n, conn. rewrite <- Hn at 1. rewrite lookup_app_r, Nat.sub_diag by lia.
    rewrite <- Hc at 1. by rewrite lookup_app_r, Nat.sub_diag by lia.
Qed.

Lemma laid_profiles ws nets conns profile :
  laid ws nets conns -> profile ∉ ws.*1 -> Forall (fun n => Network.m_profile n <> profile) nets.
Proof.
  intros [Hn Hc Ha] Hp. apply Forall_lookup. intros i n Hi Hprofile.
  destruct (lookup_lt_is_Some_2 ws i) as [w Hw]; [rewrite <- Hn; by apply lookup_lt_Some in Hi|].
  destruct (Ha i w Hw) as (n' & conn & Hn' & _ & Hat). rewrite Hi in Hn'. injection Hn' as <-.
  destruct Hat as [[Hb _] _ _ _ _ _]. apply Hp. rewrite <- Hprofile, Hb.
  apply list_elem_of_fmap. exists w. split; [done|]. by apply list_elem_of_lookup_2 in Hw.
Qed.

Lemma getNetwork_loop_added i nets n profile :
  Forall (fun n => Network.m_profile n <> profile) nets -> Network.m_profile n = profile ->
  getNetwork_loop i (nets ++ [n]) profile = Ok (i + length nets)%nat.
Proof.
  intros Hf Hn. revert i. induction Hf as [|m nets Hm _ IH]; intros i; cbn.
  - by rewrite decide_True, Nat.add_0_r.
  - rewrite decide_False by done. rewrite IH. f_equal. lia.
Qed.

(** What has been laid out so far, beyond the head node's first connections. *)
Definition progress (conns0 : list Connection.Connection) (nodes : list Node)
    (ws : list (Network.Profile.t * AFNetwork)) (c : Cluster) : Prop :=
  exists nets conns, layout c = (nets, nodes, conns0 ++ conns) /\ laid ws nets conns.

Lemma progress_steady {T} conns0 nodes ws (m : M Cluster T) r c c' :
  steady layout m -> m c = (Ok r, c') -> progress conns0 nodes ws c -> progress conns0 nodes ws c'.
Proof. intros Hm Hr. unfold progress. by rewrite (Hm _ _ _ Hr). Qed.

(** A network of a new profile is the last one, and is what the profile gives. *)
Lemma added_network conns0 nodes ws c n c' :
  progress conns0 nodes ws c -> Network.m_profile n ∉ ws.*1 -> addNetwork n c = (Ok tt, c') ->
  exists nets conns, layout c = (nets, nodes, conns0 ++ conns) /\ laid ws nets conns /\
    c' = put_k_network (nets ++ [n]) c /\ getNetwork (Network.m_profile n) c' = Ok (length nets) /\
    networks c' (length nets) = n /\
    (forall m, <[length nets := m]> (k_network c') = nets ++ [m]).
Proof.
  intros (nets & conns & Hl & Hlaid) Hp [= <-]. exists nets, conns. split; [done|]. split; [done|].
  assert (k_network c = nets) as -> by (by injection Hl). split; [done|].
  unfold getNetwork, networks, net_store. rewrite !k_network_put. split; [|split].
  - apply (getNetwork_loop_added 0); [by eapply laid_profiles|done].
  - by rewrite lookup_app_r, Nat.sub_diag by lia.
  - intros m. rewrite insert_app_r_alt, Nat.sub_diag by lia. done.
Qed.
Lemma progress_connected conns0 nodes ws w c nets conns n m conn c' :
  layout c = (nets, nodes, conns0 ++ conns) -> laid ws nets conns ->
  attached (length ws) w m conn ->
  c' = connected conn (put_k_network (nets ++ [m]) (put_k_network (nets ++ [n]) c)) ->
  progress conns0 nodes (ws ++ [w]) c'.
Proof.
  intros Hl Hlaid Hat ->. injection Hl as Hnet Hnodes Hconns. exists (nets ++ [m]), (conns ++ [conn]).
  split; [|by apply laid_snoc]. unfold layout, connected.
  cbn. by rewrite Hnodes, Hconns, app_assoc.
Qed.

Lemma built_address profile f n a : built profile f n -> built profile f (Network.put_address a n).
Proof. done. Qed.

Lemma progress_management h f conns0 nodes c n c1 c2 :
  progress conns0 nodes [] c -> fill_managementNetwork h f = Ok n ->
  addNetwork n c = (Ok tt, c1) -> fill_managementConnection h f c1 = (Ok tt, c2) ->
  progress conns0 nodes [(Network.Profile.Management, f)] c2.
Proof.
  intros Hp Hn Hadd Hc. apply fill_managementNetwork_built in Hn as (Hb & ip & Hip & Ha).
  destruct (added_network _ _ _ _ _ _ Hp ltac:(by intros ?%elem_of_nil) Hadd)
    as (nets & conns & Hl & Hlaid & -> & Hget & Hnet & _).
  apply fill_managementConnection_made in Hc as (p & i & ip' & Hp' & Hi & Hip' & ->).
  rewrite (proj1 Hb) in Hget. rewrite Hp' in Hget. injection Hget as ->. rewrite Hip in Hip'. injection Hip' as <-.
  eapply (progress_connected conns0 nodes [] _ c nets conns n n); [exact Hl|exact Hlaid| |reflexivity].
  destruct Hlaid as [Hlen _ _]. split; cbn; [done|by rewrite Hlen|done|done| |done]. congruence.
Qed.

(** A step that adds the network [n], points a connection to it and sets its
    address from the connection's. *)
Lemma progress_attached profile f n ip a i conns0 nodes ws c c1 c2 p :
  progress conns0 nodes ws c -> profile ∉ ws.*1 -> built profile f n -> addNetwork n c = (Ok tt, c1) ->
  getNetwork profile c1 = Ok p -> nw_con_interface f = Some i ->
  (forall ip', nw_con_ip_addr f = Some ip' -> ip' = ip) ->
  Network.calculateAddress (networks c1 p) ip = Ok a ->
  c2 = connected (made c1 p f i ip)
         (put_k_network (<[p := Network.put_address a (networks c1 p)]> (k_network c1)) c1) ->
  progress conns0 nodes (ws ++ [(profile, f)]) c2.
Proof.
  intros Hp Hnew Hb Hadd Hget' Hi Hip Ha ->. pose proof (proj1 Hb) as Hprofile.
  rewrite <- Hprofile in Hnew.
  destruct (added_network _ _ _ _ _ _ Hp Hnew Hadd) as (nets & conns & Hl & Hlaid & Hc1 & Hget & Hnet & Hins).
  rewrite Hprofile, Hget' in Hget. injection Hget as ->. rewrite Hnet, Hins in *. rewrite Hc1 at 2.
  eapply (progress_connected conns0 nodes ws _ c nets conns n); [exact Hl|exact Hlaid| |reflexivity].
  destruct Hlaid as [Hlen _ _]. split; cbn; [done|done|done|done| |done]. intros ip' Hip'. symmetry. by apply Hip.
Qed.

Lemma progress_external h f conns0 nodes ws c n c1 c2 :
  progress conns0 nodes ws c -> Network.Profile.External ∉ ws.*1 ->
  fill_externalNetwork h f = Ok n -> addNetwork n c = (Ok tt, c1) ->
  fill_externalConnection h f c1 = (Ok tt, c2) ->
  progress conns0 nodes (ws ++ [(Network.Profile.External, f)]) c2.
Proof.
  intros Hp Hnew Hn Hadd Hc. apply fill_externalNetwork_built in Hn.
  apply fill_externalConnection_made in Hc as (p & a & i & ip & Hget & Hi & Hip & Ha & Hc2).
  by eapply (progress_attached Network.Profile.External f n ip a i _ _ _ c c1).
Qed.

(** The networks a profile adds when the answer file names an interface. *)
Definition if_interface (profile : Network.Profile.t) (f : AFNetwork)
  : list (Network.Profile.t * AFNetwork) :=
  match nw_con_interface f with Some _ => [(profile, f)] | None => [] end.

Lemma progress_optional h profile f i n conns0 nodes ws c c1 c2 :
  progress conns0 nodes ws c -> profile ∉ ws.*1 -> built profile f n -> nw_con_interface f = Some i ->
  addNetwork n c = (Ok tt, c1) -> fill_optionalConnection h profile i f c1 = (Ok tt, c2) ->
  progress conns0 nodes (ws ++ [(profile, f)]) c2.
Proof.
  intros Hp Hnew Hb Hi Hadd Hc.
  apply fill_optionalConnection_made in Hc as (p & a & ip & Hget & Hip & Ha & Hc2).
  eapply (progress_attached profile f n ip a i _ _ _ c c1); try done. congruence.
Qed.

Lemma progress_service h f conns0 nodes ws c c' :
  progress conns0 nodes ws c -> Network.Profile.Service ∉ ws.*1 -> fill_service h f c = (Ok tt, c') ->
  progress conns0 nodes (ws ++ if_interface Network.Profile.Service f) c'.
Proof.
  unfold fill_service, if_interface. intros Hp Hnew. destruct (nw_con_interface f) as [i|] eqn:Hi.
  - intros Hr. step Hr as (n & c0 & Hn). apply fill_serviceNetwork_built in Hn as [Hb ->].
    step Hr as (r & c1 & Hadd). destruct r. by eapply progress_optional.
  - intros [= <-]. by rewrite app_nil_r.
Qed.

Lemma progress_application h f conns0 nodes ws c c' :
  progress conns0 nodes ws c -> Network.Profile.Application ∉ ws.*1 -> fill_application h f c = (Ok tt, c') ->
  progress conns0 nodes (ws ++ if_interface Network.Profile.Application f) c'.
Proof.
  unfold fill_application, if_interface. intros Hp Hnew. destruct (nw_con_interface f) as [i|] eqn:Hi.
  - intros Hr. step_pure Hr n Hn. apply fill_applicationNetwork_built in Hn as Hb.
    step Hr as (r & c1 & Hadd). destruct r. by eapply progress_optional.
  - intros [= <-]. by rewrite app_nil_r.
Qed.

(** *** Nodes *)

Lemma getNetwork_first p ws nets conns c f :
  k_network c = nets -> laid ((p, f) :: ws) nets conns -> getNetwork p c = Ok 0%nat.
Proof.
  intros Hc [_ _ Ha]. destruct (Ha 0%nat (p, f) eq_refl) as (n & conn & Hn & _ & [[Hp _] _ _ _ _ _]).
  unfold getNetwork. rewrite Hc. destruct nets as [|m nets]; [done|]. injection Hn as ->. cbn in Hp |- *.
  by rewrite decide_True.
Qed.

(** The connection each node starts from. *)
Definition node_connection (n : Network.Network) : Connection.Connection :=
  Connection.mkConnection _ 0%nat None None default_address
    (Connection.default_mtu (Network.m_type n)) "" "".

Lemma fill_nodes_made h nodeOS l c c' :
  getNetwork Network.Profile.Management c = Ok 0%nat -> fill_nodes h nodeOS l c = (Ok tt, c') ->
  exists new, c' = put_k_nodes (k_nodes c ++ new) c /\
    Forall2 (fun node n => fill_node h nodeOS (node_connection (networks c 0%nat)) node = Ok n) l new.
Proof.
  revert c. induction l as [|node l IH]; intros c Hm Hr.
  - injection Hr as <-. exists []. rewrite app_nil_r. split; [by destruct c|constructor].
  - unfold fill_nodes in Hr. cbn [for_each] in Hr. step Hr as (r & c1 & Hn).
    step Hn as (conn & c2 & Hconn). apply connection_to_made in Hconn as (-> & p & Hp & ->).
    rewrite Hm in Hp. injection Hp as <-. step_pure Hn n En. injection Hn as <- <-.
    apply IH in Hr as (new & -> & Hf); [|exact Hm]. exists (n :: new). split.
    + cbn. by rewrite <- app_assoc.
    + by constructor.
Qed.
End layouts.

(** The networks a filled cluster has, in order. *)
Definition wanted `{Asio} `{GKeyFile} (a : AnswerFile) : list (Network.Profile.t * AFNetwork) :=
  [(Network.Profile.Management, management a); (Network.Profile.External, external a)] ++
  if_interface Network.Profile.Service (service a) ++
  if_interface Network.Profile.Application (application a).

Lemma new_application `{Asio} `{GKeyFile} m e s :
  Network.Profile.Application ∉
    (([(Network.Profile.Management, m)] ++ [(Network.Profile.External, e)]) ++
     if_interface Network.Profile.Service s).*1.
Proof. unfold if_interface. destruct (nw_con_interface s); set_solver. Qed.

Lemma steady_computeNodeOS_mail `{Asio} p : steady k_computeNodeOS (fill_mail p).
Proof. unfold fill_mail, on_mail, setMailSystem. destruct (negb _); steadily. Qed.

Lemma steady_computeNodeOS_leftovers `{Asio} g s : steady k_computeNodeOS (fill_leftovers g s).
Proof. unfold fill_leftovers, left. cbv zeta. steadily. Qed.

(** [fillData] up to the nodes. *)
Lemma fillData_networks `{AsioLaws} `{BoostTextLaws} `{GKeyFile} `{GChecksum} h a c w c' w' :
  k_network c = [] -> fillData h a (c, w) = (Ok tt, (c', w')) ->
  exists nodeOS c1,
    fill_nodeOS h (system a) = Ok nodeOS /\ k_computeNodeOS c1 = Some nodeOS /\
    progress (s_connection (h_server (k_headnode c))) (k_nodes c) (wanted a) c1 /\
    (_ ← fill_nodes h nodeOS (ns_nodes (nodes a)); _ ← fill_mail (postfix a);
     fill_leftovers (ns_generic (nodes a)) (slurm a)) c1 = (Ok tt, c').
Proof.
  intros Hnone (mgmt & ext & c0 & Hmgmt & Hext & Himage & Hr)%fillData_steps. unfold fillData_rest in Hr.
  assert (progress (s_connection (h_server (k_headnode c))) (k_nodes c) [] c) as Hp.
  { exists [], []. split; [unfold layout; by rewrite Hnone, app_nil_r|]. by split. }
  assert (progress (s_connection (h_server (k_headnode c))) (k_nodes c) [] c0) as Hp0.
  { apply layout_setDiskImage in Himage. cbn [fst] in Himage. unfold progress in *. by rewrite Himage. }
  clear Hp. rename Hp0 into Hp.
  step_pure Hr nodeOS HnodeOS.
  step Hr as (r1 & c1 & Hs). apply (progress_steady _ _ _ _ _ _ _ (steady_fill_names _) Hs) in Hp. clear Hs.
  step Hr as (r2 & c2 & Hs). apply (progress_steady _ _ _ _ _ _ _ (steady_fill_ofed _ _) Hs) in Hp. clear Hs.
  step Hr as (r3 & c3 & Hs). eapply progress_steady in Hp; [| |exact Hs]; [|solve [steadily]]. clear Hs.
  step Hr as (r4 & c4 & Hs). eapply progress_steady in Hp; [| |exact Hs]; [|solve [steadily]]. clear Hs.
  step Hr as (r5 & c5 & Hs). apply (progress_steady _ _ _ _ _ _ _ (steady_fill_queue _ _) Hs) in Hp. clear Hs.
  step Hr as (r6 & c6 & H6). step Hr as (r7 & c7 & H7). step Hr as (r8 & c8 & H8). step Hr as (r9 & c9 & H9).
  step Hr as (r10 & c10 & H10). step Hr as (r11 & c11 & H11). destruct r6, r7, r8, r9, r10, r11.
  eapply progress_management in Hp; [|done..]. eapply progress_external in Hp; [|set_solver|done..].
  eapply progress_service in Hp; [|set_solver|done].
  eapply progress_application in Hp; [|apply new_application|done].
  step Hr as (r12 & c12 & Hs). eapply progress_steady in Hp; [| |exact Hs]; [|solve [steadily]]. clear Hs.
  step_pure Hr prov Hprov. step_pure Hr c13 Hc13. step_pure Hr ok Hok.
  step Hr as (r14 & c14 & Hs). eapply progress_steady in Hp; [| |exact Hs]; [|solve [steadily]]. clear Hs.
  step Hr as (r15 & c15 & Hs15). eapply progress_steady in Hp; [| |exact Hs15]; [|solve [steadily]].
  exists nodeOS, c15. split; [done|]. split; [by injection Hs15 as _ <-|]. split; [|exact Hr].
  unfold wanted. by rewrite <- !app_assoc in Hp.
Qed.

(** C2. A cluster without networks that is filled from an answer file without
    an error has: exactly one network per network of the answer file, in the
    order management, external, service, application (the last two when they
    name an interface), of the right profile and with the mask given; one new
    head node connection per network, pointing to it, with the interface and
    the address given and the MAC address in lower case; every network's
    address the masked address of its connection; the compute operating system
    of the answer file; and one new node per node of the answer file, in
    order, made by [fill_node] from a connection to the management network. *)
Theorem fillData_layout `{AsioLaws} `{BoostTextLaws} `{GKeyFile} `{GChecksum} (h : Host) (a : AnswerFile)
    (c c' : Cluster) (w w' : World) :
  k_network c = [] -> fillData h a (c, w) = (Ok tt, (c', w')) ->
  exists conns nodeOS new,
    s_connection (h_server (k_headnode c')) = s_connection (h_server (k_headnode c)) ++ conns /\
    laid (wanted a) (k_network c') conns /\
    fill_nodeOS h (system a) = Ok nodeOS /\ k_computeNodeOS c' = Some nodeOS /\
    k_nodes c' = k_nodes c ++ new /\
    Forall2 (fun node n =>
      fill_node h nodeOS (node_connection (networks c' 0%nat)) node = Ok n) (ns_nodes (nodes a)) new.
Proof.
  intros Hnone Hr. destruct (fillData_networks h a c w c' w' Hnone Hr) as
    (nodeOS & c1 & HnodeOS & Hcompute & (nets & conns & Hl & Hlaid) & Hrest). clear Hr.
  injection Hl as Hnet Hnodes Hconns. step Hrest as (r & c2 & Hfill). destruct r.
  apply fill_nodes_made in Hfill as (new & -> & Hnew); [|by eapply getNetwork_first].
  step Hrest as (r & c3 & Hmail).
  pose proof (steady_fill_mail _ _ _ _ Hmail) as Hlm. pose proof (steady_leftovers _ _ _ _ _ Hrest) as Hll.
  rewrite Hlm in Hll. injection Hll as Hnet' Hnodes' Hconns'.
  exists conns, nodeOS, new. split; [by rewrite Hconns'|]. split; [by rewrite Hnet'; cbn; rewrite Hnet|].
  split; [done|]. split.
  { rewrite (steady_computeNodeOS_leftovers _ _ _ _ _ Hrest), (steady_computeNodeOS_mail _ _ _ _ Hmail). done. }
  split; [rewrite Hnodes'; cbn; by rewrite Hnodes|].
  unfold networks in *. rewrite Hnet'. exact Hnew.
Qed.
