(* ===== verification/ClusterDump.v ===== *)
(** * The cluster: dumping it to an answer file

    [Cluster::dumpData] of [src/models/cluster.cpp]: the members of an answer
    file assigned from those of the cluster, in the order of the code. *)

From stdpp Require Import base strings list.
From Stdlib Require Import ZArith Lia Ascii.
From S2P Require Import Prelude CppString External Enums KeyFile Cluster AnswerFile AnswerFileDump.
From S2P Require Network Connection Timezone DiskImage Postfix.

Local Open Scope Z_scope.

Section dump.
Context `{Asio} `{BoostText} `{GKeyFile}.

(** The reference [getNetworkField] returns: reading and assigning it. *)
Definition getNetworkField (profile : Network.Profile.t) (a : AnswerFile) : AFNetwork :=
  match profile with
  | Network.Profile.Management => management a
  | Network.Profile.Service => service a
  | Network.Profile.External => external a
  | Network.Profile.Application => application a
  end.

Definition put_networkField (profile : Network.Profile.t) (f : AFNetwork) (a : AnswerFile) : AnswerFile :=
  match profile with
  | Network.Profile.Management => put_management f a
  | Network.Profile.Service => put_service f a
  | Network.Profile.External => put_external f a
  | Network.Profile.Application => put_application f a
  end.

(** [if (opt) field = opt.value()] *)
Definition assign_opt {S A} (o : option A) (put : A -> S -> S) : M S unit :=
  match o with Some a => modify (put a) | None => skip end.

Definition dump_connection (c : Cluster) (network : Network.Network) : M AFNetwork unit :=
  try_catchM
    (connection ← lift (getConnection (networks c) (h_server (k_headnode c)) (Network.m_profile network));
     _ ← assign_opt (Connection.m_interface connection) (fun i => put_nw_con_interface (Some i));
     _ ← assign_opt (Connection.m_mac connection) (fun m => put_nw_con_mac_addr (Some m));
     modify (put_nw_con_ip_addr (Some (Connection.c_address connection))))
    is_std_exception
    (fun _ => modify (put_nw_con_ip_addr (Some (Network.m_address network)))).

Definition dump_network (c : Cluster) (network : Network.Network) : M AFNetwork unit :=
  _ ← modify (put_nw_subnet_mask (Some (Network.m_subnetMask network)));
  _ ← modify (put_nw_gateway (Some (Network.m_gateway network)));
  _ ← modify (put_nw_domain_name (Some (Network.m_domainName network)));
  let nserv := Network.getNameservers network in
  _ ← (if bool_decide (nserv = []) then skip
       else modify (put_nw_nameservers (Some (to_string <$> nserv))));
  dump_connection c network.

Definition dump_networks (c : Cluster) : M AnswerFile unit :=
  for_each (k_network c) (fun network =>
    let profile := Network.m_profile network in
    zoom (getNetworkField profile) (put_networkField profile) (dump_network c network)).

Definition dump_system (c : Cluster) : M AFSystem unit :=
  _ ← modify (put_sy_disk_image (DiskImage.m_path (k_diskImage c)));
  let computeNodeOS := getComputeNodeOS c in
  distro ← lift (getDistro computeNodeOS);
  _ ← modify (put_sy_distro (Some distro));
  version ← lift (getVersion computeNodeOS);
  _ ← modify (put_sy_version version);
  _ ← assign_opt (m_kernel computeNodeOS) (fun k => put_sy_kernel (Some k));
  modify (put_sy_provisioner
    (if decide (k_provisioner c = Provisioner.xCAT) then "xcat" else "confluent")).

Definition dump_ofed (c : Cluster) : M AFOFED unit :=
  match k_ofed c with
  | None => skip
  | Some o =>
      _ ← modify (put_of_enabled true);
      _ ← modify (put_of_kind (lower (toString (o_kind o))));
      modify (put_of_version (Some (o_version o)))
  end.

Definition dump_queue (c : Cluster) : M AnswerFile unit :=
  match k_queueSystem c with
  | None => skip
  | Some q =>
      match q_kind q with
      | QueueKind.None => skip
      | QueueKind.SLURM =>
          let slurm_member (f : AFSlurm -> AFSlurm) : M AnswerFile unit :=
            zoom slurm put_slurm (modify f) in
          _ ← slurm_member (put_sl_enabled true);
          _ ← slurm_member (put_sl_mariadb_root_password (slurmMariaDBRootPassword (k_leftovers c)));
          _ ← slurm_member (put_sl_slurmdb_password (slurmDBPassword (k_leftovers c)));
          _ ← slurm_member (put_sl_storage_password (slurmStoragePassword (k_leftovers c)));
          slurm_member (put_sl_partition_name (q_defaultQueue q))
      | QueueKind.PBS =>
          _ ← zoom pbs put_pbs (modify (put_pb_enabled true));
          zoom pbs put_pbs (modify (put_pb_execution_place (q_executionPlace q)))
      end
  end.

Definition dump_smtp (m : Postfix.Postfix) : M AFPostfix unit :=
  match Postfix.m_smtp_server m, Postfix.m_port m with
  | Some server, Some port =>
      let sasl :=
        if decide (Postfix.m_profile m = PostfixProfile.SASL) then
          Some (mkSASL (default "" (Postfix.m_username m)) (default "" (Postfix.m_password m)))
        else None in
      modify (put_pf_smtp (Some (mkSMTP server port sasl)))
  | _, _ => skip
  end.

Definition dump_mail (c : Cluster) : M AFPostfix unit :=
  match k_mailSystem c with
  | None => skip
  | Some m =>
      _ ← modify (put_pf_enabled true);
      _ ← modify (put_pf_profile (Some (Postfix.m_profile m)));
      _ ← assign_opt (Postfix.m_destination m) put_pf_destination;
      _ ← assign_opt (Postfix.m_cert_file m) put_pf_cert_file;
      _ ← assign_opt (Postfix.m_key_file m) put_pf_key_file;
      dump_smtp m
  end.

Definition dump_time (c : Cluster) : M AFTime unit :=
  _ ← modify (put_tm_timezone (Timezone.m_timezone (k_timezone c)));
  _ ← assign_opt (head (Timezone.m_timeservers (k_timezone c))) put_tm_timeserver;
  modify (put_tm_locale (k_locale c)).

(** The generic node, from the leftovers; it has no addresses of its own. *)
Definition dump_genericNode (l : Leftovers) : AFNode :=
  mkAFNode (Some (nodePrefix l)) (Some (dec (nodePadding l))) (Some (nodeStartIP l)) None
    (Some (nodeRootPassword l)) None (Some (dec (nodeSockets l))) (Some (dec (nodeCoresPerSocket l)))
    (Some (dec (nodeThreadsPerCore l))) (Some (dec (nodeCPUsPerNode l))) (Some (dec (nodeRealMemory l)))
    None (Some (nodeBMCUsername l)) (Some (nodeBMCPassword l)) (Some (dec (nodeBMCSerialPort l)))
    (Some (dec (nodeBMCSerialSpeed l))).

Definition dump_afNode (n : Node) : AFNode :=
  let s := n_server n in
  mkAFNode (m_prefix n) (dec <$> m_padding n) (m_node_start_ip n) (Some (s_hostname s)) None
    (Some (m_mac_address n)) (Some (dec (m_sockets (s_cpu s)))) (Some (dec (m_coresPerSocket (s_cpu s))))
    (Some (dec (m_threadsPerCore (s_cpu s)))) None None (b_address <$> s_bmc s) (b_username <$> s_bmc s)
    (b_password <$> s_bmc s) ((fun b => dec (b_serialPort b)) <$> s_bmc s)
    ((fun b => dec (b_serialSpeed b)) <$> s_bmc s).

Definition dump_nodes (c : Cluster) : M AFNodes unit :=
  _ ← modify (put_ns_generic (Some (dump_genericNode (k_leftovers c))));
  for_each (k_nodes c) (fun node => modify (fun ns => put_ns_nodes (ns_nodes ns ++ [dump_afNode node]) ns)).

(** Everything but the file itself. *)
Definition dump_members (c : Cluster) : M AnswerFile unit :=
  _ ← dump_networks c;
  _ ← zoom system put_system (dump_system c);
  _ ← zoom ofed put_ofed (dump_ofed c);
  _ ← match k_enabledRepositories c with
      | Some l => zoom repositories put_repositories (modify (put_rp_enabled (Some l)))
      | None => skip
      end;
  _ ← match k_enabledOpenHPCBundles c with
      | Some l => zoom ohpc put_ohpc (modify (put_oh_enabled (Some l)))
      | None => skip
      end;
  _ ← dump_queue c;
  _ ← zoom postfix put_postfix (dump_mail c);
  _ ← modify (put_information (mkAFInformation (k_name c) (k_companyName c) (k_adminMail c)));
  _ ← zoom time put_time (dump_time c);
  _ ← modify (put_hostname (mkAFHostname (s_hostname (h_server (k_headnode c))) (getDomainName c)));
  zoom nodes put_nodes (dump_nodes c).

(** The file it writes, by name and contents.  The key file is opened with
    [load = false], so nothing is read. *)
Definition dumpData (answerfilePath : string) (c : Cluster) : outcome (string * string) :=
  keyfile ← KeyFile_make (fun _ => None) answerfilePath false;
  ((_ ← dump_members c; dumpFile answerfilePath) (AnswerFile_init answerfilePath keyfile)).1.
End dump.
