(* ===== verification/TuiSession.v ===== *)
(** * Drafts of the text interface

    [src/services/tui_session.cpp]: a draft is an answer file with a group of
    its own that says how far the dialogues went.  Saving one dumps the
    cluster; resuming applies what the file holds, section by section, and
    skips what is missing. *)

From stdpp Require Import base strings list gmap.
From Stdlib Require Import ZArith Lia Ascii.
From S2P Require Import Prelude CppString External Enums KeyFile Options World FileOps RepoData.
From S2P Require Import Cluster ClusterFill ClusterDump.
From S2P Require Network Connection Timezone Postfix.

Local Open Scope Z_scope.

Definition metadataGroup : string := "tui".
Definition metadataDraft : string := "draft".
Definition metadataCompletedSteps : string := "completed_steps".
Definition metadataLastCompletedStep : string := "last_completed_step".
Definition metadataFormatVersion : string := "format_version".
Definition metadataPendingDiskImageDownloadURL : string := "pending_disk_image_download_url".

Record DraftState := mkDraft {
  draft : bool;
  completedSteps : list string;
  lastCompletedStep : option string;
}.
Definition DraftState_default : DraftState := mkDraft false [] None.

Section drafts.
Context `{Asio} `{BoostText} `{BoostPort} `{GKeyFile} `{GChecksum}.

(** ** Reading values *)

Definition optionalString (file : KeyFile) (group key : string) : outcome (option string) :=
  if negb (hasGroup file group) then Ok None
  else
    value ← getStringOpt file group key;
    Ok (match value with Some (String _ _ as v) => Some v | _ => None end).

Definition splitValues (raw : string) : list string :=
  filter (fun value => Is_true (negb (empty value))) (split_any ", " true raw).

Definition parseBool (raw : string) : bool :=
  let normalized := lower raw in
  String.eqb normalized "1" || String.eqb normalized "true" || String.eqb normalized "yes".

Definition parseAddress (raw : string) : option address := make_address raw.
Definition parseSize (raw : string) : option Z := lexical_cast_size_t raw.
Definition parsePort (raw : string) : option Z := lexical_cast_uint16_t raw.

Definition parseDistro (raw : string) : option Distro.t :=
  let raw := lower raw in
  let raw := if String.eqb raw "alma" then "almalinux" else raw in
  ofStringOpt raw Insensitive.

(** ** Applying the sections *)

Section apply.
Variable (h : Host) (file : KeyFile).

(** [if (const auto value = optionalString(file, group, key))] *)
Definition if_string {S} (group key : string) (f : string -> M S unit) : M S unit :=
  value ← lift (optionalString file group key);
  match value with Some v => f v | None => skip end.

Definition applyInformation : M Cluster unit :=
  _ ← if_string "information" "cluster_name" setName;
  _ ← if_string "information" "company_name" setCompanyName;
  if_string "information" "administrator_email" setAdminMail.

Definition applyTime : M Cluster unit :=
  _ ← if_string "time" "timezone" setTimezone;
  _ ← if_string "time" "timeserver" (fun v => zoom k_timezone put_k_timezone (Timezone.setTimeservers_string v));
  if_string "time" "locale" setLocale.

Definition applyHostname : M Cluster unit :=
  _ ← if_string "hostname" "hostname" (fun v => on_headnode (setHostname v));
  if_string "hostname" "domain_name" setDomainName.

Definition modelHasNetwork (profile : Network.Profile.t) (c : Cluster) : outcome bool :=
  try_catch (_ ← getNetwork profile c; Ok true) is_std_exception (fun _ => Ok false).

(** The network the new connection points to comes after those of the
    cluster, where it will be added. *)
Definition applyNetwork (section : string) (profile : Network.Profile.t) (type : Network.NetType.t) : M Cluster unit :=
  c ← gets id;
  there ← lift (modelHasNetwork profile c);
  if negb (hasGroup file section) || there then skip
  else
    interface ← lift (optionalString file section "interface");
    ipAddress ← lift (optionalString file section "ip_address");
    subnetMask ← lift (optionalString file section "subnet_mask");
    match interface, ipAddress, subnetMask with
    | Some interface, Some ipAddress, Some subnetMask =>
        match parseAddress ipAddress, parseAddress subnetMask with
        | Some parsedIP, Some parsedSubnet =>
            let network := Network.Network_profile_type profile type in
            let p := length (k_network c) in
            connection ← lift (Connection.Connection_network (net_store (k_network c ++ [network])) p);
            connection ← lift (on_connection (Connection.setInterface (h_ifs h) interface) connection);
            connection ← lift (on_connection (Connection.setAddress parsedIP) connection);
            mac ← lift (optionalString file section "mac_address");
            connection ← lift match mac with
                              | Some mac => on_connection (Connection.setMAC mac) connection
                              | None => Ok connection
                              end;
            network ← lift (construct
              (_ ← Network.setSubnetMask parsedSubnet;
               n ← gets id;
               a ← lift (Network.calculateAddress n parsedIP);
               _ ← Network.setAddress a;
               gateway ← lift (optionalString file section "gateway");
               _ ← match gateway ≫= parseAddress with Some g => Network.setGateway g | None => skip end;
               domain ← lift (optionalString file section "domain_name");
               _ ← match domain with Some d => Network.setDomainName d | None => skip end;
               nameservers ← lift (optionalString file section "nameservers");
               match nameservers with Some ns => Network.setNameservers_string (splitValues ns) | None => skip end)
              network);
            _ ← addNetwork network;
            on_headnode (addConnection connection)
        | _, _ => skip
        end
    | _, _, _ => skip
    end.

Definition applyNetworks : M Cluster unit :=
  _ ← applyNetwork "network_external" Network.Profile.External Network.NetType.Ethernet;
  _ ← applyNetwork "network_management" Network.Profile.Management Network.NetType.Ethernet;
  _ ← applyNetwork "network_service" Network.Profile.Service Network.NetType.Ethernet;
  applyNetwork "network_application" Network.Profile.Application Network.NetType.Infiniband.

Definition applyDiskImage (diskImage : string) : M (Cluster * World) unit :=
  pendingURL ← lift (optionalString file metadataGroup metadataPendingDiskImageDownloadURL);
  match pendingURL with
  | Some url => setPendingDiskImageDownload h diskImage url
  | None => try_catchM (setDiskImage h diskImage) is_std_exception (fun _ => skip)
  end.

(** The operating system probes the host when it is constructed. *)
Definition draft_nodeOS (distro : Distro.t) (version : string) : outcome OS :=
  nodeOS ← OS_host (h_os h);
  construct
    (_ ← setArch Arch.x86_64;
     _ ← setFamily Family.Linux;
     _ ← setDistro distro;
     kernel ← lift (optionalString file "system" "kernel");
     _ ← match kernel with Some k => setKernel k | None => skip end;
     setVersion version)
    nodeOS.

Definition applySystem : M (Cluster * World) unit :=
  _ ← if_string "system" "disk_image" applyDiskImage;
  distro ← lift (optionalString file "system" "distro");
  version ← lift (optionalString file "system" "version");
  _ ← match distro, version with
      | Some distro, Some version =>
          match parseDistro distro with
          | Some d => nodeOS ← lift (draft_nodeOS d version); on_object (setComputeNodeOS nodeOS)
          | None => skip
          end
      | _, _ => skip
      end;
  if_string "system" "provisioner" (fun provisioner =>
    let normalized := lower provisioner in
    if String.eqb normalized "xcat" then on_object (setProvisioner Provisioner.xCAT)
    else if String.eqb normalized "confluent" then on_object (setProvisioner Provisioner.Confluent)
    else skip).

Definition applyRepositories : M Cluster unit :=
  if_string "repositories" "enabled" (fun enabled => setEnabledRepositories (splitValues enabled)).

Definition applyOHPC : M Cluster unit :=
  if_string "ohpc" "enabled" (fun enabled => setEnabledOpenHPCBundles (splitValues enabled)).

Definition applyOFED : M Cluster unit :=
  if negb (hasGroup file "ofed") then skip
  else
    if_string "ofed" "kind" (fun kind =>
      match ofStringOpt kind Insensitive with
      | Some parsedKind =>
          version ← lift (optionalString file "ofed" "version");
          setOFED parsedKind (default "latest" version)
      | None => skip
      end).

(** ** Nodes *)

Definition if_size (group key : string) (put : Z -> Leftovers -> Leftovers) : M Cluster unit :=
  if_string group key (fun value => match parseSize value with Some n => left (put n) | None => skip end).

Definition update_cpus (l : Leftovers) : Leftovers :=
  put_nodeCPUsPerNode (u64 (u64 (nodeSockets l * nodeCoresPerSocket l) * nodeThreadsPerCore l)) l.

Definition applyGenericNode : M Cluster unit :=
  if negb (hasGroup file "node") then skip
  else
    _ ← if_string "node" "prefix" (fun v => left (put_nodePrefix v));
    _ ← if_size "node" "padding" put_nodePadding;
    _ ← if_string "node" "node_ip" (fun v =>
          match parseAddress v with Some a => left (put_nodeStartIP a) | None => skip end);
    _ ← if_string "node" "node_root_password" (fun v => left (put_nodeRootPassword v));
    _ ← if_size "node" "sockets" put_nodeSockets;
    _ ← if_size "node" "cores_per_socket" put_nodeCoresPerSocket;
    _ ← if_size "node" "threads_per_core" put_nodeThreadsPerCore;
    _ ← if_size "node" "real_memory" put_nodeRealMemory;
    _ ← if_string "node" "bmc_username" (fun v => left (put_nodeBMCUsername v));
    _ ← if_string "node" "bmc_password" (fun v => left (put_nodeBMCPassword v));
    _ ← if_size "node" "bmc_serialport" put_nodeBMCSerialPort;
    _ ← if_size "node" "bmc_serialspeed" put_nodeBMCSerialSpeed;
    left update_cpus.

(** [parseSize(optionalString(file, section, key).value_or(std::to_string(fallback)))] *)
Definition size_or (section key : string) (fallback : Z) : outcome (option Z) :=
  value ← optionalString file section key; Ok (parseSize (default (dec fallback) value)).

Definition draft_bmc (section : string) (model : Leftovers) : outcome (option BMC) :=
  bmcAddress ← optionalString file section "bmc_address";
  match bmcAddress with
  | None => Ok None
  | Some bmcAddress =>
      username ← optionalString file section "bmc_username";
      password ← optionalString file section "bmc_password";
      serialport ← size_or section "bmc_serialport" (nodeBMCSerialPort model);
      serialspeed ← size_or section "bmc_serialspeed" (nodeBMCSerialSpeed model);
      Ok (Some (mkBMC bmcAddress (default (nodeBMCUsername model) username)
        (default (nodeBMCPassword model) password) (default (nodeBMCSerialPort model) serialport)
        (default (nodeBMCSerialSpeed model) serialspeed) BMCKind.IPMI))
  end.

(** What is set on the node after its construction *)
Definition draft_settings (section : string) (model : Leftovers) (nodeIP : address) (mac : string) : M Node unit :=
  prefix ← lift (optionalString file section "prefix");
  let prefix := match prefix with
                | Some p => Some p
                | None => if empty (nodePrefix model) then None else Some (nodePrefix model)
                end in
  _ ← modify (setPrefix prefix);
  padding ← lift (optionalString file section "padding");
  _ ← match padding with
      | Some padding => modify (setPadding (parseSize padding))
      | None => if negb (nodePadding model =? 0) then modify (setPadding (Some (nodePadding model))) else skip
      end;
  _ ← modify (setNodeStartIp (Some nodeIP));
  _ ← modify (setMACAddress mac);
  nodeRootPassword_ ← lift (optionalString file section "node_root_password");
  let nodeRootPassword_ :=
    match nodeRootPassword_ with
    | Some p => Some p
    | None => if empty (nodeRootPassword model) then None else Some (nodeRootPassword model)
    end in
  modify (setNodeRootPassword nodeRootPassword_).

Definition applySingleNode (section : string) : M Cluster bool :=
  hostname ← lift (optionalString file section "hostname");
  nodeIP ← lift (optionalString file section "node_ip");
  mac ← lift (optionalString file section "mac_address");
  model ← gets id;
  match hostname, nodeIP, mac with
  | Some hostname, Some nodeIP, Some mac =>
      managementNetwork ← lift (try_catch (Some <$> getNetwork Network.Profile.Management model)
                                  is_std_exception (fun _ => Ok None));
      match managementNetwork, parseAddress nodeIP with
      | Some managementNetwork, Some parsedNodeIP =>
          let l := k_leftovers model in
          sockets ← lift (size_or section "sockets" (nodeSockets l));
          coresPerSocket ← lift (size_or section "cores_per_socket" (nodeCoresPerSocket l));
          threadsPerCore ← lift (size_or section "threads_per_core" (nodeThreadsPerCore l));
          match sockets, coresPerSocket, threadsPerCore with
          | Some sockets, Some coresPerSocket, Some threadsPerCore =>
              cpu ← lift (CPU_make sockets coresPerSocket threadsPerCore);
              connection ← lift (Connection.Connection_network (networks model) managementNetwork);
              connection ← lift (on_connection (Connection.setMAC mac) connection);
              connection ← lift (on_connection (Connection.setAddress parsedNodeIP) connection);
              bmc ← lift (draft_bmc section l);
              node ← lift (Node_full hostname (getComputeNodeOS model) cpu [connection] bmc);
              node ← lift (construct (draft_settings section l parsedNodeIP mac) node);
              _ ← addNode node;
              mret true
          | _, _, _ => mret false
          end
      | _, _ => mret false
      end
  | _, _, _ => mret false
  end.

Fixpoint applyNodes_loop (groups : list string) (loaded : Z) : M Cluster Z :=
  match groups with
  | [] => mret loaded
  | group :: groups =>
      added ← applySingleNode group;
      applyNodes_loop groups (if added : bool then u64 (loaded + 1) else loaded)
  end.

Definition applyNodes : M Cluster unit :=
  _ ← applyGenericNode;
  loaded ← applyNodes_loop (listAllPrefixedEntries file "node.") 0;
  if 0 <? loaded then left (put_nodeQuantity loaded) else skip.

(** ** Queue system and mail *)

Definition on_queue (f : QueueSystem -> QueueSystem) : M Cluster unit :=
  modify (fun c => put_k_queueSystem (f <$> k_queueSystem c) c).

Definition applyQueueSystem : M Cluster unit :=
  if hasGroup file "pbs" then
    _ ← setQueueSystem QueueKind.PBS;
    executionPlace ← lift (optionalString file "pbs" "execution_place");
    match ofStringOpt (default "Shared" executionPlace) Insensitive with
    | Some parsed => on_queue (setExecutionPlace parsed)
    | None => skip
    end
  else if negb (hasGroup file "slurm") then skip
  else
    _ ← setQueueSystem QueueKind.SLURM;
    partition_name ← lift (optionalString file "slurm" "partition_name");
    _ ← on_queue (setDefaultQueue (default "execution" partition_name));
    mariadb ← lift (optionalString file "slurm" "mariadb_root_password");
    _ ← left (put_slurmMariaDBRootPassword (default "" mariadb));
    slurmdb ← lift (optionalString file "slurm" "slurmdb_password");
    _ ← left (put_slurmDBPassword (default "" slurmdb));
    storage ← lift (optionalString file "slurm" "storage_password");
    left (put_slurmStoragePassword (default "" storage)).

Definition apply_relay (profile : PostfixProfile.t) : M Cluster unit :=
  let relaySection := if decide (profile = PostfixProfile.SASL) then "postfix.sasl" else "postfix.relay" in
  match profile with
  | PostfixProfile.Relay | PostfixProfile.SASL =>
      server ← lift (optionalString file relaySection "server");
      _ ← on_mail (Postfix.setSMTPServer server);
      if_string relaySection "port" (fun port => on_mail (Postfix.setPort (parsePort port)))
  | PostfixProfile.Local => skip
  end.

Definition applyPostfix : M Cluster unit :=
  if negb (hasGroup file "postfix") then skip
  else
    if_string "postfix" "profile" (fun rawProfile =>
      match ofStringOpt rawProfile Insensitive with
      | None => skip
      | Some profile =>
          _ ← setMailSystem profile;
          c ← gets id;
          _ ← on_mail (Postfix.setHostname (Some (s_hostname (h_server (k_headnode c)))));
          _ ← on_mail (Postfix.setDomain (Some (getDomainName c)));
          _ ← if_string "postfix" "destination" (fun d => on_mail (Postfix.setDestination (Some (splitValues d))));
          _ ← if_string "postfix" "smtpd_tls_cert_file" (fun cert => on_mail (Postfix.setCertFile (Some cert)));
          _ ← if_string "postfix" "smtpd_tls_key_file" (fun key => on_mail (Postfix.setKeyFile (Some key)));
          _ ← apply_relay profile;
          if decide (profile = PostfixProfile.SASL) then
            username ← lift (optionalString file "postfix.sasl" "username");
            _ ← on_mail (Postfix.setUsername username);
            password ← lift (optionalString file "postfix.sasl" "password");
            on_mail (Postfix.setPassword password)
          else skip
      end).

Definition applyFile : M (Cluster * World) unit :=
  _ ← on_object applyInformation;
  _ ← on_object applyTime;
  _ ← on_object applyHostname;
  _ ← on_object applyNetworks;
  _ ← applySystem;
  _ ← on_object applyRepositories;
  _ ← on_object applyOHPC;
  _ ← on_object applyOFED;
  _ ← on_object applyNodes;
  _ ← on_object applyQueueSystem;
  on_object applyPostfix.
End apply.

(** ** Draft files *)

Definition defaultAnswerfilePath (current_path : string) (options : Options) : string :=
  if negb (empty (dumpAnswerfile options)) then dumpAnswerfile options
  else path_append current_path "opencattus-tui.ini".

Definition defaultDraftPath (current_path : string) (options : Options) : string :=
  if negb (empty (tuiDraft options)) then tuiDraft options
  else defaultAnswerfilePath current_path options +:+ ".draft".

Definition draft_state (file : KeyFile) : outcome DraftState :=
  if negb (hasGroup file metadataGroup) then Ok DraftState_default
  else
    draft ← optionalString file metadataGroup metadataDraft;
    completed ← optionalString file metadataGroup metadataCompletedSteps;
    last ← optionalString file metadataGroup metadataLastCompletedStep;
    Ok (mkDraft (default false (parseBool <$> draft)) (default [] (splitValues <$> completed)) last).

Definition loadDraftState (path : string) : M World DraftState :=
  there ← ask (fun w => fs_exists w path);
  if negb there then mret DraftState_default
  else file ← open_keyfile path; lift (draft_state file).

Definition isDraftAnswerfile (path : string) : M World bool :=
  state ← loadDraftState path; mret (draft state).

Definition completedStepSet (state : DraftState) : gset string := list_to_set (completedSteps state).

(** An exception leaves what was applied. *)
Definition applyDraftToModel (h : Host) (path : string) : M (Cluster * World) unit :=
  there ← on_machine (ask (fun w => fs_exists w path));
  if negb there then skip
  else file ← on_machine (open_keyfile path); applyFile h file.

(** The group of a draft *)
Definition write_metadata (model : Cluster) (steps : list string) (complete : bool) : M KeyFile unit :=
  _ ← setString metadataGroup metadataFormatVersion "1";
  _ ← setBoolean metadataGroup metadataDraft (negb complete);
  _ ← setString metadataGroup metadataCompletedSteps (join steps ", ");
  _ ← match k_pendingDiskImageDownloadURL model with
      | Some pendingDownload => setString metadataGroup metadataPendingDiskImageDownloadURL pendingDownload
      | None => skip
      end;
  match last steps with
  | Some step => setString metadataGroup metadataLastCompletedStep step
  | None => skip
  end.

(** The permissions of the file are left out. *)
Definition writeDraft (model : Cluster) (path : string) (steps : list string) (complete : bool) : M World unit :=
  dumped ← lift (dumpData path model);
  _ ← Files.write dumped.1 dumped.2;
  file ← open_keyfile path;
  written ← lift (construct (write_metadata model steps complete) file);
  save_keyfile written.
End drafts.
