(* ===== verification/TuiSessionSpec.v ===== *)
(** * Drafts: what is saved and what is resumed

    A draft is an answer file: loading it as one gives what the cluster was
    dumped to, and its own group gives back how far the dialogues went.
    Resuming a draft never takes away what the cluster has. *)

From stdpp Require Import base strings list gmap.
From Stdlib Require Import ZArith Lia Ascii.
From S2P Require Import Prelude CppString External Enums KeyFile World WorldFacts FileOps FileOpsSpec RepoData RepoFileSpec.
From S2P Require Import AnswerFile AnswerFileDump AnswerFileValidation AnswerFileWrites AnswerFileReads AnswerFileRoundtrip.
From S2P Require Import Cluster ClusterFill ClusterDump TuiSession.
From S2P Require Network Connection Timezone Postfix.

Local Open Scope Z_scope.

(** ** Saving and loading *)

Section saved.
Context `{AL : AsioLaws} `{BL : BoostTextLaws} `{GL : GKeyFileLaws}.

(** The answer file a cluster is dumped to. *)
Definition dumped (model : Cluster) (path : string) : outcome AnswerFile :=
  construct (dump_members model) (AnswerFile_init path (mkKeyFile path gkf_create)).

Definition metadata_writes (model : Cluster) (steps : list string) (complete : bool) : list write :=
  [("tui", "format_version", "1")] ++ [("tui", "draft", flag (negb complete))] ++
  [("tui", "completed_steps", join steps ", ")] ++
  opt_write "tui" "pending_disk_image_download_url" (k_pendingDiskImageDownloadURL model) ++
  opt_write "tui" "last_completed_step" (last steps).

Lemma write_metadata_writes model steps complete k :
  write_metadata model steps complete k = (Ok tt, write_all (metadata_writes model steps complete) k).
Proof.
  unfold write_metadata, metadata_writes. rewrite !write_all_app.
  rewrite (M_bind_ok _ _ _ _ _ (setString_write _ _ _ _)), (M_bind_ok _ _ _ _ _ (setBoolean_write _ _ _ _)).
  rewrite (M_bind_ok _ _ _ _ _ (setString_write _ _ _ _)).
  by destruct (k_pendingDiskImageDownloadURL model), (last steps).
Qed.

(** The steps a dialogue reports are names a key file can hold as a list. *)
Record steps_ok (model : Cluster) (steps : list string) : Prop := {
  steps_names : Forall (no_sep ", ") steps;
  steps_values : Forall (fun s => value_text s = true) steps;
  steps_joined : value_text (join steps ", ") = true;
  steps_pending : value_opt (k_pendingDiskImageDownloadURL model) = true;
}.

Lemma metadata_storable model steps complete :
  steps_ok model steps -> Forall storable_write (metadata_writes model steps complete).
Proof.
  intros []. unfold metadata_writes. rewrite !Forall_app.
  split_and!.
  1-3: apply Forall_singleton; split_and!; first [done | by destruct complete].
  - by apply storable_opt.
  - apply storable_opt; [done..|]. destruct (last steps) as [s|] eqn:Hl; [|done].
    apply last_Some in Hl as [l' ->]. apply Forall_app in steps_values0 as [_ Hs].
    exact (proj1 (Forall_singleton _ _) Hs).
Qed.

Lemma metadata_within model steps complete : within (fun g => g = "tui") (metadata_writes model steps complete).
Proof. unfold metadata_writes. rewrite !within_app. split_and!; eauto with cpp. Qed.

(** A file written to and read again answers as before. *)
Lemma reopen k path w :
  can_write w path = true -> m_path k = path -> storable (m_keyfile k) ->
  exists k', open_keyfile path (put_file path (toData k) w) = (Ok k', put_file path (toData k) w) /\
    m_path k' = path /\ storable (m_keyfile k') /\ getGroups k' = getGroups k /\
    forall g key s, holds k g key s -> holds k' g key s.
Proof.
  intros Hw Hp Hs. destruct (gkf_reload _ Hs) as (kf & Hload & Hg & Hslots).
  exists (mkKeyFile path kf). split_and!; [|done| |done|].
  - rewrite open_keyfile_make.
    + unfold KeyFile_make, load_from_file. rewrite contents_put_file, decide_True by done. cbn.
      unfold toData. by rewrite Hload.
    + apply can_write_file in Hw. exact Hw.
  - unfold storable. cbn. rewrite Hg. destruct Hs as (? & ? & Hs). split_and!; [done..|].
    intros g key. destruct (Hslots g key) as [-> ->]. apply Hs.
  - intros g key s. apply holds_reload, Hslots.
Qed.

(** Dumping changes neither the path nor the key file of the answer file. *)
Definition af_place (a : AnswerFile) : string * KeyFile := (af_path a, af_keyfile a).

Lemma dump_networks_steady {X} (g : AnswerFile -> X) model :
  (forall p f a, g (put_networkField p f a) = g a) -> steady g (dump_networks model).
Proof.
  intros Hg. unfold dump_networks. induction (k_network model) as [|n l IH]; cbn [for_each]; steadily.
  apply steady_zoom. intros. apply Hg.
Qed.

Lemma dump_members_place model : steady af_place (dump_members model).
Proof.
  unfold dump_members, dump_queue. steadily; try by apply steady_zoom.
  apply dump_networks_steady. by intros [].
Qed.

Lemma steady_of {S X T} {g : S -> X} {m : M S T} {s a s'} : m s = (Ok a, s') -> steady g m -> g s' = g s.
Proof. intros Hm Hs. by eapply Hs. Qed.

(** A mail system is dumped with its profile. *)
Definition profiled (a : AnswerFile) : Prop := pf_enabled (postfix a) = true -> is_Some (pf_profile (postfix a)).

Lemma dump_mail_profiled model p p' :
  dump_mail model p = (Ok tt, p') -> pf_enabled p = false -> pf_enabled p' = true -> is_Some (pf_profile p').
Proof.
  unfold dump_mail. destruct (k_mailSystem model) as [m|]; [|by intros [= <-] ->].
  intros Hd _ _.
  assert (steady pf_profile (_ ← assign_opt (Postfix.m_destination m) put_pf_destination;
    _ ← assign_opt (Postfix.m_cert_file m) put_pf_cert_file;
    _ ← assign_opt (Postfix.m_key_file m) put_pf_key_file; dump_smtp m)) as Hst.
  { unfold assign_opt, dump_smtp. steadily. }
  apply M_bind_inv_ok in Hd as (? & p1 & [= <- <-] & Hd).
  apply M_bind_inv_ok in Hd as (? & p2 & [= <- <-] & Hd).
  rewrite (Hst _ _ _ Hd). by eexists.
Qed.

Lemma dump_members_profiled model path k a :
  dump_members model (AnswerFile_init path k) = (Ok tt, a) -> profiled a.
Proof.
  unfold dump_members. intros Hd.
  apply M_bind_inv_ok in Hd as (? & s1 & H1 & Hd). apply M_bind_inv_ok in Hd as (? & s2 & H2 & Hd).
  apply M_bind_inv_ok in Hd as (? & s3 & H3 & Hd). apply M_bind_inv_ok in Hd as (? & s4 & H4 & Hd).
  apply M_bind_inv_ok in Hd as (? & s5 & H5 & Hd). apply M_bind_inv_ok in Hd as (? & s6 & H6 & Hd).
  assert (pf_enabled (postfix s6) = false) as Hp6.
  { rewrite (steady_of (g := postfix) H6), (steady_of (g := postfix) H5), (steady_of (g := postfix) H4),
      (steady_of (g := postfix) H3), (steady_of (g := postfix) H2), (steady_of (g := postfix) H1); [done|..].
    all: unfold dump_queue; steadily; try by apply steady_zoom. apply dump_networks_steady. by intros []. }
  apply M_bind_inv_ok in Hd as (? & s7 & H7 & Hd). unfold profiled.
  rewrite (steady_of (g := postfix) Hd) by (unfold dump_nodes; steadily; by apply steady_zoom).
  unfold zoom in H7. destruct (dump_mail model (postfix s6)) as [[[]| |] p] eqn:Hm; [|done..].
  injection H7 as _ <-. by apply (dump_mail_profiled _ _ _ Hm).
Qed.

Lemma dumpData_text model path a d :
  dumped model path = Ok a -> sy_distro (system a) = Some d ->
  dumpData path model = Ok (path, toData (write_all (ws_all a d) (mkKeyFile path gkf_create))).
Proof.
  intros Hd%construct_ok Hdi.
  pose proof (dump_members_place model _ _ _ Hd) as Hp. injection Hp as Hpath Hkey.
  unfold dumpData. cbn [KeyFile_make andb mbind outcome_bind]. rewrite (M_bind_ok _ _ _ _ _ Hd).
  unfold dumpFile. rewrite (M_bind_ok _ _ a tt (put_af_path path a)) by done.
  assert (put_af_path path a = a) as -> by (rewrite <- Hpath; by destruct a).
  rewrite (M_bind_ok _ _ _ _ _ (dumpOptions_writes a d Hdi (dump_members_profiled _ _ _ _ Hd))).
  unfold add_writes. by rewrite Hkey.
Qed.

(** What [writeDraft] leaves: a file that agrees with the dump, and in its own
    group with the steps. *)
Lemma writeDraft_file model path steps complete w a d :
  (Files.write path "" w).1 = Ok tt -> dumped model path = Ok a -> sy_distro (system a) = Some d ->
  Forall storable_write (ws_all a d) -> steps_ok model steps ->
  exists k w', writeDraft model path steps complete w = (Ok tt, w') /\
    open_keyfile path w' = (Ok k, w') /\ is_regular_file w' path = true /\ m_path k = path /\
    (forall g, agrees k (ws_all a d ++ metadata_writes model steps complete) g) /\
    getGroups k = group_order (ws_all a d ++ metadata_writes model steps complete) [].
Proof.
  intros (w0 & Hw & _ & _ & Hwrite)%write_place Hd Hdi Hst Hok.
  set (ws := ws_all a d). set (ms := metadata_writes model steps complete).
  set (k0 := write_all ws (mkKeyFile path gkf_create)).
  destruct (reopen k0 path w0) as (k1 & Ho1 & Hp1 & Hs1 & Hg1 & Ha1);
    [done|apply write_all_path|by apply storable_write_all, storable_create|].
  set (w1 := put_file path (toData k0) w0) in *.
  destruct (reopen (write_all ms k1) path w1) as (k2 & Ho2 & Hp2 & _ & Hg2 & Ha2);
    [done|by rewrite write_all_path|by apply storable_write_all, Hs1; apply metadata_storable|].
  exists k2, (put_file path (toData (write_all ms k1)) w1). split_and!; [|done| |done|..].
  - unfold writeDraft. rewrite (M_bind_ok _ _ w (path, toData k0) w) by (unfold lift; by rewrite (dumpData_text _ _ a d)).
    cbn [fst snd]. rewrite (M_bind_ok _ _ _ _ _ (Hwrite _)). fold w1. rewrite (M_bind_ok _ _ _ _ _ Ho1).
    rewrite (M_bind_ok _ _ w1 (write_all ms k1) w1)
      by (unfold lift, construct; by rewrite write_metadata_writes).
    unfold save_keyfile, save. rewrite write_all_path, Hp1. cbn [fst snd].
    unfold stream_write, mbind, M_bind. by replace (can_write w1 path) with true.
  - rewrite is_regular_contents, contents_put_file, decide_True by done. done.
  - intros g key. apply Ha2. rewrite <- slot_after_fresh, slot_after_app.
    apply holds_write_all, Ha1, holds_write_all, holds_create.
  - rewrite Hg2, getGroups_write_all, Hg1. unfold k0. by rewrite getGroups_write_all, getGroups_create, group_order_app.
Qed.

Definition nonempty (o : option string) : option string :=
  match o with Some "" => None | _ => o end.

Lemma optionalString_agrees k ws g key o :
  agrees k ws g -> touches ws g = true -> written ws g key = o -> optionalString k g key = Ok (nonempty o).
Proof.
  intros Ha Ht Ho. unfold optionalString. rewrite (agrees_hasGroup _ _ _ Ha), Ht. cbn [negb].
  rewrite (agrees_getStringOpt _ _ _ _ _ Ha Ht Ho). by destruct o as [[]|].
Qed.

Lemma splitValues_join steps :
  Forall (no_sep ", ") steps ->
  default [] (splitValues <$> nonempty (Some (join steps ", "))) = steps.
Proof.
  intros Hs. destruct steps as [|x l]; [by rewrite join_nil|].
  assert (splitValues (join (x :: l) ", ") = x :: l) as Hsp.
  { unfold splitValues. rewrite split_join by done. induction Hs as [|y m [Hy _] _ IH]; [done|].
    rewrite filter_cons, decide_True, IH; [done|]. by rewrite Hy. }
  destruct (join (x :: l) ", ") as [|c t] eqn:Hj; [|exact Hsp]. exfalso.
  inversion Hs as [|? ? [Hx _] _]; subst. destruct l as [|y l].
  - rewrite join_one in Hj. by subst x.
  - rewrite join_cons in Hj. by destruct x.
Qed.

Lemma nonempty_last model steps : steps_ok model steps -> nonempty (last steps) = last steps.
Proof.
  intros []. destruct (last steps) as [s|] eqn:Hl; [|done]. apply last_Some in Hl as [l ->].
  apply Forall_app in steps_names0 as [_ Hs]. apply Forall_singleton in Hs as [Hs _]. by destruct s.
Qed.

Lemma draft_state_back k ws model steps complete :
  steps_ok model steps -> touches ws "tui" = false ->
  agrees k (ws ++ metadata_writes model steps complete) "tui" ->
  draft_state k = Ok (mkDraft (negb complete) steps (last steps)).
Proof.
  intros Hok Hws Ha. apply agrees_skip in Ha; [|done].
  set (ms := metadata_writes model steps complete) in *.
  assert (touches ms "tui" = true) as Ht by done.
  unfold draft_state, metadataGroup. rewrite (agrees_hasGroup _ _ _ Ha), Ht. cbn [negb].
  assert (forall key o, written ms "tui" key = o -> optionalString k "tui" key = Ok (nonempty o)) as Hread.
  { intros key o. by apply optionalString_agrees. }
  rewrite (Hread metadataDraft (Some (flag (negb complete))))
    by (unfold ms, metadata_writes; autorewrite with slots; done).
  rewrite (Hread metadataCompletedSteps (Some (join steps ", ")))
    by (unfold ms, metadata_writes; autorewrite with slots; done).
  rewrite (Hread metadataLastCompletedStep (last steps))
    by (unfold ms, metadata_writes; autorewrite with slots; done).
  cbn [mbind outcome_bind]. rewrite splitValues_join, (nonempty_last model) by (done || by apply Hok).
  by destruct complete.
Qed.

(** The answer file in the draft is the one the cluster was dumped to. *)
Lemma answerfile_back k ws a d model steps complete dryRun :
  ws = ws_all a d -> canonical a -> sy_distro (system a) = Some d ->
  (forall g, agrees k (ws ++ metadata_writes model steps complete) g) ->
  getGroups k = group_order (ws ++ metadata_writes model steps complete) [] ->
  loadOptions dryRun (AnswerFile_init (af_path a) k) = (Ok tt, put_af_keyfile k a).
Proof.
  intros -> Ha Hd Hag Hg. eapply loadOptions_back; [done|exact Hd| |].
  - intros g Hne. eapply agrees_keep; [|apply Hag]. apply (touches_eq "tui"); [apply metadata_within|].
    by rewrite String.eqb_sym.
  - unfold listAllPrefixedEntries. rewrite Hg. apply group_order_listed; [by apply Ha|].
    eapply node_writes_other; [apply metadata_within|done].
Qed.

Lemma AnswerFile_make_open dryRun w k a :
  open_keyfile (af_path a) w = (Ok k, w) -> is_regular_file w (af_path a) = true ->
  loadOptions dryRun (AnswerFile_init (af_path a) k) = (Ok tt, put_af_keyfile k a) ->
  AnswerFile_make dryRun (contents w) (af_path a) true = Ok (put_af_keyfile k a).
Proof.
  intros Ho Hr Hl. unfold open_keyfile in Ho. destruct (is_directory _ _); [done|]. injection Ho as Ho.
  rewrite is_regular_contents in Hr. unfold KeyFile_make in Ho. rewrite Hr in Ho. cbn [andb] in Ho.
  destruct (load_from_file _ _) as [g| |] eqn:Hg; [|done..]. injection Ho as <-.
  unfold AnswerFile_make. cbn [KeyFile_make andb mbind outcome_bind when]. unfold construct, loadFile.
  rewrite (M_bind_ok _ _ _ tt (AnswerFile_init (af_path a) (mkKeyFile (af_path a) gkf_create))) by done.
  rewrite (M_bind_ok _ _ _ tt (AnswerFile_init (af_path a) (mkKeyFile (af_path a) g))); [by rewrite Hl|].
  apply (zoom_ok af_keyfile put_af_keyfile _ (AnswerFile_init _ _)). unfold KeyFile.load, gets, lift, mbind, M_bind.
  cbn. by rewrite Hg.
Qed.
End saved.

(** C15. Saving a draft and coming back to it: when the file can be written,
    in a directory that is there or can be made, and a key file can hold the texts the cluster is dumped to, [writeDraft]
    succeeds; [loadDraftState] then gives the completed steps, the last of
    them, and whether the dialogues are unfinished; and if the dump is an
    answer file the program accepts, the same file, loaded as one, gives it. *)
Theorem draft_roundtrip `{AsioLaws} `{BoostTextLaws} `{GKeyFileLaws} (model : Cluster) (path : string)
    (steps : list string) (complete dryRun : bool) (w : World) (a : AnswerFile) (d : Distro.t) :
  (Files.write path "" w).1 = Ok tt -> dumped model path = Ok a -> sy_distro (system a) = Some d ->
  Forall storable_write (ws_all a d) -> steps_ok model steps ->
  exists k w',
    writeDraft model path steps complete w = (Ok tt, w') /\
    loadDraftState path w' = (Ok (mkDraft (negb complete) steps (last steps)), w') /\
    isDraftAnswerfile path w' = (Ok (negb complete), w') /\
    (canonical a -> AnswerFile_make dryRun (contents w') path true = Ok (put_af_keyfile k a)).
Proof.
  intros Hw Hd Hdi Hst Hok.
  destruct (writeDraft_file _ _ _ complete _ _ _ Hw Hd Hdi Hst Hok)
    as (k & w' & Hwrite & Hopen & Hreg & Hpath & Hag & Hgr).
  assert (loadDraftState path w' = (Ok (mkDraft (negb complete) steps (last steps)), w')) as Hload.
  { unfold loadDraftState. rewrite (M_bind_ok _ _ w' true w') by (unfold ask, gets, fs_exists; by rewrite Hreg).
    cbn [negb]. rewrite (M_bind_ok _ _ _ _ _ Hopen). unfold lift.
    by rewrite (draft_state_back k (ws_all a d) model steps complete) by (done || apply ws_all_tui). }
  exists k, w'. split_and!; [done|done| |].
  - unfold isDraftAnswerfile. by rewrite (M_bind_ok _ _ _ _ _ Hload).
  - intros Ha. pose proof (dump_members_place model _ _ _ (construct_ok _ _ _ Hd)) as Hp. injection Hp as <- _.
    apply (AnswerFile_make_open _ w'); [done|done|].
    by apply (answerfile_back k (ws_all a d) a d model steps complete).
Qed.

(** ** Resuming

    Resuming applies what the draft holds to the cluster the program starts
    with, one section after the other, each of which may fail on its own.
    Whatever happens, the networks, connections and nodes the cluster had stay
    first and as they were, and what is added fits them. *)

From S2P Require Import ClusterFillSpec ClusterLayout.

Section sound.
Context `{Asio}.

Definition head_connections (c : Cluster) : list Connection.Connection := s_connection (h_server (k_headnode c)).
Definition node_connections (n : Node) : list Connection.Connection := s_connection (n_server n).

(** A connection of a node leads to a management network. *)
Definition on_management (nets : list Network.Network) (x : Connection.Connection) : Prop :=
  exists n, nets !! Connection.m_network x = Some n /\ Network.m_profile n = Network.Profile.Management.

(** One network per profile; the connections of the head node lead to
    different networks, those of the nodes to a management network. *)
Record sound (c : Cluster) : Prop := {
  sound_profiles : NoDup (Network.m_profile <$> k_network c);
  sound_networks : NoDup (Connection.m_network <$> head_connections c);
  sound_head : Forall (fun x => (Connection.m_network x < length (k_network c))%nat) (head_connections c);
  sound_nodes : Forall (fun n => Forall (on_management (k_network c)) (node_connections n)) (k_nodes c);
}.

(** What the cluster had is there still; the networks added and the head
    node's connections added belong together, in their order. *)
Record kept (c c' : Cluster) : Prop := {
  kept_added : exists nets conns,
    k_network c' = k_network c ++ nets /\ head_connections c' = head_connections c ++ conns /\
    Connection.m_network <$> conns = seq (length (k_network c)) (length nets);
  kept_nodes : k_nodes c `prefix_of` k_nodes c';
}.

(** What resuming maintains, from a cluster [c] on *)
Definition resumed (c c' : Cluster) : Prop := kept c c' /\ (sound c -> sound c').

Lemma kept_layout c c1 c2 : layout c2 = layout c1 -> kept c c1 -> kept c c2.
Proof. intros [= Hn Ho Hc] []. by split; unfold head_connections in *; rewrite ?Hn, ?Ho, ?Hc. Qed.

Lemma sound_layout c1 c2 : layout c2 = layout c1 -> sound c1 -> sound c2.
Proof. intros [= Hn Ho Hc] []. by split; unfold head_connections in *; rewrite ?Hn, ?Ho, ?Hc. Qed.

Lemma resumed_layout c c1 c2 : layout c2 = layout c1 -> resumed c c1 -> resumed c c2.
Proof. intros Hl [Hk Hs]. split; [by eapply kept_layout|]. intros. eapply sound_layout; eauto. Qed.

Lemma resumed_refl c : resumed c c.
Proof. split; [|done]. split; [|done]. exists [], []. by rewrite !app_nil_r. Qed.

Lemma on_management_app nets more x : on_management nets x -> on_management (nets ++ more) x.
Proof. intros (n & Hn & Hp). exists n. split; [|done]. by apply lookup_app_l_Some. Qed.

(** Adding a network of a new profile and the head node's connection to it *)
Lemma resumed_network c c1 c2 n x :
  Network.m_profile n ∉ Network.m_profile <$> k_network c1 -> Connection.m_network x = length (k_network c1) ->
  layout c2 = (k_network c1 ++ [n], k_nodes c1, head_connections c1 ++ [x]) ->
  resumed c c1 -> resumed c c2.
Proof.
  intros Hp Hx [= Hn Ho Hc] [[(nets & conns & Kn & Kc & Kx) Ko] Hs]. unfold resumed. split.
  - split; unfold head_connections in *; rewrite ?Hn, ?Ho, ?Hc; [|done]. exists (nets ++ [n]), (conns ++ [x]).
    rewrite Kn, Kc, <- !app_assoc. split_and!; [done..|].
    rewrite fmap_app, Kx, length_app, Nat.add_1_r, seq_S. cbn. by rewrite Hx, Kn, length_app.
  - intros [Sp Sn Sh So]%Hs. split; unfold head_connections in *; rewrite ?Hn, ?Ho, ?Hc.
    + rewrite fmap_app. apply NoDup_app. split_and!; [done| |apply NoDup_singleton]. set_solver.
    + rewrite fmap_app. apply NoDup_app. split_and!; [done| |apply NoDup_singleton].
      intros p (y & -> & Hy)%list_elem_of_fmap ?%list_elem_of_singleton.
      rewrite Forall_forall in Sh. specialize (Sh _ Hy). lia.
    + rewrite length_app. cbn. apply Forall_app. split; [|apply Forall_singleton; lia].
      eapply Forall_impl; [exact Sh|]. cbn. lia.
    + eapply Forall_impl; [exact So|]. intros ? Hf. eapply Forall_impl; [exact Hf|].
      intros. by apply on_management_app.
Qed.

(** Adding a node *)
Lemma resumed_node c c1 c2 n :
  Forall (on_management (k_network c1)) (node_connections n) ->
  layout c2 = (k_network c1, k_nodes c1 ++ [n], head_connections c1) ->
  resumed c c1 -> resumed c c2.
Proof.
  intros Hf [= Hn Ho Hc] [[Kn Ko] Hs]. unfold resumed. split.
  - split; unfold head_connections in *; rewrite ?Hn, ?Ho, ?Hc; [done|by apply prefix_app_r].
  - intros [Sp Sn Sh So]%Hs. split; unfold head_connections in *; rewrite ?Hn, ?Ho, ?Hc; [done..|].
    apply Forall_app. by rewrite Forall_singleton.
Qed.

(** What leaves the layout alone *)
Lemma steps_modify c f : (forall s, layout (f s) = layout s) -> maintains (resumed c) (modify f).
Proof. intros Hf. apply maintains_modify. intros s. by apply resumed_layout. Qed.

Lemma steps_zoom {T U} c (get : Cluster -> T) put (m : M T U) :
  (forall t s, layout (put t s) = layout s) -> maintains (resumed c) (zoom get put m).
Proof. intros Hp s Hs. unfold zoom. destruct (m _). eapply resumed_layout; [apply Hp|exact Hs]. Qed.
End sound.

(** ** The sections *)

Section sections.
Context `{AL : AsioLaws} `{BL : BoostTextLaws} `{BP : BoostPort} `{GK : GKeyFile} `{GC : GChecksum}.
Variable (c : Cluster).

Lemma maintains_if_string {S} (I : S -> Prop) file group key f :
  (forall v, maintains I (f v)) -> maintains I (if_string file group key f).
Proof. intros Hf. unfold if_string. maintain. Qed.

Lemma maintains_left f : maintains (resumed c) (left f).
Proof. by apply steps_modify. Qed.
Lemma maintains_on_mail f : maintains (resumed c) (on_mail f).
Proof. by apply steps_modify. Qed.
Lemma maintains_on_queue f : maintains (resumed c) (on_queue f).
Proof. by apply steps_modify. Qed.

Lemma maintains_headnode_name {T} (m : M Server T) :
  (forall s, s_connection (m s).2 = s_connection s) -> maintains (resumed c) (on_headnode m).
Proof.
  intros Hm s Hs. unfold on_headnode, zoom. specialize (Hm (h_server (k_headnode s))).
  destruct (m _) as [r t]. eapply resumed_layout; [|exact Hs]. unfold layout. cbn in *. by rewrite Hm.
Qed.

(** The cluster and the machine *)
Definition resumed_site (s : Cluster * World) : Prop := resumed c s.1.

Lemma resumed_on {T} (m : M Cluster T) : maintains (resumed c) m -> maintains resumed_site (on_object m).
Proof. apply maintains_on_object. Qed.

Lemma resumed_setDiskImage h path : maintains resumed_site (setDiskImage h path).
Proof. apply (maintains_setDiskImage (resumed c)); intros ? c1; by apply resumed_layout. Qed.

Lemma resumed_pending h path url : maintains resumed_site (setPendingDiskImageDownload h path url).
Proof. apply (maintains_setPendingDiskImageDownload (resumed c)); intros ? c1; by apply resumed_layout. Qed.

#[local] Hint Resolve resumed_setDiskImage resumed_pending : maintains.

Ltac resume :=
  repeat first
    [ progress maintain | apply maintains_if_string; intros | apply maintains_left | apply maintains_on_mail
    | apply maintains_on_queue | apply resumed_on | (apply maintains_headnode_name; done)
    | (apply steps_modify; done) | (apply steps_zoom; done) ].

Lemma resumed_information file : maintains (resumed c) (applyInformation file).
Proof. unfold applyInformation, setName, setCompanyName, setAdminMail. resume. Qed.

Lemma resumed_time file : maintains (resumed c) (applyTime file).
Proof. unfold applyTime, setTimezone, setLocale. resume. Qed.

Lemma resumed_hostname file : maintains (resumed c) (applyHostname file).
Proof. unfold applyHostname, setDomainName. resume. Qed.

Lemma resumed_system h file : maintains resumed_site (applySystem h file).
Proof.
  unfold applySystem, applyDiskImage, setComputeNodeOS, setProvisioner. resume.
Qed.

Lemma resumed_repositories file : maintains (resumed c) (applyRepositories file).
Proof. unfold applyRepositories, setEnabledRepositories. resume. Qed.

Lemma resumed_ohpc file : maintains (resumed c) (applyOHPC file).
Proof. unfold applyOHPC, setEnabledOpenHPCBundles. resume. Qed.

Lemma resumed_ofed file : maintains (resumed c) (applyOFED file).
Proof. unfold applyOFED, setOFED. resume. Qed.

Lemma resumed_genericNode file : maintains (resumed c) (applyGenericNode file).
Proof. unfold applyGenericNode, if_size. resume. Qed.

Lemma resumed_queue file : maintains (resumed c) (applyQueueSystem file).
Proof. unfold applyQueueSystem, setQueueSystem. resume. Qed.

Lemma resumed_postfix file : maintains (resumed c) (applyPostfix file).
Proof. unfold applyPostfix, apply_relay, setMailSystem. resume. Qed.

(** *** Networks *)

Lemma lift_bind_keeps {T U} (P : Cluster -> Prop) (o : outcome T) (f : T -> M Cluster U) s :
  P s -> (forall a, o = Ok a -> P (f a s).2) -> P ((x ← lift o; f x) s).2.
Proof. intros Hs Hf. unfold mbind, M_bind, lift. destruct o as [a| |]; [by apply Hf|done..]. Qed.

Lemma modelHasNetwork_false profile s :
  modelHasNetwork profile s = Ok false -> profile ∉ Network.m_profile <$> k_network s.
Proof.
  unfold modelHasNetwork, getNetwork. intros Hf (n & -> & Hn)%list_elem_of_fmap.
  assert (forall i l, n ∈ l -> exists p, getNetwork_loop i l (Network.m_profile n) = Ok p) as Hloop.
  { intros i l Hl. revert i. induction l as [|m l IH]; intros i; [by apply elem_of_nil in Hl|]. cbn.
    case_decide as Hd; [by eexists|]. apply IH. by apply elem_of_cons in Hl as [->|]. }
  destruct (Hloop 0%nat _ Hn) as [p Hp]. by rewrite Hp in Hf.
Qed.

Lemma steady_setInterface ifs i : steady Connection.m_network (Connection.setInterface ifs i).
Proof.
  unfold Connection.setInterface. steadily. intros s a s'.
  induction x as [|y l IH]; cbn [Connection.setInterface_loop]; [done|].
  destruct (String.eqb i (Network.ifa_name y)); [|exact IH]. by intros [= _ <-].
Qed.
Lemma steady_setMAC mac : steady Connection.m_network (Connection.setMAC mac).
Proof. unfold Connection.setMAC. steadily. Qed.
Lemma steady_setAddress a : steady Connection.m_network (Connection.setAddress a).
Proof. unfold Connection.setAddress. steadily. Qed.
Lemma steady_setMTU nets mtu : steady Connection.m_network (Connection.setMTU nets mtu).
Proof. unfold Connection.setMTU. steadily. Qed.

Lemma on_connection_network m x y :
  steady Connection.m_network m -> on_connection m x = Ok y -> Connection.m_network y = Connection.m_network x.
Proof. intros Hm Hc%construct_ok. exact (Hm _ _ _ Hc). Qed.

Lemma Connection_network_pointer nets p x : Connection.Connection_network nets p = Ok x -> Connection.m_network x = p.
Proof.
  intros Hc%construct_ok. assert (Connection.m_network x = Connection.m_network (Connection.Connection_init p)) as -> by
    (eapply (steady_of Hc); steadily; apply steady_setMTU). done.
Qed.

Lemma steady_setSubnetMask mask : steady Network.m_profile (Network.setSubnetMask mask).
Proof. intros n [] n' [_ ->]%Network.setSubnetMask_ok. done. Qed.

Lemma steady_core {T} (m : M Network.Network T) : steady net_core m -> steady Network.m_profile m.
Proof. intros Hm s a s' Ha. specialize (Hm _ _ _ Ha). by injection Hm. Qed.

Lemma resumed_applyNetwork h file section profile type : maintains (resumed c) (applyNetwork h file section profile type).
Proof.
  intros s Hs. unfold applyNetwork.
  rewrite (M_bind_ok (gets id) _ s s s) by done. apply lift_bind_keeps; [done|]. intros there Hthere.
  destruct (negb _ || there) eqn:Hg; [done|]. apply orb_false_iff in Hg as [_ ->].
  pose proof (modelHasNetwork_false _ _ Hthere) as Hnew.
  apply lift_bind_keeps; [done|]. intros interface _. apply lift_bind_keeps; [done|]. intros ip _.
  apply lift_bind_keeps; [done|]. intros mask _.
  destruct interface as [interface|], ip as [ip|], mask as [mask|]; try done.
  destruct (parseAddress ip) as [ipA|], (parseAddress mask) as [maskA|]; try done.
  apply lift_bind_keeps; [done|]. intros x1 H1%Connection_network_pointer.
  apply lift_bind_keeps; [done|]. intros x2 H2%on_connection_network; [|apply steady_setInterface].
  apply lift_bind_keeps; [done|]. intros x3 H3%on_connection_network; [|apply steady_setAddress].
  apply lift_bind_keeps; [done|]. intros mac _.
  apply lift_bind_keeps; [done|]. intros x4 H4.
  assert (Connection.m_network x4 = length (k_network s)) as Hx.
  { destruct mac as [mac|]; [apply on_connection_network in H4; [congruence|apply steady_setMAC]|].
    injection H4 as <-. congruence. }
  apply lift_bind_keeps; [done|]. intros n Hn%construct_ok.
  assert (Network.m_profile n = profile) as Hp.
  { assert (Network.m_profile n = Network.m_profile (Network.Network_profile_type profile type)) as ->; [|done].
    eapply (steady_of Hn). steadily.
    all: first [apply steady_setSubnetMask | apply steady_core; first [apply steady_setNetAddress | apply steady_setGateway
      | apply steady_setDomainName | apply steady_setNameservers]]. }
  apply (resumed_network c s _ n x4); [by rewrite Hp|done|done|done].
Qed.

Lemma resumed_applyNetworks h file : maintains (resumed c) (applyNetworks h file).
Proof.
  unfold applyNetworks. do 3 (apply maintains_bind; [apply resumed_applyNetwork|intros _]). apply resumed_applyNetwork.
Qed.

(** *** Nodes *)

Lemma getNetwork_management s p :
  getNetwork Network.Profile.Management s = Ok p ->
  exists n, k_network s !! p = Some n /\ Network.m_profile n = Network.Profile.Management.
Proof.
  unfold getNetwork. assert (forall l i, getNetwork_loop i l Network.Profile.Management = Ok p ->
    exists n j, p = (i + j)%nat /\ l !! j = Some n /\ Network.m_profile n = Network.Profile.Management) as Hloop.
  { intros l. induction l as [|m l IH]; intros i; cbn; [done|]. case_decide as Hd.
    - intros [= <-]. exists m, 0%nat. by rewrite Nat.add_0_r.
    - intros (n & j & -> & Hn & Hp)%IH. exists n, (S j). split; [lia|done]. }
  intros (n & j & -> & Hn & Hp)%Hloop. by exists n.
Qed.

Lemma steady_draft_settings file section l ip mac : steady n_server (draft_settings file section l ip mac).
Proof. unfold draft_settings. steadily. Qed.

Lemma Node_full_connections hostname os cpu conns bmc n :
  Node_full hostname os cpu conns bmc = Ok n -> node_connections n = conns.
Proof.
  unfold Node_full, Server_full, node_connections. intros (s & Hs & [= <-])%bind_Ok. cbn.
  apply construct_ok in Hs. by injection Hs as <-.
Qed.

Lemma resumed_applySingleNode file section : maintains (resumed c) (applySingleNode file section).
Proof.
  intros s Hs. unfold applySingleNode.
  apply lift_bind_keeps; [done|]. intros hostname _. apply lift_bind_keeps; [done|]. intros ip _.
  apply lift_bind_keeps; [done|]. intros mac _.
  rewrite (M_bind_ok (gets id) _ s s s) by done.
  destruct hostname as [hostname|], ip as [ip|], mac as [mac|]; try done.
  apply lift_bind_keeps; [done|]. intros [p|] Hp; [|done].
  destruct (parseAddress ip) as [ipA|]; [|done].
  do 3 (apply lift_bind_keeps; [done|]; intros [?|] _; [|repeat (apply lift_bind_keeps; [done|]; intros [?|] _); done]).
  apply lift_bind_keeps; [done|]. intros cpu _.
  apply lift_bind_keeps; [done|]. intros x1 H1%Connection_network_pointer.
  apply lift_bind_keeps; [done|]. intros x2 H2%on_connection_network; [|apply steady_setMAC].
  apply lift_bind_keeps; [done|]. intros x3 H3%on_connection_network; [|apply steady_setAddress].
  apply lift_bind_keeps; [done|]. intros bmc _.
  apply lift_bind_keeps; [done|]. intros n1 Hn1%Node_full_connections.
  apply lift_bind_keeps; [done|]. intros n2 Hn2%construct_ok.
  apply (resumed_node c s _ n2); [|done|done].
  assert (node_connections n2 = [x3]) as ->.
  { unfold node_connections. rewrite (steady_of (g := n_server) Hn2); [exact Hn1|apply steady_draft_settings]. }
  apply Forall_singleton. unfold on_management. rewrite H3, H2, H1. apply getNetwork_management.
  destruct (getNetwork Network.Profile.Management s) as [q|e|]; [by injection Hp as ->| |done].
  cbn in Hp. by destruct (is_std_exception e).
Qed.

Lemma resumed_nodes file : maintains (resumed c) (applyNodes file).
Proof.
  unfold applyNodes. apply maintains_bind; [apply resumed_genericNode|intros _].
  apply maintains_bind; [|intros n; destruct (0 <? n); [apply maintains_left|apply maintains_skip]].
  generalize 0. induction (listAllPrefixedEntries file "node.") as [|g gs IH]; intros i; cbn [applyNodes_loop].
  - apply maintains_ret.
  - apply maintains_bind; [apply resumed_applySingleNode|intros; apply IH].
Qed.

Lemma resumed_file h file : maintains resumed_site (applyFile h file).
Proof.
  unfold applyFile.
  repeat first
    [ apply resumed_system
    | apply resumed_on; first
        [ apply resumed_information | apply resumed_time | apply resumed_hostname | apply resumed_applyNetworks
        | apply resumed_repositories | apply resumed_ohpc | apply resumed_ofed | apply resumed_nodes
        | apply resumed_queue | apply resumed_postfix ]
    | apply maintains_bind; [|intros _] ].
Qed.
End sections.

(** C16. Resuming a draft, on whatever file and however it ends, also in an
    exception half way: the networks, the head node's connections and the
    nodes of the cluster stay what they were, with additions only after them;
    as many connections of the head node are added as networks, the n-th of
    them leading to the n-th network added; and if the cluster had one network
    per profile, head node connections to different networks, and node
    connections to a management network only, so has the resumed one. *)
Theorem resuming_extends `{AsioLaws} `{BoostTextLaws} `{BoostPort} `{GKeyFile} `{GChecksum} (h : Host) (path : string)
    (w : World) (c : Cluster) :
  let c' := (applyDraftToModel h path (c, w)).2.1 in
  kept c c' /\ (sound c -> sound c').
Proof.
  assert (maintains (resumed_site c) (applyDraftToModel h path)) as Hm.
  { unfold applyDraftToModel. apply maintains_bind; [apply maintains_on_machine|]. intros there.
    destruct (negb there); [apply maintains_skip|].
    apply maintains_bind; [apply maintains_on_machine|intros file; apply resumed_file]. }
  exact (Hm (c, w) (resumed_refl c)).
Qed.
