(* ===== verification/Role.v ===== *)
(** * Roles

    [include/opencattus/services/ansible/role.h] and
    [src/services/ansible/role.cpp]: the steps of an installation by name, and
    the text a single one is asked for with. *)

From stdpp Require Import base strings list gmap.
From Stdlib Require Import ZArith Lia Ascii.
From S2P Require Import Prelude CppString Enums Os.

Module Roles.
Inductive t :=
  | CHECK | REPOS | NETWORK | SSHD | OFED | DUMP | LOCALE | FIREWALL | SELINUX | NFS | QUEUESYSTEM | SLURM | OHPC
  | PROVISIONER | XCAT | CONFLUENT | BASE | AUDIT | AIDE | FAIL2BAN | TIMESYNC | SPACK.
#[global] Instance t_eq_dec : EqDecision t. Proof. solve_decision. Defined.
#[global, program] Instance t_enum : CppEnum t := {|
  enum_values := [CHECK; REPOS; NETWORK; SSHD; OFED; DUMP; LOCALE; FIREWALL; SELINUX; NFS; QUEUESYSTEM; SLURM; OHPC;
    PROVISIONER; XCAT; CONFLUENT; BASE; AUDIT; AIDE; FAIL2BAN; TIMESYNC; SPACK];
  enum_name x :=
    match x with
    | CHECK => "CHECK" | REPOS => "REPOS" | NETWORK => "NETWORK" | SSHD => "SSHD" | OFED => "OFED" | DUMP => "DUMP"
    | LOCALE => "LOCALE" | FIREWALL => "FIREWALL" | SELINUX => "SELINUX" | NFS => "NFS"
    | QUEUESYSTEM => "QUEUESYSTEM" | SLURM => "SLURM" | OHPC => "OHPC" | PROVISIONER => "PROVISIONER"
    | XCAT => "XCAT" | CONFLUENT => "CONFLUENT" | BASE => "BASE" | AUDIT => "AUDIT" | AIDE => "AIDE"
    | FAIL2BAN => "FAIL2BAN" | TIMESYNC => "TIMESYNC" | SPACK => "SPACK"
    end |}.
Solve All Obligations with solve_enum.
End Roles.

(** A [std::function], which may be empty: calling it then throws. *)
Definition When : Type := option (OS -> bool).
Definition call (f : When) (osinfo : OS) : outcome bool :=
  match f with Some f => Ok (f osinfo) | None => Throw BadFunctionCall end.

Record Role := mkRole {
  role : Roles.t;
  roleName : string;
  tags : gset string;
  vars : gmap string string;
  m_when : option When;
}.

Definition Role_make (r : Roles.t) (tags : gset string) (vars : gmap string string) (cond : option When) : Role :=
  mkRole r (toStringLower r) tags vars cond.

(** ** Parsing *)

Definition bad_variable : exn := InvalidArgument "Each variable must be in format key=value".

Definition parse_variable (pair : string) (vars : gmap string string) : outcome (gmap string string) :=
  match find_char "=" pair with
  | None => Throw bad_variable
  | Some eqPos =>
      if (eqPos =? 0)%nat || (eqPos =? String.length pair - 1)%nat then Throw bad_variable
      else Ok (<[stake eqPos pair := sdrop (S eqPos) pair]> vars)
  end.

Fixpoint parse_variables (pairs : list string) (vars : gmap string string) : outcome (gmap string string) :=
  match pairs with
  | [] => Ok vars
  | kv :: pairs => vars ← parse_variable kv vars; parse_variables pairs vars
  end.

(** The condition handed on is an empty function, not an absent one. *)
Definition parseRoleString (input : string) : outcome Role :=
  let colonPos := find_char ":" input in
  roleEnum ← ofStringExc (match colonPos with None => input | Some i => stake i input end) Insensitive;
  vars ← match colonPos with
         | None => Ok ∅
         | Some i => parse_variables (getlines "," (sdrop (S i) input)) ∅
         end;
  Ok (Role_make roleEnum ∅ vars (Some None)).
