(* ===== verification/RoleScripts.v ===== *)
(** * What the roles run

    [src/services/ansible/roles]: the scripts and commands of each role, as
    functions of the cluster and the operating system. *)

From stdpp Require Import base strings list gmap.
From Stdlib Require Import ZArith Lia Ascii.
From S2P Require Import Prelude CppString External Enums Options Os AnswerFileData World ScriptBuilder Role.
From S2P Require Network Connection Server ClusterData Cluster Timezone AnswerFile Nfs.

Local Open Scope Z_scope.

(** [roles::sshd] *)
Module Sshd.
Definition permit_root_login : string :=
  "sed -i " +:+ quoted "/^#\?PermitRootLogin/c\PermitRootLogin without-password" +:+ " /etc/ssh/sshd_config".
Definition hostbased_authentication : string :=
  "sed -i " +:+ quoted "/^#\?HostbasedAuthentication/c\HostbasedAuthentication yes" +:+ " /etc/ssh/sshd_config".
Definition ignore_rhosts : string :=
  "sed -i " +:+ quoted "/^#\?IgnoreRhosts/c\IgnoreRhosts no" +:+ " /etc/ssh/sshd_config".
Definition ssh_config : string :=
  concat_sep newline
  ["install -d -m 0755 /etc/ssh/ssh_config.d && cat > /etc/ssh/ssh_config.d/50-opencattus.conf <<'SSH_EOF'";
   "Host *";
   "    HostbasedAuthentication yes";
   "    EnableSSHKeysign yes";
   "    HostbasedKeyTypes *ed25519*";
   "SSH_EOF"].

Definition keysign (platform : Platform.t) : M ScriptBuilder unit :=
  match platform with
  | Platform.el10 =>
      _ ← addNewLine;
      _ ← addCommand "# ssh-keysign split into its own package on EL10";
      addPackage "openssh-keysign"
  | Platform.ubuntu2404 =>
      _ ← addNewLine;
      _ ← addCommand "# ssh-keysign lives in openssh-client on Ubuntu";
      addPackage "openssh-client"
  | Platform.el8 | Platform.el9 => skip
  end.

Definition installScript (osinfo : OS) : outcome ScriptBuilder :=
  construct
    (_ ← addNewLine;
     _ ← addCommand "# Disable root password login, allow public key only";
     _ ← addCommand permit_root_login;
     platform ← lift (getPlatform osinfo);
     _ ← keysign platform;
     _ ← addNewLine;
     _ ← addCommand "# Enable host-based authentication in sshd";
     _ ← addCommand hostbased_authentication;
     _ ← addCommand ignore_rhosts;
     _ ← addNewLine;
     _ ← addCommand "# Configure SSH client for host-based authentication";
     addCommand ssh_config)
    (ScriptBuilder_make osinfo).
End Sshd.

(** [roles::base] *)
Module Base.
Definition rpm_packages : list string :=
  ["wget"; "curl"; "dnf-plugins-core"; "chkconfig"; "initscripts"; "jq"; "tar"].
Definition deb_packages : list string :=
  ["ca-certificates"; "curl"; "gnupg"; "iproute2"; "jq"; "lsb-release"; "network-manager"; "openssh-server"; "tar";
   "wget"].

Definition epel (osinfo : OS) (distro : Distro.t) : M ScriptBuilder unit :=
  match distro with
  | Distro.Ubuntu => addCommand "# Ubuntu does not use EPEL repositories"
  | Distro.RHEL | Distro.Rocky | Distro.AlmaLinux => skip
  | Distro.OL =>
      platform ← lift (getPlatform osinfo);
      match platform with
      | Platform.el8 => addPackage "oracle-epel-release-el8"
      | Platform.el9 => addPackage "oracle-epel-release-el9"
      | Platform.el10 | Platform.ubuntu2404 => addCommand "# Unsupported Oracle Linux platform"
      end
  end.

Definition allPackages `{BoostText} (role : Role) (t : PackageType.t) : gset string :=
  list_to_set (match t with PackageType.RPM => rpm_packages | PackageType.DEB => deb_packages end) ∪
  match vars role !! "base_packages" with
  | Some packages => list_to_set (split_any " " false packages)
  | None => ∅
  end.

(** Given the time zone of the cluster. *)
Definition installScript `{BoostText} (timezone : string) (role : Role) (osinfo : OS) : outcome ScriptBuilder :=
  construct
    (_ ← addNewLine;
     _ ← addCommand "# Install EPEL repositories if needed";
     distro ← lift (getDistro osinfo);
     _ ← epel osinfo distro;
     _ ← addNewLine;
     _ ← addCommand "# Install general base packages";
     t ← lift (getPackageType osinfo);
     _ ← addPackages (allPackages role t);
     addCommand ("timedatectl set-timezone " +:+ timezone))
    (ScriptBuilder_make osinfo).
End Base.

(** [roles::audit] *)
Module Audit.
Definition audispd_plugins : string :=
  "DEBIAN_FRONTEND=noninteractive apt install -y audispd-plugins 2>/dev/null || dnf install -y audispd-plugins 2>/dev/null || :".
Definition auditd_conf : string :=
  unlines
  ["";
   "#";
   "# This file controls the configuration of the audit daemon";
   "#";
   "";
   "local_events = yes";
   "write_logs = yes";
   "log_file = /var/log/audit/audit.log";
   "log_group = root";
   "log_format = ENRICHED";
   "flush = INCREMENTAL_ASYNC";
   "freq = 50";
   "max_log_file = 8";
   "num_logs = 5";
   "priority_boost = 4";
   "name_format = NONE";
   "##name = mydomain";
   "max_log_file_action = ROTATE";
   "space_left = 75";
   "space_left_action = SYSLOG";
   "verify_email = yes";
   "action_mail_acct = root";
   "admin_space_left = 50";
   "admin_space_left_action = SUSPEND";
   "disk_full_action = SUSPEND";
   "disk_error_action = SUSPEND";
   "use_libwrap = yes";
   "##tcp_listen_port = 60";
   "tcp_listen_queue = 5";
   "tcp_max_per_addr = 1";
   "##tcp_client_ports = 1024-65535";
   "tcp_client_max_idle = 0";
   "transport = TCP";
   "krb5_principal = auditd";
   "##krb5_key_file = /etc/audit/audit.key";
   "distribute_network = no";
   "q_depth = 2000";
   "overflow_action = SYSLOG";
   "max_restarts = 10";
   "plugin_dir = /etc/audit/plugins.d";
   "end_of_event_timeout = 2"].

Definition installScript (osinfo : OS) : outcome ScriptBuilder :=
  t ← getPackageType osinfo;
  let auditPackage := match t with PackageType.DEB => "auditd" | PackageType.RPM => "audit" end in
  construct
    (_ ← addNewLine;
     _ ← addCommand "# Install audit packages";
     _ ← addPackage auditPackage;
     _ ← addCommand audispd_plugins;
     _ ← addCommand "# Configure auditd";
     _ ← addFileTemplate "/etc/audit/auditd.conf" auditd_conf;
     _ ← addNewLine;
     _ ← addCommand "# Ensure auditd service is enabled and running";
     enableService "auditd")
    (ScriptBuilder_make osinfo).
End Audit.

(** [roles::aide] *)
Module Aide.
Definition skip_command : string :=
  "test -f /var/lib/aide/aide.db.gz -o -f /var/lib/aide/aide.db && exit 0".
Definition move_database : string :=
  concat_sep newline
  ["if test -f /var/lib/aide/aide.db.new.gz; then";
   "    mv /var/lib/aide/aide.db.new.gz /var/lib/aide/aide.db.gz";
   "elif test -f /var/lib/aide/aide.db.new; then";
   "    mv /var/lib/aide/aide.db.new /var/lib/aide/aide.db";
   "fi"].

Definition installScript (osinfo : OS) : outcome ScriptBuilder :=
  construct
    (_ ← addNewLine;
     _ ← addCommand "# Install AIDE package";
     _ ← addPackage "aide";
     _ ← addNewLine;
     _ ← addCommand "# Skip if aide database exists";
     _ ← addCommand skip_command;
     _ ← addCommand "# Initialize AIDE database";
     _ ← addCommand "aide --init || aideinit";
     addCommand move_database)
    (ScriptBuilder_make osinfo).
End Aide.

(** [roles::fail2ban] *)
Module Fail2ban.
Definition jail_local : string :=
  unlines
  ["";
   "[DEFAULT]";
   "bantime  = 10m";
   "findtime  = 10m";
   "maxretry = 5";
   "backend = systemd";
   "";
   "[sshd]";
   "enabled = true"].

Definition installScript (osinfo : OS) : outcome ScriptBuilder :=
  construct
    (_ ← addNewLine;
     _ ← addCommand "# Install fail2ban package";
     _ ← addPackage "fail2ban";
     _ ← addNewLine;
     _ ← addCommand "# Add fail2ban jail.local configuration";
     _ ← addFileTemplate "/etc/fail2ban/jail.local" jail_local;
     _ ← addNewLine;
     _ ← addCommand "# Enable and start fail2ban service";
     enableService "fail2ban")
    (ScriptBuilder_make osinfo).
End Fail2ban.

(** [roles::spack] *)
Module Spack.
Definition installScript (opts : Options) (osinfo : OS) : outcome ScriptBuilder :=
  if shouldSkip opts "spack" then Ok (ScriptBuilder_make osinfo)
  else
    construct
      (_ ← addNewLine;
       _ ← addCommand "# Exit early if spack is already installed";
       _ ← addCommand "test -d /opt/spack/.git && exit 0";
       _ ← addCommand "# Install dependencies for Spack";
       _ ← addPackage "git";
       _ ← addNewLine;
       _ ← addCommand "# Clone Spack repository";
       _ ← addCommand "git clone https://github.com/spack/spack.git /opt/spack";
       _ ← addCommand "chown -R root:root /opt/spack";
       addCommand "chmod -R 755 /opt/spack")
      (ScriptBuilder_make osinfo).
End Spack.

(** [roles::timesync] *)
Module Timesync.
Section timesync.
Context `{Asio}.

(** The key of the second line is given as the format, not as its result. *)
Definition allow (networks : Connection.NetworkPtr -> Network.Network) (filename : string)
    (connection : Connection.Connection) : M ScriptBuilder unit :=
  let network := networks (Connection.m_network connection) in
  if bool_decide (Network.m_profile network = Network.Profile.Management) ||
     bool_decide (Network.m_profile network = Network.Profile.Service)
  then
    _ ← removeLineWithKeyFromFile filename "local stratum";
    _ ← removeLineWithKeyFromFile filename "allow";
    _ ← addLineToFile filename "local stratum 10" "local stratum 10";
    cidr ← lift (AnswerFile.cidr_at (to_string (Network.m_subnetMask network)));
    addLineToFile filename "allow {}/{}" ("allow " +:+ to_string (Connection.c_address connection) +:+ "/" +:+ dec cidr)
  else skip.

Definition chrony_conf (t : PackageType.t) : string :=
  match t with PackageType.DEB => "/etc/chrony/chrony.conf" | PackageType.RPM => "/etc/chrony.conf" end.

Definition installScript (networks : Connection.NetworkPtr -> Network.Network)
    (connections : list Connection.Connection) (osinfo : OS) : outcome ScriptBuilder :=
  construct
    (_ ← addPackage "chrony";
     t ← lift (getPackageType osinfo);
     _ ← for_each connections (allow networks (chrony_conf t));
     enableService (match t with PackageType.DEB => "chrony" | PackageType.RPM => "chronyd" end))
    (ScriptBuilder_make osinfo).
End timesync.
End Timesync.

(** [roles::dump] *)
Module Dump.
Definition buildFirewallDumpCommand : string :=
  "if command -v firewall-cmd >/dev/null 2>&1 && systemctl is-active --quiet firewalld.service; then firewall-cmd --list-all-zones; else echo 'firewalld inactive or firewall-cmd not installed'; fi".
Definition buildRepositoryDumpCommand : string :=
  "if command -v apt-cache >/dev/null 2>&1; then grep -RHE '^[[:space:]]*(deb|deb-src) ' /etc/apt/sources.list /etc/apt/sources.list.d 2>/dev/null || true; elif test -d /etc/yum.repos.d; then grep -EH '^(mirrorlist|baseurl)' /etc/yum.repos.d/*.repo 2>/dev/null || true; else echo 'No supported repository configuration found'; fi".
Definition buildPackageDumpCommand : string :=
  "if command -v rpm >/dev/null 2>&1; then rpm -qa; elif command -v dpkg-query >/dev/null 2>&1; then dpkg-query -W -f='${binary:Package}\t${Version}\n'; else echo 'No supported package database found'; fi".
End Dump.

(** [roles::network] *)
Module Net.
Section network.
Context `{Asio}.

Definition static_connection (iface conn_name type mtu ip cidr ipv6_method : string) : string :=
  unlines
  ["";
   "nmcli device set " +:+ iface +:+ " managed yes";
   "nmcli device set " +:+ iface +:+ " autoconnect yes";
   "";
   "# Remove any pre-existing profiles bound to this interface before creating the";
   "# static profile we actually want to activate.";
   "nmcli -t -f NAME,DEVICE connection show | awk -F: '$2==" +:+ quoted iface +:+ " {print $1}' | while read -r existing_connection; do";
   "    [ -n " +:+ quoted "$existing_connection" +:+ " ] || continue";
   "    nmcli connection delete " +:+ quoted "$existing_connection";
   "done";
   "nmcli con show " +:+ quoted conn_name +:+ " > /dev/null && nmcli connection delete " +:+ quoted conn_name +:+ " || :";
   "";
   "nmcli connection add type " +:+ type +:+ " mtu " +:+ mtu +:+ " ifname " +:+ iface +:+ " con-name " +:+ quoted conn_name +:+ " \";
   "    connection.autoconnect yes \";
   "    ipv4.method manual \";
   "    ipv4.addresses " +:+ quoted (ip +:+ "/" +:+ cidr) +:+ " \";
   "    ipv4.gateway " +:+ quoted "" +:+ " \";
   "    ipv4.ignore-auto-dns yes \";
   "    ipv4.ignore-auto-routes yes \";
   "    ipv6.method " +:+ ipv6_method;
   "sleep 0.2";
   "nmcli connection up " +:+ quoted conn_name].

Definition renderStaticConnectionScript (networks : Connection.NetworkPtr -> Network.Network)
    (connection : Connection.Connection) (ipv6Method : string) : outcome string :=
  let network := networks (Connection.m_network connection) in
  iface ← value (Connection.m_interface connection);
  cidr ← Network.subnetMaskToCIDR (Network.m_subnetMask network);
  Ok (static_connection iface (Enums.toString (Network.m_profile network)) (Enums.toString (Network.m_type network))
    (dec (Connection.m_mtu connection)) (to_string (Connection.c_address connection)) (dec cidr) ipv6Method).
End network.

Definition buildNetplanNetworkManagerRendererScript : string :=
  unlines
  ["";
   "if command -v netplan >/dev/null 2>&1 && test -d /etc/netplan; then";
   "    cat > /etc/netplan/01-opencattus-networkmanager.yaml <<'EOF'";
   "network:";
   "  version: 2";
   "  renderer: NetworkManager";
   "EOF";
   "    chmod 600 /etc/netplan/01-opencattus-networkmanager.yaml";
   "    netplan generate";
   "    netplan apply";
   "fi"].
End Net.

(** [roles::ohpc] *)
Module Ohpc.
Definition bundleSerialLibraries : string := "serial-libs".
Definition bundleParallelLibraries : string := "parallel-libs".
Definition bundleIntelOneAPI : string := "intel-oneapi".

Definition defaultPackagesForEl8 : gset string := list_to_set
  ["gnu12-compilers-ohpc"; "openmpi4-gnu12-ohpc"; "mpich-ofi-gnu12-ohpc"; "mpich-ucx-gnu12-ohpc";
   "mvapich2-gnu12-ohpc"; "lmod-ohpc"; "lmod-defaults-gnu12-openmpi4-ohpc"; "ohpc-autotools"; "hwloc-ohpc";
   "spack-ohpc"; "valgrind-ohpc"].
Definition defaultPackagesForEl9 : gset string := list_to_set
  ["gnu15-compilers-ohpc"; "openmpi5-pmix-gnu15-ohpc"; "mpich-ofi-gnu15-ohpc"; "mpich-ucx-gnu15-ohpc";
   "mvapich2-gnu15-ohpc"; "lmod-ohpc"; "lmod-defaults-gnu15-openmpi5-ohpc"; "ohpc-autotools"; "hwloc-ohpc";
   "spack-ohpc"; "valgrind-ohpc"].
Definition defaultPackagesForEl10 : gset string := list_to_set
  ["gnu15-compilers-ohpc"; "openmpi5-pmix-gnu15-ohpc"; "mpich-ofi-gnu15-ohpc"; "mpich-ucx-gnu15-ohpc";
   "mvapich2-gnu15-ohpc"; "lmod-ohpc"; "lmod-defaults-gnu15-openmpi5-ohpc"; "ohpc-autotools"; "hwloc-ohpc";
   "spack-ohpc"; "valgrind-ohpc"].
Definition defaultPackagesForUbuntu24 : gset string := list_to_set
  ["gnu15-compilers-ohpc"; "openmpi5-gnu15-ohpc"; "mpich-ucx-gnu15-ohpc"; "mvapich2-gnu15-ohpc"; "lmod-ohpc";
   "lmod-defaults-gnu15-openmpi5-ohpc"; "ohpc-autotools"; "hwloc-ohpc"; "spack-ohpc"; "valgrind-ohpc"].

Definition bundlePackagesForEl8 (bundleId : string) : gset string :=
  if String.eqb bundleId bundleSerialLibraries then {["ohpc-gnu12-serial-libs"]}
  else if String.eqb bundleId bundleParallelLibraries then {["ohpc-gnu12-parallel-libs"]}
  else if String.eqb bundleId bundleIntelOneAPI then ∅
  else ∅.
Definition oneapi_packages : gset string := list_to_set
  ["intel-oneapi-toolkit-release-ohpc"; "intel-compilers-devel-ohpc"; "intel-mpi-devel-ohpc";
   "ohpc-intel-serial-libs"; "ohpc-intel-impi-parallel-libs"].
Definition bundlePackagesForEl9 (bundleId : string) : gset string :=
  if String.eqb bundleId bundleSerialLibraries then {["ohpc-gnu15-serial-libs"]}
  else if String.eqb bundleId bundleParallelLibraries then {["ohpc-gnu15-parallel-libs"]}
  else if String.eqb bundleId bundleIntelOneAPI then oneapi_packages
  else ∅.
Definition bundlePackagesForEl10 (bundleId : string) : gset string :=
  if String.eqb bundleId bundleSerialLibraries then {["ohpc-gnu15-serial-libs"]}
  else if String.eqb bundleId bundleParallelLibraries then {["ohpc-gnu15-parallel-libs"]}
  else if String.eqb bundleId bundleIntelOneAPI then oneapi_packages
  else ∅.
Definition bundlePackagesForUbuntu24 (bundleId : string) : gset string :=
  if String.eqb bundleId bundleSerialLibraries then {["ohpc-gnu15-serial-libs"]}
  else if String.eqb bundleId bundleParallelLibraries then {["ohpc-gnu15-parallel-libs"]}
  else if String.eqb bundleId bundleIntelOneAPI then oneapi_packages
  else ∅.

Definition defaultPackagesFor (os : OS) : outcome (gset string) :=
  platform ← getPlatform os;
  Ok (match platform with
      | Platform.el8 => defaultPackagesForEl8
      | Platform.el9 => defaultPackagesForEl9
      | Platform.el10 => defaultPackagesForEl10
      | Platform.ubuntu2404 => defaultPackagesForUbuntu24
      end).

Definition defaultBundlesFor (os : OS) : outcome (list string) :=
  platform ← getPlatform os;
  match platform with
  | Platform.el8 | Platform.el9 | Platform.el10 | Platform.ubuntu2404 =>
      Ok [bundleSerialLibraries; bundleParallelLibraries]
  end.

Definition bundlePackagesFor (os : OS) (bundleId : string) : outcome (gset string) :=
  platform ← getPlatform os;
  Ok (match platform with
      | Platform.el8 => bundlePackagesForEl8 bundleId
      | Platform.el9 => bundlePackagesForEl9 bundleId
      | Platform.el10 => bundlePackagesForEl10 bundleId
      | Platform.ubuntu2404 => bundlePackagesForUbuntu24 bundleId
      end).

Fixpoint insert_bundles (os : OS) (bundles : list string) (packages : gset string) : outcome (gset string) :=
  match bundles with
  | [] => Ok packages
  | bundleId :: bundles =>
      bundlePackages ← bundlePackagesFor os bundleId;
      insert_bundles os bundles (packages ∪ bundlePackages)
  end.

Definition resolvePackages (os : OS) (enabledBundles : option (list string)) (overridePackages : gset string)
  : outcome (gset string) :=
  if bool_decide (overridePackages <> ∅) then Ok overridePackages
  else
    packages ← defaultPackagesFor os;
    bundles ← match enabledBundles with Some bundles => Ok bundles | None => defaultBundlesFor os end;
    insert_bundles os bundles packages.

Definition buildPackageInstallCommand (os : OS) (packages : gset string) : outcome string :=
  let packageList := concat_sep " " (in_order packages) in
  t ← getPackageType os;
  Ok (match t with
      | PackageType.RPM => packageList
      | PackageType.DEB => "DEBIAN_FRONTEND=noninteractive apt install -y " +:+ packageList
      end).
End Ohpc.

(** [roles::queuesystem] *)
Module Queue.
Definition pbs_conf (hostname : string) : string :=
  concat_sep newline
  ["cat > /etc/pbs.conf <<'END'";
   "PBS_SERVER=" +:+ hostname;
   "PBS_START_SERVER=1";
   "PBS_START_SCHED=1";
   "PBS_START_COMM=1";
   "PBS_START_MOM=0";
   "PBS_EXEC=/opt/pbs";
   "PBS_HOME=/var/spool/pbs";
   "PBS_CORE_LIMIT=4096";
   "PBS_SCP=/usr/bin/scp";
   "END"].
Definition qsub_arguments : string :=
  "/opt/pbs/bin/qmgr -c " +:+ quoted "set server default_qsub_arguments= -V".
Definition place_command (place : ExecutionPlace.t) : string :=
  "/opt/pbs/bin/qmgr -c " +:+ quoted ("set server resources_default.place=" +:+ Enums.toString place).
Definition job_history : string :=
  "/opt/pbs/bin/qmgr -c " +:+ quoted "set server job_history_enable=True".
End Queue.

(** [roles::slurm] *)
Module Slurm.
Definition buildNodeDeclaration
    (nodeName nodeAddress cpusPerNode sockets realMemory coresPerSocket threadsPerCore : string) : string :=
  "NodeName=" +:+ nodeName +:+ " NodeAddr=" +:+ nodeAddress +:+ " NodeHostName=" +:+ nodeName +:+ " CPUs=" +:+
  cpusPerNode +:+ " Sockets=" +:+ sockets +:+ " RealMemory=" +:+ realMemory +:+ " CoresPerSocket=" +:+
  coresPerSocket +:+ " ThreadsPerCore=" +:+ threadsPerCore +:+ " State=UNKNOWN".

Definition buildControllerStartupScript : string :=
  unlines
  ["";
   "systemctl enable munge slurmctld slurmdbd mariadb";
   "systemctl start munge mariadb"].
Definition buildControllerActivationScript : string :=
  unlines
  ["";
   "# slurmctld refuses to start if clustername has changed,";
   "# remove this file mitigate it";
   "rm -rf /var/spool/slurmctld/clustername";
   "";
   "systemctl restart slurmdbd";
   "for attempt in $(seq 1 20); do";
   "    if systemctl is-active --quiet slurmdbd && bash -c 'exec 3<>/dev/tcp/127.0.0.1/6819' 2>/dev/null; then";
   "        exec 3>&-";
   "        exec 3<&-";
   "        break";
   "    fi";
   "    sleep 2";
   "done";
   "systemctl is-active --quiet slurmdbd";
   "";
   "systemctl restart slurmctld";
   "for attempt in $(seq 1 20); do";
   "    if systemctl is-active --quiet slurmctld; then";
   "        break";
   "    fi";
   "    sleep 2";
   "done";
   "systemctl is-active --quiet slurmctld";
   "";
   "echo " +:+ quoted "slurmctld is $(systemctl is-active slurmctld)";
   "echo " +:+ quoted "slurmdbd is $(systemctl is-active slurmdbd)";
   "";
   "# Wait for slurmdbd to accept accounting requests";
   "for attempt in $(seq 1 20); do";
   "    if sacct >/dev/null 2>&1; then";
   "        break";
   "    fi";
   "    sleep 2";
   "done";
   "";
   "sacct"].

Definition buildSlurmServerInstallCommand (osinfo : OS) : outcome string :=
  t ← getPackageType osinfo;
  Ok (match t with
      | PackageType.RPM => "dnf -y install ohpc-slurm-server mariadb-server mariadb"
      | PackageType.DEB =>
          "DEBIAN_FRONTEND=noninteractive apt install -y ohpc-slurm-server mariadb-server mariadb-client"
      end).

Definition buildSlurmConfigSeedScript : string :=
  unlines
  ["";
   "if test -f /etc/slurm/slurm.conf.ohpc; then";
   "    \cp /etc/slurm/slurm.conf.ohpc " +:+ quoted "$slurm_conf";
   "elif test -f /etc/slurm/slurm.conf.example; then";
   "    \cp /etc/slurm/slurm.conf.example " +:+ quoted "$slurm_conf";
   "else";
   "    cat > " +:+ quoted "$slurm_conf" +:+ " <<'EOF'";
   "ClusterName=cluster";
   "SlurmctldHost=localhost";
   "MpiDefault=none";
   "ProctrackType=proctrack/cgroup";
   "ReturnToService=1";
   "SlurmctldPidFile=/var/run/slurmctld.pid";
   "SlurmctldPort=6817";
   "SlurmdPidFile=/var/run/slurmd.pid";
   "SlurmdPort=6818";
   "SlurmdSpoolDir=/var/spool/slurmd";
   "SlurmUser=slurm";
   "StateSaveLocation=/var/spool/slurmctld";
   "SwitchType=switch/none";
   "SchedulerType=sched/backfill";
   "SelectType=select/cons_tres";
   "SelectTypeParameters=CR_Core_Memory";
   "SlurmctldLogFile=/var/log/slurmctld.log";
   "SlurmdLogFile=/var/log/slurmd.log";
   "EOF";
   "fi"].

Definition accounting_script
    (slurmServerInstallCommand controllerStartupScript hostname mariadb_root_pass slurmdb_pass : string) : string :=
  concat_sep newline
  ["";
   "# SLURM configuration";
   slurmServerInstallCommand;
   controllerStartupScript;
   "";
   "# Secure the installation, `mysql -u root` will exit with";
   "# non-zero exit code if this already run before, use `mysql -u root -p`";
   "# to login in the database";
   "#";
   "# If you need to wipeout the database and start over:";
   "# systemctl stop mariadb";
   "# systemctl disable mariadb";
   "# dnf remove -y mariadb mariadb-server mariadb-libs";
   "# rm -rf /var/lib/mysql";
   "# rm -f /var/log/mariadb/*";
   "# rm -f /etc/my.cnf";
   "# rm -rf /etc/my.cnf.d";
   "set +e";
   "MYSQL_ROOT_ARGS=(-u root)";
   "mysql " +:+ quoted "${MYSQL_ROOT_ARGS[@]}" +:+ " --password='' -e " +:+ quoted "SELECT 1;" +:+ " >/dev/null 2>&1";
   "if [ $? -ne 0 ]; then";
   "    MYSQL_ROOT_ARGS=(-u root -p" +:+ mariadb_root_pass +:+ ")";
   "    mysql " +:+ quoted "${MYSQL_ROOT_ARGS[@]}" +:+ " -e " +:+ quoted "SELECT 1;" +:+ " >/dev/null 2>&1";
   "    if [ $? -ne 0 ]; then";
   "        echo " +:+ quoted "Unable to authenticate to MariaDB as root" +:+ " >&2";
   "        exit 1";
   "    fi";
   "fi";
   "set -e";
   "";
   "mysql " +:+ quoted "${MYSQL_ROOT_ARGS[@]}" +:+ " 2> /dev/null <<EOF";
   "ALTER USER IF EXISTS 'root'@'localhost' IDENTIFIED BY '" +:+ mariadb_root_pass +:+ "';";
   "";
   "DELETE FROM mysql.user WHERE User='';";
   "DELETE FROM mysql.user WHERE User='root' AND Host NOT IN ('localhost', '127.0.0.1', '::1');";
   "";
   "DROP DATABASE IF EXISTS test;";
   "DELETE FROM mysql.db WHERE Db='test' OR Db='test_%';";
   "";
   "CREATE DATABASE IF NOT EXISTS slurm_acct_db;";
   "";
   "CREATE USER IF NOT EXISTS 'slurm'@'localhost' IDENTIFIED BY '" +:+ slurmdb_pass +:+ "';";
   "ALTER USER 'slurm'@'localhost' IDENTIFIED BY '" +:+ slurmdb_pass +:+ "';";
   "GRANT ALL PRIVILEGES ON slurm_acct_db.* TO 'slurm'@'localhost';";
   "";
   "FLUSH PRIVILEGES;";
   "EOF";
   "";
   "install -d -m 0755 -o slurm -g slurm /var/log/slurm";
   "install -m 0640 -o slurm -g slurm /dev/null /var/log/slurm/slurmdbd.log";
   "";
   "cat <<EOF > /etc/slurm/slurmdbd.conf";
   "# Authentication";
   "AuthType=auth/munge";
   "";
   "# SLURM DB daemon identity";
   "DbdHost=" +:+ hostname;
   "DbdPort=6819";
   "SlurmUser=slurm";
   "";
   "# Database storage";
   "StorageType=accounting_storage/mysql";
   "StorageHost=localhost";
   "StorageUser=slurm";
   "StoragePass=" +:+ slurmdb_pass;
   "StorageLoc=slurm_acct_db";
   "";
   "# Logging & PID";
   "LogFile=/var/log/slurm/slurmdbd.log";
   "PidFile=/run/slurmdbd/slurmdbd.pid";
   "EOF";
   "chown slurm:slurm /etc/slurm/slurmdbd.conf";
   "chmod 600 /etc/slurm/slurmdbd.conf";
   "";
   "    "].

Definition config_script (slurmConfigSeedScript hostname cluster_name : string) : string :=
  unlines
  ["";
   "# Minimal /etc/slurm/slurm.conf";
   "slurm_conf=/etc/slurm/slurm.conf";
   slurmConfigSeedScript;
   "";
   "sed -i \";
   "  -e " +:+ quoted ("s/ClusterName=.*/ClusterName=" +:+ cluster_name +:+ "/") +:+ " \";
   "  -e " +:+ quoted ("s/SlurmctldHost=.*/SlurmctldHost=" +:+ hostname +:+ "/") +:+ " \";
   "  -e " +:+ quoted "s|SlurmctldLogFile=.*|SlurmctldLogFile=/var/log/slurm/slurmctld.log|" +:+ " \";
   "  -e " +:+ quoted "s|SlurmdLogFile=.*|SlurmdLogFile=/var/log/slurm/slurmd.log|" +:+ " \";
   "  " +:+ quoted "$slurm_conf";
   "";
   "sed -i \";
   "    -e '/^NodeName=/d' \";
   "    -e '/^PartitionName=/d' \";
   "    -e '/^AccountingStorageType=/d' \";
   "    -e '/^AccountingStorageHost=/d' \";
   "    -e '/^AccountingStoragePort=/d' \";
   "    -e '/^JobAcctGatherType=/d' \";
   "    " +:+ quoted "$slurm_conf";
   ""].

(** [{:02d}] *)
Definition dec2 (n : Z) : string := if n <? 10 then "0" +:+ dec n else dec n.

Definition nodes_script (controllerActivationScript hostname node_declarations node_prefix last_node_num
    partition_name : string) : string :=
  unlines
  ["";
   "slurm_conf=/etc/slurm/slurm.conf";
   "{";
   "    echo " +:+ quoted "# START AUTO-GENERATED NODE CONFIG";
   "    cat <<EOF";
   "AccountingStorageType=accounting_storage/slurmdbd";
   "AccountingStorageHost=" +:+ hostname;
   "AccountingStoragePort=6819";
   "JobAcctGatherType=jobacct_gather/cgroup";
   node_declarations;
   "EOF";
   "    echo " +:+ quoted ("PartitionName=" +:+ partition_name +:+ " Nodes=" +:+ node_prefix +:+ "[01-" +:+ last_node_num +:+ "] Default=YES MaxTime=INFINITE State=UP");
   "    echo " +:+ quoted "# END AUTO-GENERATED NODE CONFIG";
   "} >> $slurm_conf";
   "";
   controllerActivationScript].

Section slurm.
Context `{Asio} `{GKeyFile}.

(** The declarations of the nodes, numbered from [nodeIndex + 1]. *)
Fixpoint nodeDeclarations (cpusPerNode sockets realMemory coresPerSocket threadsPerCore : string) (nodeIndex : Z)
    (l : list AFNode) : outcome (list string) :=
  match l with
  | [] => Ok []
  | node :: l =>
      let nodeIndex := u64 (nodeIndex + 1) in
      nodeName ← unwrap (nd_hostname node) ("hostname missing for node " +:+ dec nodeIndex);
      nodeAddress ← unwrap (nd_start_ip node) ("node_ip missing for node " +:+ nodeName);
      rest ← nodeDeclarations cpusPerNode sockets realMemory coresPerSocket threadsPerCore nodeIndex l;
      Ok (buildNodeDeclaration nodeName (to_string nodeAddress) cpusPerNode sockets realMemory coresPerSocket
            threadsPerCore :: rest)
  end.

Definition missing (answerfile : AnswerFile) (key : string) : string :=
  key +:+ " missing in [node] section in the answerfile " +:+ af_path answerfile.

(** The scripts of the role, in the order they are run *)
Definition scripts (answerfile : AnswerFile) (os : OS) : outcome (list string) :=
  nodesNames ← AnswerFile.nodesNames (nodes answerfile);
  _ ← (if (length nodesNames <? 1)%nat
       then Throw (RuntimeError ("At last one node need to be defined in the answerfile " +:+ af_path answerfile))
       else Ok tt);
  nodesConfig ← unwrap (ns_generic (nodes answerfile))
    ("[node] section not loaded or missing from the answerfile " +:+ af_path answerfile);
  nodesPrefix ← unwrap (nd_prefix nodesConfig) (missing answerfile "prefix");
  cpusPerNode ← unwrap (nd_cpus_per_node nodesConfig) (missing answerfile "cpus_per_node");
  realMemory ← unwrap (nd_real_memory nodesConfig) (missing answerfile "real_memory");
  coresPerSocket ← unwrap (nd_cores_per_socket nodesConfig) (missing answerfile "cores_per_socket");
  threadsPerCore ← unwrap (nd_threads_per_core nodesConfig) (missing answerfile "threads_per_core");
  sockets ← unwrap (nd_sockets nodesConfig) (missing answerfile "sockets");
  declarations ← nodeDeclarations cpusPerNode sockets realMemory coresPerSocket threadsPerCore 0
    (ns_nodes (nodes answerfile));
  slurmServerInstallCommand ← buildSlurmServerInstallCommand os;
  let hostname := hn_hostname (hostname answerfile) in
  Ok [accounting_script slurmServerInstallCommand buildControllerStartupScript hostname
        (sl_mariadb_root_password (slurm answerfile)) (sl_slurmdb_password (slurm answerfile));
      config_script buildSlurmConfigSeedScript hostname (in_cluster_name (information answerfile));
      nodes_script buildControllerActivationScript hostname (concat_sep newline declarations) nodesPrefix
        (dec2 (Z.of_nat (length nodesNames))) (sl_partition_name (slurm answerfile))].
End slurm.
End Slurm.
