(* ===== verification/Ansible.v ===== *)
(** * Running the roles

    [src/services/ansible/roles.cpp], the [run] functions of
    [src/services/ansible/roles], and the two engines that run roles:
    [src/services/shell.cpp] runs them all, [roles::Executor] those named on
    the command line.  The state is the machine and the repository manager. *)

From stdpp Require Import base strings list gmap.
From Stdlib Require Import ZArith Lia Ascii.
From S2P Require Import Prelude CppString External Enums Options Os AnswerFileData World FileOps RepoManager Role RoleScripts.
From S2P Require Runner ScriptBuilder Network Connection Server ClusterData Cluster Timezone OsService Ofed Nfs.
From S2P Require XcatCommands Xcat Confluent TuiSession.

Local Open Scope Z_scope.

Section roles.
Context `{Asio} `{BoostText} `{Machine} `{GKeyFile} `{Fmt} `{BoostIni} `{Glibc}.
Context (opts : Options) (runner : Runner.IRunner) (osservice : OsService.IOSService).
Context (cluster : ClusterData.Cluster) (answerfile : AnswerFile).
(** The embedded settings, where the program is, the time a backup is named
    by, and the working directory. *)
Context (entries : list (string * string)) (place : RepoConfig.Place) (timestamp current_path : string).

Definition headnode : Server.Server := Server.h_server (ClusterData.k_headnode cluster).
(** [singleton::os()] *)
Definition os : OS := Server.s_os headnode.
Definition network_of (c : Connection.Connection) : Network.Network := Cluster.networks cluster (Connection.m_network c).
Definition connection (profile : Network.Profile.t) : outcome Connection.Connection :=
  Server.getConnection (Cluster.networks cluster) headnode profile.

(** ** [roles::dump] *)

Definition dump_commands : list string :=
  ["cat /etc/os-release"; Dump.buildRepositoryDumpCommand; Dump.buildPackageDumpCommand; "ip a"; "ip link"; "uname -a";
   "free -m"; "systemctl --no-pager list-units --plain --type=service --all"; Dump.buildFirewallDumpCommand].

Definition dump_run : M World unit :=
  _ ← for_each dump_commands (Runner.shell_cmd opts);
  if maybeStopAfterStep opts "dump-cluster-state" then throw (ProcessExit 0) else skip.

(** ** [roles::check] *)

Definition isNewerKernelAvailable (availableKernel runningKernel : string) : bool :=
  if empty availableKernel || String.eqb availableKernel runningKernel then false
  else 0 <? strverscmp availableKernel runningKernel.

Definition repoquery : string :=
  "dnf -q repoquery kernel --available --qf '%{VERSION}-%{RELEASE}.%{ARCH}' 2>/dev/null | sort -V | tail -1".

Definition new_kernel (answerfilePath : string) : string :=
  "New kernel available, run `dnf install -y kernel` and reboot before continuing. Your configuration has been " +:+
  "saved; after reboot resume with:" +:+ ScriptBuilder.newline +:+ ScriptBuilder.newline +:+
  "    opencattus --answerfile '" +:+ answerfilePath +:+ "'" +:+ ScriptBuilder.newline +:+ ScriptBuilder.newline +:+
  "Use `--skip check-kernel` to skip (not recommended)".

(** The text is the format of [abortif], and formatted once more. *)
Definition abort_text (text : string) : exn :=
  match vformat text [] with inr text => RuntimeError text | inl what => RuntimeError what end.

Definition check_run : M World unit :=
  t ← lift (getPackageType os);
  match t with
  | PackageType.DEB => Runner.shell_cmd opts "DEBIAN_FRONTEND=noninteractive apt update"
  | PackageType.RPM =>
      _ ← Runner.shell_cmd opts "dnf makecache";
      kernelAvailable ← Runner.shell_output opts repoquery;
      if shouldSkip opts "check-kernel" then skip
      else
        let answerfilePath :=
          if empty (Options.answerfile opts) then TuiSession.defaultAnswerfilePath current_path opts
          else path_append current_path (Options.answerfile opts) in
        running ← OsService.getKernelRunning osservice;
        if isNewerKernelAvailable kernelAvailable running then throw (abort_text (new_kernel answerfilePath)) else skip
  end.

(** ** [roles::network] *)

Definition dns_override : string := "/etc/NetworkManager/conf.d/90-dns-none.conf".
Definition dns_none : string := unlines ["[main]"; "dns=none"].

Definition disableNetworkManagerDNSOverride : M World unit :=
  _ ← removeFile opts dns_override;
  _ ← addStringToFile opts dns_override dns_none;
  _ ← OsService.restartService osservice "NetworkManager";
  skip.

Definition headnodeUsesUbuntu : outcome bool := d ← getDistro os; Ok (bool_decide (d = Distro.Ubuntu)).

Definition ensureNetplanUsesNetworkManager : M World unit :=
  ubuntu ← lift headnodeUsesUbuntu;
  if negb ubuntu then skip else Runner.shell_cmd opts Net.buildNetplanNetworkManagerRendererScript.

Definition static_network (c : Connection.Connection) (ipv6Method : string) : M World unit :=
  script ← lift (Net.renderStaticConnectionScript (Cluster.networks cluster) c ipv6Method);
  Runner.shell_cmd opts script.

Definition configureManagementNetwork (c : Connection.Connection) : M World unit :=
  static_network c
    (if decide (ClusterData.k_provisioner cluster = ClusterData.Provisioner.xCAT) then "disabled" else "link-local").
Definition configureApplicationNetwork (c : Connection.Connection) : M World unit := static_network c "link-local".
Definition configureServiceNetwork (c : Connection.Connection) : M World unit := static_network c "link-local".

Definition configure_connection (c : Connection.Connection) : M World unit :=
  match Connection.m_interface c with
  | None => skip
  | Some _ =>
      match Network.m_profile (network_of c) with
      | Network.Profile.External => skip
      | Network.Profile.Management => configureManagementNetwork c
      | Network.Profile.Application => configureApplicationNetwork c
      | Network.Profile.Service => configureServiceNetwork c
      end
  end.

Definition configureNetworks (connections : list Connection.Connection) : M World unit :=
  _ ← OsService.enableService osservice "NetworkManager";
  _ ← ensureNetplanUsesNetworkManager;
  _ ← disableNetworkManagerDNSOverride;
  for_each connections configure_connection.

Definition configureFQDN : M World unit :=
  Runner.shell_cmd opts ("hostnamectl set-hostname " +:+ Server.s_fqdn headnode).

Definition hosts_file : string := "/etc/hosts".
Definition tab : string := String "009" "".

Definition configureHostsFile : M World unit :=
  c ← lift (connection Network.Profile.Management);
  _ ← backupFile opts timestamp hosts_file;
  ubuntu ← lift headnodeUsesUbuntu;
  _ ← (if ubuntu : bool then Runner.shell_cmd opts ("sed -i '/^127\.0\.1\.1[[:space:]]/d' " +:+ hosts_file) else skip);
  addStringToFile opts hosts_file
    (to_string (Connection.c_address c) +:+ tab +:+ Server.s_fqdn headnode +:+ " " +:+ Server.s_hostname headnode +:+
     ScriptBuilder.newline).

Definition network_run : M World unit :=
  if shouldSkip opts "network" then skip
  else
    _ ← configureNetworks (Server.s_connection headnode);
    _ ← configureFQDN;
    configureHostsFile.

(** ** The smaller roles *)

(** A command whose exit code is not looked at *)
Definition command (cmd : string) : M World unit := _ ← Runner.executeCommand runner cmd; skip.

Definition locale_run : M World unit := command ("localectl set-locale LANG=" +:+ ClusterData.k_locale cluster).

Definition trust_interface (profile : Network.Profile.t) : M World unit :=
  c ← lift (connection profile);
  interface ← lift (value (Connection.m_interface c));
  command ("firewall-cmd --permanent --zone=trusted --change-interface=" +:+ interface).

Definition firewall_run : M World unit :=
  t ← lift (getPackageType os);
  match t with
  | PackageType.DEB =>
      if ClusterData.k_firewall cluster then skip else Runner.shell_cmd opts "systemctl disable --now ufw || :"
  | PackageType.RPM =>
      if ClusterData.k_firewall cluster then
        _ ← OsService.enableService osservice "firewalld";
        _ ← trust_interface Network.Profile.Management;
        _ ← when (bool_decide (is_Some (ClusterData.k_ofed cluster))) (trust_interface Network.Profile.Application);
        command "firewall-cmd --reload"
      else _ ← OsService.disableService osservice "firewalld"; skip
  end.

Definition selinux_file : string := "/etc/sysconfig/selinux".

Definition disableSELinux : M World unit :=
  _ ← command "setenforce 0";
  _ ← backupFile opts timestamp selinux_file;
  changeValueInConfigurationFile opts selinux_file "SELINUX" "disabled".

Definition selinux_run : M World unit :=
  t ← lift (getPackageType os);
  match t with
  | PackageType.DEB => skip
  | PackageType.RPM =>
      match ClusterData.k_selinux cluster with
      | ClusterData.SELinuxMode.Permissive => command "setenforce 0"
      | ClusterData.SELinuxMode.Enforcing => command "setenforce 1"
      | ClusterData.SELinuxMode.Disabled => disableSELinux
      end
  end.

Definition ohpc_run : M World unit :=
  packages ← lift (Ohpc.resolvePackages os (ClusterData.k_enabledOpenHPCBundles cluster) (ohpcPackages opts));
  installCommand ← lift (Ohpc.buildPackageInstallCommand os packages);
  t ← lift (getPackageType os);
  match t with
  | PackageType.DEB => Runner.shell_cmd opts installCommand
  | PackageType.RPM => _ ← OsService.install osservice installCommand; skip
  end.

Definition slurm_run : M World unit :=
  scripts ← lift (Slurm.scripts answerfile os);
  for_each scripts (Runner.shell_cmd opts).

Definition nfs_script (osinfo : OS) : outcome ScriptBuilder.ScriptBuilder :=
  c ← connection Network.Profile.Management;
  _ ← Nfs.NFS_make "pub" "/opt/ohpc" (Connection.c_address c) "ro,no_subtree_check";
  Nfs.installScript (sy_provisioner (system answerfile)) osinfo.

Definition pbs_run (queue : Server.QueueSystem) : M World unit :=
  _ ← OsService.install osservice "openpbs-server-ohpc";
  _ ← Runner.shell_cmd opts (Queue.pbs_conf (Server.s_hostname headnode));
  _ ← OsService.enableService osservice "pbs";
  _ ← command Queue.qsub_arguments;
  _ ← command (Queue.place_command (Server.q_executionPlace queue));
  command Queue.job_history.

(** ** Roles that use the repositories *)

Definition repos_run : M Session unit := initializeDefaultRepositories opts runner entries place cluster.

Definition ofed_run : M Session unit :=
  if shouldSkip opts "infiniband" then skip
  else
    match ClusterData.k_ofed cluster with
    | Some ofed => Ofed.install opts runner os osservice (sy_kernel (system answerfile)) ofed
    | None => skip
    end.

(** A provisioner of its own, which ends with the role *)
Definition install_xcat (image : XcatCommands.Image) : M Session unit := fun s =>
  let '(r, p) := Xcat.install opts runner osservice cluster answerfile (Xcat.mkProvisioning s image) in
  (r, Xcat.p_session p).
Definition xcat_run : M Session unit := image ← lift (Xcat.XCAT_make cluster); install_xcat image.

Definition confluent_run : M Session unit := io (Confluent.install opts osservice cluster answerfile).

(** ** Dispatch *)

(** [ScriptBuilderRunner] *)
Definition run_script (script : outcome ScriptBuilder.ScriptBuilder) : outcome (M Session unit) :=
  script ← script; Ok (io (_ ← Runner.run runner script; skip)).

Section dispatch.
(** [roles::run], which two roles call again *)
Context (again : Roles.t -> M Session unit).

Definition queuesystem_run : M Session unit :=
  match ClusterData.k_queueSystem cluster with
  | None => skip
  | Some queue =>
      match Server.q_kind queue with
      | Server.QueueKind.None => lift UB
      | Server.QueueKind.SLURM => again Roles.SLURM
      | Server.QueueKind.PBS => io (pbs_run queue)
      end
  end.

Definition provisioner_run : M Session unit :=
  let provisioner := sy_provisioner (system answerfile) in
  if String.eqb provisioner "confluent" then again Roles.CONFLUENT
  else if String.eqb provisioner "xcat" then again Roles.XCAT
  else throw (RuntimeError ("Expecing xcat or confluent at [system].provisioner, found: " +:+ provisioner +:+ ", at " +:+
    af_path answerfile)).

Definition getRunnable (r : Role) (osinfo : OS) : outcome (M Session unit) :=
  match role r with
  | Roles.CHECK => Ok (io check_run)
  | Roles.REPOS => Ok repos_run
  | Roles.NETWORK => Ok (io network_run)
  | Roles.SSHD => run_script (Sshd.installScript osinfo)
  | Roles.OFED => Ok ofed_run
  | Roles.DUMP => Ok (io dump_run)
  | Roles.LOCALE => Ok (io locale_run)
  | Roles.FIREWALL => Ok (io firewall_run)
  | Roles.SELINUX => Ok (io selinux_run)
  | Roles.NFS => run_script (nfs_script osinfo)
  | Roles.QUEUESYSTEM => Ok queuesystem_run
  | Roles.SLURM => Ok (io slurm_run)
  | Roles.OHPC => Ok (io ohpc_run)
  | Roles.PROVISIONER => Ok provisioner_run
  | Roles.XCAT => Ok xcat_run
  | Roles.CONFLUENT => Ok confluent_run
  | Roles.BASE => run_script (Base.installScript (Timezone.m_timezone (ClusterData.k_timezone cluster)) r osinfo)
  | Roles.AUDIT => run_script (Audit.installScript osinfo)
  | Roles.AIDE => run_script (Aide.installScript osinfo)
  | Roles.FAIL2BAN => run_script (Fail2ban.installScript osinfo)
  | Roles.TIMESYNC =>
      run_script (Timesync.installScript (Cluster.networks cluster) (Server.s_connection headnode) osinfo)
  | Roles.SPACK => run_script (Spack.installScript opts osinfo)
  end.

(** [roles::run(const Role&, const OS&)] *)
Definition run_once (r : Role) (osinfo : OS) : M Session unit :=
  wanted ← lift (match m_when r with None => Ok true | Some f => call f osinfo end);
  if wanted : bool then
    runnable ← lift (getRunnable r osinfo);
    runnable
  else skip.
End dispatch.

(** [roles::run(Roles, const OS&)], the calls of the two dispatching roles
    included, to a depth *)
Fixpoint run_named (depth : nat) (r : Roles.t) : M Session unit :=
  match depth with
  | O => lift UB
  | S depth => run_once (run_named depth) (Role_make r ∅ ∅ None) os
  end.

(** A dispatching role calls one that does not dispatch. *)
Definition depth : nat := 2.
Definition run (r : Role) (osinfo : OS) : M Session unit := run_once (run_named 1) r osinfo.

(** ** The engines *)

(** [Shell::install] *)
Definition order : list Roles.t :=
  [Roles.DUMP; Roles.CHECK; Roles.REPOS; Roles.BASE; Roles.NETWORK; Roles.SSHD; Roles.SELINUX; Roles.LOCALE;
   Roles.TIMESYNC; Roles.FIREWALL; Roles.OFED; Roles.FAIL2BAN; Roles.AUDIT; Roles.AIDE; Roles.SPACK; Roles.NFS;
   Roles.OHPC; Roles.QUEUESYSTEM; Roles.PROVISIONER].
Definition Shell_install : M Session unit := for_each order (run_named depth).

(** [Shell::Shell] *)
Definition Shell_make : M World unit :=
  _ ← createDirectory opts (installPath +:+ "/backup");
  createDirectory opts (installPath +:+ "/conf/node/etc/auto.master.d").

(** [Executor::install] *)
Definition Executor_install : M Session unit :=
  for_each (roles opts) (fun name => r ← lift (ofStringExc name Insensitive); run_named depth r).

(** The engine [main] chooses, made and run *)
Definition executionEngine : M Session unit :=
  match roles opts with
  | [] => _ ← io Shell_make; Shell_install
  | _ => Executor_install
  end.
End roles.
