(* ===== verification/AnsibleDrySpec.v ===== *)
(** * A dry run of the installation

    With [--dry], no role, and so no installation, changes anything on the
    machine but for a few kinds of empty files. *)

From stdpp Require Import base strings list gmap.
From Stdlib Require Import ZArith Lia Ascii.
From S2P Require Import Prelude CppString External Enums Options Os AnswerFileData World FileOps RepoManager.
From S2P Require Import XcatFrame Role RoleScripts Ansible.
From S2P Require Runner ScriptBuilder Network Connection Server ClusterData Cluster OsService Ofed Nfs XcatCommands.
From S2P Require Xcat Confluent.

(** The files of the machine that [addStringToFile] opens *)
Definition opened_file (p : string) : Prop := description_file p \/ p = hosts_file \/ p = dns_override.

Section dry.
Context `{Asio} `{BoostText} `{Machine} `{GChecksum} `{GKeyFile} `{Fmt} `{BoostIni} `{Glibc}.
Context (opts : Options) (osservice : OsService.IOSService) (headOS : OS).
Context (cluster : ClusterData.Cluster) (answerfile : AnswerFile).
Context (entries : list (string * string)) (place : RepoConfig.Place) (timestamp current_path : string) (w0 : World).
Context (Hdry : dryRun opts = true).
Context (Huname : forall w, (react w (Spawn "uname -r")).2 = (w_files w, w_dirs w)).
Context (Hservice : OsService.factory (Runner.DryRunner opts) headOS = Ok osservice).

Notation I := (untouched_but opened_file w0).
Notation quiet m := (maintains I m).

Lemma shell_quiet cmd : quiet (Runner.shell_cmd opts cmd).
Proof. unfold Runner.shell_cmd, Runner.unsafe_cmd. rewrite Hdry. cbn. maintain. Qed.

Lemma output_quiet cmd : quiet (Runner.shell_output opts cmd).
Proof. unfold Runner.shell_output, Runner.unsafe_cmd. rewrite Hdry. cbn. maintain. Qed.

Lemma command_quiet cmd : quiet (command (Runner.DryRunner opts) cmd).
Proof. unfold command. cbn. maintain. Qed.

Lemma service_quiet s :
  quiet (OsService.restartService osservice s) /\ quiet (OsService.enableService osservice s) /\
  quiet (OsService.disableService osservice s) /\ quiet (OsService.install osservice s).
Proof. by eapply service_untouched. Qed.

Lemma kernel_quiet : quiet (OsService.getKernelRunning osservice).
Proof. by eapply (service_untouched opts opened_file w0 Huname). Qed.

Lemma files_quiet path :
  quiet (removeFile opts path) /\ quiet (createDirectory opts path) /\ quiet (backupFile opts timestamp path).
Proof. unfold removeFile, createDirectory, backupFile. rewrite Hdry. split_and!; maintain. Qed.

Lemma ini_quiet path key v : quiet (changeValueInConfigurationFile opts path key v).
Proof. unfold changeValueInConfigurationFile. rewrite Hdry. maintain. Qed.

Lemma add_quiet path text : opened_file path -> quiet (addStringToFile opts path text).
Proof. by apply add_untouched. Qed.

(** Each role, with what it is made of at hand *)
Ltac quiet_role :=
  pose proof shell_quiet; pose proof output_quiet; pose proof command_quiet; pose proof kernel_quiet;
  pose proof ini_quiet;
  pose proof (fun s => proj1 (service_quiet s)); pose proof (fun s => proj1 (proj2 (service_quiet s)));
  pose proof (fun s => proj1 (proj2 (proj2 (service_quiet s)))); pose proof (fun s => proj2 (proj2 (proj2 (service_quiet s))));
  pose proof (fun p => proj1 (files_quiet p)); pose proof (fun p => proj1 (proj2 (files_quiet p)));
  pose proof (fun p => proj2 (proj2 (files_quiet p)));
  maintain.

Lemma dump_quiet : quiet (dump_run opts).
Proof. unfold dump_run. quiet_role. Qed.

Lemma check_quiet : quiet (check_run opts osservice cluster current_path).
Proof. unfold check_run. quiet_role. Qed.

Lemma connection_quiet c : quiet (configure_connection opts cluster c).
Proof.
  unfold configure_connection, configureManagementNetwork, configureApplicationNetwork, configureServiceNetwork,
    static_network. quiet_role.
Qed.

Lemma network_quiet : quiet (network_run opts osservice cluster timestamp).
Proof.
  pose proof connection_quiet. pose proof (fun t => add_quiet dns_override t (or_intror (or_intror eq_refl))).
  pose proof (fun t => add_quiet hosts_file t (or_intror (or_introl eq_refl))).
  unfold network_run, configureNetworks, ensureNetplanUsesNetworkManager, disableNetworkManagerDNSOverride,
    configureFQDN, configureHostsFile. quiet_role.
Qed.

Lemma small_quiet :
  quiet (locale_run (Runner.DryRunner opts) cluster) /\
  quiet (firewall_run opts (Runner.DryRunner opts) osservice cluster) /\
  quiet (selinux_run opts (Runner.DryRunner opts) cluster timestamp) /\
  quiet (ohpc_run opts osservice cluster) /\ quiet (slurm_run opts cluster answerfile) /\
  forall queue, quiet (pbs_run opts (Runner.DryRunner opts) osservice cluster queue).
Proof.
  unfold locale_run, firewall_run, trust_interface, selinux_run, disableSELinux, ohpc_run, slurm_run, pbs_run, when.
  split_and!; intros; quiet_role.
Qed.

Lemma confluent_quiet : quiet (Confluent.install opts osservice cluster answerfile).
Proof.
  unfold Confluent.install, Confluent.addNodes, Confluent.addNode, Confluent.registerPbsNodes. quiet_role.
Qed.

Lemma xcat_quiet : maintains (of_session I) (xcat_run opts (Runner.DryRunner opts) osservice cluster answerfile).
Proof.
  unfold xcat_run. apply maintains_bind; [maintain|]. intros image s Hs. unfold install_xcat.
  pose proof (xcat_untouched opts opened_file w0 Hdry Huname (fun p Hp => or_introl Hp) headOS osservice cluster answerfile
    Hservice (Xcat.mkProvisioning s image) Hs) as Hp.
  by destruct (Xcat.install _ _ _ _ _ _).
Qed.

Lemma script_quiet script runnable : run_script (Runner.DryRunner opts) script = Ok runnable ->
  maintains (of_session I) runnable.
Proof.
  unfold run_script. rewrite bind_Ok. intros (b & _ & [= <-]). apply maintains_io. cbn. maintain.
Qed.

Notation all_quiet again := (forall r, maintains (of_session I) (again r)).

Lemma runnable_quiet again r osinfo runnable : all_quiet again ->
  getRunnable opts (Runner.DryRunner opts) osservice cluster answerfile entries place timestamp current_path again
    r osinfo = Ok runnable ->
  maintains (of_session I) runnable.
Proof.
  intros Ha. destruct small_quiet as (Hl & Hf & Hs & Ho & Hsl & Hp).
  unfold getRunnable. destruct (role r); try (by apply script_quiet); intros [= <-]; try (by apply maintains_io).
  - apply maintains_io, check_quiet.
  - unfold repos_run, initializeDefaultRepositories. rewrite Hdry. maintain.
  - apply maintains_io, network_quiet.
  - unfold ofed_run, Ofed.install. rewrite Hdry. maintain.
  - apply maintains_io, dump_quiet.
  - unfold queuesystem_run. pose proof (fun q => maintains_io _ _ (Hp q)). maintain.
  - unfold provisioner_run. maintain.
  - apply xcat_quiet.
  - apply maintains_io, confluent_quiet.
Qed.

Lemma once_quiet again r osinfo : all_quiet again ->
  maintains (of_session I)
    (run_once opts (Runner.DryRunner opts) osservice cluster answerfile entries place timestamp current_path again
       r osinfo).
Proof.
  intros Ha. unfold run_once. apply maintains_bind; [maintain|]. intros wanted. destruct wanted; [|maintain].
  intros s Hs. unfold mbind, M_bind, lift.
  destruct (getRunnable _ _ _ _ _ _ _ _ _ _ _ _) as [runnable| |] eqn:Hr; [|done..].
  by eapply runnable_quiet.
Qed.

Lemma named_quiet depth r :
  maintains (of_session I)
    (run_named opts (Runner.DryRunner opts) osservice cluster answerfile entries place timestamp current_path depth r).
Proof. revert r. induction depth as [|depth IH]; intros r; cbn [run_named]; [maintain|]. by apply once_quiet. Qed.

Lemma engine_quiet :
  maintains (of_session I)
    (executionEngine opts (Runner.DryRunner opts) osservice cluster answerfile entries place timestamp current_path).
Proof.
  pose proof (named_quiet depth). unfold executionEngine, Shell_install, Executor_install.
  assert (maintains (of_session I) (io (Shell_make opts))) as Hmake.
  { apply maintains_io. unfold Shell_make. quiet_role. }
  destruct (roles opts); [maintain|]. apply maintains_for_each. intros name. maintain.
Qed.
End dry.

(** C12. A dry run leaves the machine alone, whichever roles it is asked for and
    however it ends: no process is started except [uname -r], no directory is
    made or removed, no file is changed or removed.  It may leave behind an
    empty file where [addStringToFile] would have added to a missing one: the
    hosts file, the configuration of NetworkManager, and the descriptions and
    queue markers of images. *)
Theorem dry_installation_untouched `{Asio} `{BoostText} `{Machine} `{GChecksum} `{GKeyFile} `{Fmt} `{BoostIni} `{Glibc}
    (opts : Options) (osservice : OsService.IOSService) (headOS : OS) (cluster : ClusterData.Cluster)
    (answerfile : AnswerFile) (entries : list (string * string)) (place : RepoConfig.Place)
    (timestamp current_path : string) (s s' : Session) (r : outcome unit) :
  dryRun opts = true ->
  (forall w, (react w (Spawn "uname -r")).2 = (w_files w, w_dirs w)) ->
  OsService.factory (Runner.DryRunner opts) headOS = Ok osservice ->
  executionEngine opts (Runner.DryRunner opts) osservice cluster answerfile entries place timestamp current_path s
    = (r, s') ->
  untouched_but opened_file (s_world s) (s_world s').
Proof.
  intros Hdry Huname Hs Hr. change (of_session (untouched_but opened_file (s_world s)) s').
  replace s' with (r, s').2 by done. rewrite <- Hr.
  eapply engine_quiet; [done|done|exact Hs|apply untouched_refl].
Qed.
