(* ===== verification/AnsibleSpec.v ===== *)
(** * What the roles amount to

    The text a role is asked for with, how deep roles call each other, and what
    some of the roles leave on the machine. *)

From stdpp Require Import base strings list gmap.
From Stdlib Require Import ZArith Lia Ascii.
From S2P Require Import Prelude CppString External Enums Options Os AnswerFileData World WorldFacts FileOps RepoManager.
From S2P Require Import Cluster ClusterFill TuiSession Role RoleScripts Ansible.
From S2P Require Runner ScriptBuilder Network Connection Server ClusterData Cluster OsService Confluent.

Local Open Scope Z_scope.

(** ** The text of a role *)

Definition variable_text (kv : string * string) : string := kv.1 +:+ String "=" kv.2.
Definition variable_ok (kv : string * string) : bool :=
  negb (empty kv.1) && negb (empty kv.2) && no_char "=" kv.1 && no_char "," kv.1 && no_char "," kv.2.
Definition role_text (name : string) (pieces : list string) : string := name +:+ String ":" (concat_sep "," pieces).

Lemma getlines_commas l : Forall (fun s => no_char "," s = true /\ empty s = false) l ->
  getlines "," (concat_sep "," l) = l.
Proof.
  induction 1 as [|n l (Hc & Hn) _ IH]; [done|]. destruct l as [|m l]; [by apply getlines_last|].
  change (concat_sep "," (n :: m :: l)) with (n +:+ String "," (concat_sep "," (m :: l))).
  rewrite getlines_line by exact Hc. by rewrite IH.
Qed.

Lemma variable_pieces vars : forallb variable_ok vars = true ->
  Forall (fun s => no_char "," s = true /\ empty s = false) (variable_text <$> vars).
Proof.
  intros Hv. apply Forall_fmap, Forall_forall. intros [k v] Hin. unfold compose.
  pose proof (proj1 (forallb_forall _ _) Hv (k, v)) as Hok. rewrite <- list_elem_of_In in Hok. specialize (Hok Hin).
  unfold variable_ok in Hok. cbn [fst snd] in Hok. rewrite !andb_true_iff in Hok.
  destruct Hok as ((((Hk & _) & _) & Hck) & Hcv). unfold variable_text. cbn [fst snd].
  rewrite no_char_app, no_char_cons, Hck, Hcv. by destruct k.
Qed.

Lemma parse_variable_text kv m : variable_ok kv = true -> parse_variable (variable_text kv) m = Ok (<[kv.1 := kv.2]> m).
Proof.
  destruct kv as [k v]. unfold variable_ok, parse_variable, variable_text. cbn [fst snd]. rewrite !andb_true_iff.
  intros ((((Hk & Hv) & He) & _) & _). rewrite find_char_at by done.
  rewrite stake_app, sdrop_at, length_sapp. cbn [String.length].
  destruct k as [|a k]; [done|]. destruct v as [|b v]; [done|]. cbn [String.length].
  rewrite (proj2 (Nat.eqb_neq (S (String.length k)) 0)) by lia. cbn [orb].
  by rewrite (proj2 (Nat.eqb_neq _ _)) by lia.
Qed.

Lemma parse_variable_bad text m :
  (forall k v, text = variable_text (k, v) -> no_char "=" k = true -> empty k = true \/ empty v = true) ->
  parse_variable text m = Throw bad_variable.
Proof.
  intros Hbad. unfold parse_variable. destruct (cut_at "=" text) as [Hn|(k & v & -> & Hk)].
  { by rewrite (proj1 (no_char_find _ _) Hn). }
  rewrite find_char_at, length_sapp by done. cbn [String.length].
  destruct (Hbad k v eq_refl Hk) as [He|He]; [by destruct k|].
  destruct v; [|done]. cbn [String.length]. replace (String.length k + 1 - 1)%nat with (String.length k) by lia.
  by rewrite Nat.eqb_refl, orb_true_r.
Qed.

Definition assigned (vars : list (string * string)) (m : gmap string string) : gmap string string :=
  foldl (fun m kv => <[kv.1 := kv.2]> m) m vars.

Lemma parse_variables_app vars post m : forallb variable_ok vars = true ->
  parse_variables ((variable_text <$> vars) ++ post) m = parse_variables post (assigned vars m).
Proof.
  revert m. induction vars as [|kv vars IH]; intros m; [done|]. cbn [forallb fmap list_fmap app parse_variables].
  intros [Hkv Hvars]%andb_true_iff. rewrite parse_variable_text by done. by apply IH.
Qed.

Lemma no_char_lower c s : to_lower_char c = c -> no_char c (lower s) = true -> no_char c s = true.
Proof.
  intros Hc. induction s as [|d s IH]; [done|]. cbn. rewrite !andb_true_iff, !negb_true_iff. intros [Hd Hs].
  split; [|by apply IH]. destruct (Ascii.eqb_spec c d) as [<-|]; [|done]. rewrite Hc, Ascii.eqb_refl in Hd. done.
Qed.

Lemma role_name_no_colon name (r : Roles.t) : lower name = toStringLower r -> no_char ":" name = true.
Proof. intros Hn. apply no_char_lower; [done|]. rewrite Hn. by destruct r. Qed.

Lemma parse_role_text name (r : Roles.t) pieces : lower name = toStringLower r ->
  Forall (fun s => no_char "," s = true /\ empty s = false) pieces ->
  parseRoleString (role_text name pieces) =
    (vars ← parse_variables pieces ∅; Ok (Role_make r ∅ vars (Some None))).
Proof.
  intros Hn Hp. unfold parseRoleString, role_text. rewrite find_char_at by by eapply role_name_no_colon.
  rewrite stake_app, sdrop_at, getlines_commas by done.
  unfold ofStringExc. by rewrite (proj2 (ofStringOpt_insensitive name r) Hn).
Qed.

(** C22. The text of a role, in any case, followed by variables with a key and a
    value each, is read as that role with those variables, the last of a key
    winning; a piece that is not of that form, wherever it stands, is refused. *)
Theorem role_text_roundtrip (r : Roles.t) (name : string) (vars : list (string * string)) :
  lower name = toStringLower r -> forallb variable_ok vars = true ->
  parseRoleString (role_text name (variable_text <$> vars)) = Ok (Role_make r ∅ (assigned vars ∅) (Some None)) /\
  forall bad post,
    no_char "," bad = true -> empty bad = false -> Forall (fun s => no_char "," s = true /\ empty s = false) post ->
    (forall k v, bad = variable_text (k, v) -> no_char "=" k = true -> empty k = true \/ empty v = true) ->
    parseRoleString (role_text name ((variable_text <$> vars) ++ bad :: post)) = Throw bad_variable.
Proof.
  intros Hn Hv. pose proof (variable_pieces _ Hv) as Hp. split.
  - rewrite (parse_role_text _ r) by done. rewrite <- (app_nil_r (variable_text <$> vars)).
    by rewrite parse_variables_app.
  - intros bad post Hc He Hpost Hbad.
    rewrite (parse_role_text _ r); [|done|apply Forall_app; split; [done|by constructor]].
    rewrite parse_variables_app by done. cbn [parse_variables]. by rewrite parse_variable_bad.
Qed.

(** ** Dispatch *)

(** Two levels of dispatch are enough for every role: more fuel changes nothing. *)
Lemma run_named_depth `{Asio} `{BoostText} `{Machine} `{GKeyFile} `{Fmt} `{BoostIni} `{Glibc}
    (opts : Options) (runner : Runner.IRunner) (osservice : OsService.IOSService) (cluster : ClusterData.Cluster)
    (answerfile : AnswerFile) (entries : list (string * string)) (place : RepoConfig.Place)
    (timestamp current_path : string) (n : nat) (r : Roles.t) (s : Session) :
  let named := run_named opts runner osservice cluster answerfile entries place timestamp current_path in
  named (S (S n)) r s = named depth r s.
Proof. by destruct r. Qed.

(** A role read from a text, which is how the test command asks for one,
    never runs: its condition is an empty function that is called all the same,
    so running it throws before anything has been done. *)
Theorem parsed_role_never_runs `{Asio} `{BoostText} `{Machine} `{GKeyFile} `{Fmt} `{BoostIni} `{Glibc}
    (opts : Options) (runner : Runner.IRunner) (osservice : OsService.IOSService) (cluster : ClusterData.Cluster)
    (answerfile : AnswerFile) (entries : list (string * string)) (place : RepoConfig.Place)
    (timestamp current_path input : string) (r : Role) (osinfo : OS) (s : Session) :
  parseRoleString input = Ok r ->
  run opts runner osservice cluster answerfile entries place timestamp current_path r osinfo s
    = (Throw BadFunctionCall, s).
Proof.
  unfold parseRoleString. rewrite bind_Ok. intros (x & _ & Hv). rewrite bind_Ok in Hv.
  by destruct Hv as (vars & _ & [= <-]).
Qed.

(** ** Packages *)

Definition toolchain (platform : Platform.t) : string :=
  match platform with Platform.el8 => "gnu12" | _ => "gnu15" end.

Definition for_toolchain (platform : Platform.t) (p : string) : Prop :=
  contains "gnu" p = true -> contains (toolchain platform) p = true.

Lemma list_for_toolchain platform (l : list string) (p : string) :
  forallb (fun p => implb (contains "gnu" p) (contains (toolchain platform) p)) l = true ->
  p ∈ (list_to_set l : gset string) -> for_toolchain platform p.
Proof.
  rewrite forallb_forall, elem_of_list_to_set, list_elem_of_In. intros Hl Hp Hg. specialize (Hl p Hp).
  by rewrite Hg in Hl.
Qed.

Lemma defaults_one_toolchain osinfo platform : getPlatform osinfo = Ok platform ->
  exists defaults, Ohpc.defaultPackagesFor osinfo = Ok defaults /\ forall p, p ∈ defaults -> for_toolchain platform p.
Proof.
  intros Hp. unfold Ohpc.defaultPackagesFor. rewrite Hp. eexists. split; [done|]. intros p.
  destruct platform; by apply list_for_toolchain.
Qed.

Lemma bundle_one_toolchain osinfo platform b ps p : getPlatform osinfo = Ok platform ->
  Ohpc.bundlePackagesFor osinfo b = Ok ps -> p ∈ ps -> for_toolchain platform p.
Proof.
  unfold Ohpc.bundlePackagesFor. intros ->. intros [= <-].
  assert (forall q, p ∈ ({[q]} : gset string) ->
    implb (contains "gnu" q) (contains (toolchain platform) q) = true -> for_toolchain platform p) as Hone.
  { intros q ->%elem_of_singleton Hq Hg. by rewrite Hg in Hq. }
  unfold Ohpc.bundlePackagesForEl8, Ohpc.bundlePackagesForEl9, Ohpc.bundlePackagesForEl10, Ohpc.bundlePackagesForUbuntu24.
  destruct platform; repeat case_match; intros Hin; try (by apply elem_of_empty in Hin); try (by eapply Hone);
    by eapply list_for_toolchain; [|exact Hin].
Qed.

Lemma insert_bundles_spec osinfo platform : getPlatform osinfo = Ok platform -> forall bundles packages,
  exists packages', Ohpc.insert_bundles osinfo bundles packages = Ok packages' /\
    forall p, p ∈ packages' <->
      p ∈ packages \/ exists b ps, b ∈ bundles /\ Ohpc.bundlePackagesFor osinfo b = Ok ps /\ p ∈ ps.
Proof.
  intros Hp. induction bundles as [|b bundles IH]; intros packages; cbn [Ohpc.insert_bundles].
  { exists packages. split; [done|]. intros p. split; [by left|]. intros [?|(b & ps & Hb & _)]; [done|].
    by apply elem_of_nil in Hb. }
  destruct (Ohpc.bundlePackagesFor osinfo b) as [ps| |] eqn:Hb;
    [|unfold Ohpc.bundlePackagesFor in Hb; by rewrite Hp in Hb..].
  cbn [mbind outcome_bind]. destruct (IH (packages ∪ ps)) as (packages' & Hi & Hin). exists packages'.
  split; [done|]. intros p. rewrite Hin, elem_of_union. split.
  - intros [[?|?]|(b' & ps' & Hb' & Hps' & ?)]; [by left|right; exists b, ps; split_and!; [by constructor|done..]|].
    right. exists b', ps'. split_and!; [by constructor|done..].
  - intros [?|(b' & ps' & Hb' & Hps' & ?)]; [by left; left|]. apply elem_of_cons in Hb' as [->|Hb'].
    + left. right. congruence.
    + right. by exists b', ps'.
Qed.

(** The OpenHPC packages are those of [--ohpc-packages] when there are any;
    otherwise they are the defaults of the platform and those of the bundles
    asked for, serial and parallel libraries when nothing is said, and all of
    them are for the one compiler of the platform: none of another is ever
    pulled in, whatever the bundles are called. *)
Theorem resolved_packages_spec (osinfo : OS) (platform : Platform.t) (bundles : option (list string))
    (overridePackages : gset string) :
  getPlatform osinfo = Ok platform ->
  (overridePackages <> ∅ -> Ohpc.resolvePackages osinfo bundles overridePackages = Ok overridePackages) /\
  (overridePackages = ∅ -> exists defaults packages,
     Ohpc.defaultPackagesFor osinfo = Ok defaults /\ Ohpc.resolvePackages osinfo bundles overridePackages = Ok packages /\
     (forall p, p ∈ packages <->
        p ∈ defaults \/ exists b ps, b ∈ default [Ohpc.bundleSerialLibraries; Ohpc.bundleParallelLibraries] bundles /\
          Ohpc.bundlePackagesFor osinfo b = Ok ps /\ p ∈ ps) /\
     (forall p, p ∈ packages -> contains "gnu" p = true -> contains (toolchain platform) p = true)).
Proof.
  intros Hp. unfold Ohpc.resolvePackages. split; intros Ho.
  { by rewrite bool_decide_true. }
  rewrite bool_decide_false by (by intros Hn).
  destruct (defaults_one_toolchain osinfo platform Hp) as (defaults & Hd & Htool). rewrite Hd. cbn [mbind outcome_bind].
  replace (match bundles with Some bundles => Ok bundles | None => Ohpc.defaultBundlesFor osinfo end) with
    (Ok (default [Ohpc.bundleSerialLibraries; Ohpc.bundleParallelLibraries] bundles))
    by (destruct bundles; [done|]; unfold Ohpc.defaultBundlesFor; rewrite Hp; by destruct platform).
  cbn [mbind outcome_bind].
  destruct (insert_bundles_spec osinfo platform Hp (default [Ohpc.bundleSerialLibraries; Ohpc.bundleParallelLibraries] bundles)
    defaults) as (packages & Hi & Hin).
  exists defaults, packages. split_and!; [done|done|exact Hin|].
  intros p [Hpd|(b & ps & _ & Hb & Hps)]%Hin Hg; [by apply Htool|]. by eapply bundle_one_toolchain.
Qed.

(** ** SLURM *)

(** What the scripts look at of a node *)
Definition known_to_slurm `{Asio} (n : AFNode) : option string * option address := (nd_hostname n, nd_start_ip n).

Section slurm.
Context `{Asio} `{GKeyFile}.

Lemma declarations_known c s m cs t l l' : known_to_slurm <$> l = known_to_slurm <$> l' -> forall i,
  Slurm.nodeDeclarations c s m cs t i l = Slurm.nodeDeclarations c s m cs t i l'.
Proof.
  revert l'. induction l as [|n l IH]; intros [|n' l']; try done. cbn [fmap list_fmap]. intros [= Hh Hi Hl] i.
  cbn [Slurm.nodeDeclarations]. rewrite Hh, Hi. by rewrite (IH _ Hl).
Qed.

Lemma nodesNames_known g l l' : known_to_slurm <$> l = known_to_slurm <$> l' ->
  AnswerFile.nodesNames (mkAFNodes g l) = AnswerFile.nodesNames (mkAFNodes g l').
Proof.
  unfold AnswerFile.nodesNames. cbn [ns_nodes]. generalize 0. revert l'.
  induction l as [|n l IH]; intros [|n' l'] i; try done. cbn [fmap list_fmap]. intros [= Hh _ Hl].
  rewrite Hh. by rewrite (IH _ _ Hl).
Qed.
End slurm.

(** The configuration of SLURM knows a node by its name and address only:
    the sockets, cores, threads, CPUs and memory an answer file gives a node
    change nothing, and neither does anything else it says of one. *)
Theorem slurm_ignores_node_settings `{Asio} `{GKeyFile} (answerfile : AnswerFile) (generic : option AFNode)
    (l l' : list AFNode) (osinfo : OS) :
  known_to_slurm <$> l = known_to_slurm <$> l' ->
  Slurm.scripts (put_nodes (mkAFNodes generic l) answerfile) osinfo =
  Slurm.scripts (put_nodes (mkAFNodes generic l') answerfile) osinfo.
Proof.
  intros Hl. unfold Slurm.scripts, Slurm.missing. cbn [nodes put_nodes ns_generic ns_nodes af_path].
  rewrite (nodesNames_known generic l l' Hl). repeat (apply outcome_bind_ext; intros ?).
  by rewrite (declarations_known _ _ _ _ _ _ _ Hl).
Qed.

(** ** Security settings *)

Definition secured `{Asio} (x : bool * ClusterData.SELinuxMode.t) (c : ClusterData.Cluster) : Prop :=
  (ClusterData.k_firewall c, ClusterData.k_selinux c) = x.

Section security.
Context `{Asio} `{BoostText} `{BoostPort} `{GKeyFile} `{GChecksum}.
Variable x : bool * ClusterData.SELinuxMode.t.

(** [secure] follows the statements of a method on the cluster. *)
Ltac secure :=
  repeat first [ progress maintain | apply maintains_zoom with (fun _ => True); [done|done|done] | apply maintains_modify; done ].

(** The cluster and the machine *)
Definition site_secured (s : ClusterData.Cluster * World) : Prop := secured x s.1.

Lemma image_secured h path : maintains site_secured (Cluster.setDiskImage h path).
Proof. by apply (Cluster.maintains_setDiskImage (secured x)). Qed.

Lemma pending_secured h path url : maintains site_secured (Cluster.setPendingDiskImageDownload h path url).
Proof. by apply (Cluster.maintains_setPendingDiskImageDownload (secured x)). Qed.

Lemma object_secured {T} (m : M ClusterData.Cluster T) : maintains (secured x) m -> maintains site_secured (on_object m).
Proof. apply maintains_on_object. Qed.

Lemma machine_secured {T} (m : M World T) : maintains site_secured (on_machine m).
Proof. apply maintains_on_machine. Qed.

#[local] Hint Resolve image_secured pending_secured machine_secured : maintains.

Lemma fill_rest_secured h m e a : maintains (secured x) (fillData_rest h m e a).
Proof.
  unfold fillData_rest, fill_names, fill_ofed, fill_queue, fill_managementConnection, fill_externalConnection,
    fill_service, fill_application, fill_optionalConnection, fill_serviceNetwork, fill_nodes, fill_mail, fill_leftovers,
    connection_to, set_network_address, on_network, on_headnode, addNetwork, emplace_network, on_mail, left.
  secure.
Qed.

Lemma fill_secured h a : maintains site_secured (fillData h a).
Proof. unfold fillData. maintain. apply object_secured, fill_rest_secured. Qed.

Lemma single_secured file section : maintains (secured x) (applySingleNode file section).
Proof. unfold applySingleNode, addNode. secure. Qed.

Lemma loop_secured file groups loaded : maintains (secured x) (applyNodes_loop file groups loaded).
Proof.
  pose proof (single_secured file). revert loaded. induction groups as [|g groups IH]; intros loaded;
    cbn [applyNodes_loop]; secure.
Qed.

Lemma system_secured h file : maintains site_secured (applySystem h file).
Proof. unfold applySystem, applyDiskImage, if_string. repeat first [progress maintain | apply object_secured; by apply maintains_modify]. Qed.

Lemma sections_secured h file :
  maintains (secured x) (applyInformation file) /\ maintains (secured x) (applyTime file) /\
  maintains (secured x) (applyHostname file) /\ maintains (secured x) (applyNetworks h file) /\
  maintains (secured x) (applyRepositories file) /\ maintains (secured x) (applyOHPC file) /\
  maintains (secured x) (applyOFED file) /\ maintains (secured x) (applyNodes file) /\
  maintains (secured x) (applyQueueSystem file) /\ maintains (secured x) (applyPostfix file).
Proof.
  pose proof loop_secured. split_and!;
  unfold applyInformation, applyTime, applyHostname, applyNetworks, applyNetwork,
    applyRepositories, applyOHPC, applyOFED, applyNodes, applyGenericNode, applyQueueSystem,
    applyPostfix, apply_relay, if_string, if_size, on_queue,
    setDomainName, setQueueSystem, setMailSystem, addNetwork, emplace_network, on_headnode, on_mail, left; secure.
Qed.

Lemma draft_secured h path : maintains site_secured (applyDraftToModel h path).
Proof.
  unfold applyDraftToModel. apply maintains_bind; [auto with maintains|]. intros there. destruct (negb there); [apply maintains_skip|].
  apply maintains_bind; [auto with maintains|]. intros file.
  destruct (sections_secured h file) as (? & ? & ? & ? & ? & ? & ? & ? & ? & ?). unfold applyFile.
  repeat first [apply system_secured | apply object_secured; assumption | apply maintains_bind; [|intros _]].
Qed.
End security.

(** What the two roles do on a cluster that has both switched off. *)
Lemma secured_roles `{Asio} `{Machine} `{BoostIni} (opts : Options) (runner : Runner.IRunner)
    (osservice : OsService.IOSService) (timestamp : string) (w : World) (c : ClusterData.Cluster) :
  secured (false, ClusterData.SELinuxMode.Disabled) c -> getPackageType (os c) = Ok PackageType.RPM ->
  firewall_run opts runner osservice c w = (_ ← OsService.disableService osservice "firewalld"; skip) w /\
  selinux_run opts runner c timestamp w = disableSELinux opts runner timestamp w.
Proof. intros [= Hf Hs] Hos. unfold firewall_run, selinux_run. rewrite Hos, Hf, Hs. done. Qed.
