(* ===== verification/Daemons.v ===== *)
(** * Services of the head node

    Units of systemd over its bus ([src/services/IService.cpp],
    [include/opencattus/services/IService.h]), setting up the mail system
    ([src/mailsystem/postfix.cpp]) and the classic SLURM server
    ([src/models/slurm.cpp]).  The bus is sdbus-c++'s, so it is a class; the
    permission bits of files are left out. *)

From stdpp Require Import base strings list gmap.
From Stdlib Require Import ZArith Lia Ascii.
From S2P Require Import Prelude CppString External Enums KeyFile Options World WorldFacts FileOps AnswerFileData RepoData Postfix.
From S2P Require Server ClusterData Runner OsService ScriptBuilder.

Local Open Scope Z_scope.

(** ** Units *)

(** [sdbus::Error], which is a [std::runtime_error] *)
Record sdbus_Error := mkError { getName : string; getMessage : string }.
Definition sdbus_exn (e : sdbus_Error) : exn := RuntimeError ("[" +:+ getName e +:+ "] " +:+ getMessage e).

(** [EnableRType] *)
Definition EnableRType : Type := list (string * string * string).

(** A method of [org.freedesktop.systemd1.Manager] that takes a unit and a
    mode, or a list of units and two flags; and what the program reads of the
    answer. *)
Class MessageBus := {
  MessageReply : Type;
  call_unit : string -> string -> string -> M World (sdbus_Error + string);
  call_units : string -> list string -> bool -> bool -> M World (sdbus_Error + MessageReply);
  get_changes : MessageReply -> sdbus_Error + EnableRType;
  get_pair : MessageReply -> sdbus_Error + (bool * EnableRType);
}.

Module IService.
Section service.
Context `{MessageBus} (opts : Options) (m_name : string).

Definition daemon_exception (fn : string) : exn :=
  RuntimeError ("Daemon " +:+ m_name +:+ " not found (NoSuchUnit while calling " +:+ fn +:+ ")").

(** Whether the error was dealt with, which it never is without throwing. *)
Definition handleException (e : sdbus_Error) (fn : string) : outcome bool :=
  if String.eqb (getName e) "org.freedesktop.systemd1.NoSuchUnit" then Throw (daemon_exception fn) else Ok false.

Definition answered {A} (function : string) (r : sdbus_Error + A) : outcome (option A) :=
  match r with
  | inr a => Ok (Some a)
  | inl e => handled ← handleException e function; if negb handled then Throw (sdbus_exn e) else Ok None
  end.

Definition callObjectFunction (function mode : string) : M World (option string) :=
  r ← call_unit function m_name mode; lift (answered function r).

Definition callObjectFunctionArray (function : string) (a b : bool) : M World (option MessageReply) :=
  r ← call_units function [m_name] a b; lift (answered function r).

Definition parsed {A} (r : sdbus_Error + A) : outcome A := match r with inr a => Ok a | inl e => Throw (sdbus_exn e) end.

Definition enable : M World unit :=
  if dryRun opts then skip
  else
    ret ← callObjectFunctionArray "EnableUnitFiles" false true;
    match ret with None => skip | Some ret => _ ← lift (parsed (get_pair ret)); skip end.

Definition disable : M World unit :=
  if dryRun opts then skip
  else
    ret ← callObjectFunctionArray "DisableUnitFiles" false true;
    match ret with None => skip | Some ret => _ ← lift (parsed (get_changes ret)); skip end.

Definition start : M World unit :=
  if dryRun opts then skip else _ ← callObjectFunction "StartUnit" "replace"; skip.
Definition restart : M World unit :=
  if dryRun opts then skip else _ ← callObjectFunction "RestartUnit" "replace"; skip.
Definition stop : M World unit :=
  if dryRun opts then skip else _ ← callObjectFunction "StopUnit" "replace"; skip.
End service.
End IService.

(** ** The mail system *)

Module PostfixSetup.

(** [tmpl/postfix/main.cf.tmpl] *)
Definition main_cf : string :=
  unlines
  ["#= OpenCATTUS generated file";
   "#soft_bounce = no";
   "queue_directory = /var/spool/postfix";
   "command_directory = /usr/sbin";
   "daemon_directory = /usr/libexec/postfix";
   "data_directory = /var/lib/postfix";
   "mail_owner = postfix";
   "#default_privs = nobody";
   "";
   "# INTERNET HOST AND DOMAIN NAMES";
   "#";
   "# The myhostname parameter specifies the internet hostname of this";
   "# mail system. The default is to use the fully-qualified domain name";
   "# from gethostname(). $myhostname is used as a default value for many";
   "# other configuration parameters.";
   "#";
   "myhostname = {postfix_myhostname}";
   "";
   "# The mydomain parameter specifies the local internet domain name.";
   "# The default is to use $myhostname minus the first component.";
   "# $mydomain is used as a default value for many other configuration";
   "# parameters.";
   "#";
   "mydomain = {postfix_mydomain}";
   "";
   "#myorigin = $myhostname";
   "myorigin = $mydomain";
   "";
   "#inet_interfaces = all";
   "#inet_interfaces = $myhostname";
   "#inet_interfaces = $myhostname, localhost";
   "inet_interfaces = all";
   "";
   "inet_protocols = all";
   "#proxy_interfaces =";
   "#proxy_interfaces = 1.2.3.4";
   "mydestination = $myhostname, localhost.$mydomain, localhost, $mydomain,";
   "                {postfix_mydestination}";
   "#mydestination = $myhostname, localhost.$mydomain, localhost, $mydomain";
   "#mydestination = $myhostname, localhost.$mydomain, localhost, $mydomain,";
   "#	mail.$mydomain, www.$mydomain, ftp.$mydomain";
   "";
   "# REJECTING MAIL FOR UNKNOWN LOCAL USERS";
   "#";
   "# The local_recipient_maps parameter specifies optional lookup tables";
   "# with all names or addresses of users that are local with respect";
   "# to $mydestination, $inet_interfaces or $proxy_interfaces.";
   "#";
   "# If this parameter is defined, then the SMTP server will reject";
   "# mail for unknown local users. This parameter is defined by default.";
   "#";
   "# To turn off local recipient checking in the SMTP server, specify";
   "# local_recipient_maps = (i.e. empty).";
   "#";
   "# The default setting assumes that you use the default Postfix local";
   "# delivery agent for local delivery. You need to update the";
   "# local_recipient_maps setting if:";
   "#";
   "# - You define $mydestination domain recipients in files other than";
   "#   /etc/passwd, /etc/aliases, or the $virtual_alias_maps files.";
   "#   For example, you define $mydestination domain recipients in";
   "#   the $virtual_mailbox_maps files.";
   "#";
   "# - You redefine the local delivery agent in master.cf.";
   "#";
   "# - You redefine the " +:+ ScriptBuilder.dquote +:+ "local_transport" +:+ ScriptBuilder.dquote +:+ " setting in main.cf.";
   "#";
   "# - You use the " +:+ ScriptBuilder.dquote +:+ "luser_relay" +:+ ScriptBuilder.dquote +:+ ", " +:+ ScriptBuilder.dquote +:+ "mailbox_transport" +:+ ScriptBuilder.dquote +:+ ", or " +:+ ScriptBuilder.dquote +:+ "fallback_transport" +:+ ScriptBuilder.dquote;
   "#   feature of the Postfix local delivery agent (see local(8)).";
   "#";
   "# Details are described in the LOCAL_RECIPIENT_README file.";
   "#";
   "# Beware: if the Postfix SMTP server runs chrooted, you probably have";
   "# to access the passwd file via the proxymap service, in order to";
   "# overcome chroot restrictions. The alternative, having a copy of";
   "# the system passwd file in the chroot jail is just not practical.";
   "#";
   "# The right-hand side of the lookup tables is conveniently ignored.";
   "# In the left-hand side, specify a bare username, an @domain.tld";
   "# wild-card, or specify a user@domain.tld address.";
   "#";
   "#local_recipient_maps = unix:passwd.byname $alias_maps";
   "#local_recipient_maps = proxy:unix:passwd.byname $alias_maps";
   "local_recipient_maps =";
   "";
   "# The unknown_local_recipient_reject_code specifies the SMTP server";
   "# response code when a recipient domain matches $mydestination or";
   "# ${proxy,inet}_interfaces, while $local_recipient_maps is non-empty";
   "# and the recipient address or address local-part is not found.";
   "#";
   "# The default setting is 550 (reject mail) but it is safer to start";
   "# with 450 (try again later) until you are certain that your";
   "# local_recipient_maps settings are OK.";
   "#";
   "unknown_local_recipient_reject_code = 550";
   "";
   "# TRUST AND RELAY CONTROL";
   "";
   "# The mynetworks parameter specifies the list of " +:+ ScriptBuilder.dquote +:+ "trusted" +:+ ScriptBuilder.dquote +:+ " SMTP";
   "# clients that have more privileges than " +:+ ScriptBuilder.dquote +:+ "strangers" +:+ ScriptBuilder.dquote +:+ ".";
   "#";
   "# In particular, " +:+ ScriptBuilder.dquote +:+ "trusted" +:+ ScriptBuilder.dquote +:+ " SMTP clients are allowed to relay mail";
   "# through Postfix.  See the smtpd_recipient_restrictions parameter";
   "# in postconf(5).";
   "#";
   "# You can specify the list of " +:+ ScriptBuilder.dquote +:+ "trusted" +:+ ScriptBuilder.dquote +:+ " network addresses by hand";
   "# or you can let Postfix do it for you (which is the default).";
   "#";
   "# By default (mynetworks_style = subnet), Postfix " +:+ ScriptBuilder.dquote +:+ "trusts" +:+ ScriptBuilder.dquote +:+ " SMTP";
   "# clients in the same IP subnetworks as the local machine.";
   "# On Linux, this does works correctly only with interfaces specified";
   "# with the " +:+ ScriptBuilder.dquote +:+ "ifconfig" +:+ ScriptBuilder.dquote +:+ " command.";
   "#";
   "# Specify " +:+ ScriptBuilder.dquote +:+ "mynetworks_style = class" +:+ ScriptBuilder.dquote +:+ " when Postfix should " +:+ ScriptBuilder.dquote +:+ "trust" +:+ ScriptBuilder.dquote +:+ " SMTP";
   "# clients in the same IP class A/B/C networks as the local machine.";
   "# Don't do this with a dialup site - it would cause Postfix to " +:+ ScriptBuilder.dquote +:+ "trust" +:+ ScriptBuilder.dquote;
   "# your entire provider's network.  Instead, specify an explicit";
   "# mynetworks list by hand, as described below.";
   "#";
   "# Specify " +:+ ScriptBuilder.dquote +:+ "mynetworks_style = host" +:+ ScriptBuilder.dquote +:+ " when Postfix should " +:+ ScriptBuilder.dquote +:+ "trust" +:+ ScriptBuilder.dquote;
   "# only the local machine.";
   "#";
   "#mynetworks_style = class";
   "#mynetworks_style = subnet";
   "mynetworks_style = host";
   "";
   "# Alternatively, you can specify the mynetworks list by hand, in";
   "# which case Postfix ignores the mynetworks_style setting.";
   "#";
   "# Specify an explicit list of network/netmask patterns, where the";
   "# mask specifies the number of bits in the network part of a host";
   "# address.";
   "#";
   "# You can also specify the absolute pathname of a pattern file instead";
   "# of listing the patterns here. Specify type:table for table-based lookups";
   "# (the value on the table right-hand side is not used).";
   "#";
   "#mynetworks = {{ postfix_mynetworks | join(', ') }}";
   "#mynetworks = $config_directory/mynetworks";
   "#mynetworks = hash:/etc/postfix/network_table";
   "";
   "# The relay_domains parameter restricts what destinations this system will";
   "# relay mail to.  See the smtpd_recipient_restrictions description in";
   "# postconf(5) for detailed information.";
   "#";
   "# By default, Postfix relays mail";
   "# - from " +:+ ScriptBuilder.dquote +:+ "trusted" +:+ ScriptBuilder.dquote +:+ " clients (IP address matches $mynetworks) to any destination,";
   "# - from " +:+ ScriptBuilder.dquote +:+ "untrusted" +:+ ScriptBuilder.dquote +:+ " clients to destinations that match $relay_domains or";
   "#   subdomains thereof, except addresses with sender-specified routing.";
   "# The default relay_domains value is $mydestination.";
   "#";
   "# In addition to the above, the Postfix SMTP server by default accepts mail";
   "# that Postfix is final destination for:";
   "# - destinations that match $inet_interfaces or $proxy_interfaces,";
   "# - destinations that match $mydestination";
   "# - destinations that match $virtual_alias_domains,";
   "# - destinations that match $virtual_mailbox_domains.";
   "# These destinations do not need to be listed in $relay_domains.";
   "#";
   "# Specify a list of hosts or domains, /file/name patterns or type:name";
   "# lookup tables, separated by commas and/or whitespace.  Continue";
   "# long lines by starting the next line with whitespace. A file name";
   "# is replaced by its contents; a type:name table is matched when a";
   "# (parent) domain appears as lookup key.";
   "#";
   "# NOTE: Postfix will not automatically forward mail for domains that";
   "# list this system as their primary or backup MX host. See the";
   "# permit_mx_backup restriction description in postconf(5).";
   "#";
   "#relay_domains = $mydestination";
   "relay_domains = hash:/etc/postfix/transport";
   "# transport_maps = hash:/etc/postfix/transport";
   "# virtual_alias_domains = ";
   "# virtual_alias_maps = hash:/etc/postfix/virtual";
   "";
   "# INTERNET OR INTRANET";
   "";
   "# The relayhost parameter specifies the default host to send mail to";
   "# when no entry is matched in the optional transport(5) table. When";
   "# no relayhost is given, mail is routed directly to the destination.";
   "#";
   "# On an intranet, specify the organizational domain name. If your";
   "# internal DNS uses no MX records, specify the name of the intranet";
   "# gateway host instead.";
   "#";
   "# In the case of SMTP, specify a domain, host, host:port, [host]:port,";
   "# [address] or [address]:port; the form [host] turns off MX lookups.";
   "#";
   "# If you're connected via UUCP, see also the default_transport parameter.";
   "#";
   "relayhost = $mydomain";
   "";
   "smtp_sasl_auth_enable = yes";
   "smtp_sasl_password_maps = hash:/etc/postfix/sasl_password";
   "smtp_sasl_security_options = noanonymous";
   "smtp_sasl_tls_security_options = noanonymous";
   "{% endif %}";
   "";
   "# REJECTING UNKNOWN RELAY USERS";
   "#";
   "# The relay_recipient_maps parameter specifies optional lookup tables";
   "# with all addresses in the domains that match $relay_domains.";
   "#";
   "# If this parameter is defined, then the SMTP server will reject";
   "# mail for unknown relay users. This feature is off by default.";
   "#";
   "# The right-hand side of the lookup tables is conveniently ignored.";
   "# In the left-hand side, specify an @domain.tld wild-card, or specify";
   "# a user@domain.tld address.";
   "#";
   "#relay_recipient_maps = hash:/etc/postfix/relay_recipients";
   "";
   "# INPUT RATE CONTROL";
   "#";
   "# The in_flow_delay configuration parameter implements mail input";
   "# flow control. This feature is turned on by default, although it";
   "# still needs further development (it's disabled on SCO UNIX due";
   "# to an SCO bug).";
   "#";
   "# A Postfix process will pause for $in_flow_delay seconds before";
   "# accepting a new message, when the message arrival rate exceeds the";
   "# message delivery rate. With the default 100 SMTP server process";
   "# limit, this limits the mail inflow to 100 messages a second more";
   "# than the number of messages delivered per second.";
   "#";
   "# Specify 0 to disable the feature. Valid delays are 0..10.";
   "#";
   "#in_flow_delay = 1s";
   "";
   "# ADDRESS REWRITING";
   "#";
   "# The ADDRESS_REWRITING_README document gives information about";
   "# address masquerading or other forms of address rewriting including";
   "# username->Firstname.Lastname mapping.";
   "";
   "# ADDRESS REDIRECTION (VIRTUAL DOMAIN)";
   "#";
   "# The VIRTUAL_README document gives information about the many forms";
   "# of domain hosting that Postfix supports.";
   "";
   "# " +:+ ScriptBuilder.dquote +:+ "USER HAS MOVED" +:+ ScriptBuilder.dquote +:+ " BOUNCE MESSAGES";
   "#";
   "# See the discussion in the ADDRESS_REWRITING_README document.";
   "";
   "# TRANSPORT MAP";
   "#";
   "# See the discussion in the ADDRESS_REWRITING_README document.";
   "";
   "# ALIAS DATABASE";
   "#";
   "# The alias_maps parameter specifies the list of alias databases used";
   "# by the local delivery agent. The default list is system dependent.";
   "#";
   "# On systems with NIS, the default is to search the local alias";
   "# database, then the NIS alias database. See aliases(5) for syntax";
   "# details.";
   "#";
   "# If you change the alias database, run " +:+ ScriptBuilder.dquote +:+ "postalias /etc/aliases" +:+ ScriptBuilder.dquote +:+ " (or";
   "# wherever your system stores the mail alias file), or simply run";
   "# " +:+ ScriptBuilder.dquote +:+ "newaliases" +:+ ScriptBuilder.dquote +:+ " to build the necessary DBM or DB file.";
   "#";
   "# It will take a minute or so before changes become visible.  Use";
   "# " +:+ ScriptBuilder.dquote +:+ "postfix reload" +:+ ScriptBuilder.dquote +:+ " to eliminate the delay.";
   "#";
   "#alias_maps = dbm:/etc/aliases";
   "#alias_maps = hash:/etc/aliases";
   "#alias_maps = hash:/etc/aliases, nis:mail.aliases";
   "#alias_maps = netinfo:/aliases";
   "alias_maps = hash:/etc/aliases, hash:/etc/postfix/aliases";
   "";
   "# The alias_database parameter specifies the alias database(s) that";
   "# are built with " +:+ ScriptBuilder.dquote +:+ "newaliases" +:+ ScriptBuilder.dquote +:+ " or " +:+ ScriptBuilder.dquote +:+ "sendmail -bi" +:+ ScriptBuilder.dquote +:+ ".  This is a separate";
   "# configuration parameter, because alias_maps (see above) may specify";
   "# tables that are not necessarily all under control by Postfix.";
   "#";
   "#alias_database = dbm:/etc/aliases";
   "#alias_database = dbm:/etc/mail/aliases";
   "#alias_database = hash:/etc/aliases";
   "#alias_database = hash:/etc/aliases, hash:/opt/majordomo/aliases";
   "alias_database = hash:/etc/aliases, hash:/etc/postfix/aliases";
   "";
   "# ADDRESS EXTENSIONS (e.g., user+foo)";
   "#";
   "# The recipient_delimiter parameter specifies the separator between";
   "# user names and address extensions (user+foo). See canonical(5),";
   "# local(8), relocated(5) and virtual(5) for the effects this has on";
   "# aliases, canonical, virtual, relocated and .forward file lookups.";
   "# Basically, the software tries user+foo and .forward+foo before";
   "# trying user and .forward.";
   "#";
   "#recipient_delimiter = +";
   "";
   "# DELIVERY TO MAILBOX";
   "#";
   "# The home_mailbox parameter specifies the optional pathname of a";
   "# mailbox file relative to a user's home directory. The default";
   "# mailbox file is /var/spool/mail/user or /var/mail/user.  Specify";
   "# " +:+ ScriptBuilder.dquote +:+ "Maildir/" +:+ ScriptBuilder.dquote +:+ " for qmail-style delivery (the / is required).";
   "#";
   "#home_mailbox = Mailbox";
   "#home_mailbox = Maildir/";
   "";
   "# The mail_spool_directory parameter specifies the directory where";
   "# UNIX-style mailboxes are kept. The default setting depends on the";
   "# system type.";
   "#";
   "#mail_spool_directory = /var/mail";
   "#mail_spool_directory = /var/spool/mail";
   "";
   "# The mailbox_command parameter specifies the optional external";
   "# command to use instead of mailbox delivery. The command is run as";
   "# the recipient with proper HOME, SHELL and LOGNAME environment settings.";
   "# Exception:  delivery for root is done as $default_user.";
   "#";
   "# Other environment variables of interest: USER (recipient username),";
   "# EXTENSION (address extension), DOMAIN (domain part of address),";
   "# and LOCAL (the address localpart).";
   "#";
   "# Unlike other Postfix configuration parameters, the mailbox_command";
   "# parameter is not subjected to $parameter substitutions. This is to";
   "# make it easier to specify shell syntax (see example below).";
   "#";
   "# Avoid shell meta characters because they will force Postfix to run";
   "# an expensive shell process. Procmail alone is expensive enough.";
   "#";
   "# IF YOU USE THIS TO DELIVER MAIL SYSTEM-WIDE, YOU MUST SET UP AN";
   "# ALIAS THAT FORWARDS MAIL FOR ROOT TO A REAL USER.";
   "#";
   "#mailbox_command = /some/where/procmail";
   "#mailbox_command = /some/where/procmail -a " +:+ ScriptBuilder.dquote +:+ "$EXTENSION" +:+ ScriptBuilder.dquote;
   "";
   "# The mailbox_transport specifies the optional transport in master.cf";
   "# to use after processing aliases and .forward files. This parameter";
   "# has precedence over the mailbox_command, fallback_transport and";
   "# luser_relay parameters.";
   "#";
   "# Specify a string of the form transport:nexthop, where transport is";
   "# the name of a mail delivery transport defined in master.cf.  The";
   "# :nexthop part is optional. For more details see the sample transport";
   "# configuration file.";
   "#";
   "# NOTE: if you use this feature for accounts not in the UNIX password";
   "# file, then you must update the " +:+ ScriptBuilder.dquote +:+ "local_recipient_maps" +:+ ScriptBuilder.dquote +:+ " setting in";
   "# the main.cf file, otherwise the SMTP server will reject mail for";
   "# non-UNIX accounts with " +:+ ScriptBuilder.dquote +:+ "User unknown in local recipient table" +:+ ScriptBuilder.dquote +:+ ".";
   "#";
   "# Cyrus IMAP over LMTP. Specify ``lmtpunix      cmd=" +:+ ScriptBuilder.dquote +:+ "lmtpd" +:+ ScriptBuilder.dquote;
   "# listen=" +:+ ScriptBuilder.dquote +:+ "/var/imap/socket/lmtp" +:+ ScriptBuilder.dquote +:+ " prefork=0'' in cyrus.conf.";
   "#mailbox_transport = lmtp:unix:/var/lib/imap/socket/lmtp";
   "";
   "# If using the cyrus-imapd IMAP server deliver local mail to the IMAP";
   "# server using LMTP (Local Mail Transport Protocol), this is prefered";
   "# over the older cyrus deliver program by setting the";
   "# mailbox_transport as below:";
   "#";
   "# mailbox_transport = lmtp:unix:/var/lib/imap/socket/lmtp";
   "#";
   "# The efficiency of LMTP delivery for cyrus-imapd can be enhanced via";
   "# these settings.";
   "#";
   "# local_destination_recipient_limit = 300";
   "# local_destination_concurrency_limit = 5";
   "#";
   "# Of course you should adjust these settings as appropriate for the";
   "# capacity of the hardware you are using. The recipient limit setting";
   "# can be used to take advantage of the single instance message store";
   "# capability of Cyrus. The concurrency limit can be used to control";
   "# how many simultaneous LMTP sessions will be permitted to the Cyrus";
   "# message store.";
   "#";
   "# Cyrus IMAP via command line. Uncomment the " +:+ ScriptBuilder.dquote +:+ "cyrus...pipe" +:+ ScriptBuilder.dquote +:+ " and";
   "# subsequent line in master.cf.";
   "#mailbox_transport = cyrus";
   "";
   "# The fallback_transport specifies the optional transport in master.cf";
   "# to use for recipients that are not found in the UNIX passwd database.";
   "# This parameter has precedence over the luser_relay parameter.";
   "#";
   "# Specify a string of the form transport:nexthop, where transport is";
   "# the name of a mail delivery transport defined in master.cf.  The";
   "# :nexthop part is optional. For more details see the sample transport";
   "# configuration file.";
   "#";
   "# NOTE: if you use this feature for accounts not in the UNIX password";
   "# file, then you must update the " +:+ ScriptBuilder.dquote +:+ "local_recipient_maps" +:+ ScriptBuilder.dquote +:+ " setting in";
   "# the main.cf file, otherwise the SMTP server will reject mail for";
   "# non-UNIX accounts with " +:+ ScriptBuilder.dquote +:+ "User unknown in local recipient table" +:+ ScriptBuilder.dquote +:+ ".";
   "#";
   "#fallback_transport = lmtp:unix:/var/lib/imap/socket/lmtp";
   "#fallback_transport =";
   "";
   "# The luser_relay parameter specifies an optional destination address";
   "# for unknown recipients.  By default, mail for unknown@$mydestination,";
   "# unknown@[$inet_interfaces] or unknown@[$proxy_interfaces] is returned";
   "# as undeliverable.";
   "#";
   "# The following expansions are done on luser_relay: $user (recipient";
   "# username), $shell (recipient shell), $home (recipient home directory),";
   "# $recipient (full recipient address), $extension (recipient address";
   "# extension), $domain (recipient domain), $local (entire recipient";
   "# localpart), $recipient_delimiter. Specify ${name?value} or";
   "# ${name:value} to expand value only when $name does (does not) exist.";
   "#";
   "# luser_relay works only for the default Postfix local delivery agent.";
   "#";
   "# NOTE: if you use this feature for accounts not in the UNIX password";
   "# file, then you must specify " +:+ ScriptBuilder.dquote +:+ "local_recipient_maps =" +:+ ScriptBuilder.dquote +:+ " (i.e. empty) in";
   "# the main.cf file, otherwise the SMTP server will reject mail for";
   "# non-UNIX accounts with " +:+ ScriptBuilder.dquote +:+ "User unknown in local recipient table" +:+ ScriptBuilder.dquote +:+ ".";
   "#";
   "#luser_relay = $user@other.host";
   "#luser_relay = $local@other.host";
   "#luser_relay = admin+$local";
   "";
   "# JUNK MAIL CONTROLS";
   "#";
   "# The controls listed here are only a very small subset. The file";
   "# SMTPD_ACCESS_README provides an overview.";
   "";
   "# The header_checks parameter specifies an optional table with patterns";
   "# that each logical message header is matched against, including";
   "# headers that span multiple physical lines.";
   "#";
   "# By default, these patterns also apply to MIME headers and to the";
   "# headers of attached messages. With older Postfix versions, MIME and";
   "# attached message headers were treated as body text.";
   "#";
   "# For details, see " +:+ ScriptBuilder.dquote +:+ "man header_checks" +:+ ScriptBuilder.dquote +:+ ".";
   "#";
   "#header_checks = regexp:/etc/postfix/header_checks";
   "";
   "# FAST ETRN SERVICE";
   "#";
   "# Postfix maintains per-destination logfiles with information about";
   "# deferred mail, so that mail can be flushed quickly with the SMTP";
   "# " +:+ ScriptBuilder.dquote +:+ "ETRN domain.tld" +:+ ScriptBuilder.dquote +:+ " command, or by executing " +:+ ScriptBuilder.dquote +:+ "sendmail -qRdomain.tld" +:+ ScriptBuilder.dquote +:+ ".";
   "# See the ETRN_README document for a detailed description.";
   "#";
   "# The fast_flush_domains parameter controls what destinations are";
   "# eligible for this service. By default, they are all domains that";
   "# this server is willing to relay mail to.";
   "#";
   "#fast_flush_domains = $relay_domains";
   "";
   "# SHOW SOFTWARE VERSION OR NOT";
   "#";
   "# The smtpd_banner parameter specifies the text that follows the 220";
   "# code in the SMTP server's greeting banner. Some people like to see";
   "# the mail version advertised. By default, Postfix shows no version.";
   "#";
   "# You MUST specify $myhostname at the start of the text. That is an";
   "# RFC requirement. Postfix itself does not care.";
   "#";
   "smtpd_banner = $myhostname ESMTP $mail_name";
   "#smtpd_banner = $myhostname ESMTP $mail_name ($mail_version)";
   "";
   "# PARALLEL DELIVERY TO THE SAME DESTINATION";
   "#";
   "# How many parallel deliveries to the same user or domain? With local";
   "# delivery, it does not make sense to do massively parallel delivery";
   "# to the same user, because mailbox updates must happen sequentially,";
   "# and expensive pipelines in .forward files can cause disasters when";
   "# too many are run at the same time. With SMTP deliveries, 10";
   "# simultaneous connections to the same domain could be sufficient to";
   "# raise eyebrows.";
   "#";
   "# Each message delivery transport has its XXX_destination_concurrency_limit";
   "# parameter.  The default is $default_destination_concurrency_limit for";
   "# most delivery transports. For the local delivery agent the default is 2.";
   "";
   "#local_destination_concurrency_limit = 2";
   "#default_destination_concurrency_limit = 20";
   "";
   "# DEBUGGING CONTROL";
   "#";
   "# The debug_peer_level parameter specifies the increment in verbose";
   "# logging level when an SMTP client or server host name or address";
   "# matches a pattern in the debug_peer_list parameter.";
   "#";
   "debug_peer_level = 2";
   "";
   "# The debug_peer_list parameter specifies an optional list of domain";
   "# or network patterns, /file/name patterns or type:name tables. When";
   "# an SMTP client or server host name or address matches a pattern,";
   "# increase the verbose logging level by the amount specified in the";
   "# debug_peer_level parameter.";
   "#";
   "#debug_peer_list = 127.0.0.1";
   "#debug_peer_list = some.domain";
   "";
   "# The debugger_command specifies the external command that is executed";
   "# when a Postfix daemon program is run with the -D option.";
   "#";
   "# Use " +:+ ScriptBuilder.dquote +:+ "command .. & sleep 5" +:+ ScriptBuilder.dquote +:+ " so that the debugger can attach before";
   "# the process marches on. If you use an X-based debugger, be sure to";
   "# set up your XAUTHORITY environment variable before starting Postfix.";
   "#";
   "debugger_command =";
   "	 PATH=/bin:/usr/bin:/usr/local/bin:/usr/X11R6/bin";
   "	 ddd $daemon_directory/$process_name $process_id & sleep 5";
   "";
   "# If you can't use X, use this to capture the call stack when a";
   "# daemon crashes. The result is in a file in the configuration";
   "# directory, and is named after the process name and the process ID.";
   "#";
   "# debugger_command =";
   "#	PATH=/bin:/usr/bin:/usr/local/bin; export PATH; (echo cont;";
   "#	echo where) | gdb $daemon_directory/$process_name $process_id 2>&1";
   "#	>$config_directory/$process_name.$process_id.log & sleep 5";
   "#";
   "# Another possibility is to run gdb under a detached screen session.";
   "# To attach to the screen sesssion, su root and run " +:+ ScriptBuilder.dquote +:+ "screen -r";
   "# <id_string>" +:+ ScriptBuilder.dquote +:+ " where <id_string> uniquely matches one of the detached";
   "# sessions (from " +:+ ScriptBuilder.dquote +:+ "screen -list" +:+ ScriptBuilder.dquote +:+ ").";
   "#";
   "# debugger_command =";
   "#	PATH=/bin:/usr/bin:/sbin:/usr/sbin; export PATH; screen";
   "#	-dmS $process_name gdb $daemon_directory/$process_name";
   "#	$process_id & sleep 1";
   "";
   "# INSTALL-TIME CONFIGURATION INFORMATION";
   "#";
   "# The following parameters are used when installing a new Postfix version.";
   "#";
   "# sendmail_path: The full pathname of the Postfix sendmail command.";
   "# This is the Sendmail-compatible mail posting interface.";
   "#";
   "sendmail_path = /usr/sbin/sendmail.postfix";
   "";
   "# newaliases_path: The full pathname of the Postfix newaliases command.";
   "# This is the Sendmail-compatible command to build alias databases.";
   "#";
   "newaliases_path = /usr/bin/newaliases.postfix";
   "";
   "# mailq_path: The full pathname of the Postfix mailq command.  This";
   "# is the Sendmail-compatible mail queue listing command.";
   "#";
   "mailq_path = /usr/bin/mailq.postfix";
   "";
   "# setgid_group: The group for mail submission and queue management";
   "# commands.  This must be a group name with a numerical group ID that";
   "# is not shared with other accounts, not even with the Postfix account.";
   "#";
   "setgid_group = postdrop";
   "";
   "# html_directory: The location of the Postfix HTML documentation.";
   "#";
   "html_directory = no";
   "";
   "# manpage_directory: The location of the Postfix on-line manual pages.";
   "#";
   "manpage_directory = /usr/share/man";
   "";
   "# sample_directory: The location of the Postfix sample configuration files.";
   "# This parameter is obsolete as of Postfix 2.1.";
   "#";
   "sample_directory = /usr/share/doc/postfix-2.10.1/samples";
   "";
   "# readme_directory: The location of the Postfix README files.";
   "#";
   "readme_directory = /usr/share/doc/postfix-2.10.1/README_FILES";
   "";
   "";
   "# TLS CONFIGURATION";
   "#";
   "# Basic Postfix TLS configuration by default with self-signed certificate";
   "# for inbound SMTP and also opportunistic TLS for outbound SMTP.";
   "";
   "# The full pathname of a file with the Postfix SMTP server RSA certificate";
   "# in PEM format. Intermediate certificates should be included in general,";
   "# the server certificate first, then the issuing CA(s) (bottom-up order).";
   "#";
   "#smtpd_tls_cert_file = /etc/pki/tls/certs/postfix.pem";
   "smtpd_tls_cert_file = /etc/pki/tls/certs/localhost.crt";
   "";
   "# The full pathname of a file with the Postfix SMTP server RSA private key";
   "# in PEM format. The private key must be accessible without a pass-phrase,";
   "# i.e. it must not be encrypted.";
   "#";
   "#smtpd_tls_key_file = /etc/pki/tls/private/postfix.key";
   "smtpd_tls_key_file = /etc/pki/tls/private/localhost.key";
   "";
   "# Announce STARTTLS support to remote SMTP clients, but do not require that";
   "# clients use TLS encryption (opportunistic TLS inbound).";
   "#";
   "smtpd_tls_security_level = may";
   "";
   "# Directory with PEM format Certification Authority certificates that the";
   "# Postfix SMTP client uses to verify a remote SMTP server certificate.";
   "#";
   "smtp_tls_CApath = /etc/pki/tls/certs";
   "";
   "# The full pathname of a file containing CA certificates of root CAs";
   "# trusted to sign either remote SMTP server certificates or intermediate CA";
   "# certificates.";
   "#";
   "smtp_tls_CAfile = /etc/pki/tls/certs/ca-bundle.crt";
   "";
   "# Use TLS if this is supported by the remote SMTP server, otherwise use";
   "# plaintext (opportunistic TLS outbound).";
   "#";
   "smtp_tls_security_level = may";
   "# meta_directory = /etc/postfix";
   "# shlib_directory = /usr/lib64/postfix";
   "";
   "# OpenCATTUS Custom Settings";
   "#";
   "# SMTP TLS Enforcements (Required for Office365 relay)";
   "smtp_use_tls = yes";
   "smtp_tls_cert_file = /etc/pki/tls/certs/{fqdn}.cer";
   "smtp_tls_key_file = /etc/pki/tls/private/{fqdn}.key";
   "";
   "# HELO Restrictions.";
   "smtpd_delay_reject = no";
   "smtpd_helo_restrictions = reject_invalid_hostname, reject_unknown_hostname, reject_non_fqdn_hostname";
   "smtpd_helo_required = yes";
   "";
   "# Postscreen ACLs";
   "# postscreen_access_list = permit_mynetworks, cidr:/etc/postfix/postscreen_spf_whitelist.cidr, cidr:/etc/postfix/postscreen_spf_blacklist.cidr";
   "postscreen_access_list = permit_mynetworks";
   "";
   "# Reject clients talking before their turn";
   "postscreen_greet_action = enforce";
   "";
   "# Deep protocol tests";
   "# http://www.postfix.org/POSTSCREEN_README.html#after_220";
   "postscreen_pipelining_enable = yes";
   "postscreen_pipelining_action = enforce";
   "postscreen_non_smtp_command_enable = yes";
   "postscreen_non_smtp_command_action = drop";
   "postscreen_bare_newline_enable = yes";
   "postscreen_bare_newline_action = enforce";
   "";
   "# Max size of messages; this is the max Office365 allowed size";
   "message_size_limit = 157286400";
   "";
   "# Disable biff local user mail requests.";
   "biff = no";
   "";
   "# Disable VRFY command since we're only relaying mail";
   "disable_vrfy_command = yes"].

Section postfix.
Context `{BoostText} `{GKeyFile} `{Machine} `{MessageBus}.
Context (opts : Options) (runner : Runner.IRunner).

Definition install : M World unit := _ ← Runner.executeCommand runner "dnf -y install postfix"; skip.

(** [Postfix::changeMasterFile]; a stream that cannot be opened takes
    nothing. *)
Definition change_master_file (p : Postfix) (masterFile : string) : M World unit :=
  master ← stream_read masterFile;
  text ← lift (changeMasterFile (m_profile p) master);
  _ ← stream_write masterFile text; skip.

(** What is set in [main.cf]; GLib is given an empty group. *)
Definition main_settings (p : Postfix) : M KeyFile unit :=
  _ ← setString_opt "" "myhostname" (m_hostname p);
  _ ← setString_opt "" "mydomain" (m_domain p);
  _ ← setString_opt "" "mydestination" (concat_sep "," <$> m_destination p);
  _ ← match m_cert_file p, m_key_file p with
      | Some cert, Some key =>
          _ ← setString "" "smtpd_tls_cert_file" cert; setString "" "smtpd_tls_key_file" key
      | _, _ => skip
      end;
  setString_opt "" "relayhost" (relayhost_createFiles p).

Definition createFiles (p : Postfix) (basedir : string) : M World unit :=
  baseini ← open_keyfile (path_append basedir "main.cf");
  baseini ← lift (construct (_ ← loadData main_cf; main_settings p) baseini);
  _ ← save_keyfile baseini;
  _ ← change_master_file p (path_append basedir "master.cf");
  transport ← ask (fun w => fs_exists w (path_append basedir "transport.db"));
  _ ← (if transport : bool then skip
       else _ ← Runner.executeCommand runner ("postmap hash:" +:+ path_append basedir "transport"); skip);
  aliases ← ask (fun w => fs_exists w (path_append basedir "aliases"));
  if aliases : bool then skip else touchFile opts (path_append basedir "aliases").

(** [std::filesystem::permissions] of a path that may not be there *)
Definition permissions (path : string) : M World unit :=
  there ← ask (fun w => fs_exists w path);
  if there : bool then skip else throw (fs_error no_such_file_or_directory).

Definition sasl_line (p : Postfix) : outcome string :=
  server ← value (m_smtp_server p);
  port ← value (m_port p);
  username ← value (m_username p);
  password ← value (m_password p);
  Ok ("[" +:+ server +:+ "]:" +:+ dec port +:+ " " +:+ username +:+ ":" +:+ password).

Definition configureSASL (p : Postfix) (basedir : string) : M World unit :=
  let dbFilename := path_append basedir "sasl_password.db" in
  let filename := path_append basedir "sasl_password" in
  there ← ask (fun w => fs_exists w dbFilename);
  if there : bool then skip
  else
    line ← lift (sasl_line p);
    _ ← addStringToFile opts filename line;
    _ ← permissions filename;
    _ ← Runner.executeCommand runner ("postmap " +:+ filename);
    permissions dbFilename.

Definition configureRelay (p : Postfix) (basedir : string) : M World unit :=
  ini ← open_keyfile (path_append basedir "main.cf");
  ini ← lift (construct (setString_opt "" "relayhost" (relayhost_configureRelay p)) ini);
  save_keyfile ini.

Definition unit_name : string := "postfix.service".

Definition setup (p : Postfix) (basedir : string) : M World unit :=
  _ ← install;
  _ ← createFiles p basedir;
  _ ← match m_profile p with
      | PostfixProfile.Local => skip
      | PostfixProfile.Relay => configureRelay p basedir
      | PostfixProfile.SASL => configureSASL p basedir
      end;
  _ ← IService.enable opts unit_name;
  IService.start opts unit_name.
End postfix.
End PostfixSetup.

(** ** The SLURM server *)

Module SlurmServer.
Definition configurationFile : string := "/etc/slurm/slurm.conf".

(** [tmpl/slurm.conf.tmpl], formatted *)
Definition slurm_conf (clusterName controlMachine partitionName nodesDeclaration : string) : string :=
  unlines
  ["# OpenCATTUS generated file";
   "";
   "ClusterName=" +:+ clusterName;
   "ControlMachine=" +:+ controlMachine;
   "#ControlAddr=";
   "#BackupController=";
   "#BackupAddr=";
   "SlurmUser=slurm";
   "#SlurmdUser=root";
   "SlurmctldPort=6817";
   "SlurmdPort=6818";
   "AuthType=auth/munge";
   "#JobCredentialPrivateKey=";
   "#JobCredentialPublicCertificate=";
   "StateSaveLocation=/var/spool/slurmctld";
   "SlurmdSpoolDir=/var/spool/slurmd";
   "SwitchType=switch/none";
   "MpiDefault=none";
   "SlurmctldPidFile=/var/run/slurmctld.pid";
   "SlurmdPidFile=/var/run/slurmd.pid";
   "ProctrackType=proctrack/pgid";
   "#PluginDir=";
   "#FirstJobId=";
   "#MaxJobCount=";
   "#PlugStackConfig=";
   "#PropagatePrioProcess=";
   "#PropagateResourceLimits=";
   "#PropagateResourceLimitsExcept=";
   "#Prolog=";
   "#Epilog=";
   "#SrunProlog=";
   "#SrunEpilog=";
   "#TaskProlog=";
   "#TaskEpilog=";
   "#TaskPlugin=";
   "#TrackWCKey=no";
   "#TreeWidth=50";
   "#TmpFS=";
   "#UsePAM=";
   "# TIMERS";
   "SlurmctldTimeout=300";
   "SlurmdTimeout=300";
   "InactiveLimit=0";
   "MinJobAge=300";
   "KillWait=30";
   "Waittime=0";
   "# SCHEDULING";
   "SchedulerType=sched/backfill";
   "#SchedulerAuth=";
   "SelectType=select/cons_tres";
   "SelectTypeParameters=CR_Core";
   "#PriorityType=priority/multifactor";
   "#PriorityDecayHalfLife=14-0";
   "#PriorityUsageResetPeriod=14-0";
   "#PriorityWeightFairshare=100000";
   "#PriorityWeightAge=1000";
   "#PriorityWeightPartition=10000";
   "#PriorityWeightJobSize=1000";
   "#PriorityMaxAge=1-0";
   "# LOGGING";
   "SlurmctldDebug=info";
   "SlurmctldLogFile=/var/log/slurmctld.log";
   "SlurmdDebug=info";
   "SlurmdLogFile=/var/log/slurmd.log";
   "#JobCompType=jobcomp/none";
   "#JobCompLoc=";
   "# ACCOUNTING";
   "#JobAcctGatherType=jobacct_gather/linux";
   "#JobAcctGatherFrequency=30";
   "#AccountingStorageType=accounting_storage/slurmdbd";
   "#AccountingStorageHost=";
   "#AccountingStorageLoc=";
   "#AccountingStoragePass=";
   "#AccountingStorageUser=";
   "# COMPUTE NODES";
   "# OpenHPC default configuration";
   "TaskPlugin=task/affinity";
   "PropagateResourceLimitsExcept=MEMLOCK";
   "JobCompType=jobcomp/filetxt";
   "Epilog=/etc/slurm/slurm.epilog.clean";
   "#NodeName=c[1-4] Sockets=2 CoresPerSocket=8 ThreadsPerCore=2 State=UNKNOWN";
   "#PartitionName=normal Nodes=c[1-4] Default=YES MaxTime=24:00:00 State=UP Oversubscribe=EXCLUSIVE";
   "SlurmctldParameters=enable_configless";
   "#ReturnToService=1";
   "# OpenCATTUS changes";
   "ReturnToService=2";
   "PartitionName=" +:+ partitionName +:+ " Nodes=ALL Default=YES MaxTime=INFINITE State=UP Oversubscribe=EXCLUSIVE";
   nodesDeclaration].

Section server.
Context `{Asio}.

Definition node_line (node : Server.Node) : string :=
  let cpu := Server.s_cpu (Server.n_server node) in
  "NodeName=" +:+ Server.s_hostname (Server.n_server node) +:+ " Sockets=" +:+ dec (Server.m_sockets cpu) +:+
  " CoresPerSocket=" +:+ dec (Server.m_coresPerSocket cpu) +:+ " ThreadsPerCore=" +:+ dec (Server.m_threadsPerCore cpu) +:+
  " State=UNKNOWN".

Context (opts : Options) (osservice : OsService.IOSService) (m_cluster : ClusterData.Cluster) (queue : Server.QueueSystem).

Definition installServer : M World unit := _ ← OsService.install osservice "ohpc-slurm-server"; skip.

Definition conf : string :=
  slurm_conf (ClusterData.k_name m_cluster) (Server.s_fqdn (Server.h_server (ClusterData.k_headnode m_cluster)))
    (Server.q_defaultQueue queue) (concat_sep (String "010" "") (node_line <$> ClusterData.k_nodes m_cluster)).

Definition configureServer : M World unit :=
  _ ← removeFile opts configurationFile;
  _ ← createDirectory opts "/etc/slurm";
  addStringToFile opts configurationFile conf.

Definition enableServer : M World unit :=
  _ ← OsService.enableService osservice "munge"; _ ← OsService.enableService osservice "slurmctld"; skip.
Definition startServer : M World unit :=
  _ ← OsService.startService osservice "munge"; _ ← OsService.startService osservice "slurmctld"; skip.
End server.
End SlurmServer.

(** ** What they come to *)

(** A unit is never touched in a dry run. *)
Lemma dry_run_units `{MessageBus} opts name :
  dryRun opts = true ->
  IService.enable opts name = skip /\ IService.disable opts name = skip /\ IService.start opts name = skip /\
  IService.restart opts name = skip /\ IService.stop opts name = skip.
Proof.
  intros Hd. unfold IService.enable, IService.disable, IService.start, IService.restart, IService.stop. by rewrite Hd.
Qed.

(** A unit systemd does not know ends starting it in an exception that names
    it; every other error of the bus is passed on. *)
Lemma start_answer `{MessageBus} opts name r w w' :
  dryRun opts = false -> call_unit "StartUnit" name "replace" w = (Ok r, w') ->
  IService.start opts name w =
    (match r with
     | inr _ => Ok tt
     | inl e => if String.eqb (getName e) "org.freedesktop.systemd1.NoSuchUnit"
                then Throw (IService.daemon_exception name "StartUnit") else Throw (sdbus_exn e)
     end, w').
Proof.
  intros Hd Hr. unfold IService.start, IService.callObjectFunction. rewrite Hd.
  unfold mbind, M_bind. rewrite Hr. destruct r as [e|path]; [|done]. cbn.
  unfold IService.handleException. by destruct (String.eqb _ _).
Qed.

(** GLib refuses an entry before the first group. *)
Definition significant (line : string) : bool := match line with "" | String "#" _ => false | _ => true end.
Definition groupless (text : string) : bool :=
  match head (filter (fun l => Is_true (significant l)) (getlines "010" text)) with
  | Some (String c _) => is_lower c
  | _ => false
  end.
Class GKeyFileStrict (G : GKeyFile) := { gkf_load_groupless text : groupless text = true -> gkf_load_from_data text = None }.

(** Setting up the mail system never gets past the configuration: the
    template of [main.cf] has no group, so GLib refuses it, whatever is on the
    machine, and after the package has been installed nothing is written, no
    table is made and no unit is started. *)
Theorem setup_stops `{BoostText} `{GS : GKeyFileStrict} `{Machine} `{MessageBus} opts runner p basedir w :
  exists e, PostfixSetup.setup opts runner p basedir w = (_ ← PostfixSetup.install runner; throw e) w.
Proof.
  unfold PostfixSetup.setup. destruct (PostfixSetup.install runner w) as [[[]|e|] w1] eqn:Hi.
  2,3: exists KeyFileError; unfold mbind, M_bind; by rewrite Hi.
  assert (exists e, PostfixSetup.createFiles opts runner p basedir w1 = (Throw e, w1)) as [e He].
  { unfold PostfixSetup.createFiles, open_keyfile, mbind at 1, M_bind at 1.
    destruct (is_directory w1 _); [by eexists|].
    destruct (KeyFile_make _ _ true) as [k|e|] eqn:Hk; [|by eexists|].
    - exists KeyFileError. unfold construct, loadData, mbind, M_bind, lift. cbn [glib].
      by rewrite (gkf_load_groupless PostfixSetup.main_cf) by (vm_compute; reflexivity).
    - exfalso. revert Hk. unfold KeyFile_make. case_match; [|done]. unfold load_from_file.
      repeat case_match; done. }
  exists e. unfold mbind, M_bind. by rewrite Hi, He.
Qed.

Lemma removed opts path w :
  dryRun opts = false -> (removeFile opts path w).1 = Ok tt -> contents (removeFile opts path w).2 path = None.
Proof.
  intros Hd. unfold removeFile. rewrite Hd. unfold mbind, M_bind, ask, gets. destruct (fs_exists w path) eqn:He.
  - unfold fs_remove. case_match; [done|]. intros _. apply lookup_delete_eq.
  - intros _. unfold fs_exists in He. apply orb_false_iff in He as [He _]. rewrite is_regular_contents in He.
    cbn. destruct (contents w path) as [text|]; [|done]. apply bool_decide_eq_false in He. by destruct He.
Qed.

Lemma written opts path c text w :
  dryRun opts = false -> contents w path = None -> (addStringToFile opts path (String c text) w).1 = Ok tt ->
  contents (addStringToFile opts path (String c text) w).2 path = Some (String c text).
Proof.
  intros Hd Hn. unfold addStringToFile, stream_read, gets, mbind, M_bind. rewrite Hd, Hn.
  assert (contains (String c text) (default "" None) = false) as -> by reflexivity. unfold stream_append.
  destruct (can_write w path) eqn:Hc; [|done]. cbn [negb].
  assert (can_write (put_file path (default "" (contents w path) +:+ "") w) path = true) as -> by exact Hc.
  intros _. cbn [skip snd]. unfold skip, mret, M_ret. cbn [snd]. rewrite contents_put_file, decide_True by done.
  by rewrite contents_put_file, decide_True, Hn by done.
Qed.

(** The SLURM configuration is written whole: after a run that returns
    the file holds it and nothing else, whatever it held before. *)
Theorem configureServer_writes `{Asio} opts cluster queue w :
  dryRun opts = false -> (SlurmServer.configureServer opts cluster queue w).1 = Ok tt ->
  contents (SlurmServer.configureServer opts cluster queue w).2 SlurmServer.configurationFile =
    Some (SlurmServer.conf cluster queue).
Proof.
  intros Hd. unfold SlurmServer.configureServer. set (path := SlurmServer.configurationFile).
  pose proof (removed opts path w Hd) as Hr. unfold mbind, M_bind.
  destruct (removeFile opts path w) as [[[]|e|] w1]; [|done..]. specialize (Hr eq_refl). cbn [snd] in Hr.
  unfold createDirectory. rewrite Hd. unfold create_directories. destruct (existsb _ _); [done|].
  apply (written opts path); done.
Qed.
