(* ===== verification/Messages.v ===== *)
(** * The texts of the dialogues

    The [Messages] of the presenters, [include/opencattus/presenter]: a Module
    per presenter, nested structures joined by underscores. *)

From stdpp Require Import base strings.
From Stdlib Require Import Ascii.
From S2P Require Import Prelude CppString.

Definition nl : string := String "010" "".

Module GeneralSettings.
Definition title : string := "General cluster settings".
Definition General_question : string := "Enter the basic cluster information".
Definition General_help : string :=
  "Use a short cluster name without spaces. The administrator email is used for generated " +:+
  "service configuration and cluster notifications.".
Definition General_clusterName : string := "Cluster name".
Definition General_companyName : string := "Company name".
Definition General_adminEmail : string := "Administrator email".
Definition BootTarget_question : string := "Select the boot target for the head node".
Definition BootTarget_help : string :=
  "Choose Text for a server-style boot target. Graphical is only useful when this head node " +:+
  "should boot into a desktop.".
End GeneralSettings.

Module HostId.
Definition title : string := "Hostname settings".
Definition question : string := "Enter the desired hostname and domain name for this machine".
Definition help : string :=
  "Set the short hostname for the head node and the DNS domain used by the cluster. The " +:+
  "domain is reused as a default in network and mail settings.".
Definition hostname : string := "Hostname".
Definition domainName : string := "Domain name".
End HostId.

Module Infiniband.
Definition title : string := "InfiniBand settings".
Definition question : string := "Do you have an InfiniBand fabric available?".
Definition help : string :=
  "Enable this when compute nodes use an InfiniBand application network. The installer will " +:+
  "ask for the stack and network settings only when usable InfiniBand interfaces are " +:+
  "detected.".
Definition OFED_question : string := "Choose the desired InfiniBand stack".
Definition OFED_help : string :=
  "Inbox uses the distribution drivers. DOCA installs NVIDIA DOCA/OFED packages for clusters " +:+
  "that need the vendor stack.".
Definition OFED_Version_question : string := "Enter the OFED/DOCA version to use".
Definition OFED_Version_help : string :=
  "Use latest for the repository default, or enter a specific version when the cluster must " +:+
  "stay pinned to a validated driver stack.".
Definition OFED_Version_field : string := "Version".
End Infiniband.

Module Instructions.
Definition Instructions_message : string :=
  "The installer will collect the settings needed for this HPC cluster." +:+ nl +:+ nl +:+
  "Use Back to revisit earlier screens before installation starts. Use Quit to leave the " +:+
  "questionnaire; progress is saved to a draft answerfile in the current directory and can " +:+
  "be resumed later." +:+ nl.
End Instructions.

Module Locale.
Definition title : string := "Locale settings".
Definition question : string := "Choose the default locale language".
Definition regionQuestion : string := "Choose the regional UTF-8 locale".
Definition legacyQuestion : string := "Choose an advanced or legacy locale".
Definition help : string :=
  "Choose the default locale for command output, sorting, date formats, and other regional " +:+
  "behavior. UTF-8 locales are preferred for new systems.".
End Locale.

Module MailSystem.
Definition title : string := "Mail system settings".
Definition question : string := "Enable Postfix mail delivery?".
Definition help : string :=
  "Enable Postfix when the head node should deliver local service mail or relay " +:+
  "notifications through another mail server.".
Definition Profile_question : string := "Choose a profile for mail delivery".
Definition Profile_help : string :=
  "Local keeps mail on the head node. Relay sends through an SMTP server. SASL is relay mode " +:+
  "with authentication.".
Definition Common_question : string := "Enter optional Postfix delivery settings".
Definition Common_help : string :=
  "Additional mail domains may be left empty. TLS paths are only needed when overriding the " +:+
  "generated default certificate configuration.".
Definition Common_destination : string := "Additional mail domains (optional)".
Definition Common_tlsOverrideQuestion : string := "Do you want to override the default TLS certificate paths?".
Definition Common_tlsPathsQuestion : string := "Enter the TLS certificate paths to override the defaults".
Definition Common_certFile : string := "TLS certificate file".
Definition Common_keyFile : string := "TLS key file".
Definition Relay_question : string := "Enter the destination MTA information to relay messages".
Definition Relay_help : string :=
  "Enter the SMTP server that accepts relay mail from the head node. Port 25 is typical for " +:+
  "unauthenticated relay.".
Definition Relay_hostname : string := "SMTP server".
Definition Relay_port : string := "Port".
Definition SASL_question : string := "Enter the mail server and user information to deliver messages".
Definition SASL_help : string :=
  "Enter the SMTP server and credentials for authenticated mail delivery. Port 587 is " +:+
  "typical for submission.".
Definition SASL_hostname : string := "SMTP server".
Definition SASL_port : string := "Port".
Definition SASL_username : string := "Username".
Definition SASL_password : string := "Password".
End MailSystem.

Module Network.
Definition title : string := "Network settings".
Definition errorInsufficient : string :=
  "Not enough interfaces!" +:+ nl +:+
  "You need at least two separate cards: one internal and one external".
Definition Interface_help : string :=
  "Choose the physical or VLAN interface for this network. External, management, service, " +:+
  "and application networks must not overlap unless the prompt explicitly allows it.".
Definition Details_question : string := "Enter the required network details".
Definition Details_help : string :=
  "Enter the head-node address, subnet mask, gateway when required, DNS domain, and " +:+
  "nameservers for the selected network. Service and application gateways may be left empty.".
Definition Error_sharedIP : string := "The service network cannot reuse the management IP address".
Definition Error_sharedSubnet : string :=
  "The service network must use a separate subnet from the management network".
Definition Error_sharedDetailsInvalid : string := "The shared service network details are invalid".
Definition Error_gatewayDetailsInvalid : string :=
  "IP address, subnet mask, and gateway must be valid IPv4 addresses".
Definition Error_gatewayOutsideSubnet : string := "Gateway must be inside the selected subnet".
Definition IP_address : string := "IP address".
Definition IP_subnetMask : string := "Subnet mask".
Definition IP_gateway : string := "Gateway".
Definition Domain_name : string := "Domain name".
Definition Domain_servers : string := "Nameservers".
End Network.

Module Nodes.
Definition title : string := "Compute nodes settings".
Definition message : string := "Enter compute node naming, network, and hardware defaults".
Definition Nodes_question : string := "Enter the compute nodes information".
Definition Nodes_help : string :=
  "The prefix and padding generate node names such as n01. The first compute IP is " +:+
  "incremented for each node. Leave BMC first IP empty when nodes have no BMC.".
Definition Nodes_prefix : string := "Prefix".
Definition Nodes_padding : string := "Padding".
Definition Nodes_startIP : string := "Compute node first IP".
Definition Nodes_bmcStartIP : string := "BMC first IP (optional)".
Definition Nodes_rootPassword : string := "Compute node root password".
Definition Nodes_confirmRootPassword : string := "Confirm compute node root password".
Definition Topology_question : string := "Enter the compute node topology and BMC defaults".
Definition Topology_help : string :=
  "Topology values are used to generate scheduler node definitions. BMC defaults are copied " +:+
  "to each node that has a BMC IP address.".
Definition Topology_sockets : string := "Sockets".
Definition Topology_coresPerSocket : string := "Cores per socket".
Definition Topology_threadsPerCore : string := "Threads per core".
Definition Topology_realMemory : string := "Real memory (MiB)".
Definition Topology_bmcUsername : string := "Generic BMC username".
Definition Topology_bmcPassword : string := "Generic BMC password".
Definition Topology_bmcSerialPort : string := "BMC serial port".
Definition Topology_bmcSerialSpeed : string := "BMC serial speed".
Definition Error_prefixLetter : string := "Prefix must start with a letter".
Definition Error_paddingMax : string := "We can only support up to 1000 nodes".
Definition Error_paddingInvalid : string := "Padding must be a number between 0 and 3".
Definition Error_startIPInvalid : string := "Compute node first IP must be a valid IP address".
Definition Error_bmcStartIPInvalid : string := "BMC first IP must be a valid IP address".
Definition Error_bmcStartIPMatchesNode : string := "BMC first IP cannot match the compute node first IP".
Definition Error_bmcAddressMatchesNode : string := "BMC IP address cannot match the compute node IP address".
Definition Error_rootPasswordMismatch : string := "The compute node root password confirmation does not match".
Definition Error_topologyInvalid : string := "Topology values must be valid numbers".
Definition Error_quantityInvalid : string := "Node quantity must be a number greater than zero".
Definition Quantity_question : string := "Enter the compute nodes quantity information".
Definition Quantity_help : string :=
  "Enter how many racks and nodes per rack should be generated. The start number controls " +:+
  "the first generated hostname.".
Definition Quantity_racks : string := "Racks".
Definition Quantity_nodes : string := "Nodes".
Definition Quantity_startNumber : string := "Node start number".
Definition NodeEntry_question : string := "Enter the management MAC and BMC IP address for node".
Definition NodeEntry_help : string :=
  "The management MAC address is required for provisioning and network boot. The BMC IP " +:+
  "address is optional and should use the service network when one exists.".
Definition NodeEntry_macAddress : string := "Management MAC address".
Definition NodeEntry_bmcAddress : string := "BMC IP address (optional)".
End Nodes.

Module NodesOperationalSystem.
Definition title : string := "Compute node OS settings".
Definition OperationalSystemDownloadIso_FirstStage_question : string := "Download an ISO for the compute nodes?".
Definition OperationalSystemDownloadIso_FirstStage_help : string :=
  "Choose Yes to download a supported installation DVD, or No to select an ISO already " +:+
  "available on this host.".
Definition OperationalSystemDownloadIso_SecondStage_question : string := "Choose an ISO to download".
Definition OperationalSystemDownloadIso_SecondStage_help : string :=
  "Select the distribution installed on compute nodes. Red Hat Enterprise Linux must be " +:+
  "provided as a local ISO.".
Definition OperationalSystemDirectoryPath_question : string :=
  "Enter the directory containing installation ISO images".
Definition OperationalSystemDirectoryPath_help : string :=
  "Provide a readable directory path. The next screen lists matching ISO files for the " +:+
  "selected distribution. Pick a directory you can read as root when the installer runs.".
Definition OperationalSystemDirectoryPath_field : string := "Path to ISOs directory:".
Definition OperationalSystemDirectoryPath_nonExistent : string := "The specified directory does not exist".
Definition OperationalSystemDirectoryPath_notReadable : string :=
  "The specified path is not a readable directory".
Definition OperationalSystemDistro_question : string := "Choose the operating system distribution".
Definition OperationalSystemDistro_help : string :=
  "Select the distribution family for the compute node image. This controls ISO matching, " +:+
  "repository selection, and provisioner defaults.".
Definition OperationalSystemVersion_question : string := "Enter the distribution version and architecture".
Definition OperationalSystemVersion_rhelError : string :=
  "Unfortunately, we do not support downloading Red Hat Enterprise Linux yet." +:+ nl +:+
  "Please download the ISO yourself and put in an appropriate location.".
Definition OperationalSystemVersion_invalidVersion : string :=
  "Use the version format MAJOR.MINOR, for example 9.6".
Definition OperationalSystemVersion_invalidArch : string := "Supported architectures are x86_64 and ppc64le".
Definition OperationalSystemVersion_help : string :=
  "Enter the OS version and CPU architecture for the compute node image. The version should " +:+
  "match the ISO filename.".
Definition OperationalSystemVersion_version : string := "Version".
Definition OperationalSystemVersion_architecture : string := "Architecture".
Definition OperationalSystem_question : string := "Choose the operating system ISO".
Definition OperationalSystem_help : string :=
  "Select the installation DVD ISO to import into the provisioner. Boot, minimal, and live " +:+
  "images are not suitable. If no matching ISO is found you can return to the directory " +:+
  "prompt or switch to the download path.".
Definition OperationalSystem_noneFound : string :=
  "No ISO matching the selected distribution was found in the provided directory".
Definition OperationalSystem_downloadMissing : string :=
  "Download an ISO for this distribution instead? Choose No to enter another directory.".
End NodesOperationalSystem.

Module OpenHPC.
Definition title : string := "OpenHPC bundles".
Definition General_question : string :=
  "Select the OpenHPC software bundles to install. Base GNU compilers and MPI stacks are " +:+
  "always installed.".
Definition General_help : string :=
  "Serial and parallel scientific library bundles are enabled by default. Selecting Intel " +:+
  "oneAPI also installs Intel MPI plus the Intel scientific library bundles, and enables the " +:+
  "Intel repository when the installer configures software sources.".
End OpenHPC.

Module Preflight.
Definition title : string := "Preflight validation".
Definition help : string :=
  "This final check summarizes the selected operating system, provisioner, networks, BMC " +:+
  "coverage, repositories, and queue system before installation starts. Choose Stop to save " +:+
  "the current draft and leave the installer.".
End Preflight.

Module Provisioner.
Definition title : string := "Provisioner settings".
Definition question : string := "Choose how the cluster nodes should be provisioned".
Definition help : string :=
  "The provisioner imports node images, tracks compute nodes, and drives network boot. xCAT " +:+
  "and Confluent are available on supported Enterprise Linux releases and Ubuntu 24.04.".
Definition singleProvisioner : string :=
  "Only one provisioner supports the selected operating systems; it was selected " +:+
  "automatically".
End Provisioner.

Module QueueSystem.
Definition title : string := "Queue system settings".
Definition question : string := "Choose a workload manager for compute jobs".
Definition help : string :=
  "Choose the workload manager for the compute nodes. SLURM is the default HPC scheduler; " +:+
  "PBS Professional is available for sites that standardize on PBS.".
Definition SLURM_title : string := "SLURM settings".
Definition SLURM_question : string :=
  "Enter the SLURM controller settings. The accounting storage password will reuse the " +:+
  "slurmdbd password.".
Definition SLURM_help : string :=
  "The partition name is the default queue visible to users. Database passwords are " +:+
  "generated by default and may be overridden when needed.".
Definition SLURM_partition : string := "Partition name".
Definition SLURM_mariadbRootPassword : string := "MariaDB root password".
Definition SLURM_slurmDBPassword : string := "slurmdbd password".
Definition PBS_title : string := "PBS Professional settings".
Definition PBS_question : string := "Select the default execution place for PBS Professional jobs".
Definition PBS_help : string :=
  "The execution place controls how PBS places jobs on nodes. Use the default unless your " +:+
  "site has a specific PBS policy.".
End QueueSystem.

Module Repository.
Definition title : string := "Repositories".
Definition General_question : string := "Select the repositories to enable. SPACE toggles an entry.".
Definition General_help : string :=
  "Only optional repositories are listed here. Distribution, EPEL, OpenHPC, and provisioner " +:+
  "repositories are enabled by the installer when required. BeeGFS also enables Grafana and " +:+
  "InfluxDB. The Intel oneAPI repository is implied when the Intel OpenHPC bundle is " +:+
  "selected.".
End Repository.

Module Time.
Definition title : string := "Time and clock settings".
Definition Timezone_question : string := "Choose the local timezone".
Definition Timezone_help : string :=
  "Choose the timezone used by the head node and generated cluster configuration. Prefer the " +:+
  "canonical Area/Location entry when aliases are available.".
Definition Timeservers_question : string := "Add or change the list of available time servers".
Definition Timeservers_help : string :=
  "Use NTP servers reachable from the head node. Public pool servers are fine for " +:+
  "internet-connected clusters; isolated clusters should use local time sources.".
Definition AddTimeserver_question : string := "Add time server".
Definition AddTimeserver_field : string := "Address:".
Definition AddTimeserver_help : string := "Enter one hostname or IP address for an NTP server.".
End Time.

Module Welcome.
Definition Welcome_message : string :=
  "Welcome to the OpenCATTUS guided installer." +:+ nl +:+ nl +:+
  "This questionnaire collects the settings needed to build a basic HPC cluster." +:+ nl +:+ nl +:+
  "For source code, feature requests, and bug reports, visit " +:+
  "https://github.com/versatushpc/opencattus".
End Welcome.
