(* ===== verification/View.v ===== *)
(** * The dialogues on the screen

    [src/view], the class [Newt] of [include/opencattus/view/newt.h]: the
    questions the program puts to its operator.  What the newt library gives
    back is the operator's doing: a list of replies, each call of the library
    taking the next.  A run that asks for more than there is waits: it has not
    come back ([NoReturn]).  Drawing is left out, only the sizes of the
    dialogues are worked out ([Geometry]); texts have no NUL. *)

From stdpp Require Import base strings list.
From Stdlib Require Import ZArith Lia Ascii.
From S2P Require Import Prelude CppString Runner.
From S2P Require Export Messages.

Local Open Scope Z_scope.

(** ** The operator *)

(** How [newtFormRun] ends: by a button, the list or text of the form, F12,
    input on a watched file, or otherwise. *)
Inductive Exit := ButtonOk | ButtonBack | ButtonQuit | ButtonHelp | Body | F12 | FdReady | Elsewhere.

#[export] Instance Exit_eq_dec : EqDecision Exit.
Proof. solve_decision. Defined.

Record Reply := mkReply {
  r_value : Z;              (* what [newtWinEntries] and its like return *)
  r_texts : list string;    (* the entries of [newtWinEntries] *)
  r_selector : Z;           (* [newtWinMenu] *)
  r_exit : Exit;            (* [newtFormRun] *)
  r_current : option nat;   (* [newtListboxGetCurrent] *)
  r_selected : list nat;    (* [newtListboxGetSelection] *)
}.

(** The replies to come, the messages shown, and the size of the terminal. *)
Record Operator := mkOperator {
  replies : list Reply;
  shown : list (string * string);
  m_cols : Z;
  m_rows : Z;
}.

Definition newt : M Operator Reply := fun o =>
  match replies o with
  | [] => (Throw NoReturn, o)
  | r :: l => (Ok r, mkOperator l (shown o) (m_cols o) (m_rows o))
  end.

Definition newtWinMessage (title text : string) : M Operator unit :=
  modify (fun o => mkOperator (replies o) (shown o ++ [(title, text)]) (m_cols o) (m_rows o)).

(** The result of a loop that may go on for ever *)
Definition never {A} (r : option A) : outcome A := match r with Some a => Ok a | None => Throw NoReturn end.

(** ** Loops

    [while (true)] around questions.  A round ends in the state for the next
    one or in a result.  One round more than there are replies is enough, as
    every round that goes on has taken one ([forever_unfold]). *)

Class Pending (St : Type) := pending : St -> nat.
#[export] Instance Operator_pending : Pending Operator := fun o => length (replies o).

Fixpoint rounds {St X A} (fuel : nat) (body : X -> M St (X + A)) (x : X) : M St A :=
  match fuel with
  | O => throw NoReturn
  | S fuel => r ← body x; match r with inl x => rounds fuel body x | inr a => mret a end
  end.

Definition forever {St X A} `{Pending St} (body : X -> M St (X + A)) (x : X) : M St A :=
  fun s => rounds (S (pending s)) body x s.

(** ** Geometry

    The sizes of the dialogues on a terminal of [cols] by [rows] characters. *)

Module Geometry.
Definition dialogMargin := 6.
Definition minDialogWidth := 20.
Definition maxDialogWidth := 72.
Definition minDataWidth := 18.
Definition maxDataWidth := 28.
Definition minListHeight := 4.
Definition minFieldDialogWidth := 34.
Definition minListDialogWidth := 34.
Definition wrappedWindowRows := 2.
Definition windowShadowRows := 1.
Definition reservedHeaderRows := 1.
Definition reservedFooterRows := 1.
Definition minWindowTop := reservedHeaderRows + 1.

(** [std::clamp] is undefined when the bounds are the wrong way round. *)
Definition clamp (v lo hi : Z) : outcome Z := if hi <? lo then UB else Ok (Z.max lo (Z.min v hi)).

Definition calculateDialogWidth (cols : Z) : Z := Z.min (Z.max (cols - dialogMargin) minDialogWidth) maxDialogWidth.
Definition calculateDataWidth (dialogWidth : Z) : outcome Z := clamp (Z.quot dialogWidth 3) minDataWidth maxDataWidth.
Definition calculateMaxListHeight (rows : Z) : Z := Z.max (rows - 16) minListHeight.
Definition calculateMaxDialogHeight (rows : Z) : Z :=
  Z.max 8 (rows - reservedHeaderRows - reservedFooterRows - wrappedWindowRows - windowShadowRows - minWindowTop).

Definition calculateDialogTop (rows windowHeight : Z) : Z :=
  let wrappedHeight := windowHeight + wrappedWindowRows in
  let centeredTop := Z.max minWindowTop (Z.quot (rows - wrappedHeight) 2) in
  let lastSafeTop := Z.max minWindowTop
    (rows - windowHeight - wrappedWindowRows - windowShadowRows - reservedFooterRows) in
  Z.min centeredTop lastSafeTop.

Definition calculateFieldDialogWidth (cols baseWidth dataWidth longestLabelWidth : Z) : outcome Z :=
  let desiredWidth := Z.max minFieldDialogWidth (longestLabelWidth + dataWidth + 8) in
  let maxWidth := Z.min baseWidth (Z.max (cols - 2) minDialogWidth) in
  clamp desiredWidth minDialogWidth maxWidth.

Fixpoint maxLineWidth_loop (text : string) (longest current : Z) : Z :=
  match text with
  | EmptyString => Z.max longest current
  | String c text =>
      if Ascii.eqb c "010" then maxLineWidth_loop text (Z.max longest current) 0
      else maxLineWidth_loop text longest (current + 1)
  end.
Definition maxLineWidth (text : string) : Z := maxLineWidth_loop text 0 0.

Definition calculateListDialogWidth (baseWidth longestItemWidth messageWidth titleWidth : Z) : Z :=
  let desiredWidth :=
    Z.max (Z.max minListDialogWidth (longestItemWidth + 12)) (Z.max (messageWidth + 8) (titleWidth + 8)) in
  Z.min (Z.max desiredWidth minDialogWidth) baseWidth.

Definition calculateListHeight (maxListHeight itemCount : Z) : outcome Z := clamp itemCount minListHeight maxListHeight.

Definition dialogLeftFor (cols windowWidth : Z) : Z := Z.max 0 (Z.quot (cols - windowWidth) 2).

(** The widths the class keeps, and what it makes of them *)
Record Metrics := mkMetrics { m_suggestedWidth : Z; m_dataWidth : Z; m_maxListHeight : Z }.

Definition refreshScreenMetrics (cols rows : Z) : outcome Metrics :=
  let suggestedWidth := calculateDialogWidth cols in
  dataWidth ← calculateDataWidth suggestedWidth;
  Ok (mkMetrics suggestedWidth dataWidth (calculateMaxListHeight rows)).

Definition fieldDialogWidth (cols : Z) (m : Metrics) (longestLabelWidth : Z) : outcome Z :=
  calculateFieldDialogWidth cols (m_suggestedWidth m) (m_dataWidth m) longestLabelWidth.
Definition listDialogWidth (m : Metrics) (longestItemWidth : Z) (message title : string) : Z :=
  calculateListDialogWidth (m_suggestedWidth m) longestItemWidth (maxLineWidth message) (maxLineWidth title).
Definition listHeight (m : Metrics) (itemCount : Z) : outcome Z := calculateListHeight (m_maxListHeight m) itemCount.
End Geometry.

(** ** Buttons *)

Module TUIText.
Definition abort : string := "Questionnaire stopped by operator request".
Definition Help_title : string := "Help".
End TUIText.

Definition abort {A} : M Operator A := throw (ViewAbortRequested TUIText.abort).
Definition goBack {A} : M Operator A :=
  throw (ViewBackRequested "Questionnaire moved back to the previous step").
Definition helpMessage (message : string) : M Operator unit := newtWinMessage TUIText.Help_title message.

(** ** Messages *)

Definition message (title text : string) : M Operator unit := newtWinMessage title text.
Definition fatalMessage {A} (title text : string) : M Operator A :=
  _ ← message title text; abort.

Definition okCancelMessage (title text : string) : M Operator unit :=
  forever (fun _ : unit =>
    r ← newt;
    if r_value r =? 0 then mret (inl tt)
    else if r_value r =? 1 then mret (inr tt)
    else if r_value r =? 2 then abort
    else throw (RuntimeError "Something happened. Please run the software again")) tt.

Definition okCancelMessagePairs (title message : string) (pairs : list (string * string)) : M Operator unit :=
  forever (fun _ : unit =>
    r ← newt;
    if r_value r =? 0 then mret (inl tt)
    else if r_value r =? 1 then mret (inr tt)
    else if r_value r =? 2 then abort
    else throw (RuntimeError "Out of bounds in a switch statement")) tt.

Definition yesNoQuestion (title text help : string) : M Operator bool :=
  forever (fun _ : unit =>
    r ← newt;
    if r_value r =? 0 then mret (inl tt)
    else if r_value r =? 1 then mret (inr true)
    else if r_value r =? 2 then mret (inr false)
    else if r_value r =? 3 then _ ← helpMessage help; mret (inl tt)
    else lift UB) tt.

(** ** Fields *)

Definition FieldEntries : Type := list (string * string).

Definition fieldLabelAllowsEmpty (label : string) : bool := contains "(optional" label.

(** [sprintf] into 63 characters *)
Definition cannot_be_empty (label : string) : outcome string :=
  let text := label +:+ " cannot be empty" +:+ nl in
  if (String.length text + 1 <=? 63)%nat then Ok text else UB.

Fixpoint hasEmptyField (entries : FieldEntries) : M Operator bool :=
  match entries with
  | [] => mret false
  | (label, value) :: entries =>
      if fieldLabelAllowsEmpty label then hasEmptyField entries
      else if empty value then
        text ← lift (cannot_be_empty label);
        _ ← newtWinMessage "" text;
        mret true
      else hasEmptyField entries
  end.

(** What the entries hold after the operator has been at them *)
Fixpoint edited (values texts : list string) : list string :=
  match values, texts with
  | _ :: values, t :: texts => t :: edited values texts
  | _, _ => values
  end.

Definition shouldMaskField (title label : string) : bool :=
  if String.eqb title "SLURM settings" then false
  else if contains "BMC password" label then false
  else contains "Password" label || contains "password" label.

Definition fieldMenuImpl (title text : string) (items : FieldEntries) (help : string) : M Operator FieldEntries :=
  forever (fun values =>
    r ← newt;
    let values := edited values (r_texts r) in
    let entries := zip (fst <$> items) values in
    if r_value r =? 0 then mret (inl values)
    else if r_value r =? 1 then
      bad ← hasEmptyField entries;
      if bad : bool then mret (inl values) else mret (inr entries)
    else if r_value r =? 2 then goBack
    else if r_value r =? 3 then abort
    else if r_value r =? 4 then _ ← helpMessage help; mret (inl values)
    else throw (RuntimeError "Invalid return value from fields on newt library")) (snd <$> items).

(** [View::fieldMenu] *)
Definition fieldMenu (title text : string) (items : FieldEntries) (help : string) : M Operator FieldEntries :=
  output ← fieldMenuImpl title text items help;
  if (length output =? length items)%nat then mret output
  else throw (RuntimeError "View::fieldMenuImpl returned a different number of fields").

(** ** Lists *)

(** The inner loop of a form waits out [FdReady]. *)
Definition newtFormRun : M Operator Reply :=
  forever (fun _ : unit =>
    r ← newt; if decide (r_exit r = FdReady) then mret (inl tt) else mret (inr r)) tt.

Definition listMenu (title text : string) (items : list string) (help : string) : M Operator string :=
  _ ← match items with
      | [] => fatalMessage title "This menu has no available options to display."
      | _ => skip
      end;
  forever (fun _ : unit =>
    r ← newtFormRun;
    match r_exit r with
    | F12 => mret (inl tt)
    | Body | ButtonOk =>
        match r_current r ≫= (items !!.) with
        | Some current => mret (inr current)
        | None => mret (inl tt)
        end
    | ButtonHelp => _ ← helpMessage help; mret (inl tt)
    | ButtonBack => goBack
    | _ => abort
    end) tt.

(** The template of [newt.h]; the callback may ask further questions. *)
Definition collectListMenu (title text : string) (items : list string) (help : string)
    (addCallback : list string -> M Operator (bool * list string)) : M Operator (list string) :=
  forever (fun tempStrings =>
    r ← newt;
    if r_value r =? 0 then mret (inl tempStrings)
    else if r_value r =? 1 then mret (inr tempStrings)
    else if r_value r =? 2 then goBack
    else if r_value r =? 3 then abort
    else if r_value r =? 4 then
      ret ← addCallback tempStrings;
      mret (if ret.1 : bool then inl ret.2 else inr ret.2)
    else if r_value r =? 5 then
      (* [cStrings] has one element more *)
      if (0 <=? r_selector r) && (r_selector r <? Z.of_nat (length tempStrings) + 1) then
        let selector := Z.to_nat (r_selector r) in
        _ ← lift (if (selector <? length tempStrings)%nat then Ok tt else UB);   (* erase(end()) *)
        mret (inl (delete selector tempStrings))
      else mret (inl tempStrings)
    else if r_value r =? 6 then _ ← helpMessage help; mret (inl tempStrings)
    else lift UB) items.

Definition MultipleSelectionEntries : Type := list (string * string * bool).

Definition retrieveSelectedItems (items : MultipleSelectionEntries) (r : Reply) : list string :=
  omap (fun i => (fun item => item.1.1) <$> items !! i) (r_selected r).

Definition checkboxSelectionMenu (title text help : string) (items : MultipleSelectionEntries)
  : M Operator (Z * list string) :=
  r ← forever (fun _ : unit =>
        r ← newtFormRun;
        match r_exit r with
        | F12 => mret (inl tt)
        | ButtonOk => mret (inr (1, r))
        | ButtonBack => mret (inr (2, r))
        | ButtonHelp => _ ← helpMessage help; mret (inl tt)
        | _ => mret (inr (3, r))
        end) tt;
  if r.1 =? 2 then goBack
  else if r.1 =? 3 then abort
  else mret (r.1, retrieveSelectedItems items r.2).

(** ** Progress

    What a percentage is, is for the screen alone. *)

Definition progressMenu {P} (title text : string) (command : CommandProxy)
    (fPercent : CommandProxy -> M Operator (option P * CommandProxy)) : M Operator (bool * CommandProxy) :=
  forever (fun command =>
    r ← newt;
    if decide (r_exit r = FdReady) then
      last_value ← fPercent command;
      match last_value.1 with
      | None => mret (inr (true, last_value.2))
      | Some _ => mret (inl last_value.2)
      end
    else mret (inr (bool_decide (r_exit r <> ButtonOk), command))) command.

(** ** Text that scrolls *)

(** [remaining.rfind(' ', width)] *)
Definition rfind_space (width : nat) (s : string) : option nat := find_last (Ascii.eqb " ") (stake (S width) s).

Fixpoint wrapLine_loop (fuel width : nat) (continuationIndent remaining out : string) : option string :=
  match fuel with
  | O => None
  | S fuel =>
      if (String.length remaining <=? width)%nat then Some (out +:+ remaining)
      else
        let split := match rfind_space width remaining with Some (S _ as split) => split | _ => width end in
        let out := out +:+ stake split remaining +:+ nl in
        let remaining := if (S split <? String.length remaining)%nat then sdrop (S split) remaining else "" in
        let remaining := (span (Ascii.eqb " ") remaining).2 in
        wrapLine_loop fuel width continuationIndent (continuationIndent +:+ remaining) out
  end.

Definition leadingSpaces (line : string) : nat := String.length (span (Ascii.eqb " ") line).1.

(** A round after which no less text is left is repeated for ever
    ([long_word_loops]): as many rounds as there are characters tell. *)
Definition wrapLine (line : string) (width : nat) : option string :=
  if (String.length line <=? width)%nat || (width =? 0)%nat then Some line
  else wrapLine_loop (S (S (String.length line))) width (srepeat " " (leadingSpaces line + 2)) line "".

Fixpoint split_lines (text : string) : list string :=
  match text with
  | EmptyString => [""]
  | String c text =>
      if Ascii.eqb c "010" then "" :: split_lines text
      else match split_lines text with
           | line :: lines => String c line :: lines
           | [] => [String c ""]
           end
  end.

Definition wrapText (text : string) (width : nat) : option string :=
  lines ← mapM (fun line => wrapLine line width) (split_lines text);
  Some (concat_sep nl lines).

Definition scrollableBodyWidth (columns : Z) : Z := Z.max 24 (columns - 18).

Definition scrollableMessage (title text body help : string) : M Operator unit :=
  o ← gets id;
  wrappedText ← lift (never (wrapText body (Z.to_nat (scrollableBodyWidth (m_cols o)))));
  _ ← newtWinMessage title wrappedText;
  forever (fun _ : unit =>
    r ← newtFormRun;
    match r_exit r with
    | F12 | Body => mret (inl tt)
    | ButtonOk => mret (inr tt)
    | ButtonHelp => _ ← helpMessage help; mret (inl tt)
    | _ => abort
    end) tt.
