(* ===== verification/ViewSpec.v ===== *)
(** * What the dialogues promise

    Loops that wait for the operator end as soon as the replies let them; what
    menus and forms give back; the bug in removing from an empty list; and
    text that is wrapped to the width of the screen, or never is. *)

From stdpp Require Import base strings list.
From Stdlib Require Import ZArith Lia Ascii.
From S2P Require Import Prelude CppString Runner View.

Local Open Scope Z_scope.

(** ** Rounds *)

Section rounds.
Context {St : Type} `{Pending St}.

(** A measure that every round decreases bounds the rounds. *)
Lemma rounds_measure {X A} (body : X -> M St (X + A)) (I : X -> Prop) (mu : X -> St -> nat) :
  (forall x s y s', I x -> body x s = (Ok (inl y), s') -> I y /\ (mu y s' < mu x s)%nat) ->
  forall n n' x s, I x -> (mu x s < n)%nat -> (mu x s < n')%nat -> rounds n body x s = rounds n' body x s.
Proof.
  intros Hb. induction n as [|n IH]; intros [|n'] x s Hx Hn Hn'; [lia..|]. cbn [rounds].
  unfold mbind, M_bind. destruct (body x s) as [[[y|a]| |] s'] eqn:E; try done.
  apply Hb in E as [Hy Hlt]; [|done]. apply IH; [done|lia..].
Qed.

Lemma rounds_enough {X A} (body : X -> M St (X + A)) :
  (forall x s y s', body x s = (Ok (inl y), s') -> (pending s' < pending s)%nat) ->
  forall n n' x s, (pending s < n)%nat -> (pending s < n')%nat -> rounds n body x s = rounds n' body x s.
Proof.
  intros Hb n n' x s. apply (rounds_measure body (fun _ => True) (fun _ => pending)); [|done]. intros. split; eauto.
Qed.

(** When a round that goes on has taken a reply, [forever] is the loop: its
    unfolding, to any depth. *)
Lemma forever_unfold {X A} (body : X -> M St (X + A)) x s :
  (forall x s y s', body x s = (Ok (inl y), s') -> (pending s' < pending s)%nat) ->
  forever body x s = (r ← body x; match r with inl y => forever body y | inr a => mret a end) s.
Proof.
  intros Hb. unfold forever at 1. cbn [rounds]. unfold mbind, M_bind.
  destruct (body x s) as [[[y|a]| |] s'] eqn:E; try done.
  apply Hb in E. apply rounds_enough; [done|lia..].
Qed.

(** The rule for a loop: an assertion on what goes from round to round. *)
Lemma wp_forever {X A} (body : X -> M St (X + A)) (J : X -> St -> Prop) Q (E : exn -> St -> Prop) x s :
  J x s ->
  (forall s, E NoReturn s) ->
  (forall x s, J x s -> wp (body x) (fun r s' => match r with inl y => J y s' | inr a => Q a s' end) E s) ->
  wp (forever body x) Q E s.
Proof.
  intros HJ HE Hb. unfold forever, wp at 1. fold (wp (rounds (S (pending s)) body x) Q E s).
  generalize (S (pending s)). intros n. revert x s HJ. induction n as [|n IH]; intros x s HJ; [apply HE|].
  cbn [rounds]. apply wp_bind. eapply wp_mono; [by apply Hb| |done].
  intros [y|a] s' Hr; [by apply IH|done].
Qed.

Lemma maintains_forever {X A} (body : X -> M St (X + A)) (I : St -> Prop) x :
  (forall x, maintains I (body x)) -> maintains I (forever body x).
Proof.
  intros Hb s. unfold forever. generalize (S (pending s)). intros n. revert x s.
  induction n as [|n IH]; intros x s Hs; [done|]. cbn [rounds].
  apply (maintains_bind I (body x)); [apply Hb| |done].
  intros [y|a] s' Hs'; [by apply IH|done].
Qed.
End rounds.

(** ** What a run that returns gives back *)

Definition returns {S A} (m : M S A) (Q : A -> Prop) : Prop := forall s a s', m s = (Ok a, s') -> Q a.

Section returns.
Context {S : Type}.

Lemma returns_weaken {A} (m : M S A) (P Q : A -> Prop) : (forall a, P a -> Q a) -> returns m P -> returns m Q.
Proof. intros HQ Hm s a s' Ha. eauto. Qed.
Lemma returns_any {A} (m : M S A) : returns m (fun _ => True).
Proof. done. Qed.
Lemma returns_ret {A} (a : A) (Q : A -> Prop) : Q a -> returns (S := S) (mret a) Q.
Proof. by intros HQ s b s' [= <- _]. Qed.
Lemma returns_throw {A} e (Q : A -> Prop) : returns (S := S) (throw e) Q.
Proof. by intros s b s'. Qed.
Lemma returns_lift {A} (o : outcome A) (Q : A -> Prop) : (forall a, o = Ok a -> Q a) -> returns (S := S) (lift o) Q.
Proof. intros HQ s a s' [= Ha _]. by apply HQ. Qed.
Lemma returns_gets {A} (f : S -> A) (Q : A -> Prop) : (forall s, Q (f s)) -> returns (gets f) Q.
Proof. by intros HQ s a s' [= <- _]. Qed.
Lemma returns_bind {A B} (m : M S A) (f : A -> M S B) P (Q : B -> Prop) :
  returns m P -> (forall a, P a -> returns (f a) Q) -> returns (x ← m; f x) Q.
Proof. intros Hm Hf s b s' (a & s1 & Ha & Hb)%M_bind_inv_ok. eapply Hf; [by eapply Hm|done]. Qed.
Lemma returns_then {A B} (m : M S A) (f : A -> M S B) (Q : B -> Prop) :
  (forall a, returns (f a) Q) -> returns (x ← m; f x) Q.
Proof. intros Hf. by apply (returns_bind _ _ (fun _ => True)). Qed.
Lemma returns_catch {A} (m : M S A) sel h (Q : A -> Prop) :
  returns m Q -> (forall e, returns (h e) Q) -> returns (try_catchM m sel h) Q.
Proof.
  intros Hm Hh s a s'. unfold try_catchM. destruct (m s) as [[b|e|] s1] eqn:E; [|destruct (sel e); [|done]|done].
  - intros [= <- _]. by eapply Hm.
  - apply Hh.
Qed.
Lemma returns_zoom {T A} (g : S -> T) put (m : M T A) (Q : A -> Prop) : returns m Q -> returns (zoom g put m) Q.
Proof. intros Hm s a s'. unfold zoom. destruct (m (g s)) as [r t] eqn:E. intros [= -> _]. by eapply Hm. Qed.
Lemma returns_rounds {X A} (body : X -> M S (X + A)) (J : X -> Prop) (Q : A -> Prop) n x :
  J x -> (forall x, J x -> returns (body x) (fun r => match r with inl y => J y | inr a => Q a end)) ->
  returns (rounds n body x) Q.
Proof.
  intros HJ Hb. revert x HJ. induction n as [|n IH]; intros x HJ; [apply returns_throw|]. cbn [rounds].
  eapply returns_bind; [by apply Hb|]. intros [y|a] Hr; [by apply IH|by apply returns_ret].
Qed.
Lemma returns_forever `{Pending S} {X A} (body : X -> M S (X + A)) (J : X -> Prop) (Q : A -> Prop) x :
  J x -> (forall x, J x -> returns (body x) (fun r => match r with inl y => J y | inr a => Q a end)) ->
  returns (forever body x) Q.
Proof. intros HJ Hb s. by apply (returns_rounds body J Q). Qed.
End returns.

Lemma wp_returns {S A} (m : M S A) (Q : A -> Prop) (E : exn -> S -> Prop) :
  (forall s, wp m (fun a _ => Q a) E s) -> returns m Q.
Proof. intros Hw s a s' Hm. specialize (Hw s). unfold wp in Hw. by rewrite Hm in Hw. Qed.

(** ** The operator *)

(** Asking takes replies, and nothing gives any back. *)
Definition asks {St A} `{Pending St} (m : M St A) : Prop :=
  forall n, maintains (fun s => (pending s <= n)%nat) m.

Lemma newt_ok o r o' : newt o = (Ok r, o') -> replies o = r :: replies o'.
Proof. unfold newt. destruct (replies o); intros [=]; by subst. Qed.

Lemma newt_asks : asks newt.
Proof.
  intros n o. unfold newt, pending, Operator_pending. destruct (replies o) eqn:E; cbn; [by rewrite E|rewrite ?E; cbn; lia].
Qed.

Lemma newtWinMessage_asks title text : asks (newtWinMessage title text).
Proof. intros n. apply maintains_modify. by intros. Qed.

Lemma wp_newt Q (E : exn -> Operator -> Prop) o :
  (forall r o', Q r o') -> (forall o', E NoReturn o') -> wp newt Q E o.
Proof. intros HQ HE. unfold wp, newt. by destruct (replies o). Qed.

Lemma wp_newtFormRun Q (E : exn -> Operator -> Prop) o :
  (forall r o', Q r o') -> (forall o', E NoReturn o') -> wp newtFormRun Q E o.
Proof.
  intros HQ HE. unfold newtFormRun. apply (wp_forever _ (fun _ _ => True)); [done..|].
  intros [] o' _. apply wp_bind, wp_newt; [|done]. intros r o''.
  case_match; [done|apply HQ].
Qed.

(** ** Forms *)

(** What a form gives back: an entry for each field, no mandatory one empty *)
Definition filled (items out : FieldEntries) : Prop :=
  out.*1 = items.*1 /\ Forall (fun entry => fieldLabelAllowsEmpty entry.1 = true \/ entry.2 <> "") out.

(** How a dialogue ends when it gives nothing back *)
Definition left_dialogue (e : exn) : Prop :=
  is_back e = true \/ is_abort e = true \/ (exists text, e = RuntimeError text) \/ e = NoReturn.

#[export] Hint Unfold left_dialogue : cpp.

Lemma edited_length values texts : length (edited values texts) = length values.
Proof. revert texts. induction values as [|v values IH]; intros [|t texts]; cbn; auto. Qed.

Lemma empty_false s : empty s = false <-> s <> "".
Proof. by destruct s. Qed.

(** The labels that fit into the buffer of the complaint *)
Definition label_fits (label : string) : Prop := (String.length label <= 45)%nat.

Lemma cannot_be_empty_spec label :
  (label_fits label -> exists text, cannot_be_empty label = Ok text) /\
  (~ label_fits label -> cannot_be_empty label = UB).
Proof.
  unfold cannot_be_empty, label_fits. rewrite !length_sapp. cbn [String.length nl].
  split; intros Hl; case_match eqn:E; eauto; (apply Nat.leb_le in E || apply Nat.leb_gt in E); cbn in E; lia.
Qed.

Lemma hasEmptyField_spec entries E o :
  Forall (fun entry => label_fits entry.1) entries ->
  wp (hasEmptyField entries) (fun bad _ => bad = false ->
    Forall (fun entry => fieldLabelAllowsEmpty entry.1 = true \/ entry.2 <> "") entries) E o.
Proof.
  intros Hl. revert o. induction Hl as [|[label value] entries Hl _ IH]; intros o; cbn [hasEmptyField].
  { by constructor. }
  destruct (fieldLabelAllowsEmpty label) eqn:Ho; [|destruct (empty value) eqn:Ev].
  - eapply wp_mono; [apply IH| |done]. intros bad o' Hf Hb. constructor; auto.
  - destruct (proj1 (cannot_be_empty_spec label) Hl) as [text Ht].
    unfold wp, mbind, M_bind, lift. by rewrite Ht.
  - eapply wp_mono; [apply IH| |done]. intros bad o' Hf Hb. constructor; [right; by apply empty_false|auto].
Qed.

Lemma zip_labels {A B} (l : list A) (k : list B) : length k = length l -> (zip l k).*1 = l.
Proof. intros Hk. apply fst_zip. lia. Qed.

(** C20. A form gives back its own fields in their order, no mandatory one
    empty, whatever the operator types and however often; it never overruns
    the buffer of its complaint when the labels have at most 45 characters,
    and one label more than that left empty does. *)
Theorem fieldMenu_spec title text items help o :
  (Forall (fun item => label_fits item.1) items ->
   wp (fieldMenu title text items help) (fun out _ => filled items out) (fun e _ => left_dialogue e) o) /\
  (forall label r l, replies o = r :: l -> r_value r = 1 -> r_texts r = [""] -> items = [(label, "")] ->
   fieldLabelAllowsEmpty label = false -> ~ label_fits label -> (fieldMenu title text items help o).1 = UB).
Proof.
  split.
  - intros Hl. unfold fieldMenu. apply wp_bind.
    enough (wp (fieldMenuImpl title text items help) (fun out _ => filled items out) (fun e _ => left_dialogue e) o) as Hw.
    { eapply wp_mono; [exact Hw| |done]. intros out o' Hf. destruct Hf as [Hout Hv].
      assert (length out = length items) as -> by (rewrite <- (length_fmap fst out), Hout; apply length_fmap).
      by rewrite Nat.eqb_refl. }
    unfold fieldMenuImpl.
    apply (wp_forever _ (fun values _ => length values = length items)); [by rewrite length_fmap|unfold left_dialogue; auto|].
    intros values o' Hv. apply wp_bind, wp_newt; [|unfold left_dialogue; auto]. intros r o''.
    assert (length (edited values (r_texts r)) = length items) as He by by rewrite edited_length.
    assert ((zip items.*1 (edited values (r_texts r))).*1 = items.*1) as Hz by (apply zip_labels; by rewrite length_fmap).
    repeat case_match; try (cbn; unfold left_dialogue; by eauto 6).
    apply wp_bind. eapply wp_mono; [apply (hasEmptyField_spec _ (fun e _ => left_dialogue e))| |done].
    { apply Forall_fmap with (f := fst) (P := label_fits). rewrite Hz. by apply Forall_fmap. }
    intros [] o1 Hb; cbn; [done|]. split; [done|by apply Hb].
  - intros label r l Ho Hr Ht -> Hm Hf.
    unfold fieldMenu, fieldMenuImpl, forever. cbn [rounds]. unfold mbind, M_bind, newt. rewrite Ho.
    rewrite Ht, Hr. cbn. rewrite Hm. unfold mbind, M_bind, lift. by rewrite (proj2 (cannot_be_empty_spec label) Hf).
Qed.

(** ** Geometry *)

(** On a terminal of at least 40 by 16 characters every form and list fits, with
    the texts of [int] size; on any terminal the sizes are defined. *)
Lemma dialogues_fit cols rows label item message title count :
  0 <= cols < 2 ^ 16 -> 0 <= rows < 2 ^ 16 -> 0 <= label < 2 ^ 30 -> 0 <= item < 2 ^ 30 -> 0 <= count < 2 ^ 30 ->
  exists m w height, Geometry.refreshScreenMetrics cols rows = Ok m /\ Geometry.fieldDialogWidth cols m label = Ok w /\
    Geometry.listHeight m count = Ok height /\
    (40 <= cols -> w <= cols /\ Geometry.listDialogWidth m item message title <= cols) /\
    (20 <= rows -> height <= rows - 16).
Proof.
  intros Hc Hr Hl Hi Hn. unfold Geometry.refreshScreenMetrics, Geometry.calculateDataWidth, Geometry.clamp.
  change (Geometry.maxDataWidth <? Geometry.minDataWidth) with false. cbn [mbind outcome_bind].
  set (data := Z.max _ _). eexists _, _, _. split; [done|].
  unfold Geometry.fieldDialogWidth, Geometry.calculateFieldDialogWidth, Geometry.listHeight, Geometry.calculateListHeight,
    Geometry.clamp, Geometry.listDialogWidth, Geometry.calculateListDialogWidth, Geometry.calculateDialogWidth,
    Geometry.calculateMaxListHeight, Geometry.m_suggestedWidth, Geometry.m_maxListHeight, Geometry.minDialogWidth,
    Geometry.maxDialogWidth, Geometry.dialogMargin, Geometry.minListHeight, Geometry.minFieldDialogWidth.
  rewrite (proj2 (Z.ltb_ge _ _)) by lia. rewrite (proj2 (Z.ltb_ge _ _)) by lia.
  split; [done|]. split; [done|]. split; [intros; split; lia|]. intros. lia.
Qed.

(** ** Lists *)

(** A menu gives back one of its items; without any it stops the
    questionnaire. *)
Lemma listMenu_spec title text items help o :
  wp (listMenu title text items help) (fun choice _ => choice ∈ items) (fun e _ => left_dialogue e) o.
Proof.
  unfold listMenu. apply wp_bind.
  apply (wp_mono _ (fun _ _ => True) _ (fun e _ => left_dialogue e)); [| |done].
  { by destruct items; [right; left|]. }
  intros _ o' _. apply (wp_forever _ (fun _ _ => True)); [done|unfold left_dialogue; auto|].
  intros [] o1 _. apply wp_bind, wp_newtFormRun; [|unfold left_dialogue; auto].
  intros r o2. destruct (r_exit r); unfold left_dialogue; cbn; auto.
  all: destruct (r_current r) as [i|]; cbn; [|done].
  all: destruct (items !! i) as [item|] eqn:Hi; cbn; [|done].
  all: by apply list_elem_of_lookup_2 in Hi.
Qed.

(** In a list to be edited, removing the entry pointed at removes it and
    nothing else; with the pointer behind the last entry, which is where it is
    once all have been removed, erasing is undefined. *)
Theorem collect_remove title text items help add r l o :
  replies o = r :: l -> r_value r = 5 -> 0 <= r_selector r <= Z.of_nat (length items) ->
  collectListMenu title text items help add o =
    if r_selector r =? Z.of_nat (length items) then (UB, mkOperator l (shown o) (m_cols o) (m_rows o))
    else collectListMenu title text (delete (Z.to_nat (r_selector r)) items) help add
           (mkOperator l (shown o) (m_cols o) (m_rows o)).
Proof.
  intros Ho Hr Hsel. unfold collectListMenu at 1, forever.
  assert (pending o = S (length l)) as Hp by (unfold pending, Operator_pending; by rewrite Ho).
  rewrite Hp. remember (S (length l)) as n eqn:Hn. cbn [rounds].
  unfold mbind, M_bind, newt. rewrite Ho, Hr. cbn [Z.eqb Pos.eqb].
  rewrite (proj2 (Z.leb_le 0 _)) by lia. rewrite (proj2 (Z.ltb_lt _ _)) by lia. cbn [andb].
  destruct (Z.eqb_spec (r_selector r) (Z.of_nat (length items))) as [Hend|Hin].
  - unfold lift. rewrite (proj2 (Nat.ltb_ge _ _)) by lia. done.
  - unfold lift. rewrite (proj2 (Nat.ltb_lt _ _)) by lia. by subst n.
Qed.

Local Close Scope Z_scope.

(** ** Wrapping text *)

(** *** Texts *)

Lemma find_last_Some p s i :
  find_last p s = Some i ->
  exists a c b, s = a +:+ String c b /\ String.length a = i /\ p c = true /\ sforall (fun c => negb (p c)) b = true.
Proof.
  assert (forall s, find_last p s = None -> sforall (fun c => negb (p c)) s = true) as Hnone.
  { induction s0 as [|c s0 IH]; [done|]. cbn. destruct (find_last p s0); [done|]. destruct (p c); [done|]. intros _. by apply IH. }
  revert i. induction s as [|c s IH]; intros i; [done|]. cbn [find_last].
  destruct (find_last p s) as [j|] eqn:E.
  - intros [= <-]. destruct (IH j eq_refl) as (a & d & b & -> & <- & Hd & Hb). by exists (String c a), d, b.
  - destruct (p c) eqn:Hc; [|done]. intros [= <-]. exists "", c, s. by rewrite Hnone.
Qed.

Lemma find_last_None p s : sforall (fun c => negb (p c)) s = true <-> find_last p s = None.
Proof.
  split.
  - induction s as [|c s IH]; [done|]. cbn. rewrite andb_true_iff, negb_true_iff. intros [-> Hs]. by rewrite IH.
  - induction s as [|c s IH]; [done|]. cbn. destruct (find_last p s); [done|]. destruct (p c); [done|]. intros _. by apply IH.
Qed.

Lemma find_last_app p a b :
  find_last p (a +:+ b) =
    match find_last p b with Some j => Some (String.length a + j) | None => find_last p a end.
Proof.
  induction a as [|c a IH]; [change ("" +:+ b) with b; by destruct (find_last p b)|].
  rewrite app_cons. cbn [find_last]. rewrite IH. by destruct (find_last p b).
Qed.

Lemma stake_plus n a b : stake (String.length a + n) (a +:+ b) = a +:+ stake n b.
Proof. induction a as [|c a IH]; [done|]. rewrite !app_cons. cbn. by rewrite IH. Qed.

Lemma sdrop_plus n a b : sdrop (String.length a + n) (a +:+ b) = sdrop n b.
Proof. induction a as [|c a IH]; [done|]. exact IH. Qed.

Lemma span_spec p s :
  exists a b, span p s = (a, b) /\ s = a +:+ b /\ sforall p a = true /\ (forall c b', b = String c b' -> p c = false).
Proof.
  induction s as [|c s (a & b & Hs & -> & Ha & Hb)]; [by exists "", ""|]. cbn [span]. destruct (p c) eqn:Hc.
  - exists (String c a), b. rewrite Hs. cbn. by rewrite Hc, Ha.
  - exists "", (String c (a +:+ b)). split_and!; [done..|]. by intros d b' [= <- <-].
Qed.

Lemma length_srepeat c n : String.length (srepeat c n) = n.
Proof. induction n; cbn; auto. Qed.

Lemma sforall_srepeat p c n : p c = true -> sforall p (srepeat c n) = true.
Proof. intros Hc. induction n; cbn; [done|]. by rewrite Hc. Qed.

(** *** Words *)

(** Every run of characters that are not spaces has at most [n] of them; a
    first one at most [room]. *)
Fixpoint words_within (n room : nat) (s : string) : bool :=
  match s with
  | EmptyString => true
  | String c s =>
      if Ascii.eqb " " c then words_within n n s
      else match room with O => false | S room => words_within n room s end
  end.
Definition words_fit (n : nat) (s : string) : bool := words_within n n s.

Lemma words_within_mono n l l' s : l <= l' -> words_within n l s = true -> words_within n l' s = true.
Proof.
  revert l l'. induction s as [|c s IH]; intros l l' Hl; [done|]. cbn [words_within].
  destruct (Ascii.eqb " " c); [done|]. destruct l as [|l]; [done|]. destruct l' as [|l']; [lia|]. apply IH. lia.
Qed.

Lemma words_fit_suffix n a b : words_fit n (a +:+ b) = true -> words_fit n b = true.
Proof.
  enough (forall l, l <= n -> words_within n l (a +:+ b) = true -> words_fit n b = true) as He by (apply He; lia).
  induction a as [|c a IH]; intros l Hl; [apply words_within_mono; exact Hl|]. rewrite app_cons. cbn [words_within].
  destruct (Ascii.eqb " " c); [by apply IH|]. destruct l as [|l]; [done|]. apply IH. lia.
Qed.

Lemma words_within_run n l w b : no_char " " w = true -> words_within n l (w +:+ b) = true -> String.length w <= l.
Proof.
  revert l. induction w as [|c w IH]; intros l Hw Hl; [cbn; lia|]. rewrite app_cons in Hl.
  unfold no_char in Hw. cbn [sforall words_within] in Hw, Hl. apply andb_true_iff in Hw as [Hc Hw]. apply negb_true_iff in Hc. rewrite Hc in Hl.
  destruct l as [|l]; [done|]. cbn [String.length]. apply le_n_S. by apply IH.
Qed.

(** What is to be seen of a text *)
Definition visible (s : string) : string := erase_char "010" (erase_char " " s).

Lemma visible_app a b : visible (a +:+ b) = visible a +:+ visible b.
Proof. unfold visible. by rewrite !erase_char_app. Qed.

Lemma visible_blank a : sforall (Ascii.eqb " ") a = true -> visible a = "".
Proof.
  unfold visible, erase_char. induction a as [|c a IH]; [done|]. cbn [sforall sfilter]. rewrite andb_true_iff. intros [-> Ha].
  cbn [negb]. by apply IH.
Qed.

Lemma split_lines_app a b : no_char "010" a = true -> split_lines (a +:+ nl +:+ b) = a :: split_lines b.
Proof.
  induction a as [|c a IH]; [done|]. unfold no_char. cbn [sforall]. rewrite andb_true_iff, negb_true_iff, Ascii.eqb_sym.
  intros [Hc Ha]. rewrite app_cons. cbn [split_lines]. rewrite Hc. by rewrite IH.
Qed.

Lemma split_lines_one a : no_char "010" a = true -> split_lines a = [a].
Proof.
  induction a as [|c a IH]; [done|]. unfold no_char. cbn [sforall]. rewrite andb_true_iff, negb_true_iff, Ascii.eqb_sym.
  intros [Hc Ha]. cbn [split_lines]. by rewrite Hc, IH.
Qed.

(** *** The loop *)

Lemma wrapLine_loop_out fuel width indent remaining out :
  wrapLine_loop fuel width indent remaining out = (fun res => out +:+ res) <$> wrapLine_loop fuel width indent remaining "".
Proof.
  revert remaining out. induction fuel as [|fuel IH]; intros remaining out; [done|]. cbn [wrapLine_loop].
  destruct (_ <=? _); [done|]. set (rest := indent +:+ _). set (line := stake _ remaining +:+ nl).
  rewrite (IH rest (out +:+ line)), (IH rest ("" +:+ line)). destruct (wrapLine_loop _ _ _ _ ""); [|done].
  cbn [fmap option_fmap option_map]. f_equal. change ("" +:+ line) with line.
  by rewrite sapp_assoc.
Qed.

(** One round at a space: the line up to it is written, and what follows the
    space is indented. *)
Lemma wrapLine_round fuel width indent a b t t' :
  width < String.length (a +:+ String " " b) -> 0 < String.length a <= width ->
  find_last (Ascii.eqb " ") (stake (width - String.length a) b) = None -> span (Ascii.eqb " ") b = (t, t') ->
  wrapLine_loop (S fuel) width indent (a +:+ String " " b) "" =
    (fun res => (a +:+ nl) +:+ res) <$> wrapLine_loop fuel width indent (indent +:+ t') "".
Proof.
  intros Hw Ha Hf Hs. cbn [wrapLine_loop]. rewrite (proj2 (Nat.leb_gt _ _) Hw).
  assert (rfind_space width (a +:+ String " " b) = Some (String.length a)) as Hr.
  { unfold rfind_space. replace (S width) with (String.length a + S (width - String.length a)) by lia.
    rewrite stake_plus, find_last_app. cbn [stake find_last]. rewrite Hf. cbn. f_equal. lia. }
  rewrite Hr. destruct (String.length a) as [|k] eqn:Hk; [lia|]. rewrite <- Hk.
  rewrite stake_app, sdrop_at.
  replace (if _ <? _ then b else "") with b.
  2: { case_match eqn:E; [done|]. apply Nat.ltb_ge in E. rewrite length_sapp in E. cbn in E. by destruct b; [|cbn in E; lia]. }
  rewrite Hs. cbn [snd]. apply wrapLine_loop_out.
Qed.

Section wrap.
Variables width indent : nat.
Hypothesis Hwidth : indent <= width.
Let margin := srepeat " " indent.

(** What is left: at most the indentation, then text that starts with a word *)
Lemma wrapLine_loop_fits fuel i t :
  i <= indent -> String.length t < fuel -> (forall c t', t = String c t' -> Ascii.eqb " " c = false) ->
  words_fit (width - indent) t = true -> no_char "010" t = true ->
  exists res, wrapLine_loop fuel width margin (srepeat " " i +:+ t) "" = Some res /\
    Forall (fun line => String.length line <= width) (split_lines res) /\ visible res = visible t.
Proof.
  revert i t. induction fuel as [|fuel IH]; intros i t Hi Hfuel Hhead Hwords Hnl; [lia|].
  assert (no_char "010" (srepeat " " i) = true) as Hnli by by apply sforall_srepeat.
  destruct (decide (String.length (srepeat " " i +:+ t) <= width)) as [Hfit|Hlong].
  { eexists. split_and!.
    - cbn [wrapLine_loop]. rewrite (proj2 (Nat.leb_le _ _) Hfit). reflexivity.
    - change ("" +:+ ?s) with s. rewrite split_lines_one; [by apply Forall_singleton|].
      by rewrite no_char_app, Hnli, Hnl.
    - change ("" +:+ ?s) with s. rewrite visible_app, visible_blank; [done|]. by apply sforall_srepeat. }
  rewrite length_sapp, length_srepeat in Hlong.
  set (m := S width - i). pose proof (stake_sdrop m t) as Ht.
  destruct (find_last (Ascii.eqb " ") (stake m t)) as [j|] eqn:Hj.
  2: { apply find_last_None in Hj. rewrite <- Ht in Hwords.
       pose proof (words_within_run _ _ _ _ Hj Hwords) as Hl. rewrite length_stake in Hl. lia. }
  apply find_last_Some in Hj as (a & c & b & Hab & <- & Hc & Hb). apply Ascii.eqb_eq in Hc as <-.
  assert (String.length a + S (String.length b) <= m) as Hm.
  { pose proof (length_stake m t) as Hl. rewrite Hab, length_sapp in Hl. cbn in Hl. lia. }
  assert (0 < String.length a) as Ha.
  { destruct a; [|cbn; lia]. rewrite Hab in Ht. by specialize (Hhead _ _ (eq_sym Ht)). }
  rewrite Hab, <- sapp_assoc, app_cons in Ht. set (rest := b +:+ sdrop m t) in *.
  destruct (span_spec (Ascii.eqb " ") rest) as (sp & t' & Hspan & Hrest & Hsp & Hhead').
  assert (String.length t = String.length a + S (String.length sp + String.length t')) as Hlen.
  { rewrite <- Ht, length_sapp. cbn. by rewrite Hrest, length_sapp. }
  rewrite <- Ht, Hrest in Hwords. rewrite <- Ht, Hrest, no_char_app in Hnl. apply andb_true_iff in Hnl as [Hnla Hnl].
  unfold no_char in Hnl. cbn [sforall] in Hnl. apply andb_true_iff in Hnl as [_ Hnl].
  rewrite sforall_app in Hnl. apply andb_true_iff in Hnl as [_ Hnl].
  destruct (IH indent t') as (res & Hres & Hlines & Hvis); [done|lia|done| |done|].
  { apply words_fit_suffix with (a := a +:+ String " " sp). by rewrite <- sapp_assoc, app_cons. }
  exists (((srepeat " " i +:+ a) +:+ nl) +:+ res). split_and!.
  - rewrite <- Ht at 1. rewrite sapp_assoc. rewrite (wrapLine_round _ _ _ _ _ sp t'); [change margin with (srepeat " " indent) at 2; by rewrite Hres|..].
    + rewrite <- sapp_assoc, Ht, length_sapp, length_srepeat. lia.
    + rewrite length_sapp, length_srepeat. lia.
    + apply find_last_None. rewrite length_sapp, length_srepeat.
      replace (width - _) with (String.length b + (width - i - String.length a - String.length b)) by lia.
      unfold rest. rewrite stake_plus, sforall_app, Hb. cbn.
      replace (width - i - String.length a - String.length b) with 0; [done|].
      assert (String.length (stake m t) = m) as Hlm by (rewrite length_stake; lia).
      rewrite Hab, length_sapp in Hlm. cbn in Hlm. lia.
    + done.
  - rewrite <- sapp_assoc, split_lines_app; [|by rewrite no_char_app, Hnli, Hnla].
    constructor; [|done]. rewrite length_sapp, length_srepeat. lia.
  - assert (visible (srepeat " " i) = "") as Hi0 by (apply visible_blank, sforall_srepeat; reflexivity).
    rewrite !visible_app, Hi0, Hvis.
    rewrite <- Ht, Hrest, visible_app. change (String " " (sp +:+ t')) with ((" " +:+ sp) +:+ t').
    rewrite !visible_app, (visible_blank sp) by done. change (visible nl) with "". change (visible " ") with "".
    by rewrite sapp_nil_r.
Qed.
End wrap.

(** *** The line *)

(** A line: some spaces, then text that does not start with one *)
Lemma leading_split line :
  exists t, line = srepeat " " (leadingSpaces line) +:+ t /\ (forall c t', t = String c t' -> Ascii.eqb " " c = false).
Proof.
  unfold leadingSpaces. destruct (span_spec (Ascii.eqb " ") line) as (a & t & -> & -> & Ha & Ht). exists t.
  cbn [fst]. split; [|done]. f_equal. clear Ht. induction a as [|c a IH]; [done|].
  cbn [sforall] in Ha. apply andb_true_iff in Ha as [<-%Ascii.eqb_eq Ha]. cbn. by rewrite <- IH.
Qed.

(** C34. A line whose words fit beside the indentation of its continuation is
    wrapped into lines no longer than the screen is wide, with nothing lost
    or added but white space. *)
Theorem wrapLine_spec line width :
  leadingSpaces line + 2 <= width -> words_fit (width - (leadingSpaces line + 2)) line = true ->
  no_char "010" line = true ->
  exists out, wrapLine line width = Some out /\
    Forall (fun l => String.length l <= width) (split_lines out) /\ visible out = visible line.
Proof.
  intros Hw Hwords Hnl. unfold wrapLine. destruct (String.length line <=? width) eqn:Hl.
  { cbn. eexists. split_and!; [done| |done]. rewrite split_lines_one by done. by apply Forall_singleton, Nat.leb_le. }
  destruct (width =? 0) eqn:H0; [apply Nat.eqb_eq in H0; lia|]. cbn [orb].
  destruct (leading_split line) as (t & Ht & Hhead). remember (leadingSpaces line) as k eqn:Hk. clear Hk.
  destruct (wrapLine_loop_fits width (k + 2) Hw (S (S (String.length line))) k t)
    as (res & Hres & Hlines & Hvis).
  - lia.
  - rewrite Ht, length_sapp. lia.
  - done.
  - rewrite Ht in Hwords. by apply words_fit_suffix in Hwords.
  - rewrite Ht in Hnl. rewrite no_char_app in Hnl. by apply andb_true_iff in Hnl as [_ ?].
  - rewrite <- Ht in Hres. exists res. split_and!; [done..|]. rewrite Hvis, Ht.
    by rewrite visible_app, (visible_blank (srepeat " " k)) by by apply (sforall_srepeat (Ascii.eqb " ")).
Qed.

(** *** A long word *)

Lemma sforall_stake_app (w b : string) n (p : ascii -> bool) :
  sforall p w = true -> n <= String.length w -> sforall p (stake n (w +:+ b)) = true.
Proof.
  revert n. induction w as [|c w IH]; intros [|n] Hw Hn; cbn [String.length] in Hn; [done|lia|done|].
  rewrite app_cons. cbn [stake sforall] in *. apply andb_true_iff in Hw as [-> Hw]. apply IH; [done|lia].
Qed.

Lemma span_word w b : no_char " " w = true -> w <> "" -> span (Ascii.eqb " ") (w +:+ b) = ("", w +:+ b).
Proof.
  destruct w as [|c w]; [done|]. intros Hw _. rewrite app_cons. unfold no_char in Hw. cbn [sforall span] in *.
  apply andb_true_iff in Hw as [Hc _]. apply negb_true_iff in Hc. by rewrite Hc.
Qed.

(** Once a word longer than the room beside the indentation is next, every
    round writes a blank line and has the same text left. *)
Lemma long_word_loops fuel width k w b out :
  no_char " " w = true -> width < S (S k) + String.length w -> S (S k) <= S width -> w <> "" ->
  wrapLine_loop fuel width (srepeat " " (S (S k))) (srepeat " " (S (S k)) +:+ w +:+ b) out = None.
Proof.
  intros Hw Hlong Hk Hne. revert out. induction fuel as [|fuel IH]; intros out; [done|].
  rewrite wrapLine_loop_out.
  assert (srepeat " " (S (S k)) = srepeat " " (S k) +:+ " ") as Hrep.
  { clear. generalize (S k). intros n. induction n as [|n IH]; [done|]. cbn [srepeat] in *. by rewrite app_cons, <- IH. }
  rewrite Hrep at 2. rewrite <- sapp_assoc. change (" " +:+ w +:+ b) with (String " " (w +:+ b)).
  rewrite (wrapLine_round _ _ _ _ _ "" (w +:+ b)); [by rewrite IH|..].
  - rewrite length_sapp, length_srepeat. cbn [String.length]. rewrite length_sapp. lia.
  - rewrite length_srepeat. lia.
  - apply find_last_None. rewrite length_srepeat.
    apply (sforall_stake_app w b); [done|lia].
  - by apply span_word.
Qed.

Lemma wrapLine_out_of_room line width k a w b :
  line = srepeat " " k +:+ a +:+ String " " (w +:+ b) ->
  (forall c t', a = String c t' -> Ascii.eqb " " c = false) -> a <> "" ->
  no_char " " w = true -> w <> "" ->
  k + String.length a <= width -> width < k + String.length a + S (String.length w) ->
  width < k + 2 + String.length w -> k < width ->
  forall fuel, wrapLine_loop fuel width (srepeat " " (k + 2)) line "" = None /\ wrapLine line width = None.
Proof.
  intros -> Ha Hane Hw Hwne Hroom Hlong Hlong' Hk fuel.
  set (line := srepeat " " k +:+ a +:+ String " " (w +:+ b)).
  assert (leadingSpaces line = k) as Hlead.
  { unfold leadingSpaces, line. rewrite span_app; [apply length_srepeat|by apply (sforall_srepeat (Ascii.eqb " "))|].
    destruct a as [|c a]; [done|]. rewrite app_cons. by rewrite (Ha c a eq_refl). }
  assert (0 < String.length a) as Hapos by (destruct a; [done|cbn; lia]).
  assert (width < String.length line) as Hlen.
  { unfold line. rewrite !length_sapp, length_srepeat. cbn [String.length]. rewrite length_sapp. lia. }
  assert (forall fuel, wrapLine_loop fuel width (srepeat " " (k + 2)) line "" = None) as Hloop.
  { intros [|f]; [done|]. unfold line. rewrite sapp_assoc.
    rewrite (wrapLine_round _ _ _ _ _ "" (w +:+ b)).
    - rewrite Nat.add_comm. cbn [Nat.add]. by rewrite long_word_loops by (done || lia).
    - by rewrite <- sapp_assoc.
    - rewrite length_sapp, length_srepeat. lia.
    - apply find_last_None. rewrite length_sapp, length_srepeat.
      apply (sforall_stake_app w b); [done|lia].
    - by apply span_word. }
  split; [apply Hloop|]. unfold wrapLine. rewrite (proj2 (Nat.leb_gt _ _) Hlen).
  destruct (width =? 0) eqn:H0; [apply Nat.eqb_eq in H0; lia|]. cbn [orb]. by rewrite Hlead.
Qed.

(** C35. A word that fits neither the rest of its line nor the next one beside
    the indentation is never written: whatever number of rounds is allowed,
    wrapping does not end, and the text that was to scroll is never shown. *)
Theorem long_word_never_returns title text help line k a w b (o : Operator) :
  let width := Z.to_nat (scrollableBodyWidth (m_cols o)) in
  line = srepeat " " k +:+ a +:+ String " " (w +:+ b) ->
  (forall c t', a = String c t' -> Ascii.eqb " " c = false) -> a <> "" ->
  no_char " " w = true -> w <> "" -> no_char "010" line = true ->
  k + String.length a <= width -> width < k + String.length a + S (String.length w) ->
  width < k + 2 + String.length w -> k < width ->
  (forall fuel, wrapLine_loop fuel width (srepeat " " (k + 2)) line "" = None) /\
  scrollableMessage title text line help o = (Throw NoReturn, o).
Proof.
  intros width Hline Ha Hane Hw Hwne Hnl Hroom Hlong Hlong' Hk.
  pose proof (wrapLine_out_of_room line width k a w b Hline Ha Hane Hw Hwne Hroom Hlong Hlong' Hk) as Hnone.
  split; [intros fuel; apply Hnone|].
  unfold scrollableMessage, mbind at 1, M_bind, gets. cbn [id]. fold width.
  unfold wrapText. rewrite split_lines_one by done. cbn [mapM]. by rewrite (proj2 (Hnone 0)).
Qed.
