(* ===== verification/Presenters.v ===== *)
(** * The dialogues of the questionnaire

    [src/presenter]: each presenter asks its questions and calls setters of
    the cluster.  This file has the simple ones: general settings, time,
    locale, host name, provisioner, OpenHPC, repositories, queue system and
    mail. *)

From stdpp Require Import base strings list gmap sorting.
From Stdlib Require Import ZArith Lia Ascii.
From S2P Require Import Prelude CppString External Enums KeyFile Options StdMap World FileOps.
From S2P Require Import Cluster ClusterFill.
From S2P Require Export View.
From S2P Require Network Connection Timezone DiskImage Postfix Runner RepoConfig.

Local Open Scope Z_scope.

#[export, program] Instance BootTarget_enum : CppEnum BootTarget.t := {|
  enum_values := [BootTarget.Text; BootTarget.Graphical];
  enum_name x := match x with BootTarget.Text => "Text" | BootTarget.Graphical => "Graphical" end |}.
Solve All Obligations with solve_enum.

(** ** What presenters work with *)

(** The cluster, the machine, the operator, and the variable of [main] that
    the completed steps are reported to *)
Record Desk `{Asio} := mkDesk {
  d_model : Cluster;
  d_world : World;
  d_operator : Operator;
  d_completedSteps : list string;
}.

#[export] Instance Desk_pending `{Asio} : Pending Desk := fun d => pending (d_operator d).

Section desk.
Context `{Asio}.

Definition m_model {A} (m : M Cluster A) : M Desk A :=
  zoom d_model (fun c d => mkDesk _ c (d_world d) (d_operator d) (d_completedSteps d)) m.
Definition m_world {A} (m : M World A) : M Desk A :=
  zoom d_world (fun w d => mkDesk _ (d_model d) w (d_operator d) (d_completedSteps d)) m.
(** What works on both the cluster and the machine *)
Definition m_site {A} (m : M (Cluster * World) A) : M Desk A :=
  zoom (fun d => (d_model d, d_world d))
       (fun s d => mkDesk _ s.1 s.2 (d_operator d) (d_completedSteps d)) m.
Definition m_view {A} (m : M Operator A) : M Desk A :=
  zoom d_operator (fun o d => mkDesk _ (d_model d) (d_world d) o (d_completedSteps d)) m.

(** What a question looks up in the cluster *)
Definition model_get {A} (f : Cluster -> A) : M Desk A := gets (fun d => f (d_model d)).

(** [entries\[i\].second] *)
Definition field (entries : FieldEntries) (i : nat) : string := default "" (snd <$> entries !! i).
End desk.

Section presenters.
Context `{Asio} `{BoostText} `{BoostPort} `{GKeyFile} `{Fmt} `{Machine}.
Variable h : Host.
Variable runner : Runner.IRunner.

(** ** Welcome, instructions, general settings *)

Definition PresenterWelcome : M Desk unit := m_view (message "" Welcome.Welcome_message).
Definition PresenterInstructions : M Desk unit := m_view (message "" Instructions.Instructions_message).

Definition PresenterGeneralSettings : M Desk unit :=
  generalSettings ← m_view (fieldMenu GeneralSettings.title GeneralSettings.General_question
    [(GeneralSettings.General_clusterName, ""); (GeneralSettings.General_companyName, "");
     (GeneralSettings.General_adminEmail, "")] GeneralSettings.General_help);
  _ ← m_model (setName (field generalSettings 0));
  _ ← m_model (setCompanyName (field generalSettings 1));
  _ ← m_model (setAdminMail (field generalSettings 2));
  chosen ← m_view (listMenu GeneralSettings.title GeneralSettings.BootTarget_question
    (toStrings BootTarget.t) GeneralSettings.BootTarget_help);
  target ← lift (value (ofStringOpt (T := BootTarget.t) chosen Sensitive));
  m_model (modify (fun c => put_k_headnode (setBootTarget target (k_headnode c)) c)).

(** ** Time *)

Inductive TimezoneNode := mkZone (terminal : bool) (children : list (string * TimezoneNode)).

Definition terminal (n : TimezoneNode) : bool := let '(mkZone t _) := n in t.
Definition children (n : TimezoneNode) : list (string * TimezoneNode) := let '(mkZone _ c) := n in c.

(** The pieces between slashes; a slash at the end adds none. *)
Definition splitTimezonePath (path : string) : list string := getlines "/" path.

(** [current->children\[part\]]: the children are kept in order. *)
Fixpoint child_insert (part : string) (f : TimezoneNode -> TimezoneNode) (l : list (string * TimezoneNode))
  : list (string * TimezoneNode) :=
  match l with
  | [] => [(part, f (mkZone false []))]
  | (name, n) :: l =>
      if String.eqb part name then (name, f n) :: l
      else if String.ltb part name then (part, f (mkZone false [])) :: (name, n) :: l
      else (name, n) :: child_insert part f l
  end.

Fixpoint insert_parts (parts : list string) (n : TimezoneNode) : TimezoneNode :=
  match parts with
  | [] => mkZone true (children n)
  | part :: parts => mkZone (terminal n) (child_insert part (insert_parts parts) (children n))
  end.

Definition insertTimezone (root : TimezoneNode) (path : string) : TimezoneNode :=
  if empty path then mkZone true (children root) else insert_parts (splitTimezonePath path) root.

Definition childNames (n : TimezoneNode) : list string := (children n).*1.

(** [std::set<std::string>] in its order *)
Definition timezoneAreas (zones : Timezone.multimap) : list string :=
  merge_sort name_le (elements (list_to_set (C := gset string) zones.*1)).

(** Walking down the tree: [at] throws for a name that is not there. *)
Fixpoint zone_child (l : list (string * TimezoneNode)) (name : string) : outcome TimezoneNode :=
  match l with
  | [] => Throw (OutOfRange "map::at")
  | (k, n) :: l => if String.eqb name k then Ok n else zone_child l name
  end.

Definition ask_location (at_ : string * TimezoneNode) : M Desk (string * TimezoneNode + string) :=
  let '(selectedTimezone, current) := at_ in
  match children current with
  | [] => mret (inr selectedTimezone)
  | _ =>
      location ← m_view (listMenu Time.title Time.Timezone_question (childNames current) Time.Timezone_help);
      next ← lift (zone_child (children current) location);
      mret (inl (selectedTimezone +:+ "/" +:+ location, next))
  end.

Definition add_timeserver (items : list string) : M Operator (bool * list string) :=
  timeserver ← fieldMenu Time.title Time.AddTimeserver_question [(Time.AddTimeserver_field, "")]
                 Time.AddTimeserver_help;
  mret (true, items ++ [field timeserver 0]).

Definition PresenterTime : M Desk unit :=
  availableTimezones ← model_get (fun c => Timezone.m_availableTimezones (k_timezone c));
  _ ← match availableTimezones with
      | [] => m_view (fatalMessage Time.title
          ("No timezones were discovered on this system. Verify that tzdata's zone1970.tab or " +:+
           "'timedatectl list-timezones --no-pager' works and try again."))
      | _ => skip
      end;
  area ← m_view (listMenu Time.title Time.Timezone_question (timezoneAreas availableTimezones) Time.Timezone_help);
  _ ← m_model (zoom k_timezone put_k_timezone (Timezone.setTimezoneArea area));
  let timezoneTree :=
    foldl insertTimezone (mkZone false []) (filter (fun kv => kv.1 = area) availableTimezones).*2 in
  _ ← match terminal timezoneTree, children timezoneTree with
      | false, [] => m_view (fatalMessage Time.title "No timezone locations were found for the selected area.")
      | _, _ => skip
      end;
  selectedTimezone ← forever ask_location (area, timezoneTree);
  _ ← m_model (setTimezone selectedTimezone);
  timeservers ← m_view (collectListMenu Time.title Time.Timeservers_question ["0.br.pool.ntp.org"]
                  Time.Timeservers_help add_timeserver);
  m_model (zoom k_timezone put_k_timezone (Timezone.setTimeservers timeservers)).

(** ** Host name *)

(** [auto hostnameValidation = ...; if (!hostnameValidation.has_value())] *)
Definition refused (e : expected) : option string := match e with Unexpected e => Some e | Value _ => None end.

Definition PresenterHostId : M Desk unit :=
  forever (fun _ : unit =>
    entries ← model_get (fun c =>
      [(HostId.hostname, s_hostname (h_server (k_headnode c))); (HostId.domainName, getDomainName c)]);
    answers ← m_view (fieldMenu HostId.title HostId.question entries HostId.help);
    _ ← m_model (on_headnode (setHostname (field answers 0)));
    _ ← m_model (setDomainName (field answers 1));
    server ← model_get (fun c => h_server (k_headnode c));
    hostnameValidation ← lift (validateHostname server);
    fqdnValidation ← lift (validateFQDN server);
    match refused hostnameValidation, refused fqdnValidation with
    | Some error, _ => _ ← m_view (message HostId.title ("Hostname validation error: " +:+ error)); mret (inl tt)
    | None, Some error => _ ← m_view (message HostId.title ("Domain validation error: " +:+ error)); mret (inl tt)
    | None, None => mret (inr tt)
    end) tt.

(** ** Provisioner *)

Definition supportedProvisionersFor (os : OS) : outcome (list Provisioner.t) :=
  platform ← getPlatform os;
  match platform with
  | Platform.ubuntu2404 => Ok [Provisioner.xCAT; Provisioner.Confluent]
  | Platform.el8 | Platform.el9 | Platform.el10 => Ok [Provisioner.xCAT; Provisioner.Confluent]
  end.

Definition supportedProvisionersFor_both (headnodeOS computeNodeOS : OS) : outcome (list Provisioner.t) :=
  headnodeSupported ← supportedProvisionersFor headnodeOS;
  supported ← supportedProvisionersFor computeNodeOS;
  let supported := filter (fun p => p ∈ headnodeSupported) supported in
  headnodePlatform ← getPlatform headnodeOS;
  if decide (headnodePlatform = Platform.ubuntu2404) then
    computePlatform ← getPlatform computeNodeOS;
    Ok (if decide (computePlatform <> Platform.ubuntu2404) then filter (fun p => p <> Provisioner.xCAT) supported
        else supported)
  else Ok supported.

Definition toProvisionerName (p : Provisioner.t) : string :=
  match p with Provisioner.xCAT => "xcat" | Provisioner.Confluent => "confluent" end.

(** [std::find] of what is not there gives the end: indexing is undefined. *)
Definition PresenterProvisioner : M Desk unit :=
  headnodeOS ← model_get (fun c => s_os (h_server (k_headnode c)));
  computeNodeOS ← model_get getComputeNodeOS;
  supported ← lift (supportedProvisionersFor_both headnodeOS computeNodeOS);
  match supported with
  | [p] => _ ← m_model (setProvisioner p); m_view (message Provisioner.title Provisioner.singleProvisioner)
  | _ =>
      selectedName ← m_view (listMenu Provisioner.title Provisioner.question (toProvisionerName <$> supported)
                       Provisioner.help);
      p ← lift (deref (list_find (fun p => toProvisionerName p = selectedName) supported));
      m_model (setProvisioner p.2)
  end.

(** ** OpenHPC *)

Definition selectableBundlesFor (os : OS) : outcome MultipleSelectionEntries :=
  platform ← getPlatform os;
  Ok ([("serial-libs", "Scientific serial libraries", true);
       ("parallel-libs", "Scientific parallel libraries", true)] ++
      match platform with
      | Platform.el9 | Platform.el10 => [("intel-oneapi", "Intel oneAPI toolchain and Intel MPI", false)]
      | _ => []
      end).

Definition applySavedSelection (bundles : MultipleSelectionEntries) (enabledBundles : option (list string))
  : MultipleSelectionEntries :=
  match enabledBundles with
  | None => bundles
  | Some enabledBundles => (fun b => (b.1, bool_decide (b.1.1 ∈ enabledBundles))) <$> bundles
  end.

Definition PresenterOpenHPC : M Desk unit :=
  os ← model_get getComputeNodeOS;
  bundles ← lift (selectableBundlesFor os);
  saved ← model_get k_enabledOpenHPCBundles;
  answer ← m_view (checkboxSelectionMenu OpenHPC.title OpenHPC.General_question OpenHPC.General_help
             (applySavedSelection bundles saved));
  _ ← (if answer.1 =? 1 then skip else m_view abort);
  m_model (setEnabledOpenHPCBundles answer.2).

(** ** Repositories *)

Definition selectableRepositoryIds : list string :=
  ["cuda"; "beegfs"; "elrepo"; "grafana"; "influxdata"; "oneAPI"; "nvhpc"; "rpmfusion"; "zfs"; "zabbix"].

Definition selectableRepositoriesFrom (allSelections : list RepoConfig.RepositorySelection)
  : list RepoConfig.RepositorySelection :=
  omap (fun id => snd <$> list_find (fun selection => RepoConfig.sel_id selection = id) allSelections)
    selectableRepositoryIds.

Definition PresenterRepository (entries : list (string * string)) (place : RepoConfig.Place) : M Desk unit :=
  ofed ← model_get k_ofed;
  os ← model_get getComputeNodeOS;
  enabledRepositories ← model_get k_enabledRepositories;
  enabledBundles ← model_get k_enabledOpenHPCBundles;
  all ← m_world (RepoConfig.defaultRepositoriesFor (h_opts h) entries place os
          (default "latest" (o_version <$> ofed)) enabledRepositories enabledBundles);
  match selectableRepositoriesFrom all with
  | [] => m_model clearEnabledRepositories
  | optionalRepos =>
      answer ← m_view (checkboxSelectionMenu Repository.title Repository.General_question Repository.General_help
        ((fun entry => (RepoConfig.sel_id entry, RepoConfig.sel_name entry, RepoConfig.sel_enabled entry)) <$>
           optionalRepos));
      _ ← (if answer.1 =? 1 then skip else m_view abort);
      match RepoConfig.expandSelectedRepositoryIds answer.2 with
      | [] => m_model clearEnabledRepositories
      | expandedSelection => m_model (setEnabledRepositories expandedSelection)
      end
  end.

(** ** Queue system *)

Definition password_alphabet : string := "abcdefghijkmnopqrstuvwxyzABCDEFGHJKLMNPQRSTUVWXYZ23456789".

(** What the generator draws, uniformly from the indices of the alphabet *)
Definition randomPassword (draw : nat -> nat) (length : nat) : string :=
  String.concat "" ((fun i => stake 1 (sdrop (draw i mod String.length password_alphabet) password_alphabet)) <$>
                      seq 0 length).

Definition on_queue (f : QueueSystem -> QueueSystem) : M Cluster unit :=
  modify (fun c => put_k_queueSystem (f <$> k_queueSystem c) c).

Definition PresenterQueueSystem (draw1 draw2 : nat -> nat) : M Desk unit :=
  chosen ← m_view (listMenu QueueSystem.title QueueSystem.question (toStrings QueueKind.t) QueueSystem.help);
  kind ← lift (value (ofStringOpt chosen Sensitive));
  _ ← m_model (setQueueSystem kind);
  let fieldsSLURM := [(QueueSystem.SLURM_partition, "execution");
                      (QueueSystem.SLURM_mariadbRootPassword, randomPassword draw1 16);
                      (QueueSystem.SLURM_slurmDBPassword, randomPassword draw2 16)] in
  queue ← model_get k_queueSystem;
  match queue with
  | None => skip
  | Some queue =>
      match q_kind queue with
      | QueueKind.None => lift UB
      | QueueKind.SLURM =>
          fieldsSLURM ← m_view (fieldMenu QueueSystem.SLURM_title QueueSystem.SLURM_question fieldsSLURM
                          QueueSystem.SLURM_help);
          _ ← m_model (on_queue (setDefaultQueue (field fieldsSLURM 0)));
          _ ← m_model (left (put_slurmMariaDBRootPassword (field fieldsSLURM 1)));
          _ ← m_model (left (put_slurmDBPassword (field fieldsSLURM 2)));
          m_model (left (put_slurmStoragePassword (field fieldsSLURM 2)))
      | QueueKind.PBS =>
          execution ← m_view (listMenu QueueSystem.PBS_title QueueSystem.PBS_question (toStrings ExecutionPlace.t)
                        QueueSystem.PBS_help);
          place ← lift (value (ofStringOpt execution Sensitive));
          _ ← m_model (on_queue (setExecutionPlace place));
          m_model (on_queue (setDefaultQueue "execution"))
      end
  end.

(** ** Mail *)

Definition parseCommaSeparatedValues (raw : string) : list string :=
  filter (fun part => Is_true (negb (empty part))) (split_any ", " true raw).

(** [boost::lexical_cast<uint16_t>] *)
Definition mail_port (text : string) : outcome Z :=
  match lexical_cast_uint16_t text with Some port => Ok port | None => Throw BadLexicalCast end.

Definition mail_relay (profile : PostfixProfile.t) : M Desk unit :=
  match profile with
  | PostfixProfile.Local => skip
  | PostfixProfile.Relay =>
      relayFields ← m_view (fieldMenu MailSystem.title MailSystem.Relay_question
                      [("SMTP server", ""); ("Port", "25")] MailSystem.Relay_help);
      _ ← m_model (on_mail (Postfix.setSMTPServer (Some (field relayFields 0))));
      port ← lift (mail_port (field relayFields 1));
      m_model (on_mail (Postfix.setPort (Some port)))
  | PostfixProfile.SASL =>
      saslFields ← m_view (fieldMenu MailSystem.title MailSystem.SASL_question
                     [("SMTP server", ""); ("Port", "587"); ("Username", ""); ("Password", "")]
                     MailSystem.SASL_help);
      _ ← m_model (on_mail (Postfix.setSMTPServer (Some (field saslFields 0))));
      port ← lift (mail_port (field saslFields 1));
      _ ← m_model (on_mail (Postfix.setPort (Some port)));
      _ ← m_model (on_mail (Postfix.setUsername (Some (field saslFields 2))));
      m_model (on_mail (Postfix.setPassword (Some (field saslFields 3))))
  end.

Definition PresenterMailSystem : M Desk unit :=
  wanted ← m_view (yesNoQuestion MailSystem.title MailSystem.question MailSystem.help);
  if negb wanted then skip
  else
    chosen ← m_view (listMenu MailSystem.title MailSystem.Profile_question (toStrings PostfixProfile.t)
               MailSystem.Profile_help);
    profile ← lift (value (ofStringOpt chosen Sensitive));
    _ ← m_model (setMailSystem profile);
    hostname ← model_get (fun c => s_hostname (h_server (k_headnode c)));
    _ ← m_model (on_mail (Postfix.setHostname (Some hostname)));
    domain ← model_get getDomainName;
    _ ← m_model (on_mail (Postfix.setDomain (Some domain)));
    commonFields ← m_view (fieldMenu MailSystem.title MailSystem.Common_question
                     [(MailSystem.Common_destination, "")] MailSystem.Common_help);
    _ ← match parseCommaSeparatedValues (field commonFields 0) with
        | [] => skip
        | destinations => m_model (on_mail (Postfix.setDestination (Some destinations)))
        end;
    override ← m_view (yesNoQuestion MailSystem.title MailSystem.Common_tlsOverrideQuestion MailSystem.Common_help);
    _ ← (if negb override then skip
         else
           tlsFields ← m_view (fieldMenu MailSystem.title MailSystem.Common_tlsPathsQuestion
             [(MailSystem.Common_certFile, ""); (MailSystem.Common_keyFile, "")] MailSystem.Common_help);
           _ ← m_model (on_mail (Postfix.setCertFile (Some (field tlsFields 0))));
           m_model (on_mail (Postfix.setKeyFile (Some (field tlsFields 1)))));
    mail_relay profile.
End presenters.

(** ** Locale

    [src/presenter/PresenterLocale.cpp]: the locales of the machine grouped by
    language. *)

Module PresenterLocale.
Definition advancedLocaleChoice : string := "Advanced / legacy locales".
Definition localeMetadataCommand : string := "locale -av".

Record LocaleChoice := mkChoice { label : string; locale : string }.
Record LocaleMetadata := mkMetadata { language : string; territory : string }.

Definition blank (c : ascii) : bool := Ascii.eqb c " " || Ascii.eqb c "009".

Definition trim (value : string) : string :=
  let value := (span blank value).2 in
  match find_last (fun c => negb (blank c)) value with
  | None => ""
  | Some last => stake (S last) value
  end.

(** The text from the [@] at or after the dot, if there is one *)
Definition isUtf8Locale (locale : string) : bool :=
  let lowered := lower locale in
  match find_char "." lowered with
  | None => false
  | Some dot =>
      let rest := sdrop (S dot) lowered in
      let codeset := match find_char "@" rest with None => rest | Some modifier => stake modifier rest end in
      String.eqb codeset "utf8" || String.eqb codeset "utf-8"
  end.

Definition with_modifier (locale base : string) (dot : nat) : string :=
  match find_char_from "@" dot locale with None => base | Some modifier => base +:+ sdrop modifier locale end.

Definition localeWithoutCodeset (locale : string) : string :=
  match find_char "." locale with
  | None => locale
  | Some dot => with_modifier locale (stake dot locale) dot
  end.

Definition normalizeUtf8Display (locale : string) : string :=
  match find_char "." locale with
  | None => locale
  | Some dot => with_modifier locale (stake dot locale +:+ ".UTF-8") dot
  end.

Definition languageCode (locale : string) : string :=
  let base := localeWithoutCodeset locale in
  match find_first (char_in "_@.") base with None => base | Some separator => stake separator base end.

Definition isTechnicalLocale (locale : string) : bool :=
  let code := languageCode locale in String.eqb code "C" || String.eqb code "POSIX".

(** One line of [locale -av]: the table and the locale it is about *)
Definition metadata_line (s : gmap string LocaleMetadata * string) (line : string)
  : gmap string LocaleMetadata * string :=
  let '(metadata, currentLocale) := s in
  if starts_with "locale:" line then
    let payload := trim (sdrop 7 line) in
    let currentLocale := match find_first blank payload with None => payload | Some i => stake i payload end in
    (StdMap.emplace currentLocale (mkMetadata "" "") metadata, currentLocale)
  else if empty currentLocale then s
  else
    match find_char "|" line with
    | None => s
    | Some separator =>
        let key := trim (stake separator line) in
        let value := trim (sdrop (S separator) line) in
        let old := default (mkMetadata "" "") (metadata !! currentLocale) in
        if String.eqb key "language" then (<[currentLocale := mkMetadata value (territory old)]> metadata, currentLocale)
        else if String.eqb key "territory" then
          (<[currentLocale := mkMetadata (language old) value]> metadata, currentLocale)
        else s
    end.

Definition parseLocaleMetadata (lines : list string) : gmap string LocaleMetadata :=
  (foldl metadata_line (∅, "") lines).1.

Definition preferredLanguageNamesByCode : list (string * string) :=
  [("en", "English"); ("pt", "Portuguese"); ("zh", "Chinese")].

Definition languageLabel (code : string) (detectedLanguageNames : gmap string string) : string :=
  if String.eqb code "C" || String.eqb code "POSIX" then "C/POSIX"
  else
    let lowered := lower code in
    match findOpt preferredLanguageNamesByCode lowered with
    | Some name => name +:+ " (" +:+ lowered +:+ ")"
    | None =>
        match detectedLanguageNames !! lowered with
        | Some (String _ _ as name) => name +:+ " (" +:+ lowered +:+ ")"
        | _ => code +:+ " (" +:+ lowered +:+ ")"
        end
    end.

(** The test against the technical codes is made on the lowered code. *)
Definition detect_language (localeMetadata : gmap string LocaleMetadata) (names : gmap string string)
    (locale : string) : gmap string string :=
  let code := lower (languageCode locale) in
  if String.eqb code "C" || String.eqb code "POSIX" then names
  else
    match localeMetadata !! locale with
    | Some m => if empty (language m) then names else StdMap.emplace code (language m) names
    | None => names
    end.

Definition group_locale (names : gmap string string)
    (s : gmap string (list LocaleChoice) * list string) (locale : string)
  : gmap string (list LocaleChoice) * list string :=
  let '(localeGroups, legacyLocales) := s in
  if isUtf8Locale locale && negb (isTechnicalLocale locale) then
    let key := languageLabel (languageCode locale) names in
    (<[key := default [] (localeGroups !! key) ++ [mkChoice (normalizeUtf8Display locale) locale]]> localeGroups,
     legacyLocales)
  else (localeGroups, legacyLocales ++ [locale]).

(** [std::ranges::sort] by the label; that equal labels stay in order is more
    than it promises. *)
Definition choice_le (a b : LocaleChoice) : Prop := name_le (label a) (label b).
#[export] Instance choice_le_dec a b : Decision (choice_le a b).
Proof. unfold choice_le. apply _. Defined.

Section locale_dialogue.
Context `{Asio} `{Machine}.
Variable runner : Runner.IRunner.

Definition choose_legacy (locales : list string) : M Desk unit :=
  selectedLocale ← m_view (listMenu Locale.title Locale.legacyQuestion locales Locale.help);
  m_model (setLocale selectedLocale).

(** [localeByLabel]: the first locale of a label *)
Definition localeByLabel (choices : list LocaleChoice) (region : string) : outcome string :=
  match list_find (fun c => label c = region) choices with
  | Some c => Ok (locale c.2)
  | None => Throw (OutOfRange "unordered_map::at")
  end.

Definition choose_region (localeChoices : list LocaleChoice) : M Desk string :=
  match localeChoices with
  | [c] => mret (locale c)
  | _ =>
      selectedRegion ← m_view (listMenu Locale.title Locale.regionQuestion (label <$> localeChoices) Locale.help);
      lift (localeByLabel localeChoices selectedRegion)
  end.

Definition PresenterLocale : M Desk unit :=
  availableLocales ← m_world (Runner.checkOutput runner "locale -a");
  _ ← match availableLocales with
      | [] => m_view (fatalMessage Locale.title
                ("No locales were discovered on this system. Verify that 'locale -a' works and try again."))
      | _ => skip
      end;
  lines ← m_world (Runner.checkOutput runner localeMetadataCommand);
  let names := foldl (detect_language (parseLocaleMetadata lines)) ∅ availableLocales in
  let '(localeGroups, legacyLocales) := foldl (group_locale names) (∅, []) availableLocales in
  if decide (localeGroups = ∅) then choose_legacy availableLocales
  else
    let localeGroups := merge_sort choice_le <$> localeGroups in
    let languageChoices := (in_order localeGroups).*1 ++
      match legacyLocales with [] => [] | _ => [advancedLocaleChoice] end in
    selectedLanguage ← m_view (listMenu Locale.title Locale.question languageChoices Locale.help);
    if String.eqb selectedLanguage advancedLocaleChoice then choose_legacy legacyLocales
    else
      localeChoices ← lift (at_key localeGroups selectedLanguage);
      selectedLocale ← choose_region localeChoices;
      m_model (setLocale selectedLocale).
End locale_dialogue.
End PresenterLocale.
