(* ===== verification/PresenterNetwork.v ===== *)
(** * The dialogues on networks

    [src/presenter/PresenterNetwork.cpp] and [PresenterInfiniband.cpp]: what
    is asked about a network, what is refused, the [NetworkCreator] that
    collects the answers, and moving them into the cluster. *)

From stdpp Require Import base strings list gmap sorting.
From Stdlib Require Import ZArith Lia Ascii.
From S2P Require Import Prelude CppString External Enums Options World Cluster ClusterFill View Presenters.
From S2P Require Network Connection.

Local Open Scope Z_scope.

Section networks.
Context `{Asio} `{BoostText}.
Variable h : Host.

Record NetworkCreatorData := mkCreatorData {
  profile : Network.Profile.t;
  type : Network.NetType.t;
  interface : string;
  nc_address : string;
  subnetMask : string;
  gateway : string;
  name : string;
  domains : list address;
}.

(** [NetworkCreator::m_networks] *)
Definition NetworkCreator : Type := list NetworkCreatorData.

(** ** What the machine suggests *)

Definition isInfinibandInterface (interface : string) : bool := starts_with "ib" interface.

Definition interfaceMatchesType (interface : string) (type : Network.NetType.t) : bool :=
  match type with
  | Network.NetType.Ethernet => negb (isInfinibandInterface interface)
  | Network.NetType.Infiniband => isInfinibandInterface interface
  end.

Definition isUsableQuestionnaireInterface : string -> Network.NetType.t -> bool := interfaceMatchesType.

Definition canShareInterface (existingProfile requestedProfile : Network.Profile.t) : bool :=
  match existingProfile, requestedProfile with
  | Network.Profile.Management, Network.Profile.Service => true
  | Network.Profile.Service, Network.Profile.Management => true
  | _, _ => false
  end.

(** [catch (const std::exception&) { return { }; }] *)
Definition or_else {A} (m : outcome A) (a : A) : outcome A := try_catch m is_std_exception (fun _ => Ok a).

Definition fetchOptionalAddress (interface : string) : outcome string :=
  or_else (addr ← Connection.fetchAddress (h_ifs h) interface;
           Ok (if is_unspecified addr then "" else to_string addr)) "".

Definition fetchOptionalSubnetMask (interface : string) : outcome string :=
  or_else (mask ← Network.fetchSubnetMask (h_ifs h) interface; Ok (to_string mask)) "".

Definition gatewayLabelFor (profile : Network.Profile.t) : string :=
  match profile with
  | Network.Profile.Service | Network.Profile.Application => "Gateway (optional)"
  | Network.Profile.External | Network.Profile.Management => "Gateway"
  end.

Definition fetchOptionalGateway (interface : string) : string :=
  let gateway := Network.fetchGateway (h_routes h) (h_nametoindex h) (h_files h) interface in
  if is_unspecified gateway then "" else to_string gateway.

Definition fetchOptionalDomainName : outcome string := or_else (Network.fetchDomainName (h_domainname h)) "".
Definition fetchOptionalNameservers : outcome (list address) :=
  or_else (Network.fetchNameservers (h_resolver h)) [].

Definition parseNameservers (raw : string) : outcome (list address) :=
  mapo Network.make_address_exc (filter (fun part => Is_true (negb (empty part))) (split_any ", " true raw)).

Definition formatNameservers (nameservers : list address) : string := concat_sep ", " (to_string <$> nameservers).

(** ** What is refused *)

Definition calculateNetworkAddress (connectionAddress subnetMask : address) : outcome address :=
  if negb (is_v4 connectionAddress) || negb (is_v4 subnetMask) then
    Throw (RuntimeError "Only IPv4 network details are supported")
  else Ok (address_v4 (Z.land (to_uint connectionAddress) (to_uint subnetMask))).

Inductive SharedServiceNetworkStatus := shared_valid | sharedIP | sharedSubnet | shared_invalid.
Inductive GatewayNetworkStatus := gateway_valid | outsideSubnet | gateway_invalid.

Definition validateGatewaySubnet (addressText subnetMaskText gatewayText : string) : outcome GatewayNetworkStatus :=
  if empty gatewayText then Ok gateway_valid
  else
    try_catch
      (networkAddress ← Network.make_address_exc addressText;
       subnetMask ← Network.make_address_exc subnetMaskText;
       gateway ← Network.make_address_exc gatewayText;
       if negb (is_v4 networkAddress) || negb (is_v4 subnetMask) || negb (is_v4 gateway) then Ok gateway_invalid
       else if is_unspecified gateway then Ok gateway_valid
       else
         a ← calculateNetworkAddress networkAddress subnetMask;
         b ← calculateNetworkAddress gateway subnetMask;
         Ok (if decide (a <> b) then outsideSubnet else gateway_valid))
      is_std_exception (fun _ => Ok gateway_invalid).

Definition validateSharedServiceNetwork (sharedDefaults : NetworkCreatorData) (addressText subnetMaskText : string)
  : outcome SharedServiceNetworkStatus :=
  try_catch
    (serviceAddress ← Network.make_address_exc addressText;
     serviceSubnetMask ← Network.make_address_exc subnetMaskText;
     sharedAddress ← Network.make_address_exc (nc_address sharedDefaults);
     sharedSubnetMask ← Network.make_address_exc (subnetMask sharedDefaults);
     if decide (serviceAddress = sharedAddress) then Ok sharedIP
     else
       a ← calculateNetworkAddress serviceAddress serviceSubnetMask;
       b ← calculateNetworkAddress sharedAddress sharedSubnetMask;
       Ok (if decide (a = b) then sharedSubnet else shared_valid))
    is_std_exception (fun _ => Ok shared_invalid).

(** ** [NetworkCreator] *)

Definition checkIfProfileExists (p : Network.Profile.t) (m_networks : NetworkCreator) : bool :=
  bool_decide (p ∈ (profile <$> m_networks)).

Definition addNetworkInformation (data : NetworkCreatorData) (m_networks : NetworkCreator) : NetworkCreator :=
  if checkIfProfileExists (profile data) m_networks then m_networks else m_networks ++ [data].

Definition canUseInterface (i : string) (requestedProfile : Network.Profile.t) (m_networks : NetworkCreator) : bool :=
  forallb (fun network => negb (String.eqb (interface network) i) || canShareInterface (profile network) requestedProfile)
    m_networks.

Definition findByInterface (i : string) (m_networks : NetworkCreator) : option NetworkCreatorData :=
  snd <$> list_find (fun network => interface network = i) m_networks.
Definition findByProfile (p : Network.Profile.t) (m_networks : NetworkCreator) : option NetworkCreatorData :=
  snd <$> list_find (fun network => profile network = p) m_networks.

Definition getSelectedInterfaces (m_networks : NetworkCreator) : nat := length m_networks.

(** The network a connection points to comes after those of the cluster,
    where it will be added. *)
Definition saveNetworkToModel (net : NetworkCreatorData) : M Cluster unit :=
  c ← gets id;
  let netptr := Network.Network_profile_type (profile net) (type net) in
  conn ← lift (Connection.Connection_network (net_store (k_network c ++ [netptr])) (length (k_network c)));
  conn ← lift (on_connection (Connection.setAddress_string (nc_address net)) conn);
  conn ← lift (on_connection (Connection.setInterface (h_ifs h) (interface net)) conn);
  netptr ← lift (construct
    (_ ← Network.setSubnetMask_string (subnetMask net);
     n ← gets id;
     a ← lift (Network.calculateAddress n (Connection.c_address conn));
     _ ← Network.setAddress a;
     _ ← (if empty (gateway net) then skip else Network.setGateway_string (gateway net));
     _ ← Network.setDomainName (name net);
     Network.setNameservers (domains net))
    netptr);
  _ ← addNetwork netptr;
  on_headnode (addConnection conn).

Definition saveNetworksToModel (m_networks : NetworkCreator) : M Cluster unit :=
  for_each m_networks saveNetworkToModel.

(** ** The questions on one network *)

Definition retrievePossibleInterfaces (nc : NetworkCreator) (p : Network.Profile.t) (t : Network.NetType.t)
  : outcome (list string) :=
  ifs ← Connection.fetchInterfaces (h_ifs h);
  Ok (merge_sort name_le
        (filter (fun i => Is_true (isUsableQuestionnaireInterface i t && canUseInterface i p nc)) ifs)).

Definition suggestedNameservers (nc : NetworkCreator) (sharedDefaults managementDefaults : option NetworkCreatorData)
  : outcome (list address) :=
  match domains <$> sharedDefaults with
  | Some (_ :: _ as l) => Ok l
  | _ =>
      nameservers ← fetchOptionalNameservers;
      Ok match nameservers with
         | _ :: _ => nameservers
         | [] => default [] (domains <$> match managementDefaults with
                                         | Some d => Some d
                                         | None => findByProfile Network.Profile.External nc
                                         end)
         end
  end.

Definition suggestedGateway (i : string) (p : Network.Profile.t) (sharedDefaults : option NetworkCreatorData) : string :=
  match sharedDefaults with
  | Some d =>
      if decide (p = Network.Profile.Service) then ""
      else if empty (gateway d) then fetchOptionalGateway i else gateway d
  | None => fetchOptionalGateway i
  end.

Definition suggestedDomainName (sharedDefaults : option NetworkCreatorData) (modelDomain : string) : outcome string :=
  domainName ← fetchOptionalDomainName;
  Ok match name <$> sharedDefaults with
     | Some (String _ _ as n) => n
     | _ => if empty modelDomain then domainName else modelDomain
     end.

(** One round of the loop: the details entered, and what is shown when they
    are refused *)
Definition refusal (p : Network.Profile.t) (managementDefaults : option NetworkCreatorData) (details : FieldEntries)
  : outcome (option string) :=
  gatewayStatus ← validateGatewaySubnet (field details 0) (field details 1) (field details 2);
  match gatewayStatus with
  | outsideSubnet => Ok (Some Messages.Network.Error_gatewayOutsideSubnet)
  | gateway_invalid => Ok (Some Messages.Network.Error_gatewayDetailsInvalid)
  | gateway_valid =>
      match p, managementDefaults with
      | Network.Profile.Service, Some managementDefaults =>
          shared ← validateSharedServiceNetwork managementDefaults (field details 0) (field details 1);
          Ok match shared with
             | shared_valid => None
             | sharedIP => Some Messages.Network.Error_sharedIP
             | sharedSubnet => Some Messages.Network.Error_sharedSubnet
             | shared_invalid => Some Messages.Network.Error_sharedDetailsInvalid
             end
      | _, _ => Ok None
      end
  end.

Definition networkAddress (details : FieldEntries) : M Operator FieldEntries :=
  fieldMenu Messages.Network.title Messages.Network.Details_question details Messages.Network.Details_help.

Definition ask_details (p : Network.Profile.t) (managementDefaults : option NetworkCreatorData) (details : FieldEntries)
  : M Desk (FieldEntries + FieldEntries) :=
  details ← m_view (networkAddress details);
  refused ← lift (refusal p managementDefaults details);
  match refused with
  | Some error => _ ← m_view (message Messages.Network.title error); mret (inl details)
  | None => mret (inr details)
  end.

Definition createNetwork (interfaceList : list string) (nc : NetworkCreator) (p : Network.Profile.t)
    (t : Network.NetType.t) : M Desk NetworkCreatorData :=
  interface ← m_view (listMenu Messages.Network.title
    ("Select your " +:+ toString p +:+ " (" +:+ toString t +:+ ") network interface") interfaceList
    Messages.Network.Interface_help);
  let sharedDefaults := findByInterface interface nc in
  let managementDefaults := findByProfile Network.Profile.Management nc in
  nameservers ← lift (suggestedNameservers nc sharedDefaults managementDefaults);
  modelDomain ← model_get getDomainName;
  domainName ← lift (suggestedDomainName sharedDefaults modelDomain);
  addressText ← lift (fetchOptionalAddress interface);
  maskText ← lift (fetchOptionalSubnetMask interface);
  details ← forever (ask_details p managementDefaults)
    [(Messages.Network.IP_address, addressText); (Messages.Network.IP_subnetMask, maskText);
     (gatewayLabelFor p, suggestedGateway interface p sharedDefaults);
     (Messages.Network.Domain_name, domainName); (Messages.Network.Domain_servers, formatNameservers nameservers)];
  nameservers ← lift (parseNameservers (field details 4));
  mret (mkCreatorData p t interface (field details 0) (field details 1) (field details 2) (field details 3)
          nameservers).

Definition PresenterNetwork (nc : NetworkCreator) (p : Network.Profile.t) (t : Network.NetType.t)
  : M Desk NetworkCreator :=
  _ ← m_view (message Messages.Network.title
        ("Configure the " +:+ toString p +:+ " (" +:+ toString t +:+ ") network interface"));
  interfaces ← lift (retrievePossibleInterfaces nc p t);
  _ ← match interfaces with
      | [] => throw (RuntimeError ("No usable " +:+ toString p +:+ " (" +:+ toString t +:+
                ") network interfaces remain available"))
      | _ => skip
      end;
  _ ← (if (length interfaces + getSelectedInterfaces nc <? 2)%nat
       then m_view (fatalMessage Messages.Network.title Messages.Network.errorInsufficient) else skip);
  ncd ← createNetwork interfaces nc p t;
  mret (addNetworkInformation ncd nc).

(** [catch] of anything but the two requests of the operator *)
Definition is_failure (e : exn) : bool := is_std_exception e && negb (is_abort e) && negb (is_back e).

(** A network that cannot be set up is left out. *)
Definition attempt (nc : NetworkCreator) (p : Network.Profile.t) : M Desk NetworkCreator :=
  try_catchM (PresenterNetwork nc p Network.NetType.Ethernet) is_failure (fun _ => mret nc).

(** ** InfiniBand *)

Definition usableInfinibandInterfaces (interfaces : list string) : outcome (list string) :=
  usable ← mapo (fun i =>
    if negb (starts_with "ib" i) then Ok []
    else or_else (_ ← Connection.fetchAddress (h_ifs h) i; _ ← Network.fetchSubnetMask (h_ifs h) i; Ok [i]) [])
    interfaces;
  Ok (List.concat usable).

Definition displayKindName (kind : OFEDKind.t) : string :=
  match kind with OFEDKind.Doca => toStringUpper kind | _ => toString kind end.

Definition ofedKindChoices : list string := displayKindName <$> [OFEDKind.Inbox; OFEDKind.Doca; OFEDKind.Oracle].

Definition parseKindName (rawKind : string) : outcome OFEDKind.t := ofStringExc rawKind Insensitive.

Definition PresenterInfiniband (nc : NetworkCreator) : M Desk NetworkCreator :=
  ifs ← lift (Connection.fetchInterfaces (h_ifs h));
  interfaces ← lift (usableInfinibandInterfaces ifs);
  match interfaces with
  | [] => mret nc
  | _ =>
      wanted ← m_view (yesNoQuestion Infiniband.title Infiniband.question Infiniband.help);
      if negb wanted then mret nc
      else
        chosen ← m_view (listMenu Infiniband.title Infiniband.OFED_question ofedKindChoices Infiniband.OFED_help);
        selectedKind ← lift (parseKindName chosen);
        selectedVersion ←
          (if decide (selectedKind = OFEDKind.Inbox) then mret "latest"
           else
             version ← m_view (fieldMenu Infiniband.title Infiniband.OFED_Version_question
               [(Infiniband.OFED_Version_field, "latest")] Infiniband.OFED_Version_help);
             mret (field version 0));
        _ ← m_model (setOFED selectedKind selectedVersion);
        try_catchM (PresenterNetwork nc Network.Profile.Application Network.NetType.Infiniband) is_failure
          (fun e => _ ← m_view (message Infiniband.title (what e)); mret nc)
  end.
End networks.
