(* ===== verification/PresenterNodes.v ===== *)
(** * The dialogues on compute nodes

    [src/presenter/PresenterNodesOperationalSystem.cpp]: an image found on the
    machine or to be downloaded, and the version it holds.
    [src/presenter/PresenterNodes.cpp]: naming, addresses and hardware of the
    nodes, and one question for each of them. *)

From stdpp Require Import base strings list gmap.
From Stdlib Require Import ZArith Lia Ascii.
From S2P Require Import Prelude CppString External Enums Options World Cluster ClusterFill TuiSession.
From S2P Require Import View Presenters.
From S2P Require Network Connection DiskImage.

Local Open Scope Z_scope.

Module OperationalSystem.
Abbreviation Texts_title := NodesOperationalSystem.title.

(** [PresenterNodesVersionCombo]: major, minor, architecture *)
Definition VersionCombo : Type := Z * Z * Arch.t.

(** ** Versions *)

Definition defaultVersionComboFor_os (os : OS) : outcome VersionCombo :=
  arch ← getArch os; Ok (m_majorVersion os, m_minorVersion os, arch).

Definition defaultVersionComboFor (distro : Distro.t) (fallbackOS : OS) : outcome VersionCombo :=
  if decide (distro = Distro.Ubuntu) then arch ← getArch fallbackOS; Ok (24, 4, arch)
  else defaultVersionComboFor_os fallbackOS.

Definition parseVersionString (raw : string) : outcome (option (Z * Z)) :=
  match find_char "." raw with
  | None => Ok None
  | Some separator =>
      try_catch (major ← stoi (stake separator raw); minor ← stoi (sdrop (S separator) raw); Ok (Some (major, minor)))
        is_std_exception (fun _ => Ok None)
  end.

Definition parseArchitecture (raw : string) : option Arch.t :=
  let normalized := lower raw in
  if contains "x86_64" normalized || contains "amd64" normalized then Some Arch.x86_64
  else if contains "ppc64le" normalized then Some Arch.ppc64le
  else None.

(** [static_cast<unsigned>(minorVersion)] *)
Definition makeOperatingSystem (distro : Distro.t) (version : VersionCombo) : outcome OS :=
  let '(majorVersion, minorVersion, arch) := version in
  let unsupported := Throw (RuntimeError ("Unsupported OS version " +:+ dec_int majorVersion +:+ "." +:+
                                          dec_int minorVersion)) in
  if majorVersion =? 8 then Ok (OS_make distro Platform.el8 (u32 minorVersion) arch Family.Linux)
  else if majorVersion =? 9 then Ok (OS_make distro Platform.el9 (u32 minorVersion) arch Family.Linux)
  else if majorVersion =? 10 then Ok (OS_make distro Platform.el10 (u32 minorVersion) arch Family.Linux)
  else if majorVersion =? 24 then
    if bool_decide (distro = Distro.Ubuntu) && (minorVersion =? 4)
    then Ok (OS_make distro Platform.ubuntu2404 0 arch Family.Linux) else unsupported
  else unsupported.

(** ** File names *)

(** [std::regex_search] for two numbers: the prefix, digits, the separator
    and digits, from the first place where all of them are *)
Definition version_at (prefix separator s : string) : option (string * string) :=
  if starts_with prefix s then
    let '(major, rest) := span is_digit (sdrop (String.length prefix) s) in
    if negb (empty major) && starts_with separator rest then
      let minor := (span is_digit (sdrop (String.length separator) rest)).1 in
      if empty minor then None else Some (major, minor)
    else None
  else None.

Fixpoint version_search (prefix separator s : string) : option (string * string) :=
  match version_at prefix separator s with
  | Some m => Some m
  | None => match s with EmptyString => None | String _ s => version_search prefix separator s end
  end.

Definition iso_pattern (distro : Distro.t) : string * string :=
  match distro with
  | Distro.OL => ("R", "-U")
  | Distro.Ubuntu => ("ubuntu-", ".")
  | _ => ("", ".")
  end.

Definition inferVersionComboFromIso (distro : Distro.t) (isoName : string) : outcome (option VersionCombo) :=
  match parseArchitecture isoName with
  | None => Ok None
  | Some arch =>
      match version_search (iso_pattern distro).1 (iso_pattern distro).2 isoName with
      | None => Ok None
      | Some (major, minor) => major ← stoi major; minor ← stoi minor; Ok (Some (major, minor, arch))
      end
  end.

Definition isoSearchToken (distro : Distro.t) : string :=
  match distro with
  | Distro.RHEL => "rhel"
  | Distro.OL => "OracleLinux"
  | Distro.Rocky => "Rocky"
  | Distro.AlmaLinux => "AlmaLinux"
  | Distro.Ubuntu => "ubuntu-"
  end.

Definition isoMatchesDistro (distro : Distro.t) (isoName : string) : bool :=
  match distro with
  | Distro.RHEL => contains "rhel" isoName
  | Distro.OL => contains "OracleLinux" isoName
  | Distro.Rocky => contains "Rocky" isoName
  | Distro.AlmaLinux => contains "AlmaLinux" isoName
  | Distro.Ubuntu => contains "ubuntu-" isoName
  end.

Definition architecture_name (distro : Distro.t) (arch : Arch.t) : string :=
  if decide (distro = Distro.Ubuntu) then "amd64" else toString arch.

Definition exampleIsoName (distro : Distro.t) (version : VersionCombo) : string :=
  let '(major, minor, arch) := version in
  let architecture := architecture_name distro arch in
  let major := dec_int major in
  let minor := dec_int minor in
  match distro with
  | Distro.RHEL => "rhel-" +:+ major +:+ "." +:+ minor +:+ "-" +:+ architecture +:+ "-dvd.iso"
  | Distro.OL => "OracleLinux-R" +:+ major +:+ "-U" +:+ minor +:+ "-" +:+ architecture +:+ "-dvd.iso"
  | Distro.Rocky => "Rocky-" +:+ major +:+ "." +:+ minor +:+ "-" +:+ architecture +:+ "-dvd.iso"
  | Distro.AlmaLinux => "AlmaLinux-" +:+ major +:+ "." +:+ minor +:+ "-" +:+ architecture +:+ "-dvd.iso"
  | Distro.Ubuntu => "ubuntu-" +:+ major +:+ ".04.4-live-server-" +:+ architecture +:+ ".iso"
  end.

Definition formatNoMatchingIsoMessage (directory : string) (distro : Distro.t) (defaultVersion : VersionCombo) : string :=
  "No ISO matching the selected distribution was found in the provided directory." +:+ nl +:+ nl +:+
  "Directory: " +:+ directory +:+ nl +:+ "Looked for: *.iso filenames containing " +:+ quoted (isoSearchToken distro) +:+
  nl +:+ "Example: " +:+ exampleIsoName distro defaultVersion.

(** The named fields of the format are spelled out. *)
Definition getDownloadURL (distro : Distro.t) (version : VersionCombo) : outcome string :=
  let '(majorVersion, minorVersion, arch) := version in
  let arch := architecture_name distro arch in
  let major := dec_int majorVersion in
  let minor := dec_int minorVersion in
  match distro with
  | Distro.RHEL => Throw (RuntimeError "We does not support RHEL ISO download yet!")
  | Distro.OL =>
      Ok ("https://yum.oracle.com/ISOS/OracleLinux/OL" +:+ major +:+ "/u" +:+ minor +:+ "/" +:+ arch +:+
          "/OracleLinux-R" +:+ major +:+ "-U" +:+ minor +:+ "-" +:+ arch +:+ "-dvd.iso")
  | Distro.Rocky =>
      Ok ("https://download.rockylinux.org/pub/rocky/" +:+ major +:+ "/isos/" +:+ arch +:+ "/Rocky-" +:+ major +:+
          "." +:+ minor +:+ "-" +:+ arch +:+ "-dvd.iso")
  | Distro.AlmaLinux =>
      Ok ("https://repo.almalinux.org/almalinux/" +:+ major +:+ "." +:+ minor +:+ "/isos/" +:+ arch +:+
          "/AlmaLinux-" +:+ major +:+ "." +:+ minor +:+ "-" +:+ arch +:+ "-dvd.iso")
  | Distro.Ubuntu =>
      if negb (majorVersion =? 24) || negb (minorVersion =? 4) then
        Throw (RuntimeError "Only Ubuntu 24.04 ISO download is supported")
      else Ok ("https://releases.ubuntu.com/24.04/ubuntu-24.04.4-live-server-" +:+ arch +:+ ".iso")
  end.

(** [url.substr(url.find_last_of('/') + 1)] *)
Definition url_filename (url : string) : string := sdrop (after (find_last (Ascii.eqb "/") url)) url.

Definition distros : list (string * Distro.t) :=
  [("Red Hat Enterprise Linux", Distro.RHEL); ("AlmaLinux", Distro.AlmaLinux); ("Rocky Linux", Distro.Rocky);
   ("Oracle Linux", Distro.OL); ("Ubuntu", Distro.Ubuntu)].
Definition distroNames : list string := distros.*1.

(** ** The dialogue *)

Section dialogue.
Context `{Asio} `{Machine} `{GChecksum}.
Variable h : Host.

Definition findMatchingIsos (isoRoot : string) (distro : Distro.t) : M World (option (list string)) :=
  there ← ask (fun w => is_directory w isoRoot);
  if negb there then mret None
  else
    found ← directory_entries isoRoot;
    regular ← ask (fun w => filter (fun entry => Is_true (is_regular_file w entry)) found);
    let isos := filter (fun entry => Is_true (String.eqb (extension entry) ".iso" &&
                                               isoMatchesDistro distro (filename entry))) regular in
    mret (Some (filename <$> isos)).

Definition ask_version (metadata : FieldEntries) : M Operator (FieldEntries + VersionCombo) :=
  metadata ← fieldMenu Texts_title NodesOperationalSystem.OperationalSystemVersion_question metadata
               NodesOperationalSystem.OperationalSystemVersion_help;
  parsedVersion ← lift (parseVersionString (field metadata 0));
  match parsedVersion with
  | None =>
      _ ← message Texts_title NodesOperationalSystem.OperationalSystemVersion_invalidVersion; mret (inl metadata)
  | Some (major, minor) =>
      match parseArchitecture (field metadata 1) with
      | None => _ ← message Texts_title NodesOperationalSystem.OperationalSystemVersion_invalidArch; mret (inl metadata)
      | Some arch => mret (inr (major, minor, arch))
      end
  end.

(** The default is worked out whether it is needed or not. *)
Definition promptVersion (distro : Distro.t) (initial : option VersionCombo) : M Desk VersionCombo :=
  headnodeOS ← model_get (fun c => s_os (h_server (k_headnode c)));
  fallback ← lift (defaultVersionComboFor distro headnodeOS);
  let '(defaultMajor, defaultMinor, defaultArch) := default fallback initial in
  m_view (forever ask_version
    [(NodesOperationalSystem.OperationalSystemVersion_version, dec_int defaultMajor +:+ "." +:+ dec_int defaultMinor);
     (NodesOperationalSystem.OperationalSystemVersion_architecture, toString defaultArch)]).

Definition downloadSelectedDistro (distro : Distro.t) : M Desk bool :=
  if decide (distro = Distro.RHEL) then
    _ ← m_view (message Texts_title NodesOperationalSystem.OperationalSystemVersion_rhelError); mret false
  else
    versioncombo ← promptVersion distro None;
    distroDownloadURL ← lift (getDownloadURL distro versioncombo);
    let plannedIsoPath := path_append "/root" (url_filename distroDownloadURL) in
    _ ← m_site (setPendingDiskImageDownload h plannedIsoPath distroDownloadURL);
    os ← lift (makeOperatingSystem distro versioncombo);
    _ ← m_model (setComputeNodeOS os);
    mret true.

(** Dereferencing the end of the map is undefined. *)
Definition choose_distro (question help : string) : M Desk Distro.t :=
  chosen ← m_view (listMenu Texts_title question distroNames help);
  lift (deref (findOpt distros chosen)).

Definition ask_download (_ : unit) : M Desk (unit + unit) :=
  distro ← choose_distro NodesOperationalSystem.OperationalSystemDownloadIso_SecondStage_question
             NodesOperationalSystem.OperationalSystemDownloadIso_SecondStage_help;
  scheduled ← downloadSelectedDistro distro;
  mret (if scheduled : bool then inr tt else inl tt).

Definition ask_directory (isoDirectoryPath : FieldEntries) : M Desk (FieldEntries + FieldEntries) :=
  isoDirectoryPath ← m_view (fieldMenu Texts_title NodesOperationalSystem.OperationalSystemDirectoryPath_question
    isoDirectoryPath NodesOperationalSystem.OperationalSystemDirectoryPath_help);
  w ← gets d_world;
  if is_directory w (field isoDirectoryPath 0) then mret (inr isoDirectoryPath)
  else
    _ ← m_view (message Texts_title
          (if fs_exists w (field isoDirectoryPath 0) then NodesOperationalSystem.OperationalSystemDirectoryPath_notReadable
           else NodesOperationalSystem.OperationalSystemDirectoryPath_nonExistent));
    mret (inl isoDirectoryPath).

(** One round of [while (!selectedDiskImage)]; its inner loop always breaks. *)
Definition ask_image (isoDirectoryPath : FieldEntries) : M Desk (FieldEntries + unit) :=
  isoDirectoryPath ← forever ask_directory isoDirectoryPath;
  let isoRoot := field isoDirectoryPath 0 in
  distro ← choose_distro NodesOperationalSystem.OperationalSystemDistro_question
             NodesOperationalSystem.OperationalSystemDistro_help;
  isos ← m_world (findMatchingIsos isoRoot distro);
  match isos with
  | None =>
      _ ← m_view (message Texts_title NodesOperationalSystem.OperationalSystemDirectoryPath_notReadable);
      mret (inl isoDirectoryPath)
  | Some [] =>
      headnodeOS ← model_get (fun c => s_os (h_server (k_headnode c)));
      defaultVersion ← lift (defaultVersionComboFor distro headnodeOS);
      _ ← m_view (message Texts_title (formatNoMatchingIsoMessage isoRoot distro defaultVersion));
      wanted ← m_view (yesNoQuestion Texts_title NodesOperationalSystem.OperationalSystem_downloadMissing
                 NodesOperationalSystem.OperationalSystem_help);
      if negb wanted then mret (inl isoDirectoryPath)
      else
        scheduled ← downloadSelectedDistro distro;
        mret (if scheduled : bool then inr tt else inl isoDirectoryPath)
  | Some isos =>
      selectedIso ← m_view (listMenu Texts_title NodesOperationalSystem.OperationalSystem_question isos
                      NodesOperationalSystem.OperationalSystem_help);
      _ ← m_site (setDiskImage h (isoRoot +:+ "/" +:+ selectedIso));
      inferred ← lift (inferVersionComboFromIso distro selectedIso);
      versioncombo ← promptVersion distro inferred;
      os ← lift (makeOperatingSystem distro versioncombo);
      _ ← m_model (setComputeNodeOS os);
      mret (inr tt)
  end.

Definition PresenterNodesOperationalSystem : M Desk unit :=
  downloadIso ← m_view (yesNoQuestion Texts_title
    NodesOperationalSystem.OperationalSystemDownloadIso_FirstStage_question
    NodesOperationalSystem.OperationalSystemDirectoryPath_help);
  if downloadIso : bool then forever ask_download tt
  else forever ask_image [(NodesOperationalSystem.OperationalSystemDirectoryPath_field, "/mnt/iso")].
End dialogue.
End OperationalSystem.

Section nodes.
Context `{Asio} `{BoostText}.

(** ** Names and addresses *)

(** [fmt::format("{}{:0>{}}", prefix, index, padding)] *)
Definition buildNodeName (prefix : string) (index padding : Z) : string := prefix +:+ pad0 padding (dec index).

(** [to_v4()] of another address throws. *)
Definition offsetIPv4Address (baseAddress : address) (offset : Z) : outcome address :=
  if is_v4 baseAddress then Ok (address_v4 (u32 (to_uint baseAddress + u32 offset))) else Throw BadAddressCast.

Section suggestion.
Variables (base hostSpace : Z) (blocked : list Z).

Definition tryOffset (offset : Z) : option address :=
  if (offset =? 0) || (hostSpace <=? offset) then None
  else
    let candidate := u32 (base + offset) in
    if decide (candidate ∈ blocked) then None else Some (address_v4 candidate).

Fixpoint tryOffsets (offsets : list Z) : option address :=
  match offsets with
  | [] => None
  | offset :: offsets => match tryOffset offset with Some a => Some a | None => tryOffsets offsets end
  end.

(** [for (offset = 1; offset < hostSpace; ++offset)]: what is blocked lasts
    for as many rounds at most ([suggestion_fuel]). *)
Fixpoint try_from (fuel : nat) (offset : Z) : option address :=
  match fuel with
  | O => None
  | S fuel =>
      if offset <? hostSpace then
        match tryOffset offset with Some a => Some a | None => try_from fuel (offset + 1) end
      else None
  end.
End suggestion.

Definition suggestAddressForProfile (model : Cluster) (profile : Network.Profile.t) (preferredOffsets : list Z)
  : outcome (option address) :=
  try_catch
    (p ← getNetwork profile model;
     let network := networks model p in
     connection ← getConnection (networks model) (h_server (k_headnode model)) profile;
     if negb (is_v4 (Network.m_address network)) || negb (is_v4 (Network.m_subnetMask network)) ||
        negb (is_v4 (Connection.c_address connection)) then Ok None
     else
       let base := to_uint (Network.m_address network) in
       let hostSpace := 2 ^ 32 - 1 - to_uint (Network.m_subnetMask network) in
       if hostSpace <? 2 then Ok None
       else
         let gateway := Network.m_gateway network in
         let blocked := to_uint (Connection.c_address connection) ::
           (if negb (is_unspecified gateway) && is_v4 gateway then [to_uint gateway] else []) in
         Ok match tryOffsets base hostSpace blocked preferredOffsets with
            | Some a => Some a
            | None => try_from base hostSpace blocked (S (length blocked)) 1
            end)
    is_std_exception (fun _ => Ok None).

Definition suggestedNodeStartIP (model : Cluster) : outcome string :=
  candidate ← suggestAddressForProfile model Network.Profile.Management [101; 1; 11; 2];
  Ok match candidate with Some a => to_string a | None => "" end.

Definition suggestedBMCStartIP (model : Cluster) : outcome (option address) :=
  suggestAddressForProfile model Network.Profile.Service [101; 11; 2; 201].

(** ** Naming and first addresses *)

(** What the fields say, or the message that refuses them *)
Definition parse_naming (fields : FieldEntries) : string + (Z * address * option address) :=
  match field fields 0 with
  | EmptyString => inl Nodes.Error_prefixLetter
  | String c _ =>
      if negb (is_alpha c) then inl Nodes.Error_prefixLetter
      else
        match parseSize (field fields 1) with
        | None => inl Nodes.Error_paddingInvalid
        | Some padding =>
            if 3 <? padding then inl Nodes.Error_paddingMax
            else
              match make_address (field fields 2) with
              | None => inl Nodes.Error_startIPInvalid
              | Some startIP =>
                  let bmcText := field fields 3 in
                  let bmc := if empty bmcText then Some None else Some <$> make_address bmcText in
                  match bmc with
                  | None => inl Nodes.Error_bmcStartIPInvalid
                  | Some bmcStartIP =>
                      if decide (bmcStartIP = Some startIP) then inl Nodes.Error_bmcStartIPMatchesNode
                      else if negb (String.eqb (field fields 4) (field fields 5)) then
                        inl Nodes.Error_rootPasswordMismatch
                      else inr (padding, startIP, bmcStartIP)
                  end
              end
        end
  end.

Definition ask_naming (fields : FieldEntries)
  : M Operator (FieldEntries + FieldEntries * (Z * address * option address)) :=
  fields ← fieldMenu Nodes.title Nodes.Nodes_question fields Nodes.Nodes_help;
  match parse_naming fields with
  | inl error => _ ← message Nodes.title error; mret (inl fields)
  | inr parsed => mret (inr (fields, parsed))
  end.

(** ** Hardware *)

Definition parse_topology (topology : FieldEntries) : option (Z * Z * Z * Z * Z * Z) :=
  sockets ← parseSize (field topology 0);
  coresPerSocket ← parseSize (field topology 1);
  threadsPerCore ← parseSize (field topology 2);
  realMemory ← parseSize (field topology 3);
  serialPort ← parseSize (field topology 6);
  serialSpeed ← parseSize (field topology 7);
  Some (sockets, coresPerSocket, threadsPerCore, realMemory, serialPort, serialSpeed).

Definition ask_topology (topology : FieldEntries) : M Desk (FieldEntries + unit) :=
  topology ← m_view (fieldMenu Nodes.title Nodes.Topology_question topology Nodes.Topology_help);
  match parse_topology topology with
  | None => _ ← m_view (message Nodes.title Nodes.Error_topologyInvalid); mret (inl topology)
  | Some (sockets, coresPerSocket, threadsPerCore, realMemory, serialPort, serialSpeed) =>
      _ ← m_model (left (put_nodeSockets sockets));
      _ ← m_model (left (put_nodeCoresPerSocket coresPerSocket));
      _ ← m_model (left (put_nodeThreadsPerCore threadsPerCore));
      _ ← m_model (left (put_nodeRealMemory realMemory));
      _ ← m_model (left (put_nodeBMCUsername (field topology 4)));
      _ ← m_model (left (put_nodeBMCPassword (field topology 5)));
      _ ← m_model (left (put_nodeBMCSerialPort serialPort));
      _ ← m_model (left (put_nodeBMCSerialSpeed serialSpeed));
      mret (inr tt)
  end.

Definition ask_quantity (nodes : FieldEntries) : M Desk (FieldEntries + unit) :=
  nodes ← m_view (fieldMenu Nodes.title Nodes.Quantity_question nodes Nodes.Quantity_help);
  match parseSize (field nodes 0) with
  | Some parsedQuantity =>
      if 0 <? parsedQuantity then _ ← m_model (left (put_nodeQuantity parsedQuantity)); mret (inr tt)
      else _ ← m_view (message Nodes.title Nodes.Error_quantityInvalid); mret (inl nodes)
  | None => _ ← m_view (message Nodes.title Nodes.Error_quantityInvalid); mret (inl nodes)
  end.

(** ** One node *)

Section node.
Variables (nodeOS : OS) (nodeCPU : CPU) (managementNetwork : Connection.NetworkPtr).

(** The body of the [try]: whether the node was added *)
Definition add_entered_node (node : Z) (nodeName : string) (nodeFields : FieldEntries) : M Desk bool :=
  model ← model_get id;
  let l := k_leftovers model in
  nodeAddress ← lift (offsetIPv4Address (nodeStartIP l) (node - 1));
  let bmcText := field nodeFields 1 in
  bmc ← (if empty bmcText then mret (Some None)
         else
           bmcParsedAddress ← lift (Network.make_address_exc bmcText);
           if decide (bmcParsedAddress = nodeAddress) then
             _ ← m_view (message Nodes.title Nodes.Error_bmcAddressMatchesNode); mret None
           else mret (Some (Some (mkBMC (to_string bmcParsedAddress) (nodeBMCUsername l) (nodeBMCPassword l)
                                   (nodeBMCSerialPort l) (nodeBMCSerialSpeed l) BMCKind.IPMI))));
  match bmc with
  | None => mret false
  | Some bmc =>
      connection ← lift (Connection.Connection_network (networks model) managementNetwork);
      connection ← lift (on_connection (Connection.setMAC (field nodeFields 0)) connection);
      connection ← lift (on_connection (Connection.setAddress nodeAddress) connection);
      newNode ← lift (Node_full nodeName nodeOS nodeCPU [connection] bmc);
      let newNode := setPrefix (Some (nodePrefix l)) newNode in
      let newNode := setPadding (Some (nodePadding l)) newNode in
      let newNode := setNodeStartIp (Some nodeAddress) newNode in
      let newNode := setMACAddress (field nodeFields 0) newNode in
      let newNode := setNodeRootPassword (Some (nodeRootPassword l)) newNode in
      _ ← m_model (addNode newNode);
      mret true
  end.

Definition ask_node (node : Z) (nodeName : string) (nodeFields : FieldEntries) : M Desk (FieldEntries + unit) :=
  nodeFields ← m_view (fieldMenu Nodes.title (Nodes.NodeEntry_question +:+ ": " +:+ nodeName) nodeFields
                 Nodes.NodeEntry_help);
  added ← try_catchM (add_entered_node node nodeName nodeFields) is_std_exception (fun ex =>
            _ ← m_view (message Nodes.title ("Invalid node definition for " +:+ nodeName +:+ ": " +:+ what ex));
            mret false);
  mret (if added : bool then inr tt else inl nodeFields).

(** [for (node = 1; node <= m_model->nodeQuantity; ++node)] *)
Definition ask_nodes (bmcStartIP : option address) (node : Z) : M Desk (Z + unit) :=
  l ← model_get k_leftovers;
  if nodeQuantity l <? node then mret (inr tt)
  else
    let nodeName := buildNodeName (nodePrefix l) node (nodePadding l) in
    bmcText ← lift match bmcStartIP with
                   | Some start => a ← offsetIPv4Address start (node - 1); Ok (to_string a)
                   | None => Ok ""
                   end;
    _ ← forever (ask_node node nodeName) [(Nodes.NodeEntry_macAddress, ""); (Nodes.NodeEntry_bmcAddress, bmcText)];
    mret (inl (u64 (node + 1))).
End node.

Definition PresenterNodes : M Desk unit :=
  model ← model_get id;
  suggestedNodeStart ← lift (suggestedNodeStartIP model);
  suggestedBmcStart ← lift (suggestedBMCStartIP model);
  let suggestedBmcStartText :=
    match suggestedBmcStart with
    | Some a => if String.eqb (to_string a) suggestedNodeStart then "" else to_string a
    | None => ""
    end in
  _ ← m_view (message Nodes.title Nodes.message);
  answer ← m_view (forever ask_naming
    [(Nodes.Nodes_prefix, "n"); (Nodes.Nodes_padding, "2"); (Nodes.Nodes_startIP, suggestedNodeStart);
     (Nodes.Nodes_bmcStartIP, suggestedBmcStartText); (Nodes.Nodes_rootPassword, "");
     (Nodes.Nodes_confirmRootPassword, "")]);
  let '(fields, (padding, startIP, bmcStartIP)) := answer in
  _ ← m_model (left (put_nodePrefix (field fields 0)));
  _ ← m_model (left (put_nodePadding padding));
  _ ← m_model (left (put_nodeStartIP startIP));
  _ ← m_model (left (put_nodeRootPassword (field fields 4)));
  _ ← forever ask_topology
    [(Nodes.Topology_sockets, "1"); (Nodes.Topology_coresPerSocket, "1"); (Nodes.Topology_threadsPerCore, "1");
     (Nodes.Topology_realMemory, "4096"); (Nodes.Topology_bmcUsername, "admin");
     (Nodes.Topology_bmcPassword, "admin"); (Nodes.Topology_bmcSerialPort, "0");
     (Nodes.Topology_bmcSerialSpeed, "9600")];
  _ ← m_model (left update_cpus);
  _ ← forever ask_quantity [(Nodes.Quantity_nodes, "")];
  nodeOS ← model_get getComputeNodeOS;
  l ← model_get k_leftovers;
  nodeCPU ← lift (CPU_make (nodeSockets l) (nodeCoresPerSocket l) (nodeThreadsPerCore l));
  found ← model_get (getNetwork Network.Profile.Management);
  managementNetwork ← match found with
                      | Ok p => mret p
                      | Throw ex => m_view (fatalMessage Nodes.title ("Management network is not configured: " +:+ what ex))
                      | UB => lift UB
                      end;
  forever (ask_nodes nodeOS nodeCPU managementNetwork bmcStartIP) 1.
End nodes.
