(* ===== verification/PresenterInstall.v ===== *)
(** * The questionnaire

    [src/presenter/PresenterPreflight.cpp], the summary at its end, and
    [PresenterInstall.cpp], which runs the dialogues in order, goes back on
    request, keeps the history of completed steps, and downloads a pending
    image. *)

From stdpp Require Import base strings list gmap.
From Stdlib Require Import ZArith Lia Ascii.
From S2P Require Import Prelude CppString External Enums KeyFile Options World Cluster View Presenters.
From S2P Require Import PresenterNetwork PresenterNodes.
From S2P Require Network Connection DiskImage Runner RepoConfig.

Local Open Scope Z_scope.

Section preflight.
Context `{Asio}.

(** ** The summary *)

Definition provisionerName (p : Provisioner.t) : string :=
  match p with Provisioner.xCAT => "xCAT" | Provisioner.Confluent => "Confluent" end.

Definition osSummary (os : OS) : outcome string :=
  distro ← getDistro os; version ← getVersion os; arch ← getArch os;
  Ok (toString distro +:+ " " +:+ version +:+ " " +:+ toString arch).

Definition nodeOperatingSystemSummary (model : Cluster) : outcome string :=
  match k_nodes model with
  | [] => osSummary (getComputeNodeOS model)
  | nodes =>
      all ← mapo (fun node => osSummary (s_os (n_server node))) nodes;
      let summaries := foldl (fun l s => if decide (s ∈ l) then l else l ++ [s]) [] all in
      Ok match summaries with [s] => s | _ => "Mixed: " +:+ concat_sep ", " summaries end
  end.

(** [{:<width}] *)
Definition pad_right (width : nat) (s : string) : string := s +:+ srepeat " " (width - String.length s).
Definition row (key value : string) : string := pad_right 14 key +:+ " " +:+ value.
Definition detail (key value : string) : string := "  " +:+ pad_right 9 key +:+ " " +:+ value.

Definition cidrSuffixFor (network : Network.Network) : string :=
  let subnetMask := to_string (Network.m_subnetMask network) in
  match findOpt Network.cidr subnetMask with
  | Some bits => "/" +:+ dec bits
  | None => " mask " +:+ subnetMask
  end.

Definition networkRows (model : Cluster) (network : Network.Network) : outcome (list string) :=
  let profile := Network.m_profile network in
  let networkAddress := to_string (Network.m_address network) +:+ cidrSuffixFor network in
  let gateway := if is_unspecified (Network.m_gateway network) then "none" else to_string (Network.m_gateway network) in
  host ← try_catch
    (connection ← getConnection (networks model) (h_server (k_headnode model)) profile;
     Ok [detail "Interface" (default "no interface" (Connection.m_interface connection));
         detail "Host IP" (to_string (Connection.c_address connection))])
    is_std_exception (fun ex => Ok [detail "Host IP" "-"; detail "Warning" (what ex)]);
  Ok ([toString profile +:+ " " +:+ toString (Network.m_type network)] ++ host ++
      [detail "Network" networkAddress; detail "Gateway" gateway]).

Definition appendNetworkDetails (model : Cluster) : outcome (list string) :=
  match k_network model with
  | [] => Ok [""; "[Networks]"; "No networks configured"]
  | l =>
      blocks ← mapo (networkRows model) l;
      Ok ([""; "[Networks]"] ++ tail (List.concat (cons "" <$> blocks)))
  end.

Definition repositorySummary (model : Cluster) : string :=
  let repositories := default [] (k_enabledRepositories model) in
  let impliedOneApi :=
    match k_enabledOpenHPCBundles model with
    | Some bundles => bool_decide ("intel-oneapi" ∈ bundles) && negb (bool_decide ("oneAPI" ∈ repositories))
    | None => false
    end in
  let repositories := if impliedOneApi then repositories ++ ["oneAPI"] else repositories in
  match repositories with
  | [] => "Mandatory repositories only"
  | _ =>
      "Optional: " +:+ concat_sep ", " repositories +:+
      (if decide ("beegfs" ∈ repositories) then "; BeeGFS implies grafana and influxdata" else "") +:+
      (if impliedOneApi then "; Intel OpenHPC bundle implies oneAPI" else "")
  end.

Definition openHpcSummary (model : Cluster) : string :=
  let bundles := default ["serial-libs"; "parallel-libs"] (k_enabledOpenHPCBundles model) in
  concat_sep ", "
    (["base GNU compilers and MPI stacks"] ++
     (if decide ("serial-libs" ∈ bundles) then ["serial scientific libs"] else []) ++
     (if decide ("parallel-libs" ∈ bundles) then ["parallel scientific libs"] else []) ++
     (if decide ("intel-oneapi" ∈ bundles) then ["Intel oneAPI and Intel MPI"] else [])).

Definition isoSummary (model : Cluster) : outcome string :=
  let os := getComputeNodeOS model in
  distro ← getDistro os; version ← getVersion os;
  Ok (toString distro +:+ " " +:+ version +:+ " from " +:+ DiskImage.m_path (k_diskImage model)).

Definition defaultQueueName (queue : QueueSystem) : string :=
  if empty (q_defaultQueue queue) then "execution" else q_defaultQueue queue.

Definition appendQueueDetails (model : Cluster) : list string :=
  match k_queueSystem model with
  | None => [row "Queue system" "None"]
  | Some queue =>
      match q_kind queue with
      | QueueKind.SLURM => [row "Queue system" "SLURM"; row "Queue name" (defaultQueueName queue)]
      | QueueKind.PBS =>
          [row "Queue system" "PBS Professional"; row "Queue name" (defaultQueueName queue);
           row "Execution" (toString (q_executionPlace queue))]
      | QueueKind.None => [row "Queue system" "None"]
      end
  end.

Definition nodeAddressSummary (model : Cluster) (node : Node) : outcome string :=
  match m_node_start_ip node with
  | Some a => Ok (to_string a)
  | None =>
      try_catch
        (connection ← getConnection (networks model) (n_server node) Network.Profile.Management;
         Ok (to_string (Connection.c_address connection)))
        is_std_exception (fun _ => Ok "-")
  end.

Definition bmcAddressSummary (node : Node) : string :=
  match s_bmc (n_server node) with Some bmc => b_address bmc | None => "-" end.

Definition fitColumn (value : string) (width : nat) : string :=
  if (width =? 0)%nat then ""
  else if (String.length value <=? width)%nat then value
  else if (width =? 1)%nat then "~"
  else stake (width - 1) value +:+ "~".

Definition columns (a b c d : string) : string :=
  pad_right 11 a +:+ " " +:+ pad_right 15 b +:+ " " +:+ pad_right 15 c +:+ " " +:+ pad_right 17 d.

Definition nodeRow (model : Cluster) (node : Node) : outcome string :=
  address ← nodeAddressSummary model node;
  Ok (columns (fitColumn (s_hostname (n_server node)) 11) (fitColumn address 15)
        (fitColumn (bmcAddressSummary node) 15)
        (fitColumn (if empty (m_mac_address node) then "-" else m_mac_address node) 17)).

Definition appendNodeTable (model : Cluster) : outcome (list string) :=
  rows ← match k_nodes model with
         | [] => Ok ["  No compute nodes configured"]
         | nodes => mapo (nodeRow model) nodes
         end;
  Ok ([""; "[Nodes]"; columns "Hostname" "Node IP" "BMC IP" "MAC address"] ++ rows).

Definition buildPreflightText (model : Cluster) : outcome string :=
  headnode ← osSummary (s_os (h_server (k_headnode model)));
  nodes ← nodeOperatingSystemSummary model;
  iso ← isoSummary model;
  networks ← appendNetworkDetails model;
  table ← appendNodeTable model;
  Ok (concat_sep nl
        ([row "Cluster" (k_name model);
          row "Headnode" (headnode +:+ " with " +:+ provisionerName (k_provisioner model));
          row "Nodes" nodes; row "ISO and OS" iso; ""; row "Repositories" (repositorySummary model); "";
          row "OpenHPC" (openHpcSummary model); ""] ++ appendQueueDetails model ++ networks ++ table)).

Definition preflightQuestion (opts : Options) : string :=
  if dryRun opts then "Review the installation plan. Dry-run mode will not modify this system."
  else "Review the installation plan. Choosing OK will start modifying this system.".

Definition PresenterPreflight (opts : Options) : M Desk unit :=
  model ← model_get id;
  preflightText ← lift (buildPreflightText model);
  m_view (scrollableMessage Preflight.title (preflightQuestion opts) preflightText Preflight.help).
End preflight.

Section download.
Context `{Asio} `{Machine}.
Variable opts : Options.

(** ** Downloading a pending image *)

(** Only whether there is a percentage matters here. *)
Definition wgetProgressPercent (cmd : Runner.CommandProxy) : option unit * Runner.CommandProxy :=
  let '(out, cmd) := Runner.getline cmd in
  match out with
  | None => (None, cmd)
  | Some line => (if contains "ERROR 404: Not Found" line then None else Some tt, cmd)
  end.

Definition title : string := "Compute node OS settings".

(** The process is run to its end when it is started; stopping it leaves less
    than that. *)
Definition downloadPendingDiskImage : M Desk unit :=
  pendingURL ← model_get k_pendingDiskImageDownloadURL;
  diskImagePath ← model_get (fun c => DiskImage.m_path (k_diskImage c));
  match pendingURL with
  | None => skip
  | Some pendingURL =>
      if dryRun opts then m_model clearPendingDiskImageDownload
      else
        result ← m_world (execute (Spawn ("wget -c -P " +:+ parent_path diskImagePath +:+ " " +:+ pendingURL)));
        let command := Runner.runCommandIter opts (unlines result.2) true in
        answer ← m_view (progressMenu title
          ("Downloading ISO from " +:+ filename diskImagePath +:+ nl +:+ "Source: " +:+ pendingURL)
          command (fun cmd => mret (wgetProgressPercent cmd)));
        let '(shouldContinue, command) := answer in
        if negb shouldContinue then throw (ViewAbortRequested "ISO download stopped")
        else
          there ← m_world (ask (fun w => fs_exists w diskImagePath));
          _ ← (if negb (Runner.hasProcess command) then skip
               else if negb (result.1 =? 0) then
                 let message := "ISO download failed with exit code " +:+ dec_int result.1 +:+
                   ". A draft will be saved so you can retry." in
                 _ ← m_view (View.message title message); throw (ViewAbortRequested message)
               else if negb there then
                 let detail := "Downloaded ISO " +:+ diskImagePath +:+ " was not found" in
                 _ ← m_view (View.message title detail); throw (ViewAbortRequested detail)
               else skip);
          m_model clearPendingDiskImageDownload
  end.
End download.

(** ** The steps *)

(** [completedHistory.resize(n)] *)
Definition resize (n : nat) (l : list string) : list string := take n l ++ replicate (n - length l) "".

(** [completedHistory.resize(n); completedHistory.back() = name] *)
Definition set_back (l : list string) (name : string) : list string := removelast l ++ [name].

Section steps.
Context `{Asio}.
Variables (steps : list (string * M Desk unit)) (onStepComplete : list string -> M Desk unit).

Definition complete_step (stepIndex : nat) (name : string) (completedHistory : list string) : list string :=
  if (length completedHistory =? stepIndex)%nat then completedHistory ++ [name]
  else if (length completedHistory <? stepIndex)%nat then resize stepIndex completedHistory ++ [name]
  else set_back (resize (S stepIndex) completedHistory) name.

(** One round of the loop; a request to go back on the first step ends the
    questionnaire. *)
Definition run_step (s : nat * list string) : M Desk (nat * list string + list string) :=
  let '(stepIndex, completedHistory) := s in
  match steps !! stepIndex with
  | None => mret (inr completedHistory)
  | Some (name, step) =>
      try_catchM
        (_ ← step;
         let completedHistory := complete_step stepIndex name completedHistory in
         _ ← onStepComplete completedHistory;
         mret (inl (S stepIndex, completedHistory)))
        is_back (fun _ =>
          match stepIndex with
          | O => throw (ViewAbortRequested "Questionnaire stopped by operator request")
          | S before =>
              let completedHistory := resize before completedHistory in
              _ ← onStepComplete completedHistory;
              mret (inl (before, completedHistory))
          end)
  end.

(** Going back takes a reply, so a round for each step and reply is enough
    ([run_steps_unfold]). *)
Definition run_steps (s : nat * list string) : M Desk (list string) :=
  fun d => rounds (S (pending d) * S (length steps)) run_step s d.

Fixpoint startIndex (names : list string) (completedSteps : gset string) : nat :=
  match names with
  | name :: names => if decide (name ∈ completedSteps) then S (startIndex names completedSteps) else O
  | [] => O
  end.
End steps.

Section install.
Context `{Asio} `{BoostText} `{BoostPort} `{GKeyFile} `{Fmt} `{Machine} `{GChecksum}.
Variables (h : Host) (runner : Runner.IRunner) (entries : list (string * string)) (place : RepoConfig.Place).
Variables (draw1 draw2 : nat -> nat).

Definition serviceQuestion : string := "Do you want to configure a service network?".
Definition serviceHelp : string :=
  "Enable this when the cluster uses a dedicated service or BMC network alongside the management network.".

(** The networks entered, before any goes into the cluster *)
Definition collectNetworks : M Desk NetworkCreator :=
  nc ← attempt h [] Network.Profile.External;
  nc ← attempt h nc Network.Profile.Management;
  wanted ← m_view (yesNoQuestion "Network settings" serviceQuestion serviceHelp);
  nc ← (if wanted : bool then attempt h nc Network.Profile.Service else mret nc);
  PresenterInfiniband h nc.

Definition networking : M Desk unit :=
  nc ← collectNetworks;
  m_model (saveNetworksToModel h nc).

Definition steps : list (string * M Desk unit) :=
  [("general", PresenterGeneralSettings); ("time", PresenterTime); ("locale", PresenterLocale.PresenterLocale runner);
   ("hostname", PresenterHostId); ("networking", networking); ("os", OperationalSystem.PresenterNodesOperationalSystem h);
   ("provisioner", PresenterProvisioner); ("ohpc", PresenterOpenHPC);
   ("repositories", PresenterRepository h entries place); ("nodes", PresenterNodes.PresenterNodes);
   ("queue", PresenterQueueSystem draw1 draw2); ("mail", PresenterMailSystem);
   ("preflight", PresenterPreflight (h_opts h))].

Definition PresenterInstall (onStepComplete : list string -> M Desk unit) (completedSteps : gset string) : M Desk unit :=
  _ ← (if decide (completedSteps = ∅) then _ ← PresenterWelcome; PresenterInstructions else skip);
  let start := startIndex steps.*1 completedSteps in
  _ ← run_steps steps onStepComplete (start, take start steps.*1);
  downloadPendingDiskImage (h_opts h).
End install.
