(* ===== verification/Main.v ===== *)
(** * The program

    [runApplication] and [main] of [src/main.cpp], from the parsed command
    line on.  The program is that of a release build, which has no test
    commands; what the log says is left out. *)

From stdpp Require Import base strings list gmap.
From Stdlib Require Import ZArith Lia Ascii.
From S2P Require Import Prelude CppString External Enums KeyFile Options World FileOps RepoData.
From S2P Require Import Cluster ClusterFill ClusterDump TuiSession View Presenters PresenterInstall.
From S2P Require AnswerFile Runner OsService RepoConfig RepoManager Role Ansible.

Local Open Scope Z_scope.

Definition productName : string := "OpenCATTUS".
Definition productVersion : string := "1.1".
Definition EXIT_SUCCESS : Z := 0.
Definition EXIT_FAILURE : Z := 1.

(** The options are changed before they become constant. *)
Definition put_enableTUI (v : bool) (o : Options) : Options :=
  mkOptions (parsingError o) (helpAndExit o) (showVersion o) (runAsRoot o) (dryRun o) v (enableCLI o) (runAsDaemon o)
    (airGap o) (unattended o) (enableMirrors o) (listRoles o) (logLevelInput o) (error o) (config o) (helpText o)
    (airGapUrl o) (mirrorBaseUrl o) (answerfile o) (beegfsVersion o) (zabbixVersion o) (xcatVersion o)
    (dumpAnswerfile o) (tuiDraft o) (stopAfterStep o) (skipSteps o) (forceSteps o) (ohpcPackages o) (roles o)
    (testCommand o) (testCommandArgs o).

Definition put_h_opts (o : Options) (h : Host) : Host :=
  mkHost o (h_ifs h) (h_resolver h) (h_domainname h) (h_routes h) (h_nametoindex h) (h_files h) (h_os h) (h_status h).

(** ** Asking before the machine is changed *)

(** [std::cin >> response; std::cin.ignore(..., '\n')]: the character read, if
    there is one, and what is left *)
Definition read_response (input : string) : option ascii * string :=
  match skip_space input with
  | EmptyString => (None, "")
  | String c rest => (Some c, match find_char "010" rest with Some i => sdrop (S i) rest | None => "" end)
  end.

(** At the end of the input the response stays [N]. *)
Fixpoint confirm_loop (fuel : nat) (input : string) : option (bool * string) :=
  match fuel with
  | O => None
  | S fuel =>
      let '(response, input) := read_response input in
      let response := to_upper_char (default "N"%char response) in
      if Ascii.eqb response "Y" then Some (true, input)
      else if Ascii.eqb response "N" then Some (false, input)
      else confirm_loop fuel input
  end.

(** What the program keeps: the desk with the cluster, its standard input, and
    what it has printed *)
Record App `{Asio} := mkApp { a_desk : Desk; a_stdin : string; a_printed : list string }.

Section main.
Context `{Asio} `{BoostText} `{BoostPort} `{GKeyFile} `{Fmt} `{Machine} `{BoostIni} `{Glibc} `{GChecksum}.

Definition on_desk {A} (m : M Desk A) : M App A := zoom a_desk (fun d a => mkApp _ d (a_stdin a) (a_printed a)) m.
Definition print (text : string) : M App unit := modify (fun a => mkApp _ (a_desk a) (a_stdin a) (a_printed a ++ [text])).

Definition confirmSystemModification (opts : Options) : M App bool :=
  if dryRun opts || enableTUI opts || negb (empty (testCommand opts)) || negb (empty (dumpAnswerfile opts)) then mret true
  else if unattended opts then _ ← print (productName +:+ " will now modify your system."); mret true
  else fun a =>
    match confirm_loop (S (String.length (a_stdin a))) (a_stdin a) with
    | Some (b, input) => (Ok b, mkApp _ (a_desk a) input (a_printed a))
    | None => (Throw NoReturn, a)
    end.

(** [checkRootOrExplain]; [root] is whether [geteuid] is zero. *)
Definition checkRootOrExplain (root : bool) : M App bool :=
  if root then mret true else _ ← print (productName +:+ ": must be run as root"); mret false.

(** ** The answer file of a questionnaire *)

Definition dump_to (path : string) : M Desk unit :=
  model ← model_get id;
  dumped ← lift (dumpData path model);
  m_world (Files.write dumped.1 dumped.2).

Definition load_answerfile (opts : Options) (path : string) : M Desk AnswerFileData.AnswerFile :=
  w ← gets d_world;
  lift (AnswerFile.AnswerFile_make (dryRun opts) (contents w) path true).

(** The file [mkstemp] makes up the name of; nobody else can read it. *)
Definition createTemporaryTuiAnswerfilePath (path : string) : M World unit :=
  made ← stream_write path "";
  if made : bool then skip else throw (RuntimeError "Unable to create temporary TUI answerfile").

(** [~ScopedFileRemoval] *)
Definition with_removal {A} (path : string) (m : M Desk A) : M Desk A := fun d =>
  let '(r, d) := m d in
  match r with
  | Throw NoReturn | UB => (r, d)
  | _ => (r, (m_world (try_catchM (fs_remove path) is_std_exception (fun _ => skip)) d).2)
  end.

Definition generateAnswerfileFromTuiModel (opts : Options) (path : string) : M Desk AnswerFileData.AnswerFile :=
  _ ← m_world (createTemporaryTuiAnswerfilePath path);
  with_removal path (_ ← dump_to path; load_answerfile opts path).

(** [writeDraft] of the model *)
Definition write_model (path : string) (steps : list string) (complete : bool) : M Desk unit :=
  model ← model_get id;
  m_world (writeDraft model path steps complete).

Definition set_steps (steps : list string) : M Desk unit :=
  modify (fun d => mkDesk _ (d_model d) (d_world d) (d_operator d) steps).

(** [saveTuiDraft] *)
Definition saveTuiDraft (draftPath : string) (steps : list string) : M Desk unit :=
  _ ← set_steps steps;
  try_catchM (write_model draftPath steps false) is_std_exception (fun _ => skip).

(** ** Loading *)

Section run.
Variables (root : bool) (fresh : outcome Cluster) (host : Host) (entries : list (string * string)).
Variables (place : RepoConfig.Place) (draw1 draw2 : nat -> nat) (tmp_path timestamp current_path : string).

Definition runner (opts : Options) : Runner.IRunner := if dryRun opts then Runner.DryRunner opts else Runner.Runner opts.

(** The draft is applied to the model as far as it goes. *)
Definition apply_draft (opts : Options) (path : string) : M App unit :=
  on_desk (m_site (applyDraftToModel (put_h_opts opts host) path)).

Definition resume (opts : Options) (path : string) : M App DraftState :=
  state ← on_desk (m_world (loadDraftState path));
  _ ← apply_draft opts path;
  mret state.

Record Loaded := mkLoaded {
  l_answerfile : option AnswerFileData.AnswerFile;
  l_draft : DraftState;
  l_path : string;
}.

Definition draft_refused (path : string) : string :=
  "Answerfile " +:+ path +:+ " is an incomplete TUI draft. Resume it with --tui --answerfile " +:+ path +:+
  ", or finish the questionnaire and use the completed output for unattended installs.".

Definition draft_question (path : string) : string :=
  "A TUI draft was found:" +:+ nl +:+ path +:+ nl +:+ nl +:+ "Continue from this draft?".

(** The answer file, the draft and its path; or the exit code *)
Definition load (opts : Options) : M App (Z + Loaded) :=
  if negb (empty (answerfile opts)) then
    isDraft ← on_desk (m_world (isDraftAnswerfile (answerfile opts)));
    if isDraft : bool then
      if negb (enableTUI opts) then _ ← print (draft_refused (answerfile opts)); mret (inl EXIT_FAILURE)
      else state ← resume opts (answerfile opts); mret (inr (mkLoaded None state (answerfile opts)))
    else
      af ← on_desk (load_answerfile opts (answerfile opts));
      _ ← on_desk (m_site (fillData (put_h_opts opts host) af));
      mret (inr (mkLoaded (Some af) DraftState_default ""))
  else if enableTUI opts then
    let path := defaultDraftPath current_path opts in
    path ← (if empty (dumpAnswerfile opts) then mret path
            else
              isDraft ← on_desk (m_world (isDraftAnswerfile (dumpAnswerfile opts)));
              mret (if isDraft : bool then dumpAnswerfile opts else path));
    isDraft ← on_desk (m_world (isDraftAnswerfile path));
    if isDraft : bool then
      wanted ← on_desk (m_view (yesNoQuestion "TUI draft" (draft_question path)
        ("Choose Yes to continue the saved questionnaire. Choose No to start a new questionnaire.")));
      if wanted : bool then state ← resume opts path; mret (inr (mkLoaded None state path))
      else mret (inr (mkLoaded None DraftState_default path))
    else mret (inr (mkLoaded None DraftState_default path))
  else mret (inr (mkLoaded None DraftState_default "")).

(** ** The questionnaire *)

(** What stopping the questionnaire leaves: the draft, or the failure to write
    it *)
Definition stop_questionnaire (draftPath : string) : M App Z :=
  steps ← on_desk (gets d_completedSteps);
  try_catchM
    (_ ← on_desk (write_model draftPath steps false);
     _ ← print ("TUI stopped. Draft saved to " +:+ draftPath);
     mret EXIT_SUCCESS)
    is_std_exception
    (fun saveError =>
       _ ← print ("TUI stopped, but saving the draft to " +:+ draftPath +:+ " failed: " +:+ what saveError);
       mret EXIT_FAILURE).

(** The answer file made of the answers, or the exit code *)
Definition questionnaire (opts : Options) (loaded : Loaded) : M App (Z + AnswerFileData.AnswerFile) :=
  let draftPath := if empty (l_path loaded) then defaultDraftPath current_path opts else l_path loaded in
  _ ← on_desk (set_steps (completedSteps (l_draft loaded)));
  stopped ← try_catchM
    (_ ← on_desk (PresenterInstall (put_h_opts opts host) (runner opts) entries place draw1 draw2
                    (saveTuiDraft draftPath) (completedStepSet (l_draft loaded)));
     mret None)
    is_abort (fun _ => code ← stop_questionnaire draftPath; mret (Some code));
  match stopped with
  | Some code => mret (inl code)
  | None =>
      af ← on_desk (generateAnswerfileFromTuiModel opts tmp_path);
      steps ← on_desk (gets d_completedSteps);
      _ ← on_desk (try_catchM (write_model draftPath steps true) is_std_exception (fun _ => skip));
      mret (inr af)
  end.

(** ** The run *)

(** Writing the answer file asked for: the exit code if it fails *)
Definition write_output (opts : Options) (steps : list string) : M App (option Z) :=
  let path := if enableTUI opts then defaultAnswerfilePath current_path opts else dumpAnswerfile opts in
  try_catchM
    (_ ← on_desk (if enableTUI opts then write_model path steps true else dump_to path); mret None)
    is_std_exception
    (fun ex => _ ← print ("Failed to write answerfile " +:+ path +:+ ": " +:+ what ex); mret (Some EXIT_FAILURE)).

(** The singletons and the engine.  An answer file is there unless a test
    command was given ([load_gives_answerfile]); what a release build then
    does, until a role looks for the answer file, is not followed further. *)
Definition install (opts : Options) (af : option AnswerFileData.AnswerFile) : M Desk unit :=
  model ← model_get id;
  osservice ← lift (OsService.factory (runner opts) (s_os (h_server (k_headnode model))));
  af ← lift (deref af);
  m_world (fun w =>
    let '(r, s) := Ansible.executionEngine opts (runner opts) osservice model af entries place timestamp current_path
                     (RepoManager.mkSession w RepoManager.RPMRepoManager_default) in
    (r, RepoManager.s_world s)).

(** From the model on *)
Definition finish (opts : Options) (af : option AnswerFileData.AnswerFile) (steps : list string) : M App Z :=
  let output := enableTUI opts || negb (empty (dumpAnswerfile opts)) in
  failed ← (if output then write_output opts steps else mret None);
  match failed with
  | Some code => mret code
  | None =>
      if output && (negb (enableTUI opts) || negb (empty (dumpAnswerfile opts))) then mret EXIT_SUCCESS
      else if dryRun opts && enableTUI opts then mret EXIT_SUCCESS
      else
        confirmed ← confirmSystemModification opts;
        if negb confirmed then mret EXIT_SUCCESS
        else _ ← on_desk (install opts af); mret EXIT_SUCCESS
  end.

Definition proceed (opts : Options) (loaded : Loaded) : M App Z :=
  if enableTUI opts then
    answered ← questionnaire opts loaded;
    match answered with
    | inl code => mret code
    | inr af => steps ← on_desk (gets d_completedSteps); finish opts (Some af) steps
    end
  else finish opts (l_answerfile loaded) (completedSteps (l_draft loaded)).

(** What is answered before anything is looked at *)
Definition early_exit (opts : Options) : option (Z * string) :=
  if parsingError opts then
    Some (EXIT_FAILURE, "Command line error: " +:+ error opts +:+ nl +:+ "Run with --help to see available options.")
  else if showVersion opts then Some (EXIT_SUCCESS, productName +:+ ": Version " +:+ productVersion)
  else if helpAndExit opts then Some (EXIT_SUCCESS, "Help:" +:+ nl +:+ helpText opts)
  else if listRoles opts then
    Some (EXIT_SUCCESS, "Roles: " +:+ lower (concat_sep "," (toStrings Role.Roles.t)))
  else None.

Definition requestedTui (opts : Options) : bool := enableTUI opts || negb (empty (tuiDraft opts)).
Definition shouldRunInteractiveQuestionnaire (opts : Options) : bool :=
  empty (answerfile opts) && empty (testCommand opts).

Definition cli_text : string :=
  "The command-line questionnaire is not implemented yet." +:+ nl +:+
  "Use --tui for the guided questionnaire or --answerfile for an unattended installation.".

(** A test command also implies [--unattended], which matters to
    [confirmSystemModification] only, and not there: it asks nothing when there
    is a test command. *)
Definition runApplication (opts : Options) : M App Z :=
  match early_exit opts with
  | Some (code, text) => _ ← print text; mret code
  | None =>
      let opts := put_enableTUI (requestedTui opts || shouldRunInteractiveQuestionnaire opts) opts in
      let needs_root := empty (testCommand opts) && empty (dumpAnswerfile opts) && negb (enableTUI opts && dryRun opts) in
      allowed ← (if needs_root then checkRootOrExplain root else mret true);
      if negb allowed then mret EXIT_FAILURE
      else if enableCLI opts then _ ← print cli_text; mret EXIT_FAILURE
      else
        model ← lift fresh;
        _ ← on_desk (m_model (modify (fun _ => model)));
        loaded ← load opts;
        match loaded with
        | inl code => mret code
        | inr loaded => proceed opts loaded
        end
  end.

(** [main]: whatever is thrown ends in an exit code. *)
Definition main (opts : Options) : M App Z :=
  try_catchM (runApplication opts) is_any (fun ex =>
    _ ← print (if is_std_exception ex then productName +:+ ": " +:+ what ex
               else productName +:+ ": unexpected fatal error");
    mret EXIT_FAILURE).
End run.
End main.
