(* ===== verification/PresenterSpec.v ===== *)
(** * What the dialogues do to the cluster

    The networks that are collected fit together and are added to the cluster
    behind those it has; the host name is taken as it is; the addresses
    suggested for nodes are free, and the nodes are those asked for. *)

From stdpp Require Import base strings list gmap sorting.
From Stdlib Require Import ZArith Lia Ascii.
From S2P Require Import Prelude CppString External Enums Options World Cluster ClusterFill ClusterFillSpec ClusterLayout.
From S2P Require Import TuiSession TuiSessionSpec View ViewSpec Presenters PresenterNetwork PresenterNodes PresenterInstall.
From S2P Require Network Connection XcatSpec.

Local Open Scope Z_scope.

(** ** Lists in which any two elements are related *)

Lemma ForallOrdPairs_app {X} (R : X -> X -> Prop) l k :
  ForallOrdPairs R l -> ForallOrdPairs R k -> (forall x, x ∈ l -> Forall (R x) k) -> ForallOrdPairs R (l ++ k).
Proof.
  intros Hl Hk Hlk. induction Hl as [|x l Hx Hl IH]; [done|]. cbn. constructor.
  - apply Forall_app. split; [done|]. apply Hlk. by left.
  - apply IH. intros y Hy. apply Hlk. by right.
Qed.

(** ** Networks *)

Section networks.
Context `{AL : AsioLaws} `{BoostText}.
Variable h : Host.

(** The network part of an address text *)
Definition in_subnet (text mask : string) (n : Z) : Prop :=
  exists a m, make_address text = Some a /\ make_address mask = Some m /\ is_v4 a = true /\ is_v4 m = true /\
    n = Z.land (to_uint a) (to_uint m).

(** A network entered stands for itself: its interface is of its type, and
    its gateway is left out, unspecified or inside the subnet. *)
Record entry_sound (d : NetworkCreatorData) : Prop := {
  sound_interface : isInfinibandInterface (interface d) = bool_decide (type d = Network.NetType.Infiniband);
  sound_type : type d = Network.NetType.Infiniband <-> profile d = Network.Profile.Application;
  sound_gateway : gateway d = "" \/
    (exists g, make_address (gateway d) = Some g /\ is_v4 g = true /\ is_unspecified g = true) \/
    exists n, in_subnet (nc_address d) (subnetMask d) n /\ in_subnet (gateway d) (subnetMask d) n;
}.

(** Two networks, the first entered before the second *)
Record compatible (d e : NetworkCreatorData) : Prop := {
  compatible_profile : profile d <> profile e;
  compatible_interface : interface d = interface e ->
    (profile d = Network.Profile.Management /\ profile e = Network.Profile.Service) \/
    (profile d = Network.Profile.Service /\ profile e = Network.Profile.Management);
  compatible_service : profile d = Network.Profile.Management -> profile e = Network.Profile.Service ->
    exists n n', in_subnet (nc_address d) (subnetMask d) n /\ in_subnet (nc_address e) (subnetMask e) n' /\ n <> n' /\
      make_address (nc_address d) <> make_address (nc_address e);
}.

(** What was entered: every network for itself, and any two in their order *)
Definition legal (nc : NetworkCreator) : Prop := Forall entry_sound nc /\ ForallOrdPairs compatible nc.

Lemma network_address_Ok a m x :
  calculateNetworkAddress a m = Ok x ->
  is_v4 a = true /\ is_v4 m = true /\ x = address_v4 (Z.land (to_uint a) (to_uint m)).
Proof. unfold calculateNetworkAddress. destruct (is_v4 a), (is_v4 m); cbn; intros [=]; by subst. Qed.

Lemma make_address_Ok s a : Network.make_address_exc s = Ok a <-> make_address s = Some a.
Proof. unfold Network.make_address_exc. destruct (make_address s); naive_solver. Qed.

Lemma try_catch_Ok {X} (m : outcome X) sel f a :
  try_catch m sel f = Ok a -> m = Ok a \/ exists e, m = Throw e /\ f e = Ok a.
Proof. destruct m as [b|e|]; cbn; [auto| |done]. destruct (sel e); [eauto|done]. Qed.

Lemma gateway_accepted address mask gateway :
  validateGatewaySubnet address mask gateway = Ok gateway_valid ->
  gateway = "" \/ (exists g, make_address gateway = Some g /\ is_v4 g = true /\ is_unspecified g = true) \/
  exists n, in_subnet address mask n /\ in_subnet gateway mask n.
Proof.
  unfold validateGatewaySubnet. destruct (empty gateway) eqn:He; [by destruct gateway; [left|]|].
  intros [Hok|(e & _ & [=])]%try_catch_Ok. right.
  apply bind_Ok in Hok as (a & Ha%make_address_Ok & Hok). apply bind_Ok in Hok as (m & Hm%make_address_Ok & Hok).
  apply bind_Ok in Hok as (g & Hg%make_address_Ok & Hok).
  destruct (negb (is_v4 a) || negb (is_v4 m) || negb (is_v4 g)) eqn:Hv; [done|].
  apply orb_false_iff in Hv as [[Ha4%negb_false_iff Hm4%negb_false_iff]%orb_false_iff Hg4%negb_false_iff].
  destruct (is_unspecified g) eqn:Hu; [by left; eauto|].
  apply bind_Ok in Hok as (x & (_ & _ & ->)%network_address_Ok & Hok).
  apply bind_Ok in Hok as (y & (_ & _ & ->)%network_address_Ok & Hok).
  case_decide as Hd; [done|].
  apply (f_equal to_uint) in Hd. rewrite !address_v4_uint in Hd by (apply land_range; apply to_uint_range; done).
  right. exists (Z.land (to_uint a) (to_uint m)). split; [by exists a, m|]. by exists g, m.
Qed.

Lemma service_accepted d address mask :
  validateSharedServiceNetwork d address mask = Ok shared_valid ->
  exists n n', in_subnet (nc_address d) (subnetMask d) n /\ in_subnet address mask n' /\ n <> n' /\
    make_address (nc_address d) <> make_address address.
Proof.
  unfold validateSharedServiceNetwork. intros [Hok|(e & _ & [=])]%try_catch_Ok.
  apply bind_Ok in Hok as (a & Ha%make_address_Ok & Hok). apply bind_Ok in Hok as (m & Hm%make_address_Ok & Hok).
  apply bind_Ok in Hok as (b & Hb%make_address_Ok & Hok). apply bind_Ok in Hok as (n & Hn%make_address_Ok & Hok).
  case_decide as Hab; [done|].
  apply bind_Ok in Hok as (x & (Ha4 & Hm4 & ->)%network_address_Ok & Hok).
  apply bind_Ok in Hok as (y & (Hb4 & Hn4 & ->)%network_address_Ok & Hok).
  case_decide as Hxy; [done|].
  exists (Z.land (to_uint b) (to_uint n)), (Z.land (to_uint a) (to_uint m)).
  split_and!; [by exists b, n|by exists a, m| |congruence]. intros Heq. apply Hxy. by rewrite Heq.
Qed.

(** *** One network *)

Lemma forallb_In {X} (f : X -> bool) l x : forallb f l = true -> x ∈ l -> f x = true.
Proof. intros Hf Hx. rewrite List.forallb_forall in Hf. apply Hf. by apply list_elem_of_In. Qed.

(** An interface offered is of the type asked for and free for the profile. *)
Lemma possible_interfaces nc p t l i :
  retrievePossibleInterfaces h nc p t = Ok l -> i ∈ l ->
  interfaceMatchesType i t = true /\ canUseInterface i p nc = true.
Proof.
  unfold retrievePossibleInterfaces. intros (ifs & _ & [= <-])%bind_Ok Hi.
  rewrite (merge_sort_Permutation _), list_elem_of_filter in Hi. destruct Hi as [Hi _].
  apply Is_true_true, andb_true_iff in Hi. exact Hi.
Qed.

Lemma canShare_spec p q :
  canShareInterface p q = true ->
  (p = Network.Profile.Management /\ q = Network.Profile.Service) \/
  (p = Network.Profile.Service /\ q = Network.Profile.Management).
Proof. destruct p, q; cbn; auto; done. Qed.

Lemma findByProfile_spec p nc d :
  d ∈ nc -> profile d = p -> exists d', findByProfile p nc = Some d' /\ d' ∈ nc /\ profile d' = p.
Proof.
  intros Hd Hp. unfold findByProfile.
  destruct (list_find _ nc) as [[i d']|] eqn:E.
  - apply list_find_Some in E as (Hi & Hp' & _). exists d'. split_and!; [done| |done].
    by apply list_elem_of_lookup_2 in Hi.
  - apply list_find_None in E. rewrite Forall_forall in E. by specialize (E d Hd).
Qed.

Lemma not_refused p management details :
  refusal p management details = Ok None ->
  validateGatewaySubnet (field details 0) (field details 1) (field details 2) = Ok gateway_valid /\
  (p = Network.Profile.Service -> forall m, management = Some m ->
     validateSharedServiceNetwork m (field details 0) (field details 1) = Ok shared_valid).
Proof.
  unfold refusal. intros (status & Hg & Hok)%bind_Ok. destruct status; [|done..]. split; [done|].
  intros -> m ->. apply bind_Ok in Hok as (shared & Hs & Hok). by destruct shared.
Qed.

Lemma createNetwork_returns interfaces nc p t :
  returns (createNetwork h interfaces nc p t) (fun d =>
    profile d = p /\ type d = t /\ interface d ∈ interfaces /\
    validateGatewaySubnet (nc_address d) (subnetMask d) (gateway d) = Ok gateway_valid /\
    (p = Network.Profile.Service -> forall m, findByProfile Network.Profile.Management nc = Some m ->
       validateSharedServiceNetwork m (nc_address d) (subnetMask d) = Ok shared_valid)).
Proof.
  unfold createNetwork. eapply (returns_bind _ _ (fun i => i ∈ interfaces)).
  { apply returns_zoom, (wp_returns _ _ (fun e _ => left_dialogue e)). intros o. apply listMenu_spec. }
  intros i Hi. do 5 (apply returns_then; intros ?).
  eapply (returns_bind _ _ (fun details => refusal p (findByProfile Network.Profile.Management nc) details = Ok None)).
  { apply (returns_forever _ (fun _ => True)); [done|]. intros details _. unfold ask_details.
    apply returns_then. intros details'. apply (returns_bind _ _ (fun r =>
      refusal p (findByProfile Network.Profile.Management nc) details' = Ok r)); [by apply returns_lift|].
    intros [error|] Hr; [|by apply returns_ret]. apply returns_then. intros _. by apply returns_ret. }
  intros details [Hg Hs]%not_refused. apply returns_then. intros domains. by apply returns_ret.
Qed.

Lemma legal_profiles nc d e :
  ForallOrdPairs compatible nc -> d ∈ nc -> e ∈ nc -> profile d = profile e -> d = e.
Proof.
  induction 1 as [|x l Hx Hl IH]; [by intros ?%elem_of_nil|]. rewrite Forall_forall in Hx.
  intros [->|Hd]%elem_of_cons [->|He]%elem_of_cons Heq; [done|..|by apply IH].
  - by destruct (compatible_profile _ _ (Hx e He)).
  - by destruct (compatible_profile _ _ (Hx d Hd)).
Qed.

(** Adding what was entered keeps the list legal. *)
Lemma PresenterNetwork_legal nc p t :
  (t = Network.NetType.Infiniband <-> p = Network.Profile.Application) -> legal nc ->
  returns (PresenterNetwork h nc p t) (fun nc' => legal nc').
Proof.
  intros Ht [Hsound Hpairs]. unfold PresenterNetwork. apply returns_then. intros _.
  eapply (returns_bind _ _ (fun l => retrievePossibleInterfaces h nc p t = Ok l)); [by apply returns_lift|].
  intros interfaces Hif. do 2 (apply returns_then; intros _).
  eapply returns_bind; [apply createNetwork_returns|]. intros d (<- & <- & Hi & Hg & Hs). apply returns_ret.
  unfold addNetworkInformation, checkIfProfileExists. case_bool_decide as Hnew; [done|].
  destruct (possible_interfaces _ _ _ _ _ Hif Hi) as [Htype Hfree]. split.
  - apply Forall_app. split; [done|]. apply Forall_singleton. split; [|done|by apply gateway_accepted].
    unfold interfaceMatchesType in Htype. destruct (type d); [by apply negb_true_iff in Htype|done].
  - apply ForallOrdPairs_app; [done|by repeat constructor|]. intros e Hpe. apply Forall_singleton. split.
    + intros Heq. apply Hnew. rewrite <- Heq. by apply list_elem_of_fmap_2.
    + intros Heq. unfold canUseInterface in Hfree. pose proof (forallb_In _ _ _ Hfree Hpe) as Hc.
      cbn beta in Hc. rewrite Heq, String.eqb_refl in Hc. by apply canShare_spec.
    + intros Hm Hp. destruct (findByProfile_spec _ _ _ Hpe Hm) as (e' & Hf & He' & Hm').
      specialize (Hs Hp _ Hf). replace e' with e in Hs; [by apply service_accepted|].
      apply (legal_profiles nc e e'); [done..|congruence].
Qed.

Lemma attempt_legal nc p :
  p <> Network.Profile.Application -> legal nc -> returns (attempt h nc p) (fun nc' => legal nc').
Proof.
  intros Hp Hnc. unfold attempt. apply returns_catch; [|intros _; by apply returns_ret].
  apply PresenterNetwork_legal; [|done]. split; [done|]. by intros ->.
Qed.

Lemma PresenterInfiniband_legal nc : legal nc -> returns (PresenterInfiniband h nc) (fun nc' => legal nc').
Proof.
  intros Hnc. unfold PresenterInfiniband. do 2 (apply returns_then; intros ?). case_match; [by apply returns_ret|].
  apply returns_then. intros wanted. destruct (negb wanted); [by apply returns_ret|].
  do 4 (apply returns_then; intros ?).
  apply returns_catch; [by apply PresenterNetwork_legal|]. intros e. apply returns_then. intros _. by apply returns_ret.
Qed.

(** C4. Whatever the operator enters and whichever networks fail, the networks
    collected are of different profiles, each on an interface of its type with
    a gateway inside its subnet; an interface is shared by the management and
    the service network only, and these two are in different subnets. *)
Theorem collected_networks : returns (collectNetworks h) (fun nc => legal nc).
Proof.
  unfold collectNetworks. eapply returns_bind; [apply attempt_legal; [done|by split; constructor]|]. intros nc1 H1.
  eapply returns_bind; [by apply attempt_legal|]. intros nc2 H2. apply returns_then. intros wanted.
  eapply (returns_bind _ _ (fun nc => legal nc)).
  - destruct wanted; [by apply attempt_legal|by apply returns_ret].
  - intros nc3 H3. by apply PresenterInfiniband_legal.
Qed.

(** *** Into the cluster *)

Lemma lift_bind_cases {S X Y} (o : outcome X) (f : X -> M S Y) (Q : outcome Y * S -> Prop) s :
  (forall x, o = Ok x -> Q (f x s)) -> (forall e, Q (Throw e, s)) -> Q (UB, s) -> Q ((x ← lift o; f x) s).
Proof. intros Hok Hthrow Hub. unfold mbind, M_bind, lift. destruct o; auto. Qed.

Lemma steady_from_string {S X} (g : S -> X) setter msg s :
  (forall a, steady g (setter a)) -> steady g (Network.from_string setter msg s).
Proof.
  intros Hs s0 a s' Hr. unfold Network.from_string, try_catchM, mbind, M_bind, lift, throw in Hr.
  destruct (Network.make_address_exc s) as [x|e|]; [|by destruct (is_system_error e)|done].
  destruct (setter x s0) as [[b|e|] s1] eqn:E; [|by destruct (is_system_error e)|done].
  injection Hr as <- <-. by apply (Hs x _ _ _ E).
Qed.

(** One network: nothing happens to the cluster, or it is added, with a
    connection of the head node that leads to it. *)
Definition added_network (d : NetworkCreatorData) (c : Cluster) (r : outcome unit * Cluster) : Prop :=
  (r.1 <> Ok tt /\ r.2 = c) \/
  (r.1 = Ok tt /\ exists n x, layout r.2 = (k_network c ++ [n], k_nodes c, head_connections c ++ [x]) /\
     Network.m_profile n = profile d /\ Connection.m_network x = length (k_network c)).

Lemma steady_connection_string setter (msg s : string) :
  (forall a, steady Connection.m_network (setter a)) -> steady Connection.m_network (Network.from_string setter msg s).
Proof. apply steady_from_string. Qed.

Lemma saveNetworkToModel_adds d c : added_network d c (saveNetworkToModel h d c).
Proof.
  unfold saveNetworkToModel. rewrite (M_bind_ok (gets id) _ c c c) by done. cbn [id].
  apply lift_bind_cases; [|by intros e; left; split|by left; split]. intros x0 Hx0%Connection_network_pointer.
  apply lift_bind_cases; [|by intros e; left; split|by left; split]. intros x1 Hx1%on_connection_network;
    [|apply steady_from_string; intros a; apply steady_setAddress].
  apply lift_bind_cases; [|by intros e; left; split|by left; split]. intros x2 Hx2%on_connection_network;
    [|apply steady_setInterface].
  apply lift_bind_cases; [|by intros e; left; split|by left; split]. intros n Hn%construct_ok.
  right. split; [done|]. exists n, x2. split; [done|]. split; [|congruence].
  assert (Network.m_profile n = Network.m_profile (Network.Network_profile_type (profile d) (type d))) as ->; [|done].
  eapply (steady_of Hn). steadily.
  all: first [apply steady_from_string; intros a | idtac].
  all: first [apply steady_setSubnetMask | apply steady_core; first [apply steady_setNetAddress | apply steady_setGateway
      | apply steady_setDomainName | apply steady_setNameservers]].
Qed.

(** C17. The networks collected are added behind those the cluster has, in
    their order and up to the first that fails, each with a connection of the
    head node that leads to it; no network, connection or node of the cluster
    is ever replaced.  A profile the cluster had before still leads to its old
    network, also when the operator goes back and enters one of it again. *)
Theorem saved_networks nc c :
  let r := saveNetworksToModel h nc c in
  exists saved nets conns, saved `prefix_of` nc /\ (r.1 = Ok tt -> saved = nc) /\
    k_network r.2 = k_network c ++ nets /\ Network.m_profile <$> nets = profile <$> saved /\
    head_connections r.2 = head_connections c ++ conns /\
    Connection.m_network <$> conns = seq (length (k_network c)) (length nets) /\
    k_nodes r.2 = k_nodes c /\
    forall p ptr, getNetwork p c = Ok ptr -> getNetwork p r.2 = Ok ptr.
Proof.
  cbv zeta. unfold saveNetworksToModel. revert c. induction nc as [|d nc IH]; intros c; cbn [for_each].
  { exists [], [], []. by rewrite !app_nil_r. }
  pose proof (saveNetworkToModel_adds d c) as Hd. unfold mbind, M_bind.
  destruct (saveNetworkToModel h d c) as [[[]|e|] c1]; destruct Hd as [[Hr Hc]|[Hr (n & x & Hl & Hp & Hx)]]; cbn in *; try done; subst.
  2,3: exists [], [], []; rewrite !app_nil_r; split_and!; [apply prefix_nil|done..].
  injection Hl as Hn Ho Hh. fold (head_connections c1) in Hh.
  destruct (IH c1) as (saved & nets & conns & Hpre & Hall & Hk & Hprof & Hconn & Hptr & Hnodes & Hget).
  exists (d :: saved), (n :: nets), (x :: conns). split_and!.
  - by apply prefix_cons.
  - intros Hok. by rewrite Hall.
  - by rewrite Hk, Hn, <- app_assoc.
  - cbn. by rewrite Hp, Hprof.
  - by rewrite Hconn, Hh, <- app_assoc.
  - cbn. by rewrite Hx, Hptr, Hn, length_app, Nat.add_1_r.
  - by rewrite Hnodes, Ho.
  - intros p ptr Hq. apply Hget. unfold getNetwork in *. rewrite Hn. by apply getNetwork_loop_app.
Qed.
End networks.

(** ** Host name *)

Section hostname.
Context `{Asio} `{BoostText}.

(** The dialogue as it is, without a loop: the answers are taken over; a name
    that is too long, all digits or has a hyphen at an end throws. *)
Definition hostname_once : M Desk unit :=
  entries ← model_get (fun c =>
    [(HostId.hostname, s_hostname (h_server (k_headnode c))); (HostId.domainName, getDomainName c)]);
  answers ← m_view (fieldMenu HostId.title HostId.question entries HostId.help);
  _ ← m_model (on_headnode (setHostname (field answers 0)));
  _ ← m_model (setDomainName (field answers 1));
  server ← model_get (fun c => h_server (k_headnode c));
  _ ← lift (validateHostname server);
  _ ← lift (validateFQDN server);
  mret tt.

Lemma never_refused (s : Server) :
  (forall e, validateHostname s <> Ok (Unexpected e)) /\ (forall e, validateFQDN s <> Ok (Unexpected e)).
Proof.
  destruct (validate_never_errors s) as [Hh [v Hv]]. split; [|by rewrite Hv]. intros e He. by rewrite He in Hh.
Qed.

Lemma validateHostname_throws (s : Server) e :
  validateHostname s = Throw e -> exists text, e = ThrownString text.
Proof. unfold validateHostname. repeat case_match; intros [=]; by subst; eexists. Qed.

Lemma wp_zoom {S T X} (g : S -> T) put (m : M T X) Q (E : exn -> S -> Prop) s :
  wp m (fun a t => Q a (put t s)) (fun e t => E e (put t s)) (g s) -> wp (zoom g put m) Q E s.
Proof. unfold wp, zoom. by destruct (m (g s)) as [[] ?]. Qed.

(** C36. The host name dialogue is asked once and nothing is ever refused: no
    message is shown, a name with inadmissible characters or an inadmissible
    domain is kept; the other inadmissible names leave the dialogue as a
    thrown text, which no handler of the program but the last one stops. *)
Theorem hostname_never_refused (d : Desk) :
  PresenterHostId d = hostname_once d /\
  wp hostname_once (fun _ _ => True) (fun e _ => left_dialogue e \/ exists text, e = ThrownString text) d.
Proof.
  split.
  - unfold PresenterHostId, forever. cbn [rounds]. unfold hostname_once. rewrite M_bind_assoc.
    apply M_bind_ext; [done|]. intros entries d1. rewrite M_bind_assoc. apply M_bind_ext; [done|]. intros answers d2.
    rewrite M_bind_assoc. apply M_bind_ext; [done|]. intros [] d3. rewrite M_bind_assoc.
    apply M_bind_ext; [done|]. intros [] d4. rewrite M_bind_assoc. apply M_bind_ext; [done|]. intros server d5.
    unfold mbind, M_bind, lift. destruct (never_refused server) as [Hh Hf].
    destruct (validateHostname server) as [[v|e]| |]; [|by destruct (Hh e)|done..].
    by destruct (validateFQDN server) as [[w|e]| |]; [|destruct (Hf e)|..].
  - unfold hostname_once. apply wp_bind. unfold wp at 1, model_get, gets.
    apply wp_bind, wp_zoom. eapply wp_mono.
    + apply (proj1 (fieldMenu_spec _ _ _ _ _)). repeat constructor; vm_compute; lia.
    + intros answers o _. do 3 (apply wp_bind; unfold wp at 1; cbn -[wp hostname_once validateHostname validateFQDN]).
      apply wp_bind. unfold wp at 1, lift.
      match goal with |- context [validateHostname ?s] => destruct (validate_never_errors s) as [Hh [v Hv]];
        pose proof (validateHostname_throws s) as Ht; destruct (validateHostname s) end; [|by right; apply Ht|done].
      apply wp_bind. unfold wp at 1. by rewrite Hv.
    + intros e o He. by left.
Qed.
End hostname.

(** ** Suggested addresses *)

Section free.
Context `{AL : AsioLaws}.
Variables (base hostSpace : Z) (blocked : list Z).
Hypothesis Hbase : 0 <= base.
Hypothesis Hspace : base + hostSpace < 2 ^ 32.

Definition free (offset : Z) : Prop := 0 < offset < hostSpace /\ base + offset ∉ blocked.

Lemma tryOffset_spec offset :
  0 <= offset ->
  match tryOffset base hostSpace blocked offset with
  | Some a => a = address_v4 (base + offset) /\ free offset
  | None => ~ free offset
  end.
Proof.
  intros Ho. unfold tryOffset, free. destruct ((offset =? 0) || (hostSpace <=? offset)) eqn:E.
  - intros [? _]. apply orb_true_iff in E as [E%Z.eqb_eq|E%Z.leb_le]; lia.
  - apply orb_false_iff in E as [E1%Z.eqb_neq E2%Z.leb_gt]. rewrite u32_id by lia. case_decide; [naive_solver|].
    split; [done|]. split; [lia|done].
Qed.

Lemma tryOffsets_spec offsets a :
  Forall (fun o => 0 <= o) offsets -> tryOffsets base hostSpace blocked offsets = Some a ->
  exists o, a = address_v4 (base + o) /\ free o.
Proof.
  induction 1 as [|o offsets Ho _ IH]; cbn; [done|]. pose proof (tryOffset_spec o Ho) as Hs.
  destruct (tryOffset base hostSpace blocked o); [|exact IH]. intros [= <-]. by exists o.
Qed.

Lemma try_from_spec fuel o :
  0 <= o ->
  match try_from base hostSpace blocked fuel o with
  | Some a => exists o', a = address_v4 (base + o') /\ free o'
  | None => forall x, o <= x < o + Z.of_nat fuel -> ~ free x
  end.
Proof.
  revert o. induction fuel as [|fuel IH]; intros o Ho; [intros x Hx; exfalso; lia|]. cbn [try_from].
  destruct (Z.ltb_spec o hostSpace) as [Hlt|Hge]; [|intros x Hx [? _]; lia].
  pose proof (tryOffset_spec o Ho) as Hs. destruct (tryOffset base hostSpace blocked o); [by exists o|].
  specialize (IH (o + 1) ltac:(lia)). destruct (try_from base hostSpace blocked fuel (o + 1)); [done|].
  intros x Hx. destruct (decide (x = o)) as [->|]; [done|]. apply IH. lia.
Qed.

(** The fuel is enough: that many addresses cannot all be blocked. *)
Lemma suggestion_fuel :
  try_from base hostSpace blocked (S (length blocked)) 1 = None -> forall x, ~ free x.
Proof.
  intros Hn. pose proof (try_from_spec (S (length blocked)) 1 ltac:(lia)) as Hs. rewrite Hn in Hs.
  intros x Hx. destruct (Z.ltb_spec x (1 + Z.of_nat (S (length blocked)))) as [Hlt|Hge].
  { apply (Hs x); [|done]. unfold free in Hx. lia. }
  set (tried := (fun i => base + 1 + Z.of_nat i) <$> seq 0 (S (length blocked))).
  assert (tried ⊆+ blocked) as Hsub.
  { apply NoDup_submseteq.
    - apply NoDup_fmap; [|apply NoDup_seq]. intros i j Heq. lia.
    - intros y (i & -> & Hi%elem_of_seq)%list_elem_of_fmap. apply dec_stable. intros Hfree.
      apply (Hs (1 + Z.of_nat i)); [lia|]. destruct Hx. split; [lia|].
      by replace (base + (1 + Z.of_nat i)) with (base + 1 + Z.of_nat i) by lia. }
  apply submseteq_length in Hsub. unfold tried in Hsub. rewrite length_fmap, length_seq in Hsub. lia.
Qed.
End free.

Lemma land_offset k base o :
  0 <= k <= 32 -> Z.land base (Network.netmask k) = base -> 0 <= o < 2 ^ (32 - k) -> 0 <= base < 2 ^ 32 ->
  Z.land (base + o) (Network.netmask k) = base.
Proof.
  intros Hk Hb Ho Hr. destruct (XcatSpec.broadcast k base Hk Hr Hb) as [_ Hmax].
  assert (0 < 2 ^ (32 - k)) as Hpos by (apply Z.pow_pos_nonneg; lia).
  rewrite Network.land_netmask in Hb by done.
  rewrite Network.land_netmask; [|done|set (h := 2 ^ (32 - k)) in *; clearbody h; lia].
  set (h := 2 ^ (32 - k)) in *. clearbody h. rewrite <- Hb at 1. rewrite Z.add_comm, Z.div_add by lia.
  by rewrite (Z.div_small o h), Z.add_0_l.
Qed.

Section suggestion.
Context `{AL : AsioLaws}.

(** The addresses of a network that a host of it can have and nobody has *)
Definition free_address (net : Network.Network) (conn : Connection.Connection) (k : Z) (a : address) : Prop :=
  let base := to_uint (Network.m_address net) in
  is_v4 a = true /\ Z.land (to_uint a) (Network.netmask k) = base /\
  base < to_uint a < base + 2 ^ (32 - k) - 1 /\ a <> Connection.c_address conn /\ a <> Network.m_gateway net.

(** C19. The address suggested is one of the network of the profile that a host
    can have, and neither the head node's nor the gateway's; there is no
    suggestion exactly when there is no such address. *)
Theorem suggestAddress_spec model profile offsets ptr conn k :
  let net := networks model ptr in
  getNetwork profile model = Ok ptr ->
  getConnection (networks model) (h_server (k_headnode model)) profile = Ok conn ->
  0 <= k <= 30 -> Network.m_subnetMask net = address_v4 (Network.netmask k) ->
  is_v4 (Network.m_address net) = true -> is_v4 (Connection.c_address conn) = true ->
  Z.land (to_uint (Network.m_address net)) (Network.netmask k) = to_uint (Network.m_address net) ->
  Forall (fun o => 0 <= o) offsets ->
  exists r, suggestAddressForProfile model profile offsets = Ok r /\
    match r with Some a => free_address net conn k a | None => forall a, ~ free_address net conn k a end.
Proof.
  intros net Hnet Hconn Hk Hmask Ha Hc Hland Hoff.
  pose proof (to_uint_range _ Ha) as Hr. set (base := to_uint (Network.m_address net)) in *.
  pose proof (Network.netmask_range k ltac:(lia)) as Hmr.
  destruct (XcatSpec.broadcast k base ltac:(lia) Hr Hland) as [_ Hmax].
  assert (2 ^ 2 <= 2 ^ (32 - k)) as Hpow by (apply Z.pow_le_mono_r; lia). change (2 ^ 2) with 4 in Hpow.
  assert (2 ^ 32 - 1 - to_uint (Network.m_subnetMask net) = 2 ^ (32 - k) - 1) as Hspace.
  { rewrite Hmask, address_v4_uint by done. unfold Network.netmask. lia. }
  unfold suggestAddressForProfile. rewrite Hnet. cbn [mbind outcome_bind]. rewrite Hconn. cbn [mbind outcome_bind].
  fold net. fold base. rewrite Hspace, Ha, Hc, Hmask, address_v4_is_v4. cbn [negb orb].
  rewrite (proj2 (Z.ltb_ge _ _)) by lia. cbn [try_catch].
  set (blocked := to_uint (Connection.c_address conn) :: _).
  assert (forall o, 0 < o < 2 ^ (32 - k) - 1 ->
    (base + o ∉ blocked <-> address_v4 (base + o) <> Connection.c_address conn /\
                            address_v4 (base + o) <> Network.m_gateway net)) as Hblocked.
  { intros o Ho. unfold blocked. rewrite not_elem_of_cons.
    assert (base + o = to_uint (Connection.c_address conn) <-> address_v4 (base + o) = Connection.c_address conn) as ->.
    { split; [intros ->; by apply address_v4_to_uint|]. intros <-. rewrite address_v4_uint; lia. }
    apply and_iff_compat_l. destruct (is_unspecified (Network.m_gateway net)) eqn:Hu; cbn [negb andb].
    - split; [intros _ Heq|intros _; apply not_elem_of_nil].
      rewrite <- Heq, is_unspecified_v4 in Hu by lia. apply bool_decide_eq_true in Hu. lia.
    - destruct (is_v4 (Network.m_gateway net)) eqn:Hg.
      + rewrite list_elem_of_singleton. apply not_iff_compat.
        split; [intros ->; by apply address_v4_to_uint|]. intros <-. rewrite address_v4_uint; lia.
      + split; [intros _ Heq|intros _; apply not_elem_of_nil]. by rewrite <- Heq, address_v4_is_v4 in Hg. }
  assert (forall o, free base (2 ^ (32 - k) - 1) blocked o <-> 0 < o /\ free_address net conn k (address_v4 (base + o)) /\
    o < 2 ^ (32 - k) - 1) as Hfree.
  { intros o. unfold free, free_address. fold base. split.
    - intros [Ho Hb]. apply Hblocked in Hb; [|done]. rewrite address_v4_is_v4, address_v4_uint by lia.
      split_and!; [lia|done| |lia|lia|apply Hb|apply Hb|lia].
      apply land_offset; [lia|done|lia|done].
    - intros (Ho & (_ & _ & _ & Hb) & Ho'). split; [lia|]. by apply Hblocked. }
  destruct (tryOffsets base (2 ^ (32 - k) - 1) blocked offsets) as [a|] eqn:Ht.
  { eexists. split; [done|]. apply tryOffsets_spec in Ht as (o & -> & Ho%Hfree); [|lia..|done]. apply Ho. }
  pose proof (try_from_spec base (2 ^ (32 - k) - 1) blocked ltac:(lia) ltac:(lia) (S (length blocked)) 1 ltac:(lia)) as Hs.
  destruct (try_from base (2 ^ (32 - k) - 1) blocked (S (length blocked)) 1) as [a|] eqn:Hf.
  { eexists. split; [done|]. destruct Hs as (o & -> & Ho%Hfree). apply Ho. }
  eexists. split; [done|]. intros a Hfa. pose proof Hfa as (Hv & _ & Hrange & _). fold base in Hrange.
  apply (suggestion_fuel base (2 ^ (32 - k) - 1) blocked ltac:(lia) ltac:(lia) Hf (to_uint a - base)).
  apply Hfree. replace (base + (to_uint a - base)) with (to_uint a) by lia. rewrite address_v4_to_uint by done.
  split_and!; [lia|done|lia].
Qed.
End suggestion.

(** ** Nodes *)

Section entered.
Context `{Asio} `{BoostText}.
Variables (nodeOS : OS) (nodeCPU : CPU) (managementNetwork : Connection.NetworkPtr) (bmcStartIP : option address).

(** The node number [i], counted from one, of a cluster with the settings [l] *)
Record entered (l : Leftovers) (i : Z) (n : Node) : Prop := {
  entered_name : s_hostname (n_server n) = buildNodeName (nodePrefix l) i (nodePadding l);
  entered_address : offsetIPv4Address (nodeStartIP l) (i - 1) = Ok (default default_address (m_node_start_ip n)) /\
    is_Some (m_node_start_ip n);
  entered_connection : exists x, s_connection (n_server n) = [x] /\ Connection.m_network x = managementNetwork /\
    Some (Connection.c_address x) = m_node_start_ip n /\ Connection.m_mac x = Some (m_mac_address n);
  entered_os : s_os (n_server n) = nodeOS;
  entered_password : m_node_root_password n = Some (nodeRootPassword l);
}.

(** One more node, and nothing else of the cluster changes *)
Definition with_node (l : Leftovers) (i : Z) (c c' : Cluster) : Prop :=
  exists n, entered l i n /\ c' = put_k_nodes (k_nodes c ++ [n]) c.

Lemma view_model {A} (m : M Operator A) d : d_model (m_view m d).2 = d_model d.
Proof. unfold m_view, zoom. by destruct (m _). Qed.

Definition ends {A} (m : M Desk A) (d : Desk) (Q : A -> Cluster -> Prop) (E : Cluster -> Prop) : Prop :=
  match m d with (Ok a, d') => Q a (d_model d') | (_, d') => E (d_model d') end.

Lemma ends_bind {A B} (m : M Desk A) (f : A -> M Desk B) d P Q (E : Cluster -> Prop) :
  ends m d P E -> (forall a d', P a (d_model d') -> ends (f a) d' Q E) -> ends (x ← m; f x) d Q E.
Proof.
  unfold ends, mbind, M_bind. intros Hm Hf. destruct (m d) as [[a|e|] d']; [by apply Hf|done..].
Qed.

Lemma ends_view {A} (m : M Operator A) d (Q : A -> Cluster -> Prop) (E : Cluster -> Prop) :
  (forall a, Q a (d_model d)) -> E (d_model d) -> ends (m_view m) d Q E.
Proof.
  intros HQ HE. unfold ends. pose proof (view_model m d) as Hv. by destruct (m_view m d) as [[a|e|] d']; cbn in *; rewrite Hv.
Qed.

Lemma ends_lift {A} (o : outcome A) d (Q : A -> Cluster -> Prop) (E : Cluster -> Prop) :
  (forall a, o = Ok a -> Q a (d_model d)) -> E (d_model d) -> ends (lift o) d Q E.
Proof. intros HQ HE. unfold ends, lift. by destruct o; [apply HQ|..]. Qed.

Lemma ends_ret {A} (a : A) d (Q : A -> Cluster -> Prop) (E : Cluster -> Prop) : Q a (d_model d) -> ends (mret a) d Q E.
Proof. done. Qed.

Lemma ends_mono {A} (m : M Desk A) d (P Q : A -> Cluster -> Prop) (E F : Cluster -> Prop) :
  ends m d P E -> (forall a c, P a c -> Q a c) -> (forall c, E c -> F c) -> ends m d Q F.
Proof. unfold ends. destruct (m d) as [[a|e|] d']; auto. Qed.

Lemma ends_catch {A} (m : M Desk A) sel h d (Q : A -> Cluster -> Prop) (E : Cluster -> Prop) :
  ends m d Q E -> (forall e d', E (d_model d') -> ends (h e) d' Q E) -> ends (try_catchM m sel h) d Q E.
Proof.
  unfold ends, try_catchM. intros Hm Hh. destruct (m d) as [[a|e|] d']; [done| |done].
  destruct (sel e); [by apply Hh|done].
Qed.

Lemma ends_forever {X A} (body : X -> M Desk (X + A)) (J : X -> Cluster -> Prop) (Q : A -> Cluster -> Prop) E x d :
  (forall x c, J x c -> E c) -> J x (d_model d) ->
  (forall x d, J x (d_model d) -> ends (body x) d (fun r c => match r with inl y => J y c | inr a => Q a c end) E) ->
  ends (forever body x) d Q E.
Proof.
  intros HE HJ Hb. unfold forever, ends at 1. fold (ends (rounds (S (pending d)) body x) d Q E).
  generalize (S (pending d)). intros n. revert x d HJ. induction n as [|n IH]; intros x d HJ; [by apply (HE x)|].
  cbn [rounds]. eapply ends_bind; [by apply Hb|]. intros [y|a] d' Hr; [by apply IH|by apply ends_ret].
Qed.

(** *** One node *)

Lemma setAddress_ok a x y :
  on_connection (Connection.setAddress a) x = Ok y -> y = Connection.put_c_address a x.
Proof.
  unfold on_connection, construct, Connection.setAddress, mbind, M_bind, lift.
  destruct (Network.make_address_exc _); [|done..]. case_bool_decide; cbn; congruence.
Qed.

Lemma setMAC_ok mac x y :
  on_connection (Connection.setMAC mac) x = Ok y -> y = Connection.put_mac (Some (to_lower_copy mac)) x.
Proof. unfold on_connection, construct, Connection.setMAC. destruct (Connection.validateMAC mac); cbn; congruence. Qed.

Lemma Node_full_ok hostname os cpu conns bmc n :
  Node_full hostname os cpu conns bmc = Ok n ->
  s_hostname (n_server n) = hostname /\ s_connection (n_server n) = conns /\ s_os (n_server n) = os.
Proof.
  unfold Node_full, Server_full. intros (s & Hs & [= <-])%bind_Ok. apply construct_ok in Hs. by injection Hs as <-.
Qed.

Lemma add_entered_node_ends node nodeName fields d :
  nodeName = buildNodeName (nodePrefix (k_leftovers (d_model d))) node (nodePadding (k_leftovers (d_model d))) ->
  ends (add_entered_node nodeOS nodeCPU managementNetwork node nodeName fields) d
    (fun added c => if added : bool then with_node (k_leftovers (d_model d)) node (d_model d) c else c = d_model d)
    (fun c => c = d_model d).
Proof.
  intros ->. unfold add_entered_node. set (c := d_model d). set (l := k_leftovers c).
  apply (ends_bind _ _ _ (fun m c' => m = c /\ c' = c)); [done|]. intros m d1 [-> K1]. fold l.
  apply (ends_bind _ _ _ (fun a c' => offsetIPv4Address (nodeStartIP l) (node - 1) = Ok a /\ c' = c));
    [by apply ends_lift|]. intros a d2 [Ha K2].
  apply (ends_bind _ _ _ (fun _ c' => c' = c)).
  { case_match; [by apply ends_ret|]. apply (ends_bind _ _ _ (fun _ c' => c' = c)); [by apply ends_lift|].
    intros b d3 K3. case_decide; [|by apply ends_ret].
    apply (ends_bind _ _ _ (fun _ c' => c' = c)); [by apply ends_view|]. intros _ d4 K4. by apply ends_ret. }
  intros [bmc|] d3 K3; [|by apply ends_ret].
  apply (ends_bind _ _ _ (fun x c' => Connection.Connection_network (networks c) managementNetwork = Ok x /\ c' = c));
    [by apply ends_lift|]. intros x d4 [Hx%Connection_network_pointer K4].
  apply (ends_bind _ _ _ (fun y c' => on_connection (Connection.setMAC (field fields 0)) x = Ok y /\ c' = c));
    [by apply ends_lift|]. intros y d5 [->%setMAC_ok K5].
  eapply (ends_bind _ _ _ (fun z c' => on_connection (Connection.setAddress a) _ = Ok z /\ c' = c));
    [by apply ends_lift|]. intros z d6 [->%setAddress_ok K6].
  eapply (ends_bind _ _ _ (fun n c' => Node_full _ nodeOS nodeCPU _ bmc = Ok n /\ c' = c));
    [by apply ends_lift|]. intros n d7 [(Hname & Hconn & Hos)%Node_full_ok K7].
  eapply (ends_bind _ _ _ (fun _ c' => with_node l node c c')); [|intros _ d8 K8; by apply ends_ret].
  unfold ends, m_model, zoom, addNode, modify. rewrite K7. eexists. split; [|done].
  split; [done|split; [done|by eexists]| |done|done]. eexists. split; [exact Hconn|done].
Qed.

Lemma ask_node_ends l node fields d c :
  k_leftovers c = l -> d_model d = c ->
  ends (ask_node nodeOS nodeCPU managementNetwork node (buildNodeName (nodePrefix l) node (nodePadding l)) fields) d
    (fun r c' => match r with inl _ => c' = c | inr _ => with_node l node c c' end) (fun c' => c' = c).
Proof.
  intros <- <-. unfold ask_node. apply (ends_bind _ _ _ (fun _ c' => c' = d_model d)); [by apply ends_view|].
  intros fields' d1 K1.
  apply (ends_bind _ _ _ (fun added c' => if added : bool then with_node (k_leftovers (d_model d)) node (d_model d) c'
    else c' = d_model d)).
  - apply ends_catch.
    + rewrite <- K1. by apply add_entered_node_ends.
    + intros e d2 K2. apply (ends_bind _ _ _ (fun _ c' => c' = d_model d)); [by apply ends_view|].
      intros _ d3 K3. by apply ends_ret.
  - intros [] d2 K2; by apply ends_ret.
Qed.

(** The first [n] nodes, and nothing else, have been added to [c]. *)
Definition nodes_added (c c' : Cluster) (n : nat) : Prop :=
  exists added, c' = put_k_nodes (k_nodes c ++ added) c /\ length added = n /\
    forall i node, added !! i = Some node -> entered (k_leftovers c) (Z.of_nat i + 1) node.

(** C3. The dialogue on the single nodes adds the number of nodes asked for,
    in order, whatever is refused in between: node [i] has the name built from
    prefix and number, the [i]th address from the first on (wrapping around
    at 32 bits), a valid MAC address, and one connection, to the management
    network.  When it is stopped, the nodes added so far are right. *)
Theorem nodes_entered d c :
  d_model d = c -> 0 < nodeQuantity (k_leftovers c) < 2 ^ 64 - 1 ->
  ends (forever (ask_nodes nodeOS nodeCPU managementNetwork bmcStartIP) 1) d
    (fun _ c' => nodes_added c c' (Z.to_nat (nodeQuantity (k_leftovers c))))
    (fun c' => exists n, (n <= Z.to_nat (nodeQuantity (k_leftovers c)))%nat /\ nodes_added c c' n).
Proof.
  intros Hd Hq. set (l := k_leftovers c) in *.
  apply (ends_forever _ (fun node c' => 1 <= node <= nodeQuantity l + 1 /\ exists added,
    c' = put_k_nodes (k_nodes c ++ added) c /\ length added = Z.to_nat (node - 1) /\
    forall i n, added !! i = Some n -> entered l (Z.of_nat i + 1) n)).
  { intros node c' [Hn (added & Hc & Hlen & Hall)]. exists (length added). split; [lia|]. by exists added. }
  { split; [lia|]. exists []. rewrite Hd, app_nil_r. by destruct c. }
  clear d Hd. intros node d [Hn (added & Hc & Hlen & Hall)]. unfold ask_nodes.
  assert (k_leftovers (d_model d) = l) as Hl by (rewrite Hc; by destruct c).
  apply (ends_bind _ _ _ (fun l' c' => l' = l /\ c' = d_model d)); [done|]. intros l' d1 [-> K1].
  destruct (Z.ltb_spec (nodeQuantity l) node) as [Hlt|Hge].
  { apply ends_ret. exists added. rewrite K1. split_and!; [done| |done]. rewrite Hlen. f_equal. lia. }
  assert (exists n, (n <= Z.to_nat (nodeQuantity l))%nat /\ nodes_added c (d_model d) n) as Hstop.
  { exists (length added). split; [lia|]. by exists added. }
  apply (ends_bind _ _ _ (fun _ c' => c' = d_model d)); [apply ends_lift; by rewrite K1|]. intros bmcText d2 K2.
  apply (ends_bind _ _ _ (fun _ c' => with_node l node (d_model d) c')).
  - apply (ends_forever _ (fun _ c' => c' = d_model d)); [by intros _ ? ->|done|].
    intros fields d3 K3. eapply ends_mono; [by apply (ask_node_ends l _ _ _ (d_model d))|by intros []|by intros ? ->].
  - intros _ d3 (n & Hen & K3). apply ends_ret. rewrite u64_id by lia. split; [lia|]. exists (added ++ [n]).
    split_and!.
    + rewrite K3, Hc, app_assoc. by destruct c.
    + rewrite length_app, Hlen. cbn. lia.
    + intros i m [Hi|[Hi Hm]]%lookup_app_Some; [by apply Hall|].
      apply list_lookup_singleton_Some in Hm as [Hz <-].
      by replace (Z.of_nat i + 1) with node by lia.
Qed.
End entered.

(** ** Names of images *)

Section images.
Import OperationalSystem.

Lemma version_at_found prefix separator major minor rest :
  sforall is_digit major = true -> sforall is_digit minor = true -> major <> "" -> minor <> "" ->
  match separator with String c _ => is_digit c = false | EmptyString => False end ->
  match rest with String c _ => is_digit c = false | EmptyString => True end ->
  version_at prefix separator (prefix +:+ major +:+ separator +:+ minor +:+ rest) = Some (major, minor).
Proof.
  intros Hmaj Hmin Hmaj0 Hmin0 Hsep Hrest. unfold version_at. rewrite starts_with_app, sdrop_app.
  rewrite span_app; [|done|destruct separator as [|c s]; [done|]; rewrite app_cons; by rewrite Hsep].
  rewrite starts_with_app, sdrop_app, span_app; [|done|destruct rest as [|c s]; [done|]; by rewrite Hrest].
  cbn [fst]. by destruct major, minor.
Qed.

Lemma version_search_skip prefix separator c s :
  version_at prefix separator (String c s) = None -> version_search prefix separator (String c s) = version_search prefix separator s.
Proof. intros Hn. cbn [version_search]. by rewrite Hn. Qed.

Lemma version_search_here prefix separator s m :
  version_at prefix separator s = Some m -> version_search prefix separator s = Some m.
Proof. intros Hm. destruct s; cbn [version_search]; by rewrite Hm. Qed.

(** A text in which nothing that starts with [c], [c'] begins *)
Fixpoint quiet (c c' : ascii) (s : string) : bool :=
  match s with
  | EmptyString => true
  | String d s =>
      (negb (Ascii.eqb c d) || match s with String d' _ => negb (Ascii.eqb c' d') | EmptyString => false end) && quiet c c' s
  end.

Lemma find_str_quiet c c' needle a b :
  quiet c c' a = true ->
  find_str (String c (String c' needle)) (a +:+ b) = Nat.add (String.length a) <$> find_str (String c (String c' needle)) b.
Proof.
  induction a as [|d a IH].
  { intros _. change ("" +:+ b) with b. by destruct (find_str _ b). }
  cbn [quiet]. intros [Hd Ha]%andb_true_iff. rewrite app_cons. cbn [find_str].
  assert (String.prefix (String c (String c' needle)) (String d (a +:+ b)) = false) as ->.
  { cbn [String.prefix]. apply orb_true_iff in Hd as [Hd|Hd].
    - apply negb_true_iff, Ascii.eqb_neq in Hd. by destruct (ascii_dec c d).
    - destruct (ascii_dec c d); [|done]. destruct a as [|d' a]; [done|]. rewrite app_cons.
      apply negb_true_iff, Ascii.eqb_neq in Hd. cbn [String.prefix]. by destruct (ascii_dec c' d'). }
  rewrite IH by done. by destruct (find_str (String c (String c' needle)) b).
Qed.

Lemma quiet_digits c c' s : is_digit c = false -> sforall is_digit s = true -> quiet c c' s = true.
Proof.
  intros Hc. induction s as [|d s IH]; [done|]. cbn [sforall quiet]. intros [Hd Hs]%andb_true_iff.
  rewrite IH by done. rewrite andb_true_r. apply orb_true_iff. left. apply negb_true_iff, Ascii.eqb_neq. congruence.
Qed.

Lemma contains_here needle a b : contains needle (a +:+ needle +:+ b) = true.
Proof.
  apply bool_decide_eq_true. induction a as [|d a IH].
  - change ("" +:+ ?s) with s. pose proof (starts_with_app needle b) as Hs. unfold starts_with in Hs.
    destruct (needle +:+ b) eqn:E; cbn [find_str]; rewrite Hs; by eexists.
  - rewrite app_cons. cbn [find_str]. case_match; [by eexists|]. destruct IH as [i ->]. by eexists.
Qed.

Lemma lower_digits s : sforall is_digit s = true -> lower s = s.
Proof. intros Hs. apply smap_id. revert Hs. apply sforall_impl. apply digit_not_upper. Qed.

(** A name made of text, a number, text, a number and an architecture *)
Lemma parse_named p major s minor arch :
  sforall is_digit major = true -> sforall is_digit minor = true ->
  Forall (fun t => quiet "x" "8" t && quiet "a" "m" t = true) [lower p; lower s] ->
  parseArchitecture (p +:+ major +:+ s +:+ minor +:+ "-" +:+ toString arch +:+ "-dvd.iso") = Some arch.
Proof.
  intros Hmaj Hmin Hquiet. apply Forall_cons in Hquiet as [[Hxp Hap]%andb_true_iff Hquiet].
  apply Forall_singleton, andb_true_iff in Hquiet as [Hxs Has].
  unfold parseArchitecture, lower in *. rewrite !smap_app in *. fold (lower major) (lower minor).
  rewrite (lower_digits major), (lower_digits minor) by done.
  destruct arch; cbn [smap].
  - rewrite !sapp_assoc. rewrite <- (sapp_assoc _ _ "-dvd.iso"). by rewrite (contains_here "x86_64" _ "-dvd.iso").
  - assert (forall c c' n, is_digit c = false -> quiet c c' (lower p) = true -> quiet c c' (lower s) = true ->
      quiet c c' "-ppc64le-dvd.iso" = true -> contains (String c (String c' n))
        (smap to_lower_char p +:+ major +:+ smap to_lower_char s +:+ minor +:+ "-ppc64le-dvd.iso") = false) as Hno.
    { intros c c' n Hc Hp Hs Hr. apply bool_decide_eq_false.
      rewrite !find_str_quiet by (done || by apply quiet_digits).
      pose proof (find_str_quiet c c' n "-ppc64le-dvd.iso" "" Hr) as He. change ("-ppc64le-dvd.iso" +:+ "") with "-ppc64le-dvd.iso" in He.
      rewrite He. cbn. by intros [? [=]]. }
    change (smap to_lower_char "-" +:+ smap to_lower_char (toString Arch.ppc64le) +:+ smap to_lower_char "-dvd.iso")
      with "-ppc64le-dvd.iso".
    rewrite !Hno by done. cbn [orb].
    change "-ppc64le-dvd.iso" with ("-" +:+ "ppc64le" +:+ "-dvd.iso"). rewrite !sapp_assoc.
    rewrite <- (sapp_assoc _ "ppc64le"). by rewrite contains_here.
Qed.

(** C37. The file name given as an example for a distribution and version is
    taken for an image of that distribution, and the version and architecture
    inferred from it are those it was made from; on Ubuntu the name is always
    that of 24.04 and of one architecture. *)
Theorem iso_name_roundtrip distro major minor arch :
  0 <= major < 2 ^ 31 -> 0 <= minor < 2 ^ 31 ->
  (distro = Distro.Ubuntu -> minor = 4 /\ arch = Arch.x86_64) ->
  isoMatchesDistro distro (exampleIsoName distro (major, minor, arch)) = true /\
  inferVersionComboFromIso distro (exampleIsoName distro (major, minor, arch)) = Ok (Some (major, minor, arch)).
Proof.
  intros Hmaj Hmin Hubuntu.
  assert (sforall is_digit (dec major) = true /\ dec major <> "") as [Hd He].
  { split; [apply dec_digit; lia|]. by destruct (dec_cons major) as (c & s & ->). }
  assert (sforall is_digit (dec minor) = true /\ dec minor <> "") as [Hd' He'].
  { split; [apply dec_digit; lia|]. by destruct (dec_cons minor) as (c & s & ->). }
  assert (distro <> Distro.Ubuntu -> parseArchitecture (exampleIsoName distro (major, minor, arch)) = Some arch) as Harch.
  { intros Hu. unfold exampleIsoName, architecture_name. rewrite decide_False, !dec_int_nonneg by (done || lia).
    destruct distro; [..|done]; apply (parse_named _ _ _ _ arch Hd Hd'); by repeat constructor. }
  unfold inferVersionComboFromIso.
  destruct distro; [rewrite Harch by done..|].
  all: unfold exampleIsoName; rewrite !dec_int_nonneg by lia.
  all: cbn [iso_pattern fst snd isoMatchesDistro].
  all: assert (forall rest, match rest with String c _ => is_digit c = false | EmptyString => True end ->
    version_search "" "." (dec major +:+ "." +:+ dec minor +:+ rest) = Some (dec major, dec minor)) as Hdot
    by (intros rest Hrest; by apply version_search_here, (version_at_found "" ".")).
  all: assert (forall rest, match rest with String c _ => is_digit c = false | EmptyString => True end ->
    version_search "R" "-U" ("R" +:+ dec major +:+ "-U" +:+ dec minor +:+ rest) = Some (dec major, dec minor)) as Hol
    by (intros rest Hrest; by apply version_search_here, (version_at_found "R" "-U")).
  1: split; [exact (contains_here "rhel" "" _)|].
  2: split; [exact (contains_here "OracleLinux" "" _)|].
  3: split; [exact (contains_here "Rocky" "" _)|].
  4: split; [exact (contains_here "AlmaLinux" "" _)|].
  1,3,4: repeat (rewrite app_cons, version_search_skip by reflexivity); change ("" +:+ ?s) with s; rewrite Hdot by done.
  4: do 12 (rewrite app_cons, version_search_skip by reflexivity); rewrite Hol by done.
  1-4: by rewrite !stoi_dec by done.
  destruct (Hubuntu eq_refl) as [-> ->]. split; [exact (contains_here "ubuntu-" "" _)|].
  assert (parseArchitecture ("ubuntu-" +:+ dec major +:+ ".04.4-live-server-" +:+ architecture_name Distro.Ubuntu Arch.x86_64 +:+ ".iso")
    = Some Arch.x86_64) as ->.
  { unfold parseArchitecture, lower. rewrite !smap_app. fold (lower (dec major)).
    rewrite (lower_digits (dec major)) by done.
    change (smap to_lower_char (architecture_name Distro.Ubuntu Arch.x86_64)) with "amd64".
    rewrite !sapp_assoc, <- (sapp_assoc _ "amd64"). by rewrite contains_here, orb_true_r. }
  erewrite version_search_here; [|apply (version_at_found "ubuntu-" "." (dec major) "04"); try done].
  cbn beta iota. by rewrite stoi_dec by done.
Qed.
End images.
