(* ===== verification/QuestionnaireSpec.v ===== *)
(** * The questionnaire and the program around it

    The history of completed steps is always a beginning of the list of
    steps, and going back ends as soon as the replies let it; the program
    ends in one of two exit codes, and leaves the machine alone when its
    operator declines, but for a checksum.  What nobody can set, the firewall
    and the SELinux mode, stays off. *)

From stdpp Require Import base strings list gmap.
From Stdlib Require Import ZArith Lia Ascii.
From S2P Require Import Prelude CppString External Enums KeyFile Options World WorldFacts FileOps FileOpsSpec RepoData.
From S2P Require Import Cluster ClusterFill ClusterDump TuiSession View ViewSpec Presenters PresenterNetwork PresenterNodes PresenterInstall Main.
From S2P Require Network Connection AnswerFile AnswerFileData AnswerFileDump Runner OsService RepoConfig RepoManager Role Ansible AnsibleSpec.

Local Open Scope Z_scope.

(** ** Steps *)

Section steps.
Context `{Asio}.
Variables (steps : list (string * M Desk unit)).
Let names : list string := steps.*1.

(** A callback that is undefined on what is no beginning of the steps *)
Definition guarded (onStepComplete : list string -> M Desk unit) (history : list string) : M Desk unit :=
  if decide (history `prefix_of` names) then onStepComplete history else lift UB.

(** Where the loop stands: at a step, with the names of those before it *)
Definition at_step (s : nat * list string) : Prop := (s.1 <= length steps)%nat /\ s.2 = take s.1 names.

Lemma complete_step_take i name step :
  steps !! i = Some (name, step) -> complete_step i name (take i names) = take (S i) names.
Proof.
  intros Hi. assert (names !! i = Some name) as Hn by (unfold names; by rewrite list_lookup_fmap, Hi).
  pose proof (lookup_lt_Some _ _ _ Hn) as Hlt. unfold complete_step.
  rewrite length_take_le, Nat.eqb_refl by lia. by rewrite (take_S_r _ _ name).
Qed.

Lemma resize_take i j : (j <= i)%nat -> (i <= length names)%nat -> resize j (take i names) = take j names.
Proof.
  intros Hj Hi. unfold resize. rewrite take_take, length_take_le by lia.
  replace (j `min` i)%nat with j by lia. replace (j - i)%nat with O by lia. by rewrite app_nil_r.
Qed.

Lemma guarded_take onStepComplete i : guarded onStepComplete (take i names) = onStepComplete (take i names).
Proof. unfold guarded. rewrite decide_True; [done|]. apply prefix_take. Qed.

Lemma run_step_guarded cb s d :
  at_step s -> run_step steps (guarded cb) s d = run_step steps cb s d.
Proof.
  intros [Hi Hh]. destruct s as [i history]. cbn [fst snd] in *. subst history. unfold run_step.
  destruct (steps !! i) as [[name step]|] eqn:E; [|done]. rewrite (complete_step_take _ _ _ E).
  assert (i < length names)%nat as Hlt by (unfold names; rewrite length_fmap; by apply lookup_lt_Some in E).
  rewrite guarded_take. unfold try_catchM.
  destruct ((_ ← step; _) d) as [[r|e|] d1]; [done| |done]. destruct (is_back e); [|done].
  destruct i as [|j]; [done|]. rewrite (resize_take (S j) j) by lia. by rewrite guarded_take.
Qed.

Lemma run_step_at cb s :
  at_step s -> returns (run_step steps cb s) (fun r => match r with inl t => at_step t | inr h => h = names end).
Proof.
  intros [Hi Hh]. destruct s as [i history]. cbn [fst snd] in *. subst history. unfold run_step.
  destruct (steps !! i) as [[name step]|] eqn:E.
  - pose proof (lookup_lt_Some _ _ _ E) as Hlt. rewrite (complete_step_take _ _ _ E). apply returns_catch.
    + do 2 (apply returns_then; intros ?). apply returns_ret. split; [cbn; lia|done].
    + intros e. destruct i as [|j]; [apply returns_throw|]. apply returns_then. intros _. apply returns_ret.
      split; cbn; [lia|]. apply resize_take; [lia|]. unfold names. rewrite length_fmap. lia.
  - apply returns_ret. apply take_ge. unfold names. rewrite length_fmap. by apply lookup_ge_None.
Qed.

Lemma rounds_guarded cb n s d :
  at_step s -> rounds n (run_step steps (guarded cb)) s d = rounds n (run_step steps cb) s d.
Proof.
  revert s d. induction n as [|n IH]; intros s d Hs; [done|]. cbn [rounds].
  unfold mbind, M_bind. rewrite run_step_guarded by done. pose proof (run_step_at cb s Hs d) as Hat.
  destruct (run_step steps cb s d) as [[[t|h]|e|] d']; [|done..]. apply IH. by apply (Hat (inl t) d').
Qed.

(** The names the loop starts with *)
Lemma startIndex_le (completed : gset string) : (startIndex names completed <= length names)%nat.
Proof. induction names as [|name l IH]; cbn; [lia|]. case_decide; cbn; lia. Qed.

Lemma at_start completed : at_step (startIndex names completed, take (startIndex names completed) names).
Proof. split; [|done]. cbn. pose proof (startIndex_le completed) as Hl. unfold names in Hl at 2. by rewrite length_fmap in Hl. Qed.

(** Asking takes replies, and a request to go back has taken one. *)
Definition polite (m : M Desk unit) : Prop :=
  forall d, (pending (m d).2 <= pending d)%nat /\
    forall e, (m d).1 = Throw e -> is_back e = true -> (pending (m d).2 < pending d)%nat.

Lemma polite_bind (m : M Desk unit) (f : unit -> M Desk unit) : polite m -> polite (f tt) -> polite (x ← m; f x).
Proof.
  intros Hm Hf d. destruct (Hm d) as [Hle Hback]. unfold mbind, M_bind in *. destruct (m d) as [[[]|e|] d1]; cbn in *; [|done..].
  destruct (Hf d1) as [Hle' Hback']. split; [lia|]. intros e He Hb. specialize (Hback' e He Hb). lia.
Qed.

Section unfolding.
Variable cb : list string -> M Desk unit.
Hypothesis Hsteps : Forall (fun s => polite s.2) steps.
Hypothesis Hcb : forall history, polite (cb history).

Lemma run_step_progress s d t d' :
  at_step s -> run_step steps cb s d = (Ok (inl t), d') ->
  at_step t /\ (pending d' * S (length steps) + (length steps - t.1) <
               pending d * S (length steps) + (length steps - s.1))%nat.
Proof.
  intros Hs Hr. split; [exact (run_step_at cb s Hs d (inl t) d' Hr)|].
  destruct s as [i history], Hs as [Hi _]. cbn [fst] in *. unfold run_step in Hr.
  destruct (steps !! i) as [[name step]|] eqn:E; [|done]. pose proof (lookup_lt_Some _ _ _ E) as Hlt.
  pose proof (proj1 (Forall_lookup _ _) Hsteps _ _ E) as Hp. cbn [snd] in Hp.
  set (h := complete_step i name history) in *.
  assert (polite (x ← step; cb h)) as Hboth by by apply polite_bind. specialize (Hboth d).
  unfold try_catchM, mbind, M_bind in Hr, Hboth.
  destruct (step d) as [[[]|e|] d1]; cbn [fst snd] in *; [destruct (cb h d1) as [[[]|e|] d2]; cbn [fst snd] in *|..].
  - injection Hr as <- <-. cbn [fst]. nia.
  - destruct (is_back e) eqn:He; [|done]. destruct i as [|j]; [done|]. destruct Hboth as [_ Hb]. specialize (Hb e eq_refl He).
    destruct (Hcb (resize j history) d2) as [Hle _]. destruct (cb (resize j history) d2) as [[[]|e'|] d3]; [|done..].
    injection Hr as <- <-. cbn [fst snd] in *. nia.
  - done.
  - destruct (is_back e) eqn:He; [|done]. destruct i as [|j]; [done|]. destruct Hboth as [_ Hb]. specialize (Hb e eq_refl He).
    destruct (Hcb (resize j history) d1) as [Hle _]. destruct (cb (resize j history) d1) as [[[]|e'|] d3]; [|done..].
    injection Hr as <- <-. cbn [fst snd] in *. nia.
  - done.
Qed.

(** The loop is the loop: it goes on as long as the code's does. *)
Lemma run_steps_unfold s d :
  at_step s ->
  run_steps steps cb s d =
    (r ← run_step steps cb s; match r with inl t => run_steps steps cb t | inr h => mret h end) d.
Proof.
  intros Hs. pose (mu := fun (t : nat * list string) (d : Desk) => (pending d * S (length steps) + (length steps - t.1))%nat).
  assert (forall n t d, at_step t -> (mu t d < n)%nat ->
    rounds n (run_step steps cb) t d = run_steps steps cb t d) as Henough.
  { intros n t d' Ht Hn. unfold run_steps. apply (rounds_measure _ at_step mu); [|done..|unfold mu; lia].
    intros x s0 y s1 Hx Hr. by apply run_step_progress. }
  rewrite <- (Henough (S (mu s d)) s d) by (done || lia). cbn [rounds]. unfold mbind, M_bind.
  destruct (run_step steps cb s d) as [[[t|h]|e|] d'] eqn:E; try done.
  apply run_step_progress in E as [Ht Hlt]; [|done]. by apply Henough.
Qed.
End unfolding.
End steps.

(** ** The questionnaire *)

Section questionnaire.
Context `{Asio} `{BoostText} `{BoostPort} `{GKeyFile} `{Fmt} `{Machine} `{GChecksum}.
Variables (h : Host) (runner : Runner.IRunner) (entries : list (string * string)) (place : RepoConfig.Place).
Variables (draw1 draw2 : nat -> nat).

Let all_steps := PresenterInstall.steps h runner entries place draw1 draw2.

(** C6. Whatever the dialogues do and however often the operator goes back,
    the history of completed steps that is reported, and so what a draft says
    was completed, is a beginning of the thirteen steps in their order: to
    report anything else could be undefined and nothing would change.  The
    loop returns with all of them. *)
Theorem history_is_a_beginning cb completed d :
  PresenterInstall h runner entries place draw1 draw2 (guarded all_steps cb) completed d =
    PresenterInstall h runner entries place draw1 draw2 cb completed d /\
  returns (run_steps all_steps cb (startIndex all_steps.*1 completed, take (startIndex all_steps.*1 completed) all_steps.*1))
    (fun history => history = all_steps.*1).
Proof.
  split.
  - unfold PresenterInstall. apply M_bind_ext; [done|]. intros [] d1. apply M_bind_ext; [|done].
    apply rounds_guarded, at_start.
  - intros s hist s'. exact (returns_rounds _ (at_step all_steps) _ _ _ (at_start _ _)
      (fun x Hx => run_step_at _ _ x Hx) s hist s').
Qed.
End questionnaire.

(** ** Asking before the machine is changed *)

Lemma skip_space_length s : (String.length (skip_space s) <= String.length s)%nat.
Proof.
  unfold skip_space. destruct (span_spec is_space s) as (a & b & -> & -> & _). cbn [snd]. rewrite length_sapp. lia.
Qed.

Lemma read_response_shorter input c rest : read_response input = (Some c, rest) -> (String.length rest < String.length input)%nat.
Proof.
  unfold read_response. pose proof (skip_space_length input) as Hl. destruct (skip_space input) as [|d s]; [done|].
  intros [= _ <-]. cbn in Hl. case_match; cbn [String.length]; [|lia].
  destruct s as [|e s]; [cbn; lia|]. pose proof (length_sdrop n s). cbn in Hl. lia.
Qed.

(** Asking for confirmation ends on every input, with the same answer
    however many rounds are allowed: each round uses up input, and at its end
    the answer is no. *)
Theorem confirmation_ends input :
  exists answer, forall fuel, (String.length input < fuel)%nat -> confirm_loop fuel input = Some answer.
Proof.
  remember (String.length input) as n eqn:Hn. revert input Hn. induction n as [n IH] using lt_wf_ind. intros input ->.
  destruct (read_response input) as [c rest] eqn:Hr.
  assert (forall fuel, confirm_loop (S fuel) input =
    let response := to_upper_char (default "N"%char c) in
    if Ascii.eqb response "Y" then Some (true, rest) else if Ascii.eqb response "N" then Some (false, rest)
    else confirm_loop fuel rest) as Hloop by (intros fuel; cbn [confirm_loop]; by rewrite Hr).
  destruct c as [c|].
  - pose proof (read_response_shorter _ _ _ Hr) as Hlt. destruct (IH _ Hlt rest eq_refl) as [answer Hans].
    destruct (Ascii.eqb (to_upper_char c) "Y") eqn:Hy; [|destruct (Ascii.eqb (to_upper_char c) "N") eqn:Hno].
    + exists (true, rest). intros [|fuel] Hf; [lia|]. rewrite Hloop. cbn. by rewrite Hy.
    + exists (false, rest). intros [|fuel] Hf; [lia|]. rewrite Hloop. cbn. by rewrite Hy, Hno.
    + exists answer. intros [|fuel] Hf; [lia|]. rewrite Hloop. cbn. rewrite Hy, Hno. apply Hans. lia.
  - exists (false, rest). intros [|fuel] Hf; [lia|]. by rewrite Hloop.
Qed.

(** ** The program *)

Section program.
Context `{Asio} `{BoostText} `{BoostPort} `{GKeyFile} `{Fmt} `{Machine} `{BoostIni} `{Glibc} `{GChecksum}.
Variables (root : bool) (fresh : outcome Cluster) (host : Host) (entries : list (string * string)).
Variables (place : RepoConfig.Place) (draw1 draw2 : nat -> nat) (tmp_path timestamp current_path : string).

Create HintDb exits.

Definition exit_code (code : Z) : Prop := code = EXIT_SUCCESS \/ code = EXIT_FAILURE.

Lemma success : exit_code EXIT_SUCCESS. Proof. by left. Qed.
Lemma failure : exit_code EXIT_FAILURE. Proof. by right. Qed.
#[local] Hint Resolve success failure : exits.

(** [exits] follows a run to the codes it returns. *)
Ltac exits :=
  repeat first
    [ apply returns_ret; solve [auto with exits] | apply returns_throw
    | apply returns_catch; [|intros] | apply returns_then; intros
    | match goal with |- returns (if ?b then _ else _) _ => destruct b end ].

Lemma load_exits opts : returns (load host current_path opts) (fun r => match r with inl code => exit_code code | inr _ => True end).
Proof. unfold load. exits; by apply returns_ret. Qed.

Lemma questionnaire_exits opts loaded :
  returns (questionnaire host entries place draw1 draw2 tmp_path current_path opts loaded)
    (fun r => match r with inl code => exit_code code | inr _ => True end).
Proof.
  unfold questionnaire. apply returns_then. intros _.
  eapply (returns_bind _ _ (fun stopped => match stopped with Some code => exit_code code | None => True end)).
  - apply returns_catch; [apply returns_then; intros; by apply returns_ret|]. intros e.
    eapply (returns_bind _ _ exit_code); [unfold stop_questionnaire; exits|]. intros code Hc. by apply returns_ret.
  - intros [code|] Hc; [by apply returns_ret|]. exits.
Qed.

Lemma finish_exits opts af steps :
  returns (finish entries place timestamp current_path opts af steps) exit_code.
Proof.
  unfold finish. eapply (returns_bind _ _ (fun failed => match failed with Some code => exit_code code | None => True end)).
  - case_match; [|by apply returns_ret]. unfold write_output.
    apply returns_catch; [apply returns_then; intros; by apply returns_ret|]. intros e. apply returns_then. intros _.
    apply returns_ret, failure.
  - intros [code|] Hc; [by apply returns_ret|]. exits.
Qed.

Let run := runApplication root fresh host entries place draw1 draw2 tmp_path timestamp current_path.
Let program := main root fresh host entries place draw1 draw2 tmp_path timestamp current_path.

Lemma early_exit_code opts code text : early_exit opts = Some (code, text) -> exit_code code.
Proof. unfold early_exit. repeat case_match; intros [=]; subst; auto with exits. Qed.

Lemma run_exits opts : returns (run opts) exit_code.
Proof.
  unfold run, runApplication. destruct (early_exit opts) as [[code text]|] eqn:He.
  { apply returns_then. intros _. apply returns_ret. by eapply early_exit_code. }
  apply returns_then. intros allowed. destruct (negb allowed); [exits|]. case_match; [exits|].
  do 2 (apply returns_then; intros ?). eapply returns_bind; [apply load_exits|].
  intros [code|loaded] Hc; [by apply returns_ret|]. unfold proceed. case_match; [|apply finish_exits].
  eapply returns_bind; [apply questionnaire_exits|]. intros [code|af] Hc'; [by apply returns_ret|].
  apply returns_then. intros steps. apply finish_exits.
Qed.

(** C18. The program ends with the exit code of success or that of failure, or
    where [std::exit] is called on the way; no exception leaves [main], the
    thrown texts of the host name dialogue and the like included. *)
Theorem main_exit_code opts a :
  match (program opts a).1 with
  | Ok code => exit_code code
  | Throw e => is_any e = false
  | UB => True
  end.
Proof.
  assert (returns (program opts) exit_code) as Hr.
  { unfold program, main. apply returns_catch; [apply run_exits|]. intros e. exits. }
  specialize (Hr a). unfold program, main, try_catchM in *.
  destruct (runApplication _ _ _ _ _ _ _ _ _ _ opts a) as [[code|e|] a'] eqn:E; [by eapply Hr|cbn|done].
  destruct (is_any e) eqn:He; [|done]. unfold print, modify, mbind, M_bind. cbn. by right.
Qed.

(** What is installed always has an answer file: without one, and without
    the text interface, there is no run. *)
Lemma load_gives_answerfile opts :
  enableTUI opts = true \/ answerfile opts <> "" ->
  returns (load host current_path opts) (fun r =>
    match r with inl _ => True | inr loaded => enableTUI opts = true \/ is_Some (l_answerfile loaded) end).
Proof.
  intros Ho. unfold load. destruct (empty (answerfile opts)) eqn:He; cbn [negb].
  - destruct Ho as [Ho|Ho]; [|by destruct (answerfile opts)]. rewrite Ho.
    repeat first [apply returns_ret; by left | apply returns_then; intros | case_match].
  - apply returns_then. intros []; [destruct (enableTUI opts) eqn:Ht; cbn [negb]|].
    + apply returns_then. intros. apply returns_ret. by left.
    + apply returns_then. intros. by apply returns_ret.
    + do 2 (apply returns_then; intros). apply returns_ret. right. by eexists.
Qed.

(** ** The temporary answer file *)

Lemma dumpData_path path model p text : dumpData path model = Ok (p, text) -> p = path.
Proof.
  unfold dumpData. intros (k & _ & Hd)%bind_Ok.
  destruct ((_ ← dump_members model; AnswerFileDump.dumpFile path) (AnswerFileData.AnswerFile_init path k)) as [r s] eqn:E. cbn in Hd. subst r.
  apply M_bind_inv_ok in E as (? & s1 & _ & E). unfold AnswerFileDump.dumpFile in E. do 3 apply M_bind_inv_ok in E as (? & ? & _ & E).
  by injection E as <-.
Qed.

Lemma put_file_twice path s t w : put_file path t (put_file path s w) = put_file path t w.
Proof. unfold put_file, put_files. cbn. by rewrite insert_insert_eq. Qed.

Lemma remove_put_file path t w :
  contents w path = None -> is_directory w path = false -> fs_remove path (put_file path t w) = (Ok tt, w).
Proof.
  intros Hc Hd. unfold fs_remove. assert (is_directory (put_file path t w) path = false) as -> by exact Hd. cbn [andb].
  unfold put_file, put_files, put_dirs. cbn. rewrite delete_insert_id by exact Hc.
  apply orb_false_iff in Hd as [_ Hd%bool_decide_eq_false]. rewrite difference_disjoint_L by set_solver. by destruct w.
Qed.

Definition with_world (w : World) (d : Desk) : Desk := mkDesk _ (d_model d) w (d_operator d) (d_completedSteps d).

(** What is thrown or returned, unless the run does not come back *)
Definition back {A} (r : outcome A) : Prop := r <> UB /\ r <> Throw NoReturn.

Lemma with_removal_clean {A} path t (m : M Desk A) d w :
  contents w path = None -> is_directory w path = false -> (m d).2 = with_world (put_file path t w) d ->
  back (m d).1 -> with_removal path m d = ((m d).1, with_world w d).
Proof.
  intros Hc Hd Hm [Hu Hn]. unfold with_removal. destruct (m d) as [r d1]. cbn [fst snd] in *. subst d1.
  assert ((m_world (try_catchM (fs_remove path) is_std_exception (fun _ => skip)) (with_world (put_file path t w) d)).2
    = with_world w d) as Hr.
  { unfold m_world, zoom, try_catchM. cbn [with_world d_world]. by rewrite remove_put_file. }
  rewrite Hr. by destruct r as [a|[]|].
Qed.

Lemma dumped_and_loaded opts path d w :
  can_write w path = true ->
  let r := (_ ← dump_to path; load_answerfile opts path) (with_world (put_file path "" w) d) in
  (exists t, r.2 = with_world (put_file path t w) d) /\
  forall af, r.1 = Ok af -> exists text, dumpData path (d_model d) = Ok (path, text) /\
    AnswerFile.AnswerFile_make (dryRun opts) (contents (put_file path text w)) path true = Ok af.
Proof.
  intros Hw. cbn zeta. unfold with_world, dump_to, model_get, gets, lift, mbind, M_bind, id. cbn [d_model].
  destruct (dumpData path (d_model d)) as [[p text]|e|] eqn:Ed; cbn [fst snd]; [|split; [by eexists|done]..].
  pose proof (dumpData_path _ _ _ _ Ed) as ->. unfold m_world, zoom. cbn [d_world].
  assert (Files.write path text (put_file path "" w) = (Ok tt, put_file path text (put_file path "" w))) as ->.
  { assert (contents (put_file path "" w) path = Some "") as Hc by (rewrite contents_put_file; by apply decide_True).
    unfold Files.write, mbind, M_bind, ask, gets, fs_exists. rewrite is_regular_contents, Hc.
    rewrite bool_decide_true by by eexists. cbn [negb orb].
    unfold skip, stream_write. assert (can_write (put_file path "" w) path = true) as -> by exact Hw. done. }
  unfold load_answerfile, gets, lift, mbind, M_bind, skip, mret, M_ret. cbn [d_world fst snd]. rewrite put_file_twice.
  split; [by exists text|]. intros af Haf. by exists text.
Qed.

(** C7. The answers of a questionnaire go through a temporary file, which
    holds the passwords: however that ends, if it comes back the file is gone
    and the machine, the cluster and the operator are as they were; and the
    answer file that is installed from is the one the cluster was dumped
    to. *)
Theorem answers_leave_no_file opts path d :
  contents (d_world d) path = None -> is_directory (d_world d) path = false ->
  back (generateAnswerfileFromTuiModel opts path d).1 ->
  (generateAnswerfileFromTuiModel opts path d).2 = d /\
  forall af, (generateAnswerfileFromTuiModel opts path d).1 = Ok af ->
    exists text, dumpData path (d_model d) = Ok (path, text) /\
      AnswerFile.AnswerFile_make (dryRun opts) (contents (put_file path text (d_world d))) path true = Ok af.
Proof.
  intros Hc Hd. set (w := d_world d) in *.
  assert (with_world w d = d) as Hsame by by destruct d.
  assert (m_world (createTemporaryTuiAnswerfilePath path) d =
    if can_write w path then (Ok tt, with_world (put_file path "" w) d)
    else (Throw (RuntimeError "Unable to create temporary TUI answerfile"), d)) as Hmade.
  { unfold m_world, zoom, createTemporaryTuiAnswerfilePath, mbind, M_bind, stream_write. fold w.
    destruct (can_write w path); [done|]. cbn. f_equal. exact Hsame. }
  assert (generateAnswerfileFromTuiModel opts path d =
    if can_write w path
    then with_removal path (_ ← dump_to path; load_answerfile opts path) (with_world (put_file path "" w) d)
    else (Throw (RuntimeError "Unable to create temporary TUI answerfile"), d)) as ->.
  { unfold generateAnswerfileFromTuiModel. unfold mbind at 1, M_bind at 1. rewrite Hmade. by destruct (can_write w path). }
  destruct (can_write w path) eqn:Hw; [|done].
  destruct (dumped_and_loaded opts path d w Hw) as [[t Ht] Hload]. intros Hback.
  set (body := _ ← dump_to path; load_answerfile opts path) in *.
  assert ((with_removal path body (with_world (put_file path "" w) d)).1 = (body (with_world (put_file path "" w) d)).1) as Hr.
  { unfold with_removal. destruct (body _) as [[a|[]|] d1]; done. }
  rewrite Hr in *. rewrite (with_removal_clean path t body _ w Hc Hd) by (done || by rewrite Ht). split; [exact Hsame|exact Hload].
Qed.

(** ** Declining *)

(** Where the machine is in [J] and nothing has been read yet *)
Definition untouched_until (J : World -> Prop) (input : string) (a : App) : Prop :=
  J (d_world (a_desk a)) /\ a_stdin a = input.

Lemma untouched_desk {X} J input (m : M Desk X) :
  maintains (fun d => J (d_world d)) m -> maintains (untouched_until J input) (on_desk m).
Proof. intros Hm. apply (maintains_zoom _ _ _ _ (fun d => J (d_world d))); [by intros a []|by intros d a []|done]. Qed.

Lemma untouched_model {X} (J : World -> Prop) (m : M Cluster X) : maintains (fun d => J (d_world d)) (m_model m).
Proof. by apply (maintains_zoom _ _ _ _ (fun _ => True)). Qed.

Lemma untouched_world {X} J (m : M World X) : maintains J m -> maintains (fun d => J (d_world d)) (m_world m).
Proof. by apply maintains_zoom. Qed.

Lemma untouched_print J input text : maintains (untouched_until J input) (print text).
Proof. by apply maintains_modify. Qed.

Lemma loadDraftState_reads w path : maintains (eq w) (loadDraftState path).
Proof.
  unfold loadDraftState, ask. maintain. intros w' <-. unfold open_keyfile. by destruct (is_directory w path).
Qed.

(** What filling a cluster does to the machine *)
Lemma fillData_machine h af c w :
  (fillData h af (c, w)).2.2 = w \/
  DiskImage.needs_checksum (h_opts h) (AnswerFileData.sy_disk_image (AnswerFileData.system af)) = true /\
  (fillData h af (c, w)).2.2 = (Cache.checksum (AnswerFileData.sy_disk_image (AnswerFileData.system af)) w).2.
Proof.
  unfold fillData. unfold mbind, M_bind, lift.
  destruct (fill_managementNetwork _ _) as [m|e|]; [|by left..]. destruct (fill_externalNetwork _ _) as [n|e|]; [|by left..].
  set (image := AnswerFileData.sy_disk_image (AnswerFileData.system af)).
  pose proof (setDiskImage_spec h image c w) as Hs. unfold after_checksum in Hs.
  destruct (setDiskImage h image (c, w)) as [[[]|e|] [c1 w1]]; rewrite ?on_object_run; cbn [fst snd].
  - destruct Hs as (_ & _ & -> & _). destruct (DiskImage.needs_checksum (h_opts h) image); [by right|by left].
  - destruct Hs as (_ & _ & [[_ ->]|(Hn & _ & ->)]); [by left|]. rewrite Hn. by right.
  - destruct Hs as (_ & _ & [[_ ->]|(Hn & _ & ->)]); [by left|]. rewrite Hn. by right.
Qed.

(** Nothing has changed on the machine, or the checksum of the answer file's
    image, one of those the program knows, has been put next to it. *)
Definition only_cached (opts : Options) (w w' : World) : Prop :=
  w' = w \/
  exists af, AnswerFile.AnswerFile_make (dryRun opts) (contents w) (answerfile opts) true = Ok af /\
    let image := AnswerFileData.sy_disk_image (AnswerFileData.system af) in
    filename image ∈ DiskImage.knownImageFilename /\ dryRun opts = false /\ shouldSkip opts "disk-checksum" = false /\
    fs_exists w (image +:+ ".checksum") = false /\ only_file (image +:+ ".checksum") w w'.

Lemma filled_cached opts w af d :
  AnswerFile.AnswerFile_make (dryRun opts) (contents w) (answerfile opts) true = Ok af -> d_world d = w ->
  only_cached opts w (d_world (m_site (fillData (put_h_opts opts host) af) d).2).
Proof.
  intros Haf <-. unfold m_site, zoom. pose proof (fillData_machine (put_h_opts opts host) af (d_model d) (d_world d)) as Hm.
  destruct (fillData _ _ _) as [r [c w1]]. cbn in *. destruct Hm as [->|[Hn Hw]]; [by left|].
  set (image := AnswerFileData.sy_disk_image (AnswerFileData.system af)) in *.
  destruct (fs_exists (d_world d) (image +:+ ".checksum")) eqn:He.
  { left. rewrite Hw. by apply checksum_there. }
  right. exists af. split; [done|]. fold image. unfold DiskImage.needs_checksum in Hn.
  apply andb_true_iff in Hn as [[Hk%bool_decide_eq_true Hd%negb_true_iff]%andb_true_iff Hs%negb_true_iff].
  split_and!; [done..|]. rewrite Hw. apply checksum_only.
Qed.

Lemma maintains_until {S X Y} (I J : S -> Prop) (m : M S X) (f : X -> M S Y) :
  (forall s, I s -> J s) -> maintains I m -> (forall x s, I s -> J (f x s).2) -> forall s, I s -> J ((x ← m; f x) s).2.
Proof.
  intros HIJ Hm Hf s Hs. unfold mbind, M_bind. specialize (Hm s Hs). destruct (m s) as [[x|e|] s']; [by apply Hf|by apply HIJ..].
Qed.

Lemma load_only_caches w input opts a :
  answerfile opts <> "" -> enableTUI opts = false -> untouched_until (eq w) input a ->
  untouched_until (only_cached opts w) input (load host current_path opts a).2.
Proof.
  intros Ha Ht. assert (forall a, untouched_until (eq w) input a -> untouched_until (only_cached opts w) input a) as Hw.
  { intros a' [Hd Hi]. split; [by left|done]. }
  revert a. unfold load. destruct (empty (answerfile opts)) eqn:He; [by destruct (answerfile opts)|]. cbn [negb].
  rewrite Ht. cbn [negb]. apply maintains_until; [done|..].
  { apply untouched_desk, untouched_world. unfold isDraftAnswerfile.
    apply maintains_bind; [apply loadDraftState_reads|intros; apply maintains_ret]. }
  intros [] a Hs.
  { apply Hw. revert Hs. apply (maintains_bind (untouched_until (eq w) input)); [apply untouched_print|intros; apply maintains_ret]. }
  unfold mbind at 1, M_bind at 1. unfold on_desk at 1, zoom at 1, load_answerfile, gets, lift, mbind at 1, M_bind at 1.
  destruct a as [d i t], Hs as [Hd Hi]. cbn [a_desk a_stdin a_printed] in *.
  destruct (AnswerFile.AnswerFile_make _ _ _ _) as [af|e|] eqn:Haf; [|by apply Hw..].
  rewrite <- Hd in Haf. pose proof (filled_cached opts w af d Haf (eq_sym Hd)) as Hf.
  unfold on_desk, mbind, M_bind. unfold zoom at 1. cbn [a_desk a_stdin a_printed].
  destruct (m_site _ d) as [[[]|e|] d']; by split.
Qed.

(** An installation that is asked about: no dialogues, no draft, nothing to
    dump, neither a dry run nor an unattended one *)
Record asked_first (opts : Options) : Prop := {
  asked_answerfile : answerfile opts <> "";
  asked_tui : enableTUI opts = false;
  asked_draft : tuiDraft opts = "";
  asked_test : testCommand opts = "";
  asked_dump : dumpAnswerfile opts = "";
  asked_dry : dryRun opts = false;
  asked_unattended : unattended opts = false;
}.

Lemma confirm_declined opts input rest a :
  asked_first opts -> confirm_loop (S (String.length input)) input = Some (false, rest) -> a_stdin a = input ->
  confirmSystemModification opts a = (Ok false, mkApp _ (a_desk a) rest (a_printed a)).
Proof.
  intros [_ Ht _ Htest Hdump Hdry Hun] Hc Hi. unfold confirmSystemModification.
  rewrite Hdry, Ht, Htest, Hdump, Hun. cbn [empty negb orb]. cbv beta. by rewrite Hi, Hc.
Qed.

Lemma finish_declined opts af steps J input rest a :
  asked_first opts -> confirm_loop (S (String.length input)) input = Some (false, rest) -> untouched_until J input a ->
  J (d_world (a_desk (finish entries place timestamp current_path opts af steps a).2)).
Proof.
  intros Ho Hc [Hw Hi]. pose proof (confirm_declined _ _ _ a Ho Hc Hi) as Hd. destruct Ho as [_ Ht _ _ Hdump Hdry _].
  unfold finish. rewrite Ht, Hdump, Hdry. cbn [empty negb orb andb].
  rewrite (M_bind_ok _ _ _ None a) by done. by rewrite (M_bind_ok _ _ _ _ _ Hd).
Qed.

(** C5. When the operator declines the installation, or the standard input
    ends before an answer, the program leaves the machine as it was, even if
    it could not get as far as asking: but for one file, the checksum of a
    disk image whose name is known, which loading the answer file puts next
    to the image unless it is there already or checksums are skipped. *)
Theorem declining_only_caches opts a rest :
  asked_first opts -> confirm_loop (S (String.length (a_stdin a))) (a_stdin a) = Some (false, rest) ->
  only_cached opts (d_world (a_desk a)) (d_world (a_desk (program opts a).2)).
Proof.
  intros Ho Hc. set (w := d_world (a_desk a)). set (input := a_stdin a) in *. unfold program, main.
  set (J := only_cached opts w).
  enough (forall a', untouched_until (eq w) input a' -> J (d_world (a_desk (run opts a').2))) as Hrun.
  { specialize (Hrun a (conj eq_refl eq_refl)). unfold run, try_catchM in *.
    destruct (runApplication _ _ _ _ _ _ _ _ _ _ opts a) as [[code|e|] a']; [done| |done]. by destruct (is_any e). }
  assert (forall a', untouched_until (eq w) input a' -> J (d_world (a_desk a'))) as Hw by (intros a' [<- _]; by left).
  unfold run, runApplication. destruct (early_exit opts) as [[code text]|]; [by intros a' Ha; apply Hw|].
  assert (put_enableTUI (requestedTui opts || shouldRunInteractiveQuestionnaire opts) opts = opts) as ->.
  { destruct Ho as [Ha Ht Hd Htest _ _ _]. unfold requestedTui, shouldRunInteractiveQuestionnaire. rewrite Ht, Hd, Htest.
    destruct (answerfile opts) eqn:E; [done|]. cbn. destruct opts. cbn in *. by subst. }
  apply (maintains_until (untouched_until (eq w) input) (fun a => J (d_world (a_desk a)))); [done|..].
  { case_match; [|apply maintains_ret]. unfold checkRootOrExplain. destruct root; [apply maintains_ret|].
    apply maintains_bind; [apply untouched_print|intros; apply maintains_ret]. }
  intros allowed. destruct (negb allowed); [by intros a' Ha; apply Hw|]. destruct (enableCLI opts); [by intros a' Ha; apply Hw|].
  apply (maintains_until (untouched_until (eq w) input) (fun a => J (d_world (a_desk a)))); [done|apply maintains_lift|].
  intros model.
  apply (maintains_until (untouched_until (eq w) input) (fun a => J (d_world (a_desk a))));
    [done|apply untouched_desk, untouched_model|]. intros _ a' Ha'.
  pose proof (load_only_caches w input opts a' (asked_answerfile _ Ho) (asked_tui _ Ho) Ha') as Hl.
  unfold mbind, M_bind. destruct (load host current_path opts a') as [[[code|loaded]|e|] a1]; [by destruct Hl| |by destruct Hl..].
  unfold proceed. rewrite (asked_tui _ Ho). by eapply finish_declined.
Qed.
End program.

(** ** The firewall and SELinux

    No dialogue, no answer file and no draft sets them. *)

Section switched_off.
Context `{Asio} `{BoostText} `{BoostPort} `{GKeyFile} `{Fmt} `{Machine} `{BoostIni} `{Glibc} `{GChecksum}.
Variables (x : bool * ClusterData.SELinuxMode.t).

Local Notation kept_in_model := (AnsibleSpec.secured x).

Definition desk_secured (d : Desk) : Prop := kept_in_model (d_model d).

Lemma secured_view {T} (m : M Operator T) : maintains desk_secured (m_view m).
Proof. by apply (maintains_zoom _ _ _ _ (fun _ => True)). Qed.
Lemma secured_world {T} (m : M World T) : maintains desk_secured (m_world m).
Proof. by apply (maintains_zoom _ _ _ _ (fun _ => True)). Qed.
Lemma secured_model {T} (m : M Cluster T) : maintains kept_in_model m -> maintains desk_secured (m_model m).
Proof. by apply maintains_zoom. Qed.
Lemma secured_site {T} (m : M (Cluster * World) T) :
  maintains (AnsibleSpec.site_secured x) m -> maintains desk_secured (m_site m).
Proof. by apply maintains_zoom. Qed.

#[local] Hint Resolve secured_view secured_world : maintains.

(** [off] follows a dialogue to the setters it calls. *)
Ltac off :=
  repeat first
    [ solve [auto with maintains nocore]
    | apply secured_model;
      solve [ repeat first
        [ progress maintain | apply maintains_zoom with (fun _ => True); [done|done|done] | apply maintains_modify; done ] ]
    | apply secured_site, AnsibleSpec.image_secured | apply secured_site, AnsibleSpec.pending_secured
    | apply maintains_forever; intros
    | progress maintain ].

Lemma settings_off : maintains desk_secured PresenterGeneralSettings.
Proof. unfold PresenterGeneralSettings, setName, setCompanyName, setAdminMail. off. Qed.

Lemma time_off : maintains desk_secured PresenterTime.
Proof. unfold PresenterTime, ask_location. off. Qed.

Lemma locale_off runner : maintains desk_secured (PresenterLocale.PresenterLocale runner).
Proof. unfold PresenterLocale.PresenterLocale, PresenterLocale.choose_legacy, PresenterLocale.choose_region, setLocale. off. Qed.

Lemma hostid_off : maintains desk_secured PresenterHostId.
Proof. unfold PresenterHostId, setDomainName, on_headnode. off. Qed.

Lemma saved_off h nc : maintains kept_in_model (saveNetworksToModel h nc).
Proof.
  unfold saveNetworksToModel, saveNetworkToModel, addNetwork, emplace_network, on_headnode.
  repeat first [progress maintain | apply maintains_zoom with (fun _ => True); [done|done|done] | apply maintains_modify; done].
Qed.

Lemma network_off h nc p t : maintains desk_secured (PresenterNetwork h nc p t).
Proof. unfold PresenterNetwork, createNetwork, ask_details. off. Qed.

#[local] Hint Resolve network_off : maintains.

Lemma networking_off h : maintains desk_secured (networking h).
Proof.
  unfold networking, collectNetworks, attempt, PresenterInfiniband. apply maintains_bind; [off|].
  intros nc. apply secured_model, saved_off.
Qed.

Lemma version_off distro initial : maintains desk_secured (OperationalSystem.promptVersion distro initial).
Proof. unfold OperationalSystem.promptVersion. off. Qed.

Lemma choose_off question help : maintains desk_secured (OperationalSystem.choose_distro question help).
Proof. unfold OperationalSystem.choose_distro. off. Qed.

#[local] Hint Resolve version_off choose_off : maintains.

Lemma download_off h distro : maintains desk_secured (OperationalSystem.downloadSelectedDistro h distro).
Proof. unfold OperationalSystem.downloadSelectedDistro. off. Qed.

#[local] Hint Resolve download_off : maintains.

Lemma os_off h : maintains desk_secured (OperationalSystem.PresenterNodesOperationalSystem h).
Proof.
  unfold OperationalSystem.PresenterNodesOperationalSystem, OperationalSystem.ask_download, OperationalSystem.ask_image,
    OperationalSystem.ask_directory. off.
Qed.

Lemma provisioner_off : maintains desk_secured PresenterProvisioner.
Proof. unfold PresenterProvisioner, setProvisioner. off. Qed.

Lemma ohpc_off : maintains desk_secured PresenterOpenHPC.
Proof. unfold PresenterOpenHPC. off. Qed.

Lemma repository_off h entries place : maintains desk_secured (PresenterRepository h entries place).
Proof. unfold PresenterRepository. off. Qed.

Lemma nodes_off : maintains desk_secured PresenterNodes.PresenterNodes.
Proof.
  unfold PresenterNodes.PresenterNodes, ask_topology, ask_quantity, ask_nodes, ask_node, add_entered_node, addNode. off.
Qed.

Lemma queue_off draw1 draw2 : maintains desk_secured (PresenterQueueSystem draw1 draw2).
Proof. unfold PresenterQueueSystem, setQueueSystem, on_queue. off. Qed.

Lemma mail_off : maintains desk_secured PresenterMailSystem.
Proof. unfold PresenterMailSystem, mail_relay, setMailSystem, on_mail. off. Qed.

Lemma preflight_off opts : maintains desk_secured (PresenterPreflight opts).
Proof. unfold PresenterPreflight. off. Qed.

Lemma pending_off opts : maintains desk_secured (downloadPendingDiskImage opts).
Proof. unfold downloadPendingDiskImage, clearPendingDiskImageDownload. off. Qed.

(** The questionnaire *)
Lemma step_off h runner entries place draw1 draw2 :
  Forall (fun step => maintains desk_secured step.2) (PresenterInstall.steps h runner entries place draw1 draw2).
Proof.
  unfold PresenterInstall.steps. repeat apply Forall_cons_2; [..|constructor]; cbn [snd];
    auto using settings_off, time_off, locale_off, hostid_off, networking_off, os_off, provisioner_off, ohpc_off,
      repository_off, nodes_off, queue_off, mail_off, preflight_off.
Qed.

Lemma run_step_off steps cb s :
  Forall (fun step => maintains desk_secured step.2) steps -> (forall l, maintains desk_secured (cb l)) ->
  maintains desk_secured (run_step steps cb s).
Proof.
  intros Hs Hcb. unfold run_step. destruct s as [i history].
  destruct (steps !! i) as [[name step]|] eqn:E; [|apply maintains_ret].
  pose proof (proj1 (Forall_lookup _ _) Hs _ _ E) as Hstep. cbn [snd] in Hstep. cbv zeta. maintain; done.
Qed.

Lemma rounds_off {A B} n (body : A -> M Desk (A + B)) a :
  (forall a, maintains desk_secured (body a)) -> maintains desk_secured (rounds n body a).
Proof.
  intros Hb. revert a. induction n as [|n IH]; intros a; cbn [rounds]; [apply maintains_throw|].
  apply maintains_bind; [done|]. intros [?|?]; [apply IH|apply maintains_ret].
Qed.

Lemma install_off h runner entries place draw1 draw2 cb completed :
  (forall l, maintains desk_secured (cb l)) ->
  maintains desk_secured (PresenterInstall h runner entries place draw1 draw2 cb completed).
Proof.
  intros Hcb. unfold PresenterInstall, PresenterWelcome, PresenterInstructions.
  apply maintains_bind; [off|]. intros _. apply maintains_bind; [|intros _; apply pending_off].
  intros d. unfold run_steps. apply rounds_off. intros s. apply run_step_off; [apply step_off|done].
Qed.

(** ** The whole program *)

Definition app_secured (a : App) : Prop := desk_secured (a_desk a).

Lemma app_desk {T} (m : M Desk T) : maintains desk_secured m -> maintains app_secured (on_desk m).
Proof. by apply maintains_zoom. Qed.

Lemma app_print text : maintains app_secured (print text).
Proof. by apply maintains_modify. Qed.

#[local] Hint Resolve app_print : maintains.

Lemma with_removal_off {T} path (m : M Desk T) : maintains desk_secured m -> maintains desk_secured (with_removal path m).
Proof.
  intros Hm d Hd. unfold with_removal. specialize (Hm d Hd). destruct (m d) as [[a|[]|] d1]; try done; cbn;
    by apply secured_world.
Qed.

Lemma write_model_off path steps complete : maintains desk_secured (write_model path steps complete).
Proof. unfold write_model, model_get. off. Qed.

Lemma set_steps_off steps : maintains desk_secured (set_steps steps).
Proof. by apply maintains_modify. Qed.

Lemma dump_off path : maintains desk_secured (dump_to path).
Proof. unfold dump_to, model_get. off. Qed.

#[local] Hint Resolve write_model_off set_steps_off dump_off : maintains.

Lemma generate_off opts path : maintains desk_secured (generateAnswerfileFromTuiModel opts path).
Proof.
  unfold generateAnswerfileFromTuiModel. apply maintains_bind; [off|]. intros _. apply with_removal_off.
  unfold load_answerfile. off.
Qed.

Lemma save_off path steps : maintains desk_secured (saveTuiDraft path steps).
Proof. unfold saveTuiDraft. off. Qed.

Lemma load_off host current_path opts : maintains app_secured (load host current_path opts).
Proof.
  unfold load, resume, apply_draft.
  repeat first [ progress maintain | apply app_desk; first
    [ apply secured_site, AnsibleSpec.fill_secured | apply secured_site, AnsibleSpec.draft_secured
    | unfold load_answerfile; solve [off] ] ].
Qed.

Lemma questionnaire_off host entries place draw1 draw2 tmp_path current_path opts loaded :
  maintains app_secured (questionnaire host entries place draw1 draw2 tmp_path current_path opts loaded).
Proof.
  unfold questionnaire, stop_questionnaire.
  repeat first [ progress maintain | apply app_desk; first
    [ apply install_off; intros; apply save_off | apply generate_off | solve [off] ] ].
Qed.

Lemma installing_keeps_model entries place timestamp current_path opts af d :
  d_model (install entries place timestamp current_path opts af d).2 = d_model d.
Proof.
  assert (maintains (fun d' => d_model d' = d_model d) (install entries place timestamp current_path opts af)) as Hm;
    [|by apply Hm].
  unfold install, model_get. maintain. by apply (maintains_zoom _ _ _ _ (fun _ => True)).
Qed.

Lemma finish_off entries place timestamp current_path opts af steps :
  maintains app_secured (finish entries place timestamp current_path opts af steps).
Proof.
  unfold finish, write_output, confirmSystemModification.
  repeat first [ progress maintain | apply app_desk; first
    [ intros d Hd; unfold desk_secured; by rewrite installing_keeps_model | solve [off] ]
    | intros b Hb; destruct (confirm_loop (S (String.length (a_stdin b))) (a_stdin b)) as [[]|]; exact Hb ].
Qed.
End switched_off.

(** C24. The program makes its cluster with the firewall and SELinux switched
    off, and nothing sets either: neither an answer file, nor a draft, nor any
    dialogue of the questionnaire, in whatever order and however they end.  So
    when the program is done, and when it installs, which leaves the cluster as
    it is, the cluster has both off, unless none was ever made; and on a head
    node of the Enterprise Linux family the role for the firewall disables it
    and the role for SELinux disables that. *)
Theorem never_secured `{Asio} `{BoostText} `{BoostPort} `{GKeyFile} `{Fmt} `{Machine} `{BoostIni} `{Glibc} `{GChecksum}
    (root : bool) (headnode : outcome Headnode) (timezone : outcome Timezone.Timezone) (host : Host)
    (entries : list (string * string)) (place : RepoConfig.Place) (draw1 draw2 : nat -> nat)
    (tmp_path timestamp current_path : string) (opts : Options) (a : App) :
  let program := main root (Cluster_make headnode timezone) host entries place draw1 draw2 tmp_path timestamp current_path in
  let c := d_model (a_desk (program opts a).2) in
  (forall o af d, d_model (install entries place timestamp current_path o af d).2 = d_model d) /\
  (c = d_model (a_desk a) \/
   k_firewall c = false /\ k_selinux c = SELinuxMode.Disabled /\
   forall o runner osservice w, getPackageType (Ansible.os c) = Ok PackageType.RPM ->
     Ansible.firewall_run o runner osservice c w = (_ ← OsService.disableService osservice "firewalld"; skip) w /\
     Ansible.selinux_run o runner c timestamp w = Ansible.disableSELinux o runner timestamp w).
Proof.
  cbv zeta. split; [apply installing_keeps_model|].
  set (off := (false, SELinuxMode.Disabled)).
  set (J := fun b : App => d_model (a_desk b) = d_model (a_desk a) \/ app_secured off b).
  enough (J (main root (Cluster_make headnode timezone) host entries place draw1 draw2 tmp_path timestamp current_path opts a).2) as [Hj|Hj].
  { by left. }
  { right. pose proof Hj as [= Hf Hs]. split_and!; [done..|]. intros. by apply AnsibleSpec.secured_roles. }
  assert (forall text, maintains J (print text)) as Hprint by (intros; by apply maintains_modify).
  apply (maintains_catch J); [| |by left].
  2: { intros e. apply maintains_bind; [apply Hprint|intros; apply maintains_ret]. }
  unfold runApplication. destruct (early_exit opts) as [[code text]|].
  { apply maintains_bind; [apply Hprint|intros; apply maintains_ret]. }
  apply maintains_bind.
  { case_match; [|apply maintains_ret]. unfold checkRootOrExplain. destruct root; [apply maintains_ret|].
    apply maintains_bind; [apply Hprint|intros; apply maintains_ret]. }
  intros allowed. destruct (negb allowed); [apply maintains_ret|].
  destruct (enableCLI _); [apply maintains_bind; [apply Hprint|intros; apply maintains_ret]|].
  intros b Hb. unfold Cluster_make.
  destruct headnode as [hn|e|]; [|exact Hb..]. destruct timezone as [tz|e|]; [|exact Hb..].
  cbn [mbind outcome_bind]. unfold mbind at 1, M_bind at 1, lift at 1. unfold mbind at 1, M_bind at 1.
  cbn [on_desk m_model zoom modify]. right.
  match goal with |- app_secured off (?m ?b').2 => enough (maintains (app_secured off) m) as Hm by by apply Hm end.
  apply maintains_bind; [apply load_off|]. intros [code|loaded]; [apply maintains_ret|]. unfold proceed.
  destruct (enableTUI _); [|apply finish_off]. apply maintains_bind; [apply questionnaire_off|].
  intros [code|af]; [apply maintains_ret|]. apply maintains_bind; [apply app_desk, maintains_gets|]. intros steps. apply finish_off.
Qed.
