(* ===== verification/ClusterRoundtrip.v ===== *)
(** * The cluster: dumping and filling again

    What [dumpData] writes of a cluster's nodes, mail system and leftovers is
    what [fillData] needs to make them again, but for the nodes' passwords. *)

From stdpp Require Import base strings list.
From Stdlib Require Import ZArith Lia Ascii.
From S2P Require Import Prelude CppString External Enums KeyFile Options Cluster ClusterFill ClusterFillSpec.
From S2P Require Import AnswerFile AnswerFileValidation ClusterDump.
From S2P Require Network Connection Timezone DiskImage Postfix.

Local Open Scope Z_scope.

Lemma number_of_dec n : 0 <= n -> number_of (Some (dec n)) = n.
Proof. apply dec_val. Qed.

Lemma unsigned_dec allowZero n :
  0 <= n < 2 ^ 64 -> allowZero = true \/ n <> 0 -> unsigned_opt allowZero (Some (dec n)).
Proof.
  intros Hn Hz. exists n. split; [apply dec_empty|]. split; [apply dec_digit; lia|].
  rewrite dec_val by lia. split; [done|]. split; [lia|done].
Qed.

Lemma number_range allowZero v :
  hasText v = true -> unsigned_opt allowZero v ->
  0 <= number_of v < 2 ^ 64 /\ (allowZero = true \/ number_of v <> 0).
Proof.
  destruct v as [s|]; [|done]. intros _ (n & _ & Hd & -> & Hlt & Hz).
  split; [|done]. split; [by apply digits_val_nonneg|done].
Qed.

Lemma text_dec n : hasText (Some (dec n)) = true.
Proof. unfold hasText. by rewrite dec_empty. Qed.

Section node_roundtrip.
Context `{AL : AsioLaws} `{BL : BoostTextLaws} `{G : GKeyFile}.

(** The one attribute the dump leaves out. *)
Definition with_password (password : option string) (a : AFNode) : AFNode :=
  mkAFNode (nd_prefix a) (nd_padding a) (nd_start_ip a) (nd_hostname a) password (nd_mac_address a)
    (nd_sockets a) (nd_cores_per_socket a) (nd_threads_per_core a) (nd_cpus_per_node a)
    (nd_real_memory a) (nd_bmc_address a) (nd_bmc_username a) (nd_bmc_password a)
    (nd_bmc_serialport a) (nd_bmc_serialspeed a).

Lemma dumped_complete nodeOS connection name mac node :
  complete_node node ->
  complete_node (with_password (nd_root_password node)
    (dump_afNode (filled_node nodeOS connection name mac node))).
Proof.
  intros [(ip & Hip & Hspec) Hpw [Hs Hs'] [Hc Hc'] [Ht Ht'] (Hport & Hspeed & Hbmc)].
  destruct (number_range _ _ Hs Hs'), (number_range _ _ Hc Hc'), (number_range _ _ Ht Ht').
  split; cbn -[hasText unsigned_opt filled_bmc dec]; [exists ip; by rewrite Hip|done| | | |].
  1-3: split; [apply text_dec|by apply unsigned_dec].
  unfold filled_bmc. destruct Hbmc as [Hb|(Ha & Hu & Hp & Hsp & Hss)].
  - rewrite Hb. cbn. auto.
  - destruct (number_range _ _ Hsp Hport), (number_range _ _ Hss Hspeed).
    rewrite Ha. cbn [fmap option_fmap option_map b_address b_username b_password b_serialPort b_serialSpeed].
    split; [by apply unsigned_dec|]. split; [by apply unsigned_dec|]. right.
    rewrite !text_dec. by destruct (nd_bmc_address node), (nd_bmc_username node), (nd_bmc_password node).
Qed.

Lemma filled_bmc_dumped nodeOS connection name mac node pw :
  complete_node node ->
  filled_bmc (with_password pw (dump_afNode (filled_node nodeOS connection name mac node))) = filled_bmc node.
Proof.
  intros [_ _ _ _ _ (Hport & Hspeed & Hbmc)]. unfold filled_bmc at 1. cbn -[number_of hasText dec].
  destruct Hbmc as [Hb|(Ha & Hu & Hp & Hsp & Hss)]; unfold filled_bmc.
  - by rewrite Hb.
  - destruct (number_range _ _ Hsp Hport), (number_range _ _ Hss Hspeed). rewrite Ha.
    cbn -[number_of hasText dec]. rewrite !number_of_dec by lia.
    by destruct (nd_bmc_address node) as [[|]|].
Qed.

Lemma refilled nodeOS connection name mac node :
  complete_node node ->
  filled_node nodeOS connection name (lower mac)
    (with_password (nd_root_password node) (dump_afNode (filled_node nodeOS connection name mac node)))
  = filled_node nodeOS connection name mac node.
Proof.
  intros Hok. unfold filled_node at 1. rewrite filled_bmc_dumped by done.
  destruct Hok as [(ip & Hip & _) _ [Hs Hs'] [Hc Hc'] [Ht Ht'] _].
  destruct (number_range _ _ Hs Hs'), (number_range _ _ Hc Hc'), (number_range _ _ Ht Ht').
  unfold filled_cpu at 1. cbn -[number_of filled_bmc lower dec]. rewrite !number_of_dec by lia.
  unfold filled_node. rewrite Hip, !lower_idemp. done.
Qed.
End node_roundtrip.

Section mail_and_leftovers.
Context `{AL : AsioLaws} `{BL : BoostTextLaws} `{G : GKeyFile}.

(** The mail settings the three profiles use. *)
Definition mail_canonical (p : AFPostfix) : Prop :=
  pf_enabled p = true /\
  match pf_profile p with
  | Some PostfixProfile.Local => pf_smtp p = None
  | Some PostfixProfile.Relay => exists server port, pf_smtp p = Some (mkSMTP server port None) /\ u16 port = port
  | Some PostfixProfile.SASL =>
      exists server port sasl, pf_smtp p = Some (mkSMTP server port (Some sasl)) /\ u16 port = port
  | None => False
  end.

Definition default_AFPostfix : AFPostfix := mkAFPostfix false [] None None "" "".

(** The sizes of the leftovers are [std::size_t]. *)
Definition size_t (n : Z) : Prop := 0 <= n < 2 ^ 64.
Record leftovers_sizes (l : Leftovers) : Prop := {
  size_padding : size_t (nodePadding l);
  size_sockets : size_t (nodeSockets l);
  size_cores : size_t (nodeCoresPerSocket l);
  size_threads : size_t (nodeThreadsPerCore l);
  size_cpus : size_t (nodeCPUsPerNode l);
  size_memory : size_t (nodeRealMemory l);
  size_port : size_t (nodeBMCSerialPort l);
  size_speed : size_t (nodeBMCSerialSpeed l);
}.
End mail_and_leftovers.

(** C23. Dumping a node made from a complete answer file node and filling it in
    again: the root password is not dumped, so the dumped node alone is
    refused (the generic node has to provide it); with the password put back,
    the same node results, BMC, numbers and connection included. *)
Theorem node_roundtrip `{AsioLaws} `{BoostTextLaws} `{GKeyFile} (h : Host) (os0 nodeOS : OS)
    (connection : Connection.Connection) (name : string) (node : AFNode) (n : Node) :
  complete_node node -> nd_hostname node = Some name -> OS_host (h_os h) = Ok os0 ->
  fill_node h nodeOS connection node = Ok n ->
  fill_node h nodeOS connection (dump_afNode n) = Throw BadOptionalAccess /\
  fill_node h nodeOS connection (with_password (nd_root_password node) (dump_afNode n)) = Ok n.
Proof.
  intros Hok Hname Hos Hfill. pose proof (fill_node_cases h os0 nodeOS connection name node Hok Hname Hos) as Hc.
  destruct (nd_mac_address node) as [mac|] eqn:Hmac; [|destruct Hc as [e Hc]; by rewrite Hc in Hfill].
  destruct (Connection.mac_valid mac) eqn:Hv; [|destruct Hc as [e Hc]; by rewrite Hc in Hfill].
  rewrite Hc in Hfill. injection Hfill as <-. pose proof (Connection.mac_valid_lower mac Hv) as Hv'. split.
  - unfold fill_node, Node_default, Server_default. rewrite Hos. cbn [mbind outcome_bind].
    unfold construct, fill_node_body. do 4 (erewrite M_bind_ok by done). unfold checked_mac. cbn [nd_mac_address].
    cbn -[Connection.validateMAC lower]. pose proof (Connection.validateMAC_spec (lower mac)) as Hm.
    rewrite Hv' in Hm. by rewrite Hm.
  - pose proof (fill_node_cases h os0 nodeOS connection name _
      (dumped_complete nodeOS connection name mac node Hok) eq_refl Hos) as Hd.
    cbn [nd_mac_address with_password dump_afNode filled_node m_mac_address] in Hd.
    rewrite Hv' in Hd. rewrite Hd. f_equal. by apply refilled.
Qed.

(** The mail system: what [fill_mail] makes of enabled mail settings,
    [dump_mail] gives back, profile by profile. *)
Theorem mail_roundtrip `{Asio} `{GKeyFile} (p : AFPostfix) (c : Cluster) :
  mail_canonical p ->
  exists c', fill_mail p c = (Ok tt, c') /\ dump_mail c' default_AFPostfix = (Ok tt, p).
Proof.
  intros [He Hp]. destruct p as [enabled destination [[]|] smtp cert key]; cbn in He, Hp; [..|done]; subst enabled.
  - subst smtp. by eexists.
  - destruct Hp as (server & port & -> & Hport). eexists. split; [reflexivity|]. cbn. by rewrite Hport.
  - destruct Hp as (server & port & [u w] & -> & Hport). eexists. split; [reflexivity|]. cbn. by rewrite Hport.
Qed.

(** The leftovers: filling a cluster from the generic node that its
    leftovers are dumped to, with the SLURM passwords dumped along, gives them
    back unchanged whatever the cluster held, but for the number of nodes, which
    is not dumped. *)
Theorem leftovers_roundtrip `{Asio} `{GKeyFile} (l : Leftovers) (partition : string) (c : Cluster) :
  leftovers_sizes l ->
  fill_leftovers (Some (dump_genericNode l))
    (mkAFSlurm true (slurmMariaDBRootPassword l) (slurmDBPassword l) (slurmStoragePassword l) partition) c
  = (Ok tt, put_k_leftovers (put_nodeQuantity (nodeQuantity (k_leftovers c)) l) c).
Proof.
  intros []. unfold fill_leftovers, dump_genericNode, left. cbn -[stoul10 dec].
  cpp_simpl. cbn -[stoul10 dec]. repeat (rewrite stoul10_dec by done; cbn -[stoul10 dec]).
  by destruct l.
Qed.
