(* ===== verification/Samples.v ===== *)
(** * Sample inputs

    A small site over the instances of [Instances.v]: a host, an answer file
    as the program dumps one, and the cluster it fills.  The witnesses and
    nothing else use them. *)

From stdpp Require Import base strings list gmap.
From Stdlib Require Import ZArith Lia Ascii.
From S2P Require Import Prelude CppString External Instances Enums KeyFile Options Os World.
From S2P Require Import AnswerFile Cluster ClusterFill.
From S2P Require Network Connection Timezone DiskImage Postfix.

Local Open Scope Z_scope.

Definition ip (a b c d : Z) : address := addr_v4 (a * 2 ^ 24 + b * 2 ^ 16 + c * 2 ^ 8 + d).
Definition mask24 : address := addr_v4 (Network.netmask 24).

Definition sample_management : AFNetwork :=
  mkAFNetwork (Some mask24) (Some (ip 192 168 30 1)) (Some "cluster.example.com") (Some ["192.168.30.1"])
    (Some "eth1") (Some (ip 192 168 30 254)) (Some "00:0c:29:9b:0c:75").
Definition sample_external : AFNetwork :=
  mkAFNetwork (Some mask24) (Some (ip 172 16 144 1)) (Some "example.com") (Some ["172.16.144.1"; "1.1.1.1"])
    (Some "eth0") (Some (ip 172 16 144 50)) (Some "00:0C:29:9B:0C:76").
Definition sample_service : AFNetwork :=
  mkAFNetwork (Some mask24) (Some (ip 10 0 0 1)) (Some "service.example.com") (Some ["10.0.0.1"])
    (Some "eth2") (Some (ip 10 0 0 254)) (Some "00:0c:29:9b:0c:77").

Definition sample_generic : AFNode :=
  mkAFNode (Some "n") (Some "2") (Some (ip 192 168 30 1)) None (Some "secret") None (Some "1") (Some "4")
    (Some "2") (Some "8") (Some "4096") None (Some "admin") (Some "admin") (Some "0") (Some "9600").
Definition sample_node : AFNode :=
  mkAFNode None None (Some (ip 192 168 30 1)) (Some "n01") (Some "secret") (Some "52:54:00:00:20:01")
    (Some "1") (Some "4") (Some "2") None None (Some "10.0.0.11") (Some "admin") (Some "admin")
    (Some "0") (Some "9600").
Definition sample_node2 : AFNode :=
  mkAFNode None None (Some (ip 192 168 30 2)) (Some "n02") (Some "secret") (Some "52:54:00:00:20:02")
    (Some "2") (Some "8") (Some "2") None None None None None None None.

Definition sample_path : string := "/root/answerfile.ini".
Definition empty_keyfile : KeyFile := mkKeyFile sample_path gkf_create.

Definition sample_answerfile : AnswerFile :=
  mkAnswerFile sample_path empty_keyfile sample_external sample_management AFNetwork_default sample_service
    (mkAFInformation "cluster" "company" "root@example.com")
    (mkAFTime "America/Sao_Paulo" "0.pool.ntp.org" "en_US.utf8")
    (mkAFHostname "headnode" "cluster.example.com")
    (mkAFSystem "/opt/iso/Rocky-9.5-x86_64-dvd.iso" (Some Distro.Rocky) "9.5" None "confluent")
    (mkAFNodes (Some sample_generic) [sample_node; sample_node2])
    (mkAFPostfix true ["example.com"; "cluster"] (Some PostfixProfile.Relay)
       (Some (mkSMTP "smtp.example.com" 587 None)) "/etc/cert.pem" "/etc/key.pem")
    (mkAFOFED "doca" (Some "latest") true)
    (mkAFRepositories (Some ["epel"; "OpenHPC"])) (mkAFOHPC None)
    (mkAFSlurm true "a" "b" "c" "batch") (mkAFPBS false ExecutionPlace.Shared).

(** ** The host *)

Definition sample_interface (name : string) (address : Z) : Network.ifaddrs := {|
  Network.ifa_name := name;
  Network.ifa_addr := Some (Network.AF_INET (ntohl address));
  Network.ifa_netmask := Some (Network.AF_INET (ntohl (Network.netmask 24))) |}.

Definition sample_interfaces : list Network.ifaddrs :=
  [sample_interface "lo" 0x7F000001; sample_interface "eth0" 0xAC109032;
   sample_interface "eth1" 0xC0A81EFE; sample_interface "eth2" 0x0A0000FE].

Definition sample_probe : HostOSProbe :=
  mkProbe "x86_64" "Linux" "5.14.0" (Some "el9") "rocky" "9.5".

Definition sample_host : Host := {|
  h_opts := default_options;
  h_ifs := inr sample_interfaces;
  h_resolver := None;
  h_domainname := Some "example.com";
  h_routes := None;
  h_nametoindex := fun _ => 2;
  h_files := fun _ => None;
  h_os := Ok sample_probe;
  h_status := fun _ => None |}.

Definition sample_os : OS := match OS_host (Ok sample_probe) with Ok o => o | _ => mkOS None None None None None 0 0 end.

(** The cluster before the answer file. *)
Definition sample_timezone : Timezone.Timezone := Timezone.mkTimezone "" "" [] [].
Definition sample_headnode : Headnode :=
  mkHeadnode _ (mkServer "" sample_os CPU_default [] None "") BootTarget.Text.
Definition sample_cluster : Cluster :=
  mkCluster "" "" "" sample_headnode None Provisioner.xCAT None None None None None [] false
    SELinuxMode.Disabled sample_timezone "" [] false DiskImage.DiskImage_default None Leftovers_default.

(** The machine that has the image, and the cluster and the machine after the
    answer file. *)
Definition iso_world : World :=
  mkWorld {[ "/opt/iso/Rocky-9.5-x86_64-dvd.iso" := "image" ]} (list_to_set ["/opt"; "/opt/iso"]) [] [] None.
Definition sample_site : Cluster * World := (fillData sample_host sample_answerfile (sample_cluster, iso_world)).2.
Definition sample_filled : Cluster := sample_site.1.
