(* ===== verification/Witnesses.v ===== *)
(** * Concrete instances of the theorems

    Each lemma applies a theorem of the development at a concrete input, with
    the external libraries instantiated by [Instances.v], and so shows that
    its hypotheses can be met together. *)

From stdpp Require Import base strings list relations.
From Stdlib Require Import ZArith Lia Ascii.
From S2P Require Import Prelude CppString Regex External Instances Enums KeyFile Options Os Samples.
From S2P Require Import AnswerFile AnswerFileDump AnswerFileValidation AnswerFileReads AnswerFileRoundtrip.
From S2P Require Import Cluster ClusterFill ClusterFillSpec ClusterLayout ClusterDump ClusterRoundtrip.
From S2P Require Network Connection Timezone DiskImage Postfix.

Local Open Scope Z_scope.

(** [evaluate] closes a closed goal by computation. *)
Ltac evaluate := first [ reflexivity | vm_compute; reflexivity | vm_compute; done | lia ].

(** A call that is defined, by running it. *)
Lemma not_ub {A} (r : outcome A) : match r with UB => true | _ => false end = false -> r <> UB.
Proof. by destruct r. Qed.
Ltac defined := apply not_ub; vm_compute; reflexivity.

(** ** Networks *)

(** The network of the sample answer file: 192.168.30.0/24. *)
Definition sample_address : address := addr_v4 0xC0A81EFE.
Definition sample_network : Network.Network :=
  Network.put_subnetMask (addr_v4 (Network.netmask 24)) Network.Network_default.

Lemma subnet_mask_spec_witness :
  Network.setSubnetMask (addr_v4 0xFFFFFF00) sample_network =
    (Ok tt, Network.put_subnetMask (addr_v4 0xFFFFFF00) sample_network) /\
  Network.subnetMaskToCIDR (addr_v4 (Network.netmask 24)) = Ok 24.
Proof.
  destruct (Network.subnet_mask_spec (A := asio_impl) sample_network) as (Ha & _ & Hc). split.
  - apply Ha. exists 24. split; [lia|reflexivity].
  - apply Hc. lia.
Defined.

Lemma calculateAddress_spec_witness :
  Network.calculateAddress sample_network sample_address = Ok (addr_v4 0xC0A81E00).
Proof.
  rewrite (Network.calculateAddress_spec (A := asio_impl) sample_network 24 sample_address).
  - reflexivity.
  - lia.
  - reflexivity.
Defined.

(** A mask, then a VLAN out of range, which throws, then an address. *)
Definition network_0 : Network.Network := Network.Network_profile_type Network.Profile.Management Network.NetType.Ethernet.
Definition network_1 : Network.Network := (Network.call (Network.CallSubnetMask mask24) network_0).2.
Definition network_2 : Network.Network := (Network.call (Network.CallVLAN 5000) network_1).2.
Definition network_3 : Network.Network := (Network.call (Network.CallAddress sample_address) network_2).2.

Lemma network_invariant_witness :
  (Network.call (Network.CallVLAN 5000) network_1).1 <> Ok tt /\ Network.m_address network_3 = sample_address /\
  Network.net_ok network_3 /\ Network.m_profile network_3 = Network.Profile.Management.
Proof.
  split; [done|]. split; [done|].
  destruct (Network.network_invariant (A := asio_impl) Network.Profile.Management Network.NetType.Ethernet
    network_1 network_3) as (Hok & Hp & _).
  - apply rtc_once. apply (Network.net_step_call (Network.CallSubnetMask mask24) network_0); defined.
  - eapply rtc_l; [apply (Network.net_step_call (Network.CallVLAN 5000) network_1); defined|].
    apply rtc_once. apply (Network.net_step_call (Network.CallAddress sample_address) network_2); defined.
  - split; [exact Hok|exact Hp].
Defined.

Lemma parseGatewayFromProcRoute_roundtrip_witness :
  Network.parseGatewayFromProcRoute
    ("Iface Destination Gateway Flags" +:+ String "010" (Network.render_routes Network.sample_routes)) "bond1"
  = Network.default_gateway Network.sample_routes "bond1".
Proof.
  apply (Network.parseGatewayFromProcRoute_roundtrip (H := asio_impl)); [reflexivity|].
  repeat constructor; evaluate.
Defined.

(** ** Connections *)

Definition sample_connection : Connection.Connection := Connection.Connection_init 0%nat.

Lemma setMAC_spec_witness :
  Connection.setMAC "52:54:00:00:20:AB" sample_connection =
    (Ok tt, Connection.put_mac (Some "52:54:00:00:20:ab") sample_connection) /\
  exists e, Connection.setMAC "525400002001" sample_connection = (Throw (RuntimeError e), sample_connection).
Proof.
  split.
  - apply (Connection.setMAC_spec (B := text_impl) "52:54:00:00:20:AB" sample_connection). reflexivity.
  - apply (Connection.setMAC_spec (B := text_impl) "525400002001" sample_connection). reflexivity.
Defined.

(** A connection made in full, a call on it that throws, and one on its
    network. *)
Definition store_0 : Connection.NetworkPtr -> Network.Network := fun _ => network_0.
Definition store_1 : Connection.NetworkPtr -> Network.Network := fun _ => network_1.
Definition connection_0 : Connection.Connection :=
  Connection.mkConnection _ 0%nat (Some "eth1") (Some "52:54:00:00:20:01") sample_address 1500 "" "".

Lemma connection_invariant_witness :
  Connection.conn_ok store_1 (Connection.call store_0 (Connection.CallMTU 9) connection_0).2 /\
  Connection.addressed (Connection.call store_0 (Connection.CallMTU 9) connection_0).2.
Proof.
  assert (Connection.Connection_full store_0 (inr sample_interfaces) 0%nat (Some "eth1") (Some "52:54:00:00:20:01")
    "192.168.30.254" = Ok connection_0) as Hmade by reflexivity.
  destruct (Connection.connection_invariant (A := asio_impl) (B := text_impl) store_0 (inr sample_interfaces) 0%nat
    (Some "eth1") (Some "52:54:00:00:20:01") "192.168.30.254" connection_0 store_1
    (Connection.call store_0 (Connection.CallMTU 9) connection_0).2) as (Hok & Ha & _).
  - right. exact Hmade.
  - eapply rtc_l; [apply Connection.conn_step_call|]. apply rtc_once, Connection.conn_step_network.
    intros p. left. apply (Network.net_step_call (Network.CallSubnetMask mask24) network_0); defined.
  - split; [exact Hok|exact (Ha Hmade)].
Defined.

(** ** Operating systems *)

Definition sample_rocky : OS :=
  mkOS (Some Arch.x86_64) (Some Family.Linux) (Some Platform.el9) (Some Distro.Rocky) None 9 5.

Lemma version_roundtrip_witness :
  exists v, getVersion sample_rocky = Ok v /\ setVersion v sample_rocky = (Ok tt, sample_rocky).
Proof.
  destruct (version_roundtrip sample_rocky) as (v & Hv & Hs & _).
  - split; [by eexists| |cbn; lia]. by exists Platform.el9.
  - by exists v.
Defined.

(** The minor number is unreadable: the release is switched all the same. *)
Lemma setVersion_outcome_witness :
  exists e p, setVersion "10.x" sample_rocky = (Throw e, put_release p sample_rocky).
Proof.
  pose proof (setVersion_outcome "10.x" sample_rocky (setVersion "10.x" sample_rocky).2
    (setVersion "10.x" sample_rocky).1 (surjective_pairing _)) as Hs.
  destruct (setVersion "10.x" sample_rocky) as [r o] eqn:E. vm_compute in E. injection E as <- <-.
  cbn [fst snd] in Hs. destruct Hs as [Hs|[p Hs]]; [discriminate Hs|]. eexists. exists p. by rewrite <- Hs.
Defined.

(** The os-release file of Rocky Linux 9.5. *)
Definition sample_os_release : list (string * string) :=
  [("NAME", "Rocky Linux"); ("VERSION", "9.5 (Blue Onyx)"); ("ID", "rocky"); ("VERSION_ID", "9.5");
   ("PLATFORM_ID", "platform:el9")].

Lemma probeHostOS_os_release_witness :
  probeHostOS false "x86_64" "Linux" "5.14.0" (Some (render_os_release sample_os_release, false)) =
  Ok sample_probe.
Proof.
  rewrite (probeHostOS_os_release sample_os_release "x86_64" "5.14.0").
  - reflexivity.
  - repeat constructor.
  - by apply (bool_decide_unpack _).
  - intros v Hv. vm_compute in Hv. by injection Hv as <-.
Defined.

(** ** Servers *)

Lemma CPU_make_spec_witness : CPU_make 2 8 2 = Ok (mkCPU 2 16 32 8 2).
Proof. apply (CPU_make_spec 2 8 2); lia. Defined.

Definition sample_server : Server := mkServer "" sample_os CPU_default [] None "".

Lemma discoverNames_spec_witness :
  exists host, (discoverNames "head.example.com" sample_server).1 = Ok tt /\ no_char "." host = true.
Proof.
  destruct (discoverNames_spec (B := text_impl) (H := text_impl_laws) (H0 := asio_impl) "head.example.com" sample_server)
    as (host & Hok & _ & Hdot & _).
  exists host. split; [exact Hok|exact Hdot].
Defined.

(** ** Answer files *)

Lemma validateGatewayInSubnet_spec_witness :
  validateGatewayInSubnet "network_management" (ip 192 168 30 254) mask24 (ip 192 168 30 1) = Ok tt.
Proof.
  destruct (validateGatewayInSubnet_spec (A := asio_impl) "network_management" (ip 192 168 30 254) (ip 192 168 30 1) 24)
    as [[_ Hok] _]; [lia|]. apply Hok. right.
  split; [reflexivity|]. split; [reflexivity|]. vm_compute. reflexivity.
Defined.

(** A run that returned. *)
Definition returned {S} (m : M S unit) (s : S) : S := (m s).2.

Lemma returns {S} (m : M S unit) (s : S) : is_ok (m s).1 = true -> m s = (Ok tt, returned m s).
Proof. unfold returned. by destruct (m s) as [[[]| |] s']. Qed.

(** The key file the sample answer file is dumped to. *)
Definition sample_keyfile : KeyFile := af_keyfile (returned dumpOptions sample_answerfile).

Lemma loadNodes_spec_witness :
  exists generic, loadNode sample_keyfile "node" = Ok generic /\
    Forall2 (node_of sample_keyfile generic) (node_sections sample_keyfile)
      (ns_nodes (returned (loadNodes sample_keyfile) (mkAFNodes None []))) /\
    length (ns_nodes (returned (loadNodes sample_keyfile) (mkAFNodes None []))) = 2%nat.
Proof.
  destruct (proj1 (loadNodes_spec sample_keyfile (mkAFNodes None [])
    (returned (loadNodes sample_keyfile) (mkAFNodes None [])) eq_refl)) as (generic & Hg & _ & Hf & _).
  - apply returns. vm_compute. reflexivity.
  - exists generic. split; [exact Hg|]. split; [exact Hf|]. vm_compute. reflexivity.
Defined.

Lemma unsigned_literal allowZero n s :
  0 <= n < 2 ^ 64 -> allowZero = true \/ n <> 0 -> dec n = s -> unsigned_opt allowZero (Some s).
Proof. intros Hn Hz <-. by apply unsigned_dec. Qed.

Lemma sample_generic_ok : generic_ok sample_generic.
Proof.
  split.
  - repeat (constructor; [by eexists|]). constructor.
  - by eexists.
  - done.
  - constructor; [by apply (unsigned_literal _ 2); [|left|]|].
    constructor; [by apply (unsigned_literal _ 0); [|left|]|constructor].
  - constructor; [by apply (unsigned_literal _ 1); [|right|]|].
    constructor; [by apply (unsigned_literal _ 4); [|right|]|].
    constructor; [by apply (unsigned_literal _ 8); [|right|]|].
    constructor; [by apply (unsigned_literal _ 2); [|right|]|].
    constructor; [by apply (unsigned_literal _ 4096); [|right|]|].
    constructor; [by apply (unsigned_literal _ 9600); [|right|]|constructor].
Qed.

Lemma sample_node_complete : complete_node sample_node.
Proof.
  split.
  - by eexists.
  - done.
  - split; [done|]. by apply (unsigned_literal _ 1); [|right|].
  - split; [done|]. by apply (unsigned_literal _ 4); [|right|].
  - split; [done|]. by apply (unsigned_literal _ 2); [|right|].
  - split; [by apply (unsigned_literal _ 0); [|left|]|].
    split; [by apply (unsigned_literal _ 9600); [|right|]|]. by right.
Qed.

Lemma sample_node2_complete : complete_node sample_node2.
Proof.
  split.
  - by eexists.
  - done.
  - split; [done|]. by apply (unsigned_literal _ 2); [|right|].
  - split; [done|]. by apply (unsigned_literal _ 8); [|right|].
  - split; [done|]. by apply (unsigned_literal _ 2); [|right|].
  - by repeat split; left.
Qed.

Lemma sample_network_ok section f :
  f ∈ [sample_management; sample_external; sample_service] -> network_ok section f.
Proof.
  intros Hf. repeat (apply elem_of_cons in Hf as [->|Hf]); [..|by apply elem_of_nil in Hf];
    (split; [by eexists|by eexists|by intros m [= <-]|by intros i m g [= <-] [= <-] [= <-]|
     intros ns [= <-]; split; [done|repeat constructor]]).
Qed.

Lemma sample_canonical : canonical sample_answerfile.
Proof.
  split.
  - apply sample_network_ok. set_solver.
  - apply sample_network_ok. set_solver.
  - right. apply sample_network_ok. set_solver.
  - by left.
  - split; [by eexists|by left].
  - cbn. repeat (constructor; [done|]). constructor.
  - done.
  - by left.
  - by right.
  - done.
  - exists sample_generic. split; [done|exact sample_generic_ok].
  - constructor; [|constructor; [|constructor]].
    + split; [exact sample_node_complete|done|by eexists|by repeat split|].
      split; [by right|]. split; [by right|]. split; by right.
    + split; [exact sample_node2_complete|done|by eexists|by repeat split|].
      split; [by left|]. split; [by left|]. split; by left.
  - cbn. lia.
  - split; [|split]; apply (bool_decide_unpack _); vm_compute; exact I.
  - right. split; [done|]. split; [by exists OFEDKind.Doca|by eexists].
  - right. split; [done|]. split; [repeat (constructor; [done|]); constructor|].
    exists PostfixProfile.Relay. split; [done|]. by repeat eexists.
Qed.

Lemma dump_load_roundtrip_witness :
  exists k, loadOptions false (AnswerFile_init sample_path k) = (Ok tt, put_af_keyfile k sample_answerfile).
Proof.
  destruct (dump_load_roundtrip (A := asio_impl) sample_answerfile sample_path false sample_canonical)
    as (k & _ & Hk).
  exists k. exact Hk.
Defined.

(** ** Time zones, images and mail *)

Definition sample_table : list Timezone.table_line :=
  [Timezone.Comment " tz zone descriptions"; Timezone.Blank;
   Timezone.Row (Timezone.mkRow "BR" "-2332-04637" "America/Sao_Paulo" (Some "Brazil (southeast)"))].

Lemma readZone1970Tab_roundtrip_witness :
  Timezone.readZone1970Tab (Some (Timezone.render_table sample_table, false)) = ["America/Sao_Paulo"].
Proof.
  rewrite (Timezone.readZone1970Tab_roundtrip sample_table).
  - reflexivity.
  - repeat (constructor; [by repeat split|]). constructor.
Defined.

Definition sample_master_cf : string :=
  "smtp inet n - n - - smtpd" +:+ String Timezone.newline ("#submission inet n - n - - smtpd" +:+ String Timezone.newline "").
Definition sample_master : string :=
  match Postfix.changeMasterFile PostfixProfile.Relay (Some sample_master_cf) with Ok text => text | _ => "" end.

Lemma changeMasterFile_one_line_witness : no_char Timezone.newline sample_master = true.
Proof. apply (Postfix.changeMasterFile_one_line PostfixProfile.Relay (Some sample_master_cf)). reflexivity. Defined.

(** ** The cluster *)

Definition sample_ubuntu : OS :=
  mkOS (Some Arch.x86_64) (Some Family.Linux) (Some Platform.ubuntu2404) (Some Distro.Ubuntu) None 24 4.

Definition compute_os : OS := match fill_nodeOS sample_host (system sample_answerfile) with Ok o => o | _ => sample_os end.
Definition node_connection_0 : Connection.Connection := node_connection (networks sample_filled 0%nat).

Lemma fill_node_spec_witness :
  fill_node sample_host compute_os node_connection_0 sample_node =
    Ok (filled_node compute_os node_connection_0 "n01" "52:54:00:00:20:01" sample_node).
Proof.
  apply (fill_node_spec sample_host sample_os compute_os node_connection_0 "n01" sample_node); try reflexivity.
  exact sample_node_complete.
Defined.

Lemma fillData_layout_witness :
  exists new, k_nodes sample_filled = new /\ length new = 2%nat.
Proof.
  destruct (fillData_layout sample_host sample_answerfile sample_cluster sample_filled iso_world sample_site.2)
    as (conns & nodeOS & new & _ & _ & _ & _ & Hn & Hf).
  - reflexivity.
  - unfold sample_filled. rewrite <- surjective_pairing.
    refine (returns (fillData sample_host sample_answerfile) (sample_cluster, iso_world) _). vm_compute. reflexivity.
  - exists new. split; [rewrite Hn; reflexivity|]. by rewrite <- (Forall2_length _ _ _ Hf).
Defined.

Definition sample_cluster_node : Node := filled_node compute_os node_connection_0 "n01" "52:54:00:00:20:01" sample_node.

Lemma node_roundtrip_witness :
  fill_node sample_host compute_os node_connection_0 (with_password (Some "secret") (dump_afNode sample_cluster_node))
    = Ok sample_cluster_node.
Proof.
  apply (node_roundtrip sample_host sample_os compute_os node_connection_0 "n01" sample_node sample_cluster_node).
  - exact sample_node_complete.
  - reflexivity.
  - reflexivity.
  - reflexivity.
Defined.

Lemma mail_roundtrip_witness :
  exists c, fill_mail (postfix sample_answerfile) sample_cluster = (Ok tt, c).
Proof.
  destruct (mail_roundtrip (H := asio_impl) (postfix sample_answerfile) sample_cluster) as (c & Hc & _).
  - split; [reflexivity|]. exists "smtp.example.com", 587. split; reflexivity.
  - exists c. exact Hc.
Defined.

Definition sample_leftovers : Leftovers := k_leftovers sample_filled.
