(* ===== verification/ServiceWitnesses.v ===== *)
(** * Concrete instances of the theorems on services

    The same as [Witnesses.v] for the theorems on files, processes and
    repositories, on a machine whose processes do nothing. *)

From stdpp Require Import base strings list gmap relations.
From Stdlib Require Import ZArith Lia Ascii.
From S2P Require Import Prelude CppString External Instances Enums KeyFile Options Os World WorldFacts.
From S2P Require Import FileOps FileOpsSpec Runner RunnerSpec StdMap RepoData RepoFileSpec RepoChoice RepoChoiceSpec.
From S2P Require Import RepoConfig RepoConfigSpec RepoManager RepoManagerSpec.
From S2P Require Cluster ClusterData Samples.

(** ** A machine *)

(** Every process prints a line and succeeds, and leaves the files alone; a
    directory is listed in order. *)
Definition sample_machine (line : string) : Machine := {|
  react w _ := (Ok (0%Z, [line]), (w_files w, w_dirs w));
  scan l := l;
  visit l := l;
  obstacle _ _ := None |}.

Lemma sample_machine_laws line : MachineLaws (sample_machine line).
Proof. by split. Qed.

Definition repo_dir : string := "/etc/yum.repos.d".
Definition sample_dirs : gset string := list_to_set ["/etc"; repo_dir; "/var"].

Definition sample_world : World :=
  mkWorld (list_to_map [(repo_dir +:+ "/a.repo", "one"); (repo_dir +:+ "/b.REPO", "two"); (repo_dir +:+ "/c.txt", "three")])
    sample_dirs [] [] None.

(** ** Files *)

Lemma checksum_pieces_witness :
  Files.checksum_file (repo_dir +:+ "/a.repo") 2 sample_world = Some (Ok (Files.checksum "one")).
Proof. apply (checksum_pieces (C := checksum_impl)). lia. Defined.

Lemma backup_spec_witness :
  exists w', backupFilesByExtension (H := sample_machine "") default_options "/var/backup" repo_dir ".repo" sample_world
             = (Ok tt, w') /\ contents w' "/var/backup/b.REPO" = None /\ contents w' (repo_dir +:+ "/b.REPO") = None.
Proof.
  assert (forall n, no_char "/" n = true -> empty n = false -> String.eqb n "." = false -> String.eqb n ".." = false -> plain n)
    as Hp.
  { intros n Hc He H1%String.eqb_neq H2%String.eqb_neq. unfold plain. split_and!; [by intros ->|done..]. }
  destruct (backup_spec (H := sample_machine "") (H0 := sample_machine_laws "") default_options repo_dir "/var/backup" ".repo"
    sample_world) as (w' & Hr & Hsrc & Hdst & _).
  - apply tree_okb_ok. vm_compute. reflexivity.
  - vm_compute. reflexivity.
  - vm_compute. reflexivity.
  - vm_compute. reflexivity.
  - apply Forall_forall. intros q Hq. change (lineage "/var/backup") with ["/"; "/var"; "/var/backup"] in Hq.
    rewrite !elem_of_cons, elem_of_nil in Hq. by destruct Hq as [->|[->|[->|[]]]]; vm_compute.
  - exists w'. split; [exact Hr|]. split.
    + change "/var/backup/b.REPO" with (path_append "/var/backup" "b.REPO").
      rewrite (Hdst "b.REPO"); [vm_compute; reflexivity|by apply Hp].
    + change (repo_dir +:+ "/b.REPO") with (path_append repo_dir "b.REPO").
      rewrite (Hsrc "b.REPO"); [vm_compute; reflexivity|by apply Hp].
Defined.

Definition dry_options : Options :=
  match default_options with
  | mkOptions a b c d _ f g h i j k l m n o p q r s t u v w x y z a1 a2 a3 a4 a5 =>
      mkOptions a b c d true f g h i j k l m n o p q r s t u v w x y z a1 a2 a3 a4 a5
  end.

Lemma dry_run_keeps_files_witness :
  installFile dry_options "/etc/motd" "hello" sample_world = (Ok tt, sample_world).
Proof. apply (dry_run_keeps_files (H := sample_machine "") dry_options "/etc/motd" "" "hello" ""). reflexivity. Defined.

(** ** Processes *)

Definition asked_world : World := put_trace (repeat (Spawn (curl_status "https://example.com")) 3) sample_world.

Lemma getHttpStatus_attempts_witness :
  exists attempts, (attempts <= 3)%nat /\
    w_trace asked_world = w_trace sample_world ++ repeat (Spawn (curl_status "https://example.com")) attempts.
Proof.
  destruct (getHttpStatus_attempts (H := sample_machine "404") default_options "https://example.com" 3
    sample_world asked_world "404") as [_ Ha].
  - reflexivity.
  - vm_compute. reflexivity.
  - destruct Ha as (n & Hn & Ht & _); [vm_compute; reflexivity|]. by exists n.
Defined.

Definition two_lines : string := "one" +:+ String "010" ("two" +:+ String "010" "").

Lemma drain_lossless_witness :
  exists lines, drain 20 "010" (runCommandIter default_options two_lines false) = Some lines /\
    concat_sep (String "010" "") lines = two_lines.
Proof.
  destruct (drain_lossless default_options two_lines "010" false 20) as (lines & Hd & _ & Hl).
  - vm_compute. lia.
  - exists lines. split; [exact Hd|]. by apply Hl.
Defined.

(** ** Settings of repositories *)

Definition conf_dir : string := "/opt/opencattus/conf/repos".
Definition conf_file (name : string) (ws : list write) : string * string :=
  (conf_dir +:+ "/" +:+ name, toData (write_all ws (mkKeyFile "" gkf_create))).

Definition epel_settings : GroupSettings := mkGroupSettings [Text "epel"] [Text "EPEL "; Field "releasever"] "epel.repo"
  (Some [Text "epel/"; Field "releasever"; Text "/Everything/"; Field "arch"; Text "/"]) None
  [Text "https://epel/"; Field "releasever"] (Some [Text "https://epel/RPM-GPG-KEY-EPEL-"; Field "releasever"]).
Definition beegfs_settings : GroupSettings := mkGroupSettings [Text "beegfs"] [Text "BeeGFS"] "beegfs.repo"
  None None [Text "https://beegfs/"; Field "beegfsVersion"] None.
Definition baseos_settings : GroupSettings := mkGroupSettings [Text "baseos"] [Text "BaseOS"] "rocky.repo"
  None None [Text "https://rocky/"; Field "osversion"; Text "/BaseOS"] (Some [Field "rhelBaseMirrorGPGKey"]).

Definition settings_writes (g : GroupSettings) : list write :=
  let group := template (gs_id g) in
  [(group, "name", template (gs_name g)); (group, "filename", gs_filename g)] ++
  opt_write group "mirror.repo" (template <$> gs_mirror_repo g) ++
  opt_write group "mirror.gpgkey" (template <$> gs_mirror_gpgkey g) ++
  [(group, "upstream.repo", template (gs_upstream_repo g))] ++
  opt_write group "upstream.gpgkey" (template <$> gs_upstream_gpgkey g).

Definition common_settings : list GroupSettings := [epel_settings; beegfs_settings].

Definition settings_world : World :=
  mkWorld (list_to_map [conf_file "repos.conf" (common_settings ≫= settings_writes);
                        conf_file "rocky-upstream.conf" (settings_writes baseos_settings)])
    (list_to_set ["/opt"; "/opt/opencattus"; "/opt/opencattus/conf"; conf_dir]) [] [] None.

Definition rocky : OS := mkOS (Some Arch.x86_64) (Some Family.Linux) (Some Platform.el9) (Some Distro.Rocky) (Some "5.14") 9 5.
Definition sample_vars : RepoConfigVars :=
  match buildRepoConfigVars default_options rocky "latest" with
  | Ok vars => vars | _ => mkRepoConfigVars "" "" "" "" "" "" "" "" "" "" "" "" "" end.
Definition common_conf : string := conf_dir +:+ "/repos.conf".
Definition common_file : KeyFile :=
  match KeyFile_make (contents settings_world) common_conf true with Ok k => k | _ => mkKeyFile "" gkf_create end.

Lemma settings_file_spec_witness :
  exists f, RepoConfig.parse [] common_conf ∅ sample_vars settings_world = (Ok f, settings_world) /\
    f !! "epel.repo" = Some [expanded sample_vars epel_settings] /\
    rp_repo (upstream (expanded sample_vars epel_settings)) = "https://epel/9".
Proof.
  destruct (settings_file_spec (F := fmt_impl) [] common_conf ∅ sample_vars settings_world common_file common_settings)
    as (f & Hf & Hl).
  - vm_compute. reflexivity.
  - vm_compute. reflexivity.
  - vm_compute. reflexivity.
  - vm_compute. reflexivity.
  - repeat constructor; vm_compute; reflexivity.
  - exists f. split; [exact Hf|]. split; [|vm_compute; reflexivity]. rewrite Hl. vm_compute. reflexivity.
Defined.

Definition sample_place : Place := mkPlace "/root" None.
Definition offered_run : outcome (list RepositorySelection) * World :=
  defaultRepositoriesFor default_options [] sample_place rocky "latest" (Some ["beegfs"]) None settings_world.
Definition offered_sample : list RepositorySelection := match offered_run.1 with Ok l => l | _ => [] end.

Lemma defaultRepositoriesFor_spec_witness :
  offered_sample = [mkSelection "baseos" "BaseOS" true; mkSelection "beegfs" "BeeGFS" true;
                    mkSelection "epel" "EPEL 9" true] /\ NoDup (sel_id <$> offered_sample).
Proof.
  split; [vm_compute; reflexivity|].
  destruct (defaultRepositoriesFor_spec default_options [] sample_place rocky "latest" (Some ["beegfs"]) None
    settings_world offered_run.2 offered_sample) as [(Hu & _)|(vars & base & conf & names & _ & _ & _ & _ & _ & Hnd & _)].
  - vm_compute. reflexivity.
  - discriminate Hu.
  - exact Hnd.
Defined.

Lemma lts_stream_target_witness : defaultDOCARepoTargetFor rocky "latest-2.9-LTS" = Ok "9.6".
Proof.
  destruct (lts_stream_target rocky 2 9 Distro.Rocky Platform.el9) as [_ Ht]; [lia|lia|done|done|done|done|].
  exact Ht.
Defined.

Definition sample_conffile : RepoConfFile := {["epel.repo" := [expanded sample_vars epel_settings]]}.

(** A network that answers once, and from then on does not find anything *)
Definition flaky_machine : Machine := {|
  react w _ := (Ok (0%Z, [match w_trace w with [] => "200" | _ => "404" end]), (w_files w, w_dirs w));
  scan l := l;
  visit l := l;
  obstacle _ _ := None |}.
Definition flaky_checker : Checker :=
  DefaultMirrorExistenceChecker default_options (Runner.Runner (H := flaky_machine) default_options).
Definition flaky_run : outcome (list RPMRepositoryFile) * World :=
  fromConfFile default_options flaky_checker flaky_checker sample_conffile ["epel.repo"] repo_dir sample_world.

(** The key is set and not checked against. *)
Lemma fromConfFile_spec_witness :
  exists f r, flaky_run.1 = Ok [f] /\ rf_path f = repo_dir +:+ "/epel.repo" /\ rf_repos f !! "epel" = Some r /\
    made_of default_options flaky_checker flaky_checker (expanded sample_vars epel_settings) r /\
    r_gpgkey r = Some "https://epel/RPM-GPG-KEY-EPEL-9" /\ r_gpgcheck r = false /\ length (w_trace flaky_run.2) = 4%nat.
Proof.
  destruct flaky_run as [[files|e|] w'] eqn:Hrun; [|vm_compute in Hrun; discriminate Hrun..].
  pose proof (proj2 (fromConfFile_spec default_options flaky_checker flaky_checker sample_conffile ["epel.repo"] repo_dir
    sample_world) files w' Hrun) as [Hpaths Hall].
  destruct (Hall "epel.repo" [expanded sample_vars epel_settings]) as (f & Hf & Hp & Hid); [reflexivity|by left|].
  specialize (Hid "epel"). assert (first_config [expanded sample_vars epel_settings] "epel" =
    Some (expanded sample_vars epel_settings)) as Hc by (vm_compute; reflexivity). rewrite Hc in Hid.
  destruct Hid as (r & Hr & Hm & _).
  assert (length files = 1%nat) as Hlen.
  { apply (f_equal length) in Hpaths. rewrite !length_fmap in Hpaths. rewrite Hpaths. vm_compute. reflexivity. }
  destruct files as [|f0 [|? ?]]; [discriminate Hlen| |discriminate Hlen]. apply list_elem_of_singleton in Hf as ->.
  exists f0, r. split; [reflexivity|]. split; [exact Hp|]. split; [exact Hr|]. split; [exact Hm|].
  vm_compute in Hrun. injection Hrun as <- <-. vm_compute in Hr. injection Hr as <-. by split_and!.
Defined.

(** ** Repository files *)

Definition sample_repository (id : string) (key : option string) : RPMRepository :=
  put_source (repo_dir +:+ "/epel.repo") (put_gpgkey key (put_gpgcheck (bool_decide (is_Some key))
    (put_baseurl (Some "https://epel/9") (put_name "EPEL 9" (put_id id (put_group id RPMRepository_default)))))).

Definition epel_path : string := repo_dir +:+ "/epel.repo".
Definition sample_repositories : gmap string RPMRepository :=
  list_to_map [("epel", sample_repository "epel" (Some "https://epel/KEY")); ("epel-source", sample_repository "epel-source" None)].
Definition sample_file : RPMRepositoryFile := mkRepositoryFile epel_path sample_repositories.

Lemma sample_repositories_ok : repositories_ok sample_repositories.
Proof.
  intros k r. unfold sample_repositories. cbn [list_to_map foldr fst snd].
  rewrite !lookup_insert_Some, lookup_empty. intros [[<- <-]|[_ [[<- <-]|[_ [=]]]]]; vm_compute; by split_and!.
Qed.

Lemma repository_file_roundtrip_witness :
  exists data, save_repositories sample_file sample_world = (Ok tt, put_file epel_path data sample_world).
Proof.
  destruct (repository_file_roundtrip (G := keyfile_impl) (B := text_impl) sample_world sample_file) as (data & Hs & _).
  - exact sample_repositories_ok.
  - split; [vm_compute; reflexivity|]. exists (mkKeyFile epel_path gkf_create). split; [vm_compute; reflexivity|].
    split; [apply storable_create|]. split.
    + intros g Hg. exfalso. revert Hg. change (getGroups _) with (gkf_get_groups (gkf_create (GKeyFile := keyfile_impl))).
      rewrite gkf_create_groups. apply not_elem_of_nil.
    + intros g r _. repeat split; intros _; discriminate.
  - exists data. exact Hs.
Defined.

(** ** The manager *)

Definition stored_keyfile : gkeyfile :=
  m_keyfile (write_all (in_order sample_repositories ≫= repository_writes) (mkKeyFile epel_path gkf_create)).
Definition repo_world : World := put_file epel_path (gkf_to_data stored_keyfile) sample_world.
Definition session_0 : Session := mkSession repo_world RPMRepoManager_default.
Definition session_1 : Session := (perform (H := sample_machine "") default_options (Install epel_path) session_0).2.

Lemma manager_invariant_witness :
  m_filesIdx (s_rpm session_1) !! "epel" = Some 0%nat /\
  exists f r, m_objects (s_rpm session_1) !! 0%nat = Some f /\ rf_repos f !! "epel" = Some r /\ r_id r = "epel" /\ r_group r = "epel".
Proof.
  destruct (manager_invariant (H := sample_machine "") default_options repo_world session_1) as [Hi _].
  - apply rtc_once, step_call.
  - split; [vm_compute; reflexivity|]. apply (Hi "epel" 0%nat). vm_compute. reflexivity.
Defined.

Lemma session_1_ok : session_ok session_1.
Proof.
  destruct (wp_state (perform (H := sample_machine "") default_options (Install epel_path)) session_ok session_0)
    as [Hs _]; [|exact Hs].
  apply perform_keeps. split; [constructor|]. by intros id p.
Qed.

Lemma enable_many_spec_witness :
  exists m, enable_many (H := sample_machine "") ["epel"; "nothing"; "epel-source"] false session_1 =
              (Throw (unknown_repository "nothing"), put_rpm m session_1) /\
    r_enabled <$> repository_of m "epel" = Some false.
Proof.
  destruct (enable_many_spec (H := sample_machine "") (H0 := sample_machine_laws "") ["epel"; "nothing"; "epel-source"] false
    session_1) as [_ Hu].
  - apply session_1_ok.
  - destruct (Hu ["epel"] "nothing" ["epel-source"]) as (m & Hm & Hr); [done| |vm_compute; reflexivity|].
    + intros x ->%list_elem_of_singleton. vm_compute. by eexists.
    + exists m. split; [exact Hm|]. rewrite Hr. vm_compute. reflexivity.
Defined.

Lemma enable_one_on_disk_witness :
  exists data s', enable_one "epel" false session_1 = (Ok tt, s') /\
    s_world s' = put_file epel_path data repo_world.
Proof.
  destruct (enable_one_on_disk (G := keyfile_impl) (B := text_impl) "epel" false session_1 0%nat
    sample_file (mkKeyFile epel_path stored_keyfile)) as (data & s' & He & Hw & _).
  - apply session_1_ok.
  - vm_compute. reflexivity.
  - vm_compute. reflexivity.
  - vm_compute. reflexivity.
  - vm_compute. reflexivity.
  - apply storable_write_all; [apply storable_repositories, sample_repositories_ok|apply storable_create].
  - vm_compute. reflexivity.
  - exists data, s'. split; [exact He|]. rewrite Hw. reflexivity.
Defined.

(** ** Families that do not go together *)

Definition mixed_cluster : ClusterData.Cluster :=
  ClusterData.put_k_computeNodeOS (Some (mkOS (Some Arch.x86_64) (Some Family.Linux) (Some Platform.ubuntu2404) (Some Distro.Ubuntu)
    (Some "6.8") 24 4)) Samples.sample_cluster.

Lemma mixed_families_witness :
  (generate default_options MockRunner [] sample_place
     (Cluster.getComputeNodeOS mixed_cluster) sample_vars settings_world).1 = UB.
Proof.
  destruct (mixed_families (H := sample_machine "") (H3 := asio_impl) default_options MockRunner []
    sample_place mixed_cluster) as [_ Hg].
  - reflexivity.
  - reflexivity.
  - reflexivity.
  - apply (Hg sample_vars settings_world "/opt/opencattus/conf/repos/"). vm_compute. reflexivity.
Defined.
