(* ===== verification/ProvisionWitnesses.v ===== *)
(** * Concrete instances of the theorems on provisioning

    The same as [Witnesses.v] for the theorems on the drivers and the
    provisioners, on the machine of [ServiceWitnesses.v]. *)

From stdpp Require Import base strings list gmap relations.
From Stdlib Require Import ZArith Lia Ascii.
From S2P Require Import Prelude CppString External Instances Enums KeyFile Options AnswerFileData Os World WorldFacts.
From S2P Require Import FileOps Runner RepoData RepoConfig RepoManager ServiceWitnesses Ofed OfedSpec.
From S2P Require Import XcatCommands Xcat XcatSpec XcatFrame XcatImageSpec.
From S2P Require Network Connection Server ClusterData Cluster ClusterFill OsService Samples ScriptBuilder.

Local Open Scope Z_scope.

(** ** Drivers *)

Definition sample_ofed (version : string) : ClusterData.OFED := ClusterData.mkOFED OFEDKind.Doca version.

(** A long-term stream has its own repository; a pinned kernel does not look
    at it. *)
Lemma install_mode_matches_repository_witness :
  (exists mode, selectDocaInstallMode (sample_ofed "2.9-LTS") rocky None "5.14" = Ok mode /\ ~ (mode = RepoDkms)) /\
  selectDocaInstallMode (sample_ofed "latest") rocky (Some "5.15") "5.14" = Ok LegacyKernelSupport /\
  defaultDOCARepoTargetFor rocky "latest" = Ok (major_target Platform.el9).
Proof.
  split; [|split; [|reflexivity]].
  - destruct (install_mode_matches_repository (sample_ofed "2.9-LTS") rocky Distro.Rocky Platform.el9 None "5.14")
      as (mode & Hm & Hd & _); [done..|]. exists mode. split; [exact Hm|]. rewrite Hd.
    intros [_ Ht]. vm_compute in Ht. discriminate Ht.
  - destruct (install_mode_matches_repository (sample_ofed "latest") rocky Distro.Rocky Platform.el9 (Some "5.15") "5.14")
      as (mode & Hm & _ & Hpin & _); [done..|]. rewrite Hm. f_equal. apply Hpin. by intros [?|?].
Defined.

Definition two_kernels : list (Z * string) := [(1700000000, "5.14.0-503.el9.x86_64"); (1690000000, "5.14.0-570.el9.x86_64")].
Definition rpm_machine : Machine := {|
  react w _ := (Ok (0, rpm_line <$> two_kernels), (w_files w, w_dirs w));
  scan l := l;
  visit l := l;
  obstacle _ _ := None |}.

Definition rpm_runner : IRunner := Runner (H := rpm_machine) default_options.

Lemma latestInstalledKernelCore_spec_witness :
  exists w', latestInstalledKernelCore rpm_runner sample_world = (Ok "5.14.0-503.el9.x86_64", w') /\
    w' = after_command (H := rpm_machine) sample_world kernel_core_query.
Proof.
  pose proof (latestInstalledKernelCore_spec rpm_runner sample_world
    (after_command (H := rpm_machine) sample_world kernel_core_query) two_kernels) as Hs.
  destruct (latestInstalledKernelCore rpm_runner sample_world) as [r w'] eqn:E.
  vm_compute in E. injection E as <- <-. eexists. split; [reflexivity|].
  apply Hs; [repeat constructor; vm_compute; congruence|vm_compute; reflexivity].
Defined.

(** Every command fails. *)
Definition broken_machine : Machine := {|
  react w _ := (Ok (1, []), (w_files w, w_dirs w));
  scan l := l;
  visit l := l;
  obstacle _ _ := None |}.

Lemma fallback_spec_witness :
  installDocaPrereqsWithFallback (Runner (H := broken_machine) default_options) "false" None sample_world =
    (Throw (check_failed "false"), after_command (H := broken_machine) sample_world "false").
Proof. exact (fallback_spec (H := broken_machine) default_options sample_world "false" None 1 [] eq_refl). Defined.

Definition noble : OS := mkOS (Some Arch.x86_64) (Some Family.Linux) (Some Platform.ubuntu2404) (Some Distro.Ubuntu)
  (Some "6.8") 2404 0.
Definition sample_service (machine : Machine) (os : OS) : OsService.IOSService :=
  match OsService.factory (Runner (H := machine) default_options) os with
  | Ok s => s | _ => OsService.UbuntuOSService (Runner (H := machine) default_options) end.
Definition sample_session : Session := mkSession sample_world RPMRepoManager_default.

Lemma doca_on_ubuntu_witness :
  exists e, Ofed.install (H := sample_machine "6.8") default_options (Runner (H := sample_machine "6.8") default_options) noble
    (sample_service (sample_machine "6.8") noble) None (sample_ofed "latest") sample_session = (Throw e, sample_session).
Proof.
  eexists.
  refine (eq_trans (doca_on_ubuntu (H := sample_machine "6.8") default_options (Runner (H := sample_machine "6.8") default_options)
    noble (sample_service (sample_machine "6.8") noble) None (sample_ofed "latest") sample_session "6.8" _
    eq_refl eq_refl eq_refl eq_refl _) _).
  - vm_compute. reflexivity.
  - vm_compute. reflexivity.
Defined.

(** ** The provisioner *)

Lemma shellSingleQuote_roundtrip_witness :
  exists text, shellSingleQuote "it's" = Ok text /\ shell_word Unquoted (text +:+ " -v") = Some ("it's", " -v").
Proof. apply (shellSingleQuote_roundtrip "it's" " -v"). reflexivity. Defined.

Definition pool_network : Network.Network :=
  Network.put_subnetMask Samples.mask24
    (Network.put_address (Samples.ip 192 168 30 0) (Network.Network_profile Network.Profile.Management)).

Lemma dynamic_range_spec_witness :
  exists first last, defaultDHCPDynamicRangeFor pool_network = Ok (dotted first +:+ "-" +:+ dotted last) /\
    last - first + 1 = 100.
Proof.
  destruct (dynamic_range_spec pool_network (192 * 2 ^ 24 + 168 * 2 ^ 16 + 30 * 2 ^ 8) 24) as (first & last & Hr & _ & _ & _ & Hn);
    [lia|lia|vm_compute; reflexivity|reflexivity|reflexivity|].
  exists first, last. split; [exact Hr|]. rewrite Hn. vm_compute. reflexivity.
Defined.

(** A cluster with one node, of a given operating system *)
Definition management_connection (a : address) : Connection.Connection :=
  Connection.mkConnection _ 0%nat (Some "eth1") (Some "52:54:00:00:20:01") a 1500 "" "".
Definition one_node (os : OS) : Server.Node :=
  Server.mkNode (Server.mkServer "n01" os Server.CPU_default [management_connection (Samples.ip 192 168 30 1)] None "")
    None None None "" (Some "secret").
Definition small_cluster (os : OS) (kind : OFEDKind.t) : ClusterData.Cluster :=
  let head := Server.mkHeadnode _
    (Server.mkServer "head" os Server.CPU_default [management_connection (Samples.ip 192 168 30 254)] None "") BootTarget.Text in
  ClusterData.put_k_headnode head
    (ClusterData.put_k_network [pool_network]
      (ClusterData.put_k_ofed (Some (ClusterData.mkOFED kind "latest"))
        (ClusterData.put_k_computeNodeOS (Some os) (ClusterData.put_k_nodes [one_node os] Samples.sample_cluster)))).

Definition noble_cluster : ClusterData.Cluster := small_cluster noble OFEDKind.Inbox.
Definition noble_image : Image :=
  let image := "ubuntu24.04-x86_64-netboot-compute" in
  (set_chroot "/install/netboot/ubuntu24.04/x86_64/compute/rootimg" (set_osimage image Image_default).2).2.
Definition image_world : World :=
  put_dirs (list_to_set ["/install"; "/install/custom"; "/install/custom/netboot"]) sample_world.
Definition sample_provisioning : Provisioning := mkProvisioning (put_world image_world sample_session) noble_image.
Definition built : outcome unit * Provisioning :=
  build_image (H1 := sample_machine "5.14") default_options (Runner (H := sample_machine "5.14") default_options)
    (sample_service (sample_machine "5.14") noble) noble_cluster Samples.sample_answerfile [] sample_provisioning.

Lemma image_reuse_is_sound_witness :
  built.1 = Ok tt /\
  imageMatchesSelectedQueue noble_cluster "ubuntu24.04-x86_64-netboot-compute" (machine built.2) = (Ok true, machine built.2).
Proof.
  assert (built.1 = Ok tt) as Hb by (vm_compute; reflexivity).
  split; [exact Hb|]. revert Hb.
  apply (image_reuse_is_sound (H1 := sample_machine "5.14") default_options noble_cluster Samples.sample_answerfile noble
    (sample_service (sample_machine "5.14") noble) ImageType.Netboot NodeType.Compute noble_image noble_image []
    sample_provisioning built.2 built.1);
    [reflexivity|reflexivity|vm_compute; reflexivity|reflexivity|by intros w c|vm_compute; reflexivity|reflexivity|].
  unfold built. by destruct (build_image _ _ _ _ _ _ _).
Defined.

Lemma synclists_spec_witness :
  exists w', generateSynclistsFile default_options noble_cluster image_world = (Ok tt, w') /\
    contents w' synclists_file = Some (synclists_text None).
Proof.
  destruct (synclists_spec default_options noble_cluster image_world) as (w' & Hw & Hc & _); [reflexivity|vm_compute; reflexivity|].
  exists w'. by split.
Defined.

Definition probed_os : OS :=
  match ClusterFill.fill_nodeOS Samples.sample_host (system Samples.sample_answerfile) with Ok o => o | _ => rocky end.
Definition probed_node : Server.Node := Server.put_n_server (Server.put_s_os probed_os (Server.n_server (one_node rocky))) (one_node rocky).
Definition probed_cluster : ClusterData.Cluster := ClusterData.put_k_nodes [probed_node] (small_cluster rocky OFEDKind.Doca).

Lemma image_kernel_fits_witness :
  exists plan, infiniband_plan probed_cluster (sample_ofed "latest") "5.14.1" = Ok plan /\ kernelVersion plan = Some "5.14.0".
Proof.
  destruct (image_kernel_fits Samples.sample_host Samples.sample_answerfile probed_cluster Samples.sample_probe probed_os
    probed_node [] (sample_ofed "latest") Platform.el9 "5.14.1") as (plan & drivers & image & Hp & Hd & _ & -> & _); try done.
  exists plan. split; [exact Hp|]. rewrite Hd. reflexivity.
Defined.

Definition dry_provisioning : outcome unit * Provisioning :=
  Xcat.install (H1 := sample_machine "5.14") dry_options (DryRunner (H := sample_machine "5.14") dry_options)
    (OsService.ELOSService (DryRunner (H := sample_machine "5.14") dry_options) rocky) (small_cluster rocky OFEDKind.Inbox) Samples.sample_answerfile
    sample_provisioning.

Lemma dry_run_untouched_witness : dry_provisioning.1 = Ok tt /\ untouched image_world (s_world (p_session dry_provisioning.2)).
Proof.
  split; [vm_compute; reflexivity|].
  apply (dry_run_untouched (H1 := sample_machine "5.14") dry_options
    (OsService.ELOSService (DryRunner (H := sample_machine "5.14") dry_options) rocky) rocky (small_cluster rocky OFEDKind.Inbox)
    Samples.sample_answerfile sample_provisioning dry_provisioning.2 dry_provisioning.1);
    [reflexivity|by intros|reflexivity|].
  unfold dry_provisioning. by destruct (Xcat.install _ _ _ _ _ _).
Defined.
