(* ===== verification/InstallWitnesses.v ===== *)
(** * Drafts and installations of the sample site

    The theorems on drafts, the Confluent provisioner, the roles and the
    engines, applied to the sample site. *)

From stdpp Require Import base strings list gmap.
From Stdlib Require Import ZArith Lia Ascii.
From S2P Require Import Prelude CppString External Instances Enums KeyFile World WorldFacts RepoFileSpec.
From S2P Require Import AnswerFile AnswerFileDump AnswerFileValidation AnswerFileWrites AnswerFileReads AnswerFileRoundtrip.
From S2P Require Import Cluster ClusterFill ClusterDump TuiSession TuiSessionSpec Samples Witnesses ServiceWitnesses.
From S2P Require Import Prelude CppString External Instances Enums Options Os World Runner.
From S2P Require Import AnswerFileData FileOps RepoManager RepoData OfedSpec XcatFrame ConfluentSpec Role RoleScripts Ansible AnsibleDrySpec AnsibleSpec ClusterFill TuiSession Samples ServiceWitnesses ProvisionWitnesses.
From S2P Require OsService Confluent ClusterData Server.

Local Open Scope Z_scope.

(** ** Drafts *)

(** The dialogues before any node is entered. *)
Definition draft_cluster : Cluster := put_k_nodes [] sample_filled.
Definition draft_steps : list string := ["general"; "time"; "network"].

Definition draft_external : AFNetwork := put_nw_con_mac_addr (Some "00:0c:29:9b:0c:76") sample_external.
Definition draft_answerfile : AnswerFile :=
  put_af_keyfile (mkKeyFile sample_path gkf_create)
    (put_external draft_external
      (put_time (put_tm_timeserver "" (time sample_answerfile))
        (put_system (put_sy_kernel (Some "5.14.0") (system sample_answerfile))
          (put_nodes (mkAFNodes (Some sample_generic) []) sample_answerfile)))).

Lemma draft_dumped : dumped draft_cluster sample_path = Ok draft_answerfile.
Proof. exact (eq_refl (Ok draft_answerfile) <: dumped draft_cluster sample_path = Ok draft_answerfile). Qed.

Lemma draft_canonical : AnswerFileRoundtrip.canonical draft_answerfile.
Proof.
  destruct sample_canonical. split; try done.
  - split; [by eexists|by eexists|by intros m [= <-]|by intros i m g [= <-] [= <-] [= <-]|
     intros ns [= <-]; split; [done|repeat constructor]].
  - split; [constructor|split; constructor].
Qed.

Definition draft_world : World := mkWorld ∅ (list_to_set ["/"; "/root"]) [] [] None.

#[local] Instance storable_write_dec w : Decision (storable_write w).
Proof. unfold storable_write. apply _. Defined.

Lemma draft_roundtrip_witness :
  exists k w',
    writeDraft draft_cluster sample_path draft_steps false draft_world = (Ok tt, w') /\
    loadDraftState sample_path w' = (Ok (mkDraft true draft_steps (Some "network")), w') /\
    AnswerFile_make false (contents w') sample_path true = Ok (put_af_keyfile k draft_answerfile).
Proof.
  destruct (draft_roundtrip (A := asio_impl) draft_cluster sample_path draft_steps false false draft_world
    draft_answerfile Distro.Rocky) as (k & w' & Hw & Hl & _ & Ha).
  - vm_compute. reflexivity.
  - exact draft_dumped.
  - reflexivity.
  - apply (bool_decide_unpack _). vm_compute. exact I.
  - split; [repeat constructor..|]; vm_compute; reflexivity.
  - exists k, w'. split; [exact Hw|]. split; [exact Hl|]. exact (Ha draft_canonical).
Defined.

(** The draft of the filled cluster, resumed on a new one *)
Definition saved_draft : World :=
  (writeDraft sample_filled sample_path draft_steps false (put_dirs ({["/root"]} ∪ w_dirs iso_world) iso_world)).2.
Definition resumed_cluster : Cluster := (applyDraftToModel sample_host sample_path (sample_cluster, saved_draft)).2.1.

Lemma resuming_extends_witness :
  kept sample_cluster resumed_cluster /\ sound resumed_cluster /\
  Network.m_profile <$> k_network resumed_cluster =
    [Network.Profile.External; Network.Profile.Management; Network.Profile.Service] /\
  Connection.m_network <$> head_connections resumed_cluster = [0; 1; 2]%nat /\ length (k_nodes resumed_cluster) = 2%nat.
Proof.
  destruct (resuming_extends sample_host sample_path saved_draft sample_cluster) as [Hk Hs].
  split; [exact Hk|]. split; [apply Hs; split; constructor|].
  split_and!; vm_compute; reflexivity.
Defined.

(** ** Confluent *)

#[local] Existing Instance asio_impl.

Definition confluent_cluster : ClusterData.Cluster :=
  ClusterData.put_k_queueSystem (Some Server.PBS_make)
    (small_cluster rocky OFEDKind.Inbox).
Definition confluent_installed : outcome unit * World :=
  Confluent.install (H0 := sample_machine "5.14") default_options (sample_service (sample_machine "5.14") rocky)
    confluent_cluster sample_answerfile sample_world.

Lemma confluent_installation_witness :
  confluent_installed.1 = Ok tt /\
  match (image ← Confluent.buildConfluentImageName (Confluent.computeOS confluent_cluster);
         fields ← Confluent.script_fields default_options confluent_cluster sample_answerfile image
           (image_kernel confluent_cluster sample_answerfile "5.14");
         Ok (image, fields)) with
  | Ok (image, fields) =>
      ran (H := sample_machine "5.14") default_options (steps confluent_cluster image fields)
        (after_command (H := sample_machine "5.14") sample_world "uname -r") (Ok tt) confluent_installed.2
  | Throw e => Ok tt = Throw e /\ confluent_installed.2 = after_command (H := sample_machine "5.14") sample_world "uname -r"
  | UB => Ok tt = UB /\ confluent_installed.2 = after_command (H := sample_machine "5.14") sample_world "uname -r"
  end.
Proof.
  assert (confluent_installed.1 = Ok tt) as Hr by (vm_compute; reflexivity). split; [exact Hr|].
  apply (confluent_installation (H0 := sample_machine "5.14") default_options
    (sample_service (sample_machine "5.14") rocky) confluent_cluster sample_answerfile "5.14" sample_world
    (after_command (H := sample_machine "5.14") sample_world "uname -r") confluent_installed.2 (Ok tt) eq_refl eq_refl).
  rewrite <- Hr. apply surjective_pairing.
Defined.

Lemma configured_kernel_ignored_witness :
  Confluent.install (H0 := sample_machine "5.14") default_options (sample_service (sample_machine "5.14") rocky)
    confluent_cluster (put_system (put_sy_kernel (Some "6.1") (system sample_answerfile)) sample_answerfile) sample_world
  = confluent_installed.
Proof. apply (configured_kernel_ignored (H0 := sample_machine "5.14")). by left. Defined.

Definition made {X} (x : X) (o : outcome X) : X := match o with Ok y => y | _ => x end.
Definition confluent_image : string := made "" (Confluent.buildConfluentImageName (Confluent.computeOS confluent_cluster)).
Definition confluent_fields : Confluent.Fields :=
  made (Confluent.mkFields "" "" "" "" "" "" "" "" "" "" "" "" "" "" "" "" "")
    (Confluent.script_fields default_options confluent_cluster sample_answerfile confluent_image
       (image_kernel confluent_cluster sample_answerfile "5.14")).
Definition confluent_steps : list string := made "" <$> steps confluent_cluster confluent_image confluent_fields.

Lemma confluent_completes_witness :
  length confluent_steps = 6%nat /\
  exists w', confluent_installed = (Ok tt, w') /\
    w_trace w' = Spawn "uname -r" :: (started <$> confluent_steps).
Proof.
  split; [vm_compute; reflexivity|].
  apply (confluent_completes (H0 := sample_machine "5.14") default_options (sample_service (sample_machine "5.14") rocky)
    confluent_cluster sample_answerfile "5.14" confluent_image confluent_fields confluent_steps sample_world
    (after_command (H := sample_machine "5.14") sample_world "uname -r")); [reflexivity|reflexivity|by intros; eexists|..].
  all: match goal with |- ?a = ?b => exact (eq_refl b <: a = b) end.
Defined.

(** ** Roles *)

#[local] Existing Instance text_impl.
#[local] Existing Instance keyfile_impl.

Definition dry_installation (provisioner : string) : outcome unit * Session :=
  executionEngine (H1 := sample_machine "5.14") dry_options
    (Runner.DryRunner (H := sample_machine "5.14") dry_options)
    (OsService.ELOSService (Runner.DryRunner (H := sample_machine "5.14") dry_options) rocky)
    (small_cluster rocky OFEDKind.Inbox)
    (put_system (put_sy_provisioner provisioner (system sample_answerfile)) sample_answerfile)
    [] (RepoConfig.mkPlace "" None) "now" "/root" sample_session.

Lemma dry_installation_untouched_witness :
  (dry_installation "confluent").1 = Ok tt /\ (dry_installation "xcat").1 = Ok tt /\
  untouched_but opened_file sample_world (s_world (dry_installation "confluent").2).
Proof.
  split; [vm_compute; reflexivity|]. split; [vm_compute; reflexivity|].
  apply (dry_installation_untouched (H1 := sample_machine "5.14") dry_options
    (OsService.ELOSService (Runner.DryRunner (H := sample_machine "5.14") dry_options) rocky) rocky
    (small_cluster rocky OFEDKind.Inbox)
    (put_system (put_sy_provisioner "confluent" (system sample_answerfile)) sample_answerfile)
    [] (RepoConfig.mkPlace "" None) "now" "/root" sample_session (dry_installation "confluent").2
    (dry_installation "confluent").1); [reflexivity|by intros|reflexivity|apply surjective_pairing].
Defined.

Lemma role_text_roundtrip_witness :
  parseRoleString "Base:base_packages=vim,level=a=b" =
    Ok (Role_make Roles.BASE ∅ (assigned [("base_packages", "vim"); ("level", "a=b")] ∅) (Some None)) /\
  parseRoleString "Base:base_packages=vim,level=a=b,level" = Throw bad_variable.
Proof.
  destruct (role_text_roundtrip Roles.BASE "Base" [("base_packages", "vim"); ("level", "a=b")]) as [Hok Hbad];
    [reflexivity|reflexivity|]. split; [exact Hok|].
  apply (Hbad "level" []); [reflexivity|reflexivity|constructor|]. by intros [|[] [|[] [|[] [|[] [|[] [|[] k]]]]]] v.
Defined.

Lemma parsed_role_never_runs_witness :
  exists r, parseRoleString "base" = Ok r /\
    run (H1 := sample_machine "5.14") default_options (Runner.Runner (H := sample_machine "5.14") default_options)
      (sample_service (sample_machine "5.14") rocky) confluent_cluster sample_answerfile [] (RepoConfig.mkPlace "" None)
      "now" "/root" r rocky sample_session = (Throw BadFunctionCall, sample_session).
Proof.
  eexists. split; [reflexivity|]. by apply (parsed_role_never_runs (H1 := sample_machine "5.14") _ _ _ _ _ _ _ _ _ "base").
Defined.

Lemma resolved_packages_spec_witness :
  exists packages, Ohpc.resolvePackages rocky (Some ["intel-oneapi"]) ∅ = Ok packages /\
    "intel-mpi-devel-ohpc" ∈ packages.
Proof.
  destruct (proj2 (resolved_packages_spec rocky Platform.el9 (Some ["intel-oneapi"]) ∅ eq_refl) eq_refl)
    as (defaults & packages & _ & Hr & Hp & _).
  exists packages. split; [exact Hr|]. apply Hp. right. exists "intel-oneapi", Ohpc.oneapi_packages.
  split_and!; [by constructor|reflexivity|by vm_compute].
Defined.

Definition bigger_node : AFNode :=
  mkAFNode None None (Some (ip 192 168 30 1)) (Some "n01") (Some "secret") (Some "52:54:00:00:20:01")
    (Some "8") (Some "16") (Some "4") (Some "512") (Some "1048576") None None None None None.
Lemma slurm_ignores_node_settings_witness :
  Slurm.scripts (put_nodes (mkAFNodes (Some sample_generic) [bigger_node]) sample_answerfile) rocky =
  Slurm.scripts (put_nodes (mkAFNodes (Some sample_generic) [sample_node]) sample_answerfile) rocky.
Proof. apply slurm_ignores_node_settings. reflexivity. Defined.
