(* ===== verification/DialogueWitnesses.v ===== *)
(** * Dialogues on the sample site

    The theorems on the dialogues, the program and the services of the head
    node, applied to short conversations. *)

From stdpp Require Import base strings list gmap.
From Stdlib Require Import ZArith Lia Ascii.
From S2P Require Import Prelude CppString External Instances Enums Options World Cluster ClusterFill.
From S2P Require Import KeyFile Daemons View ViewSpec Presenters PresenterNetwork PresenterNodes PresenterInstall PresenterSpec Main QuestionnaireSpec.
From S2P Require Import Samples ServiceWitnesses ProvisionWitnesses.
From S2P Require Network Connection TuiSessionSpec Os OsService Runner Timezone Ansible RepoConfig Server Witnesses.

Local Open Scope Z_scope.

Definition pressed (value : Z) (texts : list string) (selector : Z) : Reply := mkReply value texts selector ButtonOk None [].
Definition picked (i : nat) : Reply := mkReply 0 [] 0 ButtonOk (Some i) [].
Definition talk (replies : list Reply) : Operator := mkOperator replies [] 80 25.
Definition desk (model : Cluster) (replies : list Reply) : Desk := mkDesk _ model sample_world (talk replies) [].

(** ** Views *)

Lemma fieldMenu_spec_witness :
  (fieldMenu "" "" [("Name", "")] "" (talk [pressed 1 ["n01"] 0])).1 = Ok [("Name", "n01")] /\
  wp (fieldMenu "" "" [("Name", "")] "") (fun out _ => filled [("Name", "")] out) (fun e _ => left_dialogue e)
    (talk [pressed 1 [""] 0; pressed 1 ["n01"] 0]) /\
  (fieldMenu "" "" [("A label that says in far too many words what to enter", "")] "" (talk [pressed 1 [""] 0])).1 = UB.
Proof.
  split; [reflexivity|]. split.
  - apply (proj1 (fieldMenu_spec "" "" [("Name", "")] "" (talk [pressed 1 [""] 0; pressed 1 ["n01"] 0]))).
    repeat constructor; cbn; lia.
  - apply (proj2 (fieldMenu_spec "" "" [("A label that says in far too many words what to enter", "")] ""
      (talk [pressed 1 [""] 0])) "A label that says in far too many words what to enter" (pressed 1 [""] 0) []);
      try reflexivity. unfold label_fits. cbn. lia.
Defined.

(** The time servers: the one there is can be removed, and then the button
    once more. *)
Lemma collect_remove_witness :
  collectListMenu "" "" ["0.br.pool.ntp.org"] "" add_timeserver (talk [pressed 5 [] 0; pressed 5 [] 0]) =
    collectListMenu "" "" [] "" add_timeserver (talk [pressed 5 [] 0]) /\
  (collectListMenu "" "" [] "" add_timeserver (talk [pressed 5 [] 0])).1 = UB.
Proof.
  split.
  - exact (collect_remove "" "" ["0.br.pool.ntp.org"] "" add_timeserver (pressed 5 [] 0) [pressed 5 [] 0]
      (talk [pressed 5 [] 0; pressed 5 [] 0]) eq_refl eq_refl ltac:(split; cbn; lia)).
  - exact (f_equal fst (collect_remove "" "" [] "" add_timeserver (pressed 5 [] 0) [] (talk [pressed 5 [] 0])
      eq_refl eq_refl ltac:(split; cbn; lia))).
Defined.

Definition short_line : string := "  Gateway   192.168.30.1 of the management network".

Lemma wrapLine_spec_witness :
  wrapLine short_line 24 = Some ("  Gateway   192.168.30.1" +:+ nl +:+ "    of the management" +:+ nl +:+ "    network") /\
  exists out, wrapLine short_line 24 = Some out /\
    Forall (fun l => (String.length l <= 24)%nat) (split_lines out) /\ visible out = visible short_line.
Proof.
  split; [reflexivity|]. apply (wrapLine_spec short_line 24); [cbn; lia|reflexivity|reflexivity].
Defined.

Definition long_path : string := "/srv/installation/images/rocky/9.6/x86_64/isos/Rocky-9.6-x86_64-dvd.iso".

Lemma long_word_never_returns_witness :
  scrollableMessage "" "" ("ISO and OS     Rocky 9.6 from " +:+ long_path) "" (talk []) = (Throw NoReturn, talk []).
Proof.
  apply (long_word_never_returns "" "" "" ("ISO and OS     Rocky 9.6 from " +:+ long_path) 0
    "ISO and OS     Rocky 9.6 from" long_path "" (talk [])); try reflexivity; try discriminate;
    try (vm_compute; lia).
  by intros c t' [= <- _].
Defined.

(** ** Presenters *)

Lemma run_of {S A} (r : outcome A * S) (a : A) : r.1 = Ok a -> r = (Ok a, r.2).
Proof. destruct r. cbn. by intros ->. Qed.

Lemma ok_of {S A} (r : outcome A * S) (d : A) : is_ok r.1 = true -> r.1 = Ok (match r.1 with Ok a => a | _ => d end).
Proof. by destruct r as [[a|e|] s]. Qed.

Definition network_talk : list Reply :=
  [picked 0; pressed 1 ["172.16.144.50"; "255.255.255.0"; "172.16.144.1"; "example.com"; "1.1.1.1"] 0;
   picked 0; pressed 1 ["192.168.30.254"; "255.255.255.0"; "192.168.30.1"; "cluster"; "1.1.1.1"] 0;
   pressed 2 [] 0].
Definition collected : outcome NetworkCreator * Desk := collectNetworks sample_host (desk sample_cluster network_talk).
Definition collected_list : NetworkCreator := match collected.1 with Ok nc => nc | _ => [] end.

Lemma collected_networks_witness : length collected_list = 2%nat /\ legal collected_list.
Proof.
  assert (collected.1 = Ok collected_list) as Hc by exact (ok_of collected [] eq_refl).
  split; [vm_compute; reflexivity|].
  pose proof (collected_networks sample_host) as Hall. unfold returns in Hall.
  pose proof (Hall (desk sample_cluster network_talk) collected_list collected.2) as Hlegal.
  pose proof (run_of collected collected_list Hc) as Hrun. pose proof (Hlegal Hrun) as Hl. exact Hl.
Defined.

(** The management network entered a second time, with another address *)
Definition second_thoughts : NetworkCreator :=
  [mkCreatorData Network.Profile.Management Network.NetType.Ethernet "eth1" "192.168.40.254" "255.255.255.0"
     "192.168.40.1" "cluster" []].
Definition corrected : outcome unit * Cluster := saveNetworksToModel sample_host second_thoughts sample_filled.
Definition found (model : Cluster) : outcome Z :=
  p ← getNetwork Network.Profile.Management model; Ok (to_uint (Network.m_address (networks model p))).

Lemma saved_networks_witness :
  corrected.1 = Ok tt /\ found sample_filled = Ok 0xC0A81E00 /\ found corrected.2 = Ok 0xC0A81E00 /\
  Network.m_profile <$> k_network corrected.2 =
    (Network.m_profile <$> k_network sample_filled) ++ [Network.Profile.Management] /\
  Connection.m_network <$> TuiSessionSpec.head_connections corrected.2 =
    (Connection.m_network <$> TuiSessionSpec.head_connections sample_filled) ++ [3%nat].
Proof.
  assert (corrected.1 = Ok tt) as Hc by (vm_compute; reflexivity).
  split; [exact Hc|]. split; [vm_compute; reflexivity|]. split; [vm_compute; reflexivity|].
  destruct (saved_networks sample_host second_thoughts sample_filled) as (saved & nets & conns & _ & Hall & Hk & Hp & Hh & Hx & _).
  rewrite (Hall Hc) in Hp. fold corrected in Hk, Hh.
  assert (length nets = 1%nat) as Hlen by (apply (f_equal length) in Hp; by rewrite !length_fmap in Hp).
  rewrite Hk, Hh, !fmap_app, Hp, Hx, Hlen. split; vm_compute; reflexivity.
Defined.

Definition management : outcome Connection.Connection :=
  getConnection (networks sample_filled) (h_server (k_headnode sample_filled)) Network.Profile.Management.
Definition management_connection : Connection.Connection :=
  match management with Ok x => x | _ => Connection.Connection_init 0%nat end.
Definition management_pointer : Connection.NetworkPtr :=
  match getNetwork Network.Profile.Management sample_filled with Ok p => p | _ => 0%nat end.

Lemma suggestAddress_spec_witness :
  exists r, suggestAddressForProfile sample_filled Network.Profile.Management [101; 1; 11; 2] = Ok r /\
    match r with
    | Some a => free_address (networks sample_filled management_pointer) management_connection 24 a
    | None => forall a, ~ free_address (networks sample_filled management_pointer) management_connection 24 a
    end.
Proof.
  apply (suggestAddress_spec sample_filled Network.Profile.Management [101; 1; 11; 2] management_pointer
    management_connection 24).
  - vm_compute. reflexivity.
  - exact (ok_of (management, tt) (Connection.Connection_init 0%nat) eq_refl).
  - lia.
  - apply (bool_decide_unpack _). vm_compute. exact I.
  - vm_compute. reflexivity.
  - vm_compute. reflexivity.
  - vm_compute. reflexivity.
  - repeat constructor; lia.
Defined.

Definition dialogue_cluster : Cluster :=
  put_k_leftovers (put_nodeQuantity 2 (k_leftovers sample_filled)) (put_k_nodes [] sample_filled).
Definition node_talk : list Reply :=
  [pressed 1 ["no address"; ""] 0; pressed 1 ["52:54:00:00:20:01"; ""] 0; pressed 1 ["52:54:00:00:20:02"; ""] 0].
Definition nodes_run : outcome unit * Desk :=
  forever (ask_nodes sample_os CPU_default management_pointer None) 1 (desk dialogue_cluster node_talk).

Lemma nodes_entered_witness :
  nodes_run.1 = Ok tt /\
  nodes_added sample_os management_pointer dialogue_cluster (d_model nodes_run.2) 2.
Proof.
  assert (nodes_run.1 = Ok tt) as Hr by (vm_compute; reflexivity). split; [exact Hr|].
  pose proof (nodes_entered sample_os CPU_default management_pointer None (desk dialogue_cluster node_talk)
    dialogue_cluster eq_refl ltac:(vm_compute; split; reflexivity)) as He.
  unfold ends in He. fold nodes_run in He. destruct nodes_run as [[[]|e|] d']; [exact He|discriminate Hr..].
Defined.

Lemma iso_name_roundtrip_witness :
  OperationalSystem.inferVersionComboFromIso Os.Distro.Rocky "Rocky-9.6-x86_64-dvd.iso" = Ok (Some (9, 6, Os.Arch.x86_64)) /\
  OperationalSystem.inferVersionComboFromIso Os.Distro.OL "OracleLinux-R10-U0-ppc64le-dvd.iso" =
    Ok (Some (10, 0, Os.Arch.ppc64le)).
Proof.
  split.
  - apply (iso_name_roundtrip Os.Distro.Rocky 9 6 Os.Arch.x86_64); [lia|lia|discriminate].
  - apply (iso_name_roundtrip Os.Distro.OL 10 0 Os.Arch.ppc64le); [lia|lia|discriminate].
Defined.

(** ** The program *)

Definition asking_options : Options :=
  match default_options with
  | mkOptions a b c d e f g h i j k l m n o p q r _ t u v w x y z a1 a2 a3 a4 a5 =>
      mkOptions a b c d e f g h i j k l m n o p q r sample_path t u v w x y z a1 a2 a3 a4 a5
  end.
(** The answer file and the image it names, not yet looked at *)
Definition asking_world : World :=
  put_file sample_path (toData Witnesses.sample_keyfile) (put_dirs ({["/root"]} ∪ w_dirs iso_world) iso_world).
Definition asking_app : App :=
  mkApp _ (with_world asking_world (desk sample_cluster [])) ("perhaps" +:+ nl +:+ "n" +:+ nl) [].
Definition declined_run : outcome Z * App :=
  main (H4 := sample_machine "") true (Ok sample_cluster) sample_host [] (RepoConfig.mkPlace "" None) (fun i => i) (fun i => i)
    "/tmp/answers" "now" "/root" asking_options asking_app.

Lemma declining_only_caches_witness :
  only_cached asking_options asking_world (d_world (a_desk declined_run.2)) /\ declined_run.1 = Ok EXIT_SUCCESS /\
  contents (d_world (a_desk declined_run.2)) "/opt/iso/Rocky-9.5-x86_64-dvd.iso.checksum" = Some "image".
Proof.
  split; [|split; vm_compute; reflexivity].
  apply (declining_only_caches (H4 := sample_machine "") true (Ok sample_cluster) sample_host [] (RepoConfig.mkPlace "" None)
    (fun i => i) (fun i => i) "/tmp/answers" "now" "/root" asking_options asking_app "").
  - split; [discriminate|reflexivity..].
  - reflexivity.
Defined.

Lemma confirmation_ends_witness :
  exists answer, confirm_loop 12 ("perhaps" +:+ nl +:+ "n" +:+ nl) = Some answer /\ answer.1 = false.
Proof.
  destruct (confirmation_ends ("perhaps" +:+ nl +:+ "n" +:+ nl)) as [answer Hall].
  exists answer. pose proof (Hall 12%nat ltac:(vm_compute; lia)) as Hr. split; [exact Hr|].
  vm_compute in Hr. by injection Hr as <-.
Defined.

(** The same run, on a desk that held no cluster of the program's *)
Definition made_run : outcome Z * App :=
  main (H4 := sample_machine "") true (Cluster_make (Ok sample_headnode) (Ok sample_timezone)) sample_host []
    (RepoConfig.mkPlace "" None) (fun i => i) (fun i => i) "/tmp/answers" "now" "/root" asking_options asking_app.
Definition made_cluster : Cluster := d_model (a_desk made_run.2).

#[local] Instance bare_machine : Machine := sample_machine "".

Lemma never_secured_witness :
  length (k_network made_cluster) = 3%nat /\
  Ansible.firewall_run default_options (Runner.Runner default_options)
    (OsService.ELOSService (Runner.Runner default_options) rocky) made_cluster sample_world =
    (_ ← OsService.disableService (OsService.ELOSService (Runner.Runner default_options) rocky)
           "firewalld"; skip) sample_world /\
  Ansible.selinux_run default_options (Runner.Runner default_options) made_cluster "now" sample_world =
    Ansible.disableSELinux default_options (Runner.Runner default_options) "now" sample_world.
Proof.
  split; [vm_compute; reflexivity|].
  destruct (never_secured true (Ok sample_headnode) (Ok sample_timezone) sample_host []
    (RepoConfig.mkPlace "" None) (fun i => i) (fun i => i) "/tmp/answers" "now" "/root" asking_options asking_app)
    as [_ [Hsame|(_ & _ & Hroles)]].
  - exfalso. apply (f_equal (fun c => length (k_network c))) in Hsame. vm_compute in Hsame. discriminate Hsame.
  - apply Hroles. vm_compute. reflexivity.
Defined.

Definition temporary : string := "/tmp/opencattus-tui-a1b2c3".
Definition answering_desk : Desk := with_world (put_dirs ({["/tmp"]} ∪ w_dirs sample_world) sample_world) (desk sample_filled []).
Definition answering_run := generateAnswerfileFromTuiModel asking_options temporary answering_desk.

Lemma answers_leave_no_file_witness :
  is_ok answering_run.1 = true /\ answering_run.2 = answering_desk.
Proof.
  assert (is_ok answering_run.1 = true) as Hok by (vm_compute; reflexivity). split; [exact Hok|].
  apply (answers_leave_no_file asking_options temporary answering_desk).
  - vm_compute. reflexivity.
  - vm_compute. reflexivity.
  - fold answering_run. split; intros He; rewrite He in Hok; discriminate Hok.
Defined.

(** ** Services *)

(** A key file of this implementation refuses an entry before a group. *)
Lemma foldl_refused lines : foldl kf_line None lines = None.
Proof. by induction lines. Qed.

Lemma groupless_refused lines :
  match head (filter (fun l => Is_true (significant l)) lines) with Some (String c _) => is_lower c | _ => false end = true ->
  foldl kf_line (Some ([], None)) lines = None.
Proof.
  induction lines as [|l lines IH]; [done|]. rewrite filter_cons. cbn [foldl].
  destruct l as [|c l]; [exact IH|]. destruct (Ascii.eqb_spec c "#") as [->|Hc]; [exact IH|].
  assert (significant (String c l) = true) as -> by (revert Hc; clear; destruct c as [[] [] [] [] [] [] [] []]; cbn; congruence).
  rewrite decide_True by done. cbn [head]. intros Hl.
  assert (kf_line (Some ([], None)) (String c l) = None) as ->; [|apply foldl_refused].
  revert Hl. clear. destruct c as [[] [] [] [] [] [] [] []]; try discriminate; intros _; cbn; by destruct (find_first _ l).
Qed.

#[export] Instance keyfile_strict : GKeyFileStrict keyfile_impl.
Proof. constructor. intros text Ht. cbn. by rewrite (groupless_refused (getlines "010" text)). Qed.

Definition slurm_run : outcome unit * World :=
  SlurmServer.configureServer default_options sample_cluster Server.SLURM_make sample_world.

Lemma configureServer_writes_witness :
  contents slurm_run.2 SlurmServer.configurationFile = Some (SlurmServer.conf sample_cluster Server.SLURM_make).
Proof. apply configureServer_writes; [reflexivity|]. vm_compute. reflexivity. Defined.
